(* ===== verification/_CoqProject ===== *)
-Q . S2P
Prelude.v
Program.v
Crc.v
DateTime.v
Fifo.v
DlList.v
Event.v
Frame.v
Strings.v
CText.v
Guid.v
Filter.v
Canal.v
EventString.v
Json.v
EventJson.v
EventXml.v
Measure.v
Doubles.v
FloatMeasure.v
Mqtt.v
Aes.v
Crypt.v
Client.v
RegIo.v
RegPage.v
BootDevice.v
BootVscp.v
BootPic1.v
VscpDateTime.v
Base64.v
BinaryProtocol.v
Endpoint.v
DatagramConfig.v
OpenSocket.v
Datagram.v
Lifecycle.v
TcpTransport.v
TcpReader.v
TcpIf.v
TcpBinary.v
TcpCmd.v
TcpExchange.v
TcpClient.v
TcpDemux.v
TcpConnect.v
TcpRegister.v
TcpSession.v
TcpNode.v
