(* ===== verification/Prelude.v ===== *)
(** * A verification of the VSCP common library

    VSCP (the Very Simple Control Protocol) carries events between small nodes
    (CAN frames of eight bytes), level II nodes (events of up to 512 bytes), and
    programs.  The library under src/src/vscp/common and src/src/common turns
    events into bytes and text and back for every transport, and configures nodes
    and loads firmware into them over a client: this development models that core
    and proves what the programs rely on.  The first half is
    src/src/vscp/common/vscphelper.cpp, the second the classes around it.

    ** The parts

    - [Prelude]: machine integers as [Z] with their wrap-around written out,
      byte buffers with checked reads and writes, big-endian fields.
    - [Program]: how a call ends, and the monad of the functions that act on a
      world, with its laws.
    - [Crc]: crc.c ([crcSlow], [crcFast] and its table, CRC_CCITT build),
      crc8.c, vscp_calcCRC4GUIDArray.
    - [DateTime]: days_from_civil, civil_from_days, vscp_to_unix_ns and
      vscp_from_unix_ns; the C library's timegm and gmtime.
    - [Fifo]: the ring buffer of src/src/common/fifo.c.
    - [DlList]: the doubly linked list of src/src/common/dllist.c.
    - [Event]: vscpEvent and vscpEventEx of vscp.h, with the union of their time
      block, and the functions on header fields, CAN identifiers, conversion,
      copy, creation, checksum and time.
    - [Frame]: the binary frames of the UDP, multicast, TCP and MQTT transports
      (vscp_writeEventToFrame, vscp_getEventFromFrame, command and reply frames).
    - [Strings]: trimming, splitting, numbers, data as text, hex strings.
    - [CText]: the functions on C strings; addresses, ports and networks as text.
    - [Guid]: class cguid (guid.cpp, guid.h), vscp-guid-parser.c and the GUID
      functions of vscphelper.cpp.
    - [Filter]: the level II filter and its text form.
    - [Canal]: canalMsg (canal.h) and the conversions between CAN frames and
      events.
    - [EventString]: events as comma-separated text, date strings, topics.
    - [Json], [EventJson], [EventXml]: JSON values and the text of an object; events
      and filters as JSON; events and filters as XML, and events as HTML.
    - [Measure], [Doubles], [FloatMeasure]: the data coding of measurement events,
      their values as text and as double, and the events that hold numbers.
    - [Mqtt]: vscp-client-mqtt.cpp: publishing events, the handler of messages, the
      queue and its semaphore.
    - [Aes]: vscp-aes.c, the block cipher and its ECB and CBC modes.
    - [Crypt]: encrypted frames of vscphelper.cpp: version 0 with vscp-aes.c or
      OpenSSL, version 1 with OpenSSL and an HMAC.
    - [Client]: the interface of vscp-client-base.h to the functions below.
    - [RegIo]: the functions of register.cpp that read and write registers of a
      node and search for nodes.
    - [RegPage]: the classes of register.h: pages with undo and redo, standard
      registers, user registers, remote variables, the decision matrix.
    - [BootDevice]: vscp-bootdevice.cpp: firmware from Intel hex files, address
      ranges and memory images.
    - [BootVscp]: vscp-bootdevice-vscp.cpp, the download of firmware to a node.
    - [BootPic1]: vscp-bootdevice-pic1.cpp, the same for the PIC1 boot loader.
    - [VscpDateTime]: the class vscpdatetime.
    - [Base64]: vscpbase64.c and the functions of vscphelper.cpp over it.
    - [BinaryProtocol]: vscp-binary-protocol.h, frames with a header, encrypted and
      authenticated, for streams and datagrams.
    - [Endpoint], [DatagramConfig], [OpenSocket], [Datagram], [Lifecycle]: the UDP and
      multicast clients (vscp-client-datagram.h, vscp-client-udp.cpp,
      vscp-client-multicast.cpp): destinations as text; the settings and their JSON
      form; resolving the destination and opening the socket with its options;
      sending, the receive loop of the worker thread and the queue; connect and
      disconnect.
    - [TcpTransport], [TcpReader], [TcpIf], [TcpCmd], [TcpRegister]: the TCP client
      of vscpremotetcpif.cpp: its transport over a socket, plain or with TLS; the
      reader thread of the single-channel receive loop; the object, replies in text
      mode and frames in binary mode; the commands (doCmd...); and the register
      functions over the commands.
    - [TcpBinary], [TcpExchange], [TcpSession], [TcpNode]: what frames, events and
      commands achieve between two clients, and with a server; registers of a node
      through the client and a server.
    - [TcpClient], [TcpDemux], [TcpConnect]: vscp-client-tcp.cpp over [TcpIf] and
      [TcpCmd]: the members under its mutex and the worker thread of the binary mode;
      all interleavings of the workers and of the application's threads; connect,
      disconnect and the other calls, and the worker of the single-channel text mode.

    The files depend on each other the way the functions call each other: a
    frame ([Frame]) is an event ([Event]) with a checksum ([Crc]) and a time
    ([DateTime]); an event string ([EventString]) is made of numbers and data
    ([Strings]) and a GUID ([Guid]); filters are read with both.  An encrypted
    frame ([Crypt]) is a frame behind a cipher: the class [Crypt.FrameCipher]
    states what the frame functions need of one, the theorems on frames are
    proved from it, and it has an instance for [Aes] and one for OpenSSL.
    OpenSSL is not part of the repository: its cipher, its HMAC and its random
    bytes are parameters, and [Crypt.EvpLaws] and [Crypt.HmacLaws] are what the
    code relies on (decryption inverts encryption and keeps the length, a digest
    has 32 bytes).  [Crypt.own_cipher] and [Crypt.own_hmac] show that the laws
    can hold.

    The register functions and the boot loaders talk to a node through a client.
    The classes [Client.VscpClient] and [Client.CanalClient] have the virtual
    functions of CVscpClient they call and the clocks; the functions are written in
    a state monad over the unknown world behind the client, whose outcomes
    ([Program.outcome]) are a result, an exception, undefined behaviour and running
    out of fuel.  What a theorem needs of the world is a class of laws:
    [BootVscp.ClockLaws], [RegIo.MsClockLaws] and [BootPic1.CanalClock] say that a
    clock advances, [RegIo.RegisterNode], [BootVscp.BootNode] and [BootPic1.PicNode]
    how a node of the protocol answers; each has an instance, a sample node.
    [RegPage] and [BootPic1] call [RegIo] for the registers of the node.

    The TCP client is in layers.  [TcpTransport.System] is what the operating
    system and OpenSSL do, with [TcpTransport.SystemLaws]; struct Transport is
    modelled over it and is an instance of the interface
    [TcpTransport.TcpTransport], whose promises, [TcpTransport.StreamLaws], are
    proved of it and are what the theorems on frames and lines use.  [TcpIf] and
    [TcpCmd] act on the world behind that interface and the object.  The second
    thread is the reader of [TcpReader], a state machine whose steps (one access to
    the shared state or one read each) happen between those of the application;
    [TcpTransport.scheduled] says how many, and [TcpReader.moves] is the relation
    of all interleavings, in which the ghost state of [TcpReader.run] records the
    lines that came and the events that were given.  [TcpSession.TextServer] says
    how a server with a state answers commands in chunks of bytes, and
    [TcpRegister.TcpCommands] is what the register functions call.
    [TcpRegister.RegisterBus] states what those commands promise about the nodes
    behind them, for the clients that are ready; the theorems of [TcpRegister] are
    proved against it.  [TcpNode.NodeServer] says what a text server with nodes answers
    to CLRA, SEND, CDTA and RETR, and [TcpNode.client_bus] proves the promises of the
    modelled client in front of such a server.

    The client of vscp-client-tcp.cpp has two such objects and worker threads that
    read them.  A step of [TcpDemux.moves] is a section under m_singleChannelMutex or
    a call of one of the objects, by a worker or by any thread of the application,
    and [TcpDemux.run] records the frames that were claimed and the events that were
    handed out.

    The libraries nlohmann json and expat, which read the JSON and XML forms, are not
    part of the repository: [Json.JsonParser] says that a JSON parser reads an object
    in the layout the writers use and refuses one with a comma too many, and
    [EventXml.XmlParser] which handlers expat calls for an element; each has an
    instance.  The handlers count the open elements in global variables, which the
    readers take and return.

    The MQTT client is where they meet: it publishes the JSON, XML, string or binary
    form of an event ([EventJson], [EventXml], [EventString], [Frame]) and finds out
    which one a message holds.  The calls of libmosquitto are results of its
    functions ([Mqtt.call]), the templates of mustache a parameter.

    The datagram clients use all of this: an event is written to a frame ([Frame]),
    encrypted ([Crypt]) or authenticated ([BinaryProtocol], whose ciphers with
    OpenSSL's own padding have the laws [BinaryProtocol.EvpPadLaws]) and handed to
    the socket of the class [Datagram.DatagramSocket]; [Datagram.Network] says that
    the socket keeps what it is given.  inet_pton is a parameter with
    [Endpoint.Ipv6Text].  What connect does with the settings is in [OpenSocket], over
    the socket calls of [OpenSocket.Sockets] with their accounting
    [OpenSocket.SocketLaws].  In [Lifecycle], where opening is an input that succeeds
    or fails, any number of threads interleave between the sections in which they hold
    the mutex, and what is closed without being open is recorded.

    ** Conventions

    Definitions bear the names of the code.  A buffer is the [list Z] of its
    bytes; a pointer that may be null is an [option].  Functions that may read
    or write outside a buffer, follow a null pointer, or convert a value out of
    range return in [option], where [None] is undefined behaviour; functions
    that cannot do so do not.  The [bool] and [int] results of the code are values, paired
    with the new contents of what the function was given a pointer to.  An
    exception that leaves a function is a constructor or an inner [option].
    Aliasing matters in two places: the data buffer of a [const] event that
    vscp_convertEventToCanal moves, whose new content is part of the result, and
    the nodes of [DlList], which are in a heap.  Allocation succeeds, and what
    fresh memory holds is an argument.  The clock is an argument.  The build
    modelled is the 64-bit Linux one on a little-endian machine; logging calls
    and guarded status callbacks have no effect on the results.

    Floats and doubles are the numbers of their bits, with the operations of IEEE 754
    that the Standard Library specifies ([Doubles]); what printf and scanf make of
    them, and pow, are parameters, with [FloatMeasure.Numerals] for integers.  Only
    the Julian day arithmetic of [VscpDateTime], in double there, is in exact quotients
    here; the file says why they agree.

    ** Fuel

    Six functions recurse on a bound.  [digits] gets the number of bits of its
    number (each step removes a digit); [split_loop] one more than the length
    of the string (a delimiter has a character); the group loop and the "::"
    recursion of the GUID parser the length of the string (each step consumes a
    character, and a part around "::" is shorter): [Guid.guid_parse_total]
    states that more fuel changes nothing, and the round trips show that the
    results are the intended ones.  Loops that need not end take fuel: reading a
    hex file ([BootDevice.loadIntelHexFile_ends] says when it does), and waiting for
    an answer, which ends when the clock advances ([BootVscp.deviceLoad_ends],
    [BootPic1.pic1_ends]; the polling loops of [RegIo] and the transport of the
    TCP client likewise, [TcpTransport.transport_ends]).  Loops over the
    list of [DlList] take the number of nodes.

    ** The theorems

    - Round trips: an event written to a frame, to a string, to a vscpEventEx,
      or from a CAN frame comes back ([Frame.write_read_frame],
      [EventString.event_string_roundtrip], [Event.event_eventex_roundtrip],
      [Canal.canal_roundtrip]); so do GUIDs in every format, filters, data, hex
      strings and dates ([VscpDateTime.iso_roundtrip]), events as JSON and XML
      ([EventJson.event_json_roundtrip], [EventXml.event_xml_roundtrip]), and events in encrypted
      frames ([Crypt.encrypted_event_roundtrip], [Crypt.encryptFrameV1_roundtrip]),
      because CBC decryption inverts encryption ([Aes.aes_cbc_roundtrip]).
    - Error detection: the table-driven CRC is the bitwise one
      ([Crc.crcFast_is_crcSlow]) and a frame with a checksum in which one or two
      adjacent bytes were changed, but not its size, is rejected
      ([Frame.corrupt_frame_rejected]); an accepted version 1
      frame was made with the HMAC key ([Crypt.decryptFrameV1_authentic]).
    - Safety and totality: the outcome of the frame reader on every buffer, with what
      it accepts and when it is undefined ([Frame.getEventFromFrame_defined]), of the decryption of every buffer
      ([Crypt.decryptFrame_sound]), of a firmware download with every client
      ([BootVscp.deviceLoad_ends], [BootPic1.pic1_ends]) and of the GUID parser on
      every string ([Guid.guid_parse_total]).
    - Types: whatever JSON is read, the event is well-formed
      ([EventJson.json_event_type]).
    - Specifications: the filter agrees with masked comparison
      ([Filter.doLevel2Filter_spec]); copies are deep ([Event.copyEvent_correct]);
      setters change their field only; numbers are read in all formats.
    - Measurements: the value of a coded measurement, as text and as double
      in the classes that have one ([FloatMeasure.measurement_values]); a double is kept by an event of level II
      ([FloatMeasure.level2_double_roundtrip]).
    - Containers: the FIFO refines a bounded queue of bytes, under an interrupt
      that writes between any two accesses of the reader too ([Fifo]; the steps of the
      reader, without an interrupt, are fifo_read: [Fifo.fifo_read_steps]); the list
      operations at the ends are those of the sequence of nodes ([DlList]).
    - Registers: what is written to a node is read back and blocks are complete
      and exact whatever the order of the frames ([RegIo]); undo and redo of a
      page restore its registers and the values of remote variables go to the
      registers they name ([RegPage]).
    - Downloads: hex files round-trip ([BootDevice.loadIntelHexFile_roundtrip]), a
      node that answers is sent the image ([BootVscp.deviceLoad_sends_image],
      [BootPic1.pic1_load_sends_image]).
    - The TCP client: a write sends all of its bytes in order
      ([TcpTransport.transport_write_all]); every event of the receive loop is given
      once and in order, however the threads interleave
      ([TcpReader.single_channel_exact]); frames and events in binary mode arrive as
      they were sent ([TcpBinary.binary_frames_in_order],
      [TcpExchange.binary_event_confirmed]); a reply of one line with "+OK" is
      understood however it is cut ([TcpSession.one_line_reply]), the event of a reply is
      received ([TcpSession.doCmdReceive_event]) and a register is read by the client
      through a text server ([TcpNode.tcp_register_of_node]).  In the binary mode with
      worker threads every frame goes to exactly one of the queue of events, who waits
      for the reply, with its result, and the queue of raw frames
      ([TcpDemux.tcp_client_delivers]), at most one waits
      for a reply ([TcpDemux.replies_unambiguous]), and clear leaves no older event
      ([TcpDemux.clear_clears]); opening the receive channel loses no frame
      ([TcpConnect.open_keeps_frames]).
    - The datagram clients: events arrive as they were sent, in order, with every
      kind of encryption ([Datagram.events_delivered]); with authentication nothing
      else arrives ([Datagram.datagram_authentic]); no datagram is undefined
      behaviour ([Datagram.read_datagram_defined]); the settings stay valid, and connect
      opens one socket with them or says why not and leaves none
      ([OpenSocket.configured_client_connects]); they survive their JSON form
      ([DatagramConfig.config_roundtrip]); connecting and disconnecting is safe from
      any thread, without closing what is not open ([Lifecycle.lifecycle_safe]), and ends
      because the worker was told to stop ([Lifecycle.join_completes]).
    - The MQTT client: an event arrives in the queues of other clients in every
      format ([Mqtt.mqtt_delivers]); the queue is bounded and a blocking receive
      does not wait while there is an event ([Mqtt.mqtt_queue_invariant]); the
      sizes of events that the buffer of send can hold
      ([Mqtt.mqtt_payload_bounds]).
    - Where the code does something else than it means to, the theorem states
      what it does: the event checksum covers eight bytes, the Ex GUID setter
      one byte, date strings are read a month late, integer measurements are
      written in the wrong byte order, floats too
      ([FloatMeasure.makeFloatMeasurement_swapped]), a level I measurement becomes the wrong
      double ([FloatMeasure.level1_to_level2_swaps]), zone getters have an inverted guard, a
      list insertion in the middle breaks the links, the PIC1 loader ignores the
      errors of a sector, a reply of the TCP server that is cut after "+OK" leaves
      its rest to the next command ([TcpSession.cut_reply_shifts]), blocks of
      registers of level II nodes are never read
      ([TcpRegister.level2_block_never_read]), the JSON text of a filter is not JSON
      ([EventJson.filter_json_comma]), an XML text that ends too early stops all later
      reading ([EventXml.xml_stays_open]), events of frame version ORIGINAL come back from JSON
      and XML as UNIX_NS, days added to a date before 1970 with a fraction of a second
      move it by 2^32 ns more ([VscpDateTime.plus_days_spec]), and a raw frame can be
      received after disconnect ([TcpDemux.frame_after_disconnect]).

    ** Not modelled

    MDF files, whose classes hold what third-party
    parsers read; the parsers and printers of JSON and XML themselves; name resolution,
    connecting and the set-up of TLS in the TCP client, which are one operation of
    [TcpTransport.System], and its two worker threads of the text modes that are not
    single-channel; the Windows and macOS
    branches of the datagram clients; the options of the MQTT client, which go from
    JSON to libmosquitto; the other clients (WebSockets, drivers) and serial ports; logging and
    configuration files; the vendored code. *)

From Stdlib Require Export ZArith Lia List String Ascii.
From stdpp Require Export base list option.

Export ListNotations.

#[global] Open Scope Z_scope.
#[global] Set Default Goal Selector "!".

(** [lia] with quotients and remainders by constants. *)
Ltac dlia := Z.to_euclidean_division_equations; lia.

(** ** Machine integers

    A C value of width [w] is the integer it stands for; an assignment to a
    [w]-bit object wraps.  [s64] is the two's complement reading of a 64-bit
    pattern (the conversion [uint64_t] to [int64_t]). *)

Definition u8 (x : Z) : Z := x mod 2 ^ 8.
Definition u16 (x : Z) : Z := x mod 2 ^ 16.
Definition u32 (x : Z) : Z := x mod 2 ^ 32.
Definition u64 (x : Z) : Z := x mod 2 ^ 64.
Definition s64 (x : Z) : Z := (x + 2 ^ 63) mod 2 ^ 64 - 2 ^ 63.
Definition s32 (x : Z) : Z := (x + 2 ^ 31) mod 2 ^ 32 - 2 ^ 31.

Definition is_u8 (x : Z) : Prop := 0 <= x < 2 ^ 8.
Definition is_u16 (x : Z) : Prop := 0 <= x < 2 ^ 16.
Definition is_u32 (x : Z) : Prop := 0 <= x < 2 ^ 32.
Definition is_u64 (x : Z) : Prop := 0 <= x < 2 ^ 64.

(** A byte buffer is the list of its bytes. *)
Abbreviation bytes_ok := (Forall is_u8).

#[export] Instance is_u8_dec x : Decision (is_u8 x).
Proof. unfold is_u8. apply _. Defined.
#[export] Instance is_u16_dec x : Decision (is_u16 x).
Proof. unfold is_u16. apply _. Defined.
#[export] Instance is_u32_dec x : Decision (is_u32 x).
Proof. unfold is_u32. apply _. Defined.
#[export] Instance is_u64_dec x : Decision (is_u64 x).
Proof. unfold is_u64. apply _. Defined.

Create HintDb vscp discriminated.
Create Rewrite HintDb bits.

(** Unfolds the width definitions in the whole context and calls [lia]. *)
Ltac width :=
  unfold u8, u16, u32, u64, s64, s32, is_u8, is_u16, is_u32, is_u64 in *;
  change (2 ^ 8) with 256 in *; change (2 ^ 16) with 65536 in *;
  change (2 ^ 32) with 4294967296 in *;
  change (2 ^ 31) with 2147483648 in *;
  change (2 ^ 63) with 9223372036854775808 in *;
  change (2 ^ 64) with 18446744073709551616 in *;
  try dlia.

Lemma u8_ok x : is_u8 (u8 x). Proof. width. Qed.
Lemma u16_ok x : is_u16 (u16 x). Proof. width. Qed.
Lemma u32_ok x : is_u32 (u32 x). Proof. width. Qed.
Lemma u64_ok x : is_u64 (u64 x). Proof. width. Qed.
Lemma u8_id x : is_u8 x -> u8 x = x. Proof. width. Qed.
Lemma u16_id x : is_u16 x -> u16 x = x. Proof. width. Qed.
Lemma u32_id x : is_u32 x -> u32 x = x. Proof. width. Qed.
Lemma u64_id x : is_u64 x -> u64 x = x. Proof. width. Qed.
Lemma s64_id x : -9223372036854775808 <= x < 9223372036854775808 -> s64 x = x.
Proof. width. Qed.

#[export] Hint Resolve u8_ok u16_ok u32_ok u64_ok : vscp.

(** ** Bit operations as arithmetic *)

(** Masking with [2^n - 1] is a remainder, shifts are products and quotients:
    after these rewrites [lia] reasons about packed fields. *)
Lemma land_mask n x : 0 <= n -> Z.land x (2 ^ n - 1) = x mod 2 ^ n.
Proof. intros. rewrite <- Z.land_ones, Z.ones_equiv by lia. f_equal. Qed.

Lemma land_255 x : Z.land x 255 = x mod 256.
Proof. apply (land_mask 8); lia. Qed.
Lemma land_511 x : Z.land x 511 = x mod 512.
Proof. apply (land_mask 9); lia. Qed.
Lemma land_65535 x : Z.land x 65535 = x mod 65536.
Proof. apply (land_mask 16); lia. Qed.
Lemma land_15 x : Z.land x 15 = x mod 16.
Proof. apply (land_mask 4); lia. Qed.
Lemma land_7 x : Z.land x 7 = x mod 8.
Proof. apply (land_mask 3); lia. Qed.
Lemma land_3 x : Z.land x 3 = x mod 4.
Proof. apply (land_mask 2); lia. Qed.
Lemma land_63 x : Z.land x 63 = x mod 64.
Proof. apply (land_mask 6); lia. Qed.

(** Commuted forms: the code often writes the mask first. *)
Lemma land_mask_l m x : Z.land m x = Z.land x m.
Proof. apply Z.land_comm. Qed.

Lemma shiftl_mul n x : 0 <= n -> Z.shiftl x n = x * 2 ^ n.
Proof. apply Z.shiftl_mul_pow2. Qed.
Lemma shiftr_div n x : 0 <= n -> Z.shiftr x n = x / 2 ^ n.
Proof. apply Z.shiftr_div_pow2. Qed.

#[export] Hint Rewrite land_255 land_511 land_65535 land_15 land_7 land_3
  land_63 : bits.
#[export] Hint Rewrite shiftl_mul shiftr_div using lia : bits.

(** Two numbers without a common bit: [lor], [lxor] and [+] agree. *)
Lemma lor_add_disjoint n a b :
  0 <= n -> 0 <= b < 2 ^ n -> Z.lor (a * 2 ^ n) b = a * 2 ^ n + b.
Proof.
  intros Hn Hb. rewrite <- Z.shiftl_mul_pow2 by lia.
  assert (Hd : Z.land (Z.shiftl a n) b = 0).
  { apply Z.bits_inj'; intros i Hi.
    rewrite Z.land_spec, Z.bits_0, Z.shiftl_spec by lia.
    destruct (Z.ltb_spec i n).
    - rewrite (Z.testbit_neg_r a (i - n)) by lia. reflexivity.
    - rewrite <- (Z.mod_small b (2 ^ n)) by lia.
      rewrite Z.mod_pow2_bits_high by lia. apply andb_false_r. }
  rewrite <- Z.lxor_lor by exact Hd.
  symmetry. apply Z.add_nocarry_lxor. exact Hd.
Qed.

Lemma lxor_mod n a b :
  0 <= n -> Z.lxor a b mod 2 ^ n = Z.lxor (a mod 2 ^ n) (b mod 2 ^ n).
Proof.
  intros Hn. apply Z.bits_inj'; intros i Hi. rewrite Z.lxor_spec.
  destruct (Z.ltb_spec i n).
  - rewrite !Z.mod_pow2_bits_low by lia. apply Z.lxor_spec.
  - rewrite !Z.mod_pow2_bits_high by lia. reflexivity.
Qed.

Lemma lxor_bound n a b :
  0 <= n -> 0 <= a < 2 ^ n -> 0 <= b < 2 ^ n -> 0 <= Z.lxor a b < 2 ^ n.
Proof.
  intros Hn Ha Hb.
  rewrite <- (Z.mod_small a (2 ^ n)), <- (Z.mod_small b (2 ^ n)) by lia.
  rewrite <- lxor_mod by lia. apply Z.mod_pos_bound. lia.
Qed.

(** A shift to the left by [n] has no bit below [n]. *)
Lemma shiftl_mod n b : 0 <= n -> Z.shiftl b n mod 2 ^ n = 0.
Proof.
  intros. rewrite Z.shiftl_mul_pow2 by lia. apply Z.mod_mul. lia.
Qed.

Lemma lxor_u8 a b : is_u8 a -> is_u8 b -> is_u8 (Z.lxor a b).
Proof. apply lxor_bound; lia. Qed.
Lemma lxor_u16 a b : is_u16 a -> is_u16 b -> is_u16 (Z.lxor a b).
Proof. apply lxor_bound; lia. Qed.
#[export] Hint Resolve lxor_u8 lxor_u16 : vscp.

Lemma lxor_cancel_l a b c : Z.lxor a b = Z.lxor a c -> b = c.
Proof.
  intros H. apply (f_equal (Z.lxor a)) in H.
  rewrite <- !Z.lxor_assoc, Z.lxor_nilpotent, !Z.lxor_0_l in H. exact H.
Qed.

Lemma lxor_cancel_r a b c : Z.lxor b a = Z.lxor c a -> b = c.
Proof. rewrite !(Z.lxor_comm _ a). apply lxor_cancel_l. Qed.

Lemma lxor_swap a b c d :
  Z.lxor (Z.lxor a b) (Z.lxor c d) = Z.lxor (Z.lxor a c) (Z.lxor b d).
Proof.
  rewrite !Z.lxor_assoc. f_equal. rewrite <- !Z.lxor_assoc. f_equal.
  apply Z.lxor_comm.
Qed.

(** ** Checking a property of every value below a bound *)

Fixpoint all_from (n : nat) (x : Z) (f : Z -> bool) : bool :=
  match n with
  | O => true
  | S n' => f x && all_from n' (x + 1) f
  end.

Definition all_below (n : nat) : (Z -> bool) -> bool := all_from n 0.

Lemma all_from_spec n x0 f x :
  all_from n x0 f = true -> x0 <= x < x0 + Z.of_nat n -> f x = true.
Proof.
  revert x0. induction n as [|n IH]; intros x0 H Hx; [lia|].
  cbn [all_from] in H. apply andb_prop in H as [H1 H2].
  destruct (Z.eq_dec x x0) as [->|]; [exact H1|].
  apply (IH (x0 + 1)); [exact H2|lia].
Qed.

Lemma all_below_spec n f x :
  all_below n f = true -> 0 <= x < Z.of_nat n -> f x = true.
Proof. intros H Hx. apply (all_from_spec n 0); [exact H|lia]. Qed.

(** ** Buffers and undefined behaviour

    An operation that may read or write outside a buffer, or follow a null
    pointer, returns [option]: [None] is undefined behaviour.  stdpp's
    [x ← e; k] sequences such operations. *)

Definition rd (buf : list Z) (off : nat) : option Z := buf !! off.

(** [memcpy] from [buf + off], [n] bytes. *)
Definition rdn (buf : list Z) (off n : nat) : option (list Z) :=
  if (off + n <=? length buf)%nat then Some (take n (drop off buf)) else None.

(** Writes the bytes [bs] at [buf + off]. *)
Definition wr (buf : list Z) (off : nat) (bs : list Z) : option (list Z) :=
  if (off + length bs <=? length buf)%nat
  then Some (take off buf ++ bs ++ drop (off + length bs) buf)
  else None.

Lemma rdn_app pre mid post off n :
  off = length pre -> n = length mid ->
  rdn (pre ++ mid ++ post) off n = Some mid.
Proof.
  intros -> ->. unfold rdn. rewrite !length_app.
  destruct (Nat.leb_spec (length pre + length mid)
              (length pre + (length mid + length post))); [|lia].
  rewrite drop_app_length, take_app_length. reflexivity.
Qed.

Lemma rdn_front bs rest : rdn (bs ++ rest) 0 (length bs) = Some bs.
Proof. apply (rdn_app [] bs rest 0 _ eq_refl eq_refl). Qed.

Lemma rdn_length buf off n bs : rdn buf off n = Some bs -> length bs = n.
Proof.
  unfold rdn. destruct (Nat.leb_spec (off + n) (length buf)); [|discriminate].
  intros [= <-]. rewrite length_take, length_drop. lia.
Qed.

Lemma rdn_defined buf off n :
  (off + n <= length buf)%nat -> rdn buf off n = Some (take n (drop off buf)).
Proof. intros. unfold rdn. destruct (Nat.leb_spec (off + n) (length buf)); [done|lia]. Qed.

Lemma rdn_oob buf off n : (length buf < off + n)%nat -> rdn buf off n = None.
Proof. intros. unfold rdn. destruct (Nat.leb_spec (off + n) (length buf)); [lia|done]. Qed.

Lemma wr_app pre old post off bs :
  off = length pre -> length old = length bs ->
  wr (pre ++ old ++ post) off bs = Some (pre ++ bs ++ post).
Proof.
  intros -> Hl. unfold wr. rewrite !length_app.
  destruct (Nat.leb_spec (length pre + length bs)
              (length pre + (length old + length post))); [|lia].
  rewrite take_app_length, (app_assoc pre old post), drop_app_length'
    by (rewrite length_app; lia).
  reflexivity.
Qed.

Lemma wr_length buf off bs buf' :
  wr buf off bs = Some buf' -> length buf' = length buf.
Proof.
  unfold wr. destruct (Nat.leb_spec (off + length bs) (length buf)); [|discriminate].
  intros [= <-]. rewrite !length_app, length_take, length_drop. lia.
Qed.

Lemma wr_defined buf off bs :
  (off + length bs <= length buf)%nat -> wr buf off bs = Some (take off buf ++ bs ++ drop (off + length bs) buf).
Proof. intros. unfold wr. destruct (Nat.leb_spec (off + length bs) (length buf)); [done|lia]. Qed.

Lemma wr_lookup buf off bs buf' i :
  wr buf off bs = Some buf' ->
  buf' !! i = if (i <? off)%nat then buf !! i
              else if (i <? off + length bs)%nat then bs !! (i - off)%nat else buf !! i.
Proof.
  unfold wr. destruct (Nat.leb_spec (off + length bs) (length buf)); [|discriminate]. intros [= <-].
  destruct (Nat.ltb_spec i off).
  - rewrite lookup_app_l by (rewrite length_take; lia). apply lookup_take_lt. lia.
  - rewrite lookup_app_r by (rewrite length_take; lia). rewrite length_take_le by lia.
    destruct (Nat.ltb_spec i (off + length bs)).
    + apply lookup_app_l. lia.
    + rewrite lookup_app_r by lia. rewrite lookup_drop. f_equal. lia.
Qed.

(** Writing successive fields of a frame: what is written so far is a prefix,
    the rest of the buffer is untouched. *)
Lemma wr_next pre rest off bs :
  off = length pre -> (length bs <= length rest)%nat ->
  wr (pre ++ rest) off bs = Some ((pre ++ bs) ++ drop (length bs) rest).
Proof.
  intros Ho Hl. rewrite <- (take_drop (length bs) rest) at 1.
  rewrite wr_app; [rewrite <- app_assoc; reflexivity|exact Ho|].
  rewrite length_take. lia.
Qed.

(** A prefix written over a buffer reads back. *)
Lemma rdn_prefix bs rest n :
  Z.of_nat (length bs) = n -> rdn (bs ++ rest) 0 (Z.to_nat n) = Some bs.
Proof. intros <-. rewrite Nat2Z.id. apply (rdn_app [] bs rest); reflexivity. Qed.

Lemma wr_front buf bs :
  (length bs <= length buf)%nat -> wr buf 0 bs = Some (bs ++ drop (length bs) buf).
Proof. apply (wr_next [] buf 0 bs eq_refl). Qed.

(** ** Big-endian fields *)

(** The [n] low bytes of [x], most significant first. *)
Fixpoint be (n : nat) (x : Z) : list Z :=
  match n with
  | O => []
  | S m => Z.shiftr x (8 * Z.of_nat m) mod 256 :: be m x
  end.

(** The number whose bytes are [bs], most significant first. *)
Definition of_be (bs : list Z) : Z := foldl (fun a b => a * 256 + b) 0 bs.

Lemma length_be n x : length (be n x) = n.
Proof. induction n; cbn [be length]; [reflexivity|]. rewrite IHn. reflexivity. Qed.

Lemma be_ok n x : bytes_ok (be n x).
Proof. induction n; cbn [be]; constructor; [width|exact IHn]. Qed.
#[export] Hint Resolve be_ok : vscp.

Lemma foldl_be bs a :
  foldl (fun a b => a * 256 + b) a bs
  = a * 256 ^ Z.of_nat (length bs) + foldl (fun a b => a * 256 + b) 0 bs.
Proof.
  revert a. induction bs as [|b bs IH]; intros a; cbn [foldl length].
  - rewrite Z.pow_0_r. lia.
  - rewrite (IH (a * 256 + b)), (IH (0 * 256 + b)).
    rewrite Nat2Z.inj_succ, Z.pow_succ_r by lia. ring.
Qed.

Lemma of_be_cons b bs :
  of_be (b :: bs) = b * 256 ^ Z.of_nat (length bs) + of_be bs.
Proof.
  unfold of_be. cbn [foldl]. rewrite foldl_be, Z.mul_0_l, Z.add_0_l. reflexivity.
Qed.

Lemma of_be_bound bs :
  bytes_ok bs -> 0 <= of_be bs < 256 ^ Z.of_nat (length bs).
Proof.
  induction 1 as [|b bs Hb _ IH]; [cbn; lia|].
  rewrite of_be_cons. cbn [length]. rewrite Nat2Z.inj_succ, Z.pow_succ_r by lia.
  width. nia.
Qed.

Lemma of_be_be n x : of_be (be n x) = x mod 256 ^ Z.of_nat n.
Proof.
  induction n as [|n IH]; cbn [be]; [cbn; rewrite Z.mod_1_r; reflexivity|].
  rewrite of_be_cons, length_be, IH, shiftr_div by lia.
  rewrite Nat2Z.inj_succ, Z.pow_succ_r by lia.
  rewrite Z.pow_mul_r by lia. change (2 ^ 8) with 256.
  assert (0 < 256 ^ Z.of_nat n) by lia. set (p := 256 ^ Z.of_nat n) in *.
  rewrite (Z.mul_comm 256 p), Z.rem_mul_r by lia. ring.
Qed.

Lemma be_of_be bs : bytes_ok bs -> be (length bs) (of_be bs) = bs.
Proof.
  intros H.
  assert (G : forall k, be (length bs) (k * 256 ^ Z.of_nat (length bs) + of_be bs) = bs).
  { induction H as [|b bs Hb Hbs IH]; intros k; [reflexivity|].
    cbn [be length]. rewrite of_be_cons.
    assert (B := of_be_bound bs Hbs).
    assert (Hp : 0 < 256 ^ Z.of_nat (length bs)) by lia.
    set (p := 256 ^ Z.of_nat (length bs)) in *.
    f_equal.
    - rewrite shiftr_div, Z.pow_mul_r by lia. change (2 ^ 8) with 256. fold p.
      rewrite Nat2Z.inj_succ, Z.pow_succ_r by lia. fold p.
      replace (k * (256 * p) + (b * p + of_be bs))
        with ((k * 256 + b) * p + of_be bs) by ring.
      rewrite Z.div_add_l, Z.div_small, Z.add_0_r by lia. width.
    - rewrite Nat2Z.inj_succ, Z.pow_succ_r by lia. fold p.
      replace (k * (256 * p) + (b * p + of_be bs))
        with ((k * 256 + b) * p + of_be bs) by ring.
      apply IH. }
  specialize (G 0). rewrite Z.mul_0_l, Z.add_0_l in G. exact G.
Qed.

(** Evaluates the comparisons between constants, everywhere. *)
Ltac const_cmp op a b :=
  let v := eval vm_compute in (op a b) in
  lazymatch v with true => change (op a b) with true in * | false => change (op a b) with false in * end.

Ltac eval_cmp :=
  repeat match goal with
    | |- context [Z.eqb ?a ?b] => const_cmp Z.eqb a b
    | |- context [Z.leb ?a ?b] => const_cmp Z.leb a b
    | |- context [Z.ltb ?a ?b] => const_cmp Z.ltb a b
    | _ : context [Z.eqb ?a ?b] |- _ => const_cmp Z.eqb a b
    | _ : context [Z.leb ?a ?b] |- _ => const_cmp Z.leb a b
    | _ : context [Z.ltb ?a ?b] |- _ => const_cmp Z.ltb a b
    end; cbn [orb andb negb] in *; cbv iota in *.

(** Decides a closed decidable proposition by evaluation. *)
Ltac by_decide := apply (bool_decide_unpack _); vm_compute; exact I.
