(* ===== verification/Program.v ===== *)
(** * Effects: calls that end in several ways, and state

    How a call ends, and the monad of the functions that act on a world: state
    passing over an [outcome].  With its laws, and the automation that shows
    that a function ends. *)

From S2P Require Import Prelude.

(** How a call ends: with a result, an exception, undefined behaviour, or not
    within the given number of loop iterations. *)
Inductive outcome (A : Type) :=
  | Returns (a : A)
  | Throws
  | Undefined
  | OutOfFuel.
Arguments Returns {A} a.
Arguments Throws {A}.
Arguments Undefined {A}.
Arguments OutOfFuel {A}.

(** ** The monad *)

Definition M (W A : Type) : Type := W -> outcome (A * W).

#[export] Instance M_ret W : MRet (M W) := fun A a w => Returns (a, w).
#[export] Instance M_bind W : MBind (M W) := fun A B k m w =>
  match m w with
  | Returns (a, w) => k a w
  | Throws => Throws
  | Undefined => Undefined
  | OutOfFuel => OutOfFuel
  end.

Definition undefined {W A} : M W A := fun _ => Undefined.
Definition throw {W A} : M W A := fun _ => Throws.
Definition out_of_fuel {W A} : M W A := fun _ => OutOfFuel.

(** A call of the client, and a computation that may be undefined. *)
Definition call {W A} (f : W -> A * W) : M W A := fun w => Returns (f w).
Definition defined {W A} (o : option A) : M W A :=
  match o with Some a => mret a | None => undefined end.

(** The whole state. *)
Definition get {W} : M W W := fun w => Returns (w, w).
Definition put {W} (w : W) : M W unit := fun _ => Returns (tt, w).

(** ** Laws *)

Lemma bind_returns {W A B} (m : M W A) (k : A -> M W B) w a w' :
  m w = Returns (a, w') -> (m ≫= k) w = k a w'.
Proof. intros E. unfold mbind, M_bind. rewrite E. reflexivity. Qed.

Lemma bind_ret {W A B} (a : A) (k : A -> M W B) w : (mret a ≫= k) w = k a w.
Proof. reflexivity. Qed.

Lemma bind_call {W A B} (f : W -> A * W) (k : A -> M W B) w a w' :
  f w = (a, w') -> (call f ≫= k) w = k a w'.
Proof. intros E. apply bind_returns. unfold call. rewrite E. reflexivity. Qed.

Lemma bind_defined {W A B} (o : option A) (k : A -> M W B) w a :
  o = Some a -> (defined o ≫= k) w = k a w.
Proof. intros ->. reflexivity. Qed.

Lemma bind_undefined {W A B} (k : A -> M W B) w : (defined None ≫= k) w = Undefined.
Proof. reflexivity. Qed.

Lemma bind_assoc {W A B C} (m : M W A) (f : A -> M W B) (g : B -> M W C) w :
  ((m ≫= f) ≫= g) w = (m ≫= fun a => f a ≫= g) w.
Proof. unfold mbind, M_bind. destruct (m w) as [[a w']| | |]; reflexivity. Qed.

Lemma bind_inv {W A B} (m : M W A) (k : A -> M W B) w b w' :
  (m ≫= k) w = Returns (b, w') -> exists a w1, m w = Returns (a, w1) /\ k a w1 = Returns (b, w').
Proof. unfold mbind, M_bind. destruct (m w) as [[a w1]| | |]; [eauto|discriminate..]. Qed.

(** ** Computations that end *)

Section ends.
Context {W : Type}.

Definition ends {A} (m : M W A) : Prop := forall w, m w <> OutOfFuel.

Lemma ends_bind {A B} (m : M W A) (k : A -> M W B) :
  ends m -> (forall a, ends (k a)) -> ends (m ≫= k).
Proof.
  intros Hm Hk w. specialize (Hm w). unfold mbind, M_bind. destruct (m w) as [[a w']| | |]; [apply Hk|congruence..].
Qed.

Lemma ends_ret {A} (a : A) : ends (mret a). Proof. intros w. discriminate. Qed.
Lemma ends_call {A} (f : W -> A * W) : ends (call f). Proof. intros w. discriminate. Qed.
Lemma ends_undefined {A} : ends (undefined : M W A). Proof. intros w. discriminate. Qed.
Lemma ends_throw {A} : ends (throw : M W A). Proof. intros w. discriminate. Qed.
Lemma ends_defined {A} (o : option A) : ends (defined o). Proof. intros w. destruct o; discriminate. Qed.
Lemma ends_get : ends get. Proof. intros w. discriminate. Qed.
Lemma ends_put w : ends (put w). Proof. intros w'. discriminate. Qed.
End ends.

Create HintDb ends discriminated.
#[export] Hint Resolve ends_ret ends_call ends_undefined ends_throw ends_defined ends_get ends_put : ends.

(** Goes through a body: binds, tests and matches, the rest from the hints. *)
Ltac ends_tac :=
  repeat match goal with
    | |- ends (_ ≫= _) => apply ends_bind; [|intros ?]
    | |- ends (if ?b then _ else _) => destruct b
    | |- ends (match ?x with _ => _ end) => destruct x
    | |- ends _ => solve [eauto with ends]
    end.

(** ** Total correctness

    From [w] the computation does not run out of fuel, and if it returns, then
    with a result and a world for which [Q] holds. *)
Definition total {W A} (m : M W A) (w : W) (Q : A -> W -> Prop) : Prop :=
  match m w with
  | Returns (a, w') => Q a w'
  | Throws | Undefined => True
  | OutOfFuel => False
  end.

Lemma total_bind {W A B} (m : M W A) (k : A -> M W B) w Q :
  total m w (fun a w' => total (k a) w' Q) -> total (m ≫= k) w Q.
Proof. unfold total, mbind, M_bind. destruct (m w) as [[a w']| | |]; auto. Qed.

Lemma total_mono {W A} (m : M W A) w (P Q : A -> W -> Prop) :
  total m w P -> (forall a w', m w = Returns (a, w') -> P a w' -> Q a w') -> total m w Q.
Proof. unfold total. intros T HPQ. destruct (m w) as [[a w']| | |]; auto. Qed.

Lemma total_ends {W A} (m : M W A) w Q : total m w Q -> m w <> OutOfFuel.
Proof. unfold total. destruct (m w); [discriminate..|tauto]. Qed.
