(* ===== verification/Crc.v ===== *)
(** * The checksums: src/src/common/crc.c and crc8.c *)

From S2P Require Import Prelude.

(** ** The 16-bit CRC of crc.c (build with [CRC_CCITT]) *)

Definition POLYNOMIAL : Z := 0x1021.
Definition INITIAL_REMAINDER : Z := 0xFFFF.
Definition FINAL_XOR_VALUE : Z := 0x0000.
Definition WIDTH : Z := 16.
Definition TOPBIT : Z := Z.shiftl 1 (WIDTH - 1).

(** One round of the inner loop of [crcSlow]: "try to divide the current data
    bit".  [remainder] is a 16-bit object, so the shift drops the top bit. *)
Definition crc_bit (remainder : Z) : Z :=
  if negb (Z.land remainder TOPBIT =? 0)
  then u16 (Z.lxor (Z.shiftl remainder 1) POLYNOMIAL)
  else u16 (Z.shiftl remainder 1).

Definition crc_byte (remainder : Z) : Z := Nat.iter 8 crc_bit remainder.

Definition crcSlow_step (remainder byte : Z) : Z :=
  crc_byte (u16 (Z.lxor remainder (Z.shiftl byte (WIDTH - 8)))).

Definition crcSlow (message : list Z) : Z :=
  Z.lxor (foldl crcSlow_step INITIAL_REMAINDER message) FINAL_XOR_VALUE.

(** The table of the CCITT build is a constant of the source. *)
Definition crcTable : list Z :=
  [
    0x0000; 0x1021; 0x2042; 0x3063; 0x4084; 0x50a5; 0x60c6; 0x70e7;
    0x8108; 0x9129; 0xa14a; 0xb16b; 0xc18c; 0xd1ad; 0xe1ce; 0xf1ef;
    0x1231; 0x0210; 0x3273; 0x2252; 0x52b5; 0x4294; 0x72f7; 0x62d6;
    0x9339; 0x8318; 0xb37b; 0xa35a; 0xd3bd; 0xc39c; 0xf3ff; 0xe3de;
    0x2462; 0x3443; 0x0420; 0x1401; 0x64e6; 0x74c7; 0x44a4; 0x5485;
    0xa56a; 0xb54b; 0x8528; 0x9509; 0xe5ee; 0xf5cf; 0xc5ac; 0xd58d;
    0x3653; 0x2672; 0x1611; 0x0630; 0x76d7; 0x66f6; 0x5695; 0x46b4;
    0xb75b; 0xa77a; 0x9719; 0x8738; 0xf7df; 0xe7fe; 0xd79d; 0xc7bc;
    0x48c4; 0x58e5; 0x6886; 0x78a7; 0x0840; 0x1861; 0x2802; 0x3823;
    0xc9cc; 0xd9ed; 0xe98e; 0xf9af; 0x8948; 0x9969; 0xa90a; 0xb92b;
    0x5af5; 0x4ad4; 0x7ab7; 0x6a96; 0x1a71; 0x0a50; 0x3a33; 0x2a12;
    0xdbfd; 0xcbdc; 0xfbbf; 0xeb9e; 0x9b79; 0x8b58; 0xbb3b; 0xab1a;
    0x6ca6; 0x7c87; 0x4ce4; 0x5cc5; 0x2c22; 0x3c03; 0x0c60; 0x1c41;
    0xedae; 0xfd8f; 0xcdec; 0xddcd; 0xad2a; 0xbd0b; 0x8d68; 0x9d49;
    0x7e97; 0x6eb6; 0x5ed5; 0x4ef4; 0x3e13; 0x2e32; 0x1e51; 0x0e70;
    0xff9f; 0xefbe; 0xdfdd; 0xcffc; 0xbf1b; 0xaf3a; 0x9f59; 0x8f78;
    0x9188; 0x81a9; 0xb1ca; 0xa1eb; 0xd10c; 0xc12d; 0xf14e; 0xe16f;
    0x1080; 0x00a1; 0x30c2; 0x20e3; 0x5004; 0x4025; 0x7046; 0x6067;
    0x83b9; 0x9398; 0xa3fb; 0xb3da; 0xc33d; 0xd31c; 0xe37f; 0xf35e;
    0x02b1; 0x1290; 0x22f3; 0x32d2; 0x4235; 0x5214; 0x6277; 0x7256;
    0xb5ea; 0xa5cb; 0x95a8; 0x8589; 0xf56e; 0xe54f; 0xd52c; 0xc50d;
    0x34e2; 0x24c3; 0x14a0; 0x0481; 0x7466; 0x6447; 0x5424; 0x4405;
    0xa7db; 0xb7fa; 0x8799; 0x97b8; 0xe75f; 0xf77e; 0xc71d; 0xd73c;
    0x26d3; 0x36f2; 0x0691; 0x16b0; 0x6657; 0x7676; 0x4615; 0x5634;
    0xd94c; 0xc96d; 0xf90e; 0xe92f; 0x99c8; 0x89e9; 0xb98a; 0xa9ab;
    0x5844; 0x4865; 0x7806; 0x6827; 0x18c0; 0x08e1; 0x3882; 0x28a3;
    0xcb7d; 0xdb5c; 0xeb3f; 0xfb1e; 0x8bf9; 0x9bd8; 0xabbb; 0xbb9a;
    0x4a75; 0x5a54; 0x6a37; 0x7a16; 0x0af1; 0x1ad0; 0x2ab3; 0x3a92;
    0xfd2e; 0xed0f; 0xdd6c; 0xcd4d; 0xbdaa; 0xad8b; 0x9de8; 0x8dc9;
    0x7c26; 0x6c07; 0x5c64; 0x4c45; 0x3ca2; 0x2c83; 0x1ce0; 0x0cc1;
    0xef1f; 0xff3e; 0xcf5d; 0xdf7c; 0xaf9b; 0xbfba; 0x8fd9; 0x9ff8;
    0x6e17; 0x7e36; 0x4e55; 0x5e74; 0x2e93; 0x3eb2; 0x0ed1; 0x1ef0 ].

(** [data] is an [unsigned char], so the index is in range. *)
Definition crcFast_step (remainder byte : Z) : Z :=
  let data := u8 (Z.lxor byte (Z.shiftr remainder (WIDTH - 8))) in
  u16 (Z.lxor (nth (Z.to_nat data) crcTable 0) (Z.shiftl remainder 8)).

Definition crcFast (message : list Z) : Z :=
  Z.lxor (foldl crcFast_step INITIAL_REMAINDER message) FINAL_XOR_VALUE.

(** ** The 8-bit CRC of crc8.c

    The table is filled on the first call; [made_table] guards it.  A state
    is [None] before the table is made. *)

Definition DI : Z := 0x07.

Definition crc8_bit (crc : Z) : Z :=
  u8 (Z.lxor (Z.shiftl crc 1) (if negb (Z.land crc 0x80 =? 0) then DI else 0)).

Definition crc8_entry (i : Z) : Z := Z.land (Nat.iter 8 crc8_bit (u8 i)) 0xFF.

Definition crc8_state := option (list Z).

Definition init_crc8 (st : crc8_state) : crc8_state :=
  match st with
  | Some t => Some t
  | None => Some (map (fun i => crc8_entry (Z.of_nat i)) (seq 0 256))
  end.

(** Appends [m]: the new state and the new value of [*crc]. *)
Definition crc8 (st : crc8_state) (crc m : Z) : crc8_state * Z :=
  let st := init_crc8 st in
  let table := default [] st in
  (st, Z.land (nth (Z.to_nat (Z.lxor crc m)) table 0) 0xFF).

(** vscp_calcCRC4GUIDArray of vscphelper.cpp: 16 calls of [crc8]. *)
Definition vscp_calcCRC4GUIDArray (st : crc8_state) (pguid : list Z)
  : crc8_state * Z :=
  foldl (fun '(st, crc) m => crc8 st crc m) (init_crc8 st, 0) (take 16 pguid).

(** ** Lemmas *)

Lemma land_u16_top x : is_u16 x -> is_u16 (crc_bit x).
Proof. intros _. unfold crc_bit. destruct (negb _); auto with vscp. Qed.

Lemma crc_byte_ok x : is_u16 x -> is_u16 (crc_byte x).
Proof.
  intros Hx. unfold crc_byte. induction (8%nat) as [|n IHn]; [exact Hx|rewrite Nat.iter_succ].
  apply land_u16_top, IHn.
Qed.

Lemma crcSlow_step_ok r b : is_u16 (crcSlow_step r b).
Proof. apply crc_byte_ok. auto with vscp. Qed.

Lemma crcFast_step_ok r b : is_u16 (crcFast_step r b).
Proof. unfold crcFast_step. auto with vscp. Qed.

(** *** Linearity of the division *)

Lemma u16_lxor a b : u16 (Z.lxor a b) = Z.lxor (u16 a) (u16 b).
Proof. apply lxor_mod. lia. Qed.

Lemma land_top x : negb (Z.land x TOPBIT =? 0) = Z.testbit x 15.
Proof.
  assert (E : Z.land x TOPBIT = if Z.testbit x 15 then TOPBIT else 0).
  { apply Z.bits_inj'; intros i Hi. unfold TOPBIT, WIDTH.
    rewrite Z.land_spec, Z.shiftl_spec by lia.
    destruct (Z.eq_dec i 15) as [->|].
    - destruct (Z.testbit x 15); reflexivity.
    - assert (T : Z.testbit 1 (i - (16 - 1)) = false).
      { change 1 with (2 ^ 0). apply Z.pow2_bits_false. lia. }
      destruct (Z.testbit x 15); rewrite ?Z.shiftl_spec, T, ?Z.bits_0 by lia;
        apply andb_false_r. }
  rewrite E. destruct (Z.testbit x 15); reflexivity.
Qed.

Lemma crc_bit_alt x :
  crc_bit x
  = Z.lxor (u16 (Z.shiftl x 1)) (if Z.testbit x 15 then POLYNOMIAL else 0).
Proof.
  unfold crc_bit. rewrite land_top. destruct (Z.testbit x 15).
  - apply u16_lxor.
  - rewrite Z.lxor_0_r. reflexivity.
Qed.

Lemma crc_bit_lxor x y : crc_bit (Z.lxor x y) = Z.lxor (crc_bit x) (crc_bit y).
Proof.
  rewrite !crc_bit_alt, Z.lxor_spec, Z.shiftl_lxor, u16_lxor, lxor_swap.
  f_equal. destruct (Z.testbit x 15), (Z.testbit y 15); reflexivity.
Qed.

Lemma crc_byte_lxor x y :
  crc_byte (Z.lxor x y) = Z.lxor (crc_byte x) (crc_byte y).
Proof.
  unfold crc_byte. induction (8%nat) as [|n IH]; [reflexivity|].
  rewrite !Nat.iter_succ, IH. apply crc_bit_lxor.
Qed.

(** A bit of the division loses nothing: the polynomial has a constant term. *)
Lemma crc_bit_zero x : is_u16 x -> crc_bit x = 0 -> x = 0.
Proof.
  intros Hx. rewrite crc_bit_alt. intros E.
  destruct (Z.testbit x 15) eqn:T.
  - apply (f_equal (fun z => Z.testbit z 0)) in E.
    rewrite Z.lxor_spec in E. unfold u16 in E.
    rewrite Z.mod_pow2_bits_low, Z.shiftl_spec in E by lia.
    cbn in E. discriminate.
  - rewrite Z.lxor_0_r, shiftl_mul in E by lia.
    apply Z.testbit_false in T; [|lia].
    change (2 ^ 15) with 32768 in T. width.
Qed.

Lemma crc_byte_zero x : is_u16 x -> crc_byte x = 0 -> x = 0.
Proof.
  intros Hx. unfold crc_byte. induction (8%nat) as [|n IH]; [auto|].
  rewrite Nat.iter_succ. intros E. apply IH, crc_bit_zero, E.
  clear IH E. induction n as [|n IHn]; [exact Hx|rewrite Nat.iter_succ; apply land_u16_top, IHn].
Qed.

Lemma crc_byte_inj x y :
  is_u16 x -> is_u16 y -> crc_byte x = crc_byte y -> x = y.
Proof.
  intros Hx Hy E. apply Z.lxor_eq, crc_byte_zero; [apply lxor_u16; assumption|].
  rewrite crc_byte_lxor, E. apply Z.lxor_nilpotent.
Qed.

(** The table holds the effect of a whole byte of the division on the top
    byte; the low byte only moves up. *)
Definition crc_table_check (h : Z) : bool :=
  (crc_byte (h * 256) =? nth (Z.to_nat h) crcTable 0)
  && (crc_byte h =? h * 256).

Lemma crc_table_checked : all_below 256 crc_table_check = true.
Proof. vm_compute. reflexivity. Qed.

Lemma crc_byte_table x :
  is_u16 x ->
  crc_byte x
  = u16 (Z.lxor (nth (Z.to_nat (x / 256)) crcTable 0) (Z.shiftl x 8)).
Proof.
  intros Hx.
  assert (Hh : is_u8 (x / 256)) by width.
  assert (Hl : is_u8 (x mod 256)) by width.
  assert (Th := all_below_spec 256 _ (x / 256) crc_table_checked ltac:(width)).
  assert (Tl := all_below_spec 256 _ (x mod 256) crc_table_checked ltac:(width)).
  apply andb_prop in Th as [Th _], Tl as [_ Tl].
  apply Z.eqb_eq in Th, Tl. rewrite <- Th.
  assert (Ex : x = Z.lxor (x / 256 * 256) (x mod 256)).
  { transitivity (Z.lor (x / 256 * 2 ^ 8) (x mod 256)).
    - rewrite (lor_add_disjoint 8) by dlia. dlia.
    - change (x / 256 * 256) with (x / 256 * 2 ^ 8).
      rewrite <- Z.shiftl_mul_pow2 by lia.
      symmetry. apply Z.lxor_lor.
      apply Z.bits_inj'; intros i Hi.
      rewrite Z.land_spec, Z.shiftl_spec, Z.bits_0 by lia.
      destruct (Z.ltb_spec i 8).
      + rewrite Z.testbit_neg_r by lia. reflexivity.
      + change 256 with (2 ^ 8). rewrite Z.mod_pow2_bits_high by lia.
        apply andb_false_r. }
  rewrite Ex at 1. rewrite crc_byte_lxor, Tl.
  rewrite u16_lxor. f_equal.
  - symmetry. apply u16_id, crc_byte_ok. width.
  - rewrite shiftl_mul by lia. width.
Qed.

(** Both steps are one function of the 16-bit word [r xor (b << 8)]. *)
Lemma shiftl_byte_u16 b : is_u8 b -> is_u16 (Z.shiftl b 8).
Proof. intros. rewrite shiftl_mul by lia. width. Qed.

Lemma word_high r b :
  is_u16 r -> is_u8 b ->
  Z.lxor r (Z.shiftl b 8) / 256 = Z.lxor b (r / 256).
Proof.
  intros Hr Hb. change 256 with (2 ^ 8).
  rewrite <- !Z.shiftr_div_pow2, Z.shiftr_lxor by lia.
  rewrite Z.shiftr_shiftl_l by lia. rewrite Z.shiftl_0_r. apply Z.lxor_comm.
Qed.

Lemma word_low r b :
  is_u16 r -> is_u8 b ->
  u16 (Z.shiftl (Z.lxor r (Z.shiftl b 8)) 8) = u16 (Z.shiftl r 8).
Proof.
  intros Hr Hb. unfold u16. apply Z.bits_inj'; intros i Hi.
  destruct (Z.ltb_spec i 16).
  - rewrite !Z.mod_pow2_bits_low by lia.
    rewrite !Z.shiftl_spec, Z.lxor_spec by lia.
    destruct (Z.ltb_spec i 8).
    + rewrite !Z.testbit_neg_r by lia. reflexivity.
    + rewrite Z.shiftl_spec by lia.
      rewrite (Z.testbit_neg_r b) by lia. apply xorb_false_r.
  - rewrite !Z.mod_pow2_bits_high by lia. reflexivity.
Qed.

Lemma crcFast_step_slow r b :
  is_u16 r -> is_u8 b -> crcFast_step r b = crcSlow_step r b.
Proof.
  intros Hr Hb. unfold crcFast_step, crcSlow_step.
  change (WIDTH - 8) with 8.
  rewrite (u16_id (Z.lxor r (Z.shiftl b 8)))
    by (apply lxor_u16; [exact Hr|apply shiftl_byte_u16, Hb]).
  rewrite crc_byte_table by (apply lxor_u16; [exact Hr|apply shiftl_byte_u16, Hb]).
  rewrite word_high by assumption.
  rewrite (u16_lxor _ (Z.shiftl (Z.lxor r _) 8)), word_low, <- u16_lxor
    by assumption.
  rewrite shiftr_div, u8_id; [reflexivity| |lia].
  apply lxor_u8; [exact Hb|]. width.
Qed.

Lemma foldl_crcFast_slow m r :
  is_u16 r -> bytes_ok m ->
  foldl crcFast_step r m = foldl crcSlow_step r m.
Proof.
  intros Hr Hm. revert r Hr.
  induction Hm as [|b m Hb Hm IH]; intros r Hr; cbn [foldl]; [reflexivity|].
  rewrite crcFast_step_slow by assumption. apply IH, crcSlow_step_ok.
Qed.

Lemma INITIAL_ok : is_u16 INITIAL_REMAINDER.
Proof. unfold INITIAL_REMAINDER. width. Qed.

Lemma crcFast_ok m : is_u16 (crcFast m).
Proof.
  unfold crcFast. change FINAL_XOR_VALUE with 0. rewrite Z.lxor_0_r.
  destruct (list_eq_dec Z.eq_dec m []) as [->|]; [apply INITIAL_ok|].
  destruct (exists_last n) as (m' & b & ->).
  rewrite foldl_snoc. apply crcFast_step_ok.
Qed.
#[export] Hint Resolve crcFast_ok : vscp.

Lemma crcFast_app m1 m2 :
  crcFast (m1 ++ m2) = foldl crcFast_step (crcFast m1) m2.
Proof.
  unfold crcFast. change FINAL_XOR_VALUE with 0. rewrite !Z.lxor_0_r.
  apply foldl_app.
Qed.

(** The step is injective in the remainder and in the byte. *)
Lemma crcSlow_step_inj_r r1 r2 b :
  is_u16 r1 -> is_u16 r2 -> is_u8 b ->
  crcSlow_step r1 b = crcSlow_step r2 b -> r1 = r2.
Proof.
  intros H1 H2 Hb E. unfold crcSlow_step in E.
  apply crc_byte_inj in E; auto with vscp.
  change (WIDTH - 8) with 8 in E.
  rewrite !u16_id in E by (apply lxor_u16; [assumption|apply shiftl_byte_u16, Hb]).
  apply lxor_cancel_r in E. exact E.
Qed.

Lemma foldl_step_inj m r1 r2 :
  is_u16 r1 -> is_u16 r2 -> bytes_ok m ->
  foldl crcFast_step r1 m = foldl crcFast_step r2 m -> r1 = r2.
Proof.
  intros H1 H2 Hm. revert r1 r2 H1 H2.
  induction Hm as [|b m Hb Hm IH]; intros r1 r2 H1 H2; cbn [foldl]; [auto|].
  intros E. apply IH in E; try apply crcFast_step_ok.
  rewrite !crcFast_step_slow in E by assumption.
  apply crcSlow_step_inj_r in E; assumption.
Qed.

(** The low byte of the table determines its index, so two steps determine
    both bytes.  By linearity it is enough that no entry but the first has a
    zero low byte. *)
Definition table_low_check (x : Z) : bool :=
  implb (nth (Z.to_nat x) crcTable 0 mod 256 =? 0) (x =? 0).

Lemma table_low_checked : all_below 256 table_low_check = true.
Proof. vm_compute. reflexivity. Qed.

Lemma table_entry x : is_u8 x -> nth (Z.to_nat x) crcTable 0 = crc_byte (x * 256).
Proof.
  intros Hx.
  assert (T := all_below_spec 256 _ x crc_table_checked ltac:(width)).
  apply andb_prop in T as [T _]. symmetry. apply Z.eqb_eq, T.
Qed.

Lemma table_lxor x y :
  is_u8 x -> is_u8 y ->
  nth (Z.to_nat (Z.lxor x y)) crcTable 0
  = Z.lxor (nth (Z.to_nat x) crcTable 0) (nth (Z.to_nat y) crcTable 0).
Proof.
  intros Hx Hy. rewrite !table_entry by auto with vscp.
  rewrite <- crc_byte_lxor. f_equal. change 256 with (2 ^ 8).
  rewrite <- !Z.shiftl_mul_pow2, Z.shiftl_lxor by lia. reflexivity.
Qed.

Lemma table_low_inj x y :
  is_u8 x -> is_u8 y ->
  nth (Z.to_nat x) crcTable 0 mod 256 = nth (Z.to_nat y) crcTable 0 mod 256 ->
  x = y.
Proof.
  intros Hx Hy E. apply Z.lxor_eq.
  assert (C := all_below_spec 256 table_low_check (Z.lxor x y)
                 table_low_checked).
  assert (Hxy : is_u8 (Z.lxor x y)) by auto with vscp.
  specialize (C ltac:(width)). unfold table_low_check in C.
  rewrite table_lxor in C by assumption.
  replace (Z.lxor _ _ mod 256) with 0 in C; [apply Z.eqb_eq, C|].
  symmetry. change 256 with (2 ^ 8) in *. rewrite lxor_mod, E by lia.
  apply Z.lxor_nilpotent.
Qed.

Lemma crcFast_step_low r b :
  is_u16 r -> is_u8 b ->
  crcFast_step r b mod 256
  = nth (Z.to_nat (Z.lxor b (r / 256))) crcTable 0 mod 256.
Proof.
  intros Hr Hb. unfold crcFast_step. change (WIDTH - 8) with 8.
  rewrite shiftr_div, (u8_id (Z.lxor b (r / 2 ^ 8))).
  2: { apply lxor_u8; [exact Hb|]. width. }
  2: lia.
  transitivity (Z.lxor (nth (Z.to_nat (Z.lxor b (r / 2 ^ 8))) crcTable 0)
                  (Z.shiftl r 8) mod 2 ^ 8); [width|].
  rewrite lxor_mod, shiftl_mod, Z.lxor_0_r by lia. reflexivity.
Qed.

Lemma shifted_byte_low r b : Z.lxor r (Z.shiftl b 8) mod 256 = r mod 256.
Proof.
  change 256 with (2 ^ 8).
  rewrite lxor_mod, shiftl_mod, Z.lxor_0_r by lia. reflexivity.
Qed.

Lemma crcFast_step2_word r1 r2 b c :
  is_u16 r1 -> is_u16 r2 -> is_u8 b -> is_u8 c ->
  crcFast_step r1 b = crcFast_step r2 c ->
  Z.lxor r1 (Z.shiftl b 8) = Z.lxor r2 (Z.shiftl c 8).
Proof.
  intros H1 H2 Hb Hc E.
  rewrite !crcFast_step_slow in E by assumption.
  apply crc_byte_inj in E; auto with vscp.
  change (WIDTH - 8) with 8 in E.
  rewrite !u16_id in E by (apply lxor_u16; auto using shiftl_byte_u16).
  exact E.
Qed.

Lemma crcFast_step2_inj r b1 b2 c1 c2 :
  is_u16 r -> is_u8 b1 -> is_u8 b2 -> is_u8 c1 -> is_u8 c2 ->
  crcFast_step (crcFast_step r b1) b2 = crcFast_step (crcFast_step r c1) c2 ->
  b1 = c1 /\ b2 = c2.
Proof.
  intros Hr Hb1 Hb2 Hc1 Hc2 E.
  apply crcFast_step2_word in E; auto using crcFast_step_ok.
  assert (H : b1 = c1).
  { assert (L := f_equal (fun z => z mod 256) E). cbv beta in L.
    rewrite !shifted_byte_low, !crcFast_step_low in L by assumption.
    apply table_low_inj in L; try (apply lxor_u8; [assumption|width]).
    apply lxor_cancel_r in L. exact L. }
  subst c1. split; [reflexivity|].
  apply lxor_cancel_l in E. rewrite !shiftl_mul in E by lia. lia.
Qed.

(** The two bytes a frame writer appends. *)
Definition crc_bytes (c : Z) : list Z := [Z.land (Z.shiftr c 8) 0xff; Z.land c 0xff].

Lemma crc_bytes_ok c : bytes_ok (crc_bytes c).
Proof.
  unfold crc_bytes. rewrite !land_255.
  repeat constructor; width.
Qed.

Lemma table_zero : nth (Z.to_nat 0) crcTable 0 = 0.
Proof. reflexivity. Qed.

Lemma crcFast_step_self r :
  is_u16 r -> crcFast_step r (r / 256) = u16 (Z.shiftl r 8).
Proof.
  intros Hr. unfold crcFast_step. change (WIDTH - 8) with 8.
  rewrite shiftr_div by lia. change (2 ^ 8) with 256.
  rewrite Z.lxor_nilpotent. change (u8 0) with 0. rewrite table_zero, Z.lxor_0_l.
  reflexivity.
Qed.

(** ** Properties *)

(** C40: the table-driven [crcFast] computes the same checksum as the bitwise
    long division of [crcSlow], for every message. *)
Theorem crcFast_is_crcSlow (m : list Z) : bytes_ok m -> crcFast m = crcSlow m.
Proof.
  intros Hm. unfold crcFast, crcSlow.
  rewrite foldl_crcFast_slow; auto using INITIAL_ok.
Qed.

Lemma crcFast_is_crcSlow_witness :
  bytes_ok [0x31; 0x32; 0x33; 0x34; 0x35; 0x36; 0x37; 0x38; 0x39]
  /\ crcSlow [0x31; 0x32; 0x33; 0x34; 0x35; 0x36; 0x37; 0x38; 0x39] = 0x29B1.
Proof.
  assert (H : bytes_ok [0x31; 0x32; 0x33; 0x34; 0x35; 0x36; 0x37; 0x38; 0x39])
    by (repeat constructor; width).
  split; [exact H|]. rewrite <- (crcFast_is_crcSlow _ H). vm_compute. reflexivity.
Defined.

(** A message followed by its own checksum, high byte first, has checksum
    zero: the test the frame readers rely on ("CRC is zero if calculated over
    itself"). *)
Lemma crcFast_residue (m : list Z) : crcFast (m ++ crc_bytes (crcFast m)) = 0.
Proof.
  rewrite crcFast_app. assert (Hr := crcFast_ok m).
  unfold crc_bytes. rewrite !land_255, shiftr_div by lia. cbn [foldl].
  replace (crcFast m / 2 ^ 8 mod 256) with (crcFast m / 256) by width.
  rewrite crcFast_step_self by exact Hr.
  assert (E : u16 (Z.shiftl (crcFast m) 8) = crcFast m mod 256 * 256).
  { rewrite shiftl_mul by lia. width. }
  rewrite E.
  replace (crcFast m mod 256) with (crcFast m mod 256 * 256 / 256) at 2 by dlia.
  rewrite crcFast_step_self by width.
  rewrite shiftl_mul by lia. width.
Qed.

(** Error detection.  Two messages that differ only inside a window of two
    adjacent bytes have different checksums, so a burst of up to nine bits is
    always seen. *)
Lemma crcFast_detects_burst (pre suf : list Z) (b1 b2 c1 c2 : Z) :
  bytes_ok suf -> is_u8 b1 -> is_u8 b2 -> is_u8 c1 -> is_u8 c2 ->
  (b1, b2) <> (c1, c2) ->
  crcFast (pre ++ [b1; b2] ++ suf) <> crcFast (pre ++ [c1; c2] ++ suf).
Proof.
  intros Hs Hb1 Hb2 Hc1 Hc2 Hne E. apply Hne.
  rewrite !crcFast_app, !foldl_app in E.
  apply foldl_step_inj in E; auto using crcFast_step_ok.
  2,3: cbn [foldl]; apply crcFast_step_ok.
  cbn [foldl] in E. apply crcFast_step2_inj in E; auto with vscp.
  destruct E as [-> ->]. reflexivity.
Qed.

