(* ===== verification/DateTime.v ===== *)
(** * Dates and Unix time: src/src/vscp/common/vscphelper.cpp

    [days_from_civil], [civil_from_days] and the conversions between a
    calendar date and nanoseconds since the Unix epoch.  C integer division
    truncates ([Z.quot], [Z.rem]); values of type [unsigned] wrap at 32 bits. *)

From S2P Require Import Prelude.

Definition NS_PER_SEC : Z := 1000000000.
Definition SECS_PER_DAY : Z := 86400.

(** Number of days from 1970-01-01 to a civil date. *)
Definition days_from_civil (year month day : Z) : Z :=
  let year := year - (if month <=? 2 then 1 else 0) in
  let era := Z.quot (if 0 <=? year then year else year - 399) 400 in
  let yoe := u32 (year - era * 400) in
  let doy :=
    u32 (Z.quot (153 * (month + (if 2 <? month then -3 else 9)) + 2) 5 + day - 1) in
  let doe := u32 (yoe * 365 + yoe / 4 - yoe / 100 + doy) in
  era * 146097 + doe - 719468.

(** to_unix_ns_embedded and vscp_to_unix_ns have the same body. *)
Definition to_unix_ns_embedded (year month day hour minute second timestamp : Z) : Z :=
  let days := days_from_civil year month day in
  let sec := days * SECS_PER_DAY + hour * 3600 + minute * 60 + second in
  sec * NS_PER_SEC + timestamp * 1000.

Definition vscp_to_unix_ns (year month day hour minute second timestamp : Z) : Z :=
  let days := days_from_civil year month day in
  let total_seconds := days * SECS_PER_DAY + hour * 3600 + minute * 60 + second in
  total_seconds * NS_PER_SEC + timestamp * 1000.

(** The civil date of a day number: year, month, day. *)
Definition civil_from_days (z : Z) : Z * Z * Z :=
  let z := z + 719468 in
  let era := Z.quot (if 0 <=? z then z else z - 146096) 146097 in
  let doe := u32 (z - era * 146097) in
  let yoe := u32 (doe - doe / 1460 + doe / 36524 - doe / 146096) / 365 in
  let y_full := yoe + era * 400 in
  let doy := u32 (doe - (365 * yoe + yoe / 4 - yoe / 100)) in
  let mp := (5 * doy + 2) / 153 in
  let d_full := u32 (doy - (153 * mp + 2) / 5 + 1) in
  let m_full := u32 (mp + (if mp <? 10 then 3 else -9)) in
  (s32 (y_full + (if m_full <=? 2 then 1 else 0)), s32 m_full, s32 d_full).

(** The broken-down result of vscp_from_unix_ns. *)
Record civil_time := CivilTime {
  c_year : Z; c_month : Z; c_day : Z;
  c_hour : Z; c_minute : Z; c_second : Z;
  c_timestamp : Z (** microseconds, [uint32_t] *)
}.

Definition vscp_from_unix_ns (unix_ns : Z) : civil_time :=
  let sec := Z.quot unix_ns NS_PER_SEC in
  let nsec := Z.rem unix_ns NS_PER_SEC in
  let '(sec, nsec) :=
    if nsec <? 0 then (sec - 1, nsec + NS_PER_SEC) else (sec, nsec) in
  let days := Z.quot sec SECS_PER_DAY in
  let rem := Z.rem sec SECS_PER_DAY in
  let '(rem, days) :=
    if rem <? 0 then (rem + SECS_PER_DAY, days - 1) else (rem, days) in
  let '(y, m, d) := civil_from_days days in
  let hour := Z.quot rem 3600 in
  let rem := Z.rem rem 3600 in
  CivilTime y m d hour (Z.quot rem 60) (Z.rem rem 60) (u32 (Z.quot nsec 1000)).

(** ** The calendar, as a specification *)

Definition leap (y : Z) : bool :=
  (y mod 4 =? 0) && (negb (y mod 100 =? 0) || (y mod 400 =? 0)).

Definition month_days (y m : Z) : Z :=
  if m =? 2 then if leap y then 29 else 28
  else if (m =? 4) || (m =? 6) || (m =? 9) || (m =? 11) then 30
  else 31.

Definition valid_date (y m d : Z) : Prop := 1 <= m <= 12 /\ 1 <= d <= month_days y m.

(** Years count from March: [march_year] days before the year [y] of an era,
    [march_month] days before its month [mp] (March is 0). *)
Definition march_year (y : Z) : Z := 365 * y + y / 4 - y / 100.
Definition march_month (mp : Z) : Z := (153 * mp + 2) / 5.
Definition march_days (mp : Z) : Z :=
  if mp =? 11 then 29
  else if (mp =? 1) || (mp =? 3) || (mp =? 6) || (mp =? 8) then 30
  else 31.

(** Day of the era (0 to 146096) to the year of the era. *)
Definition era_year (doe : Z) : Z :=
  (doe - doe / 1460 + doe / 36524 - doe / 146096) / 365.

Lemma era_year_mono a b :
  0 <= a <= b -> b <= 146096 ->
  a - a / 1460 + a / 36524 - a / 146096 <= b - b / 1460 + b / 36524 - b / 146096.
Proof.
  intros Ha Hb. assert (a / 146096 = 0 \/ a = 146096) as [H|H] by dlia; [|subst; dlia].
  assert (b / 146096 = 0 \/ b = 146096) as [H'|H'] by dlia; [dlia|].
  subst b. rewrite H. dlia.
Qed.

(** Every year of an era starts and ends where [march_year] says. *)
Definition era_year_check (y : Z) : bool :=
  (era_year (march_year y) =? y)
  && (era_year (if y =? 399 then 146096 else march_year (y + 1) - 1) =? y).

Lemma era_year_checked : all_below 400 era_year_check = true.
Proof. vm_compute. reflexivity. Qed.

Lemma era_year_spec y doe :
  0 <= y < 400 ->
  march_year y <= doe <= (if y =? 399 then 146096 else march_year (y + 1) - 1) ->
  era_year doe = y.
Proof.
  intros Hy Hd.
  assert (C := all_below_spec 400 _ y era_year_checked ltac:(lia)).
  unfold era_year_check in C. apply andb_prop in C as [C1 C2].
  apply Z.eqb_eq in C1, C2.
  set (e := if y =? 399 then 146096 else march_year (y + 1) - 1) in *.
  assert (0 <= march_year y /\ e <= 146096) as [H0 He].
  { subst e. unfold march_year. destruct (Z.eqb_spec y 399); dlia. }
  unfold era_year in *.
  assert (M1 := era_year_mono (march_year y) doe ltac:(lia) ltac:(lia)).
  assert (M2 := era_year_mono doe e ltac:(lia) ltac:(lia)).
  apply (Z.div_le_mono _ _ 365) in M1, M2; lia.
Qed.

Lemma era_year_exists doe :
  0 <= doe <= 146096 ->
  exists y, 0 <= y < 400 /\
    march_year y <= doe <= (if y =? 399 then 146096 else march_year (y + 1) - 1).
Proof.
  intros Hd.
  assert (G : forall n, (n <= 400)%nat -> doe < march_year (Z.of_nat n) ->
            exists y, 0 <= y < Z.of_nat n /\ march_year y <= doe < march_year (y + 1)).
  { induction n as [|n IH]; intros Hn Hlt.
    - change (march_year (Z.of_nat 0)) with 0 in Hlt. lia.
    - destruct (Z.ltb_spec doe (march_year (Z.of_nat n))).
      + destruct IH as (y & ? & ?); [lia|assumption|]. exists y. lia.
      + exists (Z.of_nat n). rewrite Nat2Z.inj_succ in Hlt.
        replace (Z.of_nat n + 1) with (Z.succ (Z.of_nat n)) by lia. lia. }
  destruct (Z.eq_dec doe 146096) as [->|].
  - exists 399. vm_compute. intuition discriminate.
  - destruct (G 400%nat) as (y & Hy & Hr); [lia|change (march_year (Z.of_nat 400)) with 146096; lia|].
    exists y. split; [lia|]. destruct (Z.eqb_spec y 399); lia.
Qed.

(** Truncating division, corrected for negative numbers, is the floor. *)
Lemma quot_floor n x :
  0 < n -> Z.quot (if 0 <=? x then x else x - (n - 1)) n = x / n.
Proof.
  intros Hn. destruct (Z.leb_spec 0 x).
  - apply Z.quot_div_nonneg; lia.
  - replace (x - (n - 1)) with (- (n - 1 - x)) by ring.
    rewrite Z.quot_opp_l, Z.quot_div_nonneg by lia.
    assert (B := Z.mod_pos_bound x n Hn). assert (E := Z.div_mod x n ltac:(lia)).
    rewrite <- (Z.div_unique (n - 1 - x) n (- (x / n)) (n - 1 - x mod n)) by lia.
    lia.
Qed.

Definition shift_year (y m : Z) : Z := y - (if m <=? 2 then 1 else 0).
Definition shift_month (m : Z) : Z := if 2 <? m then m - 3 else m + 9.

(** The day number of a date in the proleptic Gregorian calendar. *)
Definition civil_day (y m d : Z) : Z :=
  shift_year y m / 400 * 146097 + march_year (shift_year y m mod 400)
  + march_month (shift_month m) + d - 1 - 719468.

Lemma days_from_civil_eq y m d :
  1 <= m <= 12 -> 1 <= d <= 31 -> days_from_civil y m d = civil_day y m d.
Proof.
  intros Hm Hd. unfold days_from_civil, civil_day. fold (shift_year y m).
  change 399 with (400 - 1). rewrite quot_floor by lia.
  set (y' := shift_year y m).
  replace (m + (if 2 <? m then -3 else 9)) with (shift_month m)
    by (unfold shift_month; destruct (2 <? m); lia).
  assert (Hs : 0 <= shift_month m <= 11)
    by (unfold shift_month; destruct (Z.ltb_spec 2 m); lia).
  rewrite Z.quot_div_nonneg by lia. unfold march_month.
  set (k := shift_month m) in *. clearbody k y'.
  unfold march_year. width.
Qed.

Lemma civil_from_days_eq era yoe doy :
  0 <= yoe < 400 -> 0 <= doy <= 365 ->
  march_year yoe + doy <= (if yoe =? 399 then 146096 else march_year (yoe + 1) - 1) ->
  civil_from_days (era * 146097 + march_year yoe + doy - 719468)
  = (let mp := (5 * doy + 2) / 153 in
     let m := if mp <? 10 then mp + 3 else mp - 9 in
     (s32 (yoe + era * 400 + (if m <=? 2 then 1 else 0)), m,
      doy - march_month mp + 1)).
Proof.
  intros Hy Hd Hr.
  assert (Hb : 0 <= march_year yoe /\ march_year yoe + doy <= 146096).
  { unfold march_year in *. destruct (Z.eqb_spec yoe 399); dlia. }
  unfold civil_from_days.
  replace (era * 146097 + march_year yoe + doy - 719468 + 719468)
    with (era * 146097 + (march_year yoe + doy)) by ring.
  cbv zeta.
  assert (Eq : forall z, z = era * 146097 + (march_year yoe + doy) ->
            Z.quot (if 0 <=? z then z else z - 146096) 146097 = era).
  { intros z ->. change 146096 with (146097 - 1). rewrite quot_floor by lia.
    rewrite Z.div_add_l, (Z.div_small (march_year yoe + doy)) by lia. lia. }
  rewrite !(Eq _ eq_refl). clear Eq.
  replace (era * 146097 + (march_year yoe + doy) - era * 146097)
    with (march_year yoe + doy) by ring.
  rewrite (u32_id (march_year yoe + doy)) by width.
  assert (Hn : forall doe, 0 <= doe <= 146096 ->
            is_u32 (doe - doe / 1460 + doe / 36524 - doe / 146096)) by (intros; width).
  rewrite (u32_id (_ - _ + _ - _)) by (apply Hn; lia). clear Hn.
  fold (era_year (march_year yoe + doy)).
  rewrite (era_year_spec yoe) by lia.
  fold (march_year yoe).
  replace (march_year yoe + doy - march_year yoe) with doy by ring.
  rewrite (u32_id doy) by width.
  fold (march_month ((5 * doy + 2) / 153)).
  cbv zeta. set (mp := (5 * doy + 2) / 153).
  assert (Hmp : 0 <= mp <= 11) by (subst mp; dlia).
  rewrite (u32_id (doy - _ + 1)) by (subst mp; unfold march_month; width).
  assert (Em : u32 (mp + (if mp <? 10 then 3 else -9))
               = if mp <? 10 then mp + 3 else mp - 9).
  { destruct (Z.ltb_spec mp 10); width. }
  rewrite Em. f_equal; [f_equal|].
  - destruct (Z.ltb_spec mp 10); width.
  - subst mp. unfold march_month. width.
Qed.

(** Month of a March-based day of the year. *)
Lemma march_month_inv mp d :
  0 <= mp <= 11 -> 1 <= d <= march_days mp ->
  (5 * (march_month mp + d - 1) + 2) / 153 = mp.
Proof.
  intros Hm Hd.
  assert (mp = 0 \/ mp = 1 \/ mp = 2 \/ mp = 3 \/ mp = 4 \/ mp = 5 \/ mp = 6
          \/ mp = 7 \/ mp = 8 \/ mp = 9 \/ mp = 10 \/ mp = 11) by lia.
  unfold march_month, march_days in *.
  intuition (subst; cbn in *; dlia).
Qed.

Lemma year_length yoe :
  0 <= yoe < 400 ->
  (if yoe =? 399 then 146096 else march_year (yoe + 1) - 1)
  = march_year yoe + 364 + (if leap (yoe + 1) then 1 else 0).
Proof.
  intros Hy.
  assert (C : all_below 400 (fun y =>
            (if y =? 399 then 146096 else march_year (y + 1) - 1)
            =? march_year y + 364 + (if leap (y + 1) then 1 else 0)) = true)
    by (vm_compute; reflexivity).
  apply Z.eqb_eq, (all_below_spec _ _ yoe C). lia.
Qed.

Lemma leap_mod y k : leap (y mod 400 + k) = leap (y + k).
Proof.
  unfold leap. replace ((y mod 400 + k) mod 4) with ((y + k) mod 4) by dlia.
  replace ((y mod 400 + k) mod 100) with ((y + k) mod 100) by dlia.
  replace ((y mod 400 + k) mod 400) with ((y + k) mod 400) by dlia.
  reflexivity.
Qed.

(** ** The C library's broken-down time

    The fields of [struct tm] the code uses, with [timegm] and [gmtime_r] of
    the C library: [timegm] normalises an out-of-range month into the year and
    is linear in the other fields. *)

Record tm := Tm {
  tm_year : Z; (** since 1900 *) tm_mon : Z; (** 0 to 11 *) tm_mday : Z;
  tm_hour : Z; tm_min : Z; tm_sec : Z
}.

Definition timegm (t : tm) : Z :=
  (civil_day (tm_year t + 1900 + tm_mon t / 12) (tm_mon t mod 12 + 1) 1
   + tm_mday t - 1) * 86400
  + tm_hour t * 3600 + tm_min t * 60 + tm_sec t.

Definition gmtime (t : Z) : tm :=
  let z := t / 86400 + 719468 in
  let era := z / 146097 in
  let doe := z mod 146097 in
  let yoe := era_year doe in
  let doy := doe - march_year yoe in
  let mp := (5 * doy + 2) / 153 in
  let m := if mp <? 10 then mp + 3 else mp - 9 in
  Tm (yoe + era * 400 + (if m <=? 2 then 1 else 0) - 1900) (m - 1)
     (doy - march_month mp + 1)
     (t mod 86400 / 3600) (t mod 3600 / 60) (t mod 60).

(** ** Properties of the calendar conversion *)

(** Years for which no intermediate [int] of the conversion overflows. *)
Definition int_year (y : Z) : Prop := -2147483247 <= y <= 2147483647.

Lemma s32_id x : -2147483648 <= x <= 2147483647 -> s32 x = x.
Proof. width. Qed.
(** The day-of-year of a valid date fits its March-based year. *)
Lemma valid_date_fits y m d :
  valid_date y m d ->
  let yoe := shift_year y m mod 400 in
  let doy := march_month (shift_month m) + d - 1 in
  0 <= doy <= 365
  /\ march_year yoe + doy <= (if yoe =? 399 then 146096 else march_year (yoe + 1) - 1)
  /\ 0 <= shift_month m <= 11 /\ d <= march_days (shift_month m).
Proof.
  intros [Hm Hd]. cbv zeta.
  rewrite year_length by dlia. rewrite leap_mod.
  assert (m = 1 \/ m = 2 \/ m = 3 \/ m = 4 \/ m = 5 \/ m = 6 \/ m = 7
          \/ m = 8 \/ m = 9 \/ m = 10 \/ m = 11 \/ m = 12) as C by lia.
  unfold march_month, march_days, month_days, shift_month, shift_year in *.
  repeat destruct C as [->|C]; try subst m; eval_cmp;
    try replace (y - 1 + 1) with y by lia;
    try destruct (leap y); try destruct (leap (y - 0 + 1)); dlia.
Qed.

Lemma civil_days_inverse y m d :
  int_year y -> valid_date y m d ->
  civil_from_days (days_from_civil y m d) = (y, m, d).
Proof.
  intros Hy Hv. destruct (valid_date_fits y m d Hv) as (H1 & H2 & H3 & H4).
  destruct Hv as [Hm Hd].
  rewrite days_from_civil_eq by (unfold month_days in Hd; repeat case_match; lia).
  unfold civil_day.
  set (yoe := shift_year y m mod 400) in *.
  set (doy := march_month (shift_month m) + d - 1) in *.
  replace (shift_year y m / 400 * 146097 + march_year yoe
           + march_month (shift_month m) + d - 1 - 719468)
    with (shift_year y m / 400 * 146097 + march_year yoe + doy - 719468)
    by (subst doy; lia).
  assert (Hyoe : 0 <= yoe < 400) by (subst yoe; dlia).
  rewrite civil_from_days_eq by lia. cbv zeta.
  subst doy. rewrite march_month_inv by lia.
  replace (if shift_month m <? 10 then _ else _) with m.
  2: { unfold shift_month. destruct (Z.ltb_spec 2 m).
       - destruct (Z.ltb_spec (m - 3) 10); lia.
       - destruct (Z.ltb_spec (m + 9) 10); lia. }
  f_equal; [f_equal|lia].
  replace (yoe + shift_year y m / 400 * 400) with (shift_year y m)
    by (subst yoe; dlia).
  unfold shift_year, int_year in *.
  destruct (m <=? 2); rewrite s32_id; lia.
Qed.

Lemma days_civil_inverse z :
  -784000000000 <= z <= 784000000000 ->
  let '(y, m, d) := civil_from_days z in
  days_from_civil y m d = z /\ 1 <= m <= 12 /\ 1 <= d <= 31.
Proof.
  intros Hz.
  destruct (era_year_exists ((z + 719468) mod 146097)) as (yoe & Hy & Hr); [dlia|].
  set (era := (z + 719468) / 146097). set (doe := (z + 719468) mod 146097) in *.
  assert (Hdoy : 0 <= doe - march_year yoe <= 365).
  { rewrite year_length in Hr by lia. destruct (leap (yoe + 1)); lia. }
  set (doy := doe - march_year yoe) in *.
  assert (Ez : z = era * 146097 + march_year yoe + doy - 719468)
    by (subst era doy doe; dlia).
  assert (He : -5366400 <= era <= 5366400) by (subst era; dlia).
  assert (Hfit : march_year yoe + doy
                 <= (if yoe =? 399 then 146096 else march_year (yoe + 1) - 1))
    by (subst doy; lia).
  clearbody doy doe era. subst z.
  rewrite civil_from_days_eq by lia. cbv zeta.
  set (mp := (5 * doy + 2) / 153). assert (Hmp : 0 <= mp <= 11) by (subst mp; dlia).
  set (m := if mp <? 10 then mp + 3 else mp - 9).
  assert (Hm : 1 <= m <= 12 /\ shift_month m = mp).
  { subst m. unfold shift_month. destruct (Z.ltb_spec mp 10).
    - destruct (Z.ltb_spec 2 (mp + 3)); lia.
    - destruct (Z.ltb_spec 2 (mp - 9)); lia. }
  assert (Hd : 1 <= doy - march_month mp + 1 <= 31).
  { subst mp. unfold march_month. dlia. }
  rewrite s32_id by (destruct (m <=? 2); lia).
  split; [|lia]. rewrite days_from_civil_eq by lia. unfold civil_day.
  destruct Hm as [_ ->]. unfold shift_year.
  replace (yoe + era * 400 + (if m <=? 2 then 1 else 0) - (if m <=? 2 then 1 else 0))
    with (era * 400 + yoe) by lia.
  rewrite Z.div_add_l, (Z.div_small yoe) by lia.
  replace ((era * 400 + yoe) mod 400) with yoe by dlia.
  lia.
Qed.

(** The time of day and the floor corrections of vscp_from_unix_ns. *)
Lemma floor_split x n :
  0 < n ->
  (if Z.rem x n <? 0 then (Z.quot x n - 1, Z.rem x n + n)
   else (Z.quot x n, Z.rem x n)) = (x / n, x mod n).
Proof.
  intros Hn. destruct (Z.ltb_spec (Z.rem x n) 0).
  - f_equal; [apply (Z.div_unique x n _ (Z.rem x n + n))
             |apply (Z.mod_unique x n (Z.quot x n - 1))];
      assert (Q := Z.quot_rem' x n); assert (B := Z.rem_bound_abs x n); lia.
  - f_equal; [apply (Z.div_unique x n _ (Z.rem x n))
             |apply (Z.mod_unique x n (Z.quot x n))];
      assert (Q := Z.quot_rem' x n); assert (B := Z.rem_bound_abs x n); lia.
Qed.

Lemma floor_split' x n :
  0 < n ->
  (if Z.rem x n <? 0 then (Z.rem x n + n, Z.quot x n - 1)
   else (Z.rem x n, Z.quot x n)) = (x mod n, x / n).
Proof.
  intros Hn. assert (F := floor_split x n Hn).
  destruct (Z.rem x n <? 0); congruence.
Qed.

Lemma vscp_from_unix_ns_eq ns :
  vscp_from_unix_ns ns
  = (let sec := ns / NS_PER_SEC in
     let '(y, m, d) := civil_from_days (sec / SECS_PER_DAY) in
     let rem := sec mod SECS_PER_DAY in
     CivilTime y m d (rem / 3600) (rem mod 3600 / 60) (rem mod 60)
       (ns mod NS_PER_SEC / 1000)).
Proof.
  unfold vscp_from_unix_ns. rewrite floor_split by (unfold NS_PER_SEC; lia).
  rewrite floor_split' by (unfold SECS_PER_DAY; lia). cbv zeta.
  destruct (civil_from_days _) as [[y m] d].
  unfold NS_PER_SEC, SECS_PER_DAY. set (s := ns / 1000000000).
  f_equal; rewrite ?Z.quot_div_nonneg, ?Z.rem_mod_nonneg
    by (rewrite ?Z.rem_mod_nonneg by dlia; dlia); width.
Qed.

(** Converting a valid UTC date and time of day to nanoseconds and back
    gives the same fields, for every year the 32-bit [int] arithmetic can hold
    and every microsecond count below one second. *)
Theorem from_unix_ns_to_unix_ns (y m d h mi s us : Z) :
  int_year y -> valid_date y m d ->
  0 <= h < 24 -> 0 <= mi < 60 -> 0 <= s < 60 -> 0 <= us < 1000000 ->
  vscp_from_unix_ns (vscp_to_unix_ns y m d h mi s us) = CivilTime y m d h mi s us.
Proof.
  intros Hy Hv Hh Hmi Hs Hus. rewrite vscp_from_unix_ns_eq.
  unfold vscp_to_unix_ns, NS_PER_SEC, SECS_PER_DAY. cbv zeta.
  assert (C := civil_days_inverse y m d Hy Hv).
  set (days := days_from_civil y m d) in *.
  replace (((days * 86400 + h * 3600 + mi * 60 + s) * 1000000000 + us * 1000)
             / 1000000000) with (days * 86400 + h * 3600 + mi * 60 + s) by dlia.
  replace ((days * 86400 + h * 3600 + mi * 60 + s) / 86400) with days by dlia.
  rewrite C. f_equal; dlia.
Qed.

Lemma from_unix_ns_to_unix_ns_witness :
  int_year 2024 /\ valid_date 2024 2 29
  /\ vscp_from_unix_ns (vscp_to_unix_ns 2024 2 29 23 59 58 123456)
     = CivilTime 2024 2 29 23 59 58 123456.
Proof.
  assert (H1 : int_year 2024) by (unfold int_year; lia).
  assert (H2 : valid_date 2024 2 29) by (vm_compute; intuition discriminate).
  split; [exact H1|split; [exact H2|]].
  apply from_unix_ns_to_unix_ns; [exact H1|exact H2|lia..].
Defined.

(** Every 64-bit nanosecond count, negative ones included, converts to a
    date and time of day within range and back to itself up to the microsecond
    the broken-down form keeps. *)
Theorem to_unix_ns_from_unix_ns (ns : Z) :
  -9223372036854775808 <= ns < 9223372036854775808 ->
  let t := vscp_from_unix_ns ns in
  vscp_to_unix_ns (c_year t) (c_month t) (c_day t) (c_hour t) (c_minute t)
    (c_second t) (c_timestamp t) = ns - ns mod 1000
  /\ 1 <= c_month t <= 12 /\ 1 <= c_day t <= 31 /\ 0 <= c_hour t < 24
  /\ 0 <= c_minute t < 60 /\ 0 <= c_second t < 60 /\ 0 <= c_timestamp t < 1000000.
Proof.
  intros Hns. rewrite vscp_from_unix_ns_eq. cbv zeta.
  unfold NS_PER_SEC, SECS_PER_DAY.
  assert (I := days_civil_inverse (ns / 1000000000 / 86400) ltac:(dlia)).
  destruct (civil_from_days _) as [[y m] d]. destruct I as (E & Hm & Hd).
  cbn [c_year c_month c_day c_hour c_minute c_second c_timestamp].
  unfold vscp_to_unix_ns, NS_PER_SEC, SECS_PER_DAY. rewrite E.
  repeat split; dlia.
Qed.

Lemma to_unix_ns_from_unix_ns_witness :
  let t := vscp_from_unix_ns (-1) in
  c_year t = 1969 /\ c_timestamp t = 999999
  /\ vscp_to_unix_ns (c_year t) (c_month t) (c_day t) (c_hour t) (c_minute t)
       (c_second t) (c_timestamp t) = -1 - (-1) mod 1000.
Proof.
  split; [vm_compute; reflexivity|split; [vm_compute; reflexivity|]].
  apply (to_unix_ns_from_unix_ns (-1)). lia.
Defined.

(** ** The C library's functions are inverse to each other *)

Lemma timegm_gmtime t : timegm (gmtime t) = t.
Proof.
  unfold timegm, gmtime. cbn [tm_year tm_mon tm_mday tm_hour tm_min tm_sec].
  set (z := t / 86400 + 719468).
  destruct (era_year_exists (z mod 146097)) as (yoe & Hy & Hr); [dlia|].
  rewrite (era_year_spec yoe) by assumption.
  set (era := z / 146097). set (doe := z mod 146097) in *.
  assert (Hdoy : 0 <= doe - march_year yoe <= 365).
  { rewrite year_length in Hr by lia. destruct (leap (yoe + 1)); lia. }
  set (doy := doe - march_year yoe) in *.
  set (mp := (5 * doy + 2) / 153). assert (Hmp : 0 <= mp <= 11) by (subst mp; dlia).
  set (m := if mp <? 10 then mp + 3 else mp - 9).
  assert (Hm : 1 <= m <= 12 /\ shift_month m = mp).
  { subst m. unfold shift_month. destruct (Z.ltb_spec mp 10).
    - destruct (Z.ltb_spec 2 (mp + 3)); lia.
    - destruct (Z.ltb_spec 2 (mp - 9)); lia. }
  rewrite (Z.div_small (m - 1)), (Z.mod_small (m - 1)) by lia.
  replace (m - 1 + 1) with m by lia.
  unfold civil_day. destruct Hm as [_ ->]. unfold shift_year.
  match goal with |- context [?a / 400] => replace a with (era * 400 + yoe) by lia end.
  rewrite Z.div_add_l, (Z.div_small yoe) by lia.
  replace ((era * 400 + yoe) mod 400) with yoe by dlia.
  subst doy doe era z. clearbody mp. dlia.
Qed.

Lemma timegm_date y m d h mi s :
  1 <= m <= 12 -> 1 <= d <= 31 ->
  timegm (Tm (y - 1900) (m - 1) d h mi s)
  = days_from_civil y m d * 86400 + h * 3600 + mi * 60 + s.
Proof.
  intros Hm Hd. rewrite days_from_civil_eq by lia. unfold timegm.
  cbn [tm_year tm_mon tm_mday tm_hour tm_min tm_sec].
  rewrite (Z.div_small (m - 1)), (Z.mod_small (m - 1)) by lia.
  replace (y - 1900 + 1900 + 0) with y by lia. replace (m - 1 + 1) with m by lia.
  unfold civil_day. lia.
Qed.

(** The ranges of the fields of [gmtime] for the times of this millennium. *)
Lemma gmtime_range t :
  0 <= t < 20000000000 ->
  let g := gmtime t in
  0 <= tm_year g + 1900 < 65536 /\ 0 <= tm_mon g <= 11 /\ 1 <= tm_mday g <= 31
  /\ 0 <= tm_hour g < 24 /\ 0 <= tm_min g < 60 /\ 0 <= tm_sec g < 60.
Proof.
  intros Ht. cbv zeta. unfold gmtime.
  cbn [tm_year tm_mon tm_mday tm_hour tm_min tm_sec].
  set (z := t / 86400 + 719468).
  destruct (era_year_exists (z mod 146097)) as (yoe & Hy & Hr); [dlia|].
  rewrite (era_year_spec yoe) by assumption.
  assert (Hz : 719468 <= z <= 951000) by (subst z; dlia).
  assert (He : 0 <= z / 146097 <= 6) by dlia.
  set (era := z / 146097) in *. set (doe := z mod 146097) in *.
  assert (Hdoy : 0 <= doe - march_year yoe <= 365).
  { rewrite year_length in Hr by lia. destruct (leap (yoe + 1)); lia. }
  set (doy := doe - march_year yoe) in *.
  set (mp := (5 * doy + 2) / 153). assert (Hmp : 0 <= mp <= 11) by (subst mp; dlia).
  assert (Hd : 1 <= doy - march_month mp + 1 <= 31)
    by (subst mp; unfold march_month; dlia).
  clearbody era doe doy mp z.
  repeat split; try dlia; destruct (Z.ltb_spec mp 10);
    try (destruct (Z.leb_spec (mp + 3) 2)); try (destruct (Z.leb_spec (mp - 9) 2)); lia.
Qed.
