(* ===== verification/Fifo.v ===== *)
(** * The byte FIFO: src/src/common/fifo.c

    A ring buffer over memory that the caller provides.  The operations are
    modelled on the structure as it is, over the memory behind [buf], and
    related to a bounded queue of bytes.  The comment at the end of the source
    shows the intended use, an interrupt that writes while the main program
    reads: here as a step relation in which the interrupt may come between any
    two accesses of the reader. *)

From stdpp Require Import relations.
From S2P Require Import Prelude.

(** ** The structure and its operations *)

Record fifo_t := Fifo { buf : list Z; head : Z; tail : Z; size : Z }.

Definition fifo_init (mem : list Z) (sz : Z) : fifo_t := Fifo mem 0 0 sz.

(** An index that reaches the size goes back to 0. *)
Definition wrap (size i : Z) : Z := if i =? size then 0 else i.

(** Bytes go to [p], from its index [i] on.  The loop ends when nothing is left. *)
Fixpoint read_loop (n : nat) (i : Z) (f : fifo_t) (p : list Z) : option (Z * fifo_t * list Z) :=
  match n with
  | O => Some (i, f, p)
  | S n =>
      if negb (tail f =? head f) then
        b ← rd (buf f) (Z.to_nat (tail f));
        p ← wr p (Z.to_nat i) [b];
        read_loop n (u16 (i + 1))
          (Fifo (buf f) (head f) (wrap (size f) (u16 (tail f + 1))) (size f)) p
      else Some (i, f, p)
  end.

Definition fifo_read (f : fifo_t) (p : list Z) (nbytes : Z) : option (Z * fifo_t * list Z) :=
  read_loop (Z.to_nat nbytes) 0 f p.

(** The test for a full FIFO, in int. *)
Definition full (f : fifo_t) : bool :=
  (head f + 1 =? tail f) || ((head f + 1 =? size f) && (tail f =? 0)).

Fixpoint write_loop (n : nat) (i : Z) (f : fifo_t) (p : list Z) : option (Z * fifo_t) :=
  match n with
  | O => Some (i, f)
  | S n =>
      if full f then Some (i, f)
      else
        b ← rd p (Z.to_nat i);
        mem ← wr (buf f) (Z.to_nat (head f)) [b];
        write_loop n (u32 (i + 1))
          (Fifo mem (wrap (size f) (u16 (head f + 1))) (tail f) (size f)) p
  end.

(** The count is a uint32_t, the result a uint16_t. *)
Definition fifo_write (f : fifo_t) (p : list Z) (nbytes : Z) : option (Z * fifo_t) :=
  '(n, f) ← write_loop (Z.to_nat nbytes) 0 f p;
  Some (u16 n, f).

Definition fifo_getFree (f : fifo_t) : Z :=
  if head f <? tail f then u16 (tail f - head f)
  else u16 (size f + (tail f - head f)).

(** ** The abstract queue

    What the FIFO holds, oldest byte first: [used] bytes from [tail] on,
    around the end of the buffer. *)

Definition used (f : fifo_t) : Z :=
  if tail f <=? head f then head f - tail f else size f - tail f + head f.

Definition slot (f : fifo_t) (k : nat) : nat :=
  let i := tail f + Z.of_nat k in Z.to_nat (if i <? size f then i else i - size f).

Definition contents (f : fifo_t) : list Z :=
  map (fun k => nth (slot f k) (buf f) 0) (seq 0 (Z.to_nat (used f))).

Definition capacity (f : fifo_t) : nat := Z.to_nat (size f - 1).

(** The invariant. *)
Record fifo_ok (f : fifo_t) : Prop := {
  ok_size : 0 < size f < 2 ^ 16;
  ok_head : 0 <= head f < size f;
  ok_tail : 0 <= tail f < size f;
  ok_buf : size f <= Z.of_nat (length (buf f))
}.

(** The specification: a queue with a capacity. *)
Definition queue_write (cap : nat) (q bs : list Z) : nat * list Z :=
  let k := Nat.min (length bs) (cap - length q) in (k, q ++ take k bs).

Definition queue_read (q : list Z) (n : nat) : list Z * list Z := (take n q, drop n q).

(** ** Reading with interrupts

    The reader, in fifo_read, between its accesses of the structure: before the
    test, before the byte is taken, before [tail] is incremented, before the
    test for the end of the buffer and before [tail] is set to 0. *)
Inductive place := Test | Take | Advance | WrapTest | Wrap.

(** [got] is what the reader has put in its buffer, [accepted] what fifo_write
    took in all its calls. *)
Record machine := Machine { fifo : fifo_t; reader : place; got : list Z; accepted : list Z }.

Definition set_tail (f : fifo_t) (t : Z) : fifo_t := Fifo (buf f) (head f) t (size f).

Inductive step : machine -> machine -> Prop :=
  | step_interrupt m p n k f' :
      (n <= length p)%nat -> is_u32 (Z.of_nat n) ->
      fifo_write (fifo m) p (Z.of_nat n) = Some (k, f') ->
      step m (Machine f' (reader m) (got m) (accepted m ++ take (Z.to_nat k) p))
  | step_empty f g a : tail f = head f -> step (Machine f Test g a) (Machine f Test g a)
  | step_data f g a : tail f <> head f -> step (Machine f Test g a) (Machine f Take g a)
  | step_take f g a b :
      rd (buf f) (Z.to_nat (tail f)) = Some b ->
      step (Machine f Take g a) (Machine f Advance (g ++ [b]) a)
  | step_advance f g a :
      step (Machine f Advance g a) (Machine (set_tail f (u16 (tail f + 1))) WrapTest g a)
  | step_at_end f g a : tail f = size f -> step (Machine f WrapTest g a) (Machine f Wrap g a)
  | step_inside f g a : tail f <> size f -> step (Machine f WrapTest g a) (Machine f Test g a)
  | step_wrap f g a : step (Machine f Wrap g a) (Machine (set_tail f 0) Test g a).

Definition start (mem : list Z) (sz : Z) : machine := Machine (fifo_init mem sz) Test [] [].

(** ** One byte *)

Section byte.
Variables (f : fifo_t) (Hf : fifo_ok f).

Let Hs := ok_size f Hf.
Let Hh := ok_head f Hf.
Let Ht := ok_tail f Hf.
Let Hb := ok_buf f Hf.

Lemma wrap_cases i : 0 <= i < size f ->
  wrap (size f) (u16 (i + 1)) = if i + 1 =? size f then 0 else i + 1.
Proof using Hs. intros. unfold wrap. rewrite u16_id by width. reflexivity. Qed.

Lemma used_bound : 0 <= used f < size f.
Proof using All. unfold used. destruct (Z.leb_spec (tail f) (head f)); lia. Qed.

Lemma length_contents : length (contents f) = Z.to_nat (used f).
Proof using Type. unfold contents. rewrite length_map, length_seq. reflexivity. Qed.

Lemma full_spec : full f = (used f =? size f - 1).
Proof using All.
  unfold full, used. destruct (Z.leb_spec (tail f) (head f)); apply eq_bool_prop_intro; rewrite orb_True, andb_True, !Is_true_true, !Z.eqb_eq; lia.
Qed.


(** The place behind the last byte. *)
Lemma slot_head k : Z.of_nat k = used f -> slot f k = Z.to_nat (head f).
Proof using All.
  intros Hk. unfold slot, used in *. destruct (Z.leb_spec (tail f) (head f)), (Z.ltb_spec (tail f + Z.of_nat k) (size f)); f_equal; lia.
Qed.

Lemma slot_not_head k : Z.of_nat k < used f -> slot f k <> Z.to_nat (head f).
Proof using All.
  intros Hk. unfold slot, used in *. destruct (Z.leb_spec (tail f) (head f)), (Z.ltb_spec (tail f + Z.of_nat k) (size f)); lia.
Qed.

Lemma put_byte b : full f = false ->
  exists mem, wr (buf f) (Z.to_nat (head f)) [b] = Some mem /\
    let f' := Fifo mem (wrap (size f) (u16 (head f + 1))) (tail f) (size f) in
    fifo_ok f' /\ contents f' = contents f ++ [b].
Proof using All.
  rewrite full_spec, Z.eqb_neq. intros Hu. assert (B := used_bound).
  destruct (wr (buf f) (Z.to_nat (head f)) [b]) as [mem|] eqn:E.
  2:{ unfold wr in E. cbn [length] in E.
      destruct (Nat.leb_spec (Z.to_nat (head f) + 1) (length (buf f))); [discriminate E|lia]. }
  exists mem. split; [reflexivity|]. assert (L := wr_length _ _ _ _ E). rewrite wrap_cases by exact Hh.
  split; [split; cbn; try lia; destruct (Z.eqb_spec (head f + 1) (size f)); lia|].
  assert (U : used (Fifo mem (if head f + 1 =? size f then 0 else head f + 1) (tail f) (size f)) = used f + 1).
  { unfold used in *. cbn in *. destruct (Z.eqb_spec (head f + 1) (size f)), (Z.leb_spec (tail f) (head f));
      repeat match goal with |- context [?a <=? ?b] => destruct (Z.leb_spec a b) end; lia. }
  unfold contents. rewrite U. replace (Z.to_nat (used f + 1)) with (S (Z.to_nat (used f))) by lia.
  rewrite seq_S, map_app. cbn [map]. f_equal.
  - apply map_ext_in. intros k Hk%in_seq. rewrite !nth_lookup. f_equal.
    change (slot (Fifo mem _ _ _) k) with (slot f k). cbn [buf].
    rewrite (wr_lookup _ _ _ _ _ E). assert (N := slot_not_head k). cbn [length].
    destruct (Nat.ltb_spec (slot f k) (Z.to_nat (head f))); [reflexivity|].
    destruct (Nat.ltb_spec (slot f k) (Z.to_nat (head f) + 1)); [lia|reflexivity].
  - f_equal. rewrite Nat.add_0_l, nth_lookup. change (slot (Fifo mem _ _ _) ?k) with (slot f k). cbn [buf].
    rewrite slot_head by lia. rewrite (wr_lookup _ _ _ _ _ E), Nat.ltb_irrefl. cbn [length].
    rewrite (proj2 (Nat.ltb_lt _ _)), Nat.sub_diag by lia. reflexivity.
Qed.

Lemma empty_spec : (tail f =? head f) = (used f =? 0).
Proof using All.
  unfold used. destruct (Z.leb_spec (tail f) (head f)); apply eq_bool_prop_intro; rewrite !Is_true_true, !Z.eqb_eq; lia.
Qed.

(** The oldest byte is at [tail], the others are what follows. *)
Lemma get_byte : (tail f =? head f) = false ->
  exists b, rd (buf f) (Z.to_nat (tail f)) = Some b /\
    let f' := Fifo (buf f) (head f) (wrap (size f) (u16 (tail f + 1))) (size f) in
    fifo_ok f' /\ contents f = b :: contents f'.
Proof using All.
  intros E. assert (E' := E). rewrite empty_spec, Z.eqb_neq in E'. assert (B := used_bound). rewrite Z.eqb_neq in E.
  destruct (lookup_lt_is_Some_2 (buf f) (Z.to_nat (tail f))) as [b Eb]; [lia|].
  exists b. split; [exact Eb|]. rewrite wrap_cases by exact Ht.
  split; [split; cbn; try lia; destruct (Z.eqb_spec (tail f + 1) (size f)); lia|].
  assert (U : used f = 1 + used (Fifo (buf f) (head f) (if tail f + 1 =? size f then 0 else tail f + 1) (size f))).
  { unfold used in *. cbn in *. destruct (Z.eqb_spec (tail f + 1) (size f)), (Z.leb_spec (tail f) (head f));
      repeat match goal with |- context [?a <=? ?b] => destruct (Z.leb_spec a b) end; lia. }
  unfold contents. set (f' := Fifo _ _ _ _) in *. rewrite U.
  replace (Z.to_nat (1 + used f')) with (S (Z.to_nat (used f'))) by lia. cbn [seq map]. f_equal.
  - rewrite nth_lookup. unfold slot. rewrite Z.add_0_r, (proj2 (Z.ltb_lt _ _)) by lia. rewrite Eb. reflexivity.
  - rewrite <- seq_shift, map_map. apply map_ext_in. intros k Hk%in_seq. f_equal. unfold slot, f'. cbn.
    unfold used in *. destruct (Z.eqb_spec (tail f + 1) (size f));
      repeat match goal with |- context [?a <? ?b] => destruct (Z.ltb_spec a b) end; f_equal; lia.
Qed.
End byte.

(** ** The loops *)

Lemma write_loop_spec n i f p :
  fifo_ok f -> 0 <= i -> i + Z.of_nat n < 2 ^ 32 -> (Z.to_nat i + n <= length p)%nat ->
  let k := Nat.min n (Z.to_nat (size f - 1 - used f)) in
  exists f', write_loop n i f p = Some (i + Z.of_nat k, f') /\
    fifo_ok f' /\ size f' = size f /\ tail f' = tail f /\
    contents f' = contents f ++ take k (drop (Z.to_nat i) p).
Proof.
  revert i f. induction n as [|n IH]; intros i f Hf Hi Hn Hp k.
  { exists f. subst k. cbn. rewrite Z.add_0_r, app_nil_r. auto. }
  cbn [write_loop]. assert (B := used_bound f Hf). destruct (full f) eqn:E.
  - rewrite (full_spec f Hf), Z.eqb_eq in E. exists f.
    replace k with 0%nat by lia. rewrite take_0, app_nil_r, Z.add_0_r. auto.
  - destruct (lookup_lt_is_Some_2 p (Z.to_nat i)) as [b R]; [lia|].
    destruct (put_byte f Hf b E) as (mem & W & Hf' & C).
    unfold rd. rewrite R. cbn [mbind option_bind]. rewrite W. cbn [mbind option_bind].
    set (f' := Fifo mem _ _ _) in *. rewrite u32_id by width.
    assert (L : length (contents f') = S (length (contents f))) by (rewrite C, length_app; cbn; lia).
    rewrite !length_contents in L. assert (B' := used_bound f' Hf').
    destruct (IH (i + 1) f' Hf' ltac:(lia) ltac:(lia) ltac:(lia)) as (f'' & E2 & H2 & S2 & T2 & C2).
    change (size f') with (size f) in *. rewrite (full_spec f Hf), Z.eqb_neq in E.
    set (k' := Nat.min n _) in *. replace k with (S k') by lia.
    exists f''. rewrite E2. split; [do 2 f_equal; lia|]. do 3 (split; [assumption|]).
    rewrite C2, C, <- app_assoc, (drop_S p _ _ R). replace (Z.to_nat (i + 1)) with (S (Z.to_nat i)) by lia.
    reflexivity.
Qed.

Lemma read_loop_spec n i f p :
  fifo_ok f -> 0 <= i -> i + Z.of_nat n < 2 ^ 16 -> (Z.to_nat i + n <= length p)%nat ->
  let k := Nat.min n (Z.to_nat (used f)) in
  exists f', read_loop n i f p =
      Some (i + Z.of_nat k, f', take (Z.to_nat i) p ++ take k (contents f) ++ drop (Z.to_nat i + k) p) /\
    fifo_ok f' /\ size f' = size f /\ contents f' = drop k (contents f).
Proof.
  revert i f p. induction n as [|n IH]; intros i f p Hf Hi Hn Hp k.
  { exists f. subst k. cbn [Nat.min]. rewrite take_0, drop_0, Nat.add_0_r, Z.add_0_r, app_nil_l, take_drop. auto. }
  cbn [read_loop]. assert (B := used_bound f Hf). destruct (tail f =? head f) eqn:E; cbn [negb].
  - rewrite (empty_spec f Hf), Z.eqb_eq in E. exists f. replace k with 0%nat by lia.
    rewrite take_0, drop_0, Nat.add_0_r, Z.add_0_r, app_nil_l, take_drop. auto.
  - destruct (get_byte f Hf E) as (b & R & Hf' & C).
    rewrite R. cbn [mbind option_bind].
    rewrite (wr_defined p (Z.to_nat i) [b]) by (cbn; lia). cbn [mbind option_bind length].
    set (f' := Fifo _ _ _ _) in *. rewrite u16_id by width.
    assert (L : length (contents f) = S (length (contents f'))) by (rewrite C; reflexivity).
    rewrite !length_contents in L. assert (B' := used_bound f' Hf').
    set (p' := take _ p ++ _).
    assert (Lp : length p' = length p) by (unfold p'; rewrite !length_app, length_take, length_drop; cbn; lia).
    destruct (IH (i + 1) f' p' Hf' ltac:(lia) ltac:(lia) ltac:(lia)) as (f'' & E2 & H2 & S2 & C2).
    set (k' := Nat.min n _) in *. assert (K : k = S k') by (unfold k; rewrite L; reflexivity). rewrite K.
    exists f''. rewrite E2, C. split; [f_equal; f_equal; [f_equal; lia|]|auto].
    assert (D : length (take (Z.to_nat i) p) = Z.to_nat i) by (rewrite length_take; lia).
    unfold p'. replace (Z.to_nat (i + 1)) with (Z.to_nat i + 1)%nat by lia.
    rewrite (take_app_add' _ _ _ _ (eq_sym D)).
    replace (Z.to_nat i + 1 + k')%nat with (Z.to_nat i + S k')%nat by lia.
    rewrite (drop_app_add' _ _ _ _ (eq_sym D)). cbn [take drop app]. rewrite take_0, drop_drop, <- app_assoc.
    cbn [app]. do 4 f_equal. lia.
Qed.

Lemma take_min_length {A} n (l : list A) : take (Nat.min n (length l)) l = take n l.
Proof. rewrite <- take_take, (take_ge l (length l)) by lia. reflexivity. Qed.

Lemma drop_min_length {A} n (l : list A) : drop (Nat.min n (length l)) l = drop n l.
Proof. destruct (Nat.min_spec n (length l)) as [[_ ->]|[? ->]]; [reflexivity|]. rewrite !drop_ge by lia. reflexivity. Qed.

(** ** Properties *)

(** Fifo_write is the write of a queue with capacity size - 1: it takes as
    many bytes as there is room for, in order, and says how many. *)
Theorem fifo_write_refines f p nbytes :
  fifo_ok f -> is_u32 nbytes -> nbytes <= Z.of_nat (length p) ->
  let '(k, q) := queue_write (capacity f) (contents f) (take (Z.to_nat nbytes) p) in
  exists f', fifo_write f p nbytes = Some (Z.of_nat k, f') /\
    fifo_ok f' /\ capacity f' = capacity f /\ contents f' = q.
Proof.
  intros Hf Hn Hp. unfold queue_write, fifo_write, capacity. assert (B := used_bound f Hf). assert (S := ok_size f Hf).
  destruct (write_loop_spec (Z.to_nat nbytes) 0 f p Hf) as (f' & E & H' & S' & _ & C); [width..|].
  rewrite E, length_contents, length_take_le by lia. cbn [mbind option_bind]. exists f'. rewrite S'.
  split; [rewrite u16_id by width; do 2 f_equal; lia|]. do 2 (split; [auto|]).
  rewrite C, take_take, drop_0. do 2 f_equal. lia.
Qed.

(** Fifo_read is the read of the queue: it takes the oldest bytes, at most
    [nbytes], and puts them at the front of the caller's buffer, whose rest it
    leaves alone. *)
Theorem fifo_read_refines f p nbytes :
  fifo_ok f -> is_u16 nbytes -> nbytes <= Z.of_nat (length p) ->
  let '(bs, q) := queue_read (contents f) (Z.to_nat nbytes) in
  exists f', fifo_read f p nbytes = Some (Z.of_nat (length bs), f', bs ++ drop (length bs) p) /\
    fifo_ok f' /\ capacity f' = capacity f /\ contents f' = q.
Proof.
  intros Hf Hn Hp. unfold queue_read, fifo_read, capacity. assert (B := used_bound f Hf).
  destruct (read_loop_spec (Z.to_nat nbytes) 0 f p Hf) as (f' & E & H' & S' & C); [width..|].
  rewrite E. exists f'. rewrite S', length_take, length_contents, C. cbn [take app Z.to_nat Nat.add Z.add].
  rewrite <- length_contents. split; [|split; [exact H'|split; [reflexivity|apply drop_min_length]]].
  rewrite take_0, take_min_length. reflexivity.
Qed.

(** Fifo_getFree does not return what can be written, as its comment says,
    but one more: one place of the buffer always stays free. *)
Theorem fifo_getFree_spec f :
  fifo_ok f ->
  fifo_getFree f = Z.of_nat (capacity f) - Z.of_nat (length (contents f)) + 1.
Proof.
  intros Hf. rewrite length_contents. assert (B := used_bound f Hf).
  destruct Hf as [Hs Hh Ht _]. unfold fifo_getFree, capacity, used in *.
  destruct (Z.ltb_spec (head f) (tail f)), (Z.leb_spec (tail f) (head f)); try lia; rewrite u16_id by width; lia.
Qed.

(** ** Lemmas: reading with interrupts *)

(** The steps of the reader, when no interrupt comes between, are those of the
    loop of fifo_read. *)
Lemma read_loop_steps n i f p i' f' p' g a : 0 <= i -> i + Z.of_nat n < 2 ^ 16 -> read_loop n i f p = Some (i', f', p') ->
  exists bytes, rtc step (Machine f Test g a) (Machine f' Test (g ++ bytes) a) /\
    i' = i + Z.of_nat (length bytes) /\ p' = take (Z.to_nat i) p ++ bytes ++ drop (Z.to_nat i + length bytes) p.
Proof.
  assert (Stop : forall i f p, exists bytes, rtc step (Machine f Test g a) (Machine f Test (g ++ bytes) a) /\
    i = i + Z.of_nat (length bytes) /\ p = take (Z.to_nat i) p ++ bytes ++ drop (Z.to_nat i + length bytes) p).
  { intros. exists []. rewrite app_nil_r, Nat.add_0_r, Z.add_0_r. split; [reflexivity|]. split; [reflexivity|]. symmetry. apply take_drop. }
  revert i f p g Stop. induction n as [|n IH]; intros i f p g Stop Hi Hn E; [injection E as <- <- <-; apply Stop|]. cbn [read_loop] in E.
  destruct (Z.eqb_spec (tail f) (head f)) as [H|H]; cbn [negb] in E; [injection E as <- <- <-; apply Stop|].
  destruct (rd (buf f) (Z.to_nat (tail f))) as [b|] eqn:R; [|discriminate]. cbn [mbind option_bind] in E.
  destruct (wr p (Z.to_nat i) [b]) as [p1|] eqn:Wp; [|discriminate]. cbn [mbind option_bind] in E. rewrite u16_id in E by width.
  set (f1 := Fifo (buf f) (head f) (wrap (size f) (u16 (tail f + 1))) (size f)) in *.
  destruct (IH (i + 1) f1 p1 (g ++ [b])) as (bytes & St & -> & ->); [|lia|lia|exact E|].
  { intros. exists []. rewrite app_nil_r, Nat.add_0_r, Z.add_0_r. split; [reflexivity|]. split; [reflexivity|]. symmetry. apply take_drop. }
  exists (b :: bytes). split; [|split].
  - eapply rtc_l; [apply step_data; exact H|]. eapply rtc_l; [apply step_take; exact R|]. eapply rtc_l; [apply step_advance|].
    replace (g ++ b :: bytes) with ((g ++ [b]) ++ bytes) by (rewrite <- app_assoc; reflexivity).
    subst f1. unfold wrap in St. destruct (Z.eqb_spec (u16 (tail f + 1)) (size f)) as [Z|Z].
    + eapply rtc_l; [apply step_at_end; exact Z|]. eapply rtc_l; [apply step_wrap|exact St].
    + eapply rtc_l; [apply step_inside; exact Z|exact St].
  - cbn [length]. lia.
  - assert (L : (Z.to_nat i + 1 <= length p)%nat) by (unfold wr in Wp; cbn [length] in Wp; destruct (Nat.leb_spec (Z.to_nat i + 1) (length p)); [assumption|discriminate]).
    rewrite wr_defined in Wp by exact L. injection Wp as <-. cbn [length app].
    replace (Z.to_nat (i + 1)) with (Z.to_nat i + 1)%nat by lia. assert (D : length (take (Z.to_nat i) p) = Z.to_nat i) by (rewrite length_take; lia).
    rewrite (take_app_add' _ _ _ _ (eq_sym D)). replace (Z.to_nat i + 1 + length bytes)%nat with (Z.to_nat i + S (length bytes))%nat by lia.
    rewrite (drop_app_add' _ _ _ _ (eq_sym D)). cbn [take drop]. rewrite take_0, drop_drop, <- app_assoc. cbn [app]. do 4 f_equal. lia.
Qed.

(** So fifo_read is a run of the reader. *)
Lemma fifo_read_steps f p nbytes k f' p' g a : is_u16 nbytes -> fifo_read f p nbytes = Some (k, f', p') ->
  rtc step (Machine f Test g a) (Machine f' Test (g ++ take (Z.to_nat k) p') a) /\ drop (Z.to_nat k) p' = drop (Z.to_nat k) p.
Proof.
  intros Hn E. unfold is_u16 in Hn. destruct (read_loop_steps (Z.to_nat nbytes) 0 f p k f' p' g a ltac:(lia) ltac:(lia) E) as (bytes & St & -> & ->).
  rewrite Z.add_0_l, Nat2Z.id. cbn [Z.to_nat take app Nat.add]. rewrite take_0, app_nil_l, take_app_length, drop_app_length. auto.
Qed.

(** The structure as it is when the reader has finished with the current byte. *)
Definition settled (m : machine) : fifo_t :=
  match reader m with
  | Wrap => set_tail (fifo m) 0
  | WrapTest => set_tail (fifo m) (wrap (size (fifo m)) (tail (fifo m)))
  | _ => fifo m
  end.

(** What was accepted and not yet read. *)
Definition pending (m : machine) : list Z :=
  match reader m with Advance => drop 1 (contents (fifo m)) | _ => contents (settled m) end.

Record machine_ok (m : machine) : Prop := {
  ok_fifo : fifo_ok (settled m);
  ok_bytes : accepted m = got m ++ pending m;
  ok_reader : match reader m with
              | Take | Advance => contents (fifo m) <> []
              | Wrap => tail (fifo m) = size (fifo m)
              | _ => True
              end
}.

(** With [tail] at the end of the buffer the interrupt does what it does with
    [tail] set to 0. *)
Lemma write_loop_at_end n i f p :
  fifo_ok (set_tail f 0) -> tail f = size f ->
  write_loop n i f p =
  ('(k, f') ← write_loop n i (set_tail f 0) p; Some (k, set_tail f' (size f))).
Proof.
  revert i f. induction n as [|n IH]; intros i f Hf Ht.
  { destruct f. cbn in Ht |- *. subst. reflexivity. }
  assert (Hh := ok_head _ Hf). cbn in Hh.
  assert (Fl : full f = full (set_tail f 0)).
  { unfold full. cbn. rewrite Ht, andb_true_r, (proj2 (Z.eqb_neq (head f + 1) 0)), (proj2 (Z.eqb_neq (size f) 0)) by lia.
    rewrite andb_false_r, orb_false_r. reflexivity. }
  cbn [write_loop]. rewrite Fl. destruct (full (set_tail f 0)) eqn:E.
  { destruct f. cbn in Ht |- *. subst. reflexivity. }
  destruct (rd p (Z.to_nat i)) as [b|]; [|reflexivity]. cbn [mbind option_bind].
  destruct (put_byte _ Hf b E) as (mem & W & Hf' & _). cbn [set_tail buf head tail size] in *.
  rewrite W. cbn [mbind option_bind].
  rewrite (IH _ (Fifo mem (wrap (size f) (u16 (head f + 1))) (tail f) (size f)) Hf' Ht). reflexivity.
Qed.

Lemma set_tail_id f : set_tail f (tail f) = f.
Proof. destruct f. reflexivity. Qed.

Lemma write_settled f t p n :
  fifo_ok (set_tail f t) -> t = tail f \/ (tail f = size f /\ t = 0) ->
  is_u32 (Z.of_nat n) -> (n <= length p)%nat ->
  exists k f', fifo_write f p (Z.of_nat n) = Some (k, f') /\
    size f' = size f /\ tail f' = tail f /\ fifo_ok (set_tail f' t) /\
    contents (set_tail f' t) = contents (set_tail f t) ++ take (Z.to_nat k) p.
Proof.
  intros Hf Ht Hn Hp. unfold fifo_write. rewrite Nat2Z.id. assert (B := used_bound _ Hf). assert (Hs := ok_size _ Hf).
  destruct (write_loop_spec n 0 (set_tail f t) p Hf) as (f' & E & H' & S' & T' & C); [width..|].
  set (k := Nat.min n _) in *. assert (Hk : u16 (0 + Z.of_nat k) = Z.of_nat k) by width.
  cbn [set_tail size tail] in S', T'. exists (Z.of_nat k). rewrite Nat2Z.id.
  destruct Ht as [->|[Ht ->]].
  - rewrite set_tail_id in *. rewrite E. cbn [mbind option_bind]. rewrite Hk. exists f'.
    rewrite <- T', set_tail_id, C, drop_0. auto.
  - rewrite (write_loop_at_end n 0 f p Hf Ht), E. cbn [mbind option_bind]. rewrite Hk. exists (set_tail f' (size f)).
    split; [reflexivity|]. split; [exact S'|]. split; [symmetry; exact Ht|].
    replace (set_tail (set_tail f' (size f)) 0) with f' by (rewrite <- T'; destruct f'; reflexivity).
    rewrite C, drop_0. auto.
Qed.

Lemma settled_tail m : machine_ok m ->
  exists t, settled m = set_tail (fifo m) t /\ (t = tail (fifo m) \/ (tail (fifo m) = size (fifo m) /\ t = 0)) /\
    forall f', size f' = size (fifo m) -> tail f' = tail (fifo m) ->
      settled (Machine f' (reader m) (got m) (accepted m)) = set_tail f' t.
Proof.
  intros [Hf Hb Hr]. unfold settled. cbn.
  destruct (reader m); try (exists (tail (fifo m)); rewrite set_tail_id; split; [reflexivity|];
    split; [auto|]; intros f' _ <-; rewrite set_tail_id; reflexivity).
  - exists (wrap (size (fifo m)) (tail (fifo m))). split; [reflexivity|]. split; [|intros f' -> ->; reflexivity].
    unfold wrap. destruct (Z.eqb_spec (tail (fifo m)) (size (fifo m))); auto.
  - exists 0. auto.
Qed.

Lemma interrupt_ok m p n : machine_ok m -> is_u32 (Z.of_nat n) -> (n <= length p)%nat ->
  exists k f', fifo_write (fifo m) p (Z.of_nat n) = Some (k, f') /\ size f' = size (fifo m) /\
    machine_ok (Machine f' (reader m) (got m) (accepted m ++ take (Z.to_nat k) p)).
Proof.
  intros Hm Hn Hp. destruct (settled_tail m Hm) as (t & Et & Ht & Hset). assert (Hm' := Hm). destruct Hm' as [Hf Hb Hr].
  rewrite Et in Hf. destruct (write_settled (fifo m) t p n Hf Ht Hn Hp) as (k & f' & E & S' & T' & Hf' & C).
  exists k, f'. split; [exact E|]. split; [exact S'|]. specialize (Hset f' S' T').
  rewrite <- Hset in Hf', C. rewrite <- Et in C. unfold pending in Hb. split; cbn [fifo reader got accepted].
  - exact Hf'.
  - rewrite Hb, <- app_assoc. f_equal. unfold pending. cbn [fifo reader got accepted].
    destruct m as [f r g a]. destruct r; cbn [reader fifo] in *; unfold settled in *; cbn [reader fifo] in *;
      try (symmetry; exact C). rewrite C. destruct (contents f); [congruence|reflexivity].
  - destruct m as [f r g a]. destruct r; cbn [reader fifo] in *; unfold settled in *; cbn [reader fifo] in *; try exact I;
      try (rewrite C; destruct (contents f); [congruence|discriminate]). congruence.
Qed.

Lemma not_empty f : fifo_ok f -> contents f <> [] -> (tail f =? head f) = false.
Proof.
  intros Hf Hne. rewrite (empty_spec f Hf), Z.eqb_neq. intros U. apply Hne, length_zero_iff_nil.
  rewrite length_contents, U. reflexivity.
Qed.

Lemma step_ok m m' : machine_ok m -> step m m' -> machine_ok m'.
Proof.
  intros Hm St. destruct St as [m p n k f' Hp Hn E|f g a E|f g a E|f g a b E|f g a|f g a E|f g a E|f g a].
  - destruct (interrupt_ok m p n Hm Hn Hp) as (k' & f'' & E' & _ & Hm'). rewrite E in E'. injection E' as <- <-. exact Hm'.
  - exact Hm.
  - destruct Hm as [Hf Hb _]. split; [exact Hf|exact Hb|]. cbn in *.
    apply Z.eqb_neq in E. destruct (get_byte f Hf E) as (b & _ & _ & ->). discriminate.
  - destruct Hm as [Hf Hb Hr]. cbn in Hf, Hb, Hr. destruct (get_byte f Hf (not_empty f Hf Hr)) as (b' & R & _ & C). rewrite E in R. injection R as <-.
    split; [exact Hf| |exact Hr]. cbn in *. rewrite Hb, C, <- app_assoc. reflexivity.
  - destruct Hm as [Hf Hb Hr]. cbn in Hf, Hb, Hr. destruct (get_byte f Hf (not_empty f Hf Hr)) as (b' & R & Hf' & C). split; cbn; [exact Hf'| |exact I].
    unfold pending in *. cbn in *. rewrite Hb, C. reflexivity.
  - destruct Hm as [Hf Hb _]. cbn in *. unfold settled, pending in *. cbn in *. unfold settled, wrap in *. cbn in *.
    rewrite E, Z.eqb_refl in *. split; [exact Hf|exact Hb|exact E].
  - destruct Hm as [Hf Hb _]. cbn in *. unfold settled, pending in *. cbn in *. unfold settled, wrap in *. cbn in *.
    rewrite (proj2 (Z.eqb_neq _ _) E), set_tail_id in *. split; [exact Hf|exact Hb|exact I].
  - destruct Hm as [Hf Hb _]. split; [exact Hf|exact Hb|exact I].
Qed.

Lemma step_size m m' : machine_ok m -> step m m' -> size (fifo m') = size (fifo m).
Proof.
  intros Hm St. destruct St as [m p n k f' Hp Hn E| | | | | | |]; try reflexivity.
  destruct (interrupt_ok m p n Hm Hn Hp) as (k' & f'' & E' & S' & _). rewrite E in E'. injection E' as <- <-. exact S'.
Qed.

Lemma pending_bound m : machine_ok m -> Z.of_nat (length (pending m)) < size (fifo m).
Proof.
  intros Hm. destruct (settled_tail m Hm) as (t & Et & _). destruct Hm as [Hf _ _].
  assert (B := used_bound _ Hf). assert (L := length_contents (settled m)). rewrite Et in *.
  assert (S : size (set_tail (fifo m) t) = size (fifo m)) by reflexivity.
  unfold pending. destruct (reader m) eqn:Er; rewrite ?Et; try lia.
  unfold settled in Et. rewrite Er in Et. rewrite Et, length_drop. lia.
Qed.

(** C36: The use that the source shows is safe: however often an interrupt
    writes between the accesses of a reader, the reader gets the bytes that
    fifo_write accepted, in their order and none twice, no access is outside
    the buffer, and fewer than [size] bytes wait. *)
Theorem isr_writes_are_safe mem sz m :
  0 < sz < 2 ^ 16 -> sz <= Z.of_nat (length mem) -> rtc step (start mem sz) m ->
  (exists waiting, accepted m = got m ++ waiting /\ Z.of_nat (length waiting) < sz) /\
  (reader m = Take -> exists b, rd (buf (fifo m)) (Z.to_nat (tail (fifo m))) = Some b) /\
  (forall p n, is_u32 (Z.of_nat n) -> (n <= length p)%nat ->
     exists k f', fifo_write (fifo m) p (Z.of_nat n) = Some (k, f')).
Proof.
  intros Hs Hl R.
  assert (H0 : machine_ok (start mem sz)).
  { split; cbn; [split; cbn; lia| |exact I]. unfold pending, contents. cbn. reflexivity. }
  assert (Hm : machine_ok m /\ size (fifo m) = sz).
  { refine (rtc_ind_r (fun m => machine_ok m /\ size (fifo m) = sz) (start mem sz) (conj H0 eq_refl) _ m R).
    intros m1 m2 _ St [Hm1 <-]. split; [exact (step_ok _ _ Hm1 St)|exact (step_size _ _ Hm1 St)]. }
  destruct Hm as [Hm <-]. split; [|split].
  - exists (pending m). split; [apply ok_bytes; exact Hm|]. apply pending_bound, Hm.
  - intros Hr. destruct Hm as [Hf _ Hne]. destruct m as [f r g a]. cbn in *. subst r.
    destruct (get_byte f Hf (not_empty f Hf Hne)) as (b & -> & _). eauto.
  - intros p n Hn Hp. destruct (interrupt_ok m p n Hm Hn Hp) as (k & f' & E & _). eauto.
Qed.

(** ** Concrete inputs *)

(** A FIFO of five places that holds two bytes, around the end of the buffer. *)
Definition sample_fifo : fifo_t := Fifo [7; 8; 9; 10; 11] 1 4 5.

Lemma sample_ok : fifo_ok sample_fifo.
Proof. split; cbn; lia. Qed.

Lemma fifo_write_refines_witness :
  exists f', fifo_write sample_fifo [1; 2; 3] 3 = Some (2, f') /\
    fifo_ok f' /\ capacity f' = 4%nat /\ contents f' = [11; 7; 1; 2].
Proof. apply (fifo_write_refines sample_fifo [1; 2; 3] 3); [exact sample_ok|width|cbn; lia]. Defined.

Lemma fifo_read_refines_witness :
  exists f', fifo_read sample_fifo [0; 0; 0] 3 = Some (2, f', [11; 7; 0]) /\
    fifo_ok f' /\ capacity f' = 4%nat /\ contents f' = [].
Proof. apply (fifo_read_refines sample_fifo [0; 0; 0] 3); [exact sample_ok|width|cbn; lia]. Defined.

Lemma fifo_getFree_spec_witness : fifo_getFree sample_fifo = 3 /\ capacity sample_fifo = 4%nat.
Proof. split; [exact (fifo_getFree_spec sample_fifo sample_ok)|reflexivity]. Defined.

(** An interrupt in the middle of a read that is at the end of the buffer. *)
Definition sample_run : machine :=
  Machine (Fifo [5; 6] 0 2 2) WrapTest [5; 6] [5; 6].

Lemma sample_steps : rtc step (start [0; 0] 2) sample_run.
Proof.
  eapply rtc_l. { apply (step_interrupt _ [5] 1 1 (Fifo [5; 0] 1 0 2)); [cbn; lia|width|reflexivity]. }
  eapply rtc_l. { apply step_data. discriminate. }
  eapply rtc_l. { apply step_take. reflexivity. }
  eapply rtc_l. { apply step_advance. }
  eapply rtc_l. { apply step_inside. discriminate. }
  eapply rtc_l. { apply (step_interrupt _ [6] 1 1 (Fifo [5; 6] 0 1 2)); [cbn; lia|width|reflexivity]. }
  eapply rtc_l. { apply step_data. discriminate. }
  eapply rtc_l. { apply step_take. reflexivity. }
  eapply rtc_l. { apply step_advance. }
  apply rtc_refl.
Qed.

Lemma isr_writes_are_safe_witness :
  exists waiting, accepted sample_run = got sample_run ++ waiting /\ Z.of_nat (length waiting) < 2.
Proof. apply (isr_writes_are_safe [0; 0] 2 sample_run); [lia|cbn; lia|exact sample_steps]. Defined.
