(* ===== verification/DlList.v ===== *)
(** * The doubly linked list: src/src/common/dllist.c

    Nodes in a heap, linked through pointers, and the structure with the head,
    the tail, the count and the sort order.  The operations are state passing
    over the heap; following NULL or a pointer to a freed node is undefined, and
    so is freeing an object twice.  A well-formed list is one whose links are
    those of a sequence of nodes: the operations at the ends and the removal
    are those of the sequence, and the insertion in the middle is not. *)

From S2P Require Import Prelude Program.
From stdpp Require Import gmap.
Open Scope Z_scope.

Definition ptr : Type := option positive.
Definition NULL : ptr := None.

Definition SORT_NONE : Z := 0.
Definition SORT_STRING : Z := 1.
Definition SORT_NUMERIC : Z := 2.

(** ** The data

    [pstrKey] and [pKey] point to a string and to a number that the list only
    reads: here what they point to. *)
Record dllnode := Node {
  pstrKey : option (list Z); pKey : option Z; Key : Z; pObject : ptr; obid : Z;
  pNext : ptr; pPrev : ptr
}.

Record DoubleLinkedList := List { nSortOrder : Z; pHead : ptr; pTail : ptr; nCount : Z }.

Record memory := Memory { pdll : DoubleLinkedList; nodes : gmap positive dllnode; objects : gset positive }.

Definition set_next (q : ptr) (n : dllnode) : dllnode :=
  Node (pstrKey n) (pKey n) (Key n) (pObject n) (obid n) q (pPrev n).
Definition set_prev (q : ptr) (n : dllnode) : dllnode :=
  Node (pstrKey n) (pKey n) (Key n) (pObject n) (obid n) (pNext n) q.
Definition set_object (q : ptr) (n : dllnode) : dllnode :=
  Node (pstrKey n) (pKey n) (Key n) q (obid n) (pNext n) (pPrev n).

(** ** Access to the memory *)

Abbreviation io := (M memory).

Definition get_list : io DoubleLinkedList := m ← get; mret (pdll m).
Definition set_list (l : DoubleLinkedList) : io unit := m ← get; put (Memory l (nodes m) (objects m)).

Definition set_head (q : ptr) : io unit :=
  l ← get_list; set_list (List (nSortOrder l) q (pTail l) (nCount l)).
Definition set_tail (q : ptr) : io unit :=
  l ← get_list; set_list (List (nSortOrder l) (pHead l) q (nCount l)).
Definition set_count (c : Z) : io unit :=
  l ← get_list; set_list (List (nSortOrder l) (pHead l) (pTail l) c).

(** [*p], and a change of a member of [*p]. *)
Definition load (p : ptr) : io dllnode :=
  m ← get; match p with Some a => defined (nodes m !! a) | None => undefined end.
Definition store (p : ptr) (f : dllnode -> dllnode) : io unit :=
  n ← load p; m ← get;
  match p with
  | Some a => put (Memory (pdll m) (<[a := f n]> (nodes m)) (objects m))
  | None => undefined
  end.

(** free: of a node, and of an object. *)
Definition free_node (p : ptr) : io unit :=
  _ ← load p; m ← get;
  match p with Some a => put (Memory (pdll m) (delete a (nodes m)) (objects m)) | None => mret tt end.
Definition free_object (p : ptr) : io unit :=
  m ← get;
  match p with
  | Some a => if bool_decide (a ∈ objects m) then put (Memory (pdll m) (nodes m) (objects m ∖ {[a]})) else undefined
  | None => mret tt
  end.

Definition is_null (p : ptr) : bool := match p with None => true | Some _ => false end.

(** ** The operations

    The list is the one of the memory; with NULL for it each operation returns
    FALSE and does nothing else. [fuel] bounds the number of nodes that a loop
    visits. *)

Section operations.
Variable fuel : nat.

Definition dll_init (nSort : Z) : io unit := set_list (List nSort NULL NULL 0).

(** [count_loop] counts in an unsigned long. *)
Fixpoint count_loop (n : nat) (cnt : Z) (p : ptr) : io Z :=
  match p with
  | None => mret cnt
  | Some _ =>
      match n with
      | O => out_of_fuel
      | S n => x ← load p; count_loop n (u64 (cnt + 1)) (pNext x)
      end
  end.

(** The count is stored only when there is a head. *)
Definition dll_getNodeCount : io Z :=
  l ← get_list;
  if is_null (pHead l) then mret 0
  else
    cnt ← count_loop fuel 0 (pHead l);
    _ ← set_count cnt;
    mret cnt.

Definition dll_addNodeHead (pInsertNode : ptr) : io bool :=
  if is_null pInsertNode then mret false
  else
    l ← get_list;
    _ ← store pInsertNode (set_next (pHead l));
    _ ← store pInsertNode (set_prev NULL);
    _ ← (if negb (is_null (pHead l)) then store (pHead l) (set_prev pInsertNode) else mret tt);
    _ ← (if is_null (pTail l) then set_tail pInsertNode else mret tt);
    _ ← set_head pInsertNode;
    _ ← dll_getNodeCount;
    mret true.

Definition dll_addNodeTail (pInsertNode : ptr) : io bool :=
  if is_null pInsertNode then mret false
  else
    l ← get_list;
    _ ← store pInsertNode (set_next NULL);
    _ ← store pInsertNode (set_prev (pTail l));
    _ ← (if negb (is_null (pTail l)) then store (pTail l) (set_next pInsertNode) else mret tt);
    _ ← (if is_null (pHead l) then set_head pInsertNode else mret tt);
    _ ← set_tail pInsertNode;
    _ ← dll_getNodeCount;
    mret true.

(** The node after is looked for through [pNode->pNext], which is then the
    inserted node already. *)
Definition dll_insertNode (pNode pInsertNode : ptr) : io bool :=
  if is_null pNode || is_null pInsertNode then mret false
  else
    _ ← store pInsertNode (set_prev pNode);
    x ← load pNode;
    _ ← store pInsertNode (set_next (pNext x));
    _ ← store pNode (set_next pInsertNode);
    x ← load pNode;
    _ ← store (pNext x) (set_prev pInsertNode);
    _ ← dll_getNodeCount;
    mret true.

Definition dll_addNodeBefore (pNode pInsertNode : ptr) : io bool :=
  if is_null pNode || is_null pInsertNode then mret false
  else
    x ← load pNode;
    _ ← (if is_null (pPrev x) then dll_addNodeHead pInsertNode else dll_insertNode pNode pInsertNode);
    _ ← dll_getNodeCount;
    mret true.

Definition dll_addNodeAfter (pNode pInsertNode : ptr) : io bool :=
  if is_null pNode || is_null pInsertNode then mret false
  else
    x ← load pNode;
    _ ← (if is_null (pNext x) then dll_addNodeTail pInsertNode else dll_insertNode pNode pInsertNode);
    _ ← dll_getNodeCount;
    mret true.

(** strcmp, of strings as lists of bytes without the terminating 0. *)
Fixpoint strcmp (s t : list Z) : Z :=
  match s, t with
  | [], [] => 0
  | [], c :: _ => - c
  | c :: _, [] => c
  | c :: s, d :: t => if c =? d then strcmp s t else c - d
  end.

(** The comparison keeps its last value when the sort order is none of the three. *)
Definition compare (order : Z) (x y : dllnode) (last : Z) : io Z :=
  if (order =? SORT_STRING) && negb (bool_decide (pstrKey x = None)) then
    s ← defined (pstrKey x); t ← defined (pstrKey y); mret (strcmp s t)
  else if order =? SORT_NUMERIC then
    k ← defined (pKey x); k' ← defined (pKey y);
    mret (if k =? k' then 0 else if k >? k' then 2 else -1)
  else mret last.

Fixpoint search_loop (n : nat) (order : Z) (nsearchResult : Z) (pNode pInsertNode : ptr) : io bool :=
  match pNode with
  | None => dll_addNodeTail pInsertNode
  | Some _ =>
      match n with
      | O => out_of_fuel
      | S n =>
          x ← load pInsertNode; y ← load pNode;
          r ← compare order x y nsearchResult;
          if r =? 0 then dll_addNodeAfter pNode pInsertNode
          else if 0 <? r then dll_addNodeBefore pNode pInsertNode
          else y ← load pNode; search_loop n order r (pNext y) pInsertNode
      end
  end.

Definition dll_addNode (pInsertNode : ptr) : io bool :=
  l ← get_list;
  if nSortOrder l =? SORT_NONE then _ ← dll_addNodeTail pInsertNode; mret true
  else
    x ← load pInsertNode;
    if (nSortOrder l =? SORT_STRING) && bool_decide (pstrKey x = None) then mret false
    else if (nSortOrder l =? SORT_NUMERIC) && bool_decide (pKey x = None) then mret false
    else search_loop fuel (nSortOrder l) 0 (pHead l) pInsertNode.

Definition dll_removeNode (pNode : ptr) : io bool :=
  if is_null pNode then mret false
  else
    x ← load pNode;
    _ ← (if negb (is_null (pObject x))
         then _ ← free_object (pObject x); store pNode (set_object NULL) else mret tt);
    _ ← (if negb (is_null (pPrev x)) then store (pPrev x) (set_next (pNext x)) else set_head (pNext x));
    _ ← (if negb (is_null (pNext x)) then store (pNext x) (set_prev (pPrev x)) else set_tail (pPrev x));
    _ ← free_node pNode;
    l ← get_list;
    _ ← set_count (u64 (nCount l - 1));
    _ ← dll_getNodeCount;
    mret true.

(** The loop removes from the tail until there is no head. *)
Fixpoint remove_loop (n : nat) : io unit :=
  l ← get_list;
  if is_null (pHead l) then mret tt
  else match n with
       | O => out_of_fuel
       | S n => _ ← dll_removeNode (pTail l); remove_loop n
       end.

Definition dll_removeAllNodes : io bool :=
  _ ← remove_loop fuel;
  _ ← dll_init 0;
  _ ← set_count 0;
  mret true.

Fixpoint find_loop (n : nat) (test : dllnode -> io bool) (p : ptr) : io ptr :=
  match p with
  | None => mret NULL
  | Some _ =>
      match n with
      | O => out_of_fuel
      | S n =>
          x ← load p;
          found ← test x;
          if (found : bool) then mret p else find_loop n test (pNext x)
      end
  end.

Definition dll_findNodeFromID (nID : Z) : io ptr :=
  l ← get_list; find_loop fuel (fun x => (k ← defined (pKey x); mret (nID =? k))) (pHead l).

Definition dll_findNodeFromString (strID : list Z) : io ptr :=
  l ← get_list; find_loop fuel (fun x => (s ← defined (pstrKey x); mret (0 =? strcmp strID s))) (pHead l).
End operations.

(** ** Well-formed lists *)

Definition front (xs : list positive) (next : ptr) : ptr := match xs with [] => next | x :: _ => Some x end.
Definition back (prev : ptr) (xs : list positive) : ptr := match last xs with None => prev | Some x => Some x end.

(** The links of the nodes [xs] are those of a segment between [prev] and [next]. *)
Fixpoint linked (ns : gmap positive dllnode) (prev : ptr) (xs : list positive) (next : ptr) : Prop :=
  match xs with
  | [] => True
  | x :: r =>
      (exists n, ns !! x = Some n /\ pPrev n = prev /\ pNext n = front r next) /\ linked ns (Some x) r next
  end.

(** Following [pNext] from [p] gives the nodes [xs]. *)
Fixpoint forward (ns : gmap positive dllnode) (p : ptr) (xs : list positive) : Prop :=
  match xs with
  | [] => p = NULL
  | x :: r => p = Some x /\ exists n, ns !! x = Some n /\ forward ns (pNext n) r
  end.

Definition count_of (xs : list positive) : Z := u64 (Z.of_nat (length xs)).

(** The memory holds the list of the nodes [xs]. *)
Record represents (m : memory) (xs : list positive) : Prop := {
  rep_nodup : NoDup xs;
  rep_links : linked (nodes m) NULL xs NULL;
  rep_head : pHead (pdll m) = front xs NULL;
  rep_tail : pTail (pdll m) = back NULL xs;
  rep_count : nCount (pdll m) = count_of xs
}.

(** What a node holds besides its links. *)
Definition payload (n : dllnode) : option (list Z) * option Z * Z * ptr * Z :=
  (pstrKey n, pKey n, Key n, pObject n, obid n).

(** *** Lemmas *)

Lemma back_snoc prev xs x : back prev (xs ++ [x]) = Some x.
Proof. unfold back. rewrite last_snoc. reflexivity. Qed.

Lemma back_app prev xs ys : back prev (xs ++ ys) = back (back prev xs) ys.
Proof. unfold back. rewrite last_app. destruct (last ys); reflexivity. Qed.

Lemma front_app xs ys next : front (xs ++ ys) next = front xs (front ys next).
Proof. destruct xs; reflexivity. Qed.

Lemma NoDup_snoc (xs : list positive) a : NoDup xs -> a ∉ xs -> NoDup (xs ++ [a]).
Proof.
  intros D N. apply NoDup_app. split; [exact D|]. split; [|apply NoDup_singleton].
  intros b Hb ->%list_elem_of_singleton. contradiction.
Qed.

Lemma front_snoc xs x next : exists z, front (xs ++ [x]) next = Some z.
Proof. destruct xs; cbn; eauto. Qed.

Lemma back_cons prev x xs : back prev (x :: xs) = back (Some x) xs.
Proof. unfold back. rewrite last_cons. destruct (last xs); reflexivity. Qed.

Lemma linked_app ns prev xs ys next :
  linked ns prev (xs ++ ys) next <->
  linked ns prev xs (front ys next) /\ linked ns (back prev xs) ys next.
Proof.
  revert prev. induction xs as [|x r IH]; intros prev; cbn [linked app]; [tauto|].
  rewrite IH, back_cons. destruct r; cbn [front app]; tauto.
Qed.

Lemma linked_frame ns ns' prev xs next :
  (forall x, x ∈ xs -> ns' !! x = ns !! x) -> linked ns prev xs next -> linked ns' prev xs next.
Proof.
  revert prev. induction xs as [|x r IH]; intros prev F; cbn [linked]; [auto|].
  intros [(n & E & P & N) R]. split; [exists n; rewrite F by set_solver; auto|apply IH; [set_solver|exact R]].
Qed.

Lemma linked_insert ns a n prev xs next :
  a ∉ xs -> linked ns prev xs next -> linked (<[a:=n]> ns) prev xs next.
Proof. intros Ha. apply linked_frame. intros x Hx. apply lookup_insert_ne. set_solver. Qed.

Lemma linked_delete ns a prev xs next :
  a ∉ xs -> linked ns prev xs next -> linked (delete a ns) prev xs next.
Proof. intros Ha. apply linked_frame. intros x Hx. apply lookup_delete_ne. set_solver. Qed.

Lemma linked_forward ns prev xs next : linked ns prev xs next -> next = NULL -> forward ns (front xs NULL) xs.
Proof.
  revert prev. induction xs as [|x r IH]; intros prev; cbn [linked forward front]; [reflexivity|].
  intros [(n & E & _ & N) R] ->. split; [reflexivity|]. exists n. rewrite N. split; [exact E|exact (IH _ R eq_refl)].
Qed.

Lemma forward_front ns p xs : forward ns p xs -> p = front xs NULL.
Proof. destruct xs; cbn; tauto. Qed.

(** *** Steps *)

Lemma bind_load {B} a m n (k : dllnode -> io B) :
  nodes m !! a = Some n -> (load (Some a) ≫= k) m = k n m.
Proof. intros E. apply bind_returns. unfold load, get, mbind, M_bind, defined. rewrite E. reflexivity. Qed.

Lemma bind_store {B} a f m n (k : unit -> io B) :
  nodes m !! a = Some n ->
  (store (Some a) f ≫= k) m = k tt (Memory (pdll m) (<[a := f n]> (nodes m)) (objects m)).
Proof. intros E. apply bind_returns. unfold store. rewrite (bind_load _ _ _ _ E). reflexivity. Qed.

Lemma count_loop_ok n c ns p xs m :
  forward ns p xs -> nodes m = ns -> (length xs <= n)%nat ->
  count_loop n (u64 c) p m = Returns (u64 (c + Z.of_nat (length xs)), m).
Proof.
  intros F <-. revert n c p F. induction xs as [|x r IH]; intros n c p F Hn; cbn [forward] in F.
  - subst p. destruct n; cbn; rewrite Z.add_0_r; reflexivity.
  - destruct F as (-> & y & E & F). cbn [length] in Hn. destruct n as [|n]; [lia|]. cbn [count_loop].
    rewrite (bind_load _ _ _ _ E). replace (u64 (u64 c + 1)) with (u64 (c + 1)) by width.
    rewrite (IH n (c + 1) _ F) by lia. cbn [length]. do 3 f_equal. lia.
Qed.

Lemma bind_get_list {B} (k : DoubleLinkedList -> io B) m : (get_list ≫= k) m = k (pdll m) m.
Proof. reflexivity. Qed.

(** The count, when there is a node. *)
Lemma bind_count {B} fuel x r m (k : Z -> io B) :
  forward (nodes m) (pHead (pdll m)) (x :: r) -> (length (x :: r) <= fuel)%nat ->
  let l := pdll m in
  (dll_getNodeCount fuel ≫= k) m =
  k (count_of (x :: r))
    (Memory (List (nSortOrder l) (pHead l) (pTail l) (count_of (x :: r))) (nodes m) (objects m)).
Proof.
  intros F Hn l. apply bind_returns. unfold dll_getNodeCount. rewrite bind_get_list.
  assert (P : pHead (pdll m) = Some x) by exact (proj1 F). rewrite P. cbn [is_null].
  rewrite <- P. rewrite (bind_returns _ _ _ _ _ (count_loop_ok fuel 0 _ _ _ m F eq_refl Hn)).
  reflexivity.
Qed.

(** Only links have changed. *)
Record same_data (m m' : memory) : Prop := {
  same_payload : payload <$> nodes m' = payload <$> nodes m;
  same_objects : objects m' = objects m;
  same_order : nSortOrder (pdll m') = nSortOrder (pdll m)
}.

Lemma payload_insert (ns : gmap positive dllnode) a n n' :
  ns !! a = Some n -> payload n' = payload n -> payload <$> <[a := n']> ns = payload <$> ns.
Proof. intros E P. rewrite fmap_insert, P. apply insert_id. rewrite lookup_fmap, E. reflexivity. Qed.

Lemma bind_set_head {B} q m (k : unit -> io B) :
  (set_head q ≫= k) m =
  k tt (Memory (List (nSortOrder (pdll m)) q (pTail (pdll m)) (nCount (pdll m))) (nodes m) (objects m)).
Proof. reflexivity. Qed.

Lemma bind_set_tail {B} q m (k : unit -> io B) :
  (set_tail q ≫= k) m =
  k tt (Memory (List (nSortOrder (pdll m)) (pHead (pdll m)) q (nCount (pdll m))) (nodes m) (objects m)).
Proof. reflexivity. Qed.

Lemma bind_set_count {B} c m (k : unit -> io B) :
  (set_count c ≫= k) m =
  k tt (Memory (List (nSortOrder (pdll m)) (pHead (pdll m)) (pTail (pdll m)) c) (nodes m) (objects m)).
Proof. reflexivity. Qed.

(** Runs an operation over loads and stores whose nodes are in the context. *)
Ltac exec :=
  repeat first
    [ rewrite bind_get_list | rewrite bind_ret | rewrite bind_set_head | rewrite bind_set_tail
    | rewrite bind_set_count
    | erewrite bind_load by (cbn [nodes pdll objects]; simplify_map_eq; reflexivity)
    | erewrite bind_store by (cbn [nodes pdll objects]; simplify_map_eq; reflexivity)
    | progress cbn [NULL is_null negb orb andb pdll nodes objects pHead pTail nCount nSortOrder] ].

(** The data after stores of links. *)
Ltac same :=
  split; cbn [nodes objects pdll nSortOrder];
    [repeat (erewrite payload_insert; [|simplify_map_eq; reflexivity|reflexivity]); reflexivity|reflexivity..].

Lemma back_some prev x r : exists z, back prev (x :: r) = Some z /\ z ∈ x :: r.
Proof.
  unfold back. rewrite last_cons. destruct (last r) as [z|] eqn:E; [|eauto using list_elem_of_here].
  exists z. split; [reflexivity|]. apply list_elem_of_further, last_Some_elem_of, E.
Qed.

(** The state after a node was linked in. *)
Lemma bind_count_linked {B} fuel xs m (k : Z -> io B) :
  linked (nodes m) NULL xs NULL -> pHead (pdll m) = front xs NULL -> xs <> [] -> (length xs <= fuel)%nat ->
  let l := pdll m in
  (dll_getNodeCount fuel ≫= k) m =
  k (count_of xs) (Memory (List (nSortOrder l) (pHead l) (pTail l) (count_of xs)) (nodes m) (objects m)).
Proof.
  intros L E N Hn. destruct xs as [|x r]; [congruence|].
  apply bind_count; [rewrite E; exact (linked_forward _ _ _ _ L eq_refl)|exact Hn].
Qed.

Lemma bind_count_forward {B} fuel xs m (k : Z -> io B) :
  forward (nodes m) (pHead (pdll m)) xs -> xs <> [] -> (length xs <= fuel)%nat ->
  let l := pdll m in
  (dll_getNodeCount fuel ≫= k) m =
  k (count_of xs) (Memory (List (nSortOrder l) (pHead l) (pTail l) (count_of xs)) (nodes m) (objects m)).
Proof. destruct xs as [|x r]; [congruence|]. intros F _. apply bind_count, F. Qed.

Ltac links := repeat first [apply linked_insert; [set_solver|] | apply linked_delete; [set_solver|]]; eassumption.

Lemma addNodeHead_ok fuel m xs a n :
  represents m xs -> a ∉ xs -> nodes m !! a = Some n -> (length xs < fuel)%nat ->
  exists m', dll_addNodeHead fuel (Some a) m = Returns (true, m') /\ represents m' (a :: xs) /\ same_data m m'.
Proof.
  intros [Hd Hl Hh Ht Hc] Ha En Hf. unfold dll_addNodeHead. exec. rewrite Hh, Ht. destruct xs as [|x r].
  - cbn [front back last]. exec.
    rewrite (bind_count fuel a []) by (cbn; simplify_map_eq; eauto). cbn. eexists. split; [reflexivity|].
    split; [|same]. split; cbn; simplify_map_eq; eauto using NoDup_singleton.
  - destruct Hl as [(nx & Ex & Px & Nx) Hr]. assert (a <> x) by set_solver. assert (x ∉ r) by (inversion Hd; set_solver).
    cbn [front]. destruct (back_some NULL x r) as (z & Ez & _). rewrite Ez. exec.
    match goal with |- context [Memory _ ?ns' _] => assert (L : linked ns' NULL (a :: x :: r) NULL) end.
    { repeat split; [eexists|eexists|links]; simplify_map_eq; eauto. }
    rewrite (bind_count_linked fuel (a :: x :: r)) by first [assumption|reflexivity|discriminate|cbn in *; lia].
    eexists. split; [reflexivity|]. split; [|same].
    split; cbn [nodes pdll pHead pTail nSortOrder nCount]; [apply NoDup_cons; auto|exact L|reflexivity|rewrite Ht, !back_cons; reflexivity|reflexivity].
Qed.

Lemma addNodeTail_ok fuel m xs a n :
  represents m xs -> a ∉ xs -> nodes m !! a = Some n -> (length xs < fuel)%nat ->
  exists m', dll_addNodeTail fuel (Some a) m = Returns (true, m') /\ represents m' (xs ++ [a]) /\ same_data m m'.
Proof.
  intros [Hd Hl Hh Ht Hc] Ha En Hf. unfold dll_addNodeTail. exec. rewrite Hh, Ht.
  assert (Hd' := Hd). destruct xs as [|x r _] using rev_ind.
  - cbn [front back last app]. exec.
    rewrite (bind_count fuel a []) by (cbn; simplify_map_eq; eauto). cbn. eexists. split; [reflexivity|].
    split; [|same]. split; cbn; simplify_map_eq; eauto using NoDup_singleton.
  - apply linked_app in Hl as [Hr [(nx & Ex & Px & Nx) _]]. apply NoDup_app in Hd as (Hd & Hdx & _).
    assert (a <> x) by set_solver. assert (x ∉ r) by set_solver. assert (a ∉ r) by set_solver.
    rewrite back_snoc. destruct (front_snoc r x NULL) as (z & Ez). rewrite Ez. exec.
    match goal with |- context [Memory _ ?ns' _] => assert (L : linked ns' NULL (r ++ [x; a]) NULL) end.
    { apply linked_app. split; [cbn [front]; links|]. repeat split; [eexists|eexists]; simplify_map_eq; eauto. }
    rewrite <- app_assoc. cbn [app]. assert (Hh' : front (r ++ [x; a]) NULL = Some z) by (destruct r; exact Ez).
    rewrite (bind_count_linked fuel (r ++ [x; a]));
      [|exact L|cbn; congruence|destruct r; discriminate|rewrite length_app in *; cbn in *; lia].
    eexists. split; [reflexivity|]. split; [|same].
    split; cbn [nodes pdll pHead pTail nSortOrder nCount]; [|exact L|congruence| |reflexivity].
    + change [x; a] with ([x] ++ [a]). rewrite app_assoc. apply NoDup_snoc; assumption.
    + change [x; a] with ([x] ++ [a]). rewrite app_assoc, back_snoc. reflexivity.
Qed.

(** *** Removal *)

Definition relink_next (p q : ptr) : io unit := if negb (is_null p) then store p (set_next q) else set_head q.
Definition relink_prev (p q : ptr) : io unit := if negb (is_null p) then store p (set_prev q) else set_tail q.

Lemma relink_front m xs next q :
  linked (nodes m) NULL xs next -> NoDup xs -> pHead (pdll m) = front xs next ->
  exists m', relink_next (back NULL xs) q m = Returns (tt, m') /\ linked (nodes m') NULL xs q /\
    pHead (pdll m') = front xs q /\ pTail (pdll m') = pTail (pdll m) /\ nCount (pdll m') = nCount (pdll m) /\
    (forall b, b ∉ xs -> nodes m' !! b = nodes m !! b) /\ same_data m m'.
Proof.
  intros L D E. destruct xs as [|x r _] using rev_ind.
  - eexists. split; [reflexivity|]. repeat split; reflexivity.
  - apply linked_app in L as [Lr [(n & En & Pn & Nn) _]]. apply NoDup_app in D as (_ & Dx & _). assert (x ∉ r) by set_solver.
    unfold relink_next. rewrite back_snoc. cbn [is_null negb]. unfold store. exec. eexists. split; [reflexivity|].
    cbn [nodes pdll]. split; [|split; [rewrite E; destruct r; reflexivity|]].
    + apply linked_app. split; [cbn [front]; links|]. split; [|exact I]. eexists. simplify_map_eq. eauto.
    + split; [reflexivity|]. split; [reflexivity|]. split; [|same]. intros b Hb. apply lookup_insert_ne. set_solver.
Qed.

Lemma relink_back m prev ys q :
  linked (nodes m) prev ys NULL -> NoDup ys -> pTail (pdll m) = back prev ys ->
  exists m', relink_prev (front ys NULL) q m = Returns (tt, m') /\ linked (nodes m') q ys NULL /\
    pTail (pdll m') = back q ys /\ pHead (pdll m') = pHead (pdll m) /\ nCount (pdll m') = nCount (pdll m) /\
    (forall b, b ∉ ys -> nodes m' !! b = nodes m !! b) /\ same_data m m'.
Proof.
  intros L D E. destruct ys as [|y r].
  - eexists. split; [reflexivity|]. repeat split; reflexivity.
  - destruct L as [(n & En & Pn & Nn) Lr]. apply NoDup_cons in D as [Hy _].
    unfold relink_prev. cbn [front is_null negb]. unfold store. exec. eexists. split; [reflexivity|].
    cbn [nodes pdll]. split; [|split; [rewrite E, !back_cons; reflexivity|]].
    + split; [|links]. eexists. simplify_map_eq. eauto.
    + split; [reflexivity|]. split; [reflexivity|]. split; [|same]. intros b Hb. apply lookup_insert_ne. set_solver.
Qed.

(** The object of a node is freed with it; it must be allocated. *)
Definition owned (m : memory) (n : dllnode) : Prop := forall o, pObject n = Some o -> o ∈ objects m.
Definition release (objs : gset positive) (n : dllnode) : gset positive :=
  match pObject n with Some o => objs ∖ {[o]} | None => objs end.

Lemma free_objects_ok m a n :
  nodes m !! a = Some n -> owned m n ->
  exists m', (if negb (is_null (pObject n))
              then (_ ← free_object (pObject n); store (Some a) (set_object NULL)) else mret tt) m = Returns (tt, m') /\
    pdll m' = pdll m /\ objects m' = release (objects m) n /\ nodes m' !! a = Some (set_object NULL n) /\
    (forall b, b <> a -> nodes m' !! b = nodes m !! b).
Proof.
  intros E O. unfold release. destruct (pObject n) as [o|] eqn:Eo; cbn [is_null negb].
  - specialize (O o Eo). rewrite (bind_returns _ _ _ tt (Memory (pdll m) (nodes m) (objects m ∖ {[o]}))).
    2:{ unfold free_object, get, mbind, M_bind. rewrite bool_decide_true by exact O. reflexivity. }
    unfold store. exec. eexists. split; [reflexivity|]. cbn. split; [reflexivity|]. split; [reflexivity|].
    split; [simplify_map_eq; reflexivity|]. intros b Hb. simplify_map_eq. reflexivity.
  - eexists. split; [reflexivity|]. repeat split. rewrite E. f_equal. destruct n. cbn in *. subst. reflexivity.
Qed.

Lemma payload_delete m m1 a :
  (forall b, b <> a -> nodes m1 !! b = nodes m !! b) ->
  delete a (payload <$> nodes m1) = delete a (payload <$> nodes m).
Proof.
  intros F. apply map_eq. intros b. destruct (decide (b = a)) as [->|N]; [rewrite !lookup_delete_eq; reflexivity|].
  rewrite !lookup_delete_ne, !lookup_fmap, F by congruence. reflexivity.
Qed.

Lemma bind_free_node {B} a n m (k : unit -> io B) :
  nodes m !! a = Some n -> (free_node (Some a) ≫= k) m = k tt (Memory (pdll m) (delete a (nodes m)) (objects m)).
Proof. intros E. apply bind_returns. unfold free_node. rewrite (bind_load _ _ _ _ E). reflexivity. Qed.

Lemma removeNode_ok fuel m xs a ys n :
  represents m (xs ++ a :: ys) -> nodes m !! a = Some n -> owned m n -> (length (xs ++ ys) <= fuel)%nat ->
  exists m', dll_removeNode fuel (Some a) m = Returns (true, m') /\ represents m' (xs ++ ys) /\
    (payload <$> nodes m') = delete a (payload <$> nodes m) /\ objects m' = release (objects m) n /\
    nSortOrder (pdll m') = nSortOrder (pdll m).
Proof.
  intros [Hd Hl Hh Ht Hc] En Ho Hf. unfold dll_removeNode. exec.
  rewrite front_app in Hh. rewrite back_app, back_cons in Ht. cbn [front] in Hh.
  apply linked_app in Hl as [Lx [(n' & En' & Pn & Nn) Ly]]. assert (n' = n) as -> by congruence.
  apply NoDup_app in Hd as (Dx & Dxy & Dy). apply NoDup_cons in Dy as [Ha Dy].
  assert (a ∉ xs) by set_solver. assert (Dxy' : forall b, b ∈ xs -> b ∉ ys) by set_solver.
  destruct (free_objects_ok m a n En Ho) as (m1 & E1 & D1 & O1 & A1 & F1).
  rewrite (bind_returns _ _ _ _ _ E1). clear E1. cbn [front] in Lx.
  destruct (relink_front m1 xs (Some a) (pNext n)) as (m2 & E2 & L2 & H2 & T2 & C2 & F2 & S2).
  { eapply linked_frame; [|exact Lx]. intros b Hb. apply F1. congruence. }
  { exact Dx. }
  { rewrite D1. exact Hh. }
  unfold relink_next in E2. rewrite <- Pn in E2. rewrite (bind_returns _ _ _ _ _ E2). clear E2.
  destruct (relink_back m2 (Some a) ys (pPrev n)) as (m3 & E3 & L3 & T3 & H3 & C3 & F3 & S3).
  { eapply linked_frame; [|exact Ly]. intros b Hb. rewrite F2 by set_solver. apply F1. set_solver. }
  { exact Dy. }
  { rewrite T2, D1. exact Ht. }
  unfold relink_prev in E3. rewrite <- Nn in E3. rewrite (bind_returns _ _ _ _ _ E3). clear E3.
  assert (A3 : nodes m3 !! a = Some (set_object NULL n)) by (rewrite F3, F2; auto).
  rewrite (bind_free_node _ _ _ _ A3), bind_get_list, bind_set_count. cbn [pdll nodes objects nCount].
  set (m4 := Memory _ (delete a (nodes m3)) _).
  assert (L4 : linked (nodes m4) NULL (xs ++ ys) NULL).
  { apply linked_app. split; apply linked_delete; try assumption; [|rewrite <- Pn; exact L3].
    rewrite <- Nn. eapply linked_frame; [|exact L2]. intros b Hb. apply F3, Dxy', Hb. }
  assert (P4 : payload <$> nodes m4 = delete a (payload <$> nodes m)).
  { cbn. rewrite fmap_delete, (same_payload _ _ S3), (same_payload _ _ S2). apply payload_delete, F1. }
  assert (Hh4 : pHead (pdll m4) = front (xs ++ ys) NULL) by (cbn; rewrite H3, H2, Nn, front_app; reflexivity).
  assert (Ht4 : pTail (pdll m4) = back NULL (xs ++ ys)) by (cbn; rewrite T3, Pn, back_app; reflexivity).
  assert (D4 : NoDup (xs ++ ys)) by (apply NoDup_app; auto).
  assert (O4 : objects m4 = release (objects m) n) by (cbn; rewrite (same_objects _ _ S3), (same_objects _ _ S2); exact O1).
  assert (S4 : nSortOrder (pdll m4) = nSortOrder (pdll m)) by (cbn; rewrite (same_order _ _ S3), (same_order _ _ S2), D1; reflexivity).
  destruct (xs ++ ys) as [|z zs] eqn:Ez.
  - exists m4. split; [|split; [split; try assumption|auto]].
    + unfold dll_getNodeCount. rewrite bind_assoc, bind_get_list, Hh4. reflexivity.
    + cbn. rewrite C3, C2, D1, Hc. apply app_nil in Ez as [-> ->]. reflexivity.
  - rewrite (bind_count_linked fuel (z :: zs) m4) by first [assumption|discriminate].
    eexists. split; [reflexivity|]. split; [split; try assumption; reflexivity|auto].
Qed.

(** *** Emptying the list *)

Definition object_of (m : memory) (a : positive) : ptr := nodes m !! a ≫= pObject.
Definition objects_of (m : memory) (xs : list positive) : list positive := omap (object_of m) xs.

Lemma object_of_payload m a : object_of m a = (payload <$> nodes m) !! a ≫= fun p => p.1.2.
Proof. unfold object_of. rewrite lookup_fmap. destruct (nodes m !! a); reflexivity. Qed.

Lemma linked_defined ns prev xs next a : linked ns prev xs next -> a ∈ xs -> exists n, ns !! a = Some n.
Proof.
  revert prev. induction xs as [|x r IH]; intros prev; [set_solver|]. cbn [linked].
  intros [(n & E & _) L] [->|Ha]%elem_of_cons; [eauto|exact (IH _ L Ha)].
Qed.

Lemma removeNode_tail fuel m xs a :
  represents m (xs ++ [a]) -> (forall o, o ∈ objects_of m (xs ++ [a]) -> o ∈ objects m) -> (length xs <= fuel)%nat ->
  NoDup (objects_of m (xs ++ [a])) ->
  exists m', dll_removeNode fuel (Some a) m = Returns (true, m') /\ represents m' xs /\
    objects_of m' xs = objects_of m xs /\ dom (nodes m') = dom (nodes m) ∖ {[a]} /\
    objects m' = objects m ∖ list_to_set (objects_of m [a]) /\
    (forall o, o ∈ objects_of m' xs -> o ∈ objects m').
Proof.
  intros R O Hf D. destruct (linked_defined _ _ _ _ a (rep_links _ _ R)) as [n En]; [set_solver|].
  unfold objects_of in *. rewrite omap_app in O, D. cbn [omap list_omap] in *.
  assert (Eo : object_of m a = pObject n) by (unfold object_of; rewrite En; reflexivity). rewrite Eo in *.
  destruct (removeNode_ok fuel m xs a [] n R En) as (m' & E & R' & P & Ob & _).
  { intros o Ho. rewrite Ho in O. set_solver. }
  { rewrite app_nil_r. exact Hf. }
  rewrite app_nil_r in R'. assert (Dx := rep_nodup _ _ R). apply NoDup_app in Dx. exists m'. split; [exact E|]. split; [exact R'|].
  assert (Sm : omap (object_of m') xs = omap (object_of m) xs).
  { apply list_omap_ext, Forall_Forall2_diag, Forall_forall. intros b Hb.
    assert (b <> a) by (intros ->; apply (proj1 (proj2 Dx) a Hb); apply list_elem_of_here).
    rewrite !object_of_payload, P, lookup_delete_ne by congruence. reflexivity. }
  split; [exact Sm|]. split.
  { rewrite <- (dom_fmap_L payload (nodes m')), P, dom_delete_L, dom_fmap_L. reflexivity. }
  split; [rewrite Ob; unfold release; destruct (pObject n); cbn; set_solver|].
  intros o Ho. rewrite Sm in Ho. rewrite Ob. unfold release. apply NoDup_app in D as (_ & D & _).
  destruct (pObject n) as [o'|]; [|set_solver]. specialize (D o Ho). set_solver.
Qed.

Lemma remove_loop_ok n fuel m xs :
  represents m xs -> NoDup (objects_of m xs) -> (forall o, o ∈ objects_of m xs -> o ∈ objects m) ->
  (length xs <= n)%nat -> (length xs <= fuel)%nat ->
  exists m', remove_loop fuel n m = Returns (tt, m') /\ represents m' [] /\
    dom (nodes m') = dom (nodes m) ∖ list_to_set xs /\
    objects m' = objects m ∖ list_to_set (objects_of m xs).
Proof.
  revert m xs. induction n as [|n IH]; intros m xs R D O Hn Hf; (destruct xs as [|a xs _] using rev_ind;
    [exists m; split; [cbn [remove_loop]; rewrite bind_get_list, (rep_head _ _ R); reflexivity|];
     split; [exact R|cbn; set_solver]|]); rewrite length_app in Hn, Hf; cbn [length] in *; [lia|].
  destruct (removeNode_tail fuel m xs a R O ltac:(lia) D) as (m1 & E & R1 & Ob & Dm & Om & O1).
  unfold objects_of in D. rewrite omap_app in D. apply NoDup_app in D as (D & Dx & _).
  destruct (IH m1 xs R1) as (m' & E' & R' & Dm' & Om'); [rewrite Ob; exact D|exact O1|lia|lia|].
  exists m'. split.
  - cbn [remove_loop]. rewrite bind_get_list, (rep_head _ _ R). destruct (front_snoc xs a NULL) as [z ->]. cbn [is_null].
    rewrite (rep_tail _ _ R), back_snoc, (bind_returns _ _ _ _ _ E). exact E'.
  - split; [exact R'|]. rewrite Dm', Om', Dm, Om, Ob. unfold objects_of. rewrite omap_app, !list_to_set_app_L. cbn.
    split; set_solver.
Qed.

Lemma filter_keep (l : list positive) a : a ∉ l -> filter (fun b => b <> a) l = l.
Proof.
  induction l as [|b l IH]; intros Ha; [reflexivity|]. apply not_elem_of_cons in Ha as [N Ha].
  rewrite filter_cons_True by congruence. rewrite IH by exact Ha. reflexivity.
Qed.

Lemma filter_one (l r : list positive) a :
  NoDup (l ++ a :: r) -> filter (fun b => b <> a) (l ++ a :: r) = l ++ r.
Proof.
  intros (_ & Dx & Dy)%NoDup_app. apply NoDup_cons in Dy as [Ha _].
  rewrite filter_app, filter_cons_False by tauto.
  rewrite !filter_keep; [reflexivity|exact Ha|]. intros Hb. apply (Dx a Hb), list_elem_of_here.
Qed.

(** *** Looking for a node *)

Lemma strcmp_eq s t :
  Forall (fun c => 0 < c) s -> Forall (fun c => 0 < c) t -> (strcmp s t = 0 <-> s = t).
Proof.
  revert t. induction s as [|c s IH]; intros [|d t] Hs Ht; cbn [strcmp].
  - tauto.
  - apply Forall_cons in Ht as [Hd _]. split; [lia|discriminate].
  - apply Forall_cons in Hs as [Hc _]. split; [lia|discriminate].
  - apply Forall_cons in Hs as [Hc Hs]. apply Forall_cons in Ht as [Hd Ht].
    destruct (Z.eqb_spec c d) as [->|N]; [rewrite (IH t Hs Ht); split; congruence|].
    split; [lia|congruence].
Qed.

Lemma find_loop_ok (P : positive -> Prop) `{forall a, Decision (P a)} test n m prev xs :
  linked (nodes m) prev xs NULL -> (length xs <= n)%nat ->
  (forall a x, a ∈ xs -> nodes m !! a = Some x -> test x m = Returns (bool_decide (P a), m)) ->
  find_loop n test (front xs NULL) m = Returns ((snd <$> list_find P xs), m).
Proof.
  revert n prev. induction xs as [|a r IH]; intros n prev L Hn T; [destruct n; reflexivity|].
  destruct L as [(x & E & _ & N) L]. cbn [length] in Hn. destruct n as [|n]; [lia|].
  cbn [front find_loop list_find]. rewrite (bind_load _ _ _ _ E).
  rewrite (bind_returns _ _ _ _ _ (T a x (list_elem_of_here _ _) E)).
  destruct (decide (P a)) as [Pa|Pa]; [rewrite bool_decide_true by exact Pa; reflexivity|].
  rewrite bool_decide_false by exact Pa. rewrite N.
  rewrite (IH n _ L) by first [lia|intros b y Hb; apply T, list_elem_of_further, Hb].
  destruct (list_find P r) as [[i b]|]; reflexivity.
Qed.

(** *** Insertion in the middle *)

Lemma linked_to_forward ns prev xs next rest :
  linked ns prev xs next -> forward ns next rest -> forward ns (front xs next) (xs ++ rest).
Proof.
  revert prev. induction xs as [|x r IH]; intros prev; cbn [linked forward front app]; [auto|].
  intros [(n & E & _ & N) L] F. split; [reflexivity|]. exists n. rewrite N. split; [exact E|exact (IH _ L F)].
Qed.

Lemma insertNode_ok fuel m xs a ys c n :
  represents m (xs ++ a :: ys) -> c ∉ xs ++ a :: ys -> nodes m !! c = Some n -> (S (length (xs ++ a :: ys)) <= fuel)%nat ->
  exists m', dll_insertNode fuel (Some a) (Some c) m = Returns (true, m') /\
    pHead (pdll m') = pHead (pdll m) /\ pTail (pdll m') = pTail (pdll m) /\
    linked (nodes m') NULL (xs ++ [a]) (Some c) /\ linked (nodes m') (Some a) ys NULL /\
    nodes m' !! c = Some (set_prev (Some c) (set_next (front ys NULL) (set_prev (Some a) n))) /\
    forward (nodes m') (pHead (pdll m')) (xs ++ a :: c :: ys).
Proof.
  intros [Hd Hl Hh Ht Hc] Hn En Hf. apply linked_app in Hl as [Lx [(x & Ex & Px & Nx) Ly]].
  assert (D := Hd). apply NoDup_app in D as (Dx & Dxy & Dy). apply NoDup_cons in Dy as [Ha _].
  assert ((c ∉ xs) /\ c <> a /\ (c ∉ ys)) as (Nc1 & Nc2 & Nc3) by set_solver. assert (a ∉ xs) by (intros I; apply (Dxy a I); set_solver).
  unfold dll_insertNode. exec. cbn [set_next pNext]. exec.
  match goal with |- context [Memory _ ?ns' _] => set (ns := ns') end.
  assert (Lx' : linked ns NULL (xs ++ [a]) (Some c)).
  { apply linked_app. cbn [front] in *. split; [unfold ns; links|]. split; [|exact I]. exists (set_next (Some c) x).
    unfold ns. simplify_map_eq. auto. }
  assert (Ly' : linked ns (Some a) ys NULL) by (unfold ns; links).
  assert (Ec : ns !! c = Some (set_prev (Some c) (set_next (front ys NULL) (set_prev (Some a) n)))).
  { unfold ns. simplify_map_eq. rewrite <- Nx. reflexivity. }
  assert (F : forward ns (pHead (pdll m)) (xs ++ a :: c :: ys)).
  { rewrite Hh, front_app. replace (xs ++ a :: c :: ys) with ((xs ++ [a]) ++ c :: ys) by (rewrite <- app_assoc; reflexivity).
    replace (front xs _) with (front (xs ++ [a]) (Some c)) by (rewrite front_app; reflexivity).
    apply (linked_to_forward _ _ _ _ _ Lx'). cbn [forward]. split; [reflexivity|]. eexists. split; [exact Ec|].
    apply (linked_forward _ _ _ _ Ly' eq_refl). }
  rewrite (bind_count_forward fuel (xs ++ a :: c :: ys));
    [|exact F|destruct xs; discriminate|rewrite length_app in *; cbn [length] in *; lia].
  eexists. split; [reflexivity|]. cbn [nodes pdll pHead pTail]. auto 8.
Qed.

(** Following a link to a freed node. *)
Lemma count_loop_dangling n cnt m prev xs c :
  linked (nodes m) prev xs (Some c) -> nodes m !! c = None -> (length xs < n)%nat ->
  count_loop n cnt (front xs (Some c)) m = Undefined.
Proof.
  revert n cnt prev. induction xs as [|x r IH]; intros n cnt prev L E Hn; (destruct n as [|n]; [cbn in Hn; lia|]).
  - cbn. unfold load, get, mbind, M_bind, defined. rewrite E. reflexivity.
  - destruct L as [(y & Ey & _ & N) L]. cbn [front count_loop]. rewrite (bind_load _ _ _ _ Ey), N.
    apply (IH n _ _ L E). cbn in Hn. lia.
Qed.

(** ** Properties *)

(** The operations on a sequence. *)
Inductive operation := AddHead (a : positive) | AddTail (a : positive) | Remove (a : positive).

Definition sequence (o : operation) (xs : list positive) : list positive :=
  match o with
  | AddHead a => a :: xs
  | AddTail a => xs ++ [a]
  | Remove a => filter (fun b => b <> a) xs
  end.

Definition run (fuel : nat) (o : operation) : io bool :=
  match o with
  | AddHead a => dll_addNodeHead fuel (Some a)
  | AddTail a => dll_addNodeTail fuel (Some a)
  | Remove a => dll_removeNode fuel (Some a)
  end.

(** Added is an allocated node that is not in the list, removed is one that is,
    with an allocated object or none. *)
Definition allowed (m : memory) (xs : list positive) (o : operation) : Prop :=
  match o with
  | AddHead a | AddTail a => (a ∉ xs) /\ exists n, nodes m !! a = Some n
  | Remove a => (a ∈ xs) /\ forall o, object_of m a = Some o -> o ∈ objects m
  end.

Definition removed (o : operation) : ptr := match o with Remove a => Some a | _ => NULL end.

(** C37: Adding at the head and at the tail and removing any node are the
    operations of a sequence: links, head, tail and count stay those of a well
    formed list, TRUE is returned, and no other node loses what it holds. *)
Theorem dll_refines_sequence fuel m xs o :
  represents m xs -> allowed m xs o -> (length xs < fuel)%nat ->
  exists m', run fuel o m = Returns (true, m') /\ represents m' (sequence o xs) /\
    nSortOrder (pdll m') = nSortOrder (pdll m) /\
    forall b, removed o <> Some b -> (payload <$> (nodes m' !! b)) = (payload <$> (nodes m !! b)).
Proof.
  intros R A Hf. destruct o as [a|a|a]; cbn [run sequence removed allowed] in *.
  - destruct A as (Ha & n & En). destruct (addNodeHead_ok fuel m xs a n R Ha En Hf) as (m' & E & R' & [P _ S]).
    exists m'. split; [exact E|]. split; [exact R'|]. split; [exact S|]. intros b _. rewrite <- !lookup_fmap, P. reflexivity.
  - destruct A as (Ha & n & En). destruct (addNodeTail_ok fuel m xs a n R Ha En Hf) as (m' & E & R' & [P _ S]).
    exists m'. split; [exact E|]. split; [exact R'|]. split; [exact S|]. intros b _. rewrite <- !lookup_fmap, P. reflexivity.
  - destruct A as (Ha & Ho). destruct (linked_defined _ _ _ _ a (rep_links _ _ R) Ha) as [n En].
    apply list_elem_of_split in Ha as (l & r & ->).
    destruct (removeNode_ok fuel m l a r n R En) as (m' & E & R' & P & _ & S).
    { intros o Eo. apply Ho. unfold object_of. rewrite En. exact Eo. }
    { rewrite length_app in *. cbn in Hf. lia. }
    exists m'. split; [exact E|]. split; [|split; [exact S|]].
    + replace (filter _ _) with (l ++ r); [exact R'|]. symmetry. apply filter_one, (rep_nodup _ _ R).
    + intros b Hb. rewrite <- !lookup_fmap, P, lookup_delete_ne by congruence. reflexivity.
Qed.

(** Dll_removeAllNodes ends, leaves an empty list, and frees every node and
    every object of the list once and nothing else; the sort order is lost. *)
Theorem dll_removeAllNodes_spec fuel m xs :
  represents m xs -> NoDup (objects_of m xs) -> (forall o, o ∈ objects_of m xs -> o ∈ objects m) ->
  (length xs <= fuel)%nat ->
  exists m', dll_removeAllNodes fuel m = Returns (true, m') /\ represents m' [] /\
    nSortOrder (pdll m') = SORT_NONE /\
    dom (nodes m') = dom (nodes m) ∖ list_to_set xs /\
    objects m' = objects m ∖ list_to_set (objects_of m xs).
Proof.
  intros R D O Hf. destruct (remove_loop_ok fuel fuel m xs R D O Hf Hf) as (m' & E & _ & Dm & Om).
  unfold dll_removeAllNodes. rewrite (bind_returns _ _ _ _ _ E). eexists. split; [reflexivity|].
  split; [split; [constructor|exact I|reflexivity..]|]. auto.
Qed.

(** The key of a node. *)
Definition key_of (m : memory) (a : positive) : option Z := nodes m !! a ≫= pKey.
Definition string_of (m : memory) (a : positive) : option (list Z) := nodes m !! a ≫= pstrKey.

(** The two searches return the first node of the list with the key, or NULL,
    and change nothing, if every node has a key of the kind that is looked for. *)
Theorem dll_find_spec fuel m xs :
  represents m xs -> (length xs <= fuel)%nat ->
  (forall nID, (forall a, a ∈ xs -> is_Some (key_of m a)) ->
     dll_findNodeFromID fuel nID m = Returns ((snd <$> list_find (fun a => key_of m a = Some nID) xs), m)) /\
  (forall strID, Forall (fun c => 0 < c) strID ->
     (forall a, a ∈ xs -> exists s, string_of m a = Some s /\ Forall (fun c => 0 < c) s) ->
     dll_findNodeFromString fuel strID m =
       Returns ((snd <$> list_find (fun a => string_of m a = Some strID) xs), m)).
Proof.
  intros R Hf. split.
  - intros nID K. unfold dll_findNodeFromID. rewrite bind_get_list, (rep_head _ _ R).
    apply (find_loop_ok (fun a => key_of m a = Some nID) _ _ _ _ _ (rep_links _ _ R) Hf).
    intros a x Ha E. destruct (K a Ha) as [k Ek]. unfold key_of in *. rewrite E in *. cbn in *. rewrite Ek.
    assert (Q : (nID =? k) = bool_decide (Some k = Some nID)) by (apply eq_bool_prop_intro; rewrite Is_true_true, Z.eqb_eq, bool_decide_spec; split; congruence).
    cbn [defined]. rewrite bind_ret, Q. reflexivity.
  - intros strID Hs K. unfold dll_findNodeFromString. rewrite bind_get_list, (rep_head _ _ R).
    apply (find_loop_ok (fun a => string_of m a = Some strID) _ _ _ _ _ (rep_links _ _ R) Hf).
    intros a x Ha E. destruct (K a Ha) as (s & Es & Ps). unfold string_of in *. rewrite E in *. cbn [mbind option_bind] in *. rewrite Es.
    assert (Q : (0 =? strcmp strID s) = bool_decide (Some s = Some strID)).
    { apply eq_bool_prop_intro. rewrite Is_true_true, Z.eqb_eq, bool_decide_spec.
      assert (C := strcmp_eq _ _ Hs Ps). split; [intros ->%eq_sym%C; reflexivity|intros [= ->]; symmetry; apply C; reflexivity]. }
    cbn [defined]. rewrite bind_ret, Q. reflexivity.
Qed.

(** Dll_insertNode gives the right sequence from the head, but the node
    that it inserts becomes its own predecessor and the node after it keeps its
    old one, because the link that leads there is overwritten first; when the
    inserted node is then removed, the list still leads to the freed node, which
    the count at the end of the removal follows. *)
Theorem dll_insertNode_corrupts fuel m xs a b ys c n :
  represents m (xs ++ a :: b :: ys) -> c ∉ xs ++ a :: b :: ys -> nodes m !! c = Some n -> pObject n = NULL ->
  (S (length (xs ++ a :: b :: ys)) <= fuel)%nat ->
  exists m', dll_insertNode fuel (Some a) (Some c) m = Returns (true, m') /\
    forward (nodes m') (pHead (pdll m')) (xs ++ a :: c :: b :: ys) /\
    (pPrev <$> nodes m' !! c) = Some (Some c) /\ (pPrev <$> nodes m' !! b) = Some (Some a) /\
    dll_removeNode fuel (Some c) m' = Undefined.
Proof.
  intros R Hn En Ho Hf. destruct (insertNode_ok fuel m xs a (b :: ys) c n R Hn En Hf) as (m' & E & Hh & Ht & Lx & Ly & Ec & F).
  exists m'. split; [exact E|]. split; [exact F|]. destruct Ly as [(nb & Eb & Pb & Nb) Ly].
  split; [rewrite Ec; reflexivity|]. split; [rewrite Eb, <- Pb; reflexivity|].
  assert (c <> b /\ (c ∉ xs ++ [a])) as [Ncb Nx] by set_solver.
  unfold dll_removeNode. exec. cbn [set_prev set_next pObject pNext pPrev front]. rewrite Ho. exec.
  erewrite bind_free_node by (cbn [nodes]; simplify_map_eq; reflexivity). exec.
  unfold dll_getNodeCount. rewrite bind_assoc, bind_get_list. cbn [pHead pdll].
  rewrite Hh, (rep_head _ _ R), front_app. replace (front xs (front _ _)) with (front (xs ++ [a]) (Some c)) by (rewrite front_app; reflexivity).
  destruct (front_snoc xs a (Some c)) as [z Ez]. rewrite Ez at 1. cbn [is_null].
  unfold mbind at 1 2, M_bind at 1 2. assert (b ∉ xs ++ [a]) by (intros I; apply rep_nodup, NoDup_app in R as (_ & D1 & D2); apply NoDup_cons in D2 as [D2 _]; set_solver).
  erewrite count_loop_dangling; [reflexivity| | |rewrite length_app in *; cbn [length] in *; lia]; cbn [nodes];
    [links|apply lookup_delete_eq].
Qed.

(** *** Sorted insertion *)

Lemma addNodeTail_forward fuel m xs c n :
  represents m xs -> c ∉ xs -> nodes m !! c = Some n -> (length xs < fuel)%nat ->
  exists m', dll_addNodeTail fuel (Some c) m = Returns (true, m') /\ forward (nodes m') (pHead (pdll m')) (xs ++ [c]).
Proof.
  intros R Hc E Hf. destruct (addNodeTail_ok fuel m xs c n R Hc E Hf) as (m' & E' & R' & _). exists m'.
  split; [exact E'|]. rewrite (rep_head _ _ R'). apply (linked_forward _ _ _ _ (rep_links _ _ R') eq_refl).
Qed.

Lemma count_again fuel m xs :
  forward (nodes m) (pHead (pdll m)) xs -> xs <> [] -> (length xs <= fuel)%nat ->
  exists m', (dll_getNodeCount fuel ≫= fun _ => mret true) m = Returns (true, m') /\
    forward (nodes m') (pHead (pdll m')) xs.
Proof. intros F N Hf. rewrite (bind_count_forward fuel xs) by assumption. eexists. split; [reflexivity|exact F]. Qed.

(** Where the two additions next to a node put the new one: both after it, but
    at the head before it. *)
Lemma addNodeAfter_ok fuel m xs a ys c n :
  represents m (xs ++ a :: ys) -> c ∉ xs ++ a :: ys -> nodes m !! c = Some n -> (length (xs ++ a :: ys) < fuel)%nat ->
  exists m', dll_addNodeAfter fuel (Some a) (Some c) m = Returns (true, m') /\
    forward (nodes m') (pHead (pdll m')) (xs ++ a :: c :: ys).
Proof.
  intros R Hc En Hf. assert (L := rep_links _ _ R). apply linked_app in L as [_ [(x & Ex & _ & Nx) _]].
  unfold dll_addNodeAfter. cbn [is_null orb]. rewrite (bind_load _ _ _ _ Ex), Nx. destruct ys as [|y ys]; cbn [front is_null].
  - destruct (addNodeTail_forward fuel m _ c n R Hc En Hf) as (m' & E & F). rewrite (bind_returns _ _ _ _ _ E).
    rewrite <- app_assoc in F. apply (count_again fuel m' _ F); [destruct xs; discriminate|].
    rewrite length_app in *. cbn in *. lia.
  - destruct (insertNode_ok fuel m xs a (y :: ys) c n R Hc En Hf) as (m' & E & _ & _ & _ & _ & _ & F).
    rewrite (bind_returns _ _ _ _ _ E). apply (count_again fuel m' _ F); [destruct xs; discriminate|].
    rewrite length_app in *. cbn in *. lia.
Qed.

Lemma addNodeBefore_ok fuel m xs a ys c n :
  represents m (xs ++ a :: ys) -> c ∉ xs ++ a :: ys -> nodes m !! c = Some n -> (length (xs ++ a :: ys) < fuel)%nat ->
  exists m', dll_addNodeBefore fuel (Some a) (Some c) m = Returns (true, m') /\
    forward (nodes m') (pHead (pdll m')) (match xs with [] => c :: a :: ys | _ => xs ++ a :: c :: ys end).
Proof.
  intros R Hc En Hf. assert (L := rep_links _ _ R). apply linked_app in L as [_ [(x & Ex & Px & _) _]].
  unfold dll_addNodeBefore. cbn [is_null orb]. rewrite (bind_load _ _ _ _ Ex), Px. destruct xs as [|z zs].
  - cbn [back last is_null app] in *. destruct (addNodeHead_ok fuel m _ c n R Hc En Hf) as (m' & E & R' & _).
    rewrite (bind_returns _ _ _ _ _ E). apply (count_again fuel m'); [|discriminate|cbn in *; lia].
    rewrite (rep_head _ _ R'). apply (linked_forward _ _ _ _ (rep_links _ _ R') eq_refl).
  - destruct (back_some NULL z zs) as (w & -> & _). cbn [is_null].
    destruct (insertNode_ok fuel m (z :: zs) a ys c n R Hc En Hf) as (m' & E & _ & _ & _ & _ & _ & F).
    rewrite (bind_returns _ _ _ _ _ E). apply (count_again fuel m' _ F); [discriminate|].
    rewrite length_app in *. cbn [length] in *. lia.
Qed.

(** The place that dll_addNode finds in a list sorted by number. *)
Fixpoint place (key : positive -> Z) (c : positive) (before : bool) (xs : list positive) : list positive :=
  match xs with
  | [] => [c]
  | a :: r =>
      if key c =? key a then a :: c :: r
      else if key a <? key c then (if before then a :: c :: r else c :: a :: r)
      else a :: place key c true r
  end.

Lemma search_loop_ok (key : positive -> Z) k fuel m xs ys c n last :
  represents m (xs ++ ys) -> c ∉ xs ++ ys -> nodes m !! c = Some n ->
  (forall a, a ∈ c :: ys -> key_of m a = Some (key a)) -> (length ys <= k)%nat -> (length (xs ++ ys) < fuel)%nat ->
  exists m', search_loop fuel k SORT_NUMERIC last (front ys NULL) (Some c) m = Returns (true, m') /\
    forward (nodes m') (pHead (pdll m')) (xs ++ place key c (match xs with [] => false | _ => true end) ys).
Proof.
  revert xs k last. induction ys as [|a r IH]; intros xs k last R Hc En K Hk Hf.
  - rewrite app_nil_r in *. destruct (addNodeTail_forward fuel m xs c n R Hc En Hf) as (m' & E & F).
    exists m'. split; [destruct k; exact E|exact F].
  - assert (L := rep_links _ _ R). apply linked_app in L as [_ [(x & Ex & _ & Nx) _]].
    cbn [length] in Hk. destruct k as [|k]; [lia|]. cbn [front search_loop place].
    rewrite (bind_load _ _ _ _ En), (bind_load _ _ _ _ Ex).
    assert (Kc := K c (list_elem_of_here _ _)). assert (Ka := K a ltac:(set_solver)). unfold key_of in Kc, Ka.
    rewrite En in Kc. rewrite Ex in Ka. cbn in Kc, Ka.
    erewrite bind_returns by (unfold compare; cbn [Z.eqb SORT_NUMERIC SORT_STRING Pos.eqb andb]; rewrite Kc, Ka; reflexivity).
    rewrite Z.gtb_ltb. destruct (Z.eqb_spec (key c) (key a)); cbn [Z.eqb].
    + apply (addNodeAfter_ok fuel m xs a r c n R Hc En Hf).
    + destruct (key a <? key c) eqn:Lt; cbn [Z.eqb Z.ltb Z.compare].
      * destruct (addNodeBefore_ok fuel m xs a r c n R Hc En Hf) as (m' & E & F). exists m'. split; [exact E|].
        destruct xs; exact F.
      * rewrite (bind_load _ _ _ _ Ex), Nx.
        replace (xs ++ a :: r) with ((xs ++ [a]) ++ r) in * by (rewrite <- app_assoc; reflexivity).
        destruct (IH (xs ++ [a]) k (-1) R Hc En) as (m' & E & F); [intros b Hb; apply K; set_solver|lia|exact Hf|].
        exists m'. split; [exact E|]. rewrite <- app_assoc in F. destruct (xs ++ [a]) eqn:Q; [destruct xs; discriminate Q|].
        exact F.
Qed.

(** In a list sorted by number dll_addNode puts a node behind the first one
    whose key is not larger, and before it only when that is the head.  The
    order from the head is meant to be descending: the place is right for a
    largest key, for an equal one and for a smallest, and for every other
    smaller keys precede it. *)
Theorem dll_addNode_numeric (key : positive -> Z) fuel m xs c n :
  represents m xs -> nSortOrder (pdll m) = SORT_NUMERIC -> c ∉ xs -> nodes m !! c = Some n ->
  (forall a, a ∈ c :: xs -> key_of m a = Some (key a)) -> (length xs < fuel)%nat ->
  exists m', dll_addNode fuel (Some c) m = Returns (true, m') /\
    forward (nodes m') (pHead (pdll m')) (place key c false xs).
Proof.
  intros R S Hc En K Hf. unfold dll_addNode. rewrite bind_get_list, S. cbn [Z.eqb SORT_NUMERIC SORT_NONE SORT_STRING Pos.eqb andb].
  rewrite (bind_load _ _ _ _ En). assert (Kc := K c (list_elem_of_here _ _)). unfold key_of in Kc. rewrite En in Kc. cbn in Kc.
  rewrite Kc. rewrite bool_decide_false by discriminate. rewrite (rep_head _ _ R).
  apply (search_loop_ok key fuel fuel m [] xs c n 0 R Hc En K); [lia|exact Hf].
Qed.

(** ** A concrete memory

    Nodes 1, 2 and 3 in a list sorted by number, and node 4 that is not in it. *)

Definition sample_node (key : Z) (object next prev : ptr) : dllnode :=
  Node (Some [48 + key]) (Some key) key object 0 next prev.

Definition sample_memory : memory :=
  Memory (List SORT_NUMERIC (Some 1%positive) (Some 3%positive) 3)
    (list_to_map [(1%positive, sample_node 9 (Some 7%positive) (Some 2%positive) NULL);
                  (2%positive, sample_node 5 NULL (Some 3%positive) (Some 1%positive));
                  (3%positive, sample_node 2 (Some 8%positive) NULL (Some 2%positive));
                  (4%positive, sample_node 4 NULL NULL NULL)])
    {[7%positive; 8%positive]}.

Lemma sample_represents : represents sample_memory [1; 2; 3]%positive.
Proof.
  split; [|cbn; repeat split; eexists; repeat split; reflexivity|reflexivity..].
  apply (bool_decide_unpack _). vm_compute. exact I.
Qed.

Lemma dll_refines_sequence_witness :
  exists m', run 9 (Remove 2) sample_memory = Returns (true, m') /\ represents m' [1; 3]%positive /\
    nSortOrder (pdll m') = SORT_NUMERIC /\
    forall b, Some 2%positive <> Some b -> (payload <$> (nodes m' !! b)) = (payload <$> (nodes sample_memory !! b)).
Proof.
  apply (dll_refines_sequence 9 sample_memory [1; 2; 3]%positive (Remove 2) sample_represents).
  - split; [apply (bool_decide_unpack _); vm_compute; exact I|discriminate].
  - cbn. lia.
Defined.

Lemma dll_removeAllNodes_spec_witness :
  exists m', dll_removeAllNodes 9 sample_memory = Returns (true, m') /\ represents m' [] /\
    nSortOrder (pdll m') = SORT_NONE /\
    dom (nodes m') = dom (nodes sample_memory) ∖ list_to_set [1; 2; 3]%positive /\
    objects m' = objects sample_memory ∖ list_to_set (objects_of sample_memory [1; 2; 3]%positive).
Proof.
  apply (dll_removeAllNodes_spec 9 sample_memory [1; 2; 3]%positive sample_represents).
  - apply (bool_decide_unpack _). vm_compute. exact I.
  - intros o. change (objects_of _ _) with [7; 8]%positive. cbn. set_solver.
  - cbn. lia.
Defined.

Lemma dll_find_spec_witness :
  dll_findNodeFromID 9 5 sample_memory =
    Returns ((snd <$> list_find (fun a => key_of sample_memory a = Some 5) [1; 2; 3]%positive), sample_memory) /\
  (snd <$> list_find (fun a => key_of sample_memory a = Some 5) [1; 2; 3]%positive) = Some 2%positive.
Proof.
  split; [|vm_compute; reflexivity].
  refine (proj1 (dll_find_spec 9 sample_memory [1; 2; 3]%positive sample_represents _) 5 _); [cbn; lia|].
  intros a Ha. repeat (apply elem_of_cons in Ha as [->|Ha]; [eexists; reflexivity|]). set_solver.
Defined.

Lemma dll_insertNode_corrupts_witness :
  exists m', dll_insertNode 9 (Some 2%positive) (Some 4%positive) sample_memory = Returns (true, m') /\
    forward (nodes m') (pHead (pdll m')) [1; 2; 4; 3]%positive /\
    (pPrev <$> nodes m' !! 4%positive) = Some (Some 4%positive) /\
    (pPrev <$> nodes m' !! 3%positive) = Some (Some 2%positive) /\
    dll_removeNode 9 (Some 4%positive) m' = Undefined.
Proof.
  eapply (dll_insertNode_corrupts 9 sample_memory [1]%positive 2%positive 3%positive [] 4%positive);
    [exact sample_represents| |reflexivity|reflexivity|cbn; lia].
  apply (bool_decide_unpack _). vm_compute. exact I.
Defined.

(** The keys are 9, 5, 2, and 4 comes last. *)
Lemma dll_addNode_numeric_witness :
  exists m', dll_addNode 9 (Some 4%positive) sample_memory = Returns (true, m') /\
    forward (nodes m') (pHead (pdll m')) [1; 2; 3; 4]%positive.
Proof.
  eapply (dll_addNode_numeric (fun a => nth (Pos.to_nat a) [0; 9; 5; 2; 4] 0) 9 sample_memory [1; 2; 3]%positive);
    [exact sample_represents|reflexivity| |reflexivity| |cbn; lia].
  - apply (bool_decide_unpack _). vm_compute. exact I.
  - intros a Ha. repeat (apply elem_of_cons in Ha as [->|Ha]; [reflexivity|]). set_solver.
Defined.
