(* ===== verification/Event.v ===== *)
(** * VSCP events: src/src/vscp/common/vscp.h and vscphelper.cpp

    The two event structures, their shared time block with its union, the
    header fields, and the functions that create, copy and convert events. *)

From S2P Require Import Prelude Crc DateTime.

(** ** Constants of vscp.h *)

Definition VSCP_LEVEL2_MAXDATA : Z := 512.
Definition VSCP_MAX_DATA : Z := 512.
Definition VSCP_HEADER_PRIORITY_MASK : Z := 0xE0.
Definition VSCP_HEADER_HARD_CODED : Z := 0x10.
Definition VSCP_HEADER_NO_CRC : Z := 0x08.
Definition VSCP_HEADER16_FRAME_VERSION_MASK : Z := 0x0300.
Definition VSCP_HEADER16_FRAME_VERSION_ORIGINAL : Z := 0x0000.
Definition VSCP_HEADER16_FRAME_VERSION_UNIX_NS : Z := 0x0100.

(** ** Data *)

(** The time block.  [timestamp_ns] is the 64-bit member of the anonymous
    union; [day] to [timestamp] are the other member, which overlays it byte
    for byte (little-endian: [day] is the lowest byte, [timestamp] the upper
    half). *)
Record timeblock := Time { year : Z; month : Z; timestamp_ns : Z }.

Definition day (t : timeblock) : Z := u8 (timestamp_ns t).
Definition hour (t : timeblock) : Z := u8 (Z.shiftr (timestamp_ns t) 8).
Definition minute (t : timeblock) : Z := u8 (Z.shiftr (timestamp_ns t) 16).
Definition second (t : timeblock) : Z := u8 (Z.shiftr (timestamp_ns t) 24).
Definition timestamp (t : timeblock) : Z := u32 (Z.shiftr (timestamp_ns t) 32).

(** The 64-bit pattern of the struct member of the union. *)
Definition pack (d h mi s ts : Z) : Z :=
  d + h * 2 ^ 8 + mi * 2 ^ 16 + s * 2 ^ 24 + ts * 2 ^ 32.

Definition set_day (v : Z) (t : timeblock) : timeblock :=
  Time (year t) (month t) (pack (u8 v) (hour t) (minute t) (second t) (timestamp t)).
Definition set_hour (v : Z) (t : timeblock) : timeblock :=
  Time (year t) (month t) (pack (day t) (u8 v) (minute t) (second t) (timestamp t)).
Definition set_minute (v : Z) (t : timeblock) : timeblock :=
  Time (year t) (month t) (pack (day t) (hour t) (u8 v) (second t) (timestamp t)).
Definition set_second (v : Z) (t : timeblock) : timeblock :=
  Time (year t) (month t) (pack (day t) (hour t) (minute t) (u8 v) (timestamp t)).
Definition set_timestamp (v : Z) (t : timeblock) : timeblock :=
  Time (year t) (month t) (pack (day t) (hour t) (minute t) (second t) (u32 v)).
Definition set_year (v : Z) (t : timeblock) : timeblock :=
  Time (u16 v) (month t) (timestamp_ns t).
Definition set_month (v : Z) (t : timeblock) : timeblock :=
  Time (year t) (u8 v) (timestamp_ns t).
Definition set_timestamp_ns (v : Z) (t : timeblock) : timeblock :=
  Time (year t) (month t) (u64 v).

(** vscpEvent: the data is a separate buffer, [pdata = None] is a null
    pointer. *)
Record vscpEvent := Event {
  head : Z; obid : Z; etime : timeblock;
  vscp_class : Z; vscp_type : Z; GUID : list Z;
  sizeData : Z; pdata : option (list Z); crc : Z
}.

(** vscpEventEx: the data is embedded, an array of 512 bytes. *)
Record vscpEventEx := EventEx {
  xhead : Z; xobid : Z; xtime : timeblock; xcrc : Z;
  xclass : Z; xtype : Z; xGUID : list Z;
  xsizeData : Z; xdata : list Z
}.

(** Field updates. *)
Definition set_head (v : Z) (e : vscpEvent) : vscpEvent :=
  Event (u16 v) (obid e) (etime e) (vscp_class e) (vscp_type e) (GUID e)
        (sizeData e) (pdata e) (crc e).
Definition set_etime (v : timeblock) (e : vscpEvent) : vscpEvent :=
  Event (head e) (obid e) v (vscp_class e) (vscp_type e) (GUID e)
        (sizeData e) (pdata e) (crc e).
Definition set_crc (v : Z) (e : vscpEvent) : vscpEvent :=
  Event (head e) (obid e) (etime e) (vscp_class e) (vscp_type e) (GUID e)
        (sizeData e) (pdata e) (u16 v).
Definition set_GUID (v : list Z) (e : vscpEvent) : vscpEvent :=
  Event (head e) (obid e) (etime e) (vscp_class e) (vscp_type e) v
        (sizeData e) (pdata e) (crc e).
Definition set_pdata (n : Z) (d : option (list Z)) (e : vscpEvent) : vscpEvent :=
  Event (head e) (obid e) (etime e) (vscp_class e) (vscp_type e) (GUID e)
        (u16 n) d (crc e).

(** ** Well-formedness *)

Record time_ok (t : timeblock) : Prop := {
  year_ok : is_u16 (year t);
  month_ok : is_u8 (month t);
  ns_ok : is_u64 (timestamp_ns t)
}.

(** The data buffer is exactly [sizeData] bytes; no data, null pointer. *)
Definition data_ok (n : Z) (d : option (list Z)) : Prop :=
  match d with
  | None => n = 0
  | Some l => 0 < n /\ Z.of_nat (length l) = n /\ bytes_ok l
  end.

Record event_ok (e : vscpEvent) : Prop := {
  head_ok : is_u16 (head e);
  obid_ok : is_u32 (obid e);
  etime_ok : time_ok (etime e);
  class_ok : is_u16 (vscp_class e);
  type_ok : is_u16 (vscp_type e);
  guid_ok : length (GUID e) = 16%nat /\ bytes_ok (GUID e);
  size_ok : is_u16 (sizeData e);
  edata_ok : data_ok (sizeData e) (pdata e);
  crc_ok : is_u16 (crc e)
}.

Record eventex_ok (e : vscpEventEx) : Prop := {
  xhead_ok : is_u16 (xhead e);
  xobid_ok : is_u32 (xobid e);
  xtime_ok : time_ok (xtime e);
  xcrc_ok : is_u16 (xcrc e);
  xclass_ok : is_u16 (xclass e);
  xtype_ok : is_u16 (xtype e);
  xguid_ok : length (xGUID e) = 16%nat /\ bytes_ok (xGUID e);
  xsize_ok : is_u16 (xsizeData e);
  xdata_ok : length (xdata e) = 512%nat /\ bytes_ok (xdata e)
}.

(** The frame version of a header. *)
Definition frame_version (h : Z) : Z := Z.land h VSCP_HEADER16_FRAME_VERSION_MASK.
Definition is_unix_ns (h : Z) : bool :=
  frame_version h =? VSCP_HEADER16_FRAME_VERSION_UNIX_NS.

(** ** Header fields *)

(** vscp_getEventPriority: 0 for a null pointer. *)
Definition vscp_getEventPriority (pev : option vscpEvent) : Z :=
  match pev with
  | None => 0
  | Some e => Z.land (Z.shiftr (head e) 5) 0x07
  end.

Definition vscp_getEventExPriority (pev : option vscpEventEx) : Z :=
  match pev with
  | None => 0
  | Some e => Z.land (Z.shiftr (xhead e) 5) 0x07
  end.

(** The assignments of vscp_setEventPriority on the 16-bit [head]: the
    priority is shifted in without masking. *)
Definition set_priority (h priority : Z) : Z :=
  u16 (Z.lor (u16 (Z.land h (Z.lnot VSCP_HEADER_PRIORITY_MASK)))
             (Z.shiftl priority 5)).

Definition vscp_setEventPriority (pev : option vscpEvent) (priority : Z)
  : option vscpEvent :=
  match pev with
  | None => None
  | Some e => Some (set_head (set_priority (head e) priority) e)
  end.

Definition vscp_setEventExPriority (pev : option vscpEventEx) (priority : Z)
  : option vscpEventEx :=
  match pev with
  | None => None
  | Some e => Some (EventEx (set_priority (xhead e) priority) (xobid e) (xtime e)
                      (xcrc e) (xclass e) (xtype e) (xGUID e) (xsizeData e) (xdata e))
  end.

(** setFrameVersion (both overloads change [head] the same way). *)
Definition setFrameVersion (pev : option vscpEvent) (version : Z)
  : bool * option vscpEvent :=
  match pev with
  | None => (false, None)
  | Some e =>
      let h := u16 (Z.land (head e) (Z.lnot VSCP_HEADER16_FRAME_VERSION_MASK)) in
      (true, Some (set_head (Z.lor h (Z.land version VSCP_HEADER16_FRAME_VERSION_MASK)) e))
  end.

(** ** CAN identifiers *)

Definition vscp_getHeadFromCANALid (id : Z) : Z :=
  let priority := u8 (Z.land 0x07 (Z.shiftr id 26)) in
  let hardcoded :=
    if negb (Z.land id (Z.shiftl 1 25) =? 0) then VSCP_HEADER_HARD_CODED else 0 in
  u8 (Z.lor (Z.shiftl priority 5) hardcoded).

Definition vscp_getVscpClassFromCANALid (id : Z) : Z :=
  u16 (Z.land 0x1ff (Z.shiftr id 16)).

Definition vscp_getVscpTypeFromCANALid (id : Z) : Z :=
  u16 (Z.land 0xff (Z.shiftr id 8)).

Definition vscp_getNicknameFromCANALid (id : Z) : Z := u8 (Z.land id 0xff).

Definition vscp_getCANALidFromData (priority cls typ : Z) : Z :=
  u32 (Z.lor (Z.lor (Z.lor (Z.shiftl priority 26) (Z.shiftl cls 16))
                    (Z.shiftl typ 8)) 0).

Definition vscp_getCANALidFromEvent (e : vscpEvent) : Z :=
  u32 (Z.lor (Z.lor (Z.lor (Z.shiftl (vscp_getEventPriority (Some e)) 26)
                           (Z.shiftl (vscp_class e) 16))
                    (Z.shiftl (vscp_type e) 8)) 0).

Definition vscp_getCANALidFromEventEx (e : vscpEventEx) : Z :=
  u32 (Z.lor (Z.lor (Z.lor (Z.shiftl (vscp_getEventExPriority (Some e)) 26)
                           (Z.shiftl (xclass e) 16))
                    (Z.shiftl (xtype e) 8)) 0).

(** ** Conversion and copy

    The time block is copied as a whole for frames with a nanosecond
    timestamp, and field by field otherwise. *)

Definition copy_time (h : Z) (from to : timeblock) : timeblock :=
  if is_unix_ns h
  then set_month 0xff (set_year 0xffff (set_timestamp_ns (timestamp_ns from) to))
  else
    set_timestamp (timestamp from) (set_second (second from)
      (set_minute (minute from) (set_hour (hour from) (set_day (day from)
        (set_month (month from) (set_year (year from) to)))))).

(** [memcpy(dst, pdata, n)]: undefined for a null source of [n > 0] bytes. *)
Definition read_data (d : option (list Z)) (n : Z) : option (list Z) :=
  if n =? 0 then Some [] else
  match d with None => None | Some l => rdn l 0 (Z.to_nat n) end.

Definition vscp_convertEventToEventEx (pex : option vscpEventEx) (pev : option vscpEvent)
  : option (bool * option vscpEventEx) :=
  match pev, pex with
  | None, _ => Some (false, pex)
  | Some _, None => Some (false, None)
  | Some e, Some x =>
      if (VSCP_LEVEL2_MAXDATA <? sizeData e)
         || (negb (sizeData e =? 0) && bool_decide (pdata e = None))
      then Some (false, Some x)
      else
        bs ← read_data (pdata e) (sizeData e);
        data ← wr (xdata x) 0 bs;
        Some (true, Some (EventEx (head e) (obid e)
                            (copy_time (head e) (etime e) (xtime x)) (crc e)
                            (vscp_class e) (vscp_type e) (GUID e) (sizeData e) data))
  end.

(** The previous [pdata] of the target is overwritten without being freed. *)
Definition vscp_convertEventExToEvent (pev : option vscpEvent) (pex : option vscpEventEx)
  : option (bool * option vscpEvent) :=
  match pev, pex with
  | None, _ => Some (false, None)
  | Some e, None => Some (false, Some e)
  | Some e, Some x =>
      if VSCP_LEVEL2_MAXDATA <? xsizeData x then Some (false, Some e)
      else
        data ← (if negb (xsizeData x =? 0)
                then Some <$> rdn (xdata x) 0 (Z.to_nat (xsizeData x))
                else Some None);
        Some (true, Some (Event (xhead x) (xobid x)
                            (copy_time (xhead x) (xtime x) (etime e))
                            (xclass x) (xtype x) (xGUID x) (xsizeData x) data (xcrc x)))
  end.

Definition vscp_copyEvent (pevTo pevFrom : option vscpEvent)
  : option (bool * option vscpEvent) :=
  match pevTo, pevFrom with
  | None, _ => Some (false, None)
  | Some t, None => Some (false, Some t)
  | Some t, Some f =>
      if VSCP_LEVEL2_MAXDATA <? sizeData f then Some (false, Some t)
      else
        data ← (if negb (sizeData f =? 0)
                then Some <$> read_data (pdata f) (sizeData f)
                else Some None);
        Some (true, Some (Event (head f) (obid f)
                            (copy_time (head f) (etime f) (etime t))
                            (vscp_class f) (vscp_type f) (GUID f) (sizeData f)
                            data (crc f)))
  end.

Definition vscp_copyEventEx (pexTo pexFrom : option vscpEventEx)
  : option (bool * option vscpEventEx) :=
  match pexTo, pexFrom with
  | None, _ => Some (false, None)
  | Some t, None => Some (false, Some t)
  | Some t, Some f =>
      if VSCP_LEVEL2_MAXDATA <? xsizeData f then Some (false, Some t)
      else
        bs ← rdn (xdata f) 0 (Z.to_nat (xsizeData f));
        data ← wr (xdata t) 0 bs;
        Some (true, Some (EventEx (xhead f) (xobid f)
                            (copy_time (xhead f) (xtime f) (xtime t)) (xcrc f)
                            (xclass f) (xtype f) (xGUID f) (xsizeData f) data))
  end.

(** ** Creation

    [new] leaves the fields that are not assigned indeterminate: [mem] is the
    content of the fresh memory.  Allocation itself does not fail (it throws). *)

Definition vscp_newEvent (mem : vscpEvent) (version : Z) : vscpEvent :=
  let e := Event (u16 version) (obid mem) (etime mem) (vscp_class mem)
             (vscp_type mem) (GUID mem) 0 None (crc mem) in
  if is_unix_ns version
  then set_etime (set_month 0xff (set_year 0xffff (etime e))) e
  else e.

Definition vscp_newEventEx (mem : vscpEventEx) (version : Z) : vscpEventEx :=
  EventEx (u16 version) (xobid mem)
    (if is_unix_ns version then set_month 0xff (set_year 0xffff (xtime mem))
     else xtime mem)
    (xcrc mem) (xclass mem) (xtype mem) (xGUID mem) 0 (xdata mem).

(** The default of the [version] argument in vscphelper.h. *)
Definition default_version : Z := VSCP_HEADER16_FRAME_VERSION_UNIX_NS.

(** vscp_deleteEvent frees the data and clears the pointer. *)
Definition vscp_deleteEvent (pev : option vscpEvent) : option vscpEvent :=
  match pev with
  | None => None
  | Some e => Some (Event (head e) (obid e) (etime e) (vscp_class e) (vscp_type e)
                      (GUID e) (sizeData e) None (crc e))
  end.

(** ** Event checksum

    vscp_calc_crc_Event copies the fields to a buffer of [23 + sizeData] bytes
    but passes [sizeof(pbuf)], the size of a pointer (8 on the 64-bit targets),
    to [crcFast].  [crc_buffer] is the buffer (little-endian fields). *)

Definition le16 (x : Z) : list Z := [u8 x; u8 (Z.shiftr x 8)].

Definition crc_buffer (hd cls typ : Z) (guid data : list Z) (size : Z) : list Z :=
  [u8 hd] ++ le16 cls ++ le16 typ ++ guid ++ data ++ le16 size.

Definition sizeof_pointer : nat := 8.

Definition vscp_calc_crc_Event (pev : option vscpEvent) (bSet : bool)
  : option (Z * option vscpEvent) :=
  match pev with
  | None => Some (0, None)
  | Some e =>
      bs ← read_data (pdata e) (sizeData e);
      let pbuf := crc_buffer (head e) (vscp_class e) (vscp_type e) (GUID e) bs (sizeData e) in
      msg ← rdn pbuf 0 sizeof_pointer;
      let c := crcFast msg in
      Some (c, Some (if bSet then set_crc c e else e))
  end.

Definition vscp_calc_crc_EventEx (pev : option vscpEventEx) (bSet : bool)
  : option (Z * option vscpEventEx) :=
  match pev with
  | None => Some (0, None)
  | Some x =>
      bs ← rdn (xdata x) 0 (Z.to_nat (xsizeData x));
      let pbuf := crc_buffer (xhead x) (xclass x) (xtype x) (xGUID x) bs (xsizeData x) in
      msg ← rdn pbuf 0 sizeof_pointer;
      let c := crcFast msg in
      Some (c, Some (if bSet then EventEx (xhead x) (xobid x) (xtime x) c (xclass x)
                                    (xtype x) (xGUID x) (xsizeData x) (xdata x)
                     else x))
  end.

(** ** Date and time

    The clock is an argument: [now] is the result of [time], in seconds. *)

Definition set_date (t : tm) (b : timeblock) : timeblock :=
  set_second (tm_sec t) (set_minute (tm_min t) (set_hour (tm_hour t)
    (set_day (tm_mday t) (set_month (tm_mon t + 1) (set_year (tm_year t + 1900) b))))).

Definition set_unix_ns (v : Z) (b : timeblock) : timeblock :=
  set_month 0xff (set_year 0xffff (set_timestamp_ns v b)).

Definition vscp_setEventDateTime (pev : option vscpEvent) (ptm : option tm) (ns : Z)
  : bool * option vscpEvent :=
  match pev, ptm with
  | None, _ => (false, None)
  | Some e, None => (false, Some e)
  | Some e, Some t =>
      let ns := if 999999999 <? ns then 999999999 else ns in
      (true, Some (set_etime
        (if is_unix_ns (head e)
         then set_unix_ns (u64 (timegm t) * 1000000000 + ns) (etime e)
         else set_date t (etime e)) e))
  end.

Definition vscp_setEventToNow (now : Z) (pev : option vscpEvent)
  : bool * option vscpEvent :=
  match pev with
  | None => (false, None)
  | Some e =>
      (true, Some (set_etime
        (if is_unix_ns (head e)
         then set_unix_ns (u64 now * 1000000000) (etime e)
         else set_date (gmtime now) (etime e)) e))
  end.

Definition vscp_setEventExToNow (now : Z) (pex : option vscpEventEx)
  : bool * option vscpEventEx :=
  match pex with
  | None => (false, None)
  | Some x =>
      (true, Some (EventEx (xhead x) (xobid x)
        (if is_unix_ns (xhead x)
         then set_unix_ns (u64 now * 1000000000) (xtime x)
         else set_date (gmtime now) (xtime x))
        (xcrc x) (xclass x) (xtype x) (xGUID x) (xsizeData x) (xdata x)))
  end.

Definition vscp_setEventExDateTime (pex : option vscpEventEx) (ptm : option tm) (ns : Z)
  : bool * option vscpEventEx :=
  match pex, ptm with
  | None, _ => (false, None)
  | Some x, None => (false, Some x)
  | Some x, Some t =>
      let ns := if 999999999 <? ns then 999999999 else ns in
      (true, Some (EventEx (xhead x) (xobid x)
        (if is_unix_ns (xhead x)
         then set_unix_ns (u64 (timegm t) * 1000000000 + ns) (xtime x)
         else set_date t (xtime x))
        (xcrc x) (xclass x) (xtype x) (xGUID x) (xsizeData x) (xdata x)))
  end.

(** The result of [clock_gettime(CLOCK_REALTIME)]. *)
Record timespec := Timespec { tv_sec : Z; tv_nsec : Z }.

Definition vscp_makeTimeStampNs (now : timespec) : Z :=
  u64 (u64 (tv_sec now) * 1000000000 + u64 (tv_nsec now)).

(** vscp_makeTimeStamp converts a [double] to [uint32_t], which is undefined
    when the value does not fit. *)
Definition vscp_makeTimeStamp (now : timespec) : option Z :=
  let us := tv_sec now * 1000 + Z.quot (tv_nsec now) 1000 in
  if (0 <=? us) && (us <? 2 ^ 32) then Some us else None.

Definition vscp_setEventDateTimeBlockToNow (now : timespec) (pev : option vscpEvent)
  : bool * option vscpEvent :=
  match pev with
  | None => (false, None)
  | Some e =>
      (true, Some (set_etime
        (if is_unix_ns (head e)
         then set_unix_ns (vscp_makeTimeStampNs now) (etime e)
         else set_date (gmtime (tv_sec now)) (etime e)) e))
  end.

Definition vscp_setEventExDateTimeBlockToNow (now : timespec) (pex : option vscpEventEx)
  : bool * option vscpEventEx :=
  match pex with
  | None => (false, None)
  | Some x =>
      (true, Some (EventEx (xhead x) (xobid x)
        (if is_unix_ns (xhead x)
         then set_unix_ns (vscp_makeTimeStampNs now) (xtime x)
         else set_date (gmtime (tv_sec now)) (xtime x))
        (xcrc x) (xclass x) (xtype x) (xGUID x) (xsizeData x) (xdata x)))
  end.

(** ** Lemmas on the time union *)

Lemma shiftr_mul_div n x : 0 <= n -> Z.shiftr x n = x / 2 ^ n.
Proof. apply Z.shiftr_div_pow2. Qed.

Ltac union :=
  unfold day, hour, minute, second, timestamp, pack in *;
  cbn [timestamp_ns year month] in *;
  rewrite ?shiftr_mul_div in * by lia;
  change (2 ^ 24) with 16777216 in *; width.

Lemma pack_unpack t :
  is_u64 (timestamp_ns t) ->
  pack (day t) (hour t) (minute t) (second t) (timestamp t) = timestamp_ns t.
Proof. intros H. union. Qed.

Lemma day_ok t : is_u8 (day t). Proof. apply u8_ok. Qed.
Lemma hour_ok t : is_u8 (hour t). Proof. apply u8_ok. Qed.
Lemma minute_ok t : is_u8 (minute t). Proof. apply u8_ok. Qed.
Lemma second_ok t : is_u8 (second t). Proof. apply u8_ok. Qed.
Lemma timestamp_ok t : is_u32 (timestamp t). Proof. apply u32_ok. Qed.
#[export] Hint Resolve day_ok hour_ok minute_ok second_ok timestamp_ok : vscp.

Lemma pack_fields y m d h mi s ts :
  is_u8 d -> is_u8 h -> is_u8 mi -> is_u8 s -> is_u32 ts ->
  day (Time y m (pack d h mi s ts)) = d /\
  hour (Time y m (pack d h mi s ts)) = h /\
  minute (Time y m (pack d h mi s ts)) = mi /\
  second (Time y m (pack d h mi s ts)) = s /\
  timestamp (Time y m (pack d h mi s ts)) = ts.
Proof. intros. repeat split; union. Qed.

Ltac set_field f y m d h mi s ts :=
  intros; unfold f;
  destruct (pack_fields y m d h mi s ts) as (Ed & Eh & Emi & Es & Ets); auto;
  rewrite ?Ed, ?Eh, ?Emi, ?Es, ?Ets; reflexivity.

(** The setters act on the components of the union independently. *)
Lemma set_day_eq v y m d h mi s ts :
  is_u8 d -> is_u8 h -> is_u8 mi -> is_u8 s -> is_u32 ts ->
  set_day v (Time y m (pack d h mi s ts)) = Time y m (pack (u8 v) h mi s ts).
Proof.
  set_field set_day y m d h mi s ts.
Qed.
Lemma set_hour_eq v y m d h mi s ts :
  is_u8 d -> is_u8 h -> is_u8 mi -> is_u8 s -> is_u32 ts ->
  set_hour v (Time y m (pack d h mi s ts)) = Time y m (pack d (u8 v) mi s ts).
Proof.
  set_field set_hour y m d h mi s ts.
Qed.
Lemma set_minute_eq v y m d h mi s ts :
  is_u8 d -> is_u8 h -> is_u8 mi -> is_u8 s -> is_u32 ts ->
  set_minute v (Time y m (pack d h mi s ts)) = Time y m (pack d h (u8 v) s ts).
Proof.
  set_field set_minute y m d h mi s ts.
Qed.
Lemma set_second_eq v y m d h mi s ts :
  is_u8 d -> is_u8 h -> is_u8 mi -> is_u8 s -> is_u32 ts ->
  set_second v (Time y m (pack d h mi s ts)) = Time y m (pack d h mi (u8 v) ts).
Proof.
  set_field set_second y m d h mi s ts.
Qed.
Lemma set_timestamp_eq v y m d h mi s ts :
  is_u8 d -> is_u8 h -> is_u8 mi -> is_u8 s -> is_u32 ts ->
  set_timestamp v (Time y m (pack d h mi s ts)) = Time y m (pack d h mi s (u32 v)).
Proof.
  set_field set_timestamp y m d h mi s ts.
Qed.

(** Overwriting the members of the struct side of the union: all but the
    timestamp, and all. *)
Lemma set_date_fields y m d h mi s b :
  is_u64 (timestamp_ns b) ->
  set_second s (set_minute mi (set_hour h (set_day d (set_month m (set_year y b)))))
  = Time (u16 y) (u8 m) (pack (u8 d) (u8 h) (u8 mi) (u8 s) (timestamp b)).
Proof.
  intros Hb.
  assert (E : set_month m (set_year y b)
    = Time (u16 y) (u8 m) (pack (day b) (hour b) (minute b) (second b) (timestamp b))).
  { rewrite pack_unpack by exact Hb. reflexivity. }
  rewrite E, set_day_eq, set_hour_eq, set_minute_eq, set_second_eq by auto with vscp.
  reflexivity.
Qed.

Lemma set_all_fields y m d h mi s ts b :
  is_u64 (timestamp_ns b) ->
  set_timestamp ts (set_second s (set_minute mi (set_hour h (set_day d
    (set_month m (set_year y b))))))
  = Time (u16 y) (u8 m) (pack (u8 d) (u8 h) (u8 mi) (u8 s) (u32 ts)).
Proof.
  intros Hb. rewrite set_date_fields, set_timestamp_eq by auto with vscp.
  reflexivity.
Qed.

Lemma pack_ok d h mi s ts :
  is_u8 d -> is_u8 h -> is_u8 mi -> is_u8 s -> is_u32 ts -> is_u64 (pack d h mi s ts).
Proof. intros. union. Qed.
#[export] Hint Resolve pack_ok : vscp.

Lemma set_time_ok t v :
  time_ok t ->
  time_ok (set_day v t) /\ time_ok (set_hour v t) /\ time_ok (set_minute v t)
  /\ time_ok (set_second v t) /\ time_ok (set_timestamp v t)
  /\ time_ok (set_year v t) /\ time_ok (set_month v t) /\ time_ok (set_timestamp_ns v t).
Proof.
  intros [Hy Hm Hn]. split_and!; split; cbn [year month timestamp_ns set_day set_hour set_minute
    set_second set_timestamp set_year set_month set_timestamp_ns];
    first [exact Hy | exact Hm | exact Hn | apply u8_ok | apply u16_ok | apply u64_ok
          | apply pack_ok; auto with vscp].
Qed.

Lemma set_day_ok t v : time_ok t -> time_ok (set_day v t). Proof. apply set_time_ok. Qed.
Lemma set_hour_ok t v : time_ok t -> time_ok (set_hour v t). Proof. apply set_time_ok. Qed.
Lemma set_minute_ok t v : time_ok t -> time_ok (set_minute v t).
Proof. apply set_time_ok. Qed.
Lemma set_second_ok t v : time_ok t -> time_ok (set_second v t).
Proof. apply set_time_ok. Qed.
Lemma set_timestamp_ok t v : time_ok t -> time_ok (set_timestamp v t).
Proof. apply set_time_ok. Qed.
Lemma set_year_ok t v : time_ok t -> time_ok (set_year v t). Proof. apply set_time_ok. Qed.
Lemma set_month_ok t v : time_ok t -> time_ok (set_month v t). Proof. apply set_time_ok. Qed.
Lemma set_timestamp_ns_ok t v : time_ok t -> time_ok (set_timestamp_ns v t).
Proof. apply set_time_ok. Qed.
#[export] Hint Resolve set_day_ok set_hour_ok set_minute_ok set_second_ok
  set_timestamp_ok set_year_ok set_month_ok set_timestamp_ns_ok : vscp.

Lemma set_date_ok g t : time_ok t -> time_ok (set_date g t).
Proof. intros. unfold set_date. auto 10 with vscp. Qed.
Lemma set_unix_ns_ok v t : time_ok t -> time_ok (set_unix_ns v t).
Proof. intros. unfold set_unix_ns. auto with vscp. Qed.
#[export] Hint Resolve set_date_ok set_unix_ns_ok : vscp.

(** What a copy of the time block keeps: everything, up to the fixed markers of
    nanosecond frames. *)
Definition norm_time (h : Z) (t : timeblock) : timeblock :=
  if is_unix_ns h then Time 0xffff 0xff (timestamp_ns t) else t.

Lemma copy_time_eq h from to :
  time_ok from -> time_ok to -> copy_time h from to = norm_time h from.
Proof.
  intros Hf Ht. unfold copy_time, norm_time. destruct (is_unix_ns h).
  - unfold set_month, set_year, set_timestamp_ns. cbn [year month timestamp_ns].
    rewrite u64_id by apply Hf. reflexivity.
  - rewrite set_all_fields by apply Ht.
    rewrite !u8_id, u16_id, u32_id by (auto with vscp || apply Hf).
    rewrite pack_unpack by apply Hf. destruct from; reflexivity.
Qed.

Lemma norm_time_idem h t : norm_time h (norm_time h t) = norm_time h t.
Proof. unfold norm_time. destruct (is_unix_ns h); reflexivity. Qed.

Lemma norm_time_ok h t : time_ok t -> time_ok (norm_time h t).
Proof.
  intros [H1 H2 H3]. unfold norm_time. destruct (is_unix_ns h); split; auto.
  - cbn. width.
  - cbn. width.
Qed.
#[export] Hint Resolve norm_time_ok : vscp.

(** ** Lemmas on the copies *)

Lemma rdn_self l n : Z.of_nat (length l) = n -> rdn l 0 (Z.to_nat n) = Some l.
Proof.
  intros <-. rewrite Nat2Z.id, rdn_defined by lia.
  rewrite drop_0, take_ge by lia. reflexivity.
Qed.

(** The data of a well-formed event, as a list. *)
Definition data_of (d : option (list Z)) : list Z := default [] d.

Lemma data_of_ok n d :
  data_ok n d -> Z.of_nat (length (data_of d)) = n /\ bytes_ok (data_of d).
Proof.
  destruct d as [l|]; cbn; intros H; [tauto|]. subst n. split; [reflexivity|constructor].
Qed.

Lemma read_data_ok n d : data_ok n d -> read_data d n = Some (data_of d).
Proof.
  unfold read_data. destruct d as [l|]; cbn; intros H.
  - destruct (Z.eqb_spec n 0); [lia|]. apply rdn_self. tauto.
  - subst n. reflexivity.
Qed.

Lemma data_ok_null n d :
  data_ok n d -> negb (n =? 0) && bool_decide (d = None) = false.
Proof.
  destruct d as [l|]; intros H; cbn [data_ok] in H.
  - rewrite bool_decide_false by discriminate. apply andb_false_r.
  - subst n. reflexivity.
Qed.

Lemma data_ok_some n d :
  data_ok n d -> (if n =? 0 then None else Some (data_of d)) = d.
Proof.
  destruct d as [l|]; cbn; intros H.
  - destruct (Z.eqb_spec n 0); [lia|reflexivity].
  - subst n. reflexivity.
Qed.

(** What vscp_convertEventToEventEx stores. *)
Definition event_to_ex (x : vscpEventEx) (e : vscpEvent) : vscpEventEx :=
  EventEx (head e) (obid e) (norm_time (head e) (etime e)) (crc e)
    (vscp_class e) (vscp_type e) (GUID e) (sizeData e)
    (data_of (pdata e) ++ drop (Z.to_nat (sizeData e)) (xdata x)).

Definition norm_event (e : vscpEvent) : vscpEvent :=
  set_etime (norm_time (head e) (etime e)) e.

Lemma norm_event_ok e : event_ok e -> event_ok (norm_event e).
Proof. intros [? ? ? ? ? ? ? ? ?]. split; cbn; auto with vscp. Qed.

Lemma ltb_max n : n <= 512 -> (VSCP_LEVEL2_MAXDATA <? n) = false.
Proof. intros. apply Z.ltb_ge. unfold VSCP_LEVEL2_MAXDATA. lia. Qed.

Lemma convertEventToEventEx_eq x e :
  eventex_ok x -> event_ok e -> sizeData e <= 512 ->
  vscp_convertEventToEventEx (Some x) (Some e) = Some (true, Some (event_to_ex x e)).
Proof.
  intros Hx He Hs. unfold vscp_convertEventToEventEx.
  destruct (data_of_ok _ _ (edata_ok e He)) as [Hl Hb].
  rewrite (ltb_max _ Hs), (data_ok_null _ _ (edata_ok e He)). cbn [orb].
  rewrite (read_data_ok _ _ (edata_ok e He)). cbn [mbind option_bind].
  rewrite wr_front by (rewrite (proj1 (xdata_ok x Hx)); lia). cbn [mbind option_bind].
  rewrite copy_time_eq by first [apply He | apply Hx].
  unfold event_to_ex. rewrite <- Hl, Nat2Z.id. reflexivity.
Qed.

Lemma event_to_ex_ok x e :
  eventex_ok x -> event_ok e -> sizeData e <= 512 -> eventex_ok (event_to_ex x e).
Proof.
  intros Hx He Hs. destruct (data_of_ok _ _ (edata_ok e He)) as [Hl Hb].
  destruct (xdata_ok x Hx) as [Xl Xb].
  split; cbn; try apply He.
  - apply norm_time_ok, He.
  - split.
    + rewrite length_app, length_drop, Xl. lia.
    + apply Forall_app. split; [exact Hb|]. apply Forall_drop, Xb.
Qed.

Lemma convertExToEvent_data x e0 e n l rest :
  eventex_ok x -> event_ok e0 -> xsizeData x = n -> n <= 512 ->
  xdata x = l ++ rest -> Z.of_nat (length l) = n ->
  e = Event (xhead x) (xobid x) (norm_time (xhead x) (xtime x)) (xclass x) (xtype x)
        (xGUID x) n (if n =? 0 then None else Some l) (xcrc x) ->
  vscp_convertEventExToEvent (Some e0) (Some x) = Some (true, Some e).
Proof.
  intros Hx He En Hn Ed El ->. unfold vscp_convertEventExToEvent.
  rewrite En, (ltb_max _ Hn), Ed, (rdn_prefix _ _ _ El).
  rewrite copy_time_eq by first [apply He | apply Hx].
  destruct (n =? 0); reflexivity.
Qed.

(** ** Bit-field lemmas *)

Lemma u16_testbit x i : 0 <= i < 16 -> Z.testbit (u16 x) i = Z.testbit x i.
Proof. intros. unfold u16. apply Z.mod_pow2_bits_low. lia. Qed.

Lemma testbit_div x n i : 0 <= n -> 0 <= i -> Z.testbit (x / 2 ^ n) i = Z.testbit x (i + n).
Proof. intros. rewrite <- Z.shiftr_div_pow2 by lia. apply Z.shiftr_spec. lia. Qed.

Lemma testbit_above x n i : 0 <= n <= i -> 0 <= x < 2 ^ n -> Z.testbit x i = false.
Proof. intros. rewrite <- (Z.mod_small x (2 ^ n)) by lia. apply Z.mod_pow2_bits_high. lia. Qed.

Lemma testbit_E0 i : Z.testbit VSCP_HEADER_PRIORITY_MASK i = (5 <=? i) && (i <? 8).
Proof.
  unfold VSCP_HEADER_PRIORITY_MASK. change 0xE0 with (Z.shiftl (Z.ones 3) 5).
  destruct (Z.leb_spec 5 i).
  - rewrite Z.shiftl_spec, Z.testbit_ones_nonneg by lia. cbn [andb].
    destruct (Z.ltb_spec i 8), (Z.ltb_spec (i - 5) 3); (reflexivity || lia).
  - destruct (Z.ltb_spec i 0); [apply Z.testbit_neg_r; lia|].
    rewrite Z.shiftl_spec by lia. apply Z.testbit_neg_r. lia.
Qed.

Lemma set_priority_testbit h p i :
  0 <= i < 16 ->
  Z.testbit (set_priority h p) i
  = (Z.testbit h i && negb ((5 <=? i) && (i <? 8))) || Z.testbit p (i - 5).
Proof.
  intros Hi. unfold set_priority.
  rewrite u16_testbit, Z.lor_spec, u16_testbit, Z.land_spec, Z.lnot_spec by lia.
  rewrite testbit_E0, Z.shiftl_spec by lia. reflexivity.
Qed.

(** Two words with the same low [n] bits have the same remainder. *)
Lemma mod_bits x y n :
  0 <= n -> (forall i, 0 <= i < n -> Z.testbit x i = Z.testbit y i) ->
  x mod 2 ^ n = y mod 2 ^ n.
Proof.
  intros Hn H. apply Z.bits_inj'; intros i Hi. destruct (Z.ltb_spec i n).
  - rewrite !Z.mod_pow2_bits_low by lia. apply H. lia.
  - rewrite !Z.mod_pow2_bits_high by lia. reflexivity.
Qed.

Lemma set_priority_bits h p :
  is_u16 h -> is_u8 p ->
  set_priority h p mod 2 ^ 5 = h mod 2 ^ 5
  /\ set_priority h p / 2 ^ 5 mod 2 ^ 3 = p mod 2 ^ 3
  /\ set_priority h p / 2 ^ 8 = Z.lor (h / 2 ^ 8) (p / 2 ^ 3).
Proof.
  intros Hh Hp.
  assert (Hs : is_u16 (set_priority h p)) by apply u16_ok.
  split; [|split].
  - apply mod_bits; [lia|]. intros i Hi. rewrite set_priority_testbit by lia.
    rewrite (Z.testbit_neg_r p) by lia.
    destruct (Z.leb_spec 5 i); [lia|]. cbn. rewrite andb_true_r. apply orb_false_r.
  - apply mod_bits; [lia|]. intros i Hi.
    rewrite testbit_div, set_priority_testbit by lia.
    destruct (Z.leb_spec 5 (i + 5)); [|lia]. destruct (Z.ltb_spec (i + 5) 8); [|lia].
    cbn [andb negb]. rewrite andb_false_r. cbn [orb]. f_equal. lia.
  - apply Z.bits_inj'; intros i Hi. rewrite Z.lor_spec, !testbit_div by lia.
    destruct (Z.ltb_spec i 8).
    + rewrite set_priority_testbit by lia.
      destruct (Z.ltb_spec (i + 8) 8); [lia|]. rewrite andb_false_r. cbn [negb].
      rewrite andb_true_r. f_equal. f_equal. lia.
    + rewrite !(testbit_above _ 16) by first [lia | apply Hs | apply Hh].
      rewrite (testbit_above p 8) by first [lia | apply Hp]. reflexivity.
Qed.

(** The three fields of a packed CAN identifier. *)
Lemma canal_id_fields p c t :
  0 <= p < 8 -> 0 <= c < 512 -> 0 <= t < 256 ->
  u32 (Z.lor (Z.lor (Z.lor (Z.shiftl p 26) (Z.shiftl c 16)) (Z.shiftl t 8)) 0)
  = p * 2 ^ 26 + c * 2 ^ 16 + t * 2 ^ 8.
Proof.
  intros Hp Hc Ht. rewrite Z.lor_0_r, !shiftl_mul by lia.
  rewrite (lor_add_disjoint 26) by lia.
  replace (p * 2 ^ 26 + c * 2 ^ 16) with ((p * 2 ^ 10 + c) * 2 ^ 16) by ring.
  rewrite (lor_add_disjoint 16) by lia. rewrite u32_id by width. ring.
Qed.

(** A sample event, frame and buffer for the witnesses. *)
Definition sample_event : vscpEvent :=
  Event 0x0160 7 (Time 0xffff 0xff 1704067199123456789) 10 6
    [0xff; 0xff; 0xff; 0xff; 0xff; 0xff; 0xff; 0xfe; 1; 2; 3; 4; 5; 6; 0; 1]
    4 (Some [0x89; 0x82; 0xfe; 0xd7]) 0.

Definition sample_ex : vscpEventEx :=
  EventEx 0 0 (Time 2024 2 0) 0 0 0 (replicate 16 0) 0 (replicate 512 0).

Lemma sample_event_ok : event_ok sample_event.
Proof.
  split; cbn; try width; [split; cbn; width|..].
  - split; [reflexivity|]. repeat constructor; width.
  - split; [width|split; [reflexivity|]]. repeat constructor; width.
Qed.

Lemma sample_ex_ok : eventex_ok sample_ex.
Proof.
  assert (H : forall n, bytes_ok (replicate n 0)) by (intros; apply Forall_replicate; width).
  split; unfold sample_ex;
    cbn [xhead xobid xtime xcrc xclass xtype xGUID xsizeData xdata];
    try (split; [apply length_replicate|apply H]); try width.
  split; cbn; width.
Qed.

(** Storing the date of a [gmtime] result loses nothing. *)
Lemma set_date_gmtime now b :
  0 <= now < 20000000000 -> time_ok b ->
  let b' := set_date (gmtime now) b in
  time_ok b'
  /\ vscp_to_unix_ns (year b') (month b') (day b') (hour b') (minute b') (second b') 0
     = now * 1000000000
  /\ timestamp b' = timestamp b.
Proof.
  intros Hn Hb. cbv zeta. unfold set_date.
  rewrite set_date_fields by apply Hb.
  destruct (gmtime_range now Hn) as (Ry & Rm & Rd & Rh & Rmi & Rs).
  assert (T := timegm_gmtime now).
  destruct (gmtime now) as [gy gm gd gh gmi gs] eqn:G.
  cbn [tm_year tm_mon tm_mday tm_hour tm_min tm_sec] in *.
  rewrite (u16_id (gy + 1900)) by width.
  rewrite (u8_id (gm + 1)), (u8_id gd), (u8_id gh), (u8_id gmi), (u8_id gs) by width.
  destruct (pack_fields (gy + 1900) (gm + 1) gd gh gmi gs (timestamp b))
    as (-> & -> & -> & -> & ->); [width..|auto with vscp|].
  split; [|split; [|reflexivity]].
  - split; cbn [year month timestamp_ns]; [width|width|]. apply pack_ok; auto with vscp; width.
  - cbn [year month]. unfold vscp_to_unix_ns, SECS_PER_DAY, NS_PER_SEC.
    assert (E := timegm_date (gy + 1900) (gm + 1) gd gh gmi gs ltac:(lia) ltac:(lia)).
    replace (gy + 1900 - 1900) with gy in E by lia. replace (gm + 1 - 1) with gm in E by lia.
    rewrite T in E. rewrite <- E. lia.
Qed.

(** ** Properties *)

(** Converting a well-formed event with at most 512 data bytes to a
    vscpEventEx and back gives the event again, whatever the two targets held;
    only the year and month of a nanosecond frame are replaced by their fixed
    markers.  No step reads or writes outside a buffer. *)
Theorem event_eventex_roundtrip (e e0 : vscpEvent) (x0 : vscpEventEx) :
  event_ok e -> event_ok e0 -> eventex_ok x0 -> sizeData e <= VSCP_LEVEL2_MAXDATA ->
  exists x, vscp_convertEventToEventEx (Some x0) (Some e) = Some (true, Some x)
    /\ eventex_ok x
    /\ vscp_convertEventExToEvent (Some e0) (Some x) = Some (true, Some (norm_event e)).
Proof.
  intros He He0 Hx Hs. unfold VSCP_LEVEL2_MAXDATA in Hs.
  exists (event_to_ex x0 e). split; [apply convertEventToEventEx_eq; assumption|].
  split; [apply event_to_ex_ok; assumption|].
  eapply (convertExToEvent_data _ _ _ (sizeData e) (data_of (pdata e))); auto.
  - apply event_to_ex_ok; assumption.
  - apply (data_of_ok _ _ (edata_ok e He)).
  - cbn [xhead xobid xtime xclass xtype xGUID xcrc event_to_ex].
    rewrite norm_time_idem, data_ok_some by apply He. reflexivity.
Qed.

Lemma event_eventex_roundtrip_witness :
  exists x, vscp_convertEventToEventEx (Some sample_ex) (Some sample_event)
            = Some (true, Some x)
    /\ eventex_ok x
    /\ vscp_convertEventExToEvent (Some sample_event) (Some x)
       = Some (true, Some (norm_event sample_event)).
Proof.
  apply (event_eventex_roundtrip sample_event sample_event sample_ex).
  - apply sample_event_ok.
  - apply sample_event_ok.
  - apply sample_ex_ok.
  - intros H; discriminate H.
Defined.

(** What the target held does not matter. *)
Lemma copyEvent_into (to from : vscpEvent) :
  time_ok (etime to) -> event_ok from ->
  vscp_copyEvent (Some to) (Some from)
  = (if sizeData from <=? VSCP_LEVEL2_MAXDATA
     then Some (true, Some (norm_event from)) else Some (false, Some to)).
Proof.
  intros Ht Hf. unfold vscp_copyEvent. rewrite Z.ltb_antisym.
  destruct (sizeData from <=? VSCP_LEVEL2_MAXDATA); [|reflexivity]. cbn [negb].
  rewrite (read_data_ok _ _ (edata_ok from Hf)), copy_time_eq by first [apply Hf | apply Ht].
  assert (E := data_ok_some _ _ (edata_ok from Hf)).
  destruct (sizeData from =? 0); cbn in E |- *; rewrite E; reflexivity.
Qed.

Lemma copyEvent_eq (to from : vscpEvent) :
  event_ok to -> event_ok from ->
  vscp_copyEvent (Some to) (Some from)
  = (if sizeData from <=? VSCP_LEVEL2_MAXDATA
     then Some (true, Some (norm_event from)) else Some (false, Some to)).
Proof. intros Ht. apply copyEvent_into, Ht. Qed.

(** Vscp_copyEvent makes a deep copy of every well-formed event of at most
    512 data bytes (all fields, the data in a buffer of its own of the same
    size), keeps well-formedness, and refuses a larger one without touching the
    target. *)
Theorem copyEvent_correct (to from : vscpEvent) :
  event_ok to -> event_ok from ->
  vscp_copyEvent (Some to) (Some from)
  = (if sizeData from <=? VSCP_LEVEL2_MAXDATA
     then Some (true, Some (norm_event from)) else Some (false, Some to))
  /\ event_ok (norm_event from).
Proof. intros Ht Hf. split; [apply copyEvent_eq; assumption|apply norm_event_ok, Hf]. Qed.

Lemma copyEvent_correct_witness :
  vscp_copyEvent (Some sample_event) (Some sample_event)
  = Some (true, Some (norm_event sample_event))
  /\ event_ok (norm_event sample_event).
Proof.
  apply (copyEvent_correct sample_event sample_event); apply sample_event_ok.
Defined.

(** Vscp_setEventPriority changes only the priority bits for a priority
    0 to 7, and vscp_getEventPriority reads it back.  The argument is not
    masked: its bits 3 to 7 are or-ed into the high byte of the header, which
    holds the frame version. *)
Theorem setEventPriority_spec (e : vscpEvent) (p : Z) :
  event_ok e -> is_u8 p ->
  exists e', vscp_setEventPriority (Some e) p = Some e'
    /\ event_ok e'
    /\ vscp_getEventPriority (Some e') = p mod 8
    /\ head e' mod 32 = head e mod 32
    /\ head e' / 256 = Z.lor (head e / 256) (p / 8).
Proof.
  intros He Hp. destruct (set_priority_bits (head e) p (head_ok e He) Hp) as (H1 & H2 & H3).
  exists (set_head (set_priority (head e) p) e).
  assert (E : head (set_head (set_priority (head e) p) e) = set_priority (head e) p).
  { apply u16_id, u16_ok. }
  split; [reflexivity|]. unfold vscp_getEventPriority. rewrite E, land_7.
  split; [|split; [|split]]; [|rewrite shiftr_div by lia; exact H2|exact H1|exact H3].
  destruct He. split; cbn; auto with vscp.
Qed.

Lemma setEventPriority_spec_witness :
  exists e', vscp_setEventPriority (Some sample_event) 8 = Some e'
    /\ event_ok e'
    /\ vscp_getEventPriority (Some e') = 8 mod 8
    /\ head e' mod 32 = head sample_event mod 32
    /\ head e' / 256 = Z.lor (head sample_event / 256) (8 / 8).
Proof.
  apply (setEventPriority_spec sample_event 8); [apply sample_event_ok|width].
Defined.

(** The CAN identifier of an event with a level I class and type carries
    its priority, class and type: each extraction function recovers its field,
    the hard-coded bit and the nickname are zero. *)
Theorem CANALid_roundtrip (e : vscpEvent) :
  event_ok e -> vscp_class e < 512 -> vscp_type e < 256 ->
  let id := vscp_getCANALidFromEvent e in
  is_u32 id
  /\ vscp_getVscpClassFromCANALid id = vscp_class e
  /\ vscp_getVscpTypeFromCANALid id = vscp_type e
  /\ vscp_getHeadFromCANALid id = vscp_getEventPriority (Some e) * 32
  /\ vscp_getNicknameFromCANALid id = 0
  /\ id = vscp_getCANALidFromData (vscp_getEventPriority (Some e)) (vscp_class e) (vscp_type e).
Proof.
  intros He Hc Ht. cbv zeta. unfold vscp_getCANALidFromData, vscp_getCANALidFromEvent.
  assert (Cc := class_ok e He). assert (Ct := type_ok e He).
  assert (Hp : 0 <= vscp_getEventPriority (Some e) < 8).
  { unfold vscp_getEventPriority. rewrite land_7. apply Z.mod_pos_bound. lia. }
  set (p := vscp_getEventPriority (Some e)) in *.
  set (c := vscp_class e) in *. set (t := vscp_type e) in *.
  rewrite canal_id_fields by (width; lia).
  unfold vscp_getVscpClassFromCANALid, vscp_getVscpTypeFromCANALid,
    vscp_getNicknameFromCANALid, vscp_getHeadFromCANALid.
  change 0x1ff with 511; change 0xff with 255; change 0x07 with 7.
  rewrite (land_mask_l 511), (land_mask_l 7), (land_mask_l 255 (Z.shiftr _ 8)).
  rewrite land_511, !land_255, land_7.
  rewrite !shiftr_div by lia.
  change (2 ^ 26) with 67108864. change (2 ^ 16) with 65536. change (2 ^ 8) with 256.
  assert (B : Z.land (p * 67108864 + c * 65536 + t * 256) (Z.shiftl 1 25) = 0).
  { change (Z.shiftl 1 25) with (2 ^ 25). apply Z.bits_inj'; intros i Hi.
    rewrite Z.land_spec, Z.bits_0. destruct (Z.eqb_spec i 25) as [->|].
    - replace (Z.testbit _ 25) with false; [reflexivity|].
      symmetry. apply Z.testbit_false; [lia|]. change (2 ^ 25) with 33554432. width.
    - rewrite (Z.pow2_bits_false 25) by lia. apply andb_false_r. }
  rewrite B. cbn [Z.eqb negb]. rewrite Z.lor_0_r, shiftl_mul by lia.
  change (2 ^ 5) with 32. repeat split; width.
Qed.

Lemma CANALid_roundtrip_witness :
  let id := vscp_getCANALidFromEvent sample_event in
  is_u32 id
  /\ vscp_getVscpClassFromCANALid id = vscp_class sample_event
  /\ vscp_getVscpTypeFromCANALid id = vscp_type sample_event
  /\ vscp_getHeadFromCANALid id = vscp_getEventPriority (Some sample_event) * 32
  /\ vscp_getNicknameFromCANALid id = 0
  /\ id = vscp_getCANALidFromData (vscp_getEventPriority (Some sample_event))
            (vscp_class sample_event) (vscp_type sample_event).
Proof.
  apply (CANALid_roundtrip sample_event); [apply sample_event_ok|reflexivity|reflexivity].
Defined.

(** Vscp_calc_crc_Event, which means to cover the header byte, class,
    type, GUID, data and size, sums only the first eight bytes of its buffer:
    two well-formed events that agree on the low byte of the head, the class,
    the type and the first three bytes of the GUID have the same checksum,
    however their data and the rest of the GUID differ. *)
Theorem calc_crc_Event_prefix (e1 e2 : vscpEvent) (g0 g1 g2 : Z) (t1 t2 : list Z) (b : bool) :
  event_ok e1 -> event_ok e2 ->
  u8 (head e1) = u8 (head e2) -> vscp_class e1 = vscp_class e2 ->
  vscp_type e1 = vscp_type e2 ->
  GUID e1 = g0 :: g1 :: g2 :: t1 -> GUID e2 = g0 :: g1 :: g2 :: t2 ->
  exists c, fst <$> vscp_calc_crc_Event (Some e1) b = Some c
    /\ fst <$> vscp_calc_crc_Event (Some e2) b = Some c
    /\ c = crcFast ([u8 (head e1)] ++ le16 (vscp_class e1) ++ le16 (vscp_type e1)
                    ++ [g0; g1; g2]).
Proof.
  intros H1 H2 Hh Hc Ht G1 G2.
  eexists. split; [|split; [|reflexivity]];
    unfold vscp_calc_crc_Event, crc_buffer;
    [rewrite (read_data_ok _ _ (edata_ok e1 H1)), G1
    |rewrite (read_data_ok _ _ (edata_ok e2 H2)), G2, <- Hh, <- Hc, <- Ht];
    cbn [mbind option_bind]; rewrite rdn_defined by (unfold sizeof_pointer; cbn; lia); reflexivity.
Qed.

Lemma calc_crc_Event_prefix_witness :
  exists c, fst <$> vscp_calc_crc_Event (Some sample_event) true = Some c
    /\ fst <$> vscp_calc_crc_Event (Some (set_pdata 0 None sample_event)) true = Some c
    /\ c = crcFast ([u8 (head sample_event)] ++ le16 (vscp_class sample_event)
                    ++ le16 (vscp_type sample_event) ++ [0xff; 0xff; 0xff]).
Proof.
  eapply (calc_crc_Event_prefix sample_event (set_pdata 0 None sample_event));
    try reflexivity; [apply sample_event_ok|].
  destruct sample_event_ok. split; cbn; auto with vscp.
Defined.

(** Vscp_setEventToNow stores the time of the clock [now] (seconds since
    the epoch): as nanoseconds with the fixed year and month markers in a
    nanosecond frame, and otherwise as a civil date whose conversion by
    vscp_to_unix_ns gives [now] back.  Other fields and well-formedness are
    kept. *)
Theorem setEventToNow_time (e : vscpEvent) (now : Z) :
  event_ok e -> 0 <= now < 18446744073 ->
  exists e', vscp_setEventToNow now (Some e) = (true, Some e')
    /\ event_ok e' /\ e' = set_etime (etime e') e
    /\ (if is_unix_ns (head e)
        then etime e' = Time 0xffff 0xff (now * 1000000000)
        else vscp_to_unix_ns (year (etime e')) (month (etime e')) (day (etime e'))
               (hour (etime e')) (minute (etime e')) (second (etime e')) 0
             = now * 1000000000
             /\ timestamp (etime e') = timestamp (etime e)).
Proof.
  intros He Hn. unfold vscp_setEventToNow.
  eexists. split; [reflexivity|].
  assert (Hns : u64 now * 1000000000 = now * 1000000000)
    by (rewrite (u64_id now) by width; reflexivity).
  destruct (set_date_gmtime now (etime e) ltac:(lia) (etime_ok e He)) as (T1 & T2 & T3).
  cbn [etime set_etime]. destruct (is_unix_ns (head e)).
  - rewrite Hns. unfold set_unix_ns, set_month, set_year, set_timestamp_ns.
    cbn [year month timestamp_ns]. rewrite (u64_id (now * 1000000000)) by width.
    split; [|split; reflexivity].
    destruct He. split; auto. split; cbn [etime set_etime year month timestamp_ns]; width.
  - split; [|split; [reflexivity|split; assumption]].
    destruct He. split; auto.
Qed.

Lemma setEventToNow_time_witness :
  exists e', vscp_setEventToNow 1704067199 (Some sample_event) = (true, Some e')
    /\ event_ok e' /\ e' = set_etime (etime e') sample_event
    /\ etime e' = Time 0xffff 0xff (1704067199 * 1000000000).
Proof.
  apply (setEventToNow_time sample_event 1704067199); [apply sample_event_ok|lia].
Defined.
