(* ===== verification/Frame.v ===== *)
(** * Binary frames: the multicast/UDP/TCP encoding of vscphelper.cpp

    An event is sent as a packet type byte, a 35-byte big-endian header, the
    data and the 16-bit CRC of everything after the first byte. *)

From S2P Require Import Prelude Crc DateTime Event.

Definition VSCP_BINARY_PACKET_FRAME0_HEADER_LENGTH : Z := 35.
Definition VSCP_MULTICAST_TYPE_EVENT1 : Z := 1.
Definition VSCP_NOCRC_CALC_DUMMY_CRC : Z := 0xAA55.
Definition VSCP_BINARY_PACKET_TYPE_COMMAND : Z := 0xe0.
Definition VSCP_BINARY_PACKET_TYPE_RESPONSE : Z := 0xf0.
Definition VSCP_ENCRYPTION_NONE : Z := 0.

Definition VSCP_ERROR_SUCCESS : Z := 0.
Definition VSCP_ERROR_PARAMETER : Z := 34.
Definition VSCP_ERROR_BUFFER_TO_SMALL : Z := 43.

Definition GET_VSCP_BINARY_PACKET_TYPE (type : Z) : Z := Z.land (Z.shiftr type 4) 0x0f.

(** The two bytes [(x >> 8) & 0xff] and [x & 0xff]. *)
Definition msb_lsb (x : Z) : list Z := [Z.land (Z.shiftr x 8) 0xff; Z.land x 0xff].

(** Reads of [n] bytes, most significant first: the sums of shifted bytes. *)
Definition rd_be (buf : list Z) (off n : nat) : option Z := of_be <$> rdn buf off n.

Definition vscp_getFrameSizeFromEvent (pev : option vscpEvent) : Z :=
  match pev with
  | None => 0
  | Some e => 1 + VSCP_BINARY_PACKET_FRAME0_HEADER_LENGTH + sizeData e + 2
  end.

Definition vscp_getFrameSizeFromEventEx (pex : option vscpEventEx) : Z :=
  match pex with
  | None => 0
  | Some x => 1 + VSCP_BINARY_PACKET_FRAME0_HEADER_LENGTH + xsizeData x + 2
  end.

(** ** Writing *)

(** The nanosecond time of an event: its own, or the civil date of an original
    frame with the microsecond timestamp added. *)
Definition frame_ns (e : vscpEvent) : Z :=
  if is_unix_ns (head e) then timestamp_ns (etime e)
  else
    let b := etime e in
    let t := timegm (Tm (year b - 1900) (month b - 1) (day b) (hour b) (minute b) (second b)) in
    u64 (u64 t * 1000000000 + timestamp b * 1000).

(** The header with the frame version set to UNIX_NS. *)
Definition frame_head (h : Z) : Z :=
  u16 (Z.lor (Z.land h (Z.lnot VSCP_HEADER16_FRAME_VERSION_MASK))
             VSCP_HEADER16_FRAME_VERSION_UNIX_NS).

(** The buffer is [frame], [len] the length the caller gives. *)
Definition vscp_writeEventToFrame (frame : option (list Z)) (len pkttype : Z)
    (pev : option vscpEvent) : option (bool * option (list Z)) :=
  match frame, pev with
  | None, _ => Some (false, None)
  | Some f, None => Some (false, Some f)
  | Some f, Some e =>
      if negb (sizeData e =? 0) && bool_decide (pdata e = None) then Some (false, Some f)
      else if len <? 1 + VSCP_BINARY_PACKET_FRAME0_HEADER_LENGTH + sizeData e + 2
      then Some (false, Some f)
      else
        let ns := frame_ns e in
        let n := Z.to_nat (sizeData e) in
        f ← wr f 0 [u8 (Z.lor (Z.land pkttype 0x0f) (Z.shiftl VSCP_MULTICAST_TYPE_EVENT1 4))];
        f ← wr f 1 (msb_lsb (frame_head (head e)));
        f ← wr f 3 (map (fun k => Z.land (Z.shiftr ns k) 0xff) [56; 48; 40; 32; 24; 16; 8; 0]);
        f ← wr f 11 [0; 0; 0];
        f ← wr f 14 (msb_lsb (vscp_class e));
        f ← wr f 16 (msb_lsb (vscp_type e));
        g ← rdn (GUID e) 0 16;
        f ← wr f 18 g;
        f ← wr f 34 (msb_lsb (sizeData e));
        d ← read_data (pdata e) (sizeData e);
        f ← wr f 36 d;
        msg ← rdn f 1 (35 + n);
        f ← wr f (36 + n) (msb_lsb (crcFast msg));
        Some (true, Some f)
  end.

(** The event of vscp_newEvent, its [pdata] cleared, is the target. *)
Definition vscp_writeEventExToFrame (mem : vscpEvent) (frame : option (list Z))
    (len pkttype : Z) (pex : option vscpEventEx) : option (bool * option (list Z)) :=
  match pex with
  | None => Some (false, frame)
  | Some _ =>
      r ← vscp_convertEventExToEvent (Some (vscp_newEvent mem default_version)) pex;
      match r with
      | (true, pev) => vscp_writeEventToFrame frame len pkttype pev
      | (false, _) => Some (false, frame)
      end
  end.

(** ** Reading

    [now] is the result of the clock, used for a frame without time. *)

(** The checks common to both packet formats: [Some None] is a rejected frame,
    [Some (Some (size, crc))] an accepted one. *)
Definition frame_check (buf : list Z) (len : Z) : option (option (Z * Z)) :=
  size ← rd_be buf 34 2;
  let calc := 1 + VSCP_BINARY_PACKET_FRAME0_HEADER_LENGTH + 2 + size in
  if len <? calc then Some None
  else
    crcFrame ← rd_be buf (Z.to_nat calc - 2) 2;
    h ← rd buf 2;
    if negb (Z.land h VSCP_HEADER_NO_CRC =? 0) && (VSCP_NOCRC_CALC_DUMMY_CRC =? crcFrame)
    then Some (Some (size, crcFrame))
    else
      msg ← rdn buf 1 (Z.to_nat calc - 1);
      Some (if crcFast msg =? 0 then Some (size, crcFrame) else None).

(** Time block of a format 1 frame. *)
Definition frame_time_ns (now : timespec) (buf : list Z) (t : timeblock) : option timeblock :=
  ns ← rd_be buf 3 8;
  let ns := if 0 =? ns then vscp_makeTimeStampNs now else ns in
  Some (set_unix_ns ns t).

(** Time block of a format 0 frame. *)
Definition frame_time_orig (now : timespec) (buf : list Z) (t : timeblock) : option timeblock :=
  ts ← rd_be buf 3 4;
  ts ← (if 0 =? ts then vscp_makeTimeStamp now else Some ts);
  y ← rd_be buf 7 2;
  mo ← rd buf 9; d ← rd buf 10; h ← rd buf 11; mi ← rd buf 12; s ← rd buf 13;
  let t := set_second s (set_minute mi (set_hour h (set_day d (set_month mo
             (set_year y (set_timestamp ts t)))))) in
  Some (if (0 =? y) && (0 =? mo) && (0 =? d) && (0 =? h) && (0 =? mi) && (0 =? s)
        then set_date (gmtime (tv_sec now)) t else t).

Definition vscp_getEventFromFrame (now : timespec) (pev : option vscpEvent)
    (buf : option (list Z)) (len : Z) : option (bool * option vscpEvent) :=
  match pev, buf with
  | None, _ => Some (false, None)
  | Some e, None => Some (false, Some e)
  | Some e, Some buf =>
      b0 ← rd buf 0;
      check ← frame_check buf len;
      match check with
      | None => Some (false, Some e)
      | Some (size, crcFrame) =>
          data ← (if negb (size =? 0) then Some <$> rdn buf 36 (Z.to_nat size) else Some None);
          h ← rd_be buf 1 2;
          g ← rdn buf 18 16;
          t ← (if VSCP_MULTICAST_TYPE_EVENT1 =? GET_VSCP_BINARY_PACKET_TYPE b0
               then frame_time_ns now buf (etime e)
               else frame_time_orig now buf (etime e));
          c ← rd_be buf 14 2;
          ty ← rd_be buf 16 2;
          Some (true, Some (Event h 0 t c ty g size data crcFrame))
      end
  end.

Definition vscp_getEventExFromFrame (mem : vscpEvent) (now : timespec)
    (pex : option vscpEventEx) (frame : option (list Z)) (len : Z)
    : option (bool * option vscpEventEx) :=
  match pex with
  | None => Some (false, None)
  | Some x =>
      r ← vscp_getEventFromFrame now (Some (vscp_newEvent mem default_version)) frame len;
      match r with
      | (true, pev) => vscp_convertEventToEventEx (Some x) pev
      | (false, _) => Some (false, Some x)
      end
  end.

(** ** Commands and replies *)

Definition vscp_writeCommandToFrame (frame : option (list Z)) (len command : Z)
    (arg : option (list Z)) (arg_len : Z) : option (Z * option (list Z)) :=
  match frame with
  | None => Some (VSCP_ERROR_PARAMETER, None)
  | Some f =>
      if bool_decide (arg = None) && negb (arg_len =? 0)
      then Some (VSCP_ERROR_PARAMETER, Some f)
      else
        let calc := 1 + 2 + arg_len + 2 in
        if len <? calc then Some (VSCP_ERROR_BUFFER_TO_SMALL, Some f)
        else
          f ← wr f 0 [Z.lor VSCP_BINARY_PACKET_TYPE_COMMAND VSCP_ENCRYPTION_NONE];
          f ← wr f 1 (msb_lsb command);
          a ← read_data arg arg_len;
          f ← wr f 3 a;
          msg ← rdn f 1 (Z.to_nat calc - 3);
          f ← wr f (Z.to_nat calc - 2) (msb_lsb (crcFast msg));
          Some (VSCP_ERROR_SUCCESS, Some f)
  end.

Definition vscp_writeReplyToFrame (frame : option (list Z)) (len command error : Z)
    (arg : option (list Z)) (arg_len : Z) : option (Z * option (list Z)) :=
  match frame with
  | None => Some (VSCP_ERROR_PARAMETER, None)
  | Some f =>
      if bool_decide (arg = None) && negb (arg_len =? 0)
      then Some (VSCP_ERROR_PARAMETER, Some f)
      else
        let calc := 1 + 2 + 2 + arg_len + 2 in
        if len <? calc then Some (VSCP_ERROR_BUFFER_TO_SMALL, Some f)
        else
          f ← wr f 0 [Z.lor VSCP_BINARY_PACKET_TYPE_RESPONSE VSCP_ENCRYPTION_NONE];
          f ← wr f 1 (msb_lsb command);
          f ← wr f 3 (msb_lsb error);
          a ← read_data arg arg_len;
          f ← wr f 5 a;
          msg ← rdn f 1 (Z.to_nat calc - 3);
          f ← wr f (Z.to_nat calc - 2) (msb_lsb (crcFast msg));
          Some (VSCP_ERROR_SUCCESS, Some f)
  end.

(** ** Lemmas *)

Lemma msb_lsb_be x : msb_lsb x = be 2 x.
Proof. unfold msb_lsb. rewrite !land_255. cbn [be]. rewrite Z.shiftr_0_r. reflexivity. Qed.

Lemma msb_lsb_crc x : msb_lsb x = crc_bytes x.
Proof. reflexivity. Qed.

(** A frame of format 1: everything but the CRC. *)
Definition frame_header (pkt h ns c t : Z) (g : list Z) (size : Z) : list Z :=
  [pkt] ++ be 2 h ++ be 8 ns ++ [0; 0; 0] ++ be 2 c ++ be 2 t ++ g ++ be 2 size.

Definition frame_body (pkttype : Z) (e : vscpEvent) : list Z :=
  frame_header (pkttype mod 16 + 16) (frame_head (head e)) (frame_ns e)
    (vscp_class e) (vscp_type e) (GUID e) (sizeData e) ++ data_of (pdata e).

Definition frame_of (pkttype : Z) (e : vscpEvent) : list Z :=
  frame_body pkttype e ++ crc_bytes (crcFast (drop 1 (frame_body pkttype e))).

Lemma pkttype_byte p :
  u8 (Z.lor (Z.land p 0x0f) (Z.shiftl VSCP_MULTICAST_TYPE_EVENT1 4)) = p mod 16 + 16.
Proof.
  change 0x0f with 15. rewrite land_15. change (Z.shiftl _ 4) with (1 * 2 ^ 4).
  rewrite Z.lor_comm, (lor_add_disjoint 4) by dlia. width.
Qed.

Lemma ns_bytes ns :
  map (fun k => Z.land (Z.shiftr ns k) 0xff) [56; 48; 40; 32; 24; 16; 8; 0] = be 8 ns.
Proof. cbn [map be]. change 0xff with 255. rewrite !land_255. reflexivity. Qed.

Lemma length_frame_header pkt h ns c t g size :
  length g = 16%nat -> length (frame_header pkt h ns c t g size) = 36%nat.
Proof. intros Hg. unfold frame_header. rewrite !length_app, !length_be, Hg. reflexivity. Qed.

Lemma length_frame_body p e :
  event_ok e -> length (frame_body p e) = (36 + Z.to_nat (sizeData e))%nat.
Proof.
  intros He. unfold frame_body.
  rewrite length_app, length_frame_header by apply He.
  destruct (data_of_ok _ _ (edata_ok e He)) as [Hl _]. lia.
Qed.

Lemma length_frame_of p e :
  event_ok e -> length (frame_of p e) = (38 + Z.to_nat (sizeData e))%nat.
Proof.
  intros He. unfold frame_of. rewrite length_app, length_frame_body by assumption.
  cbn [crc_bytes length]. lia.
Qed.

(** Everything of a known prefix but its first byte. *)
Lemma rdn_tail pre rest n :
  (S n = length pre)%nat -> rdn (pre ++ rest) 1 n = Some (drop 1 pre).
Proof.
  destruct pre as [|b pre]; cbn [length]; [lia|]. intros [= ->].
  change ((b :: pre) ++ rest) with ([b] ++ pre ++ rest).
  rewrite rdn_app by reflexivity. reflexivity.
Qed.

(** One write of the writer: [pre] is done, [bs] is next. *)
Ltac wr_field :=
  rewrite wr_next;
  [ cbn [mbind option_bind]; rewrite ?drop_drop
  | rewrite ?length_app, ?length_be; cbn [length]; lia
  | rewrite ?length_drop, ?length_be; cbn [length]; lia ].

Lemma writeEventToFrame_fits f len p e :
  event_ok e -> 38 + sizeData e <= len -> 38 + sizeData e <= Z.of_nat (length f) ->
  vscp_writeEventToFrame (Some f) len p (Some e)
  = Some (true, Some (frame_of p e ++ drop (38 + Z.to_nat (sizeData e)) f)).
Proof.
  intros He Hfit Hlen. unfold vscp_writeEventToFrame.
  destruct (data_of_ok _ _ (edata_ok e He)) as [Hl _].
  destruct (guid_ok e He) as [Hg _].
  rewrite (data_ok_null _ _ (edata_ok e He)).
  replace (1 + VSCP_BINARY_PACKET_FRAME0_HEADER_LENGTH + sizeData e + 2)
    with (38 + sizeData e) by (unfold VSCP_BINARY_PACKET_FRAME0_HEADER_LENGTH; lia).
  rewrite (proj2 (Z.ltb_ge _ _) Hfit). cbv zeta. rewrite !msb_lsb_be, ns_bytes, pkttype_byte.
  rewrite <- (app_nil_l f) at 1. do 6 wr_field.
  rewrite rdn_defined by lia. cbn [mbind option_bind].
  rewrite drop_0, take_ge by lia.
  do 2 wr_field.
  rewrite (read_data_ok _ _ (edata_ok e He)). cbn [mbind option_bind]. wr_field.
  match goal with
  | |- context [rdn (?pre ++ _) 1 _] => replace pre with (frame_body p e)
      by (unfold frame_body, frame_header; rewrite <- !app_assoc; reflexivity)
  end.
  rewrite rdn_tail by (rewrite length_frame_body by assumption; lia).
  cbn [mbind option_bind]. rewrite msb_lsb_be, wr_next.
  - cbn [mbind option_bind]. rewrite drop_drop, <- msb_lsb_be, msb_lsb_crc.
    match goal with
    | |- context [drop ?k f] => replace k with (38 + Z.to_nat (sizeData e))%nat
        by (cbn [crc_bytes length]; rewrite ?length_be; cbn [length]; lia)
    end. reflexivity.
  - rewrite length_frame_body by assumption. reflexivity.
  - rewrite length_drop, !length_be. cbn [length]. lia.
Qed.

Lemma writeEventToFrame_eq f len p e :
  event_ok e -> len <= Z.of_nat (length f) ->
  vscp_writeEventToFrame (Some f) len p (Some e)
  = if 38 + sizeData e <=? len
    then Some (true, Some (frame_of p e ++ drop (38 + Z.to_nat (sizeData e)) f))
    else Some (false, Some f).
Proof.
  intros He Hlen. destruct (Z.leb_spec (38 + sizeData e) len); [apply writeEventToFrame_fits; (assumption || lia)|].
  unfold vscp_writeEventToFrame. rewrite (data_ok_null _ _ (edata_ok e He)).
  rewrite (proj2 (Z.ltb_lt _ _)) by (unfold VSCP_BINARY_PACKET_FRAME0_HEADER_LENGTH; lia). reflexivity.
Qed.

(** *** Reading the fields of a header *)

Section header_reads.
Context (pkt h ns c t size : Z) (g tail : list Z) (Hg : length g = 16%nat).
Let F := frame_header pkt h ns c t g size ++ tail.

Lemma header_pkt : rd F 0 = Some pkt.
Proof using. reflexivity. Qed.

Lemma header_head : rd_be F 1 2 = Some (u16 h).
Proof using Hg.
  transitivity (Some (of_be (be 2 h))); [reflexivity|]. rewrite of_be_be. reflexivity.
Qed.

Lemma header_flags : rd F 2 = Some (u8 h).
Proof using. cbn. rewrite Z.shiftr_0_r. reflexivity. Qed.

Lemma header_ns : rd_be F 3 8 = Some (u64 ns).
Proof using Hg.
  transitivity (Some (of_be (be 8 ns))); [reflexivity|]. rewrite of_be_be. reflexivity.
Qed.

Lemma header_class : rd_be F 14 2 = Some (u16 c).
Proof using Hg.
  transitivity (Some (of_be (be 2 c))); [reflexivity|]. rewrite of_be_be. reflexivity.
Qed.

Lemma header_type : rd_be F 16 2 = Some (u16 t).
Proof using Hg.
  transitivity (Some (of_be (be 2 t))); [reflexivity|]. rewrite of_be_be. reflexivity.
Qed.

Lemma header_guid : rdn F 18 16 = Some g.
Proof using Hg.
  unfold F, frame_header. rewrite <- !app_assoc.
  apply (rdn_app ([pkt] ++ be 2 h ++ be 8 ns ++ [0; 0; 0] ++ be 2 c ++ be 2 t)); auto.
Qed.

Lemma header_size : rd_be F 34 2 = Some (u16 size).
Proof using Hg.
  transitivity (Some (of_be (be 2 size))); [|rewrite of_be_be; reflexivity].
  unfold rd_be, F, frame_header. rewrite <- !app_assoc.
  rewrite (rdn_app ([pkt] ++ be 2 h ++ be 8 ns ++ [0; 0; 0] ++ be 2 c ++ be 2 t ++ g)
             (be 2 size) tail); [reflexivity| |reflexivity].
  cbn [app be length]. rewrite Hg. reflexivity.
Qed.
End header_reads.

(** *** Reading a written frame *)

Lemma frame_of_split p e rest :
  frame_of p e ++ rest
  = frame_header (p mod 16 + 16) (frame_head (head e)) (frame_ns e) (vscp_class e)
      (vscp_type e) (GUID e) (sizeData e)
    ++ data_of (pdata e) ++ crc_bytes (crcFast (drop 1 (frame_body p e))) ++ rest.
Proof. unfold frame_of, frame_body. rewrite <- !app_assoc. reflexivity. Qed.

Lemma of_be_crc c : is_u16 c -> of_be (crc_bytes c) = c.
Proof.
  intros Hc. rewrite <- msb_lsb_crc, msb_lsb_be, of_be_be.
  apply (Z.mod_small c 65536). width.
Qed.

Lemma frame_check_written p e rest len :
  event_ok e -> 38 + sizeData e <= len ->
  frame_check (frame_of p e ++ rest) len
  = Some (Some (sizeData e, crcFast (drop 1 (frame_body p e)))).
Proof.
  intros He Hlen. unfold frame_check.
  destruct (data_of_ok _ _ (edata_ok e He)) as [Hl _].
  assert (Hg := proj1 (guid_ok e He)). assert (Hs := size_ok e He).
  set (c := crcFast (drop 1 (frame_body p e))).
  assert (Hb := length_frame_body p e He).
  rewrite frame_of_split, header_size, header_flags by exact Hg.
  rewrite <- frame_of_split. cbn [mbind option_bind].
  rewrite (u16_id (sizeData e)) by exact Hs.
  replace (1 + VSCP_BINARY_PACKET_FRAME0_HEADER_LENGTH + 2 + sizeData e)
    with (38 + sizeData e) by (unfold VSCP_BINARY_PACKET_FRAME0_HEADER_LENGTH; lia).
  destruct (Z.ltb_spec len (38 + sizeData e)); [lia|].
  assert (Hd : is_u16 (sizeData e)) by exact Hs.
  unfold rd_be, frame_of. fold c. rewrite <- app_assoc.
  rewrite (rdn_app (frame_body p e) (crc_bytes c) rest (Z.to_nat (38 + sizeData e) - 2) 2)
    by first [reflexivity | rewrite Hb; unfold is_u16 in Hd; lia].
  cbn [fmap option_fmap option_map mbind option_bind].
  rewrite of_be_crc by apply crcFast_ok.
  destruct (_ && _); [reflexivity|].
  rewrite app_assoc, rdn_tail by (rewrite length_app, Hb; cbn [crc_bytes length]; width; lia).
  cbn [mbind option_bind].
  replace (drop 1 (frame_body p e ++ crc_bytes c))
    with (drop 1 (frame_body p e) ++ crc_bytes c)
    by (rewrite drop_app_le by lia; reflexivity).
  subst c. rewrite crcFast_residue. reflexivity.
Qed.

(** The header of a frame: bits 8 and 9 hold the version 1, the rest is kept. *)
Definition unix_ns_head (h : Z) : Z := h / 1024 * 1024 + 256 + h mod 256.

Lemma frame_head_eq h : is_u16 h -> frame_head h = unix_ns_head h.
Proof.
  intros Hh. unfold frame_head, unix_ns_head.
  rewrite <- Z.add_assoc. change (h / 1024 * 1024) with (h / 2 ^ 10 * 2 ^ 10).
  rewrite <- (lor_add_disjoint 10) by (change (2 ^ 10) with 1024; dlia).
  change (256 + h mod 256) with (1 * 2 ^ 8 + h mod 2 ^ 8).
  rewrite <- (lor_add_disjoint 8) by dlia.
  rewrite <- !Z.shiftl_mul_pow2 by lia.
  apply Z.bits_inj'; intros i Hi. destruct (Z.ltb_spec i 16) as [H16|H16].
  - rewrite u16_testbit, !Z.lor_spec, Z.land_spec, Z.lnot_spec by lia.
    assert (C : i = 8 \/ i = 9 \/ i < 8 \/ 10 <= i) by lia.
    destruct C as [->|[->|C]].
    + rewrite !Z.shiftl_spec, (Z.testbit_neg_r (h / 2 ^ 10)), Z.mod_pow2_bits_high by lia.
      rewrite andb_false_r. reflexivity.
    + rewrite !Z.shiftl_spec, (Z.testbit_neg_r (h / 2 ^ 10)), Z.mod_pow2_bits_high by lia.
      rewrite andb_false_r. reflexivity.
    + assert (M : Z.testbit VSCP_HEADER16_FRAME_VERSION_MASK i = false
                  /\ Z.testbit VSCP_HEADER16_FRAME_VERSION_UNIX_NS i = false).
      { unfold VSCP_HEADER16_FRAME_VERSION_MASK, VSCP_HEADER16_FRAME_VERSION_UNIX_NS.
        change 0x0300 with (Z.shiftl 3 8). change 0x0100 with (Z.shiftl 1 8).
        rewrite !Z.shiftl_spec by lia. destruct C as [C|C].
        - rewrite !Z.testbit_neg_r by lia. auto.
        - rewrite (testbit_above 3 2), (testbit_above 1 1) by lia. auto. }
      destruct M as [-> ->]. rewrite orb_false_r, andb_true_r, !Z.shiftl_spec by lia.
      destruct C as [C|C].
      * rewrite !(Z.testbit_neg_r _ (i - _)), Z.mod_pow2_bits_low by lia. reflexivity.
      * rewrite testbit_div, (testbit_above 1 1), Z.mod_pow2_bits_high by lia.
        replace (i - 10 + 10) with i by lia. rewrite !orb_false_r. reflexivity.
  - unfold u16. rewrite Z.mod_pow2_bits_high, !Z.lor_spec, !Z.shiftl_spec by lia.
    rewrite testbit_div, (testbit_above h 16), (testbit_above 1 1), Z.mod_pow2_bits_high
      by (unfold is_u16 in Hh; lia).
    reflexivity.
Qed.

(** The time of an event in nanoseconds: its own in a nanosecond frame,
    otherwise its date and time of day plus its microseconds. *)
Definition event_ns (e : vscpEvent) : Z :=
  let t := etime e in
  if head e / 256 mod 4 =? 1 then timestamp_ns t
  else (timegm (Tm (year t - 1900) (month t - 1) (day t) (hour t) (minute t) (second t))
        * 1000000000 + timestamp t * 1000) mod 2 ^ 64.

Lemma is_unix_ns_head h : is_u16 h -> is_unix_ns h = (h / 256 mod 4 =? 1).
Proof.
  intros Hh. unfold is_unix_ns, frame_version, VSCP_HEADER16_FRAME_VERSION_MASK,
    VSCP_HEADER16_FRAME_VERSION_UNIX_NS.
  assert (E : Z.land h 0x0300 = (h / 256 mod 4) * 256).
  { change 256 with (2 ^ 8). change 4 with (2 ^ 2).
    rewrite <- Z.shiftl_mul_pow2, <- Z.shiftr_div_pow2, <- Z.land_ones, Z.shiftl_land by lia.
    change (Z.shiftl (Z.ones 2) 8) with 0x0300.
    apply Z.bits_inj'; intros i Hi. rewrite !Z.land_spec.
    change 0x0300 with (Z.shiftl 3 8). rewrite !Z.shiftl_spec by lia.
    destruct (Z.ltb_spec i 8).
    - rewrite !(Z.testbit_neg_r _ (i - 8)) by lia. rewrite andb_false_r. reflexivity.
    - rewrite Z.shiftr_spec by lia. replace (i - 8 + 8) with i by lia. reflexivity. }
  rewrite E. destruct (Z.eqb_spec (h / 256 mod 4) 1) as [->|]; [reflexivity|].
  apply Z.eqb_neq. lia.
Qed.

Lemma frame_ns_eq e : event_ok e -> frame_ns e = event_ns e.
Proof.
  intros He. unfold frame_ns, event_ns. rewrite is_unix_ns_head by apply He.
  destruct (_ =? 1); [reflexivity|]. width.
Qed.

(** The event a receiver gets: the header says nanosecond time, the CRC is the
    one of the frame, and a zero time is replaced by the clock. *)
Definition received (now : timespec) (e : vscpEvent) (framecrc : Z) : vscpEvent :=
  Event (unix_ns_head (head e)) 0
    (Time 0xffff 0xff (if 0 =? event_ns e then vscp_makeTimeStampNs now else event_ns e))
    (vscp_class e) (vscp_type e) (GUID e) (sizeData e) (pdata e) framecrc.

Lemma frame_ns_ok e : event_ok e -> is_u64 (frame_ns e).
Proof.
  intros He. unfold frame_ns. destruct (is_unix_ns (head e)); [apply He|apply u64_ok].
Qed.

Lemma pkt_is_event1 p : GET_VSCP_BINARY_PACKET_TYPE (p mod 16 + 16) = 1.
Proof.
  unfold GET_VSCP_BINARY_PACKET_TYPE. rewrite shiftr_div by lia.
  change 0x0f with 15. rewrite land_15. change (2 ^ 4) with 16. dlia.
Qed.

Lemma getEventFromFrame_written now e0 p e rest len :
  event_ok e -> 38 + sizeData e <= len ->
  vscp_getEventFromFrame now (Some e0) (Some (frame_of p e ++ rest)) len
  = Some (true, Some (received now e (crcFast (drop 1 (frame_body p e))))).
Proof.
  intros He Hlen. unfold vscp_getEventFromFrame.
  assert (Hg := proj1 (guid_ok e He)).
  destruct (data_of_ok _ _ (edata_ok e He)) as [Hl _].
  rewrite frame_check_written, frame_of_split by assumption.
  rewrite header_pkt, header_head, header_guid, header_class, header_type by exact Hg.
  cbn [mbind option_bind]. rewrite pkt_is_event1. cbn [Z.eqb VSCP_MULTICAST_TYPE_EVENT1].
  change (VSCP_MULTICAST_TYPE_EVENT1 =? 1) with true. cbv iota.
  unfold frame_time_ns. rewrite header_ns by exact Hg. cbn [mbind option_bind].
  rewrite (u64_id (frame_ns e)) by apply frame_ns_ok, He.
  rewrite (rdn_app (frame_header _ _ _ _ _ _ _) (data_of (pdata e)))
    by (rewrite ?length_frame_header by exact Hg; lia).
  rewrite (u16_id (vscp_class e)), (u16_id (vscp_type e)) by apply He.
  rewrite (u16_id (frame_head (head e))) by apply u16_ok.
  assert (T : set_unix_ns (if 0 =? frame_ns e then vscp_makeTimeStampNs now else frame_ns e)
                (etime e0)
              = Time 0xffff 0xff
                  (if 0 =? frame_ns e then vscp_makeTimeStampNs now else frame_ns e)).
  { unfold set_unix_ns, set_month, set_year, set_timestamp_ns. cbn [year month timestamp_ns].
    rewrite u64_id; [reflexivity|].
    destruct (0 =? _); [apply u64_ok|apply frame_ns_ok, He]. }
  rewrite T. unfold received.
  rewrite <- frame_ns_eq, <- frame_head_eq by (exact He || apply He).
  assert (E := data_ok_some _ _ (edata_ok e He)).
  destruct (sizeData e =? 0); cbn in E |- *; rewrite <- E; reflexivity.
Qed.

(** *** Reading any buffer *)

Lemma rd_be_some buf off n :
  (off + n <= length buf)%nat -> bytes_ok buf ->
  exists v, rd_be buf off n = Some v /\ 0 <= v < 256 ^ Z.of_nat n.
Proof.
  intros Hl Hb. unfold rd_be. rewrite rdn_defined by exact Hl.
  eexists. split; [reflexivity|].
  assert (Hlen : length (take n (drop off buf)) = n)
    by (rewrite length_take, length_drop; lia).
  rewrite <- Hlen at 3. apply of_be_bound, Forall_take, Forall_drop, Hb.
Qed.

Lemma rd_be_none buf off n : (length buf < off + n)%nat -> rd_be buf off n = None.
Proof. intros. unfold rd_be. rewrite rdn_oob by lia. reflexivity. Qed.

Lemma rd_some buf off :
  (off < length buf)%nat -> bytes_ok buf -> exists v, rd buf off = Some v /\ is_u8 v.
Proof.
  intros Hl Hb. unfold rd. destruct (lookup_lt_is_Some_2 buf off Hl) as [v E].
  exists v. split; [exact E|]. exact (proj1 (Forall_lookup _ buf) Hb off v E).
Qed.

(** The frame that a reader should accept: the buffer holds all of it, and either
    the checksum over everything after the packet type is right or the header
    says that there is none and the dummy is in its place. *)
Definition frame_accepted (buf : list Z) : Prop :=
  exists size crc flags, rd_be buf 34 2 = Some size /\ 38 + size <= Z.of_nat (length buf)
    /\ rd_be buf (Z.to_nat (36 + size)) 2 = Some crc /\ rd buf 2 = Some flags
    /\ (Z.land flags VSCP_HEADER_NO_CRC <> 0 /\ crc = VSCP_NOCRC_CALC_DUMMY_CRC
        \/ crcFast (take (Z.to_nat (37 + size)) (drop 1 buf)) = 0).

(** The outcome of the checks on a buffer of the given length. *)
Lemma frame_check_cases buf :
  bytes_ok buf -> (36 <= length buf)%nat ->
  (frame_check buf (Z.of_nat (length buf)) = Some None /\ ~ frame_accepted buf)
  \/ frame_accepted buf /\ exists size c, frame_check buf (Z.of_nat (length buf)) = Some (Some (size, c))
      /\ is_u16 size /\ is_u16 c /\ 38 + size <= Z.of_nat (length buf)
      /\ rd_be buf 34 2 = Some size.
Proof.
  intros Hb Hl. unfold frame_check.
  destruct (rd_be_some buf 34 2 ltac:(lia) Hb) as (size & Es & Hs). rewrite Es.
  cbn [mbind option_bind].
  replace (1 + VSCP_BINARY_PACKET_FRAME0_HEADER_LENGTH + 2 + size)
    with (38 + size) by (unfold VSCP_BINARY_PACKET_FRAME0_HEADER_LENGTH; lia).
  destruct (Z.ltb_spec (Z.of_nat (length buf)) (38 + size)) as [|Hfit];
    [left; split; [reflexivity|]; intros (s & c & f & E & K & _); rewrite Es in E; injection E as <-; lia|].
  change (256 ^ Z.of_nat 2) with 65536 in Hs.
  destruct (rd_be_some buf (Z.to_nat (38 + size) - 2) 2 ltac:(lia) Hb) as (c & Ec & Hc).
  destruct (rd_some buf 2 ltac:(lia) Hb) as (f & Ef & Hf). rewrite Ec, Ef.
  cbn [mbind option_bind]. rewrite rdn_defined by lia. cbn [mbind option_bind].
  replace (Z.to_nat (38 + size) - 2)%nat with (Z.to_nat (36 + size)) in Ec by lia.
  replace (Z.to_nat (38 + size) - 1)%nat with (Z.to_nat (37 + size)) by lia.
  change (256 ^ Z.of_nat 2) with 65536 in Hc.
  assert (Hok : is_u16 size /\ is_u16 c) by (unfold is_u16; change (2 ^ 16) with 65536; lia).
  assert (A : forall P : Prop, (Z.land f VSCP_HEADER_NO_CRC <> 0 /\ c = VSCP_NOCRC_CALC_DUMMY_CRC
      \/ crcFast (take (Z.to_nat (37 + size)) (drop 1 buf)) = 0) -> P -> frame_accepted buf /\ P)
    by (intros P K HP; split; [exists size, c, f; auto|exact HP]).
  destruct (Z.eqb_spec (Z.land f VSCP_HEADER_NO_CRC) 0) as [F|F], (Z.eqb_spec VSCP_NOCRC_CALC_DUMMY_CRC c) as [D|D]; cbn [negb andb];
    try (right; apply A; [left; auto|exists size, c; tauto]);
    (destruct (Z.eqb_spec (crcFast (take (Z.to_nat (37 + size)) (drop 1 buf))) 0) as [Z0|Z0];
     [right; apply A; [right; exact Z0|exists size, c; tauto]|left; split; [reflexivity|]];
     intros (s & c' & f' & E1 & _ & E2 & E3 & K); rewrite Es in E1; injection E1 as <-; rewrite Ec in E2; injection E2 as <-;
     rewrite Ef in E3; injection E3 as <-; destruct K as [[K1 K2]|K]; congruence).
Qed.

Lemma frame_time_ns_some now buf t :
  bytes_ok buf -> (36 <= length buf)%nat -> time_ok t ->
  exists t', frame_time_ns now buf t = Some t' /\ time_ok t'.
Proof.
  intros Hb Hl Ht. unfold frame_time_ns.
  destruct (rd_be_some buf 3 8 ltac:(lia) Hb) as (v & -> & _). cbn [mbind option_bind].
  eexists. split; [reflexivity|auto with vscp].
Qed.

(** The frame is not of format 1 and has no timestamp, so that the microsecond
    clock is needed, and the conversion of that is undefined. *)
Definition clock_undefined (now : timespec) (buf : list Z) : Prop :=
  (exists b0, rd buf 0 = Some b0 /\ GET_VSCP_BINARY_PACKET_TYPE b0 <> VSCP_MULTICAST_TYPE_EVENT1)
  /\ rd_be buf 3 4 = Some 0 /\ vscp_makeTimeStamp now = None.

Lemma frame_time_orig_some now buf t :
  bytes_ok buf -> (36 <= length buf)%nat -> time_ok t ->
  (frame_time_orig now buf t = None /\ rd_be buf 3 4 = Some 0 /\ vscp_makeTimeStamp now = None)
  \/ (exists t', frame_time_orig now buf t = Some t' /\ time_ok t')
     /\ ~ (rd_be buf 3 4 = Some 0 /\ vscp_makeTimeStamp now = None).
Proof.
  intros Hb Hl Ht. unfold frame_time_orig.
  destruct (rd_be_some buf 3 4 ltac:(lia) Hb) as (v & -> & _).
  destruct (rd_be_some buf 7 2 ltac:(lia) Hb) as (y & -> & _).
  destruct (rd_some buf 9 ltac:(lia) Hb) as (mo & -> & _).
  destruct (rd_some buf 10 ltac:(lia) Hb) as (d & -> & _).
  destruct (rd_some buf 11 ltac:(lia) Hb) as (h & -> & _).
  destruct (rd_some buf 12 ltac:(lia) Hb) as (mi & -> & _).
  destruct (rd_some buf 13 ltac:(lia) Hb) as (s & -> & _).
  cbn [mbind option_bind].
  destruct (Z.eqb_spec 0 v) as [<-|Hv].
  - destruct (vscp_makeTimeStamp now) as [ts|]; cbn [mbind option_bind].
    + right. split; [|intros [_ H]; discriminate H].
      eexists. split; [reflexivity|]. destruct (_ && _); auto 10 with vscp.
    + left. auto.
  - right. split; [|intros [[= H] _]; congruence].
    eexists. split; [reflexivity|]. destruct (_ && _); auto 10 with vscp.
Qed.

(** *** Corrupted frames *)

Lemma frame_check_corrupt b0 c0 pre b1 b2 c1 c2 suf rest1 rest2 size n len1 len2 :
  bytes_ok suf -> is_u8 b1 -> is_u8 b2 -> is_u8 c1 -> is_u8 c2 ->
  (b1, b2) <> (c1, c2) ->
  Z.of_nat (length pre + 2 + length suf) = 37 + size -> 0 <= size ->
  let buf1 := b0 :: (pre ++ [b1; b2] ++ suf) ++ rest1 in
  let buf2 := c0 :: (pre ++ [c1; c2] ++ suf) ++ rest2 in
  rd_be buf1 34 2 = Some size -> rd_be buf2 34 2 = Some size ->
  (exists f, rd buf1 2 = Some f /\ Z.land f VSCP_HEADER_NO_CRC = 0) ->
  (exists f, rd buf2 2 = Some f /\ Z.land f VSCP_HEADER_NO_CRC = 0) ->
  frame_check buf1 len1 = Some (Some (size, n)) ->
  38 + size <= len2 -> bytes_ok buf2 ->
  frame_check buf2 len2 = Some None.
Proof.
  intros Hsuf Hb1 Hb2 Hc1 Hc2 Hne Hlen Hsz buf1 buf2 E1 E2 (f1 & F1 & N1) (f2 & F2 & N2).
  unfold frame_check. rewrite E1, E2. cbn [mbind option_bind].
  replace (1 + VSCP_BINARY_PACKET_FRAME0_HEADER_LENGTH + 2 + size)
    with (38 + size) by (unfold VSCP_BINARY_PACKET_FRAME0_HEADER_LENGTH; lia).
  rewrite F1, F2. cbn [mbind option_bind]. rewrite N1, N2.
  cbn [Z.eqb negb andb mbind option_bind].
  destruct (len1 <? 38 + size); [discriminate|].
  destruct (rd_be buf1 (Z.to_nat (38 + size) - 2) 2); [|discriminate]. cbn [mbind option_bind].
  assert (R : forall x l rest, length l = Z.to_nat (37 + size) ->
    rdn (x :: l ++ rest) 1 (Z.to_nat (38 + size) - 1) = Some l).
  { intros x l rest Hl. change (x :: l ++ rest) with ([x] ++ l ++ rest).
    apply rdn_app; [reflexivity|]. lia. }
  unfold buf1 at 1. rewrite R by (rewrite !length_app; cbn [length]; lia).
  cbn [mbind option_bind].
  destruct (Z.eqb_spec (crcFast (pre ++ [b1; b2] ++ suf)) 0) as [Z1|]; [|discriminate].
  intros _ Hlen2 Hok. destruct (Z.ltb_spec len2 (38 + size)); [lia|].
  destruct (rd_be_some buf2 (Z.to_nat (38 + size) - 2) 2) as (v & -> & _); [|exact Hok|].
  { unfold buf2. cbn [length]. rewrite !length_app. cbn [length]. lia. }
  cbn [mbind option_bind]. unfold buf2.
  rewrite R by (rewrite !length_app; cbn [length]; lia). cbn [mbind option_bind].
  destruct (Z.eqb_spec (crcFast (pre ++ [c1; c2] ++ suf)) 0) as [Z2|]; [|reflexivity].
  exfalso. apply (crcFast_detects_burst pre suf b1 b2 c1 c2); auto. congruence.
Qed.

(** *** Commands and replies *)

Definition command_frame (command : Z) (args : list Z) : list Z :=
  let body := [0xe0] ++ be 2 command ++ args in body ++ be 2 (crcFast (drop 1 body)).

Definition reply_frame (command error : Z) (args : list Z) : list Z :=
  let body := [0xf0] ++ be 2 command ++ be 2 error ++ args in
  body ++ be 2 (crcFast (drop 1 body)).

(** A frame ends with the CRC of everything after its first byte. *)
Lemma frame_crc_zero b body :
  crcFast (drop 1 ((b :: body) ++ be 2 (crcFast (drop 1 (b :: body))))) = 0.
Proof. rewrite <- msb_lsb_be, msb_lsb_crc. cbn [drop app]. apply crcFast_residue. Qed.

Lemma arg_not_null arg n :
  data_ok n arg -> bool_decide (arg = None) && negb (n =? 0) = false.
Proof. intros H. rewrite andb_comm. apply data_ok_null, H. Qed.

(** Finishes a writer: the layout written so far is [body]. *)
Ltac finish_frame body :=
  match goal with
  | |- context [rdn (?pre ++ _) 1 _] => replace pre with body
      by (rewrite <- !app_assoc; reflexivity)
  end;
  rewrite rdn_tail by (rewrite !length_app, ?length_be; cbn [length]; lia);
  cbn [mbind option_bind]; rewrite msb_lsb_be, wr_next;
  [ cbn [mbind option_bind]; rewrite drop_drop
  | rewrite !length_app, ?length_be; cbn [length]; lia
  | rewrite length_drop, !length_be; cbn [length]; lia ].

Lemma writeCommandToFrame_eq f len command arg n :
  data_ok n arg -> len <= Z.of_nat (length f) ->
  vscp_writeCommandToFrame (Some f) len command arg n
  = if n + 5 <=? len
    then Some (VSCP_ERROR_SUCCESS,
               Some (command_frame command (data_of arg) ++ drop (5 + Z.to_nat n) f))
    else Some (VSCP_ERROR_BUFFER_TO_SMALL, Some f).
Proof.
  intros Ha Hlen. destruct (data_of_ok _ _ Ha) as [Hl _].
  unfold vscp_writeCommandToFrame. rewrite (arg_not_null _ _ Ha). cbv zeta.
  rewrite Z.ltb_antisym. replace (1 + 2 + n + 2) with (n + 5) by lia.
  destruct (Z.leb_spec (n + 5) len); [|reflexivity]. cbn [negb].
  rewrite msb_lsb_be, (read_data_ok _ _ Ha).
  rewrite <- (app_nil_l f) at 1. do 2 wr_field. wr_field.
  finish_frame ([0xe0] ++ be 2 command ++ data_of arg).
  unfold command_frame. match goal with
  | |- context [drop ?k f] => replace k with (5 + Z.to_nat n)%nat
      by (rewrite ?length_be; cbn [length]; lia)
  end. reflexivity.
Qed.

Lemma writeReplyToFrame_eq f len command error arg n :
  data_ok n arg -> len <= Z.of_nat (length f) ->
  vscp_writeReplyToFrame (Some f) len command error arg n
  = if n + 7 <=? len
    then Some (VSCP_ERROR_SUCCESS,
               Some (reply_frame command error (data_of arg) ++ drop (7 + Z.to_nat n) f))
    else Some (VSCP_ERROR_BUFFER_TO_SMALL, Some f).
Proof.
  intros Ha Hlen. destruct (data_of_ok _ _ Ha) as [Hl _].
  unfold vscp_writeReplyToFrame. rewrite (arg_not_null _ _ Ha). cbv zeta.
  rewrite Z.ltb_antisym. replace (1 + 2 + 2 + n + 2) with (n + 7) by lia.
  destruct (Z.leb_spec (n + 7) len); [|reflexivity]. cbn [negb].
  rewrite !msb_lsb_be, (read_data_ok _ _ Ha).
  rewrite <- (app_nil_l f) at 1. do 3 wr_field. wr_field.
  finish_frame ([0xf0] ++ be 2 command ++ be 2 error ++ data_of arg).
  unfold reply_frame. match goal with
  | |- context [drop ?k f] => replace k with (7 + Z.to_nat n)%nat
      by (rewrite ?length_be; cbn [length]; lia)
  end. reflexivity.
Qed.

(** Any buffer of bytes. *)
Lemma getEventFromFrame_cases (now : timespec) (e : vscpEvent) (buf : list Z) :
  event_ok e -> bytes_ok buf ->
  match vscp_getEventFromFrame now (Some e) (Some buf) (Z.of_nat (length buf)) with
  | None => (length buf < 36)%nat \/ frame_accepted buf /\ clock_undefined now buf
  | Some (false, e') => (36 <= length buf)%nat /\ ~ frame_accepted buf /\ e' = Some e
  | Some (true, e') => frame_accepted buf /\ ~ clock_undefined now buf
      /\ exists e1, e' = Some e1 /\ event_ok e1
      /\ 38 + sizeData e1 <= Z.of_nat (length buf)
      /\ rd_be buf 34 2 = Some (sizeData e1)
  end.
Proof.
  intros He Hb. unfold vscp_getEventFromFrame.
  destruct (le_lt_dec 36 (length buf)) as [Hl|Hl].
  2:{ destruct (rd buf 0); [|left; exact Hl].
      unfold frame_check. rewrite (rd_be_none buf 34 2) by lia. left. exact Hl. }
  destruct (rd_some buf 0 ltac:(lia) Hb) as (b0 & E0 & _). rewrite E0. cbn [mbind option_bind].
  destruct (frame_check_cases buf Hb Hl) as [[-> N]|(Hacc & size & c & -> & Hs & Hc & Hfit & Es)];
    cbn [mbind option_bind]; [auto|].
  destruct (rd_be_some buf 1 2 ltac:(lia) Hb) as (h & -> & Hh).
  destruct (rd_be_some buf 14 2 ltac:(lia) Hb) as (k & -> & Hk).
  destruct (rd_be_some buf 16 2 ltac:(lia) Hb) as (ty & -> & Hty).
  change (256 ^ Z.of_nat 2) with (2 ^ 16) in *. rewrite (rdn_defined buf 18 16) by lia.
  assert (Hs' := Hs). unfold is_u16 in Hs'.
  rewrite rdn_defined by lia.
  assert (D : exists d, (if negb (size =? 0) then Some <$> Some (take (Z.to_nat size) (drop 36 buf))
                         else Some None) = Some d /\ data_ok size d).
  { destruct (Z.eqb_spec size 0) as [->|]; cbn; eexists; (split; [reflexivity|]); [reflexivity|].
    split; [lia|]. split; [rewrite length_take, length_drop; lia|].
    apply Forall_take, Forall_drop, Hb. }
  destruct D as (d & -> & Hd). cbn [mbind option_bind].
  assert (G : forall t, time_ok t -> event_ok (Event h 0 t k ty (take 16 (drop 18 buf)) size d c)).
  { intros t Ht. split; auto; [unfold obid; width|].
    cbn [GUID]. split; [rewrite length_take, length_drop; lia|].
    apply Forall_take, Forall_drop, Hb. }
  unfold clock_undefined. rewrite E0.
  destruct (Z.eqb_spec VSCP_MULTICAST_TYPE_EVENT1 (GET_VSCP_BINARY_PACKET_TYPE b0)) as [Ty|Ty].
  - destruct (frame_time_ns_some now buf (etime e) Hb Hl (etime_ok e He)) as (t & -> & Ht).
    cbn [mbind option_bind]. split; [exact Hacc|]. split; [|eauto 10].
    intros [(b & [= <-] & K) _]. congruence.
  - destruct (frame_time_orig_some now buf (etime e) Hb Hl (etime_ok e He))
      as [[-> U]|[(t & -> & Ht) U]]; cbn [mbind option_bind].
    + right. split; [exact Hacc|]. split; [|exact U]. exists b0. auto.
    + split; [exact Hacc|]. split; [intros [_ K]; exact (U K)|eauto 10].
Qed.

(** Only the [len] bytes are looked at. *)
Lemma rd_take buf n off : (off < n)%nat -> rd (take n buf) off = rd buf off.
Proof. intros H. unfold rd. apply lookup_take_lt || apply lookup_take. exact H. Qed.

Lemma rdn_take buf n off k : (n <= length buf)%nat -> (off + k <= n)%nat -> rdn (take n buf) off k = rdn buf off k.
Proof.
  intros Hn H. rewrite !rdn_defined by (rewrite ?length_take; lia). f_equal.
  rewrite skipn_firstn_comm, take_take, Nat.min_l by lia. reflexivity.
Qed.

Lemma getEventFromFrame_prefix now e buf len : bytes_ok buf -> 36 <= len <= Z.of_nat (length buf) ->
  vscp_getEventFromFrame now (Some e) (Some buf) len = vscp_getEventFromFrame now (Some e) (Some (take (Z.to_nat len) buf)) len.
Proof.
  intros Hb Hl. set (n := Z.to_nat len). assert (P : forall off k, (off + k <= n)%nat -> rdn (take n buf) off k = rdn buf off k)
    by (intros off k H; apply rdn_take; lia).
  assert (Q : forall off k, (off + k <= n)%nat -> rd_be (take n buf) off k = rd_be buf off k) by (intros; unfold rd_be; rewrite P by lia; reflexivity).
  assert (R : forall off, (off < n)%nat -> rd (take n buf) off = rd buf off) by (intros; apply rd_take; assumption).
  assert (F : frame_check (take n buf) len = frame_check buf len /\
    forall size c, frame_check buf len = Some (Some (size, c)) -> 0 <= size /\ 38 + size <= len).
  { unfold frame_check. rewrite Q, R by lia. destruct (rd_be_some buf 34 2 ltac:(lia) Hb) as (size & -> & Hs). cbn [mbind option_bind].
    change (256 ^ Z.of_nat 2) with 65536 in Hs. set (calc := 1 + VSCP_BINARY_PACKET_FRAME0_HEADER_LENGTH + 2 + size).
    assert (Hcalc : calc = 38 + size) by (unfold calc, VSCP_BINARY_PACKET_FRAME0_HEADER_LENGTH; lia).
    destruct (Z.ltb_spec len calc) as [|Hfit]; [split; [reflexivity|discriminate]|]. rewrite Q, P by lia. split; [reflexivity|].
    intros sz c. destruct (rd_be buf _ 2); [|discriminate]. cbn [mbind option_bind]. destruct (rd buf 2); [|discriminate]. cbn [mbind option_bind].
    destruct (_ && _); [intros [= <- _]; lia|]. destruct (rdn buf 1 _); [|discriminate]. cbn [mbind option_bind].
    destruct (_ =? 0); [intros [= <- _]; lia|discriminate]. }
  destruct F as [F1 F2]. unfold vscp_getEventFromFrame, frame_time_ns, frame_time_orig. rewrite F1, !R by lia.
  destruct (rd buf 0) as [b0|]; [|reflexivity]. cbn [mbind option_bind].
  destruct (frame_check buf len) as [[[size c]|]|]; try reflexivity. destruct (F2 size c eq_refl) as [F3 F4]. cbn [mbind option_bind].
  rewrite !Q, !P by lia. reflexivity.
Qed.

(** ** Properties *)

(** C1: writing a well-formed event to a buffer and reading the buffer back
    gives the event: class, type, GUID, size and data unchanged, the header
    with the frame version UNIX_NS, the time in nanoseconds (the clock if it is
    zero), the CRC over the 35 header bytes and the data.  The writer fails exactly when the buffer
    is smaller than 38 bytes plus the data, touches nothing beyond the frame,
    and neither function leaves the buffer. *)
Theorem write_read_frame (now : timespec) (e e0 : vscpEvent) (f : list Z) (pkttype : Z) :
  event_ok e ->
  let len := Z.of_nat (length f) in
  if vscp_getFrameSizeFromEvent (Some e) <=? len
  then exists fr, vscp_writeEventToFrame (Some f) len pkttype (Some e) = Some (true, Some fr)
    /\ length fr = length f
    /\ drop (Z.to_nat (38 + sizeData e)) fr = drop (Z.to_nat (38 + sizeData e)) f
    /\ vscp_getEventFromFrame now (Some e0) (Some fr) len
       = Some (true, Some (received now e (crcFast (take (Z.to_nat (35 + sizeData e)) (drop 1 fr)))))
  else vscp_writeEventToFrame (Some f) len pkttype (Some e) = Some (false, Some f).
Proof.
  intros He len. unfold vscp_getFrameSizeFromEvent, VSCP_BINARY_PACKET_FRAME0_HEADER_LENGTH.
  replace (1 + 35 + sizeData e + 2) with (38 + sizeData e) by lia.
  rewrite writeEventToFrame_eq by (auto; lia).
  assert (Hs := size_ok e He). unfold is_u16 in Hs.
  destruct (Z.leb_spec (38 + sizeData e) len) as [Hfit|]; [|reflexivity].
  assert (Hl := length_frame_of pkttype e He).
  eexists. split; [reflexivity|]. split; [|split].
  - rewrite length_app, length_drop, Hl. unfold len in Hfit. lia.
  - rewrite drop_app_length' by lia. f_equal. lia.
  - rewrite getEventFromFrame_written by assumption. do 4 f_equal.
    unfold frame_of. assert (Hb := length_frame_body pkttype e He).
    rewrite <- app_assoc, drop_app_le, take_app_length'
      by (rewrite ?length_drop; unfold is_u16 in *; lia).
    reflexivity.
Qed.

Lemma write_read_frame_witness :
  exists fr, vscp_writeEventToFrame (Some (replicate 42 0)) 42 0 (Some sample_event)
             = Some (true, Some fr)
    /\ length fr = length (replicate 42 0)
    /\ drop (Z.to_nat (38 + sizeData sample_event)) fr
       = drop (Z.to_nat (38 + sizeData sample_event)) (replicate 42 0)
    /\ vscp_getEventFromFrame (Timespec 0 0) (Some sample_event) (Some fr) 42
       = Some (true, Some (received (Timespec 0 0) sample_event
           (crcFast (take (Z.to_nat (35 + sizeData sample_event)) (drop 1 fr))))).
Proof.
  apply (write_read_frame (Timespec 0 0) sample_event sample_event (replicate 42 0) 0).
  apply sample_event_ok.
Defined.

(** C3: what the reader does with any buffer of bytes.  Below 36 bytes it reads
    outside the buffer (the packet type and the size are used before [len] is
    looked at).  From 36 bytes on a frame is accepted exactly when the buffer holds
    all of it and its checksum is right (or declared absent), and otherwise the
    event is left alone; the event of an accepted frame is well-formed with the data
    size of the frame.  The one exception, and only that, is an accepted frame that is
    not of format 1 and has no timestamp: then vscp_makeTimeStamp is called, whose
    conversion to 32 bits is undefined from 2^32 ms after the epoch. *)
Theorem getEventFromFrame_defined (now : timespec) (e : vscpEvent) (buf : list Z) :
  event_ok e -> bytes_ok buf ->
  match vscp_getEventFromFrame now (Some e) (Some buf) (Z.of_nat (length buf)) with
  | None => (length buf < 36)%nat \/ frame_accepted buf /\ clock_undefined now buf
  | Some (false, e') => (36 <= length buf)%nat /\ ~ frame_accepted buf /\ e' = Some e
  | Some (true, e') => frame_accepted buf /\ ~ clock_undefined now buf
      /\ exists e1, e' = Some e1 /\ event_ok e1
      /\ 38 + sizeData e1 <= Z.of_nat (length buf)
      /\ rd_be buf 34 2 = Some (sizeData e1)
  end.
Proof. apply getEventFromFrame_cases. Qed.

Lemma getEventFromFrame_defined_witness :
  vscp_getEventFromFrame (Timespec 4294967 296000000) (Some sample_event) (Some (replicate 38 0)) (Z.of_nat (length (replicate 38 0)))
  = Some (false, Some sample_event) /\ ~ frame_accepted (replicate 38 0).
Proof.
  assert (H : bytes_ok (replicate 38 0)) by (repeat constructor; width).
  assert (T := getEventFromFrame_defined (Timespec 4294967 296000000) sample_event (replicate 38 0) sample_event_ok H).
  assert (E : vscp_getEventFromFrame (Timespec 4294967 296000000) (Some sample_event) (Some (replicate 38 0)) (Z.of_nat (length (replicate 38 0)))
    = Some (false, Some sample_event)) by (vm_compute; reflexivity).
  rewrite E in T. destruct T as (_ & N & _). split; [exact E|exact N].
Defined.

(** C2: corruption is detected.  If a buffer is accepted, the buffer obtained by
    changing one or two adjacent bytes after the packet type (whatever happens
    to the packet type and to what follows the frame) is rejected and the
    target event is left alone, as long as the size field is the same and the
    header's "no CRC" bit is clear in both. *)
Theorem corrupt_frame_rejected (now : timespec) (e0 e1 : vscpEvent)
    (b0 c0 b1 b2 c1 c2 size len : Z) (pre suf rest : list Z) :
  event_ok e0 -> bytes_ok pre -> bytes_ok suf -> bytes_ok rest ->
  is_u8 b0 -> is_u8 c0 -> is_u8 b1 -> is_u8 b2 -> is_u8 c1 -> is_u8 c2 ->
  (b1, b2) <> (c1, c2) ->
  let buf1 := b0 :: (pre ++ [b1; b2] ++ suf) ++ rest in
  let buf2 := c0 :: (pre ++ [c1; c2] ++ suf) ++ rest in
  Z.of_nat (length pre + 2 + length suf) = 37 + size -> 38 + size <= len ->
  rd_be buf1 34 2 = Some size -> rd_be buf2 34 2 = Some size ->
  (exists f, rd buf1 2 = Some f /\ Z.land f VSCP_HEADER_NO_CRC = 0) ->
  (exists f, rd buf2 2 = Some f /\ Z.land f VSCP_HEADER_NO_CRC = 0) ->
  vscp_getEventFromFrame now (Some e0) (Some buf1) len = Some (true, Some e1) ->
  vscp_getEventFromFrame now (Some e0) (Some buf2) len = Some (false, Some e0).
Proof.
  intros He Hp Hsuf Hr H0 H0' H1 H2 H3 H4 Hne buf1 buf2 Hlen Hl E1 E2 F1 F2.
  unfold vscp_getEventFromFrame. cbn [mbind option_bind].
  change (rd buf1 0) with (Some b0). change (rd buf2 0) with (Some c0).
  cbn [mbind option_bind].
  assert (Hsz : 0 <= size).
  { destruct (rd_be_some buf1 34 2) as (v & E & Hv); [|unfold buf1|].
    - unfold buf1. cbn [length]. rewrite !length_app. cbn [length].
      destruct (le_lt_dec 36 (S (length pre + S (S (length suf)) + length rest))); [lia|].
      exfalso. rewrite rd_be_none in E1; [discriminate E1|].
      unfold buf1. cbn [length]. rewrite !length_app. cbn [length]. lia.
    - constructor; [assumption|]. rewrite !Forall_app. repeat split; auto.
    - rewrite E1 in E. injection E as ->. lia. }
  destruct (frame_check buf1 len) as [[[size' n]|]|] eqn:C; [|discriminate..].
  intros _.
  assert (size' = size) as ->.
  { unfold frame_check in C. rewrite E1 in C. cbn [mbind option_bind] in C.
    destruct (len <? _); [discriminate|].
    destruct (rd_be buf1 _ 2) in C; [|discriminate]. cbn [mbind option_bind] in C.
    destruct (rd buf1 2); [|discriminate]. cbn [mbind option_bind] in C.
    destruct (_ && _); [congruence|]. destruct (rdn buf1 1 _); [|discriminate].
    cbn [mbind option_bind] in C. destruct (_ =? 0); congruence. }
  assert (K : frame_check buf2 len = Some None).
  { apply (frame_check_corrupt b0 c0 pre b1 b2 c1 c2 suf rest rest size n len len); auto.
    constructor; [assumption|]. rewrite !Forall_app. split_and!; auto. }
  rewrite K. reflexivity.
Qed.

(** A written frame and the same frame with its last data byte changed. *)
Definition sample_frame : list Z := frame_of 0 sample_event.

Lemma corrupt_frame_rejected_witness :
  vscp_getEventFromFrame (Timespec 0 0) (Some sample_event)
    (Some (16 :: (take 37 (drop 1 sample_frame) ++ [0xfe; 0xd6] ++ drop 40 sample_frame) ++ []))
    42
  = Some (false, Some sample_event).
Proof.
  assert (B : bytes_ok sample_frame) by by_decide.
  apply (corrupt_frame_rejected (Timespec 0 0) sample_event
           (received (Timespec 0 0) sample_event
              (crcFast (take 39 (drop 1 sample_frame)))) 16 16 0xfe 0xd7 0xfe 0xd6 4 42
           (take 37 (drop 1 sample_frame)) (drop 40 sample_frame) []).
  - apply sample_event_ok.
  - apply Forall_take, Forall_drop, B.
  - apply Forall_drop, B.
  - constructor.
  - width.
  - width.
  - width.
  - width.
  - width.
  - width.
  - intros H; discriminate H.
  - vm_compute. reflexivity.
  - lia.
  - vm_compute. reflexivity.
  - vm_compute. reflexivity.
  - exists 0x60. vm_compute. auto.
  - exists 0x60. vm_compute. auto.
  - vm_compute. reflexivity.
Defined.

(** Vscp_writeCommandToFrame and vscp_writeReplyToFrame write the packet
    type, the big-endian code (and error), the arguments and a CRC under which
    the message checks to zero, and nothing beyond; they fail exactly when the
    buffer is smaller than that. *)
Theorem write_command_reply_frames (f : list Z) (len command error n : Z)
    (arg : option (list Z)) :
  data_ok n arg -> len <= Z.of_nat (length f) ->
  (vscp_writeCommandToFrame (Some f) len command arg n
   = if n + 5 <=? len
     then Some (VSCP_ERROR_SUCCESS,
                Some (command_frame command (data_of arg) ++ drop (5 + Z.to_nat n) f))
     else Some (VSCP_ERROR_BUFFER_TO_SMALL, Some f))
  /\ (vscp_writeReplyToFrame (Some f) len command error arg n
      = if n + 7 <=? len
        then Some (VSCP_ERROR_SUCCESS,
                   Some (reply_frame command error (data_of arg) ++ drop (7 + Z.to_nat n) f))
        else Some (VSCP_ERROR_BUFFER_TO_SMALL, Some f))
  /\ crcFast (drop 1 (command_frame command (data_of arg))) = 0
  /\ crcFast (drop 1 (reply_frame command error (data_of arg))) = 0.
Proof.
  intros Ha Hl. split_and!.
  - apply writeCommandToFrame_eq; assumption.
  - apply writeReplyToFrame_eq; assumption.
  - unfold command_frame. apply frame_crc_zero.
  - unfold reply_frame. apply frame_crc_zero.
Qed.

Lemma write_command_reply_frames_witness :
  (vscp_writeCommandToFrame (Some (replicate 8 0)) 8 0x1234 (Some [1; 2; 3]) 3
   = Some (VSCP_ERROR_SUCCESS, Some (command_frame 0x1234 [1; 2; 3])))
  /\ vscp_writeReplyToFrame (Some (replicate 8 0)) 8 0x1234 0 (Some [1; 2; 3]) 3
     = Some (VSCP_ERROR_BUFFER_TO_SMALL, Some (replicate 8 0)).
Proof.
  destruct (write_command_reply_frames (replicate 8 0) 8 0x1234 0 3 (Some [1; 2; 3]))
    as (H1 & H2 & _).
  - split; [lia|]. split; [reflexivity|]. repeat constructor; width.
  - vm_compute. intros H; discriminate H.
  - rewrite H1, H2. split; reflexivity.
Defined.
