(* ===== verification/Strings.v ===== *)
(** * Strings: the text helpers of vscphelper.h, vscphelper.cpp and
    vscphelper-common.cpp

    A string is the list of its character codes (0 to 255).  The conversions
    of the C and C++ standard libraries that the code calls (isspace, tolower,
    strtol and its C++ wrappers, the printf conversions %d, %u and %02X) are
    written out for the "C" locale. *)

From S2P Require Import Prelude DateTime Event.

(** The character codes of a literal. *)
Definition str (s : string) : list Z :=
  map (fun a => Z.of_N (N_of_ascii a)) (list_ascii_of_string s).

(** ** The C library *)

Definition isspace (c : Z) : bool := (c =? 32) || ((9 <=? c) && (c <=? 13)).
Definition tolower (c : Z) : Z := if (65 <=? c) && (c <=? 90) then c + 32 else c.
Definition toupper (c : Z) : Z := if (97 <=? c) && (c <=? 122) then c - 32 else c.

(** A C string ends at the first zero. *)
Fixpoint c_str (s : list Z) : list Z :=
  match s with
  | [] => []
  | c :: s' => if c =? 0 then [] else c :: c_str s'
  end.

Fixpoint skip_spaces (s : list Z) : list Z :=
  match s with
  | c :: s' => if isspace c then skip_spaces s' else s
  | [] => []
  end.

Definition digit_value (c : Z) : option Z :=
  if (48 <=? c) && (c <=? 57) then Some (c - 48)
  else if (97 <=? c) && (c <=? 122) then Some (c - 87)
  else if (65 <=? c) && (c <=? 90) then Some (c - 55)
  else None.

Definition is_digit (base c : Z) : bool :=
  match digit_value c with Some d => d <? base | None => false end.

(** Reads digits: the value and the rest. *)
Fixpoint parse_digits (base : Z) (s : list Z) (acc : Z) : Z * list Z :=
  match s with
  | c :: s' =>
      match digit_value c with
      | Some d => if d <? base then parse_digits base s' (acc * base + d) else (acc, s)
      | None => (acc, s)
      end
  | [] => (acc, [])
  end.

Definition starts_digit (base : Z) (s : list Z) : bool :=
  match s with c :: _ => is_digit base c | [] => false end.

(** The subject sequence of strtol: an optional sign, the prefix of base 16 and
    of base 0, digits.  [None]: no conversion. *)
Definition strip_prefix (base : Z) (s : list Z) : Z * list Z :=
  match s with
  | z :: x :: s' =>
      if (z =? 48) && (tolower x =? 120) && starts_digit 16 s'
         && ((base =? 16) || (base =? 0))
      then (16, s')
      else if base =? 0 then if z =? 48 then (8, s) else (10, s) else (base, s)
  | z :: _ => if base =? 0 then if z =? 48 then (8, s) else (10, s) else (base, s)
  | [] => (base, s)
  end.

Definition strtol (base : Z) (s : list Z) : option (Z * list Z) :=
  let s := skip_spaces s in
  let '(neg, s) :=
    match s with
    | c :: s' => if c =? 45 then (true, s') else if c =? 43 then (false, s') else (false, s)
    | [] => (false, s)
    end in
  let '(b, s) := strip_prefix base s in
  if starts_digit b s
  then let '(v, rest) := parse_digits b s 0 in Some (if neg then - v else v, rest)
  else None.

(** std::stoll and, on the 64-bit targets, std::stol: [None] is an exception
    (invalid_argument or out_of_range). *)
Definition stoll (s : list Z) (base : Z) : option (Z * list Z) :=
  match strtol base s with
  | Some (v, rest) =>
      if (- 2 ^ 63 <=? v) && (v <? 2 ^ 63) then Some (v, rest) else None
  | None => None
  end.

(** std::stoi: the result is an [int]. *)
Definition stoi (s : list Z) : option (Z * list Z) :=
  match strtol 10 s with
  | Some (v, rest) =>
      if (- 2 ^ 31 <=? v) && (v <? 2 ^ 31) then Some (v, rest) else None
  | None => None
  end.

Definition atoi (s : list Z) : Z :=
  match strtol 10 (c_str s) with
  | Some (v, _) => s32 (Z.max (- 2 ^ 63) (Z.min (2 ^ 63 - 1) v))
  | None => 0
  end.

(** strtoull with base 0: 0 without a conversion, the largest value on
    overflow, a negative value wraps. *)
Definition strtoull (s : list Z) : Z :=
  match strtol 0 s with
  | Some (v, _) => if Z.abs v <? 2 ^ 64 then u64 v else 2 ^ 64 - 1
  | None => 0
  end.

(** The digits of [n >= 0], most significant first: [fuel] is a bound on their
    number (20 is enough for 64 bits). *)
Fixpoint digits (fuel : nat) (base n : Z) : list Z :=
  match fuel with
  | O => []
  | S f => if n <? base then [n] else digits f base (n / base) ++ [n mod base]
  end.

Definition dchar (d : Z) : Z := if d <? 10 then d + 48 else d + 55.
Definition dchar_lower (d : Z) : Z := if d <? 10 then d + 48 else d + 87.

(** %d, %hu, %lu, %llu. *)
Definition dec (n : Z) : list Z :=
  if n <? 0 then 45 :: map dchar (digits 20 10 (- n)) else map dchar (digits 20 10 n).

(** %02X of a byte. *)
Definition hex2 (b : Z) : list Z := [dchar (b / 16); dchar (b mod 16)].

(** ** Searching and splitting *)

Fixpoint starts_with (p s : list Z) : bool :=
  match p, s with
  | [], _ => true
  | a :: p', b :: s' => (a =? b) && starts_with p' s'
  | _, [] => false
  end.

(** std::string::find from the beginning. *)
Fixpoint find (p s : list Z) : option nat :=
  if starts_with p s then Some O
  else match s with [] => None | _ :: s' => S <$> find p s' end.

(** The last place of [p] in [s]. *)
Fixpoint rfind (p s : list Z) : option nat :=
  match s with
  | [] => if starts_with p [] then Some O else None
  | _ :: s' => match rfind p s' with Some n => Some (S n) | None => if starts_with p s then Some O else None end
  end.

Definition vscp_makeLower (s : list Z) : list Z := map tolower s.
Definition vscp_makeUpper (s : list Z) : list Z := map toupper s.

Definition vscp_ltrim (s : list Z) : list Z := skip_spaces s.
Definition vscp_rtrim (s : list Z) : list Z := rev (skip_spaces (rev s)).
Definition vscp_trim (s : list Z) : list Z := vscp_rtrim (vscp_ltrim s).

(** The loop of vscp_split on what follows [start].  [fuel] bounds the number of
    tokens: a delimiter has at least one character. *)
Fixpoint split_loop (fuel : nat) (d s : list Z) : list (list Z) :=
  match fuel with
  | O => []
  | S f =>
      match find d s with
      | None => [s]
      | Some k => take k s :: split_loop f d (drop (k + length d) s)
      end
  end.

Definition vscp_split (s d : list Z) : list (list Z) :=
  match s with [] => [] | _ => split_loop (S (length s)) d s end.

(** vscp_startsWith: the rest of the string when it starts with [p]. *)
Definition vscp_startsWith (s p : list Z) : bool * list Z :=
  match find p s with
  | Some O => (true, drop (length p) s)
  | _ => (false, s)
  end.

(** ** Values *)

(** vscp_readStringValue: the prefix may stand anywhere, two characters are
    dropped; an exception gives zero. *)
Definition vscp_readStringValue (strval : list Z) : Z :=
  let s := vscp_trim (vscp_makeLower strval) in
  let value r := match r with Some (v, _) => v | None => 0 end in
  match find (str "0x") s with
  | Some _ => value (stoll (drop 2 s) 16)
  | None =>
      match find (str "0o") s with
      | Some _ => value (stoll (drop 2 s) 8)
      | None =>
          match find (str "0b") s with
          | Some _ => value (stoll (drop 2 s) 2)
          | None => value (stoll s 10)
          end
      end
  end.

(** vscp_parseISOCombined: six numbers, each followed by one separator
    character.  The fields read before a failure stay stored; [substr] past the
    end throws.  The month is stored as it is read, 1 to 12. *)
Definition iso_step (set : Z -> tm -> tm) (k : list Z -> tm -> bool * tm)
    (s : list Z) (t : tm) : bool * tm :=
  match stoi s with
  | None => (false, t)
  | Some (v, rest) =>
      match rest with
      | [] => (false, set v t)
      | _ :: s' => k s' (set v t)
      end
  end.

Definition set_tm_year (v : Z) (t : tm) : tm :=
  Tm (v - 1900) (tm_mon t) (tm_mday t) (tm_hour t) (tm_min t) (tm_sec t).
Definition set_tm_mon (v : Z) (t : tm) : tm :=
  Tm (tm_year t) v (tm_mday t) (tm_hour t) (tm_min t) (tm_sec t).
Definition set_tm_mday (v : Z) (t : tm) : tm :=
  Tm (tm_year t) (tm_mon t) v (tm_hour t) (tm_min t) (tm_sec t).
Definition set_tm_hour (v : Z) (t : tm) : tm :=
  Tm (tm_year t) (tm_mon t) (tm_mday t) v (tm_min t) (tm_sec t).
Definition set_tm_min (v : Z) (t : tm) : tm :=
  Tm (tm_year t) (tm_mon t) (tm_mday t) (tm_hour t) v (tm_sec t).
Definition set_tm_sec (v : Z) (t : tm) : tm :=
  Tm (tm_year t) (tm_mon t) (tm_mday t) (tm_hour t) (tm_min t) v.

Definition vscp_parseISOCombined (ptm : option tm) (dt : list Z) : bool * option tm :=
  match vscp_trim dt, ptm with
  | [], _ => (false, ptm)
  | _, None => (false, None)
  | _, Some t =>
      let '(ok, t) :=
        iso_step set_tm_year (iso_step set_tm_mon (iso_step set_tm_mday
          (iso_step set_tm_hour (iso_step set_tm_min (fun s t =>
             match stoi s with
             | None => (false, t)
             | Some (v, _) => (true, set_tm_sec v t)
             end))))) (c_str dt) t in
      (ok, Some t)
  end.

(** ** Data as text *)

(** The loop of vscp_writeDataToString and vscp_writeDataWithSizeToString on
    the bytes from index [i] on; [last] is the index of the last byte. *)
Fixpoint write_data (fmt : Z -> list Z) (brk : option (list Z)) (last i : nat)
    (data : list Z) : list Z :=
  match data with
  | [] => []
  | b :: data' =>
      fmt b ++ (if (i <? last)%nat then str "," else [])
      ++ (match brk with
          | Some br => if (S i mod 8 =? 0)%nat then br else []
          | None => []
          end)
      ++ write_data fmt brk last (S i) data'
  end.

Definition hex_data (b : Z) : list Z := str "0x" ++ hex2 b.

Definition str_break (html : bool) : list Z := if html then str "<br>" else [13; 10].

(** [Some None]: false is returned and the string is left alone. *)
Definition vscp_writeDataWithSizeToString (pData : option (list Z)) (sizeData : Z)
    (bUseHtmlBreak bBreak bDecimal : bool) : option (option (list Z)) :=
  match pData with
  | None => Some None
  | Some l =>
      bs ← rdn l 0 (Z.to_nat sizeData);
      Some (Some (write_data (if bDecimal then dec else hex_data)
                    (if bBreak then Some (str_break bUseHtmlBreak) else None)
                    (pred (length bs)) 0 bs))
  end.

(** The same loop, with the hexadecimal format; the event pointer is not
    checked. *)
Definition vscp_writeDataToString (e : vscpEvent) (bUseHtmlBreak bBreak : bool)
  : option (option (list Z)) :=
  vscp_writeDataWithSizeToString (pdata e) (sizeData e) bUseHtmlBreak bBreak false.

(** The tokens as bytes: the loop stops after VSCP_MAX_DATA of them. *)
Definition data_tokens (s : list Z) : list Z :=
  map (fun t => u8 (vscp_readStringValue t))
      (take (Z.to_nat VSCP_MAX_DATA) (vscp_split s (str ","))).

Definition vscp_setEventDataFromString (pev : option vscpEvent) (s : list Z)
  : bool * option vscpEvent :=
  match pev with
  | None => (false, None)
  | Some e =>
      let data := data_tokens s in
      (true, Some (set_pdata (Z.of_nat (length data))
                     (if (0 <? length data)%nat then Some data else None) e))
  end.

(** The target array is overwritten from its start. *)
Definition vscp_setDataArrayFromString (pData : option (list Z)) (s : list Z)
  : option (bool * (option (list Z) * Z)) :=
  match pData with
  | None => Some (false, (None, 0))
  | Some l =>
      let data := data_tokens s in
      l ← wr l 0 data;
      Some (true, (Some l, Z.of_nat (length data)))
  end.

Definition vscp_setEventExDataFromString (pex : option vscpEventEx) (s : list Z)
  : option (bool * option vscpEventEx) :=
  match pex with
  | None => Some (false, None)
  | Some x =>
      let data := data_tokens s in
      d ← wr (xdata x) 0 data;
      Some (true, Some (EventEx (xhead x) (xobid x) (xtime x) (xcrc x) (xclass x)
                          (xtype x) (xGUID x) (Z.of_nat (length data)) d))
  end.

(** ** Hex strings *)

Definition vscp_byteArray2HexStr (p : list Z) : list Z :=
  concat (map (fun b => [dchar_lower (Z.shiftr b 4); dchar_lower (Z.land b 0x0f)]) p).

(** readHexChar throws on any other character. *)
Definition readHexChar (c : Z) : option Z :=
  if (48 <=? c) && (c <=? 57) then Some (c - 48)
  else if (65 <=? c) && (c <=? 70) then Some (c - 65 + 10)
  else if (97 <=? c) && (c <=? 102) then Some (c - 97 + 10)
  else None.

(** The bytes read, at most [size]; [None] is the exception. *)
Fixpoint hexstr_loop (size : nat) (s : list Z) : option (list Z) :=
  match size, s with
  | S n, a :: b :: s' =>
      h ← readHexChar a; l ← readHexChar b; bs ← hexstr_loop n s';
      Some (u8 (u8 (Z.shiftl h 4) + l) :: bs)
  | _, _ => Some []
  end.

Definition vscp_hexStr2ByteArray (size : nat) (hexstr : list Z) : option (list Z) :=
  hexstr_loop size (c_str hexstr).

(** Salt and hash of a stored password ("salt;hash"): [Some None] is a failure,
    [None] the exception of readHexChar. *)
Definition vscp_getHashPasswordComponents (stored_pw : list Z)
  : option (option (list Z * list Z)) :=
  match vscp_split stored_pw (str ";") with
  | [s; h] =>
      salt ← vscp_hexStr2ByteArray 16 s;
      hash ← vscp_hexStr2ByteArray 32 h;
      Some (Some (salt, hash))
  | _ => Some None
  end.

(** ** Other helpers *)

Definition html_char (c : Z) : list Z :=
  if c =? 10 then str "<br>"
  else if c =? 32 then str "&nbsp;"
  else if c =? 60 then str "&lt;"
  else if c =? 62 then str "&gt;"
  else if c =? 38 then str "&amp;"
  else if c =? 34 then str "&quot;"
  else if c =? 39 then str "&apos;"
  else [c].

Definition vscp_makeHtml (s : list Z) : list Z := concat (map html_char s).

(** vscp_strcasecmp: the difference of the first characters that differ, the
    terminating zero included. *)
Fixpoint vscp_strcasecmp (a b : list Z) : Z :=
  match a, b with
  | [], [] => 0
  | x :: a', [] => tolower x
  | [], y :: b' => - tolower y
  | x :: a', y :: b' =>
      let d := tolower x - tolower y in if d =? 0 then vscp_strcasecmp a' b' else d
  end.

Definition VSCP_ENCRYPTION_AES128 : Z := 1.
Definition VSCP_ENCRYPTION_AES192 : Z := 2.
Definition VSCP_ENCRYPTION_AES256 : Z := 3.

Definition vscp_getEncryptionCodeFromToken (token : list Z) : Z :=
  let s := c_str (vscp_trim (vscp_makeUpper token)) in
  if vscp_strcasecmp s (str "AES128") =? 0 then VSCP_ENCRYPTION_AES128
  else if vscp_strcasecmp s (str "AES192") =? 0 then VSCP_ENCRYPTION_AES192
  else if vscp_strcasecmp s (str "AES256") =? 0 then VSCP_ENCRYPTION_AES256
  else 0.

Definition vscp_getEncryptionTokenFromCode (code : Z) : list Z :=
  if code =? VSCP_ENCRYPTION_AES128 then str "AES128"
  else if code =? VSCP_ENCRYPTION_AES192 then str "AES192"
  else if code =? VSCP_ENCRYPTION_AES256 then str "AES256"
  else [].

(** ** Lemmas *)

(** *** Characters *)

Lemma c_str_id (s : list Z) : 0 ∉ s -> c_str s = s.
Proof.
  induction s as [|c s IH]; intros H; [reflexivity|]. cbn [c_str].
  apply not_elem_of_cons in H as [Hc H].
  destruct (Z.eqb_spec c 0); [congruence|]. rewrite IH by exact H. reflexivity.
Qed.

Lemma c_str_terminated s rest : 0 ∉ s -> c_str (s ++ 0 :: rest) = s.
Proof.
  induction s as [|c s IH]; intros H; [reflexivity|]. apply not_elem_of_cons in H as [H0 H1]. cbn [app c_str].
  destruct (Z.eqb_spec c 0); [congruence|]. rewrite IH by exact H1. reflexivity.
Qed.

Lemma dchar_bound d : 0 <= d < 16 -> 48 <= dchar d <= 57 /\ d < 10 \/ 65 <= dchar d <= 70 /\ 10 <= d.
Proof. unfold dchar. destruct (Z.ltb_spec d 10); lia. Qed.

Lemma digit_value_dchar d : 0 <= d < 16 -> digit_value (dchar d) = Some d.
Proof.
  intros Hd. unfold dchar, digit_value. destruct (Z.ltb_spec d 10).
  - destruct (Z.leb_spec 48 (d + 48)), (Z.leb_spec (d + 48) 57); try lia.
    cbn [andb]. f_equal. lia.
  - destruct (Z.leb_spec 48 (d + 55)), (Z.leb_spec (d + 55) 57); try lia;
    destruct (Z.leb_spec 97 (d + 55)), (Z.leb_spec (d + 55) 122); try lia;
    destruct (Z.leb_spec 65 (d + 55)), (Z.leb_spec (d + 55) 90); try lia;
    cbn [andb]; f_equal; lia.
Qed.

Lemma digit_value_lower d : 0 <= d < 16 -> digit_value (tolower (dchar d)) = Some d.
Proof.
  intros Hd. unfold dchar, digit_value, tolower. destruct (Z.ltb_spec d 10).
  - destruct (Z.leb_spec 65 (d + 48)); [lia|]. cbn [andb].
    destruct (Z.leb_spec 48 (d + 48)), (Z.leb_spec (d + 48) 57); try lia.
    cbn [andb]. f_equal. lia.
  - destruct (Z.leb_spec 65 (d + 55)), (Z.leb_spec (d + 55) 90); try lia. cbn [andb].
    destruct (Z.leb_spec 48 (d + 55 + 32)), (Z.leb_spec (d + 55 + 32) 57); try lia;
    destruct (Z.leb_spec 97 (d + 55 + 32)), (Z.leb_spec (d + 55 + 32) 122); try lia;
    cbn [andb]; f_equal; lia.
Qed.

(** *** Digits and their value *)

Definition of_digits (base : Z) (ds : list Z) : Z := foldl (fun a d => a * base + d) 0 ds.

Lemma digits_spec fuel base n :
  1 < base -> 0 <= n < base ^ Z.of_nat fuel -> (0 < fuel)%nat ->
  of_digits base (digits fuel base n) = n
  /\ Forall (fun d => 0 <= d < base) (digits fuel base n)
  /\ digits fuel base n <> [].
Proof.
  intros Hb. revert n. induction fuel as [|f IH]; intros n Hn Hf; [lia|].
  cbn [digits]. destruct (Z.ltb_spec n base).
  - split; [reflexivity|]. split; [|discriminate]. repeat constructor; lia.
  - rewrite Nat2Z.inj_succ, Z.pow_succ_r in Hn by lia.
    assert (Hf0 : (0 < f)%nat).
    { destruct f; [|lia]. change (Z.of_nat 0) with 0 in Hn. rewrite Z.pow_0_r in Hn. lia. }
    assert (Hq : 0 <= n / base < base ^ Z.of_nat f).
    { split; [apply Z.div_pos; lia|]. apply Z.div_lt_upper_bound; lia. }
    destruct (IH _ Hq Hf0) as (IH1 & IH2 & IH3). split; [|split].
    + unfold of_digits in *. rewrite foldl_snoc, IH1.
      rewrite (Z.div_mod n base) at 3 by lia. lia.
    + apply Forall_app. split; [exact IH2|]. repeat constructor;
      apply Z.mod_pos_bound; lia.
    + intros E. apply app_eq_nil in E as [_ E]. discriminate E.
Qed.

(** The next character ends a number of the base. *)
Definition ends_number (base : Z) (s : list Z) : Prop := starts_digit base s = false.

Lemma parse_digits_stop base s acc : ends_number base s -> parse_digits base s acc = (acc, s).
Proof.
  unfold ends_number, starts_digit, is_digit. destruct s as [|c s]; [reflexivity|].
  cbn [parse_digits]. destruct (digit_value c) as [d|]; [|reflexivity].
  intros ->. reflexivity.
Qed.

Lemma parse_digits_app base f ds rest acc :
  (forall d, 0 <= d < base -> digit_value (f d) = Some d) ->
  Forall (fun d => 0 <= d < base) ds -> ends_number base rest ->
  parse_digits base (map f ds ++ rest) acc
  = (foldl (fun a d => a * base + d) acc ds, rest).
Proof.
  intros Hf H Hr. revert acc. induction H as [|d ds Hd _ IH]; intros acc.
  - apply parse_digits_stop, Hr.
  - cbn [map app parse_digits foldl]. rewrite Hf by exact Hd.
    destruct (Z.ltb_spec d base); [|lia]. apply IH.
Qed.

(** A number: its first character is neither a space nor a sign. *)
Lemma digit_not_space c d : digit_value c = Some d ->
  isspace c = false /\ (c =? 45) = false /\ (c =? 43) = false /\ (c =? 44) = false
  /\ (c =? 58) = false /\ (c =? 0) = false.
Proof.
  intros H. unfold digit_value in H.
  assert (48 <= c).
  { destruct (Z.leb_spec 48 c), (Z.leb_spec c 57); try lia; cbn [andb] in H;
    destruct (Z.leb_spec 97 c), (Z.leb_spec c 122); try lia; cbn [andb] in H;
    destruct (Z.leb_spec 65 c), (Z.leb_spec c 90); try lia; discriminate. }
  assert (c <> 58).
  { intros ->. discriminate H. }
  unfold isspace. repeat split; try (apply Z.eqb_neq; lia).
  destruct (Z.eqb_spec c 32); [lia|]. destruct (Z.leb_spec c 13); [lia|].
  apply andb_false_r.
Qed.

(** *** Numbers *)

Definition digits_ok (base : Z) (ds : list Z) : Prop :=
  ds <> [] /\ Forall (fun d => 0 <= d < base) ds.

Lemma starts_digit_map base f ds rest :
  (forall d, 0 <= d < base -> digit_value (f d) = Some d) -> digits_ok base ds ->
  starts_digit base (map f ds ++ rest) = true.
Proof.
  intros Hf [Hne H]. destruct H as [|d ds Hd _]; [congruence|].
  cbn. unfold is_digit. rewrite Hf by exact Hd. apply Z.ltb_lt. lia.
Qed.

Lemma strtol_number base b f ds rest :
  (forall d, 0 <= d < b -> digit_value (f d) = Some d) -> digits_ok b ds ->
  ends_number b rest ->
  strip_prefix base (map f ds ++ rest) = (b, map f ds ++ rest) ->
  strtol base (map f ds ++ rest) = Some (of_digits b ds, rest).
Proof.
  intros Hf Hds Hr Hp.
  assert (Hs := starts_digit_map b f ds rest Hf Hds).
  destruct Hds as [Hne H]. unfold strtol.
  assert (E : exists c s, map f ds ++ rest = c :: s /\ isspace c = false
                          /\ (c =? 45) = false /\ (c =? 43) = false).
  { destruct H as [|d ds Hd _]; [congruence|]. cbn [map app].
    destruct (digit_not_space (f d) d (Hf d Hd)) as (? & ? & ? & _). eauto 10. }
  destruct E as (c & s & E & E1 & E2 & E3).
  assert (Esk : skip_spaces (map f ds ++ rest) = map f ds ++ rest).
  { rewrite E. cbn [skip_spaces]. rewrite E1. reflexivity. }
  rewrite Esk. set (t := map f ds ++ rest) in *.
  assert (Es : match t with
               | c :: s' => if c =? 45 then (true, s') else if c =? 43 then (false, s') else (false, t)
               | [] => (false, t)
               end = (false, t)) by (rewrite E, E2, E3; reflexivity).
  rewrite Es, Hp, Hs. unfold t.
  rewrite (parse_digits_app b f ds rest 0) by assumption. reflexivity.
Qed.

Lemma strip_prefix_10 s : strip_prefix 10 s = (10, s).
Proof.
  destruct s as [|z [|x s]]; try reflexivity.
  cbn [strip_prefix]. change (10 =? 16) with false. change (10 =? 0) with false.
  rewrite andb_false_r. reflexivity.
Qed.

Lemma dchar_digit10 d : 0 <= d < 10 -> digit_value (dchar d) = Some d.
Proof. intros. apply digit_value_dchar. lia. Qed.

(** The decimal digits of a 64-bit number. *)
Definition dec_digits (n : Z) : list Z := digits 20 10 n.

Lemma dec_eq n : 0 <= n -> dec n = map dchar (dec_digits n).
Proof. intros. unfold dec. destruct (Z.ltb_spec n 0); [lia|reflexivity]. Qed.

Lemma dec_digits_spec n :
  0 <= n < 2 ^ 64 -> of_digits 10 (dec_digits n) = n /\ digits_ok 10 (dec_digits n).
Proof.
  intros Hn. destruct (digits_spec 20 10 n) as (H1 & H2 & H3); [lia| |lia|].
  - change (2 ^ 64) with 18446744073709551616 in Hn.
    change (10 ^ Z.of_nat 20) with 100000000000000000000. lia.
  - split; [exact H1|split; assumption].
Qed.

Lemma strtol_dec n rest :
  0 <= n < 2 ^ 64 -> ends_number 10 rest -> strtol 10 (dec n ++ rest) = Some (n, rest).
Proof.
  intros Hn Hr. destruct (dec_digits_spec n Hn) as [E Hd].
  rewrite dec_eq, (strtol_number 10 10), E by
    (auto using dchar_digit10, strip_prefix_10 || lia). reflexivity.
Qed.

Lemma stoll_dec n rest :
  0 <= n < 2 ^ 63 -> ends_number 10 rest -> stoll (dec n ++ rest) 10 = Some (n, rest).
Proof.
  intros Hn Hr. unfold stoll. rewrite strtol_dec by (auto; lia).
  destruct (Z.leb_spec (- 2 ^ 63) n); [|lia]. destruct (Z.ltb_spec n (2 ^ 63)); [|lia].
  reflexivity.
Qed.

(** *** Trimming and searching *)

Definition no_space (s : list Z) : Prop := Forall (fun c => isspace c = false) s.
Definition all_space (s : list Z) : Prop := Forall (fun c => isspace c = true) s.

Lemma skip_spaces_app ws s : all_space ws -> skip_spaces (ws ++ s) = skip_spaces s.
Proof. induction 1 as [|c ws Hc _ IH]; [reflexivity|]. cbn. rewrite Hc. exact IH. Qed.

Lemma skip_spaces_id s : no_space s -> skip_spaces s = s.
Proof. destruct 1 as [|c s Hc _]; [reflexivity|]. cbn. rewrite Hc. reflexivity. Qed.

Lemma skip_spaces_end s ws : no_space s -> s <> [] -> skip_spaces (s ++ ws) = s ++ ws.
Proof. intros H Hne. destruct H as [|c s Hc _]; [congruence|]. cbn. rewrite Hc. reflexivity. Qed.

Lemma Forall_elem {A} (P : A -> Prop) l x : Forall P l -> x ∈ l -> P x.
Proof. intros H Hx. apply list_elem_of_In in Hx. rewrite List.Forall_forall in H. auto. Qed.

Lemma Forall_rev' {A} (P : A -> Prop) l : Forall P l -> Forall P (rev l).
Proof.
  intros H. induction H as [|c l Hc _ IH]; [constructor|].
  cbn [rev]. apply Forall_app. split; [exact IH|]. repeat constructor. exact Hc.
Qed.

Lemma trim_around ws s ws' :
  all_space ws -> all_space ws' -> no_space s -> vscp_trim (ws ++ s ++ ws') = s.
Proof.
  intros H1 H2 Hs. unfold vscp_trim, vscp_ltrim, vscp_rtrim.
  rewrite skip_spaces_app by exact H1.
  destruct s as [|c s].
  - cbn [app]. rewrite <- (app_nil_r ws'), skip_spaces_app by exact H2. reflexivity.
  - rewrite skip_spaces_end by (auto; discriminate).
    rewrite rev_app_distr, skip_spaces_app by apply Forall_rev', H2.
    rewrite skip_spaces_id by apply Forall_rev', Hs. apply rev_involutive.
Qed.

Lemma trim_id s : no_space s -> vscp_trim s = s.
Proof.
  intros H. rewrite <- (trim_around [] s []) at 2 by (exact H || constructor).
  rewrite app_nil_r. reflexivity.
Qed.

Lemma starts_with_elem p s c : starts_with p s = true -> c ∈ p -> c ∈ s.
Proof.
  revert s. induction p as [|a p IH]; intros [|b s] H Hc; cbn in H;
    try discriminate; try (apply elem_of_nil in Hc; contradiction).
  apply andb_prop in H as [H1 H2]. apply Z.eqb_eq in H1 as ->.
  apply elem_of_cons in Hc as [->|Hc]; [left|right; apply IH; assumption].
Qed.

Lemma find_none p s c : c ∈ p -> c ∉ s -> find p s = None.
Proof.
  intros Hp. induction s as [|b s IH]; intros Hs; cbn [find].
  - destruct (starts_with p []) eqn:E; [|reflexivity].
    exfalso. exact (Hs (starts_with_elem p [] c E Hp)).
  - destruct (starts_with p (b :: s)) eqn:E.
    + exfalso. exact (Hs (starts_with_elem p _ c E Hp)).
    + rewrite IH; [reflexivity|]. intros H. apply Hs. right. exact H.
Qed.

Lemma find_here p s : starts_with p s = true -> find p s = Some O.
Proof. destruct s; cbn [find]; intros ->; reflexivity. Qed.

Lemma find_char_app d t rest : d ∉ t -> find [d] (t ++ d :: rest) = Some (length t).
Proof.
  induction t as [|c t IH]; intros H; cbn [app find starts_with length].
  - rewrite Z.eqb_refl. reflexivity.
  - destruct (Z.eqb_spec d c) as [->|]; [exfalso; apply H; left|]. cbn [andb].
    rewrite IH; [reflexivity|]. intros H'. apply H. right. exact H'.
Qed.

Lemma rfind_last d s t : d ∉ t -> rfind [d] (s ++ d :: t) = Some (length s).
Proof.
  intros Ht. assert (N : rfind [d] t = None).
  { induction t as [|c t IH]; [reflexivity|]. apply not_elem_of_cons in Ht as [Hc Ht]. cbn [rfind]. rewrite IH by exact Ht.
    cbn. destruct (Z.eqb_spec d c); [congruence|reflexivity]. }
  induction s as [|c s IH]; cbn [app rfind length].
  - rewrite N. cbn. rewrite Z.eqb_refl. reflexivity.
  - rewrite IH. reflexivity.
Qed.

Lemma starts_with_length p s : starts_with p s = true -> (length p <= length s)%nat.
Proof.
  revert s. induction p as [|a p IH]; intros [|b s] H; cbn in *; try lia; try discriminate. apply andb_prop in H as [_ H]. apply IH in H. lia.
Qed.

Lemma find_char_none d t : d ∉ t -> find [d] t = None.
Proof. intros H. apply (find_none _ _ d); [left|exact H]. Qed.

Lemma find_char_split c s k : find [c] s = Some k -> s = take k s ++ c :: drop (k + 1) s /\ c ∉ take k s.
Proof.
  revert k. induction s as [|x s IH]; intros k E; [discriminate|]. cbn [find starts_with] in E.
  rewrite andb_true_r in E. destruct (Z.eqb_spec c x) as [<-|Hx].
  - injection E as <-. split; [reflexivity|apply not_elem_of_nil].
  - destruct (find [c] s) as [k'|]; [|discriminate]. injection E as <-. destruct (IH k' eq_refl) as [Es Hk].
    split; [cbn; f_equal; exact Es|]. cbn. apply not_elem_of_cons. split; [congruence|exact Hk].
Qed.

Lemma find_char_absent c s : find [c] s = None -> c ∉ s.
Proof.
  induction s as [|x s IH]; intros E; [apply not_elem_of_nil|]. cbn [find starts_with] in E. rewrite andb_true_r in E.
  destruct (Z.eqb_spec c x) as [<-|Hx]; [discriminate|]. apply not_elem_of_cons. split; [congruence|].
  apply IH. destruct (find [c] s); [discriminate|reflexivity].
Qed.

(** *** Joining and splitting *)

Fixpoint join (d : Z) (ts : list (list Z)) : list Z :=
  match ts with
  | [] => []
  | [t] => t
  | t :: ts' => t ++ d :: join d ts'
  end.

Lemma join_cons d t t' ts : join d (t :: t' :: ts) = t ++ d :: join d (t' :: ts).
Proof. reflexivity. Qed.

Lemma join_app d ts us :
  ts <> [] -> us <> [] -> join d (ts ++ us) = join d ts ++ d :: join d us.
Proof.
  intros Hts Hus. induction ts as [|t [|t' ts] IH]; [congruence| |].
  - destruct us; [congruence|]. reflexivity.
  - cbn [app]. rewrite !join_cons. change (t' :: ts ++ us) with ((t' :: ts) ++ us).
    rewrite IH by discriminate. rewrite <- app_assoc. reflexivity.
Qed.

Lemma split_loop_join d ts fuel :
  ts <> [] -> Forall (fun t => d ∉ t) ts -> (length (join d ts) < fuel)%nat ->
  split_loop fuel [d] (join d ts) = ts.
Proof.
  intros Hne H. revert fuel. induction H as [|t ts Ht Hts IH]; [congruence|].
  intros [|fuel] Hf; [lia|]. cbn [split_loop]. destruct ts as [|t' ts].
  - cbn [join]. rewrite find_char_none by exact Ht. reflexivity.
  - rewrite join_cons in *. rewrite find_char_app by exact Ht.
    rewrite take_app_length. f_equal.
    replace (t ++ d :: join d (t' :: ts)) with ((t ++ [d]) ++ join d (t' :: ts))
      by (rewrite <- app_assoc; reflexivity).
    rewrite drop_app_length' by (rewrite length_app; reflexivity).
    apply IH; [discriminate|]. rewrite length_app in Hf. cbn [length] in Hf. lia.
Qed.

Lemma split_join d ts :
  Forall (fun t => d ∉ t) ts -> join d ts <> [] -> vscp_split (join d ts) [d] = ts.
Proof.
  intros H Hne. unfold vscp_split. destruct (join d ts) eqn:E; [congruence|].
  rewrite <- E. apply split_loop_join; [|exact H|lia].
  intros ->. discriminate E.
Qed.

(** *** Reading values *)

(** The text of a number in a base, with capital letters for the digits above
    nine. *)
Definition numeral (base n : Z) : list Z := map dchar (digits 64 base n).

Lemma numeral_spec base n :
  2 <= base <= 16 -> 0 <= n < 2 ^ 63 ->
  of_digits base (digits 64 base n) = n /\ digits_ok base (digits 64 base n).
Proof.
  intros Hb Hn. destruct (digits_spec 64 base n) as (H1 & H2 & H3); [lia| |lia|].
  - assert (2 ^ Z.of_nat 64 <= base ^ Z.of_nat 64) by (apply Z.pow_le_mono_l; lia).
    change (2 ^ Z.of_nat 64) with 18446744073709551616 in *. lia.
  - split; [exact H1|split; assumption].
Qed.

Definition digit_char (base c : Z) : Prop :=
  exists d, 0 <= d < base /\ (c = dchar d \/ c = tolower (dchar d)).

Lemma digit_char_lower base ds :
  base <= 16 -> Forall (fun d => 0 <= d < base) ds ->
  Forall (digit_char base) (map (fun d => tolower (dchar d)) ds).
Proof. intros Hb H. induction H; constructor; [exists x; auto|assumption]. Qed.

Lemma digit_char_not_space base c :
  base <= 16 -> digit_char base c -> isspace c = false.
Proof.
  intros Hb (d & Hd & [->| ->]).
  - apply (digit_not_space _ d), digit_value_dchar. lia.
  - apply (digit_not_space _ d), digit_value_lower. lia.
Qed.

Lemma dchar_tolower d : 0 <= d < 10 -> tolower (dchar d) = dchar d.
Proof.
  intros Hd. unfold dchar, tolower. destruct (Z.ltb_spec d 10); [|lia].
  destruct (Z.leb_spec 65 (d + 48)); [lia|reflexivity].
Qed.

(** No letter after [f] is a digit of the numerals below base 11; letters after
    [f] are in none. *)
Lemma digit_char_not base c x :
  digit_char base x -> (base <= 10 /\ 58 <= c) \/ (base <= 16 /\ 103 <= c) -> x <> c.
Proof.
  unfold dchar, tolower. intros (d & Hd & Hx) Hc ->. revert Hx. unfold dchar, tolower.
  destruct (Z.ltb_spec d 10).
  - destruct (Z.leb_spec 65 (d + 48)); [lia|]. cbn [andb]. lia.
  - destruct (Z.leb_spec 65 (d + 55)), (Z.leb_spec (d + 55) 90); cbn [andb]; lia.
Qed.

Lemma numeral_lower base n :
  2 <= base <= 16 -> 0 <= n < 2 ^ 63 ->
  vscp_makeLower (numeral base n) = map (fun d => tolower (dchar d)) (digits 64 base n)
  /\ Forall (digit_char base) (vscp_makeLower (numeral base n)).
Proof.
  intros Hb Hn. unfold vscp_makeLower, numeral. rewrite map_map. split; [reflexivity|].
  apply digit_char_lower; [lia|]. apply (numeral_spec base n); assumption.
Qed.

Lemma stoll_numeral base n :
  2 <= base <= 16 -> 0 <= n < 2 ^ 63 ->
  stoll (vscp_makeLower (numeral base n)) base = Some (n, []).
Proof.
  intros Hb Hn. destruct (numeral_spec base n Hb Hn) as [E Hd].
  destruct (numeral_lower base n Hb Hn) as [El Hc]. rewrite El in *.
  assert (S : strtol base (map (fun d => tolower (dchar d)) (digits 64 base n) ++ [])
              = Some (of_digits base (digits 64 base n), [])).
  { apply strtol_number; [|exact Hd|reflexivity|].
    - intros d Hd'. apply digit_value_lower. lia.
    - rewrite app_nil_r. destruct Hc as [|z l _ Hl]; [reflexivity|].
      destruct Hl as [|x l Hx _]; cbn [strip_prefix]; rewrite (proj2 (Z.eqb_neq base 0)) by lia;
        [reflexivity|].
      assert (Hx' : (tolower x =? 120) = false).
      { apply Z.eqb_neq. intros E120.
        destruct Hx as (d & Hd' & Hx). unfold tolower in *.
        revert E120. destruct Hx as [-> | ->]; unfold dchar;
        repeat match goal with
        | |- context [Z.ltb ?a ?b] => destruct (Z.ltb_spec a b)
        | |- context [Z.leb ?a ?b] => destruct (Z.leb_spec a b)
        end; cbn [andb]; lia. }
      rewrite Hx', andb_false_r. reflexivity. }
  rewrite app_nil_r, E in S. unfold stoll. rewrite S.
  destruct (Z.leb_spec (- 2 ^ 63) n); [|lia]. destruct (Z.ltb_spec n (2 ^ 63)); [|lia].
  reflexivity.
Qed.

Lemma lower_space ws : all_space ws -> map tolower ws = ws.
Proof.
  induction 1 as [|c ws Hc _ IH]; [reflexivity|]. cbn [map]. rewrite IH. f_equal.
  unfold isspace in Hc. unfold tolower.
  destruct (Z.leb_spec 65 c); [|reflexivity].
  destruct (Z.eqb_spec c 32); [lia|]. destruct (Z.leb_spec 9 c), (Z.leb_spec c 13); cbn in Hc; lia || discriminate.
Qed.

(** The text without its surrounding space, in lower case, decides the value. *)
Lemma readStringValue_trim ws s ws' :
  all_space ws -> all_space ws' -> no_space (vscp_makeLower s) ->
  vscp_trim (vscp_makeLower (ws ++ s ++ ws')) = vscp_makeLower s.
Proof.
  intros H1 H2 Hs. unfold vscp_makeLower in *. rewrite !map_app, (lower_space ws), (lower_space ws') by assumption.
  apply trim_around; assumption.
Qed.

Lemma digit_chars_no_space base s :
  base <= 16 -> Forall (digit_char base) s -> no_space s.
Proof. intros Hb H. induction H; constructor; eauto using digit_char_not_space. Qed.

Lemma digit_chars_not_in base s c :
  Forall (digit_char base) s -> (base <= 10 /\ 58 <= c) \/ (base <= 16 /\ 103 <= c) ->
  c ∉ s.
Proof.
  intros H Hc Hin. apply (digit_char_not base c c); [|exact Hc|reflexivity].
  exact (Forall_elem _ s c H Hin).
Qed.

Lemma find_digits_none base p s c :
  Forall (digit_char base) s -> (base <= 10 /\ 58 <= c) \/ (base <= 16 /\ 103 <= c) ->
  c ∈ p -> find p s = None.
Proof. intros H Hc Hp. apply (find_none _ _ c Hp), (digit_chars_not_in base); assumption. Qed.

Lemma readStringValue_dec ws n ws' :
  all_space ws -> all_space ws' -> 0 <= n < 2 ^ 63 ->
  vscp_readStringValue (ws ++ numeral 10 n ++ ws') = n.
Proof.
  intros H1 H2 Hn. unfold vscp_readStringValue.
  destruct (numeral_lower 10 n ltac:(lia) Hn) as [_ Hc].
  rewrite readStringValue_trim;
    [|assumption|assumption|exact (digit_chars_no_space 10 _ ltac:(lia) Hc)].
  cbv zeta.
  rewrite (find_digits_none 10 (str "0x") _ 120), (find_digits_none 10 (str "0o") _ 111),
    (find_digits_none 10 (str "0b") _ 98)
    by (exact Hc || lia || (right; left)).
  rewrite stoll_numeral by lia. reflexivity.
Qed.

(** A prefixed number: [p] is found at the front and two characters dropped. *)
Lemma readStringValue_prefixed ws p base n ws' :
  all_space ws -> all_space ws' -> 0 <= n < 2 ^ 63 ->
  (p, base) ∈ [(str "0x", 16); (str "0X", 16); (str "0o", 8); (str "0b", 2)] ->
  vscp_readStringValue (ws ++ (p ++ numeral base n) ++ ws') = n.
Proof.
  intros H1 H2 Hn Hp.
  assert (Hb : 2 <= base <= 16).
  { rewrite !elem_of_cons, elem_of_nil in Hp.
    destruct Hp as [Hp|[Hp|[Hp|[Hp|[]]]]]; injection Hp as -> ->; lia. }
  destruct (numeral_lower base n Hb Hn) as [_ Hc].
  assert (Hns := digit_chars_no_space base _ (proj2 Hb) Hc).
  unfold vscp_readStringValue. rewrite readStringValue_trim; [|assumption..|].
  2:{ unfold vscp_makeLower in *. rewrite map_app. apply Forall_app. split; [|exact Hns].
      rewrite !elem_of_cons, elem_of_nil in Hp.
      destruct Hp as [Hp|[Hp|[Hp|[Hp|[]]]]]; injection Hp as -> ->; repeat constructor. }
  unfold vscp_makeLower in *. rewrite map_app. cbv zeta.
  assert (E := stoll_numeral base n Hb Hn). unfold vscp_makeLower in E.
  rewrite !elem_of_cons, elem_of_nil in Hp.
  destruct Hp as [Hp|[Hp|[Hp|[Hp|[]]]]]; injection Hp as -> ->.
  1,2: rewrite (find_here (str "0x")) by reflexivity; cbn [map str app drop] in *;
    rewrite drop_app_length' by reflexivity; rewrite E; reflexivity.
  - assert (F : find (str "0x") (map tolower (str "0o") ++ map tolower (numeral 8 n)) = None).
    { apply (find_none _ _ 120); [right; left|]. rewrite elem_of_app. intros [H|H].
      - change (map tolower (str "0o")) with [48; 111] in H.
        rewrite !elem_of_cons, elem_of_nil in H. intuition discriminate.
      - exact (digit_chars_not_in 8 _ 120 Hc ltac:(lia) H). }
    rewrite F, (find_here (str "0o")) by reflexivity.
    rewrite drop_app_length' by reflexivity. rewrite E. reflexivity.
  - assert (F : forall x, x = 120 \/ x = 111 ->
        find [48; x] (map tolower (str "0b") ++ map tolower (numeral 2 n)) = None).
    { intros x Hx. apply (find_none _ _ x); [right; left|]. rewrite elem_of_app. intros [H|H].
      - change (map tolower (str "0b")) with [48; 98] in H.
        rewrite !elem_of_cons, elem_of_nil in H. destruct Hx as [-> | ->]; intuition discriminate.
      - exact (digit_chars_not_in 2 _ x Hc ltac:(lia) H). }
    rewrite (F 120 (or_introl eq_refl) : find (str "0x") _ = None).
    rewrite (F 111 (or_intror eq_refl) : find (str "0o") _ = None).
    rewrite (find_here (str "0b")) by reflexivity.
    rewrite drop_app_length' by reflexivity. rewrite E. reflexivity.
Qed.

Lemma digits_fuel f k base n :
  1 < base -> 0 <= n < base ^ Z.of_nat f -> (0 < f)%nat ->
  digits (f + k) base n = digits f base n.
Proof.
  intros Hb. revert n. induction f as [|f IH]; intros n Hn Hf; [lia|].
  cbn [Nat.add digits]. destruct (Z.ltb_spec n base); [reflexivity|].
  rewrite Nat2Z.inj_succ, Z.pow_succ_r in Hn by lia.
  rewrite IH; [reflexivity| |].
  - split; [apply Z.div_pos; lia|]. apply Z.div_lt_upper_bound; lia.
  - destruct f; [|lia]. change (Z.of_nat 0) with 0 in Hn. rewrite Z.pow_0_r in Hn. lia.
Qed.

Lemma dec_numeral n : 0 <= n < 2 ^ 64 -> dec n = numeral 10 n.
Proof.
  intros Hn. rewrite dec_eq by lia. unfold dec_digits, numeral.
  change 64%nat with (20 + 44)%nat.
  rewrite (digits_fuel 20 44 10 n); [reflexivity|lia| |lia].
  change (2 ^ 64) with 18446744073709551616 in Hn.
  change (10 ^ Z.of_nat 20) with 100000000000000000000. lia.
Qed.

Lemma dec_no_space n : 0 <= n < 2 ^ 64 -> no_space (dec n).
Proof.
  intros Hn. rewrite dec_eq by lia. destruct (dec_digits_spec n Hn) as [_ [_ Hd]].
  induction Hd as [|d ds Hd _ IH]; [constructor|]. cbn [map]. constructor; [|exact IH].
  apply (digit_not_space _ d), digit_value_dchar. lia.
Qed.

Lemma dec_no_char n c : 0 <= n < 2 ^ 64 -> c < 48 \/ 58 <= c -> c ∉ dec n.
Proof.
  intros Hn Hc Hin. rewrite dec_eq in Hin by lia. destruct (dec_digits_spec n Hn) as [_ [_ Hd]].
  apply list_elem_of_In, in_map_iff in Hin as (d & <- & Hx).
  rewrite List.Forall_forall in Hd. specialize (Hd d Hx).
  unfold dchar in Hc. destruct (Z.ltb_spec d 10); lia.
Qed.

Lemma dec_not_nil n : 0 <= n < 2 ^ 64 -> dec n <> [].
Proof.
  intros Hn. rewrite dec_eq by lia. destruct (dec_digits_spec n Hn) as [_ [Hd _]].
  destruct (dec_digits n); [congruence|discriminate].
Qed.

Lemma readStringValue_number n : 0 <= n < 2 ^ 63 -> vscp_readStringValue (dec n) = n.
Proof.
  intros Hn. rewrite dec_numeral by lia.
  rewrite <- (app_nil_l (numeral 10 n)), <- (app_nil_r (numeral 10 n)).
  apply readStringValue_dec; [constructor|constructor|exact Hn].
Qed.

(** *** The tokens of data bytes *)

(** A token: reads as the byte, without comma, whatever white space is put
    around it. *)
Definition token_check (fmt : Z -> list Z) (b : Z) : bool :=
  (vscp_readStringValue (fmt b) =? b)
  && forallb (fun c => negb (c =? 44)) (fmt b)
  && forallb (fun c => negb (isspace c)) (vscp_makeLower (fmt b))
  && negb (length (fmt b) =? 0)%nat.

Lemma token_checked :
  all_below 256 (token_check hex_data) = true /\ all_below 256 (token_check dec) = true.
Proof. split; vm_compute; reflexivity. Qed.

Definition token_ok (t : list Z) (b : Z) : Prop :=
  vscp_readStringValue t = b /\ (44 ∉ t) /\ t <> [].

Lemma token_check_ok fmt b ws ws' :
  token_check fmt b = true -> all_space ws -> all_space ws' -> 44 ∉ ws -> 44 ∉ ws' ->
  token_ok (ws ++ fmt b ++ ws') b.
Proof.
  unfold token_check. intros H W1 W2 N1 N2.
  apply andb_prop in H as [H H4]. apply andb_prop in H as [H H3].
  apply andb_prop in H as [H1 H2]. apply Z.eqb_eq in H1.
  assert (Hns : no_space (vscp_makeLower (fmt b))).
  { apply List.Forall_forall. intros c Hc.
    assert (G := proj1 (forallb_forall _ _) H3 c Hc). apply negb_true_iff, G. }
  split; [|split].
  - unfold vscp_readStringValue in *. rewrite readStringValue_trim by assumption.
    rewrite trim_id in H1 by assumption. exact H1.
  - rewrite !elem_of_app. intros [H|[H|H]]; [tauto| |tauto].
    apply list_elem_of_In in H.
    assert (G := proj1 (forallb_forall _ _) H2 44 H). discriminate G.
  - destruct (fmt b); [discriminate H4|]. destruct ws; discriminate.
Qed.

Lemma token_fmt fmt b ws ws' :
  fmt = hex_data \/ fmt = dec -> is_u8 b ->
  all_space ws -> all_space ws' -> 44 ∉ ws -> 44 ∉ ws' -> token_ok (ws ++ fmt b ++ ws') b.
Proof.
  intros Hf Hb. apply token_check_ok. destruct token_checked as [T1 T2].
  destruct Hf as [-> | ->]; [apply (all_below_spec 256 _ _ T1)|apply (all_below_spec 256 _ _ T2)];
  width.
Qed.

(** The writer's output is a list of tokens joined by commas: the line break
    after a comma belongs to the next token. *)
Definition line_break (brk : option (list Z)) (i : nat) : list Z :=
  match brk with
  | Some br => if (i mod 8 =? 0)%nat then br else []
  | None => []
  end.

Fixpoint data_texts (fmt : Z -> list Z) (brk : option (list Z)) (i : nat) (pre : list Z)
    (data : list Z) : list (list Z) :=
  match data with
  | [] => []
  | [b] => [pre ++ fmt b ++ line_break brk (S i)]
  | b :: data' => (pre ++ fmt b) :: data_texts fmt brk (S i) (line_break brk (S i)) data'
  end.

Lemma write_data_join fmt brk data i pre last :
  data <> [] -> last = (i + pred (length data))%nat ->
  pre ++ write_data fmt brk last i data = join 44 (data_texts fmt brk i pre data).
Proof.
  revert i pre. induction data as [|b data IH]; intros i pre Hne Hl; [congruence|].
  cbn [write_data]. fold (line_break brk (S i)).
  destruct data as [|b' data].
  - cbn [length pred] in Hl. destruct (Nat.ltb_spec i last); [lia|].
    cbn [write_data app data_texts join]. rewrite app_nil_r. reflexivity.
  - cbn [length pred] in Hl. destruct (Nat.ltb_spec i last); [|lia].
    change (data_texts fmt brk i pre (b :: b' :: data))
      with ((pre ++ fmt b) :: data_texts fmt brk (S i) (line_break brk (S i)) (b' :: data)).
    assert (E : exists t ts, data_texts fmt brk (S i) (line_break brk (S i)) (b' :: data) = t :: ts)
      by (destruct data; eexists _, _; reflexivity).
    destruct E as (t & ts & E). rewrite E, join_cons, <- E.
    rewrite <- IH by (discriminate || (cbn [length pred]; lia)).
    rewrite <- app_assoc. reflexivity.
Qed.

(** The breaks that vscp_readStringValue trims away. *)
Definition break_ok (brk : option (list Z)) : Prop :=
  match brk with Some br => all_space br /\ 44 ∉ br | None => True end.

Lemma line_break_ok brk i :
  break_ok brk -> all_space (line_break brk i) /\ 44 ∉ line_break brk i.
Proof.
  assert (N : all_space [] /\ 44 ∉ ([] : list Z)) by (split; [constructor|apply not_elem_of_nil]).
  unfold break_ok, line_break. destruct brk as [br|]; [|auto].
  destruct (i mod 8 =? 0)%nat; auto.
Qed.

Lemma data_texts_ok fmt brk i pre data :
  fmt = hex_data \/ fmt = dec -> break_ok brk -> bytes_ok data ->
  all_space pre -> 44 ∉ pre ->
  Forall2 token_ok (data_texts fmt brk i pre data) data.
Proof.
  intros Hf Hb H. revert i pre.
  induction H as [|b data Hb' Hd IH]; intros i pre Hp Np; [constructor|].
  destruct (line_break_ok brk (S i) Hb) as [L1 L2].
  destruct data as [|b' data].
  - repeat constructor; apply token_fmt; assumption.
  - change (data_texts fmt brk i pre (b :: b' :: data))
      with ((pre ++ fmt b) :: data_texts fmt brk (S i) (line_break brk (S i)) (b' :: data)).
    constructor; [|apply IH; assumption].
    rewrite <- (app_nil_r (fmt b)). apply token_fmt; auto; [constructor|apply not_elem_of_nil].
Qed.

Lemma tokens_values ts data :
  Forall2 token_ok ts data -> bytes_ok data -> map (fun t => u8 (vscp_readStringValue t)) ts = data.
Proof.
  induction 1 as [|t b ts data [E _] _ IH]; intros Hd; [reflexivity|].
  inversion Hd; subst. cbn [map]. rewrite IH by assumption. rewrite u8_id by assumption. reflexivity.
Qed.

Lemma tokens_no_comma ts data : Forall2 token_ok ts data -> Forall (fun t => 44 ∉ t) ts.
Proof. induction 1 as [|t b ts data (_ & N & _) _ IH]; constructor; assumption. Qed.

Lemma data_tokens_written fmt brk data :
  fmt = hex_data \/ fmt = dec -> break_ok brk -> bytes_ok data ->
  (length data <= 512)%nat ->
  data_tokens (write_data fmt brk (pred (length data)) 0 data) = data.
Proof.
  intros Hf Hb Hd Hl. destruct (list_eq_dec Z.eq_dec data []) as [->|Hne]; [reflexivity|].
  assert (T := data_texts_ok fmt brk 0 [] data Hf Hb Hd ltac:(constructor)
                 (not_elem_of_nil (44 : Z))).
  assert (J := write_data_join fmt brk data 0 [] (pred (length data)) Hne eq_refl).
  cbn [app] in J. unfold data_tokens. rewrite J, split_join.
  - rewrite take_ge; [apply tokens_values; assumption|].
    rewrite (Forall2_length T). exact Hl.
  - apply (tokens_no_comma _ data T).
  - destruct T as [|t b ts data' (_ & _ & Nt) T']; [congruence|].
    destruct ts; [exact Nt|]. rewrite join_cons. destruct t; discriminate.
Qed.

(** *** Hex strings *)

Definition hex_byte_check (b : Z) : bool :=
  match readHexChar (dchar_lower (Z.shiftr b 4)), readHexChar (dchar_lower (Z.land b 0x0f)) with
  | Some h, Some l => (u8 (u8 (Z.shiftl h 4) + l) =? b)
  | _, _ => false
  end
  && negb (dchar_lower (Z.shiftr b 4) =? 0) && negb (dchar_lower (Z.land b 0x0f) =? 0)
  && negb (dchar_lower (Z.shiftr b 4) =? 59) && negb (dchar_lower (Z.land b 0x0f) =? 59).

Lemma hex_byte_checked : all_below 256 hex_byte_check = true.
Proof. vm_compute. reflexivity. Qed.

Lemma hex_byte_spec b :
  is_u8 b ->
  exists x y h l, dchar_lower (Z.shiftr b 4) = x /\ dchar_lower (Z.land b 0x0f) = y
    /\ readHexChar x = Some h /\ readHexChar y = Some l
    /\ u8 (u8 (Z.shiftl h 4) + l) = b /\ x <> 0 /\ y <> 0 /\ x <> 59 /\ y <> 59.
Proof.
  intros Hb. assert (T := all_below_spec 256 _ b hex_byte_checked ltac:(width)).
  unfold hex_byte_check in T.
  set (x := dchar_lower (Z.shiftr b 4)) in *. set (y := dchar_lower (Z.land b 0x0f)) in *.
  apply andb_prop in T as [T T4]. apply andb_prop in T as [T T3].
  apply andb_prop in T as [T T2]. apply andb_prop in T as [T T1].
  rewrite negb_true_iff, Z.eqb_neq in T1, T2, T3, T4.
  destruct (readHexChar x) as [h|] eqn:E1; [|discriminate].
  destruct (readHexChar y) as [l|] eqn:E2; [|discriminate].
  exists x, y, h, l. apply Z.eqb_eq in T. auto 10.
Qed.

Lemma byteArray2HexStr_cons b p :
  vscp_byteArray2HexStr (b :: p)
  = dchar_lower (Z.shiftr b 4) :: dchar_lower (Z.land b 0x0f) :: vscp_byteArray2HexStr p.
Proof. reflexivity. Qed.

Lemma hex_c_str p : bytes_ok p -> c_str (vscp_byteArray2HexStr p) = vscp_byteArray2HexStr p.
Proof.
  induction 1 as [|b p Hb _ IH]; [reflexivity|]. rewrite byteArray2HexStr_cons.
  destruct (hex_byte_spec b Hb) as (x & y & h & l & -> & -> & _ & _ & _ & Hx & Hy & _).
  cbn [c_str]. rewrite (proj2 (Z.eqb_neq x 0) Hx), (proj2 (Z.eqb_neq y 0) Hy), IH.
  reflexivity.
Qed.

Lemma hex_no_semicolon p : bytes_ok p -> 59 ∉ vscp_byteArray2HexStr p.
Proof.
  induction 1 as [|b p Hb _ IH]; [apply not_elem_of_nil|]. rewrite byteArray2HexStr_cons.
  destruct (hex_byte_spec b Hb) as (x & y & h & l & -> & -> & _ & _ & _ & _ & _ & Hx & Hy).
  rewrite !elem_of_cons. intros [E|[E|E]]; [congruence|congruence|exact (IH E)].
Qed.

Lemma hexstr_loop_hex p size :
  bytes_ok p -> hexstr_loop size (vscp_byteArray2HexStr p) = Some (take size p).
Proof.
  intros H. revert size. induction H as [|b p Hb _ IH]; intros [|size]; try reflexivity.
  rewrite byteArray2HexStr_cons.
  destruct (hex_byte_spec b Hb) as (x & y & h & l & -> & -> & Ex & Ey & E & _).
  cbn [hexstr_loop take]. rewrite Ex, Ey, IH. cbn [mbind option_bind]. rewrite E. reflexivity.
Qed.

Lemma hexStr2ByteArray_hex p size :
  bytes_ok p -> vscp_hexStr2ByteArray size (vscp_byteArray2HexStr p) = Some (take size p).
Proof. intros H. unfold vscp_hexStr2ByteArray. rewrite hex_c_str by exact H. apply hexstr_loop_hex, H. Qed.

(** ** Properties *)

(** Vscp_readStringValue reads what people and the writers of this library
    put in configuration and event strings: a decimal number, or a
    hexadecimal, octal or binary one with its prefix, letters in either case,
    with any white space around it, up to 2^63 - 1. *)
Theorem readStringValue_formats (ws ws' : list Z) (n : Z) :
  all_space ws -> all_space ws' -> 0 <= n < 2 ^ 63 ->
  vscp_readStringValue (ws ++ dec n ++ ws') = n
  /\ vscp_readStringValue (ws ++ (str "0x" ++ numeral 16 n) ++ ws') = n
  /\ vscp_readStringValue (ws ++ (str "0X" ++ numeral 16 n) ++ ws') = n
  /\ vscp_readStringValue (ws ++ (str "0o" ++ numeral 8 n) ++ ws') = n
  /\ vscp_readStringValue (ws ++ (str "0b" ++ numeral 2 n) ++ ws') = n.
Proof.
  intros H1 H2 Hn. split.
  - rewrite dec_numeral by lia. apply readStringValue_dec; assumption.
  - split_and!; apply readStringValue_prefixed; try assumption;
      rewrite !elem_of_cons; tauto.
Qed.

Lemma readStringValue_formats_witness :
  vscp_readStringValue (str " " ++ dec 4711 ++ []) = 4711
  /\ vscp_readStringValue (str " " ++ (str "0x" ++ numeral 16 4711) ++ []) = 4711.
Proof.
  destruct (readStringValue_formats (str " ") [] 4711) as (H1 & H2 & _);
    [repeat constructor|constructor|lia|]. exact (conj H1 H2).
Defined.

(** Writing the data of a well-formed event as text, in hexadecimal or
    decimal, with line breaks (CR LF) after every eighth byte or without, and
    setting the data of an event from that text gives the data back, for up to
    512 bytes. *)
Theorem data_text_roundtrip (e e0 : vscpEvent) (brk dcml : bool) :
  event_ok e -> 0 < sizeData e <= VSCP_MAX_DATA ->
  exists s, vscp_writeDataWithSizeToString (pdata e) (sizeData e) false brk dcml
            = Some (Some s)
    /\ vscp_setEventDataFromString (Some e0) s
       = (true, Some (set_pdata (sizeData e) (pdata e) e0)).
Proof.
  intros He [Hs1 Hs2]. unfold VSCP_MAX_DATA in Hs2.
  assert (Hd := edata_ok e He). destruct (pdata e) as [l|] eqn:E; cbn [data_ok] in Hd; [|lia].
  destruct Hd as (_ & Hl & Hb). unfold vscp_writeDataWithSizeToString.
  rewrite rdn_self by exact Hl. cbn [mbind option_bind].
  eexists. split; [reflexivity|].
  assert (T : data_tokens (write_data (if dcml then dec else hex_data)
                (if brk then Some (str_break false) else None) (pred (length l)) 0 l) = l).
  { apply data_tokens_written; [destruct dcml; auto| |exact Hb|lia].
    destruct brk; [|exact I]. split; [repeat constructor|].
    change (str_break false) with [13; 10]. rewrite !elem_of_cons, elem_of_nil. intuition discriminate. }
  unfold vscp_setEventDataFromString. rewrite T, Hl.
  destruct (Nat.ltb_spec 0 (length l)); [reflexivity|lia].
Qed.

Lemma data_text_roundtrip_witness :
  exists s, vscp_writeDataWithSizeToString (pdata sample_event) 4 false true false
            = Some (Some s)
    /\ vscp_setEventDataFromString (Some sample_event) s = (true, Some sample_event).
Proof.
  apply (data_text_roundtrip sample_event sample_event true false);
    [apply sample_event_ok|unfold VSCP_MAX_DATA; cbn; lia].
Defined.

(** A byte array written by vscp_byteArray2HexStr is read back by
    vscp_hexStr2ByteArray (up to the size of the target), and a stored password
    made of the hex salt and the hex hash separated by a semicolon is taken
    apart into the two arrays. *)
Theorem hex_string_roundtrip (p q : list Z) (size : nat) :
  bytes_ok p -> bytes_ok q ->
  vscp_hexStr2ByteArray size (vscp_byteArray2HexStr p) = Some (take size p)
  /\ (p <> [] -> vscp_getHashPasswordComponents
        (vscp_byteArray2HexStr p ++ str ";" ++ vscp_byteArray2HexStr q)
      = Some (Some (take 16 p, take 32 q))).
Proof.
  intros Hp Hq. split; [apply hexStr2ByteArray_hex, Hp|]. intros Hne.
  assert (J := split_join 59 [vscp_byteArray2HexStr p; vscp_byteArray2HexStr q]).
  cbn [join] in J. unfold vscp_getHashPasswordComponents.
  change (str ";" ++ vscp_byteArray2HexStr q) with (59 :: vscp_byteArray2HexStr q).
  change (str ";") with [59]. rewrite J.
  - rewrite !hexStr2ByteArray_hex by assumption. reflexivity.
  - repeat constructor; apply hex_no_semicolon; assumption.
  - destruct p; [congruence|]. rewrite byteArray2HexStr_cons. discriminate.
Qed.

Lemma hex_string_roundtrip_witness :
  vscp_hexStr2ByteArray 2 (vscp_byteArray2HexStr [0xab; 0x01]) = Some [0xab; 0x01].
Proof.
  apply (hex_string_roundtrip [0xab; 0x01] [] 2); repeat constructor; width.
Defined.
