(* ===== verification/CText.v ===== *)
(** * C strings and addresses: vscphelper.cpp

    The functions on zero-terminated strings, and those that read addresses and
    networks.  A string is its characters without the zero, except where a buffer
    is written; inet_pton is a parameter.  Characters from 128 on are negative. *)

From S2P Require Import Prelude Strings.

(** ** Comparison, copying and searching *)

(** [*s]. *)
Definition first (s : list Z) : Z := hd 0 s.

Fixpoint vscp_strncasecmp (s1 s2 : list Z) (len : nat) {struct len} : Z :=
  match len with
  | O => 0
  | S len =>
      let diff := tolower (first s1) - tolower (first s2) in
      match s1 with
      | _ :: s1 => if diff =? 0 then vscp_strncasecmp s1 (tail s2) len else diff
      | [] => diff
      end
  end.

(** What is copied before the zero. *)
Fixpoint strlcpy_text (src : list Z) (n : nat) : list Z :=
  match src, n with
  | c :: src, S (S _ as n) => c :: strlcpy_text src n
  | _, _ => []
  end.
Definition vscp_strlcpy (dst src : list Z) (n : nat) : option (list Z) := wr dst 0 (strlcpy_text src n ++ [0]).

(** [fresh] is what the allocated memory holds. *)
Definition vscp_strndup (fresh ptr : list Z) (len : nat) : option (list Z) := vscp_strlcpy (take (len + 1) (fresh ++ replicate (len + 1) 0)) ptr (len + 1).
Definition vscp_strdup (fresh str : list Z) : option (list Z) := vscp_strndup fresh str (length str).

(** Places instead of pointers. *)
Definition vscp_strcasestr (big_str small_str : list Z) : option nat :=
  let big_len := length big_str in let small_len := length small_str in
  if (small_len <=? big_len)%nat
  then List.find (fun i => vscp_strncasecmp (drop i big_str) small_str small_len =? 0) (seq 0 (big_len - small_len + 1))
  else None.

Fixpoint stristr_loop (p1 : list Z) (i : nat) (p2 str2 : list Z) (r : option nat) : option nat :=
  match p1, p2 with
  | c1 :: p1, c2 :: p2' =>
      if tolower c1 =? tolower c2 then stristr_loop p1 (S i) p2' str2 (match r with None => Some i | Some _ => r end)
      else if tolower c1 =? tolower (first str2) then stristr_loop p1 (S i) (tail str2) str2 (Some i)
      else stristr_loop p1 (S i) str2 str2 None
  | _, [] => r
  | [], _ :: _ => None
  end.
Definition vscp_stristr (str1 str2 : list Z) : option nat :=
  stristr_loop str1 0 str2 str2 (match str2 with [] => Some O | _ => None end).

(** The first character is kept by the loop from the end. *)
Definition vscp_trimWhiteSpace (str : list Z) : list Z :=
  match skip_spaces str with
  | [] => []
  | c :: s => c :: rev (skip_spaces (rev s))
  end.

Definition vscp_reverse (s : option (list Z)) : option (list Z) :=
  s ← s; Some (map (fun i => nth (length s - i - 1) s 0) (seq 0 (length s)) ++ [0]).

Definition vscp_rstrstr (s1 s2 : list Z) : option nat :=
  if (length s1 <? length s2)%nat then None
  else List.find (fun i => starts_with s2 (drop i s1)) (rev (seq 0 (length s1 - length s2 + 1))).

Definition hex_lower (n : Z) : list Z := map dchar_lower (digits 16 16 n).

(** A negative character is printed as an unsigned int. *)
Definition safe_char (c : Z) : list Z :=
  if c =? 92 then [92]
  else if c =? 34 then [34]
  else if c <? 32 then str "\x" ++ hex_lower c
  else if 128 <=? c then str "\x" ++ hex_lower (u32 (c - 256))
  else [c].
Definition vscp_safe_encode_str (str : list Z) : list Z := flat_map safe_char str.

Fixpoint replace_loop (fuel : nat) (str : list Z) : option (list Z) :=
  match fuel with
  | O => None
  | S fuel => match find [92] str with Some pos => replace_loop fuel (<[pos := 47]> str) | None => Some str end
  end.
Definition vscp_replaceBackslash (str : list Z) : option (list Z) := replace_loop (S (length str)) str.

(** ** Addresses *)

Definition vscp_getPortFromInterface (iface : list Z) : Z :=
  let str := vscp_trim iface in
  atoi (match rfind [58] str with Some pos => drop (pos + 1) str | None => str end).

Definition vscp_getHostFromInterface (iface : list Z) : list Z :=
  let s := vscp_trim iface in
  let s := match find (str "://") s with Some pos => drop (pos + 3) s | None => s end in
  match find [58] s with Some pos => take pos s | None => s end.

(** %d and %u: no result outside of the type; [Some None] is no conversion. *)
Definition scan_int (s : list Z) : option (option (Z * list Z)) :=
  match strtol 10 s with
  | Some (v, rest) => if (- 2 ^ 31 <=? v) && (v <? 2 ^ 31) then Some (Some (v, rest)) else None
  | None => Some None
  end.
Definition scan_unsigned (s : list Z) : option (option (Z * list Z)) :=
  match strtol 10 s with
  | Some (v, rest) => if (0 <=? v) && (v <? 2 ^ 32) then Some (Some (v, rest)) else None
  | None => Some None
  end.

Definition in_front (v : Z) (r : option (list Z * list Z)) : option (list Z * list Z) :=
  match r with Some (vs, s) => Some (v :: vs, s) | None => None end.

(** Numbers with the characters [seps] between them: [None] inside when one of them
    is not there. *)
Fixpoint scan_more (scan : list Z -> option (option (Z * list Z))) (seps s : list Z) : option (option (list Z * list Z)) :=
  match seps with
  | [] => Some (Some ([], s))
  | sep :: seps =>
      match s with
      | ch :: s =>
          if ch =? sep then
            r ← scan s;
            match r with
            | Some (v, s) => r ← scan_more scan seps s; Some (in_front v r)
            | None => Some None
            end
          else Some None
      | [] => Some None
      end
  end.
Definition scan_numbers (scan : list Z -> option (option (Z * list Z))) (seps s : list Z) : option (option (list Z * list Z)) :=
  r ← scan s;
  match r with
  | Some (v, s) => r ← scan_more scan seps s; Some (in_front v r)
  | None => Some None
  end.

Definition isbyte (n : Z) : bool := (0 <=? n) && (n <=? 255).

Definition ipv4_number (a b c d : Z) : Z := Z.lor (Z.lor (Z.lor (u32 (Z.shiftl a 24)) (u32 (Z.shiftl b 16))) (u32 (Z.shiftl c 8))) (u32 d).
Definition ipv4_mask (slash : Z) : Z := if slash =? 0 then 0 else u32 (Z.shiftl 0xffffffff (32 - slash)).

(** The four numbers, the number behind the slash or 32, and how much was read. *)
Definition scan_network (scan : list Z -> option (option (Z * list Z))) (addr : list Z) : option (option (Z * Z * Z * Z * Z * nat)) :=
  r ← scan_numbers scan [46; 46; 46; 47] addr;
  match r with
  | Some ([a; b; c; d; slash], rest) => Some (Some (a, b, c, d, slash, (length addr - length rest)%nat))
  | _ =>
      r ← scan_numbers scan [46; 46; 46] addr;
      Some (match r with Some ([a; b; c; d], rest) => Some (a, b, c, d, 32, (length addr - length rest)%nat) | _ => None end)
  end.

(** The length that was read, or 0; [net] and [mask]. *)
Definition vscp_parse_ipv4_addr (addr : list Z) (net mask : Z) : option (Z * Z * Z) :=
  r ← scan_network scan_int addr;
  Some (match r with
        | Some (a, b, c, d, slash, n) =>
            if isbyte a && isbyte b && isbyte c && isbyte d && (0 <=? slash) && (slash <? 33)
            then (Z.of_nat n, ipv4_number a b c d, ipv4_mask slash) else (0, net, mask)
        | None => (0, net, mask)
        end).

(** union usa: the address in host order, or the bytes of an IPv6 address. *)
Inductive usa := Inet (ip : Z) | Inet6 (ip6 : list Z) | OtherFamily.

Definition isxdigit (c : Z) : bool := is_digit 16 c.

(** "[%49[^]]]", and "/%u": the text between the brackets and the rest. *)
Definition scan_bracket (addr : list Z) : option (list Z * list Z) :=
  match addr with
  | 91 :: s =>
      let ad := take 49 (match find [93] s with Some k => take k s | None => s end) in
      match ad, drop (length ad) s with
      | _ :: _, 93 :: rest => Some (ad, rest)
      | _, _ => None
      end
  | _ => None
  end.
Definition scan_slash (s : list Z) : option (option (Z * list Z)) :=
  match s with 47 :: s => scan_unsigned s | _ => Some None end.

(** The text of an IPv6 address, the bits of the network and how much was read. *)
Definition scan_ipv6 (addr : list Z) (no_strict : bool) : option (list Z * Z * Z) :=
  let all := Z.of_nat (length addr) in
  bracket ← match scan_bracket addr with
    | Some (ad, rest) =>
        r ← scan_slash rest;
        Some (match r with
              | Some (slash, rest) => Some (ad, slash, all - Z.of_nat (length rest))
              | None => Some (ad, 128, all - Z.of_nat (length rest))
              end)
    | None => Some None
    end;
  match bracket with
  | Some r => Some r
  | None =>
      if no_strict then
        match find [47] addr with
        | Some k =>
            if (k <? 50)%nat then
              r ← scan_slash (drop k addr);
              Some (match r with Some (slash, rest) => (take k addr, slash, all - Z.of_nat (length rest)) | None => ([], 128, 0) end)
            else Some ([], 128, 0)
        | None => Some (if (length addr <? 50)%nat then (addr, 128, all) else ([], 128, 0))
        end
      else Some ([], 128, 0)
  end.

Definition ipv6_mask (slash : Z) (i : nat) : Z :=
  let i := Z.of_nat i in
  if 8 * i + 8 <? slash then 0xff else if 8 * i <? slash then u8 (Z.shiftl 0xff (8 * i + 8 - slash)) else 0.

Section Inet.
Context (inet_pton4 inet_pton6 : list Z -> option (list Z)).

Definition ipv6_match (ad : list Z) (slash : Z) (sa : usa) : Z :=
  if forallb (fun ch => isxdigit ch || (ch =? 46) || (ch =? 58)) ad && (2 <=? length (List.filter (fun ch => (ch =? 58)%Z) ad))%nat then
    match sa with
    | Inet6 ip6 =>
        match inet_pton6 ad with
        | Some net => if forallb (fun i => Z.land (nth i ip6 0) (ipv6_mask slash i) =? nth i net 0) (seq 0 16) then 1 else 0
        | None => -1
        end
    | _ => 0
    end
  else -1.

(** -1 for a malformed network. *)
Definition vscp_parse_match_net (addr : list Z) (sa : usa) (no_strict : bool) : option Z :=
  r ← scan_network scan_unsigned addr;
  match r with
  | Some (a, b, c, d, slash, n) =>
      if (n =? length addr)%nat then
        if (a <? 256) && (b <? 256) && (c <? 256) && (d <? 256) && (slash <? 33) then
          Some (match sa with
                | Inet ip => if Z.land ip (ipv4_mask slash) =? ipv4_number a b c d then 1 else 0
                | _ => 0
                end)
        else Some (-1)
      else
        '(ad, slash, n) ← scan_ipv6 addr no_strict;
        Some (if (0 <? n) && (n =? Z.of_nat (length addr)) && (slash <? 129) then ipv6_match ad slash sa else -1)
  | None =>
      '(ad, slash, n) ← scan_ipv6 addr no_strict;
      Some (if (0 <? n) && (n =? Z.of_nat (length addr)) && (slash <? 129) then ipv6_match ad slash sa else -1)
  end.

(** The union holds the bytes of an IPv6 address, or an IPv4 address in host order. *)
Record ip_address_t := IpAddress { address : list Z; family : Z; port : Z }.
Definition AF_INET : Z := 2.
Definition AF_INET6 : Z := 10.

Definition parse_ipv4_address (input : list Z) (result : ip_address_t) : bool * ip_address_t :=
  match inet_pton4 input with
  | Some bs => (true, IpAddress (rev bs ++ drop 4 (address result)) AF_INET 0)
  | None => (false, result)
  end.
Definition parse_ipv6_address (input : list Z) (result : ip_address_t) : bool * ip_address_t :=
  match inet_pton6 input with
  | Some bs => (true, IpAddress bs AF_INET6 0)
  | None => (false, result)
  end.

Definition parse_port_number (s : list Z) : Z :=
  match strtol 10 s with
  | Some (v, []) =>
      let port := if Z.abs v <? 2 ^ 64 then u64 v else 2 ^ 64 - 1 in
      if (0 <? port) && (port <=? 65535) then port else 0
  | _ => 0
  end.

Definition set_port (p : Z) (r : ip_address_t) : ip_address_t := IpAddress (address r) (family r) p.

(** The address in front of the last colon. *)
Definition parse_host (input : list Z) (index : nat) (result : ip_address_t) : bool * ip_address_t :=
  if (nth (index - 1) input 0 =? 93) && (first input =? 91)
  then parse_ipv6_address (take (index - 2) (drop 1 input)) result
  else parse_ipv4_address (take index input) result.

Definition parse_address (input : list Z) (result : ip_address_t) : bool * ip_address_t :=
  let whole r := let '(ok, r) := parse_ipv6_address input r in if ok : bool then (true, r) else parse_ipv4_address input r in
  match rfind [58] input with
  | Some (S _ as index) =>
      let port := parse_port_number (drop (index + 1) input) in
      if 0 <? port then let '(ok, r) := parse_host input index result in if ok : bool then (true, set_port port r) else whole r
      else whole result
  | _ => whole result
  end.

End Inet.

(** ** Searching *)

Lemma tolower_zero c : 0 < c -> tolower c <> 0.
Proof. unfold tolower. destruct ((65 <=? c) && (c <=? 90)) eqn:E; lia. Qed.

Definition text_ok (s : list Z) : Prop := Forall (fun c => 0 < c) s.

(** Equal characters but for case, for as many as the second text has. *)
Lemma strncasecmp_prefix s1 s2 : text_ok s1 -> text_ok s2 ->
  (vscp_strncasecmp s1 s2 (length s2) =? 0) = starts_with (map tolower s2) (map tolower s1).
Proof.
  intros H1 H2. revert s1 H1. induction H2 as [|c s2 Hc _ IH]; intros s1 H1; [reflexivity|].
  cbn [length vscp_strncasecmp first hd]. destruct H1 as [|d s1 Hd H1].
  - cbn [first hd map starts_with]. change (tolower 0) with 0. apply Z.eqb_neq. assert (T := tolower_zero c Hc). lia.
  - cbn [first hd map starts_with tail]. rewrite (Z.eqb_sym (tolower c)). destruct (Z.eqb_spec (tolower d) (tolower c)) as [E|E].
    + rewrite E, Z.sub_diag. change (0 =? 0) with true. cbv iota. apply IH, H1.
    + assert (N : (tolower d - tolower c =? 0) = false) by (apply Z.eqb_neq; lia). rewrite N. exact N.
Qed.

Lemma starts_with_short p s : (length s < length p)%nat -> starts_with p s = false.
Proof. intros H. destruct (starts_with p s) eqn:E; [apply starts_with_length in E; lia|reflexivity]. Qed.

Lemma find_short p s : (length s < length p)%nat -> find p s = None.
Proof.
  induction s as [|b s IH]; intros H; cbn [find]; rewrite starts_with_short by exact H; [reflexivity|]. rewrite IH by (cbn [length] in H; lia). reflexivity.
Qed.

(** std::string::find looks at the places one after the other. *)
Lemma find_places p s n : (length p <= length s)%nat -> n = (length s - length p + 1)%nat ->
  List.find (fun i => starts_with p (drop i s)) (seq 0 n) = find p s.
Proof.
  intros H ->. induction s as [|b s IH]; [destruct p; [reflexivity|cbn [length] in H; lia]|]. cbn [find].
  replace (length (b :: s) - length p + 1)%nat with (S (length (b :: s) - length p)) by lia. cbn [seq List.find drop].
  destruct (starts_with p (b :: s)) eqn:E; [reflexivity|]. destruct (decide (length p <= length s)%nat) as [L|L].
  - rewrite <- IH by exact L. cbn [length]. replace (S (length s) - length p)%nat with (length s - length p + 1)%nat by lia. clear.
    rewrite <- seq_shift. induction (seq 0 (length s - length p + 1)) as [|i l IHl]; [reflexivity|]. cbn [map List.find drop].
    destruct (starts_with p (drop i s)); [reflexivity|exact IHl].
  - rewrite find_short by lia. cbn [length]. replace (S (length s) - length p)%nat with 0%nat by (cbn [length] in H; lia). reflexivity.
Qed.

(** vscp_strcasestr gives the first place of the text when case does not count. *)
Theorem strcasestr_first big_str small_str : text_ok big_str -> text_ok small_str ->
  vscp_strcasestr big_str small_str = find (map tolower small_str) (map tolower big_str).
Proof.
  intros Hb Hs. unfold vscp_strcasestr. destruct (Nat.leb_spec (length small_str) (length big_str)) as [L|L].
  - rewrite <- (find_places (map tolower small_str) (map tolower big_str) _ ltac:(rewrite !length_map; exact L) eq_refl), !length_map.
    assert (E : forall l, List.find (fun i => vscp_strncasecmp (drop i big_str) small_str (length small_str) =? 0) l
      = List.find (fun i => starts_with (map tolower small_str) (drop i (map tolower big_str))) l).
    { induction l as [|i l IH]; [reflexivity|]. cbn [List.find]. rewrite List.skipn_map, <- strncasecmp_prefix by (apply Forall_drop, Hb || exact Hs). rewrite IH. reflexivity. }
    apply E.
  - symmetry. apply find_short. rewrite !length_map. exact L.
Qed.

(** vscp_trimWhiteSpace trims as vscp_trim does. *)
Theorem trimWhiteSpace_trim s : vscp_trimWhiteSpace s = vscp_trim s.
Proof.
  unfold vscp_trimWhiteSpace, vscp_trim, vscp_ltrim, vscp_rtrim. destruct (skip_spaces s) as [|c t] eqn:E; [reflexivity|].
  assert (N : isspace c = false).
  { induction s as [|b s IH]; [discriminate|]. cbn [skip_spaces] in E. destruct (isspace b) eqn:B; [exact (IH E)|]. injection E as <- <-. exact B. }
  cbn [rev]. assert (K : forall u, skip_spaces (u ++ [c]) = skip_spaces u ++ [c]).
  { induction u as [|b u IH]; cbn [app skip_spaces]; [rewrite N; reflexivity|]. destruct (isspace b); [exact IH|reflexivity]. }
  rewrite K, rev_app_distr. reflexivity.
Qed.

(** vscp_reverse. *)
Theorem reverse_rev s : vscp_reverse (Some s) = Some (rev s ++ [0]).
Proof.
  cbn [vscp_reverse mbind option_bind]. do 2 f_equal. apply (nth_ext _ _ 0 0); rewrite length_map, length_seq; [rewrite length_rev; reflexivity|].
  intros i Hi. rewrite (nth_indep _ 0 (nth (length s - 0 - 1) s 0)) by (rewrite length_map, length_seq; exact Hi).
  rewrite (map_nth (fun i => nth (length s - i - 1) s 0)), seq_nth, rev_nth by exact Hi. f_equal. lia.
Qed.

(** The loop of vscp_replaceBackslash ends, with all of them replaced. *)
Theorem replaceBackslash_all s : vscp_replaceBackslash s = Some (map (fun c => if c =? 92 then 47 else c) s).
Proof.
  unfold vscp_replaceBackslash. set (f := fun c => if c =? 92 then 47 else c).
  assert (K : forall t, 92 ∉ t -> map f t = t).
  { induction t as [|c t IH]; intros N; [reflexivity|]. apply not_elem_of_cons in N as [N1 N2]. cbn [map]. rewrite IH by exact N2. unfold f.
    destruct (Z.eqb_spec c 92); [congruence|reflexivity]. }
  assert (G : forall fuel a t, 92 ∉ a -> (length t < fuel)%nat -> replace_loop fuel (a ++ t) = Some (a ++ map f t)).
  { induction fuel as [|fuel IH]; intros a t N L; [lia|]. cbn [replace_loop]. destruct (find [92] t) as [k|] eqn:E.
    - apply find_char_split in E as [E Nk]. rewrite E. set (b := take k t) in *. set (r := drop (k + 1) t) in *. rewrite app_assoc.
      assert (Nb : 92 ∉ a ++ b) by (rewrite not_elem_of_app; auto). rewrite find_char_app by exact Nb.
      assert (I : <[length (a ++ b) := 47]> ((a ++ b) ++ 92 :: r) = ((a ++ b) ++ [47]) ++ r).
      { rewrite <- (Nat.add_0_r (length (a ++ b))) at 1. rewrite insert_app_r, <- (app_assoc (a ++ b) [47] r). reflexivity. }
      rewrite I, IH.
      + rewrite map_app, (K b Nk). cbn [map]. rewrite <- !app_assoc. reflexivity.
      + rewrite not_elem_of_app, list_elem_of_singleton. split; [exact Nb|discriminate].
      + assert (X := f_equal length E). rewrite length_app in X. cbn [length] in X. lia.
    - apply find_char_absent in E. rewrite find_char_none by (rewrite not_elem_of_app; auto). rewrite K by exact E. reflexivity. }
  apply (G _ []); [apply not_elem_of_nil|lia].
Qed.

(** vscp_strlcpy writes as much as fits before the zero, at least one character even for a
    size of 0; outside of the buffer exactly when that has no room. *)
Theorem strlcpy_bounds dst src n :
  strlcpy_text src n = take (n - 1) src
  /\ (vscp_strlcpy dst src n = None <-> (length dst < Nat.min (length src) (n - 1) + 1)%nat)
  /\ ((1 <= n)%nat -> (n <= length dst)%nat -> is_Some (vscp_strlcpy dst src n)).
Proof.
  assert (T : strlcpy_text src n = take (n - 1) src).
  { revert n. induction src as [|c src IH]; intros n; [rewrite take_nil; reflexivity|]. destruct n as [|[|n]]; [reflexivity|reflexivity|].
    cbn [strlcpy_text]. rewrite IH. replace (S (S n) - 1)%nat with (S (S n - 1)) by lia. reflexivity. }
  assert (L : length (strlcpy_text src n ++ [0]) = (Nat.min (n - 1) (length src) + 1)%nat) by (rewrite length_app, T, length_take; reflexivity).
  split; [exact T|]. unfold vscp_strlcpy, wr. rewrite L. cbn [Nat.add].
  destruct (Nat.leb_spec (Nat.min (n - 1) (length src) + 1) (length dst)); split; [split; [discriminate|lia]|eauto|split; [lia|reflexivity]|lia].
Qed.

(** What vscp_stristr returns is a place of the text, but it may miss one. *)
Example stristr_misses : vscp_stristr (str "aaab") (str "aab") = None. Proof. vm_compute. reflexivity. Qed.

(** vscp_rstrstr gives the last place. *)
Theorem rstrstr_last s1 s2 :
  match vscp_rstrstr s1 s2 with
  | Some i => starts_with s2 (drop i s1) = true /\ forall j, (i < j)%nat -> (j + length s2 <= length s1)%nat -> starts_with s2 (drop j s1) = false
  | None => forall j, (j + length s2 <= length s1)%nat -> starts_with s2 (drop j s1) = false
  end.
Proof.
  unfold vscp_rstrstr. destruct (Nat.ltb_spec (length s1) (length s2)) as [L|L]; [intros j; lia|].
  assert (G : forall n, match List.find (fun i => starts_with s2 (drop i s1)) (rev (seq 0 n)) with
    | Some i => starts_with s2 (drop i s1) = true /\ forall j, (i < j)%nat -> (j < n)%nat -> starts_with s2 (drop j s1) = false
    | None => forall j, (j < n)%nat -> starts_with s2 (drop j s1) = false end).
  { induction n as [|n IH]; [cbn; lia|]. rewrite seq_S, rev_app_distr. cbn [Nat.add rev app List.find].
    destruct (starts_with s2 (drop n s1)) eqn:E; [split; [exact E|lia]|].
    destruct (List.find _ (rev (seq 0 n))) as [i|]; [destruct IH as [I1 I2]; split; [exact I1|]|]; intros j; [intros H1 H2|intros H2];
      destruct (decide (j = n)) as [->|]; try exact E; [apply I2; lia|apply IH; lia]. }
  specialize (G (length s1 - length s2 + 1)%nat). destruct (List.find _ _) as [i|]; [destruct G as [G1 G2]; split; [exact G1|]|]; intros j; [intros H1 H2; apply G2; lia|intros H2; apply G; lia].
Qed.

(** Text of printable characters is left as it is: neither quotes nor backslashes are escaped. *)
Theorem safe_encode_unchanged s : Forall (fun c => 32 <= c < 128) s -> vscp_safe_encode_str s = s.
Proof.
  induction 1 as [|c s Hc _ IH]; [reflexivity|]. unfold vscp_safe_encode_str in *. cbn [flat_map]. rewrite IH. unfold safe_char.
  destruct (Z.eqb_spec c 92) as [->|]; [reflexivity|]. destruct (Z.eqb_spec c 34) as [->|]; [reflexivity|].
  rewrite (proj2 (Z.ltb_ge c 32)), (proj2 (Z.leb_gt 128 c)) by lia. reflexivity.
Qed.

(** ** Addresses *)

Lemma scan_int_dec n rest : 0 <= n < 2 ^ 31 -> ends_number 10 rest -> scan_int (dec n ++ rest) = Some (Some (n, rest)).
Proof. intros Hn Hr. unfold scan_int. rewrite strtol_dec by (lia || exact Hr). rewrite (proj2 (Z.leb_le _ _)), (proj2 (Z.ltb_lt _ _)) by lia. reflexivity. Qed.

Lemma scan_unsigned_dec n rest : 0 <= n < 2 ^ 31 -> ends_number 10 rest -> scan_unsigned (dec n ++ rest) = Some (Some (n, rest)).
Proof. intros Hn Hr. unfold scan_unsigned. rewrite strtol_dec by (lia || exact Hr). rewrite (proj2 (Z.leb_le _ _)), (proj2 (Z.ltb_lt _ _)) by lia. reflexivity. Qed.

Definition dotted (a b c d : Z) (rest : list Z) : list Z := dec a ++ 46 :: dec b ++ 46 :: dec c ++ 46 :: dec d ++ rest.

Lemma scan_network_dotted scan a b c d : (forall n rest, 0 <= n < 2 ^ 31 -> ends_number 10 rest -> scan (dec n ++ rest) = Some (Some (n, rest))) ->
  is_u8 a -> is_u8 b -> is_u8 c -> is_u8 d ->
  (forall slash, 0 <= slash < 2 ^ 31 -> scan_network scan (dotted a b c d (47 :: dec slash)) = Some (Some (a, b, c, d, slash, length (dotted a b c d (47 :: dec slash)))))
  /\ scan_network scan (dotted a b c d []) = Some (Some (a, b, c, d, 32, length (dotted a b c d []))).
Proof.
  unfold is_u8. intros HS Ha Hb Hc Hd. assert (N : forall s, ends_number 10 (46 :: s)) by reflexivity. assert (N' : forall s, ends_number 10 (47 :: s)) by reflexivity. split.
  - intros slash Hs. assert (X : scan (dec slash) = Some (Some (slash, []))) by (rewrite <- (app_nil_r (dec slash)); apply HS; [exact Hs|reflexivity]).
    unfold scan_network, scan_numbers, dotted. rewrite HS by (lia || apply N). cbn [mbind option_bind scan_more Z.eqb Pos.eqb].
    rewrite HS by (lia || apply N). cbn [mbind option_bind]. rewrite HS by (lia || apply N). cbn [mbind option_bind]. rewrite HS by (lia || apply N'). cbn [mbind option_bind].
    rewrite X. change (46 =? 46) with true. change (47 =? 47) with true. cbv iota. cbn [mbind option_bind in_front]. do 3 f_equal. cbn [length]. apply Nat.sub_0_r.
  - unfold scan_network, scan_numbers, dotted. rewrite HS by (lia || apply N). cbn [mbind option_bind scan_more Z.eqb Pos.eqb].
    rewrite HS by (lia || apply N). cbn [mbind option_bind]. rewrite HS by (lia || apply N). cbn [mbind option_bind].
    rewrite HS by (lia || reflexivity). change (46 =? 46) with true. change (47 =? 47) with true. cbv iota. cbn [mbind option_bind in_front]. do 3 f_equal. cbn [length]. apply Nat.sub_0_r.
Qed.

Lemma land_shifted x m k : 0 <= k -> Z.land x (m * 2 ^ k) = Z.land (x / 2 ^ k) m * 2 ^ k.
Proof.
  intros Hk. rewrite <- !Z.shiftl_mul_pow2, <- shiftr_div by lia. apply Z.bits_inj'. intros i Hi. rewrite Z.land_spec, !Z.shiftl_spec by lia.
  destruct (Z.ltb_spec i k); [rewrite !(Z.testbit_neg_r _ (i - k)) by lia; apply andb_false_r|].
  rewrite Z.land_spec, Z.shiftr_spec by lia. f_equal. f_equal. lia.
Qed.

Lemma ipv4_number_sum a b c d : is_u8 a -> is_u8 b -> is_u8 c -> is_u8 d -> ipv4_number a b c d = a * 2 ^ 24 + b * 2 ^ 16 + c * 2 ^ 8 + d.
Proof.
  unfold is_u8. intros Ha Hb Hc Hd. unfold ipv4_number. rewrite !Z.shiftl_mul_pow2 by lia. unfold u32. rewrite !Z.mod_small by lia.
  rewrite (lor_add_disjoint 24) by lia. replace (a * 2 ^ 24 + b * 2 ^ 16) with ((a * 2 ^ 8 + b) * 2 ^ 16) by lia.
  rewrite (lor_add_disjoint 16) by lia. replace ((a * 2 ^ 8 + b) * 2 ^ 16 + c * 2 ^ 8) with ((a * 2 ^ 16 + b * 2 ^ 8 + c) * 2 ^ 8) by lia.
  rewrite (lor_add_disjoint 8) by lia. lia.
Qed.

Lemma ipv4_mask_bits s : 0 <= s <= 32 -> ipv4_mask s = (2 ^ s - 1) * 2 ^ (32 - s).
Proof.
  intros Hs. apply Z.eqb_eq. apply (all_below_spec 33 (fun s => ipv4_mask s =? (2 ^ s - 1) * 2 ^ (32 - s)) s); [vm_compute; reflexivity|lia].
Qed.

(** The network of an address: its upper bits. *)
Lemma land_mask_bits ip s : is_u32 ip -> 0 <= s <= 32 -> Z.land ip (ipv4_mask s) = ip / 2 ^ (32 - s) * 2 ^ (32 - s).
Proof.
  intros Hip Hs. rewrite ipv4_mask_bits, land_shifted, land_mask by lia. f_equal. apply Z.mod_small. unfold is_u32 in Hip.
  split; [apply Z.div_pos; lia|]. apply Z.div_lt_upper_bound; [lia|]. rewrite <- Z.pow_add_r by lia. replace (32 - s + s) with 32 by lia. lia.
Qed.

(** The text of a network is read: the number of the address, and as many upper bits in the mask
    as the number behind the slash says, all of them without one. *)
Theorem parse_ipv4_addr_text a b c d slash net mask : is_u8 a -> is_u8 b -> is_u8 c -> is_u8 d -> 0 <= slash <= 32 ->
  let number := a * 2 ^ 24 + b * 2 ^ 16 + c * 2 ^ 8 + d in
  let t := dotted a b c d (47 :: dec slash) in
  vscp_parse_ipv4_addr t net mask = Some (Z.of_nat (length t), number, (2 ^ slash - 1) * 2 ^ (32 - slash))
  /\ vscp_parse_ipv4_addr (dotted a b c d []) net mask = Some (Z.of_nat (length (dotted a b c d [])), number, 2 ^ 32 - 1).
Proof.
  intros Ha Hb Hc Hd Hs number t. destruct (scan_network_dotted scan_int a b c d scan_int_dec Ha Hb Hc Hd) as [S1 S2].
  assert (B : isbyte a && isbyte b && isbyte c && isbyte d = true) by (unfold isbyte; unfold is_u8 in *; lia).
  unfold vscp_parse_ipv4_addr, t. rewrite S1, S2 by lia. cbn [mbind option_bind]. rewrite B, ipv4_number_sum by assumption.
  assert (G : (0 <=? slash) && (slash <? 33) = true) by lia. rewrite <- andb_assoc. rewrite G, ipv4_mask_bits by exact Hs. split; reflexivity.
Qed.

Section Nets.
Context (inet_pton6 : list Z -> option (list Z)).

(** An IPv4 address matches a network when their upper bits are the same, if the
    network has no other bits; addresses of other families do not match. *)
Theorem parse_match_net_ipv4 a b c d slash sa no_strict : is_u8 a -> is_u8 b -> is_u8 c -> is_u8 d -> 0 <= slash <= 32 ->
  let net := a * 2 ^ 24 + b * 2 ^ 16 + c * 2 ^ 8 + d in
  net mod 2 ^ (32 - slash) = 0 -> (forall ip, sa = Inet ip -> is_u32 ip) ->
  vscp_parse_match_net inet_pton6 (dotted a b c d (47 :: dec slash)) sa no_strict
  = Some (match sa with Inet ip => if ip / 2 ^ (32 - slash) =? net / 2 ^ (32 - slash) then 1 else 0 | _ => 0 end).
Proof.
  intros Ha Hb Hc Hd Hs net Hnet Hsa. destruct (scan_network_dotted scan_unsigned a b c d scan_unsigned_dec Ha Hb Hc Hd) as [S1 _].
  unfold vscp_parse_match_net. rewrite S1 by lia. cbn [mbind option_bind]. rewrite Nat.eqb_refl.
  assert (B : (a <? 256) && (b <? 256) && (c <? 256) && (d <? 256) && (slash <? 33) = true) by (unfold is_u8 in *; lia). rewrite B.
  destruct sa as [ip| |]; [|reflexivity|reflexivity]. rewrite land_mask_bits, ipv4_number_sum by (assumption || apply Hsa, eq_refl). fold net.
  assert (P : 0 < 2 ^ (32 - slash)) by (apply Z.pow_pos_nonneg; lia). assert (E := Z.div_mod net (2 ^ (32 - slash)) ltac:(lia)). rewrite Hnet in E.
  destruct (Z.eqb_spec (ip / 2 ^ (32 - slash) * 2 ^ (32 - slash)) net) as [X|X], (Z.eqb_spec (ip / 2 ^ (32 - slash)) (net / 2 ^ (32 - slash))) as [Y|Y]; try reflexivity; exfalso; nia.
Qed.

End Nets.

(** ** Addresses with ports *)

(** What is relied on of inet_pton: no colons in IPv4 addresses, two or more in IPv6
    addresses, and no brackets. *)
Class InetText (inet_pton4 inet_pton6 : list Z -> option (list Z)) : Prop := {
  ipv4_text s a : inet_pton4 s = Some a -> 58 ∉ s /\ 93 ∉ s;
  ipv6_text s a : inet_pton6 s = Some a -> 93 ∉ s /\ exists t u v, s = t ++ 58 :: u ++ 58 :: v
}.

Section Ports.
Context (inet_pton4 inet_pton6 : list Z -> option (list Z)) {HI : InetText inet_pton4 inet_pton6}.

Lemma port_number_dec p : 0 < p < 65536 -> parse_port_number (dec p) = p.
Proof.
  intros Hp. unfold parse_port_number. rewrite <- (app_nil_r (dec p)), strtol_dec by (lia || reflexivity). rewrite Z.abs_eq, (proj2 (Z.ltb_lt p _)), u64_id by (lia || (unfold is_u64; lia)).
  assert (G : (0 <? p) && (p <=? 65535) = true) by lia. rewrite G. reflexivity.
Qed.

Lemma rfind_absent d s : d ∉ s -> rfind [d] s = None.
Proof.
  induction s as [|c s IH]; intros N; [reflexivity|]. apply not_elem_of_cons in N as [N1 N2]. cbn [rfind]. rewrite IH by exact N2. cbn [starts_with].
  destruct (Z.eqb_spec d c); [congruence|reflexivity].
Qed.

Lemma dec_no_colon p : 0 < p < 65536 -> 58 ∉ dec p.
Proof. intros Hp. apply dec_no_char; lia. Qed.

Lemma no_bracket_end s t : 93 ∉ s -> s <> [] -> (nth (length s - 1) (s ++ t) 0 =? 93) = false.
Proof.
  intros N Hs. apply Z.eqb_neq. intros E. assert (L : (length s - 1 < length s)%nat) by (destruct s; [congruence|cbn [length]; lia]).
  rewrite app_nth1 in E by exact L. apply N. rewrite <- E. apply list_elem_of_In, nth_In, L.
Qed.

(** The last of two colons. *)
Lemma last_colon t u v : exists a b, t ++ 58 :: u ++ 58 :: v = a ++ 58 :: b /\ 58 ∉ b /\ 58 ∈ a.
Proof.
  destruct (decide (58 ∈ v)) as [E|E].
  - apply list_elem_of_split_r in E as (v1 & v2 & -> & N). exists (t ++ 58 :: u ++ 58 :: v1), v2. split; [|split; [exact N|]].
    + rewrite <- !app_assoc. cbn [app]. rewrite <- !app_assoc. reflexivity.
    + rewrite elem_of_app, elem_of_cons. auto.
  - exists (t ++ 58 :: u), v. split; [rewrite <- app_assoc; reflexivity|]. split; [exact E|]. rewrite elem_of_app, elem_of_cons. auto.
Qed.

(** The four forms of an address: with a port, which an IPv6 address has behind
    brackets, and without one. *)
Theorem parse_address_forms s4 a4 s6 a6 p r : inet_pton4 s4 = Some a4 -> inet_pton6 s6 = Some a6 -> s4 <> [] -> 0 < p < 65536 ->
  let r4 := IpAddress (rev a4 ++ drop 4 (address r)) AF_INET in
  parse_address inet_pton4 inet_pton6 (s4 ++ 58 :: dec p) r = (true, r4 p)
  /\ parse_address inet_pton4 inet_pton6 (91 :: s6 ++ 93 :: 58 :: dec p) r = (true, IpAddress a6 AF_INET6 p)
  /\ parse_address inet_pton4 inet_pton6 s6 r = (true, IpAddress a6 AF_INET6 0)
  /\ parse_address inet_pton4 inet_pton6 s4 r = (true, r4 0).
Proof.
  intros H4 H6 N4 Hp r4. destruct (ipv4_text s4 a4 H4) as [C4 B4]. destruct (ipv6_text s6 a6 H6) as (B6 & t & u & v & E6). assert (Np := dec_no_colon p Hp).
  assert (P0 : (0 <? p) = true) by lia. split; [|split; [|split]].
  - unfold parse_address. rewrite rfind_last by exact Np. destruct (length s4) as [|k] eqn:L; [destruct s4; [congruence|discriminate L]|]. cbv iota. rewrite <- L.
    replace (drop (length s4 + 1) (s4 ++ 58 :: dec p)) with (dec p) by (rewrite drop_app_add; reflexivity). rewrite port_number_dec, P0 by exact Hp.
    unfold parse_host. rewrite no_bracket_end by assumption. cbn [andb]. rewrite take_app_length. unfold parse_ipv4_address. rewrite H4. reflexivity.
  - unfold parse_address. change (91 :: s6 ++ 93 :: 58 :: dec p) with ((91 :: s6) ++ 93 :: 58 :: dec p). rewrite (cons_middle 93 (91 :: s6)), app_assoc. rewrite rfind_last by exact Np.
    assert (L : length ((91 :: s6) ++ [93]) = S (S (length s6))) by (rewrite length_app; cbn [length]; lia).
    replace (drop (length ((91 :: s6) ++ [93]) + 1) (((91 :: s6) ++ [93]) ++ 58 :: dec p)) with (dec p) by (rewrite drop_app_add; reflexivity).
    rewrite L. cbv iota. rewrite port_number_dec, P0 by exact Hp. unfold parse_host.
    replace (S (S (length s6)) - 1)%nat with (S (length s6)) by lia. replace (S (S (length s6)) - 2)%nat with (length s6) by lia.
    assert (F : nth (S (length s6)) (((91 :: s6) ++ [93]) ++ 58 :: dec p) 0 = 93) by (rewrite <- app_assoc; change ([93] ++ 58 :: dec p) with (93 :: 58 :: dec p); change (S (length s6)) with (length (91 :: s6)); rewrite nth_middle; reflexivity).
    rewrite F. change (first (((91 :: s6) ++ [93]) ++ 58 :: dec p)) with 91. change ((93 =? 93) && (91 =? 91)) with true. cbv iota.
    assert (T : take (length s6) (drop 1 (((91 :: s6) ++ [93]) ++ 58 :: dec p)) = s6) by (cbn [app drop]; rewrite <- app_assoc; apply take_app_length).
    rewrite T. unfold parse_ipv6_address. rewrite H6. reflexivity.
  - assert (W : forall r', (let '(ok, r) := parse_ipv6_address inet_pton6 s6 r' in if ok : bool then (true, r) else parse_ipv4_address inet_pton4 s6 r) = (true, IpAddress a6 AF_INET6 0))
      by (intros r'; unfold parse_ipv6_address; rewrite H6; reflexivity).
    unfold parse_address. destruct (last_colon t u v) as (a & b & E & Nb & Ha). rewrite <- E6 in E.
    assert (R : rfind [58] s6 = Some (length a)) by (rewrite E; apply rfind_last, Nb). rewrite R.
    destruct (length a) as [|k] eqn:L; [apply W|]. cbv zeta. destruct (0 <? parse_port_number _); [|apply W].
    assert (F : nth (S k - 1) s6 0 =? 93 = false).
    { rewrite <- L, E. apply no_bracket_end; [|intros ->; discriminate L]. intros X. apply B6. rewrite E, elem_of_app. auto. }
    assert (T : take (S k) s6 = a) by (rewrite <- L, E; apply take_app_length).
    unfold parse_host. rewrite F, T. cbn [andb]. unfold parse_ipv4_address at 1. destruct (inet_pton4 a) as [a'|] eqn:E4; [destruct (ipv4_text a a' E4) as [X _]; contradiction|]. apply W.
  - unfold parse_address. rewrite rfind_absent by exact C4. unfold parse_ipv6_address, parse_ipv4_address. rewrite H4.
    destruct (inet_pton6 s4) as [a'|] eqn:E; [|reflexivity]. destruct (ipv6_text s4 a' E) as (_ & t' & u' & v' & ->). exfalso. apply C4. rewrite elem_of_app, elem_of_cons. auto.
Qed.

End Ports.

(** ** Interfaces *)

Lemma find_after c p s r : c ∉ s -> find (c :: p) (s ++ c :: p ++ r) = Some (length s).
Proof.
  induction s as [|b s IH]; intros N.
  - apply find_here. cbn [app starts_with]. rewrite Z.eqb_refl. cbn [andb]. induction p as [|x p IHp]; [reflexivity|]. cbn [app starts_with]. rewrite Z.eqb_refl. exact IHp.
  - apply not_elem_of_cons in N as [N1 N2]. cbn [app find length starts_with]. destruct (Z.eqb_spec c b); [congruence|]. cbn [andb]. rewrite IH by exact N2. reflexivity.
Qed.

(** Host and port of "scheme://host:port". *)
Theorem interface_parts scheme host p : no_space scheme -> 58 ∉ scheme -> no_space host -> 58 ∉ host -> 0 ∉ host -> 0 < p < 65536 ->
  let iface := scheme ++ str "://" ++ host ++ 58 :: dec p in
  vscp_getHostFromInterface iface = host /\ vscp_getPortFromInterface iface = p.
Proof.
  intros H1 H2 H3 H4 H5 Hp iface. assert (Np := dec_no_colon p Hp).
  assert (NS : no_space iface).
  { unfold iface, no_space. apply Forall_app. split; [exact H1|]. apply Forall_app. split; [repeat constructor|]. apply Forall_app. split; [exact H3|].
    apply List.Forall_cons; [reflexivity|apply dec_no_space; lia]. }
  assert (T := trim_id iface NS). split.
  - unfold vscp_getHostFromInterface. rewrite T.
    assert (F : find (str "://") iface = Some (length scheme)) by exact (find_after 58 [47; 47] scheme (host ++ 58 :: dec p) H2).
    assert (D : drop (length scheme + 3) iface = host ++ 58 :: dec p) by (unfold iface; rewrite drop_app_add; reflexivity).
    rewrite F, D, find_char_app by exact H4. apply take_app_length.
  - unfold vscp_getPortFromInterface. rewrite T. assert (E : iface = (scheme ++ str "://" ++ host) ++ 58 :: dec p) by (unfold iface; rewrite <- !app_assoc; reflexivity).
    rewrite E, rfind_last by exact Np. replace (drop (length (scheme ++ str "://" ++ host) + 1) ((scheme ++ str "://" ++ host) ++ 58 :: dec p)) with (dec p) by (rewrite drop_app_add; reflexivity).
    unfold atoi. rewrite c_str_id by (apply dec_no_char; lia). rewrite <- (app_nil_r (dec p)), strtol_dec by (lia || reflexivity).
    rewrite Z.min_r, Z.max_r by lia. unfold s32. rewrite Z.mod_small by lia. lia.
Qed.

(** Without a port the colon of the scheme is taken for the one in front of it. *)
Example no_port : vscp_getPortFromInterface (str "udp://9598") = 0. Proof. vm_compute. reflexivity. Qed.

(** A network matches by its first bits. *)
Example match_net : vscp_parse_match_net (fun _ => None) (str "192.168.1.0/24") (Inet (192 * 2 ^ 24 + 168 * 2 ^ 16 + 1 * 2 ^ 8 + 77)) false = Some 1.
Proof. vm_compute. reflexivity. Qed.
