(* ===== verification/Guid.v ===== *)
(** * GUIDs: guid.cpp, vscp-guid-parser.c and the GUID functions of
    vscphelper.cpp

    A GUID is a list of 16 bytes.  A [const char *] is the list of the
    characters up to the terminating zero; moving the pointer drops
    characters. *)

From S2P Require Import Prelude Event Crc Strings.

Definition VSCP_ERROR_SUCCESS : Z := 0.
Definition VSCP_ERROR_INVALID_POINTER : Z := 48.
Definition VSCP_ERROR_INVALID_SYNTAX : Z := 58.

(** ** The parser *)

Definition isHexDigit (c : Z) : bool := is_digit 16 c.

Definition hexToVal (c : Z) : Z :=
  match digit_value c with Some d => if d <? 16 then d else 0 | None => 0 end.

Fixpoint countHexDigits (p : list Z) : nat :=
  match p with
  | c :: p' => if isHexDigit c then S (countHexDigits p') else O
  | [] => O
  end.

(** The value of at most [maxDigits] digits and the advanced pointer. *)
Fixpoint parseHexValue (maxDigits : nat) (p : list Z) (value : Z) : Z * list Z :=
  match maxDigits, p with
  | S n, c :: p' =>
      if isHexDigit c
      then parseHexValue n p' (u32 (Z.lor (u32 (Z.shiftl value 4)) (hexToVal c)))
      else (value, p)
  | _, _ => (value, p)
  end.

Fixpoint skip_blank (p : list Z) : list Z :=
  match p with
  | c :: p' => if (c =? 32) || (c =? 9) then skip_blank p' else p
  | [] => []
  end.

(** [finish]: the end pointer. *)
Definition finish (hasBraces : bool) (p : list Z) : list Z :=
  if hasBraces then
    match skip_blank p with
    | c :: p' => if c =? 125 then p' else c :: p'
    | [] => []
    end
  else p.

(** The bytes of a group of more than four digits. *)
Fixpoint pair_bytes (n : nat) (p : list Z) : list Z * list Z :=
  match n, p with
  | S n', h :: p' =>
      let '(low, p'') :=
        match p' with
        | l :: q => if isHexDigit l then (hexToVal l, q) else (0, p')
        | [] => (0, [])
        end in
      let '(bs, rest) := pair_bytes n' p'' in
      (u8 (Z.lor (Z.shiftl (hexToVal h) 4) low) :: bs, rest)
  | _, _ => ([], p)
  end.

Definition is_separator (c : Z) : bool := (c =? 58) || (c =? 45) || (c =? 44).

Definition skip_separator (p : list Z) : list Z :=
  match p with c :: p' => if is_separator c then p' else p | [] => [] end.

(** One group of digits at [p]: the bytes for a GUID that has room for [room > 0]
    more.  The loops of vscp_guid_parse and of its helper [parseGroups] differ in
    which byte of a four-digit group they keep when there is room for one:
    [keep_low]. *)
Definition group (keep_low : bool) (room : nat) (p : list Z) : list Z * list Z :=
  let hexLen := countHexDigits p in
  if (hexLen <=? 2)%nat then
    let '(v, p) := parseHexValue 2 p 0 in ([u8 v], p)
  else if (hexLen <=? 4)%nat then
    let '(v, p) := parseHexValue 4 p 0 in
    let value := u16 v in
    let hi := Z.land (Z.shiftr value 8) 0xFF in
    let lo := Z.land value 0xFF in
    (if (2 <=? room)%nat then [hi; lo] else if keep_low then [lo] else [hi], p)
  else pair_bytes (Nat.min ((hexLen + 1) / 2) room) p.

(** The loop over the groups; every group has a digit, so the length of the
    string bounds their number. *)
Fixpoint parse_loop (fuel : nat) (keep_low : bool) (out : list Z) (p : list Z)
  : list Z * list Z :=
  match fuel with
  | O => (out, p)
  | S f =>
      if starts_digit 16 p && (length out <? 16)%nat then
        let '(bs, p) := group keep_low (16 - length out) p in
        let out := out ++ bs in
        let p := if (length out <? 16)%nat then skip_separator p else p in
        parse_loop f keep_low out p
      else (out, p)
  end.

Definition parseGroups (p : list Z) : list Z * list Z := parse_loop (length p) false [] p.

(** countParsedBytes: the number of bytes the groups of a string stand for. *)
Fixpoint countParsedBytes (fuel : nat) (p : list Z) : nat :=
  match fuel, p with
  | S f, c :: p' =>
      if negb (isHexDigit c) then countParsedBytes f p'
      else
        let hexLen := countHexDigits p in
        ((if (hexLen <=? 2)%nat then 1 else if (hexLen <=? 4)%nat then 2
          else (hexLen + 1) / 2)
         + countParsedBytes f (drop hexLen p))%nat
  | _, _ => O
  end.

Definition zeros (n : nat) : list Z := replicate n 0.

(** The first [n] bytes of a GUID array that starts with the bytes [bs]. *)
Definition pad16 (bs : list Z) : list Z := take 16 (bs ++ zeros 16).

(** The result: status, the 16 bytes, the end pointer. *)
Definition parse_result : Type := (Z * list Z * list Z).

Fixpoint guid_parse (fuel : nat) (strguid : list Z) : parse_result :=
  let p := skip_blank strguid in
  let '(hasBraces, p) :=
    match p with
    | c :: p' => if c =? 123 then (true, skip_blank p') else (false, p)
    | [] => (false, p)
    end in
  let success (guid p : list Z) := (VSCP_ERROR_SUCCESS, guid, finish hasBraces p) in
  let c0 := nth 0 p 0 in
  let c1 := nth 1 p 0 in
  let c2 := nth 2 p 0 in
  if c0 =? 0 then success (zeros 16) p
  else if (c0 =? 45) && (c1 =? 58) then
    let '(trailing, p) := parseGroups (drop 2 p) in
    success (zeros (16 - length trailing) ++ trailing) p
  else if (c0 =? 45) && ((c1 =? 0) || negb (isHexDigit c1)) then success (zeros 16) (drop 1 p)
  else if ((c0 =? 58) && (c1 =? 58)) || ((c0 =? 42) && (c1 =? 58)) then
    if (c2 =? 0) || negb (isHexDigit c2) then success (replicate 16 0xFF) (drop 2 p)
    else
      let '(trailing, p) := parseGroups (drop 2 p) in
      success (replicate (16 - length trailing) 0xFF ++ trailing) p
  else
    match fuel, find (str "::") p with
    | S f, Some middle =>
        let prefix := take middle p in
        let suffix := drop (middle + 2) p in
        let '(_, prefixGuid, _) := guid_parse f prefix in
        let '(_, suffixGuid, _) := guid_parse f suffix in
        let prefixCount := Nat.min (countParsedBytes (length prefix) prefix) 16 in
        let suffixCount := Nat.min (countParsedBytes (length suffix) suffix) (16 - prefixCount) in
        success (take prefixCount prefixGuid ++ zeros (16 - prefixCount - suffixCount)
                 ++ take suffixCount suffixGuid) p
    | _, _ =>
        let '(out, p) := parse_loop (length p) true [] p in
        if (length out =? 16)%nat then success out p
        else (VSCP_ERROR_INVALID_SYNTAX, pad16 out, p)
    end.

(** A string of [n] characters has at most [n / 3] occurrences of "::" after
    its first character. *)
Definition vscp_guid_parse (strguid : list Z) : parse_result :=
  let s := c_str strguid in guid_parse (length s) s.

(** cguid::getFromString ignores the status. *)
Definition getFromString (strGUID : list Z) : list Z :=
  let '(_, guid, _) := vscp_guid_parse strGUID in guid.

(** vscp_getGuidFromStringToArray: the new content of the array. *)
Definition vscp_getGuidFromStringToArray (strGUID : list Z) : list Z := getFromString strGUID.

Definition vscp_parseGuid (strGUID : list Z) : bool * list Z :=
  let '(rc, guid, _) := vscp_guid_parse strGUID in (rc =? VSCP_ERROR_SUCCESS, guid).

(** ** The writers *)

Inductive vscp_guid_str_format :=
  | VSCP_GUID_STR_FORMAT_NORMAL | VSCP_GUID_STR_FORMAT_COMPACT | VSCP_GUID_STR_FORMAT_UUID.

(** %02X:%02X:... of the bytes from [i] to [j]. *)
Definition hex_range (sep : list Z) (g : list Z) (i n : nat) : list (list Z) :=
  map hex2 (take n (drop i g)).

Definition toString (g : list Z) : list Z := join 58 (map hex2 (take 16 g)).

Fixpoint leading_ff (g : list Z) : nat :=
  match g with
  | b :: g' => if b =? 0xFF then S (leading_ff g') else O
  | [] => O
  end.

Definition toStringCompact (g : list Z) : list Z :=
  let ffCount := leading_ff (take 16 g) in
  if (ffCount =? 16)%nat then str "::"
  else if (ffCount =? 0)%nat then toString g
  else str "::" ++ join 58 (map hex2 (drop ffCount (take 16 g))).

Definition hex_bytes (g : list Z) (i n : nat) : list Z := concat (map hex2 (take n (drop i g))).

Definition toStringUUID (g : list Z) : list Z :=
  hex_bytes g 0 4 ++ str "-" ++ hex_bytes g 4 2 ++ str "-" ++ hex_bytes g 6 2
  ++ str "-" ++ hex_bytes g 8 2 ++ str "-" ++ hex_bytes g 10 6.

Definition guid_text (format : vscp_guid_str_format) (g : list Z) : list Z :=
  match format with
  | VSCP_GUID_STR_FORMAT_COMPACT => toStringCompact g
  | VSCP_GUID_STR_FORMAT_UUID => toStringUUID g
  | VSCP_GUID_STR_FORMAT_NORMAL => toString g
  end.

(** [None]: false, and the string is left alone. *)
Definition vscp_writeGuidToString (pev : option vscpEvent) (format : vscp_guid_str_format)
  : option (list Z) :=
  match pev with None => None | Some e => Some (guid_text format (GUID e)) end.

Definition vscp_writeGuidToStringEx (pex : option vscpEventEx) (format : vscp_guid_str_format)
  : option (list Z) :=
  match pex with None => None | Some x => Some (guid_text format (xGUID x)) end.

Definition vscp_writeGuidArrayToString (pGUID : option (list Z)) (bUseComma : bool)
    (format : vscp_guid_str_format) : option (list Z) :=
  match pGUID with
  | None => None
  | Some g =>
      Some (match format with
            | VSCP_GUID_STR_FORMAT_NORMAL =>
                if bUseComma then join 44 (map dec (take 16 g)) else toString g
            | f => guid_text f g
            end)
  end.

Definition rows4 (g : list Z) : list Z :=
  join 10 (map (fun i => join 58 (map hex2 (take 4 (drop i g)))) [0; 4; 8; 12]%nat).

Definition vscp_writeGuidToString4Rows (pev : option vscpEvent) : option (list Z) :=
  match pev with None => None | Some e => Some (rows4 (GUID e)) end.

Definition vscp_writeGuidToString4RowsEx (pex : option vscpEventEx) : option (list Z) :=
  match pex with None => None | Some x => Some (rows4 (xGUID x)) end.

(** ** Setting an event's GUID from a string *)

(** [stol] of a token, 0 when it throws. *)
Definition guid_token (t : list Z) : Z :=
  match stoll (c_str t) 16 with Some (v, _) => u8 v | None => 0 end.

Definition vscp_setEventGuidFromString (pev : option vscpEvent) (strGUID : list Z)
  : bool * option vscpEvent :=
  match pev with
  | None => (false, None)
  | Some e =>
      let s := vscp_trim strGUID in
      if (length s =? 0)%nat || bool_decide (s = str "-")
      then (true, Some (set_GUID (zeros 16) e))
      else
        let bytes := map guid_token (take 16 (vscp_split strGUID (str ":"))) in
        (true, Some (set_GUID (bytes ++ drop (length bytes) (GUID e)) e))
  end.

(** The outcomes of the loop of vscp_setEventExGuidFromString. *)
Inductive ex_guid_result :=
  | ExGuid (g : list Z)       (** returns true *)
  | ExThrow (g : list Z)      (** an exception of stol leaves the function *)
  | ExUndefined.              (** [front] of an empty deque *)

(** "If no tokens left no use to continue": the loop stops when tokens remain. *)
Fixpoint ex_guid_loop (n : nat) (tokens : list (list Z)) (g : list Z) : ex_guid_result :=
  match n with
  | O => ExGuid g
  | S n' =>
      match tokens with
      | [] => ExUndefined
      | t :: tokens' =>
          match stoll (c_str t) 16 with
          | None => ExThrow g
          | Some (v, _) =>
              let g := <[(16 - n)%nat := u8 v]> g in
              match tokens' with
              | [] => ex_guid_loop n' tokens' g
              | _ => ExGuid g
              end
          end
      end
  end.

Definition vscp_setEventExGuidFromString (strGUID : list Z) : ex_guid_result :=
  if bool_decide (strGUID = str "-") then ExGuid (zeros 16)
  else ex_guid_loop 16 (vscp_split strGUID (str ":")) (zeros 16).

(** ** Other operations *)

Definition vscp_isGUIDEmpty (pGUID : option (list Z)) : bool :=
  match pGUID with
  | None => false
  | Some g => foldr Z.add 0 (take 16 g) =? 0
  end.

Definition vscp_isSameGUID (a b : option (list Z)) : bool :=
  match a, b with
  | Some x, Some y => bool_decide (take 16 x = take 16 y)
  | _, _ => false
  end.

Definition vscp_reverseGUID (pGUID : option (list Z)) : bool * option (list Z) :=
  match pGUID with
  | None => (false, None)
  | Some g => (true, Some (map (fun i => nth (15 - i) g 0) (seq 0 16)))
  end.

Definition isNULL (g : list Z) : bool := forallb (fun b => b =? 0) (take 16 g).

Definition setClientID (clientid : Z) (g : list Z) : list Z :=
  <[13%nat := Z.land clientid 0xff]> (<[12%nat := Z.land (Z.shiftr clientid 8) 0xff]> g).
Definition getClientID (g : list Z) : Z := u16 (u16 (Z.shiftl (nth 12 g 0) 8) + nth 13 g 0).
Definition setNicknameID (nicknameid : Z) (g : list Z) : list Z :=
  <[15%nat := Z.land nicknameid 0xff]> (<[14%nat := Z.land (Z.shiftr nicknameid 8) 0xff]> g).
Definition getNicknameID (g : list Z) : Z := u16 (Z.shiftl (nth 14 g 0) 8 + nth 15 g 0).
Definition getAt (n : Z) (g : list Z) : Z := nth (Z.to_nat (Z.land n 0x0f)) g 0.
Definition setAt (n v : Z) (g : list Z) : list Z := <[Z.to_nat (Z.land n 0x0f) := v]> g.

(** vscp_calcCRC4GUIDString. *)
Definition vscp_calcCRC4GUIDString (st : crc8_state) (strguid : list Z) : crc8_state * Z :=
  vscp_calcCRC4GUIDArray st (vscp_getGuidFromStringToArray strguid).

(** ** Lemmas *)

(** *** Hexadecimal groups *)

Lemma hexToVal_dchar d : 0 <= d < 16 -> hexToVal (dchar d) = d.
Proof.
  intros Hd. unfold hexToVal. rewrite digit_value_dchar by exact Hd.
  destruct (Z.ltb_spec d 16); [reflexivity|lia].
Qed.

Lemma isHexDigit_dchar d : 0 <= d < 16 -> isHexDigit (dchar d) = true.
Proof.
  intros Hd. unfold isHexDigit, is_digit. rewrite digit_value_dchar by exact Hd.
  apply Z.ltb_lt. lia.
Qed.

Lemma nibbles b : is_u8 b -> 0 <= b / 16 < 16 /\ 0 <= b mod 16 < 16 /\ b / 16 * 16 + b mod 16 = b.
Proof. width. Qed.

(** Appending a digit to a value. *)
Lemma push_digit v d :
  0 <= v < 2 ^ 28 -> 0 <= d < 16 -> u32 (Z.lor (u32 (Z.shiftl v 4)) d) = v * 16 + d.
Proof.
  intros Hv Hd. rewrite shiftl_mul by lia. change (2 ^ 28) with 268435456 in Hv.
  rewrite (u32_id (v * 2 ^ 4)) by (change (2 ^ 4) with 16; width).
  rewrite (lor_add_disjoint 4 v d) by lia. change (2 ^ 4) with 16. width.
Qed.

Lemma hex_pair b : is_u8 b ->
  u8 (Z.lor (Z.shiftl (hexToVal (dchar (b / 16))) 4) (hexToVal (dchar (b mod 16)))) = b.
Proof.
  intros Hb. destruct (nibbles b Hb) as (H1 & H2 & H3).
  rewrite !hexToVal_dchar by assumption. rewrite shiftl_mul by lia.
  rewrite (lor_add_disjoint 4) by lia. change (2 ^ 4) with 16. rewrite H3. apply u8_id, Hb.
Qed.

Definition hexes (bs : list Z) : list Z := concat (map hex2 bs).

Lemma hexes_cons b bs : hexes (b :: bs) = dchar (b / 16) :: dchar (b mod 16) :: hexes bs.
Proof. reflexivity. Qed.

Definition no_digit (p : list Z) : Prop := starts_digit 16 p = false.

Lemma countHexDigits_none p : no_digit p -> countHexDigits p = O.
Proof. unfold no_digit. destruct p as [|c p]; cbn; [reflexivity|]. unfold isHexDigit. intros ->. reflexivity. Qed.

Lemma countHexDigits_hexes bs rest :
  bytes_ok bs -> no_digit rest -> countHexDigits (hexes bs ++ rest) = (2 * length bs)%nat.
Proof.
  intros H Hr. induction H as [|b bs Hb _ IH]; [apply countHexDigits_none, Hr|].
  destruct (nibbles b Hb) as (H1 & H2 & _).
  rewrite hexes_cons. cbn [app countHexDigits length].
  rewrite !isHexDigit_dchar, IH by assumption. lia.
Qed.

Lemma pair_bytes_hexes bs rest :
  bytes_ok bs -> pair_bytes (length bs) (hexes bs ++ rest) = (bs, rest).
Proof.
  induction 1 as [|b bs Hb _ IH]; [destruct rest; reflexivity|].
  destruct (nibbles b Hb) as (H1 & H2 & _).
  rewrite hexes_cons. cbn [length app pair_bytes].
  rewrite isHexDigit_dchar, IH, hex_pair by assumption. reflexivity.
Qed.

Lemma group_hexes k room bs rest :
  bytes_ok bs -> bs <> [] -> (length bs <= room)%nat -> no_digit rest ->
  group k room (hexes bs ++ rest) = (bs, rest).
Proof.
  intros H Hne Hr Hrest. unfold group.
  rewrite countHexDigits_hexes by assumption.
  destruct bs as [|a [|b [|c bs]]]; [congruence| | |].
  - inversion H as [|? ? Ha]; subst. destruct (nibbles a Ha) as (H1 & H2 & H3).
    change (2 * length [a] <=? 2)%nat with true. cbv iota.
    rewrite hexes_cons. cbn [hexes concat map app parseHexValue].
    rewrite !isHexDigit_dchar, !hexToVal_dchar by assumption.
    rewrite !push_digit by (rewrite ?push_digit by lia; lia).
    rewrite Z.mul_0_l, Z.add_0_l, H3, u8_id by exact Ha. reflexivity.
  - inversion H as [|? ? Ha H']; subst. inversion H' as [|? ? Hb]; subst.
    destruct (nibbles a Ha) as (H1 & H2 & H3). destruct (nibbles b Hb) as (H4 & H5 & H6).
    change (2 * length [a; b] <=? 2)%nat with false.
    change (2 * length [a; b] <=? 4)%nat with true. cbv iota.
    rewrite !hexes_cons. cbn [hexes concat map app parseHexValue].
    rewrite !isHexDigit_dchar, !hexToVal_dchar by assumption.
    rewrite !push_digit by (rewrite ?push_digit by (rewrite ?push_digit by (rewrite ?push_digit by lia; lia); lia); lia).
    replace ((((0 * 16 + a / 16) * 16 + a mod 16) * 16 + b / 16) * 16 + b mod 16)
      with (a * 256 + b) by lia.
    destruct (Nat.leb_spec 2 room); [|cbn [length] in Hr; lia].
    change 0xFF with 255. rewrite !land_255, shiftr_div, (u16_id (a * 256 + b)) by (lia || width).
    repeat f_equal; width.
  - set (bs' := a :: b :: c :: bs) in *.
    assert (Hl : (3 <= length bs')%nat) by (unfold bs'; cbn [length]; lia).
    destruct (Nat.leb_spec (2 * length bs') 2); [lia|].
    destruct (Nat.leb_spec (2 * length bs') 4); [lia|].
    replace ((2 * length bs' + 1) / 2)%nat with (length bs')
      by (apply (Nat.div_unique _ 2 _ 1); lia).
    rewrite Nat.min_l by lia. apply pair_bytes_hexes, H.
Qed.

(** *** Groups joined by separators *)

(** The text of the groups of a GUID. *)
Definition group_text (sep : Z) (gs : list (list Z)) : list Z := join sep (map hexes gs).

Lemma starts_hexes bs rest :
  bytes_ok bs -> bs <> [] -> starts_digit 16 (hexes bs ++ rest) = true.
Proof.
  intros H Hne. destruct H as [|b bs Hb _]; [congruence|].
  destruct (nibbles b Hb) as (H1 & _). rewrite hexes_cons. cbn. apply isHexDigit_dchar, H1.
Qed.

Lemma length_hexes bs : length (hexes bs) = (2 * length bs)%nat.
Proof.
  induction bs as [|b bs IH]; [reflexivity|]. rewrite hexes_cons. cbn [length].
  rewrite IH. lia.
Qed.

Lemma parse_loop_stop fuel k out p :
  no_digit p \/ (16 <= length out)%nat -> parse_loop fuel k out p = (out, p).
Proof.
  intros H. destruct fuel; [reflexivity|]. cbn [parse_loop].
  destruct H as [H|H]; [rewrite H; reflexivity|].
  destruct (Nat.ltb_spec (length out) 16); [lia|]. rewrite andb_false_r. reflexivity.
Qed.

Definition group_ok (bs : list Z) : Prop := bs <> [] /\ bytes_ok bs.

Lemma separator_no_digit c p : is_separator c = true -> no_digit (c :: p).
Proof.
  unfold is_separator, no_digit. cbn [starts_digit]. intros H.
  apply orb_prop in H as [H|H]; [apply orb_prop in H as [H|H]|];
    apply Z.eqb_eq in H as ->; reflexivity.
Qed.

(** The rest after a whole GUID: no digit; and no separator if fewer than 16
    bytes were read. *)
Lemma parse_loop_groups fuel k sep gs out rest :
  gs <> [] -> Forall group_ok gs -> is_separator sep = true ->
  no_digit rest -> skip_separator rest = rest ->
  (length (out ++ concat gs) <= 16)%nat -> (length (group_text sep gs) <= fuel)%nat ->
  parse_loop fuel k out (group_text sep gs ++ rest) = (out ++ concat gs, rest).
Proof.
  intros Hne H Hsep Hrest Hskip. revert fuel out.
  induction H as [|bs gs [Hbs Hb] Hgs IH]; [congruence|]. intros fuel out Hl Hf.
  assert (Hlen : (1 <= length bs)%nat) by (destruct bs; [congruence|cbn [length]; lia]).
  assert (Hout : (length out < 16)%nat).
  { rewrite length_app in Hl. cbn [concat] in Hl. rewrite length_app in Hl. lia. }
  assert (Hroom : (length bs <= 16 - length out)%nat).
  { rewrite length_app in Hl. cbn [concat] in Hl. rewrite length_app in Hl. lia. }
  destruct fuel as [|fuel].
  { unfold group_text in Hf. exfalso. destruct gs; cbn [map join] in Hf;
      rewrite ?length_app, length_hexes in Hf; lia. }
  cbn [parse_loop]. destruct gs as [|g2 gs].
  - unfold group_text in *. cbn [map join concat] in *. rewrite app_nil_r in *.
    rewrite starts_hexes by assumption.
    destruct (Nat.ltb_spec (length out) 16); [|lia]. cbn [andb].
    rewrite group_hexes by assumption. rewrite Hskip.
    destruct (Nat.ltb_spec (length (out ++ bs)) 16);
      apply parse_loop_stop; left; exact Hrest.
  - assert (E : group_text sep (bs :: g2 :: gs) ++ rest
                = hexes bs ++ sep :: (group_text sep (g2 :: gs) ++ rest)).
    { unfold group_text. cbn [map]. rewrite join_cons, <- app_assoc. reflexivity. }
    rewrite E, starts_hexes by assumption.
    destruct (Nat.ltb_spec (length out) 16); [|lia]. cbn [andb].
    rewrite group_hexes by (auto; apply separator_no_digit, Hsep).
    assert (Hmore : (length (out ++ bs) < 16)%nat).
    { inversion Hgs as [|? ? [Hg2 _]]; subst. destruct g2; [congruence|].
      rewrite length_app in Hl |- *. cbn [concat] in Hl.
      rewrite !length_app in Hl. cbn [length] in Hl. lia. }
    destruct (Nat.ltb_spec (length (out ++ bs)) 16); [|lia].
    cbn [skip_separator]. rewrite Hsep.
    rewrite IH; [rewrite <- app_assoc; reflexivity|discriminate| |].
    + cbn [concat] in Hl |- *. rewrite <- app_assoc. exact Hl.
    + unfold group_text in *. cbn [map] in Hf |- *. rewrite join_cons, length_app in Hf.
      cbn [length] in Hf. lia.
Qed.

(** *** The texts as C strings *)

(** Every character of a text is a hex digit in capitals or the separator. *)
Definition text_char (sep c : Z) : Prop := (exists d, 0 <= d < 16 /\ c = dchar d) \/ c = sep.

Lemma group_text_chars sep gs :
  Forall group_ok gs -> Forall (text_char sep) (group_text sep gs).
Proof.
  assert (Hx : forall bs, bytes_ok bs -> Forall (text_char sep) (hexes bs)).
  { induction 1 as [|b bs Hb _ IH]; [constructor|]. rewrite hexes_cons.
    destruct (nibbles b Hb) as (H1 & H2 & _).
    constructor; [left; eauto|constructor; [left; eauto|exact IH]]. }
  intros H. induction H as [|bs gs [_ Hb] _ IH]; [constructor|].
  unfold group_text in *. cbn [map]. destruct gs as [|g2 gs]; [apply Hx, Hb|].
  cbn [map] in *. rewrite join_cons. apply Forall_app. split; [apply Hx, Hb|].
  constructor; [right; reflexivity|exact IH].
Qed.

Lemma text_char_not sep c x :
  text_char sep x -> sep <> c -> (c < 48 \/ 58 <= c < 65 \/ 70 < c) -> x <> c.
Proof.
  intros [(d & Hd & ->)| ->] Hs Hc; [|congruence].
  destruct (dchar_bound d Hd) as [[? ?]|[? ?]]; lia.
Qed.

Lemma text_not_in sep (s : list Z) c :
  Forall (text_char sep) s -> sep <> c -> (c < 48 \/ 58 <= c < 65 \/ 70 < c) -> c ∉ s.
Proof.
  intros H Hs Hc Hin. apply (text_char_not sep c c); auto.
  exact (Forall_elem _ s c H Hin).
Qed.

(** No "::" in groups joined by ":", whatever follows. *)
Lemma find_app_none p t s :
  find p s = None -> (forall t1 t2, t = t1 ++ t2 -> t2 <> [] -> starts_with p (t2 ++ s) = false) ->
  find p (t ++ s) = None.
Proof.
  intros Hs. induction t as [|c t IH]; intros H; [exact Hs|].
  change ((c :: t) ++ s) with (c :: (t ++ s)). cbn [find].
  assert (E := H [] (c :: t) eq_refl ltac:(discriminate)).
  change ((c :: t) ++ s) with (c :: (t ++ s)) in E. rewrite E.
  rewrite IH; [reflexivity|]. intros t1 t2 -> Hne. apply (H (c :: t1) t2 eq_refl Hne).
Qed.

Lemma find_colons_hexes bs s :
  bytes_ok bs -> find (str "::") s = None -> find (str "::") (hexes bs ++ s) = None.
Proof.
  intros Hb Hs. induction Hb as [|b bs Hb' _ IH]; [exact Hs|].
  destruct (nibbles b Hb') as (H1 & H2 & _). rewrite hexes_cons. cbn [app find starts_with].
  change (str "::") with [58; 58] in *. cbn [starts_with].
  assert (N : forall d, 0 <= d < 16 -> (58 =? dchar d) = false).
  { intros d Hd. apply Z.eqb_neq. destruct (dchar_bound d Hd) as [[? ?]|[? ?]]; lia. }
  rewrite !N by assumption. cbn [andb]. cbn [find starts_with] in IH. rewrite IH. reflexivity.
Qed.

Lemma find_colons_text gs rest :
  Forall group_ok gs -> find (str "::") rest = None -> nth 0 rest 0 <> 58 ->
  find (str "::") (group_text 58 gs ++ rest) = None.
Proof.
  intros H Hr Hr0. induction H as [|bs gs [Hne Hb] Hgs IH]; [exact Hr|].
  unfold group_text in *. cbn [map]. destruct gs as [|g2 gs].
  - cbn [map join]. apply find_colons_hexes; assumption.
  - cbn [map] in *. rewrite join_cons, <- app_assoc. apply find_colons_hexes; [exact Hb|].
    set (t := join 58 (hexes g2 :: map hexes gs)) in *.
    change ((58 :: t) ++ rest) with (58 :: (t ++ rest)). cbn [find].
    assert (E : starts_with (str "::") (58 :: (t ++ rest)) = false).
    { inversion Hgs as [|? ? [Hg2 Hb2] _]; subst.
      destruct Hb2 as [|b g2 Hb2 _]; [congruence|].
      destruct (nibbles b Hb2) as (H1 & _). unfold t.
      assert (Et : exists u, join 58 (hexes (b :: g2) :: map hexes gs) = dchar (b / 16) :: u).
      { destruct gs; cbn [map]; [cbn [join]|rewrite join_cons];
          rewrite hexes_cons; eexists; reflexivity. }
      destruct Et as [u ->]. change (str "::") with [58; 58].
      cbn [app starts_with]. rewrite (proj2 (Z.eqb_neq 58 (dchar (b / 16)))); [reflexivity|].
      destruct (dchar_bound _ H1) as [[? ?]|[? ?]]; lia. }
    rewrite E, IH. reflexivity.
Qed.

(** *** Parsing a text *)

(** A text with or without braces around it. *)
Definition braces (b : bool) (s : list Z) : list Z := if b then 123 :: s ++ [125] else s.
Definition closing (b : bool) : list Z := if b then [125] else [].

Lemma closing_props b :
  no_digit (closing b) /\ skip_separator (closing b) = closing b
  /\ finish b (closing b) = [] /\ find (str "::") (closing b) = None
  /\ nth 0 (closing b) 0 <> 58.
Proof. destruct b; repeat split; discriminate. Qed.

(** The first character of a text is neither blank, brace nor end of string. *)
Definition plain (c : Z) : Prop := c <> 0 /\ c <> 32 /\ c <> 9 /\ c <> 123.

Lemma braces_front b c s :
  plain c ->
  (let p := skip_blank (braces b (c :: s)) in
   match p with
   | c :: p' => if c =? 123 then (true, skip_blank p') else (false, p)
   | [] => (false, p)
   end) = (b, c :: s ++ closing b).
Proof.
  intros (H0 & H1 & H2 & H3). cbv zeta.
  assert (E : forall t, skip_blank (c :: t) = c :: t).
  { intros t. cbn. rewrite (proj2 (Z.eqb_neq c 32) H1), (proj2 (Z.eqb_neq c 9) H2).
    reflexivity. }
  destruct b; unfold braces, closing.
  - cbn [skip_blank]. change ((123 =? 32) || (123 =? 9)) with false. cbv iota.
    change (123 =? 123) with true. cbv iota.
    change ((c :: s) ++ [125]) with (c :: (s ++ [125])). rewrite E. reflexivity.
  - rewrite E, (proj2 (Z.eqb_neq c 123) H3), app_nil_r. reflexivity.
Qed.

Lemma group_text_front sep gs :
  gs <> [] -> Forall group_ok gs ->
  exists d s, 0 <= d < 16 /\ group_text sep gs = dchar d :: s.
Proof.
  intros Hne H. destruct H as [|bs gs [Hb1 Hb2] _]; [congruence|].
  destruct Hb2 as [|b bs Hb _]; [congruence|]. destruct (nibbles b Hb) as (H1 & _).
  unfold group_text. destruct gs; cbn [map]; [cbn [join]|rewrite join_cons];
    rewrite hexes_cons; eexists _, _; split; eauto.
Qed.

Lemma dchar_plain d : 0 <= d < 16 -> plain (dchar d) /\ dchar d <> 45 /\ dchar d <> 58 /\ dchar d <> 42.
Proof. intros Hd. unfold plain. destruct (dchar_bound d Hd) as [[? ?]|[? ?]]; lia. Qed.

(** The separators of the writers. *)
Definition writer_sep (sep : Z) : Prop := sep = 58 \/ sep = 45.

Lemma find_colons_groups sep gs b :
  writer_sep sep -> Forall group_ok gs ->
  find (str "::") (group_text sep gs ++ closing b) = None.
Proof.
  intros [-> | ->] H; destruct (closing_props b) as (_ & _ & _ & F & N).
  - apply find_colons_text; assumption.
  - apply (find_none _ _ 58); [apply elem_of_cons; left; reflexivity|].
    rewrite elem_of_app. intros [Hin|Hin].
    + revert Hin. apply (text_not_in 45); [apply group_text_chars, H|lia|lia].
    + destruct b; cbn in Hin; rewrite ?elem_of_cons, elem_of_nil in Hin; intuition discriminate.
Qed.

Lemma guid_parse_groups fuel sep gs b :
  writer_sep sep -> gs <> [] -> Forall group_ok gs -> length (concat gs) = 16%nat ->
  guid_parse fuel (braces b (group_text sep gs)) = (VSCP_ERROR_SUCCESS, concat gs, []).
Proof.
  intros Hsep Hne H Hl.
  destruct (group_text_front sep gs Hne H) as (d & s & Hd & E).
  destruct (dchar_plain d Hd) as (Hp & N1 & N2 & N3).
  destruct (closing_props b) as (C1 & C2 & C3 & _ & _).
  assert (F := find_colons_groups sep gs b Hsep H).
  assert (L : forall f, (length (group_text sep gs) <= f)%nat ->
    parse_loop f true [] (group_text sep gs ++ closing b) = (concat gs, closing b)).
  { intros f Hf. rewrite parse_loop_groups; auto; [destruct Hsep as [-> | ->]; reflexivity|].
    cbn [app]. lia. }
  specialize (L (length (group_text sep gs ++ closing b)) ltac:(rewrite length_app; lia)).
  rewrite E in *. cbn [app] in F, L. destruct Hp as (P0 & P).
  assert (B := braces_front b (dchar d) s (conj P0 P)). cbv zeta in B.
  destruct fuel; cbn [guid_parse]; rewrite B; cbn [nth];
    rewrite (proj2 (Z.eqb_neq (dchar d) 0) P0), (proj2 (Z.eqb_neq (dchar d) 45) N1),
      (proj2 (Z.eqb_neq (dchar d) 58) N2), (proj2 (Z.eqb_neq (dchar d) 42) N3);
    cbn [andb orb]; rewrite ?F, L, Hl, Nat.eqb_refl, C3; reflexivity.
Qed.

(** The compact form: "::" and the bytes after the leading 0xFF. *)
Lemma guid_parse_compact fuel gs b :
  gs <> [] -> Forall group_ok gs -> (length (concat gs) <= 16)%nat ->
  guid_parse fuel (braces b (str "::" ++ group_text 58 gs))
  = (VSCP_ERROR_SUCCESS, replicate (16 - length (concat gs)) 0xFF ++ concat gs, []).
Proof.
  intros Hne H Hl. destruct (group_text_front 58 gs Hne H) as (d & s & Hd & E).
  destruct (dchar_plain d Hd) as ((P0 & _) & _).
  destruct (closing_props b) as (C1 & C2 & C3 & _ & _).
  assert (L : parseGroups (group_text 58 gs ++ closing b) = (concat gs, closing b)).
  { unfold parseGroups. rewrite parse_loop_groups; auto. rewrite length_app. lia. }
  rewrite E in *. cbn [app] in L.
  change (str "::" ++ dchar d :: s) with (58 :: 58 :: dchar d :: s).
  assert (B := braces_front b 58 (58 :: dchar d :: s) ltac:(unfold plain; lia)).
  cbv zeta in B. destruct fuel; cbn [guid_parse]; rewrite B; cbn [nth app];
    change (58 =? 0) with false; change (58 =? 45) with false; change (58 =? 58) with true;
    cbn [andb orb]; rewrite (proj2 (Z.eqb_neq (dchar d) 0) P0), isHexDigit_dchar by exact Hd;
    cbn [orb negb drop]; rewrite L, C3; reflexivity.
Qed.

Lemma guid_parse_all_ff fuel b :
  guid_parse fuel (braces b (str "::")) = (VSCP_ERROR_SUCCESS, replicate 16 0xFF, []).
Proof. destruct fuel, b; reflexivity. Qed.

(** *** The writers as texts of groups *)

Lemma concat_singletons (g : list Z) : concat (map (fun b => [b]) g) = g.
Proof. induction g as [|b g IH]; [reflexivity|]. cbn. rewrite IH. reflexivity. Qed.

Lemma hexes_singletons g : map hexes (map (fun b => [b]) g) = map hex2 g.
Proof. rewrite map_map. reflexivity. Qed.

Lemma singletons_ok g : bytes_ok g -> Forall group_ok (map (fun b => [b]) g).
Proof.
  induction 1 as [|b g Hb _ IH]; constructor; [|exact IH].
  split; [discriminate|constructor; [exact Hb|constructor]].
Qed.

Lemma toString_groups g : length g = 16%nat -> toString g = group_text 58 (map (fun b => [b]) g).
Proof.
  intros Hl. unfold toString, group_text. rewrite hexes_singletons, take_ge by lia. reflexivity.
Qed.

Definition uuid_groups (g : list Z) : list (list Z) :=
  [take 4 g; take 2 (drop 4 g); take 2 (drop 6 g); take 2 (drop 8 g); take 6 (drop 10 g)].

Lemma toStringUUID_groups g : toStringUUID g = group_text 45 (uuid_groups g).
Proof. unfold toStringUUID, hex_bytes. rewrite drop_0. reflexivity. Qed.

Lemma uuid_groups_ok g :
  length g = 16%nat -> bytes_ok g -> Forall group_ok (uuid_groups g) /\ concat (uuid_groups g) = g.
Proof.
  intros Hl H. split.
  - assert (G : forall i n, (0 < n)%nat -> (i + n <= 16)%nat -> group_ok (take n (drop i g))).
    { intros i n Hn Hi. split; [|apply Forall_take, Forall_drop, H].
      intros E. apply (f_equal length) in E. rewrite length_take, length_drop in E.
      cbn [length] in E. lia. }
    unfold uuid_groups. constructor; [apply (G 0%nat 4%nat); lia|].
    do 4 (constructor; [apply G; lia|]). constructor.
  - do 16 (destruct g as [|? g]; [discriminate Hl|]). destruct g; [reflexivity|discriminate Hl].
Qed.

Lemma leading_ff_spec g :
  g = replicate (leading_ff g) 0xFF ++ drop (leading_ff g) g /\ (leading_ff g <= length g)%nat.
Proof.
  induction g as [|b g [IH1 IH2]]; [split; [reflexivity|cbn; lia]|].
  cbn [leading_ff]. destruct (Z.eqb_spec b 0xFF) as [->|].
  - cbn [replicate drop app length]. split; [f_equal; exact IH1|lia].
  - split; [reflexivity|cbn; lia].
Qed.

(** The characters of a text end no C string. *)
Lemma braces_c_str b sep pre gs :
  Forall group_ok gs -> sep <> 0 -> 0 ∉ pre ->
  c_str (braces b (pre ++ group_text sep gs)) = braces b (pre ++ group_text sep gs).
Proof.
  intros H Hs Hp. apply c_str_id.
  assert (N : 0 ∉ pre ++ group_text sep gs).
  { rewrite elem_of_app. intros [Hin|Hin]; [exact (Hp Hin)|].
    revert Hin. apply (text_not_in sep); [apply group_text_chars, H|exact Hs|lia]. }
  destruct b; unfold braces; [|exact N].
  rewrite elem_of_cons, elem_of_app, elem_of_cons, elem_of_nil. intuition discriminate.
Qed.

Lemma sample_guid_bytes : bytes_ok (GUID sample_event) /\ length (GUID sample_event) = 16%nat.
Proof. split; [by_decide|reflexivity]. Qed.

Lemma text_roundtrip_lemma format g b :
  length g = 16%nat -> bytes_ok g ->
  vscp_guid_parse (braces b (guid_text format g)) = (VSCP_ERROR_SUCCESS, g, []).
Proof.
  intros Hl H. unfold vscp_guid_parse.
  assert (S : forall sep gs, writer_sep sep -> gs <> [] -> Forall group_ok gs -> concat gs = g ->
    (let s := c_str (braces b (group_text sep gs)) in guid_parse (length s) s)
    = (VSCP_ERROR_SUCCESS, g, [])).
  { intros sep gs Hs Hne Hg E. cbv zeta. change (group_text sep gs) with ([] ++ group_text sep gs).
    rewrite braces_c_str
      by first [exact Hg | apply not_elem_of_nil | destruct Hs as [-> | ->]; discriminate].
    cbn [app]. rewrite guid_parse_groups by (auto; rewrite E; exact Hl). rewrite E. reflexivity. }
  assert (Hnorm : (let s := c_str (braces b (toString g)) in guid_parse (length s) s)
                  = (VSCP_ERROR_SUCCESS, g, [])).
  { rewrite toString_groups by exact Hl. apply S; [left; reflexivity| |apply singletons_ok, H|].
    - destruct g; [discriminate Hl|discriminate].
    - apply concat_singletons. }
  destruct format; cbn [guid_text]; [exact Hnorm| |].
  - unfold toStringCompact. rewrite take_ge by lia.
    destruct (leading_ff_spec g) as [E Hle]. set (k := leading_ff g) in *.
    destruct (Nat.eqb_spec k 16) as [Ek|Ek].
    + cbv zeta. rewrite c_str_id by (destruct b; cbn; by_decide). rewrite guid_parse_all_ff.
      rewrite E, Ek, drop_ge, app_nil_r by lia. reflexivity.
    + destruct (Nat.eqb_spec k 0); [exact Hnorm|].
      set (t := drop k g) in *. assert (Ht : length t = (16 - k)%nat) by (unfold t; rewrite length_drop; lia).
      assert (Hb : bytes_ok t) by apply Forall_drop, H.
      assert (T : join 58 (map hex2 t) = group_text 58 (map (fun b => [b]) t))
        by (unfold group_text; rewrite hexes_singletons; reflexivity).
      rewrite T. cbv zeta.
      rewrite braces_c_str by first [apply singletons_ok, Hb | discriminate | by_decide].
      rewrite guid_parse_compact; [|..].
      * rewrite !concat_singletons, Ht. replace (16 - (16 - k))%nat with k by lia.
        rewrite <- E. reflexivity.
      * destruct t; [cbn [length] in Ht; lia|discriminate].
      * apply singletons_ok, Hb.
      * rewrite concat_singletons. lia.
  - rewrite toStringUUID_groups. destruct (uuid_groups_ok g Hl H) as [U1 U2].
    apply S; [right; reflexivity|discriminate|exact U1|exact U2].
Qed.

(** *** Every string *)

Lemma land_255_u8 x : is_u8 (Z.land x 255).
Proof. rewrite land_255. width. Qed.

Lemma parseHexValue_rest n p v : (length (snd (parseHexValue n p v)) <= length p)%nat.
Proof.
  revert p v. induction n as [|n IH]; intros [|c p] v; cbn; try lia.
  destruct (isHexDigit c); cbn; [|lia]. specialize (IH p (u32 (Z.lor (u32 (Z.shiftl v 4)) (hexToVal c)))).
  lia.
Qed.

Lemma parseHexValue_step n c p v :
  isHexDigit c = true -> (length (snd (parseHexValue (S n) (c :: p) v)) <= length p)%nat.
Proof. intros E. cbn [parseHexValue]. rewrite E. apply parseHexValue_rest. Qed.

Lemma pair_bytes_spec n p bs rest :
  pair_bytes n p = (bs, rest) ->
  (length bs <= n)%nat /\ bytes_ok bs /\ (length rest <= length p)%nat
  /\ ((0 < n)%nat -> p <> [] -> bs <> [] /\ (length rest < length p)%nat).
Proof.
  revert p bs rest. induction n as [|n IH]; intros p bs rest E.
  { cbn in E. injection E as <- <-. repeat split; try lia; constructor. }
  destruct p as [|h p].
  { injection E as <- <-. cbn. repeat split; try lia; try constructor; congruence. }
  cbn [pair_bytes] in E.
  assert (G : exists low q, match p with
                | l :: q => if isHexDigit l then (hexToVal l, q) else (0, p)
                | [] => (0, [])
                end = (low, q) /\ (length q <= length p)%nat).
  { destruct p as [|l q]; [eauto|]. destruct (isHexDigit l); eexists _, _;
      (split; [reflexivity|cbn; lia]). }
  destruct G as (low & q & Eq & Hq). rewrite Eq in E.
  destruct (pair_bytes n q) as [bs' rest'] eqn:E'. injection E as <- <-.
  destruct (IH q bs' rest' E') as (I1 & I2 & I3 & _). cbn [length].
  repeat split; try lia; [constructor; [apply u8_ok|exact I2]|discriminate].
Qed.

(** A group gives one byte or more, fits the room, and consumes a digit. *)
Lemma group_spec k room p bs rest :
  (0 < room)%nat -> starts_digit 16 p = true -> group k room p = (bs, rest) ->
  (0 < length bs <= room)%nat /\ bytes_ok bs /\ (length rest < length p)%nat.
Proof.
  intros Hr Hs. unfold group. destruct p as [|c p]; [discriminate|].
  cbn [starts_digit] in Hs. change (is_digit 16 c) with (isHexDigit c) in Hs.
  assert (H2 := parseHexValue_step 1 c p 0 Hs). assert (H4 := parseHexValue_step 3 c p 0 Hs).
  set (n := countHexDigits (c :: p)).
  destruct (Nat.leb_spec n 2); [|destruct (Nat.leb_spec n 4)].
  - destruct (parseHexValue 2 (c :: p) 0) as [v q]. cbn [snd] in H2. intros [= <- <-].
    cbn [length]. repeat split; try lia. constructor; [apply u8_ok|constructor].
  - destruct (parseHexValue 4 (c :: p) 0) as [v q]. cbn [snd] in H4.
    change 0xFF with 255. cbn [length] in *.
    destruct (Nat.leb_spec 2 room); [|destruct k]; intros [= <- <-]; cbn [length];
      repeat split; try lia; repeat (constructor; [apply land_255_u8|]); constructor.
  - intros E. destruct (pair_bytes_spec _ _ _ _ E) as (P1 & P2 & _ & P4).
    assert (Hn : (2 < (n + 1) / 2 * 2 + 2)%nat).
    { pose proof (Nat.div_mod (n + 1) 2 ltac:(lia)). pose proof (Nat.mod_upper_bound (n + 1) 2).
      lia. }
    assert (Hpos : (0 < Nat.min ((n + 1) / 2) room)%nat).
    { apply Nat.min_glb_lt; [|lia]. apply Nat.div_str_pos. lia. }
    destruct (P4 Hpos ltac:(discriminate)) as [Q1 Q2].
    split; [|split; assumption]. destruct bs; [congruence|]. cbn [length] in *. lia.
Qed.

Lemma skip_separator_length p : (length (skip_separator p) <= length p)%nat.
Proof. destruct p as [|c p]; cbn; [lia|]. destruct (is_separator c); cbn; lia. Qed.

Lemma parse_loop_bytes fuel k out p :
  bytes_ok out -> (length out <= 16)%nat ->
  bytes_ok (fst (parse_loop fuel k out p)) /\ (length (fst (parse_loop fuel k out p)) <= 16)%nat.
Proof.
  revert out p. induction fuel as [|f IH]; intros out p Ho Hl; [auto|]. cbn [parse_loop].
  destruct (starts_digit 16 p) eqn:Hs; [|auto]. destruct (Nat.ltb_spec (length out) 16); [|auto].
  cbn [andb]. destruct (group k (16 - length out) p) as [bs q] eqn:E.
  apply group_spec in E as (G1 & G2 & G3); [|lia|exact Hs].
  apply IH; [apply Forall_app; auto|rewrite length_app; lia].
Qed.

(** The length of the string is enough fuel for the loop over the groups. *)
Lemma parse_loop_fuel f1 f2 k out p :
  (length p <= f1)%nat -> (length p <= f2)%nat -> parse_loop f1 k out p = parse_loop f2 k out p.
Proof.
  revert f2 out p. induction f1 as [|f1 IH]; intros f2 out p H1 H2.
  { destruct p; [|cbn [length] in H1; lia]. rewrite !parse_loop_stop by (left; reflexivity). reflexivity. }
  destruct f2 as [|f2].
  { destruct p; [|cbn [length] in H2; lia]. rewrite !parse_loop_stop by (left; reflexivity). reflexivity. }
  cbn [parse_loop]. destruct (starts_digit 16 p) eqn:Hs; [|reflexivity].
  destruct (Nat.ltb_spec (length out) 16); [|reflexivity]. cbn [andb].
  destruct (group k (16 - length out) p) as [bs q] eqn:E.
  apply group_spec in E as (_ & _ & G3); [|lia|exact Hs].
  assert (Hq := skip_separator_length q).
  apply IH; destruct (_ <? 16)%nat; lia.
Qed.

Lemma skip_blank_length p : (length (skip_blank p) <= length p)%nat.
Proof. induction p as [|c p IH]; cbn; [lia|]. destruct (_ || _); cbn; lia. Qed.

Lemma find_bound p s k : find p s = Some k -> (k + length p <= length s)%nat.
Proof.
  revert k. induction s as [|c s IH]; intros k; cbn [find].
  - destruct (starts_with p []) eqn:E; [|discriminate]. intros [= <-].
    apply starts_with_length in E. cbn in *. lia.
  - destruct (starts_with p (c :: s)) eqn:E.
    + intros [= <-]. apply starts_with_length in E. lia.
    + destruct (find p s) as [k'|]; [|discriminate]. intros [= <-].
      specialize (IH k' eq_refl). cbn [length]. lia.
Qed.

(** The pointer after the opening brace. *)
Definition open_brace (strguid : list Z) : bool * list Z :=
  let p := skip_blank strguid in
  match p with
  | c :: p' => if c =? 123 then (true, skip_blank p') else (false, p)
  | [] => (false, p)
  end.

Lemma open_brace_length s : (length (snd (open_brace s)) <= length s)%nat.
Proof.
  unfold open_brace. pose proof (skip_blank_length s). destruct (skip_blank s) as [|c p]; [auto|].
  pose proof (skip_blank_length p). destruct (c =? 123); cbn [snd length] in *; lia.
Qed.

(** The result is always 16 bytes. *)
Definition result_ok (r : parse_result) : Prop :=
  let '(rc, g, _) := r in
  (rc = VSCP_ERROR_SUCCESS \/ rc = VSCP_ERROR_INVALID_SYNTAX)
  /\ length g = 16%nat /\ bytes_ok g.

Lemma filled_ok x trailing :
  is_u8 x -> bytes_ok trailing -> (length trailing <= 16)%nat ->
  length (replicate (16 - length trailing) x ++ trailing) = 16%nat
  /\ bytes_ok (replicate (16 - length trailing) x ++ trailing).
Proof.
  intros Hx Hb Hl. split; [rewrite length_app, length_replicate; lia|].
  apply Forall_app. split; [apply Forall_replicate, Hx|exact Hb].
Qed.

Lemma parseGroups_ok p :
  bytes_ok (fst (parseGroups p)) /\ (length (fst (parseGroups p)) <= 16)%nat.
Proof. apply parse_loop_bytes; [constructor|cbn; lia]. Qed.

Lemma pad16_ok out : bytes_ok out -> length (pad16 out) = 16%nat /\ bytes_ok (pad16 out).
Proof.
  intros H. unfold pad16. split.
  - rewrite length_take, length_app. unfold zeros. rewrite length_replicate. lia.
  - apply Forall_take, Forall_app. split; [exact H|]. apply Forall_replicate. width.
Qed.

Lemma u8_0 : is_u8 0. Proof. width. Qed.
Lemma u8_255 : is_u8 255. Proof. width. Qed.

Lemma guid_parse_ok fuel s : result_ok (guid_parse fuel s).
Proof.
  revert s. induction fuel as [|f IH]; intros s; cbn [guid_parse]; fold (open_brace s);
    destruct (open_brace s) as [hb p]; cbv zeta.
  all: assert (Z16 : length (zeros 16) = 16%nat /\ bytes_ok (zeros 16))
         by (split; [reflexivity|apply Forall_replicate, u8_0]).
  all: assert (F16 : length (replicate 16 255) = 16%nat /\ bytes_ok (replicate 16 255))
         by (split; [reflexivity|apply Forall_replicate, u8_255]).
  all: destruct (nth 0 p 0 =? 0); [split; [auto|exact Z16]|].
  all: destruct (parseGroups_ok (drop 2 p)) as [G1 G2].
  all: destruct (parseGroups (drop 2 p)) as [tr q]; cbn [fst] in G1, G2.
  all: destruct ((nth 0 p 0 =? 45) && (nth 1 p 0 =? 58));
         [split; [auto|apply (filled_ok 0); auto using u8_0]|].
  all: destruct ((nth 0 p 0 =? 45) && _); [split; [auto|exact Z16]|].
  all: destruct ((nth 0 p 0 =? 58) && (nth 1 p 0 =? 58) || _).
  1,3: destruct (_ || _); [split; [auto|exact F16]|
         split; [auto|apply (filled_ok 255); auto using u8_255]].
  all: destruct (parse_loop_bytes (length p) true [] p ltac:(constructor) ltac:(cbn; lia)) as [L1 L2].
  all: destruct (parse_loop (length p) true [] p) as [out q'] eqn:EL; cbn [fst] in L1, L2.
  all: assert (R : result_ok (if (length out =? 16)%nat
                    then (VSCP_ERROR_SUCCESS, out, finish hb q')
                    else (VSCP_ERROR_INVALID_SYNTAX, pad16 out, q')))
         by (destruct (Nat.eqb_spec (length out) 16) as [E|];
             [split; [auto|split; [exact E|exact L1]]|split; [auto|apply pad16_ok, L1]]).
  1: exact R.
  destruct (find (str "::") p) as [m|]; [|exact R].
  assert (A := IH (take m p)). assert (B := IH (drop (m + 2) p)).
  destruct (guid_parse f (take m p)) as [[r1 g1] e1], (guid_parse f (drop (m + 2) p)) as [[r2 g2] e2].
  destruct A as (_ & A1 & A2), B as (_ & B1 & B2).
  set (n1 := Nat.min _ 16). set (n2 := Nat.min _ (16 - n1)).
  assert (n1 <= 16)%nat by (unfold n1; lia). assert (n2 <= 16 - n1)%nat by (unfold n2; lia).
  split; [auto|split].
  - unfold zeros. rewrite !length_app, !length_take, length_replicate. lia.
  - rewrite !Forall_app. split; [apply Forall_take, A2|].
    split; [apply Forall_replicate, u8_0|apply Forall_take, B2].
Qed.

(** The length of the string is enough fuel for the recursion on "::". *)
Lemma guid_parse_fuel f1 f2 s :
  (length s <= f1)%nat -> (length s <= f2)%nat -> guid_parse f1 s = guid_parse f2 s.
Proof.
  revert f2 s. induction f1 as [|f1 IH]; intros f2 s H1 H2.
  { destruct s; [|cbn [length] in H1; lia]. destruct f2; reflexivity. }
  destruct f2 as [|f2].
  { destruct s; [reflexivity|cbn [length] in H2; lia]. }
  cbn [guid_parse]. fold (open_brace s). pose proof (open_brace_length s) as Hp.
  destruct (open_brace s) as [hb p]. cbn [snd] in Hp. cbv zeta.
  destruct (find (str "::") p) as [m|] eqn:F; [|reflexivity].
  apply find_bound in F. change (length (str "::")) with 2%nat in F.
  rewrite (IH f2 (take m p)), (IH f2 (drop (m + 2) p));
    try (rewrite length_take; lia); try (rewrite length_drop; lia). reflexivity.
Qed.

(** *** Tokens of vscp_setEventGuidFromString *)

Definition guid_token_check (b : Z) : bool := guid_token (hex2 b) =? b.

Lemma guid_token_checked :
  all_below 256 guid_token_check = true
  /\ all_below 256 (fun b => match stoll (c_str (hex2 b)) 16 with
                             | Some (v, _) => u8 v =? b | None => false end) = true.
Proof. split; vm_compute; reflexivity. Qed.

Lemma guid_token_hex b : is_u8 b -> guid_token (hex2 b) = b.
Proof.
  intros Hb. apply Z.eqb_eq.
  apply (all_below_spec 256 guid_token_check); [apply guid_token_checked|width].
Qed.

Lemma map_guid_token g : bytes_ok g -> map guid_token (map hex2 g) = g.
Proof.
  induction 1 as [|b g Hb _ IH]; [reflexivity|]. cbn [map]. rewrite guid_token_hex, IH by exact Hb.
  reflexivity.
Qed.

Lemma toString_props g :
  length g = 16%nat -> bytes_ok g ->
  vscp_split (toString g) (str ":") = map hex2 g
  /\ no_space (toString g) /\ toString g <> str "-" /\ (length (toString g) =? 0)%nat = false
  /\ (44 ∉ toString g).
Proof.
  intros Hl H.
  assert (Hg : Forall group_ok (map (fun b => [b]) g)) by apply singletons_ok, H.
  assert (Hc := group_text_chars 58 _ Hg). rewrite <- toString_groups in Hc by exact Hl.
  assert (E : exists d s, 0 <= d < 16 /\ toString g = dchar d :: s).
  { rewrite toString_groups by exact Hl. apply group_text_front; [|exact Hg].
    destruct g; [discriminate Hl|discriminate]. }
  destruct E as (d & s & Hd & E). split_and!.
  - unfold toString. rewrite take_ge by lia. apply split_join.
    + apply List.Forall_forall. intros t Ht. apply in_map_iff in Ht as (b & <- & Hb).
      rewrite List.Forall_forall in H. destruct (nibbles b (H b Hb)) as (N1 & N2 & _).
      unfold hex2. rewrite !elem_of_cons, elem_of_nil.
      destruct (dchar_bound _ N1) as [[? ?]|[? ?]], (dchar_bound _ N2) as [[? ?]|[? ?]]; lia.
    + unfold toString in E. rewrite take_ge in E by lia. rewrite E. discriminate.
  - apply List.Forall_forall. intros c Hin. rewrite List.Forall_forall in Hc.
    destruct (Hc c Hin) as [(x & Hx & ->)| ->]; [|reflexivity].
    apply (digit_not_space _ x), digit_value_dchar, Hx.
  - rewrite E. change (str "-") with [45]. intros [= E' _]. destruct (dchar_plain d Hd) as (_ & N & _). congruence.
  - rewrite E. reflexivity.
  - apply (text_not_in 58); [exact Hc|lia|lia].
Qed.

(** vscp_setEventGuidFromString reads the standard form. *)
Lemma setEventGuid_toString e g :
  length g = 16%nat -> bytes_ok g -> length (GUID e) = 16%nat ->
  vscp_setEventGuidFromString (Some e) (toString g) = (true, Some (set_GUID g e)).
Proof.
  intros Hl H He. destruct (toString_props g Hl H) as (P1 & P2 & P3 & P4 & _).
  unfold vscp_setEventGuidFromString. rewrite trim_id, P4, bool_decide_false by assumption.
  cbn [orb]. rewrite P1, take_ge, map_guid_token by (auto; rewrite length_map; lia).
  rewrite drop_ge, app_nil_r by lia. reflexivity.
Qed.

(** The Ex variant on the standard form: one byte. *)
Lemma setEventExGuid_toString b g :
  length (b :: g) = 16%nat -> bytes_ok (b :: g) ->
  vscp_setEventExGuidFromString (toString (b :: g)) = ExGuid (b :: zeros 15).
Proof.
  intros Hl H. destruct (toString_props _ Hl H) as (P1 & _ & P3 & _).
  unfold vscp_setEventExGuidFromString. rewrite bool_decide_false by exact P3.
  rewrite P1. inversion H as [|? ? Hb _]; subst.
  destruct g as [|b2 g]; [discriminate Hl|].
  assert (T := all_below_spec 256 _ b (proj2 guid_token_checked) ltac:(width)). cbv beta in T.
  cbn [map ex_guid_loop].
  destruct (stoll (c_str (hex2 b)) 16) as [[v r]|]; [|discriminate].
  apply Z.eqb_eq in T. rewrite T. reflexivity.
Qed.

(** ** Properties *)

(** Every GUID survives writing and parsing: the standard form
    (FF:FF:...), the compact form (:: for the leading 0xFF bytes) and the UUID
    form are parsed by vscp_guid_parse to the same 16 bytes, with success and
    the end pointer at the end of the string, also inside braces. *)
Theorem guid_text_roundtrip (format : vscp_guid_str_format) (g : list Z) (inbraces : bool) :
  length g = 16%nat -> bytes_ok g ->
  vscp_guid_parse (braces inbraces (guid_text format g)) = (VSCP_ERROR_SUCCESS, g, []).
Proof. apply text_roundtrip_lemma. Qed.

Lemma guid_text_roundtrip_witness :
  vscp_guid_parse (braces true (guid_text VSCP_GUID_STR_FORMAT_COMPACT (GUID sample_event)))
  = (VSCP_ERROR_SUCCESS, GUID sample_event, []).
Proof.
  apply (guid_text_roundtrip VSCP_GUID_STR_FORMAT_COMPACT (GUID sample_event) true);
    [reflexivity|by_decide].
Defined.

(** Vscp_guid_parse ends on every string, with success or a syntax error,
    and always leaves 16 bytes in the array, never more: the loops over groups,
    pairs and the parts around "::" stay inside it.  More fuel than the length
    of the string does not change the result. *)
Theorem guid_parse_total (s : list Z) (fuel : nat) :
  (length (c_str s) <= fuel)%nat ->
  guid_parse fuel (c_str s) = vscp_guid_parse s
  /\ let '(rc, guid, _) := vscp_guid_parse s in
     (rc = VSCP_ERROR_SUCCESS \/ rc = VSCP_ERROR_INVALID_SYNTAX)
     /\ length guid = 16%nat /\ bytes_ok guid.
Proof.
  intros Hf. split; [apply guid_parse_fuel; lia|]. apply guid_parse_ok.
Qed.

Lemma guid_parse_total_witness :
  guid_parse 40 (c_str (str "{ 12:34:::5678::9 zz")) = vscp_guid_parse (str "{ 12:34:::5678::9 zz")
  /\ let '(rc, guid, _) := vscp_guid_parse (str "{ 12:34:::5678::9 zz") in
     (rc = VSCP_ERROR_SUCCESS \/ rc = VSCP_ERROR_INVALID_SYNTAX)
     /\ length guid = 16%nat /\ bytes_ok guid.
Proof. apply (guid_parse_total (str "{ 12:34:::5678::9 zz") 40). apply Nat.leb_le. reflexivity. Defined.

(** Vscp_setEventGuidFromString reads back what vscp_writeGuidToString
    writes in the standard form, but vscp_setEventExGuidFromString stops as
    soon as tokens remain instead of when none do: of the sixteen bytes it keeps
    the first, and for a string of one token it reads the front of an empty
    queue. *)
Theorem set_guid_from_string (e : vscpEvent) (b : Z) (g : list Z) :
  event_ok e -> length (b :: g) = 16%nat -> bytes_ok (b :: g) ->
  vscp_setEventGuidFromString (Some e) (toString (b :: g)) = (true, Some (set_GUID (b :: g) e))
  /\ vscp_setEventExGuidFromString (toString (b :: g)) = ExGuid (b :: zeros 15)
  /\ vscp_setEventExGuidFromString (hex2 b) = ExUndefined.
Proof.
  intros He Hl H. split; [apply setEventGuid_toString; [exact Hl|exact H|apply He]|].
  split; [apply setEventExGuid_toString; assumption|].
  inversion H as [|? ? Hb _]; subst. unfold vscp_setEventExGuidFromString.
  rewrite bool_decide_false by discriminate.
  assert (S : vscp_split (hex2 b) (str ":") = [hex2 b]).
  { apply (split_join 58 [hex2 b]); [|discriminate].
    constructor; [|constructor]. destruct (nibbles b Hb) as (N1 & N2 & _).
    unfold hex2. rewrite !elem_of_cons, elem_of_nil.
    destruct (dchar_bound _ N1) as [[? ?]|[? ?]], (dchar_bound _ N2) as [[? ?]|[? ?]]; lia. }
  rewrite S. assert (T := all_below_spec 256 _ b (proj2 guid_token_checked) ltac:(width)).
  cbv beta in T. cbn [ex_guid_loop].
  destruct (stoll (c_str (hex2 b)) 16) as [[v r]|]; [reflexivity|discriminate].
Qed.

Lemma set_guid_from_string_witness :
  vscp_setEventExGuidFromString (toString (GUID sample_event)) = ExGuid (0xff :: zeros 15).
Proof.
  apply (set_guid_from_string sample_event 0xff (drop 1 (GUID sample_event)));
    [apply sample_event_ok|reflexivity|by_decide].
Defined.

(** The client id and the nickname id of a GUID are separate 16-bit fields:
    each setter is read back by its getter, leaves the other field and all other
    bytes alone, and keeps the GUID well-formed. *)
Theorem guid_id_fields (g : list Z) (id : Z) :
  length g = 16%nat -> bytes_ok g -> is_u16 id ->
  getClientID (setClientID id g) = id
  /\ getNicknameID (setClientID id g) = getNicknameID g
  /\ getNicknameID (setNicknameID id g) = id
  /\ getClientID (setNicknameID id g) = getClientID g
  /\ take 12 (setClientID id g) = take 12 g
  /\ take 14 (setNicknameID id g) = take 14 g
  /\ bytes_ok (setClientID id g) /\ bytes_ok (setNicknameID id g).
Proof.
  intros Hl H Hid.
  do 16 (destruct g as [|? g]; [discriminate Hl|]). destruct g; [|discriminate Hl].
  assert (E : forall x, u16 (u16 (Z.shiftl (Z.land (Z.shiftr x 8) 255) 8) + Z.land x 255) = u16 x).
  { intros x. rewrite !land_255, shiftl_mul, shiftr_div by lia. width. }
  assert (E' : u16 (Z.shiftl (Z.land (Z.shiftr id 8) 255) 8 + Z.land id 255) = id).
  { rewrite !land_255, shiftl_mul, shiftr_div by lia. width. }
  split_and!; try reflexivity.
  - transitivity (u16 id); [apply E|apply u16_id, Hid].
  - exact E'.
  - unfold setClientID. change 0xff with 255.
    apply Forall_insert; [apply Forall_insert; [exact H|]|]; apply land_255_u8.
  - unfold setNicknameID. change 0xff with 255.
    apply Forall_insert; [apply Forall_insert; [exact H|]|]; apply land_255_u8.
Qed.

Lemma guid_id_fields_witness :
  getClientID (setClientID 0x1234 (GUID sample_event)) = 0x1234
  /\ getNicknameID (setClientID 0x1234 (GUID sample_event)) = 1.
Proof.
  destruct (guid_id_fields (GUID sample_event) 0x1234) as (H1 & H2 & _);
    [reflexivity|by_decide|width|]. exact (conj H1 H2).
Defined.
