(* ===== verification/Filter.v ===== *)
(** * Event filters: the filter functions of vscphelper.cpp *)

From S2P Require Import Prelude Event Strings Guid.

Record vscpEventFilter := Filter {
  filter_priority : Z; mask_priority : Z;
  filter_class : Z; mask_class : Z;
  filter_type : Z; mask_type : Z;
  filter_GUID : list Z; mask_GUID : list Z
}.

Record filter_ok (f : vscpEventFilter) : Prop := {
  fprio_ok : is_u8 (filter_priority f); mprio_ok : is_u8 (mask_priority f);
  fclass_ok : is_u16 (filter_class f); mclass_ok : is_u16 (mask_class f);
  ftype_ok : is_u16 (filter_type f); mtype_ok : is_u16 (mask_type f);
  fguid_ok : length (filter_GUID f) = 16%nat /\ bytes_ok (filter_GUID f);
  mguid_ok : length (mask_GUID f) = 16%nat /\ bytes_ok (mask_GUID f)
}.

(** [full != (T)(~(filter ^ value) | ~mask)], for the 16-bit and 8-bit fields. *)
Definition mismatch16 (filter value mask : Z) : bool :=
  negb (0xffff =? u16 (Z.lor (Z.lnot (Z.lxor filter value)) (Z.lnot mask))).
Definition mismatch8 (filter value mask : Z) : bool :=
  negb (0xff =? u8 (Z.lor (Z.lnot (Z.lxor filter value)) (Z.lnot mask))).

(** The tests of both functions, in their order: class, type, GUID bytes,
    priority; the first mismatch returns false. *)
Definition filter_tests (f : vscpEventFilter) (cls typ : Z) (guid : list Z) (priority : Z) : bool :=
  if mismatch16 (filter_class f) cls (mask_class f) then false
  else if mismatch16 (filter_type f) typ (mask_type f) then false
  else if existsb (fun i => mismatch8 (nth i (filter_GUID f) 0) (nth i guid 0)
                              (nth i (mask_GUID f) 0)) (seq 0 16)
  then false
  else negb (mismatch8 (filter_priority f) priority (mask_priority f)).

Definition vscp_doLevel2Filter (pev : option vscpEvent) (pFilter : option vscpEventFilter) : bool :=
  match pFilter, pev with
  | None, _ => true
  | Some _, None => false
  | Some f, Some e =>
      filter_tests f (vscp_class e) (vscp_type e) (GUID e) (vscp_getEventPriority (Some e))
  end.

Definition vscp_doLevel2FilterEx (pex : option vscpEventEx) (pFilter : option vscpEventFilter)
  : bool :=
  match pFilter, pex with
  | None, _ => false
  | Some _, None => false
  | Some f, Some x =>
      filter_tests f (xclass x) (xtype x) (xGUID x) (vscp_getEventExPriority (Some x))
  end.

Definition vscp_clearVSCPFilter (pFilter : option vscpEventFilter) : option vscpEventFilter :=
  match pFilter with
  | None => None
  | Some _ => Some (Filter 0 0 0 0 0 0 (zeros 16) (zeros 16))
  end.

(** The new content of the target. *)
Definition vscp_copyVSCPFilter (pTo pFrom : option vscpEventFilter) : option vscpEventFilter :=
  match pTo, pFrom with
  | Some _, Some f =>
      Some (Filter (filter_priority f) (mask_priority f) (filter_class f) (mask_class f)
              (filter_type f) (mask_type f) (filter_GUID f) (mask_GUID f))
  | _, _ => pTo
  end.

(** ** Text *)

(** Four tokens from the front of the queue (priority, class, type, GUID), the
    missing ones leave zero; the remaining tokens, or [None] after the early
    return for a missing number. *)
Definition read_four (tokens : list (list Z)) : (Z * Z * Z * list Z) * option (list (list Z)) :=
  match tokens with
  | [] => ((0, 0, 0, zeros 16), None)
  | p :: tokens =>
      let p := u8 (vscp_readStringValue p) in
      match tokens with
      | [] => ((p, 0, 0, zeros 16), None)
      | c :: tokens =>
          let c := u16 (vscp_readStringValue c) in
          match tokens with
          | [] => ((p, c, 0, zeros 16), None)
          | t :: tokens =>
              let t := u16 (vscp_readStringValue t) in
              match tokens with
              | [] => ((p, c, t, zeros 16), Some [])
              | g :: tokens => ((p, c, t, vscp_getGuidFromStringToArray g), Some tokens)
              end
          end
      end
  end.

Definition vscp_readFilterFromString (pFilter : option vscpEventFilter) (strFilter : list Z)
  : bool * option vscpEventFilter :=
  match pFilter with
  | None => (false, None)
  | Some f =>
      let '((p, c, t, g), _) := read_four (vscp_split strFilter (str ",")) in
      (true, Some (Filter p (mask_priority f) c (mask_class f) t (mask_type f) g (mask_GUID f)))
  end.

Definition vscp_readMaskFromString (pFilter : option vscpEventFilter) (strMask : list Z)
  : bool * option vscpEventFilter :=
  match pFilter with
  | None => (false, None)
  | Some f =>
      let '((p, c, t, g), _) := read_four (vscp_split strMask (str ",")) in
      (true, Some (Filter (filter_priority f) p (filter_class f) c (filter_type f) t
                     (filter_GUID f) g))
  end.

Definition vscp_readFilterMaskFromString (pFilter : option vscpEventFilter)
    (strFilterMask : list Z) : bool * option vscpEventFilter :=
  match pFilter with
  | None => (false, None)
  | Some _ =>
      let '((p, c, t, g), rest) := read_four (vscp_split strFilterMask (str ",")) in
      let '((mp, mc, mt, mg), _) :=
        read_four (match rest with Some tokens => tokens | None => [] end) in
      (true, Some (Filter p mp c mc t mt g mg))
  end.

(** "%d,%d,%d,%s". *)
Definition four_text (p c t : Z) (g : list Z) : list Z :=
  dec p ++ str "," ++ dec c ++ str "," ++ dec t ++ str "," ++ toString g.

Definition vscp_writeFilterToString (pFilter : option vscpEventFilter) : option (list Z) :=
  match pFilter with
  | None => None
  | Some f => Some (four_text (filter_priority f) (filter_class f) (filter_type f) (filter_GUID f))
  end.

Definition vscp_writeMaskToString (pFilter : option vscpEventFilter) : option (list Z) :=
  match pFilter with
  | None => None
  | Some f => Some (four_text (mask_priority f) (mask_class f) (mask_type f) (mask_GUID f))
  end.

(** ** Lemmas *)

(** A field passes when it agrees with the filter on the bits of the mask. *)
Lemma masked_bits n filter value mask :
  0 <= n -> 0 <= filter < 2 ^ n -> 0 <= value < 2 ^ n -> 0 <= mask < 2 ^ n ->
  (Z.lor (Z.lnot (Z.lxor filter value)) (Z.lnot mask)) mod 2 ^ n = 2 ^ n - 1
  <-> Z.land filter mask = Z.land value mask.
Proof.
  intros Hn Hf Hv Hm. replace (2 ^ n - 1) with (Z.ones n) by (rewrite Z.ones_equiv; lia).
  split; intros E; apply Z.bits_inj'; intros i Hi.
  - rewrite !Z.land_spec. destruct (Z.ltb_spec i n).
    + apply (f_equal (fun x => Z.testbit x i)) in E.
      rewrite Z.mod_pow2_bits_low, Z.ones_spec_low, Z.lor_spec, !Z.lnot_spec, Z.lxor_spec in E by lia.
      destruct (Z.testbit filter i), (Z.testbit value i), (Z.testbit mask i); (reflexivity || discriminate).
    + rewrite (testbit_above mask n) by lia. rewrite !andb_false_r. reflexivity.
  - destruct (Z.ltb_spec i n).
    + rewrite Z.mod_pow2_bits_low, Z.ones_spec_low, Z.lor_spec, !Z.lnot_spec, Z.lxor_spec by lia.
      apply (f_equal (fun x => Z.testbit x i)) in E. rewrite !Z.land_spec in E.
      destruct (Z.testbit filter i), (Z.testbit value i), (Z.testbit mask i); (reflexivity || discriminate).
    + rewrite Z.mod_pow2_bits_high, Z.ones_spec_high by lia. reflexivity.
Qed.

Lemma mismatch16_spec f v m :
  is_u16 f -> is_u16 v -> is_u16 m -> mismatch16 f v m = false <-> Z.land f m = Z.land v m.
Proof.
  intros Hf Hv Hm. unfold mismatch16. rewrite negb_false_iff, Z.eqb_eq.
  rewrite <- (masked_bits 16 f v m) by (assumption || lia). unfold u16.
  change (2 ^ 16 - 1) with 0xffff. split; congruence.
Qed.

Lemma mismatch8_spec f v m :
  is_u8 f -> is_u8 v -> is_u8 m -> mismatch8 f v m = false <-> Z.land f m = Z.land v m.
Proof.
  intros Hf Hv Hm. unfold mismatch8. rewrite negb_false_iff, Z.eqb_eq.
  rewrite <- (masked_bits 8 f v m) by (assumption || lia). unfold u8.
  change (2 ^ 8 - 1) with 0xff. split; congruence.
Qed.

(** The specification: agreement on the masked bits of every field. *)
Definition masked_eq (f v m : Z) : Prop := Z.land f m = Z.land v m.

Definition matches (f : vscpEventFilter) (cls typ : Z) (guid : list Z) (priority : Z) : Prop :=
  masked_eq (filter_class f) cls (mask_class f)
  /\ masked_eq (filter_type f) typ (mask_type f)
  /\ (forall i, (i < 16)%nat ->
       masked_eq (nth i (filter_GUID f) 0) (nth i guid 0) (nth i (mask_GUID f) 0))
  /\ masked_eq (filter_priority f) priority (mask_priority f).

Lemma nth_u8 (g : list Z) i : bytes_ok g -> is_u8 (nth i g 0).
Proof.
  intros H. destruct (nth_in_or_default i g 0) as [Hin| ->]; [|width].
  rewrite List.Forall_forall in H. apply H, Hin.
Qed.

Lemma filter_tests_spec f cls typ guid priority :
  filter_ok f -> is_u16 cls -> is_u16 typ -> bytes_ok guid -> is_u8 priority ->
  filter_tests f cls typ guid priority = true <-> matches f cls typ guid priority.
Proof.
  intros Hf Hc Ht Hg Hp. unfold filter_tests, matches, masked_eq.
  assert (Gf := proj2 (fguid_ok f Hf)). assert (Gm := proj2 (mguid_ok f Hf)).
  rewrite <- !mismatch16_spec by (assumption || apply Hf).
  rewrite <- (mismatch8_spec _ priority) by (assumption || apply Hf).
  assert (G : existsb (fun i => mismatch8 (nth i (filter_GUID f) 0) (nth i guid 0)
                                  (nth i (mask_GUID f) 0)) (seq 0 16) = false
              <-> forall i, (i < 16)%nat ->
                  Z.land (nth i (filter_GUID f) 0) (nth i (mask_GUID f) 0)
                  = Z.land (nth i guid 0) (nth i (mask_GUID f) 0)).
  { split.
    - intros E i Hi. apply mismatch8_spec; auto using nth_u8.
      destruct (mismatch8 _ _ _) eqn:M; [|reflexivity]. exfalso.
      rewrite <- not_true_iff_false in E. apply E, existsb_exists.
      exists i. split; [apply in_seq; lia|exact M].
    - intros E. apply not_true_is_false. intros X. apply existsb_exists in X as (i & Hi & M).
      apply in_seq in Hi. specialize (E i ltac:(lia)).
      apply mismatch8_spec in E; auto using nth_u8. congruence. }
  rewrite <- G.
  destruct (mismatch16 (filter_class f) cls _), (mismatch16 (filter_type f) typ _),
    (existsb _ _), (mismatch8 (filter_priority f) priority _); cbn; intuition congruence.
Qed.

(** The texts as joined tokens. *)
Definition four_tokens (p c t : Z) (g : list Z) : list (list Z) := [dec p; dec c; dec t; toString g].

Lemma four_text_join p c t g : four_text p c t g = join 44 (four_tokens p c t g).
Proof. reflexivity. Qed.

Lemma four_tokens_no_comma p c t g :
  is_u8 p -> is_u16 c -> is_u16 t -> length g = 16%nat -> bytes_ok g ->
  Forall (fun s => 44 ∉ s) (four_tokens p c t g).
Proof.
  intros Hp Hc Ht Hl H. unfold is_u8, is_u16 in *.
  repeat (constructor; [apply dec_no_char; lia|]). constructor; [|constructor].
  apply (toString_props g); assumption.
Qed.

Lemma parsed_toString g :
  length g = 16%nat -> bytes_ok g -> vscp_getGuidFromStringToArray (toString g) = g.
Proof.
  intros Hl H. unfold vscp_getGuidFromStringToArray, getFromString.
  assert (T := text_roundtrip_lemma VSCP_GUID_STR_FORMAT_NORMAL g false Hl H).
  cbn [guid_text braces] in T. rewrite T. reflexivity.
Qed.

Lemma read_four_tokens p c t g rest :
  is_u8 p -> is_u16 c -> is_u16 t -> length g = 16%nat -> bytes_ok g ->
  read_four (four_tokens p c t g ++ rest) = ((p, c, t, g), Some rest).
Proof.
  intros Hp Hc Ht Hl H. cbn [four_tokens app read_four].
  rewrite !readStringValue_number, parsed_toString by (auto; unfold is_u8, is_u16 in *; lia).
  rewrite u8_id, !u16_id by assumption. reflexivity.
Qed.

Lemma u8_zeros : length (zeros 16) = 16%nat /\ bytes_ok (zeros 16).
Proof. split; [reflexivity|by_decide]. Qed.

Lemma cleared_ok : filter_ok (Filter 0 0 0 0 0 0 (zeros 16) (zeros 16)).
Proof. split; cbn [filter_priority mask_priority filter_class mask_class filter_type mask_type
  filter_GUID mask_GUID]; try apply u8_zeros; width. Qed.

Definition sample_filter : vscpEventFilter :=
  Filter 3 7 10 0xffff 6 0xfff0 (GUID sample_event) (replicate 16 0xf0).

Lemma sample_filter_ok : filter_ok sample_filter.
Proof.
  split; unfold sample_filter; cbn [filter_priority mask_priority filter_class mask_class
    filter_type mask_type filter_GUID mask_GUID]; try width.
  - split; [reflexivity|by_decide].
  - split; [reflexivity|by_decide].
Qed.

Lemma priority_u8 h : is_u8 (Z.land (Z.shiftr h 5) 0x07).
Proof. rewrite land_7. width. Qed.

(** ** Properties *)

(** Vscp_doLevel2Filter lets an event through exactly when its class, type,
    GUID and priority agree with the filter on every bit set in the mask
    ("0 = don't care"); vscp_doLevel2FilterEx decides the same for the event
    converted to a vscpEventEx; a cleared filter lets every event through.  A
    null filter is a wildcard for the first function only. *)
Theorem doLevel2Filter_spec (f : vscpEventFilter) (e : vscpEvent) (x : vscpEventEx) :
  filter_ok f -> event_ok e ->
  (vscp_doLevel2Filter (Some e) (Some f) = true
   <-> matches f (vscp_class e) (vscp_type e) (GUID e) (head e / 32 mod 8))
  /\ vscp_doLevel2FilterEx (Some (event_to_ex x e)) (Some f)
     = vscp_doLevel2Filter (Some e) (Some f)
  /\ vscp_doLevel2Filter (Some e) (vscp_clearVSCPFilter (Some f)) = true
  /\ vscp_doLevel2Filter (Some e) None = true
  /\ vscp_doLevel2FilterEx (Some (event_to_ex x e)) None = false.
Proof.
  intros Hf He.
  assert (Hp := priority_u8 (head e)). assert (Hg := proj2 (guid_ok e He)).
  assert (Hc := class_ok e He). assert (Ht := type_ok e He).
  assert (Ep : vscp_getEventPriority (Some e) = head e / 32 mod 8).
  { unfold vscp_getEventPriority. rewrite land_7, shiftr_div by lia. reflexivity. }
  split_and!; [|reflexivity| |reflexivity|reflexivity].
  - rewrite <- Ep. apply filter_tests_spec; assumption.
  - cbn [vscp_clearVSCPFilter vscp_doLevel2Filter].
    apply filter_tests_spec; try assumption; [apply cleared_ok|].
    unfold matches, masked_eq; cbn [filter_priority mask_priority filter_class mask_class
      filter_type mask_type filter_GUID mask_GUID].
    rewrite !Z.land_0_r. split_and!; try reflexivity. intros i Hi.
    assert (Z0 : nth i (zeros 16) 0 = 0) by (do 16 (destruct i; [reflexivity|]); lia).
    rewrite Z0, !Z.land_0_r. reflexivity.
Qed.

Lemma doLevel2Filter_spec_witness :
  vscp_doLevel2FilterEx (Some (event_to_ex sample_ex sample_event)) (Some sample_filter)
  = vscp_doLevel2Filter (Some sample_event) (Some sample_filter).
Proof.
  apply (doLevel2Filter_spec sample_filter sample_event sample_ex);
    [apply sample_filter_ok|apply sample_event_ok].
Defined.

(** A filter written to strings is read back: the filter part by
    vscp_readFilterFromString, the mask part by vscp_readMaskFromString (each
    leaving the other part alone), and both, joined by a comma, by
    vscp_readFilterMaskFromString. *)
Theorem filter_text_roundtrip (f f0 : vscpEventFilter) (s m : list Z) :
  filter_ok f ->
  vscp_writeFilterToString (Some f) = Some s -> vscp_writeMaskToString (Some f) = Some m ->
  vscp_readFilterMaskFromString (Some f0) (s ++ str "," ++ m) = (true, Some f)
  /\ vscp_readFilterFromString
       (snd (vscp_readMaskFromString (Some f0) m)) s = (true, Some f).
Proof.
  intros Hf [= <-] [= <-]. destruct Hf as [P1 P2 C1 C2 T1 T2 [G1 G2] [M1 M2]].
  assert (N1 := four_tokens_no_comma _ _ _ _ P1 C1 T1 G1 G2).
  assert (N2 := four_tokens_no_comma _ _ _ _ P2 C2 T2 M1 M2).
  assert (Hne : forall p c t g, is_u8 p -> join 44 (four_tokens p c t g) <> []).
  { intros p c t g Hp. unfold four_tokens. rewrite join_cons.
    pose proof (dec_not_nil p ltac:(unfold is_u8 in Hp; lia)). destruct (dec p); [congruence|discriminate]. }
  assert (R1 := fun rest => read_four_tokens _ _ _ _ rest P1 C1 T1 G1 G2).
  assert (R2 := fun rest => read_four_tokens _ _ _ _ rest P2 C2 T2 M1 M2).
  rewrite !four_text_join. split.
  - change (str "," ++ ?a) with (44 :: a). unfold vscp_readFilterMaskFromString.
    rewrite <- join_app by discriminate. change (str ",") with [44].
    rewrite split_join.
    + rewrite R1. specialize (R2 []). rewrite app_nil_r in R2. rewrite R2.
      destruct f; reflexivity.
    + apply Forall_app. split; assumption.
    + rewrite join_app by discriminate. destruct (join 44 (four_tokens _ _ _ (filter_GUID f))); discriminate.
  - unfold vscp_readFilterFromString, vscp_readMaskFromString. change (str ",") with [44].
    specialize (R1 []). specialize (R2 []). rewrite app_nil_r in R1, R2.
    rewrite !split_join, R1, R2 by auto. destruct f; reflexivity.
Qed.

Lemma filter_text_roundtrip_witness :
  vscp_readFilterMaskFromString (Some sample_filter)
    (four_text 3 10 6 (GUID sample_event) ++ str "," ++ four_text 7 0xffff 0xfff0 (replicate 16 0xf0))
  = (true, Some sample_filter).
Proof.
  apply (filter_text_roundtrip sample_filter sample_filter
           (four_text 3 10 6 (GUID sample_event)) (four_text 7 0xffff 0xfff0 (replicate 16 0xf0)));
    [apply sample_filter_ok|reflexivity|reflexivity].
Defined.
