(* ===== verification/Canal.v ===== *)
(** * CANAL messages: the conversions between CAN frames and events of
    vscphelper.cpp *)

From S2P Require Import Prelude DateTime Event Frame.

Definition CANAL_IDFLAG_EXTENDED : Z := 1.
Definition VSCP_CAN_ID_HARD_CODED : Z := 0x02000000.
Definition VSCP_MASK_PRIORITY : Z := 0xE0.

(** canalMsg of canal.h; [unsigned long] has 64 bits on the Linux targets. *)
Record canalMsg := CanalMsg {
  flags : Z; canal_obid : Z; id : Z; canal_size : Z; canal_data : list Z;
  canal_timestamp : Z
}.

Record canal_ok (m : canalMsg) : Prop := {
  canal_flags_ok : is_u64 (flags m);
  canal_obid_ok : is_u64 (canal_obid m);
  canal_id_ok : is_u64 (id m);
  canal_size_ok : is_u8 (canal_size m);
  canal_data_ok : length (canal_data m) = 8%nat /\ bytes_ok (canal_data m);
  canal_timestamp_ok : is_u64 (canal_timestamp m)
}.

(** vscp_convertCanalToEvent.  [now] and [now2] are the two readings of the
    clock; the second one overwrites the whole time block. *)
Definition vscp_convertCanalToEvent (now : timespec) (now2 : Z) (pev : option vscpEvent)
    (pcanalMsg : option canalMsg) (pGUID : option (list Z))
  : option (bool * option vscpEvent) :=
  match pGUID, pcanalMsg, pev with
  | Some guid, Some m, Some e =>
      g ← rdn guid 0 16;
      let e := set_head 0 (set_GUID g e) in
      if 8 <? canal_size m then Some (false, Some e)
      else
        e ← (if 0 <? canal_size m
             then d ← rdn (canal_data m) 0 (Z.to_nat (canal_size m));
                  Some (set_pdata (canal_size m) (Some d) e)
             else Some (set_pdata 0 None e));
        let h := vscp_getHeadFromCANALid (u32 (id m)) in
        let h := if negb (Z.land (id m) 0x02000000 =? 0)
                 then u16 (Z.lor h VSCP_HEADER_HARD_CODED) else h in
        let h := u16 (Z.lor h VSCP_HEADER16_FRAME_VERSION_UNIX_NS) in
        let e := Event h (obid e) (etime e) (vscp_getVscpClassFromCANALid (u32 (id m)))
                   (vscp_getVscpTypeFromCANALid (u32 (id m))) (GUID e) (sizeData e) (pdata e)
                   (crc e) in
        '(_, pev) ← Some (vscp_setEventDateTimeBlockToNow now (Some e));
        e ← pev;
        let e := set_etime (set_timestamp (canal_timestamp m) (etime e)) e in
        '(_, pev) ← Some (vscp_setEventToNow now2 (Some e));
        e ← pev;
        Some (true, Some (set_GUID (<[15%nat := u8 (Z.land 0xff (id m))]> (GUID e)) e))
  | _, _, _ => Some (false, pev)
  end.

Definition vscp_convertCanalToEventEx (mem : vscpEvent) (now : timespec) (now2 : Z)
    (pex : option vscpEventEx) (pcanalMsg : option canalMsg) (pGUID : option (list Z))
  : option (bool * option vscpEventEx) :=
  r ← vscp_convertCanalToEvent now now2 (Some (vscp_newEvent mem default_version)) pcanalMsg pGUID;
  match r with
  | (true, pev) =>
      '(_, pex) ← vscp_convertEventToEventEx pex pev;
      Some (true, pex)
  | (false, _) => Some (false, pex)
  end.

Definition s16 (x : Z) : Z := (x + 2 ^ 15) mod 2 ^ 16 - 2 ^ 15.

(** The event is [const] for the caller, but [memmove] writes to the buffer it
    points to: the event after the call is part of the result. *)
Definition vscp_convertEventToCanal (pcanalMsg : option canalMsg) (pev : option vscpEvent)
  : option (bool * option canalMsg * option vscpEvent) :=
  match pcanalMsg, pev with
  | None, _ => Some (false, None, pev)
  | Some m, None => Some (false, Some m, None)
  | Some m, Some e =>
      if negb (sizeData e =? 0) && bool_decide (pdata e = None)
      then Some (false, Some m, Some e)
      else
        nodeid ← rd (GUID e) 15;
        r ← (if (512 <=? vscp_class e) && (vscp_class e <? 1024) && (16 <=? sizeData e)
             then
               let size := s16 (sizeData e - 16) in
               pd ← (if negb (size =? 0)
                     then l ← pdata e; bs ← rdn l 16 (Z.to_nat size); l ← wr l 0 bs; Some (Some l)
                     else Some (pdata e));
               Some (size, u16 (vscp_class e - 512), pd)
             else Some (s16 (sizeData e), vscp_class e, pdata e));
        let '(size, cls, pd) := (r : Z * Z * option (list Z)) in
        let csize := if size <=? 8 then u8 size else 8 in
        let priority := u8 (Z.shiftr (Z.land (head e) VSCP_MASK_PRIORITY) 5) in
        let cid := u64 (Z.lor (Z.lor (Z.lor (Z.shiftl priority 26) (Z.shiftl cls 16))
                                     (Z.shiftl (vscp_type e) 8)) nodeid) in
        let cid := if negb (Z.land (head e) VSCP_HEADER_HARD_CODED =? 0)
                   then Z.lor cid VSCP_CAN_ID_HARD_CODED else cid in
        data ← (match pd with
                | Some l => bs ← rdn l 0 (Z.to_nat csize); wr (canal_data m) 0 bs
                | None => Some (canal_data m)
                end);
        Some (true,
              Some (CanalMsg CANAL_IDFLAG_EXTENDED (obid e) cid csize data (canal_timestamp m)),
              Some (set_pdata (sizeData e) pd e))
  end.

Definition vscp_convertEventExToCanal (mem : vscpEvent) (pcanalMsg : option canalMsg)
    (pex : option vscpEventEx) : option (bool * option canalMsg) :=
  match pcanalMsg, pex with
  | None, _ => Some (false, None)
  | Some m, None => Some (false, Some m)
  | Some m, Some _ =>
      r ← vscp_convertEventExToEvent (Some (vscp_newEvent mem default_version)) pex;
      match r with
      | (true, pev) =>
          '(ok, pm, _) ← vscp_convertEventToCanal (Some m) pev;
          Some (ok, pm)
      | (false, _) => Some (false, Some m)
      end
  end.

(** ** Lemmas *)

(** The fields of a 29-bit identifier. *)
Definition id_priority (i : Z) : Z := i / 2 ^ 26 mod 8.
Definition id_hard (i : Z) : Z := i / 2 ^ 25 mod 2.
Definition id_class (i : Z) : Z := i / 2 ^ 16 mod 512.
Definition id_type (i : Z) : Z := i / 2 ^ 8 mod 256.
Definition id_nickname (i : Z) : Z := i mod 256.

Lemma id_split i :
  0 <= i < 2 ^ 29 ->
  i = id_priority i * 2 ^ 26 + id_hard i * 2 ^ 25 + id_class i * 2 ^ 16 + id_type i * 2 ^ 8
      + id_nickname i.
Proof.
  intros Hi. unfold id_priority, id_hard, id_class, id_type, id_nickname.
  change (2 ^ 29) with 536870912 in Hi. change (2 ^ 26) with 67108864.
  change (2 ^ 25) with 33554432. change (2 ^ 16) with 65536. change (2 ^ 8) with 256. dlia.
Qed.

Lemma id_ranges i :
  0 <= id_priority i < 8 /\ 0 <= id_hard i < 2 /\ 0 <= id_class i < 512
  /\ 0 <= id_type i < 256 /\ 0 <= id_nickname i < 256.
Proof.
  unfold id_priority, id_hard, id_class, id_type, id_nickname.
  repeat split; apply Z.mod_pos_bound; lia.
Qed.

Lemma land_bit x n : 0 <= n -> negb (Z.land x (2 ^ n) =? 0) = (x / 2 ^ n mod 2 =? 1).
Proof.
  intros Hn.
  assert (E : Z.land x (2 ^ n) = if Z.testbit x n then 2 ^ n else 0).
  { apply Z.bits_inj'; intros i Hi. rewrite Z.land_spec.
    destruct (Z.eq_dec i n) as [->|].
    - rewrite Z.pow2_bits_true by lia. destruct (Z.testbit x n); cbn [andb].
      + symmetry. apply Z.pow2_bits_true. lia.
      + symmetry. apply Z.bits_0.
    - rewrite (Z.pow2_bits_false n i) by lia. rewrite andb_false_r.
      destruct (Z.testbit x n); [symmetry; apply Z.pow2_bits_false; lia|symmetry; apply Z.bits_0]. }
  assert (T := Z.testbit_spec' x n Hn). rewrite E, <- T.
  destruct (Z.testbit x n); [|reflexivity].
  assert (0 < 2 ^ n) by lia. destruct (Z.eqb_spec (2 ^ n) 0); [lia|reflexivity].
Qed.

Lemma id_hard_bit i : negb (Z.land i 0x02000000 =? 0) = (id_hard i =? 1).
Proof. apply (land_bit i 25). lia. Qed.

(** The header of an identifier. *)
Lemma head_of_id i :
  0 <= i < 2 ^ 29 -> vscp_getHeadFromCANALid i = id_priority i * 32 + id_hard i * 16.
Proof.
  intros Hi. destruct (id_ranges i) as (Rp & Rh & _). unfold vscp_getHeadFromCANALid.
  change (Z.shiftl 1 25) with 0x02000000. rewrite id_hard_bit.
  change 0x07 with 7. rewrite land_mask_l, land_7, shiftr_div by lia. fold (id_priority i).
  rewrite (u8_id (id_priority i)), shiftl_mul by (lia || width).
  unfold VSCP_HEADER_HARD_CODED.
  replace (if id_hard i =? 1 then 16 else 0) with (id_hard i * 16)
    by (destruct (Z.eqb_spec (id_hard i) 1); lia).
  rewrite (lor_add_disjoint 5) by lia. change (2 ^ 5) with 32. width.
Qed.

(** Setting the hard-coded bit again and the frame version. *)
Definition canal_head (i : Z) : Z := id_priority i * 32 + id_hard i * 16 + 256.

Lemma head_of_event i :
  0 <= i < 2 ^ 29 ->
  (let h := vscp_getHeadFromCANALid i in
   let h := if negb (Z.land i 0x02000000 =? 0)
            then u16 (Z.lor h VSCP_HEADER_HARD_CODED) else h in
   u16 (Z.lor h VSCP_HEADER16_FRAME_VERSION_UNIX_NS)) = canal_head i.
Proof.
  intros Hi. cbv zeta. rewrite head_of_id, id_hard_bit by exact Hi. unfold canal_head.
  destruct (id_ranges i) as (Rp & Rh & _).
  assert (P : id_priority i = 0 \/ id_priority i = 1 \/ id_priority i = 2 \/ id_priority i = 3
    \/ id_priority i = 4 \/ id_priority i = 5 \/ id_priority i = 6 \/ id_priority i = 7) by lia.
  assert (H : id_hard i = 0 \/ id_hard i = 1) by lia.
  destruct H as [-> | ->]; repeat (destruct P as [-> | P]; [reflexivity|]); rewrite P; reflexivity.
Qed.

(** The identifier the way vscp_convertEventToCanal packs it. *)
Lemma pack_id p c t n :
  0 <= p < 8 -> 0 <= c < 512 -> 0 <= t < 256 -> 0 <= n < 256 ->
  u64 (Z.lor (Z.lor (Z.lor (Z.shiftl p 26) (Z.shiftl c 16)) (Z.shiftl t 8)) n)
  = p * 2 ^ 26 + c * 2 ^ 16 + t * 2 ^ 8 + n.
Proof.
  intros Hp Hc Ht Hn. rewrite !shiftl_mul by lia.
  rewrite (lor_add_disjoint 26) by lia.
  replace (p * 2 ^ 26 + c * 2 ^ 16) with ((p * 2 ^ 10 + c) * 2 ^ 16) by ring.
  rewrite (lor_add_disjoint 16) by lia.
  replace ((p * 2 ^ 10 + c) * 2 ^ 16 + t * 2 ^ 8) with (((p * 2 ^ 10 + c) * 2 ^ 8 + t) * 2 ^ 8) by ring.
  rewrite (lor_add_disjoint 8) by lia.
  change (2 ^ 10) with 1024. change (2 ^ 26) with 67108864. rewrite u64_id by width.
  change (2 ^ 8) with 256. change (2 ^ 16) with 65536. lia.
Qed.

Lemma pack_id_hard p c t n :
  0 <= p < 8 -> 0 <= c < 512 -> 0 <= t < 256 -> 0 <= n < 256 ->
  Z.lor (p * 2 ^ 26 + c * 2 ^ 16 + t * 2 ^ 8 + n) VSCP_CAN_ID_HARD_CODED
  = p * 2 ^ 26 + 2 ^ 25 + c * 2 ^ 16 + t * 2 ^ 8 + n.
Proof.
  intros Hp Hc Ht Hn. set (low := c * 2 ^ 16 + t * 2 ^ 8 + n).
  assert (Hlow : 0 <= low < 2 ^ 25).
  { unfold low. change (2 ^ 8) with 256. change (2 ^ 16) with 65536.
    change (2 ^ 25) with 33554432. lia. }
  replace (p * 2 ^ 26 + c * 2 ^ 16 + t * 2 ^ 8 + n) with (p * 2 ^ 26 + low) by (unfold low; ring).
  rewrite <- (lor_add_disjoint 26 p low) by lia.
  rewrite <- Z.lor_assoc, (Z.lor_comm low).
  change VSCP_CAN_ID_HARD_CODED with (1 * 2 ^ 25).
  rewrite (lor_add_disjoint 25 1 low), (lor_add_disjoint 26) by lia. unfold low. ring.
Qed.

(** The event a CAN frame becomes. *)
Definition canal_event (now2 : Z) (e : vscpEvent) (m : canalMsg) (guid : list Z) : vscpEvent :=
  Event (canal_head (id m)) (obid e) (Time 0xffff 0xff (u64 (u64 now2 * 1000000000)))
    (id_class (id m)) (id_type (id m)) (<[15%nat := id_nickname (id m)]> guid)
    (canal_size m)
    (if 0 <? canal_size m then Some (take (Z.to_nat (canal_size m)) (canal_data m)) else None)
    (crc e).

Lemma class_of_id i : 0 <= i < 2 ^ 29 -> vscp_getVscpClassFromCANALid i = id_class i.
Proof.
  intros Hi. unfold vscp_getVscpClassFromCANALid, id_class. change 0x1ff with 511.
  rewrite land_mask_l, land_511, shiftr_div by lia. width.
Qed.

Lemma type_of_id i : 0 <= i < 2 ^ 29 -> vscp_getVscpTypeFromCANALid i = id_type i.
Proof.
  intros Hi. unfold vscp_getVscpTypeFromCANALid, id_type. change 0xff with 255.
  rewrite land_mask_l, land_255, shiftr_div by lia. width.
Qed.

Lemma canal_head_ns i : is_unix_ns (canal_head i) = true.
Proof.
  unfold canal_head. destruct (id_ranges i) as (Rp & Rh & _).
  assert (P : id_priority i = 0 \/ id_priority i = 1 \/ id_priority i = 2 \/ id_priority i = 3
    \/ id_priority i = 4 \/ id_priority i = 5 \/ id_priority i = 6 \/ id_priority i = 7) by lia.
  assert (H : id_hard i = 0 \/ id_hard i = 1) by lia.
  destruct H as [-> | ->]; repeat (destruct P as [-> | P]; [reflexivity|]); rewrite P; reflexivity.
Qed.

Lemma canal_head_u16 i : is_u16 (canal_head i).
Proof. unfold canal_head. destruct (id_ranges i) as (Rp & Rh & _). width. Qed.

Lemma u32_small i : 0 <= i < 2 ^ 29 -> u32 i = i.
Proof. intros. change (2 ^ 29) with 536870912 in *. width. Qed.

Lemma convertCanalToEvent_eq now now2 e m guid :
  canal_ok m -> 0 <= id m < 2 ^ 29 -> canal_size m <= 8 -> length guid = 16%nat ->
  vscp_convertCanalToEvent now now2 (Some e) (Some m) (Some guid)
  = Some (true, Some (canal_event now2 e m guid)).
Proof.
  intros Hm Hi Hs Hg. unfold vscp_convertCanalToEvent.
  rewrite (rdn_defined guid 0 16) by lia. cbn [mbind option_bind].
  rewrite drop_0, take_ge by lia.
  destruct (Z.ltb_spec 8 (canal_size m)); [lia|].
  assert (Hsz := canal_size_ok m Hm). destruct (canal_data_ok m Hm) as [Dl Db].
  rewrite u32_small by exact Hi.
  assert (Hd : forall e0, (if 0 <? canal_size m
             then d ← rdn (canal_data m) 0 (Z.to_nat (canal_size m));
                  Some (set_pdata (canal_size m) (Some d) e0)
             else Some (set_pdata 0 None e0))
    = Some (set_pdata (canal_size m)
        (if 0 <? canal_size m then Some (take (Z.to_nat (canal_size m)) (canal_data m)) else None) e0)).
  { intros e0. unfold is_u8 in Hsz. destruct (Z.ltb_spec 0 (canal_size m)).
    - rewrite rdn_defined by lia. reflexivity.
    - replace (canal_size m) with 0 by lia. reflexivity. }
  rewrite Hd. cbn [mbind option_bind].
  assert (Hh := head_of_event (id m) Hi). cbv zeta in Hh. rewrite Hh.
  cbn [vscp_setEventDateTimeBlockToNow vscp_setEventToNow mbind option_bind head set_etime].
  rewrite canal_head_ns. cbn [etime].
  unfold canal_event. rewrite class_of_id, type_of_id by exact Hi.
  change 0xff with 255. rewrite land_mask_l, land_255.
  rewrite (u8_id (id m mod 256)) by width.
  unfold set_unix_ns, set_month, set_year, set_timestamp_ns, set_GUID, set_etime.
  cbn [year month timestamp_ns head obid etime vscp_class vscp_type GUID sizeData pdata crc set_pdata set_head].
  unfold id_nickname. rewrite (u16_id (canal_size m)) by width. reflexivity.
Qed.

Lemma canal_event_ok now2 e m guid :
  event_ok e -> canal_ok m -> 0 <= id m < 2 ^ 29 -> canal_size m <= 8 ->
  length guid = 16%nat -> bytes_ok guid -> event_ok (canal_event now2 e m guid).
Proof.
  intros He Hm Hi Hs Hg Hb. destruct (id_ranges (id m)) as (Rp & Rh & Rc & Rt & Rn).
  assert (Hsz := canal_size_ok m Hm). destruct (canal_data_ok m Hm) as [Dl Db].
  split; unfold canal_event;
    cbn [head obid etime vscp_class vscp_type GUID sizeData pdata crc].
  - apply canal_head_u16.
  - apply He.
  - split; cbn [year month timestamp_ns]; [width|width|apply u64_ok].
  - width.
  - width.
  - split; [rewrite length_insert; exact Hg|]. apply Forall_insert; [exact Hb|width].
  - width.
  - unfold is_u8 in Hsz. destruct (Z.ltb_spec 0 (canal_size m)); cbn [data_ok]; [|lia].
    split; [lia|]. split; [rewrite length_take; lia|]. apply Forall_take, Db.
  - apply He.
Qed.

Lemma canal_head_priority i :
  u8 (Z.shiftr (Z.land (canal_head i) VSCP_MASK_PRIORITY) 5) = id_priority i
  /\ negb (Z.land (canal_head i) VSCP_HEADER_HARD_CODED =? 0) = (id_hard i =? 1).
Proof.
  unfold canal_head. destruct (id_ranges i) as (Rp & Rh & _).
  assert (P : id_priority i = 0 \/ id_priority i = 1 \/ id_priority i = 2 \/ id_priority i = 3
    \/ id_priority i = 4 \/ id_priority i = 5 \/ id_priority i = 6 \/ id_priority i = 7) by lia.
  assert (H : id_hard i = 0 \/ id_hard i = 1) by lia.
  destruct H as [-> | ->]; repeat (destruct P as [-> | P]; [split; reflexivity|]);
    rewrite P; split; reflexivity.
Qed.

(** Packing the fields of an identifier gives the identifier. *)
Lemma repack_id i :
  0 <= i < 2 ^ 29 ->
  (let cid := u64 (Z.lor (Z.lor (Z.lor (Z.shiftl (id_priority i) 26) (Z.shiftl (id_class i) 16))
                       (Z.shiftl (id_type i) 8)) (id_nickname i)) in
   if id_hard i =? 1 then Z.lor cid VSCP_CAN_ID_HARD_CODED else cid) = i.
Proof.
  intros Hi. destruct (id_ranges i) as (Rp & Rh & Rc & Rt & Rn).
  cbv zeta. rewrite pack_id by assumption.
  transitivity (id_priority i * 2 ^ 26 + id_hard i * 2 ^ 25 + id_class i * 2 ^ 16
                + id_type i * 2 ^ 8 + id_nickname i); [|symmetry; apply id_split, Hi].
  destruct (Z.eqb_spec (id_hard i) 1) as [->|].
  - rewrite pack_id_hard by assumption. ring.
  - replace (id_hard i) with 0 by lia. ring.
Qed.

Lemma s16_small x : 0 <= x < 32768 -> s16 x = x.
Proof. intros. unfold s16. change (2 ^ 15) with 32768. change (2 ^ 16) with 65536. dlia. Qed.

Definition sample_canal : canalMsg :=
  CanalMsg 0 0 0x0A0A0601 4 [0x89; 0x82; 0xfe; 0xd7; 0; 0; 0; 0] 4711.

Lemma sample_canal_ok : canal_ok sample_canal.
Proof.
  split; unfold sample_canal; cbn [flags canal_obid id canal_size canal_data canal_timestamp];
    try width. split; [reflexivity|by_decide].
Qed.

(** Copying at most eight bytes to the data of a CAN frame. *)
Lemma canal_copy l n (data : list Z) :
  (n <= length l)%nat -> (n <= length data)%nat ->
  (bs ← rdn l 0 n; wr data 0 bs) = Some (take n l ++ drop n data).
Proof.
  intros Hl Hd. rewrite rdn_defined by lia. cbn [mbind option_bind]. rewrite drop_0.
  rewrite wr_front by (rewrite length_take; lia). rewrite length_take, Nat.min_l by lia. reflexivity.
Qed.

(** The priority of a header, and the identifier with or without the
    hard-coded bit. *)
Lemma head_priority_bound h : 0 <= u8 (Z.shiftr (Z.land h VSCP_MASK_PRIORITY) 5) < 8.
Proof.
  rewrite Z.shiftr_land. change (Z.shiftr VSCP_MASK_PRIORITY 5) with 7. rewrite land_7. width.
Qed.

Lemma packed_id_fields p c t n (hard : bool) :
  0 <= p < 8 -> 0 <= c < 512 -> 0 <= t < 256 -> 0 <= n < 256 ->
  let cid := u64 (Z.lor (Z.lor (Z.lor (Z.shiftl p 26) (Z.shiftl c 16)) (Z.shiftl t 8)) n) in
  let i := if hard then Z.lor cid VSCP_CAN_ID_HARD_CODED else cid in
  id_class i = c /\ id_type i = t.
Proof.
  intros Hp Hc Ht Hn. cbv zeta. rewrite pack_id by assumption.
  assert (E : exists h, (h = 0 \/ h = 1) /\
    (if hard then Z.lor (p * 2 ^ 26 + c * 2 ^ 16 + t * 2 ^ 8 + n) VSCP_CAN_ID_HARD_CODED
     else p * 2 ^ 26 + c * 2 ^ 16 + t * 2 ^ 8 + n)
    = p * 2 ^ 26 + h * 2 ^ 25 + c * 2 ^ 16 + t * 2 ^ 8 + n).
  { destruct hard.
    - exists 1. rewrite pack_id_hard by assumption. split; [auto|ring].
    - exists 0. split; [auto|ring]. }
  destruct E as (h & Hh & ->). unfold id_class, id_type. change (2 ^ 26) with 67108864.
  change (2 ^ 25) with 33554432. change (2 ^ 16) with 65536. change (2 ^ 8) with 256.
  split; dlia.
Qed.

(** Moving the level II data over the interface GUID. *)
Lemma shifted_data (l : list Z) n :
  Z.of_nat (length l) = n -> 16 <= n ->
  let k := (Z.to_nat n - 16)%nat in
  (if negb (n - 16 =? 0)
   then bs ← rdn l 16 k; l' ← wr l 0 bs; Some (Some l')
   else Some (Some l)) = Some (Some (drop 16 l ++ drop k l))
  /\ length (drop 16 l) = k /\ length (drop 16 l ++ drop k l) = length l.
Proof.
  intros Hl Hn k.
  assert (Hk : length (drop 16 l) = k) by (rewrite length_drop; unfold k; lia).
  split; [|split; [exact Hk|rewrite length_app, Hk, length_drop; unfold k; lia]].
  destruct (Z.eqb_spec (n - 16) 0) as [E0|].
  - assert (K0 : k = 0%nat) by (unfold k; lia). rewrite K0, drop_0.
    destruct (drop 16 l); [reflexivity|cbn [length] in Hk; lia].
  - rewrite rdn_defined by (unfold k; lia). cbn [negb mbind option_bind].
    rewrite take_ge by lia. rewrite wr_front by (rewrite Hk; unfold k; lia).
    rewrite Hk. reflexivity.
Qed.

(** ** Properties *)

(** A CAN frame with a 29-bit identifier and at most eight bytes becomes a
    well-formed event with the class, type and nickname of the identifier, and
    converting the event back gives the same identifier, size and data.  The
    time is the one of the clock: the time stamp of the frame is stored in the
    event and then overwritten by vscp_setEventToNow. *)
Theorem canal_roundtrip (now : timespec) (now2 : Z) (e : vscpEvent) (m m0 : canalMsg)
    (guid : list Z) :
  event_ok e -> canal_ok m -> canal_ok m0 -> 0 <= id m < 2 ^ 29 -> canal_size m <= 8 ->
  length guid = 16%nat -> bytes_ok guid ->
  exists e' m', vscp_convertCanalToEvent now now2 (Some e) (Some m) (Some guid)
              = Some (true, Some e')
    /\ event_ok e'
    /\ timestamp_ns (etime e') = u64 (u64 now2 * 1000000000)
    /\ vscp_convertEventToCanal (Some m0) (Some e') = Some (true, Some m', Some e')
    /\ id m' = id m /\ canal_size m' = canal_size m /\ flags m' = CANAL_IDFLAG_EXTENDED
    /\ take (Z.to_nat (canal_size m)) (canal_data m') = take (Z.to_nat (canal_size m)) (canal_data m)
    /\ canal_timestamp m' = canal_timestamp m0.
Proof.
  intros He Hm Hm0 Hi Hs Hg Hb. exists (canal_event now2 e m guid).
  assert (Hsz := canal_size_ok m Hm). unfold is_u8 in Hsz.
  destruct (canal_data_ok m Hm) as [Dl Db]. destruct (canal_data_ok m0 Hm0) as [D0 _].
  destruct (canal_head_priority (id m)) as [Ep Eh].
  destruct (id_ranges (id m)) as (Rp & Rh & Rc & Rt & Rn).
  exists (CanalMsg CANAL_IDFLAG_EXTENDED (obid e) (id m) (canal_size m)
            (take (Z.to_nat (canal_size m)) (canal_data m) ++ drop (Z.to_nat (canal_size m)) (canal_data m0))
            (canal_timestamp m0)).
  split; [apply convertCanalToEvent_eq; assumption|].
  split; [apply canal_event_ok; assumption|]. split; [reflexivity|].
  split; [|split_and!; try reflexivity].
  - assert (Hok := canal_event_ok now2 e m guid He Hm Hi Hs Hg Hb).
    unfold vscp_convertEventToCanal.
    rewrite (data_ok_null _ _ (edata_ok _ Hok)).
    unfold canal_event. cbn [GUID vscp_class sizeData pdata head vscp_type obid].
    unfold rd. rewrite list_lookup_insert_eq by lia. cbn [mbind option_bind].
    destruct (Z.leb_spec 512 (id_class (id m))); [lia|]. cbn [andb mbind option_bind].
    rewrite (s16_small (canal_size m)) by lia.
    destruct (Z.leb_spec (canal_size m) 8); [|lia].
    rewrite (u8_id (canal_size m)) by width. rewrite Ep, Eh.
    assert (R := repack_id (id m) Hi). cbv zeta in R. rewrite R.
    destruct (Z.ltb_spec 0 (canal_size m)).
    + rewrite canal_copy by (rewrite ?length_take; lia). cbn [mbind option_bind].
      rewrite take_take, Nat.min_id. unfold set_pdata. cbn [head obid etime vscp_class vscp_type GUID sizeData pdata crc].
      rewrite (u16_id (canal_size m)) by width. reflexivity.
    + replace (canal_size m) with 0 by lia. reflexivity.
  - cbn [canal_data]. rewrite take_app_length' by (rewrite length_take; lia). reflexivity.
Qed.

Lemma canal_roundtrip_witness :
  exists e' m', vscp_convertCanalToEvent (Timespec 0 0) 7 (Some sample_event) (Some sample_canal)
                  (Some (GUID sample_event)) = Some (true, Some e')
    /\ event_ok e'
    /\ timestamp_ns (etime e') = u64 (u64 7 * 1000000000)
    /\ vscp_convertEventToCanal (Some sample_canal) (Some e') = Some (true, Some m', Some e')
    /\ id m' = id sample_canal /\ canal_size m' = 4 /\ flags m' = CANAL_IDFLAG_EXTENDED
    /\ take 4 (canal_data m') = [0x89; 0x82; 0xfe; 0xd7]
    /\ canal_timestamp m' = 4711.
Proof.
  apply (canal_roundtrip (Timespec 0 0) 7 sample_event sample_canal sample_canal (GUID sample_event)).
  - apply sample_event_ok.
  - apply sample_canal_ok.
  - apply sample_canal_ok.
  - cbn. lia.
  - intros H; discriminate H.
  - reflexivity.
  - by_decide.
Defined.

(** An event of a level I class carried over level II (class 512 to 1023,
    the interface GUID in the first 16 data bytes) becomes a CAN frame of the
    level I class with the data after the GUID, at most eight bytes.  But the
    conversion moves the data inside the caller's event, which it was given as
    [const]: the event keeps its size and holds shifted data afterwards. *)
Theorem level2_to_canal (m0 : canalMsg) (e : vscpEvent) (l : list Z) :
  event_ok e -> canal_ok m0 -> pdata e = Some l ->
  512 <= vscp_class e < 1024 -> vscp_type e < 256 -> 16 <= sizeData e <= 512 ->
  exists m', vscp_convertEventToCanal (Some m0) (Some e)
      = Some (true, Some m',
          Some (set_pdata (sizeData e)
                  (Some (drop 16 l ++ drop (Z.to_nat (sizeData e) - 16) l)) e))
    /\ id_class (id m') = vscp_class e - 512
    /\ id_type (id m') = vscp_type e
    /\ canal_size m' = Z.min 8 (sizeData e - 16)
    /\ take (Z.to_nat (canal_size m')) (canal_data m')
       = take (Z.to_nat (canal_size m')) (drop 16 l).
Proof.
  intros He Hm0 El Hc Ht Hs. assert (Hd := edata_ok e He). rewrite El in Hd.
  destruct Hd as (_ & Hl & Hb). destruct (canal_data_ok m0 Hm0) as [D0 _].
  destruct (guid_ok e He) as [Hg Hgb]. assert (Cc := class_ok e He). assert (Ct := type_ok e He).
  destruct (rd_some (GUID e) 15 ltac:(lia) Hgb) as (n & En & Hn).
  unfold vscp_convertEventToCanal.
  rewrite El, bool_decide_false, andb_false_r by discriminate.
  rewrite En. cbn [mbind option_bind].
  destruct (Z.leb_spec 512 (vscp_class e)); [|lia]. destruct (Z.ltb_spec (vscp_class e) 1024); [|lia].
  destruct (Z.leb_spec 16 (sizeData e)); [|lia]. cbn [andb].
  rewrite (s16_small (sizeData e - 16)) by lia.
  set (k := (Z.to_nat (sizeData e) - 16)%nat).
  replace (Z.to_nat (sizeData e - 16)) with k by (unfold k; lia).
  destruct (shifted_data l (sizeData e) Hl ltac:(lia)) as (P & Hk & Hlen). fold k in P, Hk, Hlen.
  cbn [mbind option_bind] in P |- *. rewrite P. cbn [mbind option_bind].
  set (cs := if sizeData e - 16 <=? 8 then u8 (sizeData e - 16) else 8).
  assert (Ecs : cs = Z.min 8 (sizeData e - 16)).
  { unfold cs. destruct (Z.leb_spec (sizeData e - 16) 8); [|lia]. rewrite u8_id by width. lia. }
  rewrite canal_copy by (rewrite ?Hlen; lia). cbn [mbind option_bind].
  eexists. split; [reflexivity|]. cbn [id canal_size canal_data].
  rewrite (u16_id (vscp_class e - 512)) by width.
  destruct (packed_id_fields _ (vscp_class e - 512) (vscp_type e) n
              (negb (Z.land (head e) VSCP_HEADER_HARD_CODED =? 0))
              (head_priority_bound (head e)) ltac:(width; lia) ltac:(width; lia) ltac:(width))
    as [F1 F2]. split_and!.
  - exact F1.
  - exact F2.
  - exact Ecs.
  - rewrite take_app_length' by (rewrite length_take; lia).
    rewrite take_app_le by lia. reflexivity.
Qed.

Definition sample_level2 : vscpEvent :=
  Event 0x0160 7 (Time 0xffff 0xff 0) 522 6 (GUID sample_event)
    18 (Some (GUID sample_event ++ [0x21; 0x22])) 0.

Lemma sample_level2_ok : event_ok sample_level2.
Proof.
  destruct sample_event_ok. split; unfold sample_level2;
    cbn [head obid etime vscp_class vscp_type GUID sizeData pdata crc]; try width; try assumption.
  - split; cbn [year month timestamp_ns]; width.
  - split; [width|]. split; [reflexivity|]. by_decide.
Qed.

Lemma level2_to_canal_witness :
  exists m', vscp_convertEventToCanal (Some sample_canal) (Some sample_level2)
      = Some (true, Some m',
          Some (set_pdata 18 (Some ([0x21; 0x22] ++ drop 2 (GUID sample_event ++ [0x21; 0x22])))
                  sample_level2))
    /\ id_class (id m') = 10
    /\ id_type (id m') = 6
    /\ canal_size m' = 2
    /\ take (Z.to_nat (canal_size m')) (canal_data m')
       = take (Z.to_nat (canal_size m')) [0x21; 0x22].
Proof.
  apply (level2_to_canal sample_canal sample_level2 (GUID sample_event ++ [0x21; 0x22])).
  - apply sample_level2_ok.
  - apply sample_canal_ok.
  - reflexivity.
  - cbn [vscp_class sample_level2]. lia.
  - reflexivity.
  - cbn [sizeData sample_level2]. lia.
Defined.
