(* ===== verification/EventString.v ===== *)
(** * Events as text: the string forms of vscphelper.cpp

    "head,class,type,obid,datetime,timestamp,GUID,data...": the writer always
    leaves the datetime empty and gives the time in nanoseconds; the reader
    accepts both. *)

From S2P Require Import Prelude DateTime Event Frame Strings Guid.

(** %0[w]d of a number that is not negative. *)
Definition pad (w : nat) (n : Z) : list Z := replicate (w - length (dec n)) 48 ++ dec n.

(** ** Dates *)

Definition date_text (y mo d h mi s : Z) : list Z :=
  pad 4 y ++ str "-" ++ pad 2 mo ++ str "-" ++ pad 2 d ++ str "T" ++ pad 2 h ++ str ":"
  ++ pad 2 mi ++ str ":" ++ pad 2 s.

(** The text of the time block of a frame: empty when there is no time. *)
Definition date_string (h : Z) (t : timeblock) : list Z :=
  if is_unix_ns h then
    if 0 <? timestamp_ns t then
      let g := gmtime (timestamp_ns t / 1000000000) in
      date_text (tm_year g + 1900) (tm_mon g + 1) (tm_mday g) (tm_hour g) (tm_min g) (tm_sec g)
      ++ str "." ++ pad 9 (timestamp_ns t mod 1000000000) ++ str "Z"
    else []
  else if negb (year t =? 0) || negb (month t =? 0) || negb (day t =? 0)
          || negb (hour t =? 0) || negb (minute t =? 0) || negb (second t =? 0)
  then date_text (year t) (month t) (day t) (hour t) (minute t) (second t) ++ str "Z"
  else [].

Definition vscp_getDateStringFromEvent (pev : option vscpEvent) : option (list Z) :=
  match pev with None => None | Some e => Some (date_string (head e) (etime e)) end.

Definition vscp_getDateStringFromEventEx (pex : option vscpEventEx) : option (list Z) :=
  match pex with None => None | Some x => Some (date_string (xhead x) (xtime x)) end.

(** ** Writing *)

(** [Some None]: false, and the string is left alone. *)
Definition vscp_convertEventToString (pev : option vscpEvent) : option (option (list Z)) :=
  match pev with
  | None => Some None
  | Some e =>
      let front := dec (frame_head (head e)) ++ str "," ++ dec (vscp_class e) ++ str ","
                   ++ dec (vscp_type e) ++ str "," ++ dec (obid e) ++ str ",,"
                   ++ dec (frame_ns e) ++ str "," ++ toString (GUID e) in
      if negb (sizeData e =? 0) then
        d ← vscp_writeDataToString e false false;
        Some (Some (front ++ str "," ++ match d with Some s => s | None => [] end))
      else Some (Some front)
  end.

Definition vscp_getEventAsString (pev : option vscpEvent) : option (list Z) :=
  r ← vscp_convertEventToString pev;
  Some (match r with Some s => s | None => [] end).

(** The local event is not initialised, but its [pdata] is null. *)
Definition vscp_convertEventExToString (mem : vscpEvent) (pex : option vscpEventEx)
  : option (option (list Z)) :=
  match pex with
  | None => Some None
  | Some _ =>
      r ← vscp_convertEventExToEvent (Some (set_pdata (sizeData mem) None mem)) pex;
      vscp_convertEventToString (snd r)
  end.

(** ** Reading *)

(** The next token, or the early return of false with the event so far. *)
Definition next (tokens : list (list Z)) (e : vscpEvent)
    (k : list Z -> list (list Z) -> bool * option vscpEvent) : bool * option vscpEvent :=
  match tokens with
  | [] => (false, Some e)
  | t :: tokens' => k t tokens'
  end.

Definition set_class (v : Z) (e : vscpEvent) : vscpEvent :=
  Event (head e) (obid e) (etime e) (u16 v) (vscp_type e) (GUID e) (sizeData e) (pdata e) (crc e).
Definition set_type (v : Z) (e : vscpEvent) : vscpEvent :=
  Event (head e) (obid e) (etime e) (vscp_class e) (u16 v) (GUID e) (sizeData e) (pdata e) (crc e).
Definition set_obid (v : Z) (e : vscpEvent) : vscpEvent :=
  Event (head e) (u32 v) (etime e) (vscp_class e) (vscp_type e) (GUID e) (sizeData e) (pdata e) (crc e).
Definition set_size (v : Z) (e : vscpEvent) : vscpEvent :=
  Event (head e) (obid e) (etime e) (vscp_class e) (vscp_type e) (GUID e) (u16 v) (pdata e) (crc e).

(** The nanoseconds of the datetime and timestamp fields. *)
Definition string_ns (now : timespec) (strDatetime : list Z) (timestampValue : Z) : Z :=
  match strDatetime with
  | _ :: _ =>
      let tm := match snd (vscp_parseISOCombined (Some (Tm 0 0 0 0 0 0)) strDatetime) with
                | Some t => t | None => Tm 0 0 0 0 0 0 end in
      let ns := u64 (u64 (timegm tm) * 1000000000) in
      if (0 <? timestampValue) && (timestampValue <? 1000000000)
      then u64 (ns + timestampValue * 1000) else ns
  | [] => if 0 <? timestampValue then timestampValue else vscp_makeTimeStampNs now
  end.

(** The GUID and the data. *)
Definition string_tail (tokens : list (list Z)) (e : vscpEvent) : bool * option vscpEvent :=
  next tokens e (fun t tokens =>
    let e := match snd (vscp_setEventGuidFromString (Some e) t) with Some e => e | None => e end in
    let e := set_size 0 e in
    if VSCP_MAX_DATA <? Z.of_nat (length tokens) then (false, Some e)
    else
      let data := map (fun t => u8 (vscp_readStringValue t)) tokens in
      (true, Some (set_pdata (Z.of_nat (length data))
                     (if (0 <? length data)%nat then Some data else None) e))).

Definition vscp_convertStringToEvent (now : timespec) (pev : option vscpEvent)
    (strEvent : list Z) : bool * option vscpEvent :=
  match pev with
  | None => (false, None)
  | Some e =>
      next (vscp_split strEvent (str ",")) e (fun t tokens =>
      let e := set_head (frame_head (u16 (vscp_readStringValue t))) e in
      next tokens e (fun t tokens => let e := set_class (vscp_readStringValue t) e in
      next tokens e (fun t tokens => let e := set_type (vscp_readStringValue t) e in
      next tokens e (fun t tokens => let e := set_obid (vscp_readStringValue t) e in
      let '(strDatetime, tokens) :=
        match tokens with [] => ([], []) | t :: tokens => (vscp_trim t, tokens) end in
      next tokens e (fun t tokens =>
        let t := vscp_trim t in
        let timestampValue := match t with [] => 0 | _ => strtoull (c_str t) end in
        let e := set_etime (set_unix_ns (string_ns now strDatetime timestampValue) (etime e)) e in
        string_tail tokens e)))))
  end.

(** [event = {}] is all zero, for both types. *)
Definition zero_event : vscpEvent := Event 0 0 (Time 0 0 0) 0 0 (zeros 16) 0 None 0.
Definition zero_ex : vscpEventEx := EventEx 0 0 (Time 0 0 0) 0 0 0 (zeros 16) 0 (zeros 512).

Definition vscp_convertStringToEventEx (now : timespec) (pex : option vscpEventEx)
    (strEvent : list Z) : option (bool * option vscpEventEx) :=
  match vscp_convertStringToEvent now (Some zero_event) strEvent with
  | (true, pev) => vscp_convertEventToEventEx pex pev
  | (false, _) => Some (false, pex)
  end.

(** ** Topics: "vscp/class/type/guid" *)

Definition vscp_parse_topic (topic : list Z) : option (Z * Z * list Z) :=
  match vscp_split (c_str topic) (str "/") with
  | [_; c; t; g] =>
      Some (u16 (vscp_readStringValue c), u16 (vscp_readStringValue t), getFromString g)
  | _ => None
  end.

(** ** Lemmas *)

Lemma digits_front f base n :
  1 < base -> 0 < n < base ^ Z.of_nat f ->
  exists d ds, digits f base n = d :: ds /\ 0 < d < base.
Proof.
  intros Hb. revert n. induction f as [|f IH]; intros n Hn.
  { change (Z.of_nat 0) with 0 in Hn. rewrite Z.pow_0_r in Hn. lia. }
  cbn [digits]. destruct (Z.ltb_spec n base); [eexists _, _; split; [reflexivity|lia]|].
  rewrite Nat2Z.inj_succ, Z.pow_succ_r in Hn by lia.
  destruct (IH (n / base)) as (d & ds & E & Hd).
  { split; [apply Z.div_str_pos; lia|apply Z.div_lt_upper_bound; lia]. }
  rewrite E. eexists _, _. split; [reflexivity|exact Hd].
Qed.

Lemma strtoull_dec n : 0 <= n < 2 ^ 64 -> strtoull (dec n) = n.
Proof.
  intros Hn. destruct (Z.eq_dec n 0) as [->|Hpos]; [reflexivity|].
  destruct (dec_digits_spec n Hn) as [E Hd].
  assert (Hb : 2 ^ 64 < 10 ^ Z.of_nat 20) by reflexivity.
  destruct (digits_front 20 10 n ltac:(lia) ltac:(lia)) as (d & ds & Ed & Hd0).
  fold (dec_digits n) in Ed.
  assert (S : strtol 0 (map dchar (dec_digits n) ++ []) = Some (of_digits 10 (dec_digits n), [])).
  { apply strtol_number; [exact dchar_digit10|exact Hd|reflexivity|].
    rewrite app_nil_r, Ed. cbn [map].
    assert (N : (dchar d =? 48) = false).
    { apply Z.eqb_neq. unfold dchar. destruct (Z.ltb_spec d 10); lia. }
    destruct ds as [|d2 ds]; cbn [map strip_prefix]; rewrite N; reflexivity. }
  rewrite app_nil_r, E in S. rewrite <- dec_eq in S by lia.
  unfold strtoull. rewrite S, Z.abs_eq by lia.
  destruct (Z.ltb_spec n (2 ^ 64)); [apply u64_id; unfold is_u64; lia|lia].
Qed.


(** *** The string of an event *)

Definition front_tokens (e : vscpEvent) : list (list Z) :=
  [dec (frame_head (head e)); dec (vscp_class e); dec (vscp_type e); dec (obid e); [];
   dec (frame_ns e); toString (GUID e)].

Definition event_tokens (e : vscpEvent) : list (list Z) :=
  front_tokens e ++ data_texts hex_data None 0 [] (data_of (pdata e)).

Lemma frame_head_ok h : is_u16 (frame_head h).
Proof. apply u16_ok. Qed.

Lemma convertEventToString_eq e :
  event_ok e -> vscp_convertEventToString (Some e) = Some (Some (join 44 (event_tokens e))).
Proof.
  intros He. assert (Hd := edata_ok e He). unfold vscp_convertEventToString, event_tokens.
  destruct (pdata e) as [l|] eqn:E; cbn [data_ok] in Hd.
  - destruct Hd as (Hpos & Hl & Hb). destruct (Z.eqb_spec (sizeData e) 0); [lia|]. cbn [negb].
    unfold vscp_writeDataToString, vscp_writeDataWithSizeToString. rewrite E.
    rewrite rdn_self by exact Hl. cbn [mbind option_bind]. change (data_of (Some l)) with l.
    assert (Hne : l <> []) by (intros ->; cbn [length] in Hl; lia).
    assert (J := write_data_join hex_data None l 0 [] (pred (length l)) Hne eq_refl).
    cbn [app] in J. rewrite J.
    rewrite join_app; [reflexivity|discriminate|].
    destruct l as [|b [|b2 l]]; [congruence|discriminate|discriminate].
  - rewrite Hd. reflexivity.
Qed.

Lemma event_tokens_no_comma e : event_ok e -> Forall (fun t => 44 ∉ t) (event_tokens e).
Proof.
  intros He. destruct (guid_ok e He) as [Hg Hb].
  assert (H1 := frame_head_ok (head e)). assert (H2 := class_ok e He). assert (H3 := type_ok e He).
  assert (H4 := obid_ok e He). assert (H5 := frame_ns_ok e He).
  unfold is_u16, is_u32, is_u64 in *.
  apply Forall_app. split.
  - unfold front_tokens. repeat (constructor; [first [apply dec_no_char; lia | apply not_elem_of_nil
      | apply (toString_props (GUID e) Hg Hb)]|]). constructor.
  - apply (tokens_no_comma _ (data_of (pdata e))).
    apply data_texts_ok; [auto|exact I|apply (data_of_ok _ _ (edata_ok e He))|constructor|
      apply not_elem_of_nil].
Qed.

Lemma zero_event_ok : event_ok zero_event.
Proof. constructor; cbn [zero_event head obid etime vscp_class vscp_type GUID sizeData pdata crc]; try width; [constructor; cbn; width|split; [reflexivity|by_decide]|reflexivity]. Qed.

(** The event read back: the header says nanosecond time; the CRC is not in the
    string. *)
Definition read_back (now : timespec) (e e0 : vscpEvent) : vscpEvent :=
  Event (unix_ns_head (head e)) (obid e)
    (Time 0xffff 0xff (if 0 <? event_ns e then event_ns e else vscp_makeTimeStampNs now))
    (vscp_class e) (vscp_type e) (GUID e) (sizeData e) (pdata e) (crc e0).

Lemma frame_head_idem h : frame_head (frame_head h) = frame_head h.
Proof.
  unfold frame_head. apply Z.bits_inj'; intros i Hi. destruct (Z.ltb_spec i 16).
  - rewrite !u16_testbit, !Z.lor_spec, !Z.land_spec, u16_testbit, Z.lor_spec, Z.land_spec by lia.
    destruct (Z.testbit h i), (Z.testbit (Z.lnot VSCP_HEADER16_FRAME_VERSION_MASK) i),
      (Z.testbit VSCP_HEADER16_FRAME_VERSION_UNIX_NS i); reflexivity.
  - unfold u16. rewrite !Z.mod_pow2_bits_high by lia. reflexivity.
Qed.

Lemma set_unix_ns_eq v t : is_u64 v -> set_unix_ns v t = Time 0xffff 0xff v.
Proof.
  intros Hv. unfold set_unix_ns, set_month, set_year, set_timestamp_ns.
  cbn [year month timestamp_ns]. rewrite u64_id by exact Hv. reflexivity.
Qed.

(** Reading the tokens of the GUID and the data. *)
Lemma string_tail_event e e1 :
  event_ok e -> length (GUID e1) = 16%nat -> sizeData e <= 512 ->
  string_tail (toString (GUID e) :: data_texts hex_data None 0 [] (data_of (pdata e))) e1
  = (true, Some (set_pdata (sizeData e) (pdata e) (set_GUID (GUID e) e1))).
Proof.
  intros He H1 Hs. destruct (guid_ok e He) as [Hg Hb].
  destruct (data_of_ok _ _ (edata_ok e He)) as [Hl Hd].
  assert (T : Forall2 token_ok (data_texts hex_data None 0 [] (data_of (pdata e))) (data_of (pdata e)))
    by (apply data_texts_ok; [auto|exact I|exact Hd|constructor|apply not_elem_of_nil]).
  unfold string_tail, next. rewrite setEventGuid_toString by assumption. cbn [snd].
  rewrite (Forall2_length T), Hl, (ltb_max _ Hs : (VSCP_MAX_DATA <? sizeData e) = false).
  rewrite (tokens_values _ _ T Hd), Hl.
  assert (E := edata_ok e He). destruct (pdata e) as [l|]; cbn [data_ok] in E.
  - change (data_of (Some l)) with l in *. destruct (Nat.ltb_spec 0 (length l)); [reflexivity|lia].
  - rewrite E. reflexivity.
Qed.

Lemma convertStringToEvent_tokens now e e0 :
  event_ok e -> event_ok e0 -> sizeData e <= 512 ->
  vscp_convertStringToEvent now (Some e0) (join 44 (event_tokens e))
  = (true, Some (read_back now e e0)).
Proof.
  intros He H0 Hs. destruct (guid_ok e He) as [Hg Hb].
  assert (H1 := frame_head_ok (head e)). assert (H2 := class_ok e He). assert (H3 := type_ok e He).
  assert (H4 := obid_ok e He). assert (H5 := frame_ns_ok e He).
  assert (S : vscp_split (join 44 (event_tokens e)) [44] = event_tokens e).
  { apply split_join; [apply event_tokens_no_comma, He|]. unfold event_tokens, front_tokens.
    cbn [app]. rewrite join_cons. unfold is_u16 in H1.
    pose proof (dec_not_nil (frame_head (head e)) ltac:(lia)).
    destruct (dec (frame_head (head e))); [congruence|discriminate]. }
  unfold vscp_convertStringToEvent. change (str ",") with [44]. rewrite S.
  unfold event_tokens, front_tokens. cbn [app next].
  change (vscp_trim []) with (@nil Z).
  unfold is_u16, is_u32, is_u64 in *.
  rewrite !readStringValue_number by lia.
  rewrite trim_id, c_str_id by first [apply dec_no_space; lia | apply dec_no_char; lia].
  assert (V : match dec (frame_ns e) with [] => 0 | _ => strtoull (dec (frame_ns e)) end = frame_ns e).
  { rewrite strtoull_dec by lia. pose proof (dec_not_nil (frame_ns e) ltac:(lia)).
    destruct (dec (frame_ns e)); [congruence|reflexivity]. }
  rewrite V. cbn [string_ns]. rewrite set_unix_ns_eq
    by (destruct (0 <? frame_ns e); [unfold is_u64; lia|apply u64_ok]).
  rewrite string_tail_event; [|exact He|apply H0|exact Hs].
  unfold read_back. rewrite <- frame_ns_eq, <- frame_head_eq by (exact He || apply He).
  unfold set_pdata, set_GUID, set_etime, set_obid, set_type, set_class, set_head.
  cbn [head obid etime vscp_class vscp_type GUID sizeData pdata crc].
  rewrite (u16_id (frame_head (head e))), frame_head_idem, (u16_id (frame_head (head e))),
    (u16_id (vscp_class e)), (u16_id (vscp_type e)), (u32_id (obid e)), (u16_id (sizeData e))
    by first [exact H1 | exact H2 | exact H3 | exact H4 | apply He].
  reflexivity.
Qed.

(** *** Dates *)

Lemma pad_digits w n :
  0 <= n < 2 ^ 64 ->
  exists ds, pad w n = map dchar ds /\ digits_ok 10 ds /\ of_digits 10 ds = n.
Proof.
  intros Hn. destruct (dec_digits_spec n Hn) as [E [Hne Hd]].
  exists (replicate (w - length (dec n)) 0 ++ dec_digits n). split; [|split; [split|]].
  - unfold pad. rewrite map_app, <- dec_eq by lia. f_equal.
    induction (w - length (dec n))%nat as [|k IH]; [reflexivity|]. cbn [replicate map].
    rewrite <- IH. reflexivity.
  - destruct (replicate _ 0); [exact Hne|discriminate].
  - apply Forall_app. split; [|exact Hd]. apply Forall_replicate. lia.
  - unfold of_digits in *. rewrite foldl_app.
    assert (Z0 : forall k, foldl (fun a d => a * 10 + d) 0 (replicate k 0) = 0).
    { induction k as [|k IH]; [reflexivity|exact IH]. }
    rewrite Z0. exact E.
Qed.

Lemma stoi_pad w n rest :
  0 <= n < 2 ^ 31 -> ends_number 10 rest -> stoi (pad w n ++ rest) = Some (n, rest).
Proof.
  intros Hn Hr. destruct (pad_digits w n ltac:(lia)) as (ds & -> & Hd & E).
  unfold stoi. rewrite (strtol_number 10 10) by (auto using dchar_digit10, strip_prefix_10).
  rewrite E. destruct (Z.leb_spec (- 2 ^ 31) n); [|lia].
  destruct (Z.ltb_spec n (2 ^ 31)); [reflexivity|lia].
Qed.

Lemma iso_step_pad set k w n c rest t :
  0 <= n < 2 ^ 31 -> is_digit 10 c = false ->
  iso_step set k (pad w n ++ c :: rest) t = k rest (set n t).
Proof.
  intros Hn Hc. unfold iso_step. rewrite stoi_pad; [reflexivity|exact Hn|].
  exact Hc.
Qed.

Lemma pad_no_zero w n : 0 <= n < 2 ^ 64 -> 0 ∉ pad w n.
Proof.
  intros Hn Hin. destruct (pad_digits w n Hn) as (ds & E & [_ Hd] & _). rewrite E in Hin.
  apply list_elem_of_In, in_map_iff in Hin as (d & H0 & Hx).
  rewrite List.Forall_forall in Hd. specialize (Hd d Hx).
  unfold dchar in H0. destruct (Z.ltb_spec d 10); lia.
Qed.

Lemma pad_front w n : 0 <= n < 2 ^ 64 -> exists c s, pad w n = c :: s /\ isspace c = false.
Proof.
  intros Hn. destruct (pad_digits w n Hn) as (ds & -> & [Hne Hd] & _).
  destruct Hd as [|d ds Hd _]; [congruence|]. cbn [map]. eexists _, _. split; [reflexivity|].
  apply (digit_not_space _ d), digit_value_dchar. lia.
Qed.

Lemma trim_front c s : isspace c = false -> vscp_trim (c :: s) <> [].
Proof.
  intros Hc. unfold vscp_trim, vscp_ltrim, vscp_rtrim. cbn [skip_spaces]. rewrite Hc.
  cbn [rev]. intros E. apply (f_equal (@rev Z)) in E. rewrite rev_involutive in E. cbn [rev] in E.
  induction (rev s) as [|x l IH]; cbn [app skip_spaces] in E; [rewrite Hc in E; discriminate|].
  destruct (isspace x); [exact (IH E)|discriminate].
Qed.

Definition field_ok (n : Z) : Prop := 0 <= n < 2 ^ 31.

Lemma parse_date_text y mo d h mi s tail t0 :
  field_ok y -> field_ok mo -> field_ok d -> field_ok h -> field_ok mi -> field_ok s ->
  ends_number 10 tail -> 0 ∉ tail ->
  vscp_parseISOCombined (Some t0) (date_text y mo d h mi s ++ tail)
  = (true, Some (Tm (y - 1900) mo d h mi s)).
Proof.
  unfold field_ok. intros Hy Hmo Hd Hh Hmi Hs Ht Hz. unfold vscp_parseISOCombined.
  set (dt := date_text y mo d h mi s ++ tail).
  assert (E : dt = pad 4 y ++ 45 :: pad 2 mo ++ 45 :: pad 2 d ++ 84 :: pad 2 h ++ 58
                   :: pad 2 mi ++ 58 :: pad 2 s ++ tail).
  { unfold dt, date_text. rewrite <- !app_assoc. reflexivity. }
  assert (Tr : exists x l, vscp_trim dt = x :: l).
  { destruct (pad_front 4 y ltac:(lia)) as (c & r & Ep & Hc).
    pose proof (trim_front c (r ++ 45 :: pad 2 mo ++ 45 :: pad 2 d ++ 84 :: pad 2 h ++ 58
                   :: pad 2 mi ++ 58 :: pad 2 s ++ tail) Hc) as N.
    rewrite E, Ep. destruct (vscp_trim _) as [|x l] eqn:V; [|eauto].
    exfalso. apply N. reflexivity. }
  destruct Tr as (x & l & ->).
  rewrite c_str_id.
  - rewrite E. rewrite !iso_step_pad by (lia || reflexivity).
    cbv beta. rewrite stoi_pad by assumption. reflexivity.
  - rewrite E. rewrite !elem_of_app, !elem_of_cons, !elem_of_app, !elem_of_cons,
      !elem_of_app, !elem_of_cons, !elem_of_app, !elem_of_cons, !elem_of_app, !elem_of_cons, elem_of_app.
    pose proof (pad_no_zero 4 y ltac:(lia)). pose proof (pad_no_zero 2 mo ltac:(lia)).
    pose proof (pad_no_zero 2 d ltac:(lia)). pose proof (pad_no_zero 2 h ltac:(lia)).
    pose proof (pad_no_zero 2 mi ltac:(lia)). pose proof (pad_no_zero 2 s ltac:(lia)).
    intuition congruence.
Qed.

(** One month more is as many days more as the month has. *)
Definition year_step_check (r : Z) : bool :=
  if r =? 0 then true
  else march_year r =? march_year (r - 1) + 365 + (if leap r then 1 else 0).

Lemma year_step_checked : all_below 400 year_step_check = true.
Proof. vm_compute. reflexivity. Qed.

Lemma year_step y :
  y / 400 * 146097 + march_year (y mod 400)
  = (y - 1) / 400 * 146097 + march_year ((y - 1) mod 400) + 365 + (if leap y then 1 else 0).
Proof.
  assert (L : leap y = leap (y mod 400)).
  { rewrite <- (Z.add_0_r (y mod 400)), leap_mod, Z.add_0_r. reflexivity. }
  assert (T := all_below_spec 400 _ (y mod 400) year_step_checked
                 ltac:(change (Z.of_nat 400) with 400; apply (Z.mod_pos_bound y 400); lia)).
  unfold year_step_check in T. rewrite L. destruct (Z.eqb_spec (y mod 400) 0) as [E|E].
  - replace ((y - 1) / 400) with (y / 400 - 1) by dlia.
    replace ((y - 1) mod 400) with 399 by dlia. rewrite E.
    change (march_year 0) with 0. change (march_year 399) with 145731. change (leap 0) with true. cbv iota. lia.
  - replace ((y - 1) / 400) with (y / 400) by dlia.
    replace ((y - 1) mod 400) with (y mod 400 - 1) by dlia.
    apply Z.eqb_eq in T. lia.
Qed.

Lemma civil_day_next_month y m :
  1 <= m <= 12 -> civil_day (y + m / 12) (m mod 12 + 1) 1 = civil_day y m 1 + month_days y m.
Proof.
  intros Hm. unfold civil_day.
  assert (M : m = 2 \/ m = 12 \/ m = 1 \/ m = 3 \/ m = 4 \/ m = 5 \/ m = 6 \/ m = 7
    \/ m = 8 \/ m = 9 \/ m = 10 \/ m = 11) by lia.
  destruct M as [-> |[-> |M]].
  - change (shift_year (y + 2 / 12) (2 mod 12 + 1)) with (y + 0 - 0).
    change (shift_year y 2) with (y - 1). replace (y + 0 - 0) with y by lia. rewrite year_step.
    change (march_month (shift_month (2 mod 12 + 1))) with 0.
    change (march_month (shift_month 2)) with 337.
    change (month_days y 2) with (if leap y then 29 else 28). destruct (leap y); cbv iota; lia.
  - change (shift_year (y + 12 / 12) (12 mod 12 + 1)) with (y + 1 - 1).
    change (shift_year y 12) with (y - 0). rewrite Z.sub_0_r. replace (y + 1 - 1) with y by lia.
    change (march_month (shift_month (12 mod 12 + 1))) with 306.
    change (march_month (shift_month 12)) with 275. change (month_days y 12) with 31. lia.
  - assert (Y : shift_year (y + m / 12) (m mod 12 + 1) = shift_year y m).
    { unfold shift_year. rewrite Z.div_small, Z.mod_small by lia. rewrite Z.add_0_r.
      destruct (Z.leb_spec (m + 1) 2), (Z.leb_spec m 2); lia. }
    rewrite Y. assert (D : march_month (shift_month (m mod 12 + 1))
                           = march_month (shift_month m) + month_days y m)
      by (repeat (destruct M as [-> | M]; [reflexivity|]); subst m; reflexivity).
    rewrite D. ring.
Qed.

Lemma timegm_next_month y m d h mi s :
  1 <= m <= 12 ->
  timegm (Tm (y - 1900) m d h mi s)
  = timegm (Tm (y - 1900) (m - 1) d h mi s) + month_days y m * 86400.
Proof.
  intros Hm. unfold timegm. cbn [tm_year tm_mon tm_mday tm_hour tm_min tm_sec].
  replace (y - 1900 + 1900) with y by lia.
  rewrite (Z.div_small (m - 1)), (Z.mod_small (m - 1)) by lia.
  replace (m - 1 + 1) with m by lia. rewrite Z.add_0_r, civil_day_next_month by exact Hm. ring.
Qed.

(** ** Properties *)

(** An event written as a string is read back by
    vscp_convertStringToEvent: head (with the nanosecond frame version), class,
    type, obid, GUID, size and data are the same, the time is the event's in
    nanoseconds (the clock's when it is zero).  The writer is defined on every
    well-formed event, the reader takes up to 512 data bytes. *)
Theorem event_string_roundtrip (now : timespec) (e e0 : vscpEvent) :
  event_ok e -> event_ok e0 -> sizeData e <= VSCP_MAX_DATA ->
  exists s, vscp_convertEventToString (Some e) = Some (Some s)
    /\ vscp_convertStringToEvent now (Some e0) s = (true, Some (read_back now e e0)).
Proof.
  intros He H0 Hs. eexists. split; [apply convertEventToString_eq, He|].
  apply convertStringToEvent_tokens; assumption.
Qed.

Lemma event_string_roundtrip_witness :
  exists s, vscp_convertEventToString (Some sample_event) = Some (Some s)
    /\ vscp_convertStringToEvent (Timespec 0 0) (Some sample_event) s
       = (true, Some (read_back (Timespec 0 0) sample_event sample_event)).
Proof.
  apply (event_string_roundtrip (Timespec 0 0) sample_event sample_event);
    [apply sample_event_ok|apply sample_event_ok|intros H; discriminate H].
Defined.

(** The date of an event of an original frame, written by
    vscp_getDateStringFromEvent, is taken apart again by vscp_parseISOCombined,
    but the month (1 to 12 in the string) is stored in [tm_mon] (0 to 11) as it
    is: a string with that date read by vscp_convertStringToEvent gives a time
    later by the length of the month. *)
Theorem date_string_month (now : timespec) (e : vscpEvent) (t0 : tm) :
  event_ok e -> is_unix_ns (head e) = false -> 1 <= month (etime e) <= 12 ->
  exists s,
    vscp_getDateStringFromEvent (Some e) = Some s
    /\ vscp_parseISOCombined (Some t0) s
       = (true, Some (Tm (year (etime e) - 1900) (month (etime e)) (day (etime e))
                         (hour (etime e)) (minute (etime e)) (second (etime e))))
    /\ u64 (string_ns now s 0)
       = u64 ((timegm (Tm (year (etime e) - 1900) (month (etime e) - 1) (day (etime e))
                         (hour (etime e)) (minute (etime e)) (second (etime e)))
               + month_days (year (etime e)) (month (etime e)) * 86400) * 1000000000).
Proof.
  intros He Hv Hm. set (t := etime e) in *.
  exists (date_text (year t) (month t) (day t) (hour t) (minute t) (second t) ++ str "Z").
  assert (Ht := etime_ok e He). fold t in Ht. destruct Ht as [Hy _ _].
  assert (P : forall t0, vscp_parseISOCombined (Some t0)
      (date_text (year t) (month t) (day t) (hour t) (minute t) (second t) ++ str "Z")
      = (true, Some (Tm (year t - 1900) (month t) (day t) (hour t) (minute t) (second t)))).
  { intros t1. unfold is_u16 in Hy.
    pose proof (day_ok t). pose proof (hour_ok t). pose proof (minute_ok t).
    pose proof (second_ok t). unfold is_u8 in *.
    apply parse_date_text; unfold field_ok; try lia; [reflexivity|].
    change (str "Z") with [90]. rewrite elem_of_cons, elem_of_nil. lia. }
  split; [|split; [apply P|]].
  - cbn [vscp_getDateStringFromEvent]. fold t. unfold date_string. rewrite Hv.
    rewrite (proj2 (Z.eqb_neq (month t) 0)) by lia. cbn [negb]. rewrite orb_true_r. reflexivity.
  - unfold string_ns. destruct (date_text _ _ _ _ _ _ ++ str "Z") as [|c s] eqn:Es.
    { apply app_eq_nil in Es as [_ Es]. discriminate Es. }
    rewrite P. cbn [snd Z.ltb Z.compare andb]. rewrite timegm_next_month by exact Hm.
    generalize (timegm (Tm (year t - 1900) (month t - 1) (day t) (hour t) (minute t) (second t))
                + month_days (year t) (month t) * 86400). intros z.
    unfold u64. rewrite Z.mod_mod, Z.mul_mod_idemp_l by lia. reflexivity.
Qed.

Definition sample_original : vscpEvent :=
  Event 0x0060 7 (Time 2024 2 (pack 29 23 59 58 0)) 10 6 (GUID sample_event) 0 None 0.

Lemma sample_original_ok : event_ok sample_original.
Proof.
  destruct sample_event_ok. split; unfold sample_original;
    cbn [head obid etime vscp_class vscp_type GUID sizeData pdata crc]; try width; try assumption.
  - split; cbn [year month timestamp_ns]; [width|width|apply pack_ok; width].
  - reflexivity.
Qed.

Lemma date_string_month_witness :
  exists s,
    vscp_getDateStringFromEvent (Some sample_original) = Some s
    /\ vscp_parseISOCombined (Some (Tm 0 0 0 0 0 0)) s = (true, Some (Tm 124 2 29 23 59 58))
    /\ u64 (string_ns (Timespec 0 0) s 0)
       = u64 ((timegm (Tm 124 1 29 23 59 58) + month_days 2024 2 * 86400) * 1000000000).
Proof.
  apply (date_string_month (Timespec 0 0) sample_original (Tm 0 0 0 0 0 0));
    [apply sample_original_ok|reflexivity|cbn [month etime sample_original]; lia].
Defined.
