(* ===== verification/Json.v ===== *)
(** * JSON values, and the text of the JSON forms

    The library nlohmann json is outside the repository: its parser is a parameter.
    [json] are its values; [object_text] is an object in the layout in which the
    functions of vscphelper.cpp write one, and [JsonParser] what they rely on. *)

From S2P Require Import Prelude Strings.

(** A number keeps whether it was written without a sign; of a number with a
    fraction, [whole] is its value without the fraction.  An object's keys are
    distinct. *)
Inductive json :=
  | JNull
  | JBool (b : bool)
  | JUnsigned (n : Z)
  | JInteger (n : Z)
  | JFloat (whole : Z)
  | JString (s : list Z)
  | JArray (l : list json)
  | JObject (fields : list (list Z * json)).

Definition member (name : list Z) (fields : list (list Z * json)) : option json :=
  snd <$> List.find (fun f => bool_decide (f.1 = name)) fields.

(** [contains] and the value, of an object. *)
Definition field (config : json) (name : list Z) : option json :=
  match config with JObject fields => member name fields | _ => None end.

Definition contains (config : json) (name : list Z) : bool := bool_decide (is_Some (field config name)).

(** What the parser gives: a value, the exception parse_error, or another one. *)
Inductive json_result := Parsed (j : json) | ParseError | OtherError.

(** The values of an unsigned field. *)
Definition unsigned (o : option json) : option Z := match o with Some (JUnsigned n) => Some n | _ => None end.

(** ** Objects as text *)

Definition numbers_text (l : list json) : list Z :=
  join 44 (map (fun j => match j with JUnsigned n => dec n | _ => [] end) l).

Definition quoted (s : list Z) : list Z := [34] ++ s ++ [34].

(** The text of the values that the functions write. *)
Definition value_text (j : json) : list Z :=
  match j with
  | JUnsigned n => dec n
  | JString s => quoted s
  | JArray l => str "[" ++ numbers_text l ++ str "]"
  | _ => []
  end.

Definition row (f : list Z * json) : list Z := quoted f.1 ++ str ": " ++ value_text f.2.

Definition newline : list Z := [10].
Definition comma : list Z := str "," ++ newline.

Fixpoint rows_text (rows : list (list Z * json)) : list Z :=
  match rows with
  | [] => []
  | [f] => row f
  | f :: rows => row f ++ comma ++ rows_text rows
  end.

(** The second puts a comma after the last row too. *)
Definition object_text (rows : list (list Z * json)) : list Z := str "{" ++ newline ++ rows_text rows ++ newline ++ str "}".
Definition object_text_comma (rows : list (list Z * json)) : list Z := str "{" ++ newline ++ rows_text rows ++ comma ++ str "}".

(** A string without characters that JSON escapes, and what these texts hold. *)
Definition plain_string (s : list Z) : Prop := Forall (fun c => 32 <= c < 127 /\ c <> 34 /\ c <> 92) s.
Definition plain_value (j : json) : Prop :=
  match j with
  | JUnsigned n => is_u64 n
  | JString s => plain_string s
  | JArray l => Forall (fun j => match j with JUnsigned n => is_u64 n | _ => False end) l
  | _ => False
  end.
Definition plain_row (f : list Z * json) : Prop := plain_string f.1 /\ plain_value f.2.

(** JSON has no comma after the last member. *)
Class JsonParser (parse : list Z -> json_result) : Prop := {
  parse_object rows : rows <> [] -> Forall plain_row rows -> NoDup rows.*1 -> parse (object_text rows) = Parsed (JObject rows);
  parse_comma rows : rows <> [] -> Forall plain_row rows -> NoDup rows.*1 -> parse (object_text_comma rows) = ParseError
}.

(** ** A parser of these texts *)

Fixpoint own_numbers (fuel : nat) (s : list Z) : option (list json * list Z) :=
  match fuel with
  | O => None
  | S fuel =>
      '(n, rest) ← strtol 10 s;
      match rest with
      | 44 :: rest => '(l, rest) ← own_numbers fuel rest; Some (JUnsigned n :: l, rest)
      | 93 :: rest => Some ([JUnsigned n], rest)
      | _ => None
      end
  end.

(** A string, from behind its quotation mark. *)
Definition own_string (s : list Z) : option (list Z * list Z) :=
  k ← find [34] s; Some (take k s, drop (k + 1) s).

Definition own_value (s : list Z) : option (json * list Z) :=
  match s with
  | 34 :: s => '(v, rest) ← own_string s; Some (JString v, rest)
  | 91 :: 93 :: rest => Some (JArray [], rest)
  | 91 :: s => '(l, rest) ← own_numbers (length s) s; Some (JArray l, rest)
  | _ => '(n, rest) ← strtol 10 s; Some (JUnsigned n, rest)
  end.

Fixpoint own_rows (fuel : nat) (s : list Z) : option (list (list Z * json)) :=
  match fuel, s with
  | S fuel, 34 :: s =>
      '(key, rest) ← own_string s;
      match rest with
      | 58 :: 32 :: rest =>
          '(value, rest) ← own_value rest;
          match rest with
          | 44 :: 10 :: rest => l ← own_rows fuel rest; Some ((key, value) :: l)
          | [10; 125] => Some [(key, value)]
          | _ => None
          end
      | _ => None
      end
  | _, _ => None
  end.

Definition own_parse (s : list Z) : json_result :=
  match s with
  | 123 :: 10 :: s => match own_rows (length s) s with Some rows => Parsed (JObject rows) | None => ParseError end
  | _ => ParseError
  end.

Lemma own_string_text v rest : plain_string v -> own_string (v ++ 34 :: rest) = Some (v, rest).
Proof.
  intros Hv. unfold own_string. rewrite find_char_app.
  - cbn [mbind option_bind]. rewrite take_app_length. f_equal. f_equal. rewrite drop_app_ge by lia.
    replace (length v + 1 - length v)%nat with 1%nat by lia. reflexivity.
  - intros H. unfold plain_string in Hv. rewrite list.Forall_forall in Hv. destruct (Hv _ H) as (_ & N & _). congruence.
Qed.

Lemma number_ends c rest : c = 44 \/ c = 93 \/ c = 10 -> ends_number 10 (c :: rest).
Proof. intros [->|[-> | ->]]; reflexivity. Qed.

Lemma own_numbers_text l fuel rest : l <> [] -> Forall (fun j => match j with JUnsigned n => is_u64 n | _ => False end) l -> (length l <= fuel)%nat ->
  own_numbers fuel (numbers_text l ++ 93 :: rest) = Some (l, rest).
Proof.
  intros Hne Hl. revert fuel. induction Hl as [|j l Hj Hl IH]; intros fuel Hf; [congruence|]. destruct fuel as [|fuel]; cbn [length] in Hf; [lia|].
  destruct j as [| |n| | | | |]; try contradiction. cbn [own_numbers]. unfold numbers_text in *. destruct l as [|j' l].
  - cbn [map join]. rewrite strtol_dec by (exact Hj || apply number_ends; auto). reflexivity.
  - cbn [map]. rewrite join_cons, <- app_assoc. cbn [app]. rewrite strtol_dec by (exact Hj || apply number_ends; auto).
    cbn [mbind option_bind]. cbn [map] in IH. rewrite IH by (discriminate || lia). reflexivity.
Qed.

Lemma dec_first n : 0 <= n < 2 ^ 64 -> exists c s, dec n = c :: s /\ 48 <= c < 58.
Proof.
  intros Hn. destruct (dec n) as [|c s] eqn:E; [destruct (dec_not_nil n Hn E)|]. exists c, s. split; [reflexivity|].
  assert (X := dec_no_char n c Hn). rewrite E in X. destruct (decide (48 <= c < 58)); [assumption|].
  destruct X; [lia|apply elem_of_cons; auto].
Qed.

Lemma numbers_text_length l : (length l <= S (length (numbers_text l)))%nat.
Proof.
  induction l as [|a [|b l] IH]; [cbn; lia..|]. unfold numbers_text in *. cbn [map] in *. rewrite join_cons, length_app.
  cbn [length] in *. lia.
Qed.

Lemma own_value_text j c rest : plain_value j -> c = 44 \/ c = 10 -> own_value (value_text j ++ c :: rest) = Some (j, c :: rest).
Proof.
  intros Hj Hc. destruct j as [| |n| | |s|l|]; try contradiction; cbn [value_text].
  - destruct (dec_first n Hj) as (d & t & E & Hd). unfold own_value. rewrite E. cbn [app].
    assert (S : strtol 10 (d :: t ++ c :: rest) = Some (n, c :: rest)).
    { change (d :: t ++ c :: rest) with ((d :: t) ++ c :: rest). rewrite <- E. apply strtol_dec; [exact Hj|apply number_ends; tauto]. }
    rewrite S. cbn [mbind option_bind].
    destruct (decide (d = 34)); [lia|]. destruct (decide (d = 91)); [lia|].
    destruct d as [|d|d]; try lia. do 7 (try (destruct d as [d|d|]; try lia; try reflexivity)).
  - unfold quoted. cbn [app own_value]. rewrite <- app_assoc. cbn [app]. rewrite own_string_text by exact Hj. reflexivity.
  - cbn [str]. rewrite <- !app_assoc.
    change (str "[" ++ ?x) with (91 :: x). change (str "]" ++ ?x) with (93 :: x). destruct l as [|j l]; [reflexivity|].
    inversion Hj as [|? ? Hn _]; subst. destruct j as [| |n| | | | |]; try contradiction. destruct (dec_first n Hn) as (d & t & E & Hd).
    assert (F : exists u, numbers_text (JUnsigned n :: l) = d :: u).
    { unfold numbers_text. cbn [map]. rewrite E. destruct (map _ l); cbn [join app]; eauto. }
    assert (G : forall fuel, (length (JUnsigned n :: l) <= fuel)%nat -> own_numbers fuel (numbers_text (JUnsigned n :: l) ++ 93 :: c :: rest) = Some (JUnsigned n :: l, c :: rest))
      by (intros fuel Hf; apply own_numbers_text; [discriminate|exact Hj|exact Hf]).
    assert (Len : (length (JUnsigned n :: l) <= length (numbers_text (JUnsigned n :: l) ++ 93%Z :: c :: rest))%nat).
    { assert (K := numbers_text_length (JUnsigned n :: l)). rewrite length_app. cbn [length] in *. lia. }
    specialize (G _ Len). destruct F as [u F]. rewrite F in *. cbn [app] in *. unfold own_value.
    destruct (decide (d = 93)); [lia|]. destruct d as [|d|d]; try lia.
    do 7 (try (destruct d as [d|d|]; try lia; try (rewrite G; reflexivity))).
Qed.

Lemma own_rows_text rows fuel : rows <> [] -> Forall plain_row rows -> (length rows <= fuel)%nat ->
  own_rows fuel (rows_text rows ++ [10; 125]) = Some rows /\ own_rows fuel (rows_text rows ++ [44; 10; 125]) = None.
Proof.
  intros Hne Hr. revert fuel. induction Hr as [|[key value] rows [Hk Hv] Hr IH]; intros fuel Hf; [congruence|].
  destruct fuel as [|fuel]; cbn [length] in Hf; [lia|]. cbn [fst snd] in Hk, Hv.
  assert (T : forall c rest, c = 44 \/ c = 10 -> own_rows (S fuel) (row (key, value) ++ c :: rest) =
    match c :: rest with
    | 44 :: 10 :: rest => l ← own_rows fuel rest; Some ((key, value) :: l)
    | [10; 125] => Some [(key, value)]
    | _ => None
    end).
  { intros c rest Hc. unfold row, quoted. cbn [fst snd]. rewrite <- !app_assoc. cbn [app own_rows]. rewrite own_string_text by exact Hk.
    cbn [mbind option_bind]. change (str ": " ++ ?x) with (58 :: 32 :: x). cbv iota. rewrite own_value_text by assumption. reflexivity. }
  destruct rows as [|f rows].
  - cbn [rows_text]. change (row (key, value) ++ [10; 125]) with (row (key, value) ++ 10 :: [125]).
    change (row (key, value) ++ [44; 10; 125]) with (row (key, value) ++ 44 :: [10; 125]). rewrite !T by auto. split; [reflexivity|].
    destruct fuel; reflexivity.
  - change (rows_text ((key, value) :: f :: rows)) with (row (key, value) ++ comma ++ rows_text (f :: rows)).
    rewrite <- !app_assoc. change (comma ++ ?x) with (44 :: 10 :: x). rewrite !T by auto.
    destruct (IH ltac:(discriminate) fuel ltac:(cbn [length] in *; lia)) as [-> ->]. split; reflexivity.
Qed.

#[export] Instance own_parser : JsonParser own_parse.
Proof.
  assert (L : forall rows rest, (length rows <= length (rows_text rows ++ rest))%nat).
  { intros rows rest. rewrite length_app. induction rows as [|f [|f' rows] IH]; [cbn; lia| |].
    - cbn [rows_text length]. unfold row, quoted. rewrite !length_app. cbn [length]. lia.
    - change (rows_text (f :: f' :: rows)) with (row f ++ comma ++ rows_text (f' :: rows)). rewrite length_app, (length_app comma).
      cbn [length] in *. assert (length comma = 2)%nat by reflexivity. lia. }
  constructor; intros rows Hne Hr _.
  - assert (E : own_parse (object_text rows) = match own_rows (length (rows_text rows ++ [10; 125])) (rows_text rows ++ [10; 125]) with
      Some rows => Parsed (JObject rows) | None => ParseError end) by reflexivity.
    rewrite E. destruct (own_rows_text rows _ Hne Hr (L rows [10; 125])) as [-> _]. reflexivity.
  - assert (E : own_parse (object_text_comma rows) = match own_rows (length (rows_text rows ++ [44; 10; 125])) (rows_text rows ++ [44; 10; 125]) with
      Some rows => Parsed (JObject rows) | None => ParseError end) by reflexivity.
    rewrite E. destruct (own_rows_text rows _ Hne Hr (L rows [44; 10; 125])) as [_ ->]. reflexivity.
Qed.
