(* ===== verification/EventJson.v ===== *)
(** * Events and filters as JSON: the JSON functions of vscphelper.cpp

    The writers put the header of a frame with nanosecond time; the readers take
    the names of today and the older ones, and the date and time of before. *)

From S2P Require Import Prelude Program DateTime Event Frame Strings Guid Filter EventString Json.

(** ** Writing *)

(** %016llx. *)
Definition llx (n : Z) : list Z := map (fun k => dchar_lower (n / 16 ^ k mod 16)) [15; 14; 13; 12; 11; 10; 9; 8; 7; 6; 5; 4; 3; 2; 1; 0].

(** The texts that go into the format: every %s and %d of it. *)
Definition event_json (hd oid ns cls typ : Z) (dt guid strdata : list Z) : list Z :=
  str "{" ++ newline
  ++ quoted (str "head") ++ str ": " ++ dec hd ++ comma
  ++ quoted (str "obid") ++ str ": " ++ dec oid ++ comma
  ++ quoted (str "datetime") ++ str ": " ++ quoted dt ++ comma
  ++ quoted (str "timestamp_ns") ++ str ": " ++ quoted (str "0x" ++ llx ns) ++ comma
  ++ quoted (str "class") ++ str ": " ++ dec cls ++ comma
  ++ quoted (str "type") ++ str ": " ++ dec typ ++ comma
  ++ quoted (str "guid") ++ str ": " ++ quoted guid ++ comma
  ++ quoted (str "data") ++ str ": [" ++ strdata ++ str "]" ++ comma
  ++ quoted (str "note") ++ str ": " ++ quoted [] ++ newline ++ str "}".

(** [None]: a read past the end of the data; [Some None]: false. *)
Definition vscp_convertEventToJSON (pev : option vscpEvent) : option (option (list Z)) :=
  match pev with
  | None => Some None
  | Some e =>
      strdata ← vscp_writeDataWithSizeToString (pdata e) (sizeData e) false false true;
      Some (Some (event_json (frame_head (head e)) (obid e) (frame_ns e) (vscp_class e) (vscp_type e)
                    (date_string (head e) (etime e)) (toString (GUID e)) (default [] strdata)))
  end.

(** The fields of a vscpEventEx, which the same code reads. *)
Definition ex_fields (x : vscpEventEx) : vscpEvent :=
  Event (xhead x) (xobid x) (xtime x) (xclass x) (xtype x) (xGUID x) (xsizeData x) (Some (xdata x)) (xcrc x).

Definition vscp_convertEventExToJSON (pex : option vscpEventEx) : option (option (list Z)) :=
  match pex with None => Some None | Some x => vscp_convertEventToJSON (Some (ex_fields x)) end.

(** ** Reading *)

(** get_numeric_key, get_string_key and get_array_key, with the value. *)
Definition key_value (j : json) (primary legacy : string) : option json :=
  match field j (str primary) with Some v => Some v | None => field j (str legacy) end.

(** is_number_unsigned, and zero for anything else. *)
Definition key_unsigned (j : json) (primary legacy : string) : Z := default 0 (unsigned (key_value j primary legacy)).

(** The value of type unsigned that [get] makes of a number or a boolean. *)
Definition get_unsigned (bits : Z) (j : json) : outcome Z :=
  match j with
  | JUnsigned n | JInteger n => Returns (n mod 2 ^ bits)
  | JBool b => Returns (Z.b2z b)
  | JFloat whole => if (0 <=? whole) && (whole <? 2 ^ bits) then Returns whole else Undefined
  | _ => Throws
  end.

(** std::vector<uint8_t> of an array. *)
Fixpoint get_bytes (l : list json) : outcome (list Z) :=
  match l with
  | [] => Returns []
  | j :: l =>
      match get_unsigned 8 j with
      | Returns b => match get_bytes l with Returns bs => Returns (b :: bs) | o => o end
      | Throws => Throws
      | Undefined => Undefined
      | OutOfFuel => OutOfFuel
      end
  end.

(** The old fields: the date and time with microseconds, or one number. *)
Definition old_ns (j : json) : Z :=
  let timestamp := unsigned (key_value j "timestamp" "vscpTimeStamp") in
  match key_value j "datetime" "vscpDateTime" with
  | Some (JString dtStr) =>
      match vscp_parseISOCombined (Some (Tm 0 0 0 0 0 0)) dtStr with
      | (true, Some tm) =>
          let ns := u64 (u64 (timegm tm) * 1000000000) in
          match timestamp with Some us => u64 (ns + u32 us * 1000) | None => ns end
      | _ => 0
      end
  | _ =>
      match timestamp with
      | Some ts => if 1000000000000 <? ts then u64 ts else u64 (ts * 1000)
      | None => 0
      end
  end.

Definition json_ns (j : json) : Z :=
  match field j (str "timestamp_ns") with
  | Some (JString tsStr) => u64 (vscp_readStringValue tsStr)
  | Some (JUnsigned n) => u64 n
  | Some _ => 0
  | None => old_ns j
  end.

Definition json_guid (j : json) : list Z :=
  match key_value j "guid" "vscpGuid" with Some (JString guidStr) => getFromString guidStr | _ => zeros 16 end.

(** Everything but the data. *)
Definition json_fields (now : timespec) (j : json) : vscpEvent :=
  let ns := json_ns j in
  Event (frame_head (u16 (key_unsigned j "head" "vscpHead")))
    (match field j (str "obid") with Some (JUnsigned n) => u32 n | _ => 0 end)
    (Time 0xffff 0xff (if ns =? 0 then vscp_makeTimeStampNs now else ns))
    (u16 (key_unsigned j "class" "vscpClass")) (u16 (key_unsigned j "type" "vscpType"))
    (json_guid j) 0 None 0.

(** What follows the parser in the two functions; the result is the returned value
    and the event, undefined for a number that a byte cannot hold. *)
Definition event_of_json (now : timespec) (j : json) : option (bool * vscpEvent) :=
  let e := json_fields now j in
  match key_value j "data" "vscpData" with
  | Some (JArray l) =>
      match get_bytes l with
      | Returns bs =>
          if VSCP_MAX_DATA <? Z.of_nat (length bs) then Some (false, e)
          else Some (true, set_pdata (Z.of_nat (length bs)) (if (0 <? length bs)%nat then Some bs else None) e)
      | Throws => Some (false, e)
      | _ => None
      end
  | _ => Some (true, e)
  end.

(** The event with its data in the array of a vscpEventEx that was zero. *)
Definition ex_of (e : vscpEvent) : vscpEventEx :=
  EventEx (head e) (obid e) (etime e) (crc e) (vscp_class e) (vscp_type e) (GUID e) (sizeData e)
    (data_of (pdata e) ++ drop (length (data_of (pdata e))) (zeros 512)).

Section Parser.
Context (parse : list Z -> json_result).

Definition vscp_convertJSONToEvent (now : timespec) (pev : option vscpEvent) (strJSON : list Z)
  : option (bool * option vscpEvent) :=
  match pev with
  | None => Some (false, None)
  | Some _ =>
      match parse strJSON with
      | Parsed j => '(ok, e) ← event_of_json now j; Some (ok, Some e)
      | ParseError => Some (true, Some zero_event)
      | OtherError => Some (false, Some zero_event)
      end
  end.

Definition vscp_convertJSONToEventEx (now : timespec) (pex : option vscpEventEx) (strJSON : list Z)
  : option (bool * option vscpEventEx) :=
  match pex with
  | None => Some (false, None)
  | Some _ =>
      match parse strJSON with
      | Parsed j => '(ok, e) ← event_of_json now j; Some (ok, Some (ex_of e))
      | _ => Some (false, Some zero_ex)
      end
  end.

(** ** Filters *)

(** One member of the filter: a value that cannot be converted throws. *)
Definition filter_step (j : json) (name : string) (set : json -> vscpEventFilter -> outcome vscpEventFilter)
    (k : vscpEventFilter -> option (bool * vscpEventFilter)) (f : vscpEventFilter) : option (bool * vscpEventFilter) :=
  match field j (str name) with
  | None => k f
  | Some v => match set v f with Returns f => k f | Throws => Some (false, f) | _ => None end
  end.

Definition filter_number (bits : Z) (set : Z -> vscpEventFilter -> vscpEventFilter) (v : json) (f : vscpEventFilter) : outcome vscpEventFilter :=
  match get_unsigned bits v with Returns n => Returns (set n f) | Throws => Throws | Undefined => Undefined | OutOfFuel => OutOfFuel end.

Definition filter_guid (set : list Z -> vscpEventFilter -> vscpEventFilter) (v : json) (f : vscpEventFilter) : outcome vscpEventFilter :=
  match v with JString s => Returns (set (getFromString s) f) | _ => Throws end.

Definition read_filter (j : json) : vscpEventFilter -> option (bool * vscpEventFilter) :=
  filter_step j "mask_priority" (filter_number 8 (fun v f => Filter (filter_priority f) v (filter_class f) (mask_class f) (filter_type f) (mask_type f) (filter_GUID f) (mask_GUID f))) (
  filter_step j "mask_class" (filter_number 16 (fun v f => Filter (filter_priority f) (mask_priority f) (filter_class f) v (filter_type f) (mask_type f) (filter_GUID f) (mask_GUID f))) (
  filter_step j "mask_type" (filter_number 16 (fun v f => Filter (filter_priority f) (mask_priority f) (filter_class f) (mask_class f) (filter_type f) v (filter_GUID f) (mask_GUID f))) (
  filter_step j "mask_guid" (filter_guid (fun v f => Filter (filter_priority f) (mask_priority f) (filter_class f) (mask_class f) (filter_type f) (mask_type f) (filter_GUID f) v)) (
  filter_step j "filter_priority" (filter_number 8 (fun v f => Filter v (mask_priority f) (filter_class f) (mask_class f) (filter_type f) (mask_type f) (filter_GUID f) (mask_GUID f))) (
  filter_step j "filter_class" (filter_number 16 (fun v f => Filter (filter_priority f) (mask_priority f) v (mask_class f) (filter_type f) (mask_type f) (filter_GUID f) (mask_GUID f))) (
  filter_step j "filter_type" (filter_number 16 (fun v f => Filter (filter_priority f) (mask_priority f) (filter_class f) (mask_class f) v (mask_type f) (filter_GUID f) (mask_GUID f))) (
  filter_step j "filter_guid" (filter_guid (fun v f => Filter (filter_priority f) (mask_priority f) (filter_class f) (mask_class f) (filter_type f) (mask_type f) v (mask_GUID f))) (
  fun f => Some (true, f))))))))).

Definition vscp_readFilterMaskFromJSON (pFilter : option vscpEventFilter) (strFilter : list Z)
  : option (bool * option vscpEventFilter) :=
  match pFilter with
  | None => Some (false, None)
  | Some f =>
      match parse strFilter with
      | Parsed j => '(ok, f) ← read_filter j f; Some (ok, Some f)
      | _ => Some (false, Some f)
      end
  end.

End Parser.

(** VSCP_JSON_FILTER_TEMPLATE with its values. *)
Definition vscp_writeFilterMaskToJSON (pFilter : option vscpEventFilter) : option (list Z) :=
  match pFilter with
  | None => None
  | Some f =>
      Some (str "{" ++ newline
        ++ quoted (str "mask_priority") ++ str ": " ++ dec (mask_priority f) ++ comma
        ++ quoted (str "mask_class") ++ str ": " ++ dec (mask_class f) ++ comma
        ++ quoted (str "mask_type") ++ str ": " ++ dec (mask_type f) ++ comma
        ++ quoted (str "mask_guid") ++ str ": " ++ quoted (toString (mask_GUID f)) ++ comma
        ++ quoted (str "filter_priority") ++ str ": " ++ dec (filter_priority f) ++ comma
        ++ quoted (str "filter_class") ++ str ": " ++ dec (filter_class f) ++ comma
        ++ quoted (str "filter_type") ++ str ": " ++ dec (filter_type f) ++ comma
        ++ quoted (str "filter_guid") ++ str ": " ++ quoted (toString (filter_GUID f)) ++ comma ++ str "}")
  end.

(** ** The texts as objects *)

Definition event_rows (e : vscpEvent) : list (list Z * json) :=
  [(str "head", JUnsigned (frame_head (head e))); (str "obid", JUnsigned (obid e));
   (str "datetime", JString (date_string (head e) (etime e)));
   (str "timestamp_ns", JString (str "0x" ++ llx (frame_ns e)));
   (str "class", JUnsigned (vscp_class e)); (str "type", JUnsigned (vscp_type e));
   (str "guid", JString (toString (GUID e))); (str "data", JArray (map JUnsigned (data_of (pdata e))));
   (str "note", JString [])].

Definition filter_rows (f : vscpEventFilter) : list (list Z * json) :=
  [(str "mask_priority", JUnsigned (mask_priority f)); (str "mask_class", JUnsigned (mask_class f));
   (str "mask_type", JUnsigned (mask_type f)); (str "mask_guid", JString (toString (mask_GUID f)));
   (str "filter_priority", JUnsigned (filter_priority f)); (str "filter_class", JUnsigned (filter_class f));
   (str "filter_type", JUnsigned (filter_type f)); (str "filter_guid", JString (toString (filter_GUID f)))].

Lemma data_texts_plain fmt l : data_texts fmt None 0 [] l = map fmt l.
Proof.
  generalize 0%nat. induction l as [|b [|b' l] IH]; intros i; [reflexivity|cbn; rewrite app_nil_r; reflexivity|].
  change (data_texts fmt None i [] (b :: b' :: l)) with (fmt b :: data_texts fmt None (S i) (line_break None (S i)) (b' :: l)).
  change (line_break None (S i)) with (@nil Z). rewrite IH. reflexivity.
Qed.

Lemma data_numbers l : write_data dec None (pred (length l)) 0 l = numbers_text (map JUnsigned l).
Proof.
  unfold numbers_text. rewrite map_map. destruct l as [|b l]; [reflexivity|].
  assert (J := write_data_join dec None (b :: l) 0 [] _ ltac:(discriminate) eq_refl). cbn [app] in J.
  rewrite data_texts_plain in J. exact J.
Qed.

Lemma event_json_rows hd oid ns cls typ dt guid l :
  event_json hd oid ns cls typ dt guid (numbers_text l)
  = object_text [(str "head", JUnsigned hd); (str "obid", JUnsigned oid); (str "datetime", JString dt);
                 (str "timestamp_ns", JString (str "0x" ++ llx ns)); (str "class", JUnsigned cls); (str "type", JUnsigned typ);
                 (str "guid", JString guid); (str "data", JArray l); (str "note", JString [])].
Proof.
  unfold event_json, object_text, rows_text, row, value_text. cbn [fst snd]. change (str ": [") with (str ": " ++ str "[").
  rewrite <- !app_assoc. reflexivity.
Qed.

Lemma convertEventToJSON_eq e : event_ok e -> vscp_convertEventToJSON (Some e) = Some (Some (object_text (event_rows e))).
Proof.
  intros He. assert (Hd := edata_ok e He). unfold vscp_convertEventToJSON, event_rows, vscp_writeDataWithSizeToString.
  destruct (pdata e) as [l|]; cbn [data_ok data_of default] in *.
  - destruct Hd as (_ & Hl & _). rewrite rdn_self by exact Hl. cbv beta iota. cbn [mbind option_bind]. change (default [] (Some ?x)) with x. rewrite data_numbers.
    exact (f_equal (fun t => Some (Some t)) (event_json_rows _ _ _ _ _ _ _ _)).
  - exact (f_equal (fun t => Some (Some t)) (event_json_rows _ _ _ _ _ _ _ [])).
Qed.

Lemma writeFilter_eq f : vscp_writeFilterMaskToJSON (Some f) = Some (object_text_comma (filter_rows f)).
Proof.
  unfold vscp_writeFilterMaskToJSON, object_text_comma, filter_rows, rows_text, row, value_text. cbn [fst snd].
  rewrite <- !app_assoc. reflexivity.
Qed.

(** ** Letters, digits and - . : need not be escaped *)

Definition simple_char (c : Z) : Prop := (45 <= c <= 58 /\ c <> 47) \/ 65 <= c <= 90 \/ 97 <= c <= 122.
Definition simple_string (s : list Z) : Prop := Forall simple_char s.

Lemma simple_plain s : simple_string s -> plain_string s.
Proof. apply List.Forall_impl. unfold simple_char. lia. Qed.

Lemma simple_app s t : simple_string s -> simple_string t -> simple_string (s ++ t).
Proof. apply Forall_app_2. Qed.

Lemma simple_check s : forallb (fun c => ((45 <=? c) && (c <=? 58) && negb (c =? 47)) || ((65 <=? c) && (c <=? 90)) || ((97 <=? c) && (c <=? 122))) s = true -> simple_string s.
Proof.
  intros H. unfold simple_string. rewrite list.Forall_forall. intros c Hc. rewrite forallb_forall in H.
  specialize (H c (proj1 (list_elem_of_In _ _) Hc)). unfold simple_char. lia.
Qed.

Lemma plain_check s : forallb (fun c => (32 <=? c) && (c <? 127) && negb (c =? 34) && negb (c =? 92)) s = true -> plain_string s.
Proof.
  intros H. unfold plain_string. rewrite list.Forall_forall. intros c Hc. rewrite forallb_forall in H.
  specialize (H c (proj1 (list_elem_of_In _ _) Hc)). lia.
Qed.

Lemma simple_digits ds : Forall (fun d => 0 <= d < 16) ds -> simple_string (map dchar ds) /\ simple_string (map dchar_lower ds).
Proof.
  intros H. split; induction H as [|d ds Hd _ IH]; constructor; try exact IH; unfold simple_char, dchar, dchar_lower; destruct (Z.ltb_spec d 10); lia.
Qed.

Lemma simple_pad w n : 0 <= n < 2 ^ 64 -> simple_string (pad w n).
Proof.
  intros Hn. destruct (pad_digits w n Hn) as (ds & -> & [_ Hd] & _). apply simple_digits.
  eapply List.Forall_impl; [|exact Hd]. cbn. lia.
Qed.

Lemma simple_llx n : simple_string (llx n).
Proof.
  unfold llx. rewrite <- (map_map (fun k => n / 16 ^ k mod 16) dchar_lower). apply simple_digits.
  repeat (constructor; [apply Z.mod_pos_bound; lia|]). constructor.
Qed.

Lemma simple_toString g : bytes_ok g -> length g = 16%nat -> simple_string (toString g).
Proof.
  intros Hb Hl. assert (Hc := group_text_chars 58 _ (singletons_ok g Hb)). rewrite <- toString_groups in Hc by exact Hl.
  eapply List.Forall_impl; [|exact Hc]. intros c [(d & Hd & ->)| ->]; unfold simple_char; [|lia]. unfold dchar. destruct (Z.ltb_spec d 10); lia.
Qed.

Lemma simple_date_text y mo d h mi s :
  is_u16 y -> is_u16 mo -> is_u8 d -> is_u8 h -> is_u8 mi -> is_u8 s -> simple_string (date_text y mo d h mi s).
Proof.
  unfold is_u16, is_u8. intros. unfold date_text.
  repeat (apply simple_app; [first [apply simple_pad; lia | apply simple_check; reflexivity]|]). apply simple_pad; lia.
Qed.

Lemma simple_date_string h t : time_ok t -> simple_string (date_string h t).
Proof.
  intros [Hy Hm Hn]. unfold date_string. destruct (is_unix_ns h).
  - destruct (0 <? timestamp_ns t); [|constructor]. unfold is_u64 in Hn.
    destruct (gmtime_range (timestamp_ns t / 1000000000)) as (Ry & Rm & Rd & Rh & Rmi & Rs); [dlia|].
    cbv zeta in *. apply simple_app; [apply simple_date_text; width|].
    apply simple_app; [apply simple_check; reflexivity|]. apply simple_app; [apply simple_pad; dlia|apply simple_check; reflexivity].
  - destruct (_ || _); [|constructor]. apply simple_app; [|apply simple_check; reflexivity].
    pose proof (day_ok t). pose proof (hour_ok t). pose proof (minute_ok t). pose proof (second_ok t).
    apply simple_date_text; unfold is_u16, is_u8 in *; assumption || lia.
Qed.

Lemma event_rows_plain e : event_ok e -> Forall plain_row (event_rows e).
Proof.
  intros He. destruct (guid_ok e He) as [Hg Hb]. destruct (data_of_ok _ _ (edata_ok e He)) as [_ Hd].
  pose proof (frame_head_ok (head e)). pose proof (class_ok e He). pose proof (type_ok e He). pose proof (obid_ok e He).
  unfold event_rows. repeat (apply List.Forall_cons; [split; [apply plain_check; reflexivity|cbn [snd plain_value]]|]); [..|constructor];
    try (unfold is_u16, is_u32, is_u64 in *; lia).
  - apply simple_plain, simple_date_string, He.
  - apply simple_plain, simple_app; [apply simple_check; reflexivity|apply simple_llx].
  - apply simple_plain, simple_toString; assumption.
  - induction Hd as [|b l Hb' Hd IH]; constructor; [unfold is_u8, is_u64 in *; lia|exact IH].
  - constructor.
Qed.

Lemma filter_rows_plain f : filter_ok f -> Forall plain_row (filter_rows f).
Proof.
  intros [? ? ? ? ? ? [? ?] [? ?]]. unfold filter_rows, is_u8, is_u16 in *.
  repeat (apply List.Forall_cons; [split; [apply plain_check; reflexivity|cbn [snd plain_value]]|]); [..|constructor];
    (unfold is_u64; lia) || (apply simple_plain, simple_toString; assumption).
Qed.

Lemma event_rows_keys e : NoDup (event_rows e).*1.
Proof. by_decide. Qed.
Lemma filter_rows_keys f : NoDup (filter_rows f).*1.
Proof. by_decide. Qed.

(** ** The time *)

Definition llx_digits (n : Z) : list Z := map (fun k => n / 16 ^ k mod 16) [15; 14; 13; 12; 11; 10; 9; 8; 7; 6; 5; 4; 3; 2; 1; 0].

Lemma llx_value n : is_u64 n -> of_digits 16 (llx_digits n) = n /\ digits_ok 16 (llx_digits n).
Proof.
  intros Hn. split.
  - unfold llx_digits, of_digits. cbn [map foldl]. unfold is_u64 in Hn. dlia.
  - split; [discriminate|]. repeat (constructor; [apply Z.mod_pos_bound; lia|]). constructor.
Qed.

Definition lower_digit_check (d : Z) : bool :=
  bool_decide (digit_value (dchar_lower d) = Some d) && (tolower (dchar_lower d) =? dchar_lower d)
  && negb (dchar_lower d =? 120) && negb (isspace (dchar_lower d)).

Lemma lower_digit d : 0 <= d < 16 ->
  digit_value (dchar_lower d) = Some d /\ tolower (dchar_lower d) = dchar_lower d /\ dchar_lower d <> 120 /\ isspace (dchar_lower d) = false.
Proof.
  intros Hd. assert (T := all_below_spec 16 lower_digit_check d eq_refl Hd). unfold lower_digit_check in T.
  apply andb_prop in T as [T T4]. apply andb_prop in T as [T T3]. apply andb_prop in T as [T1 T2].
  apply bool_decide_eq_true_1 in T1. apply Z.eqb_eq in T2. apply negb_true_iff, Z.eqb_neq in T3. apply negb_true_iff in T4. auto.
Qed.

Lemma lower_text ds : Forall (fun d => 0 <= d < 16) ds -> map tolower (map dchar_lower ds) = map dchar_lower ds.
Proof.
  induction 1 as [|d ds Hd _ IH]; [reflexivity|]. cbn [map]. rewrite IH. f_equal. apply lower_digit, Hd.
Qed.

Lemma readStringValue_llx n : is_u64 n -> vscp_readStringValue (str "0x" ++ llx n) = if n <? 2 ^ 63 then n else 0.
Proof.
  intros Hn. destruct (llx_value n Hn) as [E Hd].
  assert (El : llx n = map dchar_lower (llx_digits n)) by (unfold llx, llx_digits; rewrite map_map; reflexivity).
  assert (L : vscp_makeLower (str "0x" ++ llx n) = str "0x" ++ llx n /\ no_space (str "0x" ++ llx n)).
  { rewrite El. unfold vscp_makeLower, no_space. rewrite map_app. destruct Hd as [_ Hd]. split.
    - rewrite lower_text by exact Hd. reflexivity.
    - apply Forall_app. split; [repeat constructor|]. apply List.Forall_map. eapply List.Forall_impl; [|exact Hd].
      intros d Hd'. apply lower_digit, Hd'. }
  destruct L as [L1 L2]. unfold vscp_readStringValue. rewrite L1, trim_id by exact L2. cbv zeta. rewrite find_here by reflexivity.
  change (drop 2 (str "0x" ++ llx n)) with (llx n).
  assert (S : strtol 16 (llx n ++ []) = Some (n, [])).
  { rewrite El. etransitivity; [apply (strtol_number 16 16); [|exact Hd|reflexivity|]|rewrite E; reflexivity].
    - intros d Hd'. apply lower_digit, Hd'.
    - rewrite app_nil_r. unfold llx_digits. cbn [map strip_prefix].
      assert (T : (tolower (dchar_lower (n / 16 ^ 14 mod 16)) =? 120) = false).
      { destruct (lower_digit (n / 16 ^ 14 mod 16)) as (_ & -> & N & _); [apply Z.mod_pos_bound; lia|]. apply Z.eqb_neq, N. }
      rewrite T, andb_false_r. reflexivity. }
  rewrite app_nil_r in S. unfold stoll. rewrite S. unfold is_u64 in Hn. destruct (Z.leb_spec (- 2 ^ 63) n); [|lia]. cbn [andb].
  destruct (n <? 2 ^ 63); reflexivity.
Qed.

(** ** What is read back *)

Definition json_back (now : timespec) (e : vscpEvent) : vscpEvent :=
  Event (frame_head (head e)) (obid e)
    (Time 0xffff 0xff (if (0 <? frame_ns e) && (frame_ns e <? 2 ^ 63) then frame_ns e else vscp_makeTimeStampNs now))
    (vscp_class e) (vscp_type e) (GUID e) (sizeData e) (pdata e) 0.

Lemma get_bytes_numbers l : bytes_ok l -> get_bytes (map JUnsigned l) = Returns l.
Proof.
  induction 1 as [|b l Hb _ IH]; [reflexivity|]. cbn [map get_bytes get_unsigned]. rewrite IH, Z.mod_small by exact Hb. reflexivity.
Qed.

Lemma event_of_rows now e : event_ok e -> sizeData e <= VSCP_MAX_DATA ->
  event_of_json now (JObject (event_rows e)) = Some (true, json_back now e).
Proof.
  intros He Hs. destruct (guid_ok e He) as [Hg Hb]. assert (Hd := edata_ok e He). destruct (data_of_ok _ _ Hd) as [Hl Hdb].
  assert (F : json_fields now (JObject (event_rows e)) = set_pdata 0 None (json_back now e)).
  { unfold json_fields, json_back, set_pdata. cbn [head obid etime vscp_class vscp_type GUID crc].
    change (key_unsigned (JObject (event_rows e)) "head" "vscpHead") with (frame_head (head e)).
    change (key_unsigned (JObject (event_rows e)) "class" "vscpClass") with (vscp_class e).
    change (key_unsigned (JObject (event_rows e)) "type" "vscpType") with (vscp_type e).
    change (field (JObject (event_rows e)) (str "obid")) with (Some (JUnsigned (obid e))).
    change (json_guid (JObject (event_rows e))) with (vscp_getGuidFromStringToArray (toString (GUID e))).
    change (json_ns (JObject (event_rows e))) with (u64 (vscp_readStringValue (str "0x" ++ llx (frame_ns e)))).
    rewrite parsed_toString, readStringValue_llx by (assumption || apply frame_ns_ok, He).
    pose proof (frame_ns_ok e He) as Hn.
    rewrite (u16_id (frame_head (head e))), frame_head_idem, (u16_id (vscp_class e)), (u16_id (vscp_type e)), (u32_id (obid e))
      by first [apply frame_head_ok | apply He].
    do 3 f_equal. unfold is_u64 in Hn. destruct (Z.ltb_spec (frame_ns e) (2 ^ 63)).
    - rewrite u64_id by exact Hn. destruct (Z.eqb_spec (frame_ns e) 0), (Z.ltb_spec 0 (frame_ns e)); (reflexivity || lia).
    - rewrite andb_false_r. reflexivity. }
  unfold event_of_json. rewrite F.
  change (key_value (JObject (event_rows e)) "data" "vscpData") with (Some (JArray (map JUnsigned (data_of (pdata e))))).
  cbv iota. rewrite get_bytes_numbers by exact Hdb. rewrite Hl. rewrite (ltb_max _ Hs : (VSCP_MAX_DATA <? sizeData e) = false).
  do 2 f_equal. unfold json_back, set_pdata. cbn [head obid etime vscp_class vscp_type GUID crc]. rewrite (u16_id (sizeData e)) by apply He.
  f_equal. destruct (pdata e) as [l|]; cbn [data_ok] in *; [|reflexivity]. change (data_of (Some l)) with l in *.
  destruct (Nat.ltb_spec 0 (length l)); [reflexivity|lia].
Qed.

(** ** Every value gives a well-formed event *)

Lemma get_bytes_ok l bs : get_bytes l = Returns bs -> bytes_ok bs.
Proof.
  revert bs. induction l as [|j l IH]; intros bs; cbn [get_bytes]; [intros [= <-]; constructor|].
  destruct (get_unsigned 8 j) as [b| | |] eqn:G; try discriminate.
  destruct (get_bytes l) as [bs'| | |]; try discriminate. intros [= <-]. constructor; [|apply IH; reflexivity].
  unfold get_unsigned in G. unfold is_u8. destruct j as [|[|]|n|n|w| | |]; try discriminate; try (injection G as <-; cbn; lia || apply Z.mod_pos_bound; lia).
  destruct (Z.leb_spec 0 w), (Z.ltb_spec w (2 ^ 8)); try discriminate. injection G as <-. lia.
Qed.

Lemma old_ns_ok j : is_u64 (old_ns j).
Proof.
  assert (Z0 : is_u64 0) by width. unfold old_ns. cbv zeta.
  destruct (key_value j "datetime" "vscpDateTime") as [[| | | | |s| |]|]; try (destruct (unsigned _); [|exact Z0]; destruct (_ <? _); apply u64_ok).
  destruct (vscp_parseISOCombined _ s) as [[|] [t|]]; try exact Z0. destruct (unsigned _); apply u64_ok.
Qed.

Lemma getFromString_ok s : length (getFromString s) = 16%nat /\ bytes_ok (getFromString s).
Proof.
  unfold getFromString, vscp_guid_parse. cbv zeta. assert (G := guid_parse_ok (length (c_str s)) (c_str s)).
  destruct (guid_parse _ _) as [[rc g] rest]. apply G.
Qed.

Lemma json_fields_ok now j : event_ok (json_fields now j).
Proof.
  assert (N : is_u64 (json_ns j)).
  { assert (Z0 : is_u64 0) by width. unfold json_ns. destruct (field j (str "timestamp_ns")) as [[| | | | | | |]|]; try exact Z0; try apply u64_ok. apply old_ns_ok. }
  assert (G : length (json_guid j) = 16%nat /\ bytes_ok (json_guid j)).
  { unfold json_guid. destruct (key_value j "guid" "vscpGuid") as [[| | | | |s| |]|]; try apply u8_zeros. apply getFromString_ok. }
  unfold json_fields. cbv zeta. split; cbn [head obid etime vscp_class vscp_type GUID sizeData pdata crc]; try apply u16_ok; try exact G; try width.
  - destruct (field j (str "obid")) as [[| | | | | | |]|]; try apply u32_ok; width.
  - split; cbn [year month timestamp_ns]; try width. destruct (json_ns j =? 0); [apply u64_ok|exact N].
  - reflexivity.
Qed.

Lemma event_of_json_ok now j ok e : event_of_json now j = Some (ok, e) -> event_ok e /\ sizeData e <= VSCP_MAX_DATA.
Proof.
  assert (F := json_fields_ok now j).
  assert (Z0 : sizeData (json_fields now j) <= VSCP_MAX_DATA) by (cbn; unfold VSCP_MAX_DATA; lia).
  unfold event_of_json. cbv zeta. destruct (key_value j "data" "vscpData") as [[| | | | | |l|]|]; try (intros [= <- <-]; split; assumption).
  destruct (get_bytes l) as [bs| | |] eqn:G; try discriminate; [|intros [= <- <-]; split; assumption].
  apply get_bytes_ok in G. unfold VSCP_MAX_DATA in *. destruct (Z.ltb_spec 512 (Z.of_nat (length bs))); intros [= <- <-]; [split; assumption|].
  split; [|unfold set_pdata; cbn [sizeData]; rewrite u16_id; [lia|unfold is_u16; lia]].
  destruct F as [? ? ? ? ? ? ? ? ?]. split; cbn [set_pdata head obid etime vscp_class vscp_type GUID sizeData pdata crc]; try assumption; try apply u16_ok.
  rewrite u16_id by (unfold is_u16; lia). destruct (Nat.ltb_spec 0 (length bs)); cbn [data_ok]; [split_and!; [lia|reflexivity|exact G]|lia].
Qed.

(** The data of a vscpEventEx is written as the data of the event. *)
Lemma convertEventExToJSON_eq e : event_ok e -> sizeData e <= 512 ->
  vscp_convertEventExToJSON (Some (ex_of e)) = vscp_convertEventToJSON (Some e).
Proof.
  intros He Hs. rewrite convertEventToJSON_eq by exact He. destruct (data_of_ok _ _ (edata_ok e He)) as [Hl _].
  unfold vscp_convertEventExToJSON, vscp_convertEventToJSON, vscp_writeDataWithSizeToString, ex_fields, ex_of, event_rows.
  cbn [xhead xobid xtime xcrc xclass xtype xGUID xsizeData xdata head obid etime vscp_class vscp_type GUID sizeData pdata].
  assert (R : rdn (data_of (pdata e) ++ drop (length (data_of (pdata e))) (zeros 512)) 0 (Z.to_nat (sizeData e)) = Some (data_of (pdata e))).
  { rewrite <- Hl, Nat2Z.id. apply rdn_front. }
  rewrite R. cbv beta iota. cbn [mbind option_bind]. change (default [] (Some ?x)) with x. rewrite data_numbers.
  exact (f_equal (fun t => Some (Some t)) (event_json_rows _ _ _ _ _ _ _ _)).
Qed.

Lemma ex_of_ok e : event_ok e -> sizeData e <= 512 -> eventex_ok (ex_of e).
Proof.
  intros He Hs. destruct (data_of_ok _ _ (edata_ok e He)) as [Hl Hd]. destruct He as [? ? ? ? ? ? ? ? ?].
  split; cbn [ex_of xhead xobid xtime xcrc xclass xtype xGUID xsizeData xdata]; try assumption. split.
  - rewrite length_app, length_drop. change (length (zeros 512)) with 512%nat. lia.
  - apply Forall_app. split; [exact Hd|]. apply Forall_drop, Forall_replicate. width.
Qed.

Lemma read_filter_rows f f0 : filter_ok f -> read_filter (JObject (filter_rows f)) f0 = Some (true, f).
Proof.
  destruct f as [fp mp fc mc ft mt fg mg], f0 as [fp0 mp0 fc0 mc0 ft0 mt0 fg0 mg0]. intros [Hfp Hmp Hfc Hmc Hft Hmt [Hfl Hfg] [Hml Hmg]].
  cbn [filter_priority mask_priority filter_class mask_class filter_type mask_type filter_GUID mask_GUID] in *.
  assert (Step : forall j name set k v g g', field j (str name) = Some v -> set v g = Returns g' -> filter_step j name set k g = k g').
  { intros j name set k v g g' F S. unfold filter_step. rewrite F, S. reflexivity. }
  assert (N : forall bits set n g, 0 <= n < 2 ^ bits -> filter_number bits set (JUnsigned n) g = Returns (set n g)).
  { intros bits set n g Hn. unfold filter_number, get_unsigned. rewrite Z.mod_small by exact Hn. reflexivity. }
  assert (G : forall set g h, length g = 16%nat -> bytes_ok g -> filter_guid set (JString (toString g)) h = Returns (set g h)).
  { intros set g h L B. unfold filter_guid. change (getFromString ?s) with (vscp_getGuidFromStringToArray s). rewrite parsed_toString by assumption. reflexivity. }
  unfold read_filter. do 8 (erewrite Step; [|reflexivity|first [apply N; assumption | apply G; assumption]];
    cbn [filter_priority mask_priority filter_class mask_class filter_type mask_type filter_GUID mask_GUID]).
  reflexivity.
Qed.

(** ** Properties *)

(** C29: An event or its vscpEventEx form written as JSON is the same text, and is read
    back, whatever the two objects held, with its data, and the time in nanoseconds
    when that is positive and below 2^63 (the text of a later one is out of the range
    of stoll); otherwise the event gets the time of the reading.  The frame version
    that is read back is always UNIX_NS: of an event of version ORIGINAL, too, the
    nanoseconds of its date and time stamp are written, and the readers set the
    version whatever the head in the text has ([json_back]).  (The header file
    promises a 32-bit time stamp for ORIGINAL.) *)
Theorem event_json_roundtrip (parse : list Z -> json_result) (now : timespec) (e e0 : vscpEvent) (x0 : vscpEventEx) :
  JsonParser parse -> event_ok e -> sizeData e <= VSCP_MAX_DATA ->
  exists s, vscp_convertEventToJSON (Some e) = Some (Some s)
    /\ vscp_convertEventExToJSON (Some (ex_of e)) = Some (Some s)
    /\ vscp_convertJSONToEvent parse now (Some e0) s = Some (true, Some (json_back now e))
    /\ vscp_convertJSONToEventEx parse now (Some x0) s = Some (true, Some (ex_of (json_back now e))).
Proof.
  intros HP He Hs. exists (object_text (event_rows e)). rewrite convertEventExToJSON_eq, convertEventToJSON_eq by assumption.
  unfold vscp_convertJSONToEvent, vscp_convertJSONToEventEx.
  rewrite (parse_object (event_rows e)) by (discriminate || apply event_rows_plain, He || apply event_rows_keys).
  rewrite event_of_rows by assumption. auto.
Qed.

Lemma event_json_roundtrip_witness :
  exists s, vscp_convertEventToJSON (Some sample_event) = Some (Some s)
    /\ vscp_convertEventExToJSON (Some (ex_of sample_event)) = Some (Some s)
    /\ vscp_convertJSONToEvent own_parse (Timespec 0 0) (Some zero_event) s = Some (true, Some (json_back (Timespec 0 0) sample_event))
    /\ vscp_convertJSONToEventEx own_parse (Timespec 0 0) (Some zero_ex) s = Some (true, Some (ex_of (json_back (Timespec 0 0) sample_event))).
Proof.
  apply (event_json_roundtrip own_parse (Timespec 0 0) sample_event zero_event zero_ex);
    [exact own_parser|apply sample_event_ok|intros H; discriminate H].
Defined.

Definition is_parse_error (r : json_result) : bool := match r with ParseError => true | _ => false end.

(** C30: Whatever the text says, under today's names or the older ones, in fields of
    the expected kinds or of others, the two readers store a well-formed event with
    at most 512 bytes, and the same one; they differ in the result for a text
    that is not JSON, for which only vscp_convertJSONToEventEx returns false. *)
Theorem json_event_type (parse : list Z -> json_result) (now : timespec) (e0 : vscpEvent) (x0 : vscpEventEx)
    (s : list Z) (ok : bool) (r : option vscpEvent) :
  vscp_convertJSONToEvent parse now (Some e0) s = Some (ok, r) ->
  exists e, r = Some e /\ event_ok e /\ sizeData e <= VSCP_MAX_DATA
    /\ vscp_convertJSONToEventEx parse now (Some x0) s = Some (ok && negb (is_parse_error (parse s)), Some (ex_of e))
    /\ eventex_ok (ex_of e) /\ (is_parse_error (parse s) = true -> ok = true).
Proof.
  assert (E0 := zero_event_ok).
  assert (S0 : sizeData zero_event <= VSCP_MAX_DATA) by (cbn; unfold VSCP_MAX_DATA; lia).
  unfold vscp_convertJSONToEvent, vscp_convertJSONToEventEx. destruct (parse s) as [j| |].
  - destruct (event_of_json now j) as [[b e]|] eqn:E; [|discriminate]. cbn [mbind option_bind]. intros [= <- <-].
    destruct (event_of_json_ok _ _ _ _ E) as [He Hs]. exists e. rewrite andb_true_r.
    split_and!; try reflexivity; try assumption; [apply ex_of_ok; assumption|discriminate].
  - intros [= <- <-]. exists zero_event. split_and!; try reflexivity; try assumption. apply ex_of_ok; assumption.
  - intros [= <- <-]. exists zero_event. split_and!; try reflexivity; try assumption; [apply ex_of_ok; assumption|discriminate].
Qed.

(** An event with the older names. *)
Definition old_rows : list (list Z * json) :=
  [(str "vscpHead", JUnsigned 70000); (str "vscpClass", JUnsigned 10); (str "vscpTimeStamp", JUnsigned 17);
   (str "vscpData", JArray [JUnsigned 1; JUnsigned 300])].

Lemma json_event_type_witness :
  vscp_convertJSONToEvent own_parse (Timespec 0 0) (Some sample_event) (object_text old_rows)
    = Some (true, Some (Event 0x1170 0 (Time 0xffff 0xff 17000) 10 0 (zeros 16) 2 (Some [1; 44]) 0))
  /\ exists e, Some (Event 0x1170 0 (Time 0xffff 0xff 17000) 10 0 (zeros 16) 2 (Some [1; 44]) 0) = Some e /\ event_ok e /\ sizeData e <= VSCP_MAX_DATA
    /\ vscp_convertJSONToEventEx own_parse (Timespec 0 0) (Some zero_ex) (object_text old_rows)
       = Some (true && negb (is_parse_error (own_parse (object_text old_rows))), Some (ex_of e))
    /\ eventex_ok (ex_of e) /\ (is_parse_error (own_parse (object_text old_rows)) = true -> true = true).
Proof.
  assert (E : vscp_convertJSONToEvent own_parse (Timespec 0 0) (Some sample_event) (object_text old_rows)
    = Some (true, Some (Event 0x1170 0 (Time 0xffff 0xff 17000) 10 0 (zeros 16) 2 (Some [1; 44]) 0))) by (vm_compute; reflexivity).
  split; [exact E|]. exact (json_event_type own_parse (Timespec 0 0) sample_event zero_ex (object_text old_rows) true _ E).
Defined.

(** vscp_writeFilterMaskToJSON puts a comma behind the last member: no JSON parser
    reads the text, and vscp_readFilterMaskFromJSON returns false and leaves the
    filter alone.  Without that comma, the text is read back to the same filter. *)
Theorem filter_json_comma (parse : list Z -> json_result) (f f0 : vscpEventFilter) :
  JsonParser parse -> filter_ok f ->
  exists s, vscp_writeFilterMaskToJSON (Some f) = Some s
    /\ vscp_readFilterMaskFromJSON parse (Some f0) s = Some (false, Some f0)
    /\ vscp_readFilterMaskFromJSON parse (Some f0) (take (length s - 3) s ++ newline ++ str "}") = Some (true, Some f).
Proof.
  intros HP Hf. exists (object_text_comma (filter_rows f)). rewrite writeFilter_eq.
  assert (P := filter_rows_plain f Hf). assert (K := filter_rows_keys f).
  assert (T : take (length (object_text_comma (filter_rows f)) - 3) (object_text_comma (filter_rows f)) ++ newline ++ str "}" = object_text (filter_rows f)).
  { unfold object_text_comma, object_text. rewrite !app_assoc, length_app, (length_app _ comma). change (length comma) with 2%nat.
    change (length (str "}")) with 1%nat. rewrite <- (app_assoc _ comma), take_app_length' by lia. reflexivity. }
  rewrite T. unfold vscp_readFilterMaskFromJSON. rewrite parse_comma, parse_object by (discriminate || assumption).
  rewrite read_filter_rows by exact Hf. auto.
Qed.

Lemma filter_json_comma_witness :
  exists s, vscp_writeFilterMaskToJSON (Some sample_filter) = Some s
    /\ vscp_readFilterMaskFromJSON own_parse (Some sample_filter) s = Some (false, Some sample_filter)
    /\ vscp_readFilterMaskFromJSON own_parse (Some sample_filter) (take (length s - 3) s ++ newline ++ str "}") = Some (true, Some sample_filter).
Proof. apply (filter_json_comma own_parse sample_filter sample_filter); [exact own_parser|exact sample_filter_ok]. Defined.
