(* ===== verification/EventXml.v ===== *)
(** * Events and filters as XML, and events as HTML: vscphelper.cpp

    The library expat is outside the repository: its parser is a parameter, from a
    text to the calls of the element handlers.  The handlers count the open elements
    in global variables, which the models pass along. *)

From S2P Require Import Prelude DateTime Event Frame Strings Guid Filter EventString Json EventJson.

(** ** Writing *)

(** An attribute, and the attributes with what stands between them. *)
Definition attr_text (a : list Z * list Z) : list Z := a.1 ++ str "=" ++ quoted a.2.

Fixpoint attrs_text (sep : list Z) (attrs : list (list Z * list Z)) : list Z :=
  match attrs with
  | [] => []
  | [a] => attr_text a
  | a :: attrs => attr_text a ++ sep ++ attrs_text sep attrs
  end.

Definition element_text (name sep : list Z) (attrs : list (list Z * list Z)) (close : list Z) : list Z :=
  str "<" ++ name ++ str " " ++ attrs_text sep attrs ++ str " " ++ close.

Definition event_attrs (e : vscpEvent) (strdata : list Z) : list (list Z * list Z) :=
  [(str "head", dec (frame_head (head e))); (str "obid", dec (obid e)); (str "datetime", date_string (head e) (etime e));
   (str "timestamp", dec (frame_ns e)); (str "class", dec (vscp_class e)); (str "type", dec (vscp_type e));
   (str "guid", toString (GUID e)); (str "data", strdata)].

(** [None]: a read past the end of the data; [Some None]: false. *)
Definition vscp_convertEventToXML (pev : option vscpEvent) : option (option (list Z)) :=
  match pev with
  | None => Some None
  | Some e =>
      strdata ← vscp_writeDataWithSizeToString (pdata e) (sizeData e) false false false;
      Some (Some (element_text (str "event") (str " ") (event_attrs e (default [] strdata)) (str "/>")))
  end.

Definition vscp_convertEventExToXML (pex : option vscpEventEx) : option (option (list Z)) :=
  match pex with None => Some None | Some x => vscp_convertEventToXML (Some (ex_fields x)) end.

(** VSCP_XML_FILTER_TEMPLATE with its values. *)
Definition filter_attrs (f : vscpEventFilter) : list (list Z * list Z) :=
  [(str "mask_priority", dec (mask_priority f)); (str "mask_class", dec (mask_class f));
   (str "mask_type", dec (mask_type f)); (str "mask_guid", toString (mask_GUID f));
   (str "filter_priority", dec (filter_priority f)); (str "filter_class", dec (filter_class f));
   (str "filter_type", dec (filter_type f)); (str "filter_guid", toString (filter_GUID f))].

Definition vscp_writeFilterMaskToXML (pFilter : option vscpEventFilter) : option (list Z) :=
  match pFilter with
  | None => None
  | Some f => Some (element_text (str "filter") (str " " ++ newline) (filter_attrs f) (str "/>"))
  end.

(** The two frame versions differ in the timestamp only. *)
Definition vscp_convertEventToHTML (pev : option vscpEvent) : option (option (list Z)) :=
  match pev with
  | None => Some None
  | Some e =>
      strdata ← vscp_writeDataWithSizeToString (pdata e) (sizeData e) false false false;
      let time := if is_unix_ns (head e) then timestamp_ns (etime e) else timestamp (etime e) in
      Some (Some (str "<h2>VSCP Event</h2> <p>class: " ++ dec (vscp_class e) ++ str " <br>type: " ++ dec (vscp_type e)
        ++ str " <br></p><p>data size: " ++ dec (sizeData e) ++ str "<br>data: " ++ default [] strdata
        ++ str "<br></p><p>guid: " ++ toString (GUID e) ++ str "<br></p><p>head: " ++ dec (head e)
        ++ str " <br><p>datetime: " ++ date_string (head e) (etime e) ++ str " <br></p>timestamp: " ++ dec time
        ++ str " <br>obid: " ++ dec (obid e) ++ str " <br>note: " ++ str " <br></p>"))
  end.

Definition vscp_convertEventExToHTML (pex : option vscpEventEx) : option (option (list Z)) :=
  match pex with None => Some None | Some x => vscp_convertEventToHTML (Some (ex_fields x)) end.

(** ** The handlers *)

(** What the handlers of an event gather. *)
Record xml_time := XmlTime { timestampStr : option (list Z); parsedTm : tm; hasDatetime : bool }.
Definition no_time : xml_time := XmlTime None (Tm 0 0 0 0 0 0) false.

Definition named (name : list Z) (s : string) : bool := bool_decide (name = str s).

(** The branches for the two attributes of the time. *)
Definition time_attr (name attribute : list Z) (t : xml_time) : xml_time :=
  if named name "datetime" then
    match vscp_parseISOCombined (Some (parsedTm t)) attribute with
    | (true, Some tm) => XmlTime (timestampStr t) tm true
    | (_, Some tm) => XmlTime (timestampStr t) tm (hasDatetime t)
    | _ => t
    end
  else if named name "timestamp" then XmlTime (Some attribute) (parsedTm t) (hasDatetime t)
  else t.

(** The nanoseconds, [ns] when there is neither. *)
Definition xml_ns (t : xml_time) (ns : Z) : Z :=
  match timestampStr t with
  | Some s =>
      let tsValue := u64 (vscp_readStringValue s) in
      if 4102444800000000 <? tsValue then tsValue
      else if hasDatetime t then u64 (u64 (timegm (parsedTm t)) * 1000000000 + tsValue * 1000)
      else u64 (tsValue * 1000)
  | None => if hasDatetime t then u64 (u64 (timegm (parsedTm t)) * 1000000000) else ns
  end.

Definition xml_attr (s : vscpEvent * xml_time) (a : list Z * list Z) : vscpEvent * xml_time :=
  let '(e, t) := s in
  let '(name, attribute) := a in
  let value := vscp_readStringValue attribute in
  (if named name "head" then set_head value e
   else if named name "obid" then set_obid value e
   else if named name "class" then set_class value e
   else if named name "type" then set_type value e
   else if named name "guid" then from_option Datatypes.id e (vscp_setEventGuidFromString (Some e) attribute).2
   else if named name "data" then from_option Datatypes.id e (vscp_setEventDataFromString (Some e) attribute).2
   else e, time_attr name attribute t).

(** The event cleared and set to now; [us] is the value of vscp_makeTimeStamp. *)
Definition fresh (now us : Z) : vscpEvent :=
  match (vscp_setEventToNow now (Some zero_event)).2 with
  | Some e => set_etime (set_timestamp us (etime e)) e
  | None => zero_event
  end.

Definition startEventXMLParser (now us : Z) (depth : Z) (name : list Z) (attrs : list (list Z * list Z)) (_ : vscpEvent) : option vscpEvent :=
  let e := fresh now us in
  Some (if named name "event" && (depth =? 0) then
          let '(e, t) := foldl xml_attr (e, no_time) attrs in
          let e := set_head (frame_head (head e)) e in
          set_etime (Time 0xffff 0xff (xml_ns t (timestamp_ns (etime e)))) e
        else e).

(** The same for a vscpEventEx, whose GUID and data are set by other functions:
    undefined when the GUID is. *)
Definition ex_attr (s : option (vscpEventEx * xml_time)) (a : list Z * list Z) : option (vscpEventEx * xml_time) :=
  '(x, t) ← s;
  let '(name, attribute) := a in
  let value := vscp_readStringValue attribute in
  let '(EventEx h o b r c y g n d) := x in
  x ← (if named name "head" then Some (EventEx (u16 value) o b r c y g n d)
       else if named name "obid" then Some (EventEx h (u32 value) b r c y g n d)
       else if named name "class" then Some (EventEx h o b r (u16 value) y g n d)
       else if named name "type" then Some (EventEx h o b r c (u16 value) g n d)
       else if named name "guid" then
         match vscp_setEventExGuidFromString attribute with
         | ExGuid g => Some (EventEx h o b r c y g n d)
         | _ => None
         end
       else if named name "data" then
         '(_, px) ← vscp_setEventExDataFromString (Some x) attribute; px
       else Some x);
  Some (x, time_attr name attribute t).

Definition ex_fresh (now us : Z) : vscpEventEx :=
  match (vscp_setEventExToNow now (Some zero_ex)).2 with
  | Some x => EventEx (xhead x) (xobid x) (set_timestamp us (xtime x)) (xcrc x) (xclass x) (xtype x) (xGUID x) (xsizeData x) (xdata x)
  | None => zero_ex
  end.

Definition startEventExXMLParser (now us : Z) (depth : Z) (name : list Z) (attrs : list (list Z * list Z)) (_ : vscpEventEx) : option vscpEventEx :=
  let x := ex_fresh now us in
  if named name "event" && (depth =? 0) then
    '(x, t) ← foldl ex_attr (Some (x, no_time)) attrs;
    Some (EventEx (frame_head (xhead x)) (xobid x) (Time 0xffff 0xff (xml_ns t (timestamp_ns (xtime x)))) (xcrc x)
            (xclass x) (xtype x) (xGUID x) (xsizeData x) (xdata x))
  else Some x.

Definition filter_attr (f : vscpEventFilter) (a : list Z * list Z) : vscpEventFilter :=
  let '(name, attribute) := a in
  let value := vscp_readStringValue attribute in
  let guid := vscp_getGuidFromStringToArray attribute in
  let '(Filter fp mp fc mc ft mt fg mg) := f in
  if named name "mask_priority" then Filter fp (u8 value) fc mc ft mt fg mg
  else if named name "mask_class" then Filter fp mp fc (u16 value) ft mt fg mg
  else if named name "mask_type" then Filter fp mp fc mc ft (u16 value) fg mg
  else if named name "mask_guid" then Filter fp mp fc mc ft mt fg guid
  else if named name "filter_priority" then Filter (u8 value) mp fc mc ft mt fg mg
  else if named name "filter_class" then Filter fp mp (u16 value) mc ft mt fg mg
  else if named name "filter_type" then Filter fp mp fc mc (u16 value) mt fg mg
  else if named name "filter_guid" then Filter fp mp fc mc ft mt guid mg
  else f.

Definition startFilterMaskXMLParser (depth : Z) (name : list Z) (attrs : list (list Z * list Z)) (f : vscpEventFilter) : option vscpEventFilter :=
  Some (if named name "filter" && (depth =? 0) then foldl filter_attr f attrs else f).

(** ** The parser *)

(** The calls of the two handlers. *)
Inductive sax := Start (name : list Z) (attrs : list (list Z * list Z)) | End_ (name : list Z).

Definition XML_BUFF_SIZE : Z := 0xffff.

(** The [int] that counts the open elements. *)
Definition count (depth k : Z) : option Z :=
  if (- 2 ^ 31 <=? depth + k) && (depth + k <? 2 ^ 31) then Some (depth + k) else None.

Section Expat.
(** The calls that the parser makes for a first piece of a document, and whether
    XML_ParseBuffer succeeds. *)
Context (expat : list Z -> list sax * bool).

Section Reader.
Context {T : Type} (start : Z -> list Z -> list (list Z * list Z) -> T -> option T).

Fixpoint handlers (items : list sax) (depth : Z) (t : T) : option (Z * T) :=
  match items with
  | [] => Some (depth, t)
  | Start name attrs :: items => t ← start depth name attrs t; depth ← count depth 1; handlers items depth t
  | End_ _ :: items => depth ← count depth (-1); handlers items depth t
  end.

(** What the three readers share: [strncpy] pads with zeros, and writes past the
    buffer when the text is longer than it. *)
Definition read_xml (depth : Z) (p : option T) (strXML : list Z) : option (bool * Z * option T) :=
  match p with
  | None => Some (false, depth, None)
  | Some t =>
      if (length strXML =? 0)%nat then Some (false, depth, Some t)
      else if XML_BUFF_SIZE <? Z.of_nat (length strXML) then None
      else
        let text := c_str strXML in
        let '(items, ok) := expat (text ++ zeros (length strXML - length text)) in
        '(depth, t) ← handlers items depth t;
        Some (ok, depth, Some t)
  end.

End Reader.

Definition vscp_convertXMLToEvent (now us depth : Z) (pev : option vscpEvent) (strXML : list Z) : option (bool * Z * option vscpEvent) :=
  read_xml (startEventXMLParser now us) depth pev strXML.
Definition vscp_convertXMLToEventEx (now us depth : Z) (pex : option vscpEventEx) (strXML : list Z) : option (bool * Z * option vscpEventEx) :=
  read_xml (startEventExXMLParser now us) depth pex strXML.
Definition vscp_readFilterMaskFromXML (depth : Z) (pFilter : option vscpEventFilter) (strFilter : list Z) : option (bool * Z * option vscpEventFilter) :=
  read_xml startFilterMaskXMLParser depth pFilter strFilter.

End Expat.

(** ** What the functions rely on *)

Definition name_ok (s : list Z) : Prop := s <> [] /\ Forall (fun c => 97 <= c <= 122 \/ c = 95) s.
Definition value_ok (s : list Z) : Prop := Forall (fun c => 32 <= c < 127 /\ c <> 34 /\ c <> 38 /\ c <> 60) s.
Definition attr_ok (a : list Z * list Z) : Prop := name_ok a.1 /\ value_ok a.2.
Definition sep_ok (sep : list Z) : Prop := sep = str " " \/ sep = str " " ++ newline.

(** An element without content, and one that is not closed yet: the calls pass
    false for the last piece. *)
Class XmlParser (expat : list Z -> list sax * bool) : Prop := {
  sax_element name sep attrs : name_ok name -> attrs <> [] -> Forall attr_ok attrs -> NoDup attrs.*1 -> sep_ok sep ->
    expat (element_text name sep attrs (str "/>")) = ([Start name attrs; End_ name], true);
  sax_open name sep attrs : name_ok name -> attrs <> [] -> Forall attr_ok attrs -> NoDup attrs.*1 -> sep_ok sep ->
    expat (element_text name sep attrs (str ">")) = ([Start name attrs], true)
}.

(** A parser of such texts. *)
Fixpoint own_attrs (fuel : nat) (s : list Z) : option (list (list Z * list Z) * bool) :=
  match fuel with
  | O => None
  | S fuel =>
      k ← find [61] s;
      j ← find [34] (drop (k + 2) s);
      let a := (take k s, take j (drop (k + 2) s)) in
      let rest := drop (j + 1) (drop (k + 2) s) in
      if bool_decide (rest = str " />") then Some ([a], true)
      else if bool_decide (rest = str " >") then Some ([a], false)
      else
        '(l, closed) ← own_attrs fuel (drop (if starts_with (str " " ++ newline) rest then 2 else 1) rest);
        Some (a :: l, closed)
  end.

Definition own_sax (s : list Z) : list sax * bool :=
  match k ← find [32] (drop 1 s); '(attrs, closed) ← own_attrs (length s) (drop (k + 2) s); Some (take k (drop 1 s), attrs, closed) with
  | Some (name, attrs, true) => ([Start name attrs; End_ name], true)
  | Some (name, attrs, false) => ([Start name attrs], true)
  | None => ([], false)
  end.

Lemma name_not_in s c : Forall (fun c => 97 <= c <= 122 \/ c = 95) s -> (c < 95 \/ c = 96) -> c ∉ s.
Proof. intros H Hc Hin. rewrite list.Forall_forall in H. specialize (H _ Hin). lia. Qed.

Lemma own_attrs_step fuel a v rest : attr_ok (a, v) ->
  own_attrs (S fuel) (attr_text (a, v) ++ rest) =
  if bool_decide (rest = str " />") then Some ([(a, v)], true)
  else if bool_decide (rest = str " >") then Some ([(a, v)], false)
  else '(l, closed) ← own_attrs fuel (drop (if starts_with (str " " ++ newline) rest then 2 else 1) rest); Some ((a, v) :: l, closed).
Proof.
  intros [[Hn Ha] Hv]. cbn [fst snd] in *. cbn [own_attrs]. unfold attr_text, quoted. cbn [fst snd].
  assert (E : (a ++ str "=" ++ [34] ++ v ++ [34]) ++ rest = a ++ 61 :: 34 :: v ++ 34 :: rest)
    by (rewrite <- !app_assoc; reflexivity).
  rewrite E, find_char_app by (apply name_not_in; [exact Ha|lia]). cbn [mbind option_bind].
  assert (D : drop (length a + 2) (a ++ 61 :: 34 :: v ++ 34 :: rest) = v ++ 34 :: rest).
  { rewrite drop_app_ge by lia. replace (length a + 2 - length a)%nat with 2%nat by lia. reflexivity. }
  rewrite D, take_app_length, find_char_app.
  2:{ intros Hin. unfold value_ok in Hv. rewrite list.Forall_forall in Hv. specialize (Hv _ Hin). lia. }
  cbn [mbind option_bind]. rewrite take_app_length.
  replace (drop (length v + 1) (v ++ 34 :: rest)) with rest; [reflexivity|].
  rewrite drop_app_ge by lia. replace (length v + 1 - length v)%nat with 1%nat by lia. reflexivity.
Qed.

Lemma own_attrs_text sep close b attrs fuel : attrs <> [] -> Forall attr_ok attrs -> sep_ok sep ->
  (close = str "/>" /\ b = true) \/ (close = str ">" /\ b = false) -> (length attrs <= fuel)%nat ->
  own_attrs fuel (attrs_text sep attrs ++ str " " ++ close) = Some (attrs, b).
Proof.
  intros Hne H Hs Hc. revert fuel. induction H as [|[a v] attrs Ha Hl IH]; intros fuel Hf; [congruence|].
  destruct fuel as [|fuel]; cbn [length] in Hf; [lia|]. destruct attrs as [|[a' v'] attrs].
  - change (attrs_text sep [(a, v)]) with (attr_text (a, v)). rewrite own_attrs_step by exact Ha.
    destruct Hc as [[-> ->]|[-> ->]]; reflexivity.
  - change (attrs_text sep ((a, v) :: (a', v') :: attrs)) with (attr_text (a, v) ++ sep ++ attrs_text sep ((a', v') :: attrs)).
    rewrite <- !app_assoc, own_attrs_step by exact Ha.
    assert (F : exists c s, attrs_text sep ((a', v') :: attrs) = c :: s /\ c <> 10 /\ c <> 47 /\ c <> 62).
    { inversion Hl as [|? ? [[Nn Na] _] _]; subst. cbn [fst] in *. destruct Na as [|c a' Hc' _]; [congruence|].
      destruct attrs; cbn [attrs_text]; unfold attr_text; cbn [fst snd app]; do 2 eexists; (split; [reflexivity|lia]). }
    destruct F as (c & s & F & N1 & N2 & N3).
    specialize (IH ltac:(discriminate) fuel ltac:(cbn [length] in *; lia)). rewrite F in *. cbn [app] in *.
    destruct Hs as [-> | ->].
    + change (str " " ++ c :: s ++ str " " ++ close) with (32 :: c :: s ++ str " " ++ close).
      rewrite !bool_decide_false by (change (str " />") with [32; 47; 62] || change (str " >") with [32; 62]; congruence).
      cbn [starts_with str newline app]. change (str " " ++ newline) with [32; 10]. cbn [starts_with].
      rewrite (proj2 (Z.eqb_neq 10 c)) by congruence. cbn [andb Z.eqb Pos.eqb drop]. rewrite IH. reflexivity.
    + change ((str " " ++ newline) ++ c :: s ++ str " " ++ close) with (32 :: 10 :: c :: s ++ str " " ++ close).
      rewrite !bool_decide_false by (change (str " />") with [32; 47; 62] || change (str " >") with [32; 62]; congruence).
      change (starts_with _ _) with true. cbn [drop]. rewrite IH. reflexivity.
Qed.

Lemma own_sax_text name sep attrs close b : name_ok name -> attrs <> [] -> Forall attr_ok attrs -> sep_ok sep ->
  (close = str "/>" /\ b = true) \/ (close = str ">" /\ b = false) ->
  own_sax (element_text name sep attrs close) = (if b then [Start name attrs; End_ name] else [Start name attrs], true).
Proof.
  intros [Hn Hl] Hne Ha Hs Hc.
  assert (L : (length attrs <= length (element_text name sep attrs close))%nat).
  { unfold element_text. rewrite !length_app. clear -attrs. enough (length attrs <= length (attrs_text sep attrs))%nat by lia.
    induction attrs as [|a [|a' attrs] IH]; [cbn; lia|cbn [attrs_text]; unfold attr_text; rewrite !length_app; cbn; lia|].
    change (attrs_text sep (a :: a' :: attrs)) with (attr_text a ++ sep ++ attrs_text sep (a' :: attrs)).
    unfold attr_text. rewrite !length_app. cbn [length] in *. change (length (str "=")) with 1%nat. lia. }
  unfold own_sax. set (n := length _) in *.
  change (drop 1 (element_text name sep attrs close)) with (name ++ 32 :: attrs_text sep attrs ++ str " " ++ close).
  rewrite find_char_app by (apply name_not_in; [exact Hl|lia]). cbn [mbind option_bind]. rewrite take_app_length.
  assert (D : drop (length name + 2) (element_text name sep attrs close) = attrs_text sep attrs ++ str " " ++ close).
  { replace (length name + 2)%nat with (1 + S (length name))%nat by lia. rewrite <- drop_drop.
    change (drop 1 (element_text name sep attrs close)) with (name ++ 32 :: attrs_text sep attrs ++ str " " ++ close).
    rewrite drop_app_ge by lia. replace (S (length name) - length name)%nat with 1%nat by lia. reflexivity. }
  rewrite D, (own_attrs_text sep close b) by assumption. cbn [mbind option_bind]. destruct b; reflexivity.
Qed.

#[export] Instance own_xml : XmlParser own_sax.
Proof.
  constructor; intros name sep attrs Hn Hne Ha _ Hs.
  - apply (own_sax_text name sep attrs _ true); auto.
  - apply (own_sax_text name sep attrs _ false); auto.
Qed.

(** ** The texts *)

Lemma value_check s : forallb (fun c => (32 <=? c) && (c <? 127) && negb (c =? 34) && negb (c =? 38) && negb (c =? 60)) s = true -> value_ok s.
Proof.
  intros H. unfold value_ok. rewrite list.Forall_forall. intros c Hc. rewrite forallb_forall in H.
  specialize (H c (proj1 (list_elem_of_In _ _) Hc)). lia.
Qed.

Lemma name_check s : forallb (fun c => ((97 <=? c) && (c <=? 122)) || (c =? 95)) s && negb (length s =? 0)%nat = true -> name_ok s.
Proof.
  intros H. apply andb_prop in H as [H N]. split; [intros ->; discriminate N|]. rewrite list.Forall_forall. intros c Hc. rewrite forallb_forall in H.
  specialize (H c (proj1 (list_elem_of_In _ _) Hc)). lia.
Qed.

Lemma simple_value s : simple_string s -> value_ok s.
Proof. apply List.Forall_impl. unfold simple_char. lia. Qed.

Lemma simple_dec n : 0 <= n < 2 ^ 64 -> simple_string (dec n).
Proof. intros Hn. exact (simple_pad 0 n Hn). Qed.

Lemma hex_data_value l : bytes_ok l -> value_ok (write_data hex_data None (pred (length l)) 0 l).
Proof.
  intros Hl. generalize (pred (length l)) 0%nat. induction Hl as [|b l Hb _ IH]; intros last i; cbn [write_data]; [constructor|].
  apply Forall_app. split; [|apply Forall_app; split; [destruct (i <? last)%nat; [apply value_check; reflexivity|constructor]|apply IH]].
  apply simple_value, simple_app; [apply simple_check; reflexivity|]. unfold hex2. destruct (nibbles b Hb) as (H1 & H2 & _).
  apply (simple_digits [b / 16; b mod 16]). repeat constructor; assumption || lia.
Qed.

(** The text of an event: [l] is the data. *)
Definition event_xml (e : vscpEvent) : list (list Z * list Z) :=
  event_attrs e (write_data hex_data None (pred (length (data_of (pdata e)))) 0 (data_of (pdata e))).

Lemma convertEventToXML_eq e : event_ok e ->
  vscp_convertEventToXML (Some e) = Some (Some (element_text (str "event") (str " ") (event_xml e) (str "/>"))).
Proof.
  intros He. assert (Hd := edata_ok e He). unfold vscp_convertEventToXML, event_xml, vscp_writeDataWithSizeToString.
  destruct (pdata e) as [l|]; cbn [data_ok] in Hd; [|reflexivity].
  change (data_of (Some l)) with l. destruct Hd as (_ & Hl & _). rewrite rdn_self by exact Hl. reflexivity.
Qed.

Lemma event_xml_ok e : event_ok e -> Forall attr_ok (event_xml e).
Proof.
  intros He. destruct (guid_ok e He) as [Hg Hb]. destruct (data_of_ok _ _ (edata_ok e He)) as [_ Hd].
  pose proof (frame_head_ok (head e)). pose proof (class_ok e He). pose proof (type_ok e He). pose proof (obid_ok e He). pose proof (frame_ns_ok e He).
  unfold event_xml, event_attrs, is_u16, is_u32, is_u64 in *.
  repeat (apply List.Forall_cons; [split; [apply name_check; reflexivity|cbn [snd]]|]); [..|constructor];
    try (apply simple_value, simple_dec; lia).
  - apply simple_value, simple_date_string, He.
  - apply simple_value, simple_toString; assumption.
  - apply hex_data_value, Hd.
Qed.

Lemma filter_attrs_ok f : filter_ok f -> Forall attr_ok (filter_attrs f).
Proof.
  intros [? ? ? ? ? ? [? ?] [? ?]]. unfold filter_attrs, is_u8, is_u16 in *.
  repeat (apply List.Forall_cons; [split; [apply name_check; reflexivity|cbn [snd]]|]); [..|constructor];
    (apply simple_value, simple_dec; lia) || (apply simple_value, simple_toString; assumption).
Qed.

Lemma event_xml_keys e : NoDup (event_xml e).*1.
Proof. by_decide. Qed.
Lemma filter_attrs_keys f : NoDup (filter_attrs f).*1.
Proof. by_decide. Qed.

(** *** Their lengths *)

Lemma length_digits fuel base n : (length (digits fuel base n) <= fuel)%nat.
Proof.
  revert n. induction fuel as [|f IH]; intros n; [reflexivity|]. cbn [digits]. destruct (n <? base); [cbn [length]; lia|].
  rewrite length_app. cbn [length]. specialize (IH (n / base)). lia.
Qed.

Lemma length_dec n : (length (dec n) <= 21)%nat.
Proof. unfold dec. destruct (n <? 0); cbn [length]; rewrite length_map; pose proof (length_digits 20 10 n); pose proof (length_digits 20 10 (- n)); lia. Qed.

Lemma length_digits_below fuel base n k : 1 < base -> (0 < k)%nat -> 0 <= n < base ^ Z.of_nat k -> (length (digits fuel base n) <= k)%nat.
Proof.
  intros Hb. revert n k. induction fuel as [|f IH]; intros n k Hk Hn; [cbn; lia|]. cbn [digits]. destruct (Z.ltb_spec n base); [cbn [length]; lia|].
  rewrite length_app. cbn [length]. destruct k as [|[|k]]; [lia|change (Z.of_nat 1) with 1 in Hn; lia|].
  specialize (IH (n / base) (S k) ltac:(lia)). enough (0 <= n / base < base ^ Z.of_nat (S k)) by (specialize (IH ltac:(assumption)); lia).
  rewrite (Nat2Z.inj_succ (S k)), Z.pow_succ_r in Hn by lia. split; [apply Z.div_pos; lia|apply Z.div_lt_upper_bound; lia].
Qed.

Lemma length_dec_below n k : (0 < k)%nat -> 0 <= n < 10 ^ Z.of_nat k -> (length (dec n) <= k)%nat.
Proof.
  intros Hk Hn. unfold dec. destruct (Z.ltb_spec n 0); [lia|]. rewrite length_map. apply length_digits_below; (assumption || lia).
Qed.

Lemma length_pad_below w n k : (0 < k)%nat -> 0 <= n < 10 ^ Z.of_nat k -> (length (pad w n) <= Nat.max w k)%nat.
Proof. intros Hk Hn. unfold pad. rewrite length_app, length_replicate. pose proof (length_dec_below n k Hk Hn). lia. Qed.

Lemma length_pad w n : (length (pad w n) <= w + 21)%nat.
Proof. unfold pad. rewrite length_app, length_replicate. pose proof (length_dec n). lia. Qed.

Lemma length_date_text y mo d h mi s : is_u16 y -> is_u16 mo -> is_u8 d -> is_u8 h -> is_u8 mi -> is_u8 s ->
  (length (date_text y mo d h mi s) <= 27)%nat.
Proof.
  unfold is_u16, is_u8. intros. unfold date_text. rewrite !length_app.
  pose proof (length_pad_below 4 y 5 ltac:(lia) ltac:(lia)). pose proof (length_pad_below 2 mo 5 ltac:(lia) ltac:(lia)).
  pose proof (length_pad_below 2 d 3 ltac:(lia) ltac:(lia)). pose proof (length_pad_below 2 h 3 ltac:(lia) ltac:(lia)).
  pose proof (length_pad_below 2 mi 3 ltac:(lia) ltac:(lia)). pose proof (length_pad_below 2 s 3 ltac:(lia) ltac:(lia)).
  change (length (str "-")) with 1%nat. change (length (str "T")) with 1%nat. change (length (str ":")) with 1%nat. lia.
Qed.

Lemma length_date_string h t : time_ok t -> (length (date_string h t) <= 40)%nat.
Proof.
  intros [Hy Hm Hn]. unfold date_string. destruct (is_unix_ns h).
  - destruct (0 <? timestamp_ns t); [|cbn; lia]. unfold is_u64 in Hn.
    destruct (gmtime_range (timestamp_ns t / 1000000000)) as (Ry & Rm & Rd & Rh & Rmi & Rs); [dlia|]. cbv zeta in *.
    rewrite !length_app. pose proof (length_pad_below 9 (timestamp_ns t mod 1000000000) 9 ltac:(lia) ltac:(dlia)).
    change (length (str ".")) with 1%nat. change (length (str "Z")) with 1%nat.
    match goal with |- context [date_text ?a ?b ?c ?d ?e ?f] => pose proof (length_date_text a b c d e f) as D end.
    specialize (D ltac:(width) ltac:(width) ltac:(width) ltac:(width) ltac:(width) ltac:(width)). lia.
  - destruct (_ || _); [|cbn; lia]. rewrite length_app. change (length (str "Z")) with 1%nat.
    pose proof (day_ok t). pose proof (hour_ok t). pose proof (minute_ok t). pose proof (second_ok t).
    pose proof (length_date_text (year t) (month t) (day t) (hour t) (minute t) (second t)) as D. unfold is_u8, is_u16 in *.
    specialize (D ltac:(lia) ltac:(lia) ltac:(lia) ltac:(lia) ltac:(lia) ltac:(lia)). lia.
Qed.

Lemma length_hex_data l : length (write_data hex_data None (pred (length l)) 0 l) = (5 * length l - 1)%nat.
Proof.
  destruct l as [|b l]; [reflexivity|].
  assert (J := write_data_join hex_data None (b :: l) 0 [] (pred (length (b :: l))) ltac:(discriminate) eq_refl). cbn [app] in J. rewrite J, data_texts_plain. clear J.
  revert b. induction l as [|b' l IH]; intros b; [reflexivity|]. cbn [map] in *. rewrite join_cons, length_app. cbn [length] in *. rewrite IH.
  change (length (hex_data b)) with 4%nat. lia.
Qed.

Lemma length_toString g : (length (toString g) <= 48)%nat.
Proof.
  unfold toString. assert (H : (length (map hex2 (take 16 g)) <= 16)%nat) by (rewrite length_map, length_take; lia).
  assert (K : forall l, Forall (fun t => length t = 2%nat) l -> (length (join 58 l) <= 3 * length l)%nat).
  { induction 1 as [|t l Ht _ IH]; [cbn; lia|]. destruct l as [|t' l]; [cbn [join length] in *; lia|].
    rewrite join_cons, length_app. cbn [length] in *. lia. }
  specialize (K (map hex2 (take 16 g)) ltac:(apply List.Forall_map, List.Forall_forall; reflexivity)). lia.
Qed.

Lemma length_element name sep attrs close :
  length (element_text name sep attrs close) = (length name + length close + length (attrs_text sep attrs) + 3)%nat.
Proof. unfold element_text. rewrite !length_app. change (length (str "<")) with 1%nat. change (length (str " ")) with 1%nat. lia. Qed.

Lemma length_attrs_cons sep a v attrs :
  (length (attrs_text sep ((a, v) :: attrs)) <= length a + length v + 3 + length sep + length (attrs_text sep attrs))%nat.
Proof.
  destruct attrs as [|b attrs]; [|change (attrs_text sep ((a, v) :: b :: attrs)) with (attr_text (a, v) ++ sep ++ attrs_text sep (b :: attrs))];
    cbn [attrs_text]; unfold attr_text, quoted; cbn [fst snd]; rewrite !length_app; change (length (str "=")) with 1%nat; cbn [length]; lia.
Qed.

(** Five characters for a byte and less than 300 for the rest. *)
Lemma length_event_element e : event_ok e ->
  Z.of_nat (length (element_text (str "event") (str " ") (event_xml e) (str "/>"))) <= 300 + 5 * sizeData e.
Proof.
  intros He. destruct (data_of_ok _ _ (edata_ok e He)) as [Hl _]. rewrite length_element. unfold event_xml, event_attrs.
  repeat match goal with |- context [attrs_text ?sep ((?a, ?v) :: ?l)] =>
    let H := fresh in assert (H := length_attrs_cons sep a v l); revert H; generalize (length (attrs_text sep ((a, v) :: l))) end.
  change (length (attrs_text (str " ") [])) with 0%nat.
  pose proof (length_dec (frame_head (head e))). pose proof (length_dec (obid e)). pose proof (length_dec (vscp_class e)). pose proof (length_dec (vscp_type e)).
  pose proof (length_dec (frame_ns e)). pose proof (length_toString (GUID e)). pose proof (length_date_string (head e) (etime e) (etime_ok e He)).
  pose proof (length_hex_data (data_of (pdata e))).
  unfold str. cbn [length String.length list_ascii_of_string map]. intros. lia.
Qed.

Lemma length_event_xml e : event_ok e -> sizeData e <= 512 ->
  Z.of_nat (length (element_text (str "event") (str " ") (event_xml e) (str "/>"))) <= XML_BUFF_SIZE.
Proof. intros He Hs. pose proof (length_event_element e He). unfold XML_BUFF_SIZE. lia. Qed.

(** ** Reading the texts *)

Lemma value_no_zero s : value_ok s -> 0 ∉ s.
Proof. intros H Hin. unfold value_ok in H. rewrite list.Forall_forall in H. specialize (H _ Hin). lia. Qed.

Lemma element_no_zero name sep attrs close : name_ok name -> sep_ok sep -> Forall attr_ok attrs -> 0 ∉ close ->
  0 ∉ element_text name sep attrs close.
Proof.
  intros [_ Hn] Hs Ha Hc. unfold element_text. rewrite !elem_of_app.
  assert (N : 0 ∉ name) by (apply name_not_in; [exact Hn|lia]).
  assert (S : 0 ∉ sep) by (destruct Hs as [-> | ->]; by_decide).
  assert (A : 0 ∉ attrs_text sep attrs).
  { induction Ha as [|[a v] attrs [[_ Na] Nv] _ IH]; [apply not_elem_of_nil|]. cbn [fst snd] in *. apply value_no_zero in Nv.
    assert (X : 0 ∉ attr_text (a, v)).
    { unfold attr_text, quoted. cbn [fst snd]. rewrite !elem_of_app. pose proof (name_not_in a 0 Na ltac:(lia)).
      change (str "=") with [61]. rewrite !elem_of_cons, elem_of_nil. intuition lia. }
    destruct attrs as [|b attrs]; [exact X|]. change (attrs_text sep ((a, v) :: b :: attrs)) with (attr_text (a, v) ++ sep ++ attrs_text sep (b :: attrs)).
    rewrite !elem_of_app. tauto. }
  assert (B : (0 ∉ str "<") /\ (0 ∉ str " ")) by (split; by_decide). tauto.
Qed.

(** The readers on the text of an element: the handlers run once. *)
Lemma read_xml_text {T} expat (start : Z -> list Z -> list (list Z * list Z) -> T -> option T) depth (t : T) s items ok :
  expat s = (items, ok) -> 0 ∉ s -> s <> [] -> Z.of_nat (length s) <= XML_BUFF_SIZE ->
  read_xml expat start depth (Some t) s = ('(depth, t) ← handlers start items depth t; Some (ok, depth, Some t)).
Proof.
  intros E N Hne Hl. unfold read_xml. assert (L : (length s =? 0)%nat = false) by (destruct s; [congruence|reflexivity]). rewrite L.
  rewrite (proj2 (Z.ltb_ge _ _)) by exact Hl. rewrite c_str_id by exact N. cbv zeta. rewrite Nat.sub_diag.
  change (zeros 0) with (@nil Z). rewrite app_nil_r, E. reflexivity.
Qed.

Section Element.
Context (expat : list Z -> list sax * bool) {HX : XmlParser expat}.
Context {T : Type} (start : Z -> list Z -> list (list Z * list Z) -> T -> option T).
Context (name sep : list Z) (attrs : list (list Z * list Z)) (Hn : name_ok name) (Hne : attrs <> []) (Ha : Forall attr_ok attrs)
  (Hk : NoDup attrs.*1) (Hs : sep_ok sep) (depth : Z) (t t' : T) (Ht : start depth name attrs t = Some t').

Lemma read_element : Z.of_nat (length (element_text name sep attrs (str "/>"))) <= XML_BUFF_SIZE -> 0 <= depth < 2 ^ 31 - 1 ->
  read_xml expat start depth (Some t) (element_text name sep attrs (str "/>")) = Some (true, depth, Some t').
Proof.
  intros Hl Hd. rewrite (read_xml_text _ _ _ _ _ [Start name attrs; End_ name] true);
    [|apply sax_element; assumption|apply element_no_zero; try assumption; by_decide|discriminate|exact Hl].
  cbn [handlers mbind option_bind]. rewrite Ht. cbn [mbind option_bind]. unfold count.
  destruct (Z.leb_spec (- 2 ^ 31) (depth + 1)), (Z.ltb_spec (depth + 1) (2 ^ 31)); try lia. cbn [andb mbind option_bind].
  destruct (Z.leb_spec (- 2 ^ 31) (depth + 1 + -1)), (Z.ltb_spec (depth + 1 + -1) (2 ^ 31)); try lia. cbn [andb mbind option_bind].
  replace (depth + 1 + -1) with depth by lia. reflexivity.
Qed.

Lemma read_open : Z.of_nat (length (element_text name sep attrs (str ">"))) <= XML_BUFF_SIZE -> 0 <= depth < 2 ^ 31 - 1 ->
  read_xml expat start depth (Some t) (element_text name sep attrs (str ">")) = Some (true, depth + 1, Some t').
Proof.
  intros Hl Hd. rewrite (read_xml_text _ _ _ _ _ [Start name attrs] true);
    [|apply sax_open; assumption|apply element_no_zero; try assumption; by_decide|discriminate|exact Hl].
  cbn [handlers mbind option_bind]. rewrite Ht. cbn [mbind option_bind]. unfold count.
  destruct (Z.leb_spec (- 2 ^ 31) (depth + 1)), (Z.ltb_spec (depth + 1) (2 ^ 31)); try lia. reflexivity.
Qed.

End Element.

(** The event read back. *)
Definition xml_back (e : vscpEvent) : vscpEvent :=
  Event (frame_head (head e)) (obid e) (Time 0xffff 0xff (frame_ns e)) (vscp_class e) (vscp_type e) (GUID e) (sizeData e) (pdata e) 0.

(** Nanoseconds that are told from microseconds, in the range of stoll. *)
Definition plain_ns (ns : Z) : Prop := 4102444800000000 < ns < 2 ^ 63.

Lemma xml_ns_plain s p h d ns : vscp_readStringValue s = ns -> plain_ns ns -> xml_ns (XmlTime (Some s) p h) d = ns.
Proof.
  intros E Hn. unfold plain_ns in Hn. unfold xml_ns. cbn [timestampStr]. rewrite E. rewrite u64_id by (unfold is_u64; lia). cbv zeta.
  destruct (Z.ltb_spec 4102444800000000 ns); [reflexivity|lia].
Qed.

Lemma foldl_event e e1 : event_ok e -> sizeData e <= 512 -> length (GUID e1) = 16%nat ->
  exists p h, foldl xml_attr (e1, no_time) (event_xml e)
  = (Event (frame_head (head e)) (obid e) (etime e1) (vscp_class e) (vscp_type e) (GUID e) (sizeData e) (pdata e) (crc e1),
     XmlTime (Some (dec (frame_ns e))) p h).
Proof.
  intros He Hs Hg1. destruct (guid_ok e He) as [Hg Hb]. assert (Hd := edata_ok e He). destruct (data_of_ok _ _ Hd) as [Hl Hdb].
  pose proof (frame_head_ok (head e)). pose proof (class_ok e He). pose proof (type_ok e He). pose proof (obid_ok e He).
  unfold is_u16, is_u32 in *. unfold event_xml, event_attrs. cbn [foldl].
  assert (A1 : forall e t v, xml_attr (e, t) (str "head", v) = (set_head (vscp_readStringValue v) e, t)) by reflexivity.
  assert (A2 : forall e t v, xml_attr (e, t) (str "obid", v) = (set_obid (vscp_readStringValue v) e, t)) by reflexivity.
  assert (A3 : forall e t v, xml_attr (e, t) (str "datetime", v) = (e, time_attr (str "datetime") v t)) by reflexivity.
  assert (A4 : forall e t v, xml_attr (e, t) (str "timestamp", v) = (e, XmlTime (Some v) (parsedTm t) (hasDatetime t))) by reflexivity.
  assert (A5 : forall e t v, xml_attr (e, t) (str "class", v) = (set_class (vscp_readStringValue v) e, t)) by reflexivity.
  assert (A6 : forall e t v, xml_attr (e, t) (str "type", v) = (set_type (vscp_readStringValue v) e, t)) by reflexivity.
  assert (A7 : forall e t v, xml_attr (e, t) (str "guid", v) = (from_option Datatypes.id e (vscp_setEventGuidFromString (Some e) v).2, t)) by reflexivity.
  assert (A8 : forall e t v, xml_attr (e, t) (str "data", v) = (from_option Datatypes.id e (vscp_setEventDataFromString (Some e) v).2, t)) by reflexivity.
  rewrite A1, A2, A3, A4, A5, A6, A7, A8, !readStringValue_number by lia.
  rewrite setEventGuid_toString by (assumption || exact Hg1). cbn [snd from_option]. unfold Datatypes.id.
  unfold vscp_setEventDataFromString. cbv zeta. cbn [snd from_option].
  rewrite data_tokens_written by (auto || exact I || lia). rewrite Hl.
  assert (P : (if (0 <? length (data_of (pdata e)))%nat then Some (data_of (pdata e)) else None) = pdata e).
  { destruct (pdata e) as [l|]; cbn [data_ok] in Hd; [|reflexivity]. change (data_of (Some l)) with l in *. destruct (Nat.ltb_spec 0 (length l)); [reflexivity|lia]. }
  rewrite P. destruct e1 as [h1 o1 t1 c1 y1 g1 s1 p1 r1].
  cbv beta iota delta [set_pdata set_GUID set_type set_class set_obid set_head head obid etime vscp_class vscp_type GUID sizeData pdata crc].
  fold (head e) (obid e) (vscp_class e) (vscp_type e) (GUID e) (sizeData e) (pdata e).
  rewrite (u16_id (frame_head (head e))), (u16_id (vscp_class e)), (u16_id (vscp_type e)), (u32_id (obid e)), (u16_id (sizeData e))
    by first [apply frame_head_ok | apply He].
  eauto.
Qed.

Lemma start_event now us e t : event_ok e -> sizeData e <= 512 -> plain_ns (frame_ns e) ->
  startEventXMLParser now us 0 (str "event") (event_xml e) t = Some (xml_back e).
Proof.
  intros He Hs Hns. unfold startEventXMLParser. cbv zeta. change (named (str "event") "event" && (0 =? 0)) with true. cbv iota.
  destruct (foldl_event e (fresh now us) He Hs eq_refl) as (p & h & ->). rewrite (xml_ns_plain _ _ _ _ (frame_ns e)); [|apply readStringValue_number; unfold plain_ns in Hns; lia|exact Hns].
  f_equal. unfold xml_back, set_etime, set_head. cbn [head obid etime vscp_class vscp_type GUID sizeData pdata crc].
  rewrite frame_head_idem, (u16_id (frame_head (head e))) by apply frame_head_ok. reflexivity.
Qed.

(** The same handler for a vscpEventEx keeps one byte of the GUID. *)
Lemma foldl_event_ex e b g h o t r c y g0 n : event_ok e -> sizeData e <= 512 -> GUID e = b :: g ->
  exists p f, foldl ex_attr (Some (EventEx h o t r c y g0 n (zeros 512), no_time)) (event_xml e)
  = Some (EventEx (frame_head (head e)) (obid e) t r (vscp_class e) (vscp_type e) (b :: zeros 15) (sizeData e)
            (data_of (pdata e) ++ drop (length (data_of (pdata e))) (zeros 512)), XmlTime (Some (dec (frame_ns e))) p f).
Proof.
  intros He Hs G. destruct (guid_ok e He) as [Hg Hb]. rewrite G in Hg, Hb. destruct (data_of_ok _ _ (edata_ok e He)) as [Hl Hdb].
  pose proof (frame_head_ok (head e)). pose proof (class_ok e He). pose proof (type_ok e He). pose proof (obid_ok e He). pose proof (frame_ns_ok e He).
  assert (W : wr (zeros 512) 0 (data_of (pdata e)) = Some (data_of (pdata e) ++ drop (length (data_of (pdata e))) (zeros 512))).
  { apply wr_front. change (length (zeros 512)) with 512%nat. lia. }
  assert (D := data_tokens_written hex_data None (data_of (pdata e)) (or_introl eq_refl) I Hdb ltac:(lia)).
  unfold is_u16, is_u32 in *. unfold event_xml, event_attrs. rewrite G. generalize dependent (zeros 512). intros z W.
  cbn [foldl].
  assert (A1 : forall h o b r c y g n d t v, ex_attr (Some (EventEx h o b r c y g n d, t)) (str "head", v) = Some (EventEx (u16 (vscp_readStringValue v)) o b r c y g n d, t)) by reflexivity.
  assert (A2 : forall h o b r c y g n d t v, ex_attr (Some (EventEx h o b r c y g n d, t)) (str "obid", v) = Some (EventEx h (u32 (vscp_readStringValue v)) b r c y g n d, t)) by reflexivity.
  assert (A3 : forall x t v, ex_attr (Some (x, t)) (str "datetime", v) = Some (x, time_attr (str "datetime") v t)) by (intros []; reflexivity).
  assert (A4 : forall x t v, ex_attr (Some (x, t)) (str "timestamp", v) = Some (x, XmlTime (Some v) (parsedTm t) (hasDatetime t))) by (intros []; reflexivity).
  assert (A5 : forall h o b r c y g n d t v, ex_attr (Some (EventEx h o b r c y g n d, t)) (str "class", v) = Some (EventEx h o b r (u16 (vscp_readStringValue v)) y g n d, t)) by reflexivity.
  assert (A6 : forall h o b r c y g n d t v, ex_attr (Some (EventEx h o b r c y g n d, t)) (str "type", v) = Some (EventEx h o b r c (u16 (vscp_readStringValue v)) g n d, t)) by reflexivity.
  assert (A7 : forall h o b r c y g n d t v, ex_attr (Some (EventEx h o b r c y g n d, t)) (str "guid", v)
    = match vscp_setEventExGuidFromString v with ExGuid g => Some (EventEx h o b r c y g n d, t) | _ => None end).
  { intros h' o' B r' c' y' G' n' d t' v. change (ex_attr _ _) with (x ← match vscp_setEventExGuidFromString v with ExGuid g => Some (EventEx h' o' B r' c' y' g n' d) | _ => None end; Some (x, t')).
    destruct (vscp_setEventExGuidFromString v); reflexivity. }
  assert (A8 : forall x t v, ex_attr (Some (x, t)) (str "data", v) = '(_, px) ← vscp_setEventExDataFromString (Some x) v; x ← px; Some (x, t)).
  { intros [h' o' B r' c' y' G' n' d] t' v. change (ex_attr _ _) with (x ← ('(_, px) ← vscp_setEventExDataFromString (Some (EventEx h' o' B r' c' y' G' n' d)) v; px); Some (x, t')).
    destruct (vscp_setEventExDataFromString _ v) as [[ok [x|]]|]; reflexivity. }
  rewrite A1, A2, A3, A4, A5, A6, A7, setEventExGuid_toString, A8, !readStringValue_number by (assumption || lia).
  unfold vscp_setEventExDataFromString. cbn [xdata xhead xobid xtime xcrc xclass xtype xGUID]. cbv zeta. rewrite D, W. cbn [mbind option_bind].
  rewrite Hl, !u16_id, u32_id by (unfold is_u16, is_u32; lia). eauto.
Qed.

Lemma start_event_ex now us e b g t : event_ok e -> sizeData e <= 512 -> plain_ns (frame_ns e) -> GUID e = b :: g ->
  startEventExXMLParser now us 0 (str "event") (event_xml e) t = Some (ex_of (set_GUID (b :: zeros 15) (xml_back e))).
Proof.
  intros He Hs Hns G. unfold startEventExXMLParser. cbv zeta. change (named (str "event") "event" && (0 =? 0)) with true. cbv iota.
  assert (X0 : xdata (ex_fresh now us) = zeros 512 /\ xcrc (ex_fresh now us) = 0) by (split; reflexivity).
  destruct (ex_fresh now us) as [h1 o1 t1 r1 c1 y1 g1 s1 d1]. cbn [xdata xcrc] in X0. destruct X0 as [-> ->].
  destruct (foldl_event_ex e b g h1 o1 t1 0 c1 y1 g1 s1 He Hs G) as (p & f & ->). cbn [mbind option_bind].
  cbn [xdata xhead xobid xtime xcrc xclass xtype xGUID xsizeData].
  rewrite (xml_ns_plain _ _ _ _ (frame_ns e)); [|apply readStringValue_number; unfold plain_ns in Hns; lia|exact Hns].
  rewrite frame_head_idem. reflexivity.
Qed.

Lemma foldl_filter f f0 : filter_ok f -> foldl filter_attr f0 (filter_attrs f) = f.
Proof.
  destruct f as [fp mp fc mc ft mt fg mg], f0 as [fp0 mp0 fc0 mc0 ft0 mt0 fg0 mg0]. intros [Hfp Hmp Hfc Hmc Hft Hmt [Hfl Hfg] [Hml Hmg]].
  cbn [filter_priority mask_priority filter_class mask_class filter_type mask_type filter_GUID mask_GUID] in *.
  unfold filter_attrs. cbn [foldl filter_priority mask_priority filter_class mask_class filter_type mask_type filter_GUID mask_GUID].
  assert (E : forall v1 v2 v3 v4 v5 v6 v7 v8,
    filter_attr (filter_attr (filter_attr (filter_attr (filter_attr (filter_attr (filter_attr (filter_attr (Filter fp0 mp0 fc0 mc0 ft0 mt0 fg0 mg0)
      (str "mask_priority", v1)) (str "mask_class", v2)) (str "mask_type", v3)) (str "mask_guid", v4))
      (str "filter_priority", v5)) (str "filter_class", v6)) (str "filter_type", v7)) (str "filter_guid", v8)
    = Filter (u8 (vscp_readStringValue v5)) (u8 (vscp_readStringValue v1)) (u16 (vscp_readStringValue v6)) (u16 (vscp_readStringValue v2))
        (u16 (vscp_readStringValue v7)) (u16 (vscp_readStringValue v3)) (vscp_getGuidFromStringToArray v8) (vscp_getGuidFromStringToArray v4)) by reflexivity.
  rewrite E, !readStringValue_number, !parsed_toString by (assumption || (unfold is_u8, is_u16 in *; lia)).
  rewrite !u8_id, !u16_id by assumption. reflexivity.
Qed.

Lemma length_filter_xml f : Z.of_nat (length (element_text (str "filter") (str " " ++ newline) (filter_attrs f) (str "/>"))) <= XML_BUFF_SIZE.
Proof.
  rewrite length_element. unfold filter_attrs, XML_BUFF_SIZE.
  repeat match goal with |- context [attrs_text ?sep ((?a, ?v) :: ?l)] =>
    let H := fresh in assert (H := length_attrs_cons sep a v l); revert H; generalize (length (attrs_text sep ((a, v) :: l))) end.
  change (length (attrs_text (str " " ++ newline) [])) with 0%nat.
  pose proof (length_dec (mask_priority f)). pose proof (length_dec (mask_class f)). pose proof (length_dec (mask_type f)).
  pose proof (length_dec (filter_priority f)). pose proof (length_dec (filter_class f)). pose proof (length_dec (filter_type f)).
  pose proof (length_toString (mask_GUID f)). pose proof (length_toString (filter_GUID f)).
  unfold str, newline. cbn [length app String.length list_ascii_of_string map]. intros. lia.
Qed.

(** The data of a vscpEventEx is written as the data of the event. *)
Lemma convertEventExToXML_eq e : event_ok e -> sizeData e <= 512 ->
  vscp_convertEventExToXML (Some (ex_of e)) = vscp_convertEventToXML (Some e).
Proof.
  intros He Hs. rewrite convertEventToXML_eq by exact He. destruct (data_of_ok _ _ (edata_ok e He)) as [Hl _].
  unfold vscp_convertEventExToXML, vscp_convertEventToXML, vscp_writeDataWithSizeToString, ex_fields, ex_of.
  cbn [xhead xobid xtime xcrc xclass xtype xGUID xsizeData xdata head obid etime vscp_class vscp_type GUID sizeData pdata].
  assert (R : rdn (data_of (pdata e) ++ drop (length (data_of (pdata e))) (zeros 512)) 0 (Z.to_nat (sizeData e)) = Some (data_of (pdata e))).
  { rewrite <- Hl, Nat2Z.id. apply rdn_front. }
  rewrite R. reflexivity.
Qed.

(** Without datetime and timestamp, the time of vscp_setEventToNow stays: its packed
    day, hour, minute and second, with [us] in the upper half, are then taken for
    nanoseconds. *)
Lemma xml_without_time now us cls t : 0 <= now < 20000000000 -> is_u32 us ->
  exists e, startEventXMLParser now us 0 (str "event") [(str "class", dec cls)] t = Some e
    /\ is_unix_ns (head e) = true
    /\ timestamp_ns (etime e) = pack (tm_mday (gmtime now)) (tm_hour (gmtime now)) (tm_min (gmtime now)) (tm_sec (gmtime now)) us.
Proof.
  intros Hn Hu. assert (H0 : head (fresh now us) = 0) by reflexivity.
  assert (T : etime (fresh now us) = set_timestamp us (set_date (gmtime now) (Time 0 0 0))) by reflexivity.
  unfold set_date in T. rewrite set_all_fields in T by (cbn; width).
  destruct (gmtime_range now Hn) as (_ & Rm & Rd & Rh & Rmi & Rs).
  rewrite !u8_id, u32_id in T by (exact Hu || (unfold is_u8; lia)). apply (f_equal timestamp_ns) in T. cbn [timestamp_ns] in T.
  unfold startEventXMLParser. revert H0 T. generalize (fresh now us). intros [h o b c y g n p r]. cbn [head etime]. intros -> T.
  eexists. split; [reflexivity|]. split; [reflexivity|]. exact T.
Qed.

(** ** Properties *)

(** C31: An event, or its vscpEventEx form, whose time in nanoseconds is after 17
    February 1970 and below 2^63, is written to the same text of at most 65535
    characters, and with no element open (depth 0) is read back by
    vscp_convertXMLToEvent as an event of frame version UNIX_NS with that time,
    whatever the object held; vscp_convertXMLToEventEx reads back the same but for the
    GUID, of which it keeps the first byte.  An event of version ORIGINAL, too, is
    written with its nanoseconds and comes back as UNIX_NS ([xml_back]), where the
    header file promises a 32-bit time stamp. *)
Theorem event_xml_roundtrip (expat : list Z -> list sax * bool) (now us : Z) (e e0 : vscpEvent) (x0 : vscpEventEx) :
  XmlParser expat -> event_ok e -> sizeData e <= VSCP_MAX_DATA -> plain_ns (frame_ns e) ->
  exists s, vscp_convertEventToXML (Some e) = Some (Some s) /\ vscp_convertEventExToXML (Some (ex_of e)) = Some (Some s)
    /\ vscp_convertXMLToEvent expat now us 0 (Some e0) s = Some (true, 0, Some (xml_back e))
    /\ vscp_convertXMLToEventEx expat now us 0 (Some x0) s
       = Some (true, 0, Some (ex_of (set_GUID (take 1 (GUID e) ++ zeros 15) (xml_back e)))).
Proof.
  intros HX He Hs Hns. exists (element_text (str "event") (str " ") (event_xml e) (str "/>")).
  assert (Hl := length_event_xml e He Hs). assert (Ha := event_xml_ok e He).
  split; [apply convertEventToXML_eq, He|]. split; [rewrite convertEventExToXML_eq by assumption; apply convertEventToXML_eq, He|]. split.
  - apply (read_element expat); [apply name_check; reflexivity|discriminate|exact Ha|apply event_xml_keys|left; reflexivity| |exact Hl|lia].
    apply start_event; assumption.
  - destruct (guid_ok e He) as [Hg _]. destruct (GUID e) as [|b g] eqn:G; [discriminate Hg|].
    apply (read_element expat); [apply name_check; reflexivity|discriminate|exact Ha|apply event_xml_keys|left; reflexivity| |exact Hl|lia].
    apply (start_event_ex now us e b g); assumption.
Qed.

Lemma event_xml_roundtrip_witness :
  exists s, vscp_convertEventToXML (Some sample_event) = Some (Some s) /\ vscp_convertEventExToXML (Some (ex_of sample_event)) = Some (Some s)
    /\ vscp_convertXMLToEvent own_sax 1704067200 17 0 (Some zero_event) s = Some (true, 0, Some (xml_back sample_event))
    /\ vscp_convertXMLToEventEx own_sax 1704067200 17 0 (Some zero_ex) s
       = Some (true, 0, Some (ex_of (set_GUID (take 1 (GUID sample_event) ++ zeros 15) (xml_back sample_event)))).
Proof.
  apply (event_xml_roundtrip own_sax 1704067200 17 sample_event zero_event zero_ex);
    [exact own_xml|exact sample_event_ok|intros H; discriminate H|split; reflexivity].
Defined.

(** C32: The number of open elements outlives a call: a text that ends inside an element
    is accepted, with true, since it might go on; from then on, while an element
    is open, every event that is read is ignored: the call returns true with an
    event that holds nothing but the current time. *)
Theorem xml_stays_open (expat : list Z -> list sax * bool) (now us : Z) (name : list Z) (attrs : list (list Z * list Z)) (e e0 : vscpEvent) (depth : Z) :
  XmlParser expat -> name_ok name -> attrs <> [] -> Forall attr_ok attrs -> NoDup attrs.*1 ->
  Z.of_nat (length (element_text name (str " ") attrs (str ">"))) <= XML_BUFF_SIZE ->
  event_ok e -> sizeData e <= VSCP_MAX_DATA -> 0 < depth < 2 ^ 31 - 1 ->
  (exists e1, vscp_convertXMLToEvent expat now us 0 (Some e0) (element_text name (str " ") attrs (str ">")) = Some (true, 1, Some e1))
  /\ exists s, vscp_convertEventToXML (Some e) = Some (Some s)
    /\ vscp_convertXMLToEvent expat now us depth (Some e0) s = Some (true, depth, Some (fresh now us)).
Proof.
  intros HX Hn Hne Ha Hk Hl He Hs Hd. split.
  - eexists. apply (read_open expat (startEventXMLParser now us) name (str " ") attrs Hn Hne Ha Hk (or_introl eq_refl) 0 e0); [reflexivity|exact Hl|lia].
  - exists (element_text (str "event") (str " ") (event_xml e) (str "/>")). split; [apply convertEventToXML_eq, He|].
    apply (read_element expat); [apply name_check; reflexivity|discriminate|apply event_xml_ok, He|apply event_xml_keys|left; reflexivity| |apply length_event_xml; assumption|lia].
    unfold startEventXMLParser. rewrite (proj2 (Z.eqb_neq depth 0)) by lia. rewrite andb_false_r. reflexivity.
Qed.

Lemma xml_stays_open_witness :
  (exists e1, vscp_convertXMLToEvent own_sax 1704067200 17 0 (Some zero_event) (element_text (str "event") (str " ") [(str "class", str "10")] (str ">")) = Some (true, 1, Some e1))
  /\ exists s, vscp_convertEventToXML (Some sample_event) = Some (Some s)
    /\ vscp_convertXMLToEvent own_sax 1704067200 17 1 (Some zero_event) s = Some (true, 1, Some (fresh 1704067200 17)).
Proof.
  apply (xml_stays_open own_sax 1704067200 17 (str "event") [(str "class", str "10")] sample_event zero_event 1);
    [exact own_xml|by_decide|discriminate|by_decide|by_decide|intros H; discriminate H|exact sample_event_ok|intros H; discriminate H|split; reflexivity].
Defined.

(** A filter written by vscp_writeFilterMaskToXML is read back by
    vscp_readFilterMaskFromXML when no element is open, and leaves none open. *)
Theorem filter_xml_roundtrip (expat : list Z -> list sax * bool) (f f0 : vscpEventFilter) :
  XmlParser expat -> filter_ok f ->
  exists s, vscp_writeFilterMaskToXML (Some f) = Some s /\ vscp_readFilterMaskFromXML expat 0 (Some f0) s = Some (true, 0, Some f).
Proof.
  intros HX Hf. eexists. split; [reflexivity|].
  apply (read_element expat); [apply name_check; reflexivity|discriminate|apply filter_attrs_ok, Hf|apply filter_attrs_keys|right; reflexivity| |apply length_filter_xml|lia].
  unfold startFilterMaskXMLParser. change (named (str "filter") "filter" && (0 =? 0)) with true. cbv iota. rewrite foldl_filter by exact Hf. reflexivity.
Qed.

Lemma filter_xml_roundtrip_witness :
  exists s, vscp_writeFilterMaskToXML (Some sample_filter) = Some s
    /\ vscp_readFilterMaskFromXML own_sax 0 (Some (Filter 0 0 0 0 0 0 (zeros 16) (zeros 16))) s = Some (true, 0, Some sample_filter).
Proof. apply (filter_xml_roundtrip own_sax sample_filter); [exact own_xml|exact sample_filter_ok]. Defined.
