(* ===== verification/Measure.v ===== *)
(** * Measurements: the data coding helpers of vscphelper.cpp

    The functions that take a measurement event apart (coding byte, unit, sensor
    index, zone, sub zone), the integer codings, and the functions that build
    integer measurement events.  Reads outside the data of an event are
    undefined ([None]).  The little-endian build is modelled. *)

From S2P Require Import Prelude Event Frame.

Definition VSCP_CLASS1_MEASUREMENT : Z := 10.
Definition VSCP_CLASS1_DATA : Z := 15.
Definition VSCP_CLASS1_MEASUREMENT64 : Z := 60.
Definition VSCP_CLASS1_MEASUREZONE : Z := 65.
Definition VSCP_CLASS1_MEASUREMENT32 : Z := 70.
Definition VSCP_CLASS1_SETVALUEZONE : Z := 85.
Definition VSCP_CLASS2_LEVEL1_PROTOCOL : Z := 512.
Definition VSCP_CLASS2_LEVEL1_MEASUREMENT : Z := 522.
Definition VSCP_CLASS2_LEVEL1_MEASUREMENT64 : Z := 572.
Definition VSCP_CLASS2_LEVEL1_MEASUREZONE : Z := 577.
Definition VSCP_CLASS2_LEVEL1_MEASUREMENT32 : Z := 582.
Definition VSCP_CLASS2_LEVEL1_SETVALUEZONE : Z := 597.
Definition VSCP_CLASS2_PROTOCOL : Z := 1024.
Definition VSCP_CLASS2_MEASUREMENT_STR : Z := 1040.
Definition VSCP_CLASS2_MEASUREMENT_FLOAT : Z := 1060.
Definition VSCP_ERROR_ERROR : Z := -1.

Definition VSCP_DATACODING_INTEGER : Z := 0x60.
Definition VSCP_DATACODING_UNIT (b : Z) : Z := Z.shiftr (Z.land 0x18 b) 3.
Definition VSCP_DATACODING_INDEX (b : Z) : Z := Z.land 0x07 b.

(** ** Coding byte and integers *)

(** [-1] in a [uint8_t]. *)
Definition no_coding : Z := 255.

Definition vscp_getMeasurementDataCoding (pev : option vscpEvent) : option Z :=
  match pev with
  | None => Some no_coding
  | Some e =>
      match pdata e with
      | None => Some no_coding
      | Some l =>
          if sizeData e <? 1 then Some no_coding
          else if VSCP_CLASS1_MEASUREMENT =? vscp_class e then rd l 0
          else if VSCP_CLASS2_LEVEL1_MEASUREMENT =? vscp_class e then
            if 16 <=? sizeData e then rd l 16 else Some no_coding
          else if VSCP_CLASS2_MEASUREMENT_STR =? vscp_class e then Some 0x40
          else if VSCP_CLASS2_MEASUREMENT_FLOAT =? vscp_class e then Some 0xC0
          else Some no_coding
      end
  end.

Definition vscp_getDataCodingBitArray (pCode : option (list Z)) (length : Z) : option Z :=
  match pCode with
  | None => Some 0
  | Some p =>
      if (7 <? length) || (length <=? 1) then Some 0
      else
        bs ← rdn p 1 (Z.to_nat (length - 1));
        Some (foldl (fun bits b => Z.lor (u64 (Z.shiftl bits 8)) b) 0 bs)
  end.

Definition vscp_getDataCodingInteger (pCode : option (list Z)) (length : Z) : option Z :=
  match pCode with
  | None => Some 0
  | Some p =>
      if length <? 2 then Some 0
      else
        first ← rd p 1;
        let value64 := if negb (Z.land first 0x80 =? 0) then -1 else 0 in
        bs ← rdn p 1 (Z.to_nat (length - 1));
        Some (foldl (fun v b => s64 (Z.shiftl v 8 + b)) value64 bs)
  end.

(** ** The fields of a measurement event *)

Definition one_of (cls : Z) (l : list Z) : bool := existsb (fun c => c =? cls) l.

(** GUID in front of the data of level I classes over level II. *)
Definition data_offset (cls : Z) : Z :=
  if (VSCP_CLASS2_LEVEL1_PROTOCOL <=? cls) && (cls <? VSCP_CLASS2_PROTOCOL) then 16 else 0.

Definition zone_classes : list Z :=
  [VSCP_CLASS1_MEASUREZONE; VSCP_CLASS2_LEVEL1_MEASUREZONE; VSCP_CLASS1_SETVALUEZONE;
   VSCP_CLASS2_LEVEL1_SETVALUEZONE].
Definition plain_classes : list Z :=
  [VSCP_CLASS1_MEASUREMENT; VSCP_CLASS1_DATA; VSCP_CLASS2_LEVEL1_MEASUREMENT].
Definition wide_classes : list Z :=
  [VSCP_CLASS1_MEASUREMENT32; VSCP_CLASS2_LEVEL1_MEASUREMENT32; VSCP_CLASS1_MEASUREMENT64;
   VSCP_CLASS2_LEVEL1_MEASUREMENT64].

(** Byte [i] of the data; [pdata] is known not to be null. *)
Definition data_at (e : vscpEvent) (i : Z) : option Z :=
  match pdata e with Some l => rd l (Z.to_nat i) | None => None end.
Definition null_data (e : vscpEvent) : bool := bool_decide (pdata e = None).

Definition vscp_getMeasurementUnit (e : vscpEvent) : option Z :=
  let offset := data_offset (vscp_class e) in
  if one_of (vscp_class e) (plain_classes ++ zone_classes) then
    if null_data e || (sizeData e <? offset + 1) then Some VSCP_ERROR_ERROR
    else b ← data_at e offset; Some (VSCP_DATACODING_UNIT b)
  else if one_of (vscp_class e) wide_classes then Some 0
  else if VSCP_CLASS2_MEASUREMENT_STR =? vscp_class e then
    if null_data e || (sizeData e <? 4) then Some VSCP_ERROR_ERROR else data_at e 3
  else if VSCP_CLASS2_MEASUREMENT_FLOAT =? vscp_class e then
    if null_data e || negb (12 =? sizeData e) then Some VSCP_ERROR_ERROR else data_at e 3
  else Some VSCP_ERROR_ERROR.

Definition vscp_getMeasurementSensorIndex (pev : option vscpEvent) : option Z :=
  match pev with
  | None => Some (-1)
  | Some e =>
      if null_data e || (sizeData e =? 0) then Some (-1)
      else
        let offset := data_offset (vscp_class e) in
        if one_of (vscp_class e) plain_classes
        then b ← data_at e offset; Some (VSCP_DATACODING_INDEX b)
        else if one_of (vscp_class e) zone_classes then
          if null_data e || (offset + 3 <=? sizeData e) then Some (-1)
          else data_at e offset
        else if one_of (vscp_class e) wide_classes then Some 0
        else if VSCP_CLASS2_MEASUREMENT_STR =? vscp_class e then
          if null_data e || (sizeData e <? 4) then Some VSCP_ERROR_ERROR else data_at e 0
        else if VSCP_CLASS2_MEASUREMENT_FLOAT =? vscp_class e then
          if null_data e || negb (12 =? sizeData e) then Some VSCP_ERROR_ERROR else data_at e 0
        else Some VSCP_ERROR_ERROR
  end.

Definition vscp_getMeasurementZone (pev : option vscpEvent) : option Z :=
  match pev with
  | None => Some (-1)
  | Some e =>
      if null_data e || (sizeData e =? 0) then Some (-1)
      else
        let offset := data_offset (vscp_class e) in
        if one_of (vscp_class e) plain_classes then Some 0
        else if one_of (vscp_class e) zone_classes then
          if null_data e || (offset + 3 <=? sizeData e) then Some 0
          else data_at e (offset + 1)
        else if one_of (vscp_class e) wide_classes then Some 0
        else if VSCP_CLASS2_MEASUREMENT_STR =? vscp_class e then
          if null_data e || (sizeData e <? 4) then Some VSCP_ERROR_ERROR else data_at e 2
        else if VSCP_CLASS2_MEASUREMENT_FLOAT =? vscp_class e then
          if null_data e || negb (12 =? sizeData e) then Some VSCP_ERROR_ERROR else data_at e 2
        else Some VSCP_ERROR_ERROR
  end.

Definition vscp_getMeasurementSubZone (pev : option vscpEvent) : option Z :=
  match pev with
  | None => Some (-1)
  | Some e =>
      if null_data e || (sizeData e =? 0) then Some (-1)
      else
        let offset := data_offset (vscp_class e) in
        if one_of (vscp_class e) (plain_classes ++ zone_classes) then Some 0
        else if one_of (vscp_class e) wide_classes then Some 0
        else if VSCP_CLASS2_MEASUREMENT_STR =? vscp_class e then
          if null_data e || (sizeData e <? 4) then Some VSCP_ERROR_ERROR
          else data_at e (offset + 2)
        else if VSCP_CLASS2_MEASUREMENT_FLOAT =? vscp_class e then
          if null_data e || negb (12 =? sizeData e) then Some VSCP_ERROR_ERROR else data_at e 2
        else Some VSCP_ERROR_ERROR
  end.

(** The measurement classes with their four extensions X1 to X4. *)
Definition vscp_isMeasurement (e : vscpEvent) : bool :=
  let from c := (c <=? vscp_class e) && (vscp_class e <=? c + 4) in
  from VSCP_CLASS1_MEASUREMENT || (VSCP_CLASS1_DATA =? vscp_class e)
  || from VSCP_CLASS2_LEVEL1_MEASUREMENT || from VSCP_CLASS1_MEASUREZONE
  || from VSCP_CLASS2_LEVEL1_MEASUREZONE || from VSCP_CLASS1_SETVALUEZONE
  || from VSCP_CLASS2_LEVEL1_SETVALUEZONE || from VSCP_CLASS1_MEASUREMENT32
  || from VSCP_CLASS2_LEVEL1_MEASUREMENT32 || from VSCP_CLASS1_MEASUREMENT64
  || from VSCP_CLASS2_LEVEL1_MEASUREMENT64
  || (VSCP_CLASS2_MEASUREMENT_STR =? vscp_class e)
  || (VSCP_CLASS2_MEASUREMENT_FLOAT =? vscp_class e).

(** The Ex functions convert to a fresh event first; [fail] is the value
    returned when that fails. *)
Definition on_converted {A} (mem : vscpEvent) (fail : A) (f : vscpEvent -> option A)
    (pex : option vscpEventEx) : option A :=
  r ← vscp_convertEventExToEvent (Some (vscp_newEvent mem default_version)) pex;
  match r with
  | (true, Some e) => f e
  | _ => Some fail
  end.

Definition vscp_getMeasurementUnitEx (mem : vscpEvent) (pex : option vscpEventEx) : option Z :=
  on_converted mem 0 vscp_getMeasurementUnit pex.
Definition vscp_getMeasurementSensorIndexEx (mem : vscpEvent) (pex : option vscpEventEx) : option Z :=
  on_converted mem 0 (fun e => vscp_getMeasurementSensorIndex (Some e)) pex.
Definition vscp_getMeasurementZoneEx (mem : vscpEvent) (pex : option vscpEventEx) : option Z :=
  on_converted mem (-1) (fun e => vscp_getMeasurementZone (Some e)) pex.
Definition vscp_getMeasurementSubZoneEx (mem : vscpEvent) (pex : option vscpEventEx) : option Z :=
  on_converted mem 0 (fun e => vscp_getMeasurementSubZone (Some e)) pex.
Definition vscp_isMeasurementEx (mem : vscpEvent) (pex : option vscpEventEx) : option bool :=
  on_converted mem false (fun e => Some (vscp_isMeasurement e)) pex.

(** ** Building integer measurements *)

(** The bytes of a value in memory, lowest first. *)
Definition le (n : nat) (x : Z) : list Z := rev (be n x).

(** The number of bytes written for a value: [None] above 0xffffffffffffff. *)
Definition value_bytes (value : Z) : option nat :=
  let v := u64 value in
  if v <=? 0xff then Some 1%nat
  else if v <=? 0xffff then Some 2%nat
  else if v <=? 0xffffff then Some 3%nat
  else if v <=? 0xffffffff then Some 4%nat
  else if v <=? 0xffffffffff then Some 5%nat
  else if v <=? 0xffffffffffff then Some 6%nat
  else if v <=? 0xffffffffffffff then Some 7%nat
  else None.

Definition coding_byte (unit sensoridx : Z) : Z :=
  u8 (VSCP_DATACODING_INTEGER + Z.shiftl unit 3 + sensoridx).

(** The old data is freed first.  For the level II class a buffer of 16 bytes
    more is allocated and the data put after them ([fresh] is what the
    allocated memory holds), but [sizeData] does not count them. *)
Definition vscp_makeIntegerMeasurementEvent (fresh : list Z) (pev : option vscpEvent)
    (value unit sensoridx : Z) : bool * option vscpEvent :=
  match pev with
  | None => (false, None)
  | Some e =>
      let e := if null_data e then e else set_pdata 0 None e in
      match value_bytes value with
      | None => (false, Some e)
      | Some n =>
          let data := coding_byte unit sensoridx :: le n (u64 value) in
          let size := Z.of_nat (S n) in
          if VSCP_CLASS1_MEASUREMENT =? vscp_class e
          then (true, Some (set_pdata size (Some data) e))
          else if VSCP_CLASS2_LEVEL1_MEASUREMENT =? vscp_class e
          then (true, Some (set_pdata size (Some (take 16 fresh ++ data)) e))
          else (false, Some (set_pdata size None e))
      end
  end.

(** The coding byte goes to data[0] for both classes, the value after
    [offset]; a one-byte value goes to data[1] for both. *)
Definition vscp_makeIntegerMeasurementEventEx (pex : option vscpEventEx)
    (value unit sensoridx : Z) : option (bool * option vscpEventEx) :=
  match pex with
  | None => Some (false, None)
  | Some x =>
      let set d n := EventEx (xhead x) (xobid x) (xtime x) (xcrc x) (xclass x) (xtype x)
                       (xGUID x) n d in
      let put (offset : nat) :=
        d ← wr (xdata x) 0 [coding_byte unit sensoridx];
        match value_bytes value with
        | None => Some (false, Some (set d (xsizeData x)))
        | Some n =>
            let pos := if (n =? 1)%nat then 1%nat else (1 + offset)%nat in
            d ← wr d pos (le n (u64 value));
            Some (true, Some (set d (Z.of_nat (S n))))
        end in
      if VSCP_CLASS1_MEASUREMENT =? xclass x then put 0%nat
      else if VSCP_CLASS2_LEVEL1_MEASUREMENT =? xclass x then put 16%nat
      else Some (false, Some x)
  end.

(** vscp_convertIntegerToNormalizedEventData.  [pos] is never moved, and the
    value is read from [i + nZeros]. *)
Fixpoint count_zeros (bs : list Z) : nat :=
  match bs with
  | b :: bs' => if b =? 0 then S (count_zeros bs') else O
  | [] => O
  end.

Fixpoint normalized_loop (n : nat) (p : list Z) (i nZeros : nat) (pd : list Z) (psize : Z)
  : option (list Z * Z) :=
  match n with
  | O => Some (pd, psize)
  | S n' =>
      b ← rd p (i + nZeros);
      pd ← wr pd 1 [b];
      normalized_loop n' p (S i) nZeros pd (u16 (psize + 1))
  end.

Definition vscp_convertIntegerToNormalizedEventData (pd : list Z) (val64 : Z)
  : option (list Z * Z) :=
  let p := le 8 val64 in
  let nZeros := count_zeros p in
  normalized_loop (8 - nZeros) p nZeros nZeros pd 1.

(** ** Lemmas *)

Lemma length_le n x : length (le n x) = n.
Proof. unfold le. rewrite length_rev, length_be. reflexivity. Qed.

Lemma bytes_ok_rev l : bytes_ok l -> bytes_ok (rev l).
Proof.
  induction 1 as [|c l Hc _ IH]; [constructor|]. cbn [rev]. apply Forall_app.
  split; [exact IH|]. repeat constructor; apply Hc.
Qed.

Lemma le_ok n x : bytes_ok (le n x).
Proof. apply bytes_ok_rev, be_ok. Qed.

(** The two's complement value of big-endian bytes. *)
Definition signed (bs : list Z) : Z :=
  match bs with
  | [] => 0
  | b :: _ => if 128 <=? b then of_be bs - 256 ^ Z.of_nat (length bs) else of_be bs
  end.

Lemma land_128 b : is_u8 b -> negb (Z.land b 0x80 =? 0) = (128 <=? b).
Proof.
  intros Hb. apply (all_below_spec 256 (fun b => Bool.eqb (negb (Z.land b 0x80 =? 0)) (128 <=? b)) b)
    in Hb as E; [apply eqb_prop, E|vm_compute; reflexivity].
Qed.

Lemma s64_fold bs v :
  foldl (fun v b => s64 (Z.shiftl v 8 + b)) (s64 v) bs
  = s64 (v * 256 ^ Z.of_nat (length bs) + of_be bs).
Proof.
  revert v. induction bs as [|b bs IH]; intros v; cbn [foldl length].
  - f_equal. rewrite Z.pow_0_r. cbn. lia.
  - replace (s64 (Z.shiftl (s64 v) 8 + b)) with (s64 (v * 256 + b)).
    + rewrite IH, of_be_cons, Nat2Z.inj_succ, Z.pow_succ_r by lia. f_equal. ring.
    + rewrite Z.shiftl_mul_pow2 by lia. change (2 ^ 8) with 256. width.
Qed.

Lemma signed_range b bs :
  bytes_ok (b :: bs) -> (length bs <= 7)%nat -> - 2 ^ 63 <= signed (b :: bs) < 2 ^ 63.
Proof.
  intros Hok Hl. inversion_clear Hok as [|? ? Hb Hbs].
  assert (B := of_be_bound bs Hbs). unfold signed. rewrite of_be_cons. cbn [length].
  rewrite Nat2Z.inj_succ, Z.pow_succ_r by lia.
  assert (P : 256 ^ Z.of_nat (length bs) <= 256 ^ 7) by (apply Z.pow_le_mono_r; lia).
  set (p := 256 ^ Z.of_nat (length bs)) in *. change (256 ^ 7) with 72057594037927936 in P.
  change (2 ^ 63) with 9223372036854775808.
  destruct (128 <=? b) eqn:E; width; nia.
Qed.

Lemma fold_bytes b bs :
  bytes_ok (b :: bs) -> (length bs <= 7)%nat ->
  foldl (fun v b => s64 (Z.shiftl v 8 + b))
    (if negb (Z.land b 0x80 =? 0) then -1 else 0) (b :: bs) = signed (b :: bs).
Proof.
  intros Hok Hl. assert (R := signed_range b bs Hok Hl).
  rewrite land_128 by (inversion Hok; assumption).
  rewrite <- (s64_id (if 128 <=? b then -1 else 0)) by (destruct (128 <=? b); lia).
  rewrite s64_fold, <- (s64_id (signed (b :: bs))) by exact R. f_equal.
  unfold signed. destruct (128 <=? b); lia.
Qed.

Lemma decode_integer c b bs :
  bytes_ok (b :: bs) -> (length bs <= 7)%nat ->
  vscp_getDataCodingInteger (Some (c :: b :: bs)) (Z.of_nat (S (S (length bs))))
  = Some (signed (b :: bs)).
Proof.
  intros Hok Hl. unfold vscp_getDataCodingInteger.
  rewrite (proj2 (Z.ltb_ge _ 2)) by lia.
  replace (Z.to_nat (Z.of_nat (S (S (length bs))) - 1)) with (length (b :: bs))
    by (cbn [length]; lia).
  assert (E : rdn (c :: b :: bs) 1 (length (b :: bs)) = Some (b :: bs)).
  { rewrite rdn_defined by (cbn [length]; lia). cbn [drop]. rewrite take_ge; reflexivity. }
  rewrite E. change (rd (c :: b :: bs) 1) with (Some b).
  cbn [mbind option_bind]. f_equal. apply fold_bytes; assumption.
Qed.

Lemma value_bytes_spec v n :
  0 <= v < 2 ^ 63 -> value_bytes v = Some n ->
  (1 <= n <= 7)%nat /\ v < 256 ^ Z.of_nat n /\ (n = 1%nat \/ 256 ^ Z.of_nat (n - 1) <= v).
Proof.
  intros Hv. unfold value_bytes. rewrite u64_id by (width; lia).
  repeat match goal with |- context [Z.leb v ?k] => destruct (Z.leb_spec v k) end;
    intros [= <-]; (split; [lia|split; [|first [left; reflexivity | right]]]);
    cbn [Nat.sub]; match goal with |- context [256 ^ Z.of_nat ?k] =>
      let w := eval vm_compute in (256 ^ Z.of_nat k) in
      change (256 ^ Z.of_nat k) with w end; lia.
Qed.

Lemma value_bytes_some v : 0 <= v < 2 ^ 56 -> exists n, value_bytes v = Some n.
Proof.
  intros Hv. unfold value_bytes. change (2 ^ 56) with 72057594037927936 in Hv.
  rewrite u64_id by (width; lia).
  repeat case_match; eauto. lia.
Qed.

Lemma value_bytes_none v : - 2 ^ 63 <= v < 0 \/ 2 ^ 56 <= v < 2 ^ 63 -> value_bytes v = None.
Proof.
  intros Hv. unfold value_bytes.
  change (2 ^ 56) with 72057594037927936 in Hv. change (2 ^ 63) with 9223372036854775808 in Hv.
  assert (72057594037927936 <= u64 v) by (width; lia).
  repeat (rewrite (proj2 (Z.leb_gt _ _)) by lia). reflexivity.
Qed.

Lemma coding_byte_fields unit idx :
  0 <= unit < 4 -> 0 <= idx < 8 ->
  coding_byte unit idx = 96 + unit * 8 + idx /\
  VSCP_DATACODING_UNIT (coding_byte unit idx) = unit /\
  VSCP_DATACODING_INDEX (coding_byte unit idx) = idx.
Proof.
  intros Hu Hi. unfold coding_byte, VSCP_DATACODING_UNIT, VSCP_DATACODING_INDEX.
  rewrite Z.shiftl_mul_pow2 by lia. change (2 ^ 3) with 8.
  change VSCP_DATACODING_INTEGER with 96.
  replace (u8 (96 + unit * 8 + idx)) with (96 + unit * 8 + idx) by (width; lia).
  assert (X : exists k, 0 <= k < Z.of_nat 32 /\ unit = k / 8 /\ idx = k mod 8).
  { exists (unit * 8 + idx). dlia. }
  destruct X as (k & Hk & -> & ->).
  apply (all_below_spec 32 (fun k => bool_decide
    (96 + k / 8 * 8 + k mod 8 = 96 + k / 8 * 8 + k mod 8 /\
     Z.shiftr (Z.land 24 (96 + k / 8 * 8 + k mod 8)) 3 = k / 8 /\
     Z.land 7 (96 + k / 8 * 8 + k mod 8) = k mod 8)) k) in Hk as E;
    [|vm_compute; reflexivity].
  apply bool_decide_eq_true_1 in E. exact E.
Qed.

Lemma normalized_oob n p i k pd size :
  (0 < n)%nat -> (i + n = 8)%nat -> (0 < k)%nat -> length p = 8%nat ->
  normalized_loop n p i k pd size = None.
Proof.
  revert i pd size. induction n as [|n IH]; intros i pd size Hn Hi Hk Hp; [lia|].
  cbn [normalized_loop]. destruct (rd p (i + k)) as [b|] eqn:R; [|reflexivity].
  cbn [mbind option_bind]. destruct (wr pd 1 [b]) as [pd'|]; [|reflexivity].
  cbn [mbind option_bind]. destruct (decide (n = 0%nat)) as [->|Hn0].
  - unfold rd in R. apply lookup_lt_Some in R. lia.
  - apply IH; lia.
Qed.

(** ** Properties *)

(** The value of an integer coding (the coding byte, then one to eight
    bytes) is the two's complement number those bytes are, most significant
    first; a length beyond the buffer reads outside it. *)
Theorem getDataCodingInteger_spec c bs length_ :
  bytes_ok bs -> (1 <= length bs <= 8)%nat ->
  vscp_getDataCodingInteger (Some (c :: bs)) (Z.of_nat (S (length bs))) = Some (signed bs) /\
  (signed bs - of_be bs) mod 256 ^ Z.of_nat (length bs) = 0 /\
  (Z.of_nat (S (length bs)) < length_ -> vscp_getDataCodingInteger (Some (c :: bs)) length_ = None).
Proof.
  intros Hok Hl. destruct bs as [|b bs]; [cbn [length] in Hl; lia|]. split_and!.
  - cbn [length] in *. apply (decode_integer c b bs Hok). lia.
  - unfold signed. destruct (128 <=? b).
    + replace (of_be (b :: bs) - 256 ^ Z.of_nat (length (b :: bs)) - of_be (b :: bs))
        with ((-1) * 256 ^ Z.of_nat (length (b :: bs))) by ring.
      apply Z.mod_mul. assert (0 < 256 ^ Z.of_nat (length (b :: bs))) by lia. lia.
    + rewrite Z.sub_diag. apply Z.mod_0_l.
      assert (0 < 256 ^ Z.of_nat (length (b :: bs))) by lia. lia.
  - intros H. unfold vscp_getDataCodingInteger. rewrite (proj2 (Z.ltb_ge _ 2)) by (cbn [length] in H; lia).
    change (rd (c :: b :: bs) 1) with (Some b). cbn [mbind option_bind].
    rewrite rdn_oob by (cbn [length] in *; lia). reflexivity.
Qed.

Lemma getDataCodingInteger_spec_witness :
  vscp_getDataCodingInteger (Some [0x60; 0xFF; 0x9C]) 3 = Some (-100) /\
  (signed [0xFF; 0x9C] - of_be [0xFF; 0x9C]) mod 256 ^ 2 = 0 /\
  (3 < 4 -> vscp_getDataCodingInteger (Some [0x60; 0xFF; 0x9C]) 4 = None).
Proof. apply (getDataCodingInteger_spec 0x60 [0xFF; 0x9C] 4); [by_decide|cbn; lia]. Defined.

(** An integer measurement of class 10 carries unit and sensor index in its
    coding byte, and the value in as few bytes as hold it, least significant
    byte first.  The decoder reads them most significant first: what it
    returns is the value only below 128 (a two-byte value comes back with its
    bytes swapped). *)
Theorem makeIntegerMeasurement_spec fresh e value unit idx :
  vscp_class e = VSCP_CLASS1_MEASUREMENT ->
  0 <= value < 2 ^ 56 -> 0 <= unit < 4 -> 0 <= idx < 8 ->
  exists n e', vscp_makeIntegerMeasurementEvent fresh (Some e) value unit idx = (true, Some e') /\
    pdata e' = Some (coding_byte unit idx :: le n value) /\
    sizeData e' = Z.of_nat (S n) /\
    (1 <= n <= 7)%nat /\ value < 256 ^ Z.of_nat n /\ (n = 1%nat \/ 256 ^ Z.of_nat (n - 1) <= value) /\
    vscp_getMeasurementUnit e' = Some unit /\
    vscp_getMeasurementSensorIndex (Some e') = Some idx /\
    vscp_getDataCodingInteger (pdata e') (sizeData e') = Some (signed (le n value)) /\
    (value < 128 -> signed (le n value) = value).
Proof.
  intros Hc Hv Hu Hi.
  destruct (value_bytes_some value Hv) as [n En].
  destruct (value_bytes_spec value n ltac:(lia) En) as (Hn & Hlt & Hge).
  destruct (coding_byte_fields unit idx Hu Hi) as (_ & Fu & Fi).
  assert (Ln := length_le n value).
  set (d := coding_byte unit idx :: le n value).
  set (e1 := if null_data e then e else set_pdata 0 None e).
  assert (Hc1 : vscp_class e1 = 10) by (unfold e1; destruct (null_data e); exact Hc).
  exists n, (set_pdata (Z.of_nat (S n)) (Some d) e1).
  split.
  { unfold vscp_makeIntegerMeasurementEvent. fold e1. rewrite En, Hc1.
    rewrite u64_id by (width; lia). reflexivity. }
  unfold set_pdata; cbn [pdata sizeData vscp_class]. rewrite u16_id by (width; lia).
  split_and!; try assumption; try reflexivity; try lia.
  - unfold vscp_getMeasurementUnit. cbn [vscp_class sizeData pdata]. rewrite Hc1.
    change (one_of 10 (plain_classes ++ zone_classes)) with true. change (data_offset 10) with 0.
    unfold null_data. cbn [pdata]. rewrite bool_decide_false by discriminate.
    rewrite (proj2 (Z.ltb_ge _ (0 + 1))) by lia. cbn [orb].
    change (data_at _ 0) with (Some (coding_byte unit idx)). cbn [mbind option_bind].
    rewrite Fu. reflexivity.
  - unfold vscp_getMeasurementSensorIndex. cbn [vscp_class sizeData pdata]. rewrite Hc1.
    unfold null_data. cbn [pdata]. rewrite bool_decide_false by discriminate.
    rewrite (proj2 (Z.eqb_neq _ 0)) by lia. cbn [orb].
    change (one_of 10 plain_classes) with true. change (data_offset 10) with 0.
    change (data_at _ 0) with (Some (coding_byte unit idx)). cbn [mbind option_bind].
    rewrite Fi. reflexivity.
  - assert (L := le_ok n value). unfold d. destruct (le n value) as [|b bs]; cbn [length] in Ln; [lia|].
    replace (Z.of_nat (S n)) with (Z.of_nat (S (S (length bs)))) by lia.
    apply decode_integer; [exact L|lia].
  - intros Hs. destruct (decide (n = 1%nat)) as [->|Hn1].
    + unfold le. cbn [be rev app signed]. rewrite Z.shiftr_0_r, Z.mod_small by lia.
      rewrite (proj2 (Z.leb_gt 128 value)) by lia. unfold of_be. cbn [foldl]. lia.
    + assert (256 ^ 1 <= 256 ^ Z.of_nat (n - 1)) by (apply Z.pow_le_mono_r; lia).
      destruct Hge; lia.
Qed.

Lemma makeIntegerMeasurement_spec_witness :
  exists n e', vscp_makeIntegerMeasurementEvent [] (Some sample_event) 0x1234 1 3 = (true, Some e') /\
    pdata e' = Some (coding_byte 1 3 :: le n 0x1234) /\
    sizeData e' = Z.of_nat (S n) /\
    (1 <= n <= 7)%nat /\ 0x1234 < 256 ^ Z.of_nat n /\ (n = 1%nat \/ 256 ^ Z.of_nat (n - 1) <= 0x1234) /\
    vscp_getMeasurementUnit e' = Some 1 /\
    vscp_getMeasurementSensorIndex (Some e') = Some 3 /\
    vscp_getDataCodingInteger (pdata e') (sizeData e') = Some (signed (le n 0x1234)) /\
    (0x1234 < 128 -> signed (le n 0x1234) = 0x1234).
Proof. apply (makeIntegerMeasurement_spec [] sample_event); [reflexivity|lia|lia|lia]. Defined.

(** The value 0x1234 comes back as 0x3412. *)
Example integer_byte_order :
  (r ← snd (vscp_makeIntegerMeasurementEvent [] (Some sample_event) 0x1234 1 3);
   vscp_getDataCodingInteger (pdata r) (sizeData r)) = Some 0x3412.
Proof. vm_compute. reflexivity. Qed.

(** What the integer measurement builder does outside its domain: negative
    values and values of 2^56 and more are rejected; an event of a class other
    than 10 and 522 is rejected but left with a size and no data; an event of
    class 522 gets a buffer of 16 + n + 1 bytes, whose first 16 bytes are what the
    allocation held, and a size of n + 1, so that the value lies outside the
    announced data. *)
Theorem makeIntegerMeasurement_errors fresh e value unit idx :
  (- 2 ^ 63 <= value < 0 \/ 2 ^ 56 <= value < 2 ^ 63 ->
   vscp_makeIntegerMeasurementEvent fresh (Some e) value unit idx
   = (false, Some (if null_data e then e else set_pdata 0 None e))) /\
  (0 <= value < 2 ^ 56 ->
   exists n, (1 <= n <= 7)%nat /\
   (vscp_class e <> VSCP_CLASS1_MEASUREMENT -> vscp_class e <> VSCP_CLASS2_LEVEL1_MEASUREMENT ->
    exists e', vscp_makeIntegerMeasurementEvent fresh (Some e) value unit idx = (false, Some e') /\
      pdata e' = None /\ sizeData e' = Z.of_nat (S n) /\ ~ data_ok (sizeData e') (pdata e')) /\
   (vscp_class e = VSCP_CLASS2_LEVEL1_MEASUREMENT -> (16 <= length fresh)%nat ->
    exists e', vscp_makeIntegerMeasurementEvent fresh (Some e) value unit idx = (true, Some e') /\
      pdata e' = Some (take 16 fresh ++ coding_byte unit idx :: le n value) /\
      sizeData e' = Z.of_nat (S n) /\ sizeData e' < 16)).
Proof.
  set (e1 := if null_data e then e else set_pdata 0 None e).
  assert (Hc1 : vscp_class e1 = vscp_class e) by (unfold e1; destruct (null_data e); reflexivity).
  split.
  - intros Hv. unfold vscp_makeIntegerMeasurementEvent. fold e1. rewrite value_bytes_none by exact Hv.
    reflexivity.
  - intros Hv. destruct (value_bytes_some value Hv) as [n En].
    destruct (value_bytes_spec value n ltac:(lia) En) as (Hn & _ & _).
    exists n. split; [exact Hn|]. unfold vscp_makeIntegerMeasurementEvent. fold e1.
    rewrite En, Hc1, u64_id by (width; lia). split.
    + intros H1 H2. rewrite (proj2 (Z.eqb_neq _ _)) by congruence.
      rewrite (proj2 (Z.eqb_neq _ _)) by congruence.
      eexists. split; [reflexivity|]. unfold set_pdata. cbn [pdata sizeData data_ok].
      rewrite u16_id by (width; lia). split_and!; [reflexivity|reflexivity|lia].
    + intros -> Hf. eval_cmp. eexists. split; [reflexivity|].
      unfold set_pdata. cbn [pdata sizeData].
      rewrite u16_id by (width; lia). split_and!; [reflexivity|reflexivity|lia].
Qed.

(** The zone classes.  The guard of the sensor index and zone getters is
    inverted: an event with its three leading fields (sensor index, zone, sub
    zone) gets -1 and 0, whatever they hold; an event too short for them is
    read, out of bounds when the byte is missing.  The sub zone is 0 in every
    case.  The unit getter reads the sensor index byte as a coding byte. *)
Theorem measurement_zone_classes e l :
  event_ok e -> pdata e = Some l -> one_of (vscp_class e) zone_classes = true ->
  let offset := data_offset (vscp_class e) in
  (offset + 3 <= sizeData e ->
   vscp_getMeasurementSensorIndex (Some e) = Some (-1) /\
   vscp_getMeasurementZone (Some e) = Some 0 /\
   vscp_getMeasurementUnit e = (b ← rd l (Z.to_nat offset); Some (VSCP_DATACODING_UNIT b))) /\
  (sizeData e < offset + 3 ->
   vscp_getMeasurementSensorIndex (Some e) = rd l (Z.to_nat offset) /\
   vscp_getMeasurementZone (Some e) = rd l (Z.to_nat (offset + 1)) /\
   (sizeData e <= offset -> vscp_getMeasurementSensorIndex (Some e) = None) /\
   (sizeData e <= offset + 1 -> vscp_getMeasurementZone (Some e) = None)) /\
  vscp_getMeasurementSubZone (Some e) = Some 0.
Proof.
  intros He Hl Hz offset. assert (D := edata_ok e He). rewrite Hl in D. destruct D as (D0 & D1 & _).
  assert (Hn : null_data e = false) by (unfold null_data; rewrite Hl; apply bool_decide_false; discriminate).
  assert (Hp : one_of (vscp_class e) plain_classes = false).
  { unfold one_of, zone_classes, plain_classes in *. cbn [existsb] in *.
    apply orb_true_iff in Hz. repeat (rewrite orb_true_iff in Hz).
    destruct Hz as [Hz|[Hz|[Hz|[Hz|Hz]]]]; try discriminate; apply Z.eqb_eq in Hz;
      rewrite <- Hz; reflexivity. }
  assert (Ha : one_of (vscp_class e) (plain_classes ++ zone_classes) = true).
  { unfold one_of in *. rewrite existsb_app, Hp, Hz. reflexivity. }
  assert (Hda : forall i, data_at e i = rd l (Z.to_nat i)) by (intros; unfold data_at; rewrite Hl; reflexivity).
  assert (Ho : 0 <= offset) by (unfold offset, data_offset; destruct (_ && _); lia).
  unfold vscp_getMeasurementSensorIndex, vscp_getMeasurementZone, vscp_getMeasurementSubZone,
    vscp_getMeasurementUnit.
  rewrite Hn, Hp, Hz, Ha, (proj2 (Z.eqb_neq (sizeData e) 0)) by lia. cbn [orb]. fold offset.
  split_and!; [| |reflexivity]; intros Hs.
  - rewrite (proj2 (Z.leb_le (offset + 3) _)) by lia. rewrite (proj2 (Z.ltb_ge _ (offset + 1))) by lia.
    rewrite Hda. split_and!; reflexivity.
  - rewrite (proj2 (Z.leb_gt (offset + 3) _)) by lia. rewrite !Hda.
    split_and!; try reflexivity; intros; apply lookup_ge_None_2; lia.
Qed.

Definition sample_zone (n : nat) (cls : Z) (bytes : list Z) : vscpEvent :=
  Event 0 0 (Time 2024 1 0) cls 6 (replicate 16 0) (Z.of_nat n) (Some (take n bytes)) 0.

Lemma measurement_zone_classes_witness :
  let offset := data_offset 65 in
  (offset + 3 <= 4 ->
   vscp_getMeasurementSensorIndex (Some (sample_zone 4 65 [7; 8; 9; 10])) = Some (-1) /\
   vscp_getMeasurementZone (Some (sample_zone 4 65 [7; 8; 9; 10])) = Some 0 /\
   vscp_getMeasurementUnit (sample_zone 4 65 [7; 8; 9; 10])
   = (b ← rd [7; 8; 9; 10] (Z.to_nat offset); Some (VSCP_DATACODING_UNIT b))) /\
  (4 < offset + 3 ->
   vscp_getMeasurementSensorIndex (Some (sample_zone 4 65 [7; 8; 9; 10])) = rd [7; 8; 9; 10] (Z.to_nat offset) /\
   vscp_getMeasurementZone (Some (sample_zone 4 65 [7; 8; 9; 10])) = rd [7; 8; 9; 10] (Z.to_nat (offset + 1)) /\
   (4 <= offset -> vscp_getMeasurementSensorIndex (Some (sample_zone 4 65 [7; 8; 9; 10])) = None) /\
   (4 <= offset + 1 -> vscp_getMeasurementZone (Some (sample_zone 4 65 [7; 8; 9; 10])) = None)) /\
  vscp_getMeasurementSubZone (Some (sample_zone 4 65 [7; 8; 9; 10])) = Some 0.
Proof.
  apply (measurement_zone_classes (sample_zone 4 65 [7; 8; 9; 10]) [7; 8; 9; 10]);
    [|reflexivity|reflexivity].
  split; cbn [sample_zone head obid etime vscp_class vscp_type GUID sizeData pdata crc]; try width.
  - split; cbn [year month timestamp_ns]; width.
  - split; [reflexivity|]. apply Forall_replicate. width.
  - split; [width|]. split; [reflexivity|by_decide].
Defined.

(** The coding byte of an event: the first data byte in class 10, the byte
    after the GUID in class 522, a constant for the two level II classes,
    0xff for everything else.  With exactly 16 bytes of class 522 the byte after
    the GUID is read although it does not exist. *)
Theorem getMeasurementDataCoding_spec e l :
  event_ok e -> pdata e = Some l ->
  (vscp_class e = VSCP_CLASS1_MEASUREMENT ->
   exists b, l !! 0%nat = Some b /\ vscp_getMeasurementDataCoding (Some e) = Some b) /\
  (vscp_class e = VSCP_CLASS2_LEVEL1_MEASUREMENT ->
   (sizeData e < 16 -> vscp_getMeasurementDataCoding (Some e) = Some 255) /\
   (sizeData e = 16 -> vscp_getMeasurementDataCoding (Some e) = None) /\
   (16 < sizeData e -> exists b, l !! 16%nat = Some b /\ vscp_getMeasurementDataCoding (Some e) = Some b)) /\
  (vscp_class e = VSCP_CLASS2_MEASUREMENT_STR -> vscp_getMeasurementDataCoding (Some e) = Some 0x40) /\
  (vscp_class e = VSCP_CLASS2_MEASUREMENT_FLOAT -> vscp_getMeasurementDataCoding (Some e) = Some 0xC0) /\
  (~ In (vscp_class e) [10; 522; 1040; 1060] -> vscp_getMeasurementDataCoding (Some e) = Some 255).
Proof.
  intros He Hl. assert (D := edata_ok e He). rewrite Hl in D. destruct D as (D0 & D1 & _).
  unfold vscp_getMeasurementDataCoding. rewrite Hl, (proj2 (Z.ltb_ge _ 1)) by lia.
  split_and!.
  - intros ->. eval_cmp. destruct (lookup_lt_is_Some_2 l 0) as [b Hb]; [lia|].
    exists b. split; exact Hb.
  - intros ->. eval_cmp. split_and!; intros Hs.
    + rewrite (proj2 (Z.leb_gt 16 _)) by lia. reflexivity.
    + rewrite (proj2 (Z.leb_le 16 _)) by lia. apply lookup_ge_None_2. lia.
    + rewrite (proj2 (Z.leb_le 16 _)) by lia. destruct (lookup_lt_is_Some_2 l 16) as [b Hb]; [lia|].
      exists b. split; exact Hb.
  - intros ->. eval_cmp. reflexivity.
  - intros ->. eval_cmp. reflexivity.
  - intros Hn. cbn [In] in Hn.
    unfold VSCP_CLASS1_MEASUREMENT, VSCP_CLASS2_LEVEL1_MEASUREMENT, VSCP_CLASS2_MEASUREMENT_STR,
      VSCP_CLASS2_MEASUREMENT_FLOAT.
    rewrite !(proj2 (Z.eqb_neq _ (vscp_class e))) by tauto. reflexivity.
Qed.

Lemma getMeasurementDataCoding_spec_witness :
  (10 = 10 -> exists b, [0x89; 0x82; 0xfe; 0xd7] !! 0%nat = Some b /\
    vscp_getMeasurementDataCoding (Some sample_event) = Some b) /\
  (10 = 522 ->
   (4 < 16 -> vscp_getMeasurementDataCoding (Some sample_event) = Some 255) /\
   (4 = 16 -> vscp_getMeasurementDataCoding (Some sample_event) = None) /\
   (16 < 4 -> exists b, [0x89; 0x82; 0xfe; 0xd7] !! 16%nat = Some b /\
     vscp_getMeasurementDataCoding (Some sample_event) = Some b)) /\
  (10 = 1040 -> vscp_getMeasurementDataCoding (Some sample_event) = Some 0x40) /\
  (10 = 1060 -> vscp_getMeasurementDataCoding (Some sample_event) = Some 0xC0) /\
  (~ In 10 [10; 522; 1040; 1060] -> vscp_getMeasurementDataCoding (Some sample_event) = Some 255).
Proof.
  apply (getMeasurementDataCoding_spec sample_event [0x89; 0x82; 0xfe; 0xd7]);
    [apply sample_event_ok|reflexivity].
Defined.

(** Vscp_convertIntegerToNormalizedEventData writes only the byte after
    the coding byte: a value whose low byte is not zero leaves its most
    significant byte there and reports nine bytes, whatever the value; 0 writes
    nothing; for every other value the value is read beyond its eight bytes. *)
Theorem integer_to_normalized_spec pd val64 :
  is_u64 val64 -> (2 <= length pd)%nat ->
  vscp_convertIntegerToNormalizedEventData pd val64
  = if val64 =? 0 then Some (pd, 1)
    else if val64 mod 256 =? 0 then None
    else Some (<[1%nat := val64 / 2 ^ 56]> pd, 9).
Proof.
  intros Hv Hl. unfold vscp_convertIntegerToNormalizedEventData.
  assert (L := length_le 8 val64).
  destruct (Z.eqb_spec val64 0) as [->|Hn0]; [reflexivity|].
  assert (E : le 8 val64 = map (fun i => Z.shiftr val64 (8 * i) mod 256) [0; 1; 2; 3; 4; 5; 6; 7])
    by reflexivity.
  destruct (Z.eqb_spec (val64 mod 256) 0) as [Hm|Hm].
  - set (k := count_zeros (le 8 val64)). assert (Hk : (0 < k)%nat).
    { unfold k. rewrite E. cbn [map count_zeros]. rewrite Z.shiftr_0_r, Hm. cbn. lia. }
    assert (k < 8 \/ 8 <= k)%nat as [Hk8|Hk8] by lia.
    + apply normalized_oob; lia.
    + exfalso. apply Hn0. clear Hk. unfold k in Hk8. revert Hk8. rewrite E. cbn [map count_zeros].
      repeat match goal with |- context [if ?a =? 0 then _ else _] =>
        destruct (Z.eqb_spec a 0); [|lia] end. intros _.
      rewrite !shiftr_div in * by lia.
      change (8 * 0) with 0 in *. change (2 ^ (8 * 1)) with 256 in *.
      change (2 ^ (8 * 2)) with 65536 in *. change (2 ^ (8 * 3)) with 16777216 in *.
      change (2 ^ (8 * 4)) with 4294967296 in *. change (2 ^ (8 * 5)) with 1099511627776 in *.
      change (2 ^ (8 * 6)) with 281474976710656 in *. change (2 ^ (8 * 7)) with 72057594037927936 in *.
      width.
  - rewrite E. cbn [map count_zeros]. rewrite Z.shiftr_0_r, (proj2 (Z.eqb_neq _ 0)) by exact Hm.
    destruct pd as [|a [|b pd]]; cbn [length] in Hl; [lia|lia|]. cbn.
    rewrite shiftr_div by lia. rewrite (Z.mod_small (val64 / _)) by (width; lia). reflexivity.
Qed.

Lemma integer_to_normalized_spec_witness :
  vscp_convertIntegerToNormalizedEventData [0; 0; 0] 0x1201
  = if 0x1201 =? 0 then Some ([0; 0; 0], 1)
    else if 0x1201 mod 256 =? 0 then None
    else Some (<[1%nat := 0x1201 / 2 ^ 56]> [0; 0; 0], 9).
Proof. apply (integer_to_normalized_spec [0; 0; 0] 0x1201); [width; lia|cbn; lia]. Defined.

Lemma makeIntegerMeasurement_errors_witness :
  vscp_makeIntegerMeasurementEvent [] (Some sample_event) (-5) 0 0
  = (false, Some (set_pdata 0 None sample_event)).
Proof. apply (makeIntegerMeasurement_errors [] sample_event (-5) 0 0). left. lia. Defined.
