(* ===== verification/Doubles.v ===== *)
(** * Floating point: the C types float and double

    A float or a double is the number of its bits.  The operations are those of
    IEEE 754 with rounding to nearest, as the Standard Library specifies them
    ([SpecFloat]); conversions to integers out of range are undefined. *)

From Stdlib Require Import SpecFloat.
From S2P Require Import Prelude.

(** ** Bits *)

(** [mw] bits of mantissa behind [ew] bits of exponent. *)
Definition least (mw ew : Z) : Z := 3 - 2 ^ (ew - 1) - (mw + 1).

Definition unpack (mw ew b : Z) : spec_float :=
  let m := b mod 2 ^ mw in
  let e := b / 2 ^ mw mod 2 ^ ew in
  let s := 2 ^ (mw + ew) <=? b in
  if e =? 2 ^ ew - 1 then if m =? 0 then S754_infinity s else S754_nan
  else if e =? 0 then match m with Zpos p => S754_finite s p (least mw ew) | _ => S754_zero s end
  else S754_finite s (Z.to_pos (2 ^ mw + m)) (e - 1 + least mw ew).

Definition pack (mw ew : Z) (f : spec_float) : Z :=
  let sign (s : bool) := if s then 2 ^ (mw + ew) else 0 in
  match f with
  | S754_zero s => sign s
  | S754_infinity s => sign s + (2 ^ ew - 1) * 2 ^ mw
  | S754_nan => (2 ^ ew - 1) * 2 ^ mw + 2 ^ (mw - 1)
  | S754_finite s m e =>
      sign s + (if Zpos m <? 2 ^ mw then Zpos m else (e - least mw ew + 1) * 2 ^ mw + (Zpos m - 2 ^ mw))
  end.

Definition of_double (b : Z) : spec_float := unpack 52 11 b.
Definition double (f : spec_float) : Z := pack 52 11 f.
Definition of_float (b : Z) : spec_float := unpack 23 8 b.

Definition is_nan (f : spec_float) : bool := match f with S754_nan => true | _ => false end.

(** ** Operations *)

Definition double_mul (x y : Z) : Z := double (SFmul 53 1024 (of_double x) (of_double y)).
Definition double_div (x y : Z) : Z := double (SFdiv 53 1024 (of_double x) (of_double y)).
Definition double_lt (x y : Z) : bool := SFltb (of_double x) (of_double y).

(** An integer as a double. *)
Definition double_of_Z (z : Z) : Z := double (binary_normalize 53 1024 z 0 false).

(** A float as a double: a NaN keeps its sign and payload and is quiet. *)
Definition promote (b : Z) : Z :=
  match of_float b with
  | S754_nan => (if 2 ^ 31 <=? b then 2 ^ 63 else 0) + Z.lor (2047 * 2 ^ 52 + 2 ^ 51) (b mod 2 ^ 23 * 2 ^ 29)
  | S754_finite s m e => double (binary_normalize 53 1024 (if s then Zneg m else Zpos m) e s)
  | f => double f
  end.

(** The integer part of a number. *)
Definition integral (m : positive) (e : Z) : Z := if 0 <=? e then Zpos m * 2 ^ e else Zpos m / 2 ^ (- e).

(** A double as an uint64_t: the fraction is cut off. *)
Definition double_to_u64 (x : Z) : option Z :=
  match of_double x with
  | S754_zero _ => Some 0
  | S754_finite s m e =>
      let v := integral m e in
      if (if s then v =? 0 else v <? 2 ^ 64) then Some v else None
  | _ => None
  end.

(** ** Lemmas *)

Lemma digits_log2 p : Zpos (digits2_pos p) = Z.log2 (Zpos p) + 1.
Proof.
  induction p as [p IH|p IH|]; cbn [digits2_pos]; [| |reflexivity]; rewrite Pos2Z.inj_succ, IH.
  - change (Zpos p~1) with (2 * Zpos p + 1). rewrite Z.log2_succ_double by lia. lia.
  - change (Zpos p~0) with (2 * Zpos p). rewrite Z.log2_double by lia. lia.
Qed.

Lemma iter_shift p d : Zpos (Pos.iter xO p d) = Zpos p * 2 ^ Zpos d.
Proof.
  induction d as [|d IH] using Pos.peano_ind; [cbn [Pos.iter]; change (2 ^ 1) with 2; lia|].
  rewrite Pos.iter_succ, Pos2Z.inj_succ, Z.pow_succ_r, Pos2Z.inj_xO, IH by lia. ring.
Qed.

(** A number of at most 53 bits is scaled to 53 bits. *)
Lemma normalize_small p s : Zpos p < 2 ^ 53 ->
  exists m e, binary_round 53 1024 s p 0 = S754_finite s m e /\ -52 <= e <= 0 /\ Zpos m = Zpos p * 2 ^ (- e) /\ 2 ^ 52 <= Zpos m < 2 ^ 53.
Proof.
  intros Hp. assert (L := digits_log2 p). assert (B := Z.log2_spec (Zpos p) ltac:(lia)). assert (N := Z.log2_nonneg (Zpos p)).
  assert (U : Z.log2 (Zpos p) < 53) by (apply Z.log2_lt_pow2; lia). set (k := Z.log2 (Zpos p)) in *.
  assert (F : fexp 53 1024 (Zpos (digits2_pos p) + 0) = k - 52) by (unfold fexp, emin; lia).
  assert (A : exists m, shl_align p 0 (k - 52) = (m, k - 52) /\ Zpos m = Zpos p * 2 ^ (52 - k)).
  { unfold shl_align. rewrite Z.sub_0_r. destruct (k - 52) as [|q|q] eqn:E; [| |].
    - exists p. split; [reflexivity|]. replace (52 - k) with 0 by lia. rewrite Z.pow_0_r. lia.
    - lia.
    - exists (Pos.iter xO p q). split; [reflexivity|]. rewrite iter_shift. do 2 f_equal. lia. }
  destruct A as (m & A & M). exists m, (k - 52).
  assert (R : 2 ^ 52 <= Zpos m < 2 ^ 53).
  { rewrite M. replace (2 ^ 52) with (2 ^ k * 2 ^ (52 - k)) by (rewrite <- Z.pow_add_r by lia; f_equal; lia).
    replace (2 ^ 53) with (2 ^ Z.succ k * 2 ^ (52 - k)) by (rewrite <- Z.pow_add_r by lia; f_equal; lia).
    assert (0 < 2 ^ (52 - k)) by (apply Z.pow_pos_nonneg; lia). nia. }
  assert (D : Zpos (digits2_pos m) = 53) by (rewrite digits_log2, (Z.log2_unique (Zpos m) 52) by lia; reflexivity).
  split; [|split; [lia|split; [rewrite M; do 2 f_equal; lia|exact R]]].
  unfold binary_round. rewrite F, A. unfold binary_round_aux, shr_fexp. cbn [Zdigits2]. rewrite D.
  assert (Z0' : fexp 53 1024 (53 + (k - 52)) - (k - 52) = 0) by (unfold fexp, emin; lia). rewrite Z0'. cbn [shr shr_record_of_loc shr_m loc_of_shr_record round_nearest_even].
  unfold shr_fexp. cbn [Zdigits2]. rewrite D, Z0'. cbn [shr shr_record_of_loc shr_m].
  assert (X : (k - 52 <=? 1024 - 53) = true) by lia. rewrite X. reflexivity.
Qed.

Lemma unpack_normal s m e : 2 ^ 52 <= Zpos m < 2 ^ 53 -> -1074 <= e <= 971 -> of_double (double (S754_finite s m e)) = S754_finite s m e.
Proof.
  intros Hm He. unfold of_double, double, pack. assert (X : (Zpos m <? 2 ^ 52) = false) by lia. rewrite X. clear X.
  change (least 52 11) with (-1074). set (t := (e - -1074 + 1) * 2 ^ 52 + (Zpos m - 2 ^ 52)).
  assert (T : 0 <= t < 2 ^ 63) by (unfold t; lia).
  assert (Q : ((if s then 2 ^ (52 + 11) else 0) + t) / 2 ^ 52 mod 2 ^ 11 = e + 1075).
  { replace ((if s then 2 ^ (52 + 11) else 0) + t) with ((Zpos m - 2 ^ 52) + ((if s then 2 ^ 11 else 0) + (e + 1075)) * 2 ^ 52) by (unfold t; destruct s; lia).
    rewrite Z.div_add, (Z.div_small (Zpos m - 2 ^ 52)) by lia. symmetry. apply (Z.mod_unique_pos _ _ (if s then 1 else 0)); [lia|destruct s; lia]. }
  assert (R : ((if s then 2 ^ (52 + 11) else 0) + t) mod 2 ^ 52 = Zpos m - 2 ^ 52).
  { symmetry. apply (Z.mod_unique_pos _ _ ((if s then 2 ^ 11 else 0) + (e + 1075))); [lia|unfold t; destruct s; lia]. }
  unfold unpack. rewrite Q, R. change (least 52 11) with (-1074).
  assert (E1 : (e + 1075 =? 2 ^ 11 - 1) = false) by lia. assert (E2 : (e + 1075 =? 0) = false) by lia. rewrite E1, E2.
  assert (S : (2 ^ (52 + 11) <=? (if s then 2 ^ (52 + 11) else 0) + t) = s) by (change (52 + 11) with 63; destruct s; lia). rewrite S.
  f_equal; [|lia]. replace (2 ^ 52 + (Zpos m - 2 ^ 52)) with (Zpos m) by lia. reflexivity.
Qed.

(** Numbers of at most 53 bits are exact. *)
Lemma of_double_of_Z z : z <> 0 -> Z.abs z < 2 ^ 53 ->
  exists m e, of_double (double_of_Z z) = S754_finite (z <? 0) m e /\ integral m e = Z.abs z.
Proof.
  intros Hz Hb. assert (P : exists p, binary_normalize 53 1024 z 0 false = binary_round 53 1024 (z <? 0) p 0 /\ Zpos p = Z.abs z)
    by (destruct z as [|p|p]; [lia|exists p; split; reflexivity|exists p; split; reflexivity]).
  destruct P as (p & P & A). destruct (normalize_small p (z <? 0) ltac:(lia)) as (m & e & E & He & Hm & Hr).
  exists m, e. split; [unfold double_of_Z; rewrite P, E; apply unpack_normal; lia|]. unfold integral. rewrite <- A, Hm. destruct (Z.leb_spec 0 e).
  - replace e with 0 by lia. change (2 ^ - 0) with 1. change (2 ^ 0) with 1. lia.
  - apply Z.div_mul, Z.pow_nonzero; lia.
Qed.

Lemma double_to_u64_of_Z z : 0 <= z < 2 ^ 53 -> double_to_u64 (double_of_Z z) = Some z.
Proof.
  intros Hz. unfold double_to_u64. destruct (Z.eq_dec z 0) as [->|N]; [vm_compute; reflexivity|].
  destruct (of_double_of_Z z N ltac:(lia)) as (m & e & -> & ->). rewrite (proj2 (Z.ltb_ge z 0)), Z.abs_eq by lia.
  rewrite (proj2 (Z.ltb_lt z (2 ^ 64))) by lia. reflexivity.
Qed.

(** Negative numbers cannot be converted. *)
Lemma double_to_u64_negative z : - 2 ^ 53 < z < 0 -> double_to_u64 (double_of_Z z) = None.
Proof.
  intros Hz. unfold double_to_u64. destruct (of_double_of_Z z ltac:(lia) ltac:(lia)) as (m & e & -> & ->).
  rewrite (proj2 (Z.ltb_lt z 0)), (proj2 (Z.eqb_neq (Z.abs z) 0)) by lia. reflexivity.
Qed.

Example one : double_of_Z 1 = 0x3ff0000000000000. Proof. vm_compute. reflexivity. Qed.
Example tenth : double_div (double_of_Z 1) (double_of_Z 10) = 0x3fb999999999999a. Proof. vm_compute. reflexivity. Qed.
Example half_float : promote 0xbf000000 = 0xbfe0000000000000. Proof. vm_compute. reflexivity. Qed.
