(* ===== verification/FloatMeasure.v ===== *)
(** * Measurements with floating point: vscphelper.cpp

    The values of measurement events as text and as double, the events that hold a
    float, a double or a text, and the change of a level I measurement to a
    level II one.  What printf and std::stod make of a double, and pow, are parameters. *)

From S2P Require Import Prelude Program Event Frame Strings Guid EventString Measure Doubles.

Definition VSCP_DATACODING_STRING : Z := 0x40.
Definition VSCP_DATACODING_NORMALIZED : Z := 0x80.
Definition VSCP_DATACODING_SINGLE : Z := 0xA0.
Definition VSCP_MASK_DATACODING_UNIT : Z := 0x18.
Definition VSCP_MASK_DATACODING_INDEX : Z := 0x07.

(** ** Memory *)

(** The number that bytes in memory are, and the macros that swap its bytes. *)
Definition memory_value (bs : list Z) : Z := of_be (rev bs).

Definition VSCP_UINT16_SWAP_ALWAYS (val : Z) : Z :=
  Z.lor (Z.shiftl (Z.land val 0x00ff) 8) (Z.shiftr (Z.land val 0xff00) 8).
Definition VSCP_UINT32_SWAP_ALWAYS (val : Z) : Z :=
  Z.lor (Z.lor (Z.lor (Z.shiftl (Z.land val 0x000000ff) 24) (Z.shiftl (Z.land val 0x0000ff00) 8))
    (Z.shiftr (Z.land val 0x00ff0000) 8)) (Z.shiftr (Z.land val 0xff000000) 24).
Definition VSCP_UINT64_SWAP_ALWAYS (val : Z) : Z :=
  Z.lor (Z.lor (Z.lor (Z.lor (Z.lor (Z.lor (Z.lor
    (Z.shiftl (Z.land val 0x00000000000000ff) 56) (Z.shiftl (Z.land val 0x000000000000ff00) 40))
    (Z.shiftl (Z.land val 0x0000000000ff0000) 24)) (Z.shiftl (Z.land val 0x00000000ff000000) 8))
    (Z.shiftr (Z.land val 0x000000ff00000000) 8)) (Z.shiftr (Z.land val 0x0000ff0000000000) 24))
    (Z.shiftr (Z.land val 0x00ff000000000000) 40)) (Z.shiftr (Z.land val 0xff00000000000000) 56).
Definition Swap8Bytes (val : Z) : Z :=
  Z.lor (Z.lor (Z.lor (Z.lor (Z.lor (Z.lor (Z.lor
    (Z.land (Z.shiftr val 56) 0x00000000000000FF) (Z.land (Z.shiftr val 40) 0x000000000000FF00))
    (Z.land (Z.shiftr val 24) 0x0000000000FF0000)) (Z.land (Z.shiftr val 8) 0x00000000FF000000))
    (Z.land (Z.shiftl val 8) 0x000000FF00000000)) (Z.land (Z.shiftl val 24) 0x0000FF0000000000))
    (Z.land (Z.shiftl val 40) 0x00FF000000000000)) (Z.land (Z.shiftl val 56) 0xFF00000000000000).

Definition s8 (x : Z) : Z := (x + 2 ^ 7) mod 2 ^ 8 - 2 ^ 7.
Definition s16 (x : Z) : Z := (x + 2 ^ 15) mod 2 ^ 16 - 2 ^ 15.

(** [new uint8_t\[n\]]: [fresh] is what the memory holds. *)
Definition new_bytes (fresh : list Z) (n : nat) : list Z := take n (fresh ++ zeros n).

(** [std::string(buf)] of a buffer: it must hold a zero. *)
Definition terminated (buf : list Z) : option (list Z) :=
  if existsb (fun b => b =? 0) buf then Some (c_str buf) else None.

(** The same when [bs] was copied into a buffer of [size] bytes whose others are [rest]. *)
Definition in_buffer (size : nat) (rest bs : list Z) : option (list Z) :=
  if (length bs <=? size)%nat then terminated (bs ++ drop (length bs) rest) else None.

(** ** Codings *)

Section Floats.
Context (fmt_f fmt_g fmt_0 : Z -> list Z) (stod : list Z -> option Z) (pow10 : Z -> Z).

Definition vscp_getDataCodingNormalizedInteger (pCode : option (list Z)) (length : Z) : option Z :=
  match pCode with
  | None => Some 0
  | Some p =>
      if (8 <? length) || (length <? 2) then Some 0
      else
        decibyte ← rd p 1;
        third ← rd p 2;
        bs ← rdn p 2 (Z.to_nat (length - 2));
        let bNegative := negb (Z.land third 0x80 =? 0) in
        let fill n := replicate n (if bNegative then 0xff else 0) in
        let value :=
          match List.length bs with
          | 1%nat => s8 (memory_value bs)
          | 2%nat => s16 (VSCP_UINT16_SWAP_ALWAYS (memory_value bs))
          | 3%nat => s32 (VSCP_UINT32_SWAP_ALWAYS (memory_value (fill 1%nat ++ bs)))
          | 4%nat => s32 (VSCP_UINT32_SWAP_ALWAYS (memory_value bs))
          | 5%nat => s64 (Swap8Bytes (s64 (memory_value (fill 3%nat ++ bs))))
          | 6%nat => s64 (Swap8Bytes (s64 (memory_value (fill 2%nat ++ bs))))
          | _ => 0
          end in
        Some (if negb (Z.land decibyte 0x80 =? 0)
              then double_div (double_of_Z value) (pow10 (Z.land decibyte 0x7f))
              else double_mul (double_of_Z value) (pow10 (Z.land decibyte 0x7f)))
  end.

(** Both functions of this name: [length - 1] bytes, as many as a [size_t] has,
    into a buffer of 20. *)
Definition vscp_getDataCodingString (pCode : option (list Z)) (length : Z) : option (option (list Z)) :=
  match pCode with
  | None => Some None
  | Some p =>
      if length <? 1 then None
      else bs ← rdn p 1 (Z.to_nat (length - 1)); Some <$> in_buffer 20 (zeros 20) bs
  end.

Definition vscp_getMeasurementAsFloat (pNorm : option (list Z)) (length : Z) : option Z :=
  match pNorm with
  | None => Some 0
  | Some p => if 5 <=? length then bs ← rdn p 1 4; Some (VSCP_UINT32_SWAP_ALWAYS (memory_value bs)) else Some 0
  end.

(** ** Values as text *)

Definition bit_text (b : Z) : list Z :=
  flat_map (fun j => if negb (Z.land b (Z.shiftl 1 j) =? 0) then str "1" else str "0") [7; 6; 5; 4; 3; 2; 1; 0] ++ str " ".

(** [for (int i = 7; i > 0; i--) buf\[i\] = buf\[7 - i\]]. *)
Definition turn_around (buf : list Z) : list Z := foldl (fun buf i => <[i := buf !!! (7 - i)%nat]> buf) buf [7; 6; 5; 4; 3; 2; 1]%nat.

(** [size] bytes of the data at [offset] when the event has exactly those. *)
Definition exact_data (e : vscpEvent) (l : list Z) (offset size : nat) : option (option (list Z)) :=
  if sizeData e =? Z.of_nat (offset + size) then Some <$> rdn l offset size else Some None.

(** The codings of the first byte at [offset]. *)
Definition coded_text (e : vscpEvent) (l : list Z) (offset : nat) : option (list Z) :=
  let n := sizeData e - Z.of_nat offset in
  b ← rd l offset;
  let values := rdn l (offset + 1) (Z.to_nat (n - 1)) in
  match Z.land 0x07 (Z.shiftr b 5) with
  | 0 => bs ← (if n <=? 1 then Some [] else values); Some (flat_map bit_text bs)
  | 1 => bs ← (if n <=? 1 then Some [] else values); Some (join 44 (map dec bs))
  | 2 => bs ← (if n <=? 1 then Some [] else values); in_buffer 9 (zeros 9) bs
  | 3 => v ← vscp_getDataCodingInteger (Some (drop offset l)) (u8 n); Some (fmt_0 (double_of_Z v))
  | 4 => v ← vscp_getDataCodingNormalizedInteger (Some (drop offset l)) (u8 n); Some (fmt_f v)
  | 5 => v ← vscp_getMeasurementAsFloat (Some l) (u8 (sizeData e)); Some (fmt_g (promote v))
  | _ => Some []
  end.

Definition as_text (f : list Z -> list Z) (o : option (option (list Z))) : option (bool * list Z) :=
  r ← o; Some (match r with Some bs => (true, f bs) | None => (false, []) end).

Definition vscp_getMeasurementAsString (strValue : list Z) (pev : option vscpEvent) : option (bool * list Z) :=
  match pev with
  | None => Some (false, strValue)
  | Some e =>
      match pdata e with
      | None => Some (false, strValue)
      | Some l =>
          if VSCP_CLASS2_MEASUREMENT_STR =? vscp_class e then
            if sizeData e <? 4 then None
            else bs ← rdn l 4 (Z.to_nat (sizeData e - 4)); s ← in_buffer 512 (zeros 512) bs; Some (true, s)
          else if VSCP_CLASS2_MEASUREMENT_FLOAT =? vscp_class e then
            as_text (fun bs => fmt_f (memory_value (turn_around bs))) (exact_data e l 4 8)
          else if VSCP_CLASS1_MEASUREMENT32 =? vscp_class e then
            as_text (fun bs => fmt_f (promote (memory_value bs))) (exact_data e l 0 4)
          else if VSCP_CLASS2_LEVEL1_MEASUREMENT32 =? vscp_class e then
            as_text (fun bs => fmt_f (promote (memory_value bs))) (exact_data e l 16 4)
          else if VSCP_CLASS1_MEASUREMENT64 =? vscp_class e then
            as_text (fun bs => fmt_f (memory_value bs)) (exact_data e l 0 8)
          else if VSCP_CLASS2_LEVEL1_MEASUREMENT64 =? vscp_class e then
            as_text (fun bs => fmt_f (memory_value bs)) (exact_data e l 16 8)
          else if one_of (vscp_class e) (plain_classes ++ zone_classes) then
            let offset := if VSCP_CLASS2_LEVEL1_PROTOCOL <=? vscp_class e then 16%nat else 0%nat in
            if sizeData e - Z.of_nat offset <? 2 then Some (false, [])
            else
              let offset := if one_of (vscp_class e) zone_classes then (offset + 3)%nat else offset in
              s ← coded_text e l offset; Some (true, s)
          else Some (false, [])
      end
  end.

Definition vscp_getMeasurementFloat64AsString (strValue : list Z) (e : vscpEvent) : option (bool * list Z) :=
  let offset := if VSCP_CLASS2_LEVEL1_PROTOCOL <=? vscp_class e then 16%nat else 0%nat in
  if negb (sizeData e - Z.of_nat offset =? 8) then Some (false, strValue)
  else l ← pdata e; bs ← rdn l offset 8; Some (true, fmt_f (memory_value bs)).

(** It makes an event of the bytes behind the zone, and no text. *)
Definition vscp_getMeasurementWithZoneAsString (e : vscpEvent) : option bool :=
  let offset := data_offset (vscp_class e) in
  if sizeData e - offset <? 5 then Some false
  else l ← pdata e; _ ← rdn l (Z.to_nat (offset + 3)) (Z.to_nat (sizeData e - offset - 3)); Some true.

(** ** Values as double *)

Definition read_number (r : bool * list Z) : option Z := if fst r then stod (snd r) else None.

(** [garbage]: what the local buffer holds at first. *)
Definition measurement_double (garbage : list Z) (e : vscpEvent) : option (option Z) :=
  if one_of (vscp_class e) [VSCP_CLASS1_MEASUREMENT; VSCP_CLASS1_DATA; VSCP_CLASS2_LEVEL1_MEASUREMENT; VSCP_CLASS1_MEASUREZONE; VSCP_CLASS1_SETVALUEZONE]
  then read_number <$> vscp_getMeasurementAsString [] (Some e)
  else if VSCP_CLASS1_MEASUREMENT64 =? vscp_class e then read_number <$> vscp_getMeasurementFloat64AsString [] e
  else if VSCP_CLASS2_MEASUREMENT_STR =? vscp_class e then
    match pdata e with
    | Some l =>
        if sizeData e =? 0 then Some None
        else if sizeData e <? 4 then None
        else bs ← rdn l 4 (Z.to_nat (sizeData e - 4)); s ← in_buffer 512 garbage bs; Some (stod s)
    | None => Some None
    end
  else if VSCP_CLASS2_MEASUREMENT_FLOAT =? vscp_class e then l ← pdata e; bs ← rdn l 4 8; Some (Some (memory_value bs))
  else Some None.

Definition vscp_getMeasurementAsDouble (garbage : list Z) (pvalue : option Z) (pev : option vscpEvent) : option (bool * option Z) :=
  match pev, pvalue with
  | Some e, Some value => r ← measurement_double garbage e; Some (match r with Some v => (true, Some v) | None => (false, Some value) end)
  | _, _ => Some (false, pvalue)
  end.

Definition vscp_getMeasurementAsDoubleEx (mem : vscpEvent) (garbage : list Z) (pvalue : option Z) (pex : option vscpEventEx) : option (bool * option Z) :=
  on_converted mem (false, pvalue) (fun e => vscp_getMeasurementAsDouble garbage pvalue (Some e)) pex.

(** ** Making events *)

(** The digits behind the point or the comma of the text. *)
Definition decimals (s : list Z) : Z :=
  match list_find (fun ch => ch = 46) s with
  | Some (i, _) => Z.of_nat (length s - i) - 1
  | None => match list_find (fun ch => ch = 44) s with Some (i, _) => Z.of_nat (length s - i) - 1 | None => 0 end
  end.

(** The thresholds are doubles in the code, which they are exactly. *)
Definition normalized_size (val64 : Z) : option nat :=
  if val64 <? 0x80 then Some 1%nat
  else if val64 <? 0x8000 then Some 2%nat
  else if val64 <? 0x800000 then Some 3%nat
  else if val64 <? 0x80000000 then Some 4%nat
  else if val64 <? 0x8000000000 then Some 5%nat
  else if val64 <? 0x800000000000 then Some 6%nat
  else None.

(** Results: the data and the size. *)
Definition vscp_convertFloatToNormalizedEventData (pd : option (list Z)) (psize : option Z) (value unit sensoridx : Z)
  : option (bool * option (list Z) * option Z) :=
  match pd, psize with
  | Some d, Some _ =>
      let unit := u8 (Z.shiftl (Z.land unit 3) 3) in
      let sensoridx := Z.land sensoridx VSCP_MASK_DATACODING_INDEX in
      let ndigits := decimals (c_str (fmt_g value)) in
      val64 ← double_to_u64 (double_mul value (pow10 ndigits));
      match normalized_size val64 with
      | None => Some (false, Some d, Some 0)
      | Some n =>
          d ← wr d 2 (be n val64);
          d ← wr d 0 [u8 (VSCP_DATACODING_NORMALIZED + unit + sensoridx)];
          d ← wr d 1 [u8 (0x80 + ndigits)];
          Some (true, Some d, Some (Z.of_nat (n + 2)))
      end
  | _, _ => Some (false, pd, psize)
  end.

(** 3.4e38. *)
Definition float_max : Z := 0x47eff933c78cdfad.
Definition float_min : Z := 2 ^ 63 + float_max.

Definition vscp_convertFloatToFloatEventData (pd : option (list Z)) (psize : option Z) (value unit sensoridx : Z)
  : option (bool * option (list Z) * option Z) :=
  match pd, psize with
  | Some d, Some size =>
      if double_lt float_max (promote value) || double_lt (promote value) float_min then Some (false, Some d, Some size)
      else
        d ← wr d 0 [u8 (VSCP_DATACODING_SINGLE + Z.shiftl unit 3 + sensoridx)];
        d ← wr d 1 (le 4 value);
        Some (true, Some d, Some 5)
  | _, _ => Some (false, pd, psize)
  end.

(** The place of the data in a new buffer, and its size without it. *)
Definition measurement_offset (e : vscpEvent) : option nat :=
  if null_data e && (VSCP_CLASS1_MEASUREMENT =? vscp_class e) then Some 0%nat
  else if null_data e && (VSCP_CLASS2_LEVEL1_MEASUREMENT =? vscp_class e) then Some 16%nat
  else None.

Definition vscp_makeFloatMeasurementEvent (fresh : list Z) (pev : option vscpEvent) (value unit sensoridx : Z) : option (bool * option vscpEvent) :=
  match pev with
  | None => Some (false, None)
  | Some e =>
      match measurement_offset e with
      | None => Some (false, Some e)
      | Some offset =>
          let buf := new_bytes fresh (offset + 5) in
          '(ok, d, size) ← vscp_convertFloatToFloatEventData (Some (drop offset buf)) (Some (sizeData e)) value unit sensoridx;
          Some (ok, Some (set_pdata (default 0 size) (Some (take offset buf ++ default [] d)) e))
      end
  end.

Definition vscp_makeStringMeasurementEvent (fresh : list Z) (pev : option vscpEvent) (value unit sensoridx : Z) : option (bool * option vscpEvent) :=
  e ← pev;
  let unit := u8 (Z.shiftl (Z.land unit 3) 3) in
  let sensoridx := Z.land sensoridx 7 in
  let strValue := fmt_f value in
  let size := if 7 <? Z.of_nat (length strValue) then 8 else Z.of_nat (length strValue) + 1 in
  let e := set_pdata size (pdata e) e in
  match measurement_offset e with
  | None => Some (false, Some e)
  | Some offset =>
      d ← wr (new_bytes fresh (offset + Z.to_nat size + 1)) offset [u8 (VSCP_DATACODING_STRING + unit + sensoridx)];
      text ← rdn (strValue ++ [0]) 0 (Z.to_nat size - 1);
      d ← wr d (offset + 1) text;
      Some (true, Some (set_pdata size (Some d) e))
  end.

Definition level2_event (cls typ : Z) (guid : list Z) (d : list Z) (e : vscpEvent) : vscpEvent :=
  Event (head e) 0 (set_timestamp 0 (etime e)) cls (u16 typ) guid (u16 (Z.of_nat (length d))) (Some d) (crc e).

Definition vscp_makeLevel2FloatMeasurementEvent (pev : option vscpEvent) (vscp_type value unit sensoridx zone subzone : Z) : option (bool * option vscpEvent) :=
  match pev with
  | None => Some (false, None)
  | Some e =>
      Some (true, Some (level2_event VSCP_CLASS2_MEASUREMENT_FLOAT vscp_type (GUID e) ([u8 sensoridx; u8 zone; u8 subzone; u8 unit] ++ le 8 value) e))
  end.

(** As many bytes as the whole data has are copied behind the first four. *)
Definition vscp_makeLevel2StringMeasurementEvent (pev : option vscpEvent) (vscp_type value unit sensoridx zone subzone : Z) : option (bool * option vscpEvent) :=
  match pev with
  | None => Some (false, None)
  | Some e =>
      let strData := c_str (fmt_f value) in
      let size := u16 (4 + u16 (Z.of_nat (length strData)) + 1) in
      d ← wr (zeros (Z.to_nat size)) 0 [u8 sensoridx; u8 zone; u8 subzone; u8 unit];
      text ← rdn (strData ++ [0]) 0 (Z.to_nat size);
      d ← wr d 4 text;
      Some (true, Some (level2_event VSCP_CLASS2_MEASUREMENT_STR vscp_type (zeros 16) d e))
  end.

(** ** From level I to level II *)

Definition from_class (c : Z) (e : vscpEvent) : bool := (c <=? vscp_class e) && (vscp_class e <=? c + 4).

Definition set_measurement (cls size : Z) (d : list Z) (e : vscpEvent) : vscpEvent :=
  Event (head e) (obid e) (etime e) cls (vscp_type e) (GUID e) (u16 size) (Some d) (crc e).

(** The first four bytes. *)
Definition coding_front (l : list Z) : option (list Z) :=
  b ← rd l 0; Some [Z.land b VSCP_MASK_DATACODING_INDEX; 0; 0; Z.shiftr (Z.land b VSCP_MASK_DATACODING_UNIT) 3].
Definition zone_front (l : list Z) : option (list Z) :=
  bs ← rdn l 0 3; Some (bs ++ [0]).

(** The swap takes the double as an integer. *)
Definition vscp_convertLevel1MeasurementToLevel2Double (garbage : list Z) (pev : option vscpEvent) : option (bool * option vscpEvent) :=
  match pev with
  | None => Some (false, None)
  | Some e =>
      match pdata e with
      | None => Some (false, Some e)
      | Some l =>
          if negb (vscp_isMeasurement e) then Some (false, Some e)
          else
            '(ok, value) ← vscp_getMeasurementAsDouble garbage (Some 0) (Some e);
            if negb ok then Some (false, Some e)
            else
              let convert front :=
                val64 ← double_to_u64 (default 0 value);
                Some (true, Some (set_measurement VSCP_CLASS2_MEASUREMENT_FLOAT 12 (front ++ le 8 (double_of_Z (VSCP_UINT64_SWAP_ALWAYS val64))) e)) in
              if from_class VSCP_CLASS1_MEASUREMENT e then front ← coding_front l; convert front
              else if from_class VSCP_CLASS1_MEASUREZONE e then convert (zeros 4)
              else if from_class VSCP_CLASS1_MEASUREMENT32 e then convert (zeros 4)
              else if from_class VSCP_CLASS1_MEASUREZONE e then front ← zone_front l; convert front
              else if from_class VSCP_CLASS1_SETVALUEZONE e then front ← zone_front l; convert front
              else Some (false, Some e)
      end
  end.

Definition vscp_convertLevel1MeasurementToLevel2String (pev : option vscpEvent) : option (bool * option vscpEvent) :=
  match pev with
  | None => Some (false, None)
  | Some e =>
      match pdata e with
      | None => Some (false, Some e)
      | Some l =>
          if negb (vscp_isMeasurement e) then Some (false, Some e)
          else
            '(ok, strval) ← vscp_getMeasurementAsString [] (Some e);
            if negb ok then Some (false, Some e)
            else if VSCP_MAX_DATA <? 4 + Z.of_nat (length strval) + 1 then Some (false, Some e)
            else
              let n := Z.of_nat (length strval) in
              let convert front := Some (true, Some (set_measurement VSCP_CLASS2_MEASUREMENT_STR (4 + n) (front ++ strval ++ [0]) e)) in
              if from_class VSCP_CLASS1_MEASUREMENT e then front ← coding_front l; convert front
              else if from_class VSCP_CLASS1_MEASUREMENT64 e then convert (zeros 4)
              else if from_class VSCP_CLASS1_MEASUREMENT32 e then convert (zeros 4)
              else if from_class VSCP_CLASS1_MEASUREZONE e then front ← zone_front l; convert front
              else if from_class VSCP_CLASS1_SETVALUEZONE e then front ← zone_front l; convert front
              else Some (false, Some e)
      end
  end.

(** ** The functions for vscpEventEx *)

(** The event is converted, [f] applied, and the result converted back. *)
Definition via_event (mem : vscpEvent) (f : option vscpEvent -> option (bool * option vscpEvent)) (pex : option vscpEventEx) : option (bool * option vscpEventEx) :=
  match pex with
  | None => Some (false, None)
  | Some x =>
      '(ok, pev) ← vscp_convertEventExToEvent (Some (vscp_newEvent mem default_version)) (Some x);
      if negb ok then Some (false, Some x)
      else
        '(ok, pev) ← f pev;
        if negb ok then Some (false, Some x)
        else '(ok, pex) ← vscp_convertEventToEventEx (Some x) pev; Some (ok, pex)
  end.

(** Here the fields are copied one by one, without CRC and data. *)
Definition header_of (mem : vscpEvent) (x : vscpEventEx) : vscpEvent :=
  let e := vscp_newEvent mem default_version in
  let t := xtime x in
  Event (xhead x) (xobid x)
    (set_second (second t) (set_minute (minute t) (set_hour (hour t) (set_day (day t) (set_month (month t) (set_year (year t)
       (set_timestamp (timestamp t) (etime e))))))))
    (xclass x) (xtype x) (xGUID x) (sizeData e) None (crc e).

Definition vscp_makeFloatMeasurementEventEx (mem : vscpEvent) (fresh : list Z) (pex : option vscpEventEx) (value unit sensoridx : Z) : option (bool * option vscpEventEx) :=
  match pex with
  | None => Some (false, None)
  | Some x =>
      '(ok, pev) ← vscp_makeFloatMeasurementEvent fresh (Some (header_of mem x)) value unit sensoridx;
      if negb ok then Some (false, Some x) else vscp_convertEventToEventEx (Some x) pev
  end.

Definition vscp_makeStringMeasurementEventEx (mem : vscpEvent) (fresh : list Z) (pex : option vscpEventEx) (value unit sensoridx : Z) : option (bool * option vscpEventEx) :=
  via_event mem (fun pev => vscp_makeStringMeasurementEvent fresh pev value unit sensoridx) pex.
Definition vscp_makeLevel2FloatMeasurementEventEx (mem : vscpEvent) (pex : option vscpEventEx) (vscp_type value unit sensoridx zone subzone : Z) : option (bool * option vscpEventEx) :=
  via_event mem (fun pev => vscp_makeLevel2FloatMeasurementEvent pev vscp_type value unit sensoridx zone subzone) pex.
Definition vscp_makeLevel2StringMeasurementEventEx (mem : vscpEvent) (pex : option vscpEventEx) (vscp_type value unit sensoridx zone subzone : Z) : option (bool * option vscpEventEx) :=
  via_event mem (fun pev => vscp_makeLevel2StringMeasurementEvent pev vscp_type value unit sensoridx zone subzone) pex.
Definition vscp_convertLevel1MeasurementToLevel2DoubleEx (mem : vscpEvent) (garbage : list Z) (pex : option vscpEventEx) : option (bool * option vscpEventEx) :=
  via_event mem (vscp_convertLevel1MeasurementToLevel2Double garbage) pex.
Definition vscp_convertLevel1MeasurementToLevel2StringEx (mem : vscpEvent) (pex : option vscpEventEx) : option (bool * option vscpEventEx) :=
  via_event mem vscp_convertLevel1MeasurementToLevel2String pex.

End Floats.

(** ** Bytes of a number *)

Lemma land_field x k m : 0 <= k -> m = 255 * 2 ^ k -> Z.land x m = (x / 2 ^ k mod 256) * 2 ^ k.
Proof.
  intros Hk ->. rewrite <- land_255, <- shiftr_div, <- !Z.shiftl_mul_pow2 by lia. apply Z.bits_inj'. intros i Hi.
  rewrite Z.land_spec, !Z.shiftl_spec by lia. destruct (Z.ltb_spec i k) as [L|L].
  - rewrite !(Z.testbit_neg_r _ (i - k)) by lia. apply andb_false_r.
  - rewrite Z.land_spec, Z.shiftr_spec by lia. f_equal. f_equal. lia.
Qed.

Lemma memory_value_cons b bs : memory_value (b :: bs) = memory_value bs * 256 + b.
Proof. unfold memory_value, of_be. cbn [rev]. rewrite foldl_app. reflexivity. Qed.

Lemma memory_value_bound bs : bytes_ok bs -> 0 <= memory_value bs < 256 ^ Z.of_nat (length bs).
Proof. intros H. unfold memory_value. rewrite <- length_rev. apply of_be_bound, bytes_ok_rev, H. Qed.

Lemma field_first b v : is_u8 b -> (v * 256 + b) / 2 ^ 0 mod 256 = b.
Proof. intros Hb. rewrite Z.pow_0_r, Z.div_1_r. rewrite Z.add_comm, Z.mod_add by lia. apply Z.mod_small. width. Qed.

Lemma field_next b v k : is_u8 b -> 0 <= k -> (v * 256 + b) / 2 ^ (k + 8) = v / 2 ^ k.
Proof.
  intros Hb Hk. replace (2 ^ (k + 8)) with (256 * 2 ^ k) by (rewrite Z.pow_add_r by lia; ring).
  rewrite <- Z.div_div, Z.div_add_l, (Z.div_small b) by (width || (apply Z.pow_pos_nonneg; lia)). f_equal. lia.
Qed.

(** The bytes of a number, lowest first. *)
Fixpoint fields (n : nat) (k x : Z) : list Z :=
  match n with
  | O => []
  | S n => x / 2 ^ k mod 256 :: fields n (k + 8) x
  end.

Lemma fields_next n k v b : is_u8 b -> 0 <= k -> fields n (k + 8) (v * 256 + b) = fields n k v.
Proof.
  intros Hb. revert k. induction n as [|n IH]; intros k Hk; [reflexivity|]. cbn [fields]. rewrite field_next, IH by lia || assumption. reflexivity.
Qed.

Lemma fields_memory bs : bytes_ok bs -> fields (length bs) 0 (memory_value bs) = bs.
Proof.
  induction 1 as [|b bs Hb _ IH]; [reflexivity|]. cbn [length fields]. rewrite memory_value_cons, field_first by exact Hb.
  rewrite (fields_next _ 0) by lia || exact Hb. f_equal. exact IH.
Qed.

Ltac places F := cbn [length fields] in F; repeat match type of F with context [Z.add ?a 8] => let c := eval vm_compute in (Z.add a 8) in change (Z.add a 8) with c in F end.
Ltac sums := repeat match goal with
  | |- context [2 ^ (Z.add ?a ?b)] => let c := eval vm_compute in (Z.add a b) in change (Z.add a b) with c
  | |- context [2 ^ (Z.sub ?a ?b)] => let c := eval vm_compute in (Z.sub a b) in change (Z.sub a b) with c end.
Ltac apart H := repeat (let B := fresh "B" in assert (B := List.Forall_inv H); apply List.Forall_inv_tail in H).

Lemma shift_down f k d : 0 <= d <= k -> Z.shiftr (f * 2 ^ k) d = f * 2 ^ (k - d).
Proof.
  intros H. rewrite shiftr_div by lia. replace (f * 2 ^ k) with (f * 2 ^ (k - d) * 2 ^ d) by (rewrite <- Z.mul_assoc, <- Z.pow_add_r by lia; do 2 f_equal; lia).
  apply Z.div_mul, Z.pow_nonzero; lia.
Qed.

Lemma shift_up f k d : 0 <= d -> 0 <= k -> Z.shiftl (f * 2 ^ k) d = f * 2 ^ (k + d).
Proof. intros. rewrite Z.shiftl_mul_pow2, Z.pow_add_r by lia. ring. Qed.

(** Bytes that are or-ed from the highest on. *)
Lemma lor_byte a f k k' : k' = k + 8 -> 0 <= k -> is_u8 f -> Z.lor (a * 2 ^ k') (f * 2 ^ k) = (a * 256 + f) * 2 ^ k.
Proof.
  intros -> Hk Hf. unfold is_u8 in Hf. rewrite (lor_add_disjoint (k + 8)); [rewrite Z.pow_add_r by lia; ring|lia|]. rewrite Z.pow_add_r by lia.
  assert (0 < 2 ^ k) by (apply Z.pow_pos_nonneg; lia). nia.
Qed.

Lemma swap16_bytes a b : is_u8 a -> is_u8 b -> VSCP_UINT16_SWAP_ALWAYS (memory_value [a; b]) = of_be [a; b].
Proof.
  intros Ha Hb. assert (F := fields_memory [a; b] ltac:(repeat first [apply List.Forall_nil | apply List.Forall_cons; [assumption|]])). unfold VSCP_UINT16_SWAP_ALWAYS. places F.
  rewrite (land_field _ 0 0xff), (land_field _ 8 0xff00) by lia || reflexivity. injection F as Fa Fb. rewrite Fa, Fb. rewrite shift_up, shift_down by lia. sums.
  rewrite (lor_byte a b 0 8) by (reflexivity || discriminate || assumption). unfold of_be. cbn [foldl]. change (2 ^ 0) with 1. ring.
Qed.

Lemma swap32_bytes a b c d : bytes_ok [a; b; c; d] -> VSCP_UINT32_SWAP_ALWAYS (memory_value [a; b; c; d]) = of_be [a; b; c; d].
Proof.
  intros H. assert (F := fields_memory _ H). apart H.
  unfold VSCP_UINT32_SWAP_ALWAYS. places F.
  rewrite (land_field _ 0 0xff), (land_field _ 8 0xff00), (land_field _ 16 0xff0000), (land_field _ 24 0xff000000) by lia || reflexivity.
  injection F as Fa Fb Fc Fd. rewrite Fa, Fb, Fc, Fd. rewrite !shift_up, !shift_down by lia. sums.
  rewrite (lor_byte a b 16 24), (lor_byte _ c 8 16), (lor_byte _ d 0 8) by (reflexivity || discriminate || assumption). unfold of_be. cbn [foldl]. change (2 ^ 0) with 1. ring.
Qed.

Lemma swap64_bytes a b c d e f g h : bytes_ok [a; b; c; d; e; f; g; h] ->
  VSCP_UINT64_SWAP_ALWAYS (memory_value [a; b; c; d; e; f; g; h]) = of_be [a; b; c; d; e; f; g; h].
Proof.
  intros H. assert (F := fields_memory _ H). apart H. unfold VSCP_UINT64_SWAP_ALWAYS. places F.
  rewrite (land_field _ 0 0xff), (land_field _ 8 0xff00), (land_field _ 16 0xff0000), (land_field _ 24 0xff000000), (land_field _ 32 0xff00000000),
    (land_field _ 40 0xff0000000000), (land_field _ 48 0xff000000000000), (land_field _ 56 0xff00000000000000) by lia || reflexivity.
  injection F as Fa Fb Fc Fd Fe Ff Fg Fh. rewrite Fa, Fb, Fc, Fd, Fe, Ff, Fg, Fh. rewrite !shift_up, !shift_down by lia. sums.
  rewrite (lor_byte a b 48 56), (lor_byte _ c 40 48), (lor_byte _ d 32 40), (lor_byte _ e 24 32), (lor_byte _ f 16 24), (lor_byte _ g 8 16), (lor_byte _ h 0 8) by (reflexivity || discriminate || assumption).
  unfold of_be. cbn [foldl]. change (2 ^ 0) with 1. ring.
Qed.

Lemma shifted_field x k d m : 0 <= d -> 0 <= k -> m = 255 * 2 ^ k -> Z.land (Z.shiftr x d) m = (x / 2 ^ (k + d) mod 256) * 2 ^ k.
Proof. intros Hd Hk Hm. rewrite (land_field _ k) by assumption. rewrite shiftr_div, Z.div_div by (lia || (apply Z.pow_nonzero; lia) || (apply Z.pow_pos_nonneg; lia)). rewrite <- Z.pow_add_r by lia. do 4 f_equal. lia. Qed.

Lemma raised_field x k d m : 0 <= d <= k -> m = 255 * 2 ^ k -> Z.land (Z.shiftl x d) m = (x / 2 ^ (k - d) mod 256) * 2 ^ k.
Proof.
  intros Hd Hm. rewrite (land_field _ k) by (assumption || lia). rewrite Z.shiftl_mul_pow2 by lia. replace (2 ^ k) with (2 ^ (k - d) * 2 ^ d) at 1 by (rewrite <- Z.pow_add_r by lia; f_equal; lia).
  rewrite Z.div_mul_cancel_r by (apply Z.pow_nonzero; lia). reflexivity.
Qed.

Lemma swap8_bytes x a b c d e f g h : bytes_ok [a; b; c; d; e; f; g; h] -> u64 x = memory_value [a; b; c; d; e; f; g; h] ->
  Swap8Bytes x = of_be [a; b; c; d; e; f; g; h].
Proof.
  intros H Hx. assert (F := fields_memory _ H). rewrite <- Hx in F. apart H. unfold Swap8Bytes. places F.
  assert (U : forall k, 0 <= k <= 56 -> u64 x / 2 ^ k mod 256 = x / 2 ^ k mod 256).
  { intros k Hk. unfold u64. rewrite (Z.div_mod x (2 ^ 64)) at 2 by lia.
    replace (2 ^ 64 * (x / 2 ^ 64) + x mod 2 ^ 64) with (x mod 2 ^ 64 + x / 2 ^ 64 * 2 ^ (56 - k) * 256 * 2 ^ k)
      by (change 256 with (2 ^ 8); rewrite <- !Z.mul_assoc, <- !Z.pow_add_r by lia; replace (56 - k + (8 + k)) with 64 by lia; ring).
    rewrite Z.div_add, Z.mod_add by (lia || (apply Z.pow_nonzero; lia)). reflexivity. }
  rewrite !U in F by lia.
  rewrite (shifted_field x 0 56 0xff), (shifted_field x 8 40 0xff00), (shifted_field x 16 24 0xff0000), (shifted_field x 24 8 0xff000000),
    (raised_field x 32 8 0xff00000000), (raised_field x 40 24 0xff0000000000), (raised_field x 48 40 0xff000000000000), (raised_field x 56 56 0xff00000000000000) by lia || reflexivity.
  sums.
  injection F as Fa Fb Fc Fd Fe Ff Fg Fh. rewrite Fa, Fb, Fc, Fd, Fe, Ff, Fg, Fh.
  rewrite <- !Z.lor_assoc. rewrite (Z.lor_comm (h * _)), (Z.lor_comm (g * _)), (Z.lor_comm (f * _)), (Z.lor_comm (e * _)), (Z.lor_comm (d * _)), (Z.lor_comm (c * _)), (Z.lor_comm (b * _)).
  rewrite (lor_byte a b 48 56), (lor_byte _ c 40 48), (lor_byte _ d 32 40), (lor_byte _ e 24 32), (lor_byte _ f 16 24), (lor_byte _ g 8 16), (lor_byte _ h 0 8) by (reflexivity || discriminate || assumption).
  unfold of_be. cbn [foldl]. change (2 ^ 0) with 1. ring.
Qed.

(** ** The normalized coding *)

Lemma wrap_signed M x v : 0 < M -> - M <= v < M -> (x - v) mod (2 * M) = 0 -> (x + M) mod (2 * M) - M = v.
Proof.
  intros HM Hv Hx. apply Z.mod_divide in Hx as [k Hk]; [|lia]. replace (x + M) with (v + M + k * (2 * M)) by lia.
  rewrite Z.mod_add, Z.mod_small by lia. lia.
Qed.

Lemma signed_bound b bs : bytes_ok (b :: bs) -> - (128 * 256 ^ Z.of_nat (length bs)) <= signed (b :: bs) < 128 * 256 ^ Z.of_nat (length bs).
Proof.
  intros H. assert (B := of_be_bound bs (List.Forall_inv_tail H)). assert (Hb := List.Forall_inv H). unfold is_u8 in Hb.
  unfold signed. rewrite of_be_cons. cbn [length]. rewrite Nat2Z.inj_succ, Z.pow_succ_r by lia. set (p := 256 ^ Z.of_nat (length bs)) in *.
  destruct (128 <=? b) eqn:E; nia.
Qed.

(** Bytes in front of a number that repeat its sign do not change it. *)
Definition extended (n : nat) (b : Z) (bs : list Z) : list Z := replicate n (if negb (Z.land b 0x80 =? 0) then 0xff else 0) ++ b :: bs.

Lemma extended_signed n b bs : bytes_ok (b :: bs) ->
  (of_be (extended n b bs) - signed (b :: bs)) mod 256 ^ Z.of_nat (n + length (b :: bs)) = 0.
Proof.
  intros H. assert (Hb := List.Forall_inv H). unfold extended. rewrite land_128 by exact Hb. unfold signed. destruct (128 <=? b).
  - assert (E : of_be (replicate n 255 ++ b :: bs) = of_be (b :: bs) + (256 ^ Z.of_nat n - 1) * 256 ^ Z.of_nat (length (b :: bs))).
    { induction n as [|n IH]; [cbn [replicate app]; rewrite Z.pow_0_r; lia|]. cbn [replicate app]. rewrite of_be_cons, IH, length_app, length_replicate, Nat2Z.inj_add, Z.pow_add_r, Nat2Z.inj_succ, Z.pow_succ_r by lia. ring. }
    rewrite E, Nat2Z.inj_add, Z.pow_add_r by lia.
    match goal with |- ?x mod ?y = 0 => replace x with (1 * y) by ring end. apply Z.mod_mul.
    apply Z.neq_mul_0. split; apply Z.pow_nonzero; lia.
  - assert (E : of_be (replicate n 0 ++ b :: bs) = of_be (b :: bs)) by (induction n as [|n IH]; [reflexivity|cbn [replicate app]; rewrite of_be_cons, IH; lia]).
    rewrite E, Z.sub_diag. apply Z.mod_0_l, Z.pow_nonzero; lia.
Qed.

Lemma extended_ok n b bs : bytes_ok (b :: bs) -> bytes_ok (extended n b bs).
Proof.
  intros H. apply Forall_app. split; [|exact H]. apply Forall_replicate. destruct (negb _); width.
Qed.

(** The three widths. *)
Lemma s32_extended n b bs : bytes_ok (b :: bs) -> (n + length (b :: bs) = 4)%nat -> s32 (VSCP_UINT32_SWAP_ALWAYS (memory_value (extended n b bs))) = signed (b :: bs).
Proof.
  intros H L. assert (X := extended_signed n b bs H). rewrite L in X. assert (O := extended_ok n b bs H). assert (S := signed_bound b bs H).
  assert (Le : length (extended n b bs) = 4%nat) by (unfold extended; rewrite length_app, length_replicate; exact L).
  destruct (extended n b bs) as [|b0 [|b1 [|b2 [|b3 [|]]]]]; try discriminate. rewrite swap32_bytes by exact O.
  change (s32 ?x) with ((x + 2 ^ 31) mod (2 * 2 ^ 31) - 2 ^ 31). apply wrap_signed; [lia| |exact X].
  cbn [length] in *. assert (256 ^ Z.of_nat (length bs) <= 256 ^ 3) by (apply Z.pow_le_mono_r; lia). lia.
Qed.

Lemma s64_extended n b bs : bytes_ok (b :: bs) -> (n + length (b :: bs) = 8)%nat -> s64 (Swap8Bytes (s64 (memory_value (extended n b bs)))) = signed (b :: bs).
Proof.
  intros H L. assert (X := extended_signed n b bs H). rewrite L in X. assert (O := extended_ok n b bs H). assert (S := signed_bound b bs H).
  assert (Le : length (extended n b bs) = 8%nat) by (unfold extended; rewrite length_app, length_replicate; exact L).
  assert (M := memory_value_bound _ O). rewrite Le in M.
  assert (U : u64 (s64 (memory_value (extended n b bs))) = memory_value (extended n b bs)).
  { unfold u64, s64. change (256 ^ Z.of_nat 8) with (2 ^ 64) in M. rewrite Zminus_mod_idemp_l. 
    replace (memory_value (extended n b bs) + 2 ^ 63 - 2 ^ 63) with (memory_value (extended n b bs)) by lia. apply Z.mod_small, M. }
  destruct (extended n b bs) as [|b0 [|b1 [|b2 [|b3 [|b4 [|b5 [|b6 [|b7 [|]]]]]]]]]; try discriminate. rewrite (swap8_bytes _ b0 b1 b2 b3 b4 b5 b6 b7 O U).
  change (s64 ?x) with ((x + 2 ^ 63) mod (2 * 2 ^ 63) - 2 ^ 63). apply wrap_signed; [lia| |exact X].
  cbn [length] in *. assert (256 ^ Z.of_nat (length bs) <= 256 ^ 7) by (apply Z.pow_le_mono_r; lia). lia.
Qed.

Lemma s16_signed a b : bytes_ok [a; b] -> s16 (VSCP_UINT16_SWAP_ALWAYS (memory_value [a; b])) = signed [a; b].
Proof.
  intros H. rewrite swap16_bytes by (apply (List.Forall_inv H) || apply (List.Forall_inv (List.Forall_inv_tail H))).
  change (s16 ?x) with ((x + 2 ^ 15) mod (2 * 2 ^ 15) - 2 ^ 15). apply wrap_signed; [lia|apply (signed_bound a [b] H)|apply (extended_signed 0 a [b] H)].
Qed.

Lemma s8_signed a : is_u8 a -> s8 (memory_value [a]) = signed [a].
Proof.
  intros H. assert (H' : bytes_ok [a]) by (apply List.Forall_cons; [exact H|apply List.Forall_nil]).
  change (s8 ?x) with ((x + 2 ^ 7) mod (2 * 2 ^ 7) - 2 ^ 7). apply wrap_signed; [lia|apply (signed_bound a [] H')|apply (extended_signed 0 a [] H')].
Qed.

(** The normalized coding, through its byte buffers, casts and swaps, is the two's
    complement number that the bytes behind the exponent are, most significant byte first, for one to six
    bytes, divided by or multiplied with the power of ten. *)
Theorem getDataCodingNormalizedInteger_spec (pow10 : Z -> Z) c d bs rest :
  bytes_ok bs -> (1 <= length bs <= 6)%nat -> is_u8 d ->
  vscp_getDataCodingNormalizedInteger pow10 (Some (c :: d :: bs ++ rest)) (Z.of_nat (length bs) + 2)
  = Some (if 128 <=? d then double_div (double_of_Z (signed bs)) (pow10 (d - 128)) else double_mul (double_of_Z (signed bs)) (pow10 d)).
Proof.
  intros H L Hd. unfold vscp_getDataCodingNormalizedInteger.
  assert (G : (8 <? Z.of_nat (length bs) + 2) || (Z.of_nat (length bs) + 2 <? 2) = false) by lia. rewrite G. clear G.
  change (rd (c :: d :: bs ++ rest) 1) with (Some d). cbn [mbind option_bind].
  destruct bs as [|b bs]; [cbn [length] in L; lia|]. change (rd (c :: d :: (b :: bs) ++ rest) 2) with (Some b). cbn [mbind option_bind].
  assert (R : rdn (c :: d :: (b :: bs) ++ rest) 2 (Z.to_nat (Z.of_nat (length (b :: bs)) + 2 - 2)) = Some (b :: bs)).
  { apply (rdn_app [c; d] (b :: bs) rest); [reflexivity|lia]. }
  rewrite R. cbn [mbind option_bind]. clear R.
  assert (V : (match length (b :: bs) with
    | 1%nat => s8 (memory_value (b :: bs))
    | 2%nat => s16 (VSCP_UINT16_SWAP_ALWAYS (memory_value (b :: bs)))
    | 3%nat => s32 (VSCP_UINT32_SWAP_ALWAYS (memory_value (extended 1 b bs)))
    | 4%nat => s32 (VSCP_UINT32_SWAP_ALWAYS (memory_value (b :: bs)))
    | 5%nat => s64 (Swap8Bytes (s64 (memory_value (extended 3 b bs))))
    | 6%nat => s64 (Swap8Bytes (s64 (memory_value (extended 2 b bs))))
    | _ => 0 end) = signed (b :: bs)).
  { destruct bs as [|b1 [|b2 [|b3 [|b4 [|b5 [|]]]]]]; cbn [length] in L |- *; try lia.
    - apply s8_signed, (List.Forall_inv H).
    - apply s16_signed, H.
    - apply s32_extended; [exact H|reflexivity].
    - apply (s32_extended 0); [exact H|reflexivity].
    - apply s64_extended; [exact H|reflexivity].
    - apply s64_extended; [exact H|reflexivity]. }
  unfold extended in V. rewrite V. clear V. rewrite land_128 by exact Hd. change 0x7f with (2 ^ 7 - 1). rewrite land_mask by lia. unfold is_u8 in Hd.
  destruct (Z.leb_spec 128 d); [replace (d mod 2 ^ 7) with (d - 128) by (apply (Z.mod_unique_pos _ _ 1); lia)|rewrite Z.mod_small by lia]; reflexivity.
Qed.

(** ** The values of measurement events *)

(** What is relied on of printf and std::stod: integers of at most 53 bits are printed in
    full by %.0lf, and read again. *)
Class Numerals (fmt_0 : Z -> list Z) (stod : list Z -> option Z) : Prop := {
  integer_read z : - 2 ^ 53 < z < 2 ^ 53 -> stod (fmt_0 (double_of_Z z)) = Some (double_of_Z z)
}.

(** The classes with codings, and the number of bytes in front of the coding byte: a
    GUID, index, zone and sub zone, or all of them. *)
Definition front_size (cls : Z) : option nat :=
  if one_of cls [VSCP_CLASS1_MEASUREMENT; VSCP_CLASS1_DATA] then Some 0%nat
  else if one_of cls [VSCP_CLASS2_LEVEL1_MEASUREMENT] then Some 16%nat
  else if one_of cls [VSCP_CLASS1_MEASUREZONE; VSCP_CLASS1_SETVALUEZONE] then Some 3%nat
  else if one_of cls [VSCP_CLASS2_LEVEL1_MEASUREZONE; VSCP_CLASS2_LEVEL1_SETVALUEZONE] then Some 19%nat
  else None.

(** Those of which vscp_getMeasurementAsDouble gives the value, as its header says. *)
Definition has_double (cls : Z) : bool :=
  one_of cls [VSCP_CLASS1_MEASUREMENT; VSCP_CLASS1_DATA; VSCP_CLASS2_LEVEL1_MEASUREMENT; VSCP_CLASS1_MEASUREZONE; VSCP_CLASS1_SETVALUEZONE].

Lemma front_cases cls n : front_size cls = Some n -> (cls, n) ∈ [(10, 0%nat); (15, 0%nat); (522, 16%nat); (65, 3%nat); (85, 3%nat); (577, 19%nat); (597, 19%nat)].
Proof.
  unfold front_size, one_of. cbn [existsb]. rewrite !orb_false_r. intros F. apply list_elem_of_In.
  repeat match type of F with context [?a =? ?b] => destruct (Z.eqb_spec a b) as [<-|_]; cbn [orb] in F; [injection F as <-; cbn; tauto|] end. discriminate.
Qed.

Ltac eval_classes :=
  repeat match goal with |- context [one_of ?a ?l] => let r := eval vm_compute in (one_of a l) in change (one_of a l) with r end;
  repeat match goal with
  | |- context [Z.eqb ?a ?b] => let r := eval vm_compute in (Z.eqb a b) in match r with true => idtac | false => idtac end; change (Z.eqb a b) with r
  | |- context [Z.leb ?a ?b] => let r := eval vm_compute in (Z.leb a b) in match r with true => idtac | false => idtac end; change (Z.leb a b) with r
  end; cbv beta iota zeta.

Section Values.
Context (fmt_f fmt_g fmt_0 : Z -> list Z) (stod : list Z -> option Z) (pow10 : Z -> Z).

Notation getMeasurementAsString := (vscp_getMeasurementAsString fmt_f fmt_g fmt_0 pow10).
Notation getMeasurementAsDouble := (vscp_getMeasurementAsDouble fmt_f fmt_g fmt_0 stod pow10).
Notation text := (coded_text fmt_f fmt_g fmt_0 pow10).

Lemma coded_string e pre c bs strValue : front_size (vscp_class e) = Some (length pre) ->
  pdata e = Some (pre ++ c :: bs) -> sizeData e = Z.of_nat (length pre + 1 + length bs) -> bs <> [] ->
  getMeasurementAsString strValue (Some e) = (s ← text e (pre ++ c :: bs) (length pre); Some (true, s)).
Proof.
  intros F P S N. apply front_cases in F. unfold vscp_getMeasurementAsString. rewrite P. destruct bs as [|b bs]; [congruence|]. clear N. cbn [length] in S.
  destruct e as [h o t cls typ g m d k]. cbn [vscp_class sizeData pdata] in *. 
  repeat (apply elem_of_cons in F as [F|F]; [injection F as -> L; rewrite L in *; eval_classes|]); [..|exfalso; revert F; apply not_elem_of_nil].
  all: rewrite (proj2 (Z.ltb_ge _ 2)) by (clear - S; lia).
  all: reflexivity.
Qed.

Lemma coding_kind c : Z.land 0x07 (Z.shiftr c 5) = c / 32 mod 8.
Proof. rewrite land_mask_l. change 0x07 with (2 ^ 3 - 1). rewrite land_mask, shiftr_div by lia. reflexivity. Qed.

Lemma coded_number e pre c bs : sizeData e = Z.of_nat (length pre + 1 + length bs) -> is_u16 (sizeData e) -> (1 <= length bs <= 7)%nat -> bytes_ok bs ->
  c / 32 mod 8 = 3 -> text e (pre ++ c :: bs) (length pre) = Some (fmt_0 (double_of_Z (signed bs))).
Proof.
  intros S U L H K. unfold coded_text. rewrite S. unfold rd. rewrite list_lookup_middle by reflexivity. cbn [mbind option_bind].
  rewrite coding_kind, K. rewrite drop_app_length. destruct bs as [|b bs]; [cbn [length] in L; lia|].
  replace (u8 (Z.of_nat (length pre + 1 + length (b :: bs)) - Z.of_nat (length pre))) with (Z.of_nat (Datatypes.S (length (b :: bs))))
    by (rewrite u8_id by (unfold is_u8; cbn [length] in *; lia); lia).
  cbn [length] in *. rewrite decode_integer by (assumption || lia). reflexivity.
Qed.

Lemma coded_decimal e pre c d bs : sizeData e = Z.of_nat (length pre + 2 + length bs) -> (1 <= length bs <= 6)%nat -> bytes_ok bs -> is_u8 d ->
  c / 32 mod 8 = 4 -> text e (pre ++ c :: d :: bs) (length pre)
  = Some (fmt_f (if 128 <=? d then double_div (double_of_Z (signed bs)) (pow10 (d - 128)) else double_mul (double_of_Z (signed bs)) (pow10 d))).
Proof.
  intros S L H Hd K. unfold coded_text. rewrite S. unfold rd. rewrite list_lookup_middle by reflexivity. cbn [mbind option_bind].
  rewrite coding_kind, K. rewrite drop_app_length.
  replace (u8 (Z.of_nat (length pre + 2 + length bs) - Z.of_nat (length pre))) with (Z.of_nat (length bs) + 2) by (rewrite u8_id by (unfold is_u8; lia); lia).
  rewrite <- (app_nil_r bs) at 1. rewrite getDataCodingNormalizedInteger_spec by assumption. reflexivity.
Qed.

Lemma coded_double garbage value e pre c bs s : front_size (vscp_class e) = Some (length pre) -> has_double (vscp_class e) = true ->
  pdata e = Some (pre ++ c :: bs) -> sizeData e = Z.of_nat (length pre + 1 + length bs) -> bs <> [] ->
  text e (pre ++ c :: bs) (length pre) = Some s ->
  getMeasurementAsDouble garbage (Some value) (Some e) = Some (match stod s with Some v => (true, Some v) | None => (false, Some value) end).
Proof.
  intros F O P S N T. unfold vscp_getMeasurementAsDouble, measurement_double. unfold has_double in O.
  rewrite O, (coded_string e pre c bs []) by assumption. rewrite T. reflexivity.
Qed.

Lemma coded_no_double garbage value e n : front_size (vscp_class e) = Some n -> has_double (vscp_class e) = false ->
  getMeasurementAsDouble garbage (Some value) (Some e) = Some (false, Some value).
Proof.
  intros F O. unfold vscp_getMeasurementAsDouble, measurement_double. unfold has_double in O. rewrite O. apply front_cases in F.
  destruct e as [h o t cls typ g m d k]. cbn [vscp_class] in *.
  repeat (apply elem_of_cons in F as [F|F]; [injection F as -> _; try discriminate O; reflexivity|]). exfalso. revert F. apply not_elem_of_nil.
Qed.

(** The normalized integer of a coding: the digits, divided by or multiplied with the
    power of ten of the exponent. *)
Definition scaled (d : Z) (bs : list Z) : Z :=
  if 128 <=? d then double_div (double_of_Z (signed bs)) (pow10 (d - 128)) else double_mul (double_of_Z (signed bs)) (pow10 d).

(** C38: A measurement with an integer coding of one to seven bytes, or a normalized one of
    one to six, in any of the seven classes with codings, alone or behind a zone, a
    GUID or both.  The text is the printed number (%.0lf and %lf), the most significant
    byte first, for the normalized coding divided by or multiplied with its power of
    ten.  The double, for the classes that have one, is the integer if it has at most 53
    bits, and for the normalized coding what std::stod reads of that text, with the
    digits that %lf prints; the two level II classes with zones have none, and the call fails. *)
Theorem measurement_values garbage value e pre c bs d strValue : Numerals fmt_0 stod ->
  front_size (vscp_class e) = Some (length pre) -> is_u16 (sizeData e) -> bytes_ok bs -> is_u8 d ->
  (c / 32 mod 8 = 3 -> pdata e = Some (pre ++ c :: bs) -> sizeData e = Z.of_nat (length pre + 1 + length bs) -> (1 <= length bs <= 7)%nat ->
     getMeasurementAsString strValue (Some e) = Some (true, fmt_0 (double_of_Z (signed bs)))
     /\ (- 2 ^ 53 < signed bs < 2 ^ 53 -> getMeasurementAsDouble garbage (Some value) (Some e)
         = Some (if has_double (vscp_class e) then (true, Some (double_of_Z (signed bs))) else (false, Some value))))
  /\ (c / 32 mod 8 = 4 -> pdata e = Some (pre ++ c :: d :: bs) -> sizeData e = Z.of_nat (length pre + 2 + length bs) -> (1 <= length bs <= 6)%nat ->
     getMeasurementAsString strValue (Some e) = Some (true, fmt_f (scaled d bs))
     /\ getMeasurementAsDouble garbage (Some value) (Some e)
        = Some (match (if has_double (vscp_class e) then stod (fmt_f (scaled d bs)) else None) with Some v => (true, Some v) | None => (false, Some value) end)).
Proof.
  intros HN F U H Hd. split; intros K P S L.
  - assert (N : bs <> []) by (destruct bs; [cbn [length] in L; lia|discriminate]). assert (T := coded_number e pre c bs S U L H K).
    split; [rewrite (coded_string e pre c bs) by assumption; rewrite T; reflexivity|]. intros B.
    destruct (has_double _) eqn:O; [|exact (coded_no_double _ _ _ _ F O)].
    rewrite (coded_double garbage value e pre c bs _ F O P S N T), integer_read by exact B. reflexivity.
  - assert (S' : sizeData e = Z.of_nat (length pre + 1 + length (d :: bs))) by (rewrite S; cbn [length]; lia).
    assert (T := coded_decimal e pre c d bs S L H Hd K).
    split; [rewrite (coded_string e pre c (d :: bs)) by (assumption || discriminate); rewrite T; reflexivity|].
    destruct (has_double _) eqn:O; [|exact (coded_no_double _ _ _ _ F O)].
    rewrite (coded_double garbage value e pre c (d :: bs) _ F O P S') by (discriminate || exact T). reflexivity.
Qed.

End Values.

(** ** Events that are made, and read again *)

Lemma memory_le n x : memory_value (le n x) = x mod 256 ^ Z.of_nat n.
Proof. unfold memory_value, le. rewrite rev_involutive. apply of_be_be. Qed.

(** The number with the bytes of [x] in the opposite order. *)
Definition swapped (n : nat) (x : Z) : Z := of_be (le n x).

Lemma swap64_le x : is_u64 x -> VSCP_UINT64_SWAP_ALWAYS x = swapped 8 x.
Proof.
  intros Hx. assert (M := memory_le 8 x). change (256 ^ Z.of_nat 8) with (2 ^ 64) in M. rewrite Z.mod_small in M by exact Hx.
  assert (O := le_ok 8 x). assert (L := length_le 8 x). unfold swapped.
  destruct (le 8 x) as [|b0 [|b1 [|b2 [|b3 [|b4 [|b5 [|b6 [|b7 [|]]]]]]]]]; try discriminate L. rewrite <- M. apply swap64_bytes, O.
Qed.

Lemma swap32_le x : is_u32 x -> VSCP_UINT32_SWAP_ALWAYS x = swapped 4 x.
Proof.
  intros Hx. assert (M := memory_le 4 x). change (256 ^ Z.of_nat 4) with (2 ^ 32) in M. rewrite Z.mod_small in M by exact Hx.
  assert (O := le_ok 4 x). assert (L := length_le 4 x). unfold swapped.
  destruct (le 4 x) as [|b0 [|b1 [|b2 [|b3 [|]]]]]; try discriminate L. rewrite <- M. apply swap32_bytes, O.
Qed.

(** A float measurement is written lowest byte first and read highest byte first:
    what comes back is the float with its bytes swapped. *)
Theorem makeFloatMeasurement_swapped fresh e value unit sensoridx :
  pdata e = None -> vscp_class e = VSCP_CLASS1_MEASUREMENT -> is_u32 value ->
  double_lt float_max (promote value) = false -> double_lt (promote value) float_min = false ->
  exists e', vscp_makeFloatMeasurementEvent fresh (Some e) value unit sensoridx = Some (true, Some e')
    /\ pdata e' = Some (u8 (VSCP_DATACODING_SINGLE + Z.shiftl unit 3 + sensoridx) :: le 4 value) /\ sizeData e' = 5
    /\ vscp_getMeasurementAsFloat (pdata e') (sizeData e') = Some (swapped 4 value).
Proof.
  intros P C Hv M1 M2. unfold vscp_makeFloatMeasurementEvent, measurement_offset, null_data. rewrite P, C. cbn [bool_decide].
  change (bool_decide _ && (VSCP_CLASS1_MEASUREMENT =? VSCP_CLASS1_MEASUREMENT)) with true. cbv beta iota.
  assert (L : length (new_bytes fresh 5) = 5%nat) by (unfold new_bytes; rewrite length_take, length_app; unfold zeros; rewrite length_replicate; lia).
  cbn [Nat.add]. destruct (new_bytes fresh 5) as [|x0 [|x1 [|x2 [|x3 [|x4 [|]]]]]]; try discriminate L.
  unfold vscp_convertFloatToFloatEventData. rewrite M1, M2. cbn [orb].
  assert (W1 : forall c, wr (drop 0 [x0; x1; x2; x3; x4]) 0 [c] = Some [c; x1; x2; x3; x4]) by reflexivity. rewrite W1. cbn [mbind option_bind].
  assert (W2 : forall c, wr [c; x1; x2; x3; x4] 1 (le 4 value) = Some (c :: le 4 value)) by (intros c; unfold wr; rewrite length_le; cbn [Nat.leb Nat.add length take drop]; rewrite app_nil_r; reflexivity).
  rewrite W2. cbn [mbind option_bind]. change (default 0 (Some 5)) with 5. change (default [] (Some ?x)) with x. cbn [take app].
  eexists. split; [reflexivity|]. cbn [set_pdata pdata sizeData]. split; [reflexivity|]. split; [reflexivity|]. change (u16 5) with 5. unfold vscp_getMeasurementAsFloat. change (5 <=? 5) with true. cbv iota.
  assert (R : forall c, rdn (c :: le 4 value) 1 4 = Some (le 4 value)) by (intros c; change (c :: le 4 value) with ([c] ++ le 4 value); rewrite <- (app_nil_r (le 4 value)) at 1; apply (rdn_app [c]); [reflexivity|rewrite length_le; reflexivity]).
  rewrite R. cbn [mbind option_bind]. rewrite memory_le. change (256 ^ Z.of_nat 4) with (2 ^ 32). rewrite Z.mod_small by exact Hv. rewrite swap32_le by exact Hv. reflexivity.
Qed.

Lemma makeFloatMeasurement_swapped_witness :
  exists e', vscp_makeFloatMeasurementEvent [] (Some (set_pdata 0 None sample_event)) 0x41c80000 1 2 = Some (true, Some e')
    /\ pdata e' = Some (u8 (VSCP_DATACODING_SINGLE + Z.shiftl 1 3 + 2) :: le 4 0x41c80000) /\ sizeData e' = 5
    /\ vscp_getMeasurementAsFloat (pdata e') (sizeData e') = Some (swapped 4 0x41c80000).
Proof. apply (makeFloatMeasurement_swapped [] (set_pdata 0 None sample_event)); [reflexivity|reflexivity|split; [discriminate|reflexivity]|vm_compute; reflexivity|vm_compute; reflexivity]. Defined.

(** The loop that is to turn the bytes around copies the first four over the others. *)
Lemma turn_around_mirrors a b c d e f g h : turn_around [a; b; c; d; e; f; g; h] = [a; b; c; d; d; c; b; a].
Proof. reflexivity. Qed.

Section Made.
Context (fmt_f fmt_g fmt_0 : Z -> list Z) (stod : list Z -> option Z) (pow10 : Z -> Z).

(** An event of the class for doubles gives back any double, a NaN too, with its unit and sensor index;
    the getters of the zone and of the sub zone both give the sub zone. *)
Theorem level2_double_roundtrip garbage old e typ value unit sensoridx zone subzone : is_u64 value ->
  is_u8 unit -> is_u8 sensoridx -> is_u8 zone -> is_u8 subzone ->
  exists e', vscp_makeLevel2FloatMeasurementEvent (Some e) typ value unit sensoridx zone subzone = Some (true, Some e')
    /\ vscp_getMeasurementAsDouble fmt_f fmt_g fmt_0 stod pow10 garbage (Some old) (Some e') = Some (true, Some value)
    /\ vscp_getMeasurementUnit e' = Some unit /\ vscp_getMeasurementSensorIndex (Some e') = Some sensoridx
    /\ vscp_getMeasurementZone (Some e') = Some subzone /\ vscp_getMeasurementSubZone (Some e') = Some subzone.
Proof.
  intros Hv Hu Hi Hz Hs. eexists. split; [reflexivity|].
  rewrite (u8_id sensoridx), (u8_id zone), (u8_id subzone), (u8_id unit) by assumption. split; [|repeat split; reflexivity].
  unfold vscp_getMeasurementAsDouble, measurement_double, level2_event. cbn [vscp_class pdata]. eval_classes. cbn [mbind option_bind].
  rewrite <- (app_nil_r (le 8 value)). rewrite (rdn_app [sensoridx; zone; subzone; unit]) by (reflexivity || (rewrite length_le; reflexivity)).
  cbn [mbind option_bind]. rewrite memory_le. change (256 ^ Z.of_nat 8) with (2 ^ 64). rewrite Z.mod_small by exact Hv. reflexivity.
Qed.

(** The text event of level II: its maker always writes beyond the data. *)
Theorem makeLevel2String_overruns e typ value unit sensoridx zone subzone : Z.of_nat (length (c_str (fmt_f value))) < 65531 ->
  vscp_makeLevel2StringMeasurementEvent fmt_f (Some e) typ value unit sensoridx zone subzone = None.
Proof.
  intros L. unfold vscp_makeLevel2StringMeasurementEvent. set (s := c_str (fmt_f value)) in *.
  rewrite (u16_id (Z.of_nat (length s))), u16_id by (unfold is_u16; lia). rewrite wr_defined by (unfold zeros; rewrite length_replicate; cbn [length]; lia). cbn [mbind option_bind].
  rewrite rdn_oob; [reflexivity|]. rewrite length_app. cbn [length]. lia.
Qed.

(** From level I to a double at level II: the integer is swapped, not the bytes of
    the double: the event of a measured integer [v] gives the double of [v] with its
    eight bytes in the opposite order, 2^56 for 1; a negative one is undefined
    behaviour, for the class of plain measurements and for those with a zone;
    of the latter MEASUREZONE loses its index and zone. *)
Theorem level1_to_level2_swaps garbage e pre c bs : Numerals fmt_0 stod ->
  front_size (vscp_class e) = Some (length pre) -> vscp_class e ∈ [VSCP_CLASS1_MEASUREMENT; VSCP_CLASS1_MEASUREZONE; VSCP_CLASS1_SETVALUEZONE] ->
  pdata e = Some (pre ++ c :: bs) -> sizeData e = Z.of_nat (length pre + 1 + length bs) -> (1 <= length bs <= 7)%nat -> bytes_ok bs ->
  c / 32 mod 8 = 3 -> - 2 ^ 53 < signed bs < 2 ^ 53 ->
  match vscp_convertLevel1MeasurementToLevel2Double fmt_f fmt_g fmt_0 stod pow10 garbage (Some e) with
  | None => signed bs < 0
  | Some (ok, pe) => 0 <= signed bs /\ ok = true
      /\ exists e' front, pe = Some e' /\ length front = 4%nat /\ (vscp_class e = VSCP_CLASS1_MEASUREZONE -> front = zeros 4)
      /\ pdata e' = Some (front ++ le 8 (double_of_Z (swapped 8 (signed bs)))) /\ sizeData e' = 12 /\ vscp_class e' = VSCP_CLASS2_MEASUREMENT_FLOAT
  end.
Proof.
  intros HN F K P S L H Kc B. assert (N : bs <> []) by (destruct bs; [cbn [length] in L; lia|discriminate]).
  assert (U : is_u16 (sizeData e)) by (apply front_cases in F; rewrite S; unfold is_u16; repeat (apply elem_of_cons in F as [F|F]; [injection F as _ F'; lia|]); exfalso; revert F; apply not_elem_of_nil).
  assert (T := coded_number fmt_f fmt_g fmt_0 pow10 e pre c bs S U L H Kc).
  assert (O : has_double (vscp_class e) = true) by (repeat (apply elem_of_cons in K as [K|K]; [rewrite K; reflexivity|]); exfalso; revert K; apply not_elem_of_nil).
  assert (D := coded_double fmt_f fmt_g fmt_0 stod pow10 garbage 0 e pre c bs _ F O P S N T). rewrite integer_read in D by exact B.
  unfold vscp_convertLevel1MeasurementToLevel2Double. rewrite P. rewrite D. cbn [mbind option_bind negb]. change (default 0 (Some ?x)) with x.
  assert (Q : match double_to_u64 (double_of_Z (signed bs)) with
    | None => signed bs < 0 | Some v => 0 <= signed bs /\ VSCP_UINT64_SWAP_ALWAYS v = swapped 8 (signed bs) end).
  { destruct (Z.ltb_spec (signed bs) 0); [rewrite double_to_u64_negative by lia; assumption|].
    rewrite double_to_u64_of_Z by lia. split; [assumption|]. apply swap64_le. unfold is_u64. lia. }
  clear T D HN B U O. unfold vscp_isMeasurement, from_class. destruct e as [h o t cls typ g m d k]. cbn [vscp_class sizeData pdata] in *.
  repeat (apply elem_of_cons in K as [K|K]; [subst cls; eval_classes; cbn [orb negb andb]|]); [..|exfalso; revert K; apply not_elem_of_nil].
  all: injection F as F; symmetry in F.
  - destruct pre; [|discriminate F]. cbn [app coding_front]. unfold coding_front. change (rd (c :: bs) 0) with (Some c). cbn [mbind option_bind].
    destruct (double_to_u64 _) as [v|]; cbn [mbind option_bind]; [|exact Q]. destruct Q as [Q ->]. split; [exact Q|]. split; [reflexivity|].
    eexists _, _. split; [reflexivity|]. split; [|split; [|split; [reflexivity|split; reflexivity]]]; [reflexivity|discriminate].
  - destruct (double_to_u64 _) as [v|]; cbn [mbind option_bind]; [|exact Q]. destruct Q as [Q ->]. split; [exact Q|]. split; [reflexivity|].
    eexists _, _. split; [reflexivity|]. split; [|split; [|split; [reflexivity|split; reflexivity]]]; [reflexivity|reflexivity].
  - assert (R : rdn (pre ++ c :: bs) 0 3 = Some pre) by (apply (rdn_app [] pre (c :: bs)); [reflexivity|symmetry; exact F]). unfold zone_front. rewrite R. cbn [mbind option_bind].
    destruct (double_to_u64 _) as [v|]; cbn [mbind option_bind]; [|exact Q]. destruct Q as [Q ->]. split; [exact Q|]. split; [reflexivity|].
    eexists _, _. split; [reflexivity|]. split; [|split; [|split; [reflexivity|split; reflexivity]]]; [rewrite length_app, F; reflexivity|discriminate].
Qed.

End Made.

(** ** Numbers as text, as the witnesses have them *)



Definition own_print (x : Z) : list Z :=
  match of_double x with
  | SpecFloat.S754_finite s m e => (if s then [45] else []) ++ dec (integral m e)
  | _ => dec 0
  end.

Definition own_stod (s : list Z) : option Z :=
  Some (double_of_Z (match s with
                     | ch :: rest => if ch =? 45 then - vscp_readStringValue rest else vscp_readStringValue s
                     | [] => 0
                     end)).

#[export] Instance own_numerals : Numerals own_print own_stod.
Proof.
  constructor. intros z Hz. unfold own_print. destruct (Z.eq_dec z 0) as [->|N]; [vm_compute; reflexivity|].
  destruct (of_double_of_Z z N ltac:(lia)) as (m & e & -> & ->). assert (R := readStringValue_number (Z.abs z)). unfold own_stod. destruct (Z.ltb_spec z 0) as [L|L].
  - cbn [app]. change (45 =? 45) with true. cbv iota. rewrite R by lia. do 2 f_equal. lia.
  - cbn [app]. assert (X : 45 ∉ dec (Z.abs z)) by (apply dec_no_char; lia). destruct (dec (Z.abs z)) as [|ch rest]; [specialize (R ltac:(lia)); change (vscp_readStringValue []) with 0 in R; lia|].
    destruct (Z.eqb_spec ch 45) as [->|_]; [exfalso; apply X, list_elem_of_here|]. rewrite R by lia. do 2 f_equal. lia.
Qed.

(** pow(10, n). *)
Definition tens (n : Z) : Z := double_of_Z (10 ^ n).

Definition zone_event (bs : list Z) : vscpEvent := Event 0x0160 0 (Time 0xffff 0xff 0) VSCP_CLASS1_MEASUREZONE 6 (zeros 16) (Z.of_nat (length bs)) (Some bs) 0.

Lemma measurement_values_witness :
  vscp_getMeasurementAsString own_print own_print own_print tens [] (Some (zone_event [1; 2; 3; 0x60; 0xff; 0xfe])) = Some (true, own_print (double_of_Z (-2)))
  /\ vscp_getMeasurementAsDouble own_print own_print own_print own_stod tens [] (Some 0) (Some (zone_event [1; 2; 3; 0x60; 0xff; 0xfe])) = Some (true, Some (double_of_Z (-2))).
Proof.
  destruct (proj1 (measurement_values own_print own_print own_print own_stod tens [] 0 (zone_event [1; 2; 3; 0x60; 0xff; 0xfe]) [1; 2; 3] 0x60 [0xff; 0xfe] 0 []
    own_numerals eq_refl ltac:(vm_compute; split; [discriminate|reflexivity]) ltac:(by_decide) ltac:(vm_compute; split; [discriminate|reflexivity])) eq_refl eq_refl eq_refl ltac:(cbn; lia)) as [A B].
  split; [exact A|apply B; vm_compute; split; reflexivity].
Defined.

Definition one_event : vscpEvent := Event 0x0160 0 (Time 0xffff 0xff 0) VSCP_CLASS1_MEASUREMENT 6 (zeros 16) 2 (Some [0x69; 1]) 0.

Lemma level1_to_level2_swaps_witness :
  match vscp_convertLevel1MeasurementToLevel2Double own_print own_print own_print own_stod tens [] (Some one_event) with
  | None => signed [1] < 0
  | Some (ok, pe) => 0 <= signed [1] /\ ok = true
      /\ exists e' front, pe = Some e' /\ length front = 4%nat /\ (vscp_class one_event = VSCP_CLASS1_MEASUREZONE -> front = zeros 4)
      /\ pdata e' = Some (front ++ le 8 (double_of_Z (swapped 8 (signed [1])))) /\ sizeData e' = 12 /\ vscp_class e' = VSCP_CLASS2_MEASUREMENT_FLOAT
  end.
Proof.
  apply (level1_to_level2_swaps own_print own_print own_print own_stod tens [] one_event [] 0x69 [1] own_numerals);
    [reflexivity|apply list_elem_of_here|reflexivity|reflexivity|cbn; lia|by_decide|reflexivity|vm_compute; split; reflexivity].
Defined.

Lemma level2_double_roundtrip_witness :
  exists e', vscp_makeLevel2FloatMeasurementEvent (Some one_event) 6 0x4009000000000000 1 2 3 4 = Some (true, Some e')
    /\ vscp_getMeasurementAsDouble own_print own_print own_print own_stod tens [] (Some 0) (Some e') = Some (true, Some 0x4009000000000000)
    /\ vscp_getMeasurementUnit e' = Some 1 /\ vscp_getMeasurementSensorIndex (Some e') = Some 2
    /\ vscp_getMeasurementZone (Some e') = Some 4 /\ vscp_getMeasurementSubZone (Some e') = Some 4.
Proof. apply (level2_double_roundtrip own_print own_print own_print own_stod tens [] 0 one_event 6 0x4009000000000000 1 2 3 4); by_decide. Defined.

(** The event of the value 1 holds the double 2^56. *)
Example one_becomes : swapped 8 1 = 2 ^ 56. Proof. vm_compute. reflexivity. Qed.
Example two_and_a_half :
  vscp_getDataCodingNormalizedInteger tens (Some [0x80; 0x81; 25]) 3 = Some 0x4004000000000000.
Proof. vm_compute. reflexivity. Qed.
