(* ===== verification/Mqtt.v ===== *)
(** * The MQTT client: vscp-client-mqtt.cpp

    libmosquitto, the templates of mustache.hpp, the JSON and XML parsers are outside:
    the calls to the broker are the results of the functions, the rest are
    parameters.  libmosquitto puts a zero behind the payload of a message. *)

From S2P Require Import Prelude Program Crc DateTime Event Frame Strings Guid Filter Canal EventString Json EventJson EventXml Measure.

Definition VSCP_ERROR_ERROR : Z := -1.
Definition VSCP_ERROR_FIFO_EMPTY : Z := 8.
Definition VSCP_ERROR_NOT_CONNECTED : Z := 54.
Definition MOSQ_ERR_SUCCESS : Z := 0.
Definition VSCP_ERROR_NOT_SUPPORTED : Z := 17.
Definition VSCP_ERROR_TIMEOUT : Z := 32.
Definition VSCP_ERROR_MEMORY : Z := 35.
Definition VSCP_ERROR_INVALID_FRAME : Z := 63.
Definition MQTT_MAX_INQUEUE_SIZE : Z := 2000.

(** [uint8_t payload[1024]]. *)
Definition payload_size : Z := 1024.

Inductive enumMqttMsgFormat := jsonfmt | xmlfmt | strfmt | binfmt | autofmt.

Definition is_auto (f : enumMqttMsgFormat) : bool := match f with autofmt => true | _ => false end.

Record publishTopic := PublishTopic { ptopic : list Z; pformat : enumMqttMsgFormat; pqos : Z; pretain : bool; pactive : bool }.
Record subscribeTopic := SubscribeTopic { stopic : list Z; sformat : enumMqttMsgFormat; sqos : Z; sactive : bool }.

(** The members that the functions below do not change. *)
Record config := Config {
  m_mqtt_publishTopicList : list publishTopic; m_mqtt_subscribeTopicList : list subscribeTopic;
  m_bUseTopicForEventDefaults : bool; m_bJsonMeasurementAdd : bool; m_bEscapesPubTopics : bool;
  isCallbackEvActive : bool; isCallbackExActive : bool;
  m_clientid : list Z; m_username : list Z; m_host : list Z; m_srvguid : list Z; m_ifguid : list Z;
  m_pmap_class : option (Z -> list Z); m_pmap_type : option (Z -> list Z);
  m_mapUserEscapes : list (list Z * list Z);
  m_will_topic : list Z; m_will_payload : list Z; m_will_bretain : bool
}.

(** The rest; [posts] is the value of the semaphore, [given] what the callbacks got. *)
Record state := State {
  m_bConnected : bool; m_receiveQueue : list (option vscpEvent); posts : Z;
  given : list (vscpEvent + vscpEventEx); m_filter : vscpEventFilter
}.

(** The calls of libmosquitto. *)
Inductive call :=
  | Publish (topic payload : list Z) (qos : Z) (retain : bool)
  | Subscribe (topic : list Z) (qos : Z).

(** ** Topics *)

Definition addSubscription (strTopicSub : list Z) (format : enumMqttMsgFormat) (qos : Z) (c : config) : config :=
  Config (m_mqtt_publishTopicList c) (m_mqtt_subscribeTopicList c ++ [SubscribeTopic strTopicSub format qos true])
    (m_bUseTopicForEventDefaults c) (m_bJsonMeasurementAdd c) (m_bEscapesPubTopics c) (isCallbackEvActive c) (isCallbackExActive c)
    (m_clientid c) (m_username c) (m_host c) (m_srvguid c) (m_ifguid c) (m_pmap_class c) (m_pmap_type c) (m_mapUserEscapes c)
    (m_will_topic c) (m_will_payload c) (m_will_bretain c).

Definition addPublish (strTopicPub : list Z) (format : enumMqttMsgFormat) (qos : Z) (bRetain : bool) (c : config) : config :=
  Config (m_mqtt_publishTopicList c ++ [PublishTopic strTopicPub format qos bRetain true]) (m_mqtt_subscribeTopicList c)
    (m_bUseTopicForEventDefaults c) (m_bJsonMeasurementAdd c) (m_bEscapesPubTopics c) (isCallbackEvActive c) (isCallbackExActive c)
    (m_clientid c) (m_username c) (m_host c) (m_srvguid c) (m_ifguid c) (m_pmap_class c) (m_pmap_type c) (m_mapUserEscapes c)
    (m_will_topic c) (m_will_payload c) (m_will_bretain c).

(** %0[w]X and %0[w]x. *)
Definition hexw (f : Z -> Z) (w : nat) (n : Z) : list Z :=
  let ds := map f (digits 16 16 n) in replicate (w - length ds) 48 ++ ds.

(** [name[i]] for the positions of a GUID that the loops visit, and for data. *)
Definition position (name : string) (i : nat) : list Z := str name ++ str "[" ++ dec (Z.of_nat i) ++ str "]".
Definition positions (name : string) (f : Z -> list Z) (g : list Z) : list (list Z * list Z) :=
  map (fun i => (position name i, f (getAt (Z.of_nat i) g))) (seq 0 15).
Definition data_positions (name : string) (f : Z -> list Z) (d : list Z) : list (list Z * list Z) :=
  imap (fun i b => (position name i, f b)) d.

(** The two ends of a GUID: for both the byte of [getAt(0)] and [getMSB]. *)
Definition guid_ends (name : string) (g : list Z) : list (list Z * list Z) :=
  let b := getAt 0 g in
  [(str name ++ str ".msb", dec b); (str name ++ str ".lsb", dec b);
   (str "x" ++ str name ++ str ".msb", hex2 b); (str "x" ++ str name ++ str ".lsb", hex2 b)].

Definition date_fields (prefix : string) (e : vscpEvent) : list (list Z * list Z) :=
  let t := etime e in
  [(str prefix ++ str "datetime", date_string (head e) t); (str prefix ++ str "year", dec (year t));
   (str prefix ++ str "month", dec (month t)); (str prefix ++ str "day", dec (day t)); (str prefix ++ str "hour", dec (hour t));
   (str prefix ++ str "minute", dec (minute t)); (str prefix ++ str "second", dec (second t))].

Definition format_name (f : enumMqttMsgFormat) : list Z :=
  match f with jsonfmt => str "json" | xmlfmt => str "xml" | strfmt => str "string" | binfmt => str "binary" | autofmt => str "auto" end.

(** What a template may name.  %ul prints a number and the letter l. *)
Definition topic_data (c : config) (f : enumMqttMsgFormat) (measurement : list (list Z * list Z)) (e : vscpEvent) : list (list Z * list Z) :=
  let d := match pdata e with Some d => take (Z.to_nat (sizeData e)) d | None => [] end in
  [(str "guid", toString (GUID e))] ++ guid_ends "guid" (GUID e)
  ++ [(str "srvguid", toString (m_srvguid c))] ++ guid_ends "srvguid" (m_srvguid c)
  ++ [(str "ifguid", toString (m_ifguid c))] ++ guid_ends "ifguid" (m_ifguid c)
  ++ positions "guid" dec (GUID e) ++ positions "xguid" hex2 (GUID e)
  ++ positions "srvguid" dec (m_srvguid c) ++ positions "xsrvguid" hex2 (m_srvguid c)
  ++ positions "ifguid" dec (m_ifguid c) ++ positions "xifguid" hex2 (m_ifguid c)
  ++ [(str "sizedata", dec (sizeData e)); (str "xsizedata", hexw dchar 4 (sizeData e))]
  ++ data_positions "data" dec d ++ data_positions "xdata" hex2 d
  ++ [(str "nickname", dec (getNicknameID (GUID e))); (str "class", dec (vscp_class e)); (str "type", dec (vscp_type e));
      (str "xclass", hexw dchar_lower 2 (vscp_class e)); (str "xtype", hexw dchar_lower 2 (vscp_type e))]
  ++ match m_pmap_class c with Some m => [(str "class-token", m (vscp_class e))] | None => [] end
  ++ match m_pmap_type c with Some m => [(str "type-token", m (u32 (Z.shiftl (vscp_class e) 16 + vscp_type e)))] | None => [] end
  ++ [(str "head", dec (head e)); (str "xhead", hexw dchar 4 (head e)); (str "obid", dec (obid e) ++ str "l"); (str "xobid", hexw dchar 8 (obid e));
      (str "timestamp", dec (timestamp (etime e)) ++ str "l"); (str "xtimestamp", hexw dchar 8 (timestamp (etime e)))]
  ++ date_fields "" e ++ date_fields "local-" e
  ++ [(str "clientid", m_clientid c); (str "user", m_username c); (str "host", m_host c)] ++ measurement
  ++ [(str "fmtpublish", format_name f)] ++ m_mapUserEscapes c.

Definition will_data (c : config) : list (list Z * list Z) :=
  [(str "clientid", m_clientid c); (str "user", m_username c); (str "host", m_host c);
   (str "ifguid", toString (m_ifguid c)); (str "srvguid", toString (m_srvguid c))]
  ++ positions "ifguid" dec (m_ifguid c) ++ positions "ifguid" dec (m_ifguid c)
  ++ positions "srvguid" dec (m_srvguid c) ++ positions "xsrvguid" dec (m_srvguid c) ++ m_mapUserEscapes c.

Section Mqtt.
(** mustache; the JSON text with the measurement added and std::to_string of its
    value, when the value can be had and the library throws nothing. *)
Context (render : list Z -> list (list Z * list Z) -> list Z)
        (with_measurement : vscpEvent -> list Z -> option (list Z * list Z)).

(** ** Sending *)

(** The text that a converter gave, in the buffer: it is copied with its own length,
    or published with it. *)
Definition text_payload (o : option (option (list Z))) : option (Z + list Z) :=
  r ← o;
  match r with
  | None => Some (inl VSCP_ERROR_PARAMETER)
  | Some s => if payload_size <? Z.of_nat (length s) then None else Some (inr s)
  end.

(** The frame is written from the second byte of the buffer on. *)
Definition binary_payload (size : Z) (write : option (list Z) -> Z -> option (bool * option (list Z))) : option (Z + list Z) :=
  '(ok, frame) ← write (Some (zeros (Z.to_nat payload_size - 1))) payload_size;
  match ok, frame with
  | true, Some f => Some (inr (take (Z.to_nat (size + 1)) (0 :: f)))
  | _, _ => Some (inl VSCP_ERROR_PARAMETER)
  end.

(** The JSON text and the values for the template. *)
Definition json_payload (c : config) (measures : bool) (e : vscpEvent) (o : option (option (list Z)))
  : option (option (list Z) * list (list Z * list Z)) :=
  let none b := [(str "is-measurement", if b : bool then str "true" else str "false"); (str "measurement-value", str "0.000000");
                 (str "measurement-unit", dec 0); (str "measurement-sensorindex", dec 0); (str "measurement-zone", dec 0); (str "measurement-subzone", dec 0)] in
  r ← o;
  match r with
  | None => Some (None, none false)
  | Some s =>
      if measures && m_bJsonMeasurementAdd c then
        match with_measurement e s with
        | None => Some (Some s, none true)
        | Some (s, value) =>
            unit ← vscp_getMeasurementUnit e; sensor ← vscp_getMeasurementSensorIndex (Some e);
            zone ← vscp_getMeasurementZone (Some e); subzone ← vscp_getMeasurementSubZone (Some e);
            Some (Some s, [(str "is-measurement", str "true"); (str "measurement-value", value); (str "measurement-unit", dec unit);
                           (str "measurement-sensorindex", dec sensor); (str "measurement-zone", dec zone); (str "measurement-subzone", dec subzone)])
        end
      else Some (Some s, none false)
  end.

(** One topic: [inl] is an early return. *)
Definition publish_one (c : config) (t : publishTopic) (e : vscpEvent) : option (Z + call) :=
  '(json, values) ← match pformat t with
    | jsonfmt => json_payload c (vscp_isMeasurement e) e (vscp_convertEventToJSON (Some e))
    | _ => json_payload c false e (Some (Some []))
    end;
  r ← match pformat t with
    | jsonfmt => text_payload (Some json)
    | xmlfmt => text_payload (vscp_convertEventToXML (Some e))
    | strfmt => text_payload (vscp_convertEventToString (Some e))
    | binfmt => binary_payload (vscp_getFrameSizeFromEvent (Some e)) (fun f len => vscp_writeEventToFrame f len 0 (Some e))
    | autofmt => Some (inl VSCP_ERROR_NOT_SUPPORTED)
    end;
  Some (match r with
        | inl rv => inl rv
        | inr payload =>
            inr (Publish (c_str (if m_bEscapesPubTopics c then render (ptopic t) (topic_data c (pformat t) values e) else ptopic t))
                   payload (pqos t) (pretain t))
        end).

(** [each] publishes to a topic, or passes over it; the result of
    mosquitto_publish is only logged. *)
Fixpoint publish_all (each : publishTopic -> option (option (Z + call))) (topics : list publishTopic) : option (Z * list call) :=
  match topics with
  | [] => Some (VSCP_ERROR_SUCCESS, [])
  | t :: topics =>
      r ← each t;
      match r with
      | Some (inl rv) => Some (rv, [])
      | Some (inr call) => '(rv, calls) ← publish_all each topics; Some (rv, call :: calls)
      | None => publish_all each topics
      end
  end.

Definition send (c : config) (e : vscpEvent) : option (Z * list call) :=
  publish_all (fun t => if pactive t then Some <$> publish_one c t e else Some None) (m_mqtt_publishTopicList c).

(** The same for a vscpEventEx, but for the topics that are not active, and for the
    measurement in the template. *)
Definition measured_ex (mem : vscpEvent) (x : vscpEventEx) (s : list Z) : option (list Z) :=
  match with_measurement (ex_fields x) s with
  | None => Some s
  | Some (s, _) =>
      _ ← vscp_getMeasurementUnitEx mem (Some x); _ ← vscp_getMeasurementSensorIndexEx mem (Some x);
      _ ← vscp_getMeasurementZoneEx mem (Some x); _ ← vscp_getMeasurementSubZoneEx mem (Some x); Some s
  end.

Definition publish_one_ex (c : config) (mem : vscpEvent) (t : publishTopic) (x : vscpEventEx) : option (Z + call) :=
  let e := ex_fields x in
  r ← match pformat t with
    | jsonfmt =>
        json ← vscp_convertEventExToJSON (Some x);
        measures ← vscp_isMeasurementEx mem (Some x);
        json ← match json with
               | Some s => if measures && m_bJsonMeasurementAdd c then Some <$> measured_ex mem x s else Some (Some s)
               | None => Some None
               end;
        text_payload (Some json)
    | xmlfmt => text_payload (vscp_convertEventExToXML (Some x))
    | strfmt => text_payload (vscp_convertEventExToString mem (Some x))
    | binfmt => binary_payload (vscp_getFrameSizeFromEventEx (Some x)) (fun f len => vscp_writeEventExToFrame mem f len 0 (Some x))
    | autofmt => Some (inl VSCP_ERROR_NOT_SUPPORTED)
    end;
  Some (match r with
        | inl rv => inl rv
        | inr payload =>
            inr (Publish (c_str (if m_bEscapesPubTopics c then render (ptopic t) (topic_data c (pformat t) [] e) else ptopic t))
                   payload (pqos t) (pretain t))
        end).

Definition send_ex (c : config) (mem : vscpEvent) (x : vscpEventEx) : option (Z * list call) :=
  publish_all (fun t => Some <$> publish_one_ex c mem t x) (m_mqtt_publishTopicList c).

(** [ex] is not initialised. *)
Definition send_canal (c : config) (mem : vscpEvent) (ex : vscpEventEx) (now : timespec) (now2 : Z) (msg : canalMsg) : option (Z * list call) :=
  '(ok, px) ← vscp_convertCanalToEventEx mem now now2 (Some ex) (Some msg) (Some (zeros 16));
  if ok : bool then Some (VSCP_ERROR_INVALID_FRAME, []) else send_ex c mem (default ex px).

(** ** Connections *)

Definition doSubscribe (c : config) : list call :=
  map (fun t => Subscribe (c_str (render (stopic t) [])) (sqos t)) (filter (fun t => sactive t = true) (m_mqtt_subscribeTopicList c)).

(** An empty message under the topic of the will, which is empty itself without
    the templates. *)
Definition sendWillPayload (c : config) : list call :=
  if m_will_bretain c && negb (length (m_will_payload c) =? 0)%nat && negb (length (m_will_topic c) =? 0)%nat
  then [Publish (c_str (if m_bEscapesPubTopics c then render (m_will_topic c) (will_data c) else [])) [] 1 true]
  else [].

Definition set_connected (b : bool) (s : state) : state := State b (m_receiveQueue s) (posts s) (given s) (m_filter s).

Definition mqtt_on_connect (c : config) (s : state) : state * list call := (set_connected true s, sendWillPayload c ++ doSubscribe c).
Definition mqtt_on_connect_flags (c : config) (s : state) : state * list call := (set_connected true s, sendWillPayload c ++ doSubscribe c).
Definition mqtt_on_connect_v5 (c : config) (s : state) : state * list call := (set_connected true s, []).
Definition mqtt_on_disconnect (s : state) : state := set_connected false s.
Definition mqtt_on_disconnect_v5 (s : state) : state := set_connected false s.
Definition isConnected (s : state) : bool := m_bConnected s.

(** The loop of connect: what each turn reads of m_bConnected, and the clock when
    that is false; no result while it still waits. *)
Fixpoint wait_connected (start timeout : Z) (turns : list (bool * Z)) : option Z :=
  match turns with
  | [] => None
  | (connected, ms) :: turns =>
      if connected then Some VSCP_ERROR_SUCCESS
      else if timeout <? u32 (ms - start) then Some VSCP_ERROR_TIMEOUT
      else wait_connected start timeout turns
  end.

(** [bound]: an interface to bind to is set; the results are those of init and of the
    calls of the library. *)
Definition connect (init_ok bound : bool) (connect_rv loop_rv start timeout : Z) (turns : list (bool * Z)) : option Z :=
  if negb init_ok then Some VSCP_ERROR_NOT_CONNECTED
  else if negb bound && negb (connect_rv =? MOSQ_ERR_SUCCESS) then Some VSCP_ERROR_NOT_CONNECTED
  else if negb (loop_rv =? MOSQ_ERR_SUCCESS) then Some VSCP_ERROR_ERROR
  else wait_connected start timeout turns.

(** No result when it joins a thread that was never made. *)
Definition disconnect (c : config) (s : state) : option (Z * state) :=
  if isCallbackEvActive c && isCallbackExActive c then None else Some (VSCP_ERROR_SUCCESS, set_connected false s).

Definition set_callbacks (ev ex : bool) (c : config) : config :=
  Config (m_mqtt_publishTopicList c) (m_mqtt_subscribeTopicList c) (m_bUseTopicForEventDefaults c) (m_bJsonMeasurementAdd c)
    (m_bEscapesPubTopics c) ev ex (m_clientid c) (m_username c) (m_host c) (m_srvguid c) (m_ifguid c) (m_pmap_class c) (m_pmap_type c)
    (m_mapUserEscapes c) (m_will_topic c) (m_will_payload c) (m_will_bretain c).

Definition setCallbackEv (c : config) (s : state) : Z * config :=
  if m_bConnected s then (VSCP_ERROR_ERROR, c) else (VSCP_ERROR_SUCCESS, set_callbacks true (isCallbackExActive c) c).
Definition setCallbackEx (c : config) (s : state) : Z * config :=
  if m_bConnected s then (VSCP_ERROR_ERROR, c) else (VSCP_ERROR_SUCCESS, set_callbacks (isCallbackEvActive c) true c).

Definition clearRetain4Topic (published : bool) (strTopic : list Z) : Z * list call :=
  (if published then VSCP_ERROR_SUCCESS else VSCP_ERROR_ERROR, [Publish (c_str strTopic) [] 0 true]).

(** ** Messages *)

Definition set_ex_info (g : list Z) (cls typ : Z) (x : vscpEventEx) : vscpEventEx :=
  EventEx (xhead x) (xobid x) (xtime x) (xcrc x) cls typ g (xsizeData x) (xdata x).

Definition writeEventDefaultsFromTopic (c : config) (x : vscpEventEx) (pTopic : list Z) : vscpEventEx :=
  if m_bUseTopicForEventDefaults c then
    match vscp_split (c_str pTopic) (str "/") with
    | _ :: guid :: cls :: typ :: _ =>
        set_ex_info (if isNULL (xGUID x) then vscp_getGuidFromStringToArray guid else xGUID x)
          (if xclass x =? 0 then u16 (vscp_readStringValue cls) else xclass x)
          (if xtype x =? 0 then u16 (vscp_readStringValue typ) else xtype x) x
    | _ => x
    end
  else x.

(** The format of the first subscription whose topic does not contain the topic
    of the message. *)
Definition subscribed_format (c : config) (topic : list Z) : enumMqttMsgFormat :=
  match List.find (fun t => bool_decide (find (c_str topic) (c_str (stopic t)) = None)) (m_mqtt_subscribeTopicList c) with
  | Some t => sformat t
  | None => autofmt
  end.

(** The format that the payload shows, if it can be an event. *)
Definition payload_format (payload : list Z) : option enumMqttMsgFormat :=
  match payload with
  | 0 :: _ => Some binfmt
  | 123 :: _ => Some jsonfmt
  | 60 :: _ => Some xmlfmt
  | _ => if (length (List.filter (fun ch => (ch =? 44)%Z) (c_str payload)) <? 6)%nat then None else Some strfmt
  end.

Definition set_queue (q : list (option vscpEvent)) (n : Z) (s : state) : state := State (m_bConnected s) q n (given s) (m_filter s).
Definition give (r : vscpEvent + vscpEventEx) (s : state) : state := State (m_bConnected s) (m_receiveQueue s) (posts s) (given s ++ [r]) (m_filter s).

Section Receive.
(** The JSON parser and expat; the clock as vscp_makeTimeStampNs and as time read it,
    and the value of vscp_makeTimeStamp; what the memory of the two local events, and
    of a new one, holds. *)
Context (parse : list Z -> json_result) (expat : list Z -> list sax * bool) (now : timespec) (seconds us : Z)
        (mem fresh_mem : vscpEvent) (xmem : vscpEventEx).

(** The payload as an event; the handlers of the XML parser count in [depth]. *)
Definition payload_event (format : enumMqttMsgFormat) (depth : Z) (payload : list Z) : option (bool * Z * option vscpEvent) :=
  match format with
  | jsonfmt => '(ok, ev) ← vscp_convertJSONToEvent parse now (Some mem) payload; Some (ok, depth, ev)
  | xmlfmt => vscp_convertXMLToEvent expat seconds us depth (Some mem) payload
  | strfmt => let '(ok, ev) := vscp_convertStringToEvent now (Some mem) payload in Some (ok, depth, ev)
  | _ =>
      '(ok, ev) ← vscp_getEventFromFrame now (Some mem) (Some (drop 1 payload ++ [0])) (Z.of_nat (length payload)); Some (ok, depth, ev)
  end.

(** To a callback, or a copy to the queue. *)
Definition deliver (c : config) (ev : vscpEvent) (ex : vscpEventEx) (s : state) : option (bool * state) :=
  if isCallbackEvActive c then Some (true, give (inl ev) s)
  else if isCallbackExActive c then Some (true, give (inr ex) s)
  else
    '(ok, copy) ← vscp_copyEvent (Some (set_pdata (sizeData fresh_mem) None fresh_mem)) (Some ev);
    if negb ok then Some (false, s)
    else if Z.of_nat (length (m_receiveQueue s)) <? MQTT_MAX_INQUEUE_SIZE
    then Some (true, set_queue (m_receiveQueue s ++ [copy]) (posts s + 1) s)
    else Some (true, s).

Definition handleMessage (c : config) (depth : Z) (topic payload : list Z) (s : state) : option (bool * Z * state) :=
  if (length payload =? 0)%nat then Some (false, depth, s)
  else
    match (let f := subscribed_format c topic in if is_auto f then payload_format payload else Some f) with
    | None => Some (false, depth, s)
    | Some format =>
        '(ok, depth, ev) ← payload_event format depth payload;
        match ok, ev with
        | true, Some ev =>
            '(ok, ex) ← vscp_convertEventToEventEx (Some xmem) (Some ev);
            match ok, ex with
            | true, Some ex =>
                '(ok, s) ← deliver c ev (writeEventDefaultsFromTopic c ex topic) s; Some (ok, depth, s)
            | _, _ => Some (false, depth, s)
            end
        | _, _ => Some (false, depth, s)
        end
    end.

End Receive.

(** ** The queue *)

(** What the three receive functions share: [get] makes the result of an event. *)
Definition receive_with {A} (get : vscpEvent -> option (bool * A)) (a : A) (s : state) : option (Z * A * state) :=
  match m_receiveQueue s with
  | [] => Some (VSCP_ERROR_FIFO_EMPTY, a, s)
  | p :: q =>
      let s := set_queue q (posts s) s in
      match p with
      | None => Some (VSCP_ERROR_MEMORY, a, s)
      | Some ev => '(ok, a) ← get ev; Some (if ok : bool then VSCP_ERROR_SUCCESS else VSCP_ERROR_MEMORY, a, s)
      end
  end.

Definition receive (ev : option vscpEvent) : state -> option (Z * option vscpEvent * state) :=
  receive_with (fun e => vscp_copyEvent ev (Some e)) ev.
Definition receive_ex (ex : option vscpEventEx) : state -> option (Z * option vscpEventEx * state) :=
  receive_with (fun e => vscp_convertEventToEventEx ex (Some e)) ex.
Definition receive_canal (msg : option canalMsg) : state -> option (Z * option canalMsg * state) :=
  receive_with (fun e => '(ok, msg, _) ← vscp_convertEventToCanal msg (Some e); Some (ok, msg)) msg.

(** No message comes during the wait: it succeeds when the semaphore is positive,
    and [timedout] is why it fails otherwise. *)
Definition receiveBlocking {A} (timedout : bool) (receive : state -> option (Z * A * state)) (a : A) (s : state) : option (Z * A * state) :=
  if 0 <? posts s then receive (set_queue (m_receiveQueue s) (posts s - 1) s)
  else Some (if timedout then VSCP_ERROR_TIMEOUT else VSCP_ERROR_ERROR, a, s).

Definition getcount (s : state) : Z := u16 (Z.of_nat (length (m_receiveQueue s))).
Definition clear (s : state) : state := set_queue [] (posts s) s.
Definition setfilter (f : vscpEventFilter) (s : state) : state := State (m_bConnected s) (m_receiveQueue s) (posts s) (given s) f.

End Mqtt.

(** ** The lengths of the texts, and the commas of a string *)

Lemma length_quoted s : length (quoted s) = (length s + 2)%nat.
Proof. unfold quoted. rewrite !length_app. cbn [length]. lia. Qed.

Lemma length_numbers l : bytes_ok l -> (length (numbers_text (map JUnsigned l)) <= 4 * length l)%nat.
Proof.
  intros H. unfold numbers_text. rewrite map_map. induction H as [|b l Hb _ IH]; [cbn; lia|]. unfold is_u8 in Hb.
  pose proof (length_dec_below b 3 ltac:(lia) ltac:(lia)). destruct l as [|b' l]; cbn [map] in *; [cbn [join length]; lia|].
  rewrite join_cons, length_app. cbn [length] in *. lia.
Qed.

Lemma length_event_json e : event_ok e -> Z.of_nat (length (object_text (event_rows e))) <= 400 + 4 * sizeData e.
Proof.
  intros He. destruct (data_of_ok _ _ (edata_ok e He)) as [Hl Hd]. unfold object_text, event_rows, rows_text, row, value_text. cbn [fst snd].
  rewrite !length_app, !length_quoted, !length_app.
  pose proof (length_dec (frame_head (head e))). pose proof (length_dec (obid e)). pose proof (length_dec (vscp_class e)). pose proof (length_dec (vscp_type e)).
  pose proof (length_toString (GUID e)). pose proof (length_date_string (head e) (etime e) (etime_ok e He)). pose proof (length_numbers _ Hd).
  change (length (llx (frame_ns e))) with 16%nat.
  unfold comma. rewrite !length_app. unfold newline, str. cbn [length String.length list_ascii_of_string map]. lia.
Qed.

Lemma length_join c l n : Forall (fun t => (length t <= n)%nat) l -> (length (join c l) <= (n + 1) * length l)%nat.
Proof.
  induction 1 as [|t l Ht _ IH]; [cbn; lia|]. destruct l as [|t' l]; [cbn [join length] in *; lia|].
  rewrite join_cons, length_app. cbn [length] in *. lia.
Qed.

Lemma length_join_app c l1 l2 : (length (join c (l1 ++ l2)) <= length (join c l1) + length (join c l2) + 1)%nat.
Proof.
  induction l1 as [|t l1 IH]; [cbn [app join length]; lia|]. destruct l1 as [|t' l1].
  - cbn [app]. destruct l2; [cbn [join length]; lia|]. rewrite join_cons, length_app. cbn [join length]. lia.
  - cbn [app] in *. rewrite !join_cons, !length_app. cbn [length]. lia.
Qed.

Lemma length_event_string e : event_ok e -> Z.of_nat (length (join 44 (event_tokens e))) <= 200 + 5 * sizeData e.
Proof.
  intros He. destruct (data_of_ok _ _ (edata_ok e He)) as [Hl _]. unfold event_tokens, front_tokens. rewrite data_texts_plain.
  assert (D : (length (join 44 (map hex_data (data_of (pdata e)))) <= 5 * length (data_of (pdata e)))%nat).
  { etransitivity; [apply (length_join 44 _ 4)|rewrite length_map; lia]. apply List.Forall_map, List.Forall_forall. reflexivity. }
  pose proof (length_dec (frame_head (head e))). pose proof (length_dec (obid e)). pose proof (length_dec (vscp_class e)). pose proof (length_dec (vscp_type e)).
  pose proof (length_dec (frame_ns e)). pose proof (length_toString (GUID e)).
  match goal with |- context [join 44 (?l1 ++ ?l2)] => pose proof (length_join_app 44 l1 l2) as J end.
  rewrite !join_cons, !length_app in J. cbn [length] in J. rewrite !length_app in J. cbn [join length] in J. 
  repeat (progress rewrite ?length_app in J; cbn [length] in J). lia.
Qed.

Lemma attrs_cons_longer sep a v attrs : (length v + length (attrs_text sep attrs) <= length (attrs_text sep ((a, v) :: attrs)))%nat.
Proof.
  destruct attrs as [|b attrs]; [|change (attrs_text sep ((a, v) :: b :: attrs)) with (attr_text (a, v) ++ sep ++ attrs_text sep (b :: attrs))];
    cbn [attrs_text]; unfold attr_text, quoted; cbn [fst snd]; rewrite !length_app; cbn [length]; lia.
Qed.

Lemma event_element_longer e : event_ok e -> 5 * sizeData e <= Z.of_nat (length (element_text (str "event") (str " ") (event_xml e) (str "/>"))).
Proof.
  intros He. destruct (data_of_ok _ _ (edata_ok e He)) as [Hl _]. rewrite length_element. unfold event_xml, event_attrs.
  repeat match goal with |- context [attrs_text ?sep ((?a, ?v) :: ?l)] =>
    let H := fresh in assert (H := attrs_cons_longer sep a v l); revert H; generalize (length (attrs_text sep ((a, v) :: l))) end.
  pose proof (length_hex_data (data_of (pdata e))). unfold str. cbn [length String.length list_ascii_of_string map]. intros. lia.
Qed.

Lemma length_join_suffix c l1 l2 : (length (join c l2) <= length (join c (l1 ++ l2)))%nat.
Proof.
  induction l1 as [|t l1 IH]; [reflexivity|]. cbn [app]. etransitivity; [exact IH|].
  destruct (l1 ++ l2) as [|t' l]; [cbn [join length]; lia|]. rewrite (join_cons c t t' l), length_app. cbn [length]. lia.
Qed.

Lemma length_join_hex d : (5 * length d <= S (length (join 44 (map hex_data d))))%nat.
Proof.
  induction d as [|b [|b' d] IH]; [cbn; lia|cbn; lia|]. cbn [map] in *. rewrite join_cons, length_app. cbn [length] in *. change (length (hex_data b)) with 4%nat. lia.
Qed.

Lemma event_string_longer e : event_ok e -> 5 * sizeData e <= Z.of_nat (length (join 44 (event_tokens e))) + 1.
Proof.
  intros He. destruct (data_of_ok _ _ (edata_ok e He)) as [Hl _]. unfold event_tokens. rewrite data_texts_plain.
  pose proof (length_join_hex (data_of (pdata e))) as L.
  match goal with |- context [join 44 (?l1 ++ ?l2)] => pose proof (length_join_suffix 44 l1 l2) end.
  lia.
Qed.

Lemma count_commas l : (length l <= S (length (List.filter (fun ch => (ch =? 44)%Z) (join 44 l))))%nat.
Proof.
  induction l as [|t [|t' l] IH]; [cbn; lia|cbn [length]; lia|]. rewrite join_cons, List.filter_app, length_app. cbn [List.filter Z.eqb Pos.eqb length] in *. lia.
Qed.

Lemma join_no_zero l : Forall (fun t => 0 ∉ t) l -> 0 ∉ join 44 l.
Proof.
  induction 1 as [|t l Ht _ IH]; [apply not_elem_of_nil|]. destruct l as [|t' l]; [exact Ht|]. rewrite join_cons, elem_of_app, elem_of_cons.
  intros [H|[H|H]]; [tauto|lia|tauto].
Qed.

Lemma event_tokens_no_zero e : event_ok e -> Forall (fun t => 0 ∉ t) (event_tokens e).
Proof.
  intros He. destruct (guid_ok e He) as [Hg Hb]. destruct (data_of_ok _ _ (edata_ok e He)) as [_ Hd].
  pose proof (frame_head_ok (head e)). pose proof (class_ok e He). pose proof (type_ok e He). pose proof (obid_ok e He). pose proof (frame_ns_ok e He).
  unfold is_u16, is_u32, is_u64 in *. unfold event_tokens, front_tokens. rewrite data_texts_plain.
  apply Forall_app. split.
  - repeat (constructor; [first [apply dec_no_char; lia | apply not_elem_of_nil | apply value_no_zero, simple_value, simple_toString; assumption]|]). constructor.
  - apply List.Forall_map. eapply List.Forall_impl; [|exact Hd]. intros b Hb'. assert (V := hex_data_value [b] ltac:(apply List.Forall_cons; [exact Hb'|apply List.Forall_nil])).
    cbn [write_data pred length] in V. apply value_no_zero. cbn [Nat.ltb Nat.leb] in V. rewrite !app_nil_r in V. exact V.
Qed.

(** What the payloads of the four formats show. *)
Lemma payload_format_string e : event_ok e -> payload_format (join 44 (event_tokens e)) = Some strfmt.
Proof.
  intros He. assert (C := count_commas (event_tokens e)). assert (L : (7 <= length (event_tokens e))%nat) by (unfold event_tokens; rewrite length_app; cbn [front_tokens length]; lia).
  assert (Z0 := join_no_zero _ (event_tokens_no_zero e He)). pose proof (frame_head_ok (head e)) as Hh. unfold is_u16 in Hh.
  destruct (dec_first (frame_head (head e)) ltac:(lia)) as (d & u & E & Hd).
  assert (F : exists r, join 44 (event_tokens e) = d :: r).
  { unfold event_tokens, front_tokens. cbn [app]. rewrite join_cons, E. cbn [app]. eauto. }
  destruct F as [r F]. rewrite F in *. unfold payload_format. rewrite c_str_id by exact Z0.
  assert (N : (length (List.filter (fun ch => (ch =? 44)%Z) (d :: r)) <? 6)%nat = false) by (apply Nat.ltb_ge; lia). rewrite N.
  destruct d as [|d|d]; try lia. do 7 (try (destruct d as [d|d|]; try lia; try reflexivity)).
Qed.

(** ** An event from one client to another *)

(** The event that is received: binary frames do not hold the obid; [k] is the CRC. *)
Definition sent_back (f : enumMqttMsgFormat) (k : Z) (e : vscpEvent) : vscpEvent :=
  Event (unix_ns_head (head e)) (match f with binfmt => 0 | _ => obid e end) (Time 0xffff 0xff (frame_ns e))
    (vscp_class e) (vscp_type e) (GUID e) (sizeData e) (pdata e) k.

Lemma sent_back_ok f k e : event_ok e -> is_u16 k -> event_ok (sent_back f k e).
Proof.
  intros He Hk. pose proof (frame_ns_ok e He). assert (Hh : is_u16 (unix_ns_head (head e))) by (rewrite <- frame_head_eq by apply He; apply frame_head_ok).
  destruct He as [? ? ? ? ? ? ? ? ?]. split; cbn [sent_back head obid etime vscp_class vscp_type GUID sizeData pdata crc]; try assumption.
  - destruct f; assumption || width.
  - split; cbn [year month timestamp_ns]; width || assumption.
Qed.

Lemma unix_ns_head_version h : unix_ns_head h / 256 mod 4 = 1.
Proof.
  unfold unix_ns_head. pose proof (Z.mod_pos_bound h 256 ltac:(lia)).
  replace (h / 1024 * 1024 + 256 + h mod 256) with (h mod 256 + (h / 1024 * 4 + 1) * 256) by lia.
  rewrite Z.div_add, Z.div_small by lia. replace (0 + (h / 1024 * 4 + 1)) with (1 + h / 1024 * 4) by lia. rewrite Z.mod_add by lia. reflexivity.
Qed.

Lemma sent_back_norm f k e : is_u16 (head e) -> norm_event (sent_back f k e) = sent_back f k e.
Proof.
  intros Hh. unfold norm_event, norm_time, set_etime. cbn [sent_back head obid etime vscp_class vscp_type GUID sizeData pdata crc timestamp_ns].
  rewrite is_unix_ns_head; [|rewrite <- frame_head_eq by exact Hh; apply frame_head_ok].
  assert (E : (unix_ns_head (head e) / 256 mod 4 =? 1) = true) by (apply Z.eqb_eq, unix_ns_head_version). rewrite E. reflexivity.
Qed.

Lemma plain_ns_positive e : event_ok e -> plain_ns (frame_ns e) ->
  (0 <? frame_ns e) = true /\ (frame_ns e <? 2 ^ 63) = true /\ event_ns e = frame_ns e.
Proof. intros He Hn. unfold plain_ns in Hn. rewrite frame_ns_eq in * by exact He. split; [apply Z.ltb_lt; lia|]. split; [apply Z.ltb_lt; lia|reflexivity]. Qed.

Section Transfer.
Context (parse : list Z -> json_result) (expat : list Z -> list sax * bool) {HP : JsonParser parse} {HX : XmlParser expat}.
Context (now : timespec) (seconds us : Z) (mem : vscpEvent) (Hmem : event_ok mem).
Context (e : vscpEvent) (He : event_ok e) (Hs : sizeData e <= 512) (Hns : plain_ns (frame_ns e)).

(** The payload of a format, and its largest length. *)
Definition event_payload (f : enumMqttMsgFormat) : list Z :=
  match f with
  | jsonfmt => object_text (event_rows e)
  | xmlfmt => element_text (str "event") (str " ") (event_xml e) (str "/>")
  | strfmt => join 44 (event_tokens e)
  | _ => 0 :: frame_of 0 e
  end.

Lemma event_payload_length f : Z.of_nat (length (event_payload f)) <= 400 + 5 * sizeData e.
Proof.
  assert (N : 0 <= sizeData e) by apply He.
  destruct f; cbn [event_payload]; [pose proof (length_event_json e He)|pose proof (length_event_element e He)|pose proof (length_event_string e He)|..]; try lia;
    cbn [length]; rewrite length_frame_of by exact He; lia.
Qed.

Lemma event_payload_format f : is_auto f = false -> payload_format (event_payload f) = Some f.
Proof. destruct f; intros Hf; [reflexivity|reflexivity|apply payload_format_string, He|reflexivity|discriminate]. Qed.

Lemma event_payload_read f : is_auto f = false ->
  exists k, is_u16 k /\ payload_event parse expat now seconds us mem f 0 (event_payload f) = Some (true, 0, Some (sent_back f k e)).
Proof.
  intros Hf. destruct (plain_ns_positive e He Hns) as (N1 & N2 & N3). assert (Hh : is_u16 (head e)) by apply He. destruct f; try discriminate; cbn [payload_event event_payload].
  - exists 0. split; [width|]. unfold vscp_convertJSONToEvent.
    rewrite (parse_object (event_rows e)) by (discriminate || apply event_rows_plain, He || apply event_rows_keys).
    rewrite event_of_rows by assumption. unfold json_back. rewrite N1, N2, frame_head_eq by exact Hh. reflexivity.
  - exists 0. split; [width|].
    assert (R : vscp_convertXMLToEvent expat seconds us 0 (Some mem) (element_text (str "event") (str " ") (event_xml e) (str "/>")) = Some (true, 0, Some (xml_back e))).
    { apply (read_element expat); [apply name_check; reflexivity|discriminate|apply event_xml_ok, He|apply event_xml_keys|left; reflexivity| |apply length_event_xml; assumption|lia].
      apply start_event; assumption. }
    rewrite R. unfold xml_back. rewrite frame_head_eq by exact Hh. reflexivity.
  - exists (crc mem). split; [apply Hmem|]. rewrite convertStringToEvent_tokens by assumption. unfold read_back. rewrite N3, N1. reflexivity.
  - eexists. split; [apply (crcFast_ok (drop 1 (frame_body 0 e)))|]. change (drop 1 (0 :: frame_of 0 e)) with (frame_of 0 e).
    rewrite getEventFromFrame_written; [|exact He|cbn [length]; rewrite length_frame_of by exact He; destruct (size_ok e He); lia].
    cbn [mbind option_bind]. unfold received. rewrite N3. destruct (Z.eqb_spec 0 (frame_ns e)); [lia|reflexivity].
Qed.

Context (render : list Z -> list (list Z * list Z) -> list Z) (with_measurement : vscpEvent -> list Z -> option (list Z * list Z)).

Lemma publish_event c t : is_auto (pformat t) = false -> vscp_isMeasurement e && m_bJsonMeasurementAdd c = false ->
  exists topic, publish_one render with_measurement c t e
  = if (match pformat t with binfmt => false | _ => payload_size <? Z.of_nat (length (event_payload (pformat t))) end) then None
    else Some (inr (Publish topic (event_payload (pformat t)) (pqos t) (pretain t))).
Proof.
  intros Hf Hj. unfold publish_one. destruct (pformat t); try discriminate; cbn [event_payload].
  - rewrite convertEventToJSON_eq by exact He. unfold json_payload. cbn [mbind option_bind]. rewrite Hj. cbn [mbind option_bind]. unfold text_payload. cbn [mbind option_bind].
    destruct (payload_size <? _); [exists []|eexists]; reflexivity.
  - unfold json_payload. cbn [mbind option_bind andb]. rewrite convertEventToXML_eq by exact He. unfold text_payload. cbn [mbind option_bind].
    destruct (payload_size <? _); [exists []|eexists]; reflexivity.
  - unfold json_payload. cbn [mbind option_bind andb]. rewrite convertEventToString_eq by exact He. unfold text_payload. cbn [mbind option_bind].
    destruct (payload_size <? _); [exists []|eexists]; reflexivity.
  - unfold json_payload. cbn [mbind option_bind andb]. unfold binary_payload.
    rewrite writeEventToFrame_fits by (exact He || (unfold payload_size; try rewrite length_replicate; unfold zeros; try rewrite length_replicate; lia)).
    cbn [mbind option_bind vscp_getFrameSizeFromEvent]. unfold VSCP_BINARY_PACKET_FRAME0_HEADER_LENGTH.
    pose proof (length_frame_of 0 e He) as L. assert (N : 0 <= sizeData e) by apply He.
    replace (take (Z.to_nat (1 + 35 + sizeData e + 2 + 1)) (0 :: frame_of 0 e ++ drop (38 + Z.to_nat (sizeData e)) (zeros (Z.to_nat payload_size - 1)))) with (0 :: frame_of 0 e).
    { eexists. reflexivity. }
    change (0 :: frame_of 0 e ++ ?x) with ((0 :: frame_of 0 e) ++ x). rewrite take_app_length'; [reflexivity|]. cbn [length]. lia.
Qed.

End Transfer.

(** ** From one client to another *)

(** What a client does with the messages of a broker, in their order. *)
Fixpoint handle_all (handle : Z -> list Z -> list Z -> state -> option (bool * Z * state)) (calls : list call) (depth : Z) (s : state) : option (Z * state) :=
  match calls with
  | Publish topic payload _ _ :: calls => '(_, depth, s) ← handle depth topic payload s; handle_all handle calls depth s
  | _ => Some (depth, s)
  end.

Definition automatic (c : config) : Prop := Forall (fun t => sformat t = autofmt) (m_mqtt_subscribeTopicList c).

Lemma subscribed_auto c topic : automatic c -> subscribed_format c topic = autofmt.
Proof.
  intros Ha. unfold subscribed_format. destruct (List.find _ _) as [t|] eqn:E; [|reflexivity].
  apply List.find_some in E as [E _]. unfold automatic in Ha. rewrite List.Forall_forall in Ha. apply Ha, E.
Qed.

Section Delivery.
Context (parse : list Z -> json_result) (expat : list Z -> list sax * bool) {HP : JsonParser parse} {HX : XmlParser expat}.
Context (now : timespec) (seconds us : Z) (mem fresh_mem : vscpEvent) (xmem : vscpEventEx).
Context (Hmem : event_ok mem) (Hfresh : time_ok (etime fresh_mem)) (Hxmem : eventex_ok xmem).
Context (e : vscpEvent) (He : event_ok e) (Hs : sizeData e <= 124) (Hns : plain_ns (frame_ns e)).
Context (c c' : config) (Ha : automatic c') (Hev : isCallbackEvActive c' = false) (Hex : isCallbackExActive c' = false).

Notation handle := (handleMessage parse expat now seconds us mem fresh_mem xmem c').

Lemma handle_payload f topic s : is_auto f = false -> Z.of_nat (length (m_receiveQueue s)) < MQTT_MAX_INQUEUE_SIZE ->
  exists k, is_u16 k /\ handle 0 topic (event_payload e f) s
  = Some (true, 0, set_queue (m_receiveQueue s ++ [Some (sent_back f k e)]) (posts s + 1) s).
Proof.
  intros Hf Hq. destruct (event_payload_read parse expat now seconds us mem Hmem e He ltac:(lia) Hns f Hf) as (k & Hk & R). exists k. split; [exact Hk|].
  assert (B := sent_back_ok f k e He Hk). unfold handleMessage. rewrite subscribed_auto by exact Ha. cbn [is_auto]. rewrite event_payload_format by assumption.
  assert (N : (length (event_payload e f) =? 0)%nat = false) by (assert (P := event_payload_format e He f Hf); destruct (event_payload e f); [discriminate P|reflexivity]).
  rewrite N, R. cbn [mbind option_bind]. rewrite convertEventToEventEx_eq by (assumption || (cbn [sent_back sizeData]; lia)). cbn [mbind option_bind].
  unfold deliver. rewrite Hev, Hex, copyEvent_into by assumption. rewrite sent_back_norm by apply He.
  assert (M : (sizeData (sent_back f k e) <=? VSCP_LEVEL2_MAXDATA) = true) by (apply Z.leb_le; cbn [sent_back sizeData]; unfold VSCP_LEVEL2_MAXDATA; lia).
  rewrite M. cbn [mbind option_bind negb]. assert (Q : (Z.of_nat (length (m_receiveQueue s)) <? MQTT_MAX_INQUEUE_SIZE) = true) by (apply Z.ltb_lt, Hq).
  rewrite Q. reflexivity.
Qed.

Context (render : list Z -> list (list Z * list Z) -> list Z) (with_measurement : vscpEvent -> list Z -> option (list Z * list Z)).

Definition arrives (t : publishTopic) (o : option vscpEvent) : Prop := exists k, is_u16 k /\ o = Some (sent_back (pformat t) k e).
Definition active (ts : list publishTopic) : list publishTopic := List.filter pactive ts.
Definition published (ts : list publishTopic) : option (Z * list call) :=
  publish_all (fun t => if pactive t then Some <$> publish_one render with_measurement c t e else Some None) ts.

Lemma deliver_topics ts : vscp_isMeasurement e && m_bJsonMeasurementAdd c = false -> Forall (fun t => is_auto (pformat t) = false) ts ->
  forall s, Z.of_nat (length (m_receiveQueue s) + length (active ts)) <= MQTT_MAX_INQUEUE_SIZE ->
  exists calls events, published ts = Some (VSCP_ERROR_SUCCESS, calls)
    /\ Forall2 arrives (active ts) events
    /\ handle_all handle calls 0 s = Some (0, set_queue (m_receiveQueue s ++ events) (posts s + Z.of_nat (length events)) s).
Proof.
  intros Hj. unfold published, active. induction 1 as [|t ts Ht _ IH]; intros s Hq.
  - exists [], []. split; [reflexivity|]. split; [constructor|]. cbn [handle_all length]. rewrite app_nil_r, Z.add_0_r. destruct s; reflexivity.
  - cbn [publish_all List.filter] in *. destruct (pactive t); [|apply IH, Hq].
    destruct (publish_event e He ltac:(lia) render with_measurement c t Ht Hj) as [topic P]. rewrite P. clear P.
    assert (L : (match pformat t with binfmt => false | _ => payload_size <? Z.of_nat (length (event_payload e (pformat t))) end) = false).
    { pose proof (event_payload_length e He (pformat t)) as L. unfold payload_size. destruct (pformat t); try reflexivity; apply Z.ltb_ge; lia. }
    rewrite L. clear L. cbn [length] in Hq.
    destruct (handle_payload (pformat t) topic s Ht ltac:(lia)) as (k & Hk & R).
    destruct (IH (set_queue (m_receiveQueue s ++ [Some (sent_back (pformat t) k e)]) (posts s + 1) s)) as (calls & events & P & A & H).
    { cbn [set_queue m_receiveQueue]. rewrite length_app. cbn [length]. lia. }
    exists (Publish topic (event_payload e (pformat t)) (pqos t) (pretain t) :: calls), (Some (sent_back (pformat t) k e) :: events).
    split; [|split].
    + cbn [fmap option_fmap option_map mbind option_bind]. rewrite P. reflexivity.
    + constructor; [exists k; auto|exact A].
    + cbn [handle_all]. rewrite R. cbn [mbind option_bind]. rewrite H. unfold set_queue. cbn [m_receiveQueue posts m_bConnected given m_filter length].
      rewrite <- app_assoc. cbn [app]. do 3 f_equal. lia.
Qed.

(** What [n] calls of receive give. *)
Fixpoint receive_all (to : vscpEvent) (n : nat) (s : state) : option (list (Z * option vscpEvent) * state) :=
  match n with
  | O => Some ([], s)
  | S n => '(rv, ev, s) ← receive (Some to) s; '(rest, s) ← receive_all to n s; Some ((rv, ev) :: rest, s)
  end.

Lemma receive_events to ts events s n : time_ok (etime to) -> Forall2 arrives ts events ->
  receive_all to (length ts) (set_queue events n s) = Some (map (fun o => (VSCP_ERROR_SUCCESS, o)) events, set_queue [] n s).
Proof.
  intros Ht. induction 1 as [|t o ts events (k & Hk & ->) _ IH]; [reflexivity|]. assert (B := sent_back_ok (pformat t) k e He Hk).
  cbn [length receive_all map]. unfold receive, receive_with. cbn [set_queue m_receiveQueue]. rewrite copyEvent_into by assumption. rewrite sent_back_norm by apply He.
  assert (M : (sizeData (sent_back (pformat t) k e) <=? VSCP_LEVEL2_MAXDATA) = true) by (apply Z.leb_le; cbn [sent_back sizeData]; unfold VSCP_LEVEL2_MAXDATA; lia).
  rewrite M. cbn [mbind option_bind]. unfold set_queue in *. cbn [m_receiveQueue posts m_bConnected given m_filter] in *. rewrite IH. reflexivity.
Qed.

End Delivery.

(** C25: send publishes an event of up to 124 bytes to every active topic of the list,
    in the format of the topic, and returns success; a client with automatic
    subscriptions and no callback, given the messages of the broker in their order,
    queues one event for each, in order, and posts its semaphore as often; its
    receive then hands them out.  Each has the fields of the event that was sent,
    with the head marked as nanoseconds, in all four formats, but for the obid, which a binary
    frame does not hold, and for the CRC field. *)
Theorem mqtt_delivers
    (render : list Z -> list (list Z * list Z) -> list Z) (with_measurement : vscpEvent -> list Z -> option (list Z * list Z))
    (parse : list Z -> json_result) (expat : list Z -> list sax * bool) (now : timespec) (seconds us : Z)
    (mem fresh_mem to : vscpEvent) (xmem : vscpEventEx) (e : vscpEvent) (c c' : config) (s : state) :
  JsonParser parse -> XmlParser expat -> event_ok mem -> time_ok (etime fresh_mem) -> time_ok (etime to) -> eventex_ok xmem ->
  event_ok e -> sizeData e <= 124 -> plain_ns (frame_ns e) -> vscp_isMeasurement e && m_bJsonMeasurementAdd c = false ->
  Forall (fun t => is_auto (pformat t) = false) (m_mqtt_publishTopicList c) -> automatic c' ->
  isCallbackEvActive c' = false -> isCallbackExActive c' = false ->
  m_receiveQueue s = [] -> Z.of_nat (length (m_mqtt_publishTopicList c)) <= MQTT_MAX_INQUEUE_SIZE ->
  let topics := active (m_mqtt_publishTopicList c) in
  exists calls events, send render with_measurement c e = Some (VSCP_ERROR_SUCCESS, calls)
    /\ Forall2 (fun t o => exists k, is_u16 k /\ o = Some (sent_back (pformat t) k e)) topics events
    /\ exists s', handle_all (handleMessage parse expat now seconds us mem fresh_mem xmem c') calls 0 s = Some (0, s')
    /\ m_receiveQueue s' = events /\ posts s' = posts s + Z.of_nat (length topics)
    /\ receive_all to (length topics) s' = Some (map (fun o => (VSCP_ERROR_SUCCESS, o)) events, set_queue [] (posts s') s').
Proof.
  intros HP HX Hmem Hf Hto Hx He Hs Hns Hj Ht Ha Hev Hex Hq Hl topics.
  assert (La : (length topics <= length (m_mqtt_publishTopicList c))%nat) by apply List.filter_length_le.
  destruct (deliver_topics parse expat now seconds us mem fresh_mem xmem Hmem Hf Hx e He Hs Hns c c' Ha Hev Hex render with_measurement
    (m_mqtt_publishTopicList c) Hj Ht s) as (calls & events & P & A & H); [rewrite Hq; cbn [length]; fold topics; lia|].
  exists calls, events. split; [exact P|]. split; [exact A|]. eexists. split; [exact H|]. rewrite Hq. cbn [app set_queue m_receiveQueue posts].
  split; [reflexivity|]. split; [apply Forall2_length in A; do 2 f_equal; symmetry; exact A|]. apply (receive_events e He Hs to topics events s); assumption.
Qed.

Definition sample_config (topics : list publishTopic) (subs : list subscribeTopic) : config :=
  Config topics subs false false true false false (str "client") (str "user") (str "host") (zeros 16) (zeros 16) None None [] [] [] false.
Definition sample_topic (f : enumMqttMsgFormat) (b : bool) : publishTopic := PublishTopic (str "vscp/{{guid}}") f 0 false b.
Definition sample_state : state := State true [] 0 [] sample_filter.
Definition sample_topics : list publishTopic := [sample_topic jsonfmt true; sample_topic xmlfmt false; sample_topic xmlfmt true; sample_topic strfmt true; sample_topic binfmt true].

Lemma mqtt_delivers_witness :
  let c := sample_config sample_topics [] in
  let c' := sample_config [] [SubscribeTopic (str "vscp/#") autofmt 0 true] in
  exists calls events, send (fun t _ => t) (fun _ _ => None) c sample_event = Some (VSCP_ERROR_SUCCESS, calls)
    /\ Forall2 (fun t o => exists k, is_u16 k /\ o = Some (sent_back (pformat t) k sample_event)) (active (m_mqtt_publishTopicList c)) events
    /\ exists s', handle_all (handleMessage own_parse own_sax (Timespec 0 0) 1704067200 17 zero_event zero_event sample_ex c') calls 0 sample_state = Some (0, s')
    /\ m_receiveQueue s' = events /\ posts s' = posts sample_state + Z.of_nat (length (active (m_mqtt_publishTopicList c)))
    /\ receive_all zero_event (length (active (m_mqtt_publishTopicList c))) s' = Some (map (fun o => (VSCP_ERROR_SUCCESS, o)) events, set_queue [] (posts s') s').
Proof.
  apply (mqtt_delivers (fun t _ => t) (fun _ _ => None) own_parse own_sax (Timespec 0 0) 1704067200 17 zero_event zero_event zero_event sample_ex sample_event
    (sample_config sample_topics []) (sample_config [] [SubscribeTopic (str "vscp/#") autofmt 0 true]) sample_state);
    [exact own_parser|exact own_xml|exact zero_event_ok|apply zero_event_ok|apply zero_event_ok|exact sample_ex_ok|exact sample_event_ok
    |vm_compute; discriminate|split; reflexivity|reflexivity|repeat constructor|repeat constructor|reflexivity|reflexivity|reflexivity|vm_compute; discriminate].
Defined.

(** ** The queue and its semaphore *)

(** What may happen to a client: calls of the library from its thread, and calls of
    the application. *)
Inductive operation :=
  | OnConnect | OnConnectFlags | OnConnectV5 | OnDisconnect | OnDisconnectV5
  | Message (depth : Z) (topic payload : list Z)
  | Receive (ev : option vscpEvent) | ReceiveEx (ex : option vscpEventEx) | ReceiveCanal (msg : option canalMsg)
  | Blocking (timedout : bool) (ev : option vscpEvent) | BlockingEx (timedout : bool) (ex : option vscpEventEx)
  | BlockingCanal (timedout : bool) (msg : option canalMsg)
  | Clear | Setfilter (f : vscpEventFilter).

Section Queue.
Context (render : list Z -> list (list Z * list Z) -> list Z).
Context (parse : list Z -> json_result) (expat : list Z -> list sax * bool) (now : timespec) (seconds us : Z).
Context (mem fresh_mem : vscpEvent) (xmem : vscpEventEx) (c : config).

Definition run_operation (o : operation) (s : state) : option state :=
  match o with
  | OnConnect => Some (fst (mqtt_on_connect render c s))
  | OnConnectFlags => Some (fst (mqtt_on_connect_flags render c s))
  | OnConnectV5 => Some (fst (mqtt_on_connect_v5 c s))
  | OnDisconnect => Some (mqtt_on_disconnect s)
  | OnDisconnectV5 => Some (mqtt_on_disconnect_v5 s)
  | Message depth topic payload => '(_, s) ← handleMessage parse expat now seconds us mem fresh_mem xmem c depth topic payload s; Some s
  | Receive ev => '(_, s) ← receive ev s; Some s
  | ReceiveEx ex => '(_, s) ← receive_ex ex s; Some s
  | ReceiveCanal msg => '(_, s) ← receive_canal msg s; Some s
  | Blocking b ev => '(_, s) ← receiveBlocking b (receive ev) ev s; Some s
  | BlockingEx b ex => '(_, s) ← receiveBlocking b (receive_ex ex) ex s; Some s
  | BlockingCanal b msg => '(_, s) ← receiveBlocking b (receive_canal msg) msg s; Some s
  | Clear => Some (clear s)
  | Setfilter f => Some (setfilter f s)
  end.

Fixpoint run_operations (os : list operation) (s : state) : option state :=
  match os with
  | [] => Some s
  | o :: os => s ← run_operation o s; run_operations os s
  end.

(** At most 2000 events, each of them there, and a post for each. *)
Definition queue_ok (s : state) : Prop :=
  Z.of_nat (length (m_receiveQueue s)) <= MQTT_MAX_INQUEUE_SIZE /\ Z.of_nat (length (m_receiveQueue s)) <= posts s
  /\ Forall is_Some (m_receiveQueue s).

Lemma receive_with_queue {A} (get : vscpEvent -> option (bool * A)) a s r s' : receive_with get a s = Some (r, s') ->
  m_receiveQueue s' = tail (m_receiveQueue s) /\ posts s' = posts s.
Proof.
  unfold receive_with. destruct (m_receiveQueue s) as [|[ev|] q] eqn:Q; intros E.
  - injection E as _ <-. rewrite Q. split; reflexivity.
  - destruct (get ev) as [[ok x]|]; cbn [mbind option_bind] in E; [|discriminate]. injection E as _ <-. split; reflexivity.
  - injection E as _ <-. split; reflexivity.
Qed.

(** The queue loses its head, and the semaphore a post or none. *)
Lemma queue_ok_tail s s' : queue_ok s -> m_receiveQueue s' = tail (m_receiveQueue s) -> posts s' = posts s \/ 0 < posts s /\ posts s' = posts s - 1 -> queue_ok s'.
Proof.
  intros (H1 & H2 & H3) Q P. unfold queue_ok. rewrite Q. destruct (m_receiveQueue s) as [|p q]; cbn [tail length] in *.
  - split; [exact H1|]. split; [lia|constructor].
  - apply List.Forall_inv_tail in H3. split; [lia|]. split; [lia|exact H3].
Qed.

Lemma queue_ok_received {A} (get : vscpEvent -> option (bool * A)) a s r s' : queue_ok s -> receive_with get a s = Some (r, s') -> queue_ok s'.
Proof. intros H E. apply receive_with_queue in E as [Q P]. apply (queue_ok_tail s); auto. Qed.

Lemma queue_ok_blocking {A} (get : vscpEvent -> option (bool * A)) a timedout s r s' :
  queue_ok s -> receiveBlocking timedout (receive_with get a) a s = Some (r, s') -> queue_ok s'.
Proof.
  intros H E. unfold receiveBlocking in E. destruct (Z.ltb_spec 0 (posts s)) as [L|L].
  - apply receive_with_queue in E as [Q P]. apply (queue_ok_tail s); auto.
  - injection E as _ <-. exact H.
Qed.

Lemma copy_there e0 e copy : vscp_copyEvent (Some e0) (Some e) = Some (true, copy) -> is_Some copy.
Proof.
  unfold vscp_copyEvent. destruct (VSCP_LEVEL2_MAXDATA <? sizeData e); [discriminate|].
  intros E. apply bind_Some in E as (data & _ & E). injection E as <-. eauto.
Qed.

Lemma queue_ok_delivered ev ex s ok s' : queue_ok s -> deliver fresh_mem c ev ex s = Some (ok, s') -> queue_ok s'.
Proof.
  intros (H1 & H2 & H3) E. unfold deliver in E. destruct (isCallbackEvActive c); [injection E as _ <-; repeat split; assumption|].
  destruct (isCallbackExActive c); [injection E as _ <-; repeat split; assumption|].
  apply bind_Some in E as ([[|] copy] & C & E); cbn [negb] in E; [|injection E as _ <-; repeat split; assumption].
  destruct (Z.ltb_spec (Z.of_nat (length (m_receiveQueue s))) MQTT_MAX_INQUEUE_SIZE); injection E as _ <-; [|repeat split; assumption].
  apply copy_there in C. unfold queue_ok. cbn [set_queue m_receiveQueue posts]. rewrite length_app. cbn [length].
  split; [lia|]. split; [lia|]. apply Forall_app. auto.
Qed.

Lemma queue_ok_handled depth topic payload s r s' : queue_ok s ->
  handleMessage parse expat now seconds us mem fresh_mem xmem c depth topic payload s = Some (r, s') -> queue_ok s'.
Proof.
  intros H E. unfold handleMessage in E. destruct (length payload =? 0)%nat; [injection E as _ <-; exact H|].
  destruct (if is_auto (subscribed_format c topic) then _ else _) as [f|]; [|injection E as _ <-; exact H].
  apply bind_Some in E as ([[[|] d] [ev|]] & _ & E); try (injection E as _ <-; exact H).
  apply bind_Some in E as ([[|] [ex|]] & _ & E); try (injection E as _ <-; exact H).
  apply bind_Some in E as ([ok s1] & D & E). injection E as _ <-. exact (queue_ok_delivered _ _ _ _ _ H D).
Qed.

Lemma queue_ok_clear s : queue_ok s -> queue_ok (clear s).
Proof. intros (H1 & H2 & H3). unfold queue_ok, MQTT_MAX_INQUEUE_SIZE. cbn [clear set_queue m_receiveQueue posts length]. split; [lia|]. split; [lia|constructor]. Qed.

Lemma queue_ok_step o s s' : queue_ok s -> run_operation o s = Some s' -> queue_ok s'.
Proof.
  intros H E. destruct o; cbn [run_operation] in E;
    try (apply bind_Some in E as ([r s1] & D & E); injection E as <-);
    try (injection E as <-; first [exact H | apply queue_ok_clear, H]).
  - exact (queue_ok_handled _ _ _ _ _ _ H D).
  - exact (queue_ok_received _ _ _ _ _ H D).
  - exact (queue_ok_received _ _ _ _ _ H D).
  - exact (queue_ok_received _ _ _ _ _ H D).
  - exact (queue_ok_blocking _ _ _ _ _ _ H D).
  - exact (queue_ok_blocking _ _ _ _ _ _ H D).
  - exact (queue_ok_blocking _ _ _ _ _ _ H D).
Qed.

End Queue.

Definition start (b : bool) (g : list (vscpEvent + vscpEventEx)) (f : vscpEventFilter) : state := State b [] 0 g f.

(** C26: Whatever the broker sends and the application calls, in whatever order: the
    queue holds at most 2000 events, getcount is their number, and the
    semaphore has a post for each of them, so while there is an event no call of
    receiveBlocking waits: it does what receive does. *)
Theorem mqtt_queue_invariant
    (render : list Z -> list (list Z * list Z) -> list Z) (parse : list Z -> json_result) (expat : list Z -> list sax * bool)
    (now : timespec) (seconds us : Z) (mem fresh_mem : vscpEvent) (xmem : vscpEventEx) (c : config)
    (b : bool) (g : list (vscpEvent + vscpEventEx)) (f : vscpEventFilter) (os : list operation) (s : state) :
  run_operations render parse expat now seconds us mem fresh_mem xmem c os (start b g f) = Some s ->
  (length (m_receiveQueue s) <= 2000)%nat /\ getcount s = Z.of_nat (length (m_receiveQueue s))
  /\ Forall is_Some (m_receiveQueue s) /\ Z.of_nat (length (m_receiveQueue s)) <= posts s
  /\ (m_receiveQueue s <> [] -> forall timedout ev ex msg,
        let taken := set_queue (m_receiveQueue s) (posts s - 1) s in
        receiveBlocking timedout (receive ev) ev s = receive ev taken
        /\ receiveBlocking timedout (receive_ex ex) ex s = receive_ex ex taken
        /\ receiveBlocking timedout (receive_canal msg) msg s = receive_canal msg taken).
Proof.
  intros E. assert (H : queue_ok s).
  { assert (H0 : queue_ok (start b g f)) by (split; [discriminate|split; [discriminate|constructor]]).
    revert H0 E. generalize (start b g f). induction os as [|o os IH]; intros s0 H0 E; cbn [run_operations] in E; [injection E as <-; exact H0|].
    apply bind_Some in E as (s1 & E1 & E). exact (IH s1 (queue_ok_step _ _ _ _ _ _ _ _ _ _ _ _ _ H0 E1) E). }
  destruct H as (H1 & H2 & H3). unfold MQTT_MAX_INQUEUE_SIZE in H1. split; [lia|]. split; [unfold getcount; apply u16_id; width|]. split; [exact H3|]. split; [exact H2|].
  intros N timedout ev ex msg. assert (P : (0 <? posts s) = true) by (destruct (m_receiveQueue s); [congruence|apply Z.ltb_lt; cbn [length] in H2; lia]).
  unfold receiveBlocking. rewrite P. repeat split; reflexivity.
Qed.

Lemma mqtt_queue_invariant_witness :
  let c := sample_config [] [] in
  let os := [OnConnect; Message 0 (str "vscp") (event_payload sample_event strfmt); Message 0 (str "vscp") (event_payload sample_event binfmt); Receive (Some zero_event)] in
  exists s, run_operations (fun t _ => t) own_parse own_sax (Timespec 0 0) 1704067200 17 zero_event zero_event sample_ex c os (start false [] sample_filter) = Some s
    /\ m_receiveQueue s <> [] /\ (length (m_receiveQueue s) <= 2000)%nat.
Proof.
  eexists. split; [vm_compute; reflexivity|]. split; [vm_compute; discriminate|].
  refine (proj1 (mqtt_queue_invariant (fun t _ => t) own_parse own_sax (Timespec 0 0) 1704067200 17 zero_event zero_event sample_ex (sample_config [] []) false [] sample_filter
    [OnConnect; Message 0 (str "vscp") (event_payload sample_event strfmt); Message 0 (str "vscp") (event_payload sample_event binfmt); Receive (Some zero_event)] _ _)).
  vm_compute. reflexivity.
Defined.

(** C27: send has room for every event of up to 124 bytes, and for the largest one in
    the binary format.  The XML and string forms of an event with 206 bytes or
    more do not fit into its buffer of 1024 bytes: it writes beyond the buffer. *)
Theorem mqtt_payload_bounds
    (render : list Z -> list (list Z * list Z) -> list Z) (with_measurement : vscpEvent -> list Z -> option (list Z * list Z))
    (c : config) (t : publishTopic) (e : vscpEvent) :
  event_ok e -> sizeData e <= 512 -> is_auto (pformat t) = false -> vscp_isMeasurement e && m_bJsonMeasurementAdd c = false ->
  (sizeData e <= 124 \/ pformat t = binfmt -> exists topic payload, publish_one render with_measurement c t e = Some (inr (Publish topic payload (pqos t) (pretain t)))
     /\ (length payload <= 1024)%nat)
  /\ (206 <= sizeData e -> pformat t = xmlfmt \/ pformat t = strfmt -> publish_one render with_measurement c t e = None).
Proof.
  intros He Hs Hf Hj. destruct (publish_event e He Hs render with_measurement c t Hf Hj) as [topic P]. rewrite P. clear P. unfold payload_size. split.
  - intros Hb. exists topic, (event_payload e (pformat t)). pose proof (event_payload_length e He (pformat t)) as L.
    destruct Hb as [Hb|Hb].
    + assert (N : (1024 <? Z.of_nat (length (event_payload e (pformat t)))) = false) by (apply Z.ltb_ge; lia). rewrite N.
      split; [destruct (pformat t); reflexivity|lia].
    + rewrite Hb. split; [reflexivity|]. cbn [event_payload length]. rewrite length_frame_of by exact He. lia.
  - intros Hb Hx.
    assert (N : (1024 <? Z.of_nat (length (event_payload e (pformat t)))) = true).
    { pose proof (event_element_longer e He). pose proof (event_string_longer e He). apply Z.ltb_lt. destruct Hx as [-> | ->]; cbn [event_payload]; lia. }
    rewrite N. destruct Hx as [-> | ->]; reflexivity.
Qed.

Definition large_event : vscpEvent :=
  Event 0x0160 7 (Time 0xffff 0xff 1704067199123456789) 512 6 (GUID sample_event) 300 (Some (replicate 300 1)) 0.

Lemma large_event_ok : event_ok large_event.
Proof.
  split; cbn [large_event head obid etime vscp_class vscp_type GUID sizeData pdata crc data_ok]; try width; [apply sample_event_ok|apply sample_event_ok|].
  split; [width|]. split; [reflexivity|]. apply Forall_replicate. width.
Qed.

Lemma mqtt_payload_bounds_witness : publish_one (fun t _ => t) (fun _ _ => None) (sample_config sample_topics []) (sample_topic xmlfmt true) large_event = None.
Proof.
  apply (mqtt_payload_bounds (fun t _ => t) (fun _ _ => None) (sample_config sample_topics []) (sample_topic xmlfmt true) large_event large_event_ok);
    [discriminate|reflexivity|reflexivity|discriminate|left; reflexivity].
Defined.
