(* ===== verification/Aes.v ===== *)
(** * AES: src/src/common/vscp-aes.c

    The block cipher with 128, 192 and 256-bit keys, and its CBC mode.  The
    state is the list of its 16 bytes in memory order: the element
    (i, j) of [state_t] is byte [4 i + j], so every column is four adjacent bytes. *)

From Stdlib Require Import Btauto.
From S2P Require Import Prelude.

(** ** Constants of vscp-aes.c and vscp-aes.h *)

Definition BLOCKLEN : nat := 16.
Definition AES128 : Z := 0.
Definition AES192 : Z := 1.
Definition AES256 : Z := 2.

Definition sbox : list Z :=
  [0x63; 0x7c; 0x77; 0x7b; 0xf2; 0x6b; 0x6f; 0xc5; 0x30; 0x01; 0x67; 0x2b; 0xfe; 0xd7; 0xab; 0x76;
   0xca; 0x82; 0xc9; 0x7d; 0xfa; 0x59; 0x47; 0xf0; 0xad; 0xd4; 0xa2; 0xaf; 0x9c; 0xa4; 0x72; 0xc0;
   0xb7; 0xfd; 0x93; 0x26; 0x36; 0x3f; 0xf7; 0xcc; 0x34; 0xa5; 0xe5; 0xf1; 0x71; 0xd8; 0x31; 0x15;
   0x04; 0xc7; 0x23; 0xc3; 0x18; 0x96; 0x05; 0x9a; 0x07; 0x12; 0x80; 0xe2; 0xeb; 0x27; 0xb2; 0x75;
   0x09; 0x83; 0x2c; 0x1a; 0x1b; 0x6e; 0x5a; 0xa0; 0x52; 0x3b; 0xd6; 0xb3; 0x29; 0xe3; 0x2f; 0x84;
   0x53; 0xd1; 0x00; 0xed; 0x20; 0xfc; 0xb1; 0x5b; 0x6a; 0xcb; 0xbe; 0x39; 0x4a; 0x4c; 0x58; 0xcf;
   0xd0; 0xef; 0xaa; 0xfb; 0x43; 0x4d; 0x33; 0x85; 0x45; 0xf9; 0x02; 0x7f; 0x50; 0x3c; 0x9f; 0xa8;
   0x51; 0xa3; 0x40; 0x8f; 0x92; 0x9d; 0x38; 0xf5; 0xbc; 0xb6; 0xda; 0x21; 0x10; 0xff; 0xf3; 0xd2;
   0xcd; 0x0c; 0x13; 0xec; 0x5f; 0x97; 0x44; 0x17; 0xc4; 0xa7; 0x7e; 0x3d; 0x64; 0x5d; 0x19; 0x73;
   0x60; 0x81; 0x4f; 0xdc; 0x22; 0x2a; 0x90; 0x88; 0x46; 0xee; 0xb8; 0x14; 0xde; 0x5e; 0x0b; 0xdb;
   0xe0; 0x32; 0x3a; 0x0a; 0x49; 0x06; 0x24; 0x5c; 0xc2; 0xd3; 0xac; 0x62; 0x91; 0x95; 0xe4; 0x79;
   0xe7; 0xc8; 0x37; 0x6d; 0x8d; 0xd5; 0x4e; 0xa9; 0x6c; 0x56; 0xf4; 0xea; 0x65; 0x7a; 0xae; 0x08;
   0xba; 0x78; 0x25; 0x2e; 0x1c; 0xa6; 0xb4; 0xc6; 0xe8; 0xdd; 0x74; 0x1f; 0x4b; 0xbd; 0x8b; 0x8a;
   0x70; 0x3e; 0xb5; 0x66; 0x48; 0x03; 0xf6; 0x0e; 0x61; 0x35; 0x57; 0xb9; 0x86; 0xc1; 0x1d; 0x9e;
   0xe1; 0xf8; 0x98; 0x11; 0x69; 0xd9; 0x8e; 0x94; 0x9b; 0x1e; 0x87; 0xe9; 0xce; 0x55; 0x28; 0xdf;
   0x8c; 0xa1; 0x89; 0x0d; 0xbf; 0xe6; 0x42; 0x68; 0x41; 0x99; 0x2d; 0x0f; 0xb0; 0x54; 0xbb; 0x16].

Definition rsbox : list Z :=
  [0x52; 0x09; 0x6a; 0xd5; 0x30; 0x36; 0xa5; 0x38; 0xbf; 0x40; 0xa3; 0x9e; 0x81; 0xf3; 0xd7; 0xfb;
   0x7c; 0xe3; 0x39; 0x82; 0x9b; 0x2f; 0xff; 0x87; 0x34; 0x8e; 0x43; 0x44; 0xc4; 0xde; 0xe9; 0xcb;
   0x54; 0x7b; 0x94; 0x32; 0xa6; 0xc2; 0x23; 0x3d; 0xee; 0x4c; 0x95; 0x0b; 0x42; 0xfa; 0xc3; 0x4e;
   0x08; 0x2e; 0xa1; 0x66; 0x28; 0xd9; 0x24; 0xb2; 0x76; 0x5b; 0xa2; 0x49; 0x6d; 0x8b; 0xd1; 0x25;
   0x72; 0xf8; 0xf6; 0x64; 0x86; 0x68; 0x98; 0x16; 0xd4; 0xa4; 0x5c; 0xcc; 0x5d; 0x65; 0xb6; 0x92;
   0x6c; 0x70; 0x48; 0x50; 0xfd; 0xed; 0xb9; 0xda; 0x5e; 0x15; 0x46; 0x57; 0xa7; 0x8d; 0x9d; 0x84;
   0x90; 0xd8; 0xab; 0x00; 0x8c; 0xbc; 0xd3; 0x0a; 0xf7; 0xe4; 0x58; 0x05; 0xb8; 0xb3; 0x45; 0x06;
   0xd0; 0x2c; 0x1e; 0x8f; 0xca; 0x3f; 0x0f; 0x02; 0xc1; 0xaf; 0xbd; 0x03; 0x01; 0x13; 0x8a; 0x6b;
   0x3a; 0x91; 0x11; 0x41; 0x4f; 0x67; 0xdc; 0xea; 0x97; 0xf2; 0xcf; 0xce; 0xf0; 0xb4; 0xe6; 0x73;
   0x96; 0xac; 0x74; 0x22; 0xe7; 0xad; 0x35; 0x85; 0xe2; 0xf9; 0x37; 0xe8; 0x1c; 0x75; 0xdf; 0x6e;
   0x47; 0xf1; 0x1a; 0x71; 0x1d; 0x29; 0xc5; 0x89; 0x6f; 0xb7; 0x62; 0x0e; 0xaa; 0x18; 0xbe; 0x1b;
   0xfc; 0x56; 0x3e; 0x4b; 0xc6; 0xd2; 0x79; 0x20; 0x9a; 0xdb; 0xc0; 0xfe; 0x78; 0xcd; 0x5a; 0xf4;
   0x1f; 0xdd; 0xa8; 0x33; 0x88; 0x07; 0xc7; 0x31; 0xb1; 0x12; 0x10; 0x59; 0x27; 0x80; 0xec; 0x5f;
   0x60; 0x51; 0x7f; 0xa9; 0x19; 0xb5; 0x4a; 0x0d; 0x2d; 0xe5; 0x7a; 0x9f; 0x93; 0xc9; 0x9c; 0xef;
   0xa0; 0xe0; 0x3b; 0x4d; 0xae; 0x2a; 0xf5; 0xb0; 0xc8; 0xeb; 0xbb; 0x3c; 0x83; 0x53; 0x99; 0x61;
   0x17; 0x2b; 0x04; 0x7e; 0xba; 0x77; 0xd6; 0x26; 0xe1; 0x69; 0x14; 0x63; 0x55; 0x21; 0x0c; 0x7d].

Definition Rcon : list Z :=
  [0x8d; 0x01; 0x02; 0x04; 0x08; 0x10; 0x20; 0x40; 0x80; 0x1b; 0x36; 0x6c; 0xd8; 0xab; 0x4d; 0x9a;
   0x2f; 0x5e; 0xbc; 0x63; 0xc6; 0x97; 0x35; 0x6a; 0xd4; 0xb3; 0x7d; 0xfa; 0xef; 0xc5; 0x91; 0x39;
   0x72; 0xe4; 0xd3; 0xbd; 0x61; 0xc2; 0x9f; 0x25; 0x4a; 0x94; 0x33; 0x66; 0xcc; 0x83; 0x1d; 0x3a;
   0x74; 0xe8; 0xcb; 0x8d; 0x01; 0x02; 0x04; 0x08; 0x10; 0x20; 0x40; 0x80; 0x1b; 0x36; 0x6c; 0xd8;
   0xab; 0x4d; 0x9a; 0x2f; 0x5e; 0xbc; 0x63; 0xc6; 0x97; 0x35; 0x6a; 0xd4; 0xb3; 0x7d; 0xfa; 0xef;
   0xc5; 0x91; 0x39; 0x72; 0xe4; 0xd3; 0xbd; 0x61; 0xc2; 0x9f; 0x25; 0x4a; 0x94; 0x33; 0x66; 0xcc;
   0x83; 0x1d; 0x3a; 0x74; 0xe8; 0xcb; 0x8d; 0x01; 0x02; 0x04; 0x08; 0x10; 0x20; 0x40; 0x80; 0x1b;
   0x36; 0x6c; 0xd8; 0xab; 0x4d; 0x9a; 0x2f; 0x5e; 0xbc; 0x63; 0xc6; 0x97; 0x35; 0x6a; 0xd4; 0xb3;
   0x7d; 0xfa; 0xef; 0xc5; 0x91; 0x39; 0x72; 0xe4; 0xd3; 0xbd; 0x61; 0xc2; 0x9f; 0x25; 0x4a; 0x94;
   0x33; 0x66; 0xcc; 0x83; 0x1d; 0x3a; 0x74; 0xe8; 0xcb; 0x8d; 0x01; 0x02; 0x04; 0x08; 0x10; 0x20;
   0x40; 0x80; 0x1b; 0x36; 0x6c; 0xd8; 0xab; 0x4d; 0x9a; 0x2f; 0x5e; 0xbc; 0x63; 0xc6; 0x97; 0x35;
   0x6a; 0xd4; 0xb3; 0x7d; 0xfa; 0xef; 0xc5; 0x91; 0x39; 0x72; 0xe4; 0xd3; 0xbd; 0x61; 0xc2; 0x9f;
   0x25; 0x4a; 0x94; 0x33; 0x66; 0xcc; 0x83; 0x1d; 0x3a; 0x74; 0xe8; 0xcb; 0x8d; 0x01; 0x02; 0x04;
   0x08; 0x10; 0x20; 0x40; 0x80; 0x1b; 0x36; 0x6c; 0xd8; 0xab; 0x4d; 0x9a; 0x2f; 0x5e; 0xbc; 0x63;
   0xc6; 0x97; 0x35; 0x6a; 0xd4; 0xb3; 0x7d; 0xfa; 0xef; 0xc5; 0x91; 0x39; 0x72; 0xe4; 0xd3; 0xbd;
   0x61; 0xc2; 0x9f; 0x25; 0x4a; 0x94; 0x33; 0x66; 0xcc; 0x83; 0x1d; 0x3a; 0x74; 0xe8; 0xcb; 0x8d].

Definition getSBoxValue (num : Z) : Z := nth (Z.to_nat num) sbox 0.
Definition getSBoxInvert (num : Z) : Z := nth (Z.to_nat num) rsbox 0.

(** ** Key schedule *)

(** The key parameters set by [init]: the type, the number [Nk] of 32-bit words
    of the key, its length and the number of rounds.  [None]: a type that [init]
    does not know leaves them uninitialised. *)
Record aes_params := AesParams { ptype : Z; Nk : nat; KEYLEN : nat; Nr : nat }.

Definition init (type : Z) : option aes_params :=
  if type =? AES256 then Some (AesParams AES256 8 32 14)
  else if type =? AES192 then Some (AesParams AES192 6 24 12)
  else if type =? AES128 then Some (AesParams AES128 4 16 10)
  else None.

(** The word [i] of the round keys, from the words before it. *)
Definition next_word (c : aes_params) (i : nat) (RoundKey : list Z) : list Z :=
  let tempa := take 4 (drop ((i - 1) * 4) RoundKey) in
  let tempa :=
    if (i mod Nk c =? 0)%nat then
      match map getSBoxValue (drop 1 tempa ++ take 1 tempa) with
      | t0 :: ts => Z.lxor t0 (nth (i / Nk c) Rcon 0) :: ts
      | [] => []
      end
    else tempa in
  let tempa :=
    if (ptype c =? AES256) && (i mod Nk c =? 4)%nat then map getSBoxValue tempa else tempa in
  zip_with Z.lxor (take 4 (drop ((i - Nk c) * 4) RoundKey)) tempa.

(** The buffer is written word by word; [RoundKey] is the part written, and [n]
    words are left. *)
Fixpoint expand (c : aes_params) (n i : nat) (RoundKey : list Z) : list Z :=
  match n with
  | O => RoundKey
  | S n' => expand c n' (S i) (RoundKey ++ next_word c i RoundKey)
  end.

Definition KeyExpansion (c : aes_params) (Key : list Z) : list Z :=
  expand c (4 * (Nr c + 1) - Nk c) (Nk c) (take (KEYLEN c) Key).

(** ** The steps of a round *)

Definition AddRoundKey (RoundKey : list Z) (round : nat) (state : list Z) : list Z :=
  zip_with Z.lxor state (take 16 (drop (round * 16) RoundKey)).

Definition SubBytes (state : list Z) : list Z := map getSBoxValue state.
Definition InvSubBytes (state : list Z) : list Z := map getSBoxInvert state.

(** The byte [state[i]] for each index of the list. *)
Definition permute (p : list nat) (state : list Z) : list Z := map (fun i => nth i state 0) p.

Definition ShiftRows (state : list Z) : list Z :=
  permute [0; 5; 10; 15; 4; 9; 14; 3; 8; 13; 2; 7; 12; 1; 6; 11]%nat state.
Definition InvShiftRows (state : list Z) : list Z :=
  permute [0; 13; 10; 7; 4; 1; 14; 11; 8; 5; 2; 15; 12; 9; 6; 3]%nat state.

Definition xtime (x : Z) : Z :=
  u8 (Z.lxor (Z.shiftl x 1) (Z.land (Z.shiftr x 7) 1 * 0x1b)).

Definition Multiply (x y : Z) : Z :=
  Z.lxor (Z.lxor (Z.lxor (Z.lxor (Z.land y 1 * x)
    (Z.land (Z.shiftr y 1) 1 * xtime x))
    (Z.land (Z.shiftr y 2) 1 * xtime (xtime x)))
    (Z.land (Z.shiftr y 3) 1 * xtime (xtime (xtime x))))
    (Z.land (Z.shiftr y 4) 1 * xtime (xtime (xtime (xtime x)))).

Definition xor4 (a b c d : Z) : Z := Z.lxor (Z.lxor (Z.lxor a b) c) d.

(** One column of MixColumns and InvMixColumns. *)
Definition mix_column (a b c d : Z) : list Z :=
  let Tmp := xor4 a b c d in
  [Z.lxor a (Z.lxor (xtime (Z.lxor a b)) Tmp);
   Z.lxor b (Z.lxor (xtime (Z.lxor b c)) Tmp);
   Z.lxor c (Z.lxor (xtime (Z.lxor c d)) Tmp);
   Z.lxor d (Z.lxor (xtime (Z.lxor d a)) Tmp)].

Definition inv_mix_column (a b c d : Z) : list Z :=
  [u8 (xor4 (Multiply a 0x0e) (Multiply b 0x0b) (Multiply c 0x0d) (Multiply d 0x09));
   u8 (xor4 (Multiply a 0x09) (Multiply b 0x0e) (Multiply c 0x0b) (Multiply d 0x0d));
   u8 (xor4 (Multiply a 0x0d) (Multiply b 0x09) (Multiply c 0x0e) (Multiply d 0x0b));
   u8 (xor4 (Multiply a 0x0b) (Multiply b 0x0d) (Multiply c 0x09) (Multiply d 0x0e))].

(** Column by column. *)
Fixpoint columns (f : Z -> Z -> Z -> Z -> list Z) (state : list Z) : list Z :=
  match state with
  | a :: b :: c :: d :: state' => f a b c d ++ columns f state'
  | _ => []
  end.

Definition MixColumns : list Z -> list Z := columns mix_column.
Definition InvMixColumns : list Z -> list Z := columns inv_mix_column.

(** ** The cipher *)

Definition enc_round (RoundKey : list Z) (round : nat) (state : list Z) : list Z :=
  AddRoundKey RoundKey round (MixColumns (ShiftRows (SubBytes state))).
Definition dec_round (RoundKey : list Z) (round : nat) (state : list Z) : list Z :=
  InvMixColumns (AddRoundKey RoundKey round (InvSubBytes (InvShiftRows state))).

(** The rounds [round], [round + 1], ... and [n], ..., 2, 1. *)
Fixpoint enc_rounds (RoundKey : list Z) (n round : nat) (state : list Z) : list Z :=
  match n with
  | O => state
  | S n' => enc_rounds RoundKey n' (S round) (enc_round RoundKey round state)
  end.
Fixpoint dec_rounds (RoundKey : list Z) (round : nat) (state : list Z) : list Z :=
  match round with
  | O => state
  | S r => dec_rounds RoundKey r (dec_round RoundKey round state)
  end.

Definition Cipher (Nr : nat) (RoundKey state : list Z) : list Z :=
  let state := AddRoundKey RoundKey 0 state in
  let state := enc_rounds RoundKey (Nr - 1) 1 state in
  AddRoundKey RoundKey Nr (ShiftRows (SubBytes state)).

Definition InvCipher (Nr : nat) (RoundKey state : list Z) : list Z :=
  let state := AddRoundKey RoundKey Nr state in
  let state := dec_rounds RoundKey (Nr - 1) state in
  AddRoundKey RoundKey 0 (InvSubBytes (InvShiftRows state)).

(** ** The public functions

    [key] and [iv] are not null: the callers check them.  The first 16 bytes of
    the input are copied to the output at once, even if [length] is 0.  The
    input and the output are separate buffers. *)

Definition AES_ECB_encrypt (type : Z) (input key output : list Z) (length : Z) : option (list Z) :=
  c ← init type;
  bs ← rdn input 0 (Z.to_nat length);
  output ← wr output 0 bs;
  state ← rdn output 0 16;
  k ← rdn key 0 (KEYLEN c);
  wr output 0 (Cipher (Nr c) (KeyExpansion c k) state).

Definition AES_ECB_decrypt (type : Z) (input key output : list Z) (length : Z) : option (list Z) :=
  c ← init type;
  bs ← rdn input 0 (Z.to_nat length);
  output ← wr output 0 bs;
  state ← rdn output 0 16;
  k ← rdn key 0 (KEYLEN c);
  wr output 0 (InvCipher (Nr c) (KeyExpansion c k) state).

Definition XorWithIv (Iv buf : list Z) : list Z := zip_with Z.lxor buf Iv.

(** The loops on [n] blocks at offset [off]: input, output and the pointer
    [Iv], which is the block the chaining uses next.  Encryption changes the
    input too. *)
Fixpoint cbc_encrypt_loop (cipher : list Z -> list Z) (n off : nat) (Iv input output : list Z)
  : option (list Z * list Z) :=
  match n with
  | O => Some (input, output)
  | S n' =>
      block ← rdn input off 16;
      let block := XorWithIv Iv block in
      input ← wr input off block;
      let out := cipher block in
      output ← wr output off out;
      cbc_encrypt_loop cipher n' (off + 16) out input output
  end.

Fixpoint cbc_decrypt_loop (invcipher : list Z -> list Z) (n off : nat) (Iv input output : list Z)
  : option (list Z) :=
  match n with
  | O => Some output
  | S n' =>
      block ← rdn input off 16;
      output ← wr output off (XorWithIv Iv (invcipher block));
      cbc_decrypt_loop invcipher n' (off + 16) block input output
  end.

(** The number of iterations of [for (i = 0; i < length; i += BLOCKLEN)], and
    the bytes of a last block that is not full. *)
Definition blocks (length : Z) : nat := Z.to_nat ((length + 15) / 16).
Definition extra (length : Z) : nat := Z.to_nat (length mod 16).

(** After the loop: [n] bytes are copied to the output and the state there is
    run through the cipher. *)
Definition cbc_extra (cipher : list Z -> list Z) (n off : nat) (input output : list Z)
  : option (list Z) :=
  if (n =? 0)%nat then Some output
  else
    bs ← rdn input off n;
    output ← wr output off bs;
    state ← rdn output off 16;
    wr output off (cipher state).

(** The new contents of input and output. *)
Definition AES_CBC_encrypt_buffer (type : Z) (output input : list Z) (length : Z) (key iv : list Z)
  : option (list Z * list Z) :=
  c ← init type;
  first ← rdn input 0 16;
  output ← wr output 0 first;
  k ← rdn key 0 (KEYLEN c);
  iv ← rdn iv 0 16;
  let cipher := Cipher (Nr c) (KeyExpansion c k) in
  '(input, output) ← cbc_encrypt_loop cipher (blocks length) 0 iv input output;
  output ← cbc_extra cipher (extra length) (16 * blocks length) input output;
  Some (input, output).

Definition AES_CBC_decrypt_buffer (type : Z) (output input : list Z) (length : Z) (key iv : list Z)
  : option (list Z) :=
  c ← init type;
  first ← rdn input 0 16;
  output ← wr output 0 first;
  k ← rdn key 0 (KEYLEN c);
  iv ← rdn iv 0 16;
  let invcipher := InvCipher (Nr c) (KeyExpansion c k) in
  output ← cbc_decrypt_loop invcipher (blocks length) 0 iv input output;
  cbc_extra invcipher (extra length) (16 * blocks length) input output.

(** ** Lemmas *)

Definition block_ok (s : list Z) : Prop := length s = 16%nat /\ bytes_ok s.

Lemma land_1_cases x : Z.land x 1 = 0 \/ Z.land x 1 = 1.
Proof. assert (E := Z.land_ones x 1 ltac:(lia)). change (Z.ones 1) with 1 in E. rewrite E. dlia. Qed.

(** Decides equations between exclusive ors. *)
Ltac xor_solve :=
  apply Z.bits_inj'; intros i Hi; rewrite ?Z.land_spec, ?Z.lxor_spec, ?Z.land_spec;
  repeat match goal with |- context [Z.testbit ?a ?j] => generalize (Z.testbit a j); intro end;
  btauto.

Lemma land_lxor_distr_l a b c : Z.land (Z.lxor a b) c = Z.lxor (Z.land a c) (Z.land b c).
Proof. xor_solve. Qed.

(** [xtime] is linear over exclusive or. *)
Lemma xtime_lxor x y : xtime (Z.lxor x y) = Z.lxor (xtime x) (xtime y).
Proof.
  unfold xtime, u8. rewrite <- lxor_mod by lia. f_equal.
  rewrite Z.shiftl_lxor, Z.shiftr_lxor, land_lxor_distr_l.
  assert (L : Z.lxor (Z.land (Z.shiftr x 7) 1) (Z.land (Z.shiftr y 7) 1) * 0x1b
              = Z.lxor (Z.land (Z.shiftr x 7) 1 * 0x1b) (Z.land (Z.shiftr y 7) 1 * 0x1b)).
  { destruct (land_1_cases (Z.shiftr x 7)) as [-> | ->],
      (land_1_cases (Z.shiftr y 7)) as [-> | ->]; reflexivity. }
  rewrite L. apply lxor_swap.
Qed.

Lemma xtime_ok x : is_u8 (xtime x).
Proof. apply u8_ok. Qed.
#[export] Hint Resolve xtime_ok : vscp.

Lemma Multiply_terms x :
  Multiply x 0x0e = Z.lxor (Z.lxor (xtime x) (xtime (xtime x))) (xtime (xtime (xtime x))) /\
  Multiply x 0x0b = Z.lxor (Z.lxor x (xtime x)) (xtime (xtime (xtime x))) /\
  Multiply x 0x0d = Z.lxor (Z.lxor x (xtime (xtime x))) (xtime (xtime (xtime x))) /\
  Multiply x 0x09 = Z.lxor x (xtime (xtime (xtime x))).
Proof.
  split_and!; unfold Multiply;
    repeat match goal with |- context [Z.land (Z.shiftr ?a ?b) 1] =>
      let v := eval vm_compute in (Z.land (Z.shiftr a b) 1) in
      change (Z.land (Z.shiftr a b) 1) with v end;
    repeat match goal with |- context [Z.land ?a 1] =>
      let v := eval vm_compute in (Z.land a 1) in change (Z.land a 1) with v end;
    rewrite ?Z.mul_1_l, ?Z.mul_0_l, ?Z.lxor_0_r, ?Z.lxor_0_l; reflexivity.
Qed.

(** InvMixColumns undoes MixColumns: in every coefficient of the product of the
    two matrices all powers of [xtime] but the expected one cancel. *)
Lemma inv_mix_mix a b c d :
  bytes_ok [a; b; c; d] ->
  match mix_column a b c d with
  | [p; q; r; s] => inv_mix_column p q r s = [a; b; c; d]
  | _ => False
  end.
Proof.
  intros H. repeat match goal with H : bytes_ok (_ :: _) |- _ => inversion_clear H end.
  unfold mix_column, inv_mix_column, xor4.
  repeat match goal with |- context [Multiply ?x _] =>
    destruct (Multiply_terms x) as (-> & -> & -> & ->) end.
  rewrite !xtime_lxor.
  assert (E : forall x y, is_u8 y -> x = y -> u8 x = y) by (intros; subst; apply u8_id; assumption).
  repeat apply (f_equal2 cons); try apply E; try assumption; try reflexivity; xor_solve.
Qed.

(** *** The tables *)

Definition sbox_check (x : Z) : bool :=
  (getSBoxInvert (getSBoxValue x) =? x) && bool_decide (is_u8 (getSBoxValue x))
  && bool_decide (is_u8 (getSBoxInvert x)).

Lemma sbox_checked : all_below 256 sbox_check = true.
Proof. vm_compute. reflexivity. Qed.

Lemma sbox_spec x :
  is_u8 x -> getSBoxInvert (getSBoxValue x) = x /\ is_u8 (getSBoxValue x) /\ is_u8 (getSBoxInvert x).
Proof.
  intros Hx. assert (E := all_below_spec 256 sbox_check x sbox_checked Hx).
  unfold sbox_check in E. rewrite !andb_true_iff, Z.eqb_eq, !bool_decide_eq_true in E. tauto.
Qed.

(** *** The steps of a round *)

Lemma block_elements (s : list Z) :
  length s = 16%nat -> exists a b c d e f g h i j k l m n o p,
    s = [a; b; c; d; e; f; g; h; i; j; k; l; m; n; o; p].
Proof.
  intros H. do 16 (destruct s as [|? s]; [discriminate H|]). destruct s; [|discriminate H].
  repeat eexists.
Qed.

Ltac elements s H :=
  destruct (block_elements s H)
    as (?s0 & ?s1 & ?s2 & ?s3 & ?s4 & ?s5 & ?s6 & ?s7 & ?s8 & ?s9 & ?s10 & ?s11 & ?s12 & ?s13
        & ?s14 & ?s15 & ->).

Lemma SubBytes_ok s : block_ok s -> block_ok (SubBytes s).
Proof.
  intros [Hl Hb]. split; [unfold SubBytes; rewrite length_map; exact Hl|].
  apply Forall_map. eapply List.Forall_impl; [|exact Hb]. intros x Hx. apply sbox_spec, Hx.
Qed.

Lemma InvSubBytes_SubBytes s : bytes_ok s -> InvSubBytes (SubBytes s) = s.
Proof.
  unfold InvSubBytes, SubBytes. induction 1 as [|x s Hx _ IH]; [reflexivity|].
  cbn [map]. rewrite (proj1 (sbox_spec x Hx)), IH. reflexivity.
Qed.

Lemma permute_ok p s : Forall (fun i => i < 16)%nat p -> length p = 16%nat ->
  block_ok s -> block_ok (permute p s).
Proof.
  intros Hp Hlp [Hl Hb]. split; [unfold permute; rewrite length_map; exact Hlp|].
  apply Forall_map. eapply List.Forall_impl; [|exact Hp]. intros i Hi. cbv beta in Hi.
  apply (Forall_nth is_u8 s); [exact Hb|lia].
Qed.

Lemma ShiftRows_ok s : block_ok s -> block_ok (ShiftRows s).
Proof. apply permute_ok; [by_decide|reflexivity]. Qed.

Lemma InvShiftRows_ShiftRows s : length s = 16%nat -> InvShiftRows (ShiftRows s) = s.
Proof. intros H. elements s H. reflexivity. Qed.

Lemma mix_column_ok a b c d : bytes_ok [a; b; c; d] -> bytes_ok (mix_column a b c d).
Proof.
  intros H. repeat match goal with H : bytes_ok (_ :: _) |- _ => inversion_clear H end.
  unfold mix_column, xor4.
  repeat apply Forall_cons_2; try apply Forall_nil_2; auto 10 using xtime_ok, lxor_u8.
Qed.

Lemma MixColumns_ok s : block_ok s -> block_ok (MixColumns s).
Proof.
  intros [Hl Hb]. elements s Hl. split; [reflexivity|].
  unfold MixColumns. cbn [columns].
  repeat match goal with H : bytes_ok (_ :: _) |- _ => inversion_clear H end.
  repeat apply Forall_app_2; try apply Forall_nil_2;
    apply mix_column_ok; repeat apply Forall_cons_2; try assumption; apply Forall_nil_2.
Qed.

Lemma InvMixColumns_MixColumns s : block_ok s -> InvMixColumns (MixColumns s) = s.
Proof.
  intros [Hl Hb]. elements s Hl. unfold MixColumns, InvMixColumns.
  repeat match goal with H : bytes_ok (_ :: _) |- _ => inversion_clear H end.
  assert (C : forall a b c d rest, bytes_ok [a; b; c; d] ->
    columns inv_mix_column (mix_column a b c d ++ rest)
    = [a; b; c; d] ++ columns inv_mix_column rest).
  { intros a b c d rest Hc. assert (E := inv_mix_mix a b c d Hc).
    unfold mix_column in *. cbn [app columns]. rewrite E. reflexivity. }
  cbn [columns]. rewrite !C by (repeat apply Forall_cons_2; try assumption; apply Forall_nil_2).
  reflexivity.
Qed.

(** A round key is 16 bytes of the expanded key. *)
Definition key_ok (RoundKey : list Z) (Nr : nat) : Prop :=
  bytes_ok RoundKey /\ length RoundKey = (16 * (Nr + 1))%nat.

Lemma length_round_key RoundKey Nr r :
  key_ok RoundKey Nr -> (r <= Nr)%nat -> length (take 16 (drop (r * 16) RoundKey)) = 16%nat.
Proof. intros [_ Hl] Hr. rewrite length_take, length_drop. lia. Qed.

Lemma zip_lxor_ok s k : bytes_ok s -> bytes_ok k -> bytes_ok (zip_with Z.lxor s k).
Proof.
  intros Hs. revert k. induction Hs as [|x s Hx _ IH]; intros k Hk; [constructor|].
  destruct Hk as [|y k Hy Hk]; constructor; [apply lxor_u8; assumption|apply IH, Hk].
Qed.

Lemma zip_lxor_twice s k : (length s <= length k)%nat ->
  zip_with Z.lxor (zip_with Z.lxor s k) k = s.
Proof.
  revert k. induction s as [|x s IH]; intros [|y k] H; cbn [length] in H; [reflexivity..|lia|].
  cbn [zip_with]. rewrite IH by lia. f_equal.
  rewrite Z.lxor_assoc, Z.lxor_nilpotent, Z.lxor_0_r. reflexivity.
Qed.

Lemma AddRoundKey_ok RoundKey Nr r s :
  key_ok RoundKey Nr -> (r <= Nr)%nat -> block_ok s -> block_ok (AddRoundKey RoundKey r s).
Proof.
  intros Hk Hr [Hl Hb]. assert (L := length_round_key RoundKey Nr r Hk Hr).
  split; unfold AddRoundKey; [rewrite length_zip_with; lia|].
  apply zip_lxor_ok; [exact Hb|]. apply Forall_take, Forall_drop, Hk.
Qed.

Lemma AddRoundKey_twice RoundKey Nr r s :
  key_ok RoundKey Nr -> (r <= Nr)%nat -> block_ok s ->
  AddRoundKey RoundKey r (AddRoundKey RoundKey r s) = s.
Proof.
  intros Hk Hr [Hl _]. assert (L := length_round_key RoundKey Nr r Hk Hr).
  apply zip_lxor_twice. lia.
Qed.

(** *** Rounds *)

Lemma enc_round_ok RoundKey Nr r s :
  key_ok RoundKey Nr -> (r <= Nr)%nat -> block_ok s -> block_ok (enc_round RoundKey r s).
Proof.
  intros Hk Hr Hs. eapply AddRoundKey_ok; [exact Hk|exact Hr|].
  apply MixColumns_ok, ShiftRows_ok, SubBytes_ok, Hs.
Qed.

(** The last three steps of a decryption round undo the first three of an
    encryption round, one round key apart. *)
Lemma inv_sub_shift s :
  block_ok s -> InvSubBytes (InvShiftRows (ShiftRows (SubBytes s))) = s.
Proof.
  intros Hs. rewrite InvShiftRows_ShiftRows by apply SubBytes_ok, Hs.
  apply InvSubBytes_SubBytes, Hs.
Qed.

Lemma dec_enc_rounds RoundKey Nr n r s :
  key_ok RoundKey Nr -> (1 <= r)%nat -> (r + n <= Nr)%nat -> block_ok s ->
  exists t, enc_rounds RoundKey n r s = t /\ block_ok t /\
    forall m, m = (r + n - 1)%nat ->
    dec_rounds RoundKey m (ShiftRows (SubBytes t)) = dec_rounds RoundKey (r - 1) (ShiftRows (SubBytes s)).
Proof.
  intros Hk. revert r s. induction n as [|n IH]; intros r s Hr Hn Hs; cbn [enc_rounds].
  - exists s. split_and!; [reflexivity|apply Hs..|]. intros m ->.
    replace (r + 0 - 1)%nat with (r - 1)%nat by lia. reflexivity.
  - destruct (IH (S r) (enc_round RoundKey r s)) as (t & Et & Ht & D); [lia|lia| |].
    { apply (enc_round_ok RoundKey Nr); [exact Hk|lia|exact Hs]. }
    exists t. split_and!; [exact Et|apply Ht..|]. intros m ->.
    rewrite (D (r + S n - 1)%nat) by lia.
    replace (S r - 1)%nat with (S (r - 1)) by lia. cbn [dec_rounds].
    replace (S (r - 1)) with r by lia. f_equal. unfold dec_round, enc_round.
    assert (Ho : block_ok (ShiftRows (SubBytes s))) by apply ShiftRows_ok, SubBytes_ok, Hs.
    assert (Hr' : (r <= Nr)%nat) by lia.
    rewrite inv_sub_shift by (apply (AddRoundKey_ok RoundKey Nr); [exact Hk|lia|apply MixColumns_ok, Ho]).
    rewrite (AddRoundKey_twice RoundKey Nr) by first [exact Hk | exact Hr' | apply MixColumns_ok, Ho].
    apply InvMixColumns_MixColumns, Ho.
Qed.

Lemma enc_rounds_ok RoundKey Nr n r s :
  key_ok RoundKey Nr -> (r + n <= S Nr)%nat -> block_ok s -> block_ok (enc_rounds RoundKey n r s).
Proof.
  intros Hk. revert r s. induction n as [|n IH]; intros r s Hn Hs; [exact Hs|].
  cbn [enc_rounds]. apply IH; [lia|]. apply (enc_round_ok RoundKey Nr); [exact Hk|lia|exact Hs].
Qed.

Lemma Cipher_ok RoundKey Nr s :
  key_ok RoundKey Nr -> (1 <= Nr)%nat -> block_ok s -> block_ok (Cipher Nr RoundKey s).
Proof.
  intros Hk Hn Hs. unfold Cipher.
  apply (AddRoundKey_ok RoundKey Nr); [exact Hk|lia|].
  apply ShiftRows_ok, SubBytes_ok, (enc_rounds_ok RoundKey Nr); [exact Hk|lia|].
  apply (AddRoundKey_ok RoundKey Nr); [exact Hk|lia|exact Hs].
Qed.

(** InvCipher undoes Cipher. *)
Lemma InvCipher_Cipher RoundKey Nr s :
  key_ok RoundKey Nr -> (1 <= Nr)%nat -> block_ok s ->
  InvCipher Nr RoundKey (Cipher Nr RoundKey s) = s.
Proof.
  intros Hk Hn Hs. unfold InvCipher, Cipher. cbv zeta.
  set (s1 := AddRoundKey RoundKey 0 s).
  assert (H1 : block_ok s1) by (apply (AddRoundKey_ok RoundKey Nr); [exact Hk|lia|exact Hs]).
  destruct (dec_enc_rounds RoundKey Nr (Nr - 1) 1 s1 Hk) as (t & -> & Ht & D); [lia|lia|exact H1|].
  rewrite (AddRoundKey_twice RoundKey Nr)
    by first [exact Hk | lia | apply ShiftRows_ok, SubBytes_ok, Ht].
  rewrite (D (Nr - 1)%nat) by lia. cbn [Nat.sub dec_rounds].
  rewrite inv_sub_shift by exact H1.
  apply (AddRoundKey_twice RoundKey Nr); [exact Hk|lia|exact Hs].
Qed.

(** Decryption keeps blocks too. *)
Lemma InvSubBytes_ok s : block_ok s -> block_ok (InvSubBytes s).
Proof.
  intros [Hl Hb]. split; [unfold InvSubBytes; rewrite length_map; exact Hl|].
  apply Forall_map. eapply List.Forall_impl; [|exact Hb]. intros x Hx. apply sbox_spec, Hx.
Qed.

Lemma InvShiftRows_ok s : block_ok s -> block_ok (InvShiftRows s).
Proof. apply permute_ok; [by_decide|reflexivity]. Qed.

Lemma InvMixColumns_ok s : length s = 16%nat -> block_ok (InvMixColumns s).
Proof.
  intros Hl. elements s Hl. split; [reflexivity|]. unfold InvMixColumns, inv_mix_column.
  cbn [columns app]. repeat apply Forall_cons_2; try apply Forall_nil_2; apply u8_ok.
Qed.

Lemma dec_rounds_ok RoundKey Nr r s :
  key_ok RoundKey Nr -> (r <= Nr)%nat -> block_ok s -> block_ok (dec_rounds RoundKey r s).
Proof.
  intros Hk. revert s. induction r as [|r IH]; intros s Hr Hs; [exact Hs|].
  cbn [dec_rounds]. apply IH; [lia|]. apply InvMixColumns_ok.
  apply (AddRoundKey_ok RoundKey Nr); [exact Hk|exact Hr|].
  apply InvSubBytes_ok, InvShiftRows_ok, Hs.
Qed.

Lemma InvCipher_ok RoundKey Nr s :
  key_ok RoundKey Nr -> (1 <= Nr)%nat -> block_ok s -> block_ok (InvCipher Nr RoundKey s).
Proof.
  intros Hk Hn Hs. unfold InvCipher. apply (AddRoundKey_ok RoundKey Nr); [exact Hk|lia|].
  apply InvSubBytes_ok, InvShiftRows_ok, (dec_rounds_ok RoundKey Nr); [exact Hk|lia|].
  apply (AddRoundKey_ok RoundKey Nr); [exact Hk|lia|exact Hs].
Qed.

(** *** Key expansion *)

Lemma Rcon_ok : bytes_ok Rcon.
Proof. by_decide. Qed.

Lemma next_word_ok c i RoundKey :
  (1 <= Nk c)%nat -> (Nk c <= i)%nat -> length RoundKey = (4 * i)%nat -> bytes_ok RoundKey ->
  length (next_word c i RoundKey) = 4%nat /\ bytes_ok (next_word c i RoundKey).
Proof.
  intros Hk Hi Hl Hb. unfold next_word.
  set (w := take 4 (drop ((i - 1) * 4) RoundKey)).
  assert (Hw : length w = 4%nat) by (unfold w; rewrite length_take, length_drop; lia).
  assert (Hwb : bytes_ok w) by apply Forall_take, Forall_drop, Hb.
  assert (S : forall l, bytes_ok l -> bytes_ok (map getSBoxValue l)).
  { intros l H. apply Forall_map. eapply List.Forall_impl; [|exact H].
    intros x Hx. apply sbox_spec, Hx. }
  set (w1 := if (i mod Nk c =? 0)%nat then _ else w).
  assert (H1 : length w1 = 4%nat /\ bytes_ok w1).
  { unfold w1. destruct (_ =? 0)%nat; [|auto].
    destruct w as [|a [|b [|d [|e [|]]]]]; try discriminate Hw. cbn [drop take app map].
    split; [reflexivity|].
    assert (T := S [b; d; e; a]). repeat match goal with H : bytes_ok (_ :: _) |- _ => inversion_clear H end.
    specialize (T ltac:(repeat apply Forall_cons_2; try apply Forall_nil_2; assumption)).
    inversion_clear T. apply Forall_cons_2; [|assumption]. apply lxor_u8; [assumption|].
    destruct (Nat.ltb_spec (i / Nk c) (length Rcon)).
    - apply Forall_nth; [apply Rcon_ok|lia].
    - rewrite nth_overflow by lia. width. }
  destruct H1 as [H1 H1b].
  set (w2 := if _ && _ then _ else w1).
  assert (H2 : length w2 = 4%nat /\ bytes_ok w2).
  { unfold w2. destruct (_ && _); [rewrite length_map|]; auto. }
  destruct H2 as [H2 H2b]. split.
  - rewrite length_zip_with, length_take, length_drop. lia.
  - apply zip_lxor_ok; [apply Forall_take, Forall_drop, Hb|exact H2b].
Qed.

Lemma expand_ok c n i RoundKey :
  (1 <= Nk c)%nat -> (Nk c <= i)%nat -> length RoundKey = (4 * i)%nat -> bytes_ok RoundKey ->
  length (expand c n i RoundKey) = (4 * (i + n))%nat /\ bytes_ok (expand c n i RoundKey).
Proof.
  intros Hk. revert i RoundKey. induction n as [|n IH]; intros i RoundKey Hi Hl Hb.
  - cbn [expand]. split; [lia|exact Hb].
  - cbn [expand]. destruct (next_word_ok c i RoundKey Hk Hi Hl Hb) as [Nl Nb].
    destruct (IH (S i) (RoundKey ++ next_word c i RoundKey)) as [A B]; [lia| | |].
    + rewrite length_app. lia.
    + apply Forall_app. auto.
    + split; [rewrite A; lia|exact B].
Qed.

Lemma init_spec type c :
  init type = Some c ->
  (1 <= Nk c)%nat /\ (Nk c <= 4 * (Nr c + 1))%nat /\ KEYLEN c = (4 * Nk c)%nat /\ (1 <= Nr c)%nat.
Proof.
  unfold init. repeat case_match; intros [= <-]; cbn; lia.
Qed.

Lemma KeyExpansion_ok type c key :
  init type = Some c -> (KEYLEN c <= length key)%nat -> bytes_ok key ->
  key_ok (KeyExpansion c key) (Nr c).
Proof.
  intros Hc Hl Hb. destruct (init_spec type c Hc) as (H1 & H2 & H3 & _). unfold KeyExpansion.
  destruct (expand_ok c (4 * (Nr c + 1) - Nk c) (Nk c) (take (KEYLEN c) key)) as [A B];
    [lia|lia|rewrite length_take; lia|apply Forall_take, Hb|].
  split; [exact B|rewrite A; lia].
Qed.

(** *** CBC *)

(** The blocks of a CBC encryption and decryption, as lists. *)
Fixpoint cbc_enc (cipher : list Z -> list Z) (n : nat) (Iv p : list Z) : list Z :=
  match n with
  | O => []
  | S n' => let out := cipher (XorWithIv Iv (take 16 p)) in out ++ cbc_enc cipher n' out (drop 16 p)
  end.

Fixpoint cbc_dec (invcipher : list Z -> list Z) (n : nat) (Iv c : list Z) : list Z :=
  match n with
  | O => []
  | S n' => XorWithIv Iv (invcipher (take 16 c)) ++ cbc_dec invcipher n' (take 16 c) (drop 16 c)
  end.

(** What the loops need of the block functions. *)
Definition block_fun (f : list Z -> list Z) : Prop := forall s, block_ok s -> block_ok (f s).

Lemma XorWithIv_ok iv s : block_ok iv -> block_ok s -> block_ok (XorWithIv iv s).
Proof.
  intros [Hi Hib] [Hs Hsb]. split; [unfold XorWithIv; rewrite length_zip_with; lia|].
  apply zip_lxor_ok; assumption.
Qed.

Lemma block_take p : (16 <= length p)%nat -> bytes_ok p -> block_ok (take 16 p).
Proof. intros Hl Hb. split; [rewrite length_take; lia|apply Forall_take, Hb]. Qed.

Lemma cbc_enc_ok cipher n iv p :
  block_fun cipher -> block_ok iv -> bytes_ok p -> (16 * n <= length p)%nat ->
  length (cbc_enc cipher n iv p) = (16 * n)%nat /\ bytes_ok (cbc_enc cipher n iv p).
Proof.
  intros Hf. revert iv p. induction n as [|n IH]; intros iv p Hi Hp Hl; cbn [cbc_enc].
  - split; [reflexivity|constructor].
  - assert (B : block_ok (cipher (XorWithIv iv (take 16 p))))
      by (apply Hf, XorWithIv_ok; [exact Hi|apply block_take; [lia|exact Hp]]).
    destruct (IH _ (drop 16 p) B) as [L O]; [apply Forall_drop, Hp|rewrite length_drop; lia|].
    destruct B as [Bl Bb]. split; [rewrite length_app; lia|apply Forall_app; auto].
Qed.

Lemma cbc_dec_enc cipher invcipher n iv p tail :
  block_fun cipher -> (forall s, block_ok s -> invcipher (cipher s) = s) ->
  block_ok iv -> bytes_ok p -> (16 * n <= length p)%nat ->
  cbc_dec invcipher n iv (cbc_enc cipher n iv p ++ tail) = take (16 * n) p.
Proof.
  intros Hf Hinv. revert iv p. induction n as [|n IH]; intros iv p Hi Hp Hl; [reflexivity|].
  cbn [cbc_enc cbc_dec].
  assert (X : block_ok (XorWithIv iv (take 16 p)))
    by (apply XorWithIv_ok; [exact Hi|apply block_take; [lia|exact Hp]]).
  set (out := cipher (XorWithIv iv (take 16 p))). assert (B : block_ok out) by apply Hf, X.
  assert (Lo := proj1 B). rewrite <- app_assoc, take_app_length', drop_app_length' by exact (eq_sym Lo).
  rewrite IH; [|exact B|apply Forall_drop, Hp|rewrite length_drop; lia].
  unfold out. rewrite Hinv by exact X. unfold XorWithIv.
  rewrite zip_lxor_twice by (destruct Hi; rewrite length_take; lia).
  replace (16 * S n)%nat with (16 + 16 * n)%nat by lia.
  rewrite <- (take_drop 16 p) at 3. rewrite take_app_ge by (rewrite length_take; lia).
  do 2 f_equal. rewrite length_take. lia.
Qed.

Lemma cbc_dec_ok invcipher n iv c :
  block_fun invcipher -> block_ok iv -> bytes_ok c -> (16 * n <= length c)%nat ->
  length (cbc_dec invcipher n iv c) = (16 * n)%nat /\ bytes_ok (cbc_dec invcipher n iv c).
Proof.
  intros Hf. revert iv c. induction n as [|n IH]; intros iv c Hi Hc Hl; cbn [cbc_dec].
  - split; [reflexivity|constructor].
  - assert (T : block_ok (take 16 c)) by (apply block_take; [lia|exact Hc]).
    destruct (XorWithIv_ok iv (invcipher (take 16 c)) Hi (Hf _ T)) as [Bl Bb].
    destruct (IH _ (drop 16 c) T) as [L O]; [apply Forall_drop, Hc|rewrite length_drop; lia|].
    split; [rewrite length_app; lia|apply Forall_app; auto].
Qed.

Lemma cbc_encrypt_loop_eq cipher n iv pre p done rest :
  block_fun cipher -> block_ok iv -> bytes_ok p ->
  length done = length pre -> (16 * n <= length p)%nat -> (16 * n <= length rest)%nat ->
  exists p', length p' = length p /\
  cbc_encrypt_loop cipher n (length pre) iv (pre ++ p) (done ++ rest)
  = Some (pre ++ p', done ++ cbc_enc cipher n iv p ++ drop (16 * n) rest).
Proof.
  intros Hf. revert iv pre p done rest.
  induction n as [|n IH]; intros iv pre p done rest Hi Hp Hd Hl Hr.
  { exists p. auto. }
  cbn [cbc_encrypt_loop cbc_enc].
  assert (R : rdn (pre ++ p) (length pre) 16 = Some (take 16 p)).
  { rewrite <- (take_drop 16 p) at 1. apply rdn_app; [reflexivity|rewrite length_take; lia]. }
  rewrite R. cbn [mbind option_bind].
  set (x := XorWithIv iv (take 16 p)).
  assert (X : block_ok x) by (apply XorWithIv_ok; [exact Hi|apply block_take; [lia|exact Hp]]).
  assert (O := Hf x X). assert (Lx := proj1 X). assert (Lo := proj1 O).
  rewrite (wr_next pre p) by (reflexivity || lia). cbn [mbind option_bind].
  rewrite (wr_next done rest) by lia. cbn [mbind option_bind].
  rewrite Lx, Lo, !app_assoc.
  destruct (IH (cipher x) (pre ++ x) (drop 16 p) (done ++ cipher x) (drop 16 rest)) as (p' & Lp & E);
    [exact O|apply Forall_drop, Hp|rewrite !length_app; lia|rewrite length_drop; lia
    |rewrite length_drop; lia|].
  exists (x ++ p'). split; [rewrite length_app, Lp, length_drop; lia|].
  replace (length pre + 16)%nat with (length (pre ++ x)) by (rewrite length_app; lia).
  rewrite E, drop_drop. rewrite <- !app_assoc. do 5 f_equal. f_equal. lia.
Qed.

Lemma cbc_decrypt_loop_eq invcipher n iv pre c done rest :
  (forall s, length s = 16%nat -> length (invcipher s) = 16%nat) -> length iv = 16%nat ->
  length done = length pre -> (16 * n <= length c)%nat -> (16 * n <= length rest)%nat ->
  cbc_decrypt_loop invcipher n (length pre) iv (pre ++ c) (done ++ rest)
  = Some (done ++ cbc_dec invcipher n iv c ++ drop (16 * n) rest).
Proof.
  intros Hf. revert iv pre c done rest.
  induction n as [|n IH]; intros iv pre c done rest Hi Hd Hl Hr; [reflexivity|].
  cbn [cbc_decrypt_loop cbc_dec].
  assert (Lb : length (take 16 c) = 16%nat) by (rewrite length_take; lia).
  assert (R : rdn (pre ++ c) (length pre) 16 = Some (take 16 c)).
  { rewrite <- (take_drop 16 c) at 1. apply rdn_app; [reflexivity|lia]. }
  rewrite R. cbn [mbind option_bind].
  assert (Lx : length (XorWithIv iv (invcipher (take 16 c))) = 16%nat)
    by (unfold XorWithIv; rewrite length_zip_with, Hf by exact Lb; lia).
  rewrite (wr_next done rest) by lia. cbn [mbind option_bind]. rewrite Lx, app_assoc.
  replace (pre ++ c) with ((pre ++ take 16 c) ++ drop 16 c) by (rewrite <- app_assoc, take_drop; reflexivity).
  replace (length pre + 16)%nat with (length (pre ++ take 16 c)) by (rewrite length_app; lia).
  rewrite IH; [|exact Lb|rewrite !length_app; lia|rewrite length_drop; lia|rewrite length_drop; lia].
  rewrite drop_drop, <- !app_assoc. replace (16 * S n)%nat with (16 + 16 * n)%nat by lia.
  reflexivity.
Qed.

Lemma blocks_mul n : blocks (Z.of_nat (16 * n)) = n /\ extra (Z.of_nat (16 * n)) = 0%nat.
Proof. unfold blocks, extra. split; dlia. Qed.

Lemma cipher_block_fun c RoundKey :
  key_ok RoundKey (Nr c) -> (1 <= Nr c)%nat -> block_fun (Cipher (Nr c) RoundKey).
Proof. intros Hk Hn s Hs. apply Cipher_ok; assumption. Qed.

Lemma length_AddRoundKey RoundKey Nr r s :
  key_ok RoundKey Nr -> (r <= Nr)%nat -> length s = 16%nat -> length (AddRoundKey RoundKey r s) = 16%nat.
Proof.
  intros Hk Hr Hs. assert (L := length_round_key RoundKey Nr r Hk Hr).
  unfold AddRoundKey. rewrite length_zip_with. lia.
Qed.

Lemma length_dec_rounds RoundKey Nr r s :
  key_ok RoundKey Nr -> (r <= Nr)%nat -> length s = 16%nat -> length (dec_rounds RoundKey r s) = 16%nat.
Proof.
  intros Hk. revert s. induction r as [|r IH]; intros s Hr Hs; [exact Hs|].
  cbn [dec_rounds]. apply IH; [lia|]. unfold dec_round.
  assert (L : length (AddRoundKey RoundKey (S r) (InvSubBytes (InvShiftRows s))) = 16%nat)
    by (apply (length_AddRoundKey RoundKey Nr); [exact Hk|exact Hr|reflexivity]).
  elements (AddRoundKey RoundKey (S r) (InvSubBytes (InvShiftRows s))) L. reflexivity.
Qed.

Lemma length_InvCipher RoundKey Nr s :
  key_ok RoundKey Nr -> (1 <= Nr)%nat -> length s = 16%nat -> length (InvCipher Nr RoundKey s) = 16%nat.
Proof.
  intros Hk Hn Hs. unfold InvCipher. apply (length_AddRoundKey RoundKey Nr); [exact Hk|lia|].
  reflexivity.
Qed.

(** What both CBC functions do on whole blocks. *)
Section cbc.
Context (type : Z) (c : aes_params) (key iv : list Z).
Context (Hc : init type = Some c) (Hk : bytes_ok key) (Hkl : (KEYLEN c <= length key)%nat)
  (Hiv : block_ok (take 16 iv)).

Definition round_keys : list Z := KeyExpansion c (take (KEYLEN c) key).

Lemma round_keys_ok : key_ok round_keys (Nr c).
Proof using Hc Hk Hkl.
  apply (KeyExpansion_ok type); [exact Hc|rewrite length_take; lia|apply Forall_take, Hk].
Qed.

Lemma iv_length : (16 <= length iv)%nat.
Proof using Hkl Hiv. destruct Hiv as [Hl _]. rewrite length_take in Hl. lia. Qed.

Lemma cbc_encrypt_eq n p output :
  bytes_ok p -> (1 <= n)%nat -> length p = (16 * n)%nat -> (16 * n <= length output)%nat ->
  exists p', length p' = length p /\
  AES_CBC_encrypt_buffer type output p (Z.of_nat (16 * n)) key iv
  = Some (p', cbc_enc (Cipher (Nr c) round_keys) n (take 16 iv) p ++ drop (16 * n) output).
Proof using Hc Hk Hkl Hiv.
  intros Hp Hn Hl Ho. assert (Hil := iv_length).
  assert (Lf : length (take 16 p) = 16%nat) by (rewrite length_take; lia).
  assert (Hnr := proj2 (proj2 (proj2 (init_spec type c Hc)))).
  unfold AES_CBC_encrypt_buffer. rewrite Hc. cbn [mbind option_bind].
  rewrite (rdn_defined p), (rdn_defined key), (rdn_defined iv) by lia. cbn [mbind option_bind drop].
  rewrite wr_front by (rewrite length_take; lia).
  cbn [mbind option_bind].
  destruct (blocks_mul n) as [-> ->]. unfold cbc_extra. cbn [Nat.eqb].
  rewrite !drop_0, Lf. fold round_keys.
  destruct (cbc_encrypt_loop_eq (Cipher (Nr c) round_keys) n (take 16 iv) [] p []
              (take 16 p ++ drop 16 output)) as (p' & Lp & E);
    [apply cipher_block_fun; [apply round_keys_ok|exact Hnr]|exact Hiv|exact Hp|reflexivity|lia
    |rewrite length_app, length_take, length_drop; lia|].
  cbn [length app] in E. rewrite E. cbn [mbind option_bind].
  exists p'. split; [exact Lp|]. do 3 f_equal.
  rewrite drop_app_ge by (rewrite length_take; lia). rewrite drop_drop. f_equal.
  rewrite length_take. lia.
Qed.

Lemma cbc_decrypt_eq n cs output :
  (1 <= n)%nat -> (16 * n <= length cs)%nat -> (16 * n <= length output)%nat ->
  AES_CBC_decrypt_buffer type output cs (Z.of_nat (16 * n)) key iv
  = Some (cbc_dec (InvCipher (Nr c) round_keys) n (take 16 iv) cs ++ drop (16 * n) output).
Proof using Hc Hk Hkl Hiv.
  intros Hn Hl Ho. assert (Hil := iv_length).
  assert (Lf : length (take 16 cs) = 16%nat) by (rewrite length_take; lia).
  assert (Hnr := proj2 (proj2 (proj2 (init_spec type c Hc)))).
  unfold AES_CBC_decrypt_buffer. rewrite Hc. cbn [mbind option_bind].
  rewrite (rdn_defined cs), (rdn_defined key), (rdn_defined iv) by lia. cbn [mbind option_bind drop].
  rewrite wr_front by (rewrite length_take; lia).
  cbn [mbind option_bind].
  destruct (blocks_mul n) as [-> ->]. unfold cbc_extra. cbn [Nat.eqb].
  rewrite !drop_0, Lf. fold round_keys.
  assert (E := cbc_decrypt_loop_eq (InvCipher (Nr c) round_keys) n (take 16 iv) [] cs []
              (take 16 cs ++ drop 16 output)).
  cbn [length app] in E. rewrite E; clear E.
  - cbn [mbind option_bind]. do 2 f_equal.
    rewrite drop_app_ge by (rewrite length_take; lia). rewrite drop_drop. f_equal.
    rewrite length_take. lia.
  - intros s Hs. apply length_InvCipher; [apply round_keys_ok|exact Hnr|exact Hs].
  - apply Hiv.
  - reflexivity.
  - lia.
  - rewrite length_app, length_take, length_drop. lia.
Qed.

Lemma cbc_inverse n p tail :
  bytes_ok p -> length p = (16 * n)%nat ->
  cbc_dec (InvCipher (Nr c) round_keys) n (take 16 iv)
    (cbc_enc (Cipher (Nr c) round_keys) n (take 16 iv) p ++ tail) = p.
Proof using Hc Hk Hkl Hiv.
  intros Hp Hl. assert (Hnr := proj2 (proj2 (proj2 (init_spec type c Hc)))).
  assert (Hr := round_keys_ok). rewrite cbc_dec_enc.
  - apply take_ge. lia.
  - apply cipher_block_fun; assumption.
  - intros s Hs. apply InvCipher_Cipher; assumption.
  - exact Hiv.
  - exact Hp.
  - lia.
Qed.
End cbc.

(** ** Properties *)

(** C6: for each key size, with any key of that size and any initialisation
    vector, AES_CBC_decrypt_buffer restores what AES_CBC_encrypt_buffer
    encrypted, for any whole number of blocks: the ciphertext has the size of
    the plain text, and what lies beyond it in the output buffers is not
    touched. *)
Theorem aes_cbc_roundtrip type c key iv n p out1 out2 :
  init type = Some c -> bytes_ok key -> (KEYLEN c <= length key)%nat -> block_ok (take 16 iv) ->
  bytes_ok p -> (1 <= n)%nat -> length p = (16 * n)%nat ->
  (16 * n <= length out1)%nat -> (16 * n <= length out2)%nat ->
  exists p' cs,
    AES_CBC_encrypt_buffer type out1 p (Z.of_nat (16 * n)) key iv
    = Some (p', cs ++ drop (16 * n) out1) /\
    length cs = (16 * n)%nat /\ bytes_ok cs /\
    AES_CBC_decrypt_buffer type out2 (cs ++ drop (16 * n) out1) (Z.of_nat (16 * n)) key iv
    = Some (p ++ drop (16 * n) out2).
Proof.
  intros Hc Hk Hkl Hiv Hp Hn Hl H1 H2.
  destruct (cbc_encrypt_eq type c key iv Hc Hk Hkl Hiv n p out1 Hp Hn Hl H1) as (p' & _ & E).
  assert (B : block_fun (Cipher (Nr c) (round_keys c key))).
  { apply cipher_block_fun; [apply (round_keys_ok type); assumption|apply (init_spec type c Hc)]. }
  destruct (cbc_enc_ok _ n (take 16 iv) p B Hiv Hp ltac:(lia)) as [Lc Bc].
  exists p', (cbc_enc (Cipher (Nr c) (round_keys c key)) n (take 16 iv) p).
  split_and!; [exact E|exact Lc|exact Bc|].
  rewrite (cbc_decrypt_eq type c) by first [assumption | rewrite length_app; lia].
  rewrite (cbc_inverse type) by assumption. reflexivity.
Qed.

(** The key and the first two vectors of the comment in vscp-aes.c. *)
Definition vector_key : list Z :=
  [0x2b; 0x7e; 0x15; 0x16; 0x28; 0xae; 0xd2; 0xa6; 0xab; 0xf7; 0x15; 0x88; 0x09; 0xcf; 0x4f; 0x3c].
Definition vector_plain : list Z :=
  [0x6b; 0xc1; 0xbe; 0xe2; 0x2e; 0x40; 0x9f; 0x96; 0xe9; 0x3d; 0x7e; 0x11; 0x73; 0x93; 0x17; 0x2a].
Definition vector_plain2 : list Z :=
  [0xae; 0x2d; 0x8a; 0x57; 0x1e; 0x03; 0xac; 0x9c; 0x9e; 0xb7; 0x6f; 0xac; 0x45; 0xaf; 0x8e; 0x51].
Definition vector_cipher : list Z :=
  [0x3a; 0xd7; 0x7b; 0xb4; 0x0d; 0x7a; 0x36; 0x60; 0xa8; 0x9e; 0xca; 0xf3; 0x24; 0x66; 0xef; 0x97].
Definition vector_cipher2 : list Z :=
  [0xf5; 0xd3; 0xd5; 0x85; 0x03; 0xb9; 0x69; 0x9d; 0xe7; 0x85; 0x89; 0x5a; 0x96; 0xfd; 0xba; 0xaf].

Lemma aes_cbc_roundtrip_witness :
  exists p' cs,
    AES_CBC_encrypt_buffer AES128 (replicate 33 0) (vector_plain ++ vector_plain2) 32 vector_key vector_cipher
    = Some (p', cs ++ drop (16 * 2) (replicate 33 0)) /\
    length cs = (16 * 2)%nat /\ bytes_ok cs /\
    AES_CBC_decrypt_buffer AES128 (replicate 32 1) (cs ++ drop (16 * 2) (replicate 33 0)) 32
      vector_key vector_cipher
    = Some ((vector_plain ++ vector_plain2) ++ drop (16 * 2) (replicate 32 1)).
Proof.
  apply (aes_cbc_roundtrip AES128 (AesParams AES128 4 16 10) vector_key vector_cipher 2
           (vector_plain ++ vector_plain2) (replicate 33 0) (replicate 32 1)).
  - reflexivity.
  - by_decide.
  - cbn. lia.
  - split; [reflexivity|by_decide].
  - by_decide.
  - lia.
  - reflexivity.
  - cbn. lia.
  - cbn. lia.
Defined.

(** AES_ECB_encrypt and AES_ECB_decrypt compute the ECB-AES128 test vectors
    quoted in vscp-aes.c, for a single block.  Of a longer input only the
    first block is encrypted: the second comes out as it went in. *)
Theorem aes_ecb_vectors :
  AES_ECB_encrypt AES128 vector_plain vector_key (replicate 16 0) 16 = Some vector_cipher /\
  AES_ECB_encrypt AES128 vector_plain2 vector_key (replicate 16 0) 16 = Some vector_cipher2 /\
  AES_ECB_decrypt AES128 vector_cipher vector_key (replicate 16 0) 16 = Some vector_plain /\
  AES_ECB_encrypt AES128 (vector_plain ++ vector_plain2) vector_key (replicate 32 0) 32
  = Some (vector_cipher ++ vector_plain2).
Proof. split_and!; vm_compute; reflexivity. Qed.
