(* ===== verification/Crypt.v ===== *)
(** * Frame encryption: the frame cryptography of vscphelper.cpp

    An encrypted frame is the packet type byte with the algorithm in its low
    nibble, the AES-CBC ciphertext of the padded rest, and the initialisation
    vector; version 1 adds a truncated HMAC-SHA256.  Version 0 uses the AES of
    vscp-aes.c ([Aes]) or OpenSSL, version 1 always OpenSSL: its cipher, its
    HMAC and its random bytes are parameters here. *)

From S2P Require Import Prelude Crc DateTime Event Frame Strings Aes.

Definition VSCP_ENCRYPTION_FROM_TYPE_BYTE : Z := 15.

(** ** Padding and validation *)

(** [None]: the input is shorter than [len]; [Some None]: the function fails.
    The pointer is never null: it is behind a frame's first byte. *)
Definition vscp_pkcs7Pad (input : list Z) (len : Z) : option (option (list Z)) :=
  if 2 ^ 64 - 1 - 16 <? len then Some None
  else
    bs ← rdn input 0 (Z.to_nat len);
    let padlen := u8 (16 - len mod 16) in
    Some (Some (bs ++ replicate (Z.to_nat padlen) padlen)).

(** The plaintext with its padding cleared, and the length without it. *)
Definition vscp_pkcs7Unpad (plaintext : list Z) (len : Z) : option (bool * list Z * Z) :=
  if (len =? 0) || negb (len mod 16 =? 0) then Some (false, plaintext, len)
  else
    last ← rd plaintext (Z.to_nat (len - 1));
    let padlen := u8 last in
    if (padlen =? 0) || (16 <? padlen) || (len <? padlen) then Some (false, plaintext, len)
    else
      pad ← rdn plaintext (Z.to_nat (len - padlen)) (Z.to_nat padlen);
      if forallb (fun b => b =? padlen) pad then
        plaintext ← wr plaintext (Z.to_nat (len - padlen)) (replicate (Z.to_nat padlen) 0);
        Some (true, plaintext, len - padlen)
      else Some (false, plaintext, len).

Definition INT_MAX : Z := 2147483647.

Definition vscp_validFrameCrc (frame : list Z) (len : Z) : option bool :=
  if (len <? 5) || (INT_MAX <? len - 3) then Some false
  else
    expected ← rd_be frame (Z.to_nat (len - 2)) 2;
    msg ← rdn frame 1 (Z.to_nat (len - 3));
    Some (crcSlow msg =? expected).

Definition vscp_validateDecryptedFrame (frame : list Z) (len : Z) : option (bool * list Z) :=
  '(ok, tail, payload_len) ← vscp_pkcs7Unpad (drop 1 frame) (len - 1);
  let frame := take 1 frame ++ tail in
  if (ok : bool) then
    valid ← vscp_validFrameCrc frame (payload_len + 1);
    Some (valid, frame)
  else Some (false, frame).

Definition vscp_resolveFrameCryptoAlgorithm (algorithm : Z) (input : list Z) : option Z :=
  if VSCP_ENCRYPTION_FROM_TYPE_BYTE =? Z.land algorithm 0x0f
  then t ← rd input 0; Some (Z.land t 0x0f)
  else Some algorithm.

Inductive EVP_CIPHER := EVP_aes_128_cbc | EVP_aes_192_cbc | EVP_aes_256_cbc.

Definition vscp_getOpenSslCipherFromAlgorithm (algorithm : Z) : option EVP_CIPHER :=
  if algorithm =? VSCP_ENCRYPTION_AES128 then Some EVP_aes_128_cbc
  else if algorithm =? VSCP_ENCRYPTION_AES192 then Some EVP_aes_192_cbc
  else if algorithm =? VSCP_ENCRYPTION_AES256 then Some EVP_aes_256_cbc
  else None.

(** The [type] of vscp-aes.c for an algorithm: the [switch] of the functions. *)
Definition aes_type (algorithm : Z) : option Z :=
  if algorithm =? VSCP_ENCRYPTION_AES192 then Some AES192
  else if algorithm =? VSCP_ENCRYPTION_AES256 then Some AES256
  else if algorithm =? VSCP_ENCRYPTION_AES128 then Some AES128
  else None.

(** [random] is what the random number generator delivers; [Some None] is its
    failure to deliver 16 bytes. *)
Definition vscp_getEncryptionIv (random : list Z) (iv : option (list Z)) : option (option (list Z)) :=
  match iv with
  | Some v => v ← rdn v 0 16; Some (Some v)
  | None => Some (if (length random =? 16)%nat then Some random else None)
  end.

Definition type_byte (t algorithm : Z) : Z := u8 (Z.lor (Z.land t 0xf0) algorithm).

(** ** The text the two implementations share

    vscp_encryptFrame and vscp_encryptFrameOpenSSL differ in the call that
    encrypts [plaintext] to the buffer behind the first byte, and so do the
    functions that decrypt.  [encrypt] gets the algorithm, that buffer, the
    plaintext, the key and the vector, and returns success and the buffer. *)

Definition encrypt_frame
    (encrypt : Z -> list Z -> list Z -> list Z -> list Z -> option (bool * list Z))
    (random : list Z) (output input : option (list Z)) (len : Z)
    (key iv : option (list Z)) (nAlgorithm : Z) : option (Z * option (list Z)) :=
  match output, input with
  | Some out, Some inp =>
      if len =? 0 then Some (0, output)
      else
        alg ← vscp_resolveFrameCryptoAlgorithm nAlgorithm inp;
        if VSCP_ENCRYPTION_NONE =? alg then
          bs ← rdn inp 0 (Z.to_nat len);
          out ← wr out 0 bs;
          t ← rd out 0;
          out ← wr out 0 [Z.land t 0xf0];
          Some (len, Some out)
        else
          match vscp_getOpenSslCipherFromAlgorithm alg, key with
          | Some _, Some k =>
              padded ← vscp_pkcs7Pad (drop 1 inp) (len - 1);
              match padded with
              | None => Some (0, output)
              | Some plaintext =>
                  t ← rd inp 0;
                  out ← wr out 0 [type_byte t alg];
                  generated ← vscp_getEncryptionIv random iv;
                  match generated with
                  | None => Some (0, Some out)
                  | Some generated_iv =>
                      '(ok, tail) ← encrypt alg (drop 1 out) plaintext k generated_iv;
                      let out := take 1 out ++ tail in
                      if (ok : bool) then
                        out ← wr out (1 + length plaintext) generated_iv;
                        Some (Z.of_nat (length plaintext) + 16 + 1, Some out)
                      else Some (0, Some out)
                  end
              end
          | _, _ => Some (0, output)
          end
  | _, _ => Some (0, output)
  end.

(** [output] may be [input]: the vector is read and the ciphertext copied before
    the output is written, so the result is the one for separate buffers. *)
Definition decrypt_frame
    (decrypt : Z -> list Z -> list Z -> Z -> list Z -> list Z -> option (bool * list Z))
    (output input : option (list Z)) (len : Z) (key iv : option (list Z)) (nAlgorithm : Z)
  : option (bool * option (list Z)) :=
  match output, input with
  | Some out, Some inp =>
      if len =? 0 then Some (false, output)
      else
        alg ← vscp_resolveFrameCryptoAlgorithm nAlgorithm inp;
        if VSCP_ENCRYPTION_NONE =? alg then
          valid ← vscp_validFrameCrc inp len;
          if (valid : bool) then
            bs ← rdn inp 0 (Z.to_nat len);
            out ← wr out 0 bs;
            Some (true, Some out)
          else Some (false, output)
        else
          match key with
          | None => Some (false, output)
          | Some k =>
              r ← match iv with
                  | None =>
                      if len <? 1 + 16 + 16 then Some None
                      else v ← rdn inp (Z.to_nat (len - 16)) 16; Some (Some (v, len - 16))
                  | Some v => v ← rdn v 0 16; Some (Some (v, len))
                  end;
              match r with
              | None => Some (false, output)
              | Some (appended_iv, real_len) =>
                  if (real_len <? 1 + 16) || negb ((real_len - 1) mod 16 =? 0)
                  then Some (false, output)
                  else
                    t ← rd inp 0;
                    out ← wr out 0 [t];
                    '(ok, tail) ← decrypt alg (drop 1 out) (drop 1 inp) (real_len - 1) k appended_iv;
                    let out := take 1 out ++ tail in
                    if (ok : bool) then
                      '(valid, out) ← vscp_validateDecryptedFrame out real_len;
                      Some (valid, Some out)
                    else Some (false, Some out)
              end
          end
  | _, _ => Some (false, output)
  end.

(** ** The implementation with vscp-aes.c *)

Definition internal_encrypt (alg : Z) (output plaintext key iv : list Z) : option (bool * list Z) :=
  match aes_type alg with
  | Some type =>
      '(_, output) ← AES_CBC_encrypt_buffer type output plaintext
                       (u32 (Z.of_nat (length plaintext))) key iv;
      Some (true, output)
  | None => Some (false, output)
  end.

Definition internal_decrypt (alg : Z) (output input : list Z) (len : Z) (key iv : list Z)
  : option (bool * list Z) :=
  match aes_type alg with
  | Some type =>
      output ← AES_CBC_decrypt_buffer type output input (u32 (u32 (len + 1) - 1)) key iv;
      Some (true, output)
  | None => Some (false, output)
  end.

(** ** The implementation with OpenSSL *)

(** The calls EVP_EncryptInit_ex, EVP_CIPHER_CTX_set_padding (no padding),
    EVP_EncryptUpdate and EVP_EncryptFinal_ex for a cipher, key, vector and
    input: success, and the bytes written. *)
Definition evp_encryption : Type := EVP_CIPHER -> list Z -> list Z -> list Z -> bool * list Z.

(** The same for decryption, with how many of the bytes EVP_DecryptFinal_ex wrote. *)
Definition evp_decryption : Type := EVP_CIPHER -> list Z -> list Z -> list Z -> bool * list Z * Z.

(** What EVP_EncryptUpdate and EVP_DecryptUpdate are given: the length is converted
    to int, and none is processed when that is negative. *)
Definition evp_input (input : list Z) : list Z := take (Z.to_nat (s32 (Z.of_nat (length input)))) input.

Section openssl.
Variable EVP_Encrypt : evp_encryption.
Variable EVP_Decrypt : evp_decryption.
(** HMAC is HMAC with EVP_sha256. *)
Variable HMAC : list Z -> list Z -> option (list Z).

(** The two lengths must add up to [len]. *)
Definition vscp_evpEncryptBuffer (pcipher : EVP_CIPHER) (output input key iv : list Z)
  : option (bool * list Z) :=
  let '(ok, bytes) := EVP_Encrypt pcipher key iv (evp_input input) in
  output ← wr output 0 bytes;
  Some (ok && (length bytes =? length input)%nat, output).

(** The second must be zero and the first be [len]. *)
Definition vscp_evpDecryptBuffer (pcipher : EVP_CIPHER) (output input key iv : list Z)
  : option (bool * list Z) :=
  let '(ok, bytes, outlen2) := EVP_Decrypt pcipher key iv (evp_input input) in
  output ← wr output 0 bytes;
  Some (ok && ((outlen2 =? 0) && (Z.of_nat (length bytes) - outlen2 =? Z.of_nat (length input))), output).

Definition openssl_encrypt (alg : Z) (output plaintext key iv : list Z) : option (bool * list Z) :=
  match vscp_getOpenSslCipherFromAlgorithm alg with
  | Some c => vscp_evpEncryptBuffer c output plaintext key iv
  | None => Some (false, output)
  end.

Definition openssl_decrypt (alg : Z) (output input : list Z) (len : Z) (key iv : list Z)
  : option (bool * list Z) :=
  match vscp_getOpenSslCipherFromAlgorithm alg with
  | Some c => input ← rdn input 0 (Z.to_nat len); vscp_evpDecryptBuffer c output input key iv
  | None => Some (false, output)
  end.

Definition vscp_encryptFrameOpenSSL := encrypt_frame openssl_encrypt.
Definition vscp_decryptFrameOpenSSL := decrypt_frame openssl_decrypt.

(** [useOpenSSL] is the flag read by vscp_getFrameEncryptionUseOpenSSL. *)
Definition vscp_encryptFrame (useOpenSSL : bool) (random : list Z) :=
  if useOpenSSL then vscp_encryptFrameOpenSSL random else encrypt_frame internal_encrypt random.

Definition vscp_decryptFrame (useOpenSSL : bool) :=
  if useOpenSSL then vscp_decryptFrameOpenSSL else decrypt_frame internal_decrypt.

(** ** Version 1: encrypt, then authenticate *)

Definition vscp_frameHmac (frame : list Z) (len : Z) (key : list Z) : option (option (list Z)) :=
  let word := Z.lor 0x2000 (u16 (len + 16)) in
  k ← rdn key 0 32;
  bs ← rdn frame 0 (Z.to_nat len);
  Some (match HMAC k ([0x55; u8 (Z.shiftr word 8); u8 word] ++ bs) with
        | Some digest => if (length digest =? 32)%nat then Some digest else None
        | None => None
        end).

Definition vscp_encryptFrameV1 (random : list Z) (output : option (list Z)) (capacity : Z)
    (input : option (list Z)) (len : Z) (key hmacKey iv : option (list Z)) (nAlgorithm : Z)
  : option (Z * option (list Z)) :=
  match output, input, key, hmacKey with
  | Some out, Some inp, Some k, Some hk =>
      if (len <? 5) || (0x1fff <? len) then Some (0, output)
      else
        alg ← vscp_resolveFrameCryptoAlgorithm nAlgorithm inp;
        match vscp_getOpenSslCipherFromAlgorithm alg with
        | None => Some (0, output)
        | Some cipher =>
            let ciphertext_len := ((len - 1) / 16 + 1) * 16 in
            let wire_len := 1 + ciphertext_len + 32 in
            if (capacity <? wire_len) || (0x1fff <? wire_len) then Some (0, output)
            else
              generated ← vscp_getEncryptionIv random iv;
              match generated with
              | None => Some (0, output)
              | Some generated_iv =>
                  padded ← vscp_pkcs7Pad (drop 1 inp) (len - 1);
                  match padded with
                  | None => Some (0, output)
                  | Some padded =>
                      t ← rd inp 0;
                      '(ok, tail) ← vscp_evpEncryptBuffer cipher
                                      (replicate (Z.to_nat (wire_len - 1)) 0) padded k generated_iv;
                      let frame := type_byte t alg :: tail in
                      if negb ok then Some (0, output)
                      else
                        frame ← wr frame (Z.to_nat (1 + ciphertext_len)) generated_iv;
                        digest ← vscp_frameHmac frame (wire_len - 16) hk;
                        match digest with
                        | None => Some (0, output)
                        | Some digest =>
                            frame ← wr frame (Z.to_nat (wire_len - 16)) (take 16 digest);
                            out ← wr out 0 frame;
                            Some (wire_len, Some out)
                        end
                  end
              end
        end
  | _, _, _, _ => Some (0, output)
  end.

Definition vscp_decryptFrameV1 (output : option (list Z)) (capacity : Z)
    (input : option (list Z)) (len : Z) (key hmacKey : option (list Z))
  : option (Z * option (list Z)) :=
  match output, input, key, hmacKey with
  | Some out, Some inp, Some k, Some hk =>
      if (len <? 49) || (0x1fff <? len) || negb ((len - 33) mod 16 =? 0) then Some (0, output)
      else
        t ← rd inp 0;
        match vscp_getOpenSslCipherFromAlgorithm (Z.land t 0x0f) with
        | None => Some (0, output)
        | Some cipher =>
            digest ← vscp_frameHmac inp (len - 16) hk;
            tag ← rdn inp (Z.to_nat (len - 16)) 16;
            match digest with
            | None => Some (0, output)
            | Some digest =>
                if negb (bool_decide (take 16 digest = tag)) then Some (0, output)
                else
                  iv ← rdn inp (Z.to_nat (len - 32)) 16;
                  bytes ← rdn inp 1 (Z.to_nat (len - 33));
                  '(ok, tail) ← vscp_evpDecryptBuffer cipher (replicate (Z.to_nat (len - 33)) 0)
                                  bytes k iv;
                  if negb ok then Some (0, output)
                  else
                    '(ok, tail, payload_len) ← vscp_pkcs7Unpad tail (len - 33);
                    if negb ok then Some (0, output)
                    else
                      let plaintext := t :: tail in
                      valid ← vscp_validFrameCrc plaintext (payload_len + 1);
                      if negb valid || (capacity <? payload_len + 1) then Some (0, output)
                      else
                        bs ← rdn plaintext 0 (Z.to_nat (payload_len + 1));
                        out ← wr out 0 bs;
                        Some (payload_len + 1, Some out)
            end
        end
  | _, _, _, _ => Some (0, output)
  end.
End openssl.

(** ** Lemmas *)

(** *** Padding *)

(** The number of padding bytes and of blocks for [len] bytes. *)
Definition padding (len : nat) : nat := 16 - len mod 16.
Definition padded_blocks (len : nat) : nat := len / 16 + 1.

Lemma padding_spec len :
  (1 <= padding len <= 16)%nat /\ (len + padding len = 16 * padded_blocks len)%nat.
Proof.
  unfold padding, padded_blocks. assert (H := Nat.div_mod_eq len 16).
  assert (len mod 16 < 16)%nat by (apply Nat.mod_upper_bound; lia). lia.
Qed.

Definition pad_bytes (len : nat) : list Z := replicate (padding len) (Z.of_nat (padding len)).

Lemma pad_byte len : u8 (16 - Z.of_nat len mod 16) = Z.of_nat (padding len).
Proof.
  assert (H := padding_spec len). unfold padding in *.
  rewrite Nat2Z.inj_sub by lia. rewrite Nat2Z.inj_mod. change (Z.of_nat 16) with 16.
  apply u8_id. width; lia.
Qed.

Lemma pad_eq bs rest :
  Z.of_nat (length bs) < 2 ^ 63 ->
  vscp_pkcs7Pad (bs ++ rest) (Z.of_nat (length bs)) = Some (Some (bs ++ pad_bytes (length bs))).
Proof.
  intros Hl. unfold vscp_pkcs7Pad.
  rewrite (proj2 (Z.ltb_ge _ _)) by lia. rewrite Nat2Z.id, rdn_front.
  cbn [mbind option_bind]. rewrite pad_byte, Nat2Z.id. reflexivity.
Qed.

Lemma pad_bytes_ok len : bytes_ok (pad_bytes len).
Proof. apply Forall_replicate. assert (H := padding_spec len). width; lia. Qed.

Lemma length_padded bs : length (bs ++ pad_bytes (length bs)) = (16 * padded_blocks (length bs))%nat.
Proof.
  unfold pad_bytes. rewrite length_app, length_replicate. apply (padding_spec (length bs)).
Qed.

Lemma unpad_eq bs rest :
  vscp_pkcs7Unpad (bs ++ pad_bytes (length bs) ++ rest) (Z.of_nat (16 * padded_blocks (length bs)))
  = Some (true, bs ++ replicate (padding (length bs)) 0 ++ rest, Z.of_nat (length bs)).
Proof.
  destruct (padding_spec (length bs)) as [H1 H2]. set (p := padding (length bs)) in *.
  set (n := Z.of_nat (16 * padded_blocks (length bs))).
  assert (Hn : n = Z.of_nat (length bs + p)) by lia. clearbody n. subst n.
  unfold vscp_pkcs7Unpad. rewrite (proj2 (Z.eqb_neq _ 0)) by lia. cbn [orb].
  assert (M : Z.of_nat (length bs + p) mod 16 = 0).
  { rewrite H2. rewrite Nat2Z.inj_mul, Z.mul_comm. apply Z.mod_mul. lia. }
  rewrite M. cbn [Z.eqb negb]. unfold pad_bytes. fold p.
  assert (R : rd (bs ++ replicate p (Z.of_nat p) ++ rest) (Z.to_nat (Z.of_nat (length bs + p) - 1))
              = Some (Z.of_nat p)).
  { unfold rd. rewrite lookup_app_r, lookup_app_l by (rewrite ?length_replicate; lia).
    apply lookup_replicate_2. lia. }
  rewrite R. cbn [mbind option_bind]. rewrite u8_id by (width; lia).
  rewrite (proj2 (Z.eqb_neq (Z.of_nat p) 0)), (proj2 (Z.ltb_ge 16 _)), (proj2 (Z.ltb_ge _ (Z.of_nat p)))
    by lia. cbn [orb].
  rewrite rdn_app by (rewrite ?length_replicate; lia). cbn [mbind option_bind].
  assert (F : forallb (fun b => b =? Z.of_nat p) (replicate p (Z.of_nat p)) = true).
  { apply forallb_forall. intros x Hx. apply list_elem_of_In, elem_of_replicate in Hx.
    apply Z.eqb_eq. tauto. }
  rewrite F, Nat2Z.id.
  rewrite (wr_app bs (replicate p (Z.of_nat p)) rest) by (rewrite ?length_replicate; lia).
  cbn [mbind option_bind]. do 3 f_equal. lia.
Qed.

(** *** Frames with a valid CRC *)

Lemma crcSlow_fast m : bytes_ok m -> crcSlow m = crcFast m.
Proof.
  intros Hm. unfold crcSlow, crcFast. rewrite foldl_crcFast_slow; [reflexivity|apply INITIAL_ok|exact Hm].
Qed.

Lemma frame_body_ok p e : event_ok e -> bytes_ok (frame_body p e).
Proof.
  intros He. unfold frame_body, frame_header. rewrite !Forall_app.
  destruct (guid_ok e He) as [_ Hg]. destruct (data_of_ok _ _ (edata_ok e He)) as [_ Hd].
  split_and!; try apply be_ok; try assumption; repeat apply Forall_cons_2; try apply Forall_nil_2; width.
Qed.

Lemma frame_of_ok p e : event_ok e -> bytes_ok (frame_of p e).
Proof.
  intros He. unfold frame_of. apply Forall_app. split; [apply frame_body_ok, He|apply crc_bytes_ok].
Qed.

Lemma frame_of_valid p e rest :
  event_ok e -> vscp_validFrameCrc (frame_of p e ++ rest) (38 + sizeData e) = Some true.
Proof.
  intros He. unfold vscp_validFrameCrc. assert (Hs := size_ok e He).
  unfold is_u16 in Hs. change (2 ^ 16) with 65536 in Hs.
  rewrite (proj2 (Z.ltb_ge _ 5)), (proj2 (Z.ltb_ge INT_MAX _)) by (unfold INT_MAX; lia).
  cbn [orb]. assert (Hb := length_frame_body p e He). unfold frame_of. rewrite <- app_assoc.
  unfold rd_be.
  rewrite (rdn_app (frame_body p e) (crc_bytes (crcFast (drop 1 (frame_body p e)))) rest
             (Z.to_nat (38 + sizeData e - 2)) 2) by (rewrite ?Hb; first [reflexivity | lia]).
  cbn [fmap option_fmap option_map mbind option_bind].
  rewrite of_be_crc by apply crcFast_ok. rewrite rdn_tail by (rewrite Hb; lia).
  cbn [mbind option_bind]. rewrite crcSlow_fast by (apply Forall_drop, frame_body_ok, He).
  rewrite Z.eqb_refl. reflexivity.
Qed.

(** The packet type byte is outside the CRC. *)
Lemma frame_of_tail p q e : drop 1 (frame_of p e) = drop 1 (frame_of q e).
Proof. reflexivity. Qed.

Lemma validFrameCrc_first b1 b2 tail len :
  vscp_validFrameCrc (b1 :: tail) len = vscp_validFrameCrc (b2 :: tail) len.
Proof.
  unfold vscp_validFrameCrc. destruct (Z.ltb_spec len 5); [reflexivity|]. cbn [orb].
  destruct (INT_MAX <? len - 3); [reflexivity|].
  assert (R : forall n off, (1 <= off)%nat -> rdn (b1 :: tail) off n = rdn (b2 :: tail) off n).
  { intros n [|off] Ho; [lia|]. unfold rdn. reflexivity. }
  unfold rd_be. rewrite (R 2%nat), (R _ 1%nat) by lia. reflexivity.
Qed.

(** *** Encrypting and decrypting a frame *)

Lemma type_byte_spec t alg :
  is_u8 t -> 1 <= alg <= 3 ->
  type_byte t alg = t / 16 * 16 + alg /\ is_u8 (type_byte t alg) /\
  Z.land (type_byte t alg) 0x0f = alg.
Proof.
  intros Ht Ha. unfold type_byte.
  assert (E : Z.land t 0xf0 = t / 2 ^ 4 * 2 ^ 4).
  { apply (all_below_spec 256 (fun t => Z.land t 0xf0 =? t / 2 ^ 4 * 2 ^ 4) t) in Ht as B;
      [apply Z.eqb_eq, B|vm_compute; reflexivity]. }
  rewrite E, (lor_add_disjoint 4) by lia. change (2 ^ 4) with 16.
  change 0x0f with 15. rewrite land_15. rewrite u8_id by width. split_and!; [reflexivity|width|dlia].
Qed.

Lemma algorithm_cases alg :
  1 <= alg <= 3 ->
  (exists c, vscp_getOpenSslCipherFromAlgorithm alg = Some c) /\
  (exists type c, aes_type alg = Some type /\ init type = Some c) /\
  (VSCP_ENCRYPTION_NONE =? alg) = false /\ Z.land alg 0x0f = alg.
Proof.
  intros H. assert (C : alg = 1 \/ alg = 2 \/ alg = 3) by lia.
  destruct C as [-> | [-> | ->]]; split_and!; try (eexists; reflexivity); try reflexivity;
    do 2 eexists; (split; [reflexivity|]; reflexivity).
Qed.

(** What the round trip needs of the two block functions, for a key and a
    vector: on whole blocks the second restores what the first made. *)
Definition steps_inverse
    (encrypt : Z -> list Z -> list Z -> list Z -> list Z -> option (bool * list Z))
    (decrypt : Z -> list Z -> list Z -> Z -> list Z -> list Z -> option (bool * list Z))
    (alg : Z) (k iv : list Z) : Prop :=
  forall plaintext n out,
  bytes_ok plaintext -> length plaintext = (16 * n)%nat -> (1 <= n)%nat ->
  Z.of_nat (16 * n) < 2 ^ 31 -> (16 * n <= length out)%nat ->
  exists cs, length cs = (16 * n)%nat /\ bytes_ok cs /\
    encrypt alg out plaintext k iv = Some (true, cs ++ drop (16 * n) out) /\
    forall tail out2, (16 * n <= length out2)%nat ->
    decrypt alg out2 (cs ++ tail) (Z.of_nat (16 * n)) k iv
    = Some (true, plaintext ++ drop (16 * n) out2).

Section roundtrip.
Context (encrypt : Z -> list Z -> list Z -> list Z -> list Z -> option (bool * list Z))
  (decrypt : Z -> list Z -> list Z -> Z -> list Z -> list Z -> option (bool * list Z))
  (alg : Z) (k v : list Z).
Context (Halg : 1 <= alg <= 3) (Hv : block_ok v) (Hs : steps_inverse encrypt decrypt alg k v).

Lemma encrypt_frame_eq random iv t body rest out :
  vscp_getEncryptionIv random iv = Some (Some v) ->
  bytes_ok body -> Z.of_nat (16 * padded_blocks (length body)) < 2 ^ 31 ->
  (17 + 16 * padded_blocks (length body) <= length out)%nat ->
  exists cs, length cs = (16 * padded_blocks (length body))%nat /\ bytes_ok cs /\
    encrypt_frame encrypt random (Some out) (Some ((t :: body) ++ rest))
      (Z.of_nat (length (t :: body))) (Some k) iv alg
    = Some (Z.of_nat (17 + length cs),
            Some (type_byte t alg :: cs ++ v ++ drop (17 + length cs) out)) /\
    forall tail out2, (length cs <= length out2)%nat ->
    decrypt alg out2 (cs ++ tail) (Z.of_nat (length cs)) k v
    = Some (true, (body ++ pad_bytes (length body)) ++ drop (length cs) out2).
Proof using Halg Hv Hs.
  intros Hiv Hb Hlen Ho. destruct (algorithm_cases alg Halg) as ((c & Hc) & _ & H0 & Ha).
  set (n := padded_blocks (length body)) in *.
  destruct out as [|o out]; cbn [length] in Ho; [lia|].
  assert (Hn : (1 <= n)%nat) by (unfold n, padded_blocks; lia).
  destruct (Hs (body ++ pad_bytes (length body)) n out) as (cs & Lc & Bc & E & D);
    [apply Forall_app; split; [exact Hb|apply pad_bytes_ok]|apply length_padded|exact Hn|exact Hlen
    |lia|].
  exists cs. rewrite Lc. split_and!; [reflexivity|exact Bc| |exact D].
  unfold encrypt_frame. rewrite (proj2 (Z.eqb_neq _ 0)) by (cbn [length]; lia).
  unfold vscp_resolveFrameCryptoAlgorithm. rewrite Ha.
  rewrite (proj2 (Z.eqb_neq VSCP_ENCRYPTION_FROM_TYPE_BYTE alg))
    by (unfold VSCP_ENCRYPTION_FROM_TYPE_BYTE; lia).
  cbn [mbind option_bind]. rewrite H0, Hc. cbn [app drop length]. rewrite ?drop_0.
  replace (Z.of_nat (S (length body)) - 1) with (Z.of_nat (length body)) by lia.
  destruct (padding_spec (length body)) as [P1 P2]. fold n in P2.
  rewrite pad_eq by lia. cbn [mbind option_bind]. change (rd (t :: body ++ rest) 0) with (Some t).
  cbn [mbind option_bind]. rewrite wr_front by (cbn [length]; lia).
  cbn [mbind option_bind app length drop]. rewrite ?drop_0. rewrite Hiv. cbn [mbind option_bind]. rewrite E.
  cbn [mbind option_bind take app]. rewrite ?take_0. cbn [app]. rewrite length_padded. fold n.
  destruct Hv as [Lv Bv].
  assert (W : wr (type_byte t alg :: cs ++ drop (16 * n) out) (1 + 16 * n) v
              = Some (type_byte t alg :: cs ++ v ++ drop (17 + 16 * n) (o :: out))).
  { change (type_byte t alg :: cs ++ drop (16 * n) out)
      with ((type_byte t alg :: cs) ++ drop (16 * n) out).
    rewrite wr_next by (cbn [length]; rewrite ?length_drop; lia).
    rewrite Lv, drop_drop. cbn [app]. rewrite <- app_assoc. do 4 f_equal.
    replace (17 + 16 * n)%nat with (S (16 * n + 16)) by lia. reflexivity. }
  rewrite W. cbn [mbind option_bind]. do 2 f_equal. lia.
Qed.

Lemma decrypt_frame_eq b body cs tail out n :
  Z.land b 0x0f = alg ->
  length cs = (16 * n)%nat -> n = padded_blocks (length body) -> (1 + 16 * n <= length out)%nat ->
  vscp_validFrameCrc (b :: body ++ replicate (padding (length body)) 0 ++ drop (1 + 16 * n) out)
    (Z.of_nat (length (b :: body))) = Some true ->
  (forall tail out2, (16 * n <= length out2)%nat ->
    decrypt alg out2 (cs ++ tail) (Z.of_nat (16 * n)) k v
    = Some (true, (body ++ pad_bytes (length body)) ++ drop (16 * n) out2)) ->
  decrypt_frame decrypt (Some out) (Some (b :: cs ++ v ++ tail)) (Z.of_nat (17 + 16 * n))
    (Some k) None VSCP_ENCRYPTION_FROM_TYPE_BYTE
  = Some (true, Some (b :: body ++ replicate (padding (length body)) 0 ++ drop (1 + 16 * n) out)).
Proof using Halg Hv.
  intros Hb Lc Hn Ho Hcrc D. destruct (algorithm_cases alg Halg) as (_ & _ & H0 & _).
  assert (N : (1 <= n)%nat) by (subst n; unfold padded_blocks; lia).
  destruct out as [|o out]; cbn [length] in Ho; [lia|].
  unfold decrypt_frame. rewrite (proj2 (Z.eqb_neq _ 0)) by lia.
  change (vscp_resolveFrameCryptoAlgorithm VSCP_ENCRYPTION_FROM_TYPE_BYTE (b :: cs ++ v ++ tail))
    with (Some (Z.land b 0x0f)).
  cbn [mbind option_bind]. rewrite Hb, H0, (proj2 (Z.ltb_ge _ (1 + 16 + 16))) by lia.
  destruct Hv as [Lv Bv].
  assert (R : rdn (b :: cs ++ v ++ tail) (Z.to_nat (Z.of_nat (17 + 16 * n) - 16)) 16 = Some v).
  { apply (rdn_app (b :: cs) v tail); cbn [length]; lia. }
  rewrite R. cbn [mbind option_bind].
  replace (Z.of_nat (17 + 16 * n) - 16) with (Z.of_nat (1 + 16 * n)) by lia.
  rewrite (proj2 (Z.ltb_ge _ (1 + 16))) by lia.
  replace (Z.of_nat (1 + 16 * n) - 1) with (Z.of_nat (16 * n)) by lia.
  assert (M : Z.of_nat (16 * n) mod 16 = 0)
    by (rewrite Nat2Z.inj_mul, Z.mul_comm; apply Z.mod_mul; lia).
  rewrite M. cbn [Z.eqb negb orb].
  change (rd (b :: cs ++ v ++ tail) 0) with (Some b). cbn [mbind option_bind].
  rewrite wr_front by (cbn [length]; lia). cbn [mbind option_bind app length drop]. rewrite ?drop_0.
  rewrite D by lia. cbn [mbind option_bind take app]. rewrite ?take_0. cbn [app].
  unfold vscp_validateDecryptedFrame. cbn [drop take app]. rewrite ?drop_0, ?take_0. cbn [app].
  replace (Z.of_nat (1 + 16 * n) - 1) with (Z.of_nat (16 * n)) by lia.
  rewrite <- app_assoc, Hn, unpad_eq, <- Hn. cbn [mbind option_bind].
  replace (Z.of_nat (length body) + 1) with (Z.of_nat (length (b :: body))) by (cbn [length]; lia).
  cbn [drop Nat.add] in Hcrc. rewrite Hcrc. reflexivity.
Qed.
End roundtrip.

(** *** The two implementations as frame ciphers *)

Definition key_length (alg : Z) : nat := Z.to_nat (16 + 8 * (alg - 1)).

(** What the frame functions need of an implementation; [Aes] and OpenSSL
    provide it. *)
Class FrameCipher
    (encrypt : Z -> list Z -> list Z -> list Z -> list Z -> option (bool * list Z))
    (decrypt : Z -> list Z -> list Z -> Z -> list Z -> list Z -> option (bool * list Z)) : Prop :=
  frame_cipher : forall alg k v, 1 <= alg <= 3 -> bytes_ok k -> (key_length alg <= length k)%nat ->
    block_ok v -> steps_inverse encrypt decrypt alg k v.

Lemma aes_key_length alg type c :
  1 <= alg <= 3 -> aes_type alg = Some type -> init type = Some c -> KEYLEN c = key_length alg.
Proof.
  intros H. assert (C : alg = 1 \/ alg = 2 \/ alg = 3) by lia.
  destruct C as [-> | [-> | ->]]; intros [= <-] [= <-]; reflexivity.
Qed.

#[export] Instance internal_cipher : FrameCipher internal_encrypt internal_decrypt.
Proof.
  intros alg k v Ha Hk Hkl Hv p n out Hp Hl Hn Hs Ho.
  destruct (algorithm_cases alg Ha) as (_ & (type & c & Ht & Hc) & _).
  rewrite <- (aes_key_length alg type c Ha Ht Hc) in Hkl.
  assert (Tv : take 16 v = v) by (apply take_ge; destruct Hv; lia).
  assert (Hv' : block_ok (take 16 v)) by (rewrite Tv; exact Hv).
  destruct (cbc_encrypt_eq type c k v Hc Hk Hkl Hv' n p out Hp Hn Hl Ho) as (p' & _ & E).
  assert (Hr := round_keys_ok type c k Hc Hk Hkl).
  assert (B : block_fun (Cipher (Nr c) (round_keys c k)))
    by (apply cipher_block_fun; [exact Hr|apply (init_spec type c Hc)]).
  destruct (cbc_enc_ok _ n (take 16 v) p B Hv' Hp ltac:(lia)) as [Lc Bc].
  eexists. split; [exact Lc|]. split; [exact Bc|].
  change (2 ^ 31) with 2147483648 in Hs. split.
  - unfold internal_encrypt. rewrite Ht, Hl, u32_id by (width; lia). rewrite E. reflexivity.
  - intros tail out2 Ho2. unfold internal_decrypt. rewrite Ht.
    replace (u32 (u32 (Z.of_nat (16 * n) + 1) - 1)) with (Z.of_nat (16 * n))
      by (rewrite (u32_id (_ + 1)), u32_id by (width; lia); lia).
    rewrite (cbc_decrypt_eq type c) by first [assumption | rewrite length_app; lia].
    rewrite (cbc_inverse type) by assumption. reflexivity.
Qed.

(** The documented behaviour of OpenSSL: without padding, CBC encryption of
    whole blocks succeeds, keeps the length and is undone by decryption, of which
    EVP_DecryptFinal_ex writes nothing. *)
Definition evp_keylen (c : EVP_CIPHER) : nat :=
  match c with EVP_aes_128_cbc => 16 | EVP_aes_192_cbc => 24 | EVP_aes_256_cbc => 32 end.

Class EvpLaws (EVP_Encrypt : evp_encryption) (EVP_Decrypt : evp_decryption) : Prop :=
  evp_inverse : forall c key iv p n, bytes_ok key -> (evp_keylen c <= length key)%nat -> block_ok iv ->
    bytes_ok p -> (1 <= n)%nat -> length p = (16 * n)%nat ->
    exists cs, EVP_Encrypt c key iv p = (true, cs) /\ length cs = length p /\ bytes_ok cs /\
      EVP_Decrypt c key iv cs = (true, p, 0).

Lemma evp_input_small p : Z.of_nat (length p) < 2 ^ 31 -> evp_input p = p.
Proof. intros H. unfold evp_input. replace (s32 _) with (Z.of_nat (length p)) by width. apply take_ge. lia. Qed.

Class HmacLaws (HMAC : list Z -> list Z -> option (list Z)) : Prop :=
  hmac_length : forall k m, exists d, HMAC k m = Some d /\ length d = 32%nat.

Lemma cipher_key_length alg c :
  1 <= alg <= 3 -> vscp_getOpenSslCipherFromAlgorithm alg = Some c -> evp_keylen c = key_length alg.
Proof.
  intros H. assert (C : alg = 1 \/ alg = 2 \/ alg = 3) by lia.
  destruct C as [-> | [-> | ->]]; intros [= <-]; reflexivity.
Qed.

#[export] Instance openssl_cipher E D `{!EvpLaws E D} :
  FrameCipher (openssl_encrypt E) (openssl_decrypt D).
Proof.
  intros alg k v Ha Hk Hkl Hv p n out Hp Hl Hn Hs Ho.
  destruct (algorithm_cases alg Ha) as ((c & Hc) & _).
  rewrite <- (cipher_key_length alg c Ha Hc) in Hkl.
  destruct (evp_inverse c k v p n Hk Hkl Hv Hp Hn Hl) as (cs & Ee & Lc & Bc & Ed).
  exists cs. split; [lia|]. split; [exact Bc|]. split.
  - unfold openssl_encrypt, vscp_evpEncryptBuffer. rewrite Hc, evp_input_small, Ee, wr_front by lia.
    cbn [mbind option_bind]. rewrite Lc, Nat.eqb_refl, Hl. reflexivity.
  - intros tail out2 Ho2. unfold openssl_decrypt, vscp_evpDecryptBuffer. rewrite Hc, Nat2Z.id.
    rewrite <- Hl, <- Lc, rdn_front. cbn [mbind option_bind]. rewrite evp_input_small, Ed, wr_front by lia.
    cbn [mbind option_bind]. rewrite Lc, Z.sub_0_r, !Z.eqb_refl. reflexivity.
Qed.

(** A frame with a valid CRC survives encryption and decryption by one frame
    cipher: the type byte then names the algorithm, and the padding is zero. *)
Lemma frame_roundtrip encrypt decrypt `{!FrameCipher encrypt decrypt} random iv v k alg t body rest
    out1 out2 :
  1 <= alg <= 3 -> bytes_ok k -> (key_length alg <= length k)%nat ->
  vscp_getEncryptionIv random iv = Some (Some v) -> block_ok v ->
  is_u8 t -> bytes_ok body ->
  (forall r, vscp_validFrameCrc (t :: body ++ r) (Z.of_nat (length (t :: body))) = Some true) ->
  let n := padded_blocks (length body) in
  Z.of_nat (16 * n) < 2 ^ 31 -> (17 + 16 * n <= length out1)%nat -> (1 + 16 * n <= length out2)%nat ->
  exists enc,
    encrypt_frame encrypt random (Some out1) (Some ((t :: body) ++ rest))
      (Z.of_nat (length (t :: body))) (Some k) iv alg = Some (Z.of_nat (17 + 16 * n), Some enc) /\
    drop (17 + 16 * n) enc = drop (17 + 16 * n) out1 /\
    decrypt_frame decrypt (Some out2) (Some enc) (Z.of_nat (17 + 16 * n)) (Some k) None
      VSCP_ENCRYPTION_FROM_TYPE_BYTE
    = Some (true, Some (type_byte t alg :: body ++ replicate (padding (length body)) 0
                          ++ drop (1 + 16 * n) out2)).
Proof.
  intros Ha Hk Hkl Hiv Hv Ht Hb Hcrc n Hn Ho1 Ho2.
  assert (Hs := frame_cipher alg k v Ha Hk Hkl Hv).
  destruct (encrypt_frame_eq encrypt decrypt alg k v Ha Hv Hs random iv t body rest out1 Hiv Hb Hn Ho1)
    as (cs & Lc & Bc & E & D).
  fold n in Lc. rewrite Lc in E, D. eexists. split; [exact E|]. split.
  - replace (17 + 16 * n)%nat with (S (16 * n + 16)) by lia. cbn [drop].
    rewrite app_assoc. destruct Hv as [Lv _]. rewrite drop_app_length' by (rewrite length_app; lia).
    reflexivity.
  - apply (decrypt_frame_eq decrypt alg k v Ha Hv); [apply type_byte_spec; assumption|exact Lc|reflexivity
      |exact Ho2| |exact D].
    change (length (type_byte t alg :: body)) with (length (t :: body)).
    rewrite (validFrameCrc_first _ t). apply Hcrc.
Qed.

Lemma type_byte_event p alg : 1 <= alg <= 3 -> type_byte (p mod 16 + 16) alg = alg mod 16 + 16.
Proof.
  intros Ha. rewrite (proj1 (type_byte_spec (p mod 16 + 16) alg ltac:(width) Ha)). dlia.
Qed.

(** The frame of an event as type byte and rest. *)
Lemma event_frame_split p e :
  event_ok e -> exists t body,
    frame_of p e = t :: body /\ Z.of_nat (length (t :: body)) = 38 + sizeData e /\
    is_u8 t /\ bytes_ok body /\
    (forall r, vscp_validFrameCrc (t :: body ++ r) (Z.of_nat (length (t :: body))) = Some true) /\
    (forall now e0 alg rest len, 1 <= alg <= 3 -> 38 + sizeData e <= len -> exists framecrc,
      vscp_getEventFromFrame now (Some e0) (Some ((type_byte t alg :: body) ++ rest)) len
      = Some (true, Some (received now e framecrc))).
Proof.
  intros He. assert (Hs := size_ok e He). unfold is_u16 in Hs.
  assert (F : frame_of p e = p mod 16 + 16 :: drop 1 (frame_of p e)) by reflexivity.
  assert (L : Z.of_nat (length (frame_of p e)) = 38 + sizeData e) by (rewrite length_frame_of by exact He; lia).
  do 2 eexists. split; [exact F|]. rewrite <- F.
  split; [exact L|]. split; [width|]. split; [apply Forall_drop, frame_of_ok, He|]. split.
  - intros r. rewrite L. change (p mod 16 + 16 :: drop 1 (frame_of p e) ++ r) with (frame_of p e ++ r).
    apply frame_of_valid, He.
  - intros now e0 alg rest len Ha Hl. eexists.
    rewrite type_byte_event, (frame_of_tail p alg) by exact Ha.
    change (alg mod 16 + 16 :: drop 1 (frame_of alg e)) with (frame_of alg e).
    apply getEventFromFrame_written; [exact He|exact Hl].
Qed.

Lemma blocks_of_size (t : Z) body :
  (Z.of_nat (length (t :: body)) - 1) / 16 * 16 = Z.of_nat (16 * padded_blocks (length body)) - 16.
Proof.
  unfold padded_blocks. cbn [length].
  replace (Z.of_nat (S (length body)) - 1) with (Z.of_nat (length body)) by lia.
  rewrite Nat2Z.inj_mul, Nat2Z.inj_add, Nat2Z.inj_div. lia.
Qed.

(** The same for an event, its frame, and one implementation. *)
Lemma event_cipher_roundtrip encrypt decrypt `{!FrameCipher encrypt decrypt} now random iv v key alg
    e e0 f out1 out2 pkttype :
  event_ok e -> 1 <= alg <= 3 -> bytes_ok key -> (key_length alg <= length key)%nat ->
  vscp_getEncryptionIv random iv = Some (Some v) -> block_ok v ->
  let size := 38 + sizeData e in
  let wire := (size - 1) / 16 * 16 + 33 in
  Z.of_nat (length f) = size -> wire <= Z.of_nat (length out1) -> wire - 16 <= Z.of_nat (length out2) ->
  exists fr enc dec framecrc,
    vscp_writeEventToFrame (Some f) size pkttype (Some e) = Some (true, Some fr) /\
    encrypt_frame encrypt random (Some out1) (Some fr) size (Some key) iv alg = Some (wire, Some enc) /\
    drop (Z.to_nat wire) enc = drop (Z.to_nat wire) out1 /\
    decrypt_frame decrypt (Some out2) (Some enc) wire (Some key) None
      VSCP_ENCRYPTION_FROM_TYPE_BYTE = Some (true, Some dec) /\
    vscp_getEventFromFrame now (Some e0) (Some dec) size = Some (true, Some (received now e framecrc)).
Proof.
  intros He Ha Hk Hkl Hiv Hv size wire Hf Ho1 Ho2.
  assert (Hs := size_ok e He). unfold is_u16 in Hs. change (2 ^ 16) with 65536 in Hs.
  destruct (event_frame_split pkttype e He) as (t & body & F & L & Bt & Bb & V & G). fold size in L.
  assert (Lb : Z.of_nat (length body) = 37 + sizeData e) by (cbn [length] in L; unfold size in L; lia).
  destruct (padding_spec (length body)) as [P1 P2].
  assert (N : wire = Z.of_nat (17 + 16 * padded_blocks (length body))).
  { unfold wire. rewrite <- L, blocks_of_size. lia. }
  destruct (frame_roundtrip encrypt decrypt random iv v key alg t body [] out1 out2
              Ha Hk Hkl Hiv Hv Bt Bb V ltac:(lia) ltac:(lia) ltac:(lia)) as (enc & E & T & D).
  rewrite app_nil_r, L in E. rewrite <- N in *.
  destruct (G now e0 alg (replicate (padding (length body)) 0
              ++ drop (1 + 16 * padded_blocks (length body)) out2) size Ha ltac:(unfold size; lia)) as [c C].
  exists (t :: body), enc. do 2 eexists. split.
  { rewrite writeEventToFrame_eq, F by (exact He || lia). fold size. rewrite Z.leb_refl, drop_ge by lia.
    rewrite app_nil_r. reflexivity. }
  split; [exact E|]. split; [rewrite N, Nat2Z.id; exact T|]. split; [exact D|exact C].
Qed.

(** *** Decrypting any buffer *)

Lemma unpad_defined buf len :
  bytes_ok buf -> 0 <= len <= Z.of_nat (length buf) ->
  exists ok buf' n, vscp_pkcs7Unpad buf len = Some (ok, buf', n) /\
    length buf' = length buf /\ drop (Z.to_nat len) buf' = drop (Z.to_nat len) buf /\
    0 <= n <= len /\ (ok = true -> n < len) /\ bytes_ok buf'.
Proof.
  intros Hb Hl. unfold vscp_pkcs7Unpad.
  assert (D : forall ok : bool, ok = false -> exists ok' buf' n, Some (ok, buf, len) = Some (ok', buf', n) /\
    length buf' = length buf /\ drop (Z.to_nat len) buf' = drop (Z.to_nat len) buf /\
    0 <= n <= len /\ (ok' = true -> n < len) /\ bytes_ok buf').
  { intros ok ->. exists false, buf, len. split_and!; [reflexivity|reflexivity|reflexivity|lia|lia|discriminate|exact Hb]. }
  destruct (Z.eqb_spec len 0); [apply D; reflexivity|]. cbn [orb].
  destruct (negb _); [apply D; reflexivity|].
  destruct (rd_some buf (Z.to_nat (len - 1)) ltac:(lia) Hb) as (padlen & -> & Hp).
  cbn [mbind option_bind]. rewrite (u8_id padlen) by exact Hp. unfold is_u8 in Hp.
  destruct (Z.eqb_spec padlen 0); [apply D; reflexivity|].
  destruct (Z.ltb_spec 16 padlen); [apply D; reflexivity|].
  destruct (Z.ltb_spec len padlen); [apply D; reflexivity|]. cbn [orb].
  rewrite rdn_defined by lia. cbn [mbind option_bind]. destruct (forallb _ _); [|apply D; reflexivity].
  unfold wr. rewrite length_replicate, (proj2 (Nat.leb_le _ _)) by lia. cbn [mbind option_bind].
  replace (Z.to_nat (len - padlen) + Z.to_nat padlen)%nat with (Z.to_nat len) by lia.
  do 3 eexists. split_and!; [reflexivity| | |lia|lia|lia|].
  - rewrite !length_app, length_take, length_replicate, length_drop. lia.
  - rewrite app_assoc, drop_app_length'; [reflexivity|].
    rewrite length_app, length_take, length_replicate. lia.
  - apply Forall_app. split; [apply Forall_take, Hb|]. apply Forall_app. split; [apply Forall_replicate; width|apply Forall_drop, Hb].
Qed.

Lemma validFrameCrc_defined frame len :
  0 <= len <= Z.of_nat (length frame) ->
  exists b, vscp_validFrameCrc frame len = Some b /\ (b = true -> 5 <= len).
Proof.
  intros Hl. unfold vscp_validFrameCrc. destruct (Z.ltb_spec len 5).
  - exists false. split; [reflexivity|discriminate].
  - cbn [orb]. destruct (INT_MAX <? len - 3).
    + exists false. split; [reflexivity|discriminate].
    + unfold rd_be. rewrite (rdn_defined frame (Z.to_nat (len - 2))) by lia.
      cbn [fmap option_fmap option_map mbind option_bind].
      rewrite (rdn_defined frame 1) by lia. cbn [mbind option_bind].
      eexists. split; [reflexivity|]. lia.
Qed.

(** The check after decryption: what it accepts holds a frame with a valid
    CRC. *)
Lemma validate_defined frame len :
  bytes_ok frame -> 1 <= len <= Z.of_nat (length frame) ->
  exists ok frame', vscp_validateDecryptedFrame frame len = Some (ok, frame') /\
    length frame' = length frame /\ drop (Z.to_nat len) frame' = drop (Z.to_nat len) frame /\
    (ok = true -> bytes_ok frame' /\ exists n, 5 <= n <= len /\ vscp_validFrameCrc frame' n = Some true).
Proof.
  intros Hb Hl. destruct frame as [|b tail]; cbn [length] in Hl; [lia|].
  unfold vscp_validateDecryptedFrame. change (drop 1 (b :: tail)) with tail.
  destruct (unpad_defined tail (len - 1)) as (ok & tail' & n & -> & L & T & Hn & Hok & Bt);
    [inversion Hb; assumption|lia|].
  cbn [mbind option_bind]. change (take 1 (b :: tail) ++ tail') with (b :: tail').
  assert (T' : drop (Z.to_nat len) (b :: tail') = drop (Z.to_nat len) (b :: tail)).
  { replace (Z.to_nat len) with (S (Z.to_nat (len - 1))) by lia. exact T. }
  destruct ok.
  - destruct (validFrameCrc_defined (b :: tail') (n + 1)) as (v & E & Hv); [cbn [length]; lia|].
    rewrite E. cbn [mbind option_bind]. exists v, (b :: tail').
    split_and!; [reflexivity|cbn [length]; lia|exact T'|]. intros ->. split; [inversion Hb; constructor; assumption|]. exists (n + 1).
    split; [|exact E]. specialize (Hv eq_refl). specialize (Hok eq_refl). lia.
  - exists false, (b :: tail'). split_and!; [reflexivity|cbn [length]; lia|exact T'|discriminate].
Qed.

Lemma internal_decrypt_defined alg out inp n k v :
  bytes_ok k -> (32 <= length k)%nat -> block_ok v -> bytes_ok inp -> bytes_ok out ->
  (1 <= n)%nat -> Z.of_nat (16 * n) < 2 ^ 31 -> (16 * n <= length inp)%nat -> (16 * n <= length out)%nat ->
  exists ok out', internal_decrypt alg out inp (Z.of_nat (16 * n)) k v = Some (ok, out') /\
    length out' = length out /\ drop (16 * n) out' = drop (16 * n) out /\ bytes_ok out'.
Proof.
  intros Hk Hkl Hv Hi Ho Hn Hs Hli Hlo. change (2 ^ 31) with 2147483648 in Hs.
  unfold internal_decrypt. destruct (aes_type alg) as [type|] eqn:Ht.
  2: { exists false, out. auto. }
  assert (Hc : exists c, init type = Some c /\ (KEYLEN c <= 32)%nat).
  { unfold aes_type in Ht.
    repeat case_match; simplify_eq; eexists; (split; [reflexivity|cbn; lia]). }
  destruct Hc as (c & Hc & Hkc).
  assert (Tv : take 16 v = v) by (apply take_ge; destruct Hv; lia).
  assert (Hv' : block_ok (take 16 v)) by (rewrite Tv; exact Hv).
  assert (Hkl' : (KEYLEN c <= length k)%nat) by lia.
  replace (u32 (u32 (Z.of_nat (16 * n) + 1) - 1)) with (Z.of_nat (16 * n))
    by (rewrite (u32_id (_ + 1)), u32_id by (width; lia); lia).
  rewrite (cbc_decrypt_eq type c) by assumption. cbn [mbind option_bind].
  assert (Hr := round_keys_ok type c k Hc Hk Hkl').
  assert (Hnr := proj2 (proj2 (proj2 (init_spec type c Hc)))).
  assert (B : block_fun (InvCipher (Nr c) (round_keys c k))) by (intros s Hbs; apply InvCipher_ok; assumption).
  destruct (cbc_dec_ok _ n (take 16 v) inp B Hv' Hi Hli) as [L O].
  do 2 eexists. split_and!; [reflexivity| | |].
  - rewrite length_app, length_drop. lia.
  - rewrite drop_app_length' by lia. reflexivity.
  - apply Forall_app. split; [exact O|apply Forall_drop, Ho].
Qed.

(** The outcomes of decrypting [len] bytes to a buffer [out]: refusal, or a frame
    with a valid CRC. *)
Definition decrypted (out : list Z) (len : Z) (r : option (bool * option (list Z))) : Prop :=
  exists ok out', r = Some (ok, Some out') /\
    length out' = length out /\ drop (Z.to_nat len) out' = drop (Z.to_nat len) out /\
    (ok = true -> bytes_ok out' /\ exists n, 5 <= n <= len /\ vscp_validFrameCrc out' n = Some true).

Lemma rejected_frame out len : decrypted out len (Some (false, Some out)).
Proof. exists false, out. split_and!; [reflexivity..|discriminate]. Qed.

Lemma resolve_defined alg inp :
  (0 < length inp)%nat -> bytes_ok inp -> exists a, vscp_resolveFrameCryptoAlgorithm alg inp = Some a.
Proof.
  intros Hl Hb. unfold vscp_resolveFrameCryptoAlgorithm. destruct (_ =? _); [|eauto].
  destruct (rd_some inp 0 Hl Hb) as (t & -> & _). cbn [mbind option_bind]. eauto.
Qed.

Lemma plain_frame out inp len :
  bytes_ok inp -> bytes_ok out -> 0 < len -> len <= Z.of_nat (length inp) -> len <= Z.of_nat (length out) ->
  decrypted out len
    (valid ← vscp_validFrameCrc inp len;
     if (valid : bool) then
       bs ← rdn inp 0 (Z.to_nat len);
       out ← wr out 0 bs;
       Some (true, Some out)
     else Some (false, Some out)).
Proof.
  intros Hi Ho Hl Hli Hlo. destruct (validFrameCrc_defined inp len) as (v & E & Hv); [lia|].
  rewrite E. cbn [mbind option_bind]. destruct v; [|apply rejected_frame].
  rewrite rdn_defined by lia. cbn [mbind option_bind]. rewrite drop_0.
  assert (Lb : length (take (Z.to_nat len) inp) = Z.to_nat len) by (rewrite length_take; lia).
  rewrite wr_front, Lb by lia. cbn [mbind option_bind]. exists true. eexists. split; [reflexivity|].
  split_and!.
  - rewrite length_app, length_drop. lia.
  - rewrite drop_app_length' by lia. reflexivity.
  - intros _. split; [apply Forall_app; split; [apply Forall_take, Hi|apply Forall_drop, Ho]|]. exists len. split; [split; [apply Hv; reflexivity|lia]|].
    rewrite <- E. unfold vscp_validFrameCrc.
    assert (P : forall off n, (off + n <= Z.to_nat len)%nat ->
      rdn (take (Z.to_nat len) inp ++ drop (Z.to_nat len) out) off n = rdn inp off n).
    { intros off n Hn. rewrite !rdn_defined by (rewrite ?length_app; lia). f_equal.
      rewrite drop_app_le, take_app_le by (rewrite ?length_drop; lia).
      rewrite skipn_firstn_comm, take_take, Nat.min_l by lia. reflexivity. }
    destruct (Z.ltb_spec len 5); [reflexivity|]. cbn [orb]. destruct (INT_MAX <? len - 3); [reflexivity|].
    unfold rd_be. rewrite !P by lia. reflexivity.
Qed.

(** The vector and the length of the encrypted part. *)
Lemma vector_defined inp iv len :
  bytes_ok inp -> 0 < len <= Z.of_nat (length inp) ->
  (forall v, iv = Some v -> bytes_ok v /\ (16 <= length v)%nat) ->
  exists r : option (list Z * Z),
    match iv with
    | None =>
        if len <? 1 + 16 + 16 then Some None
        else v ← rdn inp (Z.to_nat (len - 16)) 16; Some (Some (v, len - 16))
    | Some v => v ← rdn v 0 16; Some (Some (v, len))
    end = Some r /\
    forall v real_len, r = Some (v, real_len) -> block_ok v /\ real_len <= len.
Proof.
  intros Hi Hl Hiv. destruct iv as [w|].
  - destruct (Hiv w eq_refl) as [Hb Hw]. rewrite rdn_defined by lia. cbn [mbind option_bind].
    eexists. split; [reflexivity|]. intros v rl [= <- <-]. rewrite drop_0.
    split; [apply block_take; assumption|lia].
  - destruct (Z.ltb_spec len (1 + 16 + 16)).
    + exists None. split; [reflexivity|discriminate].
    + rewrite rdn_defined by lia. cbn [mbind option_bind]. eexists. split; [reflexivity|].
      intros v rl [= <- <-]. split; [|lia].
      apply block_take; [rewrite length_drop; lia|apply Forall_drop, Hi].
Qed.

Lemma cipher_frame alg out inp len real_len k v :
  bytes_ok k -> (32 <= length k)%nat -> block_ok v -> bytes_ok inp -> bytes_ok out ->
  1 + 16 <= real_len <= len -> (real_len - 1) mod 16 = 0 -> len < 2147483648 ->
  len <= Z.of_nat (length inp) -> len <= Z.of_nat (length out) ->
  decrypted out len
    (t ← rd inp 0;
     out ← wr out 0 [t];
     '(ok, tail) ← internal_decrypt alg (drop 1 out) (drop 1 inp) (real_len - 1) k v;
     let out := take 1 out ++ tail in
     if (ok : bool) then
       '(valid, out) ← vscp_validateDecryptedFrame out real_len;
       Some (valid, Some out)
     else Some (false, Some out)).
Proof.
  intros Hk Hkl Hv Hi Ho Hr Hm Hlen Hli Hlo.
  destruct (rd_some inp 0 ltac:(lia) Hi) as (t & -> & Ht). cbn [mbind option_bind].
  destruct out as [|o out]; cbn [length] in Hlo; [lia|].
  rewrite wr_front by (cbn [length]; lia). cbn [mbind option_bind app length drop]. rewrite ?drop_0.
  set (n := Z.to_nat ((real_len - 1) / 16)).
  assert (Hn : real_len - 1 = Z.of_nat (16 * n)) by (unfold n; dlia).
  rewrite Hn. inversion Ho as [|? ? Ho1 Ho2]; subst.
  destruct (internal_decrypt_defined alg out (drop 1 inp) n k v Hk Hkl Hv) as (ok & tail & E & L & T & B);
    [apply Forall_drop, Hi|exact Ho2|lia|lia|rewrite length_drop; lia|lia|].
  rewrite E. cbn [mbind option_bind take app]. rewrite ?take_0. cbn [app].
  assert (T1 : forall m, (16 * n <= m)%nat -> drop m tail = drop m out).
  { intros m Hm'. replace m with (16 * n + (m - 16 * n))%nat by lia. rewrite <- !drop_drop, T. reflexivity. }
  destruct ok.
  - destruct (validate_defined (t :: tail) real_len) as (v' & fr & E' & L' & T' & V);
      [constructor; assumption|cbn [length]; lia|].
    rewrite E'. cbn [mbind option_bind]. exists v', fr. split; [reflexivity|]. split_and!.
    + rewrite L'. cbn [length]. lia.
    + replace (Z.to_nat len) with (Z.to_nat real_len + (Z.to_nat len - Z.to_nat real_len))%nat by lia.
      rewrite <- !drop_drop, T'. replace (Z.to_nat real_len) with (S (16 * n)) by lia.
      cbn [drop]. rewrite T. reflexivity.
    + intros Hok. destruct (V Hok) as (Hb & m & Hm1 & Hm2). split; [exact Hb|]. exists m. split; [lia|exact Hm2].
  - exists false, (t :: tail). split_and!; [reflexivity|cbn [length]; lia| |discriminate].
    replace (Z.to_nat len) with (S (Z.to_nat (len - 1))) by lia. cbn [drop]. apply T1. lia.
Qed.

(** *** Version 1 *)

Section version1.
Context (EVP_Encrypt : evp_encryption) (EVP_Decrypt : evp_decryption)
  (HMAC : list Z -> list Z -> option (list Z)).
Context (HE : EvpLaws EVP_Encrypt EVP_Decrypt) (HH : HmacLaws HMAC).
Context (alg : Z) (key hk v : list Z).
Context (Halg : 1 <= alg <= 3) (Hkey : bytes_ok key) (Hkl : (key_length alg <= length key)%nat)
  (Hhk : (32 <= length hk)%nat) (Hv : block_ok v).

(** A digest of any prefix of a frame. *)
Lemma frameHmac_eq bs rest :
  exists d, length d = 32%nat /\
    vscp_frameHmac HMAC (bs ++ rest) (Z.of_nat (length bs)) hk = Some (Some d).
Proof using HH Hhk.
  unfold vscp_frameHmac. rewrite (rdn_defined hk) by exact Hhk. cbn [mbind option_bind].
  rewrite Nat2Z.id, rdn_front. cbn [mbind option_bind].
  match goal with |- context [HMAC ?k ?m] => destruct (hmac_length k m) as (d & -> & Ld) end.
  rewrite Ld. exists d. auto.
Qed.

(** The encrypted frame: type byte, ciphertext, vector and tag. *)
Lemma encryptFrameV1_eq random iv t body rest out capacity :
  vscp_getEncryptionIv random iv = Some (Some v) -> bytes_ok body ->
  (4 <= length body)%nat ->
  let n := padded_blocks (length body) in
  let wire := Z.of_nat (33 + 16 * n) in
  wire <= capacity -> wire <= 0x1fff -> (33 + 16 * n <= length out)%nat ->
  exists c cs d, vscp_getOpenSslCipherFromAlgorithm alg = Some c /\
    length cs = (16 * n)%nat /\ bytes_ok cs /\ length d = 32%nat /\
    EVP_Decrypt c key v cs = (true, body ++ pad_bytes (length body), 0) /\
    (forall rest, vscp_frameHmac HMAC ((type_byte t alg :: cs ++ v) ++ rest) (wire - 16) hk = Some (Some d)) /\
    vscp_encryptFrameV1 EVP_Encrypt HMAC random (Some out) capacity (Some ((t :: body) ++ rest))
      (Z.of_nat (length (t :: body))) (Some key) (Some hk) iv alg
    = Some (wire, Some ((type_byte t alg :: cs ++ v ++ take 16 d) ++ drop (33 + 16 * n) out)).
Proof using HE HH Halg Hkey Hkl Hhk Hv.
  intros Hiv Hb Hl4 n wire Hcap Hmax Ho.
  destruct (algorithm_cases alg Halg) as ((c & Hc) & _ & H0 & Ha).
  destruct (padding_spec (length body)) as [P1 P2]. fold n in P2.
  assert (Hkc : (evp_keylen c <= length key)%nat) by (rewrite (cipher_key_length alg c Halg Hc); exact Hkl).
  assert (Bp : bytes_ok (body ++ pad_bytes (length body)))
    by (apply Forall_app; split; [exact Hb|apply pad_bytes_ok]).
  destruct (evp_inverse c key v _ n Hkey Hkc Hv Bp ltac:(unfold n, padded_blocks; lia) (length_padded body))
    as (cs & Ee & Lc & Bc & Ed).
  rewrite length_padded in Lc. fold n in Lc. destruct Hv as [Lv Bv].
  assert (Lp : length (type_byte t alg :: cs ++ v) = (17 + 16 * n)%nat)
    by (cbn [length]; rewrite length_app; lia).
  destruct (frameHmac_eq (type_byte t alg :: cs ++ v) []) as (d & Ld & _).
  assert (Hd : exists d, length d = 32%nat /\ forall rest,
    vscp_frameHmac HMAC ((type_byte t alg :: cs ++ v) ++ rest) (wire - 16) hk = Some (Some d)).
  { destruct (frameHmac_eq (type_byte t alg :: cs ++ v) []) as (d' & Ld' & E').
    exists d'. split; [exact Ld'|]. intros r. rewrite <- E'. unfold vscp_frameHmac.
    replace (wire - 16) with (Z.of_nat (length (type_byte t alg :: cs ++ v))) by (rewrite Lp; unfold wire; lia).
    rewrite !Nat2Z.id, !rdn_front. reflexivity. }
  clear d Ld. destruct Hd as (d & Ld & Hd).
  exists c, cs, d. split_and!; [exact Hc|exact Lc|exact Bc|exact Ld|exact Ed|exact Hd|].
  unfold vscp_encryptFrameV1.
  assert (W : 1 + ((Z.of_nat (length (t :: body)) - 1) / 16 + 1) * 16 + 32 = wire).
  { unfold wire, n, padded_blocks. cbn [length].
    replace (Z.of_nat (S (length body)) - 1) with (Z.of_nat (length body)) by lia.
    rewrite Nat2Z.inj_add, Nat2Z.inj_mul, Nat2Z.inj_add, Nat2Z.inj_div. lia. }
  rewrite W. rewrite (proj2 (Z.ltb_ge _ 5)), (proj2 (Z.ltb_ge 0x1fff (Z.of_nat _))) by (cbn [length]; lia).
  cbn [orb]. unfold vscp_resolveFrameCryptoAlgorithm. rewrite Ha.
  rewrite (proj2 (Z.eqb_neq VSCP_ENCRYPTION_FROM_TYPE_BYTE alg))
    by (unfold VSCP_ENCRYPTION_FROM_TYPE_BYTE; lia).
  cbn [mbind option_bind]. rewrite Hc, Hiv.
  rewrite (proj2 (Z.ltb_ge capacity _)), (proj2 (Z.ltb_ge 0x1fff wire)) by lia. cbn [orb mbind option_bind].
  cbn [app length drop]. rewrite drop_0.
  replace (Z.of_nat (S (length body)) - 1) with (Z.of_nat (length body)) by lia.
  rewrite pad_eq by lia. cbn [mbind option_bind]. change (rd (t :: body ++ rest) 0) with (Some t).
  cbn [mbind option_bind]. unfold vscp_evpEncryptBuffer. rewrite evp_input_small, Ee
    by (rewrite length_padded; fold n; unfold wire in *; change (2 ^ 31) with 2147483648; lia).
  replace (Z.to_nat (wire - 1)) with (16 * n + 32)%nat by (unfold wire; lia).
  rewrite wr_front by (rewrite length_replicate; lia). cbn [mbind option_bind].
  rewrite Lc, length_padded, Nat.eqb_refl, drop_replicate. cbn [andb negb].
  replace (16 * n + 32 - 16 * n)%nat with 32%nat by lia.
  replace (Z.to_nat (1 + (Z.of_nat (length body) / 16 + 1) * 16)) with (length (type_byte t alg :: cs)).
  2: { replace (Z.of_nat (length (t :: body)) - 1) with (Z.of_nat (length body)) in W by (cbn [length]; lia).
       cbn [length]. unfold wire in W. lia. }
  change (type_byte t alg :: cs ++ replicate 32 0) with ((type_byte t alg :: cs) ++ replicate 32 0).
  rewrite wr_next by (reflexivity || (rewrite length_replicate; lia)). cbn [mbind option_bind].
  rewrite Lv, drop_replicate. change ((type_byte t alg :: cs) ++ v) with (type_byte t alg :: cs ++ v).
  rewrite Hd. cbn [mbind option_bind].
  rewrite wr_next by (rewrite ?length_replicate, ?length_take, ?Lp; unfold wire; lia).
  cbn [mbind option_bind]. rewrite length_take, drop_replicate.
  replace (32 - 16 - 16 `min` length d)%nat with 0%nat by lia. cbn [replicate]. rewrite app_nil_r.
  assert (Lt : length ((type_byte t alg :: cs ++ v) ++ take 16 d) = (33 + 16 * n)%nat)
    by (rewrite length_app, Lp, length_take; lia).
  rewrite wr_front, Lt by lia. cbn [mbind option_bind].
  change ((type_byte t alg :: cs ++ v) ++ take 16 d) with (type_byte t alg :: (cs ++ v) ++ take 16 d).
  rewrite <- (app_assoc cs). reflexivity.
Qed.
Lemma decryptFrameV1_eq c cs d b body rest out capacity :
  vscp_getOpenSslCipherFromAlgorithm (Z.land b 0x0f) = Some c ->
  let n := padded_blocks (length body) in
  let wire := Z.of_nat (33 + 16 * n) in
  length cs = (16 * n)%nat -> length d = 32%nat ->
  EVP_Decrypt c key v cs = (true, body ++ pad_bytes (length body), 0) ->
  (forall rest, vscp_frameHmac HMAC ((b :: cs ++ v) ++ rest) (wire - 16) hk = Some (Some d)) ->
  (forall r, vscp_validFrameCrc (b :: body ++ r) (Z.of_nat (length (b :: body))) = Some true) ->
  wire <= 0x1fff -> Z.of_nat (length (b :: body)) <= capacity -> (length (b :: body) <= length out)%nat ->
  vscp_decryptFrameV1 EVP_Decrypt HMAC (Some out) capacity
    (Some ((b :: cs ++ v ++ take 16 d) ++ rest)) wire (Some key) (Some hk)
  = Some (Z.of_nat (length (b :: body)), Some ((b :: body) ++ drop (length (b :: body)) out)).
Proof using Hkl Hhk Hv.
  intros Hc n wire Lc Ld Ed Hd Hcrc Hmax Hcap Ho. destruct Hv as [Lv Bv].
  assert (N : (1 <= n)%nat) by (unfold n, padded_blocks; lia).
  set (inp := (b :: cs ++ v ++ take 16 d) ++ rest).
  assert (I1 : inp = (b :: cs ++ v) ++ take 16 d ++ rest)
    by (unfold inp; cbn [app]; rewrite <- !app_assoc; reflexivity).
  assert (I2 : inp = (b :: cs) ++ v ++ take 16 d ++ rest)
    by (unfold inp; cbn [app]; rewrite <- !app_assoc; reflexivity).
  assert (I3 : inp = [b] ++ cs ++ v ++ take 16 d ++ rest)
    by (unfold inp; cbn [app]; rewrite <- !app_assoc; reflexivity).
  unfold vscp_decryptFrameV1.
  rewrite (proj2 (Z.ltb_ge wire 49)), (proj2 (Z.ltb_ge 0x1fff wire)) by (unfold wire; lia).
  assert (M : (wire - 33) mod 16 = 0).
  { replace (wire - 33) with (Z.of_nat n * 16) by (unfold wire; lia). apply Z.mod_mul. lia. }
  rewrite M. cbn [Z.eqb negb orb]. change (rd inp 0) with (Some b). cbn [mbind option_bind]. rewrite Hc.
  rewrite I1 at 1. rewrite Hd. cbn [mbind option_bind].
  assert (R1 : rdn inp (Z.to_nat (wire - 16)) 16 = Some (take 16 d)).
  { rewrite I1. apply rdn_app; [cbn [length]; rewrite length_app|rewrite length_take]; unfold wire; lia. }
  assert (R2 : rdn inp (Z.to_nat (wire - 32)) 16 = Some v).
  { rewrite I2. apply rdn_app; cbn [length]; unfold wire; lia. }
  assert (R3 : rdn inp 1 (Z.to_nat (wire - 33)) = Some cs).
  { rewrite I3. apply rdn_app; [reflexivity|unfold wire; lia]. }
  rewrite R1. cbn [mbind option_bind]. rewrite bool_decide_true by reflexivity. cbn [negb].
  rewrite R2, R3. cbn [mbind option_bind]. unfold vscp_evpDecryptBuffer. rewrite evp_input_small, Ed by (unfold wire in *; change (2 ^ 31) with 2147483648; lia).
  assert (Lp := length_padded body). fold n in Lp.
  replace (wire - 33) with (Z.of_nat (16 * n)) by (unfold wire; lia). rewrite Nat2Z.id.
  rewrite wr_front by (rewrite length_replicate, Lp; lia).
  rewrite Lp, Lc, Z.sub_0_r, !Z.eqb_refl, drop_replicate, Nat.sub_diag. cbn [mbind option_bind andb negb replicate].
  rewrite app_nil_r. assert (U := unpad_eq body []). fold n in U. rewrite !app_nil_r in U.
  rewrite U. cbn [mbind option_bind negb].
  replace (Z.of_nat (length body) + 1) with (Z.of_nat (length (b :: body))) by (cbn [length]; lia).
  rewrite Hcrc. cbn [mbind option_bind negb orb]. rewrite (proj2 (Z.ltb_ge capacity _)) by lia.
  rewrite Nat2Z.id. change (b :: body ++ replicate (padding (length body)) 0)
    with ((b :: body) ++ replicate (padding (length body)) 0).
  rewrite rdn_front. cbn [mbind option_bind]. rewrite wr_front by exact Ho. reflexivity.
Qed.
End version1.

(** *** The laws hold of something

    AES of vscp-aes.c in the place of OpenSSL's, and a digest of 32 bytes. *)

Definition evp_type (c : EVP_CIPHER) : Z :=
  match c with EVP_aes_128_cbc => AES128 | EVP_aes_192_cbc => AES192 | EVP_aes_256_cbc => AES256 end.

Definition own_encrypt (c : EVP_CIPHER) (key iv p : list Z) : bool * list Z :=
  match AES_CBC_encrypt_buffer (evp_type c) p p (Z.of_nat (length p)) key iv with
  | Some (_, out) => (true, out)
  | None => (false, [])
  end.

Definition own_decrypt (c : EVP_CIPHER) (key iv cs : list Z) : bool * list Z * Z :=
  match AES_CBC_decrypt_buffer (evp_type c) cs cs (Z.of_nat (length cs)) key iv with
  | Some out => (true, out, 0)
  | None => (false, [], 0)
  end.

Lemma own_cipher : EvpLaws own_encrypt own_decrypt.
Proof.
  intros c key iv p n Hk Hkl Hv Hp Hn Hl.
  assert (Hc : exists a, init (evp_type c) = Some a /\ KEYLEN a = evp_keylen c)
    by (destruct c; eexists; split; reflexivity).
  destruct Hc as (a & Hc & Ka). rewrite <- Ka in Hkl.
  assert (Tv : take 16 iv = iv) by (apply take_ge; destruct Hv; lia).
  assert (Hv' : block_ok (take 16 iv)) by (rewrite Tv; exact Hv).
  destruct (cbc_encrypt_eq (evp_type c) a key iv Hc Hk Hkl Hv' n p p Hp Hn Hl ltac:(lia)) as (p' & _ & E).
  rewrite drop_ge, app_nil_r in E by lia.
  assert (B : block_fun (Cipher (Nr a) (round_keys a key))).
  { apply cipher_block_fun; [apply (round_keys_ok (evp_type c)); assumption|apply (init_spec (evp_type c) a Hc)]. }
  destruct (cbc_enc_ok _ n (take 16 iv) p B Hv' Hp ltac:(lia)) as [Lc Bc].
  eexists. split; [unfold own_encrypt; rewrite Hl, E; reflexivity|].
  split; [lia|]. split; [exact Bc|]. unfold own_decrypt. rewrite Lc.
  rewrite (cbc_decrypt_eq (evp_type c) a) by first [assumption | lia].
  rewrite drop_ge, app_nil_r by lia.
  assert (I := cbc_inverse (evp_type c) a key iv Hc Hk Hkl Hv' n p [] Hp Hl). rewrite app_nil_r in I.
  rewrite I. reflexivity.
Qed.

Definition own_digest (k m : list Z) : option (list Z) :=
  Some (replicate 32 (u8 (crcFast (k ++ m)))).

Lemma own_hmac : HmacLaws own_digest.
Proof. intros k m. eexists. split; reflexivity. Qed.

(** *** Inversions *)

Lemma frameHmac_inv HMAC inp len hk digest :
  16 <= len <= 0x1fff -> vscp_frameHmac HMAC inp (len - 16) hk = Some (Some digest) ->
  HMAC (take 32 hk) ([0x55; 0x20 + len / 256; len mod 256] ++ take (Z.to_nat (len - 16)) inp) = Some digest /\
  length digest = 32%nat.
Proof.
  intros Hl H. unfold vscp_frameHmac in H. unfold rdn in H.
  destruct (0 + 32 <=? length hk)%nat; [|discriminate H]. cbn [mbind option_bind] in H.
  destruct (_ <=? length inp)%nat; [|discriminate H]. cbn [mbind option_bind] in H.
  rewrite !drop_0 in H. replace (len - 16 + 16) with len in H by lia.
  assert (E : Z.lor 0x2000 (u16 len) = 0x2000 + len).
  { rewrite u16_id by (width; lia). change 0x2000 with (1 * 2 ^ 13). apply lor_add_disjoint; lia. }
  rewrite E in H.
  assert (E1 : u8 (Z.shiftr (0x2000 + len) 8) = 0x20 + len / 256) by (rewrite shiftr_div by lia; width).
  assert (E2 : u8 (0x2000 + len) = len mod 256) by width.
  rewrite E1, E2 in H. injection H as H.
  destruct (HMAC _ _) as [d|]; [|discriminate H].
  destruct (Nat.eqb_spec (length d) 32); [|discriminate H]. injection H as ->. auto.
Qed.

Lemma unpad_shorter buf len buf' n :
  vscp_pkcs7Unpad buf len = Some (true, buf', n) -> 0 <= len -> n < len.
Proof.
  unfold vscp_pkcs7Unpad. intros H Hl.
  destruct (_ || _); [discriminate H|].
  destruct (rd buf _) as [q|]; [|discriminate H]. cbn [mbind option_bind] in H.
  assert (Hp := u8_ok q). set (p := u8 q) in *. unfold is_u8 in Hp.
  destruct (_ || _ || _) eqn:G; [discriminate H|].
  destruct (rdn buf (Z.to_nat (len - p)) (Z.to_nat p)) as [pad|] eqn:P; [|discriminate H]. cbn [mbind option_bind] in H.
  destruct (forallb _ _); [|discriminate H].
  destruct (wr buf _ _); [|discriminate H]. cbn [mbind option_bind] in H. injection H as _ <-.
  rewrite !orb_false_iff, Z.eqb_neq, !Z.ltb_ge in G. lia.
Qed.

Lemma written_front buf bs buf' :
  wr buf 0 bs = Some buf' ->
  length buf' = length buf /\ drop (length bs) buf' = drop (length bs) buf /\
  buf' = bs ++ drop (length bs) buf.
Proof.
  unfold wr. destruct (Nat.leb_spec (0 + length bs) (length buf)) as [Hl|]; [|discriminate].
  intros [= <-]. cbn [take app Nat.add]. rewrite ?take_0. cbn [app]. split_and!.
  - rewrite length_app, length_drop. lia.
  - rewrite drop_app_length. reflexivity.
  - reflexivity.
Qed.

(** The CRC check reads the frame only. *)
Lemma validFrameCrc_front frame n bs rest b :
  rdn frame 0 (Z.to_nat n) = Some bs -> vscp_validFrameCrc frame n = Some b ->
  vscp_validFrameCrc (bs ++ rest) n = Some b.
Proof.
  intros R <-. assert (Lb := rdn_length _ _ _ _ R). unfold rdn in R.
  destruct (Nat.leb_spec (0 + Z.to_nat n) (length frame)) as [Hl|]; [|discriminate R].
  injection R as <-. rewrite drop_0 in *. unfold vscp_validFrameCrc.
  assert (P : forall off k, (off + k <= Z.to_nat n)%nat ->
    rdn (take (Z.to_nat n) frame ++ rest) off k = rdn frame off k).
  { intros off k Hk. rewrite !rdn_defined by (rewrite ?length_app; lia). f_equal.
    rewrite drop_app_le, take_app_le by (rewrite ?length_drop; lia).
    rewrite skipn_firstn_comm, take_take, Nat.min_l by lia. reflexivity. }
  destruct (Z.ltb_spec n 5); [reflexivity|]. cbn [orb]. destruct (INT_MAX <? n - 3); [reflexivity|].
  unfold rd_be. rewrite !P by lia. reflexivity.
Qed.

(** Any buffer, with vscp-aes.c. *)
Lemma decryptFrame_cases EVP_Decrypt out inp len key iv alg :
  bytes_ok inp -> bytes_ok out -> 0 <= len < 2 ^ 31 ->
  len <= Z.of_nat (length inp) -> len <= Z.of_nat (length out) ->
  bytes_ok key -> (32 <= length key)%nat ->
  (forall v, iv = Some v -> bytes_ok v /\ (16 <= length v)%nat) ->
  decrypted out len (vscp_decryptFrame EVP_Decrypt false (Some out) (Some inp) len (Some key) iv alg).
Proof.
  intros Hi Ho Hlen Hli Hlo Hk Hkl Hiv. change (2 ^ 31) with 2147483648 in Hlen.
  unfold vscp_decryptFrame, decrypt_frame.
  destruct (Z.eqb_spec len 0); [apply rejected_frame|].
  destruct (resolve_defined alg inp) as [a ->]; [lia|exact Hi|]. cbn [mbind option_bind].
  destruct (VSCP_ENCRYPTION_NONE =? a); [apply plain_frame; assumption || lia|].
  destruct (vector_defined inp iv len Hi ltac:(lia) Hiv) as (r & -> & Hr). cbn [mbind option_bind].
  destruct r as [[v real_len]|]; [|apply rejected_frame].
  destruct (Hr v real_len eq_refl) as [Hv Hrl].
  destruct (Z.ltb_spec real_len (1 + 16)); [apply rejected_frame|]. cbn [orb].
  destruct (Z.eqb_spec ((real_len - 1) mod 16) 0) as [Hm|]; [|apply rejected_frame]. cbn [negb].
  apply cipher_frame; assumption || lia.
Qed.

(** What version 1 accepts. *)
Lemma decryptFrameV1_inv EVP_Decrypt HMAC out capacity inp len key hk n out' :
  vscp_decryptFrameV1 EVP_Decrypt HMAC (Some out) capacity (Some inp) len (Some key) (Some hk)
  = Some (n, Some out') ->
  n = 0 /\ out' = out \/
  exists digest,
    HMAC (take 32 hk) ([0x55; 0x20 + len / 256; len mod 256] ++ take (Z.to_nat (len - 16)) inp) = Some digest /\
    rdn inp (Z.to_nat (len - 16)) 16 = Some (take 16 digest) /\
    5 <= n <= capacity /\ n <= len - 33 + 1 /\
    vscp_validFrameCrc out' n = Some true /\
    length out' = length out /\ drop (Z.to_nat n) out' = drop (Z.to_nat n) out.
Proof.
  intros H. unfold vscp_decryptFrameV1 in H.
  destruct ((len <? 49) || (0x1fff <? len) || negb ((len - 33) mod 16 =? 0)) eqn:G.
  { injection H as <- <-. auto. }
  rewrite !orb_false_iff, !Z.ltb_ge in G. destruct G as [[G1 G2] G3].
  destruct (rd inp 0) as [t|] eqn:T; [|discriminate H]. cbn [mbind option_bind] in H.
  destruct (vscp_getOpenSslCipherFromAlgorithm (Z.land t 0x0f)) as [c|]; [|injection H as <- <-; auto].
  destruct (vscp_frameHmac HMAC inp (len - 16) hk) as [digest|] eqn:D; [|discriminate H].
  cbn [mbind option_bind] in H.
  destruct (rdn inp (Z.to_nat (len - 16)) 16) as [tag|] eqn:R; [|discriminate H]. cbn [mbind option_bind] in H.
  destruct digest as [digest|]; [|injection H as <- <-; auto].
  destruct (bool_decide (take 16 digest = tag)) eqn:E; cbn [negb] in H; [|injection H as <- <-; auto].
  apply bool_decide_eq_true in E. subst tag.
  destruct (rdn inp (Z.to_nat (len - 32)) 16) as [iv|]; [|discriminate H]. cbn [mbind option_bind] in H.
  destruct (rdn inp 1 (Z.to_nat (len - 33))) as [bytes|] eqn:B; [|discriminate H].
  cbn [mbind option_bind] in H.
  destruct (vscp_evpDecryptBuffer _ _ _ _ _ _) as [[ok tail]|]; [|discriminate H].
  cbn [mbind option_bind] in H. destruct ok; cbn [negb] in H; [|injection H as <- <-; auto].
  destruct (vscp_pkcs7Unpad tail (len - 33)) as [[[ok tail'] m]|] eqn:U; [|discriminate H].
  cbn [mbind option_bind] in H. destruct ok; cbn [negb] in H; [|injection H as <- <-; auto].
  destruct (vscp_validFrameCrc (t :: tail') (m + 1)) as [valid|] eqn:V; [|discriminate H].
  cbn [mbind option_bind] in H. destruct valid; cbn [negb orb] in H; [|injection H as <- <-; auto].
  destruct (Z.ltb_spec capacity (m + 1)); [injection H as <- <-; auto|].
  destruct (rdn (t :: tail') 0 (Z.to_nat (m + 1))) as [bs|] eqn:P; [|discriminate H].
  cbn [mbind option_bind] in H. destruct (wr out 0 bs) as [o|] eqn:W; [|discriminate H].
  cbn [mbind option_bind] in H. injection H as <- <-. right.
  destruct (frameHmac_inv HMAC inp len hk digest ltac:(lia) D) as [Hd Hl].
  exists digest. split; [exact Hd|]. split; [reflexivity|].
  assert (M : 4 <= m) by (unfold vscp_validFrameCrc in V; destruct (Z.ltb_spec (m + 1) 5); [discriminate V|lia]).
  assert (M2 : m < len - 33) by (apply (unpad_shorter tail (len - 33) tail' m U); lia).
  destruct (written_front out bs o W) as (Wl & Wd & ->). assert (Lb := rdn_length _ _ _ _ P).
  split_and!; [lia|lia|lia| |exact Wl|rewrite <- Lb; exact Wd].
  apply (validFrameCrc_front (t :: tail')); [exact P|exact V].
Qed.

(** With whatever OpenSSL writes, if it is no more than it was given, version 1
    stays inside its buffers. *)
Definition EvpBounded (D : evp_decryption) : Prop :=
  forall c k iv x, (length (D c k iv x).1.2 <= length x)%nat /\ bytes_ok (D c k iv x).1.2.

Lemma decryptFrameV1_total EVP_Decrypt HMAC out inp len key hk :
  EvpBounded EVP_Decrypt -> bytes_ok inp -> len <= Z.of_nat (length inp) -> (32 <= length hk)%nat ->
  exists n out', vscp_decryptFrameV1 EVP_Decrypt HMAC (Some out) (Z.of_nat (length out)) (Some inp) len (Some key) (Some hk)
  = Some (n, Some out') /\ (bytes_ok out -> bytes_ok out').
Proof.
  intros HD Hi Hl Hhk. unfold vscp_decryptFrameV1. destruct (_ || _ || _) eqn:G; [eauto 6|].
  rewrite !orb_false_iff, !Z.ltb_ge in G. destruct G as [[G1 G2] _].
  destruct (rd_some inp 0 ltac:(lia) Hi) as (t & -> & Ht). cbn [mbind option_bind].
  destruct (vscp_getOpenSslCipherFromAlgorithm _) as [c|]; [|eauto 6].
  unfold vscp_frameHmac. rewrite !rdn_defined by lia. cbn [mbind option_bind].
  destruct (HMAC _ _) as [digest|]; [|eauto 6]. destruct (length digest =? 32)%nat; [|eauto 6].
  destruct (negb _); [eauto 6|]. unfold vscp_evpDecryptBuffer. rewrite ?rdn_defined by lia. cbn [mbind option_bind].
  set (iv := take 16 (drop _ inp)). set (x := take _ (drop 1 inp)).
  assert (Lx : length x = Z.to_nat (len - 33)) by (unfold x; rewrite length_take, length_drop; lia).
  rewrite evp_input_small by (rewrite Lx; change (2 ^ 31) with 2147483648; lia).
  destruct (HD c key iv x) as [Lb Bb]. destruct (EVP_Decrypt c key iv x) as [[ok bytes] outlen2]. cbn [fst snd] in Lb, Bb.
  rewrite wr_front by (rewrite length_replicate; lia). cbn [mbind option_bind]. destruct (negb (ok && _)); [eauto 6|].
  set (tail := bytes ++ _). assert (Lt : length tail = Z.to_nat (len - 33)) by (unfold tail; rewrite length_app, length_drop, length_replicate; lia).
  assert (Bt : bytes_ok tail) by (apply Forall_app; split; [exact Bb|apply Forall_drop, Forall_replicate; width]).
  destruct (unpad_defined tail (len - 33) Bt ltac:(lia)) as (ok' & tail' & m & -> & Lt' & _ & Hm & _ & Bt'). cbn [mbind option_bind].
  destruct (negb ok'); [eauto 6|].
  destruct (validFrameCrc_defined (t :: tail') (m + 1)) as (b & -> & _); [cbn [length]; lia|]. cbn [mbind option_bind].
  destruct (negb b || _) eqn:C; [eauto 6|]. apply orb_false_iff in C as [_ C]. apply Z.ltb_ge in C.
  rewrite rdn_defined by (cbn [length]; lia). cbn [mbind option_bind].
  rewrite wr_front by (rewrite length_take; lia). cbn [mbind option_bind]. do 2 eexists. split; [reflexivity|].
  intros Ho. apply Forall_app. split; [apply Forall_take; rewrite drop_0; constructor; assumption|apply Forall_drop, Ho].
Qed.

(** ** Properties *)

(** C4: an event written to a frame, encrypted with AES-128, 192 or 256 and
    decrypted comes back: vscp_encryptFrame produces the type byte, whole
    ciphertext blocks and the vector, nothing beyond; vscp_decryptFrame, told to
    take the algorithm from the type byte and the vector from the frame,
    accepts it, and vscp_getEventFromFrame reads the event.  This holds for
    vscp-aes.c, and for OpenSSL if its cipher is a cipher. *)
Theorem encrypted_event_roundtrip EVP_Encrypt EVP_Decrypt useOpenSSL now random iv v key alg
    e e0 f out1 out2 pkttype :
  (useOpenSSL = true -> EvpLaws EVP_Encrypt EVP_Decrypt) ->
  event_ok e -> 1 <= alg <= 3 -> bytes_ok key -> (key_length alg <= length key)%nat ->
  vscp_getEncryptionIv random iv = Some (Some v) -> block_ok v ->
  let size := 38 + sizeData e in
  let wire := (size - 1) / 16 * 16 + 33 in
  Z.of_nat (length f) = size -> wire <= Z.of_nat (length out1) -> wire - 16 <= Z.of_nat (length out2) ->
  exists fr enc dec framecrc,
    vscp_writeEventToFrame (Some f) size pkttype (Some e) = Some (true, Some fr) /\
    vscp_encryptFrame EVP_Encrypt useOpenSSL random (Some out1) (Some fr) size (Some key) iv alg
    = Some (wire, Some enc) /\
    drop (Z.to_nat wire) enc = drop (Z.to_nat wire) out1 /\
    vscp_decryptFrame EVP_Decrypt useOpenSSL (Some out2) (Some enc) wire (Some key) None
      VSCP_ENCRYPTION_FROM_TYPE_BYTE = Some (true, Some dec) /\
    vscp_getEventFromFrame now (Some e0) (Some dec) size = Some (true, Some (received now e framecrc)).
Proof.
  intros Hevp He Ha Hk Hkl Hiv Hv size wire Hf Ho1 Ho2. destruct useOpenSSL.
  - apply (event_cipher_roundtrip _ _ (FrameCipher0 := openssl_cipher _ _ (EvpLaws0 := Hevp eq_refl))
             now random iv v); assumption.
  - apply (event_cipher_roundtrip internal_encrypt internal_decrypt now random iv v); assumption.
Qed.

Lemma encrypted_event_roundtrip_witness :
  exists fr enc dec framecrc,
    vscp_writeEventToFrame (Some (replicate 42 0)) 42 0 (Some sample_event) = Some (true, Some fr) /\
    vscp_encryptFrame (fun _ _ _ _ => (false, [])) false [] (Some (replicate 65 0)) (Some fr) 42
      (Some vector_key) (Some vector_cipher) 1 = Some (65, Some enc) /\
    drop 65 enc = drop 65 (replicate 65 0) /\
    vscp_decryptFrame (fun _ _ _ _ => (false, [], 0)) false (Some (replicate 49 0)) (Some enc) 65
      (Some vector_key) None VSCP_ENCRYPTION_FROM_TYPE_BYTE = Some (true, Some dec) /\
    vscp_getEventFromFrame (Timespec 0 0) (Some sample_event) (Some dec) 42
    = Some (true, Some (received (Timespec 0 0) sample_event framecrc)).
Proof.
  apply (encrypted_event_roundtrip (fun _ _ _ _ => (false, [])) (fun _ _ _ _ => (false, [], 0)) false
           (Timespec 0 0) [] (Some vector_cipher) vector_cipher vector_key 1 sample_event sample_event
           (replicate 42 0) (replicate 65 0) (replicate 49 0) 0).
  - intros H. discriminate H.
  - apply sample_event_ok.
  - lia.
  - by_decide.
  - vm_compute. lia.
  - reflexivity.
  - split; [reflexivity|by_decide].
  - reflexivity.
  - vm_compute. intros H. discriminate H.
  - vm_compute. intros H. discriminate H.
Defined.

(** Vscp_decryptFrame (with vscp-aes.c) on any buffer, key and algorithm: it
    stays inside the [len] bytes of the input and of the output, and what it
    accepts holds, from its first byte, a frame of at least five bytes whose CRC
    is valid, with or without encryption. *)
Theorem decryptFrame_sound EVP_Decrypt out inp len key iv alg :
  bytes_ok inp -> bytes_ok out -> 0 <= len < 2 ^ 31 ->
  len <= Z.of_nat (length inp) -> len <= Z.of_nat (length out) ->
  bytes_ok key -> (32 <= length key)%nat ->
  (forall v, iv = Some v -> bytes_ok v /\ (16 <= length v)%nat) ->
  exists ok out', vscp_decryptFrame EVP_Decrypt false (Some out) (Some inp) len (Some key) iv alg
    = Some (ok, Some out') /\
    length out' = length out /\ drop (Z.to_nat len) out' = drop (Z.to_nat len) out /\
    (ok = true -> exists n, 5 <= n <= len /\ vscp_validFrameCrc out' n = Some true).
Proof.
  intros. edestruct decryptFrame_cases as (ok & out' & E & L & T & V); [..|exists ok, out'; split_and!; [exact E|exact L|exact T|apply V]]; assumption.
Qed.

Lemma decryptFrame_sound_witness :
  exists ok out', vscp_decryptFrame own_decrypt false (Some (replicate 33 7)) (Some (replicate 33 1)) 33
      (Some (replicate 32 5)) None VSCP_ENCRYPTION_FROM_TYPE_BYTE
    = Some (ok, Some out') /\
    length out' = length (replicate 33 7) /\ drop 33 out' = drop 33 (replicate 33 7) /\
    (ok = true -> exists n, 5 <= n <= 33 /\ vscp_validFrameCrc out' n = Some true).
Proof.
  apply (decryptFrame_sound own_decrypt (replicate 33 7) (replicate 33 1) 33 (replicate 32 5) None
           VSCP_ENCRYPTION_FROM_TYPE_BYTE).
  - by_decide.
  - by_decide.
  - lia.
  - cbn. lia.
  - cbn. lia.
  - by_decide.
  - cbn. lia.
  - intros v H. discriminate H.
Defined.

(** Version 1: an event frame that is encrypted and authenticated by
    vscp_encryptFrameV1 is accepted by vscp_decryptFrameV1 with the same keys,
    which returns the size of the frame; the event read from it is the one
    sent.  The frame takes 1 byte, whole blocks, the vector and the 16-byte
    tag. *)
Theorem encryptFrameV1_roundtrip EVP_Encrypt EVP_Decrypt HMAC now random iv v key hk alg
    e e0 f out1 out2 pkttype :
  EvpLaws EVP_Encrypt EVP_Decrypt -> HmacLaws HMAC ->
  event_ok e -> sizeData e <= VSCP_LEVEL2_MAXDATA -> 1 <= alg <= 3 ->
  bytes_ok key -> (key_length alg <= length key)%nat -> (32 <= length hk)%nat ->
  vscp_getEncryptionIv random iv = Some (Some v) -> block_ok v ->
  let size := 38 + sizeData e in
  let wire := (size - 1) / 16 * 16 + 49 in
  Z.of_nat (length f) = size -> wire <= Z.of_nat (length out1) -> size <= Z.of_nat (length out2) ->
  exists fr enc dec framecrc,
    vscp_writeEventToFrame (Some f) size pkttype (Some e) = Some (true, Some fr) /\
    vscp_encryptFrameV1 EVP_Encrypt HMAC random (Some out1) (Z.of_nat (length out1)) (Some fr) size
      (Some key) (Some hk) iv alg = Some (wire, Some enc) /\
    drop (Z.to_nat wire) enc = drop (Z.to_nat wire) out1 /\
    vscp_decryptFrameV1 EVP_Decrypt HMAC (Some out2) (Z.of_nat (length out2)) (Some enc) wire
      (Some key) (Some hk) = Some (size, Some dec) /\
    vscp_getEventFromFrame now (Some e0) (Some dec) size = Some (true, Some (received now e framecrc)).
Proof.
  intros HE HH He Hmax Ha Hk Hkl Hhk Hiv Hv size wire Hf Ho1 Ho2.
  assert (Hs := size_ok e He). unfold is_u16 in Hs. change VSCP_LEVEL2_MAXDATA with 512 in Hmax.
  destruct (event_frame_split pkttype e He) as (t & body & F & L & Bt & Bb & V & G). fold size in L.
  assert (Lb : Z.of_nat (length body) = 37 + sizeData e) by (cbn [length] in L; unfold size in L; lia).
  destruct (padding_spec (length body)) as [P1 P2].
  assert (N : wire = Z.of_nat (33 + 16 * padded_blocks (length body))).
  { unfold wire. rewrite <- L. rewrite blocks_of_size. lia. }
  destruct (encryptFrameV1_eq EVP_Encrypt EVP_Decrypt HMAC HE HH alg key hk v Ha Hk Hkl Hhk Hv random iv t
              body [] out1 (Z.of_nat (length out1)) Hiv Bb ltac:(lia) ltac:(lia) ltac:(lia) ltac:(lia))
    as (c & cs & d & Hc & Lc & Bc & Ld & Ed & Hd & E).
  rewrite app_nil_r, L, <- N in E. rewrite <- N in Hd.
  assert (Hb : Z.land (type_byte t alg) 0x0f = alg) by (apply type_byte_spec; assumption).
  assert (D := decryptFrameV1_eq EVP_Decrypt HMAC alg key hk v Hkl Hhk Hv c cs d (type_byte t alg) body
                 (drop (33 + 16 * padded_blocks (length body)) out1) out2 (Z.of_nat (length out2))).
  cbv zeta in D. rewrite Hb, <- N in D. change (length (type_byte t alg :: body)) with (length (t :: body)) in D.
  specialize (D Hc Lc Ld Ed Hd). rewrite L in D.
  specialize (D ltac:(intros r; rewrite (validFrameCrc_first _ t), <- L; apply V) ltac:(lia) ltac:(lia) ltac:(lia)).
  destruct (G now e0 alg (drop (length (type_byte t alg :: body)) out2) size Ha ltac:(unfold size; lia))
    as [crc C].
  exists (t :: body). do 2 eexists. exists crc. split.
  { rewrite writeEventToFrame_eq, F by (exact He || lia). fold size. rewrite Z.leb_refl, drop_ge by lia.
    rewrite app_nil_r. reflexivity. }
  split; [exact E|]. split.
  { rewrite drop_app_length'; [rewrite N, Nat2Z.id; reflexivity|].
    cbn [length]. rewrite !length_app, length_take. destruct Hv. lia. }
  split; [exact D|exact C].
Qed.

Lemma encryptFrameV1_roundtrip_witness :
  exists fr enc dec framecrc,
    vscp_writeEventToFrame (Some (replicate 42 0)) 42 0 (Some sample_event) = Some (true, Some fr) /\
    vscp_encryptFrameV1 own_encrypt own_digest [] (Some (replicate 81 0)) 81 (Some fr) 42
      (Some (replicate 32 9)) (Some (replicate 32 8)) (Some vector_cipher) 3 = Some (81, Some enc) /\
    drop 81 enc = drop 81 (replicate 81 0) /\
    vscp_decryptFrameV1 own_decrypt own_digest (Some (replicate 42 0)) 42 (Some enc) 81
      (Some (replicate 32 9)) (Some (replicate 32 8)) = Some (42, Some dec) /\
    vscp_getEventFromFrame (Timespec 0 0) (Some sample_event) (Some dec) 42
    = Some (true, Some (received (Timespec 0 0) sample_event framecrc)).
Proof.
  apply (encryptFrameV1_roundtrip own_encrypt own_decrypt own_digest (Timespec 0 0) []
           (Some vector_cipher) vector_cipher (replicate 32 9) (replicate 32 8) 3 sample_event sample_event
           (replicate 42 0) (replicate 81 0) (replicate 42 0) 0).
  - apply own_cipher.
  - apply own_hmac.
  - apply sample_event_ok.
  - vm_compute. intros H. discriminate H.
  - lia.
  - by_decide.
  - vm_compute. lia.
  - cbn. lia.
  - reflexivity.
  - split; [reflexivity|by_decide].
  - reflexivity.
  - vm_compute. intros H. discriminate H.
  - vm_compute. intros H. discriminate H.
Defined.

(** C5: version 1: what vscp_decryptFrameV1 accepts was made with the key of the
    HMAC: the tag of an accepted frame is the first half of the digest of
    0x55, the version 1 word with the frame's length, and everything before the
    tag.  The plain text is a frame with a valid CRC that fits the output; a
    refused frame leaves the output as it was. *)
Theorem decryptFrameV1_authentic EVP_Decrypt HMAC out capacity inp len key hk n out' :
  vscp_decryptFrameV1 EVP_Decrypt HMAC (Some out) capacity (Some inp) len (Some key) (Some hk)
  = Some (n, Some out') ->
  n = 0 /\ out' = out \/
  exists digest,
    HMAC (take 32 hk) ([0x55; 0x20 + len / 256; len mod 256] ++ take (Z.to_nat (len - 16)) inp) = Some digest /\
    rdn inp (Z.to_nat (len - 16)) 16 = Some (take 16 digest) /\
    5 <= n <= capacity /\ n <= len - 33 + 1 /\
    vscp_validFrameCrc out' n = Some true /\
    length out' = length out /\ drop (Z.to_nat n) out' = drop (Z.to_nat n) out.
Proof. apply decryptFrameV1_inv. Qed.

(** An accepted frame of one block, with a cipher that copies. *)
Definition sealed : list Z :=
  let body := [2; 3; crcSlow [2; 3] / 256; crcSlow [2; 3] mod 256] ++ replicate 12 12 in
  let wire := 1 :: body ++ replicate 16 0 in
  wire ++ replicate 16 (u8 (crcFast (replicate 32 8 ++ [0x55; 0x20; 49] ++ wire))).

Lemma decryptFrameV1_authentic_witness :
  5 = 0 /\ 1 :: take 4 (drop 1 sealed) = replicate 5 7 \/
  exists digest,
    own_digest (replicate 32 8) ([0x55; 0x20; 49] ++ take 33 sealed) = Some digest /\
    rdn sealed 33 16 = Some (take 16 digest) /\
    5 <= 5 <= 5 /\ 5 <= 49 - 33 + 1 /\
    vscp_validFrameCrc (1 :: take 4 (drop 1 sealed)) 5 = Some true /\
    length (1 :: take 4 (drop 1 sealed)) = length (replicate 5 7) /\
    drop 5 (1 :: take 4 (drop 1 sealed)) = drop 5 (replicate 5 7).
Proof.
  apply (decryptFrameV1_authentic (fun _ _ _ cs => (true, cs, 0)) own_digest (replicate 5 7) 5 sealed 49
           (replicate 16 4) (replicate 32 8) 5 (1 :: take 4 (drop 1 sealed))).
  vm_compute. reflexivity.
Defined.
