(* ===== verification/Client.v ===== *)
(** * The client: src/src/vscp/common/vscp-client-base.h

    The functions that talk to a node are given a client, an object of a class
    derived from CVscpClient.  [VscpClient] is the interface: the virtual
    functions they call and the clocks they read, as functions on the world [W],
    which is everything outside the function that is modelled.  A client is an
    instance; what a theorem needs of it beyond the types is a class of laws. *)

From S2P Require Import Prelude DateTime Event Canal.

Definition isSameGUID (g pguid : list Z) : bool := bool_decide (take 16 g = take 16 pguid).

(** [receive] gets the event that it fills in, [getcount] returns what the
    variable holds after the call; [fresh] is what an uninitialised event holds
    and [stamp] what vscp_makeTimeStamp returns.  The conversions in
    vscp_makeTimeStamp and vscp_getMsTimeStamp, of milliseconds since the epoch
    in a double to uint32_t, are undefined for any present time (see
    [Event.vscp_makeTimeStamp]), so that their values are the environment's. *)
Class VscpClient (W : Type) := {
  isFullLevel2 : bool;
  send : vscpEventEx -> W -> Z * W;
  getcount : W -> Z * Z * W;
  receive : vscpEventEx -> W -> Z * vscpEventEx * W;
  clear : W -> Z * W;
  time : W -> Z * W;
  msTimeStamp : W -> Z * W;
  now : W -> timespec;
  stamp : W -> Z;
  fresh : W -> vscpEventEx
}.

(** The functions for CAN messages, and whether the connection is one of
    CANAL or SocketCAN; [fresh_msg] is an uninitialised message. *)
Class CanalClient (W : Type) := {
  isCanal : bool;
  send_msg : canalMsg -> W -> Z * W;
  receive_msg : canalMsg -> W -> Z * canalMsg * W;
  fresh_msg : W -> canalMsg
}.
