(* ===== verification/RegIo.v ===== *)
(** * Register access: the functions of src/src/vscp/common/register.cpp

    Reading and writing the registers of a node over a client: an event asks,
    and the function polls the client for the answer until a time has passed.
    Single registers, blocks of them (read in frames that may come in any order,
    written in runs of consecutive registers), and the two searches for nodes.
    The functions are state passing over the world behind [Client.VscpClient]. *)

From stdpp Require Import gmap sorting.
From S2P Require Import Prelude Program DateTime Event Guid Client.
#[local] Open Scope Z_scope.

Definition VSCP_PRIORITY_NORMAL : Z := 0x60.
Definition VSCP_CLASS1_PROTOCOL : Z := 0.
Definition VSCP_CLASS2_LEVEL1_PROTOCOL : Z := 512.
Definition VSCP_TYPE_PROTOCOL_READ_REGISTER : Z := 9.
Definition VSCP_TYPE_PROTOCOL_RW_RESPONSE : Z := 10.
Definition VSCP_TYPE_PROTOCOL_WHO_IS_THERE : Z := 31.
Definition VSCP_TYPE_PROTOCOL_WHO_IS_THERE_RESPONSE : Z := 32.
Definition VSCP_TYPE_PROTOCOL_EXTENDED_PAGE_READ : Z := 37.
Definition VSCP_TYPE_PROTOCOL_EXTENDED_PAGE_WRITE : Z := 38.
Definition VSCP_TYPE_PROTOCOL_EXTENDED_PAGE_RESPONSE : Z := 39.

Definition VSCP_ERROR_TIMEOUT : Z := 32.

Definition getNickname (g : list Z) : Z := nth 15 g 0.

(** The high and the low byte of a page. *)
Definition page_hi (page : Z) : Z := Z.land (Z.shiftr page 8) 0xff.
Definition page_lo (page : Z) : Z := Z.land page 0xff.

(** std::map<uint8_t, uint8_t>, and its keys in order. *)
Abbreviation registers := (gmap Z Z).
Definition keys (m : registers) : list Z := filter (fun k => is_Some (m !! k)) (seqZ 0 256).

(** [m[k]]: a missing element is added with value 0. *)
Definition index (k : Z) (m : registers) : Z * registers :=
  let v := default 0 (m !! k) in (v, <[k := v]> m).

(** ** Requests

    Through an interface the event is one of level I over level II, whose data
    starts with the GUID of the interface. *)

Definition request_event (guidInterface : list Z) (type : Z) (data : list Z) (ex : vscpEventEx) : vscpEventEx :=
  let bs := (if isNULL guidInterface then [] else take 16 guidInterface) ++ data in
  EventEx VSCP_PRIORITY_NORMAL (xobid ex) (xtime ex) (xcrc ex)
          (VSCP_CLASS1_PROTOCOL + (if isNULL guidInterface then 0 else 512)) type (xGUID ex)
          (Z.of_nat (length bs)) (bs ++ drop (length bs) (xdata ex)).

Definition dat (i : nat) (ex : vscpEventEx) : Z := nth i (xdata ex) 0.

(** The class and the type of an answer. *)
Definition is_response (ex : vscpEventEx) : bool :=
  (VSCP_CLASS1_PROTOCOL =? xclass ex) && (VSCP_TYPE_PROTOCOL_EXTENDED_PAGE_RESPONSE =? xtype ex).

(** [ex.GUID[15] = nickname], an assignment where a comparison is meant. *)
Definition set_lsb (nickname : Z) (ex : vscpEventEx) : vscpEventEx :=
  EventEx (xhead ex) (xobid ex) (xtime ex) (xcrc ex) (xclass ex) (xtype ex)
          (<[15%nat := nickname]> (xGUID ex)) (xsizeData ex) (xdata ex).

(** The test that follows in each function: of the value of the assignment, the
    size and the page. *)
Definition page_matches (nickname page : Z) (ex : vscpEventEx) : bool :=
  negb (nickname =? 0) && (5 <=? xsizeData ex) &&
  (dat 1 ex =? page_hi page) && (dat 2 ex =? page_lo page).

(** How a wait ends: with an answer, with an error of receive, or without. *)
Inductive reply (A : Type) := Accepted (a : A) | Failed | Ended.
Arguments Accepted {A} a.
Arguments Failed {A}.
Arguments Ended {A}.

Section access.
Context {W : Type} `{VscpClient W}.
Variable fuel : nat.

Definition uninitialised : M W vscpEventEx := fun w => Returns (fresh w, w).

(** Clears the input queue and sends. *)
Definition ask (ex : vscpEventEx) : M W Z :=
  rv ← call clear;
  if negb (rv =? VSCP_ERROR_SUCCESS) then mret rv else call (send ex).

(** Whether [timeout] has passed; the clock is read only with a timeout. *)
Definition expired (timeout startTime : Z) : M W bool :=
  if timeout =? 0 then mret false
  else t ← call msTimeStamp; mret (timeout <? u32 (t - startTime)).

(** The polling of the three functions that wait for one answer.  With a timeout
    of 0 the body is executed once. *)
Fixpoint response_loop {A} (n : nat) (accept : vscpEventEx -> option A) (nickname timeout startTime : Z)
    (ex : vscpEventEx) : M W (Z * reply A * vscpEventEx) :=
  match n with
  | O => out_of_fuel
  | S n =>
      let continue rv ex :=
        late ← expired timeout startTime;
        if (late : bool) then mret (VSCP_ERROR_TIMEOUT, Ended, ex)
        else if timeout =? 0 then mret (rv, Ended, ex)
        else response_loop n accept nickname timeout startTime ex in
      '(rv, count) ← call getcount;
      if negb (count =? 0) && (rv =? VSCP_ERROR_SUCCESS) then
        '(rv, ex) ← call (receive ex);
        if negb (rv =? VSCP_ERROR_SUCCESS) then mret (rv, Failed, ex)
        else if is_response ex then
          let ex := set_lsb nickname ex in
          match accept ex with
          | Some a => mret (VSCP_ERROR_SUCCESS, Accepted a, ex)
          | None => continue rv ex
          end
        else continue rv ex
      else continue rv ex
  end.

(** ** Single registers *)

Definition read_accept (nickname page offset : Z) (ex : vscpEventEx) : option Z :=
  if page_matches nickname page ex && (dat 0 ex =? 0) && (dat 3 ex =? offset)
  then Some (dat 4 ex) else None.

(** [value] is an in/out parameter. *)
Definition vscp_readLevel1Register (guidNode guidInterface : list Z) (page offset value timeout : Z) : M W (Z * Z) :=
  ex ← uninitialised;
  let nickname := getNickname guidNode in
  let ex := request_event guidInterface VSCP_TYPE_PROTOCOL_EXTENDED_PAGE_READ
              [nickname; page_hi page; page_lo page; offset; 1] ex in
  rv ← ask ex;
  if negb (rv =? VSCP_ERROR_SUCCESS) then mret (rv, value)
  else
    startTime ← call msTimeStamp;
    '(rv, r, _) ← response_loop fuel (read_accept nickname page offset) nickname timeout startTime ex;
    mret (rv, match r with Accepted v => v | _ => value end).

Definition write_accept (nickname page offset value : Z) (ex : vscpEventEx) : option unit :=
  if page_matches nickname page ex && (dat 0 ex =? 0) && (dat 3 ex =? offset) && (dat 4 ex =? value)
  then Some tt else None.

Definition vscp_writeLevel1Register (guidNode guidInterface : list Z) (page offset value timeout : Z) : M W Z :=
  ex ← uninitialised;
  let nickname := getNickname guidNode in
  let ex := request_event guidInterface VSCP_TYPE_PROTOCOL_EXTENDED_PAGE_WRITE
              [nickname; page_hi page; page_lo page; offset; value] ex in
  rv ← ask ex;
  if negb (rv =? VSCP_ERROR_SUCCESS) then mret rv
  else
    startTime ← call msTimeStamp;
    '(rv, _, _) ← response_loop fuel (write_accept nickname page offset value) nickname timeout startTime ex;
    mret rv.

Definition restoreStandardConfig (guidNode guidInterface : list Z) (timeout : Z) : M W Z :=
  rv ← vscp_writeLevel1Register guidNode guidInterface 0 0xA2 0x55 timeout;
  if negb (rv =? VSCP_ERROR_SUCCESS) then mret rv
  else vscp_writeLevel1Register guidNode guidInterface 0 0xA2 0xAA timeout.

(** ** Reading a block *)

(** The registers read, the frames that are missing, and the number of registers
    received, a uint8_t. *)
Record block := Block { values : registers; frameset : gset Z; rcvcnt : Z }.

Definition frame_indices (count : Z) : list Z :=
  seqZ 0 (count / 4) ++ (if count mod 4 =? 0 then [] else [count / 4]).

(** Stores the bytes from register [reg] on; the keys are uint8_t. *)
Definition store_bytes (reg : Z) (bytes : list Z) (m : registers) : registers :=
  foldl (fun m '(i, b) => <[u8 (reg + Z.of_nat i) := b]> m) m (imap pair bytes).

(** A frame: its index, its first register and the bytes. *)
Definition store_frame (ex : vscpEventEx) (b : block) : option block :=
  bytes ← rdn (xdata ex) 4 (Z.to_nat (xsizeData ex - 4));
  Some (Block (store_bytes (dat 3 ex) bytes (values b)) (frameset b ∖ {[dat 0 ex]})
              (u8 (rcvcnt b + Z.of_nat (length bytes)))).

(** The percentage is calculated with a division by the number received. *)
Definition report (statusCallback : option (Z -> W -> W)) (count : Z) (b : block) (callbackTime : Z) : M W Z :=
  match statusCallback with
  | None => mret callbackTime
  | Some f =>
      t ← call msTimeStamp;
      if 500 <? u32 (t - callbackTime) then
        if rcvcnt b =? 0 then undefined
        else
          _ ← call (fun w => (tt, f (100 * count / rcvcnt b) w));
          call msTimeStamp
      else mret callbackTime
  end.

Fixpoint block_loop (n : nat) (statusCallback : option (Z -> W -> W)) (nickname page count timeout startTime : Z)
    (callbackTime : Z) (ex : vscpEventEx) (b : block) : M W (Z * registers) :=
  match n with
  | O => out_of_fuel
  | S n =>
      let continue ex b :=
        late ← expired timeout startTime;
        if (late : bool) then mret (VSCP_ERROR_TIMEOUT, values b)
        else
          callbackTime ← report statusCallback count b callbackTime;
          block_loop n statusCallback nickname page count timeout startTime callbackTime ex b in
      '(rv, cntRead) ← call getcount;
      if (rv =? VSCP_ERROR_SUCCESS) && negb (cntRead =? 0) then
        '(rv, ex) ← call (receive ex);
        if negb (rv =? VSCP_ERROR_SUCCESS) then mret (rv, values b)
        else if is_response ex then
          let ex := set_lsb nickname ex in
          if page_matches nickname page ex then
            b ← defined (store_frame ex b);
            if (rcvcnt b =? count) && bool_decide (frameset b = ∅)
            then mret (VSCP_ERROR_SUCCESS, values b)
            else continue ex b
          else continue ex b
        else continue ex b
      else continue ex b
  end.

Definition vscp_readLevel1RegisterBlock (guidNode guidInterface : list Z) (page offset count : Z)
    (vals : registers) (statusCallback : option (Z -> W -> W)) (timeout : Z) : M W (Z * registers) :=
  ex ← uninitialised;
  let nickname := getNickname guidNode in
  let ex := request_event guidInterface VSCP_TYPE_PROTOCOL_EXTENDED_PAGE_READ
              [nickname; page_hi page; page_lo page; offset; count] ex in
  rv ← ask ex;
  if negb (rv =? VSCP_ERROR_SUCCESS) then mret (rv, vals)
  else
    startTime ← call msTimeStamp;
    callbackTime ← call msTimeStamp;
    block_loop fuel statusCallback nickname page count timeout startTime callbackTime ex
      (Block vals (list_to_set (frame_indices count)) 0).
End access.

(** ** Writing a block *)

(** The runs of consecutive registers: the first register of each and the
    number, a uint8_t. *)
Definition start_step (st : Z * Z * registers) (k : Z) : Z * Z * registers :=
  let '(reg, count, sm) := st in
  if negb (k =? reg + count) then (k, 1, <[k := 1]> sm)
  else
    let c := u8 (default 0 (sm !! reg) + 1) in (reg, c, <[reg := c]> sm).

Definition startmap (regvalues : registers) : registers :=
  (foldl start_step (-99, 0, ∅) (keys regvalues)).2.

(** The number of events for a run, a uint8_t. *)
Definition nwrites (size : Z) : Z := u8 (size / 4 + (if size mod 4 =? 0 then 0 else 1)).
Definition bytes2write (size i : Z) : Z := Z.min 4 (u8 (size - i * 4)).

(** The values of [n] registers from [k] on, through [m[k]]. *)
Fixpoint fill_data (n : nat) (k : Z) (m : registers) : list Z * registers :=
  match n with
  | O => ([], m)
  | S n =>
      let '(v, m) := index (u8 k) m in
      let '(vs, m) := fill_data n (k + 1) m in (v :: vs, m)
  end.

(** A register that comes back with its value is done. *)
Fixpoint erase_confirmed (k : Z) (bytes : list Z) (m : registers) : registers :=
  match bytes with
  | [] => m
  | b :: bytes =>
      let '(v, m) := index (u8 k) m in
      erase_confirmed (k + 1) bytes (if b =? v then delete (u8 k) m else m)
  end.

(** The registers that are left after an answer; the outer option is undefined
    behaviour, outside the data of the event. *)
Definition confirm (nickname page : Z) (regvalues : registers) (ex : vscpEventEx) : option (option registers) :=
  if page_matches nickname page ex && (dat 0 ex =? 0) then
    Some (bytes ← rdn (xdata ex) 4 (Z.to_nat (xsizeData ex - 4));
          Some (erase_confirmed (dat 3 ex) bytes regvalues))
  else None.

(** A return from the function, or the next event: with what rv, the event and
    the map hold. *)
Inductive flow := Return (rv : Z) (regs : registers) | Next (rv : Z) (ex : vscpEventEx) (regs : registers).

Section write.
Context {W : Type} `{VscpClient W}.
Variable fuel : nat.

(** One event of a run and the wait for its answer. *)
Definition write_frame (nickname page timeout : Z) (guidInterface : list Z) (first size i : Z)
    (ex : vscpEventEx) (regs : registers) : M W flow :=
  let '(bytes, regs) := fill_data (Z.to_nat (bytes2write size i)) (first + i * 4) regs in
  let ex := request_event guidInterface VSCP_TYPE_PROTOCOL_EXTENDED_PAGE_WRITE
              ([nickname; page_hi page; page_lo page; u8 (first + i * 4)] ++ bytes) ex in
  rv ← ask ex;
  if negb (rv =? VSCP_ERROR_SUCCESS) then mret (Return rv regs)
  else
    startTime ← call msTimeStamp;
    '(rv, r, ex) ← response_loop fuel (confirm nickname page regs) nickname timeout startTime ex;
    match r with
    | Failed => mret (Return rv regs)
    | Ended => mret (Next rv ex regs)
    | Accepted o =>
        regs ← defined o;
        if bool_decide (regs = ∅) then mret (Return VSCP_ERROR_SUCCESS regs) else mret (Next rv ex regs)
    end.

Fixpoint write_frames (n : nat) (statusCallback : option (Z -> W -> W)) (nickname page timeout : Z)
    (guidInterface : list Z) (first size i : Z) (rv : Z) (ex : vscpEventEx) (regs : registers) : M W flow :=
  match n with
  | O => mret (Next rv ex regs)
  | S n =>
      f ← write_frame nickname page timeout guidInterface first size i ex regs;
      match f with
      | Return rv regs => mret (Return rv regs)
      | Next rv ex regs =>
          _ ← match statusCallback with
              | None => mret tt
              | Some g => call (fun w => (tt, g (100 * i / nwrites size) w))
              end;
          write_frames n statusCallback nickname page timeout guidInterface first size (i + 1) rv ex regs
      end
  end.

Fixpoint write_runs (starts : list Z) (sm : registers) (statusCallback : option (Z -> W -> W))
    (nickname page timeout : Z) (guidInterface : list Z) (rv : Z) (ex : vscpEventEx) (regs : registers)
    : M W (Z * registers) :=
  match starts with
  | [] => mret (rv, regs)
  | first :: starts =>
      let size := default 0 (sm !! first) in
      f ← write_frames (Z.to_nat (nwrites size)) statusCallback nickname page timeout guidInterface first size 0 rv ex regs;
      match f with
      | Return rv regs => mret (rv, regs)
      | Next rv ex regs => write_runs starts sm statusCallback nickname page timeout guidInterface rv ex regs
      end
  end.

Definition vscp_writeLevel1RegisterBlock (guidNode guidInterface : list Z) (page : Z) (regvalues : registers)
    (statusCallback : option (Z -> W -> W)) (timeout : Z) : M W (Z * registers) :=
  ex ← uninitialised;
  let sm := startmap regvalues in
  write_runs (keys sm) sm statusCallback (getNickname guidNode) page timeout guidInterface
    VSCP_ERROR_SUCCESS ex regvalues.

(** ** Searching for nodes *)

(** [memset(&ex, 0, sizeof ex)]. *)
Definition zero_event : vscpEventEx := EventEx 0 0 (Time 0 0 0) 0 0 0 (replicate 16 0) 0 (replicate 512 0).

(** The nickname of the sender, of two bytes. *)
Definition sender (ex : vscpEventEx) : Z := u16 (nth 15 (xGUID ex) 0 + Z.shiftl (nth 14 (xGUID ex) 0) 8).

(** The callbacks of the searches, at most every half second. *)
Definition progress (statusCallback : option (Z -> W -> W)) (status callbackTime : Z) : M W Z :=
  match statusCallback with
  | None => mret callbackTime
  | Some f =>
      t ← call msTimeStamp;
      if 500 <? u32 (t - callbackTime) then
        _ ← call (fun w => (tt, f status w)); call msTimeStamp
      else mret callbackTime
  end.

(** The event of the last receive is looked at again when nothing was received. *)
Fixpoint scan_loop (n : nat) (statusCallback : option (Z -> W -> W)) (timeout startTime callbackTime rv : Z)
    (ex : vscpEventEx) (found : gset Z) : M W (gset Z) :=
  match n with
  | O => out_of_fuel
  | S n =>
      '(_, cnt) ← call getcount;
      '(rv, ex) ← (if negb (cnt =? 0) then call (receive ex) else mret (rv, ex));
      let found :=
        if (rv =? VSCP_ERROR_SUCCESS) && (xclass ex =? VSCP_CLASS1_PROTOCOL) &&
           (xtype ex =? VSCP_TYPE_PROTOCOL_WHO_IS_THERE_RESPONSE)
        then {[sender ex]} ∪ found else found in
      t ← call msTimeStamp;
      if timeout <? u32 (t - startTime) then mret found
      else
        callbackTime ← progress statusCallback (Z.of_nat (size found)) callbackTime;
        scan_loop n statusCallback timeout startTime callbackTime rv ex found
  end.

(** The GUID of the interface goes where the data of the level I event begins,
    over the node id. *)
Definition vscp_scanForDevices (guidIf : list Z) (found : gset Z) (statusCallback : option (Z -> W -> W))
    (timeout : Z) : M W (Z * gset Z) :=
  let offset := if isNULL guidIf then 0%nat else 16%nat in
  let data := <[offset := 0xff]> (xdata zero_event) in
  let data := if isNULL guidIf then data else take offset data ++ take 16 guidIf ++ drop (offset + 16) data in
  let ex := EventEx 0 0 (Time 0 0 0) 0 (VSCP_CLASS1_PROTOCOL + (if isNULL guidIf then 0 else 512))
              VSCP_TYPE_PROTOCOL_WHO_IS_THERE (replicate 16 0) (Z.of_nat (1 + offset)) data in
  rv ← ask ex;
  if negb (rv =? VSCP_ERROR_SUCCESS) then mret (rv, found)
  else
    startTime ← call msTimeStamp;
    callbackTime ← call msTimeStamp;
    found ← scan_loop fuel statusCallback timeout startTime callbackTime rv ex found;
    mret (VSCP_ERROR_SUCCESS, found).

(** A read of the first byte of the GUID of each node that is searched for. *)
Fixpoint send_reads (offset : nat) (search_nodes : list Z) (ex : vscpEventEx) : M W (Z * vscpEventEx) :=
  match search_nodes with
  | [] => mret (VSCP_ERROR_SUCCESS, ex)
  | idx :: search_nodes =>
      let data := <[S offset := 0xd0]> (<[offset := u8 idx]> (xdata ex)) in
      let ex := EventEx (xhead ex) (xobid ex) (xtime ex) (xcrc ex) (xclass ex) (xtype ex) (xGUID ex) (xsizeData ex) data in
      rv ← call (send ex);
      if negb (rv =? VSCP_ERROR_SUCCESS) then mret (rv, ex) else send_reads offset search_nodes ex
  end.

Fixpoint slow_loop (n : nat) (statusCallback : option (Z -> W -> W)) (timeout startTime callbackTime : Z)
    (searched : nat) (ex : vscpEventEx) (found_nodes : gset Z) : M W (gset Z) :=
  match n with
  | O => out_of_fuel
  | S n =>
      '(_, cnt) ← call getcount;
      '(found_nodes, ex) ←
        (if negb (cnt =? 0) then
           '(rv, ex) ← call (receive ex);
           mret (if (rv =? VSCP_ERROR_SUCCESS) &&
                    ((xclass ex =? VSCP_CLASS1_PROTOCOL) || (xclass ex =? VSCP_CLASS2_LEVEL1_PROTOCOL)) &&
                    (xtype ex =? VSCP_TYPE_PROTOCOL_RW_RESPONSE)
                 then {[sender ex]} ∪ found_nodes else found_nodes, ex)
         else mret (found_nodes, ex));
      if (searched <=? size found_nodes)%nat then mret found_nodes
      else
        t ← call msTimeStamp;
        if timeout <? u32 (t - startTime) then mret found_nodes
        else
          callbackTime ← progress statusCallback (100 * Z.of_nat (size found_nodes) / Z.of_nat searched) callbackTime;
          slow_loop n statusCallback timeout startTime callbackTime searched ex found_nodes
  end.

(** [search_nodes] is the set in its order. *)
Definition vscp_scanSlowForDevices (guidIf : list Z) (search_nodes : list Z) (found_nodes : gset Z)
    (statusCallback : option (Z -> W -> W)) (timeout : Z) : M W (Z * gset Z) :=
  let offset := if isNULL guidIf then 0%nat else 16%nat in
  let data := if isNULL guidIf then xdata zero_event else take 16 guidIf ++ drop 16 (xdata zero_event) in
  let ex := EventEx 0 0 (Time 0 0 0) 0 (VSCP_CLASS1_PROTOCOL + (if isNULL guidIf then 0 else 512))
              VSCP_TYPE_PROTOCOL_READ_REGISTER (replicate 16 0) (Z.of_nat (2 + offset)) data in
  rv ← call clear;
  if negb (rv =? VSCP_ERROR_SUCCESS) then mret (rv, found_nodes)
  else
    '(rv, ex) ← send_reads offset search_nodes ex;
    if negb (rv =? VSCP_ERROR_SUCCESS) then mret (rv, found_nodes)
    else
      startTime ← call msTimeStamp;
      callbackTime ← call msTimeStamp;
      found_nodes ← slow_loop fuel statusCallback timeout startTime callbackTime (length search_nodes) ex found_nodes;
      mret (VSCP_ERROR_SUCCESS, found_nodes).

(** The variant with the first and the last node. *)
Definition vscp_scanSlowForDevices_range (guid : list Z) (start_node end_node : Z) (found_nodes : gset Z)
    (statusCallback : option (Z -> W -> W)) (timeout : Z) : M W (Z * gset Z) :=
  vscp_scanSlowForDevices guid (seqZ start_node (end_node + 1 - start_node)) found_nodes statusCallback timeout.
End write.

(** ** What the functions need of the clock

    [polls s w] bounds how often the clock can still be read from [w] on before
    more than [timeout] has passed since [s]; no call of the client makes it
    larger, and it is below [bound] after the one or two readings with which a
    wait begins. *)
Class MsClockLaws (W : Type) `{VscpClient W} (timeout : Z) (bound : nat) := {
  polls : Z -> W -> nat;
  polls_ms : forall s w t w', msTimeStamp w = (t, w') -> u32 (t - s) <= timeout -> (polls s w' < polls s w)%nat;
  polls_getcount : forall s w, (polls s (getcount w).2 <= polls s w)%nat;
  polls_receive : forall s ex w, (polls s (receive ex w).2 <= polls s w)%nat;
  polls_start : forall w t w', msTimeStamp w = (t, w') ->
    (polls t w' < bound)%nat /\ (polls t (msTimeStamp w').2 < bound)%nat
}.

(** ** What the functions need of the node

    [regs] are the registers of the node by page and offset, [inbox] what waits
    to be received; the node answers at once, and nobody else sends.  [soon s w]:
    at [w] no more than [timeout] has passed since [s]. *)

Section node.
Context {W : Type} `{VscpClient W}.

(** A frame with an index, a first register and bytes. *)
Record frame_ok (page i reg : Z) (bytes : list Z) (e : vscpEventEx) : Prop := {
  frame_response : is_response e = true;
  frame_size : xsizeData e = 4 + Z.of_nat (length bytes);
  frame_data : take (4 + length bytes) (xdata e) = [i; page_hi page; page_lo page; reg] ++ bytes
}.

(** A request with its data, through the interface or not. *)
Definition asks (guidInterface : list Z) (type : Z) (data : list Z) (ex : vscpEventEx) : Prop :=
  exists ex', ex = request_event guidInterface type data ex'.

(** The registers of a frame of a block. *)
Definition frame_length (count i : Z) : Z := Z.min 4 (count - 4 * i).
Definition frame_bytes (rs : Z -> Z) (offset count i : Z) : list Z :=
  map rs (seqZ (offset + 4 * i) (frame_length count i)).
End node.

Class RegisterNode (W : Type) `{VscpClient W} (guidNode guidInterface : list Z) (timeout : Z) := {
  regs : W -> Z -> Z -> Z;
  inbox : W -> list vscpEventEx;
  soon : Z -> W -> Prop;
  node_clear : forall w, exists w', clear w = (VSCP_ERROR_SUCCESS, w') /\ regs w' = regs w /\ inbox w' = [];
  node_ms : forall w t w', msTimeStamp w = (t, w') ->
    regs w' = regs w /\ inbox w' = inbox w /\ (inbox w <> [] -> soon t w') /\
    forall s, soon s w -> u32 (t - s) <= timeout /\ soon s w';
  node_getcount : forall w, exists cnt w', getcount w = (VSCP_ERROR_SUCCESS, cnt, w') /\
    regs w' = regs w /\ inbox w' = inbox w /\ (cnt = 0 <-> inbox w = []) /\ forall s, soon s w -> soon s w';
  node_receive : forall ex e r w, inbox w = e :: r -> exists w', receive ex w = (VSCP_ERROR_SUCCESS, e, w') /\
    regs w' = regs w /\ inbox w' = r /\ forall s, soon s w -> soon s w';
  node_read : forall ex page offset count w, is_u16 page -> inbox w = [] ->
    asks guidInterface VSCP_TYPE_PROTOCOL_EXTENDED_PAGE_READ
      [getNickname guidNode; page_hi page; page_lo page; offset; count] ex ->
    exists w' ids, send ex w = (VSCP_ERROR_SUCCESS, w') /\ regs w' = regs w /\ ids ≡ₚ frame_indices count /\
      Forall2 (fun e i => frame_ok page i (offset + 4 * i) (frame_bytes (regs w page) offset count i) e) (inbox w') ids;
  node_write : forall ex page offset bytes w, is_u16 page -> inbox w = [] -> (0 < length bytes <= 4)%nat ->
    asks guidInterface VSCP_TYPE_PROTOCOL_EXTENDED_PAGE_WRITE
      ([getNickname guidNode; page_hi page; page_lo page; offset] ++ bytes) ex ->
    exists w' e, send ex w = (VSCP_ERROR_SUCCESS, w') /\ inbox w' = [e] /\ frame_ok page 0 offset bytes e /\
      forall p k, regs w' p k =
        if (p =? page) && (offset <=? k) && (k <? offset + Z.of_nat (length bytes))
        then nth (Z.to_nat (k - offset)) bytes 0 else regs w p k
}.

(** ** Lemmas: nothing waits forever *)

Section ends.
Context {W : Type} `{VscpClient W} (timeout : Z) (fuel : nat) `{!MsClockLaws W timeout fuel}.
Context (Ht : timeout <> 0).

Lemma expired_cases s w :
  exists b w', expired timeout s w = Returns (b, w') /\ (b = false -> polls s w' < polls s w)%nat.
Proof.
  unfold expired. rewrite (proj2 (Z.eqb_neq _ _) Ht). destruct (msTimeStamp w) as [t w'] eqn:E.
  rewrite (bind_call _ _ _ _ _ E). exists (timeout <? u32 (t - s)), w'.
  split; [reflexivity|]. intros L%Z.ltb_ge. exact (polls_ms s w t w' E L).
Qed.

Lemma ends_response_loop {A} n (accept : vscpEventEx -> option A) nickname s ex w :
  (polls s w < n)%nat -> response_loop n accept nickname timeout s ex w <> OutOfFuel.
Proof.
  revert ex w. induction n as [|n IH]; intros ex w Hn; [lia|]. cbn [response_loop].
  assert (C : forall rv ex w1, (polls s w1 <= polls s w)%nat ->
    (late ← expired timeout s;
     if (late : bool) then mret (VSCP_ERROR_TIMEOUT, Ended, ex)
     else if timeout =? 0 then mret (rv, Ended, ex)
     else response_loop n accept nickname timeout s ex) w1 <> OutOfFuel).
  { intros rv ex1 w1 Hw. destruct (expired_cases s w1) as (b & w2 & E & P2). rewrite (bind_returns _ _ _ _ _ E).
    destruct b; [discriminate|]. rewrite (proj2 (Z.eqb_neq _ _) Ht). apply IH. specialize (P2 eq_refl). lia. }
  destruct (getcount w) as [[rv cnt] w1] eqn:E1. rewrite (bind_call _ _ _ _ _ E1).
  assert (P1 := polls_getcount s w). rewrite E1 in P1. cbn [snd] in P1.
  destruct (_ && _); [|apply C; exact P1].
  destruct (receive ex w1) as [[rv' ex'] w2] eqn:E2. rewrite (bind_call _ _ _ _ _ E2).
  assert (P2 := polls_receive s ex w1). rewrite E2 in P2. cbn [snd] in P2.
  destruct (negb _); [discriminate|]. destruct (is_response ex'); [|apply C; lia].
  destruct (accept _); [discriminate|]. apply C. lia.
Qed.

Lemma ends_ask ex : ends (ask ex).
Proof using Type. unfold ask. ends_tac. Qed.
Lemma ends_uninitialised : ends uninitialised.
Proof using Type. intros w. discriminate. Qed.

(** A wait begins with a reading of the clock. *)
Lemma ends_wait {A B} (accept : vscpEventEx -> option A) nickname ex (k : Z * reply A * vscpEventEx -> M W B) :
  (forall r, ends (k r)) ->
  ends (startTime ← call msTimeStamp; r ← response_loop fuel accept nickname timeout startTime ex; k r).
Proof.
  intros Hk w. destruct (msTimeStamp w) as [t w1] eqn:E. rewrite (bind_call _ _ _ _ _ E).
  assert (N := ends_response_loop fuel accept nickname t ex w1 (proj1 (polls_start w t w1 E))).
  unfold mbind, M_bind. destruct (response_loop _ _ _ _ _ _ _) as [[r w2]| | |]; [apply Hk|congruence..].
Qed.

Lemma ends_read guidNode guidInterface page offset value :
  ends (vscp_readLevel1Register fuel guidNode guidInterface page offset value timeout).
Proof.
  unfold vscp_readLevel1Register. apply ends_bind; [apply ends_uninitialised|intros ex].
  apply ends_bind; [apply ends_ask|intros rv]. destruct (negb _); [apply ends_ret|].
  apply ends_wait. intros [[rv' r] ex']. apply ends_ret.
Qed.

Lemma ends_write guidNode guidInterface page offset value :
  ends (vscp_writeLevel1Register fuel guidNode guidInterface page offset value timeout).
Proof.
  unfold vscp_writeLevel1Register. apply ends_bind; [apply ends_uninitialised|intros ex].
  apply ends_bind; [apply ends_ask|intros rv]. destruct (negb _); [apply ends_ret|].
  apply ends_wait. intros [[rv' r] ex']. apply ends_ret.
Qed.

Lemma ends_block_loop nickname page count s n cb ex b w :
  (polls s w < n)%nat ->
  block_loop n None nickname page count timeout s cb ex b w <> OutOfFuel.
Proof.
  revert cb ex b w. induction n as [|n IH]; intros cb ex b w Hn; [lia|]. cbn [block_loop].
  assert (C : forall ex b w1, (polls s w1 <= polls s w)%nat ->
    (late ← expired timeout s;
     if (late : bool) then mret (VSCP_ERROR_TIMEOUT, values b)
     else
       cb ← report None count b cb;
       block_loop n None nickname page count timeout s cb ex b) w1 <> OutOfFuel).
  { intros ex1 b1 w1 Hw. destruct (expired_cases s w1) as (l & w2 & E & P2). rewrite (bind_returns _ _ _ _ _ E).
    destruct l; [discriminate|]. specialize (P2 eq_refl). cbn [report]. rewrite bind_ret. apply IH. lia. }
  destruct (getcount w) as [[rv cnt] w1] eqn:E1. rewrite (bind_call _ _ _ _ _ E1).
  assert (P1 := polls_getcount s w). rewrite E1 in P1. cbn [snd] in P1.
  destruct (_ && _); [|apply C; exact P1].
  destruct (receive ex w1) as [[rv' ex'] w2] eqn:E2. rewrite (bind_call _ _ _ _ _ E2).
  assert (P2 := polls_receive s ex w1). rewrite E2 in P2. cbn [snd] in P2.
  destruct (negb _); [discriminate|]. destruct (is_response ex'); [|apply C; lia].
  destruct (page_matches _ _ _); [|apply C; lia].
  destruct (store_frame _ b) as [b'|]; [|discriminate]. rewrite (bind_defined _ _ _ _ eq_refl).
  destruct (_ && _); [discriminate|apply C; lia].
Qed.

Lemma ends_read_block guidNode guidInterface page offset count vals :
  ends (vscp_readLevel1RegisterBlock fuel guidNode guidInterface page offset count vals None timeout).
Proof.
  unfold vscp_readLevel1RegisterBlock. apply ends_bind; [apply ends_uninitialised|intros ex].
  apply ends_bind; [apply ends_ask|intros rv]. destruct (negb _); [apply ends_ret|]. intros w.
  destruct (msTimeStamp w) as [s w1] eqn:E1. rewrite (bind_call _ _ _ _ _ E1).
  destruct (msTimeStamp w1) as [cb w2] eqn:E2. rewrite (bind_call _ _ _ _ _ E2).
  apply ends_block_loop. assert (P := proj2 (polls_start w s w1 E1)). rewrite E2 in P. exact P.
Qed.

Lemma ends_write_frame nickname page guidInterface first size i ex rs :
  ends (write_frame fuel nickname page timeout guidInterface first size i ex rs).
Proof.
  unfold write_frame. destruct (fill_data _ _ _) as [bytes rs1]. apply ends_bind; [apply ends_ask|intros rv].
  destruct (negb _); [apply ends_ret|]. apply ends_wait. intros [[rv' r] ex']. destruct r; ends_tac.
Qed.

Lemma ends_write_frames n statusCallback nickname page guidInterface first size i rv ex rs :
  ends (write_frames fuel n statusCallback nickname page timeout guidInterface first size i rv ex rs).
Proof.
  revert i rv ex rs. induction n as [|n IH]; intros i rv ex rs; cbn [write_frames]; ends_tac;
    first [apply ends_write_frame | apply IH].
Qed.

Lemma ends_write_runs starts sm statusCallback nickname page guidInterface rv ex rs :
  ends (write_runs fuel starts sm statusCallback nickname page timeout guidInterface rv ex rs).
Proof.
  revert rv ex rs. induction starts as [|first starts IH]; intros rv ex rs; cbn [write_runs]; ends_tac;
    first [apply ends_write_frames | apply IH].
Qed.

Lemma ends_write_block guidNode guidInterface page rs statusCallback :
  ends (vscp_writeLevel1RegisterBlock fuel guidNode guidInterface page rs statusCallback timeout).
Proof.
  unfold vscp_writeLevel1RegisterBlock. apply ends_bind; [apply ends_uninitialised|intros ex]. apply ends_write_runs.
Qed.

(** The time test of the searches. *)
Lemma late_or_next {B} (k : M W B) (r : M W B) s w :
  (forall w', k w' <> OutOfFuel) ->
  (forall w', (polls s w' < polls s w)%nat -> r w' <> OutOfFuel) ->
  (t ← call msTimeStamp; if timeout <? u32 (t - s) then k else r) w <> OutOfFuel.
Proof using MsClockLaws0. clear Ht.
  intros Hk Hr. destruct (msTimeStamp w) as [t w1] eqn:E. rewrite (bind_call _ _ _ _ _ E).
  destruct (Z.ltb_spec timeout (u32 (t - s))); [apply Hk|apply Hr, (polls_ms s w t w1 E); assumption].
Qed.

Lemma ends_scan_loop s n cb rv ex found w :
  (polls s w < n)%nat ->
  scan_loop n None timeout s cb rv ex found w <> OutOfFuel.
Proof using MsClockLaws0. clear Ht.
  revert cb rv ex found w. induction n as [|n IH]; intros cb rv ex found w Hn; [lia|]. cbn [scan_loop].
  destruct (getcount w) as [[rv1 cnt] w1] eqn:E1. rewrite (bind_call _ _ _ _ _ E1).
  assert (P1 := polls_getcount s w). rewrite E1 in P1. cbn [snd] in P1.
  assert (R : exists q w2, (if negb (cnt =? 0) then call (receive ex) else mret (rv, ex)) w1 = Returns (q, w2) /\
    (polls s w2 <= polls s w1)%nat).
  { destruct (negb _); [|do 2 eexists; split; reflexivity]. do 2 eexists. unfold call.
    rewrite (surjective_pairing (receive ex w1)). split; [reflexivity|apply polls_receive]. }
  destruct R as ([rv2 ex2] & w2 & E2 & P2). rewrite (bind_returns _ _ _ _ _ E2).
  apply late_or_next; [intros; discriminate|]. intros w3 P3.
  cbn [progress]. rewrite bind_ret. apply IH. lia.
Qed.

Lemma ends_scan guidIf found : ends (vscp_scanForDevices fuel guidIf found None timeout).
Proof using MsClockLaws0. clear Ht.
  unfold vscp_scanForDevices. apply ends_bind; [apply ends_ask|intros rv].
  destruct (negb _); [apply ends_ret|]. intros w.
  destruct (msTimeStamp w) as [s w1] eqn:E1. rewrite (bind_call _ _ _ _ _ E1).
  destruct (msTimeStamp w1) as [cb w2] eqn:E2. rewrite (bind_call _ _ _ _ _ E2).
  assert (P := proj2 (polls_start w s w1 E1)). rewrite E2 in P. cbn [snd] in P.
  match goal with |- (scan_loop ?n ?f ?t ?s ?cb ?rv ?ex ?fd ≫= ?k) _ <> _ =>
    assert (N := ends_scan_loop s n cb rv ex fd w2 P) end.
  unfold mbind, M_bind. destruct (scan_loop _ _ _ _ _ _ _ _ _) as [[r w3]| | |]; [discriminate..|congruence].
Qed.

Lemma ends_slow_loop s n cb searched ex found w :
  (polls s w < n)%nat ->
  slow_loop n None timeout s cb searched ex found w <> OutOfFuel.
Proof using MsClockLaws0. clear Ht.
  revert cb ex found w. induction n as [|n IH]; intros cb ex found w Hn; [lia|]. cbn [slow_loop].
  destruct (getcount w) as [[rv1 cnt] w1] eqn:E1. rewrite (bind_call _ _ _ _ _ E1).
  assert (P1 := polls_getcount s w). rewrite E1 in P1. cbn [snd] in P1.
  match goal with |- (?m ≫= _) _ <> _ =>
    assert (R : exists q w2, m w1 = Returns (q, w2) /\ (polls s w2 <= polls s w1)%nat) end.
  { destruct (negb _); [|do 2 eexists; split; reflexivity].
    destruct (receive ex w1) as [[rv ex'] w2] eqn:E2. rewrite (bind_call _ _ _ _ _ E2).
    assert (P2 := polls_receive s ex w1). rewrite E2 in P2. do 2 eexists. split; [reflexivity|exact P2]. }
  destruct R as ([fd ex2] & w2 & E2 & P2). rewrite (bind_returns _ _ _ _ _ E2).
  destruct (searched <=? size fd)%nat; [discriminate|]. apply late_or_next; [intros; discriminate|]. intros w3 P3.
  cbn [progress]. rewrite bind_ret. apply IH. lia.
Qed.

Lemma ends_send_reads offset nodes ex : ends (send_reads offset nodes ex).
Proof using Type. revert ex. induction nodes as [|idx nodes IH]; intros ex; cbn [send_reads]; ends_tac. Qed.

Lemma ends_slow_scan guidIf nodes found : ends (vscp_scanSlowForDevices fuel guidIf nodes found None timeout).
Proof using MsClockLaws0. clear Ht.
  unfold vscp_scanSlowForDevices. apply ends_bind; [apply ends_call|intros rv].
  destruct (negb _); [apply ends_ret|]. apply ends_bind; [apply ends_send_reads|intros [rv' ex]].
  destruct (negb _); [apply ends_ret|]. intros w.
  destruct (msTimeStamp w) as [s w1] eqn:E1. rewrite (bind_call _ _ _ _ _ E1).
  destruct (msTimeStamp w1) as [cb w2] eqn:E2. rewrite (bind_call _ _ _ _ _ E2).
  assert (P := proj2 (polls_start w s w1 E1)). rewrite E2 in P. cbn [snd] in P.
  match goal with |- (slow_loop ?n ?f ?t ?s ?cb ?sd ?ex ?fd ≫= ?k) _ <> _ =>
    assert (N := ends_slow_loop s n cb sd ex fd w2 P) end.
  unfold mbind, M_bind. destruct (slow_loop _ _ _ _ _ _ _ _) as [[r w3]| | |]; [discriminate..|congruence].
Qed.
End ends.

(** ** Lemmas: a node that answers *)

Section answers.
Context {W : Type} `{VscpClient W} (guidNode guidInterface : list Z) (timeout : Z).
Context (N : RegisterNode W guidNode guidInterface timeout).
Context (Hnick : getNickname guidNode <> 0).

Lemma frame_page page i reg bytes e nickname :
  frame_ok page i reg bytes e -> bytes <> [] -> nickname <> 0 ->
  page_matches nickname page (set_lsb nickname e) = true.
Proof using Type.
  intros [_ S D] Hb Hn. unfold page_matches, dat. cbn [set_lsb xsizeData xdata].
  rewrite (proj2 (Z.eqb_neq _ _) Hn), S. destruct bytes as [|b bytes]; [congruence|].
  rewrite (proj2 (Z.leb_le _ _)) by (cbn [length]; lia).
  assert (L : forall k, (k < 4)%nat -> nth k (xdata e) 0 = nth k [i; page_hi page; page_lo page; reg] 0).
  { intros k Hk. rewrite <- (take_drop (4 + length (b :: bytes)) (xdata e)), D, !app_nth1; [reflexivity|..];
      rewrite ?length_app; cbn [length]; lia. }
  rewrite !L by lia. cbn [nth negb andb]. rewrite !Z.eqb_refl. reflexivity.
Qed.

Lemma frame_dat page i reg bytes e k :
  frame_ok page i reg bytes e -> (k < 4 + length bytes)%nat ->
  dat k e = nth k ([i; page_hi page; page_lo page; reg] ++ bytes) 0.
Proof using Type.
  intros [_ _ D] Hk. unfold dat. rewrite <- (take_drop (4 + length bytes) (xdata e)), D, app_nth1; [reflexivity|].
  rewrite length_app. cbn [length]. lia.
Qed.

Lemma frame_payload page i reg bytes e :
  frame_ok page i reg bytes e -> rdn (xdata e) 4 (Z.to_nat (xsizeData e - 4)) = Some bytes.
Proof using Type.
  intros [_ S D]. rewrite S. replace (Z.to_nat _) with (length bytes) by lia.
  assert (L : (4 + length bytes <= length (xdata e))%nat).
  { assert (E := f_equal length D). rewrite length_take, length_app in E. cbn [length] in E. lia. }
  rewrite rdn_defined by exact L. f_equal.
  rewrite <- (take_drop (4 + length bytes) (xdata e)), D, <- app_assoc.
  cbn [app drop]. rewrite drop_0. apply take_app_length.
Qed.

(** One round of a wait: the next event in the inbox is accepted or not. *)
Lemma response_round {A} (accept : vscpEventEx -> option A) n s ex e r a w :
  inbox w = e :: r -> is_response e = true -> accept (set_lsb (getNickname guidNode) e) = Some a ->
  exists w', response_loop (S n) accept (getNickname guidNode) timeout s ex w =
      Returns (VSCP_ERROR_SUCCESS, Accepted a, set_lsb (getNickname guidNode) e, w') /\
    regs w' = regs w /\ inbox w' = r /\ (soon s w -> soon s w').
Proof using Type.
  intros I R Ac. destruct (node_getcount w) as (cnt & w1 & E1 & R1 & I1 & Z1 & S1).
  cbn [response_loop]. rewrite (bind_call _ _ _ _ _ E1).
  rewrite (proj2 (Z.eqb_neq cnt 0)) by (intros Q; apply Z1 in Q; congruence). cbn [negb andb Z.eqb VSCP_ERROR_SUCCESS].
  destruct (node_receive ex e r w1 (eq_trans I1 I)) as (w2 & E2 & R2 & I2 & S2).
  rewrite (bind_call _ _ _ _ _ E2), R, Ac. cbn [negb Z.eqb VSCP_ERROR_SUCCESS].
  exists w2. split; [reflexivity|]. split; [congruence|]. split; [exact I2|auto].
Qed.

Lemma ask_ok (Q : vscpEventEx -> W -> Prop) ex w :
  (forall w1, inbox w1 = [] -> regs w1 = regs w -> exists w', send ex w1 = (VSCP_ERROR_SUCCESS, w') /\ Q ex w') ->
  exists w', ask ex w = Returns (VSCP_ERROR_SUCCESS, w') /\ Q ex w'.
Proof using Type.
  intros S. destruct (node_clear w) as (w1 & E1 & R1 & I1). destruct (S w1 I1 R1) as (w' & E2 & HQ).
  exists w'. split; [|exact HQ]. unfold ask. rewrite (bind_call _ _ _ _ _ E1). cbn. unfold call. rewrite E2. reflexivity.
Qed.

Lemma read_ok page offset value n w :
  is_u16 page -> (0 < n)%nat ->
  exists w', vscp_readLevel1Register n guidNode guidInterface page offset value timeout w =
      Returns (VSCP_ERROR_SUCCESS, regs w page offset, w') /\ regs w' = regs w.
Proof.
  intros Hp Hn. unfold vscp_readLevel1Register. set (nickname := getNickname guidNode) in *.
  rewrite (bind_returns _ _ _ (fresh w) w) by reflexivity. set (ex := request_event _ _ _ _).
  destruct (ask_ok (fun _ w' => regs w' = regs w /\ exists e, inbox w' = [e] /\
    frame_ok page 0 offset [regs w page offset] e) ex w) as (w1 & E1 & R1 & e & I1 & F).
  { intros w0 I0 R0. destruct (node_read ex page offset 1 w0 Hp I0) as (w' & ids & E & R & P & F); [eexists; reflexivity|].
    exists w'. split; [exact E|]. split; [congruence|]. apply Permutation_sym, Permutation_singleton_l in P. subst ids.
    apply Forall2_cons_inv_r in F as (e & es & Fe & Fs & I). apply Forall2_nil_inv_r in Fs. subst es.
    exists e. split; [exact I|]. rewrite Z.mul_0_r, Z.add_0_r in Fe. rewrite R0 in Fe.
    unfold frame_bytes, frame_length in Fe. cbn in Fe. rewrite Z.add_0_r in Fe. exact Fe. }
  rewrite (bind_returns _ _ _ _ _ E1). cbn [negb Z.eqb VSCP_ERROR_SUCCESS].
  destruct (msTimeStamp w1) as [s w2] eqn:E2. rewrite (bind_call _ _ _ _ _ E2).
  destruct (node_ms w1 s w2 E2) as (R2 & I2 & _).
  destruct n as [|n]; [lia|].
  destruct (response_round (read_accept nickname page offset) n s ex e [] (regs w page offset) w2) as (w3 & E3 & R3 & _).
  - congruence.
  - exact (frame_response _ _ _ _ _ F).
  - unfold read_accept. rewrite (frame_page _ _ _ _ _ _ F) by (discriminate || exact Hnick).
    unfold dat. cbn [set_lsb xdata]. fold (dat 0 e) (dat 3 e) (dat 4 e).
    rewrite !(frame_dat _ _ _ _ _ _ F) by (cbn; lia). cbn. rewrite Z.eqb_refl. reflexivity.
  - exists w3. fold nickname in E3. rewrite (bind_returns _ _ _ _ _ E3). split; [reflexivity|congruence].
Qed.

Lemma write_ok page offset value n w :
  is_u16 page -> (0 < n)%nat ->
  exists w', vscp_writeLevel1Register n guidNode guidInterface page offset value timeout w =
      Returns (VSCP_ERROR_SUCCESS, w') /\
    forall p k, regs w' p k = if (p =? page) && (k =? offset) then value else regs w p k.
Proof.
  intros Hp Hn. unfold vscp_writeLevel1Register. set (nickname := getNickname guidNode) in *.
  rewrite (bind_returns _ _ _ (fresh w) w) by reflexivity. set (ex := request_event _ _ _ _).
  destruct (ask_ok (fun _ w' => (forall p k, regs w' p k = if (p =? page) && (k =? offset) then value else regs w p k) /\
    exists e, inbox w' = [e] /\ frame_ok page 0 offset [value] e) ex w) as (w1 & E1 & R1 & e & I1 & F).
  { intros w0 I0 R0. destruct (node_write ex page offset [value] w0 Hp I0) as (w' & e & E & I & F & R); [cbn; lia|eexists; reflexivity|].
    exists w'. split; [exact E|]. split; [|eauto]. intros p k. rewrite R, R0. cbn [length].
    destruct (p =? page); [|reflexivity]. cbn [andb].
    destruct (Z.eqb_spec k offset) as [->|N1].
    - rewrite Z.leb_refl, (proj2 (Z.ltb_lt _ _)), Z.sub_diag by lia. reflexivity.
    - destruct (Z.leb_spec offset k), (Z.ltb_spec k (offset + Z.of_nat 1)); try reflexivity. lia. }
  rewrite (bind_returns _ _ _ _ _ E1). cbn [negb Z.eqb VSCP_ERROR_SUCCESS].
  destruct (msTimeStamp w1) as [s w2] eqn:E2. rewrite (bind_call _ _ _ _ _ E2).
  destruct (node_ms w1 s w2 E2) as (R2 & I2 & _). destruct n as [|n]; [lia|].
  destruct (response_round (write_accept nickname page offset value) n s ex e [] tt w2) as (w3 & E3 & R3 & _).
  - congruence.
  - exact (frame_response _ _ _ _ _ F).
  - unfold write_accept. rewrite (frame_page _ _ _ _ _ _ F) by (discriminate || exact Hnick).
    unfold dat. cbn [set_lsb xdata]. fold (dat 0 e) (dat 3 e) (dat 4 e).
    rewrite !(frame_dat _ _ _ _ _ _ F) by (cbn; lia). cbn. rewrite !Z.eqb_refl. reflexivity.
  - exists w3. fold nickname in E3. rewrite (bind_returns _ _ _ _ _ E3). split; [reflexivity|].
    intros p k. rewrite R3, R2. apply R1.
Qed.

(** *** Blocks *)

Lemma store_bytes_lookup reg bytes m k :
  0 <= reg -> reg + Z.of_nat (length bytes) <= 256 ->
  store_bytes reg bytes m !! k =
    if (reg <=? k) && (k <? reg + Z.of_nat (length bytes)) then Some (nth (Z.to_nat (k - reg)) bytes 0) else m !! k.
Proof using Type.
  intros H0. unfold store_bytes. induction bytes as [|b bytes IH] using rev_ind; intros Hl.
  { change (Z.of_nat (length [])) with 0. rewrite Z.add_0_r.
    destruct (Z.leb_spec reg k), (Z.ltb_spec k reg); first [lia|reflexivity]. }
  rewrite length_app in *. cbn [length] in *. rewrite imap_app, foldl_app. cbn [imap foldl].
  rewrite Nat.add_0_r, u8_id by width.
  destruct (Z.eqb_spec k (reg + Z.of_nat (length bytes))) as [->|Nk].
  - rewrite lookup_insert_eq, (proj2 (Z.leb_le _ _)), (proj2 (Z.ltb_lt _ _)) by lia. cbn [andb].
    rewrite app_nth2 by lia. replace (Z.to_nat _ - length bytes)%nat with 0%nat by lia. reflexivity.
  - rewrite lookup_insert_ne, IH by lia.
    destruct (Z.leb_spec reg k), (Z.ltb_spec k (reg + Z.of_nat (length bytes))), (Z.ltb_spec k (reg + Z.of_nat (length bytes + 1)));
      cbn [andb]; try lia; try reflexivity. rewrite app_nth1 by lia. reflexivity.
Qed.

Lemma nth_map_seqZ (f : Z -> Z) a n k : (k < Z.to_nat n)%nat -> nth k (map f (seqZ a n)) 0 = f (a + Z.of_nat k).
Proof using Type.
  intros Hk. rewrite nth_lookup. change (map f (seqZ a n)) with (f <$> seqZ a n).
  rewrite list_lookup_fmap, lookup_seqZ_lt by lia. reflexivity.
Qed.

Lemma length_frame_bytes rs offset count i : length (frame_bytes rs offset count i) = Z.to_nat (frame_length count i).
Proof using Type. unfold frame_bytes. rewrite length_map, length_seqZ. reflexivity. Qed.

(** The registers of the frames [ids]. *)
Definition covered (offset count : Z) (ids : list Z) (k : Z) : bool :=
  (0 <=? k - offset) && (k - offset <? count) && bool_decide ((k - offset) / 4 ∈ ids).

Lemma covered_cons offset count i ids k :
  covered offset count (i :: ids) k =
    (0 <=? k - offset) && (k - offset <? count) && ((k - offset) / 4 =? i) || covered offset count ids k.
Proof using Type.
  unfold covered. destruct ((0 <=? k - offset) && (k - offset <? count)); [|reflexivity]. cbn [andb].
  apply eq_bool_prop_intro. rewrite orb_True, !bool_decide_spec, Is_true_true, Z.eqb_eq. apply elem_of_cons.
Qed.

Definition frames (rs : Z -> Z) (page offset count : Z) (es : list vscpEventEx) (ids : list Z) : Prop :=
  Forall2 (fun e i => frame_ok page i (offset + 4 * i) (frame_bytes rs offset count i) e) es ids.

Lemma store_frame_ok rs page offset count i e b :
  0 <= offset -> offset + count <= 256 -> 0 <= i -> 4 * i < count ->
  frame_ok page i (offset + 4 * i) (frame_bytes rs offset count i) e ->
  exists vals, store_frame (set_lsb (getNickname guidNode) e) b =
      Some (Block vals (frameset b ∖ {[i]}) (u8 (rcvcnt b + frame_length count i))) /\
    forall k, vals !! k = if covered offset count [i] k then Some (rs k) else values b !! k.
Proof using Type.
  clear Hnick.
  intros H0 Hc Hi Hl F. unfold store_frame. cbn [set_lsb xdata xsizeData].
  rewrite (frame_payload _ _ _ _ _ F). cbn [mbind option_bind].
  assert (L := length_frame_bytes rs offset count i). assert (B : 0 < frame_length count i <= 4) by (unfold frame_length; lia).
  assert (D0 : dat 0 (set_lsb (getNickname guidNode) e) = i).
  { change (dat 0 e = i). rewrite (frame_dat _ _ _ _ _ _ F) by lia. reflexivity. }
  assert (D3 : dat 3 (set_lsb (getNickname guidNode) e) = offset + 4 * i).
  { change (dat 3 e = offset + 4 * i). rewrite (frame_dat _ _ _ _ _ _ F) by lia. reflexivity. }
  rewrite D0, D3, L, Z2Nat.id by lia. eexists. split; [reflexivity|].
  intros k. rewrite store_bytes_lookup by (unfold frame_length in *; lia). rewrite L.
  rewrite covered_cons. unfold covered at 1. rewrite bool_decide_false, andb_false_r, orb_false_r by apply not_elem_of_nil.
  unfold frame_length in *. assert (Q := Z.div_mod (k - offset) 4 ltac:(lia)). assert (Q' := Z.mod_pos_bound (k - offset) 4 ltac:(lia)).
  destruct (Z.leb_spec (offset + 4 * i) k), (Z.ltb_spec k (offset + 4 * i + Z.of_nat (Z.to_nat (Z.min 4 (count - 4 * i)))));
    destruct (Z.leb_spec 0 (k - offset)), (Z.ltb_spec (k - offset) count), (Z.eqb_spec ((k - offset) / 4) i); cbn [andb]; try lia; try reflexivity.
  unfold frame_bytes. rewrite nth_map_seqZ by (unfold frame_length; lia). do 2 f_equal. lia.
Qed.

Definition frames_length (count : Z) (ids : list Z) : Z := foldr (fun i n => frame_length count i + n) 0 ids.

Lemma frames_length_nonneg count ids :
  (forall i, i ∈ ids -> 0 <= i /\ 4 * i < count) -> 0 <= frames_length count ids.
Proof using Type.
  clear Hnick. induction ids as [|j ids IH]; intros Hi; [reflexivity|].
  destruct (Hi j (list_elem_of_here _ _)) as [H0 H1]. specialize (IH (fun i I => Hi i (list_elem_of_further _ _ _ I))).
  cbn [frames_length foldr]. fold (frames_length count ids). unfold frame_length. lia.
Qed.

Lemma block_loop_ok rs page offset count :
  0 <= offset -> offset + count <= 256 -> count <= 255 ->
  forall ids es n cb ex b w s,
  frames rs page offset count es ids -> NoDup ids -> ids <> [] -> (forall i, i ∈ ids -> 0 <= i /\ 4 * i < count) ->
  frameset b = list_to_set ids -> 0 <= rcvcnt b -> rcvcnt b + frames_length count ids = count ->
  inbox w = es -> soon s w -> (length es <= n)%nat ->
  exists vals w', block_loop n None (getNickname guidNode) page count timeout s cb ex b w =
      Returns (VSCP_ERROR_SUCCESS, vals, w') /\ regs w' = regs w /\
    forall k, vals !! k = if covered offset count ids k then Some (rs k) else values b !! k.
Proof.
  intros H0 Hc Hc'. induction ids as [|i ids IH]; intros es n cb ex b w s F D Ne Hi Fs R0 Rc I Sn Hn; [congruence|].
  apply Forall2_cons_inv_r in F as (e & es' & Fe & F & ->). cbn [length] in Hn. destruct n as [|n]; [lia|].
  apply list.NoDup_cons in D as [Di D]. destruct (Hi i (list_elem_of_here _ _)) as [Hi0 Hi1].
  assert (Fl : 0 <= frames_length count ids).
  { apply frames_length_nonneg. intros j Hj. apply Hi, list_elem_of_further, Hj. }
  cbn [frames_length foldr] in Rc. fold (frames_length count ids) in Rc.
  assert (Bi : 0 < frame_length count i <= 4) by (unfold frame_length; lia).
  destruct (node_getcount w) as (cnt & w1 & E1 & R1 & I1 & Z1 & S1).
  cbn [block_loop]. rewrite (bind_call _ _ _ _ _ E1).
  rewrite (proj2 (Z.eqb_neq cnt 0)) by (intros Q; apply Z1 in Q; congruence). cbn [negb andb Z.eqb VSCP_ERROR_SUCCESS].
  destruct (node_receive ex e es' w1 (eq_trans I1 I)) as (w2 & E2 & R2 & I2 & S2).
  rewrite (bind_call _ _ _ _ _ E2), (frame_response _ _ _ _ _ Fe). cbn [negb Z.eqb VSCP_ERROR_SUCCESS].
  rewrite (frame_page _ _ _ _ _ _ Fe); [|intros Q%(f_equal length); rewrite length_frame_bytes in Q; cbn in Q; lia|exact Hnick].
  destruct (store_frame_ok rs page offset count i e b H0 Hc Hi0 Hi1 Fe) as (vals & Eb & V).
  rewrite (bind_defined _ _ _ _ Eb). cbn [rcvcnt frameset values]. rewrite u8_id by width.
  destruct ids as [|j ids].
  - cbn [frames_length foldr] in Rc. rewrite (proj2 (Z.eqb_eq _ _)) by lia.
    rewrite bool_decide_true by (rewrite Fs; cbn; set_solver). cbn [andb]. exists vals, w2.
    split; [reflexivity|]. split; [congruence|exact V].
  - assert (Ne' : frameset b ∖ {[i]} <> ∅).
    { rewrite Fs. intros Q. assert (J : j ∈ (list_to_set (i :: j :: ids) ∖ {[i]} : gset Z)); [|rewrite Q in J; set_solver].
      cbn. set_solver. }
    rewrite bool_decide_false, andb_false_r by exact Ne'.
    set (ex' := set_lsb _ e). set (b' := Block _ _ _).
    assert (C : exists w3, expired timeout s w2 = Returns (false, w3) /\ regs w3 = regs w2 /\ inbox w3 = inbox w2 /\ soon s w3).
    { unfold expired. destruct (timeout =? 0); [exists w2; repeat split; apply S2, S1, Sn|]. destruct (msTimeStamp w2) as [t w3] eqn:E3.
      destruct (node_ms w2 t w3 E3) as (R3 & I3 & _ & S3). destruct (S3 s (S2 s (S1 s Sn))) as [T3 S3'].
      exists w3. rewrite (bind_call _ _ _ _ _ E3), (proj2 (Z.ltb_ge _ _) T3). auto. }
    destruct C as (w3 & E3 & R3 & I3 & S3). rewrite (bind_returns _ _ _ _ _ E3). cbn [report].
    destruct (IH es' n cb ex' b' w3 s F D) as (vals' & w' & E' & R' & V').
    + discriminate.
    + intros k Hk. apply Hi. set_solver.
    + unfold b'. cbn [frameset]. rewrite Fs. cbn. set_solver.
    + unfold b'. cbn [rcvcnt]. lia.
    + unfold b'. cbn [rcvcnt]. lia.
    + congruence.
    + exact S3.
    + lia.
    + exists vals', w'. split; [exact E'|]. split; [congruence|]. intros k. rewrite V', (covered_cons offset count i (j :: ids)). unfold b'. cbn [values].
      rewrite V, (covered_cons offset count i []). unfold covered at 2. rewrite bool_decide_false, andb_false_r, orb_false_r by set_solver.
      destruct (covered offset count (j :: ids) k); [rewrite orb_true_r; reflexivity|]. rewrite orb_false_r. reflexivity.
Qed.

Lemma frames_length_app count l r : frames_length count (l ++ r) = frames_length count l + frames_length count r.
Proof using Type.
  clear Hnick. induction l as [|i l IH]; [reflexivity|]. cbn [app frames_length foldr].
  fold (frames_length count (l ++ r)) (frames_length count l). lia.
Qed.

Lemma frames_length_perm count l r : l ≡ₚ r -> frames_length count l = frames_length count r.
Proof using Type.
  clear Hnick. induction 1; cbn [frames_length foldr]; try reflexivity; try congruence; try lia.
  all: fold (frames_length count l) (frames_length count l'); lia.
Qed.

Lemma frames_length_seq count n : 4 * Z.of_nat n <= count -> frames_length count (seqZ 0 (Z.of_nat n)) = 4 * Z.of_nat n.
Proof using Type.
  clear Hnick. induction n as [|n IH]; intros Hn; [reflexivity|].
  rewrite seqZ_S, frames_length_app, IH by lia. cbn [frames_length foldr]. unfold frame_length. lia.
Qed.

Lemma frame_indices_spec count :
  0 < count -> NoDup (frame_indices count) /\ (forall i, i ∈ frame_indices count <-> 0 <= i /\ 4 * i < count) /\
    frames_length count (frame_indices count) = count.
Proof using Type.
  clear Hnick. intros Hc. unfold frame_indices. assert (Q := Z.div_mod count 4 ltac:(lia)).
  assert (B := Z.mod_pos_bound count 4 ltac:(lia)). assert (D : 0 <= count / 4) by lia.
  assert (L := frames_length_seq count (Z.to_nat (count / 4)) ltac:(lia)). rewrite Z2Nat.id in L by exact D.
  destruct (Z.eqb_spec (count mod 4) 0) as [E|E].
  - rewrite app_nil_r. split; [apply NoDup_seqZ|]. split; [|lia]. intros i. rewrite elem_of_seqZ. lia.
  - split; [|split].
    + apply list.NoDup_app. split; [apply NoDup_seqZ|]. split; [|apply NoDup_singleton].
      intros i Hi%elem_of_seqZ ->%list_elem_of_singleton. lia.
    + intros i. rewrite elem_of_app, elem_of_seqZ, list_elem_of_singleton. lia.
    + rewrite frames_length_app, L. cbn. unfold frame_length. lia.
Qed.

Lemma length_frame_indices count : 0 <= count <= 255 -> (length (frame_indices count) <= 64)%nat.
Proof using Type.
  clear Hnick. intros Hc. unfold frame_indices. rewrite length_app, length_seqZ.
  assert (D : count / 4 < 64) by (apply Z.div_lt_upper_bound; lia).
  destruct (_ =? _); cbn [length]; lia.
Qed.

Lemma read_block_ok page offset count vals n w :
  is_u16 page -> (64 <= n)%nat -> 0 <= offset -> 0 < count <= 255 -> offset + count <= 256 ->
  exists vals' w', vscp_readLevel1RegisterBlock n guidNode guidInterface page offset count vals None timeout w =
      Returns (VSCP_ERROR_SUCCESS, vals', w') /\ regs w' = regs w /\
    forall k, vals' !! k = if (offset <=? k) && (k <? offset + count) then Some (regs w page k) else vals !! k.
Proof.
  intros Hp Hn H0 Hc Ho. unfold vscp_readLevel1RegisterBlock. set (nickname := getNickname guidNode) in *.
  rewrite (bind_returns _ _ _ (fresh w) w) by reflexivity. set (ex := request_event _ _ _ _).
  destruct (ask_ok (fun _ w' => regs w' = regs w /\ exists ids, ids ≡ₚ frame_indices count /\
    frames (regs w page) page offset count (inbox w') ids) ex w) as (w1 & E1 & R1 & ids & P & F).
  { intros w0 I0 R0. destruct (node_read ex page offset count w0 Hp I0) as (w' & ids & E & R & P & F); [eexists; reflexivity|].
    exists w'. split; [exact E|]. split; [congruence|]. exists ids. rewrite R0 in F. auto. }
  rewrite (bind_returns _ _ _ _ _ E1). cbn [negb Z.eqb VSCP_ERROR_SUCCESS].
  destruct (frame_indices_spec count ltac:(lia)) as (D & Ids & L).
  assert (Lids : length (inbox w1) = length ids) by exact (list.Forall2_length _ _ _ F).
  assert (Pl := Permutation_length P). assert (Lb := length_frame_indices count ltac:(lia)).
  assert (Ne : ids <> []).
  { intros ->. apply Permutation_nil_l in P. assert (I : 0 ∈ frame_indices count) by (apply Ids; lia). rewrite <- P in I. set_solver. }
  destruct (msTimeStamp w1) as [s w2] eqn:E2. rewrite (bind_call _ _ _ _ _ E2).
  destruct (node_ms w1 s w2 E2) as (R2 & I2 & S2 & _).
  destruct (msTimeStamp w2) as [cb w3] eqn:E3. rewrite (bind_call _ _ _ _ _ E3).
  destruct (node_ms w2 cb w3 E3) as (R3 & I3 & _ & S3).
  assert (Sn : soon s w3) by (apply S3, S2; intros Q; rewrite Q in Lids; destruct ids; [congruence|discriminate]).
  destruct (block_loop_ok (regs w page) page offset count H0 Ho ltac:(lia) ids (inbox w1) n cb ex
              (Block vals (list_to_set (frame_indices count)) 0) w3 s F) as (vals' & w' & E & R & V).
  - rewrite P. exact D.
  - exact Ne.
  - intros i Hi. apply Ids. rewrite <- P. exact Hi.
  - cbn [frameset]. apply set_eq. intros i. rewrite !elem_of_list_to_set. rewrite P. reflexivity.
  - cbn. lia.
  - cbn [rcvcnt]. rewrite (frames_length_perm count ids _ P). lia.
  - congruence.
  - exact Sn.
  - lia.
  - exists vals', w'. split; [exact E|]. split; [congruence|]. intros k. rewrite V. cbn [values].
    unfold covered. assert (Q := Z.div_mod (k - offset) 4 ltac:(lia)). assert (Q' := Z.mod_pos_bound (k - offset) 4 ltac:(lia)).
    destruct (Z.leb_spec offset k), (Z.ltb_spec k (offset + count)), (Z.leb_spec 0 (k - offset)), (Z.ltb_spec (k - offset) count);
      cbn [andb]; try lia; try reflexivity.
    rewrite bool_decide_true; [reflexivity|]. rewrite P, Ids. lia.
Qed.
End answers.

(** ** Lemmas: the runs of a block *)

Lemma elem_of_keys m k : k ∈ keys m <-> 0 <= k < 256 /\ is_Some (m !! k).
Proof. unfold keys. rewrite list_elem_of_filter, elem_of_seqZ. split; intros [? ?]; split; auto; lia. Qed.

Lemma filter_ext_in (P Q : Z -> Prop) `{forall x, Decision (P x)} `{forall x, Decision (Q x)} (xs : list Z) :
  (forall x, x ∈ xs -> (P x <-> Q x)) -> filter P xs = filter Q xs.
Proof.
  induction xs as [|x xs IH]; intros E; [reflexivity|]. rewrite !list.filter_cons, IH by (intros y Hy; apply E, list_elem_of_further, Hy).
  destruct (decide (P x)) as [p|p], (decide (Q x)) as [q|q]; try reflexivity; apply (E x (list_elem_of_here _ _)) in p || apply (E x (list_elem_of_here _ _)) in q; contradiction.
Qed.

Lemma filter_no_key (P : Z -> Prop) `{forall x, Decision (P x)} (xs : list Z) :
  (forall x, x ∈ xs -> ~ P x) -> filter P xs = [].
Proof.
  induction xs as [|x xs IH]; intros E; [reflexivity|].
  rewrite list.filter_cons_False by apply E, list_elem_of_here. apply IH. intros y Hy. apply E, list_elem_of_further, Hy.
Qed.

Lemma sorted_seqZ a n : StronglySorted Z.lt (seqZ a (Z.of_nat n)).
Proof.
  revert a. induction n as [|n IH]; intros a; [constructor|].
  rewrite seqZ_cons by lia. replace (Z.pred (Z.of_nat (S n))) with (Z.of_nat n) by lia. constructor; [apply IH|].
  apply list.Forall_forall. intros i Hi%elem_of_seqZ. lia.
Qed.

Lemma sorted_filter (P : Z -> Prop) `{forall x, Decision (P x)} (xs : list Z) :
  StronglySorted Z.lt xs -> StronglySorted Z.lt (filter P xs).
Proof.
  induction 1 as [|x xs S IH F]; [constructor|]. rewrite list.filter_cons. destruct (decide (P x)); [|exact IH].
  constructor; [exact IH|]. rewrite list.Forall_forall in *. intros y [_ Hy]%list_elem_of_filter. apply F, Hy.
Qed.

Lemma keys_sorted m : StronglySorted Z.lt (keys m).
Proof. apply sorted_filter, (sorted_seqZ 0 256). Qed.

Lemma keys_empty : keys ∅ = [].
Proof. apply filter_no_key. intros i _ [v E]. rewrite lookup_empty in E. discriminate. Qed.

Lemma keys_same m k v : is_Some (m !! k) -> keys (<[k := v]> m) = keys m.
Proof.
  intros Hk. unfold keys. apply filter_ext_in. intros i _. rewrite lookup_insert_is_Some.
  destruct (decide (k = i)) as [->|]; tauto.
Qed.

Lemma keys_last m k v : (forall j, j ∈ keys m -> j < k) -> 0 <= k < 256 -> keys (<[k := v]> m) = keys m ++ [k].
Proof.
  intros Hj Hk. unfold keys.
  assert (S : seqZ 0 256 = seqZ 0 k ++ k :: seqZ (k + 1) (255 - k)).
  { replace 256 with (k + (1 + (255 - k))) by lia. rewrite seqZ_app by lia. f_equal.
    rewrite Z.add_0_l, seqZ_cons by lia. f_equal. f_equal; lia. }
  assert (A : forall j, k <= j < 256 -> m !! j = None).
  { intros j Jk. destruct (m !! j) eqn:E; [|reflexivity]. assert (j < k) by (apply Hj, elem_of_keys; split; [lia|eauto]). lia. }
  rewrite S, !list.filter_app. rewrite list.filter_cons_True by (rewrite lookup_insert_eq; eauto).
  rewrite list.filter_cons_False by (rewrite A by lia; intros [? ?]; discriminate).
  rewrite (filter_no_key (fun j => is_Some (<[k := v]> m !! j)) (seqZ (k + 1) _))
    by (intros j Jk%elem_of_seqZ; rewrite lookup_insert_ne, A by lia; intros [? ?]; discriminate).
  rewrite (filter_no_key (fun j => is_Some (m !! j)) (seqZ (k + 1) _))
    by (intros j Jk%elem_of_seqZ; rewrite A by lia; intros [? ?]; discriminate).
  rewrite app_nil_r. f_equal. apply filter_ext_in. intros j Jk%elem_of_seqZ. rewrite lookup_insert_ne by lia. reflexivity.
Qed.

(** The runs of [sm] in order. *)
Definition run (sm : registers) (s : Z) : list Z := seqZ s (default 0 (sm !! s)).

Definition runs_ok (ks : list Z) (st : Z * Z * registers) : Prop :=
  let '(reg, count, sm) := st in
  exists front, keys sm = front ++ [reg] /\ sm !! reg = Some count /\ 0 < count <= Z.of_nat (length ks) /\
    concat (map (run sm) (keys sm)) = ks /\ (forall k, k ∈ ks -> 0 <= k < reg + count) /\
    forall s, s ∈ front -> exists c, sm !! s = Some c /\ 0 < c <= Z.of_nat (length ks) /\ s + c < reg /\ (s + c ∉ ks).

Lemma run_frame sm k v s : s <> k -> run (<[k := v]> sm) s = run sm s.
Proof. intros Hs. unfold run. rewrite lookup_insert_ne by congruence. reflexivity. Qed.

Lemma start_step_ok ks st k :
  runs_ok ks st -> (forall i, i ∈ ks -> i < k) -> 0 <= k < 256 -> (length ks < 255)%nat ->
  runs_ok (ks ++ [k]) (start_step st k).
Proof.
  destruct st as [[reg count] sm]. intros (front & K & E & C & R & B & F) Hk Hk' L.
  assert (Kr : reg ∈ keys sm) by (rewrite K; set_solver). assert (Kr' := Kr). apply elem_of_keys in Kr' as [Br _].
  assert (Nr : forall s, s ∈ front -> s <> reg).
  { intros s Hs ->. destruct (F reg Hs) as (c & _ & ? & ? & _). lia. }
  assert (Rf : map (run sm) (keys sm) = map (run sm) front ++ [seqZ reg count]).
  { rewrite K, map_app. cbn [map]. unfold run at 2. rewrite E. reflexivity. }
  assert (Rk : reg + count - 1 < k).
  { apply Hk. rewrite <- R, Rf, concat_app. apply elem_of_app. right. cbn. rewrite app_nil_r, elem_of_seqZ. lia. }
  unfold start_step. rewrite E. cbn [from_option id]. destruct (Z.eqb_spec k (reg + count)) as [->|Nk]; cbn [negb].
  - rewrite (u8_id (count + 1)) by (unfold is_u8; lia). exists front. rewrite keys_same by eauto. rewrite lookup_insert_eq, length_app. cbn [length].
    split; [exact K|]. split; [reflexivity|]. split; [lia|]. split; [|split].
    + rewrite K, map_app, concat_app. cbn [map concat]. unfold run at 2. rewrite lookup_insert_eq. cbn [from_option id].
      rewrite (map_ext_in _ (run sm)) by (intros s Hs%list_elem_of_In; apply run_frame, Nr, Hs).
      rewrite <- R, Rf, concat_app. cbn [concat]. rewrite !app_nil_r, <- app_assoc. f_equal.
      rewrite seqZ_app by lia. reflexivity.
    + intros i [Hi| ->%list_elem_of_singleton]%elem_of_app; [specialize (B i Hi)|]; lia.
    + intros s Hs. destruct (F s Hs) as (c & Ec & Hc & Hs' & Ns). exists c. rewrite lookup_insert_ne by (apply not_eq_sym, Nr, Hs).
      split; [exact Ec|]. split; [lia|]. split; [lia|]. rewrite elem_of_app, list_elem_of_singleton. intros [?|?]; [contradiction|lia].
  - assert (Kl : forall j, j ∈ keys sm -> j < k).
    { intros j. rewrite K, elem_of_app, list_elem_of_singleton. intros [Hj| ->]; [|lia]. destruct (F j Hj) as (c & _ & ? & ? & _). lia. }
    exists (keys sm). rewrite keys_last by assumption. rewrite lookup_insert_eq, length_app. cbn [length].
    assert (Ns : forall s, s ∈ keys sm -> s <> k) by (intros s Hs ->; specialize (Kl k Hs); lia).
    split; [reflexivity|]. split; [reflexivity|]. split; [lia|]. split; [|split].
    + rewrite map_app, concat_app. cbn [map concat]. unfold run at 2. rewrite lookup_insert_eq. cbn [from_option id].
      rewrite (map_ext_in _ (run sm)) by (intros s Hs%list_elem_of_In; apply run_frame, Ns, Hs). rewrite R. f_equal.
    + intros i [Hi| ->%list_elem_of_singleton]%elem_of_app; [specialize (Hk i Hi); specialize (B i Hi)|]; lia.
    + intros s Hs. rewrite lookup_insert_ne by (apply not_eq_sym, Ns, Hs). rewrite K in Hs.
      apply elem_of_app in Hs as [Hs| ->%list_elem_of_singleton].
      * destruct (F s Hs) as (c & Ec & Hc & Hs' & Nc). exists c. split; [exact Ec|]. split; [lia|]. split; [lia|].
        rewrite elem_of_app, list_elem_of_singleton. intros [?|?]; [contradiction|lia].
      * exists count. split; [exact E|]. split; [lia|]. split; [lia|].
        rewrite elem_of_app, list_elem_of_singleton. intros [Hi|?]; [specialize (B _ Hi)|]; lia.
Qed.

Lemma startmap_runs m :
  (length (keys m) <= 255)%nat ->
  concat (map (run (startmap m)) (keys (startmap m))) = keys m /\
  forall s, s ∈ keys (startmap m) -> exists c, startmap m !! s = Some c /\ 0 < c <= 255 /\ s + c <= 256 /\ (s + c ∉ keys m).
Proof.
  intros L. unfold startmap. assert (S := keys_sorted m).
  assert (I : forall ks rest, keys m = ks ++ rest -> ks <> [] -> runs_ok ks (foldl start_step (-99, 0, ∅) ks)).
  { intros ks. induction ks as [|k ks IH] using rev_ind; intros rest E N; [congruence|]. rewrite foldl_app. cbn [foldl].
    rewrite <- app_assoc in E. cbn [app] in E. assert (Hk : k ∈ keys m) by (rewrite E; set_solver).
    apply elem_of_keys in Hk as [Hk _]. destruct ks as [|k' ks'].
    - cbn. rewrite (proj2 (Z.eqb_neq k (-99 + 0))) by lia. cbn [negb]. exists [].
      assert (E0 : keys (<[k:=1]> (∅ : registers)) = [k]) by (rewrite keys_last, keys_empty; [reflexivity|rewrite keys_empty; intros j []%not_elem_of_nil|lia]).
      rewrite E0, lookup_insert_eq. split; [reflexivity|]. split; [reflexivity|]. split; [cbn; lia|]. split; [|split].
      + cbn. unfold run. rewrite lookup_insert_eq. reflexivity.
      + intros i ->%list_elem_of_singleton. lia.
      + intros s Hs. apply not_elem_of_nil in Hs. contradiction.
    - assert (L' := f_equal length E). rewrite length_app in L'. cbn [length] in L'.
      apply start_step_ok; [apply (IH (k :: rest) E); discriminate| |exact Hk|cbn [length]; lia].
      intros i Hi. rewrite E in S. apply (StronglySorted_app_1_elem_of Z.lt _ _ i k S Hi), list_elem_of_here. }
  destruct (keys m) as [|k ks] eqn:E.
  { cbn [foldl snd]. rewrite keys_empty. split; [reflexivity|]. intros s []%not_elem_of_nil. }
  specialize (I (k :: ks) [] (eq_sym (app_nil_r _)) ltac:(discriminate)). destruct (foldl _ _ _) as [[reg count] sm].
  destruct I as (front & K & Er & C & R & B & F). cbn [snd]. split; [exact R|]. rewrite <- E in *.
  assert (Bm : forall s c, s ∈ keys sm -> sm !! s = Some c -> 0 < c -> s + c <= 256).
  { intros s c Hs Ec Hc. assert (J : s + c - 1 ∈ keys m); [|apply elem_of_keys in J; lia].
    rewrite <- R. apply list_elem_of_In, in_concat. exists (run sm s). split; [apply in_map, list_elem_of_In, Hs|].
    apply list_elem_of_In. unfold run. rewrite Ec. apply elem_of_seqZ. cbn. lia. }
  intros s Hs. assert (Hs' := Hs). rewrite K in Hs'. apply elem_of_app in Hs' as [Hs'| ->%list_elem_of_singleton].
  - destruct (F s Hs') as (c & Ec & Hc & _ & Nc). exists c. split; [exact Ec|]. split; [lia|]. split; [|exact Nc]. apply Bm; [exact Hs|exact Ec|lia].
  - exists count. split; [exact Er|]. split; [lia|]. split; [apply Bm; [exact Hs|exact Er|lia]|]. intros J. specialize (B _ J). lia.
Qed.

(** ** Lemmas: writing a block to a node that answers *)

Lemma fill_data_ok n k (m : registers) :
  0 <= k -> k + Z.of_nat n <= 256 -> (forall j, k <= j < k + Z.of_nat n -> is_Some (m !! j)) ->
  fill_data n k m = (map (fun j => default 0 (m !! j)) (seqZ k (Z.of_nat n)), m).
Proof.
  revert k. induction n as [|n IH]; intros k H0 Hk Hm; [reflexivity|]. cbn [fill_data]. unfold index.
  rewrite u8_id by width. destruct (Hm k ltac:(lia)) as [v E]. rewrite E. cbn [from_option id]. rewrite insert_id by exact E.
  rewrite IH by (try lia; intros j Hj; apply Hm; lia).
  rewrite (seqZ_cons k) by lia. cbn [map]. rewrite E. cbn [from_option id].
  replace (Z.pred (Z.of_nat (S n))) with (Z.of_nat n) by lia. reflexivity.
Qed.

Lemma erase_confirmed_ok n k (m : registers) :
  0 <= k -> k + Z.of_nat n <= 256 -> (forall j, k <= j < k + Z.of_nat n -> is_Some (m !! j)) ->
  forall j, erase_confirmed k (map (fun j => default 0 (m !! j)) (seqZ k (Z.of_nat n))) m !! j =
    if bool_decide (j ∈ seqZ k (Z.of_nat n)) then None else m !! j.
Proof.
  revert k m. induction n as [|n IH]; intros k m H0 Hk Hm j; [reflexivity|].
  rewrite (seqZ_cons k) by lia. replace (Z.pred (Z.of_nat (S n))) with (Z.of_nat n) by lia.
  replace (Z.succ k) with (k + 1) by lia. cbn [map erase_confirmed]. unfold index.
  rewrite u8_id by width. destruct (Hm k ltac:(lia)) as [v E]. rewrite E. cbn [from_option id]. rewrite insert_id by exact E.
  rewrite Z.eqb_refl.
  rewrite (map_ext_in _ (fun i => default 0 (delete k m !! i)))
    by (intros i Hi%list_elem_of_In%elem_of_seqZ; rewrite lookup_delete_ne by lia; reflexivity).
  rewrite IH by (try lia; intros i Hi; rewrite lookup_delete_ne by lia; apply Hm; lia).
  destruct (decide (j = k)) as [->|N].
  - rewrite lookup_delete_eq, (bool_decide_true (k ∈ k :: _)) by apply list_elem_of_here. destruct (bool_decide _); reflexivity.
  - rewrite lookup_delete_ne by congruence. rewrite (bool_decide_ext (j ∈ k :: seqZ (k + 1) (Z.of_nat n)) (j ∈ seqZ (k + 1) (Z.of_nat n)));
      [reflexivity|]. rewrite elem_of_cons. tauto.
Qed.

Section write_ok.
Context {W : Type} `{VscpClient W} (guidNode guidInterface : list Z) (timeout : Z).
Context (N : RegisterNode W guidNode guidInterface timeout).
Context (Hnick : getNickname guidNode <> 0).
Context (fuel : nat) (Hfuel : (0 < fuel)%nat) (page : Z) (Hpage : is_u16 page) (m : registers).
Context (Hm : forall k, is_Some (m !! k) -> 0 <= k < 256).

(** What is left to write, and what the node has, when the registers [done] are written. *)
Definition left_of (done : list Z) (rs : registers) : Prop :=
  forall k, rs !! k = if bool_decide (k ∈ done) then None else m !! k.
Definition written (w0 : W) (done : list Z) (w : W) : Prop :=
  forall p k, regs w p k = if (p =? page) && bool_decide (k ∈ done) then default 0 (m !! k) else regs w0 p k.

Lemma NoDup_keys : NoDup (keys m).
Proof using Type. clear. unfold keys. apply list.NoDup_filter, NoDup_seqZ. Qed.

Lemma left_empty done rest rs : keys m = done ++ rest -> left_of done rs -> (rs = ∅ <-> rest = []).
Proof using Hm.
  intros K L. split.
  - intros ->. destruct rest as [|k rest]; [reflexivity|exfalso]. assert (Hk : k ∈ keys m) by (rewrite K, elem_of_app; right; apply list_elem_of_here).
    specialize (L k). assert (D := NoDup_keys). rewrite K in D. apply list.NoDup_app in D as (_ & D & _).
    rewrite bool_decide_false in L by (intros I; apply (D k I), list_elem_of_here).
    apply elem_of_keys in Hk as [_ [v E]]. rewrite E, lookup_empty in L. discriminate.
  - intros ->. rewrite app_nil_r in K. subst done. apply map_eq. intros k. rewrite L, lookup_empty.
    destruct (bool_decide _) eqn:E; [reflexivity|]. apply bool_decide_eq_false in E.
    destruct (m !! k) eqn:Ek; [|reflexivity]. exfalso. apply E, elem_of_keys. eauto.
Qed.

Lemma write_frame_ok first size i c ex rs done rest w0 w :
  c = Z.to_nat (bytes2write size i) -> (0 < c <= 4)%nat -> 0 <= first + i * 4 ->
  keys m = done ++ seqZ (first + i * 4) (Z.of_nat c) ++ rest -> left_of done rs -> written w0 done w ->
  let done' := done ++ seqZ (first + i * 4) (Z.of_nat c) in
  exists w' rs' ex', write_frame fuel (getNickname guidNode) page timeout guidInterface first size i ex rs w =
      Returns (match rest with [] => Return VSCP_ERROR_SUCCESS rs' | _ => Next VSCP_ERROR_SUCCESS ex' rs' end, w') /\
    left_of done' rs' /\ written w0 done' w'.
Proof.
  intros -> Hc H0 K L Wr. set (n := Z.to_nat (bytes2write size i)) in *. set (k := first + i * 4) in *. intros done'.
  assert (Ik : forall j, k <= j < k + Z.of_nat n -> j ∈ keys m) by (intros j Hj; rewrite K, !elem_of_app, elem_of_seqZ; auto).
  assert (Hk : k + Z.of_nat n <= 256) by (assert (I := Ik (k + Z.of_nat n - 1) ltac:(lia)); apply elem_of_keys in I; lia).
  assert (D := NoDup_keys). rewrite K in D. apply list.NoDup_app in D as (_ & D & _).
  assert (Nd : forall j, k <= j < k + Z.of_nat n -> j ∉ done).
  { intros j Hj I. apply (D j I). rewrite elem_of_app, elem_of_seqZ. auto. }
  assert (Rs : forall j, k <= j < k + Z.of_nat n -> rs !! j = m !! j).
  { intros j Hj. rewrite L, bool_decide_false by apply Nd, Hj. reflexivity. }
  assert (Pr : forall j, k <= j < k + Z.of_nat n -> is_Some (rs !! j)).
  { intros j Hj. rewrite Rs by exact Hj. apply elem_of_keys, Ik, Hj. }
  unfold write_frame. fold k n. rewrite (fill_data_ok n k rs H0 Hk Pr).
  set (bytes := map _ (seqZ k (Z.of_nat n))). assert (Lb : length bytes = n) by (unfold bytes; rewrite length_map, length_seqZ; lia).
  rewrite (u8_id k) by (unfold is_u8; lia). set (req := request_event _ _ _ ex).
  destruct (ask_ok guidNode guidInterface timeout N (fun _ w' => written w0 done' w' /\
    exists e, inbox w' = [e] /\ frame_ok page 0 k bytes e) req w) as (w1 & E1 & W1 & e & I1 & F).
  { intros w' I' R'. destruct (node_write req page k bytes w' Hpage I') as (w'' & e & E & I & F & R); [lia|eexists; reflexivity|].
    exists w''. split; [exact E|]. split; [|eauto]. intros p j. rewrite R, R', Wr, Lb. unfold done'.
    destruct (p =? page); cbn [andb]; [|reflexivity].
    destruct (Z.leb_spec k j), (Z.ltb_spec j (k + Z.of_nat n)); cbn [andb];
      try (rewrite (bool_decide_ext (j ∈ done ++ _) (j ∈ done)) by (rewrite elem_of_app, elem_of_seqZ; split; [intros [?|?]; [assumption|lia]|auto]); reflexivity).
    rewrite bool_decide_true by (rewrite elem_of_app, elem_of_seqZ; auto).
    unfold bytes. rewrite (nth_map_seqZ (fun j => default 0 (rs !! j))) by lia. rewrite Rs by lia. do 2 f_equal. lia. }
  rewrite (bind_returns _ _ _ _ _ E1). cbn [negb Z.eqb VSCP_ERROR_SUCCESS].
  destruct (msTimeStamp w1) as [s w2] eqn:E2. rewrite (bind_call _ _ _ _ _ E2).
  destruct (node_ms w1 s w2 E2) as (R2 & I2 & _). destruct fuel as [|n']; [lia|].
  destruct (response_round guidNode guidInterface timeout N (confirm (getNickname guidNode) page rs) n' s req e []
              (Some (erase_confirmed k bytes rs)) w2) as (w3 & E3 & R3 & _).
  - congruence.
  - exact (frame_response _ _ _ _ _ F).
  - unfold confirm. rewrite (frame_page _ _ _ _ _ _ F) by (exact Hnick || (intros Q; rewrite Q in Lb; cbn in Lb; lia)).
    change (dat 0 (set_lsb _ e)) with (dat 0 e). change (dat 3 (set_lsb _ e)) with (dat 3 e).
    rewrite !(frame_dat _ _ _ _ _ _ F) by lia. cbn [set_lsb xdata xsizeData]. rewrite (frame_payload _ _ _ _ _ F).
    cbn [app nth Z.eqb andb]. reflexivity.
  - rewrite (bind_returns _ _ _ _ _ E3). cbn [defined]. set (rs' := erase_confirmed k bytes rs).
    assert (L' : left_of done' rs').
    { intros j. unfold rs', bytes. rewrite (erase_confirmed_ok n k rs H0 Hk Pr), L. unfold done'.
      destruct (bool_decide (j ∈ seqZ k (Z.of_nat n))) eqn:B1.
      - apply bool_decide_eq_true in B1. rewrite bool_decide_true by (rewrite elem_of_app; auto). reflexivity.
      - apply bool_decide_eq_false in B1. rewrite (bool_decide_ext (j ∈ done ++ _) (j ∈ done)) by (rewrite elem_of_app; tauto). reflexivity. }
    rewrite bind_ret.
    exists w3, rs', (set_lsb (getNickname guidNode) e).
    assert (Em : rs' = ∅ <-> rest = []) by (apply (left_empty done' rest); [unfold done'; rewrite <- app_assoc; exact K|exact L']).
    split; [|split; [exact L'|intros p j; rewrite R3, R2; apply W1]].
    destruct rest as [|r rest].
    + rewrite bool_decide_true by (apply Em; reflexivity). reflexivity.
    + rewrite bool_decide_false by (intros Q; apply Em in Q; discriminate). reflexivity.
Qed.

Lemma nwrites_spec size : 0 < size <= 255 -> 0 < nwrites size <= 64 /\ 4 * (nwrites size - 1) < size <= 4 * nwrites size.
Proof using Type.
  clear. intros Hs. assert (Q := Z.div_mod size 4 ltac:(lia)). assert (B := Z.mod_pos_bound size 4 ltac:(lia)).
  unfold nwrites. destruct (Z.eqb_spec (size mod 4) 0); rewrite u8_id by (unfold is_u8; lia); lia.
Qed.

(** The events of a run, from the [i]-th on. *)
Lemma write_frames_ok n first size i ex rs done after w0 w :
  0 < size <= 255 -> 0 <= i -> i + Z.of_nat n = nwrites size -> 0 <= first ->
  keys m = done ++ seqZ (first + i * 4) (size - i * 4) ++ after -> seqZ (first + i * 4) (size - i * 4) ++ after <> [] ->
  left_of done rs -> written w0 done w ->
  let done' := done ++ seqZ (first + i * 4) (size - i * 4) in
  exists w' rs' ex',
    write_frames fuel n None (getNickname guidNode) page timeout guidInterface first size i VSCP_ERROR_SUCCESS ex rs w =
      Returns (match after with [] => Return VSCP_ERROR_SUCCESS rs' | _ => Next VSCP_ERROR_SUCCESS ex' rs' end, w') /\
    left_of done' rs' /\ written w0 done' w'.
Proof.
  intros Hs Hi Hn Hfirst. assert (Nw := nwrites_spec size Hs).
  revert i ex rs done w Hi Hn. induction n as [|n IH]; intros i ex rs done w Hi Hn K Ne L Wr done'.
  - assert (E : seqZ (first + i * 4) (size - i * 4) = []) by (apply seqZ_nil; lia). unfold done'. rewrite E in *.
    cbn [app] in *. rewrite app_nil_r. exists w, rs, ex. split; [destruct after; [congruence|reflexivity]|auto].
  - set (c := Z.to_nat (bytes2write size i)). assert (Ec : Z.of_nat c = Z.min 4 (size - i * 4)).
    { unfold c, bytes2write. rewrite u8_id by (unfold is_u8; lia). lia. }
    assert (Sp : seqZ (first + i * 4) (size - i * 4) =
                 seqZ (first + i * 4) (Z.of_nat c) ++ seqZ (first + (i + 1) * 4) (size - (i + 1) * 4)).
    { destruct (Z.leb_spec 4 (size - i * 4)).
      - replace (size - i * 4) with (Z.of_nat c + (size - (i + 1) * 4)) at 1 by lia. rewrite seqZ_app by lia.
        f_equal. f_equal. lia.
      - rewrite (seqZ_nil _ (size - (i + 1) * 4)) by lia. rewrite app_nil_r. f_equal. lia. }
    cbn [write_frames]. rewrite Sp, <- app_assoc in K.
    destruct (write_frame_ok first size i c ex rs done _ w0 w eq_refl ltac:(lia) ltac:(lia) K L Wr) as (w1 & rs1 & ex1 & E1 & L1 & W1).
    rewrite (bind_returns _ _ _ _ _ E1). unfold done'. rewrite Sp, app_assoc. rewrite app_assoc in K.
    destruct (seqZ (first + (i + 1) * 4) (size - (i + 1) * 4) ++ after) as [|r rest] eqn:Er.
    + apply app_nil in Er as [-> ->]. rewrite app_nil_r. exists w1, rs1, ex1. split; [reflexivity|auto].
    + rewrite bind_ret, <- Er in *. apply IH; try assumption; try lia. rewrite Er. discriminate.
Qed.

Lemma write_runs_ok sm starts ex rs done w0 w :
  (forall s, s ∈ starts -> exists c, sm !! s = Some c /\ 0 < c <= 255 /\ 0 <= s) ->
  keys m = done ++ concat (map (run sm) starts) -> left_of done rs -> written w0 done w ->
  exists w', write_runs fuel starts sm None (getNickname guidNode) page timeout guidInterface VSCP_ERROR_SUCCESS ex rs w =
      Returns (VSCP_ERROR_SUCCESS, ∅, w') /\ written w0 (keys m) w'.
Proof.
  revert ex rs done w. induction starts as [|s starts IH]; intros ex rs done w Hs K L Wr.
  - cbn in K. rewrite app_nil_r in K. assert (E : rs = ∅) by (apply (left_empty done []); [rewrite app_nil_r; exact K|exact L|reflexivity]).
    subst rs. exists w. split; [reflexivity|]. rewrite K. exact Wr.
  - destruct (Hs s (list_elem_of_here _ _)) as (c & Ec & Hc & H0). cbn [map concat] in K. unfold run at 1 in K. rewrite Ec in K.
    cbn [from_option id] in K. cbn [write_runs]. rewrite Ec. cbn [from_option id]. assert (Nw := nwrites_spec c Hc).
    destruct (write_frames_ok (Z.to_nat (nwrites c)) s c 0 ex rs done (concat (map (run sm) starts)) w0 w Hc) as (w1 & rs1 & ex1 & E1 & L1 & W1);
      rewrite ?Z.mul_0_l, ?Z.add_0_r, ?Z.sub_0_r in *; try assumption; try lia.
    { rewrite (seqZ_cons s c) by lia. discriminate. }
    rewrite (bind_returns _ _ _ _ _ E1). rewrite app_assoc in K.
    destruct (concat (map (run sm) starts)) as [|r rest] eqn:Er.
    + rewrite app_nil_r in K. assert (E : rs1 = ∅) by (apply (left_empty (done ++ seqZ s c) []); [rewrite app_nil_r; exact K|exact L1|reflexivity]).
      subst rs1. exists w1. split; [reflexivity|]. rewrite K. exact W1.
    + rewrite <- Er in *. apply (IH ex1 rs1 (done ++ seqZ s c)); try assumption. intros s' Hs'. apply Hs, list_elem_of_further, Hs'.
Qed.

Lemma write_block_ok w :
  (length (keys m) <= 255)%nat ->
  exists w', vscp_writeLevel1RegisterBlock fuel guidNode guidInterface page m None timeout w =
      Returns (VSCP_ERROR_SUCCESS, ∅, w') /\ written w (keys m) w'.
Proof.
  intros Hl. destruct (startmap_runs m Hl) as [R S]. unfold vscp_writeLevel1RegisterBlock.
  rewrite (bind_returns _ _ _ (fresh w) w) by reflexivity.
  apply (write_runs_ok (startmap m) (keys (startmap m)) (fresh w) m [] w w).
  - intros s Hs. destruct (S s Hs) as (c & E & Hc & _). exists c. split; [exact E|]. split; [exact Hc|].
    apply elem_of_keys in Hs. lia.
  - symmetry. exact R.
  - intros k. rewrite bool_decide_false by apply not_elem_of_nil. reflexivity.
  - intros p k. rewrite bool_decide_false, andb_false_r by apply not_elem_of_nil. reflexivity.
Qed.
End write_ok.

(** ** Lemmas: any client *)

Section any_client.
Context {W : Type} `{VscpClient W}.

(** Nickname 0 is never accepted. *)
Lemma response_loop_rejects {A} n (accept : vscpEventEx -> option A) nickname timeout s ex w r :
  (forall e, accept e = None) -> response_loop n accept nickname timeout s ex w = Returns r -> exists rv e w',
    r = (rv, Failed, e, w') \/ r = (rv, Ended, e, w').
Proof.
  intros Ac. revert ex w. induction n as [|n IH]; intros ex w; [discriminate|]. cbn [response_loop].
  assert (C : forall rv ex w1,
    (late ← expired timeout s;
     if (late : bool) then mret (VSCP_ERROR_TIMEOUT, Ended, ex)
     else if timeout =? 0 then mret (rv, Ended, ex)
     else response_loop n accept nickname timeout s ex) w1 = Returns r -> exists rv e w',
    r = (rv, Failed, e, w') \/ r = (rv, Ended, e, w')).
  { intros rv ex1 w1 E. destruct r as [r w']. apply bind_inv in E as (late & w2 & _ & E). destruct late.
    - injection E as <- <-. eauto.
    - destruct (timeout =? 0); [injection E as <- <-; eauto|exact (IH ex1 w2 E)]. }
  intros E. destruct r as [r w']. apply bind_inv in E as ([rv cnt] & w1 & _ & E).
  destruct (_ && _); [|exact (C _ _ _ E)]. apply bind_inv in E as ([rv' ex'] & w2 & _ & E).
  destruct (negb _); [injection E as <- <-; eauto|].
  destruct (is_response ex'); [rewrite Ac in E|]; exact (C _ _ _ E).
Qed.

Lemma read_nickname_0 fuel guidNode guidInterface page offset value timeout w rv v w' :
  getNickname guidNode = 0 ->
  vscp_readLevel1Register fuel guidNode guidInterface page offset value timeout w = Returns (rv, v, w') -> v = value.
Proof.
  intros E0 E. unfold vscp_readLevel1Register in E. rewrite E0 in E.
  apply bind_inv in E as (ex & w1 & _ & E). apply bind_inv in E as (rv1 & w2 & _ & E).
  destruct (negb _); [injection E as _ <- _; reflexivity|]. apply bind_inv in E as (s & w3 & _ & E).
  apply bind_inv in E as ([[rv2 r] ex2] & w4 & E1 & E). injection E as _ <- _.
  destruct (response_loop_rejects _ _ _ _ _ _ _ _ (fun e => eq_refl) E1) as (rv3 & e3 & w5 & [Q|Q]); injection Q as _ -> _ _; reflexivity.
Qed.

(** An exchange in which one event arrives, or none. *)
Definition exchange (w w' : W) : Prop :=
  exists w1 w2 s, clear w = (VSCP_ERROR_SUCCESS, w1) /\ (forall ex, send ex w1 = (VSCP_ERROR_SUCCESS, w2)) /\
    msTimeStamp w2 = (s, w').
Definition arrives (e : vscpEventEx) (w w' : W) : Prop :=
  exists cnt w1, getcount w = (VSCP_ERROR_SUCCESS, cnt, w1) /\ cnt <> 0 /\ forall ex, receive ex w1 = (VSCP_ERROR_SUCCESS, e, w').

Lemma response_arrives {A} n (accept : vscpEventEx -> option A) nickname timeout s ex e a w w' :
  arrives e w w' -> is_response e = true -> accept (set_lsb nickname e) = Some a ->
  response_loop (S n) accept nickname timeout s ex w = Returns (VSCP_ERROR_SUCCESS, Accepted a, set_lsb nickname e, w').
Proof.
  intros (cnt & w1 & E1 & N & E2) R Ac. cbn [response_loop]. rewrite (bind_call _ _ _ _ _ E1).
  rewrite (proj2 (Z.eqb_neq _ _) N). cbn [negb andb Z.eqb VSCP_ERROR_SUCCESS]. rewrite (bind_call _ _ _ _ _ (E2 ex)), R, Ac.
  reflexivity.
Qed.

Lemma ask_exchange w w' : exchange w w' -> exists s w2, (forall ex, ask ex w = Returns (VSCP_ERROR_SUCCESS, w2)) /\ msTimeStamp w2 = (s, w').
Proof.
  intros (w1 & w2 & s & E1 & E2 & E3). exists s, w2. split; [|exact E3]. intros ex. unfold ask.
  rewrite (bind_call _ _ _ _ _ E1). cbn. unfold call. rewrite E2. reflexivity.
Qed.
End any_client.

(** ** Properties *)

(** The six functions end, whatever the client delivers, if its clock
    advances: the reads and writes with a timeout other than 0, the searches
    always; the functions that look at the clock for a status callback, without
    one. *)
Theorem register_access_ends {W} `{VscpClient W} timeout fuel (L : MsClockLaws W timeout fuel)
    guidNode guidInterface page offset w :
  timeout <> 0 ->
  (forall value, vscp_readLevel1Register fuel guidNode guidInterface page offset value timeout w <> OutOfFuel) /\
  (forall value, vscp_writeLevel1Register fuel guidNode guidInterface page offset value timeout w <> OutOfFuel) /\
  (forall count vals, vscp_readLevel1RegisterBlock fuel guidNode guidInterface page offset count vals None timeout w <> OutOfFuel) /\
  (forall vals f, vscp_writeLevel1RegisterBlock fuel guidNode guidInterface page vals f timeout w <> OutOfFuel) /\
  (forall found, vscp_scanForDevices fuel guidInterface found None timeout w <> OutOfFuel) /\
  (forall nodes found, vscp_scanSlowForDevices fuel guidInterface nodes found None timeout w <> OutOfFuel).
Proof.
  intros Ht. split_and!; intros.
  - apply ends_read, Ht. exact L.
  - apply ends_write, Ht. exact L.
  - apply ends_read_block, Ht. exact L.
  - apply ends_write_block, Ht. exact L.
  - apply ends_scan. exact L.
  - apply ends_slow_scan. exact L.
Qed.

(** On a node that answers, a register that is written is read back: both
    functions succeed, the value read is the one written, and no other register
    of the node changes. *)
Theorem register_roundtrip {W} `{VscpClient W} guidNode guidInterface timeout
    (N : RegisterNode W guidNode guidInterface timeout) page offset value before fuel w :
  getNickname guidNode <> 0 -> is_u16 page -> (0 < fuel)%nat ->
  exists w1 w2,
    vscp_writeLevel1Register fuel guidNode guidInterface page offset value timeout w = Returns (VSCP_ERROR_SUCCESS, w1) /\
    vscp_readLevel1Register fuel guidNode guidInterface page offset before timeout w1 = Returns (VSCP_ERROR_SUCCESS, value, w2) /\
    forall p k, (p, k) <> (page, offset) -> regs w2 p k = regs w p k.
Proof.
  intros Hn Hp Hf. destruct (write_ok guidNode guidInterface timeout N Hn page offset value fuel w Hp Hf) as (w1 & E1 & R1).
  destruct (read_ok guidNode guidInterface timeout N Hn page offset before fuel w1 Hp Hf) as (w2 & E2 & R2).
  exists w1, w2. split; [exact E1|]. rewrite E2, R1, R2, !Z.eqb_refl. split; [reflexivity|].
  intros p k Ne. rewrite R1. destruct (Z.eqb_spec p page) as [->|]; [|reflexivity].
  destruct (Z.eqb_spec k offset) as [->|]; [congruence|reflexivity].
Qed.

(** C33: A block of up to 255 registers is read completely from a node that
    answers, in whatever order its frames arrive: the map has exactly the
    registers of the block with the node's values, and what it had elsewhere. *)
Theorem read_block_any_order {W} `{VscpClient W} guidNode guidInterface timeout
    (N : RegisterNode W guidNode guidInterface timeout) page offset count vals fuel w :
  getNickname guidNode <> 0 -> is_u16 page -> (64 <= fuel)%nat ->
  0 <= offset -> 0 < count <= 255 -> offset + count <= 256 ->
  exists vals' w',
    vscp_readLevel1RegisterBlock fuel guidNode guidInterface page offset count vals None timeout w =
      Returns (VSCP_ERROR_SUCCESS, vals', w') /\ regs w' = regs w /\
    forall k, vals' !! k = if (offset <=? k) && (k <? offset + count) then Some (regs w page k) else vals !! k.
Proof. intros Hn. apply read_block_ok, Hn. Qed.

(** C34: A block of up to 255 registers is written completely to a node that
    answers: success, nothing is left in the map, the node has the values, and
    no other register of it changes. *)
Theorem write_block_complete {W} `{VscpClient W} guidNode guidInterface timeout
    (N : RegisterNode W guidNode guidInterface timeout) page m fuel w :
  getNickname guidNode <> 0 -> is_u16 page -> (0 < fuel)%nat ->
  (forall k, is_Some (m !! k) -> 0 <= k < 256) -> (length (keys m) <= 255)%nat ->
  exists w', vscp_writeLevel1RegisterBlock fuel guidNode guidInterface page m None timeout w =
      Returns (VSCP_ERROR_SUCCESS, ∅, w') /\
    forall p k, regs w' p k = if p =? page then default (regs w p k) (m !! k) else regs w p k.
Proof.
  intros Hn Hp Hf Hm Hl.
  destruct (write_block_ok guidNode guidInterface timeout N Hn fuel Hf page Hp m Hm w Hl) as (w' & E & Wr).
  exists w'. split; [exact E|]. intros p k. rewrite Wr. destruct (p =? page); [|reflexivity]. cbn [andb].
  destruct (m !! k) as [v|] eqn:Ek.
  - rewrite bool_decide_true; [reflexivity|]. apply elem_of_keys. split; [apply Hm|]; eauto.
  - rewrite bool_decide_false; [reflexivity|]. intros [_ [v Q]]%elem_of_keys. congruence.
Qed.

(** The runs in which a block of up to 255 registers is written are a
    partition of its registers in order, and none can be longer. *)
Theorem startmap_partition m :
  (length (keys m) <= 255)%nat ->
  concat (map (run (startmap m)) (keys (startmap m))) = keys m /\
  forall s, s ∈ keys (startmap m) -> exists c, startmap m !! s = Some c /\ 0 < c <= 255 /\ s + c <= 256 /\ (s + c ∉ keys m).
Proof. apply startmap_runs. Qed.

(** With a timeout of 0 the functions do not wait for ever, as their
    description says, but look once, and when nothing has arrived they report
    success: a read leaves the value as it was, and a write is not confirmed. *)
Theorem timeout_0_looks_once {W} `{VscpClient W} fuel guidNode guidInterface page offset value w w1 w2 :
  (0 < fuel)%nat -> exchange w w1 -> getcount w1 = (VSCP_ERROR_SUCCESS, 0, w2) ->
  vscp_readLevel1Register fuel guidNode guidInterface page offset value 0 w = Returns (VSCP_ERROR_SUCCESS, value, w2) /\
  vscp_writeLevel1Register fuel guidNode guidInterface page offset value 0 w = Returns (VSCP_ERROR_SUCCESS, w2).
Proof.
  intros Hf X G. destruct (ask_exchange w w1 X) as (s & w0 & A & T). destruct fuel as [|n]; [lia|].
  assert (R : forall A (accept : vscpEventEx -> option A) nick ex,
    response_loop (S n) accept nick 0 s ex w1 = Returns (VSCP_ERROR_SUCCESS, Ended, ex, w2)).
  { intros A0 accept nick ex. cbn [response_loop]. rewrite (bind_call _ _ _ _ _ G). reflexivity. }
  split; [unfold vscp_readLevel1Register|unfold vscp_writeLevel1Register];
    rewrite (bind_returns _ _ _ (fresh w) w) by reflexivity; rewrite (bind_returns _ _ _ _ _ (A _));
    cbn [negb Z.eqb VSCP_ERROR_SUCCESS]; rewrite (bind_call _ _ _ _ _ T), (bind_returns _ _ _ _ _ (R _ _ _ _)); reflexivity.
Qed.

(** The node that answers is not looked at: the comparison of the sender
    with the nickname is an assignment.  A read takes the value from an event
    whoever sent it, and with nickname 0 it takes none from anybody. *)
Theorem any_node_answers {W} `{VscpClient W} fuel guidNode guidInterface page offset value timeout w w1 w2 e :
  (0 < fuel)%nat -> exchange w w1 -> arrives e w1 w2 ->
  is_response e = true -> 5 <= xsizeData e ->
  dat 0 e = 0 -> dat 1 e = page_hi page -> dat 2 e = page_lo page -> dat 3 e = offset ->
  if getNickname guidNode =? 0
  then forall rv v w3, vscp_readLevel1Register fuel guidNode guidInterface page offset value timeout w = Returns (rv, v, w3) -> v = value
  else vscp_readLevel1Register fuel guidNode guidInterface page offset value timeout w = Returns (VSCP_ERROR_SUCCESS, dat 4 e, w2).
Proof.
  intros Hf X A R S D0 D1 D2 D3. destruct (Z.eqb_spec (getNickname guidNode) 0) as [E|N].
  { intros rv v w3. apply read_nickname_0, E. }
  destruct (ask_exchange w w1 X) as (s & w0 & Ak & T). destruct fuel as [|n]; [lia|].
  assert (Ac : read_accept (getNickname guidNode) page offset (set_lsb (getNickname guidNode) e) = Some (dat 4 e)).
  { unfold read_accept, page_matches, dat in *. cbn [set_lsb xdata xsizeData].
    rewrite (proj2 (Z.eqb_neq _ _) N), (proj2 (Z.leb_le _ _) S), D0, D1, D2, D3, !Z.eqb_refl. reflexivity. }
  unfold vscp_readLevel1Register. rewrite (bind_returns _ _ _ (fresh w) w) by reflexivity.
  rewrite (bind_returns _ _ _ _ _ (Ak _)). cbn [negb Z.eqb VSCP_ERROR_SUCCESS]. rewrite (bind_call _ _ _ _ _ T).
  rewrite (bind_returns _ _ _ _ _ (response_arrives n _ _ timeout s _ e (dat 4 e) w1 w2 A R Ac)). reflexivity.
Qed.

(** A node that answers the write of a register with another value than the
    one sent, a read-only register for instance, is not noticed: the function
    for blocks reports success, with the register still in the map. *)
Theorem write_block_unconfirmed {W} `{VscpClient W} fuel guidNode guidInterface page k v timeout w w1 w2 e :
  (0 < fuel)%nat -> 0 <= k < 256 -> getNickname guidNode <> 0 -> exchange w w1 -> arrives e w1 w2 ->
  is_response e = true -> xsizeData e = 5 -> (5 <= length (xdata e))%nat ->
  dat 0 e = 0 -> dat 1 e = page_hi page -> dat 2 e = page_lo page -> dat 3 e = k -> dat 4 e <> v ->
  vscp_writeLevel1RegisterBlock fuel guidNode guidInterface page {[k := v]} None timeout w =
    Returns (VSCP_ERROR_SUCCESS, {[k := v]}, w2).
Proof.
  intros Hf Hk N X A R S Ld D0 D1 D2 D3 D4. destruct (ask_exchange w w1 X) as (s & w0 & Ak & T). destruct fuel as [|n]; [lia|].
  assert (K1 : forall u, keys {[k := u]} = [k]).
  { intros u. unfold singletonM, map_singleton. rewrite keys_last, keys_empty;
      [reflexivity|rewrite keys_empty; intros j []%not_elem_of_nil|exact Hk]. }
  assert (Sm : startmap {[k := v]} = {[k := 1]}).
  { unfold startmap. rewrite K1. cbn [foldl start_step]. rewrite (proj2 (Z.eqb_neq k (-99 + 0))) by lia. reflexivity. }
  assert (Ac : confirm (getNickname guidNode) page {[k := v]} (set_lsb (getNickname guidNode) e) = Some (Some {[k := v]})).
  { unfold confirm, page_matches, dat in *. cbn [set_lsb xdata xsizeData].
    rewrite (proj2 (Z.eqb_neq _ _) N), S, D0, D1, D2, D3, !Z.eqb_refl. cbn [negb andb Z.leb Z.compare].
    rewrite rdn_defined by (cbn; lia). cbn [mbind option_bind]. do 2 f_equal.
    assert (Tk : take (Z.to_nat (5 - 4)) (drop 4 (xdata e)) = [nth 4 (xdata e) 0]).
    { destruct (xdata e) as [|a0 [|a1 [|a2 [|a3 [|a4 r]]]]]; cbn [length] in Ld; try lia. reflexivity. }
    rewrite Tk. cbn [erase_confirmed]. unfold index. rewrite (u8_id k) by (unfold is_u8; lia).
    rewrite lookup_singleton_eq. cbn [from_option id].
    rewrite (proj2 (Z.eqb_neq _ _) D4). apply insert_id, lookup_singleton_eq. }
  unfold vscp_writeLevel1RegisterBlock. rewrite (bind_returns _ _ _ (fresh w) w) by reflexivity.
  rewrite Sm, K1. cbn [write_runs]. rewrite lookup_singleton_eq. cbn [from_option id].
  change (Z.to_nat (nwrites 1)) with 1%nat. cbn [write_frames]. unfold write_frame.
  change (Z.to_nat (bytes2write 1 0)) with 1%nat. rewrite (fill_data_ok 1 (k + 0 * 4) {[k := v]});
    [|lia|lia|intros j Hj; replace j with k by lia; rewrite lookup_singleton_eq; eauto].
  rewrite !bind_assoc, (bind_returns _ _ _ _ _ (Ak _)). cbn [negb Z.eqb VSCP_ERROR_SUCCESS].
  rewrite !bind_assoc, (bind_call _ _ _ _ _ T), !bind_assoc.
  rewrite (bind_returns _ _ _ _ _ (response_arrives n _ _ timeout s _ e _ w1 w2 A R Ac)).
  rewrite bind_assoc. cbn [defined]. rewrite !bind_ret, bool_decide_false by apply map_non_empty_singleton. reflexivity.
Qed.

(** A map with all 256 registers is not written at all: the number of
    registers of its one run is 0 in a uint8_t, and the function reports success. *)
Theorem write_block_256 {W} `{VscpClient W} fuel guidNode guidInterface page m f timeout w :
  keys m = seqZ 0 256 ->
  vscp_writeLevel1RegisterBlock fuel guidNode guidInterface page m f timeout w = Returns (VSCP_ERROR_SUCCESS, m, w).
Proof.
  intros K. assert (F : forall n, (n < 255)%nat -> foldl start_step (-99, 0, ∅) (seqZ 0 (Z.of_nat (S n))) = (0, Z.of_nat (S n), {[0 := Z.of_nat (S n)]})).
  { induction n as [|n IH]; intros Hn; [reflexivity|]. rewrite seqZ_S, foldl_app, IH by lia. cbn [foldl start_step].
    rewrite (proj2 (Z.eqb_eq _ _)) by lia. cbn [negb]. rewrite lookup_singleton_eq. cbn [from_option id].
    rewrite u8_id by (unfold is_u8; lia). rewrite insert_singleton_eq. do 2 f_equal; [lia|]. f_equal. lia. }
  assert (Sm : startmap m = {[0 := 0]}).
  { unfold startmap. rewrite K. change 256 with (Z.of_nat (S 255)). rewrite seqZ_S, foldl_app.
    change 255%nat with (S 254). rewrite F by lia. cbn [foldl start_step]. rewrite (proj2 (Z.eqb_eq _ _)) by lia. cbn [negb].
    rewrite lookup_singleton_eq. cbn [from_option id snd]. change (u8 (Z.of_nat 255 + 1)) with 0. apply insert_singleton_eq. }
  unfold vscp_writeLevel1RegisterBlock. rewrite (bind_returns _ _ _ (fresh w) w) by reflexivity. rewrite Sm.
  replace (keys {[0 := 0]}) with [0]; [reflexivity|].
  unfold singletonM, map_singleton. rewrite keys_last, keys_empty; [reflexivity|rewrite keys_empty; intros j []%not_elem_of_nil|lia].
Qed.

(** ** Sample clients *)

(** A node at nickname 7 whose registers are a function, and which answers a
    read with its frames in reverse order; the clock stands still. *)
Record world := World { wregs : Z -> Z -> Z; winbox : list vscpEventEx }.

Definition frame_event (page i reg : Z) (bytes : list Z) : vscpEventEx :=
  EventEx 0 0 (Time 0 0 0) 0 VSCP_CLASS1_PROTOCOL VSCP_TYPE_PROTOCOL_EXTENDED_PAGE_RESPONSE (replicate 16 9)
          (4 + Z.of_nat (length bytes)) ([i; page_hi page; page_lo page; reg] ++ bytes).

Definition sample_send (ex : vscpEventEx) (w : world) : Z * world :=
  let page := dat 1 ex * 256 + dat 2 ex in
  let bytes := take (Z.to_nat (xsizeData ex - 4)) (drop 4 (xdata ex)) in
  (VSCP_ERROR_SUCCESS,
   if xtype ex =? VSCP_TYPE_PROTOCOL_EXTENDED_PAGE_READ then
     World (wregs w) (map (fun i => frame_event page i (dat 3 ex + 4 * i) (frame_bytes (wregs w page) (dat 3 ex) (dat 4 ex) i))
                          (rev (frame_indices (dat 4 ex))))
   else
     World (fun p k => if (p =? page) && (dat 3 ex <=? k) && (k <? dat 3 ex + Z.of_nat (length bytes))
                       then nth (Z.to_nat (k - dat 3 ex)) bytes 0 else wregs w p k)
           [frame_event page 0 (dat 3 ex) bytes]).

Definition sample_guid : list Z := replicate 15 0 ++ [7].
Definition no_interface : list Z := replicate 16 0.

#[local] Instance sample_client : VscpClient world := {|
  isFullLevel2 := false;
  send := sample_send;
  getcount w := (VSCP_ERROR_SUCCESS, Z.of_nat (length (winbox w)), w);
  receive ex w := match winbox w with
                  | [] => (VSCP_ERROR_TIMEOUT, ex, w)
                  | e :: r => (VSCP_ERROR_SUCCESS, e, World (wregs w) r)
                  end;
  clear w := (VSCP_ERROR_SUCCESS, World (wregs w) []);
  time w := (0, w);
  msTimeStamp w := (0, w);
  now _ := Timespec 0 0;
  stamp _ := 0;
  fresh _ := zero_event
|}.

Lemma page_bytes page : is_u16 page -> page_hi page * 256 + page_lo page = page.
Proof.
  unfold is_u16, page_hi, page_lo. intros Hp. change 0xff with (Z.ones 8).
  rewrite !Z.land_ones, Z.shiftr_div_pow2 by lia. change (2 ^ 8) with 256.
  pose proof (Z.div_mod page 256). rewrite (Z.mod_small (page / 256)); [lia|].
  split; [apply Z.div_pos; lia|apply Z.div_lt_upper_bound; lia].
Qed.

Lemma frame_event_ok page i reg bytes : frame_ok page i reg bytes (frame_event page i reg bytes).
Proof. split; [reflexivity..|]. apply take_ge. cbn. lia. Qed.

Lemma sample_read_request page offset count ex w :
  is_u16 page ->
  send (request_event no_interface VSCP_TYPE_PROTOCOL_EXTENDED_PAGE_READ
          [getNickname sample_guid; page_hi page; page_lo page; offset; count] ex) w =
    (VSCP_ERROR_SUCCESS,
     World (wregs w) (map (fun i => frame_event page i (offset + 4 * i) (frame_bytes (wregs w page) offset count i))
                          (rev (frame_indices count)))).
Proof.
  intros Hp. cbn [send sample_client]. unfold sample_send.
  change (dat 1 _) with (page_hi page). change (dat 2 _) with (page_lo page). rewrite (page_bytes page Hp). reflexivity.
Qed.

Lemma sample_write_request page offset bytes ex w :
  is_u16 page ->
  send (request_event no_interface VSCP_TYPE_PROTOCOL_EXTENDED_PAGE_WRITE
          ([getNickname sample_guid; page_hi page; page_lo page; offset] ++ bytes) ex) w =
    (VSCP_ERROR_SUCCESS,
     World (fun p k => if (p =? page) && (offset <=? k) && (k <? offset + Z.of_nat (length bytes))
                       then nth (Z.to_nat (k - offset)) bytes 0 else wregs w p k)
           [frame_event page 0 offset bytes]).
Proof.
  intros Hp. cbn [send sample_client]. unfold sample_send.
  change (dat 1 _) with (page_hi page). change (dat 2 _) with (page_lo page). change (dat 3 _) with offset.
  replace (take _ _) with bytes; [rewrite (page_bytes page Hp); reflexivity|].
  unfold request_event. change (isNULL no_interface) with true. cbn [xdata xsizeData app drop length].
  symmetry. apply take_app_length'. lia.
Qed.

#[local] Instance sample_node timeout (Ht : 0 <= timeout) : RegisterNode world sample_guid no_interface timeout.
Proof.
  refine {| regs := wregs; inbox := winbox; soon := fun s _ => s = 0 |}.
  - intros w. eexists. split; [reflexivity|split; reflexivity].
  - intros w t w' E. injection E as <- <-. split_and!; try done. intros s ->. split; [|done]. exact Ht.
  - intros w. exists (Z.of_nat (length (winbox w))), w. split_and!; try done. destruct (winbox w); split; (done || (cbn; lia)).
  - intros ex e r w E. eexists. cbn. rewrite E. split; [reflexivity|split_and!; done].
  - intros ex page offset count w Hp _ [ex' ->].
    rewrite sample_read_request by exact Hp. eexists _, (rev (frame_indices count)). split_and!; try reflexivity.
    + symmetry. apply Permutation_rev.
    + apply list.Forall2_fmap_l, list.Forall_Forall2_diag, list.Forall_forall. intros i _. apply frame_event_ok.
  - intros ex page offset bytes w Hp _ Hl [ex' ->]. rewrite sample_write_request by exact Hp.
    eexists _, _. split_and!; try reflexivity. apply frame_event_ok.
Defined.

(** A client that delivers one event or none, to any request. *)
Definition one_event (e : option vscpEventEx) : VscpClient bool := {|
  isFullLevel2 := false;
  send _ w := (VSCP_ERROR_SUCCESS, w);
  getcount w := (VSCP_ERROR_SUCCESS, match e with Some _ => 1 | None => 0 end, w);
  receive ex w := (VSCP_ERROR_SUCCESS, default ex e, w);
  clear w := (VSCP_ERROR_SUCCESS, w);
  time w := (0, w);
  msTimeStamp (w : bool) := (if w then 1000 else 0, negb w);
  now _ := Timespec 0 0;
  stamp _ := 0;
  fresh _ := zero_event
|}.

Lemma one_event_exchange e : @exchange _ (one_event e) false true.
Proof. exists false, false, 0. repeat split. Qed.

Lemma one_event_arrives e w : @arrives _ (one_event (Some e)) e w w.
Proof. exists 1, w. repeat split; discriminate. Qed.

(** Its clock is at 0 and 1000 by turns. *)
Lemma one_event_clock e : MsClockLaws bool (H := one_event e) 100 2.
Proof.
  refine {| polls := fun s (w : bool) => if u32 ((if (w : bool) then 1000 else 0) - s) <=? 100 then 1%nat else 0%nat |}.
  - intros s w t w' E Hl. injection E as <- <-. rewrite (proj2 (Z.leb_le _ _) Hl). destruct (Z.leb_spec (u32 ((if negb w then 1000 else 0) - s)) 100); [|lia].
    exfalso. destruct w; cbn [negb] in *; width.
  - intros s w. apply le_n.
  - intros s ex w. apply le_n.
  - intros w t w' _. repeat destruct (_ <=? _); lia.
Qed.

Lemma register_access_ends_witness :
  vscp_readLevel1Register (H := one_event None) 2 sample_guid no_interface 0 1 9 100 false <> OutOfFuel.
Proof. apply (register_access_ends 100 2 (one_event_clock None) sample_guid no_interface 0 1 false); lia. Defined.

Definition start : world := World (fun p k => 100 * p + k) [].

Lemma register_roundtrip_witness : exists w1 w2,
  vscp_writeLevel1Register 1 sample_guid no_interface 3 5 42 1000 start = Returns (VSCP_ERROR_SUCCESS, w1) /\
  vscp_readLevel1Register 1 sample_guid no_interface 3 5 0 1000 w1 = Returns (VSCP_ERROR_SUCCESS, 42, w2) /\
  forall p k, (p, k) <> (3, 5) -> wregs w2 p k = 100 * p + k.
Proof.
  apply (register_roundtrip sample_guid no_interface 1000 (sample_node 1000 ltac:(lia)) 3 5 42 0 1 start);
    [discriminate|unfold is_u16; lia|lia].
Defined.

Lemma read_block_any_order_witness : exists vals w,
  vscp_readLevel1RegisterBlock 64 sample_guid no_interface 1 8 6 ∅ None 1000 start = Returns (VSCP_ERROR_SUCCESS, vals, w) /\
  wregs w = wregs start /\
  forall k, vals !! k = if (8 <=? k) && (k <? 8 + 6) then Some (wregs start 1 k) else (∅ : registers) !! k.
Proof.
  apply (read_block_any_order sample_guid no_interface 1000 (sample_node 1000 ltac:(lia)) 1 8 6 ∅ 64 start);
    [discriminate|unfold is_u16; lia|lia..].
Defined.

Lemma write_block_complete_witness : exists w,
  vscp_writeLevel1RegisterBlock 1 sample_guid no_interface 2 {[10 := 77]} None 1000 start = Returns (VSCP_ERROR_SUCCESS, ∅, w) /\
  forall p k, wregs w p k = if p =? 2 then default (100 * p + k) (({[10 := 77]} : registers) !! k) else 100 * p + k.
Proof.
  apply (write_block_complete sample_guid no_interface 1000 (sample_node 1000 ltac:(lia)) 2 {[10 := 77]} 1 start);
    [discriminate|unfold is_u16; lia|lia| |].
  - intros k [v [<- _]%lookup_singleton_Some]. lia.
  - vm_compute. lia.
Defined.

Lemma startmap_partition_witness :
  startmap {[5 := 1; 6 := 1; 9 := 1]} = {[5 := 2; 9 := 1]} /\
  concat (map (run (startmap {[5 := 1; 6 := 1; 9 := 1]})) (keys (startmap {[5 := 1; 6 := 1; 9 := 1]}))) = [5; 6; 9].
Proof.
  split; [reflexivity|]. destruct (startmap_partition {[5 := 1; 6 := 1; 9 := 1]}) as [E _]; [vm_compute; lia|exact E].
Defined.

Lemma timeout_0_looks_once_witness :
  vscp_readLevel1Register (H := one_event None) 1 sample_guid no_interface 0 1 9 0 false = Returns (VSCP_ERROR_SUCCESS, 9, true) /\
  vscp_writeLevel1Register (H := one_event None) 1 sample_guid no_interface 0 1 9 0 false = Returns (VSCP_ERROR_SUCCESS, true).
Proof.
  apply (timeout_0_looks_once (H := one_event None) 1 sample_guid no_interface 0 1 9 false true true);
    [lia|apply one_event_exchange|reflexivity].
Defined.

(** An answer from node 9 to a read from node 7. *)
Lemma any_node_answers_witness :
  vscp_readLevel1Register (H := one_event (Some (frame_event 0 0 1 [55]))) 1 sample_guid no_interface 0 1 9 100 false =
    Returns (VSCP_ERROR_SUCCESS, 55, true).
Proof.
  apply (any_node_answers (H := one_event (Some (frame_event 0 0 1 [55]))) 1 sample_guid no_interface 0 1 9 100 false true true
           (frame_event 0 0 1 [55])); [lia|apply one_event_exchange|apply one_event_arrives|reflexivity|cbn; lia|reflexivity..].
Defined.

Lemma write_block_unconfirmed_witness :
  vscp_writeLevel1RegisterBlock (H := one_event (Some (frame_event 0 0 1 [55]))) 1 sample_guid no_interface 0 {[1 := 9]} None 100 false =
    Returns (VSCP_ERROR_SUCCESS, {[1 := 9]}, true).
Proof.
  apply (write_block_unconfirmed (H := one_event (Some (frame_event 0 0 1 [55]))) 1 sample_guid no_interface 0 1 9 100 false true true
           (frame_event 0 0 1 [55]));
    [lia|lia|discriminate|apply one_event_exchange|apply one_event_arrives|reflexivity|reflexivity|cbn; lia|reflexivity..|discriminate].
Defined.

Definition all_registers : registers := list_to_map (map (fun k => (k, 1)) (seqZ 0 256)).

Lemma write_block_256_witness :
  vscp_writeLevel1RegisterBlock 1 sample_guid no_interface 2 all_registers None 1000 start =
    Returns (VSCP_ERROR_SUCCESS, all_registers, start).
Proof. apply (write_block_256 1 sample_guid no_interface 2 all_registers None 1000 start). vm_compute. reflexivity. Defined.
