(* ===== verification/RegPage.v ===== *)
(** * Register pages: the classes of src/src/vscp/common/register.h and register.cpp

    CRegisterPage holds the registers of a page with their changes and the values
    they had before, CStandardRegisters the standard registers of a node,
    CUserRegisters the pages of a node by number.  A remote variable is a value of
    one of fourteen types in one or more registers of a page, a decision matrix
    one of equal rows of registers.

    The methods are state passing over the object ([Program.M]).  Indexing a
    std::map adds the missing element, so that most readers change their object
    too.  A page object is owned by the entry of the map that points to it. *)

From stdpp Require Import gmap sorting.
From S2P Require Import Prelude Program DateTime Event Strings Guid Canal Client RegIo.
#[local] Open Scope Z_scope.

Definition VSCP_LEVEL1 : Z := 0.
Definition VSCP_LEVEL2 : Z := 1.
Definition VSCP_ERROR_ERROR : Z := -1.
Definition VSCP_ERROR_INIT_MISSING : Z := 15.

(** ** CRegisterPage

    The maps of row types, remote variables and decision matrices are private and
    not used by any method. *)

Record CRegisterPage := RegisterPage {
  m_level : Z;
  m_page : Z;
  m_registers : gmap Z Z;
  m_change : gmap Z bool;
  m_list_undo_value : gmap Z (list Z);
  m_list_redo_value : gmap Z (list Z)
}.

Definition new_CRegisterPage (level page : Z) : CRegisterPage := RegisterPage level page ∅ ∅ ∅ ∅.

Definition CRegisterPage_getReg (offset : Z) : M CRegisterPage Z := fun p =>
  if (m_level p =? VSCP_LEVEL1) && (127 <? offset) then Returns (-1, p)
  else
    let '(v, rs) := index offset (m_registers p) in
    Returns (v, RegisterPage (m_level p) (m_page p) rs (m_change p) (m_list_undo_value p) (m_list_redo_value p)).

Definition CRegisterPage_putReg (reg value : Z) : M CRegisterPage Z := fun p =>
  if (m_level p =? VSCP_LEVEL1) && (128 <? reg) then Returns (-1, p)
  else
    let '(old, rs) := index reg (m_registers p) in
    let '(change, undo) :=
      if negb (old =? value)
      then (<[reg := true]> (m_change p), <[reg := default [] (m_list_undo_value p !! reg) ++ [old]]> (m_list_undo_value p))
      else (m_change p, m_list_undo_value p) in
    Returns (value, RegisterPage (m_level p) (m_page p) (<[reg := value]> rs) change undo (m_list_redo_value p)).

(** A method of an object, called by a function on another state. *)
Definition method {S W A} (m : M S A) (s : S) : M W (A * S) := fun w =>
  match m s with
  | Returns r => Returns (r, w)
  | Throws => Throws
  | Undefined => Undefined
  | OutOfFuel => OutOfFuel
  end.

(** A loop whose body changes the object. *)
Fixpoint for_each {W A} (xs : list A) (body : A -> M W unit) : M W unit :=
  match xs with
  | [] => mret tt
  | x :: xs => _ ← body x; for_each xs body
  end.

Definition CRegisterPage_putLevel1Registers (rs : registers) : M CRegisterPage unit :=
  for_each (keys rs) (fun k => _ ← CRegisterPage_putReg k (default 0 (rs !! k)); mret tt).

(** What the registers below 128 make of the caller's map. *)
Definition CRegisterPage_getLevel1Registers (p : CRegisterPage) (rs : registers) : registers :=
  foldl (fun rs k => match m_registers p !! k with Some v => <[k := v]> rs | None => rs end) rs (seqZ 0 128).

Definition has_change (changes : gmap Z bool) : bool := existsb snd (map_to_list changes).

Definition CRegisterPage_hasChanges (p : CRegisterPage) : bool := has_change (m_change p).

Definition CRegisterPage_clearChanges (p : CRegisterPage) : CRegisterPage :=
  RegisterPage (m_level p) (m_page p) (m_registers p) ∅ (m_list_undo_value p) (m_list_redo_value p).

Definition CRegisterPage_clearHistory (p : CRegisterPage) : CRegisterPage :=
  RegisterPage (m_level p) (m_page p) (m_registers p) (m_change p) ∅ ∅.

Definition CRegisterPage_setChangedState (offset : Z) (state : bool) : M CRegisterPage unit := fun p =>
  Returns (tt, RegisterPage (m_level p) (m_page p) (m_registers p) (<[offset := state]> (m_change p))
                 (m_list_undo_value p) (m_list_redo_value p)).

Definition CRegisterPage_isChanged (offset : Z) : M CRegisterPage bool := fun p =>
  let b := default false (m_change p !! offset) in
  Returns (b, RegisterPage (m_level p) (m_page p) (m_registers p) (<[offset := b]> (m_change p))
                (m_list_undo_value p) (m_list_redo_value p)).

Definition CRegisterPage_hasWrittenChange (offset : Z) : M CRegisterPage bool := fun p =>
  let l := default [] (m_list_undo_value p !! offset) in
  Returns ((0 <? Z.of_nat (length l)),
           RegisterPage (m_level p) (m_page p) (m_registers p) (m_change p)
             (<[offset := l]> (m_list_undo_value p)) (m_list_redo_value p)).

(** ** CStandardRegisters *)

Record CStandardRegisters := StandardRegisters { std_level : Z; m_regs : registers; std_change : gmap Z bool }.

Definition new_CStandardRegisters (level : Z) : CStandardRegisters := StandardRegisters level ∅ ∅.

Definition CStandardRegisters_getReg (reg : Z) : M CStandardRegisters Z := fun s =>
  let '(v, rs) := index reg (m_regs s) in Returns (v, StandardRegisters (std_level s) rs (std_change s)).

Definition CStandardRegisters_putReg (reg val : Z) : M CStandardRegisters unit := fun s =>
  Returns (tt, StandardRegisters (std_level s) (<[reg := val]> (m_regs s)) (std_change s)).

Section std_init.
Context {W : Type} `{VscpClient W}.

(** The registers are read into the object. *)
Definition CStandardRegisters_init (fuel : nat) (guidNode guidInterface : list Z)
    (statusCallback : option (Z -> W -> W)) (timeout : Z) (s : CStandardRegisters) : M W (Z * CStandardRegisters) :=
  '(rv, rs) ← vscp_readLevel1RegisterBlock fuel guidNode guidInterface 0 0x80 128 ∅ statusCallback timeout;
  mret (rv, StandardRegisters (std_level s) rs ∅).
End std_init.

(** The initialisation from a page; the value of getReg, an [int], goes into a
    uint8_t. *)
Fixpoint init_page_loop (ks : list Z) (rs : registers) : M CRegisterPage registers :=
  match ks with
  | [] => mret rs
  | i :: ks =>
      if (i <? 0xa5) || (0xcf <? i)
      then v ← CRegisterPage_getReg i; init_page_loop ks (<[i := u8 v]> rs)
      else init_page_loop ks rs
  end.

Definition CStandardRegisters_init_page (s : CStandardRegisters) : M CRegisterPage (Z * CStandardRegisters) :=
  p ← get;
  if negb (m_page p =? 0) then mret (VSCP_ERROR_INIT_MISSING, s)
  else
    rs ← init_page_loop (seqZ 0x80 0x80) (m_regs s);
    mret (VSCP_ERROR_SUCCESS, StandardRegisters (std_level s) rs (std_change s)).

(** The registers from [reg] on. *)
Fixpoint std_read (n : nat) (reg : Z) : M CStandardRegisters (list Z) :=
  match n with
  | O => mret []
  | S n => v ← CStandardRegisters_getReg reg; vs ← std_read n (reg + 1); mret (v :: vs)
  end.

(** Four registers as a uint32_t. *)
Definition std_read32 (reg : Z) : M CStandardRegisters Z :=
  bs ← std_read 4 reg;
  mret (u32 (Z.shiftl (nth 0 bs 0) 24 + Z.shiftl (nth 1 bs 0) 16 + Z.shiftl (nth 2 bs 0) 8 + nth 3 bs 0)).

Definition getAlarm : M CStandardRegisters Z := CStandardRegisters_getReg 0x80.
Definition getConformanceVersionMajor : M CStandardRegisters Z := CStandardRegisters_getReg 0x81.
Definition getConformanceVersionMinor : M CStandardRegisters Z := CStandardRegisters_getReg 0x82.
Definition getErrorCounter : M CStandardRegisters Z := CStandardRegisters_getReg 0x83.
Definition getUserId (i : Z) : M CStandardRegisters Z := CStandardRegisters_getReg (u8 (0x84 + i)).
Definition getUserId_all : M CStandardRegisters (list Z) := std_read 5 0x84.
Definition getManufacturerDeviceID : M CStandardRegisters Z := std_read32 0x89.
Definition getManufacturerSubDeviceID : M CStandardRegisters Z := std_read32 0x8D.
Definition CStandardRegisters_getNickname : M CStandardRegisters Z := CStandardRegisters_getReg 0x91.
Definition CStandardRegisters_getRegisterPage : M CStandardRegisters Z :=
  bs ← std_read 2 0x92; mret (u16 (nth 0 bs 0 * 256 + nth 1 bs 0)).
Definition getFirmwareMajorVersion : M CStandardRegisters Z := CStandardRegisters_getReg 0x94.
Definition getFirmwareMinorVersion : M CStandardRegisters Z := CStandardRegisters_getReg 0x95.
Definition getFirmwareSubMinorVersion : M CStandardRegisters Z := CStandardRegisters_getReg 0x96.
Definition getBootloaderAlgorithm : M CStandardRegisters Z := CStandardRegisters_getReg 0x97.
Definition getBufferSize : M CStandardRegisters Z := CStandardRegisters_getReg 0x98.
Definition getNumberOfRegisterPages : M CStandardRegisters Z := CStandardRegisters_getReg 0x99.
Definition getStandardDeviceFamilyCode : M CStandardRegisters Z := std_read32 0x9A.
Definition getStandardDeviceFamilyType : M CStandardRegisters Z := std_read32 0x9E.
Definition getFirmwareDeviceCode : M CStandardRegisters Z :=
  bs ← std_read 2 0xA3; mret (u16 (Z.shiftl (nth 0 bs 0) 8 + nth 1 bs 0)).

Definition getFirmwareVersionString : M CStandardRegisters (list Z) :=
  bs ← std_read 3 0x94;
  mret (dec (nth 0 bs 0) ++ str "." ++ dec (nth 1 bs 0) ++ str "." ++ dec (nth 2 bs 0)).

Fixpoint guid_loop (is_ : list Z) (guid : list Z) : M CStandardRegisters (list Z) :=
  match is_ with
  | [] => mret guid
  | i :: is_ => v ← CStandardRegisters_getReg (0xd0 + i); guid_loop is_ (setAt i v guid)
  end.

Definition CStandardRegisters_getGUID (guid : list Z) : M CStandardRegisters (list Z) := guid_loop (seqZ 0 16) guid.

(** A new GUID is zero. *)
Definition getGUIDStr : M CStandardRegisters (list Z) :=
  g ← CStandardRegisters_getGUID (replicate 16 0); mret (toString g).

(** The string ends at the first zero; the byte behind the 32 is not
    initialised. *)
Definition getMDF : M CStandardRegisters (list Z) :=
  url ← std_read 32 0xe0;
  if existsb (Z.eqb 0) url then mret (c_str url) else undefined.

Definition CStandardRegisters_hasChanges (s : CStandardRegisters) : bool := has_change (std_change s).
Definition CStandardRegisters_clearChanges (s : CStandardRegisters) : CStandardRegisters :=
  StandardRegisters (std_level s) (m_regs s) ∅.
Definition CStandardRegisters_setChangedState (offset : Z) (state : bool) (s : CStandardRegisters) : CStandardRegisters :=
  StandardRegisters (std_level s) (m_regs s) (<[offset := state]> (std_change s)).
Definition CStandardRegisters_isChanged (offset : Z) : M CStandardRegisters bool := fun s =>
  let b := default false (std_change s !! offset) in
  Returns (b, StandardRegisters (std_level s) (m_regs s) (<[offset := b]> (std_change s))).

(** ** CUserRegisters *)

(** A null pointer in the map is [None]. *)
Record CUserRegisters := UserRegisters {
  user_level : Z;
  m_pages : gset Z;
  m_registerPageMap : gmap Z (option CRegisterPage)
}.

Definition new_CUserRegisters (level : Z) : CUserRegisters := UserRegisters level ∅ ∅.

(** [m_registerPageMap[page]], a null pointer for a missing page, which it adds;
    then [null] or the method on the page. *)
Definition on_page {A} (page : Z) (null : M CUserRegisters A) (m : M CRegisterPage A) : M CUserRegisters A :=
  u ← get;
  let with_page p := UserRegisters (user_level u) (m_pages u) (<[page := p]> (m_registerPageMap u)) in
  match m_registerPageMap u !! page with
  | Some (Some p) => '(a, p) ← method m p; _ ← put (with_page (Some p)); mret a
  | _ => _ ← put (with_page None); null
  end.

(** The keys of the map in order. *)
Definition page_numbers (u : CUserRegisters) : list Z := merge_sort Z.le (map fst (map_to_list (m_registerPageMap u))).

Section user_init.
Context {W : Type} `{VscpClient W}.

(** The pages read so far stay when a read fails, the page at which it failed
    without registers.  Pages of an earlier call stay in the map. *)
Fixpoint init_pages (fuel : nat) (guidNode guidInterface : list Z) (statusCallback : option (Z -> W -> W)) (timeout : Z)
    (pages : list Z) (rv : Z) (u : CUserRegisters) : M W (Z * CUserRegisters) :=
  match pages with
  | [] => mret (rv, u)
  | page :: pages =>
      let p := new_CRegisterPage (user_level u) page in
      let u := UserRegisters (user_level u) (m_pages u) (<[page := Some p]> (m_registerPageMap u)) in
      '(rv, rs) ← vscp_readLevel1RegisterBlock fuel guidNode guidInterface page 0 128 ∅ statusCallback timeout;
      if negb (rv =? VSCP_ERROR_SUCCESS) then mret (rv, u)
      else
        '(_, p) ← method (CRegisterPage_putLevel1Registers rs) p;
        init_pages fuel guidNode guidInterface statusCallback timeout pages rv
          (UserRegisters (user_level u) ({[page]} ∪ m_pages u)
             (<[page := Some (CRegisterPage_clearChanges p)]> (m_registerPageMap u)))
  end.

Definition CUserRegisters_init (fuel : nat) (guidNode guidInterface : list Z) (pages : list Z)
    (statusCallback : option (Z -> W -> W)) (timeout : Z) (u : CUserRegisters) : M W (Z * CUserRegisters) :=
  init_pages fuel guidNode guidInterface statusCallback timeout pages VSCP_ERROR_SUCCESS
    (UserRegisters (user_level u) ∅ (m_registerPageMap u)).
End user_init.

(** The pointers are given by what they point to. *)
Definition getRegisterPage (page : Z) : M CUserRegisters (option CRegisterPage) :=
  on_page page (mret None) (p ← get; mret (Some p)).
Definition getRegisterMap (page : Z) : M CUserRegisters (option (gmap Z Z)) :=
  on_page page (mret None) (p ← get; mret (Some (m_registers p))).

Definition CUserRegisters_getReg (offset page : Z) : M CUserRegisters Z :=
  on_page page (mret (-1)) (p ← get; mret (default (-1) (m_registers p !! offset))).

(** The pointer is not looked at; the number of the page goes untruncated into
    the set of pages. *)
Definition CUserRegisters_putReg (reg page value : Z) : M CUserRegisters bool :=
  u ← get;
  if (user_level u =? VSCP_LEVEL1) && (127 <? reg) then mret false
  else if (user_level u =? VSCP_LEVEL2) && (0xffffff80 <? page) then mret false
  else if negb (user_level u =? VSCP_LEVEL1) && negb (user_level u =? VSCP_LEVEL2) then mret false
  else
    _ ← on_page (u16 page) undefined (CRegisterPage_putReg reg value);
    u ← get;
    _ ← put (UserRegisters (user_level u) ({[page]} ∪ m_pages u) (m_registerPageMap u));
    mret true.

Definition CUserRegisters_setChangedState (offset page : Z) (state : bool) : M CUserRegisters bool :=
  on_page page (mret false) (_ ← CRegisterPage_setChangedState offset state; mret true).
Definition CUserRegisters_isChanged (offset page : Z) : M CUserRegisters bool :=
  on_page page (mret false) (CRegisterPage_isChanged offset).
Definition CUserRegisters_hasWrittenChange (offset page : Z) : M CUserRegisters bool :=
  on_page page (mret false) (CRegisterPage_hasWrittenChange offset).

(** A method on every page: following a null pointer is undefined. *)
Definition every_page (f : CRegisterPage -> CRegisterPage) : M CUserRegisters unit := fun u =>
  if bool_decide (map_Forall (fun _ p => is_Some p) (m_registerPageMap u))
  then Returns (tt, UserRegisters (user_level u) (m_pages u) (option_map f <$> m_registerPageMap u))
  else Undefined.

Definition CUserRegisters_clearChanges : M CUserRegisters unit := every_page CRegisterPage_clearChanges.
Definition CUserRegisters_clearHistory : M CUserRegisters unit := every_page CRegisterPage_clearHistory.

(** The first page with changes ends the loop. *)
Fixpoint changes_loop (pages : list Z) (m : gmap Z (option CRegisterPage)) : option bool :=
  match pages with
  | [] => Some false
  | page :: pages =>
      p ← default None (m !! page);
      if CRegisterPage_hasChanges p then Some true else changes_loop pages m
  end.

Definition CUserRegisters_hasChanges : M CUserRegisters bool :=
  u ← get; defined (changes_loop (page_numbers u) (m_registerPageMap u)).

(** ** Remote variables *)

Inductive vscp_remote_variable_type :=
  | remote_variable_type_unknown
  | remote_variable_type_string
  | remote_variable_type_boolean
  | remote_variable_type_int8_t
  | remote_variable_type_uint8_t
  | remote_variable_type_int16_t
  | remote_variable_type_uint16_t
  | remote_variable_type_int32_t
  | remote_variable_type_uint32_t
  | remote_variable_type_int64_t
  | remote_variable_type_uint64_t
  | remote_variable_type_float
  | remote_variable_type_double
  | remote_variable_type_date
  | remote_variable_type_time.

(** What the conversions use of CMDF_RemoteVariable: [m_size] is the size of a
    string. *)
Record CMDF_RemoteVariable := RemoteVariable {
  m_type : vscp_remote_variable_type;
  rv_page : Z;
  m_offset : Z;
  m_bitpos : Z;
  m_size : Z
}.

Definition getBitPos (v : CMDF_RemoteVariable) : Z := Z.land (m_bitpos v) 0x07.

Definition getTypeByteCount (v : CMDF_RemoteVariable) : Z :=
  match m_type v with
  | remote_variable_type_string => m_size v
  | remote_variable_type_boolean => 1
  | remote_variable_type_int8_t | remote_variable_type_uint8_t => 1
  | remote_variable_type_int16_t | remote_variable_type_uint16_t => 2
  | remote_variable_type_int32_t | remote_variable_type_uint32_t => 4
  | remote_variable_type_int64_t | remote_variable_type_uint64_t => 8
  | remote_variable_type_float => 4
  | remote_variable_type_double => 8
  | remote_variable_type_date | remote_variable_type_time => 3
  | remote_variable_type_unknown => 0
  end.

(** %x of a number below 2^64 with at least [width] digits. *)
Definition hex_text (width : nat) (n : Z) : list Z :=
  let ds := map dchar_lower (digits 16 16 n) in replicate (width - length ds) 48 ++ ds.

(** Registers into a buffer of bytes, the offset a uint32_t. *)
Fixpoint read_bytes (n : nat) (offset : Z) : M CRegisterPage (list Z) :=
  match n with
  | O => mret []
  | S n => v ← CRegisterPage_getReg offset; bs ← read_bytes n (u32 (offset + 1)); mret (u8 v :: bs)
  end.

(** The string is filled from the index of the register, not from 0; [i] is an
    unsigned int. *)
Fixpoint string_loop (n : nat) (i : Z) (buf : list Z) : M CRegisterPage (list Z) :=
  match n with
  | O => mret buf
  | S n =>
      v ← CRegisterPage_getReg i;
      buf ← defined (wr buf (Z.to_nat i) [u8 v]);
      string_loop n (i + 1) buf
  end.

(** %02d of the bytes 0, 2 and 4. *)
Definition two_digits (n : Z) : list Z := let ds := dec n in replicate (2 - length ds) 48 ++ ds.
Definition triple (sep bs : list Z) : option (list Z) :=
  a ← rd bs 0; b ← rd bs 2; c ← rd bs 4;
  Some (two_digits a ++ sep ++ two_digits b ++ sep ++ two_digits c).

Section text.
(** What printf gives for a float with %f and for a double with %g, from the
    bytes in memory. *)
Variables float_text double_text : list Z -> list Z.

(** The value of the conversions.  A conversion whose argument is of another
    kind or width than the argument given is undefined: %ha (of "%had") takes a
    double, %ld a long where the argument is an int32_t, %u (of "%ullu" and
    "%ullx") an unsigned int where it is a uint64_t.  "hd" is a text without a
    conversion.  *)
Definition value_text (v : CMDF_RemoteVariable) (decimal : bool) : M CRegisterPage (list Z) :=
  let bytes := read_bytes (Z.to_nat (getTypeByteCount v)) (m_offset v) in
  match m_type v with
  | remote_variable_type_string =>
      let n := getTypeByteCount v in
      buf ← string_loop (Z.to_nat (u32 (m_offset v + n) - m_offset v)) (m_offset v) (replicate (Z.to_nat (n + 1)) 0);
      mret (c_str buf)
  | remote_variable_type_boolean =>
      b ← CRegisterPage_getReg (Z.land (m_offset v) (Z.shiftl 1 (getBitPos v)));
      mret (if negb (b =? 0) then str "true" else str "false")
  | remote_variable_type_int8_t =>
      b ← CRegisterPage_getReg (m_offset v);
      if decimal then undefined else mret (str "0x" ++ hex_text 2 (u16 b))
  | remote_variable_type_uint8_t =>
      b ← CRegisterPage_getReg (m_offset v);
      mret (if decimal then dec (u16 b) else str "0x" ++ hex_text 2 (u16 b))
  | remote_variable_type_int16_t =>
      bs ← bytes;
      let val := s16 (Z.shiftl (nth 0 bs 0) 8 + nth 1 bs 0) in
      mret (if decimal then dec val else str "0x" ++ hex_text 4 (u16 val))
  | remote_variable_type_uint16_t =>
      bs ← bytes;
      let val := u16 (Z.shiftl (nth 0 bs 0) 8 + nth 1 bs 0) in
      mret (if decimal then str "hd" else str "0x" ++ hex_text 4 val)
  | remote_variable_type_int32_t | remote_variable_type_uint32_t => _ ← bytes; undefined
  | remote_variable_type_int64_t =>
      bs ← bytes;
      let val := s64 (of_be bs) in
      mret (if decimal then dec val else str "0x" ++ hex_text 1 (u64 val))
  | remote_variable_type_uint64_t => _ ← bytes; undefined
  | remote_variable_type_float => bs ← bytes; mret (float_text bs)
  | remote_variable_type_double => bs ← bytes; mret (double_text bs)
  | remote_variable_type_date => bs ← bytes; defined (triple (str "-") bs)
  | remote_variable_type_time => bs ← bytes; defined (triple (str ":") bs)
  | remote_variable_type_unknown => mret []
  end.

Definition remoteVarFromRegToString (v : CMDF_RemoteVariable) (strValue : list Z) (format : Z)
    : M CUserRegisters (Z * list Z) :=
  on_page (rv_page v) (mret (VSCP_ERROR_ERROR, strValue))
    (s ← value_text v (format =? 0); mret (VSCP_ERROR_SUCCESS, s)).
End text.

(** The bytes of a number, from a register on; the offset is a uint32_t. *)
Fixpoint put_bytes (offset : Z) (bytes : list Z) : M CRegisterPage unit :=
  match bytes with
  | [] => mret tt
  | b :: bytes => _ ← CRegisterPage_putReg offset b; put_bytes (u32 (offset + 1)) bytes
  end.

(** An int64_t as a double: its bits, rounded to nearest even. *)
Definition double_bits (n : Z) : Z :=
  if n =? 0 then 0
  else
    let m := Z.abs n in
    let e := Z.log2 m in
    let mant :=
      if e <=? 52 then Z.shiftl m (52 - e)
      else
        let d := 2 ^ (e - 52) in
        let q := m / d in
        let r := m mod d in
        if (d <? 2 * r) || ((d =? 2 * r) && Z.odd q) then q + 1 else q in
    (if n <? 0 then 2 ^ 63 else 0) + (e + 1023) * 2 ^ 52 + (mant - 2 ^ 52).

(** Three numbers, each in a byte. *)
Definition put_triple (offset : Z) (strValue : list Z) : M CRegisterPage unit :=
  match vscp_split strValue (str ":") with
  | [a; b; c] =>
      _ ← CRegisterPage_putReg offset (u8 (vscp_readStringValue a));
      _ ← CRegisterPage_putReg (u32 (offset + 1)) (u8 (vscp_readStringValue b));
      _ ← CRegisterPage_putReg (u32 (offset + 2)) (u8 (vscp_readStringValue c));
      mret tt
  | _ => mret tt
  end.

(** A float is read as eight bytes.  A double has its bytes swapped to a
    uint64_t, whose value is converted to a double again, stored with its least
    significant byte first. *)
Definition store_text (v : CMDF_RemoteVariable) (strValue : list Z) : M CRegisterPage unit :=
  let val := vscp_readStringValue strValue in
  match m_type v with
  | remote_variable_type_string => put_bytes (m_offset v) strValue
  | remote_variable_type_boolean =>
      old ← CRegisterPage_getReg (m_offset v);
      let old := u8 old in
      let bit := Z.shiftl 1 (getBitPos v) in
      let val :=
        if bool_decide (strValue = str "true") then u8 (Z.lor old bit)
        else if bool_decide (strValue = str "false") then u8 (Z.land old (Z.lnot bit))
        else u8 val in
      _ ← CRegisterPage_putReg (m_offset v) val; mret tt
  | remote_variable_type_int8_t | remote_variable_type_uint8_t => put_bytes (m_offset v) (be 1 val)
  | remote_variable_type_int16_t | remote_variable_type_uint16_t => put_bytes (m_offset v) (be 2 val)
  | remote_variable_type_int32_t | remote_variable_type_uint32_t => put_bytes (m_offset v) (be 4 val)
  | remote_variable_type_int64_t | remote_variable_type_uint64_t => put_bytes (m_offset v) (be 8 val)
  | remote_variable_type_float => undefined
  | remote_variable_type_double =>
      let swapped := of_be (rev (be 8 (double_bits val))) in
      put_bytes (m_offset v) (rev (be 8 (double_bits swapped)))
  | remote_variable_type_date | remote_variable_type_time => put_triple (m_offset v) strValue
  | remote_variable_type_unknown => mret tt
  end.

Definition remoteVarFromStringToReg (v : CMDF_RemoteVariable) (strValue : list Z) : M CUserRegisters Z :=
  on_page (rv_page v) (mret VSCP_ERROR_ERROR) (_ ← store_text v strValue; mret VSCP_ERROR_SUCCESS).

(** ** Decision matrices *)

Record CMDF_DecisionMatrix := DecisionMatrix { m_startPage : Z; m_startOffset : Z; m_rowCount : Z; m_rowSize : Z }.

(** The register of a position in a row, of the product of two [int]s; the
    offset at which the matrix starts is not added. *)
Definition dm_register (dm : CMDF_DecisionMatrix) (row i : Z) : option Z :=
  let n := m_rowSize dm * row + i in if n <? 2 ^ 31 then Some n else None.

(** The position is checked, and the first register of the row is read. *)
Definition vscp_getGetDmRegisterContent (dm : CMDF_DecisionMatrix) (row pos : Z) : M CUserRegisters Z :=
  on_page (m_startPage dm) (mret VSCP_ERROR_ERROR)
    (if m_rowCount dm <=? row then mret VSCP_ERROR_ERROR
     else if m_rowSize dm <=? pos then mret VSCP_ERROR_ERROR
     else reg ← defined (dm_register dm row 0); CRegisterPage_getReg reg).

(** The loops over a row: [i] is a uint8_t, the size of a row a uint16_t. *)
Fixpoint read_row (fuel : nat) (dm : CMDF_DecisionMatrix) (row i : Z) (buf : list Z) : M CRegisterPage (list Z) :=
  match fuel with
  | O => out_of_fuel
  | S fuel =>
      if i <? m_rowSize dm then
        reg ← defined (dm_register dm row i);
        v ← CRegisterPage_getReg reg;
        buf ← defined (wr buf (Z.to_nat i) [u8 v]);
        read_row fuel dm row (u8 (i + 1)) buf
      else mret buf
  end.

Fixpoint write_row (fuel : nat) (dm : CMDF_DecisionMatrix) (row i : Z) (buf : list Z) : M CRegisterPage unit :=
  match fuel with
  | O => out_of_fuel
  | S fuel =>
      if i <? m_rowSize dm then
        reg ← defined (dm_register dm row i);
        b ← defined (rd buf (Z.to_nat i));
        _ ← CRegisterPage_putReg reg b;
        write_row fuel dm row (u8 (i + 1)) buf
      else mret tt
  end.

Definition vscp_readDmRow (fuel : nat) (dm : CMDF_DecisionMatrix) (row : Z) (buf : list Z) : M CUserRegisters (Z * list Z) :=
  on_page (m_startPage dm) (mret (VSCP_ERROR_ERROR, buf))
    (if m_rowCount dm <=? row then mret (VSCP_ERROR_ERROR, buf)
     else buf ← read_row fuel dm row 0 buf; mret (VSCP_ERROR_SUCCESS, buf)).

Definition vscp_writeDmRow (fuel : nat) (dm : CMDF_DecisionMatrix) (row : Z) (buf : list Z) : M CUserRegisters Z :=
  on_page (m_startPage dm) (mret VSCP_ERROR_ERROR)
    (if m_rowCount dm <=? row then mret VSCP_ERROR_ERROR
     else _ ← write_row fuel dm row 0 buf; mret VSCP_ERROR_SUCCESS).

(** ** Lemmas: pages *)

(** The value of a register, and whether a page has it. *)
Definition view (p : CRegisterPage) (k : Z) : Z := default 0 (m_registers p !! k).
Definition in_page (p : CRegisterPage) (k : Z) : Prop := 0 <= k < 2 ^ 32 /\ (m_level p = VSCP_LEVEL1 -> k <= 127).
Definition page_ok (p : CRegisterPage) : Prop := forall k, is_u8 (view p k).

(** Two pages that differ in elements with value 0 only. *)
Record same_page (p q : CRegisterPage) : Prop := {
  same_level : m_level q = m_level p;
  same_number : m_page q = m_page p;
  same_view : forall k, view q k = view p k;
  same_change : m_change q = m_change p;
  same_undo : m_list_undo_value q = m_list_undo_value p
}.

#[export] Instance same_page_equiv : Equivalence same_page.
Proof.
  split.
  - intros p. split; reflexivity.
  - intros p q [? ? V ? ?]. split; try congruence; intros k; rewrite V; reflexivity.
  - intros p q r [? ? V1 ? ?] [? ? V2 ? ?]. split; try congruence; intros k; rewrite V2; apply V1.
Qed.

#[export] Instance page_ok_proper : Proper (same_page ==> iff) page_ok.
Proof. intros p q E. unfold page_ok. split; intros H k; [rewrite (same_view _ _ E)|rewrite <- (same_view _ _ E)]; apply H. Qed.

#[export] Instance in_page_proper : Proper (same_page ==> eq ==> iff) in_page.
Proof. intros p q E k _ <-. unfold in_page. rewrite (same_level _ _ E). reflexivity. Qed.

Lemma index_same k (m : registers) j : default 0 ((index k m).2 !! j) = default 0 (m !! j).
Proof.
  unfold index. cbn [snd]. destruct (decide (j = k)) as [->|N]; [rewrite lookup_insert_eq; reflexivity|].
  rewrite lookup_insert_ne by congruence. reflexivity.
Qed.

Lemma range_check p k : in_page p k -> (m_level p =? VSCP_LEVEL1) && (127 <? k) = false.
Proof. intros [_ H]. destruct (Z.eqb_spec (m_level p) VSCP_LEVEL1); [|reflexivity]. cbn [andb]. apply Z.ltb_ge. auto. Qed.

Lemma page_getReg_spec p k :
  in_page p k -> exists q, CRegisterPage_getReg k p = Returns (view p k, q) /\ same_page p q.
Proof.
  intros H. unfold CRegisterPage_getReg. rewrite (range_check p k H).
  eexists. split; [reflexivity|]. split; try reflexivity. intros j. apply (index_same k (m_registers p) j).
Qed.

Lemma page_putReg_spec p k v :
  in_page p k -> exists q, CRegisterPage_putReg k v p = Returns (v, q) /\
    m_level q = m_level p /\ m_page q = m_page p /\
    (forall j, view q j = if j =? k then v else view p j) /\
    (forall j, default false (m_change q !! j) = default false (m_change p !! j) || ((j =? k) && negb (view p k =? v))) /\
    (forall j, default [] (m_list_undo_value q !! j) =
       default [] (m_list_undo_value p !! j) ++ if (j =? k) && negb (view p k =? v) then [view p k] else []).
Proof.
  intros H. unfold CRegisterPage_putReg. pose proof (range_check p k H) as R.
  assert ((m_level p =? VSCP_LEVEL1) && (128 <? k) = false) as ->.
  { destruct (m_level p =? VSCP_LEVEL1); [|reflexivity]. cbn [andb] in *. apply Z.ltb_ge in R. apply Z.ltb_ge. lia. }
  change (index k (m_registers p)) with (view p k, <[k := view p k]> (m_registers p)). cbv beta iota zeta.
  assert (V : forall r, view r = fun j => default 0 (m_registers r !! j)) by reflexivity.
  destruct (Z.eqb_spec (view p k) v) as [E|N]; cbn [negb]; (eexists; split; [reflexivity|]); split_and!; try reflexivity;
    intros j; cbn [m_change m_list_undo_value]; try (rewrite V; cbn [m_registers]); destruct (Z.eqb_spec j k) as [->|Nj];
    rewrite ?lookup_insert_eq, ?lookup_insert_ne by congruence; cbn [from_option id andb]; rewrite ?orb_false_r, ?orb_true_r, ?app_nil_r; try reflexivity.
Qed.

Lemma read_bytes_spec n : forall p offset, page_ok p ->
  (forall k, offset <= k < offset + Z.of_nat n -> in_page p k) ->
  exists q, read_bytes n offset p = Returns (map (view p) (seqZ offset (Z.of_nat n)), q) /\ same_page p q.
Proof.
  induction n as [|n IH]; intros p offset Ho Hr; [eexists; split; reflexivity|].
  destruct (page_getReg_spec p offset) as (q1 & E1 & S1); [apply Hr; lia|]. cbn [read_bytes].
  rewrite (bind_returns _ _ _ _ _ E1). rewrite seqZ_cons by lia. cbn [map].
  assert (U : n <> O -> u32 (offset + 1) = Z.succ offset).
  { intros N. pose proof (proj1 (Hr (offset + 1) ltac:(lia))). apply u32_id. unfold is_u32. lia. }
  rewrite u8_id by apply Ho. replace (Z.pred (Z.of_nat (S n))) with (Z.of_nat n) by lia.
  destruct n as [|n]; [exists q1; cbn [read_bytes]; rewrite bind_ret; split; [reflexivity|exact S1]|].
  rewrite U by lia. destruct (IH q1 (Z.succ offset)) as (q & E & S).
  - rewrite <- S1. exact Ho.
  - intros k Hk. rewrite <- S1. apply Hr. lia.
  - rewrite (bind_returns _ _ _ _ _ E). exists q. split; [|rewrite S1; exact S].
    rewrite (map_ext (view q1) (view p) (same_view _ _ S1)). reflexivity.
Qed.

(** A page after writes: the registers change as [f] says, nothing else is said
    of it. *)
Record written_page (f : Z -> Z -> Z) (p q : CRegisterPage) : Prop := {
  written_level : m_level q = m_level p;
  written_view : forall k, view q k = f k (view p k)
}.

Lemma in_page_level p q k : m_level q = m_level p -> in_page p k -> in_page q k.
Proof. unfold in_page. intros ->. exact (fun x => x). Qed.

(** Decides the comparisons of a goal. *)
Ltac compare :=
  repeat match goal with
    | |- context [?a <=? ?b] => destruct (Z.leb_spec a b)
    | |- context [?a <? ?b] => destruct (Z.ltb_spec a b)
    | |- context [?a =? ?b] => destruct (Z.eqb_spec a b)
    end; cbn [andb orb negb]; try lia; try reflexivity.

Lemma nth_shift (b : Z) bs offset k :
  offset + 1 <= k -> nth (Z.to_nat (k - offset)) (b :: bs) 0 = nth (Z.to_nat (k - (offset + 1))) bs 0.
Proof. intros Hk. replace (Z.to_nat (k - offset)) with (S (Z.to_nat (k - (offset + 1)))) by lia. reflexivity. Qed.

Definition overlay (offset : Z) (bs : list Z) (k old : Z) : Z :=
  if (offset <=? k) && (k <? offset + Z.of_nat (length bs)) then nth (Z.to_nat (k - offset)) bs 0 else old.

Lemma overlay_cons offset b bs k old :
  overlay offset (b :: bs) k old = overlay (offset + 1) bs k (if k =? offset then b else old).
Proof.
  unfold overlay. cbn [length]. destruct (Z.eqb_spec k offset) as [->|N].
  - rewrite Z.sub_diag. compare.
  - compare. apply nth_shift. lia.
Qed.

Lemma put_bytes_spec bs : forall p offset,
  (forall k, offset <= k < offset + Z.of_nat (length bs) -> in_page p k) ->
  exists q, put_bytes offset bs p = Returns (tt, q) /\ written_page (overlay offset bs) p q.
Proof.
  induction bs as [|b bs IH]; intros p offset Hr.
  { eexists. split; [reflexivity|]. split; [reflexivity|]. intros k. unfold overlay. cbn [length]. compare. }
  destruct (page_putReg_spec p offset b) as (q1 & E1 & L1 & _ & V1 & _); [apply Hr; cbn [length]; lia|].
  cbn [put_bytes]. rewrite (bind_returns _ _ _ _ _ E1).
  assert (W1 : written_page (overlay offset (b :: bs)) p q1 \/ bs <> []).
  { destruct bs; [left|right; discriminate]. split; [exact L1|]. intros k. rewrite V1, overlay_cons. unfold overlay. cbn [length]. compare. }
  destruct bs as [|b' bs]; [destruct W1 as [W1|[]]; [|reflexivity]; exists q1; split; [reflexivity|exact W1]|]. clear W1.
  rewrite u32_id by (pose proof (proj1 (Hr (offset + 1) ltac:(cbn [length]; lia))); unfold is_u32; lia).
  destruct (IH q1 (offset + 1)) as (q & E & L & V).
  - intros k Hk. apply (in_page_level p); [exact L1|]. apply Hr. cbn [length] in *. lia.
  - exists q. split; [exact E|]. split; [congruence|]. intros k. rewrite V, V1, (overlay_cons offset b). reflexivity.
Qed.

Lemma overlay_ok p q offset bs : page_ok p -> bytes_ok bs -> written_page (overlay offset bs) p q -> page_ok q.
Proof.
  intros Hp Hb [_ V] k. rewrite V. unfold overlay. destruct (_ && _) eqn:E; [|apply Hp].
  apply andb_prop in E as [E1%Z.leb_le E2%Z.ltb_lt]. rewrite list.Forall_forall in Hb. apply Hb, list_elem_of_In, nth_In. lia.
Qed.

Lemma map_overlay p q offset bs :
  written_page (overlay offset bs) p q -> map (view q) (seqZ offset (Z.of_nat (length bs))) = bs.
Proof.
  intros [_ V]. apply list_eq. intros i. rewrite list_lookup_fmap.
  destruct (decide (i < length bs)%nat) as [Hi|Hi].
  - rewrite lookup_seqZ_lt by lia. cbn [fmap option_fmap option_map]. rewrite V. unfold overlay.
    rewrite (proj2 (Z.leb_le _ _)), (proj2 (Z.ltb_lt _ _)) by lia. cbn [andb].
    replace (Z.to_nat (offset + Z.of_nat i - offset)) with i by lia.
    destruct (lookup_lt_is_Some_2 _ _ Hi) as [x Ex]. rewrite Ex. f_equal. apply nth_lookup_Some, Ex.
  - rewrite lookup_seqZ_ge, lookup_ge_None_2 by lia. reflexivity.
Qed.

(** ** Lemmas: methods on a page of the map *)

Definition page_set (page : Z) (p : option CRegisterPage) (u : CUserRegisters) : CUserRegisters :=
  UserRegisters (user_level u) (m_pages u) (<[page := p]> (m_registerPageMap u)).

Lemma on_page_returns {A} page null (m : M CRegisterPage A) u p a q :
  m_registerPageMap u !! page = Some (Some p) -> m p = Returns (a, q) ->
  on_page page null m u = Returns (a, page_set page (Some q) u).
Proof. intros E Em. unfold on_page, get, put, method, mbind, M_bind. rewrite E, Em. reflexivity. Qed.

Lemma on_page_undefined {A} page null (m : M CRegisterPage A) u p :
  m_registerPageMap u !! page = Some (Some p) -> m p = Undefined -> on_page page null m u = Undefined.
Proof. intros E Em. unfold on_page, get, put, method, mbind, M_bind. rewrite E, Em. reflexivity. Qed.

Lemma on_page_null {A} page null (m : M CRegisterPage A) u :
  default None (m_registerPageMap u !! page) = None -> on_page page null m u = null (page_set page None u).
Proof.
  intros E. unfold on_page, get, put, method, mbind, M_bind.
  destruct (m_registerPageMap u !! page) as [[p|]|]; [discriminate|reflexivity..].
Qed.

(** ** Lemmas: remote variables *)

Definition integer_bytes (t : vscp_remote_variable_type) : option nat :=
  match t with
  | remote_variable_type_int8_t | remote_variable_type_uint8_t => Some 1%nat
  | remote_variable_type_int16_t | remote_variable_type_uint16_t => Some 2%nat
  | remote_variable_type_int32_t | remote_variable_type_uint32_t => Some 4%nat
  | remote_variable_type_int64_t | remote_variable_type_uint64_t => Some 8%nat
  | _ => None
  end.

(** The text that comes back for a number; [None] is undefined behaviour. *)
Definition number_text (t : vscp_remote_variable_type) (decimal : bool) (n : Z) : option (list Z) :=
  match t with
  | remote_variable_type_int8_t => if decimal then None else Some (str "0x" ++ hex_text 2 (u8 n))
  | remote_variable_type_uint8_t => Some (if decimal then dec (u8 n) else str "0x" ++ hex_text 2 (u8 n))
  | remote_variable_type_int16_t => Some (if decimal then dec (s16 n) else str "0x" ++ hex_text 4 (u16 n))
  | remote_variable_type_uint16_t => Some (if decimal then str "hd" else str "0x" ++ hex_text 4 (u16 n))
  | remote_variable_type_int64_t => Some (if decimal then dec (s64 n) else str "0x" ++ hex_text 1 (u64 n))
  | _ => None
  end.

Lemma store_integer v s p n :
  integer_bytes (m_type v) = Some n ->
  (forall k, m_offset v <= k < m_offset v + Z.of_nat n -> in_page p k) ->
  exists q, store_text v s p = Returns (tt, q) /\ written_page (overlay (m_offset v) (be n (vscp_readStringValue s))) p q.
Proof.
  intros E Hr. assert (Q : store_text v s = put_bytes (m_offset v) (be n (vscp_readStringValue s))).
  { unfold store_text. destruct (m_type v); injection E as <- || discriminate E; reflexivity. }
  rewrite Q. apply put_bytes_spec. rewrite length_be. exact Hr.
Qed.

Lemma two_be x : Z.shiftl (nth 0 (be 2 x) 0) 8 + nth 1 (be 2 x) 0 = u16 x.
Proof.
  assert (E : of_be (be 2 x) = u16 x) by (rewrite of_be_be; reflexivity). pose proof (length_be 2 x) as L.
  destruct (be 2 x) as [|a [|b [|]]]; try discriminate L. rewrite <- E, Z.shiftl_mul_pow2 by lia.
  cbn [nth of_be foldl]. change (2 ^ 8) with 256. lia.
Qed.

Lemma eight_be x : of_be (be 8 x) = u64 x.
Proof. apply of_be_be. Qed.

Lemma signed_16 x : s16 (u16 x) = s16 x /\ u16 (s16 x) = u16 x.
Proof. unfold s16. change (2 ^ 15) with 32768. split; width. Qed.

Lemma signed_64 x : s64 (u64 x) = s64 x /\ u64 (s64 x) = u64 x.
Proof. split; width. Qed.

Lemma value_text_integer f g v decimal p q n x :
  integer_bytes (m_type v) = Some n -> page_ok q ->
  (forall k, m_offset v <= k < m_offset v + Z.of_nat n -> in_page q k) ->
  written_page (overlay (m_offset v) (be n x)) p q ->
  match number_text (m_type v) decimal x with
  | Some t => exists q', value_text f g v decimal q = Returns (t, q') /\ same_page q q'
  | None => value_text f g v decimal q = Undefined
  end.
Proof.
  intros E Hq Hr Wr.
  assert (Z.to_nat (getTypeByteCount v) = n) as N by (unfold getTypeByteCount; destruct (m_type v); injection E as <- || discriminate E; reflexivity).
  destruct (read_bytes_spec n q (m_offset v) Hq Hr) as (q' & R & Sm).
  rewrite <- (length_be n x), (map_overlay p q _ _ Wr), length_be in R.
  destruct (page_getReg_spec q (m_offset v)) as (q1 & R1 & S1).
  { apply Hr. destruct (m_type v); injection E as <- || discriminate E; lia. }
  assert (B1 : n = 1%nat -> view q (m_offset v) = u8 x).
  { intros ->. pose proof (map_overlay p q _ _ Wr) as Q. injection Q as Q. exact Q. }
  assert (U : forall y, u16 (u8 y) = u8 y) by (intros; width).
  unfold value_text. rewrite N. destruct (m_type v); injection E as <- || discriminate E; cbn [number_text].
  all: rewrite ?(bind_returns _ _ _ _ _ R), ?(bind_returns _ _ _ _ _ R1); rewrite ?B1, ?U by reflexivity.
  all: try (destruct decimal; eauto; fail).
  all: try reflexivity.
  all: rewrite ?two_be, ?eight_be, ?(proj1 (signed_16 x)), ?(proj2 (signed_16 x)), ?(proj1 (signed_64 x)), ?(proj2 (signed_64 x)), ?(u16_id (u16 x)) by apply u16_ok.
  all: eauto.
Qed.

(** ** Properties: remote variables *)

(** A number stored in the registers of a remote variable as text comes back
    as text: unsigned bytes, signed 16-bit and 64-bit numbers in decimal, and all
    but the 32-bit and the unsigned 64-bit numbers in hexadecimal, reduced to the
    type.  An unsigned 16-bit number in decimal gives the text hd, and the rest
    is a conversion of printf with an argument that does not fit it. *)
Theorem remote_number_roundtrip f g u p v n s old format :
  m_registerPageMap u !! rv_page v = Some (Some p) -> page_ok p -> integer_bytes (m_type v) = Some n ->
  (forall k, m_offset v <= k < m_offset v + Z.of_nat n -> in_page p k) ->
  exists u1, remoteVarFromStringToReg v s u = Returns (VSCP_ERROR_SUCCESS, u1) /\
    match number_text (m_type v) (format =? 0) (vscp_readStringValue s) with
    | Some t => exists u2, remoteVarFromRegToString f g v old format u1 = Returns (VSCP_ERROR_SUCCESS, t, u2)
    | None => remoteVarFromRegToString f g v old format u1 = Undefined
    end.
Proof.
  intros Em Hp En Hr. destruct (store_integer v s p n En Hr) as (q & E & Wr). eexists.
  split; [apply (on_page_returns _ _ _ _ p _ q Em); rewrite (bind_returns _ _ _ _ _ E); reflexivity|].
  assert (Lq : m_registerPageMap (page_set (rv_page v) (Some q) u) !! rv_page v = Some (Some q)) by apply lookup_insert_eq.
  pose proof (value_text_integer f g v (format =? 0) p q n (vscp_readStringValue s) En (overlay_ok p q _ _ Hp (be_ok _ _) Wr)
                (fun k Hk => in_page_level p q k (written_level _ _ _ Wr) (Hr k Hk)) Wr) as R.
  destruct (number_text _ _ _) as [t|].
  - destruct R as (q' & R & _). eexists. apply (on_page_returns _ _ _ _ q _ q' Lq). rewrite (bind_returns _ _ _ _ _ R). reflexivity.
  - apply (on_page_undefined _ _ _ _ q Lq). unfold mbind, M_bind. rewrite R. reflexivity.
Qed.

Lemma string_loop_ok n : forall pre rest p, page_ok p -> (n <= length rest)%nat ->
  (forall k, Z.of_nat (length pre) <= k < Z.of_nat (length pre) + Z.of_nat n -> in_page p k) ->
  exists q, string_loop n (Z.of_nat (length pre)) (pre ++ rest) p =
    Returns (pre ++ map (view p) (seqZ (Z.of_nat (length pre)) (Z.of_nat n)) ++ drop n rest, q).
Proof.
  induction n as [|n IH]; intros pre rest p Hp Hl Hr; [exists p; reflexivity|].
  set (i := Z.of_nat (length pre)) in *. destruct (page_getReg_spec p i) as (q1 & E1 & S1); [apply Hr; lia|].
  cbn [string_loop]. rewrite (bind_returns _ _ _ _ _ E1), u8_id by apply Hp.
  rewrite wr_next by (cbn [length]; lia). cbn [defined]. rewrite bind_ret.
  destruct (IH (pre ++ [view p i]) (drop 1 rest) q1) as (q & E).
  - rewrite <- S1. exact Hp.
  - rewrite length_drop. lia.
  - intros k. rewrite length_app. cbn [length]. intros Hk. rewrite <- S1. apply Hr. lia.
  - exists q. rewrite length_app in E. cbn [length] in *.
    replace (i + 1) with (Z.of_nat (length pre + 1)) by lia. rewrite E. f_equal. f_equal.
    rewrite (map_ext (view q1) (view p) (same_view _ _ S1)), <- app_assoc, drop_drop, (seqZ_cons i) by lia.
    replace (Z.pred (Z.of_nat (S n))) with (Z.of_nat n) by lia. cbn [map app].
    replace (Z.succ i) with (Z.of_nat (length pre + 1)) by lia. reflexivity.
Qed.

Lemma string_loop_outside n : forall i buf p, 0 <= i -> (0 < n)%nat -> Z.of_nat (length buf) < i + Z.of_nat n ->
  (forall k, i <= k < i + Z.of_nat n -> in_page p k) -> string_loop n i buf p = Undefined.
Proof.
  induction n as [|n IH]; intros i buf p Hi Hn Hl Hr; [lia|].
  destruct (page_getReg_spec p i) as (q1 & E1 & S1); [apply Hr; lia|]. cbn [string_loop]. rewrite (bind_returns _ _ _ _ _ E1).
  unfold wr at 1. cbn [length]. destruct (Nat.leb_spec (Z.to_nat i + 1) (length buf)); [|reflexivity]. cbn [defined]. rewrite bind_ret.
  apply IH; [lia|lia| |intros k Hk; rewrite <- S1; apply Hr; lia].
  rewrite !length_app, length_take, length_drop. cbn [length]. lia.
Qed.

Lemma c_str_text s rest : Forall (fun c => c <> 0) s -> c_str (s ++ rest) = s ++ c_str rest.
Proof.
  induction 1 as [|c s Hc _ IH]; [reflexivity|]. cbn [app c_str]. rewrite (proj2 (Z.eqb_neq _ _) Hc), IH. reflexivity.
Qed.

Lemma c_str_end s : c_str (s ++ [0]) = c_str s.
Proof. induction s as [|c s IH]; [reflexivity|]. cbn [app c_str]. rewrite IH. reflexivity. Qed.

Lemma value_text_string f g v decimal p :
  m_type v = remote_variable_type_string -> page_ok p -> is_u16 (m_size v) -> m_offset v + m_size v < 2 ^ 32 -> 0 <= m_offset v ->
  (forall k, m_offset v <= k < m_offset v + m_size v -> in_page p k) ->
  (m_offset v = 0 -> exists q, value_text f g v decimal p = Returns (c_str (map (view p) (seqZ 0 (m_size v))), q)) /\
  (2 <= m_offset v -> 0 < m_size v -> value_text f g v decimal p = Undefined).
Proof.
  intros T Hp Hn Hu H0 Hr. unfold is_u16 in Hn. unfold value_text, getTypeByteCount. rewrite T. cbv zeta.
  rewrite (u32_id (m_offset v + _)) by (unfold is_u32; lia).
  replace (m_offset v + m_size v - m_offset v) with (m_size v) by lia. split; intros O.
  - destruct (string_loop_ok (Z.to_nat (m_size v)) [] (replicate (Z.to_nat (m_size v + 1)) 0) p Hp) as (q & E).
    + rewrite length_replicate. lia.
    + intros k Hk. apply Hr. cbn [length] in Hk. lia.
    + cbn [length Z.of_nat app] in E. rewrite O, (bind_returns _ _ _ _ _ E). exists q. cbn [mret M_ret]. unfold mret, M_ret. do 2 f_equal.
      rewrite Z2Nat.id, drop_replicate by lia. replace (Z.to_nat (m_size v + 1) - Z.to_nat (m_size v))%nat with 1%nat by lia.
      apply c_str_end.
  - intros Hs. rewrite <- bind_undefined with (k := fun buf => mret (c_str buf)) (w := p).
    unfold mbind, M_bind. rewrite string_loop_outside; [reflexivity|lia|lia|rewrite length_replicate; lia|].
    intros k Hk. apply Hr. lia.
Qed.

(** A string variable works at register 0 only.  There the text that was
    stored comes back, with the rest of a longer one that was there before, for
    no zero is written behind it.  At an offset of 2 and more the buffer is
    written outside its end, for it is indexed with the number of the register. *)
Theorem remote_string_register_0 f g u p v s old format :
  m_registerPageMap u !! rv_page v = Some (Some p) -> page_ok p -> m_type v = remote_variable_type_string ->
  is_u16 (m_size v) -> Z.of_nat (length s) <= m_size v -> bytes_ok s -> Forall (fun c => c <> 0) s ->
  0 <= m_offset v -> m_offset v + m_size v < 2 ^ 32 ->
  (forall k, m_offset v <= k < m_offset v + m_size v -> in_page p k) ->
  exists u1, remoteVarFromStringToReg v s u = Returns (VSCP_ERROR_SUCCESS, u1) /\
    (m_offset v = 0 -> exists u2, remoteVarFromRegToString f g v old format u1 =
       Returns (VSCP_ERROR_SUCCESS, s ++ c_str (map (view p) (seqZ (Z.of_nat (length s)) (m_size v - Z.of_nat (length s)))), u2)) /\
    (2 <= m_offset v -> 0 < m_size v -> remoteVarFromRegToString f g v old format u1 = Undefined).
Proof.
  intros Em Hp T Hn Hl Hs Hz H0 Hu Hr. unfold is_u16 in Hn.
  destruct (put_bytes_spec s p (m_offset v)) as (q & E & Wr); [intros k Hk; apply Hr; lia|]. eexists. split.
  { apply (on_page_returns _ _ _ _ p _ q Em). unfold store_text. rewrite T, (bind_returns _ _ _ _ _ E). reflexivity. }
  assert (Lq : m_registerPageMap (page_set (rv_page v) (Some q) u) !! rv_page v = Some (Some q)) by apply lookup_insert_eq.
  destruct (value_text_string f g v (format =? 0) q T (overlay_ok p q _ _ Hp Hs Wr) Hn Hu H0) as [A B].
  { intros k Hk. apply (in_page_level p q k (written_level _ _ _ Wr)), Hr, Hk. }
  split.
  - intros O. destruct (A O) as (q' & E1). eexists. apply (on_page_returns _ _ _ _ q _ q' Lq).
    rewrite (bind_returns _ _ _ _ _ E1). unfold mret, M_ret. do 3 f_equal.
    replace (m_size v) with (Z.of_nat (length s) + (m_size v - Z.of_nat (length s))) at 1 by lia.
    rewrite seqZ_app, map_app, <- O by lia. rewrite (map_overlay p q _ _ Wr), c_str_text by exact Hz. do 2 f_equal.
    rewrite O. apply map_ext_in. intros k Hk. apply list_elem_of_In, elem_of_seqZ in Hk.
    rewrite (written_view _ _ _ Wr). unfold overlay. rewrite O. compare.
  - intros O Hm. apply (on_page_undefined _ _ _ _ q Lq). unfold mbind, M_bind. rewrite (B O Hm). reflexivity.
Qed.

(** ** Lemmas: rows *)

Section rows.
Context (dm : CMDF_DecisionMatrix) (row : Z).
Abbreviation base := (m_rowSize dm * row).

Lemma dm_register_ok i : base + i < 2 ^ 31 -> dm_register dm row i = Some (base + i).
Proof. intros Hi. unfold dm_register. rewrite (proj2 (Z.ltb_lt _ _) Hi). reflexivity. Qed.

Lemma write_row_ok rest : forall pre p fuel, (length rest < fuel)%nat ->
  m_rowSize dm = Z.of_nat (length pre + length rest) -> m_rowSize dm <= 255 ->
  base + m_rowSize dm <= 2 ^ 31 -> (forall k, base <= k < base + m_rowSize dm -> in_page p k) -> forall more,
  exists q, write_row fuel dm row (Z.of_nat (length pre)) (pre ++ rest ++ more) p = Returns (tt, q) /\
    written_page (overlay (base + Z.of_nat (length pre)) rest) p q.
Proof.
  induction rest as [|b rest IH]; intros pre p [|fuel] Hf Hs H255 Hb Hr more; cbn [length] in *; try lia; cbn [write_row].
  { rewrite (proj2 (Z.ltb_ge _ _)) by lia. exists p. split; [reflexivity|]. split; [reflexivity|].
    intros k. unfold overlay. cbn [length]. compare. }
  rewrite (proj2 (Z.ltb_lt _ _)), dm_register_ok by lia. cbn [defined]. rewrite bind_ret.
  unfold rd. rewrite Nat2Z.id, lookup_app_r, Nat.sub_diag by lia. cbn [lookup list_lookup app defined]. rewrite bind_ret.
  destruct (page_putReg_spec p (base + Z.of_nat (length pre)) b) as (q1 & E1 & L1 & _ & V1 & _); [apply Hr; lia|].
  rewrite (bind_returns _ _ _ _ _ E1), u8_id by (unfold is_u8; lia).
  destruct (IH (pre ++ [b]) q1 fuel ltac:(lia) ltac:(rewrite length_app; cbn [length]; lia) H255 Hb
              (fun k Hk => in_page_level p q1 k L1 (Hr k Hk)) more) as (q & E & L & V).
  rewrite length_app in E, V. cbn [length] in E, V. rewrite <- app_assoc in E.
  replace (Z.of_nat (length pre) + 1) with (Z.of_nat (length pre + 1)) by lia.
  exists q. split; [exact E|]. split; [congruence|]. intros k. rewrite V, V1, overlay_cons.
  replace (base + Z.of_nat (length pre + 1)) with (base + Z.of_nat (length pre) + 1) by lia. reflexivity.
Qed.

Lemma read_row_ok n : forall pre rest p fuel, page_ok p -> (n < fuel)%nat -> (n <= length rest)%nat ->
  m_rowSize dm = Z.of_nat (length pre + n) -> m_rowSize dm <= 255 ->
  base + m_rowSize dm <= 2 ^ 31 -> (forall k, base <= k < base + m_rowSize dm -> in_page p k) ->
  exists q, read_row fuel dm row (Z.of_nat (length pre)) (pre ++ rest) p =
    Returns (pre ++ map (view p) (seqZ (base + Z.of_nat (length pre)) (Z.of_nat n)) ++ drop n rest, q) /\ same_page p q.
Proof.
  induction n as [|n IH]; intros pre rest p [|fuel] Hp Hf Hl Hs H255 Hb Hr; try lia; cbn [read_row].
  { rewrite (proj2 (Z.ltb_ge _ _)) by lia. exists p. split; reflexivity. }
  rewrite (proj2 (Z.ltb_lt _ _)), dm_register_ok by lia. cbn [defined]. rewrite bind_ret.
  destruct (page_getReg_spec p (base + Z.of_nat (length pre))) as (q1 & E1 & S1); [apply Hr; lia|].
  rewrite (bind_returns _ _ _ _ _ E1), (u8_id (view p _)) by apply Hp.
  rewrite wr_next by (cbn [length]; lia). cbn [defined]. rewrite bind_ret, u8_id by (unfold is_u8; lia).
  destruct (IH (pre ++ [view p (base + Z.of_nat (length pre))]) (drop 1 rest) q1 fuel) as (q & E & Sm).
  - rewrite <- S1. exact Hp.
  - lia.
  - rewrite length_drop. lia.
  - rewrite length_app. cbn [length]. lia.
  - exact H255.
  - exact Hb.
  - intros k Hk. rewrite <- S1. apply Hr, Hk.
  - exists q. split; [|rewrite S1; exact Sm]. rewrite length_app in E. cbn [length] in *.
    replace (Z.of_nat (length pre) + 1) with (Z.of_nat (length pre + 1)) by lia. rewrite E. f_equal. f_equal.
    rewrite (map_ext (view q1) (view p) (same_view _ _ S1)), <- app_assoc, drop_drop, (seqZ_cons (base + Z.of_nat (length pre)) (Z.of_nat (S n))) by lia.
    replace (Z.pred (Z.of_nat (S n))) with (Z.of_nat n) by lia. cbn [map app].
    replace (base + Z.of_nat (length pre + 1)) with (Z.succ (base + Z.of_nat (length pre))) by lia. reflexivity.
Qed.

(** A row of up to 255 registers ends whatever is in it; one of more, never. *)
Lemma read_row_ends : m_rowSize dm <= 255 -> forall fuel i buf, 0 <= i ->
  (Z.to_nat (m_rowSize dm - i) < fuel)%nat -> ends (read_row fuel dm row i buf).
Proof.
  intros H255. induction fuel as [|fuel IH]; intros i buf Hi Hf; [lia|]. cbn [read_row].
  destruct (Z.ltb_spec i (m_rowSize dm)); [|auto with ends]. apply ends_bind; [auto with ends|intros reg].
  apply ends_bind; [|intros v].
  { intros p. unfold CRegisterPage_getReg. destruct (_ && _); discriminate. }
  apply ends_bind; [auto with ends|intros buf']. rewrite u8_id by (unfold is_u8; lia). apply IH; lia.
Qed.

Lemma read_row_never : 256 <= m_rowSize dm -> base + 256 <= 2 ^ 31 -> forall fuel i buf p,
  is_u8 i -> (256 <= length buf)%nat -> (forall k, base <= k < base + 256 -> in_page p k) ->
  read_row fuel dm row i buf p = OutOfFuel.
Proof.
  intros Hs Hb. induction fuel as [|fuel IH]; intros i buf p Hi Hl Hr; [reflexivity|]. cbn [read_row]. unfold is_u8 in Hi.
  rewrite (proj2 (Z.ltb_lt _ _)), dm_register_ok by lia. cbn [defined]. rewrite bind_ret.
  destruct (page_getReg_spec p (base + i)) as (q1 & E1 & S1); [apply Hr; lia|]. rewrite (bind_returns _ _ _ _ _ E1).
  rewrite wr_defined by (cbn [length]; lia). cbn [defined]. rewrite bind_ret. apply IH.
  - apply u8_ok.
  - rewrite !length_app, length_take, length_drop. cbn [length]. lia.
  - intros k Hk. rewrite <- S1. apply Hr, Hk.
Qed.
End rows.

(** ** Properties: rows *)

(** The bytes written to a row of a decision matrix are read back from it, and
    no register outside the row changes.  The row is at the product of its number
    and the size of a row on the page: the offset at which the matrix starts
    plays no part. *)
Theorem dm_row_roundtrip dm u p row bytes more buf fuel :
  m_registerPageMap u !! m_startPage dm = Some (Some p) -> page_ok p -> bytes_ok bytes ->
  0 <= row < m_rowCount dm -> m_rowSize dm = Z.of_nat (length bytes) -> m_rowSize dm <= 255 -> (256 <= fuel)%nat ->
  m_rowSize dm * row + m_rowSize dm <= 2 ^ 31 ->
  (forall k, m_rowSize dm * row <= k < m_rowSize dm * row + m_rowSize dm -> in_page p k) -> (length bytes <= length buf)%nat ->
  exists u1 q u2,
    vscp_writeDmRow fuel dm row (bytes ++ more) u = Returns (VSCP_ERROR_SUCCESS, u1) /\
    m_registerPageMap u1 !! m_startPage dm = Some (Some q) /\
    (forall k, k < m_rowSize dm * row \/ m_rowSize dm * row + m_rowSize dm <= k -> view q k = view p k) /\
    vscp_readDmRow fuel dm row buf u1 = Returns (VSCP_ERROR_SUCCESS, bytes ++ drop (length bytes) buf, u2).
Proof.
  intros Em Hp Hb Hrow Hs H255 Hf Hi Hr Hl.
  destruct (write_row_ok dm row bytes [] p fuel ltac:(lia) Hs H255 Hi Hr more) as (q & E & Wr).
  cbn [length Z.of_nat app] in E, Wr. rewrite Z.add_0_r in Wr.
  assert (C : (m_rowCount dm <=? row) = false) by (apply Z.leb_gt; lia).
  exists (page_set (m_startPage dm) (Some q) u), q.
  assert (Lq : m_registerPageMap (page_set (m_startPage dm) (Some q) u) !! m_startPage dm = Some (Some q)) by apply lookup_insert_eq.
  destruct (read_row_ok dm row (length bytes) [] buf q fuel (overlay_ok p q _ _ Hp Hb Wr) ltac:(lia) Hl Hs H255 Hi
              (fun k Hk => in_page_level p q k (written_level _ _ _ Wr) (Hr k Hk))) as (q2 & E2 & _).
  cbn [length Z.of_nat app] in E2. rewrite Z.add_0_r, (map_overlay p q _ _ Wr) in E2.
  eexists. split_and!.
  - apply (on_page_returns _ _ _ _ p _ q Em). rewrite C, (bind_returns _ _ _ _ _ E). reflexivity.
  - exact Lq.
  - intros k Hk. rewrite (written_view _ _ _ Wr). unfold overlay. compare.
  - apply (on_page_returns _ _ _ _ q _ q2 Lq). rewrite C, (bind_returns _ _ _ _ _ E2). reflexivity.
Qed.

(** Reading a row ends, with whatever result, when the rows have at most 255
    registers; with longer rows the counter, a uint8_t, never reaches the end. *)
Theorem dm_row_ends dm u row buf :
  (m_rowSize dm <= 255 -> forall fuel, (256 <= fuel)%nat -> vscp_readDmRow fuel dm row buf u <> OutOfFuel) /\
  (256 <= m_rowSize dm -> row < m_rowCount dm -> m_rowSize dm * row + 256 <= 2 ^ 31 -> (256 <= length buf)%nat ->
   forall p, m_registerPageMap u !! m_startPage dm = Some (Some p) ->
   (forall k, m_rowSize dm * row <= k < m_rowSize dm * row + 256 -> in_page p k) ->
   forall fuel, vscp_readDmRow fuel dm row buf u = OutOfFuel).
Proof.
  split.
  - intros H255 fuel Hf. unfold vscp_readDmRow, on_page, get, put, method, mbind, M_bind.
    destruct (m_registerPageMap u !! m_startPage dm) as [[p|]|]; [|discriminate..].
    destruct (m_rowCount dm <=? row); [discriminate|].
    pose proof (read_row_ends dm row H255 fuel 0 buf ltac:(lia) ltac:(lia) p) as N.
    destruct (read_row _ _ _ _ _ _) as [[? ?]| | |]; congruence || discriminate.
  - intros Hs Hc Hi Hl p Em Hr fuel. unfold vscp_readDmRow, on_page, get, put, method, mbind, M_bind. rewrite Em.
    rewrite (proj2 (Z.leb_gt _ _)) by lia. rewrite read_row_never; auto. unfold is_u8. lia.
Qed.

(** ** Lemmas: writes and their history *)

Lemma page_putReg_registers p k v q :
  in_page p k -> CRegisterPage_putReg k v p = Returns (v, q) -> m_registers q = <[k := v]> (m_registers p).
Proof.
  intros H. unfold CRegisterPage_putReg. pose proof (range_check p k H) as R.
  assert ((m_level p =? VSCP_LEVEL1) && (128 <? k) = false) as ->.
  { destruct (m_level p =? VSCP_LEVEL1); [|reflexivity]. cbn [andb] in *. apply Z.ltb_ge in R. apply Z.ltb_ge. lia. }
  unfold index. cbv zeta. destruct (negb _); injection 1 as <-; cbn [m_registers]; apply insert_insert_eq.
Qed.

(** The values that are overwritten by others. *)
Fixpoint overwritten (old : Z) (vs : list Z) : list Z :=
  match vs with
  | [] => []
  | v :: vs => if old =? v then overwritten old vs else old :: overwritten v vs
  end.

Definition writes_to (k : Z) (ws : list (Z * Z)) : list Z := map snd (filter (fun w => w.1 = k) ws).

Definition put_all (ws : list (Z * Z)) : M CRegisterPage unit :=
  for_each ws (fun '(k, v) => _ ← CRegisterPage_putReg k v; mret tt).

Lemma writes_to_cons j k v ws : writes_to j ((k, v) :: ws) = if j =? k then v :: writes_to j ws else writes_to j ws.
Proof.
  unfold writes_to. rewrite list.filter_cons. cbn [fst]. destruct (Z.eqb_spec j k) as [->|N].
  - rewrite decide_True by reflexivity. reflexivity.
  - rewrite decide_False by congruence. reflexivity.
Qed.

Lemma put_all_spec ws : forall p, (forall k v, (k, v) ∈ ws -> in_page p k) ->
  exists q, put_all ws p = Returns (tt, q) /\ m_level q = m_level p /\ m_page q = m_page p /\ forall k,
    m_registers q !! k = match list.last (writes_to k ws) with Some v => Some v | None => m_registers p !! k end /\
    default [] (m_list_undo_value q !! k) = default [] (m_list_undo_value p !! k) ++ overwritten (view p k) (writes_to k ws) /\
    default false (m_change q !! k) = default false (m_change p !! k) || bool_decide (overwritten (view p k) (writes_to k ws) <> []).
Proof.
  induction ws as [|[k v] ws IH]; intros p Hr.
  { exists p. split_and!; try reflexivity. intros k. rewrite app_nil_r, orb_false_r. split_and!; reflexivity. }
  assert (Hk : in_page p k) by (apply (Hr k v), list_elem_of_here).
  destruct (page_putReg_spec p k v Hk) as (q1 & E1 & L1 & P1 & V1 & C1 & U1).
  pose proof (page_putReg_registers p k v q1 Hk E1) as R1.
  destruct (IH q1) as (q & E & L & P & S).
  { intros j x Hj. apply (in_page_level p q1 j L1), (Hr j x). right. exact Hj. }
  exists q. unfold put_all in *. cbn [for_each]. rewrite bind_assoc, (bind_returns _ _ _ _ _ E1), bind_ret.
  split_and!; [exact E|congruence|congruence|]. intros j. destruct (S j) as (S1 & S2 & S3).
  rewrite S1, S2, S3, C1, U1, V1, R1, writes_to_cons. destruct (Z.eqb_spec j k) as [->|N]; cbn [andb].
  - cbn [overwritten]. rewrite lookup_insert_eq. split_and!.
    + rewrite last_cons. destruct (list.last _); reflexivity.
    + rewrite <- app_assoc. destruct (view p k =? v) eqn:Q; cbn [negb app]; [apply Z.eqb_eq in Q as ->|]; reflexivity.
    + destruct (view p k =? v) eqn:Q; cbn [negb]; [apply Z.eqb_eq in Q as ->; rewrite orb_false_r; reflexivity|].
      rewrite orb_true_r, (bool_decide_true (view p k :: _ <> [])) by discriminate. rewrite orb_true_r. reflexivity.
  - rewrite lookup_insert_ne by congruence. rewrite app_nil_r, orb_false_r. split_and!; reflexivity.
Qed.

(** Writing registers of a page: each register has the last value written to
    it, its list of undo values has grown by exactly the values that were
    overwritten by others, in order, and it is marked as changed exactly when it
    was already or one of the writes changed it. *)
Theorem page_write_history p ws :
  (forall k v, (k, v) ∈ ws -> in_page p k) ->
  exists q, put_all ws p = Returns (tt, q) /\ forall k,
    view q k = default (view p k) (list.last (writes_to k ws)) /\
    default [] (m_list_undo_value q !! k) = default [] (m_list_undo_value p !! k) ++ overwritten (view p k) (writes_to k ws) /\
    (exists r, CRegisterPage_isChanged k q =
       Returns (default false (m_change p !! k) || bool_decide (overwritten (view p k) (writes_to k ws) <> []), r)) /\
    (exists r, CRegisterPage_hasWrittenChange k q =
       Returns (bool_decide (default [] (m_list_undo_value p !! k) ++ overwritten (view p k) (writes_to k ws) <> []), r)).
Proof.
  intros Hr. destruct (put_all_spec ws p Hr) as (q & E & _ & _ & S). exists q. split; [exact E|].
  intros k. destruct (S k) as (S1 & S2 & S3). split_and!.
  - unfold view. rewrite S1. destruct (list.last _); reflexivity.
  - exact S2.
  - unfold CRegisterPage_isChanged. rewrite S3. eauto.
  - unfold CRegisterPage_hasWrittenChange. rewrite S2. destruct (_ ++ _); eauto.
Qed.

(** ** Lemmas: all pages *)

Definition pages_ok (u : CUserRegisters) : Prop := map_Forall (fun _ p => is_Some p) (m_registerPageMap u).

Lemma elem_of_page_numbers u k : k ∈ page_numbers u <-> is_Some (m_registerPageMap u !! k).
Proof.
  unfold page_numbers. rewrite merge_sort_Permutation, list_elem_of_fmap. split.
  - intros ([j p] & -> & Hj%elem_of_map_to_list). eauto.
  - intros [p Hp]. exists (k, p). split; [reflexivity|]. apply elem_of_map_to_list, Hp.
Qed.

Lemma changes_loop_ok ks m : (forall k, k ∈ ks -> exists p, m !! k = Some (Some p)) -> exists b, changes_loop ks m = Some b.
Proof.
  induction ks as [|k ks IH]; intros H; cbn [changes_loop]; [eauto|].
  destruct (H k) as [p E]; [apply list_elem_of_here|]. rewrite E. cbn. destruct (CRegisterPage_hasChanges p); [eauto|].
  apply IH. intros j Hj. apply H. right. exact Hj.
Qed.

Lemma changes_loop_none ks m k : k ∈ ks -> default None (m !! k) = None ->
  (forall j p, m !! j = Some (Some p) -> CRegisterPage_hasChanges p = false) -> changes_loop ks m = None.
Proof.
  intros Hk En Hc. induction ks as [|j ks IH]; [inversion Hk|]. cbn [changes_loop].
  destruct (m !! j) as [[p|]|] eqn:Ej; [|reflexivity..]. cbn. rewrite (Hc j p Ej). apply IH.
  apply elem_of_cons in Hk as [->|Hk]; [rewrite Ej in En; discriminate|exact Hk].
Qed.

Lemma pages_ok_lookup u k : pages_ok u -> is_Some (m_registerPageMap u !! k) -> exists p, m_registerPageMap u !! k = Some (Some p).
Proof. intros H [p E]. destruct (H k p E) as [q ->]. eauto. Qed.

(** ** Properties: the pages of a node *)

(** Looking for a register on a page that has not been read gives -1 but
    leaves a null pointer in the map of pages.  Clearing the changes or the
    history then follows it; so does looking for changes if there are none, and
    writing a register of the page. *)
Theorem missing_page_null u page offset :
  m_registerPageMap u !! page = None ->
  exists u', CUserRegisters_getReg offset page u = Returns (-1, u') /\
    CUserRegisters_clearChanges u' = Undefined /\ CUserRegisters_clearHistory u' = Undefined /\
    ((forall k p, m_registerPageMap u !! k = Some (Some p) -> CRegisterPage_hasChanges p = false) ->
     CUserRegisters_hasChanges u' = Undefined) /\
    forall reg value, is_u16 page -> user_level u = VSCP_LEVEL1 -> reg <= 127 -> CUserRegisters_putReg reg page value u' = Undefined.
Proof.
  intros En. exists (page_set page None u).
  assert (L : m_registerPageMap (page_set page None u) !! page = Some None) by apply lookup_insert_eq.
  assert (Np : ~ pages_ok (page_set page None u)) by (intros H; destruct (H page None L) as [p Q]; discriminate Q).
  assert (Ev : forall f, every_page f (page_set page None u) = Undefined).
  { intros f. unfold every_page. rewrite bool_decide_false by exact Np. reflexivity. }
  split_and!.
  - unfold CUserRegisters_getReg. rewrite on_page_null by (rewrite En; reflexivity). reflexivity.
  - apply Ev.
  - apply Ev.
  - intros Hc. unfold CUserRegisters_hasChanges, get, mbind, M_bind. rewrite (changes_loop_none _ _ page); [reflexivity| | |].
    + apply elem_of_page_numbers. rewrite L. eauto.
    + rewrite L. reflexivity.
    + intros j p Hj. cbn [page_set m_registerPageMap] in Hj. apply lookup_insert_Some in Hj as [[_ Q]|[_ Hj]]; [discriminate|exact (Hc j p Hj)].
  - intros reg value Hp Hl Hreg. unfold CUserRegisters_putReg, get. rewrite (bind_returns _ _ _ _ _ eq_refl).
    cbn [page_set user_level]. rewrite Hl. cbn [Z.eqb VSCP_LEVEL1 VSCP_LEVEL2 andb negb].
    rewrite (proj2 (Z.ltb_ge _ _)) by lia. rewrite (u16_id page Hp).
    unfold on_page at 1, get, put, mbind, M_bind. rewrite L. reflexivity.
Qed.

(** What a user of the registers of a node can call. *)
Inductive user_op :=
  | OpGetReg (offset page : Z)
  | OpPutReg (reg page value : Z)
  | OpSetChanged (offset page : Z) (state : bool)
  | OpIsChanged (offset page : Z)
  | OpHasWritten (offset page : Z)
  | OpClearChanges
  | OpClearHistory
  | OpHasChanges.

Definition op_page (o : user_op) : option Z :=
  match o with
  | OpGetReg _ page | OpPutReg _ page _ | OpSetChanged _ page _ | OpIsChanged _ page | OpHasWritten _ page => Some page
  | _ => None
  end.

Definition user_exec (o : user_op) : M CUserRegisters unit :=
  match o with
  | OpGetReg offset page => _ ← CUserRegisters_getReg offset page; mret tt
  | OpPutReg reg page value => _ ← CUserRegisters_putReg reg page value; mret tt
  | OpSetChanged offset page state => _ ← CUserRegisters_setChangedState offset page state; mret tt
  | OpIsChanged offset page => _ ← CUserRegisters_isChanged offset page; mret tt
  | OpHasWritten offset page => _ ← CUserRegisters_hasWrittenChange offset page; mret tt
  | OpClearChanges => CUserRegisters_clearChanges
  | OpClearHistory => CUserRegisters_clearHistory
  | OpHasChanges => _ ← CUserRegisters_hasChanges; mret tt
  end.

(** The pages are there, and nothing else is in the map. *)
Definition has_pages (pages : gset Z) (u : CUserRegisters) : Prop := pages_ok u /\ dom (m_registerPageMap u) = pages.

Lemma page_set_pages page p u pages :
  has_pages pages u -> page ∈ pages -> has_pages pages (page_set page (Some p) u).
Proof.
  intros [H D] Hp. split.
  - apply map_Forall_insert_2; [eauto|exact H].
  - cbn [page_set m_registerPageMap]. rewrite dom_insert_L, D. set_solver.
Qed.

Lemma on_page_pages {A} page null (m : M CRegisterPage A) u pages :
  has_pages pages u -> page ∈ pages -> (forall p, exists a q, m p = Returns (a, q)) ->
  exists a u', on_page page null m u = Returns (a, u') /\ has_pages pages u' /\ user_level u' = user_level u.
Proof.
  intros H Hp Hm. destruct (pages_ok_lookup u page (proj1 H)) as [p E].
  { apply elem_of_dom. rewrite (proj2 H). exact Hp. }
  destruct (Hm p) as (a & q & Em). exists a, (page_set page (Some q) u).
  split; [apply (on_page_returns _ _ _ _ p _ _ E Em)|]. split; [apply page_set_pages; assumption|reflexivity].
Qed.

Lemma every_page_pages f u pages : has_pages pages u -> exists u', every_page f u = Returns (tt, u') /\ has_pages pages u'.
Proof.
  intros [H D]. unfold every_page. rewrite bool_decide_true by exact H. eexists. split; [reflexivity|]. split.
  - intros k p. cbn [m_registerPageMap]. rewrite lookup_fmap. destruct (m_registerPageMap u !! k) as [o|] eqn:E; [|discriminate].
    destruct (H k o E) as [x ->]. cbn. intros [= <-]. eauto.
  - cbn [m_registerPageMap]. rewrite dom_fmap_L. exact D.
Qed.

Lemma putReg_returns reg value p : exists a q, CRegisterPage_putReg reg value p = Returns (a, q).
Proof.
  unfold CRegisterPage_putReg. destruct (_ && _); [eauto|]. destruct (index reg (m_registers p)) as [old rs].
  destruct (negb _); eauto.
Qed.

Lemma user_exec_pages o u pages :
  has_pages pages u -> (forall page, op_page o = Some page -> is_u16 page /\ page ∈ pages) ->
  exists u', user_exec o u = Returns (tt, u') /\ has_pages pages u'.
Proof.
  assert (Bind : forall A (m : M CUserRegisters A),
    (exists a u', m u = Returns (a, u') /\ has_pages pages u' /\ user_level u' = user_level u) ->
    exists u', (_ ← m; mret tt) u = Returns (tt, u') /\ has_pages pages u').
  { intros A m (a & u' & E & H & _). exists u'. rewrite (bind_returns _ _ _ _ _ E). split; [reflexivity|exact H]. }
  intros H Ho. destruct o as [k page|k page v|k page b|k page|k page| | |]; cbn [user_exec op_page] in *; try (destruct (Ho page eq_refl) as [H16 Hp]).
  - apply Bind, on_page_pages; [exact H|exact Hp|intros p; do 2 eexists; reflexivity].
  - apply Bind. unfold CUserRegisters_putReg, get. setoid_rewrite (bind_returns _ _ u u u eq_refl).
    repeat (destruct (_ && _); [do 2 eexists; split; [reflexivity|split; [exact H|reflexivity]]|]).
    rewrite (u16_id page H16).
    destruct (on_page_pages page undefined (CRegisterPage_putReg k v) u pages H Hp (putReg_returns k v)) as (a & u1 & E & H1 & L1).
    do 2 eexists. rewrite (bind_returns _ _ _ _ _ E). split; [reflexivity|]. split; [exact H1|exact L1].
  - apply Bind, on_page_pages; [exact H|exact Hp|intros p; do 2 eexists; reflexivity].
  - apply Bind, on_page_pages; [exact H|exact Hp|intros p; do 2 eexists; reflexivity].
  - apply Bind, on_page_pages; [exact H|exact Hp|intros p; do 2 eexists; reflexivity].
  - apply every_page_pages, H.
  - apply every_page_pages, H.
  - apply Bind. unfold CUserRegisters_hasChanges, get. setoid_rewrite (bind_returns _ _ u u u eq_refl).
    destruct (changes_loop_ok (page_numbers u) (m_registerPageMap u)) as [b E].
    { intros k Hk%elem_of_page_numbers. apply pages_ok_lookup; [apply H|exact Hk]. }
    rewrite E. do 2 eexists. split; [reflexivity|]. split; [exact H|reflexivity].
Qed.

(** As long as only pages that are there are named, every sequence of calls
    is defined, and the pages stay as they are: no null pointer gets into the map. *)
Theorem user_registers_invariant ops u pages :
  has_pages pages u -> (forall o page, o ∈ ops -> op_page o = Some page -> is_u16 page /\ page ∈ pages) ->
  exists u', for_each ops user_exec u = Returns (tt, u') /\ has_pages pages u'.
Proof.
  revert u. induction ops as [|o ops IH]; intros u H Ho; [exists u; split; [reflexivity|exact H]|].
  destruct (user_exec_pages o u pages H) as (u1 & E1 & H1); [intros page; apply (Ho o page), list_elem_of_here|].
  cbn [for_each]. rewrite (bind_returns _ _ _ _ _ E1). apply IH; [exact H1|].
  intros o' page Hin. apply Ho. right. exact Hin.
Qed.

(** ** Lemmas: standard registers *)

Definition std_view (s : CStandardRegisters) (k : Z) : Z := default 0 (m_regs s !! k).

Lemma std_getReg_spec k s : exists s', CStandardRegisters_getReg k s = Returns (std_view s k, s') /\
  forall j, std_view s' j = std_view s j.
Proof. eexists. split; [reflexivity|]. intros j. apply (index_same k (m_regs s) j). Qed.

Lemma std_read_spec n : forall reg s, exists s', std_read n reg s = Returns (map (std_view s) (seqZ reg (Z.of_nat n)), s') /\
  forall j, std_view s' j = std_view s j.
Proof.
  induction n as [|n IH]; intros reg s; [exists s; split; reflexivity|]. cbn [std_read].
  destruct (std_getReg_spec reg s) as (s1 & E1 & V1). rewrite (bind_returns _ _ _ _ _ E1).
  destruct (IH (reg + 1) s1) as (s2 & E2 & V2). rewrite (bind_returns _ _ _ _ _ E2).
  exists s2. split; [|intros j; rewrite V2; apply V1]. rewrite (seqZ_cons reg (Z.of_nat (S n))) by lia. cbn [map].
  change (Z.succ reg) with (reg + 1).
  replace (Z.pred (Z.of_nat (S n))) with (Z.of_nat n) by lia. rewrite (map_ext _ _ V1). reflexivity.
Qed.

Lemma guid_loop_spec vs : forall done rest s, length (done ++ rest) = 16%nat -> length rest = length vs ->
  vs = map (std_view s) (seqZ (0xd0 + Z.of_nat (length done)) (Z.of_nat (length vs))) ->
  exists s', guid_loop (seqZ (Z.of_nat (length done)) (Z.of_nat (length vs))) (done ++ rest) s = Returns (done ++ vs, s').
Proof.
  induction vs as [|v vs IH]; intros done rest s L Lr V; cbn [length] in *.
  { exists s. destruct rest; [reflexivity|discriminate]. }
  rewrite !(seqZ_cons _ (Z.of_nat (S (length vs)))) by lia. rewrite seqZ_cons in V by lia. cbn [map] in V.
  replace (Z.pred (Z.of_nat (S (length vs)))) with (Z.of_nat (length vs)) in * by lia. injection V as Vh Vt.
  destruct rest as [|x rest]; [discriminate|]. rewrite length_app in L. cbn [length] in *. cbn [guid_loop].
  destruct (std_getReg_spec (0xd0 + Z.of_nat (length done)) s) as (s1 & E1 & V1). rewrite (bind_returns _ _ _ _ _ E1), <- Vh.
  assert (St : setAt (Z.of_nat (length done)) v (done ++ x :: rest) = (done ++ [v]) ++ rest).
  { unfold setAt. replace (Z.to_nat (Z.land (Z.of_nat (length done)) 0x0f)) with (length done).
    - rewrite insert_app_r_alt, Nat.sub_diag by lia. rewrite <- app_assoc. reflexivity.
    - change 0x0f with (Z.ones 4). rewrite Z.land_ones, Z.mod_small by lia. lia. }
  rewrite St. destruct (IH (done ++ [v]) rest s1) as (s' & E).
  - rewrite !length_app. cbn [length]. lia.
  - lia.
  - rewrite length_app. cbn [length]. rewrite Vt at 1. rewrite (map_ext _ _ V1). f_equal. f_equal. lia.
  - exists s'. rewrite length_app in E. cbn [length] in E. replace (Z.succ (Z.of_nat (length done))) with (Z.of_nat (length done + 1)) by lia.
    rewrite E, <- app_assoc. reflexivity.
Qed.

Lemma getGUID_spec g s : length g = 16%nat ->
  exists s', CStandardRegisters_getGUID g s = Returns (map (std_view s) (seqZ 0xd0 16), s').
Proof.
  intros L. unfold CStandardRegisters_getGUID.
  destruct (guid_loop_spec (map (std_view s) (seqZ 0xd0 16)) [] g s L ltac:(exact L) ltac:(reflexivity)) as (s' & E).
  exists s'. exact E.
Qed.

Lemma init_page_loop_spec ks : forall rs p,
  NoDup ks -> (forall k, k ∈ ks -> 128 <= k < 256) -> page_ok p ->
  exists rs' q, init_page_loop ks rs p = Returns (rs', q) /\ same_page p q /\
    forall k, rs' !! k = if bool_decide (k ∈ ks) && ((k <? 0xa5) || (0xcf <? k))
                         then Some (if m_level p =? VSCP_LEVEL1 then 255 else view p k) else rs !! k.
Proof.
  induction ks as [|i ks IH]; intros rs p Nd Hk Hp; [exists rs, p; split_and!; reflexivity|].
  apply list.NoDup_cons in Nd as [Ni Nd]. cbn [init_page_loop].
  assert (Hks : forall k, k ∈ ks -> 128 <= k < 256) by (intros k Q; apply Hk; right; exact Q).
  assert (In_cons : forall k, bool_decide (k ∈ i :: ks) = (k =? i) || bool_decide (k ∈ ks)).
  { intros k. destruct (Z.eqb_spec k i) as [->|N]; cbn [orb].
    - apply bool_decide_true. left.
    - apply bool_decide_ext. rewrite elem_of_cons. tauto. }
  pose proof (Hk i (list_elem_of_here _ _)) as Hi. destruct ((i <? 0xa5) || (0xcf <? i)) eqn:Sel.
  - assert (G : exists q1, CRegisterPage_getReg i p = Returns (if m_level p =? VSCP_LEVEL1 then -1 else view p i, q1) /\ same_page p q1).
    { destruct (Z.eqb_spec (m_level p) VSCP_LEVEL1) as [E|N].
      - exists p. unfold CRegisterPage_getReg. rewrite E, (proj2 (Z.ltb_lt _ _)) by lia. split; reflexivity.
      - apply page_getReg_spec. split; [lia|congruence]. }
    destruct G as (q1 & E1 & S1). rewrite (bind_returns _ _ _ _ _ E1).
    destruct (IH (<[i := u8 (if m_level p =? VSCP_LEVEL1 then -1 else view p i)]> rs) q1 Nd Hks) as (rs' & q & E & Sq & V);
      [rewrite <- S1; exact Hp|].
    exists rs', q. split; [exact E|]. split; [rewrite S1; exact Sq|]. intros k. rewrite V, In_cons, (same_level _ _ S1), (same_view _ _ S1).
    destruct (Z.eqb_spec k i) as [->|N]; cbn [orb].
    + rewrite bool_decide_false by exact Ni. cbn [andb]. rewrite Sel, lookup_insert_eq. f_equal.
      destruct (m_level p =? VSCP_LEVEL1); [reflexivity|apply u8_id, Hp].
    + rewrite lookup_insert_ne by congruence. reflexivity.
  - destruct (IH rs p Nd Hks Hp) as (rs' & q & E & Sq & V). exists rs', q. split; [exact E|]. split; [exact Sq|].
    intros k. rewrite V, In_cons. destruct (Z.eqb_spec k i) as [->|N]; cbn [orb]; [|reflexivity].
    rewrite Sel, !andb_false_r. reflexivity.
Qed.

(** ** Properties: standard registers *)

(** The standard registers taken from a page that has been read: those of a
    level II device are the registers of page 0.  A page of a level I device
    refuses offsets above 127, and every standard register becomes 255. *)
Theorem standard_registers_from_page s p :
  page_ok p ->
  if m_page p =? 0
  then exists s' q, CStandardRegisters_init_page s p = Returns (VSCP_ERROR_SUCCESS, s', q) /\
    forall k, 128 <= k < 256 -> k < 0xa5 \/ 0xcf < k -> std_view s' k = if m_level p =? VSCP_LEVEL1 then 255 else view p k
  else CStandardRegisters_init_page s p = Returns (VSCP_ERROR_INIT_MISSING, s, p).
Proof.
  intros Hp. unfold CStandardRegisters_init_page, get. rewrite (bind_returns _ _ p p p eq_refl).
  destruct (m_page p =? 0); [|reflexivity]. cbn [negb].
  destruct (init_page_loop_spec (seqZ 0x80 0x80) (m_regs s) p) as (rs & q & E & _ & V);
    [apply NoDup_seqZ|intros k Hk%elem_of_seqZ; lia|exact Hp|].
  rewrite (bind_returns _ _ _ _ _ E). do 2 eexists. split; [reflexivity|]. intros k Hk Hs. unfold std_view. cbn [m_regs].
  rewrite V, bool_decide_true by (apply elem_of_seqZ; lia).
  destruct (Z.ltb_spec k 0xa5); destruct (Z.ltb_spec 0xcf k); try lia; reflexivity.
Qed.

Lemma for_each_map {W A B} (f : A -> B) (xs : list A) (body : B -> M W unit) :
  for_each (map f xs) body = for_each xs (fun x => body (f x)).
Proof. induction xs as [|x xs IH]; [reflexivity|]. cbn [map for_each]. rewrite IH. reflexivity. Qed.

Lemma writes_to_map (f : Z -> Z) ks k : NoDup ks ->
  writes_to k (map (fun j => (j, f j)) ks) = if bool_decide (k ∈ ks) then [f k] else [].
Proof.
  induction ks as [|j ks IH]; intros D; [reflexivity|]. apply list.NoDup_cons in D as [Nj D]. cbn [map].
  rewrite writes_to_cons, (IH D). destruct (Z.eqb_spec k j) as [->|N].
  - rewrite bool_decide_false by exact Nj. rewrite bool_decide_true by left. reflexivity.
  - rewrite (bool_decide_ext (k ∈ j :: ks) (k ∈ ks)); [reflexivity|]. rewrite elem_of_cons. tauto.
Qed.

Lemma putLevel1Registers_spec rs p :
  (forall k, k ∈ keys rs -> in_page p k) ->
  exists q, CRegisterPage_putLevel1Registers rs p = Returns (tt, q) /\ m_level q = m_level p /\ m_page q = m_page p /\
    forall k, m_registers q !! k = if bool_decide (k ∈ keys rs) then rs !! k else m_registers p !! k.
Proof.
  intros Hr. destruct (put_all_spec (map (fun k => (k, default 0 (rs !! k))) (keys rs)) p) as (q & E & L & P & S).
  { intros k v Hk. apply list_elem_of_fmap in Hk as (k' & [= -> ->] & Hk). apply Hr, Hk. }
  exists q. unfold put_all in E. rewrite for_each_map in E. split_and!; [exact E|exact L|exact P|].
  intros k. destruct (S k) as (-> & _). rewrite (writes_to_map (fun k => default 0 (rs !! k))) by apply NoDup_keys.
  destruct (bool_decide_reflect (k ∈ keys rs)) as [Hk|]; [|reflexivity].
  apply elem_of_keys in Hk as [_ [v ->]]. reflexivity.
Qed.

(** A page as the node has it, without changes. *)
Definition page_of (level page : Z) (rs : Z -> Z) (p : CRegisterPage) : Prop :=
  m_level p = level /\ m_page p = page /\ m_change p = ∅ /\ forall k, 0 <= k < 128 -> m_registers p !! k = Some (rs k).

Section of_node.
Context {W : Type} `{VscpClient W} (guidNode guidInterface : list Z) (timeout : Z).
Context (N : RegisterNode W guidNode guidInterface timeout) (Hn : getNickname guidNode <> 0).
Context (fuel : nat) (Hf : (64 <= fuel)%nat).

Lemma init_page_ok u page w :
  is_u16 page -> exists q w', regs w' = regs w /\ page_of (user_level u) page (regs w page) q /\
    forall pages rv, init_pages fuel guidNode guidInterface None timeout (page :: pages) rv u w =
      init_pages fuel guidNode guidInterface None timeout pages VSCP_ERROR_SUCCESS
        (UserRegisters (user_level u) ({[page]} ∪ m_pages u) (<[page := Some q]> (m_registerPageMap u))) w'.
Proof.
  intros Hp. destruct (read_block_ok guidNode guidInterface timeout N Hn page 0 128 ∅ fuel w Hp Hf) as (rs & w' & E & R & V); try lia.
  assert (K : forall k, k ∈ keys rs <-> 0 <= k < 128).
  { intros k. rewrite elem_of_keys, V, lookup_empty. compare; split; try lia; try (intros [_ [x Q]]; discriminate Q).
    intros _. split; [lia|eauto]. }
  destruct (putLevel1Registers_spec rs (new_CRegisterPage (user_level u) page)) as (q & Eq & L & P & S).
  { intros k Hk. apply K in Hk. split; [lia|intros _; lia]. }
  exists (CRegisterPage_clearChanges q), w'. split; [exact R|]. split.
  { split_and!; [exact L|exact P|reflexivity|]. intros k Hk. cbn [CRegisterPage_clearChanges m_registers].
    rewrite S, bool_decide_true by (apply K, Hk). rewrite V. compare. }
  intros pages rv. cbn [init_pages]. rewrite (bind_returns _ _ _ _ _ E). cbn [negb Z.eqb VSCP_ERROR_SUCCESS].
  unfold method at 1, mbind at 1, M_bind at 1. rewrite Eq. cbn [user_level m_pages m_registerPageMap].
  rewrite insert_insert_eq. reflexivity.
Qed.

Lemma init_pages_ok pages : forall rv u w, Forall is_u16 pages -> (rv = VSCP_ERROR_SUCCESS \/ pages <> []) ->
  exists u' w', init_pages fuel guidNode guidInterface None timeout pages rv u w = Returns (VSCP_ERROR_SUCCESS, u', w') /\
    regs w' = regs w /\ user_level u' = user_level u /\ m_pages u' = list_to_set pages ∪ m_pages u /\
    forall page, if bool_decide (page ∈ pages)
      then exists p, m_registerPageMap u' !! page = Some (Some p) /\ page_of (user_level u) page (regs w page) p
      else m_registerPageMap u' !! page = m_registerPageMap u !! page.
Proof.
  induction pages as [|page pages IH]; intros rv u w Hp Hrv.
  { destruct Hrv as [->|[]]; [|reflexivity]. exists u, w. split_and!; try reflexivity. set_solver. }
  inversion Hp as [|? ? Hp1 Hp2]; subst. destruct (init_page_ok u page w Hp1) as (q & w1 & R1 & Pq & Step). rewrite Step.
  edestruct (IH VSCP_ERROR_SUCCESS) as (u' & w' & E & R & L & P & S); [exact Hp2|left; reflexivity|].
  exists u', w'. split; [exact E|]. split; [congruence|]. split; [exact L|]. cbn [m_pages user_level m_registerPageMap] in *.
  split; [rewrite P; set_solver|]. intros k. specialize (S k). rewrite R1 in S.
  destruct (bool_decide_reflect (k ∈ pages)) as [Hk|Hk].
  - rewrite bool_decide_true by (right; exact Hk). exact S.
  - destruct (decide (k = page)) as [->|Nk].
    + rewrite bool_decide_true by left. exists q. split; [rewrite S; apply lookup_insert_eq|exact Pq].
    + rewrite bool_decide_false by (rewrite elem_of_cons; tauto). rewrite S. apply lookup_insert_ne. congruence.
Qed.
End of_node.

(** C35: The registers read from a node that answers: success, every page is
    there with the 128 registers the node has, nothing is marked as changed, and
    what is read from the object is what the node has. *)
Theorem user_registers_of_node {W} `{VscpClient W} guidNode guidInterface timeout
    (N : RegisterNode W guidNode guidInterface timeout) fuel level pages w :
  getNickname guidNode <> 0 -> (64 <= fuel)%nat -> Forall is_u16 pages ->
  exists u w', CUserRegisters_init fuel guidNode guidInterface pages None timeout (new_CUserRegisters level) w =
      Returns (VSCP_ERROR_SUCCESS, u, w') /\
    m_pages u = list_to_set pages /\ CUserRegisters_hasChanges u = Returns (false, u) /\
    forall page k, page ∈ pages -> 0 <= k < 128 -> exists u', CUserRegisters_getReg k page u = Returns (regs w page k, u').
Proof.
  intros Hn Hf Hp.
  destruct (init_pages_ok guidNode guidInterface timeout N Hn fuel Hf pages VSCP_ERROR_SUCCESS (new_CUserRegisters level) w Hp)
    as (u & w' & E & _ & _ & P & S); [left; reflexivity|].
  exists u, w'. split; [exact E|]. split; [rewrite P; cbn; set_solver|].
  assert (In : forall page, is_Some (m_registerPageMap u !! page) -> exists p, m_registerPageMap u !! page = Some (Some p) /\ page_of level page (regs w page) p).
  { intros page Hs. specialize (S page). destruct (bool_decide_reflect (page ∈ pages)); [exact S|].
    rewrite S in Hs. cbn in Hs. rewrite lookup_empty in Hs. destruct Hs as [? Q]. discriminate Q. }
  split.
  - unfold CUserRegisters_hasChanges, get. rewrite (bind_returns _ _ u u u eq_refl).
    assert (C : forall ks, (forall k, k ∈ ks -> is_Some (m_registerPageMap u !! k)) -> changes_loop ks (m_registerPageMap u) = Some false).
    { induction ks as [|k ks IH]; intros Hks; [reflexivity|]. cbn [changes_loop].
      destruct (In k) as (p & -> & _ & _ & Cp & _); [apply Hks; left|]. cbn. unfold CRegisterPage_hasChanges. rewrite Cp.
      apply IH. intros j Hj. apply Hks. right. exact Hj. }
    rewrite C; [reflexivity|]. intros k. apply elem_of_page_numbers.
  - intros page k Hpage Hk. specialize (S page). rewrite bool_decide_true in S by exact Hpage.
    destruct S as (p & Em & _ & _ & _ & V). eexists. apply (on_page_returns _ _ _ _ p _ p Em).
    unfold get. rewrite (bind_returns _ _ p p p eq_refl), (V k Hk). reflexivity.
Qed.

(** The standard registers read from a node that answers: the GUID is that of
    the registers 0xd0 to 0xdf, and the URL of the module description the text up
    to a zero in the 32 registers from 0xe0 on.  A URL that fills the 32 registers
    has no zero behind it and is read beyond the buffer. *)
Theorem standard_registers_of_node {W} `{VscpClient W} guidNode guidInterface timeout
    (N : RegisterNode W guidNode guidInterface timeout) fuel s w :
  getNickname guidNode <> 0 -> (64 <= fuel)%nat ->
  let url := map (regs w 0) (seqZ 0xe0 32) in
  exists s' w', CStandardRegisters_init fuel guidNode guidInterface None timeout s w = Returns (VSCP_ERROR_SUCCESS, s', w') /\
    (forall k, 128 <= k < 256 -> exists s2, CStandardRegisters_getReg k s' = Returns (regs w 0 k, s2)) /\
    (forall g, length g = 16%nat -> exists s2, CStandardRegisters_getGUID g s' = Returns (map (regs w 0) (seqZ 0xd0 16), s2)) /\
    if bool_decide (0 ∈ url) then exists s2, getMDF s' = Returns (c_str url, s2) else getMDF s' = Undefined.
Proof.
  intros Hn Hf url.
  destruct (read_block_ok guidNode guidInterface timeout N Hn 0 0x80 128 ∅ fuel w ltac:(unfold is_u16; lia) Hf) as (rs & w' & E & R & V); try lia.
  exists (StandardRegisters (std_level s) rs ∅), w'. split; [unfold CStandardRegisters_init; rewrite (bind_returns _ _ _ _ _ E); reflexivity|].
  assert (Sv : forall k, 128 <= k < 256 -> std_view (StandardRegisters (std_level s) rs ∅) k = regs w 0 k).
  { intros k Hk. unfold std_view. cbn [m_regs]. rewrite V. compare. }
  assert (Sm : forall a n, 128 <= a -> a + n <= 256 -> map (std_view (StandardRegisters (std_level s) rs ∅)) (seqZ a n) = map (regs w 0) (seqZ a n)).
  { intros a n Ha Hb. apply map_ext_in. intros k Hk. apply list_elem_of_In, elem_of_seqZ in Hk. apply Sv. lia. }
  split_and!.
  - intros k Hk. destruct (std_getReg_spec k (StandardRegisters (std_level s) rs ∅)) as (s2 & E2 & _). rewrite Sv in E2 by lia. eauto.
  - intros g Hg. destruct (getGUID_spec g (StandardRegisters (std_level s) rs ∅) Hg) as (s2 & E2). rewrite Sm in E2 by lia. eauto.
  - destruct (std_read_spec 32 0xe0 (StandardRegisters (std_level s) rs ∅)) as (s2 & E2 & _).
    change (Z.of_nat 32) with 32 in E2. rewrite Sm in E2 by lia. unfold getMDF. rewrite (bind_returns _ _ _ _ _ E2). fold url.
    assert (X : existsb (Z.eqb 0) url = bool_decide (0 ∈ url)).
    { apply eq_true_iff_eq. rewrite existsb_exists, bool_decide_eq_true. split.
      - intros (x & Hx & ->%Z.eqb_eq). apply list_elem_of_In, Hx.
      - intros Hx. exists 0. split; [apply list_elem_of_In, Hx|reflexivity]. }
    rewrite X. destruct (bool_decide (0 ∈ url)); [eauto|reflexivity].
Qed.

(** ** Witnesses *)

Definition sample_page : CRegisterPage := new_CRegisterPage VSCP_LEVEL1 0.
Definition sample_regs : CUserRegisters := UserRegisters VSCP_LEVEL1 {[0]} {[0 := Some sample_page]}.
Definition no_text (_ : list Z) : list Z := [].

Lemma sample_page_ok : page_ok sample_page.
Proof. intros k. unfold view, sample_page. cbn [m_registers new_CRegisterPage]. rewrite lookup_empty. split; reflexivity || discriminate. Qed.

Lemma sample_in_page k : 0 <= k <= 127 -> in_page sample_page k.
Proof. split; [lia|intros _; lia]. Qed.

Lemma sample_pages : has_pages {[0]} sample_regs.
Proof.
  split; [|reflexivity]. intros k p E. apply (proj1 (lookup_singleton_Some (M := gmap Z) 0 k (Some sample_page) p)) in E as [_ <-]. eauto.
Qed.

Definition temperature : CMDF_RemoteVariable := RemoteVariable remote_variable_type_int16_t 0 4 0 0.

Lemma remote_number_roundtrip_witness : exists u1 u2,
  remoteVarFromStringToReg temperature (str "-2") sample_regs = Returns (VSCP_ERROR_SUCCESS, u1) /\
  remoteVarFromRegToString no_text no_text temperature [] 0 u1 = Returns (VSCP_ERROR_SUCCESS, str "-2", u2).
Proof.
  destruct (remote_number_roundtrip no_text no_text sample_regs sample_page temperature 2 (str "-2") [] 0)
    as (u1 & E1 & u2 & E2); [reflexivity|apply sample_page_ok|reflexivity| |exists u1, u2; split; [exact E1|exact E2]].
  intros k Hk. apply sample_in_page. cbn in Hk. lia.
Defined.

Definition label (offset : Z) : CMDF_RemoteVariable := RemoteVariable remote_variable_type_string 0 offset 0 4.

Lemma remote_string_register_0_witness :
  (exists u1 u2, remoteVarFromStringToReg (label 0) (str "ab") sample_regs = Returns (VSCP_ERROR_SUCCESS, u1) /\
    remoteVarFromRegToString no_text no_text (label 0) [] 0 u1 = Returns (VSCP_ERROR_SUCCESS, str "ab", u2)) /\
  (exists u1, remoteVarFromStringToReg (label 8) (str "ab") sample_regs = Returns (VSCP_ERROR_SUCCESS, u1) /\
    remoteVarFromRegToString no_text no_text (label 8) [] 0 u1 = Undefined).
Proof.
  split.
  - destruct (remote_string_register_0 no_text no_text sample_regs sample_page (label 0) (str "ab") [] 0)
      as (u1 & E1 & R & _); [reflexivity|apply sample_page_ok|reflexivity|split; reflexivity || discriminate|cbn; lia| |
        |cbn; lia|cbn; lia| |destruct (R eq_refl) as (u2 & E2); exists u1, u2; split; [exact E1|exact E2]].
    + repeat constructor; discriminate.
    + repeat constructor; discriminate.
    + intros k Hk. apply sample_in_page. cbn in Hk. lia.
  - destruct (remote_string_register_0 no_text no_text sample_regs sample_page (label 8) (str "ab") [] 0)
      as (u1 & E1 & _ & R); [reflexivity|apply sample_page_ok|reflexivity|split; reflexivity || discriminate|cbn; lia| |
        |cbn; lia|cbn; lia| |exists u1; split; [exact E1|apply R; cbn; lia]].
    + repeat constructor; discriminate.
    + repeat constructor; discriminate.
    + intros k Hk. apply sample_in_page. cbn in Hk. lia.
Defined.

Definition sample_dm : CMDF_DecisionMatrix := DecisionMatrix 0 32 4 8.

Lemma dm_row_roundtrip_witness : exists u1 u2,
  vscp_writeDmRow 256 sample_dm 2 [1; 2; 3; 4; 5; 6; 7; 8] sample_regs = Returns (VSCP_ERROR_SUCCESS, u1) /\
  vscp_readDmRow 256 sample_dm 2 (replicate 8 0) u1 = Returns (VSCP_ERROR_SUCCESS, [1; 2; 3; 4; 5; 6; 7; 8], u2).
Proof.
  destruct (dm_row_roundtrip sample_dm sample_regs sample_page 2 [1; 2; 3; 4; 5; 6; 7; 8] [] (replicate 8 0) 256)
    as (u1 & q & u2 & E1 & _ & _ & E2);
    [reflexivity|apply sample_page_ok|repeat constructor; discriminate|cbn; lia|reflexivity|cbn; lia|lia|cbn; lia| |cbn; lia|].
  - intros k Hk. apply sample_in_page. cbn in Hk. lia.
  - exists u1, u2. split; [exact E1|exact E2].
Defined.

Definition level2_regs : CUserRegisters := UserRegisters VSCP_LEVEL2 {[0]} {[0 := Some (new_CRegisterPage VSCP_LEVEL2 0)]}.

Lemma dm_row_ends_witness :
  vscp_readDmRow 256 sample_dm 2 (replicate 8 0) sample_regs <> OutOfFuel /\
  vscp_readDmRow 1000 (DecisionMatrix 0 0 4 300) 2 (replicate 300 0) level2_regs = OutOfFuel.
Proof.
  split; [apply (dm_row_ends sample_dm sample_regs 2 (replicate 8 0)); [cbn; lia|lia]|].
  apply (dm_row_ends (DecisionMatrix 0 0 4 300) level2_regs 2 (replicate 300 0)) with (p := new_CRegisterPage VSCP_LEVEL2 0);
    [cbn; lia|cbn; lia|cbn; lia|rewrite length_replicate; lia|reflexivity|].
  intros k Hk. cbn [m_rowSize] in Hk. split; [lia|discriminate].
Defined.

Lemma page_write_history_witness : exists q,
  put_all [(7, 1); (9, 5); (7, 1); (7, 3)] sample_page = Returns (tt, q) /\
  view q 7 = 3 /\ default [] (m_list_undo_value q !! 7) = [0; 1].
Proof.
  destruct (page_write_history sample_page [(7, 1); (9, 5); (7, 1); (7, 3)]) as (q & E & S).
  - intros k v Hk. apply sample_in_page. set_unfold in Hk. naive_solver lia.
  - exists q. destruct (S 7) as (S1 & S2 & _). split; [exact E|]. split; [exact S1|exact S2].
Defined.

Lemma missing_page_null_witness : exists u,
  CUserRegisters_getReg 3 5 sample_regs = Returns (-1, u) /\ CUserRegisters_clearChanges u = Undefined.
Proof.
  destruct (missing_page_null sample_regs 5 3 eq_refl) as (u & E1 & E2 & _). exists u. split; [exact E1|exact E2].
Defined.

Lemma user_registers_invariant_witness : exists u,
  for_each [OpPutReg 3 0 9; OpGetReg 4 0; OpHasChanges; OpClearChanges; OpIsChanged 3 0] user_exec sample_regs = Returns (tt, u) /\
  has_pages {[0]} u.
Proof.
  apply user_registers_invariant; [apply sample_pages|].
  intros o page Ho Hp. assert (page = 0) as ->.
  { repeat (apply elem_of_cons in Ho as [->|Ho]; [cbn in Hp; congruence|]). inversion Ho. }
  split; [split; reflexivity || discriminate|set_solver].
Defined.

Lemma standard_registers_from_page_witness :
  exists s q, CStandardRegisters_init_page (new_CStandardRegisters VSCP_LEVEL1) sample_page = Returns (VSCP_ERROR_SUCCESS, s, q) /\
    std_view s 0xd0 = 255.
Proof.
  destruct (standard_registers_from_page (new_CStandardRegisters VSCP_LEVEL1) sample_page sample_page_ok) as (s & q & E & V).
  exists s, q. split; [exact E|]. apply V; lia.
Defined.

Lemma user_registers_of_node_witness : exists u w',
  CUserRegisters_init (H := sample_client) 64 sample_guid no_interface [0; 3] None 1000 (new_CUserRegisters VSCP_LEVEL1) start =
    Returns (VSCP_ERROR_SUCCESS, u, w') /\
  exists u', CUserRegisters_getReg 5 3 u = Returns (305, u').
Proof.
  destruct (user_registers_of_node (H := sample_client) sample_guid no_interface 1000 (sample_node 1000 ltac:(lia)) 64 VSCP_LEVEL1 [0; 3] start)
    as (u & w' & E & _ & _ & G); [discriminate|lia|repeat constructor; discriminate|].
  destruct (G 3 5) as (u' & Eg); [right; left|lia|]. exists u, w'. split; [exact E|]. exists u'. rewrite Eg. reflexivity.
Defined.

Lemma standard_registers_of_node_witness : exists s w',
  CStandardRegisters_init (H := sample_client) 64 sample_guid no_interface None 1000 (new_CStandardRegisters VSCP_LEVEL1) start =
    Returns (VSCP_ERROR_SUCCESS, s, w') /\ getMDF s = Undefined.
Proof.
  destruct (standard_registers_of_node (H := sample_client) sample_guid no_interface 1000 (sample_node 1000 ltac:(lia)) 64
              (new_CStandardRegisters VSCP_LEVEL1) start) as (s & w' & E & _ & _ & G); [discriminate|lia|].
  exists s, w'. split; [exact E|]. rewrite bool_decide_false in G; [exact G|].
  intros (k & Q & Hk%elem_of_seqZ)%list_elem_of_fmap. cbn in Q. lia.
Defined.
