(* ===== verification/BootDevice.v ===== *)
(** * Boot loader base: src/src/vscp/common/vscp-bootdevice.cpp

    Class CBootDevice keeps the firmware as a list of memory segments, read from
    an Intel hex file, from which the boot loaders build the images they send.
    Here: reading the file, the address range of an image, and filling a
    buffer with it. *)

From S2P Require Import Prelude Program Strings Guid.

Definition VSCP_ERROR_PARAMETER : Z := 34.
Definition VSCP_ERROR_SIZE : Z := 64.

Definition INTELHEX_LINETYPE_DATA : Z := 0.
Definition INTELHEX_LINETYPE_EOF : Z := 1.
Definition INTELHEX_LINETYPE_EXTENDED_SEGMENT : Z := 2.
Definition INTELHEX_LINETYPE_START_SEGMENT : Z := 3.
Definition INTELHEX_LINETYPE_EXTENDED_LINEAR : Z := 4.
Definition INTELHEX_LINETYPE_START_LINEAR : Z := 5.

(** ** The data of a device *)

(** [m_segSize] is the length of the data: the constructor copies that many
    bytes. *)
Record CBootMemSegment := MemSegment { m_startAddress : Z; m_pmemSegment : list Z }.

Definition m_segSize (s : CBootMemSegment) : Z := Z.of_nat (length (m_pmemSegment s)).

(** ** std::ifstream and its getline *)

Record ifstream := Stream { content : list Z; eofbit : bool; failbit : bool }.

(** A file that cannot be opened sets the failbit; open does not throw. *)
Definition open (file : option (list Z)) : ifstream :=
  match file with
  | Some s => Stream s false false
  | None => Stream [] false true
  end.

(** Characters up to a newline, the end of the file or the end of the buffer. *)
Fixpoint extract (room : nat) (s : list Z) {struct s} : list Z * ifstream :=
  match s with
  | [] => ([], Stream [] true false)
  | c :: s' =>
      if c =? 10 then ([], Stream s' false false)
      else match room with
           | O => ([], Stream s false true)
           | S n => let '(l, ifs) := extract n s' in (c :: l, ifs)
           end
  end.

(** [getline(szline, n)]: the string that it leaves in the buffer.  On a stream
    that is not good the string is empty. *)
Definition getline (n : nat) (ifs : ifstream) : list Z * ifstream :=
  if eofbit ifs || failbit ifs then ([], Stream (content ifs) (eofbit ifs) true)
  else match content ifs with
       | [] => ([], Stream [] true true)
       | s => extract (n - 1) s
       end.

(** ** loadIntelHexFile *)

Record hex_state := HexState { highaddr : Z; segmentaddr : Z; m_memSegList : list CBootMemSegment }.

Inductive line_result :=
  | Continue (st : hex_state)
  | Stop (st : hex_state)
  | Fail (rv : Z) (st : hex_state)
  | Exception.

Definition fulladdr (st : hex_state) (lowaddr : Z) : Z :=
  u32 (u32 (Z.shiftl (highaddr st) 16) + lowaddr + segmentaddr st).

(** The line's bytes in [linebuf], whose other elements are uninitialised. *)
Definition hex_record (linebuf : list Z) (st : hex_state) : line_result :=
  let b i := nth i linebuf 0 in
  let cnt := b 0%nat in
  let lowaddr := u16 (Z.shiftl (b 1%nat) 8 + b 2%nat) in
  let rectype := b 3%nat in
  if rectype =? INTELHEX_LINETYPE_DATA then
    let pblk := MemSegment (fulladdr st lowaddr) (take (Z.to_nat cnt) (drop 4 linebuf)) in
    Continue (HexState (highaddr st) (segmentaddr st) (m_memSegList st ++ [pblk]))
  else if rectype =? INTELHEX_LINETYPE_EOF then Stop st
  else if rectype =? INTELHEX_LINETYPE_EXTENDED_SEGMENT then
    if negb (b 0%nat =? 4) then Fail VSCP_ERROR_PARAMETER st
    else Continue (HexState (highaddr st) (u32 ((Z.shiftl (b 4%nat) 8 + b 5%nat) * 16))
                     (m_memSegList st))
  else if rectype =? INTELHEX_LINETYPE_EXTENDED_LINEAR then
    if negb (b 0%nat =? 2) then Fail VSCP_ERROR_PARAMETER st
    else Continue (HexState (u16 (Z.shiftl (b 4%nat) 8 + b 5%nat)) (segmentaddr st)
                     (m_memSegList st))
  else Continue st.

(** The bytes of a line; [uninit] is what [linebuf] holds before. *)
Definition hex_bytes (uninit bytes : list Z) (st : hex_state) : line_result :=
  if (length bytes <? 5)%nat then Fail VSCP_ERROR_PARAMETER st
  else
    let sum := foldl (fun s b => u16 (s + b)) 0 bytes in
    if negb (Z.land sum 0xff =? 0) then Fail VSCP_ERROR_PARAMETER st
    else hex_record (bytes ++ drop (length bytes) uninit) st.

(** A line that starts with a colon. *)
Definition hex_line (uninit text : list Z) (st : hex_state) : line_result :=
  match vscp_hexStr2ByteArray 1024 text with
  | None => Exception
  | Some bytes => hex_bytes uninit bytes st
  end.

(** [while (bRun && !hexfile.eof())]. *)
Fixpoint load_loop (uninit : list Z) (fuel : nat) (hexfile : ifstream) (st : hex_state)
  : outcome (Z * list CBootMemSegment) :=
  match fuel with
  | O => OutOfFuel
  | S n =>
      if eofbit hexfile then Returns (VSCP_ERROR_SUCCESS, m_memSegList st)
      else
        let '(szline, hexfile) := getline 2048 hexfile in
        match szline with
        | c :: text =>
            if c =? 58 then
              match hex_line uninit text st with
              | Continue st => load_loop uninit n hexfile st
              | Stop st => Returns (VSCP_ERROR_SUCCESS, m_memSegList st)
              | Fail rv st => Returns (rv, m_memSegList st)
              | Exception => Throws
              end
            else load_loop uninit n hexfile st
        | [] => load_loop uninit n hexfile st
        end
  end.

Definition loadIntelHexFile (uninit : list Z) (fuel : nat) (file : option (list Z))
    (segs : list CBootMemSegment) : outcome (Z * list CBootMemSegment) :=
  load_loop uninit fuel (open file) (HexState 0 0 segs).

(** ** Images *)

Definition m_endAddress (s : CBootMemSegment) : Z := u32 (m_startAddress s + m_segSize s).

Definition min_max_step (start stop : Z) (r : Z * Z) (pblk : CBootMemSegment) : Z * Z :=
  let '(pmin, pmax) := r in
  if (start <=? m_startAddress pblk) && (m_startAddress pblk <=? stop) then
    (if m_startAddress pblk <? pmin then m_startAddress pblk else pmin,
     if pmax <? m_endAddress pblk then m_endAddress pblk else pmax)
  else (pmin, pmax).

(** The result and what the two pointers point to. *)
Definition getMinMaxForRange (segs : list CBootMemSegment) (start stop : Z) (pmin pmax : option Z)
  : Z * option Z * option Z :=
  match pmin, pmax with
  | None, _ | _, None => (VSCP_ERROR_INVALID_POINTER, pmin, pmax)
  | Some _, Some _ =>
      if stop <=? start then (VSCP_ERROR_PARAMETER, pmin, pmax)
      else
        let '(lo, hi) := foldl (min_max_step start stop) (0xffffffff, 0) segs in
        if (lo =? 0xffffffff) && (hi =? 0) then (VSCP_ERROR_SUCCESS, Some 0, Some hi)
        else (VSCP_ERROR_SUCCESS, Some lo, Some hi)
  end.

(** Whether fillMemoryBuffer copies the segment. *)
Definition in_range (start stop : Z) (pblk : CBootMemSegment) : bool :=
  (start <=? m_startAddress pblk) && (m_endAddress pblk <? stop).

(** [memcpy] to an address [off] bytes behind [mem], where [off] may be large. *)
Definition copy_to (mem : list Z) (off : Z) (bs : list Z) : option (list Z) :=
  if off + Z.of_nat (length bs) <=? Z.of_nat (length mem) then wr mem (Z.to_nat off) bs else None.

Definition fill_step (start stop offset : Z) (mem : option (list Z)) (pblk : CBootMemSegment)
  : option (list Z) :=
  mem ← mem;
  if in_range start stop pblk
  then copy_to mem (u32 (m_startAddress pblk - start - offset)) (m_pmemSegment pblk)
  else Some mem.

(** [None] is a copy outside the buffer. *)
Definition fillMemoryBuffer (segs : list CBootMemSegment) (pmem : option (list Z))
    (size start stop offset fillbyte : Z) : option (Z * option (list Z)) :=
  match pmem with
  | None => Some (VSCP_ERROR_INVALID_POINTER, None)
  | Some mem =>
      if size =? 0 then Some (VSCP_ERROR_SIZE, pmem)
      else
        mem ← foldl (fill_step start stop offset)
                    (wr mem 0 (replicate (Z.to_nat size) fillbyte)) segs;
        Some (VSCP_ERROR_SUCCESS, Some mem)
  end.

(** ** A reference writer of Intel hex files

    A record is the count, the address, the type, the data and the byte that
    makes the sum zero, in upper-case digits, behind a colon; a line ends with
    LF or CR LF. *)

Definition record_bytes (addr type : Z) (data : list Z) : list Z :=
  let body := [Z.of_nat (length data); addr / 256; addr mod 256; type] ++ data in
  body ++ [u8 (- foldl Z.add 0 body)].

Definition hex_text (eol bytes : list Z) : list Z := 58 :: concat (map hex2 bytes) ++ eol ++ [10].

Definition segment_text (eol : list Z) (s : CBootMemSegment) : list Z :=
  hex_text eol (record_bytes 0 INTELHEX_LINETYPE_EXTENDED_LINEAR
                  [m_startAddress s / 65536 / 256; m_startAddress s / 65536 mod 256]) ++
  hex_text eol (record_bytes (m_startAddress s mod 65536) INTELHEX_LINETYPE_DATA (m_pmemSegment s)).

Definition eof_text (eol : list Z) : list Z := hex_text eol (record_bytes 0 INTELHEX_LINETYPE_EOF []).

Definition hex_file (eol : list Z) (segs : list CBootMemSegment) : list Z :=
  concat (map (segment_text eol) segs) ++ eof_text eol.

Definition segment_ok (s : CBootMemSegment) : Prop :=
  is_u32 (m_startAddress s) /\ bytes_ok (m_pmemSegment s) /\ (length (m_pmemSegment s) <= 255)%nat.

Definition sample_segs : list CBootMemSegment :=
  [MemSegment 0x1234567 [1; 2; 3]; MemSegment 0 (replicate 16 0xab); MemSegment 0xfffffffe []].

Example load_sample :
  loadIntelHexFile (replicate 1024 0x55) 20 (Some (hex_file [13] sample_segs)) []
  = Returns (VSCP_ERROR_SUCCESS, sample_segs).
Proof. vm_compute. reflexivity. Qed.

(** ** Lemmas on lines *)

Definition hex2_check (b : Z) : bool :=
  match hex2 b with
  | [x; y] =>
      match readHexChar x, readHexChar y with
      | Some h, Some l => (u8 (u8 (Z.shiftl h 4) + l) =? b) && negb (x =? 0) && negb (y =? 0)
                          && negb (x =? 10) && negb (y =? 10)
      | _, _ => false
      end
  | _ => false
  end.

Lemma hex2_checked : all_below 256 hex2_check = true.
Proof. vm_compute. reflexivity. Qed.

Lemma hex2_spec b :
  is_u8 b ->
  exists x y h l, hex2 b = [x; y] /\ readHexChar x = Some h /\ readHexChar y = Some l /\
    u8 (u8 (Z.shiftl h 4) + l) = b /\ x <> 0 /\ y <> 0 /\ x <> 10 /\ y <> 10.
Proof.
  intros Hb. assert (T := all_below_spec 256 _ b hex2_checked ltac:(width)).
  unfold hex2_check in T. unfold hex2 in *. cbv iota in T.
  destruct (readHexChar (dchar (b / 16))) as [h|] eqn:Eh; [|discriminate T].
  destruct (readHexChar (dchar (b mod 16))) as [l|] eqn:El; [|discriminate T].
  rewrite !andb_true_iff, !negb_true_iff, Z.eqb_eq, !Z.eqb_neq in T.
  exists (dchar (b / 16)), (dchar (b mod 16)), h, l. tauto.
Qed.

(** LF or CR LF. *)
Definition eol_ok (eol : list Z) : Prop := eol = [] \/ eol = [13].

Lemma hexStr_text bytes eol :
  eol_ok eol -> bytes_ok bytes -> (length bytes <= 1024)%nat ->
  vscp_hexStr2ByteArray 1024 (concat (map hex2 bytes) ++ eol) = Some bytes.
Proof.
  intros He Hb. unfold vscp_hexStr2ByteArray. generalize 1024%nat.
  induction Hb as [|b bytes Hb _ IH]; intros n Hn.
  - destruct He as [-> | ->]; destruct n; reflexivity.
  - destruct n as [|n]; [cbn in Hn; lia|]. cbn [map concat length] in *.
    destruct (hex2_spec b Hb) as (x & y & h & l & -> & Ex & Ey & E & X & Y & _).
    cbn [app c_str]. rewrite (proj2 (Z.eqb_neq x 0) X), (proj2 (Z.eqb_neq y 0) Y).
    cbn [hexstr_loop]. rewrite Ex, Ey. cbn [mbind option_bind].
    rewrite IH by lia. cbn [mbind option_bind]. rewrite E. reflexivity.
Qed.

Lemma extract_line room line rest :
  10 ∉ line -> (length line <= room)%nat ->
  extract room (line ++ 10 :: rest) = (line, Stream rest false false).
Proof.
  revert room. induction line as [|c line IH]; intros room Hn Hl; [destruct room; reflexivity|].
  apply not_elem_of_cons in Hn as [Hc Hn]. destruct room as [|room]; [cbn in Hl; lia|].
  cbn [app extract length] in *. destruct (Z.eqb_spec c 10); [congruence|].
  rewrite IH by (assumption || lia). reflexivity.
Qed.

Lemma getline_line line rest :
  10 ∉ line -> (length line <= 2047)%nat ->
  getline 2048 (Stream (line ++ 10 :: rest) false false) = (line, Stream rest false false).
Proof.
  intros Hn Hl. unfold getline. cbn [eofbit failbit orb content].
  rewrite <- (extract_line 2047) by assumption. destruct line; reflexivity.
Qed.

Lemma hex_no_newline bytes : bytes_ok bytes -> 10 ∉ concat (map hex2 bytes).
Proof.
  induction 1 as [|b bytes Hb _ IH]; [apply not_elem_of_nil|]. cbn [map concat].
  destruct (hex2_spec b Hb) as (x & y & h & l & -> & _ & _ & _ & _ & _ & X & Y).
  rewrite elem_of_app, !elem_of_cons, elem_of_nil. intuition congruence.
Qed.

Lemma length_hex bytes : length (concat (map hex2 bytes)) = (2 * length bytes)%nat.
Proof. induction bytes as [|b bytes IH]; [reflexivity|]. cbn [map concat app length hex2]. lia. Qed.

(** The loop on a line of hex digits. *)
Lemma load_line uninit n eol bytes rest st :
  eol_ok eol -> bytes_ok bytes -> (length bytes <= 1000)%nat ->
  load_loop uninit (S n) (Stream (hex_text eol bytes ++ rest) false false) st
  = match hex_bytes uninit bytes st with
    | Continue st => load_loop uninit n (Stream rest false false) st
    | Stop st => Returns (VSCP_ERROR_SUCCESS, m_memSegList st)
    | Fail rv st => Returns (rv, m_memSegList st)
    | Exception => Throws
    end.
Proof.
  intros He Hb Hl. cbn [load_loop eofbit].
  assert (E : hex_text eol bytes ++ rest = (58 :: concat (map hex2 bytes) ++ eol) ++ 10 :: rest)
    by (unfold hex_text; cbn [app]; rewrite <- !app_assoc; reflexivity).
  rewrite E, getline_line.
  - unfold hex_line. rewrite hexStr_text by (assumption || lia). reflexivity.
  - rewrite elem_of_cons, elem_of_app. intros [H|[H|H]]; [discriminate|exact (hex_no_newline bytes Hb H)|].
    destruct He as [-> | ->]; [exact (proj1 (elem_of_nil _) H)|].
    apply list_elem_of_singleton in H. discriminate.
  - cbn [length]. rewrite length_app, length_hex. destruct He as [-> | ->]; cbn [length]; lia.
Qed.

(** *** Checksums *)

Definition sum (bs : list Z) : Z := foldr Z.add 0 bs.

Lemma foldl_sum bs a : foldl Z.add a bs = a + sum bs.
Proof. revert a. induction bs as [|b bs IH]; intros a; cbn [foldl sum foldr]; [lia|]. rewrite IH. unfold sum. lia. Qed.

Lemma sum_app a b : sum (a ++ b) = sum a + sum b.
Proof. induction a as [|x a IH]; cbn [app sum foldr] in *; [reflexivity|]. unfold sum in *. lia. Qed.

Lemma sum_insert bs i v old :
  bs !! i = Some old -> sum (<[i:=v]> bs) = sum bs - old + v.
Proof.
  revert i. induction bs as [|b bs IH]; intros i H; [discriminate H|].
  destruct i as [|i].
  - cbn in H. injection H as ->. change (v + sum bs = old + sum bs - old + v). lia.
  - change (b + sum (<[i:=v]> bs) = b + sum bs - old + v). rewrite (IH i H). lia.
Qed.

Lemma line_sum bs a : foldl (fun s b => u16 (s + b)) (u16 a) bs = u16 (a + sum bs).
Proof.
  revert a. induction bs as [|b bs IH]; intros a; cbn [foldl sum foldr]; [f_equal; lia|].
  replace (u16 (u16 a + b)) with (u16 (a + b)) by width. rewrite IH. f_equal. unfold sum. lia.
Qed.

(** What a line does depends on its sum modulo 256. *)
Lemma hex_bytes_eq uninit bytes st :
  hex_bytes uninit bytes st
  = if (length bytes <? 5)%nat then Fail VSCP_ERROR_PARAMETER st
    else if sum bytes mod 256 =? 0 then hex_record (bytes ++ drop (length bytes) uninit) st
    else Fail VSCP_ERROR_PARAMETER st.
Proof.
  unfold hex_bytes. rewrite (line_sum bytes 0 : foldl _ 0 _ = _), land_255, Z.add_0_l.
  replace (u16 (sum bytes) mod 256) with (sum bytes mod 256) by width.
  destruct (Nat.ltb (length bytes) 5), (sum bytes mod 256 =? 0); reflexivity.
Qed.

(** *** Records *)

Lemma record_bytes_ok addr type data :
  is_u16 addr -> is_u8 type -> bytes_ok data -> (length data <= 255)%nat ->
  bytes_ok (record_bytes addr type data).
Proof.
  intros Ha Ht Hd Hl. unfold record_bytes. apply Forall_app_2.
  - cbn [app]. repeat apply Forall_cons_2; try assumption; width.
  - constructor; [apply u8_ok|constructor].
Qed.

Lemma length_record addr type data : length (record_bytes addr type data) = (length data + 5)%nat.
Proof. unfold record_bytes. rewrite length_app. cbn [app length]. lia. Qed.

Lemma record_sum addr type data : sum (record_bytes addr type data) mod 256 = 0.
Proof. unfold record_bytes. rewrite sum_app, foldl_sum. unfold sum at 2. cbn [foldr]. width. Qed.

Lemma record_line uninit addr type data st :
  hex_bytes uninit (record_bytes addr type data) st
  = hex_record (record_bytes addr type data ++ drop (length data + 5) uninit) st.
Proof.
  rewrite hex_bytes_eq, length_record, record_sum.
  destruct (Nat.ltb_spec (length data + 5) 5); [lia|reflexivity].
Qed.

Lemma linear_line uninit hi lo st :
  is_u8 hi -> is_u8 lo ->
  hex_bytes uninit (record_bytes 0 INTELHEX_LINETYPE_EXTENDED_LINEAR [hi; lo]) st
  = Continue (HexState (hi * 256 + lo) (segmentaddr st) (m_memSegList st)).
Proof.
  intros Hh Hl. rewrite record_line. unfold hex_record, record_bytes. cbn [app length nth].
  cbn -[Z.shiftl u16]. rewrite shiftl_mul by lia. do 2 f_equal. width.
Qed.

Lemma data_line uninit addr data hi st :
  is_u16 addr -> is_u16 hi -> bytes_ok data -> (length data <= 255)%nat ->
  highaddr st = hi -> segmentaddr st = 0 ->
  hex_bytes uninit (record_bytes addr INTELHEX_LINETYPE_DATA data) st
  = Continue (HexState hi 0 (m_memSegList st ++ [MemSegment (hi * 65536 + addr) data])).
Proof.
  intros Ha Hh Hd Hl E1 E2. rewrite record_line. unfold hex_record, record_bytes, fulladdr.
  rewrite E1, E2. cbn [app nth drop]. change (0 =? INTELHEX_LINETYPE_DATA) with true. cbv iota.
  rewrite drop_0, Nat2Z.id, <- app_assoc, take_app_length.
  do 5 f_equal. rewrite !shiftl_mul by lia. width.
Qed.

Lemma eof_line uninit st : hex_bytes uninit (record_bytes 0 INTELHEX_LINETYPE_EOF []) st = Stop st.
Proof. rewrite record_line. reflexivity. Qed.

(** The two lines of a segment. *)
Lemma load_segment uninit n eol s rest st :
  eol_ok eol -> segment_ok s -> segmentaddr st = 0 ->
  load_loop uninit (S (S n)) (Stream (segment_text eol s ++ rest) false false) st
  = load_loop uninit n (Stream rest false false)
      (HexState (m_startAddress s / 65536) 0 (m_memSegList st ++ [s])).
Proof.
  intros He (Ha & Hb & Hl) Hs. destruct s as [a data]. cbn [m_startAddress m_pmemSegment] in *.
  unfold segment_text. rewrite <- app_assoc. cbn [m_startAddress m_pmemSegment].
  rewrite load_line; [|exact He|apply record_bytes_ok|rewrite length_record; cbn [length]; lia].
  - rewrite linear_line by width.
    rewrite load_line; [|exact He|apply record_bytes_ok|rewrite length_record; lia].
    + rewrite (data_line _ _ _ (a / 65536)); cbn [highaddr segmentaddr m_memSegList];
        try assumption; try (width; fail).
      do 6 f_equal. width.
    + width.
    + unfold is_u8, INTELHEX_LINETYPE_DATA. lia.
    + exact Hb.
    + exact Hl.
  - width.
  - unfold is_u8, INTELHEX_LINETYPE_EXTENDED_LINEAR. lia.
  - repeat constructor; width.
  - cbn [length]. lia.
Qed.

Lemma load_segments uninit n eol segs rest st :
  eol_ok eol -> Forall segment_ok segs -> segmentaddr st = 0 ->
  exists hi, load_loop uninit (2 * length segs + n)
               (Stream (concat (map (segment_text eol) segs) ++ rest) false false) st
             = load_loop uninit n (Stream rest false false) (HexState hi 0 (m_memSegList st ++ segs)).
Proof.
  intros He Hsegs. revert st. induction Hsegs as [|s segs Hs _ IH]; intros st H0.
  - exists (highaddr st). cbn [length map concat app Nat.mul Nat.add]. rewrite app_nil_r, <- H0.
    destruct st; reflexivity.
  - cbn [length map concat]. replace (2 * S (length segs) + n)%nat with (S (S (2 * length segs + n))) by lia.
    rewrite <- app_assoc, load_segment by assumption.
    destruct (IH (HexState (m_startAddress s / 65536) 0 (m_memSegList st ++ [s])) eq_refl) as [hi E].
    exists hi. rewrite E. cbn [m_memSegList]. rewrite <- app_assoc. reflexivity.
Qed.

(** *** Ending *)

(** Every line that getline is asked for fits its buffer. *)
Definition short_lines (s : list Z) : Prop :=
  forall pre line post, s = pre ++ line ++ post -> 10 ∉ line -> (length line <= 2047)%nat.

Lemma short_lines_suffix a s : short_lines (a ++ s) -> short_lines s.
Proof. intros H pre line post ->. apply (H (a ++ pre) line post). rewrite <- app_assoc. reflexivity. Qed.

Lemma extract_short room s l ifs :
  (forall line post, s = line ++ post -> 10 ∉ line -> (length line <= room)%nat) ->
  extract room s = (l, ifs) ->
  failbit ifs = false /\ (eofbit ifs = true \/ exists a, s = a ++ content ifs /\ a <> []).
Proof.
  revert room l ifs. induction s as [|c s IH]; intros room l ifs H E; cbn [extract] in E.
  - injection E as <- <-. cbn. auto.
  - destruct (Z.eqb_spec c 10) as [->|Hc].
    + injection E as <- <-. split; [reflexivity|]. right. exists [10]. split; [reflexivity|discriminate].
    + destruct room as [|room].
      { specialize (H [c] s eq_refl). cbn [length] in H. exfalso.
        enough (1 <= 0)%nat by lia. apply H. rewrite list_elem_of_singleton. congruence. }
      destruct (extract room s) as [l0 is0] eqn:E0. injection E as <- <-.
      destruct (IH room l0 is0) as [F D]; [|exact E0|].
      * intros line post Es Hn. specialize (H (c :: line) post). cbn [length app] in H.
        enough (S (length line) <= S room)%nat by lia. apply H; [congruence|].
        apply not_elem_of_cons. auto.
      * split; [exact F|]. destruct D as [D|(a & -> & _)]; [auto|]. right. exists (c :: a).
        split; [reflexivity|discriminate].
Qed.

Lemma getline_short s l ifs :
  short_lines s -> getline 2048 (Stream s false false) = (l, ifs) ->
  eofbit ifs = true \/ failbit ifs = false /\ eofbit ifs = false /\
    (length (content ifs) < length s)%nat /\ short_lines (content ifs).
Proof.
  intros H E. unfold getline in E. cbn [eofbit failbit orb content] in E.
  destruct s as [|c s]; [injection E as <- <-; auto|].
  destruct (extract_short 2047 (c :: s) l ifs) as [F D]; [|exact E|].
  - intros line post Es. apply (H [] line post). exact Es.
  - destruct (eofbit ifs) eqn:Ee; [auto|]. right. destruct D as [D|(a & Ea & Ha)]; [congruence|].
    split_and!; [exact F|reflexivity| |].
    + rewrite Ea, length_app. destruct a; [congruence|cbn [length]; lia].
    + rewrite Ea in H. apply short_lines_suffix in H. exact H.
Qed.

Lemma load_ends uninit fuel s st :
  short_lines s -> (length s + 1 < fuel)%nat ->
  load_loop uninit fuel (Stream s false false) st <> OutOfFuel.
Proof.
  revert s st. induction fuel as [|fuel IH]; intros s st H Hf; [lia|]. cbn [load_loop eofbit].
  destruct (getline 2048 (Stream s false false)) as [l ifs] eqn:E.
  assert (N : forall st, load_loop uninit fuel ifs st <> OutOfFuel).
  { intros st'. destruct (getline_short s l ifs H E) as [D|(F & Ee & L & Hs)].
    - destruct fuel; [lia|]. cbn [load_loop]. rewrite D. discriminate.
    - destruct ifs as [c e f]. cbn [content eofbit failbit] in *. subst e f. apply IH; [exact Hs|lia]. }
  destruct l as [|c text]; [apply N|]. destruct (c =? 58); [|apply N].
  destruct (hex_line uninit text st); discriminate || apply N.
Qed.

(** On a stream that failed, the loop reads empty lines forever. *)
Lemma load_failed uninit fuel s st : load_loop uninit fuel (Stream s false true) st = OutOfFuel.
Proof. induction fuel as [|fuel IH]; [reflexivity|]. cbn [load_loop]. exact IH. Qed.

(** ** Lemmas on images *)

(** The byte that a segment has at an address, and the one that a buffer filled
    from the segments has: the last segment wins. *)
Definition seg_at (s : CBootMemSegment) (a : Z) : option Z :=
  if a <? m_startAddress s then None else m_pmemSegment s !! Z.to_nat (a - m_startAddress s).

Definition image_step (a v : Z) (s : CBootMemSegment) : Z := default v (seg_at s a).

Definition image (fillbyte : Z) (segs : list CBootMemSegment) (a : Z) : Z :=
  foldl (image_step a) fillbyte segs.

Section fill.
Context (start stop offset : Z).

(** Where fillMemoryBuffer copies a segment. *)
Definition place (s : CBootMemSegment) : Z := u32 (m_startAddress s - start - offset).

Definition fits (mem : list Z) (s : CBootMemSegment) : Prop :=
  place s + m_segSize s <= Z.of_nat (length mem).

(** The segment lies behind the first address of the buffer. *)
Definition after_start (s : CBootMemSegment) : Prop :=
  is_u32 (m_startAddress s) /\ start + offset <= m_startAddress s.

Lemma fill_none segs : foldl (fill_step start stop offset) None segs = None.
Proof. induction segs as [|s segs IH]; [reflexivity|exact IH]. Qed.

Lemma fill_copy mem s :
  in_range start stop s = true -> fits mem s ->
  exists mem', fill_step start stop offset (Some mem) s = Some mem' /\ length mem' = length mem /\
    (0 <= start + offset -> after_start s -> forall i v, mem !! i = Some v ->
       mem' !! i = Some (image_step (start + offset + Z.of_nat i) v s)).
Proof.
  intros Hr Hf. unfold fill_step. cbn [mbind option_bind]. rewrite Hr. unfold copy_to, fits, m_segSize in *.
  fold (place s). rewrite (proj2 (Z.leb_le _ _) Hf).
  assert (Hp : 0 <= place s) by (unfold place; width).
  destruct (wr mem (Z.to_nat (place s)) (m_pmemSegment s)) as [mem'|] eqn:W.
  - exists mem'. split; [reflexivity|]. split; [exact (wr_length _ _ _ _ W)|].
    intros H0 [Hu Ha] i v Hi. rewrite (wr_lookup _ _ _ _ i W). unfold image_step, seg_at.
    assert (P : place s = m_startAddress s - start - offset) by (unfold place; width).
    destruct (Nat.ltb_spec i (Z.to_nat (place s))).
    + destruct (Z.ltb_spec (start + offset + Z.of_nat i) (m_startAddress s)); [exact Hi|lia].
    + destruct (Z.ltb_spec (start + offset + Z.of_nat i) (m_startAddress s)); [lia|].
      replace (Z.to_nat (start + offset + Z.of_nat i - m_startAddress s))
        with (i - Z.to_nat (place s))%nat by lia.
      destruct (Nat.ltb_spec i (Z.to_nat (place s) + length (m_pmemSegment s))).
      * destruct (lookup_lt_is_Some_2 (m_pmemSegment s) (i - Z.to_nat (place s))) as [b Eb]; [lia|].
        rewrite Eb. reflexivity.
      * rewrite (lookup_ge_None_2 (m_pmemSegment s)) by lia. exact Hi.
  - unfold wr in W. destruct (Nat.leb_spec (Z.to_nat (place s) + length (m_pmemSegment s)) (length mem));
      [discriminate W|lia].
Qed.

Lemma fill_skip mem s :
  in_range start stop s = false -> fill_step start stop offset (Some mem) s = Some mem.
Proof. intros Hr. unfold fill_step. cbn [mbind option_bind]. rewrite Hr. reflexivity. Qed.

Lemma fill_outside mem s :
  in_range start stop s = true -> ~ fits mem s -> fill_step start stop offset (Some mem) s = None.
Proof.
  intros Hr Hf. unfold fill_step. cbn [mbind option_bind]. rewrite Hr. unfold copy_to, fits, m_segSize in *.
  fold (place s). destruct (Z.leb_spec (place s + Z.of_nat (length (m_pmemSegment s))) (Z.of_nat (length mem))); [lia|reflexivity].
Qed.

Lemma fill_segments segs mem :
  (forall s, s ∈ segs -> in_range start stop s = true -> fits mem s) ->
  exists mem', foldl (fill_step start stop offset) (Some mem) segs = Some mem' /\ length mem' = length mem /\
    (0 <= start + offset -> (forall s, s ∈ segs -> in_range start stop s = true -> after_start s) ->
     forall i v, mem !! i = Some v ->
       mem' !! i = Some (image v (List.filter (in_range start stop) segs) (start + offset + Z.of_nat i))).
Proof.
  revert mem. induction segs as [|s segs IH]; intros mem H.
  - exists mem. split; [reflexivity|]. split; [reflexivity|]. intros _ _ i v Hi. exact Hi.
  - cbn [foldl List.filter]. destruct (in_range start stop s) eqn:Hr.
    + destruct (fill_copy mem s Hr (H s ltac:(left) Hr)) as (m1 & -> & L1 & I1).
      destruct (IH m1) as (m2 & -> & L2 & I2).
      { intros s' Hs Hr'. unfold fits. rewrite L1. apply H; [right; exact Hs|exact Hr']. }
      exists m2. split; [reflexivity|]. split; [lia|]. intros H0 Ha i v Hi.
      assert (As : after_start s) by (apply Ha; [left|exact Hr]).
      rewrite (I2 H0 (fun s' Hs => Ha s' (list_elem_of_further _ _ _ Hs)) i _ (I1 H0 As i v Hi)). reflexivity.
    + rewrite fill_skip by exact Hr. destruct (IH mem) as (m2 & -> & L2 & I2).
      { intros s' Hs. apply H. right. exact Hs. }
      exists m2. split; [reflexivity|]. split; [exact L2|]. intros H0 Ha i v Hi.
      apply I2; [exact H0|intros s' Hs; apply Ha; right; exact Hs|exact Hi].
Qed.

Lemma fill_overflow segs mem :
  (exists s, s ∈ segs /\ in_range start stop s = true /\ ~ fits mem s) ->
  foldl (fill_step start stop offset) (Some mem) segs = None.
Proof.
  revert mem. induction segs as [|s segs IH]; intros mem (b & Hb & Hr & Hf).
  - apply elem_of_nil in Hb. contradiction.
  - cbn [foldl]. destruct (in_range start stop s) eqn:Hs.
    + destruct (Z_le_dec (place s + m_segSize s) (Z.of_nat (length mem))) as [F|F].
      * destruct (fill_copy mem s Hs F) as (m1 & -> & L1 & _). apply IH.
        apply elem_of_cons in Hb as [->|Hb]; [contradiction|].
        exists b. unfold fits in *. rewrite L1. auto.
      * rewrite fill_outside by assumption. apply fill_none.
    + rewrite fill_skip by exact Hs. apply IH.
      apply elem_of_cons in Hb as [->|Hb]; [congruence|]. exists b. auto.
Qed.
End fill.

(** *** The address range *)

(** Whether getMinMaxForRange counts the segment. *)
Definition starts_in (start stop : Z) (s : CBootMemSegment) : bool :=
  (start <=? m_startAddress s) && (m_startAddress s <=? stop).

(** [lo] and [hi] are the least start and the greatest end of segments, or what they
    were before. *)
Definition bounds_of (segs : list CBootMemSegment) (lo0 hi0 lo hi : Z) : Prop :=
  lo <= lo0 /\ hi0 <= hi /\
  (forall s, s ∈ segs -> lo <= m_startAddress s /\ m_endAddress s <= hi) /\
  (lo = lo0 \/ exists s, s ∈ segs /\ m_startAddress s = lo) /\
  (hi = hi0 \/ exists s, s ∈ segs /\ m_endAddress s = hi).

Lemma min_max_fold start stop segs lo0 hi0 :
  exists lo hi, foldl (min_max_step start stop) (lo0, hi0) segs = (lo, hi) /\
    bounds_of (List.filter (starts_in start stop) segs) lo0 hi0 lo hi.
Proof.
  revert lo0 hi0. induction segs as [|s segs IH]; intros lo0 hi0.
  - exists lo0, hi0. split; [reflexivity|]. split_and!; try lia; auto.
    intros s Hs. apply elem_of_nil in Hs. contradiction.
  - cbn [foldl List.filter]. unfold min_max_step at 2. fold (starts_in start stop s).
    destruct (starts_in start stop s); [|apply IH].
    set (lo1 := if m_startAddress s <? lo0 then m_startAddress s else lo0).
    set (hi1 := if hi0 <? m_endAddress s then m_endAddress s else hi0).
    assert (L1 : lo1 <= lo0 /\ lo1 <= m_startAddress s /\ (lo1 = lo0 \/ m_startAddress s = lo1))
      by (unfold lo1; destruct (Z.ltb_spec (m_startAddress s) lo0); lia).
    assert (H1 : hi0 <= hi1 /\ m_endAddress s <= hi1 /\ (hi1 = hi0 \/ m_endAddress s = hi1))
      by (unfold hi1; destruct (Z.ltb_spec hi0 (m_endAddress s)); lia).
    destruct (IH lo1 hi1) as (lo & hi & -> & Lo & Hi & A & Bl & Bh).
    exists lo, hi. split; [reflexivity|]. split_and!; [lia|lia| | |].
    + intros s' Hs. apply elem_of_cons in Hs as [->|Hs]; [lia|]. apply A, Hs.
    + destruct Bl as [E|(s' & Hs & E)]; [|right; exists s'; split; [right; exact Hs|exact E]].
      destruct (proj2 (proj2 L1)) as [E1|E1]; [left; congruence|].
      right. exists s. split; [left|congruence].
    + destruct Bh as [E|(s' & Hs & E)]; [|right; exists s'; split; [right; exact Hs|exact E]].
      destruct (proj2 (proj2 H1)) as [E1|E1]; [left; congruence|].
      right. exists s. split; [left|congruence].
Qed.

(** ** Properties *)

(** C10: an Intel hex file written from segments (32-bit addresses, up to 255
    bytes each, upper-case digits, lines ending with LF or CR LF) is loaded as
    these segments, behind those the device has; text behind the end record
    is not read.  Three loop iterations per two lines are more than enough. *)
Theorem loadIntelHexFile_roundtrip uninit fuel eol segs old text :
  eol_ok eol -> Forall segment_ok segs -> (2 * length segs < fuel)%nat ->
  loadIntelHexFile uninit fuel (Some (hex_file eol segs ++ text)) old
  = Returns (VSCP_ERROR_SUCCESS, old ++ segs).
Proof.
  intros He Hs Hf. unfold loadIntelHexFile, hex_file, open. rewrite <- app_assoc.
  replace fuel with (2 * length segs + S (fuel - 2 * length segs - 1))%nat by lia.
  destruct (load_segments uninit (S (fuel - 2 * length segs - 1)) eol segs (eof_text eol ++ text)
              (HexState 0 0 old) He Hs eq_refl) as [hi ->].
  unfold eof_text. rewrite load_line.
  - rewrite eof_line. reflexivity.
  - exact He.
  - apply record_bytes_ok; [width| |constructor|cbn [length]; lia].
    unfold is_u8, INTELHEX_LINETYPE_EOF. lia.
  - rewrite length_record. cbn [length]. lia.
Qed.

Lemma loadIntelHexFile_roundtrip_witness :
  loadIntelHexFile (replicate 1024 0) 7 (Some (hex_file [13] sample_segs ++ str "; end")) []
  = Returns (VSCP_ERROR_SUCCESS, [] ++ sample_segs).
Proof.
  apply (loadIntelHexFile_roundtrip (replicate 1024 0) 7 [13] sample_segs [] (str "; end")).
  - right. reflexivity.
  - repeat constructor; try by_decide; cbn; lia.
  - cbn. lia.
Defined.

(** A hex file is refused at the first record in which a byte was changed:
    loadIntelHexFile returns VSCP_ERROR_PARAMETER, whatever follows, and keeps
    the segments of the records before. *)
Theorem corrupt_record_rejected uninit fuel eol segs old addr type data i b text :
  eol_ok eol -> Forall segment_ok segs -> (2 * length segs < fuel)%nat ->
  is_u16 addr -> is_u8 type -> bytes_ok data -> (length data <= 255)%nat ->
  is_u8 b -> (i < length data + 5)%nat -> record_bytes addr type data !! i <> Some b ->
  loadIntelHexFile uninit fuel
    (Some (concat (map (segment_text eol) segs) ++
           hex_text eol (<[i := b]> (record_bytes addr type data)) ++ text)) old
  = Returns (VSCP_ERROR_PARAMETER, old ++ segs).
Proof.
  intros He Hs Hf Ha Ht Hd Hl Hb Hi Hn. unfold loadIntelHexFile, open.
  replace fuel with (2 * length segs + S (fuel - 2 * length segs - 1))%nat by lia.
  set (bad := <[i := b]> (record_bytes addr type data)).
  destruct (load_segments uninit (S (fuel - 2 * length segs - 1)) eol segs (hex_text eol bad ++ text)
              (HexState 0 0 old) He Hs eq_refl) as [hi ->].
  assert (Hr := record_bytes_ok addr type data Ha Ht Hd Hl).
  destruct (lookup_lt_is_Some_2 (record_bytes addr type data) i) as [o Ho]; [rewrite length_record; lia|].
  assert (Bo : is_u8 o) by (eapply Forall_lookup_1; [exact Hr|exact Ho]).
  assert (Hbad : bytes_ok bad) by (apply Forall_insert; assumption).
  assert (Lb : length bad = (length data + 5)%nat) by (unfold bad; rewrite length_insert; apply length_record).
  rewrite load_line; [|exact He|exact Hbad|lia].
  rewrite hex_bytes_eq, Lb. destruct (Nat.ltb_spec (length data + 5) 5); [lia|].
  assert (S : sum bad = sum (record_bytes addr type data) - o + b) by (apply sum_insert, Ho).
  assert (S0 := record_sum addr type data).
  assert (o <> b) by congruence.
  destruct (Z.eqb_spec (sum bad mod 256) 0) as [E|_]; [|reflexivity].
  exfalso. rewrite S in E. width.
Qed.

Lemma corrupt_record_rejected_witness :
  loadIntelHexFile (replicate 1024 0) 7
    (Some (concat (map (segment_text []) sample_segs) ++
           hex_text [] (<[2%nat := 0x10]> (record_bytes 0 INTELHEX_LINETYPE_DATA [1; 2])) ++ [])) []
  = Returns (VSCP_ERROR_PARAMETER, [] ++ sample_segs).
Proof.
  apply (corrupt_record_rejected (replicate 1024 0) 7 [] sample_segs [] 0 INTELHEX_LINETYPE_DATA [1; 2] 2 0x10 []).
  - left. reflexivity.
  - repeat constructor; try by_decide; cbn; lia.
  - cbn. lia.
  - by_decide.
  - by_decide.
  - by_decide.
  - cbn. lia.
  - by_decide.
  - cbn. lia.
  - vm_compute. intros H. discriminate H.
Defined.

(** LoadIntelHexFile ends on every file that can be opened and has no line
    of more than 2047 characters, after at most one iteration per character
    and two more.  It never ends if the file cannot be opened (the stream
    throws no exception and never reaches the end of the file), nor behind a
    longer line. *)
Theorem loadIntelHexFile_ends uninit s old line :
  short_lines s -> 10 ∉ line -> (2047 < length line)%nat -> hd 0 line <> 58 ->
  (forall fuel, (length s + 1 < fuel)%nat -> loadIntelHexFile uninit fuel (Some s) old <> OutOfFuel) /\
  (forall fuel, loadIntelHexFile uninit fuel None old = OutOfFuel) /\
  (forall fuel, loadIntelHexFile uninit fuel (Some (line ++ s)) old = OutOfFuel).
Proof.
  intros Hs Hn Hl Hc. split_and!.
  - intros fuel Hf. apply load_ends; assumption.
  - intros fuel. apply load_failed.
  - intros fuel. destruct fuel as [|fuel]; [reflexivity|].
    unfold loadIntelHexFile, open. cbn [load_loop eofbit]. unfold getline. cbn [eofbit failbit orb content].
    assert (E : forall room line, 10 ∉ line -> (room < length line)%nat ->
              exists rest, extract room (line ++ s) = (take room line, Stream rest false true)).
    { clear. induction room as [|room IH]; intros [|c line] Hn Hl; cbn [length] in Hl; try lia;
        apply not_elem_of_cons in Hn as [Hc Hn]; cbn [app extract take];
        destruct (Z.eqb_spec c 10); try congruence; [eexists; reflexivity|].
      destruct (IH line Hn ltac:(lia)) as [rest ->]. eexists. reflexivity. }
    destruct (E 2047%nat line Hn Hl) as [rest R]. destruct line as [|c line]; [cbn in Hl; lia|].
    cbn [app] in R |- *. change (2048 - 1)%nat with 2047%nat. rewrite R. cbn [hd take] in *.
    destruct (Z.eqb_spec c 58); [congruence|]. apply load_failed.
Qed.

Lemma loadIntelHexFile_ends_witness :
  (forall fuel, (1 < fuel)%nat -> loadIntelHexFile [] fuel (Some []) [] <> OutOfFuel) /\
  (forall fuel, loadIntelHexFile [] fuel None [] = OutOfFuel) /\
  (forall fuel, loadIntelHexFile [] fuel (Some (replicate 2048 59 ++ [])) [] = OutOfFuel).
Proof.
  apply (loadIntelHexFile_ends [] [] [] (replicate 2048 59)).
  - intros pre line post E _. destruct pre, line; try discriminate E. cbn. lia.
  - intros H. apply elem_of_replicate in H as [H _]. discriminate H.
  - rewrite length_replicate. lia.
  - cbn. lia.
Defined.

(** GetMinMaxForRange delivers the least start address and the greatest end
    address of the segments that start in the range (both ends included), and
    zeros if there is none (the header promises VSCP_ERROR_ERROR then).  A
    segment that starts in the range may end behind it, and one that ends at
    2^32 counts as ending at 0. *)
Theorem getMinMaxForRange_spec segs start stop a b :
  let inside := List.filter (starts_in start stop) segs in
  start < stop -> (forall s, s ∈ inside -> 0 <= m_startAddress s < 0xffffffff) ->
  exists lo hi, getMinMaxForRange segs start stop (Some a) (Some b) = (VSCP_ERROR_SUCCESS, Some lo, Some hi) /\
    (inside = [] -> lo = 0 /\ hi = 0) /\
    (inside <> [] ->
       (forall s, s ∈ inside -> lo <= m_startAddress s /\ m_endAddress s <= hi) /\
       (exists s, s ∈ inside /\ m_startAddress s = lo) /\
       (hi = 0 \/ exists s, s ∈ inside /\ m_endAddress s = hi)).
Proof.
  intros inside Hlt Hs. unfold getMinMaxForRange. rewrite (proj2 (Z.leb_gt stop start) Hlt).
  destruct (min_max_fold start stop segs 0xffffffff 0) as (lo & hi & -> & Lo & Hi & A & Bl & Bh).
  fold inside in A, Bl, Bh. destruct inside as [|s rest].
  - destruct Bl as [->|(s & H & _)]; [|apply elem_of_nil in H; contradiction].
    destruct Bh as [->|(s & H & _)]; [|apply elem_of_nil in H; contradiction].
    exists 0, 0. split; [reflexivity|]. split; [lia|congruence].
  - assert (Hlo := A s ltac:(left)). assert (Hss := Hs s ltac:(left)).
    destruct (Z.eqb_spec lo 0xffffffff); [lia|]. cbn [andb].
    exists lo, hi. split; [reflexivity|]. split; [discriminate|]. intros _.
    split; [exact A|]. split; [|exact Bh]. destruct Bl as [->|Bl]; [lia|exact Bl].
Qed.

Lemma getMinMaxForRange_spec_witness :
  exists lo hi, getMinMaxForRange sample_segs 0 0x3fffffff (Some 5) (Some 6)
                = (VSCP_ERROR_SUCCESS, Some lo, Some hi) /\
    (List.filter (starts_in 0 0x3fffffff) sample_segs = [] -> lo = 0 /\ hi = 0) /\
    (List.filter (starts_in 0 0x3fffffff) sample_segs <> [] ->
       (forall s, s ∈ List.filter (starts_in 0 0x3fffffff) sample_segs ->
          lo <= m_startAddress s /\ m_endAddress s <= hi) /\
       (exists s, s ∈ List.filter (starts_in 0 0x3fffffff) sample_segs /\ m_startAddress s = lo) /\
       (hi = 0 \/ exists s, s ∈ List.filter (starts_in 0 0x3fffffff) sample_segs /\ m_endAddress s = hi)).
Proof.
  apply (getMinMaxForRange_spec sample_segs 0 0x3fffffff 5 6).
  - lia.
  - cbn. intros s H. rewrite !elem_of_cons, elem_of_nil in H.
    destruct H as [->|[->|[]]]; cbn; lia.
Defined.

(** FillMemoryBuffer fills the buffer with the fill byte and the segments
    that start at or behind [start] and end before [stop]: each byte is the one
    the last such segment has at that address.  If such a segment does not fit
    where it is copied, the copy is outside the buffer.  (The end address is
    called inclusive, but a segment that ends within two bytes of it is left
    out.) *)
Theorem fillMemoryBuffer_spec segs mem size start stop offset fillbyte :
  0 < size <= Z.of_nat (length mem) -> 0 <= start + offset ->
  let copied := List.filter (in_range start stop) segs in
  ((forall s, s ∈ copied -> fits start offset mem s /\ after_start start offset s) ->
   exists mem', fillMemoryBuffer segs (Some mem) size start stop offset fillbyte
                = Some (VSCP_ERROR_SUCCESS, Some mem') /\
     length mem' = length mem /\
     forall i, 0 <= i < size -> mem' !! Z.to_nat i = Some (image fillbyte copied (start + offset + i))) /\
  ((exists s, s ∈ copied /\ ~ fits start offset mem s) ->
   fillMemoryBuffer segs (Some mem) size start stop offset fillbyte = None).
Proof.
  intros Hsize H0 copied. unfold fillMemoryBuffer.
  destruct (Z.eqb_spec size 0); [lia|].
  rewrite wr_front by (rewrite length_replicate; lia).
  set (mem0 := replicate (Z.to_nat size) fillbyte ++ _).
  assert (L0 : length mem0 = length mem)
    by (unfold mem0; rewrite length_app, length_drop, length_replicate; lia).
  assert (Hc : forall s, s ∈ copied <-> s ∈ segs /\ in_range start stop s = true)
    by (intros s; unfold copied; rewrite !list_elem_of_In; apply filter_In).
  split.
  - intros Hall. destruct (fill_segments start stop offset segs mem0) as (mem' & -> & L & I).
    { intros s Hs Hr. unfold fits. rewrite L0. apply Hall, Hc. auto. }
    exists mem'. split; [reflexivity|]. split; [lia|]. intros i Hi.
    specialize (I H0 (fun s Hs Hr => proj2 (Hall s (proj2 (Hc s) (conj Hs Hr)))) (Z.to_nat i) fillbyte).
    rewrite Z2Nat.id in I by lia. apply I. unfold mem0.
    rewrite lookup_app_l by (rewrite length_replicate; lia). apply lookup_replicate_2. lia.
  - intros (s & Hs & Hf). apply Hc in Hs as [Hs Hr].
    rewrite fill_overflow; [reflexivity|]. exists s. split; [exact Hs|]. split; [exact Hr|].
    unfold fits in *. rewrite L0. exact Hf.
Qed.

Lemma fillMemoryBuffer_spec_witness :
  let copied := List.filter (in_range 0 0x100) [MemSegment 2 [7; 8]; MemSegment 0x200 [9]] in
  ((forall s, s ∈ copied -> fits 0 0 (replicate 8 0) s /\ after_start 0 0 s) ->
   exists mem', fillMemoryBuffer [MemSegment 2 [7; 8]; MemSegment 0x200 [9]] (Some (replicate 8 0)) 8 0 0x100 0 0xff
                = Some (VSCP_ERROR_SUCCESS, Some mem') /\
     length mem' = length (replicate 8 0) /\
     forall i, 0 <= i < 8 -> mem' !! Z.to_nat i = Some (image 0xff copied (0 + 0 + i))) /\
  ((exists s, s ∈ copied /\ ~ fits 0 0 (replicate 8 0) s) ->
   fillMemoryBuffer [MemSegment 2 [7; 8]; MemSegment 0x200 [9]] (Some (replicate 8 0)) 8 0 0x100 0 0xff = None).
Proof.
  apply (fillMemoryBuffer_spec [MemSegment 2 [7; 8]; MemSegment 0x200 [9]] (replicate 8 0) 8 0 0x100 0 0xff).
  - cbn. lia.
  - lia.
Defined.
