(* ===== verification/BootVscp.v ===== *)
(** * The VSCP boot loader: src/src/vscp/common/vscp-bootdevice-vscp.cpp

    Class CBootDevice_VSCP sends firmware to a node in blocks: an event starts a
    block, events with a chunk each carry its bytes, an event programs it, and
    the node answers each.  The client through which events are sent and
    received, and the clock, are the interface [Client.VscpClient]; the functions are state-passing over the
    world behind it. *)

From S2P Require Import Prelude Program Crc DateTime Event Strings Guid Client BootDevice.

Definition VSCP_CLASS1_PROTOCOL : Z := 0.
Definition VSCP_TYPE_PROTOCOL_START_BLOCK : Z := 15.
Definition VSCP_TYPE_PROTOCOL_BLOCK_DATA : Z := 16.
Definition VSCP_TYPE_PROTOCOL_BLOCK_DATA_ACK : Z := 17.
Definition VSCP_TYPE_PROTOCOL_BLOCK_DATA_NACK : Z := 18.
Definition VSCP_TYPE_PROTOCOL_PROGRAM_BLOCK_DATA : Z := 19.
Definition VSCP_TYPE_PROTOCOL_PROGRAM_BLOCK_DATA_ACK : Z := 20.
Definition VSCP_TYPE_PROTOCOL_PROGRAM_BLOCK_DATA_NACK : Z := 21.
Definition VSCP_TYPE_PROTOCOL_START_BLOCK_ACK : Z := 50.
Definition VSCP_TYPE_PROTOCOL_START_BLOCK_NACK : Z := 51.
Definition VSCP_TYPE_PROTOCOL_BLOCK_CHUNK_ACK : Z := 52.
Definition VSCP_TYPE_PROTOCOL_BLOCK_CHUNK_NACK : Z := 53.

Definition VSCP_ERROR_TIMEOUT : Z := 32.
Definition VSCP_ERROR_INVALID_FRAME : Z := 63.
Definition VSCP_ERROR_NACK : Z := 65.

Definition BOOT_COMMAND_DEFAULT_RESPONSE_TIMEOUT : Z := 5.

(** [m_memory_range]: type, start and end. *)
Definition m_memory_range : list (Z * Z * Z) :=
  [(0x00, 0x00000000, 0x3fffffff); (0x01, 0xc3000000, 0xc3ffffff);
   (0x02, 0xc2000000, 0xc2ffffff); (0x03, 0x40000000, 0xbfffffff);
   (0x04, 0xc1000000, 0xc1ffffff); (0x05, 0xc4000000, 0xc4ffffff);
   (0x06, 0xc5000000, 0xc5ffffff); (0xfd, 0xd0000000, 0xdfffffff);
   (0xfe, 0xe0000000, 0xefffffff); (0xff, 0xf0000000, 0xffffffff)].

Definition construct_unsigned16 (msb lsb : Z) : Z := u16 (Z.shiftl msb 8 + lsb).
Definition construct_unsigned32 (b0 b1 b2 b3 : Z) : Z :=
  u32 (Z.shiftl b0 24 + Z.shiftl b1 16 + Z.shiftl b2 8 + b3).

(** ** The device *)

(** [node_guid] is the GUID in the standard registers; [m_statusCallback] says
    whether there is a callback. *)
Record BootDevice_VSCP := BootVscp {
  node_guid : list Z;
  m_chunkSize : Z; m_blockSize : Z;
  m_statusCallback : bool;
  m_memSegs : list CBootMemSegment
}.

(** The first bytes and the size of the data. *)
Definition set_xdata (size : Z) (bs : list Z) (ex : vscpEventEx) : vscpEventEx :=
  EventEx (xhead ex) (xobid ex) (xtime ex) (xcrc ex) (xclass ex) (xtype ex) (xGUID ex)
          (u16 size) (bs ++ drop (length bs) (xdata ex)).

Section device.
Context {W : Type} `{VscpClient W}.
Variable (fuel : nat) (d : BootDevice_VSCP).

(** A new event of class CLASS1.PROTOCOL: class, type, time stamp and time. *)
Definition new_event (type : Z) : M W vscpEventEx := fun w =>
  let ex := fresh w in
  let ex := EventEx (xhead ex) (xobid ex) (set_timestamp (stamp w) (xtime ex)) (xcrc ex)
                    VSCP_CLASS1_PROTOCOL type (xGUID ex) (xsizeData ex) (xdata ex) in
  match vscp_setEventExDateTimeBlockToNow (now w) (Some ex) with
  | (_, Some ex) => Returns (ex, w)
  | (_, None) => Undefined
  end.

(** Whether an event is a protocol event of type [type] from the node. *)
Definition is_reply (guid : list Z) (type : Z) (ex : vscpEventEx) : bool :=
  (VSCP_CLASS1_PROTOCOL =? xclass ex) && (type =? xtype ex) &&
  if isFullLevel2 then isSameGUID guid (xGUID ex) else nth 15 guid 0 =? nth 15 (xGUID ex) 0.

(** A NACK is reported as success on level I. *)
Fixpoint check_loop (n : nat) (guid : list Z) (ack nack timeout tstart : Z) (ex : vscpEventEx)
  : M W (Z * vscpEventEx) :=
  match n with
  | O => out_of_fuel
  | S n =>
      tnow ← call time;
      if timeout <? u64 (tnow - tstart) then mret (VSCP_ERROR_TIMEOUT, ex)
      else
        '(rv, cnt) ← call getcount;
        if (rv =? VSCP_ERROR_SUCCESS) && negb (cnt =? 0) then
          '(_, ex) ← call (receive ex);
          if is_reply guid ack ex then mret (VSCP_ERROR_SUCCESS, ex)
          else if is_reply guid nack ex
          then mret (if isFullLevel2 then VSCP_ERROR_NACK else VSCP_ERROR_SUCCESS, ex)
          else check_loop n guid ack nack timeout tstart ex
        else check_loop n guid ack nack timeout tstart ex
  end.

Definition checkResponse (ex : vscpEventEx) (guid : list Z) (ack nack timeout : Z)
  : M W (Z * vscpEventEx) :=
  tstart ← call time;
  check_loop fuel guid ack nack timeout tstart ex.

(** Sends an event and waits for the answer. *)
Definition request (ex : vscpEventEx) (ack nack : Z) : M W Z :=
  rv ← call (send ex);
  if negb (rv =? VSCP_ERROR_SUCCESS) then mret rv
  else
    '(rv, _) ← checkResponse ex (node_guid d) ack nack BOOT_COMMAND_DEFAULT_RESPONSE_TIMEOUT;
    mret rv.

Definition writeBlockStart (block type : Z) : M W Z :=
  ex ← new_event VSCP_TYPE_PROTOCOL_START_BLOCK;
  request (set_xdata 6 (be 4 block ++ [type; 0]) ex)
    VSCP_TYPE_PROTOCOL_START_BLOCK_ACK VSCP_TYPE_PROTOCOL_START_BLOCK_NACK.

Definition programBlock (block : Z) : M W Z :=
  ex ← new_event VSCP_TYPE_PROTOCOL_PROGRAM_BLOCK_DATA;
  request (set_xdata 4 (be 4 block) ex)
    VSCP_TYPE_PROTOCOL_PROGRAM_BLOCK_DATA_ACK VSCP_TYPE_PROTOCOL_PROGRAM_BLOCK_DATA_NACK.

(** [paddr] is the address [off] in the buffer [buf]. *)
Definition writeChunk (buf : list Z) (off size : Z) : M W Z :=
  ex ← new_event VSCP_TYPE_PROTOCOL_BLOCK_DATA;
  if m_chunkSize d <? size then mret VSCP_ERROR_SIZE
  else
    bytes ← defined (rdn buf (Z.to_nat off) (Z.to_nat size));
    if 512 <? size then undefined
    else request (set_xdata size bytes ex)
           VSCP_TYPE_PROTOCOL_BLOCK_CHUNK_ACK VSCP_TYPE_PROTOCOL_BLOCK_CHUNK_NACK.

Definition number_of_chunks : Z :=
  if m_chunkSize d <? m_blockSize d
  then m_blockSize d / m_chunkSize d + (if m_blockSize d mod m_chunkSize d =? 0 then 0 else 1)
  else 1.

(** The loop over the chunks: it stops at the first that fails. *)
Fixpoint write_chunks (n : nat) (buf : list Z) (off : Z) (chunk : Z) : M W unit :=
  match n with
  | O => mret tt
  | S n =>
      rv ← writeChunk buf (off + u32 (chunk * m_chunkSize d)) (m_chunkSize d);
      if negb (rv =? VSCP_ERROR_SUCCESS) then mret tt
      else write_chunks n buf off (chunk + 1)
  end.

Definition writeBlock (block : Z) (buf : list Z) (off : Z) : M W Z :=
  if (m_chunkSize d <? m_blockSize d) && (m_chunkSize d =? 0) then undefined
  else
    _ ← write_chunks (Z.to_nat number_of_chunks) buf off 0;
    ex ← (fun w => Returns (fresh w, w));
    '(rv, ex) ← checkResponse ex (node_guid d) VSCP_TYPE_PROTOCOL_BLOCK_DATA_ACK
                  VSCP_TYPE_PROTOCOL_BLOCK_DATA_NACK BOOT_COMMAND_DEFAULT_RESPONSE_TIMEOUT;
    bytes ← defined (rdn buf (Z.to_nat off) (Z.to_nat (m_blockSize d)));
    let b i := nth i (xdata ex) 0 in
    let crc_block := crcFast bytes in
    let crc_packet := construct_unsigned16 (b 0%nat) (b 1%nat) in
    let block_packet := construct_unsigned32 (b 2%nat) (b 3%nat) (b 4%nat) (b 5%nat) in
    if negb (crc_packet =? crc_block) || negb (block_packet =? block)
    then mret VSCP_ERROR_INVALID_FRAME
    else mret rv.

(** ** deviceLoad *)

(** How a part of deviceLoad ends: with a [return], or going on, with [rv]. *)
Inductive flow := Return (rv : Z) | Next (rv : Z).

(** At most [trycnt] attempts at a block. *)
Fixpoint try_block (trycnt : nat) (block type : Z) (buf : list Z) (rv : Z) : M W flow :=
  match trycnt with
  | O => mret (Next rv)
  | S n =>
      let retry rv := if (0 <? n)%nat then try_block n block type buf rv else mret (Return rv) in
      rv ← writeBlockStart block type;
      if negb (rv =? VSCP_ERROR_SUCCESS) then retry rv
      else
        rv ← writeBlock block buf (u32 (block * m_blockSize d));
        if negb (rv =? VSCP_ERROR_SUCCESS) then retry rv
        else
          rv ← programBlock block;
          if negb (rv =? VSCP_ERROR_SUCCESS) then retry rv else mret (Next rv)
  end.

(** The blocks from [block] on, [n] of them. *)
Fixpoint write_blocks (n : nat) (block type : Z) (buf : list Z) (rv : Z) : M W flow :=
  match n with
  | O => mret (Next rv)
  | S n =>
      r ← try_block 3 block type buf rv;
      match r with
      | Return rv => mret (Return rv)
      | Next rv => write_blocks n (block + 1) type buf rv
      end
  end.

(** One memory type.  The buffer is filled before it is read.  The last call of
    the callback before the blocks are written is not guarded. *)
Definition load_range (r : Z * Z * Z) : M W flow :=
  let '(type, start, stop) := r in
  match getMinMaxForRange (m_memSegs d) start stop (Some 0) (Some 0) with
  | (rv, Some minAddr, Some maxAddr) =>
      if negb (rv =? VSCP_ERROR_SUCCESS) then mret (Next rv)
      else if maxAddr <=? minAddr then mret (Next rv)
      else if m_blockSize d =? 0 then undefined
      else
        let startBlock := minAddr / m_blockSize d in
        let nBlocks := (maxAddr - minAddr) / m_blockSize d
                       + (if (maxAddr - minAddr) mod m_blockSize d =? 0 then 0 else 1) in
        let size := u32 (m_blockSize d * nBlocks) in
        filled ← defined (fillMemoryBuffer (m_memSegs d) (Some (replicate (Z.to_nat size) 0)) size
                            start stop (u32 (startBlock * m_blockSize d)) 0xff);
        match filled with
        | (rv, Some pbuf) =>
            if negb (rv =? VSCP_ERROR_SUCCESS) then mret (Return rv)
            else if negb (m_statusCallback d) then throw
            else write_blocks (Z.to_nat nBlocks) 0 type pbuf rv
        | (_, None) => undefined
        end
  | _ => undefined
  end.

Fixpoint load_ranges (rs : list (Z * Z * Z)) (rv : Z) : M W Z :=
  match rs with
  | [] => mret rv
  | r :: rs =>
      f ← load_range r;
      match f with Return rv => mret rv | Next rv => load_ranges rs rv end
  end.

Definition deviceLoad : M W Z := load_ranges m_memory_range VSCP_ERROR_SUCCESS.
End device.

(** ** What the boot loader needs of the clock

    The clock advances: [polls t w] bounds how often it can still be read from
    [w] on before the timeout that began at [t] has passed, no call of the client
    makes it larger, and it is below [bound] when a wait begins. *)

Definition waiting (tstart tnow : Z) : Prop :=
  u64 (tnow - tstart) <= BOOT_COMMAND_DEFAULT_RESPONSE_TIMEOUT.

Class ClockLaws (W : Type) `{VscpClient W} (bound : nat) := {
  polls : Z -> W -> nat;
  polls_time : forall t w tnow w', time w = (tnow, w') -> waiting t tnow -> (polls t w' < polls t w)%nat;
  polls_getcount : forall t w, (polls t (getcount w).2 <= polls t w)%nat;
  polls_receive : forall t ex w, (polls t (receive ex w).2 <= polls t w)%nat;
  polls_start : forall w t w', time w = (t, w') -> (polls t w' < bound)%nat
}.

(** ** What the boot loader needs of the node

    [sent] is what was sent, as type and data, [pending] what waits to be
    received.  The node answers at once, and nobody else sends.  It keeps the
    block number of the last start of a block and the data since then, answers
    each event with its ACK, and when the data of a block is complete sends the
    CRC of the block and its number in an event of its own. *)

Definition node_step (st : list Z * list Z) (r : Z * list Z) : list Z * list Z :=
  if r.1 =? VSCP_TYPE_PROTOCOL_START_BLOCK then (take 4 r.2, [])
  else if r.1 =? VSCP_TYPE_PROTOCOL_BLOCK_DATA then (st.1, st.2 ++ r.2)
  else st.

Definition node_state (sent : list (Z * list Z)) : list Z * list Z := foldl node_step ([], []) sent.

Definition ack_of (type : Z) : Z :=
  if type =? VSCP_TYPE_PROTOCOL_START_BLOCK then VSCP_TYPE_PROTOCOL_START_BLOCK_ACK
  else if type =? VSCP_TYPE_PROTOCOL_BLOCK_DATA then VSCP_TYPE_PROTOCOL_BLOCK_CHUNK_ACK
  else VSCP_TYPE_PROTOCOL_PROGRAM_BLOCK_DATA_ACK.

Section node.
Context {W : Type} `{VscpClient W}.
Variable (guid : list Z) (blockSize : Z).

(** [e] announces that the block with number [blk] and data [data] is complete. *)
Definition block_ack (blk data : list Z) (e : vscpEventEx) : Prop :=
  is_reply guid VSCP_TYPE_PROTOCOL_BLOCK_DATA_ACK e = true /\
  take 6 (xdata e) = be 2 (crcFast (take (Z.to_nat blockSize) data)) ++ blk.

Definition node_answers (before : list (Z * list Z)) (r : Z * list Z) (answers : list vscpEventEx) : Prop :=
  let '(blk, data) := node_state (before ++ [r]) in
  exists a rest, answers = a :: rest /\ is_reply guid (ack_of r.1) a = true /\
    if (r.1 =? VSCP_TYPE_PROTOCOL_BLOCK_DATA) && (Z.of_nat (length data) =? blockSize)
    then exists b, rest = [b] /\ block_ack blk data b
    else rest = [].
End node.

Class BootNode (W : Type) `{VscpClient W} (guid : list Z) (blockSize : Z) := {
  sent : W -> list (Z * list Z);
  pending : W -> list vscpEventEx;
  node_time : forall w t w', time w = (t, w') -> sent w' = sent w /\ pending w' = pending w;
  node_prompt : forall w t w', time w = (t, w') -> waiting t (time w').1;
  node_getcount : forall w rv cnt w', getcount w = (rv, cnt, w') ->
    sent w' = sent w /\ pending w' = pending w /\ rv = VSCP_ERROR_SUCCESS /\ (pending w <> [] -> cnt <> 0);
  node_receive : forall ex w e rest, pending w = e :: rest ->
    exists w', receive ex w = (VSCP_ERROR_SUCCESS, e, w') /\ sent w' = sent w /\ pending w' = rest;
  node_send : forall ex w, exists w' answers,
    let r := (xtype ex, take (Z.to_nat (xsizeData ex)) (xdata ex)) in
    send ex w = (VSCP_ERROR_SUCCESS, w') /\ sent w' = sent w ++ [r] /\
    pending w' = pending w ++ answers /\ node_answers guid blockSize (sent w) r answers
}.

(** ** Lemmas: steps of the monad *)

(** ** Lemmas: waiting for an answer *)

Section clock.
Context {W : Type} `{VscpClient W} (fuel : nat) `{!ClockLaws W fuel}.

(** How a wait can end. *)
Definition wait_result (guid : list Z) (ack nack rv : Z) (ex : vscpEventEx) : Prop :=
  rv = VSCP_ERROR_TIMEOUT \/
  xclass ex = VSCP_CLASS1_PROTOCOL /\
  (if isFullLevel2 then take 16 guid = take 16 (xGUID ex) else nth 15 guid 0 = nth 15 (xGUID ex) 0) /\
  (xtype ex = ack /\ rv = VSCP_ERROR_SUCCESS \/
   xtype ex = nack /\ rv = if isFullLevel2 then VSCP_ERROR_NACK else VSCP_ERROR_SUCCESS).

Lemma is_reply_spec guid type ex :
  is_reply guid type ex = true ->
  xclass ex = VSCP_CLASS1_PROTOCOL /\ xtype ex = type /\
  (if isFullLevel2 then take 16 guid = take 16 (xGUID ex) else nth 15 guid 0 = nth 15 (xGUID ex) 0).
Proof.
  unfold is_reply, isSameGUID. rewrite !andb_true_iff, !Z.eqb_eq. intros [[E1 E2] E3].
  split_and!; [congruence|congruence|]. destruct isFullLevel2.
  - apply bool_decide_eq_true in E3. exact E3.
  - apply Z.eqb_eq in E3. exact E3.
Qed.

Lemma check_loop_ends n guid ack nack tstart ex w :
  (polls tstart w < n)%nat ->
  exists rv ex' w', check_loop n guid ack nack BOOT_COMMAND_DEFAULT_RESPONSE_TIMEOUT tstart ex w
                    = Returns (rv, ex', w') /\ wait_result guid ack nack rv ex'.
Proof.
  revert ex w. induction n as [|n IH]; intros ex w Hp; [lia|].
  cbn [check_loop]. destruct (time w) as [tnow w1] eqn:E1. rewrite (bind_call _ _ _ _ _ E1).
  destruct (Z.ltb_spec BOOT_COMMAND_DEFAULT_RESPONSE_TIMEOUT (u64 (tnow - tstart))) as [L|L].
  { do 3 eexists. split; [reflexivity|]. left. reflexivity. }
  assert (P1 := polls_time tstart w tnow w1 E1 L).
  destruct (getcount w1) as [[rv cnt] w2] eqn:E2. rewrite (bind_call _ _ _ _ _ E2). assert (P2 := polls_getcount tstart w1). rewrite E2 in P2.
  cbn [snd] in P2. destruct (_ && _); [|apply IH; lia].
  destruct (receive ex w2) as [[rv' ex'] w3] eqn:E3. rewrite (bind_call _ _ _ _ _ E3). assert (P3 := polls_receive tstart ex w2).
  rewrite E3 in P3. cbn [snd] in P3.
  destruct (is_reply guid ack ex') eqn:R1.
  { apply is_reply_spec in R1. do 3 eexists. split; [reflexivity|]. right. tauto. }
  destruct (is_reply guid nack ex') eqn:R2; [|apply IH; lia].
  apply is_reply_spec in R2. do 3 eexists. split; [reflexivity|]. right. tauto.
Qed.

Lemma checkResponse_ends guid ack nack ex w :
  exists rv ex' w', checkResponse fuel ex guid ack nack BOOT_COMMAND_DEFAULT_RESPONSE_TIMEOUT w
                    = Returns (rv, ex', w') /\ wait_result guid ack nack rv ex'.
Proof.
  unfold checkResponse. destruct (time w) as [t w'] eqn:E. rewrite (bind_call _ _ _ _ _ E).
  apply check_loop_ends. apply (polls_start w t w' E).
Qed.

(** *** Nothing waits forever *)

Lemma ends_fresh : ends (fun w => Returns (fresh w, w)). Proof. intros w. discriminate. Qed.
Lemma ends_new_event type : ends (new_event type).
Proof. intros w. unfold new_event. destruct (vscp_setEventExDateTimeBlockToNow _ _) as [b [ex|]]; discriminate. Qed.
Lemma ends_check guid ack nack ex :
  ends (checkResponse fuel ex guid ack nack BOOT_COMMAND_DEFAULT_RESPONSE_TIMEOUT).
Proof. intros w. destruct (checkResponse_ends guid ack nack ex w) as (rv & ex' & w' & -> & _). discriminate. Qed.
End clock.

#[export] Hint Resolve ends_fresh ends_new_event ends_check : ends.

Section ends.
Context {W : Type} `{VscpClient W} (fuel : nat) `{!ClockLaws W fuel} (d : BootDevice_VSCP).

Lemma ends_request ex ack nack : ends (request fuel d ex ack nack).
Proof. unfold request. ends_tac. Qed.
Lemma ends_start block type : ends (writeBlockStart fuel d block type).
Proof. unfold writeBlockStart. ends_tac. apply ends_request. Qed.
Lemma ends_program block : ends (programBlock fuel d block).
Proof. unfold programBlock. ends_tac. apply ends_request. Qed.
Lemma ends_chunk buf off size : ends (writeChunk fuel d buf off size).
Proof. unfold writeChunk. ends_tac. apply ends_request. Qed.
Lemma ends_chunks n buf off chunk : ends (write_chunks fuel d n buf off chunk).
Proof.
  revert chunk. induction n; intros chunk; cbn [write_chunks]; ends_tac;
    first [apply ends_chunk | apply IHn].
Qed.
Lemma ends_block block buf off : ends (writeBlock fuel d block buf off).
Proof. unfold writeBlock. ends_tac. apply ends_chunks. Qed.
Lemma ends_try n block type buf rv : ends (try_block fuel d n block type buf rv).
Proof.
  revert rv. induction n as [|n IH]; intros rv; cbn [try_block]; ends_tac;
    first [apply ends_start | apply ends_block | apply ends_program | apply IH].
Qed.
Lemma ends_blocks n block type buf rv : ends (write_blocks fuel d n block type buf rv).
Proof.
  revert block rv. induction n as [|n IH]; intros block rv; cbn [write_blocks]; ends_tac;
    first [apply ends_try | apply IH].
Qed.
Lemma ends_range r : ends (load_range fuel d r).
Proof. unfold load_range. ends_tac. apply ends_blocks. Qed.
Lemma ends_ranges rs rv : ends (load_ranges fuel d rs rv).
Proof.
  revert rv. induction rs as [|r rs IH]; intros rv; cbn [load_ranges]; ends_tac;
    first [apply ends_range | apply IH].
Qed.
End ends.

(** ** Lemmas: a node that answers *)

(** The events that carry the block with number [block]: its start, the chunks of
    [cs] bytes at the address [off] of [buf], and the order to program it. *)
Definition chunk_request (cs : nat) (buf : list Z) (off i : nat) : Z * list Z :=
  (VSCP_TYPE_PROTOCOL_BLOCK_DATA, take cs (drop (off + i * cs) buf)).

Definition block_requests (cs k : nat) (buf : list Z) (off : nat) (block type : Z) : list (Z * list Z) :=
  (VSCP_TYPE_PROTOCOL_START_BLOCK, be 4 block ++ [type; 0])
  :: map (chunk_request cs buf off) (seq 0 k)
  ++ [(VSCP_TYPE_PROTOCOL_PROGRAM_BLOCK_DATA, be 4 block)].

Lemma take_chunks cs off i (buf : list Z) :
  take (i * cs) (drop off buf) ++ take cs (drop (off + i * cs) buf) = take (S i * cs) (drop off buf).
Proof.
  replace (S i * cs)%nat with (i * cs + cs)%nat by lia.
  rewrite <- (take_drop (i * cs) (take (i * cs + cs) (drop off buf))), take_take, skipn_firstn_comm, drop_drop.
  f_equal; [f_equal; lia|]. f_equal. lia.
Qed.

Lemma new_event_ok {W} `{VscpClient W} type (w : W) : exists ex, new_event type w = Returns (ex, w) /\ xtype ex = type.
Proof. eexists. split; reflexivity. Qed.

Lemma set_xdata_type size bs ex : xtype (set_xdata size bs ex) = xtype ex.
Proof. reflexivity. Qed.

Lemma set_xdata_data size bs ex :
  Z.of_nat (length bs) = size -> size <= 512 ->
  take (Z.to_nat (xsizeData (set_xdata size bs ex))) (xdata (set_xdata size bs ex)) = bs.
Proof.
  intros E L. cbn [xsizeData xdata set_xdata]. rewrite u16_id by width. rewrite <- E, Nat2Z.id.
  apply take_app_length.
Qed.

Lemma unsigned16_be x l :
  is_u16 x -> take 2 l = be 2 x -> construct_unsigned16 (nth 0 l 0) (nth 1 l 0) = x.
Proof.
  intros Hx E. destruct l as [|a [|b l]]; try discriminate E. cbn [be take] in E.
  injection E as Ha Hb. cbn [nth]. unfold construct_unsigned16.
  cbn [Z.of_nat Z.mul Pos.of_succ_nat Pos.succ Pos.mul Pos.add] in *.
  rewrite Ha, Hb, shiftl_mul, !shiftr_div by lia. change (2 ^ 8) with 256. change (2 ^ 0) with 1. width.
Qed.

Lemma unsigned32_be x l :
  is_u32 x -> take 4 l = be 4 x ->
  construct_unsigned32 (nth 0 l 0) (nth 1 l 0) (nth 2 l 0) (nth 3 l 0) = x.
Proof.
  intros Hx E. destruct l as [|a [|b [|c [|e l]]]]; try discriminate E. cbn [be take] in E.
  injection E as Ha Hb Hc He. cbn [nth]. unfold construct_unsigned32.
  cbn [Z.of_nat Z.mul Pos.of_succ_nat Pos.succ Pos.mul Pos.add] in *.
  rewrite Ha, Hb, Hc, He, !shiftl_mul, !shiftr_div by lia.
  change (2 ^ 24) with 16777216. change (2 ^ 16) with 65536. change (2 ^ 8) with 256. change (2 ^ 0) with 1.
  width.
Qed.

Section answering.
Context {W : Type} `{VscpClient W} (fuel : nat) (d : BootDevice_VSCP).
Context `{!BootNode W (node_guid d) (m_blockSize d)}.
Hypothesis Hfuel : (0 < fuel)%nat.

Lemma check_reply ack nack ex w a rest :
  pending w = a :: rest -> is_reply (node_guid d) ack a = true ->
  exists w', checkResponse fuel ex (node_guid d) ack nack BOOT_COMMAND_DEFAULT_RESPONSE_TIMEOUT w
             = Returns (VSCP_ERROR_SUCCESS, a, w') /\ sent w' = sent w /\ pending w' = rest.
Proof using Hfuel.
  intros Hp Hr. unfold checkResponse. destruct (time w) as [t w1] eqn:E1. rewrite (bind_call _ _ _ _ _ E1).
  destruct (node_time w t w1 E1) as [S1 P1]. assert (Hw := node_prompt w t w1 E1).
  destruct fuel as [|n]; [lia|]. cbn [check_loop].
  destruct (time w1) as [t2 w2] eqn:E2. rewrite (bind_call _ _ _ _ _ E2).
  destruct (node_time w1 t2 w2 E2) as [S2 P2]. cbn [fst] in Hw.
  rewrite (proj2 (Z.ltb_ge _ _) Hw).
  destruct (getcount w2) as [[rv cnt] w3] eqn:E3. rewrite (bind_call _ _ _ _ _ E3).
  destruct (node_getcount w2 rv cnt w3 E3) as (S3 & P3 & -> & C3).
  assert (P : pending w3 = a :: rest) by congruence.
  rewrite (proj2 (Z.eqb_neq cnt 0)) by (apply C3; congruence). cbn [negb andb Z.eqb VSCP_ERROR_SUCCESS].
  destruct (node_receive ex w3 a rest P) as (w4 & E4 & S4 & P4).
  rewrite (bind_call _ _ _ _ _ E4), Hr. exists w4. split; [reflexivity|]. split; [congruence|exact P4].
Qed.

(** A request whose answer is its ACK, and maybe an event more. *)
Lemma request_ok ex ack nack w r :
  pending w = [] -> r = (xtype ex, take (Z.to_nat (xsizeData ex)) (xdata ex)) -> ack = ack_of r.1 ->
  exists w', request fuel d ex ack nack w = Returns (VSCP_ERROR_SUCCESS, w') /\ sent w' = sent w ++ [r] /\
    let '(blk, data) := node_state (sent w ++ [r]) in
    if (r.1 =? VSCP_TYPE_PROTOCOL_BLOCK_DATA) && (Z.of_nat (length data) =? m_blockSize d)
    then exists b, pending w' = [b] /\ block_ack (node_guid d) (m_blockSize d) blk data b
    else pending w' = [].
Proof using Hfuel.
  intros Hp -> ->. destruct (node_send ex w) as (w1 & answers & E1 & S1 & P1 & A). cbv zeta in *.
  set (r := (xtype ex, _)) in *. unfold node_answers in A.
  destruct (node_state (sent w ++ [r])) as [blk data] eqn:N.
  destruct A as (a & rest & -> & Ha & Hrest). rewrite Hp in P1. cbn [app] in P1.
  destruct (check_reply (ack_of r.1) nack ex w1 a rest P1 Ha) as (w2 & E2 & S2 & P2).
  exists w2. split; [|split; [congruence|]].
  - unfold request. rewrite (bind_call _ _ _ _ _ E1). cbn [negb Z.eqb VSCP_ERROR_SUCCESS].
    rewrite (bind_returns _ _ _ _ _ E2). reflexivity.
  - destruct (_ && _).
    + destruct Hrest as (b & -> & Hb). exists b. auto.
    + congruence.
Qed.

Lemma writeBlockStart_ok block type w :
  pending w = [] ->
  exists w', writeBlockStart fuel d block type w = Returns (VSCP_ERROR_SUCCESS, w') /\
    sent w' = sent w ++ [(VSCP_TYPE_PROTOCOL_START_BLOCK, be 4 block ++ [type; 0])] /\ pending w' = [].
Proof using Hfuel.
  intros Hp. unfold writeBlockStart.
  destruct (new_event_ok VSCP_TYPE_PROTOCOL_START_BLOCK w) as (ex & E & T). rewrite (bind_returns _ _ _ _ _ E).
  destruct (request_ok (set_xdata 6 (be 4 block ++ [type; 0]) ex) VSCP_TYPE_PROTOCOL_START_BLOCK_ACK
              VSCP_TYPE_PROTOCOL_START_BLOCK_NACK w
              (VSCP_TYPE_PROTOCOL_START_BLOCK, be 4 block ++ [type; 0]) Hp) as (w' & E' & S' & P').
  - rewrite set_xdata_data by (reflexivity || lia). rewrite set_xdata_type, T. reflexivity.
  - reflexivity.
  - exists w'. split; [exact E'|]. split; [exact S'|].
    destruct (node_state _) as [blk data] in P'. exact P'.
Qed.

Lemma programBlock_ok block w :
  pending w = [] ->
  exists w', programBlock fuel d block w = Returns (VSCP_ERROR_SUCCESS, w') /\
    sent w' = sent w ++ [(VSCP_TYPE_PROTOCOL_PROGRAM_BLOCK_DATA, be 4 block)] /\ pending w' = [].
Proof using Hfuel.
  intros Hp. unfold programBlock.
  destruct (new_event_ok VSCP_TYPE_PROTOCOL_PROGRAM_BLOCK_DATA w) as (ex & E & T).
  rewrite (bind_returns _ _ _ _ _ E).
  destruct (request_ok (set_xdata 4 (be 4 block) ex) VSCP_TYPE_PROTOCOL_PROGRAM_BLOCK_DATA_ACK
              VSCP_TYPE_PROTOCOL_PROGRAM_BLOCK_DATA_NACK w
              (VSCP_TYPE_PROTOCOL_PROGRAM_BLOCK_DATA, be 4 block) Hp) as (w' & E' & S' & P').
  - rewrite set_xdata_data by (reflexivity || lia). rewrite set_xdata_type, T. reflexivity.
  - reflexivity.
  - exists w'. split; [exact E'|]. split; [exact S'|].
    destruct (node_state _) as [blk data] in P'. exact P'.
Qed.

End answering.

Lemma node_state_data before blk data bytes :
  node_state before = (blk, data) ->
  node_state (before ++ [(VSCP_TYPE_PROTOCOL_BLOCK_DATA, bytes)]) = (blk, data ++ bytes).
Proof. intros E. unfold node_state in *. rewrite foldl_app, E. reflexivity. Qed.

Section blocks.
Context {W : Type} `{VscpClient W} (fuel : nat) (d : BootDevice_VSCP).
Context `{!BootNode W (node_guid d) (m_blockSize d)}.
Variable (cs k : nat).
Hypothesis Hfuel : (0 < fuel)%nat.
Hypothesis Hcs : m_chunkSize d = Z.of_nat cs.
Hypothesis Hbs : m_blockSize d = Z.of_nat (k * cs).
Hypothesis Cs : (0 < cs <= 512)%nat.
Hypothesis K : (0 < k)%nat.

Lemma writeChunk_ok buf off i w blk :
  (off + k * cs <= length buf)%nat -> (i < k)%nat -> pending w = [] ->
  node_state (sent w) = (blk, take (i * cs) (drop off buf)) ->
  exists w', writeChunk fuel d buf (Z.of_nat (off + i * cs)) (m_chunkSize d) w = Returns (VSCP_ERROR_SUCCESS, w') /\
    sent w' = sent w ++ [chunk_request cs buf off i] /\
    node_state (sent w') = (blk, take (S i * cs) (drop off buf)) /\
    if (S i =? k)%nat
    then exists b, pending w' = [b] /\
           block_ack (node_guid d) (m_blockSize d) blk (take (k * cs) (drop off buf)) b
    else pending w' = [].
Proof using Hfuel Hcs Hbs Cs K.
  intros Hl Hi Hp Hs. unfold writeChunk.
  destruct (new_event_ok VSCP_TYPE_PROTOCOL_BLOCK_DATA w) as (ex & E & T). rewrite (bind_returns _ _ _ _ _ E).
  rewrite Z.ltb_irrefl, Hcs, !Nat2Z.id.
  assert (Hin : (off + i * cs + cs <= length buf)%nat) by nia.
  rewrite (bind_defined _ _ _ _ (rdn_defined buf (off + i * cs) cs Hin)).
  set (bytes := take cs (drop (off + i * cs) buf)).
  assert (Lb : length bytes = cs) by (unfold bytes; rewrite length_take, length_drop; lia).
  rewrite (proj2 (Z.ltb_ge 512 (Z.of_nat cs))) by lia.
  destruct (request_ok fuel d Hfuel (set_xdata (Z.of_nat cs) bytes ex) VSCP_TYPE_PROTOCOL_BLOCK_CHUNK_ACK
              VSCP_TYPE_PROTOCOL_BLOCK_CHUNK_NACK w (VSCP_TYPE_PROTOCOL_BLOCK_DATA, bytes) Hp)
    as (w' & E' & S' & P').
  - rewrite set_xdata_data by lia. rewrite set_xdata_type, T. reflexivity.
  - reflexivity.
  - assert (N := node_state_data (sent w) blk _ bytes Hs). unfold bytes in N. rewrite take_chunks in N. fold bytes in N.
    exists w'. split; [exact E'|]. split; [exact S'|]. split; [rewrite S'; exact N|]. rewrite N in P'.
    assert (Ld : length (take (S i * cs) (drop off buf)) = (S i * cs)%nat)
      by (rewrite length_take, length_drop; nia).
    rewrite Ld in P'. cbn [fst] in P'. change (VSCP_TYPE_PROTOCOL_BLOCK_DATA =? VSCP_TYPE_PROTOCOL_BLOCK_DATA)
      with true in P'. cbn [andb] in P'.
    destruct (Z.eqb_spec (Z.of_nat (S i * cs)) (m_blockSize d)), (Nat.eqb_spec (S i) k) as [<-|]; try nia; exact P'.
Qed.

Lemma write_chunks_ok buf off n i w blk :
  (off + k * cs <= length buf)%nat -> (i + S n = k)%nat -> pending w = [] -> Z.of_nat (k * cs) < 2 ^ 32 ->
  node_state (sent w) = (blk, take (i * cs) (drop off buf)) ->
  exists w' b, write_chunks fuel d (S n) buf (Z.of_nat off) (Z.of_nat i) w = Returns (tt, w') /\
    sent w' = sent w ++ map (chunk_request cs buf off) (seq i (S n)) /\
    pending w' = [b] /\ block_ack (node_guid d) (m_blockSize d) blk (take (k * cs) (drop off buf)) b.
Proof using Hfuel Hcs Hbs Cs K.
  intros Hl. revert i w. induction n as [|n IH]; intros i w Hi Hp Hb Hs;
    destruct (writeChunk_ok buf off i w blk Hl ltac:(lia) Hp Hs) as (w1 & E1 & S1 & N1 & P1);
    rewrite Nat2Z.inj_add, Nat2Z.inj_mul, <- Hcs in E1;
    assert (Ho : u32 (Z.of_nat i * m_chunkSize d) = Z.of_nat i * m_chunkSize d) by (rewrite Hcs; apply u32_id; split; nia);
    rewrite <- Ho in E1; cbn [write_chunks]; rewrite (bind_returns _ _ _ _ _ E1);
    cbn [negb Z.eqb VSCP_ERROR_SUCCESS]; destruct (Nat.eqb_spec (S i) k); try lia.
  - destruct P1 as (b & P1 & B). exists w1, b. split; [reflexivity|]. split; [exact S1|]. auto.
  - destruct (IH (S i) w1 ltac:(lia) P1 Hb N1) as (w2 & b & E2 & S2 & P2 & B).
    exists w2, b. replace (Z.of_nat i + 1) with (Z.of_nat (S i)) by lia. split; [exact E2|].
    split; [|auto]. rewrite S2, S1, <- app_assoc. reflexivity.
Qed.

Lemma number_of_chunks_eq : number_of_chunks d = Z.of_nat k.
Proof using Hcs Hbs Cs K.
  clear Hfuel. unfold number_of_chunks. rewrite Hcs, Hbs, Nat2Z.inj_mul.
  destruct (Z.ltb_spec (Z.of_nat cs) (Z.of_nat k * Z.of_nat cs)).
  - rewrite Z.mod_mul, Z.div_mul by lia. apply Z.add_0_r.
  - nia.
Qed.

Lemma node_state_start before block type :
  node_state (before ++ [(VSCP_TYPE_PROTOCOL_START_BLOCK, be 4 block ++ [type; 0])]) = (be 4 block, []).
Proof. unfold node_state. rewrite foldl_app. cbn [foldl]. unfold node_step. reflexivity. Qed.

(** The chunks of a block that was started, and the check of its CRC. *)
Lemma writeBlock_ok buf off block w :
  (off + k * cs <= length buf)%nat -> pending w = [] -> Z.of_nat (k * cs) < 2 ^ 32 ->
  is_u32 block -> node_state (sent w) = (be 4 block, []) ->
  exists w', writeBlock fuel d block buf (Z.of_nat off) w = Returns (VSCP_ERROR_SUCCESS, w') /\
    sent w' = sent w ++ map (chunk_request cs buf off) (seq 0 k) /\ pending w' = [].
Proof using Hfuel Hcs Hbs Cs K.
  intros Hl Hp Hb Hblk Hs. unfold writeBlock. rewrite number_of_chunks_eq, !Nat2Z.id.
  rewrite (proj2 (Z.eqb_neq (m_chunkSize d) 0)), andb_false_r by lia. cbv iota.
  destruct (write_chunks_ok buf off (k - 1) 0 w (be 4 block) Hl ltac:(lia) Hp Hb Hs) as (w1 & b & E1 & S1 & P1 & B).
  replace (S (k - 1)) with k in * by lia. change (Z.of_nat 0) with 0 in E1. rewrite (bind_returns _ _ _ _ _ E1).
  rewrite (bind_returns _ _ w1 (fresh w1) w1) by reflexivity. destruct B as [R X].
  destruct (check_reply fuel d Hfuel VSCP_TYPE_PROTOCOL_BLOCK_DATA_ACK VSCP_TYPE_PROTOCOL_BLOCK_DATA_NACK
              (fresh w1) w1 b [] P1 R) as (w2 & E2 & S2 & P2).
  rewrite (bind_returns _ _ _ _ _ E2).
  assert (Nb : Z.to_nat (m_blockSize d) = (k * cs)%nat) by lia. rewrite Nb in X |- *.
  rewrite (bind_defined _ _ _ _ (rdn_defined buf off (k * cs) Hl)).
  set (bytes := take (k * cs) (drop off buf)) in *. rewrite (take_ge bytes) in X by (unfold bytes; rewrite length_take; lia).
  assert (Hc : is_u16 (crcFast bytes)).
  { apply crcFast_ok. }
  rewrite (unsigned16_be (crcFast bytes)); [|exact Hc|].
  - assert (E32 : construct_unsigned32 (nth 2 (xdata b) 0) (nth 3 (xdata b) 0) (nth 4 (xdata b) 0) (nth 5 (xdata b) 0)
                  = block).
    { destruct (xdata b) as [|b0 [|b1 l]]; try discriminate X. cbn [nth]. apply unsigned32_be; [exact Hblk|].
      cbn [take] in X. injection X. intros; assumption. }
    rewrite E32, !Z.eqb_refl. cbn [negb orb]. exists w2. split; [reflexivity|]. split; [congruence|exact P2].
  - rewrite <- (take_take _ 2 6), X. reflexivity.
Qed.

Lemma try_block_ok n buf i type rv w :
  (i * (k * cs) + k * cs <= length buf)%nat -> Z.of_nat (length buf) < 2 ^ 32 -> pending w = [] ->
  exists w', try_block fuel d (S n) (Z.of_nat i) type buf rv w = Returns (Next VSCP_ERROR_SUCCESS, w') /\
    sent w' = sent w ++ block_requests cs k buf (i * (k * cs)) (Z.of_nat i) type /\ pending w' = [].
Proof using Hfuel Hcs Hbs Cs K.
  intros Hl Hb Hp. cbn [try_block].
  destruct (writeBlockStart_ok fuel d Hfuel (Z.of_nat i) type w Hp) as (w1 & E1 & S1 & P1).
  rewrite (bind_returns _ _ _ _ _ E1). cbn [negb Z.eqb VSCP_ERROR_SUCCESS].
  assert (Ho : u32 (Z.of_nat i * m_blockSize d) = Z.of_nat (i * (k * cs)))
    by (rewrite Hbs, <- Nat2Z.inj_mul; apply u32_id; unfold is_u32; lia).
  assert (Hi : is_u32 (Z.of_nat i)) by (unfold is_u32; nia).
  assert (N1 : node_state (sent w1) = (be 4 (Z.of_nat i), [])) by (rewrite S1; apply node_state_start).
  destruct (writeBlock_ok buf (i * (k * cs)) (Z.of_nat i) w1 Hl P1 ltac:(lia) Hi N1) as (w2 & E2 & S2 & P2).
  rewrite <- Ho in E2. rewrite (bind_returns _ _ _ _ _ E2). cbn [negb Z.eqb VSCP_ERROR_SUCCESS].
  destruct (programBlock_ok fuel d Hfuel (Z.of_nat i) w2 P2) as (w3 & E3 & S3 & P3).
  rewrite (bind_returns _ _ _ _ _ E3). exists w3. split; [reflexivity|]. split; [|exact P3].
  rewrite S3, S2, S1. unfold block_requests. rewrite <- !app_assoc. reflexivity.
Qed.

Lemma write_blocks_ok n buf i type rv w :
  ((i + n) * (k * cs) <= length buf)%nat -> Z.of_nat (length buf) < 2 ^ 32 -> pending w = [] ->
  exists w' rv', write_blocks fuel d n (Z.of_nat i) type buf rv w = Returns (Next rv', w') /\
    rv' = (if (n =? 0)%nat then rv else VSCP_ERROR_SUCCESS) /\
    sent w' = sent w ++ concat (map (fun i => block_requests cs k buf (i * (k * cs)) (Z.of_nat i) type) (seq i n)) /\
    pending w' = [].
Proof using Hfuel Hcs Hbs Cs K.
  intros Hl Hb. revert i rv w Hl. induction n as [|n IH]; intros i rv w Hl Hp.
  - exists w, rv. cbn [seq map concat]. rewrite app_nil_r. auto.
  - cbn [write_blocks].
    destruct (try_block_ok 2 buf i type rv w ltac:(nia) Hb Hp) as (w1 & E1 & S1 & P1).
    rewrite (bind_returns _ _ _ _ _ E1).
    replace (Z.of_nat i + 1) with (Z.of_nat (S i)) by lia.
    destruct (IH (S i) VSCP_ERROR_SUCCESS w1 ltac:(nia) P1) as (w2 & rv2 & E2 & R2 & S2 & P2).
    exists w2, rv2. split; [exact E2|]. split; [rewrite R2; destruct n; reflexivity|].
    split; [|exact P2]. rewrite S2, S1. cbn [seq map concat]. rewrite app_assoc. reflexivity.
Qed.
End blocks.

(** ** Lemmas: memory types *)

(** The bytes of the image from an address on. *)
Definition image_bytes (segs : list CBootMemSegment) (a : Z) (n : nat) : list Z :=
  map (fun i => image 0xff segs (a + Z.of_nat i)) (seq 0 n).

Lemma ceil_eq a b : 0 <= a -> 0 < b -> a / b + (if a mod b =? 0 then 0 else 1) = (a + b - 1) / b.
Proof.
  intros Ha Hb. assert (E := Z.div_mod a b ltac:(lia)). assert (B := Z.mod_pos_bound a b Hb).
  destruct (Z.eqb_spec (a mod b) 0).
  - apply (Z.div_unique _ _ _ (b - 1)); lia.
  - apply (Z.div_unique _ _ _ (a mod b - 1)); lia.
Qed.

Lemma filter_all (f : CBootMemSegment -> bool) segs :
  (forall s, s ∈ segs -> f s = true) -> List.filter f segs = segs.
Proof.
  induction segs as [|s segs IH]; intros H; [reflexivity|]. cbn [List.filter].
  rewrite (H s ltac:(left)), IH; [reflexivity|]. intros s' Hs. apply H. right. exact Hs.
Qed.

Lemma filter_none (f : CBootMemSegment -> bool) segs :
  (forall s, s ∈ segs -> f s = false) -> List.filter f segs = [].
Proof.
  induction segs as [|s segs IH]; intros H; [reflexivity|]. cbn [List.filter].
  rewrite (H s ltac:(left)). apply IH. intros s' Hs. apply H. right. exact Hs.
Qed.

(** The address range of segments that lie in a memory range. *)
Lemma range_of segs start stop lo hi :
  0 <= start < stop -> stop < 2 ^ 32 ->
  (forall s, s ∈ segs -> start <= lo <= m_startAddress s /\ m_startAddress s + m_segSize s <= hi < stop) ->
  (exists s, s ∈ segs /\ m_startAddress s = lo) -> (exists s, s ∈ segs /\ m_startAddress s + m_segSize s = hi) ->
  lo < hi ->
  getMinMaxForRange segs start stop (Some 0) (Some 0) = (VSCP_ERROR_SUCCESS, Some lo, Some hi) /\
  forall s, s ∈ segs -> in_range start stop s = true /\ m_endAddress s = m_startAddress s + m_segSize s.
Proof.
  intros Hr Hstop Hs Hlo Hhi Hlt. change (2 ^ 32) with 4294967296 in Hstop.
  assert (End : forall s, s ∈ segs -> m_endAddress s = m_startAddress s + m_segSize s).
  { intros s Hin. destruct (Hs s Hin). unfold m_endAddress. apply u32_id. unfold is_u32, m_segSize in *.
    change (2 ^ 32) with 4294967296. lia. }
  assert (All : List.filter (starts_in start stop) segs = segs).
  { apply filter_all. intros s Hin. destruct (Hs s Hin). unfold starts_in, m_segSize in *.
    rewrite (proj2 (Z.leb_le start _)), (proj2 (Z.leb_le _ stop)) by lia. reflexivity. }
  split.
  - unfold getMinMaxForRange. rewrite (proj2 (Z.leb_gt stop start)) by lia.
    destruct (min_max_fold start stop segs 0xffffffff 0) as (l & h & -> & Ll & Lh & A & Bl & Bh).
    rewrite All in *. destruct Hlo as (s1 & I1 & E1), Hhi as (s2 & I2 & E2).
    destruct (Hs s1 I1) as [B1 B2], (Hs s2 I2) as [B3 B4]. destruct (A s1 I1) as [A1 _]. destruct (A s2 I2) as [_ A2]. rewrite (End s2 I2) in A2.
    assert (l = lo). { destruct Bl as [->|(s & I & E)]; [lia|]. destruct (Hs s I). lia. }
    assert (h = hi).
    { destruct Bh as [->|(s & I & E)]; [lia|]. rewrite (End s I) in E. destruct (Hs s I). lia. }
    subst l h. destruct (Z.eqb_spec lo 0xffffffff); [lia|]. reflexivity.
  - intros s Hin. split; [|apply End, Hin]. destruct (Hs s Hin). unfold in_range. rewrite (End s Hin).
    rewrite (proj2 (Z.leb_le start _)), (proj2 (Z.ltb_lt _ stop)) by lia. reflexivity.
Qed.

Section ranges.
Context {W : Type} `{VscpClient W} (fuel : nat) (d : BootDevice_VSCP).

Lemma load_range_empty type start stop w :
  start < stop -> (forall s, s ∈ m_memSegs d -> starts_in start stop s = false) ->
  load_range fuel d (type, start, stop) w = Returns (Next VSCP_ERROR_SUCCESS, w).
Proof.
  intros Hr Hs. unfold load_range, getMinMaxForRange. rewrite (proj2 (Z.leb_gt stop start)) by lia.
  destruct (min_max_fold start stop (m_memSegs d) 0xffffffff 0) as (l & h & -> & _ & _ & _ & Bl & Bh).
  rewrite filter_none in Bl, Bh by exact Hs.
  destruct Bl as [->|(s & I & _)]; [|apply elem_of_nil in I; contradiction].
  destruct Bh as [->|(s & I & _)]; [|apply elem_of_nil in I; contradiction].
  reflexivity.
Qed.

Lemma load_ranges_empty rs w :
  (forall type start stop, (type, start, stop) ∈ rs ->
     start < stop /\ forall s, s ∈ m_memSegs d -> starts_in start stop s = false) ->
  load_ranges fuel d rs VSCP_ERROR_SUCCESS w = Returns (VSCP_ERROR_SUCCESS, w).
Proof.
  induction rs as [|[[type start] stop] rs IH]; intros Hr; [reflexivity|]. cbn [load_ranges].
  destruct (Hr type start stop ltac:(left)) as [R1 R2].
  rewrite (bind_returns _ _ _ _ _ (load_range_empty type start stop w R1 R2)).
  apply IH. intros t a b I. apply (Hr t a b). right. exact I.
Qed.

(** The memory types before one whose data cannot be loaded do not matter. *)
Lemma load_ranges_undefined rs r rv w :
  r ∈ rs -> load_range fuel d r w = Undefined ->
  (forall type start stop, (type, start, stop) ∈ rs -> (type, start, stop) <> r ->
     start < stop /\ forall s, s ∈ m_memSegs d -> starts_in start stop s = false) ->
  load_ranges fuel d rs rv w = Undefined.
Proof.
  intros Hr Hu. revert rv. induction rs as [|[[type start] stop] rs IH]; intros rv Hd.
  - apply elem_of_nil in Hr. contradiction.
  - cbn [load_ranges]. destruct (decide ((type, start, stop) = r)) as [E|Hne].
    + rewrite E. unfold mbind, M_bind. rewrite Hu. reflexivity.
    + apply elem_of_cons in Hr as [->|Hr]; [congruence|].
      destruct (Hd type start stop ltac:(left) Hne) as [R1 R2].
      rewrite (bind_returns _ _ _ _ _ (load_range_empty type start stop w R1 R2)).
      apply (IH Hr). intros t a b I. apply (Hd t a b). right. exact I.
Qed.
End ranges.

(** *** Flash memory *)

Lemma image_bytes_lookup segs a n i :
  (i < n)%nat -> image_bytes segs a n !! i = Some (image 0xff segs (a + Z.of_nat i)).
Proof.
  intros Hi. unfold image_bytes. rewrite list_lookup_fmap, (proj2 (lookup_seq 0 n i i)) by lia. reflexivity.
Qed.

Lemma length_image_bytes segs a n : length (image_bytes segs a n) = n.
Proof. unfold image_bytes. rewrite length_map. apply length_seq. Qed.

(** A buffer that starts at an address which is a multiple of the block size. *)
Lemma fill_image segs stop lo hi size :
  0 <= lo -> lo < hi -> stop < 2 ^ 32 -> 0 < size -> hi - lo <= size -> Forall segment_ok segs ->
  (forall s, s ∈ segs -> lo <= m_startAddress s /\ m_startAddress s + m_segSize s <= hi < stop) ->
  (forall s, s ∈ segs -> in_range 0 stop s = true) ->
  fillMemoryBuffer segs (Some (replicate (Z.to_nat size) 0)) size 0 stop lo 0xff
  = Some (VSCP_ERROR_SUCCESS, Some (image_bytes segs lo (Z.to_nat size))).
Proof.
  intros H0 Hlt Hstop Hsize Hspan Hok Hs Hin. unfold fillMemoryBuffer.
  destruct (Z.eqb_spec size 0); [lia|].
  rewrite wr_front by (rewrite !length_replicate; lia).
  rewrite length_replicate, drop_ge, app_nil_r by (rewrite length_replicate; lia).
  assert (P : forall s, s ∈ segs -> is_u32 (m_startAddress s) /\ place 0 lo s = m_startAddress s - lo).
  { intros s I. destruct (proj1 (List.Forall_forall _ _) Hok s (proj1 (list_elem_of_In _ _) I)) as (U & _). destruct (Hs s I).
    split; [exact U|]. unfold place. width. }
  destruct (fill_segments 0 stop lo segs (replicate (Z.to_nat size) 0xff)) as (mem & -> & L & I).
  { intros s I _. destruct (P s I) as [_ E]. destruct (Hs s I). unfold fits. rewrite E, length_replicate. lia. }
  rewrite length_replicate in L. cbn [mbind option_bind]. do 3 f_equal.
  apply list_eq. intros i. destruct (Nat.lt_ge_cases i (Z.to_nat size)) as [Hi|Hi].
  - rewrite image_bytes_lookup by exact Hi.
    rewrite (I ltac:(lia)) with (v := 0xff).
    + rewrite filter_all by exact Hin. reflexivity.
    + intros s Is _. destruct (P s Is) as [U _]. destruct (Hs s Is). split; [exact U|lia].
    + apply lookup_replicate_2. exact Hi.
  - rewrite !lookup_ge_None_2; [reflexivity|rewrite length_image_bytes|]; lia.
Qed.

Section flash.
Context {W : Type} `{VscpClient W} (fuel : nat) (d : BootDevice_VSCP).
Context `{!BootNode W (node_guid d) (m_blockSize d)}.
Variable (cs k : nat) (lo hi : Z).
Hypothesis Hfuel : (0 < fuel)%nat.
Hypothesis Hcs : m_chunkSize d = Z.of_nat cs.
Hypothesis Hbs : m_blockSize d = Z.of_nat (k * cs).
Hypothesis Cs : (0 < cs <= 512)%nat.
Hypothesis K : (0 < k)%nat.
Hypothesis Bmax : m_blockSize d <= 0x40000000.
Hypothesis Hcb : m_statusCallback d = true.
Hypothesis Hok : Forall segment_ok (m_memSegs d).
Hypothesis Hsegs : forall s, s ∈ m_memSegs d -> lo <= m_startAddress s /\ m_startAddress s + m_segSize s <= hi.
Hypothesis Hlo : exists s, s ∈ m_memSegs d /\ m_startAddress s = lo.
Hypothesis Hhi : exists s, s ∈ m_memSegs d /\ m_startAddress s + m_segSize s = hi.
Hypothesis Hlt : 0 <= lo < hi.
Hypothesis Hmax : hi < 0x3fffffff.
Hypothesis Halign : lo mod m_blockSize d = 0.

(** The number of blocks. *)
Definition block_count : nat := Z.to_nat ((hi - lo + m_blockSize d - 1) / m_blockSize d).

(** The events that carry the image. *)
Definition image_requests : list (Z * list Z) :=
  concat (map (fun i => block_requests cs k (image_bytes (m_memSegs d) lo (block_count * (k * cs)))
                          (i * (k * cs)) (Z.of_nat i) 0)
              (seq 0 block_count)).

Lemma block_count_spec :
  hi - lo <= m_blockSize d * Z.of_nat block_count < hi - lo + m_blockSize d /\ (0 < block_count)%nat.
Proof using Bmax Cs Hbs Hlt K.
  clear Hfuel. unfold block_count.
  assert (B : 0 < m_blockSize d) by (rewrite Hbs; nia).
  assert (E := Z.div_mod (hi - lo + m_blockSize d - 1) (m_blockSize d) ltac:(lia)).
  assert (M := Z.mod_pos_bound (hi - lo + m_blockSize d - 1) (m_blockSize d) B).
  assert (Q : 0 < (hi - lo + m_blockSize d - 1) / m_blockSize d) by (apply Z.div_str_pos; lia).
  rewrite Z2Nat.id by lia. lia.
Qed.

Lemma load_flash w :
  pending w = [] ->
  exists w', load_range fuel d (0, 0, 0x3fffffff) w = Returns (Next VSCP_ERROR_SUCCESS, w') /\
    sent w' = sent w ++ image_requests /\ pending w' = [].
Proof using All.
  intros Hp. unfold load_range.
  destruct block_count_spec as [C1 C0].
  destruct (range_of (m_memSegs d) 0 0x3fffffff lo hi ltac:(lia) ltac:(lia)) as [R In]; try assumption; try lia.
  { intros s I. destruct (Hsegs s I). lia. }
  rewrite R. cbn [negb Z.eqb VSCP_ERROR_SUCCESS].
  rewrite (proj2 (Z.leb_gt hi lo)) by lia.
  assert (B : 0 < m_blockSize d) by (rewrite Hbs; clear - Cs K; nia).
  destruct (Z.eqb_spec (m_blockSize d) 0); [lia|].
  rewrite ceil_eq by lia. fold block_count.
  assert (Q : (hi - lo + m_blockSize d - 1) / m_blockSize d = Z.of_nat block_count).
  { unfold block_count. rewrite Z2Nat.id; [reflexivity|]. apply Z.div_pos; lia. }
  rewrite Q.
  assert (So : lo / m_blockSize d * m_blockSize d = lo)
    by (assert (E := Z.div_mod lo (m_blockSize d) ltac:(lia)); lia).
  rewrite So.
  assert (Ks : u32 (m_blockSize d * Z.of_nat block_count) = Z.of_nat (block_count * (k * cs))).
  { rewrite u32_id; [rewrite Hbs; lia|]. unfold is_u32. change (2 ^ 32) with 4294967296. lia. }
  rewrite Ks, (u32_id lo) by (unfold is_u32; change (2 ^ 32) with 4294967296; lia).
  assert (Sz : Z.of_nat (block_count * (k * cs)) = m_blockSize d * Z.of_nat block_count) by (rewrite Hbs; lia).
  rewrite (fill_image (m_memSegs d) 0x3fffffff lo hi) by
    (first [assumption | lia | (intros s I; destruct (Hsegs s I); lia) | (intros s I; apply (In s I))]).
  cbn [defined]. rewrite (bind_returns _ _ w _ w) by reflexivity.
  cbn [negb Z.eqb VSCP_ERROR_SUCCESS]. rewrite Hcb. cbn [negb].
  rewrite !Nat2Z.id.
  destruct (write_blocks_ok fuel d cs k Hfuel Hcs Hbs Cs K block_count
              (image_bytes (m_memSegs d) lo (block_count * (k * cs))) 0 0 VSCP_ERROR_SUCCESS w) as (w' & rv & E & Rv & S' & P').
  - rewrite length_image_bytes. lia.
  - rewrite length_image_bytes, Sz. change (2 ^ 32) with 4294967296. lia.
  - exact Hp.
  - exists w'. change (Z.of_nat 0) with 0 in E. rewrite E, Rv.
    destruct (Nat.eqb_spec block_count 0); [lia|]. auto.
Qed.
End flash.

(** *** Other memory types *)

(** The distance from the buffer's address to the place of a segment that starts
    at the least address wraps around. *)
Lemma far_place start lo bs s :
  0 < bs <= start -> start <= lo < 2 ^ 32 -> m_startAddress s = lo ->
  2 ^ 32 - start <= place start (u32 (lo / bs * bs)) s.
Proof.
  intros Hb Hl E. unfold place. rewrite E. change (2 ^ 32) with 4294967296 in *.
  assert (D := Z.div_mod lo bs ltac:(lia)). assert (M := Z.mod_pos_bound lo bs ltac:(lia)).
  assert (U : u32 (lo / bs * bs) = lo / bs * bs).
  { apply u32_id. unfold is_u32. change (2 ^ 32) with 4294967296. nia. }
  rewrite U. unfold u32. change (2 ^ 32) with 4294967296.
  replace (lo - start - lo / bs * bs) with (lo mod bs - start) by lia.
  rewrite (Z.mod_eq (lo mod bs - start)) by lia.
  assert ((lo mod bs - start) / 4294967296 = -1) by (symmetry; apply (Z.div_unique _ _ _ (lo mod bs - start + 4294967296)); lia).
  lia.
Qed.

Lemma load_range_undefined {W} `{VscpClient W} fuel d type start stop lo hi w :
  0 < m_blockSize d <= start -> start < stop -> stop < 2 ^ 32 -> stop + m_blockSize d <= 2 ^ 32 ->
  (forall s, s ∈ m_memSegs d -> lo <= m_startAddress s /\ m_startAddress s + m_segSize s <= hi) ->
  (exists s, s ∈ m_memSegs d /\ m_startAddress s = lo) ->
  (exists s, s ∈ m_memSegs d /\ m_startAddress s + m_segSize s = hi) ->
  start <= lo < hi -> hi < stop ->
  load_range fuel d (type, start, stop) w = Undefined.
Proof.
  intros Hb Hr Hstop Hbig Hs Hlo Hhi Hl Hh. unfold load_range.
  destruct (range_of (m_memSegs d) start stop lo hi ltac:(lia) Hstop) as [R In]; try assumption; try lia.
  { intros s I. destruct (Hs s I). lia. }
  rewrite R. cbn [negb Z.eqb VSCP_ERROR_SUCCESS].
  rewrite (proj2 (Z.leb_gt hi lo)) by lia. destruct (Z.eqb_spec (m_blockSize d) 0) as [|_]; [lia|].
  rewrite ceil_eq by lia. set (n := (hi - lo + m_blockSize d - 1) / m_blockSize d).
  change (2 ^ 32) with 4294967296 in *.
  assert (N : hi - lo <= m_blockSize d * n < hi - lo + m_blockSize d).
  { assert (E := Z.div_mod (hi - lo + m_blockSize d - 1) (m_blockSize d) ltac:(lia)).
    assert (M := Z.mod_pos_bound (hi - lo + m_blockSize d - 1) (m_blockSize d) ltac:(lia)). fold n in E. lia. }
  assert (U : u32 (m_blockSize d * n) = m_blockSize d * n)
    by (apply u32_id; unfold is_u32; change (2 ^ 32) with 4294967296; lia).
  rewrite U. unfold fillMemoryBuffer. destruct (Z.eqb_spec (m_blockSize d * n) 0); [lia|].
  rewrite wr_front by (rewrite !length_replicate; lia).
  rewrite fill_overflow; [reflexivity|]. destruct Hlo as (s & I & E).
  exists s. split; [exact I|]. split; [apply (In s I)|]. unfold fits.
  rewrite length_app, length_replicate, length_drop, !length_replicate.
  assert (F := far_place start lo (m_blockSize d) s Hb ltac:(lia) E).
  change (2 ^ 32) with 4294967296 in F. unfold m_segSize. lia.
Qed.

(** ** A node and a clock

    Concrete environments in which the laws hold. *)

Definition blank_event (type : Z) (data : list Z) : vscpEventEx :=
  EventEx 0 0 (Time 0 0 0) 0 VSCP_CLASS1_PROTOCOL type (replicate 16 0) (Z.of_nat (length data)) data.

(** Nobody answers; the clock shows 0 and 100 in turns. *)
#[local] Instance silent_client : VscpClient bool := {|
  isFullLevel2 := true;
  send ex w := (VSCP_ERROR_SUCCESS, w);
  getcount w := (VSCP_ERROR_SUCCESS, 0, w);
  receive ex w := (VSCP_ERROR_SUCCESS, ex, w);
  clear w := (VSCP_ERROR_SUCCESS, w);
  time w := (if w : bool then 100 else 0, negb w);
  msTimeStamp w := (0, w);
  now w := Timespec 0 0;
  stamp w := 0;
  fresh w := blank_event 0 []
|}.

Definition silent_polls (t : Z) (w : bool) : nat :=
  if u64 ((if w then 100 else 0) - t) <=? BOOT_COMMAND_DEFAULT_RESPONSE_TIMEOUT then 1 else 0.

#[local] Instance silent_clock : ClockLaws bool 1.
Proof.
  refine {| polls := silent_polls |}; unfold silent_polls, waiting, BOOT_COMMAND_DEFAULT_RESPONSE_TIMEOUT.
  - intros t w tnow w' [= <- <-] L. rewrite (proj2 (Z.leb_le _ 5) L).
    destruct w; cbn [negb] in *; match goal with |- context [?a <=? 5] => destruct (Z.leb_spec a 5) end;
      first [lia | exfalso; width].
  - intros t w. cbn [snd getcount silent_client]. lia.
  - intros t ex w. cbn [snd receive silent_client]. lia.
  - intros w t w' [= <- <-]. destruct w; vm_compute; lia.
Defined.

Record world := World { w_sent : list (Z * list Z); w_pending : list vscpEventEx }.

(** A node with blocks of [bs] bytes that answers at once. *)
Definition answers (bs : Z) (before : list (Z * list Z)) (r : Z * list Z) : list vscpEventEx :=
  let '(blk, data) := node_state (before ++ [r]) in
  blank_event (ack_of r.1) [] ::
  if (r.1 =? VSCP_TYPE_PROTOCOL_BLOCK_DATA) && (Z.of_nat (length data) =? bs)
  then [blank_event VSCP_TYPE_PROTOCOL_BLOCK_DATA_ACK (be 2 (crcFast (take (Z.to_nat bs) data)) ++ blk)]
  else [].

Definition answering_client (bs : Z) : VscpClient world := {|
  isFullLevel2 := false;
  send ex w :=
    let r := (xtype ex, take (Z.to_nat (xsizeData ex)) (xdata ex)) in
    (VSCP_ERROR_SUCCESS, World (w_sent w ++ [r]) (w_pending w ++ answers bs (w_sent w) r));
  getcount w := (VSCP_ERROR_SUCCESS, Z.of_nat (length (w_pending w)), w);
  receive ex w :=
    match w_pending w with
    | [] => (VSCP_ERROR_TIMEOUT, ex, w)
    | e :: rest => (VSCP_ERROR_SUCCESS, e, World (w_sent w) rest)
    end;
  clear w := (VSCP_ERROR_SUCCESS, World (w_sent w) []);
  time w := (0, w);
  msTimeStamp w := (0, w);
  now w := Timespec 0 0;
  stamp w := 0;
  fresh w := blank_event 0 []
|}.

Lemma node_block_length before : (length (node_state before).1 <= 4)%nat.
Proof.
  induction before as [|r before IH] using rev_ind; [cbn; lia|].
  unfold node_state in *. rewrite foldl_app. cbn [foldl]. unfold node_step at 1.
  destruct (r.1 =? VSCP_TYPE_PROTOCOL_START_BLOCK); [cbn [fst]; rewrite length_take; lia|].
  destruct (r.1 =? VSCP_TYPE_PROTOCOL_BLOCK_DATA); exact IH.
Qed.

Definition answering_node (bs : Z) : @BootNode world (answering_client bs) (replicate 16 0) bs.
Proof.
  refine (Build_BootNode world (answering_client bs) (replicate 16 0) bs w_sent w_pending _ _ _ _ _).
  - intros w t w' [= <- <-]. auto.
  - intros w t w' [= <- <-]. unfold waiting, BOOT_COMMAND_DEFAULT_RESPONSE_TIMEOUT. vm_compute. discriminate.
  - intros w rv cnt w' [= <- <- <-]. split_and!; try reflexivity. intros Hne.
    destruct (w_pending w); [congruence|]. cbn [length]. lia.
  - intros ex w e rest E. exists (World (w_sent w) rest). cbn [receive answering_client]. rewrite E. auto.
  - intros ex w. do 2 eexists. cbv zeta. split_and!; try reflexivity.
    unfold node_answers, answers. set (r := (xtype ex, _)).
    assert (L := node_block_length (w_sent w ++ [r])).
    destruct (node_state (w_sent w ++ [r])) as [blk data]. cbn [fst] in L.
    do 2 eexists. split; [reflexivity|]. split.
    + unfold is_reply. cbn [xclass xtype xGUID blank_event fst]. rewrite !Z.eqb_refl. reflexivity.
    + destruct (_ && _); [|reflexivity]. eexists. split; [reflexivity|]. split.
      * reflexivity.
      * cbn [xdata blank_event]. apply take_ge. rewrite length_app, length_be. lia.
Defined.

Definition sample_device : BootDevice_VSCP :=
  BootVscp (replicate 16 0) 2 4 true [MemSegment 8 [1; 2; 3]; MemSegment 12 [4; 5]].

Definition eeprom_device : BootDevice_VSCP :=
  BootVscp (replicate 16 0) 8 64 true [MemSegment 0xc3000000 [1; 2; 3]].

(** ** Properties *)

(** Waiting for an answer ends, whatever the client delivers, if its clock
    advances: with a timeout, or with the first event of class CLASS1.PROTOCOL
    from the node (the whole GUID on level II, the last byte on level I) that
    has the type of the ACK or of the NACK.  An ACK is success.  A NACK is
    VSCP_ERROR_NACK on level II, but success too on level I. *)
Theorem checkResponse_spec {W} `{VscpClient W} fuel (C : ClockLaws W fuel) ex guid ack nack w :
  exists rv ex' w',
    checkResponse fuel ex guid ack nack BOOT_COMMAND_DEFAULT_RESPONSE_TIMEOUT w = Returns (rv, ex', w') /\
    (rv = VSCP_ERROR_TIMEOUT \/
     xclass ex' = VSCP_CLASS1_PROTOCOL /\
     (if isFullLevel2 then take 16 guid = take 16 (xGUID ex') else nth 15 guid 0 = nth 15 (xGUID ex') 0) /\
     (xtype ex' = ack /\ rv = VSCP_ERROR_SUCCESS \/
      xtype ex' = nack /\ rv = if isFullLevel2 then VSCP_ERROR_NACK else VSCP_ERROR_SUCCESS)).
Proof. apply checkResponse_ends, C. Qed.

Lemma checkResponse_spec_witness :
  exists rv ex' w',
    checkResponse 1 (blank_event 0 []) [] 1 2 BOOT_COMMAND_DEFAULT_RESPONSE_TIMEOUT false = Returns (rv, ex', w') /\
    (rv = VSCP_ERROR_TIMEOUT \/
     xclass ex' = VSCP_CLASS1_PROTOCOL /\
     (if isFullLevel2 then take 16 [] = take 16 (xGUID ex') else nth 15 [] 0 = nth 15 (xGUID ex') 0) /\
     (xtype ex' = 1 /\ rv = VSCP_ERROR_SUCCESS \/
      xtype ex' = 2 /\ rv = if isFullLevel2 then VSCP_ERROR_NACK else VSCP_ERROR_SUCCESS)).
Proof. apply (checkResponse_spec 1 silent_clock (blank_event 0 []) [] 1 2 false). Defined.

(** C8: deviceLoad always ends, whatever the client delivers, if its clock
    advances: every wait has a timeout and every block three attempts. *)
Theorem deviceLoad_ends {W} `{VscpClient W} fuel (C : ClockLaws W fuel) d w :
  deviceLoad fuel d w <> OutOfFuel.
Proof. apply ends_ranges, C. Qed.

Lemma deviceLoad_ends_witness : deviceLoad 1 sample_device false <> OutOfFuel.
Proof. apply (deviceLoad_ends 1 silent_clock sample_device false). Defined.

(** C7: firmware whose segments lie in the flash memory and begin at a multiple
    of the node's block size is sent completely to a node that answers:
    deviceLoad succeeds, and the events sent are, for each block of the image
    in order, its start, its chunks and the order to program it; the bytes are
    those of the segments, and 0xff between them.  The blocks are numbered from
    0 at the first byte of the image, not from the start of the memory. *)
Theorem deviceLoad_sends_image {W} `{VscpClient W} fuel d (N : BootNode W (node_guid d) (m_blockSize d))
    cs k lo hi w :
  (0 < fuel)%nat ->
  m_chunkSize d = Z.of_nat cs -> m_blockSize d = Z.of_nat (k * cs) -> (0 < cs <= 512)%nat -> (0 < k)%nat ->
  m_blockSize d <= 0x40000000 -> m_statusCallback d = true ->
  Forall segment_ok (m_memSegs d) ->
  (forall s, s ∈ m_memSegs d -> lo <= m_startAddress s /\ m_startAddress s + m_segSize s <= hi) ->
  (exists s, s ∈ m_memSegs d /\ m_startAddress s = lo) ->
  (exists s, s ∈ m_memSegs d /\ m_startAddress s + m_segSize s = hi) ->
  0 <= lo < hi -> hi < 0x3fffffff -> lo mod m_blockSize d = 0 ->
  pending w = [] ->
  let n := Z.to_nat ((hi - lo + m_blockSize d - 1) / m_blockSize d) in
  exists w', deviceLoad fuel d w = Returns (VSCP_ERROR_SUCCESS, w') /\ pending w' = [] /\
    sent w' = sent w ++
      concat (map (fun i => block_requests cs k (image_bytes (m_memSegs d) lo (n * (k * cs)))
                              (i * (k * cs)) (Z.of_nat i) 0) (seq 0 n)).
Proof.
  intros Hf Hc Hb Cs K Bm Hcb Hok Hs Hlo Hhi Hlt Hm Ha Hp n.
  destruct (load_flash fuel d cs k lo hi Hf Hc Hb Cs K Bm Hcb Hok Hs Hlo Hhi Hlt Hm Ha w Hp) as (w' & E & S & P).
  exists w'. split; [|split; [exact P|exact S]].
  unfold deviceLoad, m_memory_range. cbn [load_ranges]. rewrite (bind_returns _ _ _ _ _ E).
  apply (load_ranges_empty fuel d
           [(0x01, 0xc3000000, 0xc3ffffff); (0x02, 0xc2000000, 0xc2ffffff); (0x03, 0x40000000, 0xbfffffff);
            (0x04, 0xc1000000, 0xc1ffffff); (0x05, 0xc4000000, 0xc4ffffff); (0x06, 0xc5000000, 0xc5ffffff);
            (0xfd, 0xd0000000, 0xdfffffff); (0xfe, 0xe0000000, 0xefffffff); (0xff, 0xf0000000, 0xffffffff)]).
  intros type start stop I. rewrite !elem_of_cons, elem_of_nil in I.
  assert (B : 0x40000000 <= start /\ start < stop).
  { repeat (destruct I as [I|I]; [injection I as -> -> ->; lia|]). contradiction. }
  split; [lia|]. intros s Is. destruct (Hs s Is). unfold starts_in, m_segSize in *.
  rewrite (proj2 (Z.leb_gt start _)) by lia. reflexivity.
Qed.

Lemma deviceLoad_sends_image_witness :
  exists w', @deviceLoad world (answering_client 4) 1 sample_device (World [] [])
             = Returns (VSCP_ERROR_SUCCESS, w') /\ w_pending w' = [] /\
    w_sent w' = [] ++
      concat (map (fun i => block_requests 2 2 (image_bytes (m_memSegs sample_device) 8 (2 * (2 * 2)))
                              (i * (2 * 2)) (Z.of_nat i) 0) (seq 0 2)).
Proof.
  apply (@deviceLoad_sends_image world (answering_client 4) 1 sample_device (answering_node 4) 2 2 8 14 (World [] [])).
  - lia.
  - reflexivity.
  - reflexivity.
  - lia.
  - lia.
  - cbn. lia.
  - reflexivity.
  - repeat constructor; try by_decide; cbn; lia.
  - intros s I. cbn in I. rewrite !elem_of_cons, elem_of_nil in I. destruct I as [->|[->|[]]]; split; vm_compute; discriminate.
  - exists (MemSegment 8 [1; 2; 3]). split; [left|reflexivity].
  - exists (MemSegment 12 [4; 5]). split; [right; left|reflexivity].
  - lia.
  - lia.
  - reflexivity.
  - reflexivity.
Defined.

(** Firmware with data in the EEPROM, configuration, RAM, user id, boot
    loader or fuse memory alone cannot be loaded: whatever the client does,
    deviceLoad copies a segment outside its buffer, because the address of the
    copy is calculated from the start of the memory and from the number of the
    first block counted from address 0. *)
Theorem deviceLoad_other_memory_undefined {W} `{VscpClient W} fuel d type start stop lo hi w :
  (type, start, stop) ∈ m_memory_range -> 1 <= type <= 6 ->
  0 < m_blockSize d <= 0x1000000 ->
  (forall s, s ∈ m_memSegs d -> lo <= m_startAddress s /\ m_startAddress s + m_segSize s <= hi) ->
  (exists s, s ∈ m_memSegs d /\ m_startAddress s = lo) ->
  (exists s, s ∈ m_memSegs d /\ m_startAddress s + m_segSize s = hi) ->
  start <= lo < hi -> hi < stop ->
  deviceLoad fuel d w = Undefined.
Proof.
  intros Hin Ht Hb Hs Hlo Hhi Hl Hh.
  assert (B : 0x40000000 <= start /\ start < stop /\ stop <= 0xc5ffffff /\
              forall t a b, (t, a, b) ∈ m_memory_range -> (t, a, b) <> (type, start, stop) ->
                a < b /\ (b < start \/ stop < a)).
  { unfold m_memory_range in *. rewrite !elem_of_cons, elem_of_nil in Hin.
    repeat (destruct Hin as [Hin|Hin];
      [injection Hin as -> -> ->; try lia; split_and!; try lia; intros t a b I Hne;
       rewrite !elem_of_cons, elem_of_nil in I;
       repeat (destruct I as [I|I]; [injection I as -> -> ->; first [congruence | lia]|]); contradiction|]).
    contradiction. }
  destruct B as (B1 & B2 & B3 & B4).
  apply (load_ranges_undefined fuel d m_memory_range (type, start, stop)).
  - exact Hin.
  - apply (load_range_undefined fuel d type start stop lo hi); try assumption; lia.
  - intros t a b I Hne. destruct (B4 t a b I Hne) as [A1 A2]. split; [exact A1|].
    intros s Is. destruct (Hs s Is). unfold starts_in, m_segSize in *.
    destruct A2.
    + rewrite (proj2 (Z.leb_gt _ b)) by lia. apply andb_false_r.
    + rewrite (proj2 (Z.leb_gt a _)) by lia. reflexivity.
Qed.

Lemma deviceLoad_other_memory_undefined_witness : deviceLoad 1 eeprom_device false = Undefined.
Proof.
  apply (deviceLoad_other_memory_undefined 1 eeprom_device 0x01 0xc3000000 0xc3ffffff 0xc3000000 0xc3000003 false).
  - unfold m_memory_range. right. left.
  - lia.
  - cbn. lia.
  - intros s I. cbn in I. rewrite elem_of_cons, elem_of_nil in I. destruct I as [->|[]]. split; vm_compute; discriminate.
  - exists (MemSegment 0xc3000000 [1; 2; 3]). split; [left|reflexivity].
  - exists (MemSegment 0xc3000000 [1; 2; 3]). split; [left|reflexivity].
  - lia.
  - lia.
Defined.
