(* ===== verification/BootPic1.v ===== *)
(** * The PIC1 boot loader: src/src/vscp/common/vscp-bootdevice-pic1.cpp

    Class CBootDevice_PIC1 loads firmware into nodes with the Microchip boot
    loader over CAN messages: an address, then the bytes in messages of eight,
    each answered; at the end a checksum with which the node starts.  The
    functions are state passing over the world behind the client and the object.
    The calls of the status callback, all guarded, are left out, like logging. *)

From S2P Require Import Prelude Program DateTime Event Strings Guid Canal Client RegIo RegPage BootDevice BootVscp.

Definition VSCP_BOOTLOADER_PIC1 : Z := 0x01.
Definition VSCP_ERROR_NOT_SUPPORTED : Z := 17.
Definition VSCP_ERROR_COMMUNICATION : Z := 37.
Definition REGISTER_DEFAULT_TIMEOUT : Z := 2000.

Definition VSCP_PIC1_ENTER_BOOTLODER_MODE : Z := 0x0C.

Definition MEM_CODE_START : Z := 0x000000.
Definition MEM_CODE_END : Z := 0x1fffff.
Definition MEM_USERID_START : Z := 0x200000.
Definition MEM_USERID_END : Z := 0x2fffff.
Definition MEM_CONFIG_START : Z := 0x300000.
Definition MEM_CONFIG_END : Z := 0x3fffff.
Definition MEM_EEPROM_START : Z := 0xf00000.
Definition MEM_EEPROM_END : Z := 0xffffff.

Definition MODE_WRT_UNLCK : Z := 0x01.
Definition MODE_AUTO_ERASE : Z := 0x04.
Definition MODE_AUTO_INC : Z := 0x08.
Definition MODE_ACK : Z := 0x10.
Definition CMD_NOP : Z := 0x00.
Definition CMD_RESET : Z := 0x01.
Definition CMD_RST_CHKSM : Z := 0x02.
Definition CMD_CHK_RUN : Z := 0x03.

Definition ID_PUT_BASE_INFO : Z := 0x00001000.
Definition ID_PUT_DATA : Z := 0x00001100.
Definition ID_RESPONSE_PUT_BASE_INFO : Z := 0x00001400.
Definition ID_RESPONSE_PUT_DATA : Z := 0x00001500.

Definition default_flags : Z := Z.lor (Z.lor (Z.lor MODE_WRT_UNLCK MODE_AUTO_ERASE) MODE_AUTO_INC) MODE_ACK.

(** ** The device *)

Record CBootDevice_PIC1 := PIC1 {
  m_nodeid : Z;
  m_ourguid : list Z;
  m_guid : list Z;
  m_guidif : list Z;
  m_firmwaredeviceCode : Z;
  pic_segs : list CBootMemSegment;
  m_bHandshake : bool;
  m_checksum : Z;
  m_pAddr : Z;
  m_startAddr : Z;
  m_stdRegs : CStandardRegisters
}.

Definition set_handshake (b : bool) (d : CBootDevice_PIC1) : CBootDevice_PIC1 :=
  PIC1 (m_nodeid d) (m_ourguid d) (m_guid d) (m_guidif d) (m_firmwaredeviceCode d) (pic_segs d) b (m_checksum d) (m_pAddr d) (m_startAddr d) (m_stdRegs d).
Definition set_checksum (c : Z) (d : CBootDevice_PIC1) : CBootDevice_PIC1 :=
  PIC1 (m_nodeid d) (m_ourguid d) (m_guid d) (m_guidif d) (m_firmwaredeviceCode d) (pic_segs d) (m_bHandshake d) c (m_pAddr d) (m_startAddr d) (m_stdRegs d).
Definition set_pAddr (a : Z) (d : CBootDevice_PIC1) : CBootDevice_PIC1 :=
  PIC1 (m_nodeid d) (m_ourguid d) (m_guid d) (m_guidif d) (m_firmwaredeviceCode d) (pic_segs d) (m_bHandshake d) (m_checksum d) a (m_startAddr d) (m_stdRegs d).
Definition set_startAddr (a : Z) (d : CBootDevice_PIC1) : CBootDevice_PIC1 :=
  PIC1 (m_nodeid d) (m_ourguid d) (m_guid d) (m_guidif d) (m_firmwaredeviceCode d) (pic_segs d) (m_bHandshake d) (m_checksum d) (m_pAddr d) a (m_stdRegs d).
Definition set_stdRegs (r : CStandardRegisters) (d : CBootDevice_PIC1) : CBootDevice_PIC1 :=
  PIC1 (m_nodeid d) (m_ourguid d) (m_guid d) (m_guidif d) (m_firmwaredeviceCode d) (pic_segs d) (m_bHandshake d) (m_checksum d) (m_pAddr d) (m_startAddr d) r.
Definition set_ourguid (g : list Z) (d : CBootDevice_PIC1) : CBootDevice_PIC1 :=
  PIC1 (m_nodeid d) g (m_guid d) (m_guidif d) (m_firmwaredeviceCode d) (pic_segs d) (m_bHandshake d) (m_checksum d) (m_pAddr d) (m_startAddr d) (m_stdRegs d).

(** init, called by the constructors. *)
Definition init (d : CBootDevice_PIC1) : CBootDevice_PIC1 := set_startAddr 0x800 (set_handshake true d).

(** A message with eight bytes of data. *)
Definition message (id : Z) (data : list Z) (msg : canalMsg) : canalMsg :=
  CanalMsg CANAL_IDFLAG_EXTENDED (canal_obid msg) (u32 id) 8 data (canal_timestamp msg).

Section device.
Context {W : Type} `{VscpClient W} `{CanalClient W}.
Variable fuel : nat.
Abbreviation io := (M (W * CBootDevice_PIC1)).

Definition device : io CBootDevice_PIC1 := fun s => Returns (s.2, s).
Definition update (f : CBootDevice_PIC1 -> CBootDevice_PIC1) : io unit := fun s => Returns (tt, (s.1, f s.2)).

(** A call of the client, a function on the world, and a method of the standard
    registers. *)
Definition client {A} (f : W -> A * W) : io A := fun s => let '(a, w) := f s.1 in Returns (a, (w, s.2)).
Definition on_world {A} (m : M W A) : io A := fun s =>
  match m s.1 with
  | Returns (a, w) => Returns (a, (w, s.2))
  | Throws => Throws
  | Undefined => Undefined
  | OutOfFuel => OutOfFuel
  end.
Definition std {A} (m : M CStandardRegisters A) : io A :=
  d ← device; '(a, r) ← method m (m_stdRegs d); _ ← update (set_stdRegs r); mret a.

(** ** Waiting *)

(** Whether a message says that the node is in boot mode. *)
Definition in_boot_mode (nodeid : Z) (msg : canalMsg) : bool :=
  (Z.land (id msg) 0xffffff =? u32 (ID_RESPONSE_PUT_BASE_INFO + nodeid)) ||
  (Z.land (id msg) 0xffffff =? u32 (ID_RESPONSE_PUT_DATA + nodeid)).

(** The two loops of deviceInit, of which one looks at what receive returns.
    After the timeout the body is still executed.  [None]: no answer. *)
Fixpoint boot_loop (n : nat) (strict : bool) (timeout tstart : Z) (rcvmsg : canalMsg) : io (option Z * canalMsg) :=
  match n with
  | O => out_of_fuel
  | S n =>
      tnow ← client time;
      let next msg := if timeout <? u64 (tnow - tstart) then mret (None, msg) else boot_loop n strict timeout tstart msg in
      '(rv, cnt) ← client getcount;
      if (rv =? VSCP_ERROR_SUCCESS) && negb (cnt =? 0) then
        '(rv, rcvmsg) ← client (receive_msg rcvmsg);
        d ← device;
        if strict && negb (rv =? VSCP_ERROR_SUCCESS) then mret (Some rv, rcvmsg)
        else if in_boot_mode (m_nodeid d) rcvmsg then mret (Some VSCP_ERROR_SUCCESS, rcvmsg)
        else next rcvmsg
      else next rcvmsg
  end.

Fixpoint response1_loop (n : nat) (response_id tstart : Z) (msg : canalMsg) : io Z :=
  match n with
  | O => out_of_fuel
  | S n =>
      '(rv, msg) ← client (receive_msg msg);
      d ← device;
      if (rv =? VSCP_ERROR_SUCCESS) && (Z.land (id msg) 0xffffff00 =? response_id) && (Z.land (id msg) 0xff =? m_nodeid d)
      then mret VSCP_ERROR_SUCCESS
      else
        tnow ← client time;
        if BOOT_COMMAND_DEFAULT_RESPONSE_TIMEOUT <? u64 (tnow - tstart) then mret VSCP_ERROR_TIMEOUT
        else response1_loop n response_id tstart msg
  end.

Definition checkResponseLevel1 (response_id : Z) : io Z :=
  msg ← client (fun w => (fresh_msg w, w));
  tstart ← client time;
  response1_loop fuel response_id tstart msg.

(** The test of what receive returns is inverted. *)
Fixpoint response2_loop (n : nat) (tstart : Z) (ex : vscpEventEx) : io Z :=
  match n with
  | O => out_of_fuel
  | S n =>
      '(rv, ex) ← client (receive ex);
      if rv =? VSCP_ERROR_SUCCESS then mret rv
      else
        d ← device;
        if (VSCP_CLASS1_PROTOCOL =? xclass ex) && (nth 15 (m_guid d) 0 =? nth 15 (xGUID ex) 0) then mret VSCP_ERROR_SUCCESS
        else
          tnow ← client time;
          if BOOT_COMMAND_DEFAULT_RESPONSE_TIMEOUT <? s64 (tnow - tstart) then mret VSCP_ERROR_TIMEOUT
          else response2_loop n tstart ex
  end.

Definition checkResponseLevel2 : io Z :=
  ex ← client (fun w => (fresh w, w));
  tstart ← client time;
  response2_loop fuel tstart ex.

(** ** Commands *)

Definition writeDeviceControlRegs (addr flags cmd cmdData0 cmdData1 : Z) : io Z :=
  msg ← client (fun w => (fresh_msg w, w));
  _ ← update (set_pAddr addr);
  d ← device;
  let msg := message (ID_PUT_BASE_INFO + m_nodeid d)
    [Z.land addr 0xff; Z.land (Z.shiftr addr 8) 0xff; Z.land (Z.shiftr addr 16) 0xff; Z.land (Z.shiftr addr 24) 0xff;
     flags; cmd; cmdData0; cmdData1] msg in
  let handshake := negb (Z.land flags MODE_ACK =? 0) in
  _ ← update (set_handshake handshake);
  rv ← client (send_msg msg);
  if negb (rv =? VSCP_ERROR_SUCCESS) then mret rv
  else if handshake then checkResponseLevel1 ID_RESPONSE_PUT_BASE_INFO
  else mret VSCP_ERROR_SUCCESS.

(** The checksum, a uint16_t, of the eight bytes. *)
Definition add_bytes (bytes : list Z) (c : Z) : Z := foldl (fun c b => u16 (c + b)) c bytes.

(** The bytes at [off] of the buffer. *)
Definition writeFirmwareSector (buf : list Z) (off : Z) : io Z :=
  msg ← client (fun w => (fresh_msg w, w));
  ex ← client (fun w => (fresh w, w));
  bytes ← defined (rdn buf (Z.to_nat off) 8);
  _ ← update (fun d => set_checksum (add_bytes bytes (m_checksum d)) d);
  d ← device;
  if isCanal then
    rv ← client (send_msg (message ID_PUT_DATA bytes msg));
    if negb (rv =? VSCP_ERROR_SUCCESS) then mret rv
    else if m_bHandshake d then checkResponseLevel1 ID_RESPONSE_PUT_DATA
    else mret VSCP_ERROR_SUCCESS
  else
    let ex := EventEx 0 (xobid ex) (xtime ex) (xcrc ex) 512 (Z.shiftr ID_PUT_DATA 8) (replicate 16 0) 24
                (take 16 (m_guidif d) ++ bytes ++ drop 24 (xdata ex)) in
    rv ← client (send ex);
    if negb (rv =? VSCP_ERROR_SUCCESS) then mret rv
    else if m_bHandshake d then checkResponseLevel2
    else mret VSCP_ERROR_SUCCESS.

(** The loop over the messages: it ends at the first that fails. *)
Fixpoint write_sectors (n : nat) (buf : list Z) (off : Z) : io unit :=
  match n with
  | O => mret tt
  | S n =>
      rv ← writeFirmwareSector buf off;
      if negb (rv =? VSCP_ERROR_SUCCESS) then mret tt else write_sectors n buf (off + 8)
  end.

(** Success is returned even when the loop has ended early. *)
Definition writeFirmwareBlock (start stop : Z) : io Z :=
  d ← device;
  let size := u32 (stop - start + 1) in
  if size =? 0 then mret VSCP_ERROR_SUCCESS
  else
    match getMinMaxForRange (pic_segs d) start stop (Some 0) (Some 0) with
    | (rv, Some minAddr, Some maxAddr) =>
        if negb (rv =? VSCP_ERROR_SUCCESS) then mret rv
        else if (minAddr =? 0) && (maxAddr =? 0) then mret VSCP_ERROR_SUCCESS
        else if maxAddr <=? minAddr then mret VSCP_ERROR_SUCCESS
        else
          let nPackets := (maxAddr - minAddr) / 8 + (if (maxAddr - minAddr) mod 8 =? 0 then 0 else 1) in
          filled ← defined (fillMemoryBuffer (pic_segs d) (Some (replicate (Z.to_nat size) 0)) size start stop 0 0xff);
          match filled with
          | (rv, Some pbuf) =>
              if negb (rv =? VSCP_ERROR_SUCCESS) then mret rv
              else
                rv ← writeDeviceControlRegs minAddr default_flags CMD_NOP 0 0;
                if negb (rv =? VSCP_ERROR_SUCCESS) then mret rv
                else
                  _ ← write_sectors (Z.to_nat nPackets) pbuf (u32 (minAddr - start));
                  mret VSCP_ERROR_SUCCESS
          | (_, None) => undefined
          end
    | _ => undefined
    end.

(** ** Loading *)

(** The memories one after the other, up to the first that fails. *)
Fixpoint load_memories (ranges : list (Z * Z)) : io Z :=
  match ranges with
  | [] => mret VSCP_ERROR_SUCCESS
  | (start, stop) :: ranges =>
      rv ← writeFirmwareBlock start stop;
      if negb (rv =? VSCP_ERROR_SUCCESS) then mret rv else load_memories ranges
  end.

Definition memories : list (Z * Z) :=
  [(MEM_CODE_START, MEM_CODE_END); (MEM_USERID_START, MEM_USERID_END);
   (MEM_CONFIG_START, MEM_CONFIG_END); (MEM_EEPROM_START, MEM_EEPROM_END)].

Definition deviceLoad : io Z :=
  _ ← update (set_checksum 0);
  rv ← writeDeviceControlRegs 0 default_flags CMD_RST_CHKSM 0 0;
  if negb (rv =? VSCP_ERROR_SUCCESS) then mret VSCP_ERROR_COMMUNICATION
  else load_memories memories.

(** The checksum that makes the sum zero. *)
Definition calc_chksum (c : Z) : Z := u16 (0x10000 - Z.land c 0xffff).

Definition deviceRestart : io Z :=
  d ← device;
  match getMinMaxForRange (pic_segs d) MEM_CODE_START MEM_CODE_END (Some 0) (Some 0) with
  | (_, Some min, _) =>
      _ ← update (set_startAddr min);
      let c := calc_chksum (m_checksum d) in
      writeDeviceControlRegs min (Z.lor (Z.lor MODE_WRT_UNLCK MODE_AUTO_ERASE) MODE_ACK) CMD_CHK_RUN
        (Z.land c 0xff) (Z.land (Z.shiftr c 8) 0xff)
  | _ => undefined
  end.

Definition deviceReboot : io Z := writeDeviceControlRegs 0 0 CMD_RESET 0 0.

(** ** Entering the boot mode *)

(** A node that is in boot mode answers at once.  Otherwise its standard registers
    are read, and with four bytes of its GUID it is put in boot mode. *)
Definition deviceInit (ourguid : list Z) (bAbortOnFirmwareCodeFail : bool) : io Z :=
  _ ← update (set_ourguid ourguid);
  _ ← update (set_checksum 0);
  msg ← client (fun w => (fresh_msg w, w));
  rcvmsg ← client (fun w => (fresh_msg w, w));
  let msg := message ID_PUT_BASE_INFO (replicate 8 0) msg in
  rv ← client (send_msg msg);
  if negb (rv =? VSCP_ERROR_SUCCESS) then mret rv
  else
    tstart ← client time;
    '(r, rcvmsg) ← boot_loop fuel true 2 tstart rcvmsg;
    match r with
    | Some rv => mret rv
    | None =>
        d ← device;
        '(rv, regs) ← on_world (CStandardRegisters_init fuel (m_guid d) (m_guidif d) None REGISTER_DEFAULT_TIMEOUT (m_stdRegs d));
        _ ← update (set_stdRegs regs);
        if negb (rv =? VSCP_ERROR_SUCCESS) then mret VSCP_ERROR_COMMUNICATION
        else
          alg ← std getBootloaderAlgorithm;
          if negb (VSCP_BOOTLOADER_PIC1 =? alg) then mret VSCP_ERROR_NOT_SUPPORTED
          else
            code ← std getFirmwareDeviceCode;
            if negb (m_firmwaredeviceCode d =? code) && bAbortOnFirmwareCodeFail then mret VSCP_ERROR_PARAMETER
            else
              guid ← std (CStandardRegisters_getGUID (replicate 16 0));
              page ← std CStandardRegisters_getRegisterPage;
              let msg := message (Z.shiftl VSCP_PIC1_ENTER_BOOTLODER_MODE 8)
                [u8 (m_nodeid d); VSCP_BOOTLOADER_PIC1; getAt 0 guid; getAt 3 guid; getAt 5 guid; getAt 7 guid;
                 Z.shiftr page 8; Z.land page 0xff] msg in
              rv ← client (send_msg msg);
              if negb (rv =? VSCP_ERROR_SUCCESS) then mret rv
              else
                tstart ← client time;
                '(r, _) ← boot_loop fuel false BOOT_COMMAND_DEFAULT_RESPONSE_TIMEOUT tstart rcvmsg;
                mret (default VSCP_ERROR_TIMEOUT r)
    end.
End device.

(** ** Lemmas: everything ends *)

(** Receiving a message does not make the bound of the clock larger.  In a wait
    that began at [t] ([after t w]) the clock does not go back behind [t]: one of
    the waits compares the difference as a signed number. *)
Class CanalClock (W : Type) `{C : ClockLaws W bound} `{CanalClient W} := {
  polls_receive_msg : forall t msg w, (polls t (receive_msg msg w).2 <= polls t w)%nat;
  after : Z -> W -> Prop;
  after_start : forall w t w', time w = (t, w') -> after t w';
  after_receive : forall t ex w, after t w -> after t (receive ex w).2;
  after_time : forall t w tnow w', after t w -> time w = (tnow, w') -> 0 <= s64 (tnow - t) /\ (waiting t tnow -> after t w')
}.

Section ends.
Context {W : Type} `{V : VscpClient W} `{CC : CanalClient W} (fuel : nat).
Context `{L : !ClockLaws W fuel} `{LC : !CanalClock W} `{LM : !MsClockLaws W REGISTER_DEFAULT_TIMEOUT fuel}.

Lemma ends_client {A} (f : W -> A * W) : ends (client f).
Proof. intros s. unfold client. destruct (f s.1). discriminate. Qed.
Lemma ends_device : ends (W := W * CBootDevice_PIC1) device. Proof. intros s. discriminate. Qed.
Lemma ends_update f : ends (W := W * CBootDevice_PIC1) (update f). Proof. intros s. discriminate. Qed.
Lemma ends_on_world {A} (m : M W A) : ends m -> ends (on_world m).
Proof. intros E s. specialize (E s.1). unfold on_world. destruct (m s.1) as [[? ?]| | |]; congruence. Qed.
#[local] Hint Resolve ends_client ends_device ends_update : ends.

Lemma client_bind {A B} (f : W -> A * W) (k : A -> M (W * CBootDevice_PIC1) B) s :
  (client f ≫= k) s = k (f s.1).1 ((f s.1).2, s.2).
Proof. unfold client, mbind, M_bind. destruct (f s.1). reflexivity. Qed.

(** A reading of the clock by which the wait is not over. *)
Lemma clock_step t (s : W * CBootDevice_PIC1) : waiting t (time s.1).1 -> (polls t (time s.1).2 < polls t s.1)%nat.
Proof. destruct (time s.1) as [tnow w'] eqn:E. exact (polls_time t s.1 tnow w' E). Qed.

Lemma late_or_waiting timeout t tnow : timeout <= BOOT_COMMAND_DEFAULT_RESPONSE_TIMEOUT ->
  (timeout <? u64 (tnow - t)) = false -> waiting t tnow.
Proof. intros Ht L1%Z.ltb_ge. unfold waiting. lia. Qed.

Lemma ends_boot_loop strict timeout t : timeout <= BOOT_COMMAND_DEFAULT_RESPONSE_TIMEOUT ->
  forall n msg s, (polls t s.1 < n)%nat -> boot_loop n strict timeout t msg s <> OutOfFuel.
Proof.
  intros Ht. induction n as [|n IH]; intros msg s Hn; [lia|]. cbn [boot_loop]. rewrite client_bind.
  pose proof (clock_step t s) as Ck. destruct (time s.1) as [tnow w1]. cbn [fst snd] in *.
  assert (Next : forall msg w, (polls t w <= polls t w1)%nat ->
    (if timeout <? u64 (tnow - t) then mret (None, msg) else boot_loop n strict timeout t msg) (w, s.2) <> OutOfFuel).
  { intros m w Hw. destruct (timeout <? u64 (tnow - t)) eqn:E; [discriminate|]. apply IH. cbn [fst].
    specialize (Ck (late_or_waiting timeout t tnow Ht E)). lia. }
  rewrite client_bind. pose proof (polls_getcount t w1) as G. cbn [fst snd] in *. destruct (getcount w1) as [[rv cnt] w2].
  cbn [fst snd] in *. destruct (_ && _); [|apply Next, G].
  rewrite client_bind. cbn [fst snd] in *. pose proof (polls_receive_msg t msg w2) as R. destruct (receive_msg msg w2) as [[rv' m'] w3].
  cbn [fst snd] in *. unfold device. rewrite (bind_returns _ _ _ s.2 (w3, s.2)) by reflexivity.
  destruct (_ && _); [discriminate|]. destruct (in_boot_mode _ _); [discriminate|]. apply Next. lia.
Qed.

Lemma ends_response1 id t : forall n msg s, (polls t s.1 < n)%nat -> response1_loop n id t msg s <> OutOfFuel.
Proof.
  induction n as [|n IH]; intros msg s Hn; [lia|]. cbn [response1_loop]. rewrite client_bind.
  pose proof (polls_receive_msg t msg s.1) as R. destruct (receive_msg msg s.1) as [[rv m'] w1]. cbn [fst snd] in *.
  unfold device. rewrite (bind_returns _ _ _ s.2 (w1, s.2)) by reflexivity. destruct (_ && _); [discriminate|].
  rewrite client_bind. cbn [fst snd]. pose proof (clock_step t (w1, s.2)) as Ck. cbn [fst snd] in Ck. destruct (time w1) as [tnow w2]. cbn [fst snd] in *.
  destruct (_ <? _) eqn:E; [discriminate|]. apply IH. cbn [fst].
  specialize (Ck (late_or_waiting _ t tnow ltac:(reflexivity) E)). lia.
Qed.

Lemma ends_response2 t : forall n ex s, after t s.1 -> (polls t s.1 < n)%nat ->
  response2_loop n t ex s <> OutOfFuel.
Proof.
  induction n as [|n IH]; intros ex s Ha Hn; [lia|]. cbn [response2_loop]. rewrite client_bind.
  pose proof (polls_receive t ex s.1) as R. pose proof (after_receive t ex s.1 Ha) as A1.
  destruct (receive ex s.1) as [[rv e'] w1]. cbn [fst snd] in *. destruct (rv =? _); [discriminate|].
  unfold device. rewrite (bind_returns _ _ _ s.2 (w1, s.2)) by reflexivity. destruct (_ && _); [discriminate|].
  rewrite client_bind. cbn [fst snd]. pose proof (clock_step t (w1, s.2)) as Ck. cbn [fst snd] in Ck.
  destruct (time w1) as [tnow w2] eqn:T. cbn [fst snd] in *.
  destruct (after_time t w1 tnow w2 A1 T) as [Nn Wa]. destruct (_ <? _) eqn:E; [discriminate|]. apply Z.ltb_ge in E.
  assert (Wt : waiting t tnow) by (unfold waiting, BOOT_COMMAND_DEFAULT_RESPONSE_TIMEOUT in *; width).
  apply IH; cbn [fst]; [apply Wa, Wt|]. specialize (Ck Wt). lia.
Qed.

Lemma ends_check1 id : ends (checkResponseLevel1 fuel id).
Proof.
  unfold checkResponseLevel1. apply ends_bind; [auto with ends|intros msg s]. rewrite client_bind.
  destruct (time s.1) as [t w] eqn:T. apply ends_response1. exact (polls_start s.1 t w T).
Qed.

Lemma ends_check2 : ends (checkResponseLevel2 fuel).
Proof.
  unfold checkResponseLevel2. apply ends_bind; [auto with ends|intros ex s]. rewrite client_bind.
  destruct (time s.1) as [t w] eqn:T. apply ends_response2; [exact (after_start s.1 t w T)|exact (polls_start s.1 t w T)].
Qed.
#[local] Hint Resolve ends_check1 ends_check2 : ends.

Lemma ends_control addr flags cmd a b : ends (writeDeviceControlRegs fuel addr flags cmd a b).
Proof. unfold writeDeviceControlRegs. cbv zeta. ends_tac. Qed.

Lemma ends_sector buf off : ends (writeFirmwareSector fuel buf off).
Proof. unfold writeFirmwareSector. cbv zeta. ends_tac. Qed.
#[local] Hint Resolve ends_control ends_sector : ends.

Lemma ends_sectors n buf off : ends (write_sectors fuel n buf off).
Proof. revert off. induction n as [|n IH]; intros off; cbn [write_sectors]; ends_tac. Qed.
#[local] Hint Resolve ends_sectors : ends.

Lemma ends_firmware_block start stop : ends (writeFirmwareBlock fuel start stop).
Proof. unfold writeFirmwareBlock. cbv zeta. ends_tac. Qed.
#[local] Hint Resolve ends_firmware_block : ends.

Lemma ends_memories rs : ends (load_memories fuel rs).
Proof. induction rs as [|[start stop] rs IH]; cbn [load_memories]; ends_tac. Qed.
#[local] Hint Resolve ends_memories : ends.

Lemma ends_pic1_load : ends (deviceLoad fuel).
Proof. unfold deviceLoad. ends_tac. Qed.

Lemma ends_restart : ends (deviceRestart fuel).
Proof. unfold deviceRestart. cbv zeta. ends_tac. Qed.

Lemma ends_std {A} (m : M CStandardRegisters A) : (forall r, exists a r', m r = Returns (a, r')) -> ends (std (W := W) m).
Proof.
  intros Hm. unfold std. apply ends_bind; [auto with ends|intros d]. apply ends_bind; [|intros [a r]; ends_tac].
  intros s. unfold method. destruct (Hm (m_stdRegs d)) as (a & r' & ->). discriminate.
Qed.

Lemma ends_getReg k : ends (std (W := W) (CStandardRegisters_getReg k)).
Proof. apply ends_std. intros r. do 2 eexists. reflexivity. Qed.
Lemma ends_getGUID : ends (std (W := W) (CStandardRegisters_getGUID (replicate 16 0))).
Proof. apply ends_std. intros r. destruct (getGUID_spec (replicate 16 0) r eq_refl) as [r' ->]. eauto. Qed.
Lemma ends_code : ends (std (W := W) getFirmwareDeviceCode).
Proof.
  apply ends_std. intros r. unfold getFirmwareDeviceCode. destruct (std_read_spec 2 0xA3 r) as (r' & E & _).
  rewrite (bind_returns _ _ _ _ _ E). do 2 eexists. reflexivity.
Qed.
Lemma ends_page : ends (std (W := W) CStandardRegisters_getRegisterPage).
Proof.
  apply ends_std. intros r. unfold CStandardRegisters_getRegisterPage. destruct (std_read_spec 2 0x92 r) as (r' & E & _).
  rewrite (bind_returns _ _ _ _ _ E). do 2 eexists. reflexivity.
Qed.

Lemma ends_std_init guidNode guidInterface r :
  ends (CStandardRegisters_init fuel guidNode guidInterface None REGISTER_DEFAULT_TIMEOUT r).
Proof.
  unfold CStandardRegisters_init. apply ends_bind; [|intros [rv rs]; auto with ends].
  intros w. apply (ends_read_block REGISTER_DEFAULT_TIMEOUT fuel); discriminate.
Qed.

Lemma ends_wait_boot strict timeout msg {B} (k : option Z * canalMsg -> M (W * CBootDevice_PIC1) B) :
  timeout <= BOOT_COMMAND_DEFAULT_RESPONSE_TIMEOUT -> (forall r, ends (k r)) ->
  ends (tstart ← client time; r ← boot_loop fuel strict timeout tstart msg; k r).
Proof.
  intros Ht Hk s. rewrite client_bind. destruct (time s.1) as [t w] eqn:T. cbn [fst snd].
  pose proof (ends_boot_loop strict timeout t Ht fuel msg (w, s.2) (polls_start s.1 t w T)) as E.
  unfold mbind, M_bind. destruct (boot_loop _ _ _ _ _ _) as [[r s']| | |]; [apply Hk|congruence..].
Qed.

Lemma ends_init g b : ends (deviceInit fuel g b).
Proof.
  unfold deviceInit. cbv zeta. do 4 (apply ends_bind; [auto with ends|intros ?]).
  apply ends_bind; [auto with ends|intros rv]. destruct (negb _); [auto with ends|].
  apply ends_wait_boot; [discriminate|]. intros [[rv1|] rcv]; [auto with ends|].
  apply ends_bind; [auto with ends|intros d]. apply ends_bind; [apply ends_on_world, ends_std_init|intros [rv2 regs]].
  apply ends_bind; [auto with ends|intros _]. destruct (negb _); [auto with ends|].
  apply ends_bind; [apply ends_getReg|intros alg]. destruct (negb _); [auto with ends|].
  apply ends_bind; [apply ends_code|intros code]. destruct (_ && _); [auto with ends|].
  apply ends_bind; [apply ends_getGUID|intros guid]. apply ends_bind; [apply ends_page|intros page].
  apply ends_bind; [auto with ends|intros rv3]. destruct (negb _); [auto with ends|].
  apply ends_wait_boot; [reflexivity|]. intros [r ?]. auto with ends.
Qed.
End ends.

(** ** What the boot loader needs of the node

    [sent_msgs] is what was sent, as identifier and data, [pending_msgs] what waits
    to be received.  A node in boot mode answers each message that asks for it
    with one message, and nobody else sends. *)

Definition asks_ack (nodeid : Z) (r : Z * list Z) : Prop :=
  r.1 = ID_PUT_DATA \/ (r.1 = ID_PUT_BASE_INFO + nodeid /\ Z.land (nth 4 r.2 0) MODE_ACK <> 0).
Definition answer (nodeid id : Z) : Z :=
  (if id =? ID_PUT_DATA then ID_RESPONSE_PUT_DATA else ID_RESPONSE_PUT_BASE_INFO) + nodeid.

Class PicNode (W : Type) `{VscpClient W} `{CanalClient W} (nodeid : Z) := {
  pic_canal : isCanal = true;
  sent_msgs : W -> list (Z * list Z);
  pending_msgs : W -> list canalMsg;
  pic_time : forall w, sent_msgs (time w).2 = sent_msgs w /\ pending_msgs (time w).2 = pending_msgs w;
  pic_receive : forall msg w e r, pending_msgs w = e :: r ->
    exists w', receive_msg msg w = (VSCP_ERROR_SUCCESS, e, w') /\ sent_msgs w' = sent_msgs w /\ pending_msgs w' = r;
  pic_send : forall msg w, pending_msgs w = [] -> asks_ack nodeid (id msg, canal_data msg) ->
    exists w' e, send_msg msg w = (VSCP_ERROR_SUCCESS, w') /\ sent_msgs w' = sent_msgs w ++ [(id msg, canal_data msg)] /\
      pending_msgs w' = [e] /\ id e = answer nodeid (id msg)
}.

(** ** Lemmas: what is sent *)

(** The identifiers of the answers of all nodes. *)
Definition answer_check (idr nodeid : Z) : bool :=
  (Z.land (idr + nodeid) 0xffffff00 =? idr) && (Z.land (idr + nodeid) 0xff =? nodeid).

Lemma answers_checked :
  all_below 256 (answer_check ID_RESPONSE_PUT_BASE_INFO) && all_below 256 (answer_check ID_RESPONSE_PUT_DATA) = true.
Proof. vm_compute. reflexivity. Qed.

Lemma answer_spec idr nodeid :
  idr = ID_RESPONSE_PUT_BASE_INFO \/ idr = ID_RESPONSE_PUT_DATA -> is_u8 nodeid ->
  Z.land (idr + nodeid) 0xffffff00 = idr /\ Z.land (idr + nodeid) 0xff = nodeid.
Proof.
  intros Hi Hn. pose proof answers_checked as C. apply andb_prop in C as [C1 C2].
  assert (Q : answer_check idr nodeid = true).
  { destruct Hi as [-> | ->]; [exact (all_below_spec 256 _ nodeid C1 Hn)|exact (all_below_spec 256 _ nodeid C2 Hn)]. }
  apply andb_prop in Q as [Q1%Z.eqb_eq Q2%Z.eqb_eq]. split; assumption.
Qed.

Section steps.
Context {W : Type} `{V : VscpClient W} `{CC : CanalClient W} (nodeid : Z) `{N : !PicNode W nodeid}.

(** A step of the loader: from a state in which nothing waits to be received it
    reaches another one, after [msgs], whose data is added to the checksum. *)
Definition data_sum (msgs : list (Z * list Z)) : Z :=
  foldr (fun m n => (if m.1 =? ID_PUT_DATA then foldr Z.add 0 m.2 else 0) + n) 0 msgs.

Definition ready (s : W * CBootDevice_PIC1) : Prop :=
  m_nodeid s.2 = nodeid /\ pending_msgs s.1 = [] /\ is_u16 (m_checksum s.2).

Definition reaches (s : W * CBootDevice_PIC1) (msgs : list (Z * list Z)) (s' : W * CBootDevice_PIC1) : Prop :=
  ready s' /\ pic_segs s'.2 = pic_segs s.2 /\ sent_msgs s'.1 = sent_msgs s.1 ++ msgs /\
  m_checksum s'.2 = u16 (m_checksum s.2 + data_sum msgs).

Lemma data_sum_app l k : data_sum (l ++ k) = data_sum l + data_sum k.
Proof. unfold data_sum. induction l as [|m l IH]; [reflexivity|]. cbn [app foldr]. rewrite IH. lia. Qed.

Lemma reaches_refl s : ready s -> reaches s [] s.
Proof. intros R. split_and!; [exact R|reflexivity|symmetry; apply app_nil_r|]. cbn [data_sum foldr]. rewrite Z.add_0_r. symmetry. apply u16_id, R. Qed.

Lemma reaches_trans s l s1 k s2 : reaches s l s1 -> reaches s1 k s2 -> reaches s (l ++ k) s2.
Proof.
  intros (_ & G1 & S1 & C1) (R & G2 & S2 & C2). split_and!; [exact R|congruence|rewrite S2, S1; symmetry; apply app_assoc|].
  rewrite C2, C1, data_sum_app. unfold u16. rewrite Z.add_mod_idemp_l by discriminate. f_equal. lia.
Qed.

Lemma add_bytes_sum bytes : forall c, is_u16 c -> add_bytes bytes c = u16 (c + foldr Z.add 0 bytes).
Proof.
  induction bytes as [|b bytes IH]; intros c Hc; cbn [add_bytes foldl foldr].
  - rewrite Z.add_0_r. symmetry. apply u16_id, Hc.
  - change (add_bytes bytes (u16 (c + b)) = u16 (c + (b + foldr Z.add 0 bytes))). rewrite IH by (unfold is_u16; width).
    unfold u16. rewrite Z.add_mod_idemp_l by discriminate. f_equal. lia.
Qed.

End steps.

Section answers.
Context {W : Type} `{V : VscpClient W} `{CC : CanalClient W} (nodeid : Z) `{N : !PicNode W nodeid}.
Context (Hnode : is_u8 nodeid) (fuel : nat) (Hf : (0 < fuel)%nat).

Lemma check1_ok idr (s : W * CBootDevice_PIC1) e :
  m_nodeid s.2 = nodeid -> pending_msgs s.1 = [e] -> id e = idr + nodeid ->
  idr = ID_RESPONSE_PUT_BASE_INFO \/ idr = ID_RESPONSE_PUT_DATA ->
  exists w', checkResponseLevel1 fuel idr s = Returns (VSCP_ERROR_SUCCESS, (w', s.2)) /\
    sent_msgs w' = sent_msgs s.1 /\ pending_msgs w' = [].
Proof.
  intros Hn Hp He Hi. unfold checkResponseLevel1. rewrite !client_bind. cbn [fst snd].
  destruct (pic_time s.1) as [T1 T2]. destruct fuel as [|n]; [lia|]. cbn [response1_loop]. rewrite client_bind. cbn [fst snd].
  destruct (pic_receive (fresh_msg s.1) (time s.1).2 e [] (eq_trans T2 Hp)) as (w' & E & R1 & R2). rewrite E. cbn [fst snd].
  exists w'. unfold device. rewrite (bind_returns _ _ _ s.2 (w', s.2)) by reflexivity. cbn [snd]. rewrite He, Hn.
  destruct (answer_spec idr nodeid Hi Hnode) as [-> ->]. rewrite !Z.eqb_refl. split; [reflexivity|]. split; congruence.
Qed.

(** A command as the message that carries it. *)
Definition command (addr flags cmd a b : Z) : Z * list Z :=
  (ID_PUT_BASE_INFO + nodeid,
   [Z.land addr 0xff; Z.land (Z.shiftr addr 8) 0xff; Z.land (Z.shiftr addr 16) 0xff; Z.land (Z.shiftr addr 24) 0xff; flags; cmd; a; b]).

Lemma control_ok addr flags cmd a b (s : W * CBootDevice_PIC1) :
  m_nodeid s.2 = nodeid -> pending_msgs s.1 = [] -> Z.land flags MODE_ACK <> 0 ->
  exists w', writeDeviceControlRegs fuel addr flags cmd a b s =
      Returns (VSCP_ERROR_SUCCESS, (w', set_handshake true (set_pAddr addr s.2))) /\
    sent_msgs w' = sent_msgs s.1 ++ [command addr flags cmd a b] /\ pending_msgs w' = [].
Proof.
  intros Hn Hp Hk. unfold writeDeviceControlRegs. rewrite client_bind. cbn [fst snd]. unfold update, device.
  rewrite (bind_returns _ _ _ tt (s.1, set_pAddr addr s.2)) by reflexivity.
  rewrite (bind_returns _ _ _ (set_pAddr addr s.2) (s.1, set_pAddr addr s.2)) by reflexivity.
  rewrite (proj2 (Z.eqb_neq _ _) Hk). cbn [negb set_pAddr m_nodeid]. rewrite Hn.
  rewrite (bind_returns _ _ _ tt (s.1, set_handshake true (set_pAddr addr s.2))) by reflexivity.
  rewrite client_bind. cbn [fst snd]. set (msg := message _ _ _).
  assert (I : id msg = ID_PUT_BASE_INFO + nodeid).
  { unfold msg, message. cbn [id]. apply u32_id. unfold ID_PUT_BASE_INFO. width. }
  destruct (pic_send msg s.1 Hp) as (w1 & e & E & S1 & P1 & A1); [right; rewrite I; split; [reflexivity|exact Hk]|].
  rewrite E. cbn [fst snd negb Z.eqb VSCP_ERROR_SUCCESS].
  destruct (check1_ok ID_RESPONSE_PUT_BASE_INFO (w1, set_handshake true (set_pAddr addr s.2)) e) as (w' & E' & S' & P').
  - exact Hn.
  - exact P1.
  - rewrite A1, I. unfold answer, ID_PUT_BASE_INFO, ID_PUT_DATA. destruct (Z.eqb_spec (0x1000 + nodeid) 0x1100); [width|reflexivity].
  - left. reflexivity.
  - exists w'. split; [exact E'|]. split; [|exact P']. rewrite S'. cbn [fst]. rewrite S1, I. reflexivity.
Qed.

Lemma sector_ok buf off bytes (s : W * CBootDevice_PIC1) :
  m_nodeid s.2 = nodeid -> m_bHandshake s.2 = true -> pending_msgs s.1 = [] -> rdn buf (Z.to_nat off) 8 = Some bytes ->
  exists w', writeFirmwareSector fuel buf off s =
      Returns (VSCP_ERROR_SUCCESS, (w', set_checksum (add_bytes bytes (m_checksum s.2)) s.2)) /\
    sent_msgs w' = sent_msgs s.1 ++ [(ID_PUT_DATA, bytes)] /\ pending_msgs w' = [].
Proof.
  intros Hn Hh Hp Hb. unfold writeFirmwareSector. rewrite !client_bind. cbn [fst snd]. rewrite Hb. cbn [defined].
  rewrite bind_ret. unfold update, device. set (d := set_checksum _ s.2).
  rewrite (bind_returns _ _ _ tt (s.1, d)) by reflexivity. rewrite (bind_returns _ _ _ d (s.1, d)) by reflexivity.
  rewrite pic_canal, client_bind. cbn [fst snd]. set (msg := message _ _ _).
  destruct (pic_send msg s.1 Hp) as (w1 & e & E & S1 & P1 & A1); [left; reflexivity|].
  rewrite E. cbn [fst snd negb Z.eqb VSCP_ERROR_SUCCESS]. change (m_bHandshake d) with (m_bHandshake s.2). rewrite Hh.
  destruct (check1_ok ID_RESPONSE_PUT_DATA (w1, d) e) as (w' & E' & S' & P'); [exact Hn|exact P1|rewrite A1; reflexivity|right; reflexivity|].
  exists w'. split; [exact E'|]. split; [|exact P']. rewrite S'. cbn [fst]. exact S1.
Qed.

Lemma control_reaches addr flags cmd a b s :
  ready nodeid s -> Z.land flags MODE_ACK <> 0 ->
  exists s', writeDeviceControlRegs fuel addr flags cmd a b s = Returns (VSCP_ERROR_SUCCESS, s') /\
    reaches nodeid s [command addr flags cmd a b] s' /\ m_bHandshake s'.2 = true.
Proof.
  intros (Rn & Rp & Rc) Hk. destruct (control_ok addr flags cmd a b s Rn Rp Hk) as (w' & E & S & P).
  eexists. split; [exact E|]. split; [|reflexivity]. split_and!; [split_and!; [exact Rn|exact P|exact Rc]|reflexivity|exact S|].
  cbn [snd set_handshake set_pAddr m_checksum data_sum foldr command fst].
  destruct (Z.eqb_spec (ID_PUT_BASE_INFO + nodeid) ID_PUT_DATA) as [Q|_]; [unfold ID_PUT_BASE_INFO, ID_PUT_DATA in Q; width|].
  rewrite !Z.add_0_r. symmetry. apply u16_id, Rc.
Qed.

Lemma sector_reaches buf off bytes s :
  ready nodeid s -> m_bHandshake s.2 = true -> rdn buf (Z.to_nat off) 8 = Some bytes ->
  exists s', writeFirmwareSector fuel buf off s = Returns (VSCP_ERROR_SUCCESS, s') /\
    reaches nodeid s [(ID_PUT_DATA, bytes)] s' /\ m_bHandshake s'.2 = true.
Proof.
  intros (Rn & Rp & Rc) Hh Hb. destruct (sector_ok buf off bytes s Rn Hh Rp Hb) as (w' & E & S & P).
  assert (C : add_bytes bytes (m_checksum s.2) = u16 (m_checksum s.2 + foldr Z.add 0 bytes)) by (apply add_bytes_sum, Rc).
  eexists. split; [exact E|]. split; [|exact Hh]. split_and!; [split_and!; [exact Rn|exact P|]|reflexivity|exact S|].
  - cbn [snd set_checksum m_checksum]. rewrite C. unfold is_u16. width.
  - cbn [snd set_checksum m_checksum data_sum foldr fst]. rewrite C, Z.add_0_r. reflexivity.
Qed.

Lemma sectors_reach n : forall buf off s,
  ready nodeid s -> m_bHandshake s.2 = true -> 0 <= off -> off + 8 * Z.of_nat n <= Z.of_nat (length buf) ->
  exists s', write_sectors fuel n buf off s = Returns (tt, s') /\
    reaches nodeid s (map (fun i => (ID_PUT_DATA, take 8 (drop (Z.to_nat off + 8 * i) buf))) (seq 0 n)) s'.
Proof.
  induction n as [|n IH]; intros buf off s R Hh Ho Hl; cbn [write_sectors].
  { exists s. split; [reflexivity|apply reaches_refl, R]. }
  destruct (sector_reaches buf off (take 8 (drop (Z.to_nat off) buf)) s R Hh) as (s1 & E1 & R1 & H1); [apply rdn_defined; lia|].
  rewrite (bind_returns _ _ _ _ _ E1). cbn [negb Z.eqb VSCP_ERROR_SUCCESS].
  destruct (IH buf (off + 8) s1 (proj1 R1) H1 ltac:(lia) ltac:(lia)) as (s2 & E2 & R2).
  exists s2. split; [exact E2|]. pose proof (reaches_trans _ _ _ _ _ _ R1 R2) as R3. cbn [app] in R3. cbn [seq map].
  rewrite Nat.mul_0_r, Nat.add_0_r, <- seq_shift, map_map.
  erewrite map_ext in R3; [exact R3|]. intros i. cbn beta. do 3 f_equal. lia.
Qed.

End answers.

(** ** Lemmas: one memory *)

Definition seg_end (s : CBootMemSegment) : Z := m_startAddress s + m_segSize s.
Definition lowest (segs : list CBootMemSegment) : Z := foldr (fun s a => Z.min (m_startAddress s) a) 0xffffffff segs.
Definition highest (segs : list CBootMemSegment) : Z := foldr (fun s a => Z.max (seg_end s) a) 0 segs.

(** What is sent for the memory from [start] to [stop]: the lowest address in it,
    then the image from there on, eight bytes at a time. *)
Definition memory_messages (nodeid : Z) (segs : list CBootMemSegment) (r : Z * Z) : list (Z * list Z) :=
  match List.filter (starts_in r.1 r.2) segs with
  | [] => []
  | inside => command nodeid (lowest inside) default_flags CMD_NOP 0 0 ::
      map (fun i => (ID_PUT_DATA, image_bytes inside (lowest inside + 8 * Z.of_nat i) 8))
          (seq 0 (Z.to_nat ((highest inside - lowest inside + 7) / 8)))
  end.

Lemma lowest_spec segs :
  (forall s, s ∈ segs -> lowest segs <= m_startAddress s) /\
  (forall a, a <= 0xffffffff -> (forall s, s ∈ segs -> a <= m_startAddress s) -> a <= lowest segs) /\ lowest segs <= 0xffffffff.
Proof.
  induction segs as [|s segs (I1 & I2 & I3)]; cbn [lowest foldr] in *.
  - split_and!; [intros s I; apply elem_of_nil in I; contradiction|auto|lia].
  - fold (lowest segs) in *. split_and!; [|intros a Ha H|lia].
    + intros s' I. apply elem_of_cons in I as [->|I]; [lia|]. specialize (I1 s' I). lia.
    + apply Z.min_glb; [apply H; left|apply I2; [exact Ha|intros s' I; apply H; right; exact I]].
Qed.

Lemma highest_spec segs :
  (forall s, s ∈ segs -> seg_end s <= highest segs) /\
  (forall a, 0 <= a -> (forall s, s ∈ segs -> seg_end s <= a) -> highest segs <= a) /\ 0 <= highest segs.
Proof.
  induction segs as [|s segs (I1 & I2 & I3)]; cbn [highest foldr] in *.
  - split_and!; [intros s I; apply elem_of_nil in I; contradiction|auto|lia].
  - fold (highest segs) in *. split_and!; [|intros a Ha H|lia].
    + intros s' I. apply elem_of_cons in I as [->|I]; [lia|]. specialize (I1 s' I). lia.
    + apply Z.max_lub; [apply H; left|apply I2; [exact Ha|intros s' I; apply H; right; exact I]].
Qed.

Lemma bounds_unique segs lo hi lo0 hi0 :
  segs <> [] -> (forall s, s ∈ segs -> m_startAddress s <= 0xffffffff /\ 0 <= seg_end s /\ m_endAddress s = seg_end s) ->
  lo0 = 0xffffffff -> hi0 = 0 -> bounds_of segs lo0 hi0 lo hi -> lo = lowest segs /\ hi = highest segs.
Proof.
  intros Hne Hs -> -> (B1 & B2 & A & Bl & Bh).
  destruct (lowest_spec segs) as (L1 & L2 & L3), (highest_spec segs) as (U1 & U2 & U3). split.
  - apply Z.le_antisymm; [apply L2; [exact B1|intros s I; apply A, I]|]. destruct Bl as [->|(s & I & <-)]; [exact L3|apply L1, I].
  - apply Z.le_antisymm; [|apply U2; [exact B2|intros s I]].
    + destruct Bh as [->|(s & I & E)]; [exact U3|]. rewrite <- E. destruct (Hs s I) as (_ & _ & ->). apply U1, I.
    + destruct (Hs s I) as (_ & _ & <-). apply A, I.
Qed.

Lemma filter_in (f : CBootMemSegment -> bool) segs s : s ∈ List.filter f segs <-> s ∈ segs /\ f s = true.
Proof. rewrite !list_elem_of_In. apply List.filter_In. Qed.

(** The segments that start in a memory end at least seven bytes before its end,
    and no segment ends behind the address space. *)
Definition fits_memory (segs : list CBootMemSegment) (r : Z * Z) : Prop :=
  0 <= r.1 < r.2 /\ r.2 < 0xffffffff /\
  forall s, s ∈ segs -> starts_in r.1 r.2 s = true -> 0 < m_segSize s /\ seg_end s + 6 <= r.2.

Definition segments_ok (segs : list CBootMemSegment) : Prop :=
  forall s, s ∈ segs -> is_u32 (m_startAddress s) /\ seg_end s < 2 ^ 32.

Section memory.
Variables (segs : list CBootMemSegment) (start stop : Z).
Hypothesis Hok : segments_ok segs.
Hypothesis Hfit : fits_memory segs (start, stop).
Let inside := List.filter (starts_in start stop) segs.

Lemma inside_spec s : s ∈ inside ->
  start <= m_startAddress s /\ m_startAddress s < seg_end s /\ seg_end s + 6 <= stop /\ m_endAddress s = seg_end s.
Proof using Hok Hfit.
  intros [I T]%filter_in. destruct Hfit as ((F1 & F2) & F3 & F). destruct (F s I T) as [P Q]. destruct (Hok s I) as [U _]. cbn [fst snd] in *.
  unfold starts_in in T. apply andb_prop in T as [T1%Z.leb_le T2%Z.leb_le]. unfold seg_end in *.
  split_and!; [exact T1|lia|exact Q|]. unfold m_endAddress. apply u32_id. unfold is_u32. width.
Qed.

Lemma in_range_starts s : s ∈ segs -> in_range start stop s = starts_in start stop s.
Proof using Hok Hfit.
  intros I. destruct (starts_in start stop s) eqn:T.
  - destruct (inside_spec s) as (A & B & C & D); [apply filter_in; auto|]. unfold in_range. rewrite D.
    rewrite (proj2 (Z.leb_le _ _)), (proj2 (Z.ltb_lt _ _)) by lia. reflexivity.
  - destruct (Hok s I) as [U E]. unfold starts_in in T. unfold in_range. destruct (Z.leb_spec start (m_startAddress s)); [|reflexivity].
    cbn [andb] in *. apply Z.leb_gt in T. unfold seg_end, m_segSize in *.
    unfold m_endAddress, m_segSize. rewrite u32_id by (unfold is_u32 in *; lia). apply Z.ltb_ge. lia.
Qed.

Lemma inside_range : getMinMaxForRange segs start stop (Some 0) (Some 0) =
  if decide (inside = []) then (VSCP_ERROR_SUCCESS, Some 0, Some 0) else (VSCP_ERROR_SUCCESS, Some (lowest inside), Some (highest inside)).
Proof using Hok Hfit.
  destruct Hfit as ((F1 & F2) & F3 & _). cbn [fst snd] in *. unfold getMinMaxForRange. rewrite (proj2 (Z.leb_gt stop start)) by lia.
  destruct (min_max_fold start stop segs 0xffffffff 0) as (lo & hi & -> & B). fold inside in B. destruct (decide (inside = [])) as [E|Hne].
  - rewrite E in B. destruct B as (_ & _ & _ & [->|(s & I & _)] & [->|(s' & I' & _)]); try (apply elem_of_nil in I; contradiction);
      try (apply elem_of_nil in I'; contradiction). reflexivity.
  - destruct (bounds_unique inside lo hi 0xffffffff 0 Hne) as [-> ->]; [|reflexivity|reflexivity|exact B|].
    { intros s I. destruct (inside_spec s I). lia. }
    destruct B as (_ & _ & A & _). destruct inside as [|s r] eqn:E; [congruence|].
    destruct (inside_spec s) as (Q1 & Q2 & Q3 & Q4); [fold inside; rewrite E; left|]. destruct (A s ltac:(left)) as [A1 A2].
    destruct (Z.eqb_spec (lowest (s :: r)) 0xffffffff); [lia|]. reflexivity.
Qed.

Lemma inside_bounds : inside <> [] ->
  start <= lowest inside /\ lowest inside < highest inside /\ highest inside + 6 <= stop.
Proof using Hok Hfit.
  intros Hne. pose proof Hfit as ((F1 & F2) & F3 & _). cbn [fst snd] in *.
  destruct (lowest_spec inside) as (L1 & L2 & _), (highest_spec inside) as (U1 & U2 & _).
  assert (exists s, s ∈ inside) as [s I] by (destruct inside as [|s r]; [congruence|exists s; left]).
  specialize (L1 s I). specialize (U1 s I). destruct (inside_spec s I) as (A & B & C & _).
  assert (highest inside <= stop - 6) by (apply U2; [lia|intros s' I'; destruct (inside_spec s' I'); lia]).
  assert (start <= lowest inside) by (apply L2; [lia|intros s' I'; apply (inside_spec s' I')]). lia.
Qed.

Lemma filled : let size := stop - start + 1 in
  exists buf, fillMemoryBuffer segs (Some (replicate (Z.to_nat size) 0)) size start stop 0 0xff = Some (VSCP_ERROR_SUCCESS, Some buf) /\
    Z.of_nat (length buf) = size /\
    forall a n, start <= a -> a + Z.of_nat n <= stop + 1 -> take n (drop (Z.to_nat (a - start)) buf) = image_bytes inside a n.
Proof using Hok Hfit.
  intros size. destruct Hfit as ((F1 & F2) & F3 & F4). cbn [fst snd] in *. unfold fillMemoryBuffer.
  destruct (Z.eqb_spec size 0) as [?|_]; [lia|]. rewrite wr_front by (rewrite !length_replicate; lia).
  rewrite length_replicate, drop_ge, app_nil_r by (rewrite length_replicate; lia).
  assert (P : forall s, s ∈ segs -> in_range start stop s = true -> start <= m_startAddress s /\ seg_end s + 6 <= stop /\ is_u32 (m_startAddress s)).
  { intros s I T. rewrite in_range_starts in T by exact I. destruct (inside_spec s) as (A & B & C & D); [apply filter_in; auto|].
    split_and!; [exact A|exact C|apply Hok, I]. }
  destruct (fill_segments start stop 0 segs (replicate (Z.to_nat size) 0xff)) as (buf & -> & L & I).
  { intros s Is T. destruct (P s Is T) as (A & C & U). unfold fits, place. rewrite length_replicate. unfold seg_end in C. unfold is_u32 in U.
    rewrite u32_id by (unfold is_u32; lia). lia. }
  rewrite length_replicate in L. exists buf. split; [reflexivity|]. split; [lia|]. intros a n Ha Hn.
  replace (List.filter (in_range start stop) segs) with inside in I
    by (apply List.filter_ext_in; intros s Is%list_elem_of_In; symmetry; apply in_range_starts, Is).
  apply list_eq. intros i. destruct (Nat.lt_ge_cases i n) as [Hi|Hi].
  - rewrite lookup_take_lt, lookup_drop, image_bytes_lookup by exact Hi.
    rewrite (I ltac:(lia)) with (v := 0xff).
    + do 2 f_equal. lia.
    + intros s Is T. destruct (P s Is T) as (A & C & U). split; [exact U|lia].
    + apply lookup_replicate_2. lia.
  - rewrite !lookup_ge_None_2; [reflexivity|rewrite length_image_bytes; exact Hi|rewrite length_take; lia].
Qed.

Lemma memory_messages_some nodeid : inside <> [] ->
  memory_messages nodeid segs (start, stop) = command nodeid (lowest inside) default_flags CMD_NOP 0 0 ::
    map (fun i => (ID_PUT_DATA, image_bytes inside (lowest inside + 8 * Z.of_nat i) 8))
        (seq 0 (Z.to_nat ((highest inside - lowest inside + 7) / 8))).
Proof. unfold memory_messages, inside. cbn [fst snd]. destruct (List.filter _ segs); [congruence|reflexivity]. Qed.

Section block.
Context {W : Type} `{V : VscpClient W} `{CC : CanalClient W} (nodeid : Z) `{N : !PicNode W nodeid}.
Context (Hnode : is_u8 nodeid) (fuel : nat) (Hf : (0 < fuel)%nat).

Lemma block_reaches s : ready nodeid s -> pic_segs s.2 = segs ->
  exists s', writeFirmwareBlock fuel start stop s = Returns (VSCP_ERROR_SUCCESS, s') /\
    reaches nodeid s (memory_messages nodeid segs (start, stop)) s'.
Proof using Hok Hfit Hnode Hf.
  intros R G. unfold writeFirmwareBlock, device. rewrite (bind_returns _ _ _ s.2 s) by (destruct s; reflexivity). rewrite G, inside_range.
  pose proof Hfit as ((F1 & F2) & F3 & F4). cbn [fst snd] in *.
  assert (Sz : u32 (stop - start + 1) = stop - start + 1) by (apply u32_id; unfold is_u32; lia). rewrite Sz.
  destruct (Z.eqb_spec (stop - start + 1) 0) as [?|_]; [lia|].
  destruct (decide (inside = [])) as [E|Hne].
  { unfold memory_messages. cbn [fst snd]. change (List.filter (starts_in start stop) segs) with inside. rewrite E. exists s. split; [reflexivity|apply reaches_refl, R]. }
  destruct (inside_bounds Hne) as (B1 & B2 & B3).
  rewrite (memory_messages_some nodeid Hne). set (lo := lowest inside) in *. set (hi := highest inside) in *.
  cbn [negb Z.eqb VSCP_ERROR_SUCCESS]. rewrite (proj2 (Z.eqb_neq hi 0)), andb_false_r, (proj2 (Z.leb_gt hi lo)), ceil_eq by lia.
  destruct filled as (buf & -> & Lb & Ib). cbn [defined]. rewrite bind_ret. cbn [negb Z.eqb VSCP_ERROR_SUCCESS].
  destruct (control_reaches nodeid Hnode fuel Hf lo default_flags CMD_NOP 0 0 s R) as (s2 & E1 & R1 & H1); [discriminate|].
  rewrite (bind_returns _ _ _ _ _ E1). cbn [negb Z.eqb VSCP_ERROR_SUCCESS].
  rewrite (u32_id (lo - start)) by (unfold is_u32; lia). set (n := Z.to_nat ((hi - lo + 8 - 1) / 8)).
  assert (Hn : lo + 8 * Z.of_nat n <= stop + 1).
  { pose proof (Z.mul_div_le (hi - lo + 8 - 1) 8 ltac:(lia)). pose proof (Z.div_pos (hi - lo + 8 - 1) 8 ltac:(lia) ltac:(lia)). unfold n. lia. }
  destruct (sectors_reach nodeid Hnode fuel Hf n buf (lo - start) s2 (proj1 R1) H1) as (s3 & E3 & R3); [lia|lia|].
  rewrite (bind_returns _ _ _ _ _ E3). exists s3. split; [reflexivity|].
  replace ((hi - lo + 7) / 8) with ((hi - lo + 8 - 1) / 8) by (f_equal; lia). fold n.
  pose proof (reaches_trans _ _ _ _ _ _ R1 R3) as R4. cbn [app] in R4.
  rewrite (map_ext_in _ (fun i => (ID_PUT_DATA, image_bytes inside (lo + 8 * Z.of_nat i) 8))) in R4; [exact R4|]. intros i Hi%in_seq. cbn beta. f_equal.
  rewrite <- Ib by lia. do 2 f_equal. lia.
Qed.
End block.
End memory.

(** ** Loading and starting *)

Section load.
Context {W : Type} `{V : VscpClient W} `{CC : CanalClient W} (nodeid : Z) `{N : !PicNode W nodeid}.
Context (Hnode : is_u8 nodeid) (fuel : nat) (Hf : (0 < fuel)%nat).

Lemma memories_reach rs : forall s, ready nodeid s -> segments_ok (pic_segs s.2) -> Forall (fits_memory (pic_segs s.2)) rs ->
  exists s', load_memories fuel rs s = Returns (VSCP_ERROR_SUCCESS, s') /\
    reaches nodeid s (concat (map (memory_messages nodeid (pic_segs s.2)) rs)) s'.
Proof using Hnode Hf.
  induction rs as [|[start stop] rs IH]; intros s R Hs Hr; cbn [load_memories map concat].
  { exists s. split; [reflexivity|apply reaches_refl, R]. }
  apply list.Forall_cons in Hr as [H1 H2].
  destruct (block_reaches (pic_segs s.2) start stop Hs H1 nodeid Hnode fuel Hf s R eq_refl) as (s1 & E1 & R1).
  rewrite (bind_returns _ _ _ _ _ E1). cbn [negb Z.eqb VSCP_ERROR_SUCCESS]. pose proof R1 as (Rs & G & _).
  destruct (IH s1 Rs) as (s2 & E2 & R2); [rewrite G; exact Hs|rewrite G; exact H2|]. rewrite G in R2.
  exists s2. split; [exact E2|exact (reaches_trans _ _ _ _ _ _ R1 R2)].
Qed.
End load.

(** ** Properties *)

(** The checksum in the restart command. *)
Lemma restart_checksum c : is_u16 c ->
  (c + Z.land (calc_chksum c) 0xff + 256 * Z.land (Z.shiftr (calc_chksum c) 8) 0xff) mod 2 ^ 16 = 0.
Proof.
  intros Hc. set (x := calc_chksum c). rewrite !land_255, shiftr_div by lia. change (2 ^ 8) with 256.
  assert (Hx : is_u16 x) by apply u16_ok. unfold is_u16 in Hx. change (2 ^ 16) with 65536 in *.
  pose proof (Z.div_mod x 256 ltac:(discriminate)). rewrite (Z.mod_small (x / 256)) by (split; [apply Z.div_pos|apply Z.div_lt_upper_bound]; lia).
  replace (c + x mod 256 + 256 * (x / 256)) with (c + x) by lia. unfold x, calc_chksum. rewrite land_65535. width.
Qed.

(** C9: firmware whose segments fit into the memories of the node is sent
    completely to a node that answers.  deviceLoad succeeds; after the command that
    resets the checksum it has sent, for each memory with data, its lowest
    address and then the image, eight bytes a message, with 0xff between
    the segments.  deviceRestart then sends the number that makes the
    sum of all the bytes sent zero modulo 2^16, with which the node checks them. *)
Theorem pic1_load_sends_image {W} `{V : VscpClient W} `{CC : CanalClient W} nodeid `{N : !PicNode W nodeid} fuel d w :
  (0 < fuel)%nat -> is_u8 nodeid -> m_nodeid d = nodeid -> pending_msgs w = [] ->
  segments_ok (pic_segs d) -> Forall (fits_memory (pic_segs d)) memories ->
  let image := concat (map (memory_messages nodeid (pic_segs d)) memories) in
  exists s1 s2 lo c0 c1,
    deviceLoad fuel (w, d) = Returns (VSCP_ERROR_SUCCESS, s1) /\
    sent_msgs s1.1 = sent_msgs w ++ command nodeid 0 default_flags CMD_RST_CHKSM 0 0 :: image /\
    deviceRestart fuel s1 = Returns (VSCP_ERROR_SUCCESS, s2) /\
    sent_msgs s2.1 = sent_msgs s1.1 ++ [command nodeid lo (Z.lor (Z.lor MODE_WRT_UNLCK MODE_AUTO_ERASE) MODE_ACK) CMD_CHK_RUN c0 c1] /\
    (data_sum image + c0 + 256 * c1) mod 2 ^ 16 = 0.
Proof.
  intros Hf Hnode Hn Hp Hs Hm image. unfold deviceLoad, update.
  rewrite (bind_returns _ _ _ tt (w, set_checksum 0 d)) by reflexivity.
  destruct (control_reaches nodeid Hnode fuel Hf 0 default_flags CMD_RST_CHKSM 0 0 (w, set_checksum 0 d)) as (s0 & E0 & R0 & _).
  { split_and!; [exact Hn|exact Hp|apply (u16_ok 0)]. }
  { discriminate. }
  rewrite (bind_returns _ _ _ _ _ E0). cbn [negb Z.eqb VSCP_ERROR_SUCCESS]. pose proof R0 as (Y0 & G0 & S0 & _).
  destruct (memories_reach nodeid Hnode fuel Hf memories s0 Y0) as (s1 & E1 & R1); [rewrite G0; exact Hs|rewrite G0; exact Hm|].
  rewrite G0 in R1. change (pic_segs (w, set_checksum 0 d).2) with (pic_segs d) in *. fold image in R1.
  pose proof (reaches_trans _ _ _ _ _ _ R0 R1) as (Y1 & G1 & S1 & C1).
  assert (exists lo hi, getMinMaxForRange (pic_segs s1.2) MEM_CODE_START MEM_CODE_END (Some 0) (Some 0) = (VSCP_ERROR_SUCCESS, Some lo, Some hi)) as (lo & hi & E2).
  { rewrite G1. inversion Hm as [|? ? M1 _]; subst. cbn [snd set_checksum pic_segs].
    rewrite (inside_range (pic_segs d) MEM_CODE_START MEM_CODE_END Hs M1). destruct (decide _); do 2 eexists; reflexivity. }
  assert (E3 : exists s2, deviceRestart fuel s1 = Returns (VSCP_ERROR_SUCCESS, s2) /\
    sent_msgs s2.1 = sent_msgs s1.1 ++ [command nodeid lo (Z.lor (Z.lor MODE_WRT_UNLCK MODE_AUTO_ERASE) MODE_ACK) CMD_CHK_RUN
       (Z.land (calc_chksum (m_checksum s1.2)) 0xff) (Z.land (Z.shiftr (calc_chksum (m_checksum s1.2)) 8) 0xff)]).
  { unfold deviceRestart, device. rewrite (bind_returns _ _ _ s1.2 s1) by (destruct s1; reflexivity). rewrite E2. unfold update.
    rewrite (bind_returns _ _ _ tt (s1.1, set_startAddr lo s1.2)) by reflexivity. cbv zeta.
    match goal with |- context [writeDeviceControlRegs fuel ?a ?f ?c ?x ?y] =>
      destruct (control_reaches nodeid Hnode fuel Hf a f c x y (s1.1, set_startAddr lo s1.2)) as (s2 & E & (_ & _ & S & _) & _) end.
    - exact Y1.
    - discriminate.
    - exists s2. split; [exact E|exact S]. }
  destruct E3 as (s2 & E3 & S3). exists s1, s2, lo. do 2 eexists. split; [exact E1|]. split; [exact S1|]. split; [exact E3|]. split; [exact S3|].
  rewrite <- (restart_checksum (m_checksum s1.2)) by apply Y1.
  rewrite C1. cbn [snd set_checksum m_checksum app]. unfold u16. rewrite <- !Z.add_assoc, Z.add_mod_idemp_l by discriminate.
  f_equal. rewrite Z.add_0_l. f_equal. change (command nodeid 0 default_flags CMD_RST_CHKSM 0 0 :: image) with ([command nodeid 0 default_flags CMD_RST_CHKSM 0 0] ++ image).
  rewrite data_sum_app. cbn [data_sum foldr command fst].
  destruct (Z.eqb_spec (ID_PUT_BASE_INFO + nodeid) ID_PUT_DATA) as [Q|_]; [unfold ID_PUT_BASE_INFO, ID_PUT_DATA in Q; width|]. lia.
Qed.

(** Every function of the loader ends, whatever the client delivers, if its
    clocks advance and do not go back in a wait. *)
Theorem pic1_ends {W} `{V : VscpClient W} `{CC : CanalClient W} fuel (L : ClockLaws W fuel) (LC : CanalClock W (C := L))
    (LM : MsClockLaws W REGISTER_DEFAULT_TIMEOUT fuel) g b s :
  deviceInit fuel g b s <> OutOfFuel /\ deviceLoad fuel s <> OutOfFuel /\
  deviceRestart fuel s <> OutOfFuel /\ deviceReboot fuel s <> OutOfFuel.
Proof. split; [exact (ends_init fuel g b s)|]. split; [exact (ends_pic1_load fuel s)|]. split; [exact (ends_restart fuel s)|exact (ends_control fuel 0 0 CMD_RESET 0 0 s)]. Qed.

(** When the data of a memory cannot be sent, or the node does not answer,
    nobody is told: the only error writeFirmwareBlock returns is that of the
    command with the address. *)
Theorem sector_errors_lost {W} `{V : VscpClient W} `{CC : CanalClient W} fuel start stop s rv s' :
  start < stop -> writeFirmwareBlock fuel start stop s = Returns (rv, s') ->
  rv = VSCP_ERROR_SUCCESS \/ exists lo, writeDeviceControlRegs fuel lo default_flags CMD_NOP 0 0 s = Returns (rv, s').
Proof.
  intros Hlt. unfold writeFirmwareBlock, device. rewrite (bind_returns _ _ _ s.2 s) by (destruct s; reflexivity). cbv zeta.
  destruct (Z.eqb_spec (u32 (stop - start + 1)) 0) as [_|Hz]; [intros [= <- _]; auto|].
  unfold getMinMaxForRange. rewrite (proj2 (Z.leb_gt stop start)) by lia.
  destruct (foldl _ _ _) as [lo hi]. set (lo' := if (lo =? 0xffffffff) && (hi =? 0) then 0 else lo).
  replace (if _ && _ then _ else _) with (VSCP_ERROR_SUCCESS, Some lo', Some hi)
    by (unfold lo'; destruct (_ && _); reflexivity).
  clearbody lo'. cbn [negb Z.eqb VSCP_ERROR_SUCCESS]. destruct (_ && _); [intros [= <- _]; auto|]. destruct (_ <=? _); [intros [= <- _]; auto|].
  unfold fillMemoryBuffer. rewrite (proj2 (Z.eqb_neq _ _) Hz). destruct (foldl _ _ _) as [buf|]; [|discriminate].
  cbn [mbind option_bind defined]. rewrite bind_ret. cbn [negb Z.eqb VSCP_ERROR_SUCCESS].
  intros Q. apply bind_inv in Q as (rv1 & s1 & E & K). destruct (negb (rv1 =? VSCP_ERROR_SUCCESS)).
  - injection K as <- <-. right. exists lo'. exact E.
  - apply bind_inv in K as (u & s2 & _ & [= <- _]). auto.
Qed.

(** On a connection of another kind the answer of the node is not looked
    at: any event that arrives, of whatever class and from whatever node,
    counts as the answer, because the test of what receive returns is inverted. *)
Theorem level2_any_event_answers {W} `{V : VscpClient W} `{CC : CanalClient W} fuel (s : W * CBootDevice_PIC1) ex w :
  (0 < fuel)%nat -> receive (fresh s.1) (time s.1).2 = (VSCP_ERROR_SUCCESS, ex, w) ->
  checkResponseLevel2 fuel s = Returns (VSCP_ERROR_SUCCESS, (w, s.2)).
Proof.
  intros Hf E. unfold checkResponseLevel2. rewrite !client_bind. cbn [fst snd].
  destruct fuel as [|n]; [lia|]. cbn [response2_loop]. rewrite client_bind. cbn [fst snd]. rewrite E. reflexivity.
Qed.

(** ** Sample clients *)

(** Nobody answers; the clocks count in steps of 2^62 seconds and 2^30 ms. *)
Definition seconds (w : Z) : Z := s64 (w * 2 ^ 62).
Definition millis (w : Z) : Z := u32 (w * 2 ^ 30).
Definition blank_msg : canalMsg := CanalMsg 0 0 0 0 (replicate 8 0) 0.

#[local] Instance deaf_client : VscpClient Z := {|
  isFullLevel2 := true;
  send ex w := (VSCP_ERROR_SUCCESS, w);
  getcount w := (VSCP_ERROR_SUCCESS, 0, w);
  receive ex w := (VSCP_ERROR_TIMEOUT, ex, w);
  clear w := (VSCP_ERROR_SUCCESS, w);
  time w := (seconds w, w + 1);
  msTimeStamp w := (millis w, w + 1);
  now w := Timespec 0 0;
  stamp w := 0;
  fresh w := blank_event 0 []
|}.
#[local] Instance deaf_canal : CanalClient Z := {|
  isCanal := true;
  send_msg msg w := (VSCP_ERROR_SUCCESS, w);
  receive_msg msg w := (VSCP_ERROR_TIMEOUT, msg, w);
  fresh_msg w := blank_msg
|}.

#[local] Instance deaf_clock : ClockLaws Z 2.
Proof.
  refine {| BootVscp.polls := fun t w => if u64 (seconds w - t) <=? BOOT_COMMAND_DEFAULT_RESPONSE_TIMEOUT then 1%nat else 0%nat |};
    unfold waiting, BOOT_COMMAND_DEFAULT_RESPONSE_TIMEOUT.
  - intros t w tnow w' [= <- <-] L. rewrite (proj2 (Z.leb_le _ 5) L).
    destruct (Z.leb_spec (u64 (seconds (w + 1) - t)) 5); [exfalso; unfold seconds in *; width|lia].
  - intros t w. reflexivity.
  - intros t ex w. reflexivity.
  - intros w t w' [= <- <-]. destruct (_ <=? _); lia.
Defined.

#[local] Instance deaf_canal_clock : CanalClock Z.
Proof.
  refine {| after := fun t w => t = seconds (w - 1) |}.
  - intros t msg w. reflexivity.
  - intros w t w' [= <- <-]. f_equal. lia.
  - intros t ex w E. exact E.
  - intros t w tnow w' -> [= <- <-]. unfold waiting, BOOT_COMMAND_DEFAULT_RESPONSE_TIMEOUT, seconds. split; [|intros L; exfalso]; width.
Defined.

#[local] Instance deaf_ms_clock : MsClockLaws Z REGISTER_DEFAULT_TIMEOUT 2.
Proof.
  refine {| RegIo.polls := fun t w => if u32 (millis w - t) <=? REGISTER_DEFAULT_TIMEOUT then 1%nat else 0%nat |};
    unfold REGISTER_DEFAULT_TIMEOUT.
  - intros t w tnow w' [= <- <-] L. rewrite (proj2 (Z.leb_le _ 2000) L).
    destruct (Z.leb_spec (u32 (millis (w + 1) - t)) 2000); [exfalso; unfold millis in *; width|lia].
  - intros t w. reflexivity.
  - intros t ex w. reflexivity.
  - intros w t w' [= <- <-]. cbn [snd msTimeStamp deaf_client]. split; destruct (_ <=? _); lia.
Defined.

Definition sample_pic (segs : list CBootMemSegment) : CBootDevice_PIC1 :=
  PIC1 5 (replicate 16 0) (replicate 16 0) (replicate 16 0) 0 segs true 0 0 0 (new_CStandardRegisters 0).

Lemma pic1_ends_witness : deviceInit 2 [] true (0, sample_pic []) <> OutOfFuel /\ deviceLoad 2 (0, sample_pic []) <> OutOfFuel /\
  deviceRestart 2 (0, sample_pic []) <> OutOfFuel /\ deviceReboot 2 (0, sample_pic []) <> OutOfFuel.
Proof. exact (pic1_ends 2 deaf_clock deaf_canal_clock deaf_ms_clock [] true (0, sample_pic [])). Defined.

(** The start command is answered, the data is not. *)
#[local] Instance half_canal : CanalClient Z := {|
  isCanal := true;
  send_msg msg w := (if id msg =? ID_PUT_DATA then VSCP_ERROR_TIMEOUT else VSCP_ERROR_SUCCESS, w);
  receive_msg msg w := (VSCP_ERROR_SUCCESS, CanalMsg 0 0 (ID_RESPONSE_PUT_BASE_INFO + 5) 0 [] 0, w);
  fresh_msg w := blank_msg
|}.
Lemma sector_errors_lost_witness : exists s', writeFirmwareBlock (H0 := half_canal) 1 0 15 (0, sample_pic [MemSegment 0 [1; 2; 3]]) = Returns (0, s') /\
  (0 = VSCP_ERROR_SUCCESS \/
   exists lo, writeDeviceControlRegs (H0 := half_canal) 1 lo default_flags CMD_NOP 0 0 (0, sample_pic [MemSegment 0 [1; 2; 3]]) = Returns (0, s')).
Proof.
  eexists. split; [vm_compute; reflexivity|].
  apply (sector_errors_lost (CC := half_canal) 1 0 15); [lia|vm_compute; reflexivity].
Defined.

(** Any event at all. *)
#[local] Instance any_client : VscpClient unit := {|
  isFullLevel2 := true;
  send ex w := (VSCP_ERROR_SUCCESS, w);
  getcount w := (VSCP_ERROR_SUCCESS, 1, w);
  receive ex w := (VSCP_ERROR_SUCCESS, EventEx 0 0 (Time 0 0 0) 0 10 6 (replicate 16 9) 0 [], w);
  clear w := (VSCP_ERROR_SUCCESS, w);
  time w := (0, w);
  msTimeStamp w := (0, w);
  now w := Timespec 0 0;
  stamp w := 0;
  fresh w := blank_event 0 []
|}.
#[local] Instance no_canal : CanalClient unit := {|
  isCanal := false;
  send_msg msg w := (VSCP_ERROR_SUCCESS, w);
  receive_msg msg w := (VSCP_ERROR_TIMEOUT, msg, w);
  fresh_msg w := blank_msg
|}.
Lemma level2_any_event_answers_witness :
  checkResponseLevel2 1 (tt, sample_pic []) = Returns (VSCP_ERROR_SUCCESS, (tt, sample_pic [])).
Proof. apply (level2_any_event_answers 1 (tt, sample_pic []) (EventEx 0 0 (Time 0 0 0) 0 10 6 (replicate 16 9) 0 []) tt); [lia|reflexivity]. Defined.

(** A node with nickname 5 that answers what asks for an answer. *)
Record pic_world := PicWorld { p_sent : list (Z * list Z); p_pending : list canalMsg }.

#[local] Instance pic_client : VscpClient pic_world := {|
  isFullLevel2 := false;
  send ex w := (VSCP_ERROR_SUCCESS, w);
  getcount w := (VSCP_ERROR_SUCCESS, Z.of_nat (length (p_pending w)), w);
  receive ex w := (VSCP_ERROR_TIMEOUT, ex, w);
  clear w := (VSCP_ERROR_SUCCESS, w);
  time w := (0, w);
  msTimeStamp w := (0, w);
  now w := Timespec 0 0;
  stamp w := 0;
  fresh w := blank_event 0 []
|}.
#[local] Instance pic_canal_client : CanalClient pic_world := {|
  isCanal := true;
  send_msg msg w :=
    let m := (id msg, canal_data msg) in
    (VSCP_ERROR_SUCCESS,
     PicWorld (p_sent w ++ [m])
       (if (m.1 =? ID_PUT_DATA) || ((m.1 =? ID_PUT_BASE_INFO + 5) && negb (Z.land (nth 4 m.2 0) MODE_ACK =? 0))
        then p_pending w ++ [CanalMsg CANAL_IDFLAG_EXTENDED 0 (answer 5 m.1) 0 [] 0] else p_pending w));
  receive_msg msg w :=
    match p_pending w with
    | [] => (VSCP_ERROR_TIMEOUT, msg, w)
    | e :: rest => (VSCP_ERROR_SUCCESS, e, PicWorld (p_sent w) rest)
    end;
  fresh_msg w := blank_msg
|}.

#[local] Instance pic_node : PicNode pic_world 5.
Proof.
  refine (Build_PicNode pic_world pic_client pic_canal_client 5 eq_refl p_sent p_pending _ _ _).
  - intros w. split; reflexivity.
  - intros msg w e r E. exists (PicWorld (p_sent w) r). cbn [receive_msg pic_canal_client]. rewrite E. auto.
  - intros msg w E A. do 2 eexists. split; [reflexivity|]. cbn [p_sent p_pending fst snd]. split; [reflexivity|].
    rewrite E. unfold asks_ack in A. cbn [fst snd] in A.
    assert (Q : (id msg =? ID_PUT_DATA) || ((id msg =? ID_PUT_BASE_INFO + 5) && negb (Z.land (nth 4 (canal_data msg) 0) MODE_ACK =? 0)) = true).
    { destruct A as [->|[-> Hk]]; [reflexivity|]. rewrite Z.eqb_refl, (proj2 (Z.eqb_neq _ _) Hk). apply orb_true_r. }
    rewrite Q. split; reflexivity.
Defined.

(** Code at 0x10 and configuration at 0x300000. *)
Definition sample_firmware : list CBootMemSegment := [MemSegment 0x10 [1; 2; 3]; MemSegment 0x18 (replicate 9 7); MemSegment 0x300000 [255; 254]].

Lemma pic1_load_sends_image_witness :
  let image := concat (map (memory_messages 5 sample_firmware) memories) in
  exists s1 s2 lo c0 c1,
    deviceLoad 1 (PicWorld [] [], sample_pic sample_firmware) = Returns (VSCP_ERROR_SUCCESS, s1) /\
    sent_msgs s1.1 = sent_msgs (PicWorld [] []) ++ command 5 0 default_flags CMD_RST_CHKSM 0 0 :: image /\
    deviceRestart 1 s1 = Returns (VSCP_ERROR_SUCCESS, s2) /\
    sent_msgs s2.1 = sent_msgs s1.1 ++ [command 5 lo (Z.lor (Z.lor MODE_WRT_UNLCK MODE_AUTO_ERASE) MODE_ACK) CMD_CHK_RUN c0 c1] /\
    (data_sum image + c0 + 256 * c1) mod 2 ^ 16 = 0.
Proof.
  apply (pic1_load_sends_image 5 1 (sample_pic sample_firmware) (PicWorld [] [])).
  - lia.
  - by_decide.
  - reflexivity.
  - reflexivity.
  - intros s I. cbv [pic_segs sample_pic sample_firmware] in I. rewrite !elem_of_cons, elem_of_nil in I.
    destruct I as [->|[->|[->|[]]]]; (split; [by_decide|reflexivity]).
  - change (Forall (fits_memory sample_firmware) memories). unfold memories.
    repeat apply List.Forall_cons; try apply List.Forall_nil;
      (split; [split; [discriminate|reflexivity]|split; [reflexivity|]]; cbn [fst snd]; intros s I;
       cbv [sample_firmware] in I; rewrite !elem_of_cons, elem_of_nil in I;
       destruct I as [->|[->|[->|[]]]]; vm_compute; intros E; first [discriminate E|split; [reflexivity|discriminate]]).
Defined.

Example sample_messages : concat (map (memory_messages 5 sample_firmware) memories) =
  [(0x1005, [0x10; 0; 0; 0; 0x1d; 0; 0; 0]); (ID_PUT_DATA, [1; 2; 3; 255; 255; 255; 255; 255]);
   (ID_PUT_DATA, replicate 8 7); (ID_PUT_DATA, [7; 255; 255; 255; 255; 255; 255; 255]);
   (0x1005, [0; 0; 0x30; 0; 0x1d; 0; 0; 0]); (ID_PUT_DATA, [255; 254; 255; 255; 255; 255; 255; 255])].
Proof. vm_compute. reflexivity. Qed.
