(* ===== verification/VscpDateTime.v ===== *)
(** * The class vscpdatetime: src/src/vscp/common/vscpdatetime.cpp and vscpdatetime.h

    A date and time as nanoseconds since the epoch, in an [int64_t], with the
    fields of a broken-down UTC time, ISO strings and arithmetic on Julian day
    numbers.  Methods are functions from the object to the object; [None] is
    undefined behaviour, the overflow of a signed number.

    Divisions of C truncate ([Z.quot], [Z.rem]).  The Julian day arithmetic is in
    double; the definitions have the exact quotients of the decimal constants.
    They are the values of the code for day numbers below 2^31: a quotient is
    never an integer but for 365.25 * c, which is exact, and its distance from an
    integer (one over 1461, 306001 or 146097 at least) is larger than the error. *)

From S2P Require Import Prelude DateTime Event Strings EventString.

Definition NS_PER_MICROSECOND : Z := 1000.
Definition NS_PER_MILLISECOND : Z := 1000000.
Definition NS_PER_SECOND : Z := 1000000000.
Definition NS_PER_MINUTE : Z := 60 * NS_PER_SECOND.
Definition NS_PER_HOUR : Z := 60 * NS_PER_MINUTE.
Definition NS_PER_DAY : Z := 24 * NS_PER_HOUR.
Definition DAYS_PER_WEEK : Z := 7.

Inductive weekDay := Sun | Mon | Tue | Wed | Thu | Fri | Sat | Inv_WeekDay.
Inductive monthOfYear := Jan | Feb | Mar | Apr | May | Jun | Jul | Aug | Sep | Oct | Nov | Dec | Inv_Month.
Inductive nameFlags := name_Full | name_Abbr.

Definition weekDays : list weekDay := [Sun; Mon; Tue; Wed; Thu; Fri; Sat].
Definition months : list monthOfYear := [Jan; Feb; Mar; Apr; May; Jun; Jul; Aug; Sep; Oct; Nov; Dec].

Record vscpdatetime := VscpDateTime { m_timestamp : Z }.

(** A signed 64-bit result. *)
Definition int64 (x : Z) : option Z := if (- 2 ^ 63 <=? x) && (x <? 2 ^ 63) then Some x else None.

(** ** Broken-down time

    tm_yday and tm_wday, which [tm] of [DateTime] leaves out. *)

Definition gm_yday (t : Z) : Z := t / 86400 - civil_day (tm_year (gmtime t) + 1900) 1 1.
Definition gm_wday (t : Z) : Z := (t / 86400 + 4) mod 7.

Definition seconds_of (d : vscpdatetime) : Z := Z.quot (m_timestamp d) NS_PER_SECOND.
Definition getTimeStruct (d : vscpdatetime) : tm := gmtime (seconds_of d).

Definition setFromTimeStruct (t : tm) (nanoseconds : Z) : option vscpdatetime :=
  ns ← int64 (timegm t * NS_PER_SECOND);
  ts ← int64 (ns + nanoseconds);
  Some (VscpDateTime ts).

(** ** Getters *)

Definition getYear (d : vscpdatetime) : Z := u16 (tm_year (getTimeStruct d) + 1900).
Definition getMonth (d : vscpdatetime) : monthOfYear := nth (Z.to_nat (tm_mon (getTimeStruct d))) months Inv_Month.
Definition getDay (d : vscpdatetime) : Z := u8 (tm_mday (getTimeStruct d)).
Definition getHour (d : vscpdatetime) : Z := u8 (tm_hour (getTimeStruct d)).
Definition getMinute (d : vscpdatetime) : Z := u8 (tm_min (getTimeStruct d)).
Definition getSecond (d : vscpdatetime) : Z := u8 (tm_sec (getTimeStruct d)).
Definition getMilliSeconds (d : vscpdatetime) : Z := u32 (Z.quot (Z.rem (m_timestamp d) NS_PER_SECOND) NS_PER_MILLISECOND).
Definition getMicroSeconds (d : vscpdatetime) : Z := u32 (Z.quot (Z.rem (m_timestamp d) NS_PER_SECOND) NS_PER_MICROSECOND).
Definition getNanoSeconds (d : vscpdatetime) : Z := u32 (Z.rem (m_timestamp d) NS_PER_SECOND).

(** ** Setters

    The result is what the function returns and the object after it. *)

Definition refused (d : vscpdatetime) : option (bool * vscpdatetime) := Some (false, d).
Definition store (t : tm) (nanoseconds : Z) : option (bool * vscpdatetime) :=
  d ← setFromTimeStruct t nanoseconds; Some (true, d).

Definition setDate (year month day : Z) (d : vscpdatetime) : option (bool * vscpdatetime) :=
  if (month =? 0) || (12 <? month) then refused d
  else if (day =? 0) || (31 <? day) then refused d
  else
    let t := getTimeStruct d in
    store (Tm (year - 1900) (month - 1) day (tm_hour t) (tm_min t) (tm_sec t)) (getNanoSeconds d).

Definition setTime (hour minute second millisecond : Z) (d : vscpdatetime) : option (bool * vscpdatetime) :=
  if 23 <? hour then refused d
  else if 59 <? minute then refused d
  else if 59 <? second then refused d
  else
    let t := getTimeStruct d in
    store (Tm (tm_year t) (tm_mon t) (tm_mday t) hour minute second) (u32 (millisecond * NS_PER_MILLISECOND)).

Definition setYear (year : Z) (d : vscpdatetime) : option (bool * vscpdatetime) :=
  let t := getTimeStruct d in
  store (Tm (year - 1900) (tm_mon t) (tm_mday t) (tm_hour t) (tm_min t) (tm_sec t)) (getNanoSeconds d).

Definition setMonth (month : Z) (d : vscpdatetime) : option (bool * vscpdatetime) :=
  if (month =? 0) || (12 <? month) then refused d
  else
    let t := getTimeStruct d in
    store (Tm (tm_year t) (month - 1) (tm_mday t) (tm_hour t) (tm_min t) (tm_sec t)) (getNanoSeconds d).

Definition setDay (day : Z) (d : vscpdatetime) : option (bool * vscpdatetime) :=
  if (day =? 0) || (31 <? day) then refused d
  else
    let t := getTimeStruct d in
    store (Tm (tm_year t) (tm_mon t) day (tm_hour t) (tm_min t) (tm_sec t)) (getNanoSeconds d).

Definition setHour (hour : Z) (d : vscpdatetime) : option (bool * vscpdatetime) :=
  if 23 <? hour then refused d
  else
    let t := getTimeStruct d in
    store (Tm (tm_year t) (tm_mon t) (tm_mday t) hour (tm_min t) (tm_sec t)) (getNanoSeconds d).

Definition setMinute (minute : Z) (d : vscpdatetime) : option (bool * vscpdatetime) :=
  if 59 <? minute then refused d
  else
    let t := getTimeStruct d in
    store (Tm (tm_year t) (tm_mon t) (tm_mday t) (tm_hour t) minute (tm_sec t)) (getNanoSeconds d).

Definition setSecond (second : Z) (d : vscpdatetime) : option (bool * vscpdatetime) :=
  if 59 <? second then refused d
  else
    let t := getTimeStruct d in
    store (Tm (tm_year t) (tm_mon t) (tm_mday t) (tm_hour t) (tm_min t) second) (getNanoSeconds d).

(** The sum is unsigned and wraps. *)
Definition setMilliSecond (millisecond : Z) (d : vscpdatetime) : bool * vscpdatetime :=
  let secs := u64 (seconds_of d) in
  (true, VscpDateTime (s64 (u64 (u64 (secs * NS_PER_SECOND) + millisecond * NS_PER_MILLISECOND)))).
Definition SetMillisecond (ms : Z) (d : vscpdatetime) : bool * vscpdatetime := setMilliSecond ms d.

Definition set (year month day hour minute second millisecond : Z) (d : vscpdatetime) : option (bool * vscpdatetime) :=
  if (month =? 0) || (12 <? month) then refused d
  else if (day =? 0) || (31 <? day) then refused d
  else if 23 <? hour then refused d
  else if 59 <? minute then refused d
  else if 59 <? second then refused d
  else store (Tm (year - 1900) (month - 1) day hour minute second) (u32 (millisecond * NS_PER_MILLISECOND)).

Definition set_tm (t : tm) : option (bool * vscpdatetime) := store t 0.

Definition set_time (t : timeblock) (d : vscpdatetime) : option (bool * vscpdatetime) :=
  set (year t) (Event.month t) (day t) (hour t) (minute t) (second t) 0 d.
Definition set_event (ev : vscpEvent) (d : vscpdatetime) : option (bool * vscpdatetime) := set_time (etime ev) d.
Definition set_eventex (ex : vscpEventEx) (d : vscpdatetime) : option (bool * vscpdatetime) := set_time (xtime ex) d.

(** ** Strings

    Numbers with one character between them.  What stoi and substr throw is
    caught. *)

Definition number (s : list Z) : option (Z * list Z) := stoi s.
Definition past (s : list Z) : option (list Z) := match s with _ :: s => Some s | [] => None end.

Definition three_numbers (s : list Z) : option (Z * Z * Z * list Z) :=
  '(a, s) ← number s; s ← past s;
  '(b, s) ← number s; s ← past s;
  '(c, s) ← number s;
  Some (a, b, c, s).

Definition setISODate (s : list Z) (d : vscpdatetime) : option (bool * vscpdatetime) :=
  match three_numbers s with
  | Some (y, m, dd, _) => setDate (u16 y) (u8 m) (u8 dd) d
  | None => refused d
  end.

Definition setISOTime (s : list Z) (d : vscpdatetime) : option (bool * vscpdatetime) :=
  match three_numbers s with
  | Some (h, mi, sec, _) => setTime (u8 h) (u8 mi) (u8 sec) 0 d
  | None => refused d
  end.

Definition six_numbers (s : list Z) : option (Z * Z * Z * Z * Z * Z) :=
  '(y, m, dd, s) ← three_numbers s; s ← past s;
  '(h, mi, sec, _) ← three_numbers s;
  Some (y, m, dd, h, mi, sec).

Definition set_string (s : list Z) (d : vscpdatetime) : option (bool * vscpdatetime) :=
  match six_numbers s with
  | Some (y, m, dd, h, mi, sec) => set (u16 y) (u8 m) (u8 dd) (u8 h) (u8 mi) (u8 sec) 0 d
  | None => refused d
  end.

Definition set_pchar (s : option (list Z)) (d : vscpdatetime) : option (bool * vscpdatetime) :=
  match s with None => refused d | Some s => set_string s d end.

(** strftime, for years of four digits, which are all that an [int64_t] holds. *)
Definition iso_date (t : tm) : list Z := pad 4 (tm_year t + 1900) ++ str "-" ++ pad 2 (tm_mon t + 1) ++ str "-" ++ pad 2 (tm_mday t).
Definition iso_time (t : tm) : list Z := pad 2 (tm_hour t) ++ str ":" ++ pad 2 (tm_min t) ++ str ":" ++ pad 2 (tm_sec t) ++ str "Z".

Definition getISODateTime (bSeparator : bool) (d : vscpdatetime) : list Z :=
  let t := getTimeStruct d in
  iso_date t ++ (if bSeparator then str "T" else str " ") ++ iso_time t.
Definition getISODate (d : vscpdatetime) : list Z := iso_date (getTimeStruct d).
Definition getISOTime (d : vscpdatetime) : list Z := iso_time (getTimeStruct d).

(** ** Now *)

(** [now] is what system_clock holds, in nanoseconds. *)
Definition setNow (now : Z) : vscpdatetime := VscpDateTime (s64 now).
Definition setUTCNow (now : Z) : vscpdatetime := setNow now.

Definition setNowIfTimeStampRelative (now : Z) (d : vscpdatetime) : option (bool * vscpdatetime) :=
  if m_timestamp d <? NS_PER_SECOND then
    let d' := setUTCNow now in
    ts ← int64 (seconds_of d' * NS_PER_SECOND + m_timestamp d);
    Some (true, VscpDateTime ts)
  else Some (false, d).

(** The constructors and fromTimestamp: what is refused stays at zero. *)
Definition new_from_string (s : list Z) : option vscpdatetime := snd <$> set_string s (VscpDateTime 0).
Definition new_from_event (ev : vscpEvent) : option vscpdatetime := snd <$> set_event ev (VscpDateTime 0).
Definition new_from_eventex (ex : vscpEventEx) : option vscpdatetime := snd <$> set_eventex ex (VscpDateTime 0).
Definition new_from_fields (year month day hour minute second millisecond : Z) : option vscpdatetime :=
  snd <$> set year month day hour minute second millisecond (VscpDateTime 0).
Definition fromTimestamp (timestamp : Z) : vscpdatetime := VscpDateTime timestamp.

Definition zeroTime : vscpdatetime := VscpDateTime 0.
Definition zeroDate : vscpdatetime := VscpDateTime 0.
Definition dateTimeZero : vscpdatetime := VscpDateTime 0.

(** ** Julian day numbers *)

Definition setFromJulian (ljd : Z) (d : vscpdatetime) : option vscpdatetime :=
  let z := ljd in
  let a := if z <? 2299161 then z
           else let alpha := Z.quot (4 * z - 7468865) 146097 in z + 1 + alpha - Z.quot alpha 4 in
  let b := a + 1524 in
  let c := Z.quot (20 * b - 2442) 7305 in
  let dd := Z.quot (1461 * c) 4 in
  let e := Z.quot (10000 * (b - dd)) 306001 in
  let day := u8 (s32 b - dd - Z.quot (306001 * e) 10000) in
  let month := u8 (if e <? 14 then e - 1 else e - 13) in
  let year := u16 (if 2 <? month then c - 4716 else c - 4715) in
  let year := if year <=? 0 then u16 (year - 1) else year in
  let t := getTimeStruct d in
  setFromTimeStruct (Tm (year - 1900) (month - 1) day (tm_hour t) (tm_min t) (tm_sec t)) (getNanoSeconds d).

Definition ymdToJd (iYear iMonth iDay : Z) : Z :=
  let year := if iYear <? 0 then iYear + 1 else iYear in
  let year_corr := if 0 <? year then 0 else 3 in (* quarters *)
  let '(year, month) := if iMonth <=? 2 then (year - 1, iMonth + 12) else (year, iMonth) in
  let b := if 15821015 <=? year * 10000 + month * 100 + iDay
           then let a := Z.quot year 100 in 2 - a + Z.quot a 4 else 0 in
  Z.quot (1461 * year - year_corr) 4 + Z.quot (306001 * (month + 1)) 10000 + iDay + 1720995 + b.

Definition getJulian (d : vscpdatetime) : Z :=
  let t := getTimeStruct d in ymdToJd (tm_year t + 1900) (tm_mon t + 1) (tm_mday t).

(** The operators +, -, ++ and -- with a number of days, the difference and the
    comparisons.  A number minus a date is the date minus the number. *)
Definition plus_days (d : vscpdatetime) (n : Z) : option vscpdatetime :=
  jd ← int64 (getJulian d + n); setFromJulian jd d.
Definition minus_days (d : vscpdatetime) (n : Z) : option vscpdatetime :=
  jd ← int64 (getJulian d - n); setFromJulian jd d.
Definition days_minus (n : Z) (d : vscpdatetime) : option vscpdatetime := minus_days d n.
Definition increment (d : vscpdatetime) : option vscpdatetime := plus_days d 1.
Definition decrement (d : vscpdatetime) : option vscpdatetime := minus_days d 1.
Definition difference (d e : vscpdatetime) : Z := getJulian d - getJulian e.
Definition less (d e : vscpdatetime) : bool := getJulian d <? getJulian e.
Definition less_equal (d e : vscpdatetime) : bool := getJulian d <=? getJulian e.
Definition equal (d e : vscpdatetime) : bool := getJulian d =? getJulian e.

(** ** Calendar *)

Definition getDayOfYear (d : vscpdatetime) : Z := gm_yday (seconds_of d) + 1.
Definition toSysTime (d : vscpdatetime) : Z := seconds_of d.

Definition isLeapYear (d : vscpdatetime) : bool :=
  let year := tm_year (getTimeStruct d) + 1900 in
  (Z.rem year 4 =? 0) && negb (Z.rem year 100 =? 0) || (Z.rem year 400 =? 0).

Definition days_in_month_normal : list Z := [31; 28; 31; 30; 31; 30; 31; 31; 30; 31; 30; 31].
Definition days_in_month_leapyear : list Z := [31; 29; 31; 30; 31; 30; 31; 31; 30; 31; 30; 31].

Definition isValid (d : vscpdatetime) : bool :=
  let t := getTimeStruct d in
  if 11 <? tm_mon t then false
  else if tm_mday t =? 0 then false
  else if nth (Z.to_nat (tm_mon t)) (if isLeapYear d then days_in_month_leapyear else days_in_month_normal) 0 <? tm_mday t then false
  else if 23 <? tm_hour t then false
  else if 59 <? tm_min t then false
  else if 59 <? tm_sec t then false
  else true.

Definition getWeekNumber (d : vscpdatetime) : Z :=
  let wday := gm_wday (seconds_of d) in
  let delta := if wday =? 0 then DAYS_PER_WEEK - 1 else wday - 1 in
  Z.quot (gm_yday (seconds_of d) + DAYS_PER_WEEK - delta) DAYS_PER_WEEK.

Definition getWeekDay (d : vscpdatetime) : weekDay := nth (Z.to_nat (gm_wday (seconds_of d))) weekDays Inv_WeekDay.

Definition getWeekDayName (weekday : weekDay) (flags : nameFlags) : string :=
  let name full abbr := match flags with name_Full => full | name_Abbr => abbr end in
  match weekday with
  | Sun => name "Sunday" "Sun" | Mon => name "Monday" "Mon" | Tue => name "Tuesday" "Tue"
  | Wed => name "Wednesday" "Wed" | Thu => name "Thursday" "Thu" | Fri => name "Friday" "Fri"
  | Sat => name "Saturday" "Sat" | Inv_WeekDay => "---"
  end%string.

Definition getMonthName (month : monthOfYear) (flags : nameFlags) : string :=
  let name full abbr := match flags with name_Full => full | name_Abbr => abbr end in
  match month with
  | Jan => name "January" "Jan" | Feb => name "February" "Feb" | Mar => name "March" "Mar"
  | Apr => name "April" "Apr" | May => name "May" "May" | Jun => name "June" "Jun"
  | Jul => name "July" "Jul" | Aug => name "August" "Aug" | Sep => name "September" "Sep"
  | Oct => name "October" "Oct" | Nov => name "November" "Nov" | Dec => name "December" "Dec"
  | Inv_Month => "---"
  end%string.

Definition isEqualTo (d e : vscpdatetime) : bool := toSysTime d =? toSysTime e.
Definition isEarlierThan (d e : vscpdatetime) : bool := toSysTime d <? toSysTime e.
Definition isLaterThan (d e : vscpdatetime) : bool := toSysTime e <? toSysTime d.
Definition isStrictlyBetween (d t1 t2 : vscpdatetime) : bool := isLaterThan d t1 && isEarlierThan d t2.
Definition isBetween (d t1 t2 : vscpdatetime) : bool := isEqualTo d t1 || isEqualTo d t2 || isStrictlyBetween d t1 t2.
Definition isSameDate (d e : vscpdatetime) : bool :=
  (getYear e =? getYear d) && (tm_mon (getTimeStruct e) =? tm_mon (getTimeStruct d)) && (getDay e =? getDay d).
Definition isSameTime (d e : vscpdatetime) : bool :=
  (getHour e =? getHour d) && (getMinute e =? getMinute d) && (getSecond e =? getSecond d).
Definition diffSeconds (t1 t2 : vscpdatetime) : Z := toSysTime t1 - toSysTime t2.

(** ** Time zones

    [mktime] and [localtime] are the C library's, for the zone of the machine. *)

Definition tzOffset2LocalTime (mktime : tm -> Z) (rawtime : Z) : Z := rawtime - mktime (gmtime rawtime).

Definition tz_offset_second (localtime : Z -> tm) (t : Z) : Z :=
  let local := localtime t in
  let utc := gmtime t in
  let diff := ((tm_hour local - tm_hour utc) * 60 + (tm_min local - tm_min utc)) * 60 + (tm_sec local - tm_sec utc) in
  let delta_day := tm_mday local - tm_mday utc in
  if (delta_day =? 1) || (delta_day <? -1) then diff + 24 * 60 * 60
  else if (delta_day =? -1) || (1 <? delta_day) then diff - 24 * 60 * 60
  else diff.

(** ** Lemmas: the broken-down time of a date *)

Lemma gmtime_date y m d s :
  valid_date y m d -> 0 <= s < 86400 ->
  gmtime (civil_day y m d * 86400 + s) = Tm (y - 1900) (m - 1) d (s / 3600) (s mod 3600 / 60) (s mod 60).
Proof.
  intros Hv Hs. destruct (valid_date_fits y m d Hv) as (H1 & H2 & H3 & H4). destruct Hv as [Hm Hd]. unfold gmtime.
  set (day := civil_day y m d).
  assert (E1 : (day * 86400 + s) / 86400 = day) by dlia.
  assert (E2 : (day * 86400 + s) mod 86400 = s) by dlia.
  assert (E3 : (day * 86400 + s) mod 3600 = s mod 3600) by dlia.
  assert (E4 : (day * 86400 + s) mod 60 = s mod 60) by dlia.
  rewrite E1, E2, E3, E4. unfold day, civil_day. clear E1 E2 E3 E4 day.
  set (yoe := shift_year y m mod 400) in *. set (doy := march_month (shift_month m) + d - 1) in *.
  assert (Hyoe : 0 <= yoe < 400) by (subst yoe; dlia).
  assert (Hb : 0 <= march_year yoe + doy <= 146096) by (unfold march_year in *; destruct (Z.eqb_spec yoe 399); dlia).
  replace (shift_year y m / 400 * 146097 + march_year yoe + march_month (shift_month m) + d - 1 - 719468 + 719468)
    with (shift_year y m / 400 * 146097 + (march_year yoe + doy)) by (subst doy; lia).
  rewrite Z.div_add_l, (Z.div_small (march_year yoe + doy)) by lia.
  rewrite (Z.add_comm (_ * 146097)), Z.mod_add, (Z.mod_small (march_year yoe + doy)) by lia.
  rewrite (era_year_spec yoe) by lia.
  replace (march_year yoe + doy - march_year yoe) with doy by lia. cbv zeta.
  subst doy. rewrite march_month_inv by lia.
  replace (if shift_month m <? 10 then _ else _) with m.
  2: { unfold shift_month. destruct (Z.ltb_spec 2 m); [destruct (Z.ltb_spec (m - 3) 10)|destruct (Z.ltb_spec (m + 9) 10)]; lia. }
  f_equal; [|lia]. replace (yoe + (shift_year y m / 400 + 0) * 400) with (shift_year y m) by (subst yoe; dlia).
  unfold shift_year. destruct (m <=? 2); lia.
Qed.

(** Every day has a date. *)
Lemma civil_exists z : exists y m d, valid_date y m d /\ civil_day y m d = z.
Proof.
  destruct (era_year_exists ((z + 719468) mod 146097)) as (yoe & Hy & Hr); [dlia|].
  set (era := (z + 719468) / 146097). set (doe := (z + 719468) mod 146097) in *.
  rewrite year_length in Hr by lia. set (doy := doe - march_year yoe).
  set (mp := (5 * doy + 2) / 153). set (m := if mp <? 10 then mp + 3 else mp - 9).
  assert (Hdoy : 0 <= doy <= 364 + (if leap (yoe + 1) then 1 else 0)) by (subst doy; lia).
  assert (Hmp : 0 <= mp <= 11) by (subst mp; destruct (leap (yoe + 1)); dlia).
  assert (Sm : 1 <= m <= 12 /\ shift_month m = mp).
  { subst m. unfold shift_month. destruct (Z.ltb_spec mp 10); [destruct (Z.ltb_spec 2 (mp + 3))|destruct (Z.ltb_spec 2 (mp - 9))]; lia. }
  set (y := era * 400 + yoe + (if m <=? 2 then 1 else 0)).
  assert (Sy : shift_year y m = era * 400 + yoe) by (unfold shift_year, y; lia).
  exists y, m, (doy - march_month mp + 1). split; [split; [apply Sm|]|].
  - assert (L : m = 2 -> leap y = leap (yoe + 1)).
    { intros M. subst y. rewrite M. change (if 2 <=? 2 then 1 else 0) with 1.
      rewrite <- leap_mod, (Z.add_comm (era * 400)), Z.mod_add, Z.mod_small by lia. reflexivity. }
    assert (Emp : 153 * mp <= 5 * doy + 2 < 153 * (mp + 1)) by (subst mp; clearbody doy; clear; dlia).
    clearbody doy. clear Sy Hr Sm. unfold month_days, march_month. revert L. subst m. clearbody y mp.
    assert (mp = 0 \/ mp = 1 \/ mp = 2 \/ mp = 3 \/ mp = 4 \/ mp = 5 \/ mp = 6 \/ mp = 7 \/ mp = 8 \/ mp = 9 \/ mp = 10 \/ mp = 11) as C by lia.
    clear Hmp. repeat destruct C as [->|C]; try subst mp; eval_cmp;
      intros L; try rewrite (L eq_refl); destruct (leap (yoe + 1)); dlia.
  - unfold civil_day. rewrite Sy. destruct Sm as [_ ->]. rewrite Z.div_add_l, (Z.div_small yoe) by lia.
    rewrite (Z.add_comm (era * 400)), Z.mod_add, (Z.mod_small yoe) by lia.
    assert (z + 719468 = 146097 * era + doe) by (apply Z.div_mod; lia). subst doy. lia.
Qed.

Lemma civil_split t : exists y m d s, valid_date y m d /\ 0 <= s < 86400 /\ t = civil_day y m d * 86400 + s /\
  gmtime t = Tm (y - 1900) (m - 1) d (s / 3600) (s mod 3600 / 60) (s mod 60).
Proof.
  destruct (civil_exists (t / 86400)) as (y & m & d & Hv & E). exists y, m, d, (t mod 86400).
  assert (T : t = civil_day y m d * 86400 + t mod 86400) by (rewrite E; dlia).
  split; [exact Hv|]. split; [dlia|]. split; [exact T|]. rewrite T at 1. apply gmtime_date; [exact Hv|dlia].
Qed.

Lemma valid_day y m d : valid_date y m d -> 1 <= m <= 12 /\ 1 <= d <= 31.
Proof. intros [Hm Hd]. unfold month_days in Hd. split; [exact Hm|]. repeat case_match; lia. Qed.

(** ** Lemmas: Julian day numbers *)

Lemma julian_of_date y m d : valid_date y m d -> 1583 <= y -> ymdToJd y m d = civil_day y m d + 2440588.
Proof.
  intros Hv Hy. destruct (valid_day y m d Hv) as [Hm Hd]. unfold ymdToJd, civil_day.
  rewrite (proj2 (Z.ltb_ge y 0)), (proj2 (Z.ltb_lt 0 y)) by lia.
  assert (K : forall Y M, 1582 <= Y -> 3 <= M <= 14 -> (1583 <= Y \/ 13 <= M) ->
    (if 15821015 <=? Y * 10000 + M * 100 + d then 2 - Z.quot Y 100 + Z.quot (Z.quot Y 100) 4 else 0) = 2 - Y / 100 + Y / 400 /\
    Z.quot (1461 * Y - 0) 4 = 365 * Y + Y / 4 /\ Z.quot (306001 * (M + 1)) 10000 = 122 + march_month (M - 3)).
  { intros Y M HY HM HYM. rewrite (proj2 (Z.leb_le _ _)) by lia. rewrite !Z.quot_div_nonneg by dlia.
    unfold march_month. split_and!; [dlia|dlia|].
    assert (M = 3 \/ M = 4 \/ M = 5 \/ M = 6 \/ M = 7 \/ M = 8 \/ M = 9 \/ M = 10 \/ M = 11 \/ M = 12 \/ M = 13 \/ M = 14) as C by lia.
    repeat destruct C as [->|C]; try subst M; reflexivity. }
  unfold shift_year, shift_month. destruct (Z.leb_spec m 2) as [M|M].
  - cbv beta iota zeta. destruct (K (y - 1) (m + 12)) as (-> & -> & ->); [lia..|]. rewrite (proj2 (Z.ltb_ge 2 m)) by lia.
    replace (m + 12 - 3) with (m + 9) by lia. unfold march_year. dlia.
  - cbv beta iota zeta. destruct (K y m) as (-> & -> & ->); [lia..|]. rewrite (proj2 (Z.ltb_lt 2 m)) by lia. rewrite Z.sub_0_r. unfold march_year. dlia.
Qed.

(** What setFromJulian makes of the Julian day number of a date. *)
Definition julian_date (z : Z) : Z * Z * Z :=
  let alpha := (4 * z - 7468865) / 146097 in
  let b := z + 1 + alpha - alpha / 4 + 1524 in
  let c := (20 * b - 2442) / 7305 in
  let dd := 1461 * c / 4 in
  let e := 10000 * (b - dd) / 306001 in
  ((if e <? 14 then c - 4716 else c - 4715), (if e <? 14 then e - 1 else e - 13), b - dd - 306001 * e / 10000).

(** The days of a month, counted from March, and of the year before them. *)
Lemma month_of_doy mp d : 0 <= mp <= 11 -> 1 <= d <= march_days mp ->
  10000 * (march_month mp + d - 1 + 123) / 306001 = mp + 4 /\ 306001 * (mp + 4) / 10000 = march_month mp + 122.
Proof.
  intros Hm Hd.
  assert (mp = 0 \/ mp = 1 \/ mp = 2 \/ mp = 3 \/ mp = 4 \/ mp = 5 \/ mp = 6 \/ mp = 7 \/ mp = 8 \/ mp = 9 \/ mp = 10 \/ mp = 11) as C by lia.
  unfold march_month, march_days in *. clear Hm. repeat destruct C as [->|C]; try subst mp; eval_cmp; dlia.
Qed.

Lemma leap_parts g i k l : 0 <= i < 4 -> 0 <= k < 25 -> 0 <= l < 4 ->
  leap (400 * g + 100 * i + 4 * k + l + 1) = true -> l = 3 /\ (k < 24 \/ i = 3).
Proof.
  intros Hi Hk Hl L. unfold leap in L. apply andb_prop in L as [L1%Z.eqb_eq L2]. apply orb_prop in L2.
  assert (l = 3) as -> by dlia. split; [reflexivity|]. destruct L2 as [L2|L2%Z.eqb_eq]; [|dlia].
  destruct (Z.eqb_spec ((400 * g + 100 * i + 4 * k + 3 + 1) mod 100) 0) as [_|N]; [discriminate L2|]. dlia.
Qed.

Lemma julian_date_spec y m d : valid_date y m d -> 1583 <= y <= 9999 -> julian_date (civil_day y m d + 2440588) = (y, m, d).
Proof.
  intros Hv Hy. destruct (valid_date_fits y m d Hv) as (H1 & H2 & H3 & H4). destruct Hv as [Hm Hd].
  rewrite year_length in H2 by dlia. rewrite leap_mod in H2. unfold civil_day.
  assert (EY : exists g i k l, shift_year y m = 400 * g + 100 * i + 4 * k + l /\ 0 <= i < 4 /\ 0 <= k < 25 /\ 0 <= l < 4 /\ 3 <= g <= 25).
  { assert (HY : 1582 <= shift_year y m <= 9999) by (unfold shift_year; destruct (m <=? 2); lia). set (Y := shift_year y m) in *. clearbody Y.
    exists (Y / 400), (Y mod 400 / 100), (Y mod 100 / 4), (Y mod 4). clear -HY. split_and!; dlia. }
  destruct EY as (g & i & k & l & EY & Hi & Hk & Hl & Hg). pose proof (leap_parts g i k l Hi Hk Hl) as L. rewrite <- EY in L.
  set (doy := march_month (shift_month m) + d - 1) in *.
  assert (D : 0 <= doy <= 365 /\ (doy = 365 -> l = 3 /\ (k < 24 \/ i = 3))).
  { split; [lia|]. intros E. apply L. destruct (leap _); [reflexivity|lia]. }
  assert (Ez : shift_year y m / 400 * 146097 + march_year (shift_year y m mod 400) + march_month (shift_month m) + d - 1 - 719468 + 2440588
    = 146097 * g + 36524 * i + 1461 * k + 365 * l + doy + 1721120).
  { subst doy. rewrite EY. clear -Hi Hk Hl. unfold march_year. dlia. }
  rewrite Ez. unfold julian_date. set (z := 146097 * g + _ + _ + _ + _ + _).
  assert (Ea : (4 * z - 7468865) / 146097 = 4 * g + i - 4) by (subst z; clearbody doy; clear -Hi Hk Hl D; dlia).
  rewrite Ea. replace ((4 * g + i - 4) / 4) with (g - 1) by dlia.
  set (b := z + 1 + (4 * g + i - 4) - (g - 1) + 1524).
  assert (Eb : b = 146100 * g + 36525 * i + 1461 * k + 365 * l + doy + 1722642) by (subst b z; lia).
  assert (Ec : (20 * b - 2442) / 7305 = shift_year y m + 4716) by (rewrite Eb, EY; clearbody doy; clear -Hi Hk Hl D; dlia).
  rewrite Ec. replace (b - 1461 * (shift_year y m + 4716) / 4) with (doy + 123) by (rewrite Eb, EY; clearbody doy; clear -Hi Hk Hl; dlia).
  destruct (month_of_doy (shift_month m) d H3 ltac:(lia)) as [M1 M2]. subst doy. rewrite M1, M2.
  assert (Sm : (shift_month m + 4 <? 14) = negb (m <=? 2)).
  { unfold shift_month. destruct (Z.leb_spec m 2), (Z.ltb_spec 2 m); lia. }
  rewrite Sm. unfold shift_month, shift_year. destruct (Z.leb_spec m 2), (Z.ltb_spec 2 m); try lia; cbn [negb]; do 2 f_equal; lia.
Qed.

(** ** Lemmas: the object *)

(** [int64_t], and the times whose subseconds count upwards. *)
Definition is_int64 (x : Z) : Prop := - 2 ^ 63 <= x < 2 ^ 63.
Definition regular (d : vscpdatetime) : Prop := is_int64 (m_timestamp d) /\ (0 <= m_timestamp d \/ m_timestamp d mod NS_PER_SECOND = 0).

Lemma int64_ok x : is_int64 x -> int64 x = Some x.
Proof. intros H. unfold int64, is_int64 in *. rewrite (proj2 (Z.leb_le _ _)), (proj2 (Z.ltb_lt _ _)) by lia. reflexivity. Qed.
Lemma int64_none x : 2 ^ 63 <= x \/ x < - 2 ^ 63 -> int64 x = None.
Proof. intros H. unfold int64. destruct (Z.leb_spec (- 2 ^ 63) x), (Z.ltb_spec x (2 ^ 63)); try reflexivity; lia. Qed.

Lemma truncated_parts x : 0 <= x \/ x mod 1000000000 = 0 ->
  Z.quot x 1000000000 = x / 1000000000 /\ u32 (Z.rem x 1000000000) = x mod 1000000000.
Proof. intros H. unfold u32. change (2 ^ 32) with 4294967296. destruct H; split; dlia. Qed.

Lemma regular_parts d : regular d -> seconds_of d = m_timestamp d / NS_PER_SECOND /\ getNanoSeconds d = m_timestamp d mod NS_PER_SECOND.
Proof. intros [_ H]. exact (truncated_parts _ H). Qed.

Lemma seconds_bound d : is_int64 (m_timestamp d) -> -9223372036 <= seconds_of d <= 9223372036.
Proof.
  intros [H1 H2]. unfold seconds_of. split.
  - replace (-9223372036) with (Z.quot (- 2 ^ 63) NS_PER_SECOND) by reflexivity. apply Z.quot_le_mono; [reflexivity|exact H1].
  - replace 9223372036 with (Z.quot (2 ^ 63) NS_PER_SECOND) by reflexivity. apply Z.quot_le_mono; [reflexivity|apply Z.lt_le_incl, H2].
Qed.

Lemma some_bind {A B} (a : A) (f : A -> option B) : (Some a ≫= f) = f a.
Proof. reflexivity. Qed.

Lemma set_struct t ns : is_int64 (timegm t * NS_PER_SECOND) -> is_int64 (timegm t * NS_PER_SECOND + ns) ->
  setFromTimeStruct t ns = Some (VscpDateTime (timegm t * NS_PER_SECOND + ns)).
Proof. intros H1 H2. unfold setFromTimeStruct. rewrite (int64_ok _ H1), some_bind, (int64_ok _ H2), some_bind. reflexivity. Qed.

(** The years that fit. *)
Lemma civil_day_bound y m d : valid_date y m d ->
  146097 * (y - 1) <= 400 * (civil_day y m d + 719468) + 800 /\ 400 * (civil_day y m d + 719468) <= 146097 * (y + 1) + 800.
Proof.
  intros Hv. destruct (valid_date_fits y m d Hv) as (H1 & H2 & H3 & H4). destruct Hv as [Hm Hd]. unfold civil_day.
  rewrite year_length in H2 by dlia. set (doy := march_month (shift_month m) + d - 1) in *.
  replace (shift_year y m / 400 * 146097 + march_year (shift_year y m mod 400) + march_month (shift_month m) + d - 1 - 719468 + 719468)
    with (shift_year y m / 400 * 146097 + march_year (shift_year y m mod 400) + doy) by (subst doy; lia).
  assert (HY : y - 1 <= shift_year y m <= y) by (unfold shift_year; destruct (m <=? 2); lia).
  set (Y := shift_year y m) in *. clearbody Y doy. clear -H1 HY.
  pose proof (Z.div_mod Y 400 ltac:(lia)) as D. pose proof (Z.mod_pos_bound Y 400 ltac:(lia)). unfold march_year.
  set (a := Y / 400) in *. set (r := Y mod 400) in *. clearbody a r. dlia.
Qed.

Lemma timegm_civil y m d h mi s : 1 <= m <= 12 -> timegm (Tm (y - 1900) (m - 1) d h mi s) = civil_day y m d * 86400 + h * 3600 + mi * 60 + s.
Proof.
  intros Hm. unfold timegm. cbn [tm_year tm_mon tm_mday tm_hour tm_min tm_sec].
  rewrite (Z.div_small (m - 1)), (Z.mod_small (m - 1)) by lia.
  replace (y - 1900 + 1900 + 0) with y by lia. replace (m - 1 + 1) with m by lia. unfold civil_day. lia.
Qed.

(** The date of an object. *)
Lemma date_of d : is_int64 (m_timestamp d) -> exists y m dd s,
  valid_date y m dd /\ 1677 <= y <= 2263 /\ 0 <= s < 86400 /\ seconds_of d = civil_day y m dd * 86400 + s /\
  getTimeStruct d = Tm (y - 1900) (m - 1) dd (s / 3600) (s mod 3600 / 60) (s mod 60).
Proof.
  intros Hd. destruct (civil_split (seconds_of d)) as (y & m & dd & s & Hv & Hs & E & G). exists y, m, dd, s.
  split; [exact Hv|]. split; [|split; [exact Hs|split; [exact E|exact G]]].
  pose proof (seconds_bound d Hd). pose proof (civil_day_bound y m dd Hv). lia.
Qed.

Lemma julian_day_number d : is_int64 (m_timestamp d) -> getJulian d = seconds_of d / 86400 + 2440588.
Proof.
  intros Hd. destruct (date_of d Hd) as (y & m & dd & s & Hv & Hy & Hs & E & G). unfold getJulian. rewrite G. cbn [tm_year tm_mon tm_mday].
  replace (y - 1900 + 1900) with y by lia. replace (m - 1 + 1) with m by lia.
  rewrite julian_of_date by (auto; lia). rewrite E. dlia.
Qed.

Lemma from_julian y m dd d : valid_date y m dd -> 1584 <= y <= 9999 ->
  setFromJulian (civil_day y m dd + 2440588) d =
  setFromTimeStruct (Tm (y - 1900) (m - 1) dd (tm_hour (getTimeStruct d)) (tm_min (getTimeStruct d)) (tm_sec (getTimeStruct d))) (getNanoSeconds d).
Proof.
  intros Hv Hy. pose proof (julian_date_spec y m dd Hv ltac:(lia)) as J. pose proof (civil_day_bound y m dd Hv) as B.
  destruct (valid_day y m dd Hv) as [Hm Hdd]. unfold setFromJulian, julian_date in *. set (z := civil_day y m dd + 2440588) in *.
  assert (Hz : 2299161 <= z <= 5400000) by (subst z; lia). clearbody z. rewrite (proj2 (Z.ltb_ge z 2299161)) by lia. cbv zeta in *.
  assert (Q : forall a n, 0 <= a -> 0 < n -> Z.quot a n = a / n) by (intros; apply Z.quot_div_nonneg; lia).
  set (alpha := (4 * z - 7468865) / 146097) in *. assert (Ha : 0 <= alpha <= 150) by (subst alpha; dlia).
  rewrite (Q (4 * z - 7468865)) by lia. fold alpha. rewrite (Q alpha) by lia.
  set (b := z + 1 + alpha - alpha / 4 + 1524) in *. assert (Hb : 2300000 <= b <= 5500000) by (subst b; dlia). clearbody alpha b.
  rewrite (Q (20 * b - 2442)) by lia. set (c := (20 * b - 2442) / 7305) in *. assert (Hc : 20 * b - 2442 - 7305 < 7305 * c <= 20 * b - 2442) by (subst c; dlia). clearbody c.
  rewrite (Q (1461 * c)) by lia. set (q := 1461 * c / 4) in *. assert (Hq : 1461 * c - 4 < 4 * q <= 1461 * c) by (subst q; dlia). clearbody q.
  rewrite (Q (10000 * (b - q))) by lia. set (e := 10000 * (b - q) / 306001) in *. assert (He : 4 <= e <= 15) by (assert (123 <= b - q <= 488) by lia; subst e; dlia). clearbody e.
  rewrite (Q (306001 * e)) by lia. injection J as J1 J2 J3.
  assert (Em : u8 (if e <? 14 then e - 1 else e - 13) = m) by (rewrite J2; apply u8_id; unfold is_u8; lia). rewrite Em.
  replace (s32 b - q - 306001 * e / 10000) with dd by (rewrite s32_id by lia; lia). rewrite (u8_id dd) by (unfold is_u8; lia).
  assert (Ey : (if 2 <? m then c - 4716 else c - 4715) = y).
  { clear Em. revert J1 J2. destruct (Z.ltb_spec e 14), (Z.ltb_spec 2 m); lia. }
  rewrite Ey, (u16_id y) by (unfold is_u16; lia). rewrite (proj2 (Z.leb_gt y 0)) by lia. reflexivity.
Qed.

(** The fields of the time of day. *)
Lemma time_of_day s : 0 <= s < 86400 -> s / 3600 * 3600 + s mod 3600 / 60 * 60 + s mod 60 = s /\
  0 <= s / 3600 <= 23 /\ 0 <= s mod 3600 / 60 <= 59 /\ 0 <= s mod 60 <= 59.
Proof. intros H. split_and!; dlia. Qed.

Lemma time_fields h mi s : 0 <= h < 24 -> 0 <= mi < 60 -> 0 <= s < 60 ->
  let t := h * 3600 + mi * 60 + s in 0 <= t < 86400 /\ t / 3600 = h /\ t mod 3600 / 60 = mi /\ t mod 60 = s.
Proof. intros H1 H2 H3. cbv zeta. split_and!; dlia. Qed.

Lemma store_struct t ns x : timegm t * NS_PER_SECOND + ns = x -> is_int64 (timegm t * NS_PER_SECOND) -> is_int64 x ->
  store t ns = Some (true, VscpDateTime x).
Proof. intros <- H1 H2. unfold store. rewrite set_struct, some_bind by assumption. reflexivity. Qed.

Lemma set_valid y m dd h mi s ms d :
  valid_date y m dd -> 0 <= h < 24 -> 0 <= mi < 60 -> 0 <= s < 60 ->
  set y m dd h mi s ms d = store (Tm (y - 1900) (m - 1) dd h mi s) (u32 (ms * NS_PER_MILLISECOND)).
Proof.
  intros Hv Hh Hmi Hs. destruct (valid_day y m dd Hv) as [Hm Hd]. unfold set.
  rewrite (proj2 (Z.eqb_neq m 0)), (proj2 (Z.ltb_ge 12 m)), (proj2 (Z.eqb_neq dd 0)), (proj2 (Z.ltb_ge 31 dd)), (proj2 (Z.ltb_ge 23 h)),
    (proj2 (Z.ltb_ge 59 mi)), (proj2 (Z.ltb_ge 59 s)) by lia. reflexivity.
Qed.

(** Seconds whose nanoseconds fit. *)
Lemma seconds_int64 x ns : -9223372036 <= x -> 0 <= ns < 1000000000 -> x * NS_PER_SECOND + ns < 2 ^ 63 ->
  is_int64 (x * NS_PER_SECOND) /\ is_int64 (x * NS_PER_SECOND + ns).
Proof. unfold is_int64, NS_PER_SECOND. change (2 ^ 63) with 9223372036854775808. lia. Qed.

(** ** Properties *)

(** What the seconds and nanoseconds of a time are together more than the time: nothing,
    but 2^32 nanoseconds before 1970 if it has a fraction of a second, which
    getNanoSeconds turns into a large unsigned number. *)
Definition surplus (d : vscpdatetime) : Z :=
  if (m_timestamp d <? 0) && negb (m_timestamp d mod NS_PER_SECOND =? 0) then 2 ^ 32 else 0.

Lemma time_parts d : m_timestamp d + surplus d = seconds_of d * NS_PER_SECOND + getNanoSeconds d /\ 0 <= getNanoSeconds d < 2 ^ 32.
Proof.
  unfold surplus, seconds_of, getNanoSeconds, NS_PER_SECOND. generalize (m_timestamp d). intros x. unfold u32.
  split; [|apply Z.mod_pos_bound; reflexivity]. change (2 ^ 32) with 4294967296.
  destruct (Z.ltb_spec x 0), (Z.eqb_spec (x mod 1000000000) 0); cbn [andb negb]; dlia.
Qed.

Lemma regular_surplus d : regular d -> surplus d = 0.
Proof.
  intros [_ R]. unfold surplus. destruct (Z.ltb_spec (m_timestamp d) 0), (Z.eqb_spec (m_timestamp d mod NS_PER_SECOND) 0); cbn [andb negb]; lia.
Qed.

(** C39: adding a number of days to a date adds as many times 24 hours to its time
    stamp, over the calendar of years and months, and keeps the time of day; it keeps
    the subseconds too, but for a date before 1970 with a fraction of a second, which
    moves by 2^32 nanoseconds more, even if no day is added ([surplus]).  The
    time stamp is any int64_t, and the result has to fit in one. *)
Theorem plus_days_spec d n :
  is_int64 (m_timestamp d) -> -9223372036 <= seconds_of d + n * 86400 -> m_timestamp d + n * NS_PER_DAY + surplus d < 2 ^ 63 ->
  plus_days d n = Some (VscpDateTime (m_timestamp d + n * NS_PER_DAY + surplus d)).
Proof.
  intros Hi Hl Hb. destruct (time_parts d) as [Ts Nb].
  destruct (date_of d Hi) as (y0 & m0 & d0 & s & Hv0 & Hy0 & Hs & E & G). unfold plus_days. rewrite (julian_day_number d Hi).
  destruct (time_of_day s Hs) as [T _]. pose proof (seconds_bound d Hi) as Sb.
  assert (Q : seconds_of d / 86400 = civil_day y0 m0 d0) by (rewrite E; clear -Hs; dlia). rewrite Q in *.
  change NS_PER_DAY with (86400 * NS_PER_SECOND) in *. set (N := getNanoSeconds d) in *.
  replace (m_timestamp d + n * (86400 * NS_PER_SECOND) + surplus d) with ((seconds_of d + n * 86400) * NS_PER_SECOND + N) in * by lia. clear Ts.
  unfold NS_PER_SECOND in Hb. change (2 ^ 63) with 9223372036854775808 in Hb. change (2 ^ 32) with 4294967296 in Nb.
  destruct (civil_exists (civil_day y0 m0 d0 + n)) as (y & m & dd & Hv & Ez). pose proof (civil_day_bound y m dd Hv) as B.
  rewrite int64_ok by (unfold is_int64; change (2 ^ 63) with 9223372036854775808; lia). rewrite some_bind.
  replace (civil_day y0 m0 d0 + 2440588 + n) with (civil_day y m dd + 2440588) by lia.
  rewrite from_julian, G by (auto; lia). cbn [tm_hour tm_min tm_sec].
  destruct (valid_day y m dd Hv) as [Hm _].
  assert (Tg : timegm (Tm (y - 1900) (m - 1) dd (s / 3600) (s mod 3600 / 60) (s mod 60)) = seconds_of d + n * 86400)
    by (rewrite timegm_civil by exact Hm; lia).
  rewrite set_struct; rewrite Tg; [reflexivity|..]; unfold is_int64, NS_PER_SECOND; change (2 ^ 63) with 9223372036854775808; lia.
Qed.

(** A date in 2024, and half a second before 1970, which moves though no day is added. *)
Lemma plus_days_spec_witness :
  plus_days (VscpDateTime 1709209845500000000) (-60) = Some (VscpDateTime (1709209845500000000 + -60 * NS_PER_DAY)) /\
  plus_days (VscpDateTime (-500000000)) 0 = Some (VscpDateTime (-500000000 + 2 ^ 32)).
Proof.
  split.
  - apply (plus_days_spec (VscpDateTime 1709209845500000000) (-60)); [split; [discriminate|reflexivity]|discriminate|reflexivity].
  - apply (plus_days_spec (VscpDateTime (-500000000)) 0); [split; [discriminate|reflexivity]|discriminate|reflexivity].
Defined.

(** Every time stamp is a valid date. *)
Lemma isValid_always d : isValid d = true.
Proof.
  unfold isValid, isLeapYear. destruct (civil_split (seconds_of d)) as (y & m & dd & s & Hv & Hs & E & G).
  unfold getTimeStruct. rewrite G. cbn [tm_year tm_mon tm_mday tm_hour tm_min tm_sec].
  destruct (time_of_day s Hs) as (T & T1 & T2 & T3). destruct (valid_day y m dd Hv) as [Hm Hdd]. destruct Hv as [_ Hd].
  rewrite (proj2 (Z.ltb_ge 11 _)), (proj2 (Z.eqb_neq dd 0)), (proj2 (Z.ltb_ge 23 _)), (proj2 (Z.ltb_ge 59 _)), (proj2 (Z.ltb_ge 59 _)) by lia.
  replace (y - 1900 + 1900) with y by lia.
  assert (L : (Z.rem y 4 =? 0) && negb (Z.rem y 100 =? 0) || (Z.rem y 400 =? 0) = leap y).
  { unfold leap. assert (R : forall n, 0 < n -> (Z.rem y n =? 0) = (y mod n =? 0)).
    { intros n Hn. destruct (Z.eqb_spec (Z.rem y n) 0) as [A|A], (Z.eqb_spec (y mod n) 0) as [A'|A']; try reflexivity; exfalso.
      - apply A'. apply Z.rem_divide in A; [|lia]. apply Z.mod_divide; [lia|exact A].
      - apply A. apply Z.mod_divide in A'; [|lia]. apply Z.rem_divide; [lia|exact A']. }
    rewrite !R by lia. destruct (Z.eqb_spec (y mod 4) 0), (Z.eqb_spec (y mod 100) 0), (Z.eqb_spec (y mod 400) 0); try reflexivity; exfalso; dlia. }
  rewrite L. assert (F : nth (Z.to_nat (m - 1)) (if leap y then days_in_month_leapyear else days_in_month_normal) 0 = month_days y m).
  { unfold month_days, days_in_month_leapyear, days_in_month_normal.
    assert (m = 1 \/ m = 2 \/ m = 3 \/ m = 4 \/ m = 5 \/ m = 6 \/ m = 7 \/ m = 8 \/ m = 9 \/ m = 10 \/ m = 11 \/ m = 12) as C by lia.
    repeat destruct C as [->|C]; try subst m; destruct (leap y); reflexivity. }
  rewrite F, (proj2 (Z.ltb_ge _ _)) by lia. reflexivity.
Qed.

Lemma civil_epoch y m d : valid_date y m d -> 1970 <= y -> 0 <= civil_day y m d.
Proof.
  intros Hv Hy. destruct (Z.le_gt_cases 1972 y) as [H|H]; [pose proof (civil_day_bound y m d Hv); lia|].
  destruct (valid_day y m d Hv) as [Hm Hd]. unfold civil_day, shift_year, shift_month, march_year, march_month.
  assert (y = 1970 \/ y = 1971) as [-> | ->] by lia; destruct (Z.leb_spec m 2), (Z.ltb_spec 2 m); try lia; dlia.
Qed.

(** What is set is what the getters return, for every valid date of the years
    1679 to 2261; before 1970 only without milliseconds. *)
Theorem set_fields y m dd h mi s ms d0 :
  valid_date y m dd -> 1679 <= y <= 2261 -> 0 <= h < 24 -> 0 <= mi < 60 -> 0 <= s < 60 -> 0 <= ms < 1000 ->
  1970 <= y \/ ms = 0 ->
  exists d, set y m dd h mi s ms d0 = Some (true, d) /\
    getYear d = y /\ getMonth d = nth (Z.to_nat (m - 1)) months Inv_Month /\ getDay d = dd /\
    getHour d = h /\ getMinute d = mi /\ getSecond d = s /\ getMilliSeconds d = ms /\
    getJulian d = ymdToJd y m dd /\ isValid d = true.
Proof.
  intros Hv Hy Hh Hmi Hs Hms Hc. destruct (valid_day y m dd Hv) as [Hm Hdd]. destruct (time_fields h mi s Hh Hmi Hs) as (T0 & T1 & T2 & T3).
  pose proof (civil_day_bound y m dd Hv) as B. set (S := civil_day y m dd * 86400 + (h * 3600 + mi * 60 + s)).
  assert (Hns : u32 (ms * NS_PER_MILLISECOND) = ms * 1000000) by (apply u32_id; unfold is_u32, NS_PER_MILLISECOND; change (2 ^ 32) with 4294967296; lia).
  assert (S0 : 1970 <= y -> 0 <= S).
  { intros H. subst S. clear -H B Hv T0. pose proof (civil_epoch y m dd Hv H). lia. }
  assert (Sb : -9223372036 <= S <= 9223372035) by (subst S; lia).
  destruct (seconds_int64 S (ms * 1000000)) as [I1 I2]; [lia|lia|unfold NS_PER_SECOND; change (2 ^ 63) with 9223372036854775808; lia|].
  exists (VscpDateTime (S * NS_PER_SECOND + ms * 1000000)). set (d := VscpDateTime _).
  assert (R : regular d).
  { split; [exact I2|]. subst d. cbn [m_timestamp]. unfold NS_PER_SECOND. destruct Hc as [Hc| ->]; [left; specialize (S0 Hc); lia|right].
    rewrite Z.add_0_r. apply Z.mod_mul. discriminate. }
  destruct (regular_parts d R) as [E1 E2].
  assert (Ed : seconds_of d = S) by (rewrite E1; subst d; cbn [m_timestamp]; unfold NS_PER_SECOND; clear -Hms; dlia).
  assert (G : getTimeStruct d = Tm (y - 1900) (m - 1) dd h mi s).
  { unfold getTimeStruct. rewrite Ed. subst S. rewrite gmtime_date by assumption. rewrite T1, T2, T3. reflexivity. }
  split.
  - rewrite set_valid, Hns by assumption. apply store_struct; rewrite ?timegm_civil by exact Hm;
      replace (civil_day y m dd * 86400 + h * 3600 + mi * 60 + s) with S by (subst S; lia); [reflexivity|exact I1|exact I2].
  - unfold getYear, getMonth, getDay, getHour, getMinute, getSecond, getJulian. rewrite G. cbn [tm_year tm_mon tm_mday tm_hour tm_min tm_sec].
    replace (y - 1900 + 1900) with y by lia. replace (m - 1 + 1) with m by lia.
    rewrite u16_id, !u8_id by (unfold is_u16, is_u8; lia). split_and!; try reflexivity; [|apply isValid_always].
    unfold getMilliSeconds, NS_PER_MILLISECOND. unfold getNanoSeconds in E2. subst d. cbn [m_timestamp] in *. clear -Hc S0 Hms.
    unfold NS_PER_SECOND. destruct Hc as [Hc| ->].
    + specialize (S0 Hc). rewrite Z.rem_mod_nonneg, Z.quot_div_nonneg by dlia. width.
    + rewrite Z.add_0_r, Z.rem_mul by discriminate. reflexivity.
Qed.

Lemma set_fields_witness : exists d, set 2024 2 29 23 59 58 999 zeroDate = Some (true, d) /\
  getYear d = 2024 /\ getMonth d = nth (Z.to_nat (2 - 1)) months Inv_Month /\ getDay d = 29 /\
  getHour d = 23 /\ getMinute d = 59 /\ getSecond d = 58 /\ getMilliSeconds d = 999 /\
  getJulian d = ymdToJd 2024 2 29 /\ isValid d = true.
Proof. apply (set_fields 2024 2 29 23 59 58 999 zeroDate); [split; [lia|vm_compute; split; discriminate]|lia..]. Defined.


Lemma three_pad w a b c x y rest :
  0 <= a < 2 ^ 31 -> 0 <= b < 2 ^ 31 -> 0 <= c < 2 ^ 31 -> is_digit 10 x = false -> is_digit 10 y = false -> ends_number 10 rest ->
  three_numbers (pad w a ++ x :: pad 2 b ++ y :: pad 2 c ++ rest) = Some (a, b, c, rest).
Proof.
  intros Ha Hb Hc Hx Hy Hr. unfold three_numbers, number.
  rewrite stoi_pad, some_bind by (first [exact Hx|assumption]). cbn [past]. rewrite some_bind.
  rewrite stoi_pad, some_bind by (first [exact Hy|assumption]). cbn [past]. rewrite some_bind.
  rewrite stoi_pad, some_bind by assumption. reflexivity.
Qed.

(** The ISO string of any time stamp is read back to the second. *)
Theorem iso_roundtrip d d0 b :
  is_int64 (m_timestamp d) ->
  set_string (getISODateTime b d) d0 = Some (true, VscpDateTime (seconds_of d * NS_PER_SECOND)).
Proof.
  intros Hd. destruct (date_of d Hd) as (y & m & dd & s & Hv & Hy & Hs & E & G). destruct (valid_day y m dd Hv) as [Hm Hdd].
  destruct (time_of_day s Hs) as (T & T1 & T2 & T3). unfold set_string, getISODateTime. rewrite G. unfold iso_date, iso_time.
  cbn [tm_year tm_mon tm_mday tm_hour tm_min tm_sec]. replace (y - 1900 + 1900) with y by lia. replace (m - 1 + 1) with m by lia.
  assert (Six : six_numbers ((pad 4 y ++ str "-" ++ pad 2 m ++ str "-" ++ pad 2 dd) ++ (if b then str "T" else str " ") ++
      pad 2 (s / 3600) ++ str ":" ++ pad 2 (s mod 3600 / 60) ++ str ":" ++ pad 2 (s mod 60) ++ str "Z") =
      Some (y, m, dd, s / 3600, s mod 3600 / 60, s mod 60)).
  { rewrite <- !app_assoc. unfold six_numbers.
    assert (Sep : exists c, (if b then str "T" else str " ") = [c] /\ is_digit 10 c = false) by (destruct b; eexists; split; reflexivity).
    destruct Sep as (c & -> & Hc). change (str "-") with [45]. change (str ":") with [58]. change (str "Z") with [90]. cbn [app].
    rewrite three_pad, some_bind by (first [reflexivity|exact Hc|lia]). cbn [past]. rewrite some_bind.
    rewrite three_pad, some_bind by (first [reflexivity|lia]). reflexivity. }
  rewrite Six. rewrite !u16_id, !u8_id by (unfold is_u16, is_u8; lia).
  rewrite set_valid by (auto; lia). apply store_struct.
  - rewrite timegm_civil by exact Hm. rewrite E. change (u32 (0 * NS_PER_MILLISECOND)) with 0. unfold NS_PER_SECOND. lia.
  - rewrite timegm_civil by exact Hm.
    replace (civil_day y m dd * 86400 + s / 3600 * 3600 + s mod 3600 / 60 * 60 + s mod 60) with (seconds_of d) by lia.
    pose proof (seconds_bound d Hd). unfold is_int64, NS_PER_SECOND. change (2 ^ 63) with 9223372036854775808. lia.
  - pose proof (seconds_bound d Hd). unfold is_int64, NS_PER_SECOND. change (2 ^ 63) with 9223372036854775808. lia.
Qed.

Lemma iso_roundtrip_witness :
  set_string (getISODateTime true (VscpDateTime (-1000000001))) zeroDate = Some (true, VscpDateTime (-1000000000)).
Proof. apply (iso_roundtrip (VscpDateTime (-1000000001)) zeroDate true). split; [discriminate|reflexivity]. Defined.

(** A date of the year 2264 or later is not refused but overflows: the time
    stamp of nanoseconds ends on 2262-04-11. *)
Theorem set_overflows y m dd h mi s ms d :
  valid_date y m dd -> 2264 <= y -> 0 <= h < 24 -> 0 <= mi < 60 -> 0 <= s < 60 ->
  set y m dd h mi s ms d = None.
Proof.
  intros Hv Hy Hh Hmi Hs. rewrite set_valid by assumption. destruct (valid_day y m dd Hv) as [Hm _].
  unfold store, setFromTimeStruct. rewrite timegm_civil by exact Hm.
  pose proof (civil_day_bound y m dd Hv). rewrite int64_none; [reflexivity|].
  left. unfold NS_PER_SECOND. change (2 ^ 63) with 9223372036854775808. lia.
Qed.

Lemma set_overflows_witness : set 3000 1 1 0 0 0 0 zeroDate = None.
Proof. apply (set_overflows 3000 1 1 0 0 0 0 zeroDate); [split; [lia|vm_compute; split; discriminate]|lia..]. Defined.

(** Before 1970 a time with a fraction of a second shows the second after
    it, and a number of nanoseconds above 3294967296. *)
Theorem negative_subsecond d : is_int64 (m_timestamp d) -> m_timestamp d < 0 -> m_timestamp d mod NS_PER_SECOND <> 0 ->
  seconds_of d = m_timestamp d / NS_PER_SECOND + 1 /\ getNanoSeconds d = 2 ^ 32 - NS_PER_SECOND + m_timestamp d mod NS_PER_SECOND.
Proof.
  intros [H1 H2]. unfold seconds_of, getNanoSeconds, NS_PER_SECOND. generalize (m_timestamp d). intros x Hx Hn.
  assert (Q : Z.quot x 1000000000 = x / 1000000000 + 1 /\ Z.rem x 1000000000 = x mod 1000000000 - 1000000000) by (split; dlia).
  destruct Q as [-> ->]. split; [reflexivity|]. width.
Qed.

Lemma negative_subsecond_witness :
  seconds_of (VscpDateTime (-500000000)) = -500000000 / NS_PER_SECOND + 1 /\
  getNanoSeconds (VscpDateTime (-500000000)) = 2 ^ 32 - NS_PER_SECOND + -500000000 mod NS_PER_SECOND.
Proof. apply (negative_subsecond (VscpDateTime (-500000000))); [split; [discriminate|reflexivity]|reflexivity|discriminate]. Defined.

(** ** Lemmas: consecutive days *)

Lemma civil_day_flat y m d : let Y := shift_year y m in
  civil_day y m d = 365 * Y + Y / 4 - Y / 100 + Y / 400 + march_month (shift_month m) + d - 1 - 719468.
Proof.
  cbv zeta. unfold civil_day, march_year. set (Y := shift_year y m). clearbody Y.
  pose proof (Z.div_mod Y 400 ltac:(lia)) as D. pose proof (Z.mod_pos_bound Y 400 ltac:(lia)).
  set (a := Y / 400) in *. set (r := Y mod 400) in *. clearbody a r. dlia.
Qed.

Lemma leap_day y : y / 4 - y / 100 + y / 400 - ((y - 1) / 4 - (y - 1) / 100 + (y - 1) / 400) = if leap y then 1 else 0.
Proof. unfold leap. destruct (Z.eqb_spec (y mod 4) 0), (Z.eqb_spec (y mod 100) 0), (Z.eqb_spec (y mod 400) 0); cbn [andb orb negb]; dlia. Qed.

(** The day after a date is the next of the month or the first of another one. *)
Lemma civil_next y m d : valid_date y m d ->
  (valid_date y m (d + 1) /\ civil_day y m (d + 1) = civil_day y m d + 1) \/
  (28 <= d /\ exists y' m', valid_date y' m' 1 /\ civil_day y' m' 1 = civil_day y m d + 1).
Proof.
  intros [Hm Hd]. destruct (Z.eq_dec d (month_days y m)) as [E|E].
  - right. split; [rewrite E; unfold month_days; repeat case_match; lia|].
    exists (if m =? 12 then y + 1 else y), (if m =? 12 then 1 else m + 1). split.
    + destruct (Z.eqb_spec m 12); (split; [lia|]); unfold month_days; repeat case_match; lia.
    + rewrite !civil_day_flat, E. cbv zeta. pose proof (leap_day y) as L. unfold shift_year, shift_month, month_days, march_month.
      assert (m = 1 \/ m = 2 \/ m = 3 \/ m = 4 \/ m = 5 \/ m = 6 \/ m = 7 \/ m = 8 \/ m = 9 \/ m = 10 \/ m = 11 \/ m = 12) as C by lia.
      clear Hm Hd E. repeat destruct C as [->|C]; try subst m; eval_cmp; destruct (leap y); try dlia;
        replace (y + 1 - 1) with (y - 0) by lia; dlia.
  - left. split; [split; [exact Hm|lia]|]. unfold civil_day. lia.
Qed.

Definition mday (z : Z) : Z := tm_mday (gmtime (z * 86400)).

Lemma mday_of t : tm_mday (gmtime t) = mday (t / 86400).
Proof. unfold mday, gmtime. cbn [tm_mday]. rewrite Z.div_mul by lia. reflexivity. Qed.

Lemma mday_date y m d : valid_date y m d -> mday (civil_day y m d) = d.
Proof. intros Hv. unfold mday. rewrite <- (Z.add_0_r (_ * 86400)), gmtime_date by (auto; lia). reflexivity. Qed.

Lemma mday_next z : (mday (z + 1) = mday z + 1 \/ (mday (z + 1) = 1 /\ 28 <= mday z)) /\ 1 <= mday z.
Proof.
  destruct (civil_exists z) as (y & m & d & Hv & <-). rewrite (mday_date y m d Hv). split; [|apply (valid_day y m d Hv)].
  destruct (civil_next y m d Hv) as [(V & <-)|(H & y' & m' & V & <-)]; rewrite mday_date by exact V; auto.
Qed.

Lemma clock_of t : tm_hour (gmtime t) * 3600 + tm_min (gmtime t) * 60 + tm_sec (gmtime t) = t mod 86400.
Proof. unfold gmtime. cbn [tm_hour tm_min tm_sec]. dlia. Qed.

(** Tz_offset_second returns the offset of the zone, in all time zones and
    at the ends of months and years. *)
Theorem tz_offset_correct localtime t offset :
  localtime t = gmtime (t + offset) -> -86400 < offset < 86400 -> tz_offset_second localtime t = offset.
Proof.
  intros L Ho. unfold tz_offset_second. rewrite L. pose proof (clock_of t) as C1. pose proof (clock_of (t + offset)) as C2.
  rewrite !mday_of. set (z := t / 86400). set (z' := (t + offset) / 86400).
  assert (D : (z' = z /\ t mod 86400 + offset = (t + offset) mod 86400) \/ (z' = z + 1 /\ t mod 86400 + offset = (t + offset) mod 86400 + 86400) \/
    (z = z' + 1 /\ t mod 86400 + offset = (t + offset) mod 86400 - 86400)) by (subst z z'; clear -Ho; dlia).
  assert (Df : ((tm_hour (gmtime (t + offset)) - tm_hour (gmtime t)) * 60 + (tm_min (gmtime (t + offset)) - tm_min (gmtime t))) * 60 +
    (tm_sec (gmtime (t + offset)) - tm_sec (gmtime t)) = (t + offset) mod 86400 - t mod 86400) by lia.
  rewrite Df. clearbody z z'. clear L C1 C2 Df. destruct D as [[-> D]|[[-> D]|[-> D]]].
  - rewrite Z.sub_diag. eval_cmp. lia.
  - destruct (mday_next z) as [M P]. destruct (Z.eqb_spec (mday (z + 1) - mday z) 1), (Z.ltb_spec (mday (z + 1) - mday z) (-1)); cbn [orb]; lia.
  - destruct (mday_next z') as [M P].
    destruct (Z.eqb_spec (mday z' - mday (z' + 1)) 1), (Z.ltb_spec (mday z' - mday (z' + 1)) (-1)), (Z.eqb_spec (mday z' - mday (z' + 1)) (-1)),
      (Z.ltb_spec 1 (mday z' - mday (z' + 1))); cbn [orb]; lia.
Qed.

Lemma tz_offset_correct_witness : tz_offset_second (fun t => gmtime (t + -18000)) 1709251200 = -18000.
Proof. apply (tz_offset_correct (fun t => gmtime (t + -18000)) 1709251200 (-18000)); [reflexivity|lia]. Defined.

(** *** Weeks *)

(** The Mondays among the [n] days from [z] on. *)
Fixpoint mondays (z : Z) (n : nat) : Z :=
  match n with O => 0 | S n => mondays z n + (if gm_wday ((z + Z.of_nat n) * 86400) =? 1 then 1 else 0) end.

Lemma mondays_spec z n : mondays z n = (z + 9 + Z.of_nat n) / 7 - (z + 9) / 7.
Proof.
  induction n as [|n IH]; cbn [mondays]; [rewrite Z.add_0_r; lia|]. rewrite IH. unfold gm_wday. rewrite Z.div_mul by lia.
  destruct (Z.eqb_spec ((z + Z.of_nat n + 4) mod 7) 1); rewrite Nat2Z.inj_succ; clear IH; dlia.
Qed.

Lemma yday_range d : is_int64 (m_timestamp d) -> 0 <= gm_yday (seconds_of d) <= 365.
Proof.
  intros Hd. destruct (date_of d Hd) as (y & m & dd & s & Hv & Hy & Hs & E & G). unfold gm_yday. fold (getTimeStruct d). rewrite G.
  cbn [tm_year]. replace (y - 1900 + 1900) with y by lia. assert (Q : seconds_of d / 86400 = civil_day y m dd) by (rewrite E; clear -Hs; dlia).
  rewrite Q, !civil_day_flat. cbv zeta. pose proof (leap_day y) as L. destruct Hv as [Hm Hdd]. clear -L Hm Hdd.
  unfold shift_year, shift_month, month_days, march_month in *.
  assert (m = 1 \/ m = 2 \/ m = 3 \/ m = 4 \/ m = 5 \/ m = 6 \/ m = 7 \/ m = 8 \/ m = 9 \/ m = 10 \/ m = 11 \/ m = 12) as C by lia.
  clear Hm. repeat destruct C as [->|C]; try subst m; eval_cmp; destruct (leap y); try dlia; rewrite Z.sub_0_r; dlia.
Qed.

(** The number of the week is the number of Mondays of the year up to the date:
    the days before the first Monday are in week 0. *)
Theorem week_number_mondays d : is_int64 (m_timestamp d) ->
  getWeekNumber d = mondays (civil_day (tm_year (getTimeStruct d) + 1900) 1 1) (Z.to_nat (getDayOfYear d)).
Proof.
  intros Hd. pose proof (yday_range d Hd) as R. rewrite mondays_spec. unfold getWeekNumber, getDayOfYear, gm_wday. unfold gm_yday in *.
  fold (getTimeStruct d) in *. set (j := civil_day _ 1 1) in *. set (z := seconds_of d / 86400) in *. clearbody j z. unfold DAYS_PER_WEEK.
  rewrite Z2Nat.id by lia. destruct (Z.eqb_spec ((z + 4) mod 7) 0); dlia.
Qed.

Lemma week_number_mondays_witness :
  let d := VscpDateTime 1709209845500000000 in
  getWeekNumber d = mondays (civil_day (tm_year (getTimeStruct d) + 1900) 1 1) (Z.to_nat (getDayOfYear d)).
Proof. apply (week_number_mondays (VscpDateTime 1709209845500000000)). split; [discriminate|reflexivity]. Defined.

(** ** Samples *)

Example date_sample : m_timestamp <$> (snd <$> set 2024 2 29 12 30 45 500 (VscpDateTime 0)) = Some 1709209845500000000.
Proof. reflexivity. Qed.
Example julian_sample : getJulian (VscpDateTime 1709209845500000000) = 2460370.
Proof. reflexivity. Qed.
Example add_sample : m_timestamp <$> plus_days (VscpDateTime 1709209845500000000) 366 = Some (1709209845500000000 + 366 * NS_PER_DAY).
Proof. reflexivity. Qed.
