(* ===== verification/Base64.v ===== *)
(** * Base64: src/src/common/vscpbase64.c and its wrappers in vscphelper.cpp

    Encoding and decoding into the caller's buffer, and the functions on strings,
    which allocate one. *)

From S2P Require Import Prelude Strings.

Definition b64 : list Z := str "ABCDEFGHIJKLMNOPQRSTUVWXYZabcdefghijklmnopqrstuvwxyz0123456789+/".

(** ** Encoding *)

(** The four characters of three bytes. *)
Definition b64_group (a b c : Z) : list Z :=
  map (fun k => nth (Z.to_nat k) b64 0)
    [Z.shiftr a 2; Z.lor (Z.shiftl (Z.land a 3) 4) (Z.shiftr b 4); Z.lor (Z.shiftl (Z.land b 15) 2) (Z.shiftr c 6); Z.land c 63].

(** The characters before the padding. *)
Fixpoint b64_chars (src : list Z) : list Z :=
  match src with
  | [] => []
  | [a] => take 2 (b64_group a 0 0)
  | [a; b] => take 3 (b64_group a b 0)
  | a :: b :: c :: src => b64_group a b c ++ b64_chars src
  end.

Definition b64_padding (j : nat) : list Z := replicate ((4 - j mod 4) mod 4) 61.
Definition b64_text (src : list Z) : list Z := b64_chars src ++ b64_padding (length (b64_chars src)).

(** The buffer after the call, with the terminating zero. *)
Definition vscp_base64_encode (src dst : list Z) : option (list Z) := wr dst 0 (b64_text src ++ [0]).

(** ** Decoding *)

(** 255 is the padding, 254 an error.  A char from 128 on is negative. *)
Definition b64reverse (letter : Z) : Z :=
  if (65 <=? letter) && (letter <=? 90) then letter - 65
  else if (97 <=? letter) && (letter <=? 122) then letter - 97 + 26
  else if (48 <=? letter) && (letter <=? 57) then letter - 48 + 52
  else if letter =? 43 then 62
  else if letter =? 47 then 63
  else if letter =? 61 then 255
  else 254.

(** The loop from [i] on: the result and the bytes that are written.  [n] is a
    bound of the number of groups. *)
Fixpoint b64_decode (n : nat) (i : Z) (src : list Z) : Z * list Z :=
  match src, n with
  | [], _ | _, O => (-1, [])
  | _, S n =>
      let a := b64reverse (nth 0 src 0) in
      let b := b64reverse (nth 1 src 0) in
      let c := b64reverse (nth 2 src 0) in
      let d := b64reverse (nth 3 src 0) in
      if 254 <=? a then (i, [])
      else if 254 <=? b then (i + 1, [])
      else if c =? 254 then (i + 2, [])
      else if d =? 254 then (i + 3, [])
      else
        let bytes := u8 (Z.shiftl a 2 + Z.shiftr b 4) ::
          (if c =? 255 then []
           else u8 (Z.shiftl b 4 + Z.shiftr c 2) :: (if d =? 255 then [] else [u8 (Z.shiftl c 6 + d)])) in
        let '(rv, rest) := b64_decode n (i + 4) (drop 4 src) in (rv, bytes ++ rest)
  end.

(** The result, the buffer and the length. *)
Definition vscp_base64_decode (src dst : list Z) : option (Z * list Z * Z) :=
  let '(rv, bytes) := b64_decode (length src) 0 src in
  dst ← wr dst 0 bytes;
  Some (rv, dst, Z.of_nat (length bytes)).

(** ** The functions on strings

    [None] is a write beyond the buffer that the function allocates.  The results
    of the C functions are not looked at. *)

Definition vscp_base64_std_decode (s : list Z) : option (bool * list Z) :=
  match s with
  | [] => Some (true, [])
  | _ => r ← vscp_base64_decode s (replicate (2 * length s) 0); Some (true, c_str r.1.2)
  end.

Definition vscp_base64_std_encode (s : list Z) : option (bool * list Z) :=
  let s := c_str s in
  buf ← vscp_base64_encode s (replicate (2 * length s) 0);
  Some (true, c_str buf).

Definition vscp_std_decodeBase64IfNeeded (s : list Z) : option (bool * list Z) :=
  let result := vscp_trim s in
  match result with
  | [] => Some (true, [])
  | _ =>
      if starts_with (str "BASE64:") result then
        r ← vscp_base64_std_decode (drop 7 result); Some (true, snd r)
      else Some (true, s)
  end.

Definition vscp_convertToBase64 (s : list Z) : option (list Z) :=
  r ← vscp_base64_std_encode s;
  Some (if fst r : bool then snd r else []).

(** ** Lemmas *)

Definition b64_check (k : Z) : bool :=
  let c := nth (Z.to_nat k) b64 0 in (b64reverse c =? k) && negb (isspace c) && negb (c =? 0) && (c <? 128).

Lemma b64_checked : all_below 64 b64_check = true.
Proof. vm_compute. reflexivity. Qed.

Lemma b64_char k : 0 <= k < 64 ->
  b64reverse (nth (Z.to_nat k) b64 0) = k /\ isspace (nth (Z.to_nat k) b64 0) = false /\ nth (Z.to_nat k) b64 0 <> 0.
Proof.
  intros Hk. assert (T := all_below_spec 64 _ k b64_checked Hk). unfold b64_check in T.
  rewrite !andb_true_iff, !negb_true_iff, Z.eqb_eq, Z.eqb_neq in T. tauto.
Qed.

(** The indices of a group, and the bytes out of them. *)
Lemma b64_values a b c : is_u8 a -> is_u8 b -> is_u8 c ->
  let x := Z.shiftr a 2 in let y := Z.lor (Z.shiftl (Z.land a 3) 4) (Z.shiftr b 4) in
  let z := Z.lor (Z.shiftl (Z.land b 15) 2) (Z.shiftr c 6) in let w := Z.land c 63 in
  0 <= x < 64 /\ 0 <= y < 64 /\ 0 <= z < 64 /\ 0 <= w < 64 /\
  u8 (Z.shiftl x 2 + Z.shiftr y 4) = a /\ u8 (Z.shiftl y 4 + Z.shiftr z 2) = b /\ u8 (Z.shiftl z 6 + w) = c.
Proof.
  intros Ha Hb Hc. cbv zeta. rewrite land_3, land_15, land_63, !Z.shiftr_div_pow2 by lia. rewrite !(Z.shiftl_mul_pow2 (_ mod _)) by lia.
  rewrite (lor_add_disjoint 4), (lor_add_disjoint 2) by width. rewrite !Z.shiftl_mul_pow2 by lia.
  change (2 ^ 2) with 4. change (2 ^ 4) with 16. change (2 ^ 6) with 64. width.
Qed.

Lemma b64_text_group a b c src : b64_text (a :: b :: c :: src) = b64_group a b c ++ b64_text src.
Proof.
  unfold b64_text, b64_padding. cbn [b64_chars]. rewrite length_app, <- app_assoc.
  replace ((length (b64_group a b c) + length (b64_chars src)) mod 4)%nat with (length (b64_chars src) mod 4)%nat; [reflexivity|].
  change (length (b64_group a b c)) with 4%nat. replace (4 + length (b64_chars src))%nat with (length (b64_chars src) + 1 * 4)%nat by lia.
  rewrite Nat.Div0.mod_add. reflexivity.
Qed.

(** Induction by groups of three bytes. *)
Lemma three_ind (P : list Z -> Prop) :
  P [] -> (forall a, P [a]) -> (forall a b, P [a; b]) -> (forall a b c l, P l -> P (a :: b :: c :: l)) -> forall l, P l.
Proof.
  intros H0 H1 H2 H3. assert (G : forall n l, (length l <= n)%nat -> P l).
  { induction n as [|n IH]; intros l Hl; [destruct l; [exact H0|cbn in Hl; lia]|].
    destruct l as [|a [|b [|c l]]]; [exact H0|apply H1|apply H2|]. apply H3, IH. cbn in Hl. lia. }
  intros l. apply (G (length l)). lia.
Qed.

Lemma b64_decode_more n i src : src <> [] -> b64_decode (S n) i src =
  let a := b64reverse (nth 0 src 0) in
  let b := b64reverse (nth 1 src 0) in
  let c := b64reverse (nth 2 src 0) in
  let d := b64reverse (nth 3 src 0) in
  if 254 <=? a then (i, [])
  else if 254 <=? b then (i + 1, [])
  else if c =? 254 then (i + 2, [])
  else if d =? 254 then (i + 3, [])
  else
    let bytes := u8 (Z.shiftl a 2 + Z.shiftr b 4) ::
      (if c =? 255 then []
       else u8 (Z.shiftl b 4 + Z.shiftr c 2) :: (if d =? 255 then [] else [u8 (Z.shiftl c 6 + d)])) in
    let '(rv, rest) := b64_decode n (i + 4) (drop 4 src) in (rv, bytes ++ rest).
Proof. destruct src; [congruence|reflexivity]. Qed.

Lemma below_254 k : 0 <= k < 64 -> (254 <=? k) = false /\ (k =? 254) = false /\ (k =? 255) = false.
Proof. intros Hk. split; [apply Z.leb_gt; lia|]. split; apply Z.eqb_neq; lia. Qed.

Lemma b64_decode_text src n i : bytes_ok src -> (length (b64_text src) <= n)%nat -> b64_decode n i (b64_text src) = (-1, src).
Proof.
  intros Hs. revert n i. induction src as [|a|a b|a b c src IH] using three_ind; intros n i Hn.
  - destruct n; reflexivity.
  - inversion_clear Hs as [|? ? Ha _]. assert (V := b64_values a 0 0 Ha ltac:(width) ltac:(width)). cbv zeta in V.
    destruct n as [|n]; [cbn in Hn; lia|]. rewrite b64_decode_more by discriminate. cbn [b64_text b64_chars b64_group map take app nth].
    destruct V as (X & Y & _ & _ & A & _ & _). change (b64_padding _) with [61; 61]. cbn [app nth].
    rewrite (proj1 (b64_char _ X)), (proj1 (b64_char _ Y)), (proj1 (below_254 _ X)), (proj1 (below_254 _ Y)), A.
    change (b64reverse 61) with 255. cbn. destruct n; reflexivity.
  - inversion_clear Hs as [|? ? Ha Hs']. inversion_clear Hs' as [|? ? Hb _]. assert (V := b64_values a b 0 Ha Hb ltac:(width)). cbv zeta in V.
    destruct n as [|n]; [cbn in Hn; lia|]. rewrite b64_decode_more by discriminate. cbn [b64_text b64_chars b64_group map take app nth].
    destruct V as (X & Y & Z & _ & A & B & _). change (b64_padding _) with [61]. cbn [app nth].
    destruct (below_254 _ Z) as (_ & Z1 & Z2).
    rewrite (proj1 (b64_char _ X)), (proj1 (b64_char _ Y)), (proj1 (b64_char _ Z)), (proj1 (below_254 _ X)), (proj1 (below_254 _ Y)), Z1, Z2, A, B.
    change (b64reverse 61) with 255. cbn. destruct n; reflexivity.
  - inversion_clear Hs as [|? ? Ha Hs']. inversion_clear Hs' as [|? ? Hb Hs'']. inversion_clear Hs'' as [|? ? Hc Hs].
    assert (V := b64_values a b c Ha Hb Hc). cbv zeta in V. rewrite b64_text_group in Hn |- *.
    destruct n as [|n]; [cbn in Hn; lia|]. rewrite b64_decode_more by discriminate. unfold b64_group at 1 2 3 4. cbn [map app nth].
    destruct V as (X & Y & Z & W & A & B & C). destruct (below_254 _ Z) as (_ & Z1 & Z2). destruct (below_254 _ W) as (_ & W1 & W2).
    rewrite (proj1 (b64_char _ X)), (proj1 (b64_char _ Y)), (proj1 (b64_char _ Z)), (proj1 (b64_char _ W)),
      (proj1 (below_254 _ X)), (proj1 (below_254 _ Y)), Z1, Z2, W1, W2, A, B, C. cbv zeta.
    change (drop 4 (b64_group a b c ++ b64_text src)) with (b64_text src). rewrite IH by (exact Hs || (cbn in Hn; lia)). reflexivity.
Qed.

Lemma length_b64_text src : length (b64_text src) = (4 * ((length src + 2) / 3))%nat.
Proof.
  induction src as [|a|a b|a b c src IH] using three_ind; try reflexivity.
  rewrite b64_text_group, length_app, IH. change (length (b64_group a b c)) with 4%nat. cbn [length].
  replace (S (S (S (length src))) + 2)%nat with (length src + 2 + 1 * 3)%nat by lia. rewrite Nat.div_add by lia. lia.
Qed.

(** The characters of the text are no blanks and no zeros. *)
Definition b64_ok (s : list Z) : Prop := Forall (fun c => isspace c = false /\ c <> 0) s.

Lemma b64_group_ok a b c : is_u8 a -> is_u8 b -> is_u8 c -> b64_ok (b64_group a b c).
Proof.
  intros Ha Hb Hc. destruct (b64_values a b c Ha Hb Hc) as (X & Y & Z & W & _). unfold b64_ok, b64_group. cbn [map].
  constructor; [exact (proj2 (b64_char _ X))|]. constructor; [exact (proj2 (b64_char _ Y))|].
  constructor; [exact (proj2 (b64_char _ Z))|]. constructor; [exact (proj2 (b64_char _ W))|constructor].
Qed.

Lemma b64_text_ok src : bytes_ok src -> b64_ok (b64_text src).
Proof.
  assert (E : b64_ok [61; 61]) by (repeat (constructor; [split; [reflexivity|discriminate]|]); constructor).
  intros Hs. induction src as [|a|a b|a b c src IH] using three_ind.
  - constructor.
  - inversion_clear Hs as [|? ? Ha _]. apply Forall_app. split; [|exact E].
    apply list.Forall_take; exact (b64_group_ok a 0 0 Ha ltac:(width) ltac:(width)).
  - inversion_clear Hs as [|? ? Ha Hs']. inversion_clear Hs' as [|? ? Hb _]. apply Forall_app. split; [|exact (Forall_inv_tail E)].
    apply list.Forall_take; exact (b64_group_ok a b 0 Ha Hb ltac:(width)).
  - inversion_clear Hs as [|? ? Ha Hs']. inversion_clear Hs' as [|? ? Hb Hs'']. inversion_clear Hs'' as [|? ? Hc Hs].
    rewrite b64_text_group. apply Forall_app. split; [apply b64_group_ok; assumption|exact (IH Hs)].
Qed.


Lemma b64_no_zero s : b64_ok s -> 0 ∉ s.
Proof. intros H I. exact (proj2 (proj1 (list.Forall_forall _ _) H 0 I) eq_refl). Qed.

(** The text in a buffer that it fits into. *)
Lemma encode_in_buffer src dst : bytes_ok src -> (length (b64_text src) < length dst)%nat ->
  exists dst', vscp_base64_encode src dst = Some dst' /\ c_str dst' = b64_text src.
Proof.
  intros Hs Hd. eexists. split.
  - unfold vscp_base64_encode. rewrite wr_front by (rewrite length_app; cbn; lia). reflexivity.
  - rewrite <- app_assoc. apply c_str_terminated, b64_no_zero, b64_text_ok, Hs.
Qed.

Lemma decode_in_buffer src out : bytes_ok src -> (length src <= length out)%nat ->
  vscp_base64_decode (b64_text src) out = Some (-1, src ++ drop (length src) out, Z.of_nat (length src)).
Proof.
  intros Hs Ho. unfold vscp_base64_decode. rewrite b64_decode_text by (exact Hs || lia).
  rewrite wr_front by lia. reflexivity.
Qed.

Lemma std_decode_more s : s <> [] ->
  vscp_base64_std_decode s = r ← vscp_base64_decode s (replicate (2 * length s) 0); Some (true, c_str r.1.2).
Proof. destruct s; [congruence|reflexivity]. Qed.

(** ** Properties *)

(** Any bytes that are encoded, into a buffer with room for four characters
    for each three bytes and the terminating zero, are decoded again: the result
    says that all of the text was read, the length is theirs, and nothing else of
    the buffer changes. *)
Theorem base64_roundtrip src dst out : bytes_ok src ->
  4 * ((Z.of_nat (length src) + 2) / 3) < Z.of_nat (length dst) -> (length src <= length out)%nat ->
  exists dst', vscp_base64_encode src dst = Some dst' /\
    vscp_base64_decode (c_str dst') out = Some (-1, src ++ drop (length src) out, Z.of_nat (length src)).
Proof.
  intros Hs Hd Ho. destruct (encode_in_buffer src dst Hs) as (dst' & E & C).
  { rewrite length_b64_text. apply Nat2Z.inj_lt. rewrite Nat2Z.inj_mul, Nat2Z.inj_div, Nat2Z.inj_add. exact Hd. }
  exists dst'. rewrite C. split; [exact E|exact (decode_in_buffer src out Hs Ho)].
Qed.

Lemma base64_roundtrip_witness :
  exists dst', vscp_base64_encode [0; 255; 16; 131] (replicate 9 7) = Some dst' /\
    vscp_base64_decode (c_str dst') (replicate 5 7) = Some (-1, [0; 255; 16; 131; 7], 4).
Proof.
  apply (base64_roundtrip [0; 255; 16; 131] (replicate 9 7) (replicate 5 7)).
  - by_decide.
  - vm_compute. reflexivity.
  - cbn. lia.
Defined.

(** Vscp_base64_std_encode writes beyond the buffer of twice the length that
    it allocates exactly for strings of 0, 1, 2 and 4 characters. *)
Theorem std_encode_defined s : bytes_ok s ->
  (exists r, vscp_base64_std_encode s = Some r) <-> ~ (length (c_str s) ∈ [0; 1; 2; 4]%nat).
Proof.
  intros Hs. unfold vscp_base64_std_encode. set (t := c_str s). assert (L := length_b64_text t).
  assert (D : ~ (length t ∈ [0; 1; 2; 4]%nat) <-> (length (b64_text t) < 2 * length t)%nat).
  { rewrite !not_elem_of_cons, L. split; [|intros H; repeat (split; [intros E; rewrite E in H; cbn in H; lia|]); apply not_elem_of_nil].
    intros (N0 & N1 & N2 & N4 & _). assert ((length t + 2) / 3 * 3 <= length t + 2)%nat by (rewrite Nat.mul_comm; apply Nat.Div0.mul_div_le).
    destruct (decide (length t = 3)%nat) as [E|]; [rewrite E; cbn; lia|]. destruct (decide (length t = 5)%nat) as [E|]; [rewrite E; cbn; lia|]. lia. }
  rewrite D. split.
  - intros [r E]. unfold vscp_base64_encode, wr in E. destruct (Nat.leb_spec (0 + length (b64_text t ++ [0])) (length (replicate (2 * length t) 0))) as [H|H]; [|discriminate E].
    rewrite length_app, length_replicate in H. cbn in H. lia.
  - intros H. assert (Ht : bytes_ok t).
    { subst t. clear -Hs. induction Hs as [|c s Hc _ IH]; [constructor|]. cbn [c_str]. destruct (c =? 0); [constructor|constructor; assumption]. }
    destruct (encode_in_buffer t (replicate (2 * length t) 0) Ht) as (dst & E & _); [rewrite length_replicate; exact H|].
    rewrite E. cbn. eauto.
Qed.

Lemma std_encode_defined_witness :
  (exists r, vscp_base64_std_encode (str "abc") = Some r) <-> ~ (length (c_str (str "abc")) ∈ [0; 1; 2; 4]%nat).
Proof. apply (std_encode_defined (str "abc")). by_decide. Defined.

(** A string that is stored as base64 with its mark is read back. *)
Lemma std_base64_roundtrip s : bytes_ok s -> 0 ∉ s -> (4 < length s)%nat ->
  exists t, vscp_convertToBase64 s = Some t /\ vscp_std_decodeBase64IfNeeded (str "BASE64:" ++ t) = Some (true, s).
Proof.
  intros Hs H0 Hl. exists (b64_text s).
  assert (E0 := c_str_id s H0).
  assert (Hlt := length_b64_text s). assert ((length s + 2) / 3 * 3 <= length s + 2)%nat by (rewrite Nat.mul_comm; apply Nat.Div0.mul_div_le).
  split.
  - unfold vscp_convertToBase64, vscp_base64_std_encode. rewrite E0.
    destruct (encode_in_buffer s (replicate (2 * length s) 0) Hs) as (dst & E & C).
    { rewrite length_replicate, Hlt. destruct (decide (length s = 5)%nat) as [->|]; [cbn; lia|lia]. }
    rewrite E. cbn. rewrite C. reflexivity.
  - assert (Ho := b64_text_ok s Hs). unfold vscp_std_decodeBase64IfNeeded. rewrite trim_id.
    2: { apply Forall_app. split; [repeat constructor|]. exact (list.Forall_impl _ _ _ Ho (fun c K => proj1 K)). }
    change (str "BASE64:" ++ b64_text s) with (66 :: 65 :: 83 :: 69 :: 54 :: 52 :: 58 :: b64_text s).
    change (starts_with (str "BASE64:") (66 :: 65 :: 83 :: 69 :: 54 :: 52 :: 58 :: b64_text s)) with (starts_with [] (b64_text s)).
    replace (starts_with [] (b64_text s)) with true by (destruct (b64_text s); reflexivity).
    change (drop 7 (66 :: 65 :: 83 :: 69 :: 54 :: 52 :: 58 :: b64_text s)) with (b64_text s).
    assert (Hge : (length s <= length (b64_text s))%nat).
    { rewrite Hlt. assert (length s + 2 = 3 * ((length s + 2) / 3) + (length s + 2) mod 3)%nat by (apply Nat.div_mod; lia).
      assert ((length s + 2) mod 3 < 3)%nat by (apply Nat.mod_upper_bound; lia). lia. }
    rewrite std_decode_more by (intros E; rewrite E in Hge; cbn in Hge; lia).
    rewrite decode_in_buffer by (exact Hs || (rewrite length_replicate; lia)).
    cbn [mbind option_bind fst snd]. rewrite drop_replicate.
    replace (2 * length (b64_text s) - length s)%nat with (S (2 * length (b64_text s) - length s - 1)) by lia.
    cbn [replicate]. rewrite c_str_terminated by exact H0. reflexivity.
Qed.
