(* ===== verification/BinaryProtocol.v ===== *)
(** * The binary protocol: src/src/vscp/common/vscp-binary-protocol.h

    A VSCP frame behind the header of a stream: a sync byte, and a word of the
    version in three bits and the length in thirteen.  Version 0 may be encrypted
    with OpenSSL, which adds and removes the padding itself; version 1 is encrypted
    and authenticated ([Crypt.vscp_encryptFrameV1]).  [None] is a read or write
    outside a buffer. *)

From S2P Require Import Prelude Crc DateTime Event Frame Strings Aes Crypt.

Definition maxFrameSize : Z := 4096.
Definition syncByte : Z := 0x55.
Definition framingVersion : Z := 0.
Definition authenticatedVersion : Z := 1.
Definition headerSize : nat := 3.

Definition read16 (data : list Z) : option Z :=
  hi ← rd data 0; lo ← rd data 1; Some (Z.lor (u16 (Z.shiftl hi 8)) lo).

(** [bytes] rounds from the most significant byte down. *)
Fixpoint append (data : list Z) (value : Z) (bytes : nat) : list Z :=
  match bytes with
  | O => data
  | S i => append (data ++ [u8 (Z.shiftr value (8 * Z.of_nat i))]) value i
  end.

(** A frame of less than three bytes makes the count of the bytes wrap around. *)
Definition setCrc (frame : list Z) : option (list Z) :=
  if (length frame <? 3)%nat then None
  else
    msg ← rdn frame 1 (length frame - 3);
    wr frame (length frame - 2) [u8 (Z.shiftr (crcFast msg) 8); u8 (crcFast msg)].

Definition validCrc (data : list Z) (size : Z) : option bool :=
  if size <? 3 then Some false
  else
    msg ← rdn data 1 (Z.to_nat (size - 3));
    crc ← read16 (drop (Z.to_nat (size - 2)) data);
    Some (crcFast msg =? crc).

Definition plausibleFrame (lead length version : Z) : bool :=
  let type := Z.shiftr lead 4 in
  let encryption := Z.land lead 0x0f in
  if (1 <? type) && (type <? 14) || (VSCP_ENCRYPTION_AES256 <? encryption) || (length <? 5)
     || (maxFrameSize <? length) || (authenticatedVersion <? version)
  then false
  else if version =? authenticatedVersion
  then negb (encryption =? 0) && (49 <=? length) && ((length - 33) mod 16 =? 0)
  else (encryption =? 0) || (33 <=? length) && ((length - 17) mod 16 =? 0).

(** The result, the length and the version. *)
Definition parseHeader (data : list Z) : option (bool * Z * Z) :=
  word ← read16 (drop 1 data);
  let length := Z.land word 0x1fff in
  let version := Z.shiftr word 13 in
  sync ← rd data 0;
  if sync =? syncByte then
    lead ← rd data headerSize;
    Some (plausibleFrame lead length version, length, version)
  else Some (false, length, version).

Definition parseHeader_legacy (data : list Z) : option (bool * Z) :=
  '(ok, length, version) ← parseHeader data;
  Some ((ok : bool) && (version =? framingVersion), length).

Definition cipher (encryption : Z) : option EVP_CIPHER :=
  if encryption =? 1 then Some EVP_aes_128_cbc
  else if encryption =? 2 then Some EVP_aes_192_cbc
  else if encryption =? 3 then Some EVP_aes_256_cbc
  else None.

Section openssl.
(** [EVP_Encrypt], [EVP_Decrypt] and [HMAC] are those of [Crypt].  The other two are
    a new context, EVP_EncryptInit_ex, EVP_EncryptUpdate and EVP_EncryptFinal_ex
    with the padding of OpenSSL, and the same for decryption: success, and the bytes
    that were written. *)
Variable EVP_Encrypt : evp_encryption.
Variable EVP_Decrypt : evp_decryption.
Variable EVP_EncryptPad EVP_DecryptPad : evp_encryption.
Variable HMAC : list Z -> list Z -> option (list Z).

(** The result and [wire].  [random] is what RAND_bytes delivers. *)
Definition encode (random frame : list Z) (encryption : Z) (key : option (list Z)) (wire : list Z)
    (version : Z) (hmacKey : option (list Z)) : option (bool * list Z) :=
  let size := Z.of_nat (length frame) in
  if (size <? 5) || (maxFrameSize - 34 <? size) || (VSCP_ENCRYPTION_AES256 <? encryption)
     || (authenticatedVersion <? version)
  then Some (false, wire)
  else
    lead ← rd frame 0;
    let frame := type_byte lead encryption :: drop 1 frame in
    coded ←
      (if version =? authenticatedVersion then
         '(n, encrypted) ← vscp_encryptFrameV1 EVP_Encrypt HMAC random
             (Some (replicate (length frame + 48) 0)) (size + 48) (Some frame) size key hmacKey None encryption;
         Some (if (n =? 0) || (maxFrameSize <? n) then None
               else Some (take (Z.to_nat n) (default [] encrypted)))
       else if negb (encryption =? 0) then
         match key, cipher encryption with
         | Some k, Some c =>
             if (length random =? 16)%nat then
               let '(ok, bytes) := EVP_EncryptPad c k random (drop 1 frame) in
               encrypted ← wr (take 1 frame ++ replicate (length frame + 31) 0) 1 bytes;
               Some (if ok : bool then Some (take (1 + length bytes) encrypted ++ random) else None)
             else Some None
         | _, _ => Some None
         end
       else Some (Some frame));
    match coded with
    | None => Some (false, wire)
    | Some frame =>
        Some (true, append [syncByte] (Z.lor (u32 (Z.shiftl version 13)) (Z.of_nat (length frame))) 2 ++ frame)
    end.

(** The result and [frame]. *)
Definition decode (wire : list Z) (key : option (list Z)) (frame : list Z)
    (version : Z) (hmacKey : option (list Z)) : option (bool * list Z) :=
  let size := Z.of_nat (length wire) in
  match wire with
  | [] => Some (false, frame)
  | lead :: _ =>
      if negb (plausibleFrame lead size version) then Some (false, frame)
      else if version =? authenticatedVersion then
        '(n, plaintext) ← vscp_decryptFrameV1 EVP_Decrypt HMAC (Some (replicate (length wire) 0)) size
                            (Some wire) size key hmacKey;
        Some (if n =? 0 then (false, frame) else (true, take (Z.to_nat n) (default [] plaintext)))
      else
        let encryption := Z.land lead 0x0f in
        if encryption =? 0 then ok ← validCrc wire size; Some (ok, wire)
        else
          match key, cipher encryption with
          | Some k, Some c =>
              iv ← rdn wire (length wire - 16) 16;
              bytes ← rdn wire 1 (length wire - 17);
              let '(ok, plain) := EVP_DecryptPad c k iv bytes in
              frame ← wr (lead :: replicate (length wire - 1) 0) 1 plain;
              if ok : bool then
                let frame := take (1 + length plain) frame in
                if (length frame <? 5)%nat then Some (false, frame)
                else ok ← validCrc frame (Z.of_nat (length frame)); Some (ok, frame)
              else Some (false, frame)
          | _, _ => Some (false, frame)
          end
  end.
End openssl.

(** ** Lemmas *)

(** The documented behaviour of OpenSSL with its padding: CBC encryption of any
    bytes succeeds, makes whole blocks with one byte of padding at least, and is
    undone by decryption. *)
Class EvpPadLaws (E D : evp_encryption) : Prop :=
  evp_pad_inverse : forall c key iv p, bytes_ok key -> (evp_keylen c <= length key)%nat -> block_ok iv -> bytes_ok p ->
    exists cs, E c key iv p = (true, cs) /\ length cs = (16 * padded_blocks (length p))%nat /\ bytes_ok cs /\
      D c key iv cs = (true, p).

Lemma append_be data value n : append data value n = data ++ be n value.
Proof.
  revert data. induction n as [|n IH]; intros data; [symmetry; apply app_nil_r|].
  cbn [append be]. rewrite IH, <- app_assoc. reflexivity.
Qed.

Lemma read16_be x rest : is_u16 x -> read16 (be 2 x ++ rest) = Some x.
Proof.
  intros Hx. cbn. f_equal. rewrite !Z.shiftr_div_pow2, Z.shiftl_mul_pow2 by lia. change (2 ^ 8) with 256. change (2 ^ 0) with 1.
  rewrite u16_id by width. rewrite (lor_add_disjoint 8) by width. width.
Qed.

(** The CRC test of the two files is the same. *)
Lemma validCrc_eq frame size : bytes_ok frame -> 5 <= size <= INT_MAX ->
  validCrc frame size = vscp_validFrameCrc frame size.
Proof.
  intros Hb Hs. unfold validCrc, vscp_validFrameCrc. rewrite (proj2 (Z.ltb_ge size 3)), (proj2 (Z.ltb_ge size 5)), (proj2 (Z.ltb_ge INT_MAX _)) by lia.
  cbn [orb]. unfold rd_be. destruct (Nat.le_gt_cases (Z.to_nat size) (length frame)) as [Hl|Hl].
  - assert (Hm : bytes_ok (take (Z.to_nat (size - 3)) (drop 1 frame))) by apply Forall_take, Forall_drop, Hb.
    rewrite !rdn_defined by lia. cbn [mbind option_bind fmap option_fmap option_map].
    rewrite crcSlow_fast by exact Hm.
    assert (L := length_drop frame (Z.to_nat (size - 2))).
    destruct (drop (Z.to_nat (size - 2)) frame) as [|h [|l rest]] eqn:E; [cbn in L; lia|cbn in L; lia|].
    assert (B : bytes_ok (h :: l :: rest)) by (rewrite <- E; apply Forall_drop, Hb).
    inversion_clear B as [|? ? Bh B']. inversion_clear B' as [|? ? Bl _].
    unfold read16, rd. cbn [lookup list_lookup mbind option_bind take]. do 2 f_equal.
    rewrite Z.shiftl_mul_pow2, u16_id, (lor_add_disjoint 8) by width. reflexivity.
  - assert (R : read16 (drop (Z.to_nat (size - 2)) frame) = None).
    { unfold read16, rd. assert (L := length_drop frame (Z.to_nat (size - 2))).
      destruct (drop (Z.to_nat (size - 2)) frame) as [|h [|l rest]]; [reflexivity|reflexivity|cbn in L; lia]. }
    rewrite R, (rdn_oob frame (Z.to_nat (size - 2)) 2) by lia. destruct (rdn frame 1 _); reflexivity.
Qed.

Lemma parseHeader_eq length version lead rest : 0 <= length < 8192 -> 0 <= version < 8 ->
  parseHeader (syncByte :: be 2 (version * 8192 + length) ++ lead :: rest)
  = Some (plausibleFrame lead length version, length, version).
Proof.
  intros Hl Hv. unfold parseHeader. change (drop 1 (syncByte :: ?l)) with l. rewrite read16_be by width.
  cbn [mbind option_bind]. change (rd (syncByte :: _) 0) with (Some syncByte). cbn [mbind option_bind].
  change (syncByte =? syncByte) with true. cbn iota. change (rd (syncByte :: _) headerSize) with (Some lead). cbn [mbind option_bind].
  change 0x1fff with (2 ^ 13 - 1). rewrite land_mask, Z.shiftr_div_pow2 by lia. change (2 ^ 13) with 8192.
  replace ((version * 8192 + length) mod 8192) with length by dlia. replace ((version * 8192 + length) / 8192) with version by dlia. reflexivity.
Qed.

Lemma lead_spec t alg : is_u8 t -> 0 <= alg <= 3 ->
  type_byte t alg = t / 16 * 16 + alg /\ Z.land (type_byte t alg) 0x0f = alg /\ Z.shiftr (type_byte t alg) 4 = t / 16.
Proof.
  intros Ht Ha. assert (E : type_byte t alg = t / 16 * 16 + alg).
  { destruct (decide (alg = 0)) as [->|]; [|apply type_byte_spec; [exact Ht|lia]].
    apply (all_below_spec 256 (fun t => type_byte t 0 =? t / 16 * 16 + 0) t) in Ht as B; [apply Z.eqb_eq, B|vm_compute; reflexivity]. }
  rewrite E. change 0x0f with 15. rewrite land_15, Z.shiftr_div_pow2 by lia. change (2 ^ 4) with 16. split; [reflexivity|]. width.
Qed.

(** A frame that encode takes: bytes with a type that decode takes and a valid CRC. *)
Record frame_ok (t : Z) (body : list Z) : Prop := {
  frame_lead : is_u8 t;
  frame_type : t / 16 ∈ [0; 1; 14; 15];
  frame_bytes : bytes_ok body;
  frame_crc : vscp_validFrameCrc (t :: body) (Z.of_nat (length (t :: body))) = Some true
}.

Lemma frame_ok_length t body : frame_ok t body -> (4 <= length body)%nat.
Proof.
  intros H. assert (C := frame_crc t body H). unfold vscp_validFrameCrc in C.
  destruct (Z.ltb_spec (Z.of_nat (length (t :: body))) 5) as [|L]; [discriminate C|]. cbn [length] in L. lia.
Qed.

Lemma frame_ok_crc t body b rest : frame_ok t body ->
  vscp_validFrameCrc (b :: body ++ rest) (Z.of_nat (length (b :: body))) = Some true.
Proof.
  intros H. rewrite (validFrameCrc_first b t). apply (validFrameCrc_front (t :: body) _ (t :: body) rest); [|exact (frame_crc t body H)].
  rewrite Nat2Z.id. assert (F := rdn_front (t :: body) []). rewrite app_nil_r in F. exact F.
Qed.

Lemma plausible_lead t body alg n : frame_ok t body -> 0 <= alg <= 3 -> 5 <= n <= maxFrameSize ->
  plausibleFrame (type_byte t alg) n 0 = ((alg =? 0) || (33 <=? n) && ((n - 17) mod 16 =? 0)) /\
  plausibleFrame (type_byte t alg) n 1 = (negb (alg =? 0) && (49 <=? n) && ((n - 33) mod 16 =? 0)).
Proof.
  intros H Ha Hn. destruct (lead_spec t alg (frame_lead t body H) Ha) as (_ & L & T). unfold plausibleFrame. rewrite L, T.
  assert (G : (1 <? t / 16) && (t / 16 <? 14) = false).
  { assert (K := frame_type t body H). rewrite !elem_of_cons in K. destruct K as [-> |[-> |[-> |[-> |K]]]]; try reflexivity. inversion K. }
  rewrite G, (proj2 (Z.ltb_ge VSCP_ENCRYPTION_AES256 _)), (proj2 (Z.ltb_ge n 5)), (proj2 (Z.ltb_ge maxFrameSize n)) by (unfold VSCP_ENCRYPTION_AES256; lia).
  split; reflexivity.
Qed.

(** The header and what follows it, and what a receiver makes of them. *)
Definition wire_of (version : Z) (inner : list Z) : list Z :=
  syncByte :: be 2 (version * 8192 + Z.of_nat (length inner)) ++ inner.

Definition exchanged E D EP DP HMAC (random : list Z) (t : Z) (body : list Z) (alg version : Z)
    (key hmacKey : option (list Z)) (out frame : list Z) (inner : list Z) : Prop :=
  Z.of_nat (length inner) <= maxFrameSize /\
  encode E EP HMAC random (t :: body) alg key out version hmacKey = Some (true, wire_of version inner) /\
  parseHeader (wire_of version inner) = Some (true, Z.of_nat (length inner), version) /\
  decode D DP HMAC inner key frame version hmacKey = Some (true, type_byte t alg :: body).

Lemma wire_header version lead rest : 0 <= version <= 1 -> Z.of_nat (length (lead :: rest)) <= maxFrameSize ->
  append [syncByte] (Z.lor (u32 (Z.shiftl version 13)) (Z.of_nat (length (lead :: rest)))) 2 ++ lead :: rest = wire_of version (lead :: rest) /\
  parseHeader (wire_of version (lead :: rest))
  = Some (plausibleFrame lead (Z.of_nat (length (lead :: rest))) version, Z.of_nat (length (lead :: rest)), version).
Proof.
  intros Hv Hl. unfold maxFrameSize in Hl. split.
  - rewrite append_be, Z.shiftl_mul_pow2, u32_id, (lor_add_disjoint 13) by width. reflexivity.
  - apply parseHeader_eq; [|lia]. cbn [length] in *. lia.
Qed.

Section exchange.
Context (E : evp_encryption) (D : evp_decryption) (EP DP : evp_encryption) (HMAC : list Z -> list Z -> option (list Z)).
Context (t : Z) (body : list Z) (Hf : frame_ok t body) (Hmax : Z.of_nat (length (t :: body)) <= maxFrameSize - 34).

Lemma encode_guard alg version : 0 <= alg <= 3 -> 0 <= version <= 1 ->
  (Z.of_nat (length (t :: body)) <? 5) || (maxFrameSize - 34 <? Z.of_nat (length (t :: body)))
  || (VSCP_ENCRYPTION_AES256 <? alg) || (authenticatedVersion <? version) = false.
Proof using Hf Hmax.
  intros Ha Hv. assert (L := frame_ok_length t body Hf).
  rewrite (proj2 (Z.ltb_ge _ 5)), (proj2 (Z.ltb_ge (maxFrameSize - 34) _)), (proj2 (Z.ltb_ge VSCP_ENCRYPTION_AES256 _)), (proj2 (Z.ltb_ge authenticatedVersion _))
    by (unfold VSCP_ENCRYPTION_AES256, authenticatedVersion; cbn [length] in *; lia).
  reflexivity.
Qed.

Lemma exchange_plain random key hmacKey out frame :
  exists inner, exchanged E D EP DP HMAC random t body 0 0 key hmacKey out frame inner.
Proof using Hf Hmax.
  assert (L := frame_ok_length t body Hf). unfold maxFrameSize in Hmax. exists (type_byte t 0 :: body).
  assert (Hl : Z.of_nat (length (type_byte t 0 :: body)) <= maxFrameSize) by (unfold maxFrameSize; cbn [length] in *; lia).
  destruct (wire_header 0 (type_byte t 0) body ltac:(lia) Hl) as [W P].
  destruct (plausible_lead t body 0 (Z.of_nat (length (type_byte t 0 :: body))) Hf ltac:(lia) ltac:(cbn [length] in *; lia)) as [Q _].
  destruct (lead_spec t 0 (frame_lead t body Hf) ltac:(lia)) as (T & A & _). assert (Bt := frame_lead t body Hf).
  split; [exact Hl|]. split; [|split; [rewrite P, Q; reflexivity|]].
  - unfold encode. rewrite encode_guard by lia. cbn [rd lookup list_lookup mbind option_bind].
    change (rd (t :: body) 0) with (Some t). cbn [mbind option_bind]. change (drop 1 (t :: body)) with body. 
    change (0 =? authenticatedVersion) with false. change (negb (0 =? 0)) with false. cbn iota. cbn [mbind option_bind].
    rewrite W. reflexivity.
  - unfold decode. rewrite Q. cbn [orb negb Z.eqb]. change (0 =? authenticatedVersion) with false. cbn iota.
    rewrite A. change (0 =? 0) with true. cbn iota.
    rewrite validCrc_eq by (first [constructor; [rewrite T; width|exact (frame_bytes t body Hf)] | unfold INT_MAX; cbn [length] in *; lia]).
    assert (C := frame_ok_crc t body (type_byte t 0) [] Hf). rewrite app_nil_r in C. rewrite C. reflexivity.
Qed.
Section keys.
Context (alg : Z) (k v : list Z) (Halg : 1 <= alg <= 3) (Hk : bytes_ok k) (Hkl : (key_length alg <= length k)%nat) (Hv : block_ok v).

Lemma exchange_encrypted (HP : EvpPadLaws EP DP) hmacKey out frame :
  exists inner, exchanged E D EP DP HMAC v t body alg 0 (Some k) hmacKey out frame inner.
Proof using Hf Hmax Halg Hk Hkl Hv.
  assert (L := frame_ok_length t body Hf). unfold maxFrameSize in Hmax.
  destruct (algorithm_cases alg Halg) as ((c & Hc) & _).
  assert (Hc' : cipher alg = Some c) by exact Hc.
  assert (Hkc : (evp_keylen c <= length k)%nat) by (rewrite (cipher_key_length alg c Halg Hc); exact Hkl).
  destruct (evp_pad_inverse c k v body Hk Hkc Hv (frame_bytes t body Hf)) as (cs & Ee & Lc & Bc & Ed).
  destruct (padding_spec (length body)) as [P1 P2]. destruct Hv as [Lv Bv].
  destruct (lead_spec t alg (frame_lead t body Hf) ltac:(lia)) as (T & A & _).
  set (b := type_byte t alg) in *. exists (b :: cs ++ v).
  assert (Li : Z.of_nat (length (b :: cs ++ v)) = Z.of_nat (padded_blocks (length body)) * 16 + 17) by (cbn [length]; rewrite length_app; lia).
  assert (Hl : Z.of_nat (length (b :: cs ++ v)) <= maxFrameSize) by (rewrite Li; unfold maxFrameSize; cbn [length] in *; lia).
  destruct (wire_header 0 b (cs ++ v) ltac:(lia) Hl) as [W P].
  assert (Q : plausibleFrame b (Z.of_nat (length (b :: cs ++ v))) 0 = true).
  { assert (PL := plausible_lead t body alg (Z.of_nat (length (b :: cs ++ v))) Hf ltac:(lia) ltac:(lia)). fold b in PL. rewrite (proj1 PL), Li.
    rewrite (proj2 (Z.leb_le 33 _)) by lia. replace (_ + 17 - 17) with (Z.of_nat (padded_blocks (length body)) * 16) by lia.
    rewrite Z.mod_mul by lia. rewrite orb_comm. reflexivity. }
  split; [exact Hl|]. split; [|split; [rewrite P, Q; reflexivity|]].
  - unfold encode. rewrite encode_guard by lia. change (rd (t :: body) 0) with (Some t). cbn [mbind option_bind].
    fold b. change (drop 1 (t :: body)) with body. change (drop 1 (b :: body)) with body. change (take 1 (b :: body)) with [b].
    change (0 =? authenticatedVersion) with false. rewrite (proj2 (Z.eqb_neq alg 0)) by lia. cbn [negb]. rewrite Hc', Lv, Ee.
    cbn [Nat.eqb]. assert (R : (16 =? 16)%nat = true) by reflexivity.
    rewrite (wr_next [b]) by (first [reflexivity | rewrite length_replicate; cbn [length]; lia]). cbn [mbind option_bind].
    rewrite (take_app_length' ([b] ++ cs)) by reflexivity. cbn [app mbind option_bind]. rewrite W. reflexivity.
  - unfold decode. cbn iota. rewrite Q. cbn [negb]. change (0 =? authenticatedVersion) with false. cbn iota. rewrite A.
    rewrite (proj2 (Z.eqb_neq alg 0)) by lia. rewrite Hc'.
    assert (R1 := rdn_app (b :: cs) v [] (length (b :: cs ++ v) - 16) 16).
    rewrite app_nil_r in R1. change ((b :: cs) ++ v) with (b :: cs ++ v) in R1.
    rewrite R1 by (cbn [length]; rewrite ?length_app; lia). cbn [mbind option_bind].
    assert (R2 := rdn_app [b] cs v 1 (length (b :: cs ++ v) - 17)). change ([b] ++ cs ++ v) with (b :: cs ++ v) in R2.
    rewrite R2 by (cbn [length]; rewrite ?length_app; lia).
    cbn [mbind option_bind]. rewrite Ed.
    match goal with |- context [wr (b :: ?l) _ _] => change (b :: l) with ([b] ++ l) end.
    rewrite (wr_next [b]) by (first [reflexivity | rewrite length_replicate; cbn [length]; rewrite length_app; lia]).
    cbn [mbind option_bind]. change ([b] ++ body) with (b :: body). cbv zeta. rewrite (take_app_length' (b :: body)) by reflexivity.
    rewrite (proj2 (Nat.ltb_ge _ 5)) by (cbn [length]; lia).
    rewrite validCrc_eq by (first [constructor; [rewrite T; assert (B := frame_lead t body Hf); width|exact (frame_bytes t body Hf)] | unfold INT_MAX; cbn [length] in *; lia]).
    assert (C := frame_ok_crc t body b [] Hf). rewrite app_nil_r in C. rewrite C. reflexivity.
Qed.

(** The authenticated frame, in a buffer that goes on. *)
Lemma authenticated_frame (HE : EvpLaws E D) (HH : HmacLaws HMAC) hk out :
  (32 <= length hk)%nat -> Z.of_nat (length (t :: body)) <= 4048 ->
  exists inner, length inner = (33 + 16 * padded_blocks (length body))%nat /\
    (exists rest, inner = type_byte t alg :: rest) /\
    encode E EP HMAC v (t :: body) alg (Some k) out 1 (Some hk) = Some (true, wire_of 1 inner) /\
    parseHeader (wire_of 1 inner) = Some (true, Z.of_nat (length inner), 1) /\
    plausibleFrame (type_byte t alg) (Z.of_nat (length inner)) 1 = true /\
    forall rest out capacity, Z.of_nat (length (t :: body)) <= capacity -> (length (t :: body) <= length out)%nat ->
      vscp_decryptFrameV1 D HMAC (Some out) capacity (Some (inner ++ rest)) (Z.of_nat (length inner)) (Some k) (Some hk)
      = Some (Z.of_nat (length (t :: body)), Some ((type_byte t alg :: body) ++ drop (length (t :: body)) out)).
Proof using Hf Hmax Halg Hk Hkl Hv.
  clear DP. intros Hhk Hsize. assert (L := frame_ok_length t body Hf). destruct Hv as [Lv Bv].
  assert (Hb := frame_bytes t body Hf). assert (Bt := frame_lead t body Hf).
  destruct (lead_spec t alg Bt ltac:(lia)) as (T & A & _). set (b := type_byte t alg) in *.
  assert (Hn : (padded_blocks (length body) <= 253)%nat).
  { unfold padded_blocks. assert (length body / 16 < 253)%nat by (apply Nat.Div0.div_lt_upper_bound; cbn [length] in Hsize; lia). lia. }
  destruct (padding_spec (length body)) as [P1 P2].
  destruct (encryptFrameV1_eq E D HMAC HE HH alg k hk v Halg Hk Hkl Hhk (conj Lv Bv) v None b body []
              (replicate (length (b :: body) + 48) 0) (Z.of_nat (length (b :: body)) + 48)
              ltac:(unfold vscp_getEncryptionIv; rewrite Lv; reflexivity) Hb ltac:(lia) ltac:(cbn [length]; lia) ltac:(lia)
              ltac:(rewrite length_replicate; cbn [length]; lia))
    as (c & cs & d & Hc & Lc & Bc & Ld & Ed & Hd & Ee).
  rewrite app_nil_r in Ee.
  assert (Bb : type_byte b alg = b).
  { assert (B : is_u8 b) by (rewrite T; width). rewrite (proj1 (lead_spec b alg B ltac:(lia))). clear -T Halg. dlia. }
  rewrite Bb in *. set (inner := b :: cs ++ v ++ take 16 d) in *.
  assert (Li : length inner = (33 + 16 * padded_blocks (length body))%nat)
    by (unfold inner; cbn [length]; rewrite !length_app, length_take; lia).
  exists inner. assert (Hl : Z.of_nat (length inner) <= maxFrameSize) by (rewrite Li; unfold maxFrameSize; lia).
  destruct (wire_header 1 b (cs ++ v ++ take 16 d) ltac:(lia) Hl) as [W P]. fold inner in W, P.
  assert (Q : plausibleFrame b (Z.of_nat (length inner)) 1 = true).
  { assert (PL := plausible_lead t body alg (Z.of_nat (length inner)) Hf ltac:(lia) ltac:(lia)). fold b in PL. rewrite (proj2 PL), Li.
    rewrite (proj2 (Z.leb_le 49 _)) by lia. rewrite (proj2 (Z.eqb_neq alg 0)) by lia.
    replace (Z.of_nat (33 + 16 * padded_blocks (length body)) - 33) with (Z.of_nat (padded_blocks (length body)) * 16) by lia.
    rewrite Z.mod_mul by lia. reflexivity. }
  split; [exact Li|]. split; [eexists; reflexivity|]. split; [|split; [rewrite P, Q; reflexivity|split; [exact Q|]]].
  - unfold encode. rewrite encode_guard by lia. change (rd (t :: body) 0) with (Some t). cbn [mbind option_bind].
    fold b. change (drop 1 (t :: body)) with body. change (1 =? authenticatedVersion) with true. cbn iota.
    change (length (t :: body)) with (length (b :: body)). rewrite Ee. cbn [mbind option_bind].
    rewrite (proj2 (Z.eqb_neq _ 0)), (proj2 (Z.ltb_ge maxFrameSize _)) by (unfold maxFrameSize; lia). cbn [orb from_option id mbind option_bind].
    rewrite <- Li, Nat2Z.id, take_app_length. rewrite W. reflexivity.
  - intros rest out' capacity Hcap Ho. assert (Dd := decryptFrameV1_eq D HMAC alg k hk v Hkl Hhk (conj Lv Bv) c cs d b body rest out' capacity).
    cbv zeta in Dd. rewrite A, <- Li in Dd. fold inner in Dd. apply Dd; try assumption; [|intros r; apply (frame_ok_crc t body b r Hf)|lia].
    rewrite Li. exact Hd.
Qed.

Lemma exchange_authenticated (HE : EvpLaws E D) (HH : HmacLaws HMAC) hk out frame :
  (32 <= length hk)%nat -> Z.of_nat (length (t :: body)) <= 4048 ->
  exists inner, exchanged E D EP DP HMAC v t body alg 1 (Some k) (Some hk) out frame inner.
Proof using Hf Hmax Halg Hk Hkl Hv.
  intros Hhk Hsize. destruct (authenticated_frame HE HH hk out Hhk Hsize) as (inner & Li & (r & Ei) & Ee & Ep & Q & Ed).
  destruct (padding_spec (length body)) as [P1 P2]. exists inner. assert (L := frame_ok_length t body Hf).
  assert (Hn : (padded_blocks (length body) <= 253)%nat).
  { unfold padded_blocks. assert (length body / 16 < 253)%nat by (apply Nat.Div0.div_lt_upper_bound; cbn [length] in Hsize; lia). lia. }
  split; [rewrite Li; unfold maxFrameSize; lia|]. split; [exact Ee|]. split; [exact Ep|].
  specialize (Ed [] (replicate (length inner) 0) (Z.of_nat (length inner)) ltac:(cbn [length]; lia) ltac:(rewrite length_replicate; cbn [length]; lia)).
  rewrite app_nil_r in Ed. unfold decode. rewrite Ei in Ed, Q |- *. cbn iota. rewrite Q. cbn [negb].
  change (1 =? authenticatedVersion) with true. cbn iota. rewrite Ed. cbn [mbind option_bind from_option id].
  rewrite (proj2 (Z.eqb_neq _ 0)) by (cbn [length]; lia).
  rewrite Nat2Z.id. change (length (t :: body)) with (length (type_byte t alg :: body)). rewrite take_app_length. reflexivity.
Qed.
End keys.
End exchange.

(** The padding of OpenSSL from ciphers on blocks, such as [Crypt.own_encrypt]. *)
Definition own_encrypt_pad (c : EVP_CIPHER) (key iv p : list Z) : bool * list Z :=
  own_encrypt c key iv (p ++ pad_bytes (length p)).

Definition own_decrypt_pad (c : EVP_CIPHER) (key iv cs : list Z) : bool * list Z :=
  let '(ok, p, _) := own_decrypt c key iv cs in
  match vscp_pkcs7Unpad p (Z.of_nat (length p)) with
  | Some (valid, p, n) => (ok && valid, take (Z.to_nat n) p)
  | None => (false, [])
  end.

Lemma own_pad_cipher : EvpPadLaws own_encrypt_pad own_decrypt_pad.
Proof.
  intros c key iv p Hk Hkl Hv Hp.
  assert (B : bytes_ok (p ++ pad_bytes (length p))) by (apply Forall_app; split; [exact Hp|apply pad_bytes_ok]).
  destruct (own_cipher c key iv _ (padded_blocks (length p)) Hk Hkl Hv B ltac:(unfold padded_blocks; lia) (length_padded p)) as (cs & Ee & Lc & Bc & Ed).
  exists cs. rewrite length_padded in Lc. split; [exact Ee|]. split; [exact Lc|]. split; [exact Bc|].
  unfold own_decrypt_pad. rewrite Ed, length_padded. assert (U := unpad_eq p []). rewrite !app_nil_r in U. rewrite U.
  rewrite Nat2Z.id, take_app_length. reflexivity.
Qed.

(** ** Properties *)

(** A frame with a valid CRC that is encoded, plain, encrypted, or encrypted
    and authenticated, is behind a header that parseHeader reads back, with the
    length of what follows and the version, and decode gives the frame, with the
    encryption in its first byte.  No frame on the wire is longer than 4096
    bytes. *)
Theorem encode_decode E D EP DP HMAC random t body alg version key hmacKey out frame :
  frame_ok t body -> Z.of_nat (length (t :: body)) <= maxFrameSize - 34 ->
  version = 0 /\ alg = 0 \/
  1 <= alg <= 3 /\ block_ok random /\
  (exists k, key = Some k /\ bytes_ok k /\ (key_length alg <= length k)%nat) /\
  (version = 0 /\ EvpPadLaws EP DP \/
   version = 1 /\ EvpLaws E D /\ HmacLaws HMAC /\ Z.of_nat (length (t :: body)) <= 4048 /\
   (exists hk, hmacKey = Some hk /\ (32 <= length hk)%nat)) ->
  exists inner, Z.of_nat (length inner) <= maxFrameSize /\
    encode E EP HMAC random (t :: body) alg key out version hmacKey
    = Some (true, [syncByte] ++ be 2 (version * 8192 + Z.of_nat (length inner)) ++ inner) /\
    parseHeader ([syncByte] ++ be 2 (version * 8192 + Z.of_nat (length inner)) ++ inner)
    = Some (true, Z.of_nat (length inner), version) /\
    decode D DP HMAC inner key frame version hmacKey = Some (true, type_byte t alg :: body).
Proof.
  intros Hf Hmax [[-> ->]|(Ha & Hr & (k & -> & Hk & Hkl) & [[-> HP]|(-> & HE & HH & Hs & hk & -> & Hhk)])].
  - apply exchange_plain; assumption.
  - apply exchange_encrypted; assumption.
  - apply exchange_authenticated; assumption.
Qed.

Definition sample_body : list Z := [1; 2; 3; crcSlow [1; 2; 3] / 256; crcSlow [1; 2; 3] mod 256].

Lemma encode_decode_witness : exists inner, Z.of_nat (length inner) <= maxFrameSize /\
  encode own_encrypt own_encrypt_pad own_digest (replicate 16 4) (0xe0 :: sample_body) 2 (Some (replicate 24 9)) [] 1 (Some (replicate 32 8))
  = Some (true, [syncByte] ++ be 2 (1 * 8192 + Z.of_nat (length inner)) ++ inner) /\
  parseHeader ([syncByte] ++ be 2 (1 * 8192 + Z.of_nat (length inner)) ++ inner) = Some (true, Z.of_nat (length inner), 1) /\
  decode own_decrypt own_decrypt_pad own_digest inner (Some (replicate 24 9)) [] 1 (Some (replicate 32 8))
  = Some (true, type_byte 0xe0 2 :: sample_body).
Proof.
  apply (encode_decode own_encrypt own_decrypt own_encrypt_pad own_decrypt_pad own_digest (replicate 16 4) 0xe0 sample_body 2 1).
  - constructor; [by_decide|by_decide|by_decide|vm_compute; reflexivity].
  - vm_compute. intros H. discriminate H.
  - right. split; [lia|]. split; [split; [reflexivity|by_decide]|]. split.
    + exists (replicate 24 9). split; [reflexivity|]. split; [by_decide|vm_compute; lia].
    + right. split; [reflexivity|]. split; [exact own_cipher|]. split; [exact own_hmac|]. split; [vm_compute; intros H; discriminate H|].
      exists (replicate 32 8). split; [reflexivity|cbn; lia].
Defined.
