(* ===== verification/Endpoint.v ===== *)
(** * Endpoints of the datagram clients: src/src/vscp/common/vscp-client-datagram.h

    Ports, IPv6 literals and "udp://host:port" addresses, and the network
    interface of a name or number.  inet_pton and the functions on network
    interfaces belong to the C library and are parameters. *)

From S2P Require Import Prelude Strings.

(** ** Strings *)

(** find and find_first_of for single characters; count. *)
Definition find_char (c : Z) (s : list Z) : option nat := find [c] s.
Definition find_first_of (cs s : list Z) : bool := existsb (fun c => existsb (Z.eqb c) cs) s.
Definition count_char (c : Z) (s : list Z) : nat := length (filter (fun x => x = c) s).

(** std::string::replace of the first occurrence. *)
Definition replace_first (p q s : list Z) : list Z :=
  match find p s with
  | Some k => take k s ++ q ++ drop (k + length p) s
  | None => s
  end.

(** ** Ports *)

(** [value] is an unsigned int; 65535 is checked in every round. *)
Fixpoint port_digits (text : list Z) (value : Z) : option Z :=
  match text with
  | [] => Some value
  | ch :: text =>
      if (ch <? 48) || (57 <? ch) then None
      else
        let value := u32 (value * 10 + (ch - 48)) in
        if 65535 <? value then None else port_digits text value
  end.

(** The port is left as it was on failure. *)
Definition parsePort (text : list Z) (port : Z) : bool * Z :=
  match text, port_digits text 0 with
  | [], _ | _, None => (false, port)
  | _, Some value => if value =? 0 then (false, port) else (true, u16 value)
  end.

Section address.
(** The address that inet_pton makes of a text, if it returns 1. *)
Variable inet_pton4 inet_pton6 : list Z -> option (list Z).

Definition validIpv6Literal (host : list Z) : bool :=
  let percent := find_char 37 host in
  let bad :=
    match percent with
    | Some k => (k =? 0)%nat || (k + 1 =? length host)%nat || bool_decide (is_Some (find_char 37 (drop (k + 1) host)))
    | None => false
    end in
  if bad then false
  else
    let address := match percent with Some k => take k host | None => host end in
    bool_decide (is_Some (inet_pton6 (c_str address))).

(** ** Endpoints *)

(** The host and port of what follows "udp://". *)
Definition parse_bracketed (uri : bool) (value : list Z) (port : Z) : option (list Z * Z) :=
  match find_char 93 value with
  | None | Some 1%nat => None
  | Some stop =>
      let parsedHost := take (stop - 1) (drop 1 value) in
      let parsedHost := if uri then replace_first (str "%25") (str "%") parsedHost else parsedHost in
      if validIpv6Literal parsedHost then
        match drop (stop + 1) value with
        | [] => Some (parsedHost, port)
        | c :: text =>
            let '(ok, port) := parsePort text port in
            if (c =? 58) && ok then Some (parsedHost, port) else None
        end
      else None
  end.

Definition parse_plain (value : list Z) (port : Z) : option (list Z * Z) :=
  if find_first_of (str "[]") value then None
  else
    let colons := count_char 58 value in
    parsed ←
      (if (2 <=? colons)%nat then
         if validIpv6Literal value then Some (value, port) else None
       else
         match find_char 58 value with
         | Some colon =>
             let '(ok, port) := parsePort (drop (colon + 1) value) port in
             if ok : bool then Some (take colon value, port) else None
         | None => Some (value, port)
         end);
    let '(parsedHost, parsedPort) := parsed : list Z * Z in
    if bool_decide (parsedHost = []) || (colons <? 2)%nat && bool_decide (is_Some (find_char 37 parsedHost)) then None
    else if (colons <? 2)%nat && forallb (fun c => existsb (Z.eqb c) (str "0123456789.")) parsedHost
            && negb (bool_decide (is_Some (inet_pton4 (c_str parsedHost))))
    then None
    else Some (parsedHost, parsedPort).

(** The result, the host and the port. *)
Definition parseEndpoint (input host : list Z) (port : Z) : bool * list Z * Z :=
  let uri := starts_with (str "udp://") input in
  let value := if uri then drop 6 input else input in
  match value with
  | [] => (false, host, port)
  | front :: _ =>
      if find_first_of (32 :: 9 :: 13 :: 10 :: str "/?#") value then (false, host, port)
      else
        match (if front =? 91 then parse_bracketed uri value port else parse_plain value port) with
        | Some (parsedHost, parsedPort) => (true, parsedHost, parsedPort)
        | None => (false, host, port)
        end
  end.
End address.

Definition formatEndpoint (host : list Z) (port : Z) : list Z :=
  match find_char 58 host with
  | None => str "udp://" ++ host ++ str ":" ++ dec port
  | Some _ => str "udp://[" ++ replace_first (str "%") (str "%25") host ++ str "]:" ++ dec port
  end.

(** ** Network interfaces *)

Section interface.
(** if_indextoname tells whether an index is one of an interface, if_nametoindex
    is 0 for an unknown name. *)
Variable if_indextoname : Z -> bool.
Variable if_nametoindex : list Z -> Z.

(** [number] is an unsigned long, the bound that of unsigned int. *)
Fixpoint index_digits (name : list Z) (number : Z) : option Z :=
  match name with
  | [] => Some number
  | ch :: name =>
      if (2 ^ 32 - 1 - (ch - 48)) / 10 <? number then None
      else index_digits name (number * 10 + (ch - 48))
  end.

Definition lookup_interface (name : list Z) : Z :=
  match name with
  | [] => 0
  | _ =>
      if forallb (fun c => (48 <=? c) && (c <=? 57)) name then
        match index_digits name 0 with
        | Some number => if (number =? 0) || negb (if_indextoname (u32 number)) then 0 else u32 number
        | None => 0
        end
      else if_nametoindex (c_str name)
  end.

(** The result and the index: the whole text, or what is before the first blank. *)
Definition interfaceIndex (value : list Z) : bool * Z :=
  match value with
  | [] => (true, 0)
  | _ =>
      let index := lookup_interface value in
      let index :=
        if index =? 0 then
          match find_char 32 value with Some space => lookup_interface (take space value) | None => index end
        else index in
      (negb (index =? 0), index)
  end.
End interface.

(** ** Lemmas *)

(** *** Ports *)

Definition digit_chars : list Z -> Prop := Forall (fun c => 48 <= c <= 57).
Definition number (text : list Z) (acc : Z) : Z := foldl (fun a c => a * 10 + (c - 48)) acc text.

Lemma number_ge text acc : digit_chars text -> 0 <= acc -> acc <= number text acc.
Proof.
  intros H. revert acc. induction H as [|c text Hc _ IH]; intros acc Ha; [reflexivity|].
  cbn in Hc. specialize (IH (acc * 10 + (c - 48)) ltac:(lia)).
  change (number (c :: text) acc) with (number text (acc * 10 + (c - 48))). lia.
Qed.

(** No round of the loop wraps around. *)
Lemma port_digits_spec text acc v : 0 <= acc <= 65535 ->
  port_digits text acc = Some v <-> digit_chars text /\ v = number text acc /\ v <= 65535.
Proof.
  revert acc. induction text as [|c text IH]; intros acc Ha.
  - cbn. split; [intros [= <-]; split; [constructor|split; [reflexivity|lia]]|intros (_ & -> & _); reflexivity].
  - cbn [port_digits]. destruct (Z.ltb_spec c 48) as [H|H]; cbn [orb].
    { split; [discriminate|intros [D _]; inversion_clear D; lia]. }
    destruct (Z.ltb_spec 57 c) as [H'|H']; [split; [discriminate|intros [D _]; inversion_clear D; lia]|].
    cbv zeta. rewrite u32_id by width. destruct (Z.ltb_spec 65535 (acc * 10 + (c - 48))) as [L|L].
    + split; [discriminate|]. intros (D & -> & V). inversion_clear D as [|? ? _ D'].
      assert (G := number_ge text (acc * 10 + (c - 48)) D' ltac:(lia)). change (number (c :: text) acc) with (number text (acc * 10 + (c - 48))) in V. lia.
    + rewrite IH by lia. split; intros (D & E & V); (split; [|split; [exact E|exact V]]).
      * constructor; [lia|exact D].
      * inversion_clear D. assumption.
Qed.

Lemma dec_digit_chars n : 0 <= n < 2 ^ 64 -> digit_chars (dec n) /\ number (dec n) 0 = n /\ dec n <> [].
Proof.
  intros Hn. destruct (dec_digits_spec n Hn) as [E [Hd Hf]]. rewrite dec_eq by lia. split; [|split].
  - apply Forall_fmap. apply (list.Forall_impl _ _ _ Hf). intros d D. cbn. unfold dchar. rewrite (proj2 (Z.ltb_lt d 10)) by lia. lia.
  - rewrite <- E at 2. unfold number, of_digits. generalize 0. clear E Hd. induction Hf as [|d ds D _ IH]; intros acc; [reflexivity|].
    cbn [map foldl]. rewrite IH. f_equal. unfold dchar. rewrite (proj2 (Z.ltb_lt d 10)) by lia. lia.
  - intros M. apply map_eq_nil in M. contradiction.
Qed.

Lemma parsePort_cases text port v :
  parsePort text port = (true, v) <-> text <> [] /\ digit_chars text /\ v = number text 0 /\ 1 <= v <= 65535.
Proof.
  unfold parsePort. destruct text as [|c text]; [split; [discriminate|intros [[] _]; reflexivity]|].
  destruct (port_digits (c :: text) 0) as [n|] eqn:E.
  - apply port_digits_spec in E as (D & -> & V); [|lia]. assert (G := number_ge _ 0 D ltac:(lia)).
    destruct (Z.eqb_spec (number (c :: text) 0) 0) as [N|N]; [split; [discriminate|intros (_ & _ & -> & ?); lia]|].
    rewrite u16_id by width. split; [|intros (_ & _ & -> & _); reflexivity].
    intros [= <-]. split; [discriminate|]. split; [exact D|]. split; [reflexivity|].
    change (1 <= number (c :: text) 0 <= 65535). lia.
  - split; [discriminate|]. intros (_ & D & -> & V).
    assert (F := proj2 (port_digits_spec (c :: text) 0 (number (c :: text) 0) ltac:(lia)) (conj D (conj eq_refl (proj2 V)))). congruence.
Qed.

Lemma parsePort_dec n port : 1 <= n <= 65535 -> parsePort (dec n) port = (true, n).
Proof. intros Hn. apply parsePort_cases. destruct (dec_digit_chars n ltac:(lia)) as (D & E & N). auto. Qed.

(** *** Characters *)

(** The characters that no endpoint contains. *)
Definition blanks : list Z := 32 :: 9 :: 13 :: 10 :: str "/?#".
Definition free (cs s : list Z) : Prop := forall c, c ∈ cs -> c ∉ s.

Lemma find_first_of_free cs s : find_first_of cs s = false <-> free cs s.
Proof.
  unfold find_first_of. rewrite <- not_true_iff_false, existsb_exists. split.
  - intros H c Hc Hs. apply H. exists c. split; [apply list_elem_of_In, Hs|]. apply existsb_exists. exists c.
    split; [apply list_elem_of_In, Hc|apply Z.eqb_refl].
  - intros H (c & Hs & Hc). apply existsb_exists in Hc as (d & Hd & E). apply Z.eqb_eq in E. subst d.
    apply (H c); apply list_elem_of_In; assumption.
Qed.

#[export] Instance free_decision cs s : Decision (free cs s).
Proof.
  destruct (find_first_of cs s) eqn:E; [right|left; apply find_first_of_free, E].
  intros F. apply find_first_of_free in F. congruence.
Defined.

Lemma free_app cs a b : free cs (a ++ b) <-> free cs a /\ free cs b.
Proof.
  unfold free. split; [intros H; split; intros c Hc E; apply (H c Hc), elem_of_app; auto|].
  intros [Ha Hb] c Hc E. apply elem_of_app in E as [E|E]; [exact (Ha c Hc E)|exact (Hb c Hc E)].
Qed.

Lemma free_sub cs s s' : (forall c, c ∈ s' -> c ∈ s) -> free cs s -> free cs s'.
Proof. intros H F c Hc E. exact (F c Hc (H c E)). Qed.

Lemma free_dec cs n : 0 <= n < 2 ^ 64 -> Forall (fun c => c < 48 \/ 58 <= c) cs -> free cs (dec n).
Proof. intros Hn H c Hc. apply dec_no_char; [exact Hn|]. exact (proj1 (list.Forall_forall _ _) H c Hc). Qed.

Lemma find_at c p a b : c ∉ a -> find (c :: p) (a ++ c :: p ++ b) = Some (length a).
Proof.
  induction a as [|x a IH]; intros H; cbn [app length].
  - apply find_here. cbn [starts_with]. rewrite Z.eqb_refl. cbn [andb]. clear. induction p as [|y p IH]; [destruct b; reflexivity|].
    cbn [app starts_with]. rewrite Z.eqb_refl. exact IH.
  - apply not_elem_of_cons in H as [Hx H]. cbn [find starts_with]. destruct (Z.eqb_spec c x); [contradiction|]. cbn [andb].
    rewrite IH by exact H. reflexivity.
Qed.

Lemma count_char_app c a b : count_char c (a ++ b) = (count_char c a + count_char c b)%nat.
Proof. unfold count_char. rewrite list.filter_app, length_app. reflexivity. Qed.

Lemma count_char_none c s : c ∉ s -> count_char c s = 0%nat.
Proof.
  intros H. unfold count_char. induction s as [|x s IH]; [reflexivity|]. apply not_elem_of_cons in H as [Hx H].
  rewrite filter_cons_False by congruence. exact (IH H).
Qed.

Lemma elem_of_replace c p q s : c ∈ replace_first p q s -> c ∈ s \/ c ∈ q.
Proof.
  unfold replace_first. destruct (find p s) as [k|]; [|auto]. rewrite !elem_of_app. intros [H|[H|H]]; [|auto|].
  - left. revert H. apply elem_of_list_take || (intros H; rewrite <- (take_drop k s), elem_of_app; auto).
  - left. rewrite <- (take_drop (k + length p) s), elem_of_app. auto.
Qed.

(** The zone of an IPv6 address is escaped and unescaped. *)
Lemma unescape_zone s : replace_first (str "%25") (str "%") (replace_first (str "%") (str "%25") s) = s.
Proof.
  change (str "%25") with [37; 50; 53]. change (str "%") with [37]. unfold replace_first at 2.
  destruct (find [37] s) as [k|] eqn:E.
  - apply find_char_split in E as [E N]. unfold replace_first. change ([37; 50; 53] ++ ?l) with (37 :: [50; 53] ++ l).
    change (length [37]) with 1%nat.
    set (a := take k s) in *. set (b := drop (k + 1) s) in *. rewrite find_at by exact N. cbn [app].
    rewrite take_app_length. change (37 :: 50 :: 53 :: b) with ([37; 50; 53] ++ b). rewrite app_assoc.
    rewrite drop_app_length' by (rewrite length_app; reflexivity). symmetry. exact E.
  - unfold replace_first. rewrite (find_none _ s 37); [reflexivity|left|]. exact (find_char_absent 37 s E).
Qed.

(** *** What parseEndpoint accepts *)

(** inet_pton takes only texts with a colon as IPv6 addresses. *)
Class Ipv6Text (inet_pton6 : list Z -> option (list Z)) : Prop :=
  ipv6_colon : forall s a, inet_pton6 s = Some a -> 58 ∈ s.

Lemma elem_of_c_str c s : c ∈ c_str s -> c ∈ s.
Proof.
  induction s as [|x s IH]; [auto|]. cbn [c_str]. destruct (x =? 0); [intros H; inversion H|].
  rewrite !elem_of_cons. intros [H|H]; auto.
Qed.

Section endpoint.
Context (inet_pton4 inet_pton6 : list Z -> option (list Z)) `{!Ipv6Text inet_pton6}.

Lemma literal_colon host : validIpv6Literal inet_pton6 host = true -> 58 ∈ host.
Proof using Ipv6Text0.
  unfold validIpv6Literal. intros H.
  assert (T : forall a, (forall c, c ∈ a -> c ∈ host) -> bool_decide (is_Some (inet_pton6 (c_str a))) = true -> 58 ∈ host).
  { intros a Ha D. apply bool_decide_eq_true in D as [x D]. apply Ha, elem_of_c_str, (ipv6_colon _ _ D). }
  destruct (find_char 37 host) as [k|]; [|exact (T host (fun _ E => E) H)].
  destruct (_ || _); [discriminate H|]. refine (T (take k host) _ H).
  intros c Hc. rewrite <- (take_drop k host), elem_of_app. auto.
Qed.

(** A host in a literal, and one as a name or an IPv4 address. *)
Definition literal_ok (host : list Z) : Prop :=
  validIpv6Literal inet_pton6 host = true /\ free (93 :: blanks) host.

Definition name_ok (host : list Z) : Prop :=
  host <> [] /\ free (58 :: 37 :: 91 :: 93 :: blanks) host /\
  (forallb (fun c => existsb (Z.eqb c) (str "0123456789.")) host = true -> is_Some (inet_pton4 (c_str host))).

Lemma free_cons c cs s : c ∉ s -> free cs s -> free (c :: cs) s.
Proof. intros H F x Hx. apply elem_of_cons in Hx as [-> |Hx]; [exact H|exact (F x Hx)]. Qed.

Lemma bracketed_ok uri value port host port' : free blanks value -> 1 <= port <= 65535 ->
  parse_bracketed inet_pton6 uri value port = Some (host, port') -> literal_ok host /\ 1 <= port' <= 65535.
Proof.
  intros F Hp H. unfold parse_bracketed in H. destruct (find_char 93 value) as [stop|] eqn:E; [|discriminate H].
  apply find_char_split in E as [E N]. assert (Hs : (1 < stop)%nat \/ (stop < 1)%nat) by (destruct (decide (stop = 1)%nat) as [-> |]; [discriminate H|lia]).
  assert (G : forall h, (forall c, c ∈ h -> c ∈ drop 1 (take stop value) \/ c = 37) -> free (93 :: blanks) h).
  { intros h Hh. assert (In1 : forall c, c ∈ drop 1 (take stop value) -> c ∈ take stop value).
    { intros c Hc. rewrite <- (take_drop 1 (take stop value)), elem_of_app. auto. }
    apply free_cons.
    - intros K. destruct (Hh 93 K) as [K'|K']; [exact (N (In1 _ K'))|discriminate K'].
    - intros c Hc K. destruct (Hh c K) as [K'| ->].
      + apply (F c Hc). rewrite <- (take_drop stop value), elem_of_app. auto.
      + clear -Hc. revert Hc. by_decide || (intros Hc; cbn in Hc; rewrite !elem_of_cons in Hc; destruct_or! Hc; try discriminate; inversion Hc). }
  set (h := if uri then _ else _) in H.
  assert (Fh : free (93 :: blanks) h).
  { apply G. intros c Hc. assert (T : take (stop - 1) (drop 1 value) = drop 1 (take stop value)) by (rewrite skipn_firstn_comm; reflexivity).
    subst h. rewrite T in Hc. destruct uri; [|auto]. apply elem_of_replace in Hc as [Hc|Hc]; [auto|]. right. apply list_elem_of_singleton, Hc. }
  assert (X : (if validIpv6Literal inet_pton6 h then
         match drop (stop + 1) value with
         | [] => Some (h, port)
         | c :: text => let '(ok, p) := parsePort text port in if (c =? 58) && ok then Some (h, p) else None
         end else None) = Some (host, port')).
  { destruct stop as [|[|stop]]; [exact H|lia|exact H]. }
  clear H. destruct (validIpv6Literal inet_pton6 h) eqn:V; [|discriminate X].
  destruct (drop (stop + 1) value) as [|c text]; [injection X as <- <-; repeat split; assumption || lia|].
  destruct (parsePort text port) as [[|] p] eqn:P; destruct (c =? 58); try discriminate X. injection X as <- <-.
  apply parsePort_cases in P as (_ & _ & _ & P). repeat split; assumption || lia.
Qed.

Lemma plain_ok value port host port' : free blanks value -> 1 <= port <= 65535 ->
  parse_plain inet_pton4 inet_pton6 value port = Some (host, port') ->
  (literal_ok host \/ name_ok host) /\ 1 <= port' <= 65535.
Proof.
  intros F Hp H. unfold parse_plain in H. destruct (find_first_of (str "[]") value) eqn:B; [discriminate H|].
  apply find_first_of_free in B. destruct (Nat.leb_spec 2 (count_char 58 value)) as [Hc|Hc].
  - destruct (validIpv6Literal inet_pton6 value) eqn:V; [|discriminate H]. cbn [mbind option_bind] in H.
    rewrite (proj2 (Nat.ltb_ge _ 2)) in H by exact Hc. cbn [andb] in H. rewrite orb_false_r in H.
    destruct (bool_decide (value = [])); [discriminate H|]. injection H as <- <-. split; [left|exact Hp]. split; [exact V|].
    apply free_cons; [apply (B 93); by_decide|exact F].
  - rewrite (proj2 (Nat.ltb_lt _ 2)) in H by exact Hc. cbn [andb] in H.
    assert (T : forall h p, 58 ∉ h -> (forall c, c ∈ h -> c ∈ value) -> 1 <= p <= 65535 ->
      (if bool_decide (h = []) || bool_decide (is_Some (find_char 37 h)) then None
       else if forallb (fun c => existsb (Z.eqb c) (str "0123456789.")) h && negb (bool_decide (is_Some (inet_pton4 (c_str h))))
       then None else Some (h, p)) = Some (host, port') -> name_ok host /\ 1 <= port' <= 65535).
    { intros h p N Hs Hpp K. destruct (bool_decide_reflect (h = [])) as [|Hne]; [discriminate K|]. cbn [orb] in K.
      destruct (bool_decide_reflect (is_Some (find_char 37 h))) as [|Hz]; [discriminate K|].
      assert (Fh : free (58 :: 37 :: 91 :: 93 :: blanks) h).
      { apply free_cons; [exact N|]. apply free_cons.
        { apply find_char_absent. destruct (find [37] h) eqn:E; [|reflexivity]. destruct Hz. unfold find_char. rewrite E. eauto. }
        apply free_cons; [intros X; apply (B 91); [by_decide|auto]|]. apply free_cons; [intros X; apply (B 93); [by_decide|auto]|].
        exact (free_sub _ _ _ Hs F). }
      destruct (forallb _ h) eqn:A; cbn [andb] in K.
      - destruct (bool_decide_reflect (is_Some (inet_pton4 (c_str h)))) as [A4|]; [|discriminate K]. injection K as <- <-.
        split; [|exact Hpp]. split; [exact Hne|]. split; [exact Fh|intros _; exact A4].
      - injection K as <- <-. split; [|exact Hpp]. split; [exact Hne|]. split; [exact Fh|rewrite A; discriminate]. }
    destruct (find_char 58 value) as [colon|] eqn:E.
    + destruct (parsePort (drop (colon + 1) value) port) as [[|] p] eqn:P; [|discriminate H]. cbn [mbind option_bind] in H.
      apply find_char_split in E as [_ N]. apply parsePort_cases in P as (_ & _ & _ & P).
      destruct (T (take colon value) p N) as [R1 R2]; [|exact P|exact H|split; [right; exact R1|exact R2]].
      intros c Hx. rewrite <- (take_drop colon value), elem_of_app. auto.
    + cbn [mbind option_bind] in H. destruct (T value port (find_char_absent 58 value E) (fun _ X => X) Hp H) as [R1 R2].
      split; [right; exact R1|exact R2].
Qed.

Lemma parseEndpoint_ok input host0 port0 host port : 1 <= port0 <= 65535 ->
  parseEndpoint inet_pton4 inet_pton6 input host0 port0 = (true, host, port) ->
  (literal_ok host \/ name_ok host) /\ 1 <= port <= 65535.
Proof.
  intros Hp H. unfold parseEndpoint in H. set (uri := starts_with _ _) in H. set (value := if uri then _ else _) in H. clearbody uri value.
  destruct value as [|front value]; [discriminate H|]. destruct (find_first_of _ _) eqn:B; [discriminate H|].
  apply find_first_of_free in B. destruct (Z.eqb_spec front 91).
  - destruct (parse_bracketed _ _ _ _) as [[h p]|] eqn:P; [|discriminate H]. injection H as <- <-.
    destruct (bracketed_ok _ _ _ _ _ B Hp P). auto.
  - destruct (parse_plain _ _ _ _) as [[h p]|] eqn:P; [|discriminate H]. injection H as <- <-. exact (plain_ok _ _ _ _ B Hp P).
Qed.

(** *** The text of an endpoint *)

Lemma blanks_dec n : 0 <= n < 2 ^ 64 -> free (58 :: 37 :: 91 :: 93 :: blanks) (dec n).
Proof. intros Hn. apply free_dec; [exact Hn|by_decide]. Qed.

Lemma free_tail c cs s : free (c :: cs) s -> free cs s.
Proof. intros F x Hx. apply F. right. exact Hx. Qed.

Lemma literal_text host port host0 port0 : literal_ok host -> 1 <= port <= 65535 ->
  parseEndpoint inet_pton4 inet_pton6 (formatEndpoint host port) host0 port0 = (true, host, port).
Proof using Ipv6Text0.
  intros [V F] Hp. assert (C := literal_colon host V). unfold formatEndpoint.
  destruct (find_char 58 host) as [k|] eqn:E; [|exfalso; exact (find_char_absent 58 host E C)].
  set (enc := replace_first (str "%") (str "%25") host).
  assert (Fe : free (93 :: blanks) enc).
  { apply (fun G => free_sub _ (host ++ str "%25") enc G ltac:(apply free_app; split; [exact F|by_decide])).
    intros c Hc. apply elem_of_replace in Hc. rewrite elem_of_app. exact Hc. }
  assert (Ne : enc <> []).
  { unfold enc, replace_first. destruct (find (str "%") host) as [j|]; [intros X; apply app_eq_nil in X as [_ X]; discriminate X|].
    intros X. rewrite X in C. inversion C. }
  unfold parseEndpoint. change (starts_with (str "udp://") (str "udp://[" ++ ?l)) with (starts_with [] ([91] ++ l)).
  cbn [starts_with]. change (drop 6 (str "udp://[" ++ ?l)) with (91 :: l). cbn iota.
  set (value := 91 :: enc ++ str "]:" ++ dec port).
  assert (Fv : find_first_of (32 :: 9 :: 13 :: 10 :: str "/?#") value = false).
  { apply find_first_of_free. change value with (str "[" ++ enc ++ str "]:" ++ dec port). rewrite !free_app.
    split_and!; [by_decide|exact (free_tail _ _ _ Fe)|by_decide|].  exact (free_tail _ _ _ (free_tail _ _ _ (free_tail _ _ _ (free_tail _ _ _ (blanks_dec port ltac:(lia)))))). }
  rewrite Fv. change (91 =? 91) with true. cbn iota.
  assert (P : parse_bracketed inet_pton6 true value port0 = Some (host, port)).
  { unfold parse_bracketed, find_char. change value with (91 :: enc ++ 93 :: 58 :: dec port).
    change (91 :: enc ++ 93 :: 58 :: dec port) with ((91 :: enc) ++ 93 :: 58 :: dec port). rewrite find_char_app by (apply not_elem_of_cons; split; [discriminate|apply Fe; left]).
    cbn [length]. destruct (length enc) as [|n] eqn:L; [apply nil_length_inv in L; contradiction|]. rewrite <- L.
    cbn [app drop]. rewrite drop_0. replace (S (length enc) - 1)%nat with (length enc) by lia. rewrite take_app_length.
    rewrite (unescape_zone host : replace_first (str "%25") (str "%") enc = host), V. change (S (length enc) + 1)%nat with (S (length enc + 1)). cbn [drop].
    rewrite (app_assoc enc [93] (58 :: dec port) : enc ++ 93 :: 58 :: dec port = _), drop_app_length' by (rewrite length_app; reflexivity).
    rewrite parsePort_dec by exact Hp. reflexivity. }
  rewrite P. reflexivity.
Qed.

Lemma name_text host port host0 port0 : name_ok host -> 1 <= port <= 65535 ->
  parseEndpoint inet_pton4 inet_pton6 (formatEndpoint host port) host0 port0 = (true, host, port).
Proof.
  intros (Hne & F & A) Hp. unfold formatEndpoint.
  assert (C : 58 ∉ host) by (apply F; left). rewrite (find_char_none 58 host C : find_char 58 host = None).
  unfold parseEndpoint. change (starts_with (str "udp://") (str "udp://" ++ ?l)) with (starts_with [] l).
  change (drop 6 (str "udp://" ++ ?l)) with l. replace (starts_with [] (host ++ str ":" ++ dec port)) with true by (destruct host; reflexivity).
  assert (Fd := blanks_dec port ltac:(lia)).
  assert (Fb : free (37 :: 91 :: 93 :: blanks) (host ++ str ":" ++ dec port)).
  { rewrite !free_app. split_and!; [exact (free_tail _ _ _ F)|by_decide|exact (free_tail _ _ _ Fd)]. }
  assert (Fv : find_first_of (32 :: 9 :: 13 :: 10 :: str "/?#") (host ++ str ":" ++ dec port) = false).
  { apply find_first_of_free. exact (free_tail _ _ _ (free_tail _ _ _ (free_tail _ _ _ Fb))). }
  assert (Fr : find_first_of (str "[]") (host ++ str ":" ++ dec port) = false).
  { apply find_first_of_free. intros c Hc. apply Fb. revert Hc. change (str "[]") with [91; 93]. rewrite !elem_of_cons, elem_of_nil. tauto. }
  rewrite Fv. set (value := host ++ str ":" ++ dec port) in *.
  assert (P : parse_plain inet_pton4 inet_pton6 value port0 = Some (host, port)).
  { assert (Hc : count_char 58 value = 1%nat).
    { unfold value. rewrite !count_char_app, (count_char_none 58 host C), (count_char_none 58 (dec port)) by (apply Fd; left). reflexivity. }
    assert (Hf : find_char 58 value = Some (length host)) by (apply (find_char_app 58 host (dec port) C)).
    assert (Hd : drop (length host + 1) value = dec port).
    { unfold value. rewrite app_assoc, drop_app_length' by (rewrite length_app; reflexivity). reflexivity. }
    assert (Ht : take (length host) value = host) by apply take_app_length.
    unfold parse_plain. rewrite Fr, Hc, Hf. cbn [Nat.leb Nat.ltb]. rewrite Hd, Ht, parsePort_dec by exact Hp. cbn [mbind option_bind andb].
    rewrite (bool_decide_false (host = [])) by exact Hne.
    rewrite (find_char_none 37 host ltac:(apply F; right; left) : find_char 37 host = None).
    rewrite bool_decide_false by (intros [x X]; discriminate X). cbn [orb].
    destruct (forallb _ host); [|reflexivity]. rewrite bool_decide_true by auto. reflexivity. }
  rewrite P. destruct host as [|front host]; [contradiction|]. change value with (front :: host ++ str ":" ++ dec port). cbn iota.
  destruct (Z.eqb_spec front 91) as [->|]; [|reflexivity]. exfalso. apply (F 91); [right; right; left|left].
Qed.
End endpoint.

(** ** Properties *)

(** ParsePort takes exactly the decimal numbers from 1 to 65535, with any
    number of leading zeros, and its unsigned arithmetic never wraps around. *)
Theorem parsePort_spec text port v :
  parsePort text port = (true, v) <->
  text <> [] /\ Forall (fun c => 48 <= c <= 57) text /\
  v = foldl (fun a c => a * 10 + (c - 48)) 0 text /\ 1 <= v <= 65535.
Proof. apply parsePort_cases. Qed.

(** An endpoint that parseEndpoint accepts, written by formatEndpoint, is
    parsed as the same host and port: names, IPv4 addresses, IPv6 addresses with or
    without brackets and zone. *)
Theorem endpoint_roundtrip inet_pton4 inet_pton6 input host0 port0 host port host1 port1 :
  Ipv6Text inet_pton6 -> 1 <= port0 <= 65535 ->
  parseEndpoint inet_pton4 inet_pton6 input host0 port0 = (true, host, port) ->
  parseEndpoint inet_pton4 inet_pton6 (formatEndpoint host port) host1 port1 = (true, host, port).
Proof.
  intros H6 Hp H. destruct (parseEndpoint_ok inet_pton4 inet_pton6 _ _ _ _ _ Hp H) as [[Hl|Hn] Hp'].
  - apply literal_text; assumption.
  - apply name_text; assumption.
Qed.

(** A parser of IPv6 addresses that knows the loopback address only. *)
Definition sample_pton6 (s : list Z) : option (list Z) :=
  if bool_decide (s = str "::1") then Some (replicate 15 0 ++ [1]) else None.

Lemma endpoint_roundtrip_witness :
  parseEndpoint (fun _ => None) sample_pton6 (formatEndpoint (str "::1%eth0") 9598) [] 1 = (true, str "::1%eth0", 9598).
Proof.
  apply (endpoint_roundtrip (fun _ => None) sample_pton6 (str "udp://[::1%25eth0]") [] 9598).
  - intros s a. unfold sample_pton6. destruct (bool_decide_reflect (s = str "::1")) as [->|]; [intros _; by_decide|discriminate].
  - lia.
  - vm_compute. reflexivity.
Defined.
