(* ===== verification/DatagramConfig.v ===== *)
(** * Settings of the datagram clients: vscp-client-datagram.h, vscp-client-udp.cpp,
    vscp-client-multicast.cpp

    The options of a JSON object, the checks on keys, and getConfigAsJson and
    initFromJson of the two clients.  JSON values are those of the library nlohmann
    json; its parser and printer are outside: [initFromJson] gets what json::parse
    made of the text, or [None] for its exception. *)

From S2P Require Import Prelude Program Frame Strings Guid Filter Json Endpoint.

(** ** Options *)

(** The result and the number, which is written before it is compared. *)
Definition jsonUnsigned (value : json) (maximum result : Z) : bool * Z :=
  match value with
  | JUnsigned n => (n <=? maximum, n)
  | JInteger n => if n <? 0 then (false, result) else (n <=? maximum, n)
  | _ => (false, result)
  end.

Definition jsonPort (value : json) (port : Z) : bool * Z :=
  let '(ok, number) := jsonUnsigned value 65535 0 in
  if negb ok || (number =? 0) then (false, port) else (true, u16 number).

(** [bits] is the width of the variable. *)
Definition optionalUnsigned (bits : Z) (config : json) (name : list Z) (value : Z) : bool * Z :=
  match field config name with
  | None => (true, value)
  | Some j =>
      let '(ok, number) := jsonUnsigned j (2 ^ bits - 1) 0 in
      if ok : bool then (true, number mod 2 ^ bits) else (false, value)
  end.

(** ** Keys *)

Definition aesKeyLength (encryption : Z) : Z :=
  if encryption =? VSCP_ENCRYPTION_AES128 then 16
  else if encryption =? VSCP_ENCRYPTION_AES192 then 24
  else if encryption =? VSCP_ENCRYPTION_AES256 then 32
  else 0.

(** CRYPTO_memcmp(a, b, n) == 0. *)
Definition same_bytes (n : Z) (a b : list Z) : bool := bool_decide (take (Z.to_nat n) a = take (Z.to_nat n) b).

Definition authenticatedKeysValid (encryption : Z) (key : list Z) (keyLength : Z) (hmacKey : list Z) : bool :=
  let expectedLength := aesKeyLength encryption in
  negb (expectedLength =? 0) && (keyLength =? expectedLength) && negb (same_bytes expectedLength key hmacKey).

Definition authenticationStateValid (encryption : Z) (key : list Z) (keyLength : Z) (hmacKey : list Z)
    (configuredEncryption : Z) (configuredKey : list Z) : bool :=
  (encryption =? configuredEncryption) && same_bytes 32 key configuredKey
  && authenticatedKeysValid encryption key keyLength hmacKey.

Definition authenticationOptionsExplicit (config : json) (encryption : Z) (key : list Z)
    (configuredEncryption : Z) (configuredKey : list Z) : bool :=
  (contains config (str "encryption") || (encryption =? configuredEncryption))
  && (contains config (str "key") || same_bytes 32 key configuredKey).

Definition authenticationChanged (oldEnabled newEnabled : bool) (oldEncryption newEncryption : Z)
    (oldKey newKey oldHmacKey newHmacKey : list Z) : bool :=
  (oldEnabled || newEnabled)
  && (negb (Bool.eqb oldEnabled newEnabled) || negb (oldEncryption =? newEncryption)
      || negb (same_bytes 32 oldKey newKey) || negb (same_bytes 32 oldHmacKey newHmacKey)).

(** ** The options of events

    The variables that eventOptions is given references to. *)
Record options := Options {
  encryption : Z; key : list Z; keyLength : Z; hmacEnabled : bool; hmacKey : list Z; ofilter : vscpEventFilter
}.

Definition set_encryption v o := Options v (key o) (keyLength o) (hmacEnabled o) (hmacKey o) (ofilter o).
Definition set_key k n o := Options (encryption o) k n (hmacEnabled o) (hmacKey o) (ofilter o).
Definition set_hmac b k o := Options (encryption o) (key o) (keyLength o) b k (ofilter o).
Definition set_ofilter f o := Options (encryption o) (key o) (keyLength o) (hmacEnabled o) (hmacKey o) f.

Definition modify {W} (f : W -> W) : M W unit := w ← get; put (f w).

(** The next statement, unless one returned false. *)
Definition and_then {W} (m k : M W bool) : M W bool := ok ← m; if ok : bool then k else mret false.

Definition is_hex (s : list Z) : bool := forallb (is_digit 16) s.

(** memset of the 32 bytes to zero and the bytes of a hex string over them. *)
Definition read_key (n : nat) (hex : list Z) : M options (list Z) :=
  match vscp_hexStr2ByteArray n hex with
  | Some bs => mret bs
  | None => throw
  end.

Definition option_encryption (config : json) : M options bool :=
  match field config (str "encryption") with
  | None => mret true
  | Some j =>
      let '(ok, number) := jsonUnsigned j VSCP_ENCRYPTION_AES256 0 in
      if ok : bool then _ ← modify (set_encryption (u8 number)); mret true else mret false
  end.

Definition option_padding (config : json) : M options bool :=
  match field config (str "padding") with
  | None => mret true
  | Some (JString s) => mret (bool_decide (s = str "pkcs7"))
  | Some _ => mret false
  end.

Definition option_key (config : json) : M options bool :=
  match field config (str "key") with
  | None => mret true
  | Some (JString hex) =>
      o ← get;
      if encryption o =? VSCP_ENCRYPTION_NONE then _ ← modify (set_key (zeros 32) 0); mret true
      else
        let expectedLength := aesKeyLength (encryption o) in
        if (expectedLength =? 0) || negb (Z.of_nat (length hex) =? expectedLength * 2) || negb (is_hex hex)
        then mret false
        else
          bs ← read_key (Z.to_nat expectedLength) hex;
          let written := bs ++ drop (length bs) (zeros 32) in
          if Z.of_nat (length bs) =? expectedLength
          then _ ← modify (set_key written expectedLength); mret true
          else _ ← modify (set_key written (keyLength o)); mret false
  | Some _ => mret false
  end.

Definition option_hmac (config : json) : M options bool :=
  match field config (str "hmac-key") with
  | None => mret true
  | Some (JString []) => _ ← modify (set_hmac false (zeros 32)); mret true
  | Some (JString hex) =>
      if negb (Z.of_nat (length hex) =? 64) || negb (is_hex hex) then mret false
      else
        o ← get;
        bs ← read_key 32 hex;
        let written := bs ++ drop (length bs) (hmacKey o) in
        if (length bs =? 32)%nat then _ ← modify (set_hmac true written); mret true
        else _ ← modify (set_hmac (hmacEnabled o) written); mret false
  | Some _ => mret false
  end.

Definition option_authentication : M options bool :=
  o ← get;
  if hmacEnabled o then
    let expectedLength := aesKeyLength (encryption o) in
    if (expectedLength =? 0) || negb (keyLength o =? expectedLength) then mret false
    else mret (negb (same_bytes expectedLength (key o) (hmacKey o)))
  else mret true.

(** A number of the filter, and one of its GUIDs. *)
Definition option_number (bits : Z) (config : json) (name : list Z)
    (read : vscpEventFilter -> Z) (write : Z -> vscpEventFilter -> vscpEventFilter) : M options bool :=
  o ← get;
  let '(ok, v) := optionalUnsigned bits config name (read (ofilter o)) in
  _ ← put (set_ofilter (write v (ofilter o)) o); mret ok.

Definition option_guid (config : json) (name : list Z)
    (write : list Z -> vscpEventFilter -> vscpEventFilter) : M options bool :=
  match field config name with
  | None => mret true
  | Some (JString s) =>
      o ← get;
      let '(ok, g) := vscp_parseGuid s in
      _ ← put (set_ofilter (write g (ofilter o)) o); mret ok
  | Some _ => mret false
  end.

Definition w_fprio v f := Filter v (mask_priority f) (filter_class f) (mask_class f) (filter_type f) (mask_type f) (filter_GUID f) (mask_GUID f).
Definition w_mprio v f := Filter (filter_priority f) v (filter_class f) (mask_class f) (filter_type f) (mask_type f) (filter_GUID f) (mask_GUID f).
Definition w_fclass v f := Filter (filter_priority f) (mask_priority f) v (mask_class f) (filter_type f) (mask_type f) (filter_GUID f) (mask_GUID f).
Definition w_mclass v f := Filter (filter_priority f) (mask_priority f) (filter_class f) v (filter_type f) (mask_type f) (filter_GUID f) (mask_GUID f).
Definition w_ftype v f := Filter (filter_priority f) (mask_priority f) (filter_class f) (mask_class f) v (mask_type f) (filter_GUID f) (mask_GUID f).
Definition w_mtype v f := Filter (filter_priority f) (mask_priority f) (filter_class f) (mask_class f) (filter_type f) v (filter_GUID f) (mask_GUID f).
Definition w_fguid v f := Filter (filter_priority f) (mask_priority f) (filter_class f) (mask_class f) (filter_type f) (mask_type f) v (mask_GUID f).
Definition w_mguid v f := Filter (filter_priority f) (mask_priority f) (filter_class f) (mask_class f) (filter_type f) (mask_type f) (filter_GUID f) v.

Definition option_filter (config : json) : M options bool :=
  and_then (option_number 8 config (str "priority-filter") filter_priority w_fprio)
  (and_then (option_number 8 config (str "priority-mask") mask_priority w_mprio)
  (and_then (option_number 16 config (str "class-filter") filter_class w_fclass)
  (and_then (option_number 16 config (str "class-mask") mask_class w_mclass)
  (and_then (option_number 16 config (str "type-filter") filter_type w_ftype)
  (and_then (option_number 16 config (str "type-mask") mask_type w_mtype)
  (and_then (option_guid config (str "guid-filter") w_fguid)
            (option_guid config (str "guid-mask") w_mguid))))))).

Definition eventOptions (config : json) : M options bool :=
  and_then (option_encryption config)
  (and_then (option_padding config)
  (and_then (option_key config)
  (and_then (option_hmac config)
  (and_then option_authentication (option_filter config))))).

(** ** The settings of a client

    Both classes: m_udpAddr or m_multicastGroupAddr is [m_addr], likewise
    [m_port]; a UDP client has no [m_ttl].  m_j_config, which keeps the JSON object
    and which nothing reads, is left out. *)

Inductive kind := Udp | Multicast.

Record settings := Settings {
  m_interface : list Z; m_addr : list Z; m_port : Z; m_ttl : Z;
  m_encryptType : Z; m_key : list Z; m_configuredKeyLength : Z;
  m_hmacEnabled : bool; m_hmacKey : list Z;
  m_configuredEncryption : Z; m_configuredKey : list Z; m_filter : vscpEventFilter
}.

(** "A4A86F7D7E119BA3F0CD06881E371B98": the constructors' key. *)
Definition VSCP_DEFAULT_KEY16 : list Z := str "A4A86F7D7E119BA3F0CD06881E371B98".

(** The constructors; [None] is an exception. *)
Definition initial_settings (k : kind) : option settings :=
  bs ← vscp_hexStr2ByteArray 32 VSCP_DEFAULT_KEY16;
  f ← vscp_clearVSCPFilter (Some (Filter 0 0 0 0 0 0 (zeros 16) (zeros 16)));
  Some (Settings []
    (match k with Udp => str "255.255.255.255" | Multicast => str "224.0.23.158" end)
    (match k with Udp => 33333 | Multicast => 9598 end) 1 VSCP_ENCRYPTION_NONE (bs ++ drop (length bs) (zeros 32)) 0
    false (zeros 32) VSCP_ENCRYPTION_NONE (zeros 32) f).

(** The object that getConfigAsJson dumps. *)
Definition config_json (k : kind) (s : settings) : json :=
  let hex n b := JString (c_str (vscp_byteArray2HexStr (take n b))) in
  let guid g := JString (c_str (default [] (vscp_writeGuidArrayToString (Some g) false VSCP_GUID_STR_FORMAT_NORMAL))) in
  let f := m_filter s in
  JObject (
    [(str "interface", JString (c_str (m_interface s)));
     (str "ip", JString (formatEndpoint (m_addr s) (m_port s)))] ++
    match k with Udp => [] | Multicast => [(str "ttl", JUnsigned (m_ttl s))] end ++
    [(str "encryption", JUnsigned (m_encryptType s));
     (str "padding", JString (str "pkcs7"));
     (str "hmac-key", if m_hmacEnabled s then hex 32%nat (m_hmacKey s) else JString []);
     (str "key",
        if m_encryptType s =? VSCP_ENCRYPTION_AES128 then hex 16%nat (m_key s)
        else if m_encryptType s =? VSCP_ENCRYPTION_AES192 then hex 24%nat (m_key s)
        else if m_encryptType s =? VSCP_ENCRYPTION_AES256 then hex 32%nat (m_key s)
        else JString []);
     (str "priority-filter", JUnsigned (filter_priority f));
     (str "priority-mask", JUnsigned (mask_priority f));
     (str "class-filter", JUnsigned (filter_class f));
     (str "class-mask", JUnsigned (mask_class f));
     (str "type-filter", JUnsigned (filter_type f));
     (str "type-mask", JUnsigned (mask_type f));
     (str "guid-filter", guid (filter_GUID f));
     (str "guid-mask", guid (mask_GUID f))]).

Definition getConfigAsJson (dump : json -> list Z) (k : kind) (s : settings) : list Z := dump (config_json k s).

(** The variables before eventOptions: interface, address, port and hops. *)
Definition interface_option (config : json) (m_interface : list Z) : option (list Z) :=
  match field config (str "interface") with
  | None => Some m_interface
  | Some (JString s) => Some s
  | Some _ => None
  end.

Section address.
Variable inet_pton4 inet_pton6 : list Z -> option (list Z).

Definition address_option (config : json) (address : list Z) (port : Z) : option (list Z * Z) :=
  match field config (str "ip") with
  | None => Some (address, port)
  | Some (JString s) =>
      match parseEndpoint inet_pton4 inet_pton6 s address port with
      | (true, address, port) => Some (address, port)
      | _ => None
      end
  | Some _ => None
  end.

Definition port_option (config : json) (port : Z) : option Z :=
  match field config (str "port") with
  | None => Some port
  | Some j => match jsonPort j port with (true, port) => Some port | _ => None end
  end.

Definition ttl_option (k : kind) (config : json) (ttl : Z) : option Z :=
  match k with
  | Udp => Some ttl
  | Multicast => match optionalUnsigned 8 config (str "ttl") ttl with (true, ttl) => Some ttl | _ => None end
  end.

Definition locals_of (k : kind) (config : json) (s : settings) : option (list Z * list Z * Z * Z) :=
  interfaceName ← interface_option config (m_interface s);
  '(address, port) ← address_option config (m_addr s) (m_port s);
  port ← port_option config port;
  ttl ← ttl_option k config (m_ttl s);
  Some (interfaceName, address, port, ttl).

(** The result and the settings.  [idle]: not connected, no worker thread and
    nobody joining one; [queue_empty] is m_receiveQueue.empty(). *)
Definition initFromJson (k : kind) (idle queue_empty : bool) (parsed : option json) (s : settings)
  : outcome (bool * settings) :=
  if negb idle then Returns (false, s)
  else
    match parsed with
    | Some (JObject fields) =>
        let nextConfig := JObject fields in
        match locals_of k nextConfig s with
        | None => Returns (false, s)
        | Some (interfaceName, address, port, ttl) =>
            match eventOptions nextConfig
                    (Options (m_encryptType s) (m_key s) (m_configuredKeyLength s) (m_hmacEnabled s) (m_hmacKey s) (m_filter s)) with
            | Returns (true, o) =>
                if hmacEnabled o
                   && negb (authenticationOptionsExplicit nextConfig (encryption o) (key o) (m_configuredEncryption s) (m_configuredKey s))
                then Returns (false, s)
                else if negb queue_empty
                        && authenticationChanged (m_hmacEnabled s) (hmacEnabled o)
                             (if m_hmacEnabled s then m_configuredEncryption s else m_encryptType s) (encryption o)
                             (if m_hmacEnabled s then m_configuredKey s else m_key s) (key o) (m_hmacKey s) (hmacKey o)
                then Returns (false, s)
                else
                  Returns (true,
                    Settings interfaceName address port ttl (encryption o) (key o) (keyLength o) (hmacEnabled o) (hmacKey o)
                      (if contains nextConfig (str "encryption") then encryption o else m_configuredEncryption s)
                      (if contains nextConfig (str "key") then key o else m_configuredKey s)
                      (ofilter o))
            | Returns (false, _) => Returns (false, s)
            | Throws => Throws
            | Undefined => Undefined
            | OutOfFuel => OutOfFuel
            end
        end
    | _ => Returns (false, s)
    end.
End address.

(** The check of connect on the settings. *)
Definition connect_check (s : settings) : bool :=
  negb (m_hmacEnabled s)
  || authenticationStateValid (m_encryptType s) (m_key s) (m_configuredKeyLength s) (m_hmacKey s)
       (m_configuredEncryption s) (m_configuredKey s).

(** ** Lemmas *)

(** *** Hex strings as keys *)

Lemma readHexChar_digit c : is_digit 16 c = true -> (exists v, readHexChar c = Some v) /\ c <> 0.
Proof.
  unfold is_digit, digit_value, readHexChar. destruct ((48 <=? c) && (c <=? 57)) eqn:A; [rewrite andb_true_iff, !Z.leb_le in A; split; [eauto|lia]|].
  destruct ((97 <=? c) && (c <=? 122)) eqn:B.
  - rewrite andb_true_iff, !Z.leb_le in B. intros H%Z.ltb_lt. rewrite (proj2 (andb_false_iff _ (c <=? 70))) by (right; apply Z.leb_gt; lia).
    rewrite (proj2 (Z.leb_le 97 c)), (proj2 (Z.leb_le c 102)) by lia. split; [eauto|lia].
  - destruct ((65 <=? c) && (c <=? 90)) eqn:C; [|discriminate]. rewrite andb_true_iff, !Z.leb_le in C. intros H%Z.ltb_lt.
    rewrite (proj2 (Z.leb_le 65 c)), (proj2 (Z.leb_le c 70)) by lia. split; [eauto|lia].
Qed.

Lemma hexstr_loop_defined n s : is_hex s = true -> length s = (2 * n)%nat ->
  exists bs, hexstr_loop n s = Some bs /\ length bs = n /\ bytes_ok bs.
Proof.
  revert s. induction n as [|n IH]; intros s H L.
  - destruct s; [|cbn in L; lia]. exists []. split; [reflexivity|]. split; [reflexivity|constructor].
  - destruct s as [|a [|b s]]; [cbn in L; lia|cbn in L; lia|]. cbn in H. rewrite !andb_true_iff in H. destruct H as (Ha & Hb & H).
    destruct (readHexChar_digit a Ha) as [[x Ex] _], (readHexChar_digit b Hb) as [[y Ey] _].
    destruct (IH s H) as (bs & E & Lb & Bb); [cbn in L; lia|]. cbn [hexstr_loop]. rewrite Ex, Ey, E. cbn [mbind option_bind].
    eexists. split; [reflexivity|]. split; [cbn; lia|]. constructor; [apply u8_ok|exact Bb].
Qed.

Lemma hex_defined n s : is_hex s = true -> length s = (2 * n)%nat ->
  exists bs, vscp_hexStr2ByteArray n s = Some bs /\ length bs = n /\ bytes_ok bs.
Proof.
  intros H L. unfold vscp_hexStr2ByteArray. rewrite c_str_id; [apply hexstr_loop_defined; assumption|].
  intros I. unfold is_hex in H. rewrite forallb_forall in H. apply list_elem_of_In, H in I. apply readHexChar_digit in I as [_ I]. contradiction.
Qed.

(** *** Steps that may stop *)

(** [m] ends from every state of [P], and in one of [Q] when it returns true. *)
Definition runs {W} (m : M W bool) (P Q : W -> Prop) : Prop :=
  forall w, P w -> exists ok w', m w = Returns (ok, w') /\ (ok = true -> Q w').

Lemma runs_then {W} (m k : M W bool) P Q R : runs m P Q -> runs k Q R -> runs (and_then m k) P R.
Proof.
  intros Hm Hk w Hw. destruct (Hm w Hw) as (ok & w' & E & HQ). unfold and_then. rewrite (bind_returns _ _ _ _ _ E).
  destruct ok; [exact (Hk w' (HQ eq_refl))|]. exists false, w'. split; [reflexivity|discriminate].
Qed.

Lemma runs_true {W} (P : W -> Prop) : runs (mret true) P P.
Proof. intros w Hw. exists true, w. split; [reflexivity|auto]. Qed.

Lemma runs_false {W} (P Q : W -> Prop) : runs (mret false) P Q.
Proof. intros w Hw. exists false, w. split; [reflexivity|discriminate]. Qed.

Lemma runs_modify {W} (f : W -> W) (P Q : W -> Prop) : (forall w, P w -> Q (f w)) -> runs (_ ← modify f; mret true) P Q.
Proof. intros H w Hw. exists true, (f w). split; [reflexivity|auto]. Qed.

Lemma then_returns {W} (m k : M W bool) w w' : m w = Returns (true, w') -> and_then m k w = k w'.
Proof. intros E. unfold and_then. rewrite (bind_returns _ _ _ _ _ E). reflexivity. Qed.

(** *** The options *)

(** A number of nlohmann json has 64 bits. *)
Definition value_ok (j : json) : Prop := match j with JUnsigned n => is_u64 n | _ => True end.
Definition json_ok (j : json) : Prop := match j with JObject fields => Forall (fun f => value_ok f.2) fields | _ => True end.

Lemma field_ok config name j : json_ok config -> field config name = Some j -> value_ok j.
Proof.
  destruct config; try discriminate. cbn. unfold member. intros H E. destruct (List.find _ fields) as [f|] eqn:F; [|discriminate E].
  injection E as <-. apply List.find_some in F as [F _]. exact (proj1 (List.Forall_forall _ _) H f F).
Qed.

Lemma jsonUnsigned_true j maximum r0 n : value_ok j -> jsonUnsigned j maximum r0 = (true, n) -> 0 <= n <= maximum.
Proof.
  unfold jsonUnsigned. destruct j; try discriminate; cbn; intros V.
  - intros [= L <-]. apply Z.leb_le in L. unfold is_u64 in V. lia.
  - destruct (Z.ltb_spec n0 0) as [|H]; [discriminate|]. intros [= L <-]. apply Z.leb_le in L. lia.
Qed.

Definition key_ok (k : list Z) : Prop := length k = 32%nat /\ bytes_ok k.

Record options_ok (o : options) : Prop := {
  encryption_ok : 0 <= encryption o <= 3;
  okey_ok : key_ok (key o);
  ohmac_ok : key_ok (hmacKey o);
  ofilter_ok : filter_ok (ofilter o)
}.

Definition keyed (o : options) : Prop :=
  hmacEnabled o = true -> authenticatedKeysValid (encryption o) (key o) (keyLength o) (hmacKey o) = true.

Lemma zeros_key_ok : key_ok (zeros 32).
Proof. split; [reflexivity|apply Forall_replicate; width]. Qed.

Section options.
Context (config : json) (Hc : json_ok config).

Lemma runs_encryption : runs (option_encryption config) options_ok options_ok.
Proof using Hc.
  unfold option_encryption. destruct (field config _) as [j|] eqn:E; [|apply runs_true].
  destruct (jsonUnsigned j _ 0) as [[|] n] eqn:J; [|apply runs_false]. apply jsonUnsigned_true in J; [|exact (field_ok _ _ _ Hc E)].
  unfold VSCP_ENCRYPTION_AES256 in J. apply runs_modify. intros o [H1 H2 H3 H4].
  constructor; try assumption. cbn. rewrite u8_id by width. lia.
Qed.

Lemma runs_padding : runs (option_padding config) options_ok options_ok.
Proof.
  unfold option_padding. destruct (field config _) as [[]|]; try apply runs_true; try apply runs_false.
  destruct (bool_decide _); [apply runs_true|apply runs_false].
Qed.

Lemma written_key_ok n bs rest : (n <= 32)%nat -> length bs = n -> bytes_ok bs -> key_ok rest -> key_ok (bs ++ drop (length bs) rest).
Proof.
  intros Hn L B [Lr Br]. split; [rewrite length_app, length_drop; lia|]. apply Forall_app. split; [exact B|apply Forall_drop, Br].
Qed.

Lemma aesKeyLength_bound e : 0 <= aesKeyLength e <= 32.
Proof. unfold aesKeyLength. destruct (_ =? _); [lia|]. destruct (_ =? _); [lia|]. destruct (_ =? _); lia. Qed.

Lemma runs_key : runs (option_key config) options_ok options_ok.
Proof.
  unfold option_key. destruct (field config _) as [[]|]; try apply runs_true; try apply runs_false.
  intros o [H1 H2 H3 H4]. unfold mbind at 1, M_bind at 1, get.
  destruct (encryption o =? VSCP_ENCRYPTION_NONE).
  { apply runs_modify with (P := eq o); [|reflexivity]. intros _ <-. constructor; try assumption. apply zeros_key_ok. }
  cbv zeta. destruct (_ || negb (is_hex s)) eqn:G; [apply runs_false with (P := fun _ => True); exact I|].
  rewrite !orb_false_iff, !negb_false_iff, Z.eqb_eq in G. destruct G as [[_ G1] G2].
  assert (Lk := aesKeyLength_bound (encryption o)). unfold read_key.
  destruct (hex_defined (Z.to_nat (aesKeyLength (encryption o))) s G2 ltac:(lia)) as (bs & -> & Lb & Bb).
  assert (Kb := written_key_ok (length bs) bs (zeros 32) ltac:(lia) eq_refl Bb zeros_key_ok). rewrite bind_ret.
  destruct (Z.of_nat (length bs) =? aesKeyLength (encryption o)).
  - apply runs_modify with (P := eq o); [|reflexivity]. intros _ <-. constructor; assumption.
  - eexists _, _. split; [reflexivity|discriminate].
Qed.

Lemma runs_hmac : runs (option_hmac config) options_ok options_ok.
Proof.
  unfold option_hmac. destruct (field config _) as [[]|]; try apply runs_true; try apply runs_false.
  destruct s as [|c s].
  { apply runs_modify. intros o [H1 H2 H3 H4]. constructor; try assumption. apply zeros_key_ok. }
  destruct (_ || negb (is_hex (c :: s))) eqn:G; [apply runs_false|].
  rewrite !orb_false_iff, !negb_false_iff, Z.eqb_eq in G. destruct G as [G1 G2].
  intros o [H1 H2 H3 H4]. unfold mbind at 1, M_bind at 1, get. unfold read_key.
  destruct (hex_defined 32 (c :: s) G2 ltac:(lia)) as (bs & -> & Lb & Bb).
  assert (Kb := written_key_ok 32 bs (hmacKey o) ltac:(lia) Lb Bb H3). rewrite bind_ret, Lb. rewrite Lb in Kb.
  apply runs_modify with (P := eq o); [|reflexivity]. intros _ <-. constructor; assumption.
Qed.

Lemma runs_authentication : runs option_authentication options_ok (fun o => options_ok o /\ keyed o).
Proof.
  intros o K. unfold option_authentication, mbind, M_bind, get. destruct (hmacEnabled o) eqn:B.
  - cbv zeta. destruct (_ || _) eqn:G; [exists false, o; split; [reflexivity|discriminate]|]. eexists _, o. split; [reflexivity|].
    intros V. split; [exact K|]. intros _. apply orb_false_iff in G as [G1 G2]. unfold authenticatedKeysValid.
    rewrite G1, V. apply negb_false_iff in G2. rewrite G2. reflexivity.
  - exists true, o. split; [reflexivity|]. intros _. split; [exact K|]. intros X. congruence.
Qed.

Definition valid (o : options) : Prop := options_ok o /\ keyed o.

Lemma valid_filter f o : valid o -> filter_ok f -> valid (set_ofilter f o).
Proof. intros [[H1 H2 H3 H4] V] Hf. split; [constructor; assumption|exact V]. Qed.

Lemma runs_number bits name read write :
  (forall f, filter_ok f -> 0 <= read f < 2 ^ bits) -> (forall f v, filter_ok f -> 0 <= v < 2 ^ bits -> filter_ok (write v f)) ->
  0 <= bits -> runs (option_number bits config name read write) valid valid.
Proof.
  intros Hr Hw Hb o V. unfold option_number, mbind, M_bind, get. assert (Hf := ofilter_ok o (proj1 V)).
  assert (B : 0 <= (optionalUnsigned bits config name (read (ofilter o))).2 < 2 ^ bits).
  { unfold optionalUnsigned. destruct (field config name) as [j|]; [|exact (Hr _ Hf)].
    destruct (jsonUnsigned j _ 0) as [[|] n]; [apply Z.mod_pos_bound; lia|exact (Hr _ Hf)]. }
  destruct (optionalUnsigned _ _ _ _) as [ok v]. eexists ok, _. split; [reflexivity|]. intros _.
  apply valid_filter; [exact V|]. apply Hw; assumption.
Qed.

Lemma runs_guid name write :
  (forall f g, filter_ok f -> length g = 16%nat -> bytes_ok g -> filter_ok (write g f)) ->
  runs (option_guid config name write) valid valid.
Proof.
  intros Hw. unfold option_guid. destruct (field config name) as [[]|]; try apply runs_true; try apply runs_false.
  intros o V. unfold mbind at 1, M_bind at 1, get. unfold vscp_parseGuid. assert (G := guid_parse_ok (length (c_str s)) (c_str s)).
  unfold vscp_guid_parse. destruct (guid_parse _ _) as [[rc g] e]. destruct G as (_ & Lg & Bg).
  eexists _, _. split; [reflexivity|]. intros _. apply valid_filter; [exact V|]. apply Hw; [exact (ofilter_ok o (proj1 V))|exact Lg|exact Bg].
Qed.

Lemma runs_filter : runs (option_filter config) valid valid.
Proof.
  unfold option_filter.
  do 6 (apply (runs_then _ _ valid valid valid);
    [apply runs_number; [intros f F; destruct F; assumption|intros f v F Hv; destruct F; constructor; assumption|lia]|]).
  apply (runs_then _ _ valid valid valid); apply runs_guid; intros f g F L B; destruct F; constructor; try assumption; split; assumption.
Qed.

(** eventOptions always ends; when it succeeds the keys are valid. *)
Lemma runs_eventOptions : runs (eventOptions config) options_ok valid.
Proof using Hc.
  unfold eventOptions. apply (runs_then _ _ _ _ _ runs_encryption). apply (runs_then _ _ _ _ _ runs_padding).
  apply (runs_then _ _ _ _ _ runs_key). apply (runs_then _ _ _ _ _ runs_hmac). exact (runs_then _ _ _ _ _ runs_authentication runs_filter).
Qed.
End options.

(** *** initFromJson *)

Record settings_ok (inet_pton4 inet_pton6 : list Z -> option (list Z)) (s : settings) : Prop := {
  saddr_ok : literal_ok inet_pton6 (m_addr s) \/ name_ok inet_pton4 (m_addr s);
  sport_ok : 1 <= m_port s <= 65535;
  sttl_ok : is_u8 (m_ttl s);
  sencryption_ok : 0 <= m_encryptType s <= 3;
  skey_ok : key_ok (m_key s);
  shmac_ok : key_ok (m_hmacKey s);
  sconfigured_ok : 0 <= m_configuredEncryption s <= 3 /\ key_ok (m_configuredKey s);
  sfilter_ok : filter_ok (m_filter s)
}.

Lemma optional_u8 config name v ok v' : is_u8 v -> optionalUnsigned 8 config name v = (ok, v') -> is_u8 v'.
Proof.
  intros Hv. unfold optionalUnsigned. destruct (field config name) as [j|]; [|intros [= <- <-]; exact Hv].
  destruct (jsonUnsigned j _ 0) as [[|] n]; intros [= <- <-]; [width|exact Hv].
Qed.

Section init.
Context (inet_pton4 inet_pton6 : list Z -> option (list Z)).

Lemma locals_ok k config s i a p t : json_ok config -> settings_ok inet_pton4 inet_pton6 s ->
  locals_of inet_pton4 inet_pton6 k config s = Some (i, a, p, t) ->
  (literal_ok inet_pton6 a \/ name_ok inet_pton4 a) /\ 1 <= p <= 65535 /\ is_u8 t.
Proof.
  intros Hc Hs E. unfold locals_of in E. destruct (interface_option _ _) as [i'|]; [|discriminate E]. cbn [mbind option_bind] in E.
  destruct (address_option _ _ _ _ _) as [[a' p']|] eqn:A; [|discriminate E]. cbn [mbind option_bind] in E.
  destruct (port_option config p') as [p2|] eqn:P; [|discriminate E]. cbn [mbind option_bind] in E.
  destruct (ttl_option k config _) as [t2|] eqn:T; [|discriminate E]. injection E as <- <- <- <-.
  assert (HA : (literal_ok inet_pton6 a' \/ name_ok inet_pton4 a') /\ 1 <= p' <= 65535).
  { unfold address_option in A. destruct (field config _) as [[]|]; try discriminate A.
    - destruct (parseEndpoint _ _ _ _ _) as [[[|] a1] p1] eqn:F; [|discriminate A]. injection A as <- <-.
      exact (parseEndpoint_ok _ _ _ _ _ _ _ (sport_ok _ _ _ Hs) F).
    - injection A as <- <-. split; [exact (saddr_ok _ _ _ Hs)|exact (sport_ok _ _ _ Hs)]. }
  split; [exact (proj1 HA)|]. split.
  - unfold port_option in P. destruct (field config _) as [j|] eqn:F; [|injection P as <-; exact (proj2 HA)].
    unfold jsonPort in P. destruct (jsonUnsigned j 65535 0) as [[|] n] eqn:J; [|discriminate P].
    apply jsonUnsigned_true in J; [|exact (field_ok _ _ _ Hc F)]. cbn [negb orb] in P.
    destruct (Z.eqb_spec n 0); [discriminate P|]. injection P as <-. rewrite u16_id by width. lia.
  - unfold ttl_option in T. destruct k; [injection T as <-; exact (sttl_ok _ _ _ Hs)|].
    destruct (optionalUnsigned 8 _ _ _) as [[|] t3] eqn:O; [|discriminate T]. injection T as <-.
    exact (optional_u8 _ _ _ _ _ (sttl_ok _ _ _ Hs) O).
Qed.

Lemma same_bytes_refl n a : same_bytes n a a = true.
Proof. apply bool_decide_eq_true. reflexivity. Qed.
End init.

(** *** Reading back a configuration *)

Lemma is_hex_text p : bytes_ok p -> is_hex (vscp_byteArray2HexStr p) = true /\ length (vscp_byteArray2HexStr p) = (2 * length p)%nat.
Proof.
  induction 1 as [|b p Hb _ [IH1 IH2]]; [split; reflexivity|].
  assert (T := all_below_spec 256 (fun b => is_digit 16 (dchar_lower (Z.shiftr b 4)) && is_digit 16 (dchar_lower (Z.land b 15))) b
    ltac:(vm_compute; reflexivity) Hb). cbv beta in T.
  rewrite byteArray2HexStr_cons. unfold is_hex in *. cbn [forallb length]. rewrite IH1, IH2, andb_true_r. split; [exact T|lia].
Qed.

(** The stored form of a key: the bytes of the cipher, and zeros. *)
Definition stored_key (alg : Z) (k : list Z) : list Z :=
  take (Z.to_nat (aesKeyLength alg)) k ++ drop (Z.to_nat (aesKeyLength alg)) (zeros 32).

Section reading.
Context (k : kind) (s : settings) (inet_pton4 inet_pton6 : list Z -> option (list Z)).
Context (Hs : settings_ok inet_pton4 inet_pton6 s).

Lemma config_key : field (config_json k s) (str "key")
  = Some (JString (vscp_byteArray2HexStr (take (Z.to_nat (aesKeyLength (m_encryptType s))) (m_key s)))).
Proof using Hs.
  assert (Ha := sencryption_ok _ _ _ Hs). destruct (skey_ok _ _ _ Hs) as [Lk Bk].
  transitivity (Some (if m_encryptType s =? VSCP_ENCRYPTION_AES128 then JString (c_str (vscp_byteArray2HexStr (take 16 (m_key s))))
     else if m_encryptType s =? VSCP_ENCRYPTION_AES192 then JString (c_str (vscp_byteArray2HexStr (take 24 (m_key s))))
     else if m_encryptType s =? VSCP_ENCRYPTION_AES256 then JString (c_str (vscp_byteArray2HexStr (take 32 (m_key s))))
     else JString [])); [destruct k; reflexivity|]. f_equal.
  assert (C : m_encryptType s = 0 \/ m_encryptType s = 1 \/ m_encryptType s = 2 \/ m_encryptType s = 3) by lia.
  destruct C as [E|[E|[E|E]]]; rewrite E; cbn [Z.eqb Pos.eqb VSCP_ENCRYPTION_AES128 VSCP_ENCRYPTION_AES192 VSCP_ENCRYPTION_AES256];
    [reflexivity|rewrite hex_c_str by (apply Forall_take, Bk); reflexivity..].
Qed.

Lemma option_key_read o : encryption o = m_encryptType s -> option_key (config_json k s) o
  = Returns (true, set_key (stored_key (m_encryptType s) (m_key s)) (aesKeyLength (m_encryptType s)) o).
Proof using Hs.
  intros He. assert (Ha := sencryption_ok _ _ _ Hs). destruct (skey_ok _ _ _ Hs) as [Lk Bk].
  unfold option_key. rewrite config_key. unfold mbind at 1, M_bind at 1, get. rewrite He.
  destruct (Z.eqb_spec (m_encryptType s) VSCP_ENCRYPTION_NONE) as [->|N0]; [reflexivity|]. cbv zeta.
  assert (A : 0 < aesKeyLength (m_encryptType s) <= 32).
  { unfold VSCP_ENCRYPTION_NONE in N0. assert (C : m_encryptType s = 1 \/ m_encryptType s = 2 \/ m_encryptType s = 3) by lia. destruct C as [->|[->| ->]]; vm_compute; split; congruence. }
  set (n := Z.to_nat (aesKeyLength (m_encryptType s))) in *.
  assert (B : bytes_ok (take n (m_key s))) by apply Forall_take, Bk. assert (L : length (take n (m_key s)) = n) by (rewrite length_take; lia).
  destruct (is_hex_text _ B) as [H1 H2]. rewrite H1, H2, L.
  rewrite (proj2 (Z.eqb_neq _ 0)), (proj2 (Z.eqb_eq _ (aesKeyLength (m_encryptType s) * 2))) by lia. cbn [negb orb].
  unfold read_key. rewrite hexStr2ByteArray_hex, take_take, Nat.min_id by exact B. rewrite bind_ret, L.
  rewrite (proj2 (Z.eqb_eq _ _)) by lia. reflexivity.
Qed.

Lemma option_hmac_read o : length (hmacKey o) = 32%nat -> option_hmac (config_json k s) o
  = Returns (true, set_hmac (m_hmacEnabled s) (if m_hmacEnabled s then m_hmacKey s else zeros 32) o).
Proof using Hs.
  intros Ho. destruct (shmac_ok _ _ _ Hs) as [Lk Bk]. unfold option_hmac.
  assert (F : field (config_json k s) (str "hmac-key") = Some (if m_hmacEnabled s then JString (vscp_byteArray2HexStr (m_hmacKey s)) else JString [])).
  { transitivity (Some (if m_hmacEnabled s then JString (c_str (vscp_byteArray2HexStr (take 32 (m_hmacKey s)))) else JString [])); [destruct k; reflexivity|].
    rewrite hex_c_str, take_ge by (lia || (apply Forall_take, Bk)). reflexivity. }
  rewrite F. destruct (m_hmacEnabled s); [|reflexivity]. destruct (is_hex_text _ Bk) as [H1 H2]. rewrite Lk in H2.
  assert (R := hexStr2ByteArray_hex (m_hmacKey s) 32 Bk). destruct (vscp_byteArray2HexStr (m_hmacKey s)) as [|c t] eqn:E; [discriminate H2|].
  rewrite H1, H2. cbn [negb orb]. change (Z.of_nat (2 * 32) =? 64) with true. cbn [negb orb].
  unfold mbind at 1, M_bind at 1, get. unfold read_key. rewrite R, take_ge by lia. rewrite bind_ret, Lk, drop_ge, app_nil_r by lia. reflexivity.
Qed.

Lemma option_number_read bits name v read write o : field (config_json k s) name = Some (JUnsigned v) -> 0 <= v < 2 ^ bits ->
  option_number bits (config_json k s) name read write o = Returns (true, set_ofilter (write v (ofilter o)) o).
Proof.
  intros F Hv. unfold option_number, mbind, M_bind, get, optionalUnsigned. rewrite F. cbn [jsonUnsigned].
  rewrite (proj2 (Z.leb_le v (2 ^ bits - 1))) by lia. rewrite Z.mod_small by lia. reflexivity.
Qed.

Lemma option_guid_read name g write o : field (config_json k s) name = Some (JString (c_str (toString g))) ->
  length g = 16%nat -> bytes_ok g ->
  option_guid (config_json k s) name write o = Returns (true, set_ofilter (write g (ofilter o)) o).
Proof.
  intros F L B. unfold option_guid. rewrite F. unfold mbind at 1, M_bind at 1, get, vscp_parseGuid.
  assert (R := text_roundtrip_lemma VSCP_GUID_STR_FORMAT_NORMAL g false L B). cbn [braces guid_text] in R.
  rewrite c_str_id; [rewrite R; reflexivity|]. rewrite toString_groups by exact L.
  apply (text_not_in 58); [apply group_text_chars, singletons_ok, B|lia|lia].
Qed.

Lemma option_filter_read o : option_filter (config_json k s) o = Returns (true, set_ofilter (m_filter s) o).
Proof using Hs.
  destruct (sfilter_ok _ _ _ Hs) as [F1 F2 F3 F4 F5 F6 [L7 F7] [L8 F8]]. unfold option_filter.
  assert (T : forall name v, field (config_json Udp s) name = Some v -> field (config_json Multicast s) name = Some v -> field (config_json k s) name = Some v)
    by (destruct k; auto).
  erewrite then_returns by (apply (option_number_read 8 _ (filter_priority (m_filter s))); [apply T; reflexivity|exact F1]).
  erewrite then_returns by (apply (option_number_read 8 _ (mask_priority (m_filter s))); [apply T; reflexivity|exact F2]).
  erewrite then_returns by (apply (option_number_read 16 _ (filter_class (m_filter s))); [apply T; reflexivity|exact F3]).
  erewrite then_returns by (apply (option_number_read 16 _ (mask_class (m_filter s))); [apply T; reflexivity|exact F4]).
  erewrite then_returns by (apply (option_number_read 16 _ (filter_type (m_filter s))); [apply T; reflexivity|exact F5]).
  erewrite then_returns by (apply (option_number_read 16 _ (mask_type (m_filter s))); [apply T; reflexivity|exact F6]).
  erewrite then_returns by (apply (option_guid_read _ (filter_GUID (m_filter s))); [apply T; reflexivity|exact L7|exact F7]).
  rewrite (option_guid_read _ (mask_GUID (m_filter s))) by (first [apply T; reflexivity|exact L8|exact F8]).
  destruct o, (m_filter s). reflexivity.
Qed.

(** Every option, for a configuration whose keys are valid. *)
Lemma eventOptions_read o : length (hmacKey o) = 32%nat -> connect_check s = true ->
  eventOptions (config_json k s) o
  = Returns (true, Options (m_encryptType s) (stored_key (m_encryptType s) (m_key s)) (aesKeyLength (m_encryptType s))
      (m_hmacEnabled s) (if m_hmacEnabled s then m_hmacKey s else zeros 32) (m_filter s)).
Proof using Hs.
  intros Ho Hk. assert (Ha := sencryption_ok _ _ _ Hs). unfold eventOptions.
  assert (E1 : option_encryption (config_json k s) o = Returns (true, set_encryption (m_encryptType s) o)).
  { unfold option_encryption. rewrite (ltac:(destruct k; reflexivity) : field (config_json k s) (str "encryption") = Some (JUnsigned (m_encryptType s))).
    cbn [jsonUnsigned]. unfold VSCP_ENCRYPTION_AES256. rewrite (proj2 (Z.leb_le (m_encryptType s) 3)), u8_id by width. reflexivity. }
  assert (E2 : forall o, option_padding (config_json k s) o = Returns (true, o)).
  { intros o'. unfold option_padding. rewrite (ltac:(destruct k; reflexivity) : field (config_json k s) (str "padding") = Some (JString (str "pkcs7"))). reflexivity. }
  rewrite (then_returns _ _ _ _ E1), (then_returns _ _ _ _ (E2 _)).
  erewrite then_returns by (apply option_key_read; reflexivity). erewrite then_returns by (apply option_hmac_read; exact Ho).
  assert (E5 : forall o, encryption o = m_encryptType s -> key o = stored_key (m_encryptType s) (m_key s) ->
    keyLength o = aesKeyLength (m_encryptType s) -> hmacEnabled o = m_hmacEnabled s ->
    hmacKey o = (if m_hmacEnabled s then m_hmacKey s else zeros 32) -> option_authentication o = Returns (true, o)).
  { intros o' A1 A2 A3 A4 A5. unfold option_authentication, mbind, M_bind, get. rewrite A1, A2, A3, A4, A5.
    unfold connect_check in Hk. destruct (m_hmacEnabled s); [|reflexivity]. cbn [negb orb] in Hk. unfold authenticationStateValid, authenticatedKeysValid in Hk.
    rewrite !andb_true_iff in Hk. destruct Hk as (_ & (K1 & _) & K2). apply negb_true_iff in K1. rewrite K1, Z.eqb_refl. cbn [negb orb].
    unfold same_bytes, stored_key in *. destruct (skey_ok _ _ _ Hs) as [Lk _].
    assert (B := aesKeyLength_bound (m_encryptType s)).
    rewrite (take_app_length' (take _ (m_key s))) by (rewrite length_take; lia). rewrite K2. reflexivity. }
  erewrite then_returns by (apply E5; reflexivity). apply option_filter_read.
Qed.
End reading.

(** ** Properties *)

(** What initFromJson leaves: the settings there were, or valid ones that the test of
    the keys in connect accepts. *)
Lemma initFromJson_valid inet_pton4 inet_pton6 k idle queue_empty parsed s :
  (forall j, parsed = Some j -> json_ok j) -> settings_ok inet_pton4 inet_pton6 s ->
  exists ok s', initFromJson inet_pton4 inet_pton6 k idle queue_empty parsed s = Returns (ok, s') /\
    settings_ok inet_pton4 inet_pton6 s' /\ (if ok : bool then connect_check s' = true else s' = s).
Proof.
  intros Hj Hs. assert (F : exists ok s', Returns (false, s) = Returns (ok, s') /\
    settings_ok inet_pton4 inet_pton6 s' /\ (if ok : bool then connect_check s' = true else s' = s)).
  { exists false, s. split; [reflexivity|]. split; [exact Hs|reflexivity]. }
  unfold initFromJson. destruct (negb idle); [exact F|]. destruct parsed as [[]|]; try exact F.
  specialize (Hj _ eq_refl). set (config := JObject fields) in *.
  destruct (locals_of _ _ k config s) as [[[[i a] p] t]|] eqn:L; [|exact F].
  destruct (locals_ok _ _ _ _ _ _ _ _ _ Hj Hs L) as (La & Lp & Lt).
  destruct Hs as [S1 S2 S3 S4 S5 S6 [S7 S8] S9].
  destruct (runs_eventOptions config Hj (Options (m_encryptType s) (m_key s) (m_configuredKeyLength s) (m_hmacEnabled s) (m_hmacKey s) (m_filter s)))
    as (ok & o & E & V); [constructor; assumption|].
  rewrite E. destruct ok; [|exact F]. destruct (V eq_refl) as [[O1 O2 O3 O4] K].
  destruct (hmacEnabled o && _) eqn:X; [exact F|]. destruct (negb queue_empty && _); [exact F|].
  eexists true, _. split; [reflexivity|]. split.
  - constructor; cbn; try assumption. split; [destruct (contains _ _); assumption|destruct (contains _ _); assumption].
  - unfold connect_check.
    cbn [m_hmacEnabled m_encryptType m_key m_configuredKeyLength m_hmacKey m_configuredEncryption m_configuredKey].
    destruct (hmacEnabled o) eqn:H; [|reflexivity]. cbn [negb orb andb] in X |- *. apply negb_false_iff in X.
    unfold authenticationOptionsExplicit in X. unfold authenticationStateValid. rewrite (K H), andb_true_r.
    apply andb_true_iff in X as [X1 X2]. apply andb_true_iff. split.
    + destruct (contains config (str "encryption")); [apply Z.eqb_refl|exact X1].
    + destruct (contains config (str "key")); [apply same_bytes_refl|exact X2].
Qed.

Definition sample_pton4 (s : list Z) : option (list Z) :=
  if bool_decide (s = str "255.255.255.255") then Some [255; 255; 255; 255] else None.

(** A client with an authenticated configuration. *)
Definition sample_settings : settings :=
  Settings (str "eth0") (str "255.255.255.255") 33333 1 VSCP_ENCRYPTION_AES128 (replicate 16 7 ++ zeros 16) 16
    true (replicate 32 8) VSCP_ENCRYPTION_AES128 (replicate 16 7 ++ zeros 16) sample_filter.

Lemma sample_settings_ok : settings_ok sample_pton4 sample_pton6 sample_settings.
Proof.
  constructor; cbn [m_addr m_port m_ttl m_encryptType m_key m_hmacKey m_configuredEncryption m_configuredKey m_filter sample_settings].
  - right. split; [discriminate|]. split; [by_decide|]. intros _. vm_compute. eauto.
  - lia.
  - width.
  - vm_compute. split; congruence.
  - split; [reflexivity|by_decide].
  - split; [reflexivity|by_decide].
  - split; [vm_compute; split; congruence|split; [reflexivity|by_decide]].
  - exact sample_filter_ok.
Qed.

Definition sample_config : json :=
  JObject [(str "ip", JString (str "udp://[::1]:9598")); (str "encryption", JUnsigned 3);
           (str "key", JString (vscp_byteArray2HexStr (replicate 32 1))); (str "hmac-key", JString (vscp_byteArray2HexStr (replicate 32 2)))].

(** What getConfigAsJson writes, initFromJson of an idle client reads: the
    other client then has the same interface, address, port, hops (of a multicast
    client), encryption, authentication and filter; of the AES key the bytes that
    the cipher uses, and the rest zero. *)
Theorem config_roundtrip inet_pton4 inet_pton6 k s s0 dump parse :
  Ipv6Text inet_pton6 -> settings_ok inet_pton4 inet_pton6 s -> settings_ok inet_pton4 inet_pton6 s0 ->
  0 ∉ m_interface s -> connect_check s = true ->
  parse (dump (config_json k s)) = Some (config_json k s) ->
  initFromJson inet_pton4 inet_pton6 k true true (parse (getConfigAsJson dump k s)) s0
  = Returns (true,
      Settings (m_interface s) (m_addr s) (m_port s) (match k with Udp => m_ttl s0 | Multicast => m_ttl s end)
        (m_encryptType s) (stored_key (m_encryptType s) (m_key s)) (aesKeyLength (m_encryptType s))
        (m_hmacEnabled s) (if m_hmacEnabled s then m_hmacKey s else zeros 32)
        (m_encryptType s) (stored_key (m_encryptType s) (m_key s)) (m_filter s)).
Proof.
  intros H6 Hs Hs0 Hi Hk Hp. unfold getConfigAsJson. rewrite Hp. unfold initFromJson. cbn [negb].
  change (config_json k s) with (JObject (match config_json k s with JObject f => f | _ => [] end)) at 1. cbn iota.
  change (JObject (match config_json k s with JObject f => f | _ => [] end)) with (config_json k s).
  assert (L : locals_of inet_pton4 inet_pton6 k (config_json k s) s0
    = Some (m_interface s, m_addr s, m_port s, match k with Udp => m_ttl s0 | Multicast => m_ttl s end)).
  { unfold locals_of, interface_option. rewrite (ltac:(destruct k; reflexivity) : field (config_json k s) (str "interface") = Some (JString (c_str (m_interface s)))).
    rewrite c_str_id by exact Hi. cbn [mbind option_bind]. unfold address_option.
    rewrite (ltac:(destruct k; reflexivity) : field (config_json k s) (str "ip") = Some (JString (formatEndpoint (m_addr s) (m_port s)))).
    assert (P : parseEndpoint inet_pton4 inet_pton6 (formatEndpoint (m_addr s) (m_port s)) (m_addr s0) (m_port s0) = (true, m_addr s, m_port s)).
    { destruct (saddr_ok _ _ _ Hs); [apply literal_text|apply name_text]; try assumption; exact (sport_ok _ _ _ Hs). }
    rewrite P. cbn [mbind option_bind]. unfold port_option. rewrite (ltac:(destruct k; reflexivity) : field (config_json k s) (str "port") = None).
    cbn [mbind option_bind]. unfold ttl_option. assert (T := sttl_ok _ _ _ Hs). destruct k; [reflexivity|].
    unfold optionalUnsigned. change (field (config_json Multicast s) (str "ttl")) with (Some (JUnsigned (m_ttl s))). cbn [jsonUnsigned].
    rewrite (proj2 (Z.leb_le (m_ttl s) (2 ^ 8 - 1))), Z.mod_small by width. reflexivity. }
  rewrite L, eventOptions_read with (inet_pton4 := inet_pton4) (inet_pton6 := inet_pton6) by (exact Hs || exact Hk || exact (proj1 (shmac_ok _ _ _ Hs0))).
  assert (C1 : contains (config_json k s) (str "encryption") = true) by (destruct k; reflexivity).
  assert (C2 : contains (config_json k s) (str "key") = true) by (destruct k; reflexivity).
  unfold authenticationOptionsExplicit. rewrite C1, C2. cbn [orb andb negb encryption key keyLength hmacEnabled hmacKey ofilter].
  rewrite andb_false_r. reflexivity.
Qed.

Lemma config_roundtrip_witness :
  initFromJson sample_pton4 sample_pton6 Multicast true true
    ((fun _ => Some (config_json Multicast sample_settings)) (getConfigAsJson (fun _ => []) Multicast sample_settings)) sample_settings
  = Returns (true, sample_settings).
Proof.
  apply (config_roundtrip sample_pton4 sample_pton6 Multicast sample_settings sample_settings (fun _ => [])
    (fun _ => Some (config_json Multicast sample_settings))).
  - intros s a. unfold sample_pton6. destruct (bool_decide_reflect (s = str "::1")) as [->|]; [intros _; by_decide|discriminate].
  - exact sample_settings_ok.
  - exact sample_settings_ok.
  - by_decide.
  - vm_compute. reflexivity.
  - reflexivity.
Defined.
