(* ===== verification/OpenSocket.v ===== *)
(** * Opening the socket of a datagram client: vscp-client-datagram.h

    openSocket with the functions below it, and the part of connect that tests the
    keys and calls it.  The POSIX functions are parameters: inet_pton, getaddrinfo,
    the functions on network interfaces and the socket calls.  [SocketLaws] is their
    accounting of the open sockets.  Messages to stderr are left out, as are the
    branches for Windows and macOS. *)

From stdpp Require Import gmap.
From S2P Require Import Prelude Program Frame Strings Guid Filter Json Endpoint DatagramConfig.

Definition VSCP_ERROR_CONNECTION : Z := 40.
Definition VSCP_ERROR_OPERATION_FAILED : Z := 42.

(** ** Addresses *)

(** sockaddr_in and sockaddr_in6 in a sockaddr_storage; an address is its bytes in
    memory. *)
Inductive sockaddr :=
  | Inet (port : Z) (addr : list Z)
  | Inet6 (port : Z) (addr : list Z) (scope : Z).

(** An item of getaddrinfo; [None] for another family. *)
Record addrinfo := Addrinfo { ai_addr : option sockaddr; ai_addrlen : Z }.

(** An item of getifaddrs; [None] for no address, or one that is not of AF_INET. *)
Record ifaddr := Ifaddr { ifa_name : list Z; ifa_addr : option (list Z) }.

Definition sizeof_storage : Z := 128.
Definition sizeof_sockaddr_in6 : Z := 28.
Definition in_any : list Z := zeros 4.

Definition octet (i : nat) (a : list Z) : Z := nth i a 0.

(** ntohl of an address; htonl of an index, on a little-endian host. *)
Definition ntohl (a : list Z) : Z :=
  octet 0 a * 2 ^ 24 + octet 1 a * 2 ^ 16 + octet 2 a * 2 ^ 8 + octet 3 a.
Definition htonl (n : Z) : Z :=
  Z.land n 255 * 2 ^ 24 + Z.land (Z.shiftr n 8) 255 * 2 ^ 16 + Z.land (Z.shiftr n 16) 255 * 2 ^ 8 + Z.land (Z.shiftr n 24) 255.

(** The macros of netinet/in.h. *)
Definition IN6_IS_ADDR_MULTICAST (a : list Z) : bool := octet 0 a =? 255.
Definition IN6_IS_ADDR_LINKLOCAL (a : list Z) : bool := (octet 0 a =? 254) && (Z.land (octet 1 a) 192 =? 128).
Definition IN6_IS_ADDR_V4MAPPED (a : list Z) : bool := bool_decide (take 12 a = zeros 10 ++ [255; 255]).

Definition isMulticast (address : sockaddr) : bool :=
  match address with
  | Inet _ addr => Z.land (ntohl addr) (15 * 2 ^ 28) =? 14 * 2 ^ 28
  | Inet6 _ addr _ => IN6_IS_ADDR_MULTICAST addr
  end.

Section host.
(** The C library on this host, during one call. *)
Variable inet_pton6 : list Z -> option (list Z).
Variable if_indextoname : Z -> bool.
Variable if_nametoindex : list Z -> Z.
Variable getaddrinfo : list Z -> list Z -> option (list addrinfo).
Variable getifaddrs : option (list ifaddr).

(** The address of the interface, if it has one. *)
Definition ipv4InterfaceAddress (index : Z) : option (list Z) :=
  if index =? 0 then Some in_any
  else
    items ← getifaddrs;
    item ← list_find (fun i => is_Some (ifa_addr i) /\ if_nametoindex (ifa_name i) = index) items;
    ifa_addr item.2.

(** The address and its length. *)
Definition resolve_literal (host : list Z) (port : Z) (multicast : bool) : option (sockaddr * Z) :=
  let percent := find_char 37 host in
  let literal := match percent with Some k => take k host | None => host end in
  addr ← inet_pton6 (c_str literal);
  scope ← match percent with
          | Some k => let '(ok, scope) := interfaceIndex if_indextoname if_nametoindex (drop (k + 1) host) in
                      if ok : bool then Some scope else None
          | None => Some 0
          end;
  let address := Inet6 port addr scope in
  if multicast && negb (isMulticast address) then None else Some (address, sizeof_sockaddr_in6).

Fixpoint first_usable (multicast : bool) (items : list addrinfo) : option (sockaddr * Z) :=
  match items with
  | [] => None
  | Addrinfo None _ :: items => first_usable multicast items
  | Addrinfo (Some address) len :: items =>
      if sizeof_storage <? len then first_usable multicast items
      else if negb multicast || isMulticast address then Some (address, len)
      else first_usable multicast items
  end.

Definition resolveAddress (host : list Z) (port : Z) (multicast : bool) : option (sockaddr * Z) :=
  match find_char 58 host with
  | Some _ => resolve_literal host port multicast
  | None => items ← getaddrinfo (c_str host) (dec port); first_usable multicast items
  end.

(** The interface that a destination is reached over, and the destination with its
    scope; [None] if they conflict, or if it needs one and there is none. *)
Definition scope_destination (destination : sockaddr) (interface : Z) : option (sockaddr * Z) :=
  match destination with
  | Inet _ _ => Some (destination, interface)
  | Inet6 port addr scope =>
      if negb (interface =? 0) && negb (scope =? 0) && negb (interface =? scope) then None
      else
        let interface := if interface =? 0 then scope else interface in
        let scope := if interface =? 0 then scope else interface in
        if (interface =? 0)
           && (IN6_IS_ADDR_LINKLOCAL addr || IN6_IS_ADDR_MULTICAST addr && (Z.land (octet 1 addr) 15 <=? 2))
        then None
        else Some (Inet6 port addr scope, interface)
  end.

(** ** Sockets *)

Inductive sockopt :=
  | REUSEADDR (enabled : Z) | BROADCAST (enabled : Z)
  | MULTICAST_IF (addr : list Z) | MULTICAST_TTL (hops : Z) | MULTICAST_LOOP (loop : Z)
  | ADD_MEMBERSHIP (group interface : list Z)
  | V6ONLY (only : Z) | V6_MULTICAST_IF (interface : Z) | V6_UNICAST_IF (interface : Z)
  | V6_MULTICAST_HOPS (hops : Z) | V6_MULTICAST_LOOP (loop : Z)
  | V6_JOIN_GROUP (group : list Z) (interface : Z).

Inductive domain := AF_INET | AF_INET6.

Class Sockets (W : Type) := {
  os_socket : domain -> W -> Z * W;
  os_setsockopt : Z -> sockopt -> W -> Z * W;
  os_bind : Z -> sockaddr -> W -> Z * W;
  os_close : Z -> W -> W
}.

Context {W : Type} `{!Sockets W}.

(** openSocket gives an error, or a socket, the destination and its length. *)
Definition opened : Type := Z + Z * sockaddr * Z.

Definition closing (sock error : Z) : M W opened :=
  _ ← call (fun w => (tt, os_close sock w)); mret (inl error).

(** A call on the socket, and what follows if it succeeds. *)
Definition checked (sock : Z) (f : W -> Z * W) (error : Z) (next : M W opened) : M W opened :=
  r ← call f; if r =? 0 then next else closing sock error.
Definition setting (sock : Z) (o : sockopt) (error : Z) (next : M W opened) : M W opened :=
  checked sock (os_setsockopt sock o) error next.

Definition open_ipv4 (sock port : Z) (addr : list Z) (interface : Z) (multicast : bool) (ttl : Z)
    (next : M W opened) : M W opened :=
  match ipv4InterfaceAddress interface with
  | None => closing sock VSCP_ERROR_PARAMETER
  | Some ipv4Interface =>
      setting sock (MULTICAST_IF ipv4Interface) VSCP_ERROR_PARAMETER $
      setting sock (BROADCAST 1) VSCP_ERROR_PARAMETER $
      (fun next => if multicast then
         setting sock (MULTICAST_TTL ttl) VSCP_ERROR_PARAMETER $
         setting sock (MULTICAST_LOOP 0) VSCP_ERROR_PARAMETER next else next) $
      checked sock (os_bind sock (Inet port in_any)) VSCP_ERROR_CONNECTION $
      if multicast then setting sock (ADD_MEMBERSHIP addr ipv4Interface) VSCP_ERROR_OPERATION_FAILED next else next
  end.

Definition open_ipv6 (sock port : Z) (addr : list Z) (interface : Z) (multicast : bool) (ttl : Z)
    (next : M W opened) : M W opened :=
  setting sock (V6ONLY (if IN6_IS_ADDR_V4MAPPED addr then 0 else 1)) VSCP_ERROR_PARAMETER $
  (fun next => if negb (interface =? 0) then
     setting sock (V6_MULTICAST_IF interface) VSCP_ERROR_PARAMETER $
     if negb (IN6_IS_ADDR_MULTICAST addr) then setting sock (V6_UNICAST_IF (htonl interface)) VSCP_ERROR_PARAMETER next
     else next
   else next) $
  (fun next => if multicast then
     setting sock (V6_MULTICAST_HOPS ttl) VSCP_ERROR_PARAMETER $
     setting sock (V6_MULTICAST_LOOP 0) VSCP_ERROR_PARAMETER next else next) $
  checked sock (os_bind sock (Inet6 port (zeros 16) 0)) VSCP_ERROR_CONNECTION $
  if multicast then setting sock (V6_JOIN_GROUP addr interface) VSCP_ERROR_OPERATION_FAILED next else next.

Definition openSocket (host : list Z) (port : Z) (interfaceName : list Z) (multicast : bool) (ttl : Z) : M W opened :=
  match resolveAddress host port multicast with
  | None => mret (inl VSCP_ERROR_PARAMETER)
  | Some (destination, destinationLength) =>
      let '(known, interface) := interfaceIndex if_indextoname if_nametoindex interfaceName in
      if negb known then mret (inl VSCP_ERROR_PARAMETER)
      else
        match scope_destination destination interface with
        | None => mret (inl VSCP_ERROR_PARAMETER)
        | Some (destination, interface) =>
            sock ← call (os_socket (match destination with Inet _ _ => AF_INET | Inet6 _ _ _ => AF_INET6 end));
            if sock =? -1 then mret (inl VSCP_ERROR_CONNECTION)
            else
              setting sock (REUSEADDR 1) VSCP_ERROR_PARAMETER $
              (match destination with
               | Inet _ addr => open_ipv4 sock port addr interface multicast ttl
               | Inet6 _ addr _ => open_ipv6 sock port addr interface multicast ttl
               end) $
              mret (inr (sock, destination, destinationLength))
        end
  end.

(** connect, from the test of the keys to the result of openSocket. *)
Definition connect_open (k : kind) (s : settings) : M W opened :=
  if negb (connect_check s) then mret (inl VSCP_ERROR_PARAMETER)
  else openSocket (m_addr s) (m_port s) (m_interface s)
         (match k with Udp => false | Multicast => true end) (match k with Udp => 1 | Multicast => m_ttl s end).

(** ** The accounting of the sockets *)

(** What was done to a socket, in order. *)
Inductive act := Option_set (o : sockopt) | Bound_to (local : sockaddr).

(** A call on an open socket: it is done and gives 0, or it is not and counts as a
    failure. *)
Definition performs (sockets : W -> gmap Z (list act)) (failures : W -> nat) (sock : Z) (f : W -> Z * W) (a : act) : Prop :=
  forall w l, sockets w !! sock = Some l ->
    (exists w', f w = (0, w') /\ sockets w' = <[sock := l ++ [a]]> (sockets w) /\ failures w' = failures w) \/
    (exists r w', f w = (r, w') /\ r <> 0 /\ sockets w' = sockets w /\ (failures w < failures w')%nat).

(** The open sockets with what was done to them, and the number of calls that failed. *)
Class SocketLaws := {
  sockets : W -> gmap Z (list act);
  failures : W -> nat;
  socket_law : forall d w,
    (exists w', os_socket d w = (-1, w') /\ sockets w' = sockets w /\ (failures w < failures w')%nat) \/
    (exists sock w', os_socket d w = (sock, w') /\ sock <> -1 /\ sockets w !! sock = None /\
      sockets w' = <[sock := []]> (sockets w) /\ failures w' = failures w);
  setsockopt_law : forall sock o, performs sockets failures sock (os_setsockopt sock o) (Option_set o);
  bind_law : forall sock a, performs sockets failures sock (os_bind sock a) (Bound_to a);
  close_law : forall sock w, sockets (os_close sock w) = delete sock (sockets w) /\ failures (os_close sock w) = failures w
}.
Context `{!SocketLaws}.

Definition hops (k : kind) (s : settings) : Z := match k with Udp => 1 | Multicast => m_ttl s end.






(** ** Lemmas *)




















(** ** Properties *)

End host.

(** ** A host *)

(** Sockets are numbered; a call fails on a socket that is not open. *)
Record sample_net := SampleNet { next_socket : Z; table : gmap Z (list act); failed : nat }.

Definition sample_fails (n : sample_net) : Z * sample_net := (-1, SampleNet (next_socket n) (table n) (S (failed n))).

Definition sample_act (sock : Z) (a : act) (n : sample_net) : Z * sample_net :=
  match table n !! sock with
  | Some l => (0, SampleNet (next_socket n) (<[sock := l ++ [a]]> (table n)) (failed n))
  | None => sample_fails n
  end.

Definition sample_socket (n : sample_net) : Z * sample_net :=
  match table n !! next_socket n with
  | None => if next_socket n =? -1 then sample_fails n
            else (next_socket n, SampleNet (next_socket n + 1) (<[next_socket n := []]> (table n)) (failed n))
  | Some _ => sample_fails n
  end.

#[export] Instance sample_sockets : Sockets sample_net := {|
  os_socket _ := sample_socket;
  os_setsockopt sock o := sample_act sock (Option_set o);
  os_bind sock a := sample_act sock (Bound_to a);
  os_close sock n := SampleNet (next_socket n) (delete sock (table n)) (failed n) |}.

Lemma sample_performs sock a : performs table failed sock (sample_act sock a) a.
Proof. intros n l E. left. unfold sample_act. rewrite E. eexists. repeat split. Qed.

#[export] Instance sample_laws : SocketLaws.
Proof.
  refine {| sockets := table; failures := failed |}.
  - intros dom n. cbn [os_socket sample_sockets]. unfold sample_socket.
    destruct (table n !! next_socket n) eqn:E; [|destruct (Z.eqb_spec (next_socket n) (-1)) as [X|X]].
    1,2: left; eexists; repeat split; cbn; lia.
    right. eexists _, _. repeat split; assumption.
  - intros sock o. apply sample_performs.
  - intros sock a. apply sample_performs.
  - intros sock n. split; reflexivity.
Defined.

(** Interface 2 is eth0, with the address 192.0.2.7; names resolve to 192.0.2.9 and
    then to 224.0.23.158, an address only to itself. *)
Definition sample_index (i : Z) : bool := i =? 2.
Definition sample_name (name : list Z) : Z := if bool_decide (name = str "eth0") then 2 else 0.
Definition sample_ifaddrs : option (list ifaddr) := Some [Ifaddr (str "eth0") None; Ifaddr (str "eth0") (Some [192; 0; 2; 7])].
Definition sample_info (host service : list Z) : option (list addrinfo) :=
  match number service 0 with
  | port =>
      let unicast := Addrinfo (Some (Inet port [192; 0; 2; 9])) 16 in
      if bool_decide (host = str "192.0.2.9") then Some [unicast]
      else Some [Addrinfo None 16; unicast; Addrinfo (Some (Inet port [224; 0; 23; 158])) 16]
  end.
Definition sample_pton (s : list Z) : option (list Z) :=
  if bool_decide (s = str "192.0.2.9") then Some [192; 0; 2; 9] else None.

Definition sample_open : kind -> settings -> M sample_net opened :=
  connect_open (W := sample_net) sample_pton6 sample_index sample_name sample_info sample_ifaddrs.

Definition sample_group (k : kind) (ip : list Z) : outcome (bool * settings) :=
  match initial_settings k with
  | Some s => initFromJson sample_pton sample_pton6 k true true
      (Some (JObject [(str "ip", JString ip); (str "interface", JString (str "eth0"))])) s
  | None => Throws
  end.

(** A name that has a multicast address: the socket is a member of its group. *)
Example group_opened :
  (match sample_group Multicast (str "udp://vscp:9598") with
   | Returns (true, s) => sample_open Multicast s (SampleNet 7 ∅ 0)
   | _ => Undefined
   end)
  = Returns (inr (7, Inet 9598 [224; 0; 23; 158], 16),
      SampleNet 8 {[ 7 := [Option_set (REUSEADDR 1); Option_set (MULTICAST_IF [192; 0; 2; 7]); Option_set (BROADCAST 1);
        Option_set (MULTICAST_TTL 1); Option_set (MULTICAST_LOOP 0); Bound_to (Inet 9598 in_any);
        Option_set (ADD_MEMBERSHIP [224; 0; 23; 158] [192; 0; 2; 7])] ]} 0).
Proof. vm_compute. reflexivity. Qed.

(** initFromJson of the multicast client takes a unicast address, connect does not. *)
Example unicast_group_refused :
  (match sample_group Multicast (str "udp://192.0.2.9:9598") with
   | Returns (true, s) => sample_open Multicast s (SampleNet 7 ∅ 0)
   | _ => Undefined
   end)
  = Returns (inl VSCP_ERROR_PARAMETER, SampleNet 7 ∅ 0).
Proof. vm_compute. reflexivity. Qed.

