(* ===== verification/Datagram.v ===== *)
(** * Events in datagrams: vscp-client-datagram.h, vscp-client-udp.cpp,
    vscp-client-multicast.cpp

    Sending an event, the receive loop of the worker thread, and the queue between
    that thread and the application.  [None] and [Undefined] are undefined
    behaviour.  The operating system's socket and random numbers, OpenSSL and the
    application's callbacks are parameters. *)

From S2P Require Import Prelude Program Crc DateTime Event Frame Strings Guid EventString Filter Canal Aes Crypt Json BinaryProtocol Endpoint DatagramConfig.

Definition VSCP_ERROR_FIFO_EMPTY : Z := 8.
Definition VSCP_ERROR_TIMEOUT : Z := 32.
Definition VSCP_ERROR_MEMORY : Z := 35.
Definition VSCP_ERROR_COMMUNICATION : Z := 37.
Definition VSCP_ERROR_NOT_CONNECTED : Z := 54.
Definition VSCP_ERROR_INVALID_FRAME : Z := 63.

Definition bufferSize : nat := 1024.
Definition minimumFrameSize : Z := 1 + VSCP_BINARY_PACKET_FRAME0_HEADER_LENGTH + 2.

(** The HMAC key that the calls are given: null when it is not enabled. *)
Definition hmac_of (s : settings) : option (list Z) := if m_hmacEnabled s then Some (m_hmacKey s) else None.

(** ** Sending *)

(** What the functions ask the system: the flag that another thread may clear, 16
    random bytes, and sendto. *)
Class DatagramSocket (W : Type) := {
  is_connected : W -> bool * W;
  iv_bytes : W -> list Z * W;
  sendto : list Z -> W -> Z * W
}.

Section openssl.
Variable EVP_Encrypt : evp_encryption.
Variable EVP_Decrypt : evp_decryption.
Variable EVP_EncryptPad : evp_encryption.
Variable HMAC : list Z -> list Z -> option (list Z).
(** The flag of vscp_getFrameEncryptionUseOpenSSL. *)
Variable useOpenSSL : bool.

(** The bytes of the datagram, or an error. *)
Definition wire_frame (random : list Z) (s : settings) (ev : vscpEvent) : option (Z + list Z) :=
  if (VSCP_LEVEL2_MAXDATA <? sizeData ev) || (negb (sizeData ev =? 0) && bool_decide (pdata ev = None))
  then Some (inl VSCP_ERROR_INVALID_FRAME)
  else if VSCP_ENCRYPTION_AES256 <? m_encryptType s then Some (inl VSCP_ERROR_INVALID_FRAME)
  else if negb (connect_check s) then Some (inl VSCP_ERROR_INVALID_FRAME)
  else
    let frameLength := vscp_getFrameSizeFromEvent (Some ev) in
    if Z.of_nat bufferSize - 32 <? frameLength then Some (inl VSCP_ERROR_INVALID_FRAME)
    else
      written ← vscp_writeEventToFrame (Some (zeros bufferSize)) (Z.of_nat bufferSize) 0 (Some ev);
      match written with
      | (true, Some frame) =>
          match hmac_of s with
          | Some hmacKey =>
              plaintext ← rdn frame 0 (Z.to_nat frameLength);
              '(ok, wire) ← encode EVP_Encrypt EVP_EncryptPad HMAC random plaintext (m_encryptType s) (Some (m_key s)) []
                              authenticatedVersion (Some hmacKey);
              if negb ok || (bufferSize <? length wire)%nat then Some (inl VSCP_ERROR_INVALID_FRAME)
              else
                frame ← wr frame 0 wire;
                Some (inr (take (length wire) frame))
          | None =>
              if negb (m_encryptType s =? VSCP_ENCRYPTION_NONE) then
                '(encryptedLength, encrypted) ← vscp_encryptFrame EVP_Encrypt useOpenSSL random (Some (zeros bufferSize)) (Some frame)
                                                  frameLength (Some (m_key s)) None (m_encryptType s);
                if (encryptedLength =? 0) || (Z.of_nat bufferSize <? encryptedLength) then Some (inl VSCP_ERROR_INVALID_FRAME)
                else
                  bs ← rdn (default [] encrypted) 0 (Z.to_nat encryptedLength);
                  frame ← wr frame 0 bs;
                  Some (inr (take (Z.to_nat encryptedLength) frame))
              else Some (inr (take (Z.to_nat frameLength) frame))
          end
      | _ => Some (inl VSCP_ERROR_INVALID_FRAME)
      end.

Section send.
Context {W : Type} `{DatagramSocket W}.

(** The random bytes are drawn before the checks of [wire_frame], in which the code
    draws them: nothing else depends on them. *)
Definition sendEvent (s : settings) (event : vscpEvent) : M W Z :=
  c ← call is_connected;
  if negb c then mret VSCP_ERROR_NOT_CONNECTED
  else
    random ← (if m_hmacEnabled s || negb (m_encryptType s =? VSCP_ENCRYPTION_NONE) then call iv_bytes else mret []);
    frame ← defined (wire_frame random s event);
    match frame with
    | inl error => mret error
    | inr bytes =>
        c ← call is_connected;
        if negb c then mret VSCP_ERROR_NOT_CONNECTED
        else
          sent ← call (sendto bytes);
          mret (if (sent <? 0) || negb (sent =? Z.of_nat (length bytes)) then VSCP_ERROR_COMMUNICATION else VSCP_ERROR_SUCCESS)
    end.

Definition send_ex (s : settings) (ex : vscpEventEx) : M W Z :=
  if VSCP_LEVEL2_MAXDATA <? xsizeData ex then mret VSCP_ERROR_INVALID_FRAME
  else
    converted ← defined (vscp_convertEventExToEvent (Some zero_event) (Some ex));
    match converted with
    | (true, Some ev) => sendEvent s ev
    | _ => mret VSCP_ERROR_INVALID_FRAME
    end.

Definition send_canal (now : timespec) (now2 : Z) (s : settings) (msg : canalMsg) : M W Z :=
  converted ← defined (vscp_convertCanalToEvent now now2 (Some zero_event) (Some msg) (Some (zeros 16)));
  match converted with
  | (true, Some ev) => sendEvent s ev
  | _ => mret VSCP_ERROR_INVALID_FRAME
  end.
End send.

(** ** Reading a datagram

    [Some None] is a datagram that the loop passes over.  The members that the
    worker thread is given as it starts do not change while it runs, since
    initFromJson refuses; the algorithm and key may, which
    authenticationStateValid sees. *)
Definition datagram_header (s : settings) (buffer : list Z) (frameLength : Z) : option bool :=
  if negb (connect_check s) || (frameLength <? Z.of_nat headerSize + 1) then Some false
  else
    '(ok, innerLength, version) ← parseHeader buffer;
    if negb ok || negb (version =? authenticatedVersion) || negb (innerLength =? frameLength - Z.of_nat headerSize)
    then Some false
    else
      lead ← rd buffer headerSize;
      Some ((GET_VSCP_BINARY_PACKET_TYPE lead <=? VSCP_MULTICAST_TYPE_EVENT1) && (Z.land lead 0x0f =? m_encryptType s)).

(** The buffer and the length of the plain frame. *)
Definition open_frame (s : settings) (buffer : list Z) (frameLength : Z) : option (option (list Z * Z)) :=
  match hmac_of s with
  | Some hmacKey =>
      good ← datagram_header s buffer frameLength;
      if (good : bool) then
        '(n, decrypted) ← vscp_decryptFrameV1 EVP_Decrypt HMAC (Some (zeros bufferSize)) (Z.of_nat bufferSize)
                            (Some (drop headerSize buffer)) (frameLength - Z.of_nat headerSize) (Some (m_key s)) (Some hmacKey);
        if n =? 0 then Some None
        else
          bs ← rdn (default [] decrypted) 0 (Z.to_nat n);
          buffer ← wr buffer 0 bs;
          Some (Some (buffer, n))
      else Some None
  | None =>
      lead ← rd buffer 0;
      if negb (Z.land lead 0x0f =? 0) then
        if frameLength <? 1 + 16 + 16 then Some None
        else
          '(ok, decrypted) ← vscp_decryptFrame EVP_Decrypt useOpenSSL (Some (zeros bufferSize)) (Some buffer) frameLength
                               (Some (m_key s)) None VSCP_ENCRYPTION_FROM_TYPE_BYTE;
          if (ok : bool) then
            bs ← rdn (default [] decrypted) 0 (Z.to_nat (frameLength - 16));
            buffer ← wr buffer 0 bs;
            Some (Some (buffer, frameLength - 16))
          else Some None
      else Some (Some (buffer, frameLength))
  end.

(** The plain frame in a buffer. *)
Definition read_frame (now : timespec) (s : settings) (buffer : list Z) (frameLength : Z) : option (option vscpEvent) :=
  if frameLength <? minimumFrameSize then Some None
  else
    hi ← rd buffer 34; lo ← rd buffer 35;
    let dataSize := Z.lor (Z.shiftl hi 8) lo in
    if VSCP_LEVEL2_MAXDATA <? dataSize then Some None
    else if m_hmacEnabled s && negb (frameLength =? minimumFrameSize + dataSize) then Some None
    else
      '(ok, event) ← vscp_getEventFromFrame now (Some zero_event) (Some buffer) frameLength;
      Some (if ok : bool then event else None).

(** [data] is what the network delivers; recv truncates it to the buffer. *)
Definition read_datagram (now : timespec) (s : settings) (data : list Z) : option (option vscpEvent) :=
  let received := take (bufferSize + 1) data in
  let buffer := received ++ zeros (bufferSize + 1 - length received) in
  if (length received =? 0)%nat || (bufferSize <? length received)%nat then Some None
  else
    opened ← open_frame s buffer (Z.of_nat (length received));
    match opened with
    | None => Some None
    | Some (buffer, frameLength) => read_frame now s buffer frameLength
    end.

(** ** The client

    The queue and its semaphore, the flags, and [env], what the application and
    the rest of the system are. *)
Record client (W : Type) := Client {
  sets : settings;
  m_receiveQueue : list (option vscpEvent);
  m_semReceiveQueue : Z; semReady : bool;
  m_connected : bool; m_bRun : bool;
  m_bActiveCallbackEv : bool; m_bActiveCallbackEx : bool;
  env : W
}.
#[global] Arguments Client {W}.
#[global] Arguments sets {W}.
#[global] Arguments m_receiveQueue {W}.
#[global] Arguments m_semReceiveQueue {W}.
#[global] Arguments semReady {W}.
#[global] Arguments m_connected {W}.
#[global] Arguments m_bRun {W}.
#[global] Arguments m_bActiveCallbackEv {W}.
#[global] Arguments m_bActiveCallbackEx {W}.
#[global] Arguments env {W}.

Section client.
Context {W : Type}.
Implicit Types c : client W.

Definition set_queue q n c : client W :=
  Client (sets c) q n (semReady c) (m_connected c) (m_bRun c) (m_bActiveCallbackEv c) (m_bActiveCallbackEx c) (env c).
Definition set_flags connected run c : client W :=
  Client (sets c) (m_receiveQueue c) (m_semReceiveQueue c) (semReady c) connected run (m_bActiveCallbackEv c) (m_bActiveCallbackEx c) (env c).

Definition SEM_VALUE_MAX : Z := 2147483647.

(** sem_trywait and sem_post. *)
Definition consumeSignal (semReady : bool) (n : Z) : Z := if semReady && (0 <? n) then n - 1 else n.
Definition postSignal (semReady : bool) (n : Z) : Z := if semReady && (n <? SEM_VALUE_MAX) then n + 1 else n.

(** [meanwhile] is what other threads do to the client while this one waits for
    the condition, which is only when the queue is empty. *)
Definition popEvent (meanwhile : client W -> client W) (blocking : bool) (timeout : Z) c : Z * option vscpEvent * client W :=
  if blocking && (timeout <? 0) then (VSCP_ERROR_PARAMETER, None, c)
  else
    let c := if blocking && bool_decide (m_receiveQueue c = []) then meanwhile c else c in
    match m_receiveQueue c with
    | [] => (if blocking then VSCP_ERROR_TIMEOUT else VSCP_ERROR_FIFO_EMPTY, None, c)
    | event :: rest =>
        (match event with Some _ => VSCP_ERROR_SUCCESS | None => VSCP_ERROR_MEMORY end, event,
         set_queue rest (consumeSignal (semReady c) (m_semReceiveQueue c)) c)
    end.

(** The result, the event of the caller and the client. *)
Definition receiveEvent (meanwhile : client W -> client W) (blocking : bool) (timeout : Z) (event : vscpEvent) c
  : option (Z * vscpEvent * client W) :=
  let '(result, queued, c) := popEvent meanwhile blocking timeout c in
  if negb (result =? VSCP_ERROR_SUCCESS) then Some (result, event, c)
  else
    '(copied, to) ← vscp_copyEvent (Some event) queued;
    Some (if copied : bool then VSCP_ERROR_SUCCESS else VSCP_ERROR_INVALID_FRAME, default event to, c).

Definition receiveEventEx (meanwhile : client W -> client W) (blocking : bool) (timeout : Z) (event : vscpEventEx) c
  : option (Z * vscpEventEx * client W) :=
  let '(result, queued, c) := popEvent meanwhile blocking timeout c in
  if negb (result =? VSCP_ERROR_SUCCESS) then Some (result, event, c)
  else
    '(copied, to) ← vscp_convertEventToEventEx (Some event) queued;
    Some (if copied : bool then VSCP_ERROR_SUCCESS else VSCP_ERROR_INVALID_FRAME, default event to, c).

(** The functions for CAN messages; [ex] is the uninitialised event of the call
    that does not wait, and zero in the one that waits.  [mem] is the fresh event
    of the conversion. *)
Definition receive_canal (meanwhile : client W -> client W) (blocking : bool) (timeout : Z) (mem : vscpEvent) (ex : vscpEventEx)
    (msg : canalMsg) c : option (Z * canalMsg * client W) :=
  '(result, ex, c) ← receiveEventEx meanwhile blocking timeout (if blocking then zero_ex else ex) c;
  if negb (result =? VSCP_ERROR_SUCCESS) then Some (result, msg, c)
  else
    '(converted, to) ← vscp_convertEventExToCanal mem (Some msg) (Some ex);
    Some (if converted : bool then VSCP_ERROR_SUCCESS else VSCP_ERROR_INVALID_FRAME, default msg to, c).

(** One round takes one event and its signal. *)
Definition clearQueue c : Z * client W :=
  (VSCP_ERROR_SUCCESS, set_queue [] (Nat.iter (length (m_receiveQueue c)) (consumeSignal (semReady c)) (m_semReceiveQueue c)) c).

Definition getcount c : Z := u16 (Z.of_nat (length (m_receiveQueue c))).

Definition setfilter (f : vscpEventFilter) c : client W :=
  let s := sets c in
  Client (Settings (m_interface s) (m_addr s) (m_port s) (m_ttl s) (m_encryptType s) (m_key s) (m_configuredKeyLength s)
            (m_hmacEnabled s) (m_hmacKey s) (m_configuredEncryption s) (m_configuredKey s)
            (Filter (filter_priority f) (mask_priority f) (filter_class f) (mask_class f) (filter_type f) (mask_type f)
               (take 16 (filter_GUID f)) (take 16 (mask_GUID f))))
    (m_receiveQueue c) (m_semReceiveQueue c) (semReady c) (m_connected c) (m_bRun c) (m_bActiveCallbackEv c) (m_bActiveCallbackEx c) (env c).

(** ** The receive loop *)

(** The callbacks of the application, which may use the client and write to the
    event. *)
Variable m_callbackev : vscpEvent -> client W -> vscpEvent * client W.
Variable m_callbackex : vscpEventEx -> client W -> client W.

Definition push_event (event : vscpEvent) c : client W :=
  set_queue (m_receiveQueue c ++ [Some event]) (postSignal (semReady c) (m_semReceiveQueue c)) c.

Definition deliver (event : vscpEvent) c : option (client W) :=
  if vscp_doLevel2Filter (Some event) (Some (m_filter (sets c))) then
    let '(event, c) := if m_bActiveCallbackEv c then m_callbackev event c else (event, c) in
    c ← (if m_bActiveCallbackEx c then
           '(converted, extended) ← vscp_convertEventToEventEx (Some zero_ex) (Some event);
           Some (match extended with Some x => if converted : bool then m_callbackex x c else c | None => c end)
         else Some c);
    Some (if negb (m_bActiveCallbackEv c) || negb (m_bActiveCallbackEx c) then push_event event c else c)
  else Some c.

(** What a round gets from poll and recv, while m_bRun is set: the wait is
    interrupted, fails, or times out; recv fails; or a datagram comes. *)
Inductive input := Interrupted | WaitFailed | TimedOut | RecvFailed | Arrived (now : timespec) (data : list Z).

Fixpoint receiveLoop (inputs : list input) c : option (client W) :=
  match inputs with
  | [] => Some (set_flags false false c)
  | WaitFailed :: _ => Some (set_flags false false c)
  | Arrived now data :: inputs =>
      event ← read_datagram now (sets c) data;
      c ← (match event with Some event => deliver event c | None => Some c end);
      receiveLoop inputs c
  | _ :: inputs => receiveLoop inputs c
  end.
End client.
End openssl.

(** ** Lemmas *)

(** *** From an event to a datagram and back *)

Section exchange.
Context (e : vscpEvent) (He : event_ok e) (Hmax : sizeData e <= VSCP_LEVEL2_MAXDATA).

Definition event_body : list Z := drop 1 (frame_of 0 e).

Lemma frame_lead_byte alg : 0 <= alg <= 3 -> frame_of alg e = type_byte 16 alg :: event_body.
Proof.
  intros Ha. assert (C : alg = 0 \/ alg = 1 \/ alg = 2 \/ alg = 3) by lia. unfold event_body. rewrite (frame_of_tail 0 alg e).
  destruct C as [->|[->|[->| ->]]]; reflexivity.
Qed.

Lemma event_size : 0 <= sizeData e <= 512 /\ Z.of_nat (length (16 :: event_body)) = 38 + sizeData e.
Proof using He Hmax.
  assert (S := size_ok e He). unfold is_u16, VSCP_LEVEL2_MAXDATA in *. split; [lia|].
  change (16 :: event_body) with (frame_of 0 e). rewrite length_frame_of by exact He. lia.
Qed.

Lemma event_frame_ok : frame_ok 16 event_body.
Proof using He.
  constructor; [width|by_decide|apply Forall_drop, frame_of_ok, He|]. change (16 :: event_body) with (frame_of 0 e).
  assert (V := frame_of_valid 0 e [] He). rewrite app_nil_r in V. rewrite length_frame_of by exact He.
  assert (S := size_ok e He). replace (Z.of_nat _) with (38 + sizeData e) by (unfold is_u16 in S; lia). exact V.
Qed.

(** The size in a frame, as the loop reads it. *)
Lemma frame_size_bytes p rest : exists hi lo, rd (frame_of p e ++ rest) 34 = Some hi /\ rd (frame_of p e ++ rest) 35 = Some lo /\
  Z.lor (Z.shiftl hi 8) lo = sizeData e.
Proof using He.
  assert (S := size_ok e He). exists (sizeData e / 256), (sizeData e mod 256). rewrite frame_of_split. unfold frame_header.
  set (pre := [p mod 16 + 16] ++ be 2 (frame_head (head e)) ++ be 8 (frame_ns e) ++ [0; 0; 0] ++ be 2 (vscp_class e) ++ be 2 (vscp_type e) ++ GUID e).
  assert (Lp : length pre = 34%nat).
  { unfold pre. rewrite !length_app, !length_be, (proj1 (guid_ok e He)). reflexivity. }
  generalize (data_of (pdata e) ++ crc_bytes (crcFast (drop 1 (frame_body p e))) ++ rest). intros tail.
  assert (B : be 2 (sizeData e) = [sizeData e / 256; sizeData e mod 256]).
  { cbn [be]. rewrite !Z.shiftr_div_pow2 by lia. change (2 ^ (8 * Z.of_nat 1)) with 256. change (2 ^ (8 * Z.of_nat 0)) with 1.
    rewrite Z.div_1_r, (Z.mod_small (sizeData e / 256)) by width. reflexivity. }
  rewrite B. match goal with |- rd ?l _ = _ /\ _ => assert (E : exists r, l = pre ++ sizeData e / 256 :: sizeData e mod 256 :: r) end.
  { exists tail. unfold pre. rewrite <- !app_assoc. reflexivity. }
  destruct E as [r ->]. unfold rd. rewrite !lookup_app_r, Lp by lia. split; [reflexivity|]. split; [reflexivity|].
  rewrite Z.shiftl_mul_pow2, (lor_add_disjoint 8) by width. width.
Qed.

(** The event with the CRC of its frame. *)
Definition arrived (now : timespec) : vscpEvent := received now e (crcFast (drop 1 (frame_body 0 e))).

(** The plain frame, whatever algorithm its first byte names. *)
Lemma read_event_frame now s alg rest len : 0 <= alg <= 3 -> 38 + sizeData e <= len ->
  (m_hmacEnabled s = true -> len = 38 + sizeData e) ->
  read_frame now s (frame_of alg e ++ rest) len = Some (Some (arrived now)).
Proof using He Hmax.
  intros Ha Hl Hh. destruct event_size as [S _]. unfold read_frame.
  rewrite (proj2 (Z.ltb_ge len minimumFrameSize)) by (unfold minimumFrameSize, VSCP_BINARY_PACKET_FRAME0_HEADER_LENGTH; lia).
  destruct (frame_size_bytes alg rest) as (hi & lo & -> & -> & D). cbn [mbind option_bind]. rewrite D.
  rewrite (proj2 (Z.ltb_ge VSCP_LEVEL2_MAXDATA _)) by (unfold VSCP_LEVEL2_MAXDATA; lia).
  assert (G : m_hmacEnabled s && negb (len =? minimumFrameSize + sizeData e) = false).
  { destruct (m_hmacEnabled s); [|reflexivity]. rewrite Hh, Z.eqb_refl by reflexivity. reflexivity. }
  rewrite G, getEventFromFrame_written by (exact He || lia). reflexivity.
Qed.

(** What the encrypted part needs. *)
Context (EVP_Encrypt : evp_encryption) (EVP_Decrypt : evp_decryption) (EVP_EncryptPad : evp_encryption)
  (HMAC : list Z -> list Z -> option (list Z)) (useOpenSSL : bool).

(** The parts of sending that do not depend on the kind of datagram. *)
Lemma wire_frame_eq random s : 0 <= m_encryptType s <= 3 -> connect_check s = true ->
  wire_frame EVP_Encrypt EVP_EncryptPad HMAC useOpenSSL random s e =
  let rest := drop (38 + Z.to_nat (sizeData e)) (zeros bufferSize) in
  match hmac_of s with
  | Some hmacKey =>
      '(ok, wire) ← encode EVP_Encrypt EVP_EncryptPad HMAC random (16 :: event_body) (m_encryptType s) (Some (m_key s)) []
                      authenticatedVersion (Some hmacKey);
      if negb ok || (bufferSize <? length wire)%nat then Some (inl VSCP_ERROR_INVALID_FRAME)
      else frame ← wr ((16 :: event_body) ++ rest) 0 wire; Some (inr (take (length wire) frame))
  | None =>
      if negb (m_encryptType s =? VSCP_ENCRYPTION_NONE) then
        '(encryptedLength, encrypted) ← vscp_encryptFrame EVP_Encrypt useOpenSSL random (Some (zeros bufferSize))
            (Some ((16 :: event_body) ++ rest)) (38 + sizeData e) (Some (m_key s)) None (m_encryptType s);
        if (encryptedLength =? 0) || (Z.of_nat bufferSize <? encryptedLength) then Some (inl VSCP_ERROR_INVALID_FRAME)
        else
          bs ← rdn (default [] encrypted) 0 (Z.to_nat encryptedLength);
          frame ← wr ((16 :: event_body) ++ rest) 0 bs;
          Some (inr (take (Z.to_nat encryptedLength) frame))
      else Some (inr (16 :: event_body))
  end.
Proof using He Hmax.
  intros Ha Hc. destruct event_size as [S L]. unfold wire_frame.
  rewrite (proj2 (Z.ltb_ge VSCP_LEVEL2_MAXDATA _)), (data_ok_null _ _ (edata_ok e He)) by (unfold VSCP_LEVEL2_MAXDATA; lia).
  cbn [orb]. rewrite (proj2 (Z.ltb_ge VSCP_ENCRYPTION_AES256 _)), Hc by (unfold VSCP_ENCRYPTION_AES256; lia). cbn [negb].
  assert (F : vscp_getFrameSizeFromEvent (Some e) = 38 + sizeData e) by (unfold vscp_getFrameSizeFromEvent, VSCP_BINARY_PACKET_FRAME0_HEADER_LENGTH; lia).
  rewrite F, (proj2 (Z.ltb_ge (Z.of_nat bufferSize - 32) _)) by (unfold bufferSize; lia).
  rewrite writeEventToFrame_eq by (exact He || (unfold zeros; rewrite length_replicate; lia)).
  rewrite (proj2 (Z.leb_le (38 + sizeData e) _)) by (unfold bufferSize; lia). cbn [mbind option_bind]. change (frame_of 0 e) with (16 :: event_body).
  cbv zeta. generalize (drop (38 + Z.to_nat (sizeData e)) (zeros bufferSize)). intros rest.
  assert (T : Z.to_nat (38 + sizeData e) = length (16 :: event_body)) by lia.
  assert (T1 : take (length (16 :: event_body)) ((16 :: event_body) ++ rest) = 16 :: event_body) by apply take_app_length.
  assert (T2 := rdn_front (16 :: event_body) rest).
  destruct (hmac_of s); rewrite T, ?T1, ?T2; reflexivity.
Qed.

Lemma read_datagram_eq now s data : (0 < length data <= bufferSize)%nat ->
  read_datagram EVP_Decrypt HMAC useOpenSSL now s data =
  opened ← open_frame EVP_Decrypt HMAC useOpenSSL s (data ++ zeros (bufferSize + 1 - length data)) (Z.of_nat (length data));
  match opened with None => Some None | Some (buffer, frameLength) => read_frame now s buffer frameLength end.
Proof using Type.
  intros Hl. unfold read_datagram. rewrite take_ge by lia. cbv zeta.
  rewrite (proj2 (Nat.eqb_neq (length data) 0)), (proj2 (Nat.ltb_ge bufferSize (length data))) by lia. reflexivity.
Qed.

(** The plain frame put back into the buffer. *)
Lemma put_frame buffer bs rest : (length bs <= length buffer)%nat ->
  rdn (bs ++ rest) 0 (length bs) = Some bs /\ wr buffer 0 bs = Some (bs ++ drop (length bs) buffer).
Proof using Type. intros H. split; [apply rdn_front|apply wr_front, H]. Qed.

Lemma plain_exchange now random s : m_hmacEnabled s = false -> m_encryptType s = 0 ->
  wire_frame EVP_Encrypt EVP_EncryptPad HMAC useOpenSSL random s e = Some (inr (16 :: event_body)) /\
  read_datagram EVP_Decrypt HMAC useOpenSSL now s (16 :: event_body) = Some (Some (arrived now)).
Proof using He Hmax.
  intros Hh Ha. destruct event_size as [S L].
  assert (Hc : connect_check s = true) by (unfold connect_check; rewrite Hh; reflexivity). split.
  - rewrite wire_frame_eq by (lia || exact Hc). unfold hmac_of. rewrite Hh, Ha. reflexivity.
  - rewrite read_datagram_eq by (unfold bufferSize; cbn [length] in *; lia). unfold open_frame, hmac_of. rewrite Hh.
    change (rd ((16 :: event_body) ++ _) 0) with (Some 16). cbn [mbind option_bind]. change (Z.land 16 0x0f =? 0) with true. cbn [negb].
    apply (read_event_frame now s 0); [lia|lia|congruence].
Qed.

Section encrypted.
Context (s : settings) (v : list Z) (Hh : m_hmacEnabled s = false) (Ha : 1 <= m_encryptType s <= 3) (Hk : key_ok (m_key s)) (Hv : block_ok v).

Lemma key_long alg k : 1 <= alg <= 3 -> key_ok k -> (key_length alg <= length k)%nat.
Proof using Type. intros H [L _]. rewrite L. unfold key_length. lia. Qed.

Lemma cipher_exchange encrypt decrypt `{!FrameCipher encrypt decrypt} now rest :
  length ((16 :: event_body) ++ rest) = bufferSize ->
  exists lead data encrypted decrypted rest2, (33 <= length (lead :: data) <= bufferSize)%nat /\ Z.land lead 0x0f = m_encryptType s /\
    encrypt_frame encrypt v (Some (zeros bufferSize)) (Some ((16 :: event_body) ++ rest)) (38 + sizeData e)
       (Some (m_key s)) None (m_encryptType s) = Some (Z.of_nat (length (lead :: data)), Some ((lead :: data) ++ encrypted)) /\
    decrypt_frame decrypt (Some (zeros bufferSize)) (Some ((lead :: data) ++ zeros (bufferSize + 1 - length (lead :: data))))
       (Z.of_nat (length (lead :: data))) (Some (m_key s)) None VSCP_ENCRYPTION_FROM_TYPE_BYTE = Some (true, Some (decrypted ++ rest2)) /\
    Z.of_nat (length decrypted) = Z.of_nat (length (lead :: data)) - 16 /\
    forall r, read_frame now s (decrypted ++ r) (Z.of_nat (length decrypted)) = Some (Some (arrived now)).
Proof using All.
  intros Lf. destruct event_size as [S L]. assert (Hf := event_frame_ok). set (alg := m_encryptType s) in *.
  assert (Hs := frame_cipher alg (m_key s) v Ha (proj2 Hk) (key_long alg _ Ha Hk) Hv).
  set (body := event_body) in *. destruct (padding_spec (length body)) as [P1 P2]. set (n := padded_blocks (length body)) in *.
  assert (Lb : length body = Z.to_nat (37 + sizeData e)) by (cbn [length] in L; lia).
  assert (Lz : length (zeros bufferSize) = bufferSize) by apply length_replicate.
  assert (Hb : bufferSize = 1024%nat) by reflexivity.
  destruct (encrypt_frame_eq encrypt decrypt alg (m_key s) v Ha Hv Hs v None 16 body rest (zeros bufferSize)
    ltac:(unfold vscp_getEncryptionIv; rewrite (proj1 Hv); reflexivity) (frame_bytes _ _ Hf) ltac:(fold n; lia) ltac:(fold n; lia)) as (cs & Lc & Bc & E & D).
  fold n in Lc. destruct (lead_spec 16 alg ltac:(width) ltac:(lia)) as (_ & Tl & _).
  assert (Fl : frame_of alg e = type_byte 16 alg :: body) by (apply frame_lead_byte; lia). set (b := type_byte 16 alg) in *.
  assert (Lv := proj1 Hv). assert (Ld : length (b :: cs ++ v) = (17 + 16 * n)%nat) by (cbn [length]; rewrite length_app; lia).
  set (plain := b :: body ++ replicate (padding (length body)) 0).
  assert (Lp : length plain = (1 + 16 * n)%nat) by (unfold plain; cbn [length]; rewrite length_app, length_replicate; lia).
  exists b, (cs ++ v). do 2 eexists. exists (drop (1 + 16 * n) (zeros bufferSize)). rewrite Ld. split; [lia|]. split; [exact Tl|]. split; [|split; [|split]].
  - rewrite <- L, E, Lc. cbn [app]. rewrite <- app_assoc. reflexivity.
  - cbn [app]. rewrite <- app_assoc.
    rewrite (decrypt_frame_eq decrypt alg (m_key s) v Ha Hv b body cs _ (zeros bufferSize) n Tl Lc eq_refl ltac:(lia)).
    + instantiate (1 := plain). unfold plain. cbn [app]. rewrite <- app_assoc. reflexivity.
    + apply (frame_ok_crc 16 body b _ Hf).
    + rewrite <- Lc. exact D.
  - lia.
  - intros r. rewrite Lp. unfold plain. cbn [app]. rewrite <- app_assoc. change (b :: body ++ ?l) with ((b :: body) ++ l). rewrite <- Fl.
    apply read_event_frame; [lia|lia|congruence].
Qed.

Lemma encrypted_exchange (HE : useOpenSSL = true -> EvpLaws EVP_Encrypt EVP_Decrypt) now :
  exists data, (0 < length data <= bufferSize)%nat /\
    wire_frame EVP_Encrypt EVP_EncryptPad HMAC useOpenSSL v s e = Some (inr data) /\
    read_datagram EVP_Decrypt HMAC useOpenSSL now s data = Some (Some (arrived now)).
Proof using All.
  destruct event_size as [S L]. assert (Hc : connect_check s = true) by (unfold connect_check; rewrite Hh; reflexivity).
  set (rest := drop (38 + Z.to_nat (sizeData e)) (zeros bufferSize)).
  assert (Lf : length ((16 :: event_body) ++ rest) = bufferSize).
  { assert (Hb : bufferSize = 1024%nat) by reflexivity. unfold rest, zeros. rewrite length_app, length_drop, length_replicate. lia. }
  assert (X : exists lead data encrypted decrypted rest2, (33 <= length (lead :: data) <= bufferSize)%nat /\ Z.land lead 0x0f = m_encryptType s /\
    vscp_encryptFrame EVP_Encrypt useOpenSSL v (Some (zeros bufferSize)) (Some ((16 :: event_body) ++ rest)) (38 + sizeData e)
       (Some (m_key s)) None (m_encryptType s) = Some (Z.of_nat (length (lead :: data)), Some ((lead :: data) ++ encrypted)) /\
    vscp_decryptFrame EVP_Decrypt useOpenSSL (Some (zeros bufferSize)) (Some ((lead :: data) ++ zeros (bufferSize + 1 - length (lead :: data))))
       (Z.of_nat (length (lead :: data))) (Some (m_key s)) None VSCP_ENCRYPTION_FROM_TYPE_BYTE = Some (true, Some (decrypted ++ rest2)) /\
    Z.of_nat (length decrypted) = Z.of_nat (length (lead :: data)) - 16 /\
    forall r, read_frame now s (decrypted ++ r) (Z.of_nat (length decrypted)) = Some (Some (arrived now))).
  { unfold vscp_encryptFrame, vscp_decryptFrame. destruct useOpenSSL.
    - apply (cipher_exchange _ _ (FrameCipher0 := openssl_cipher _ _ (EvpLaws0 := HE eq_refl))). exact Lf.
    - apply (cipher_exchange internal_encrypt internal_decrypt). exact Lf. }
  destruct X as (lead & data & encrypted & decrypted & rest2 & Hl & Tl & E & D & Ld & R). set (d := lead :: data) in *.
  exists d. split; [lia|]. split.
  - rewrite wire_frame_eq by (lia || exact Hc). cbv zeta. fold rest. unfold hmac_of. rewrite Hh.
    rewrite (proj2 (Z.eqb_neq (m_encryptType s) VSCP_ENCRYPTION_NONE)) by (unfold VSCP_ENCRYPTION_NONE; lia). cbn [negb].
    rewrite E. cbn [mbind option_bind from_option Datatypes.id].
    rewrite (proj2 (Z.eqb_neq (Z.of_nat (length d)) 0)), (proj2 (Z.ltb_ge (Z.of_nat bufferSize) _)) by lia. cbn [orb]. rewrite Nat2Z.id.
    destruct (put_frame ((16 :: event_body) ++ rest) d encrypted ltac:(lia)) as [-> P]. cbn [mbind option_bind]. rewrite P.
    cbn [mbind option_bind]. rewrite (take_app_length d). reflexivity.
  - rewrite read_datagram_eq by lia. unfold open_frame, hmac_of. rewrite Hh.
    change (rd (d ++ zeros (bufferSize + 1 - length d)) 0) with (Some lead). cbn [mbind option_bind]. rewrite Tl.
    rewrite (proj2 (Z.eqb_neq (m_encryptType s) 0)), (proj2 (Z.ltb_ge (Z.of_nat (length d)) (1 + 16 + 16))) by lia. cbn [negb].
    rewrite D. cbn [mbind option_bind from_option Datatypes.id]. rewrite <- Ld, Nat2Z.id.
    destruct (put_frame (d ++ zeros (bufferSize + 1 - length d)) decrypted rest2) as [-> P]; [rewrite length_app; lia|].
    cbn [mbind option_bind]. rewrite P. cbn [mbind option_bind]. apply R.
Qed.
End encrypted.

Lemma authenticated_exchange now s v (HE : EvpLaws EVP_Encrypt EVP_Decrypt) (HH : HmacLaws HMAC) :
  m_hmacEnabled s = true -> connect_check s = true -> 0 <= m_encryptType s <= 3 -> key_ok (m_key s) -> key_ok (m_hmacKey s) -> block_ok v ->
  exists data, (0 < length data <= bufferSize)%nat /\
    wire_frame EVP_Encrypt EVP_EncryptPad HMAC useOpenSSL v s e = Some (inr data) /\
    read_datagram EVP_Decrypt HMAC useOpenSSL now s data = Some (Some (arrived now)).
Proof using He Hmax.
  intros Hh Hc Ha0 Hk Hhk Hv. destruct event_size as [S L]. assert (Hf := event_frame_ok).
  assert (Ha : 1 <= m_encryptType s <= 3).
  { destruct (decide (m_encryptType s = 0)) as [Z|]; [|lia]. unfold connect_check, authenticationStateValid, authenticatedKeysValid in Hc.
    rewrite Hh, Z in Hc. cbn [negb orb] in Hc. change (aesKeyLength 0) with 0 in Hc. cbn [Z.eqb negb andb] in Hc. rewrite andb_false_r in Hc. discriminate Hc. }
  destruct (authenticated_frame EVP_Encrypt EVP_Decrypt EVP_EncryptPad HMAC 16 event_body Hf ltac:(unfold maxFrameSize; lia)
    (m_encryptType s) (m_key s) v Ha (proj2 Hk) (key_long _ _ Ha Hk) Hv HE HH (m_hmacKey s) [] ltac:(rewrite (proj1 Hhk); lia) ltac:(lia))
    as (inner & Li & (r & Ei) & Ee & _ & Q & Ed).
  assert (Hb : bufferSize = 1024%nat) by reflexivity. destruct (padding_spec (length event_body)) as [P1 P2].
  assert (Lb : Z.of_nat (length event_body) = 37 + sizeData e) by (cbn [length] in L; lia).
  assert (Ld : length (wire_of 1 inner) = (3 + length inner)%nat) by (unfold wire_of; cbn [length]; rewrite length_app, length_be; lia).
  exists (wire_of 1 inner). split; [lia|]. split.
  - rewrite wire_frame_eq by (lia || exact Hc). cbv zeta. unfold hmac_of. rewrite Hh. change authenticatedVersion with 1. rewrite Ee.
    cbn [mbind option_bind negb]. rewrite (proj2 (Nat.ltb_ge bufferSize (length (wire_of 1 inner)))) by lia. cbn [orb].
    rewrite wr_front by (rewrite length_app; unfold zeros; rewrite length_drop, length_replicate; lia). cbn [mbind option_bind].
    rewrite (take_app_length (wire_of 1 inner)). reflexivity.
  - rewrite read_datagram_eq by lia. unfold open_frame, hmac_of. rewrite Hh.
    assert (Hz : (3 + length inner <= 1024)%nat) by lia.
    set (z := zeros (bufferSize + 1 - length (wire_of 1 inner))). set (b := type_byte 16 (m_encryptType s)) in *.
    destruct (lead_spec 16 (m_encryptType s) ltac:(width) ltac:(lia)) as (_ & Tl & Ts). fold b in Tl. fold b in Ts.
    assert (Ww : wire_of 1 inner ++ z = syncByte :: be 2 (1 * 8192 + Z.of_nat (length inner)) ++ b :: (r ++ z)).
    { unfold wire_of. generalize (1 * 8192 + Z.of_nat (length inner)). intros x. rewrite Ei. cbn [app]. rewrite <- app_assoc. reflexivity. }
    assert (Hd : datagram_header s (wire_of 1 inner ++ z) (Z.of_nat (length (wire_of 1 inner))) = Some true).
    { unfold datagram_header. rewrite Hc, (proj2 (Z.ltb_ge _ (Z.of_nat headerSize + 1))) by (unfold headerSize; lia). cbn [negb orb].
      rewrite Ww, parseHeader_eq by lia.
      cbn [mbind option_bind]. rewrite Q. change (1 =? authenticatedVersion) with true. rewrite Ld.
      rewrite (proj2 (Z.eqb_eq (Z.of_nat (length inner)) _)) by (unfold headerSize; lia). cbn [negb orb].
      match goal with |- context [rd ?l headerSize] => change (rd l headerSize) with (Some b) end. cbn [mbind option_bind]. unfold GET_VSCP_BINARY_PACKET_TYPE. rewrite Ts, Tl, Z.eqb_refl. reflexivity. }
    rewrite Hd. cbn [mbind option_bind]. change (drop headerSize (wire_of 1 inner ++ z)) with (inner ++ z).
    replace (Z.of_nat (length (wire_of 1 inner)) - Z.of_nat headerSize) with (Z.of_nat (length inner)) by (unfold headerSize; lia).
    assert (Lz : length (zeros bufferSize) = 1024%nat) by reflexivity.
    rewrite Ed by lia. cbn [mbind option_bind from_option Datatypes.id].
    rewrite (proj2 (Z.eqb_neq (Z.of_nat (length (16 :: event_body))) 0)) by lia. rewrite Nat2Z.id.
    change (length (16 :: event_body)) with (length (b :: event_body)) in *.
    destruct (put_frame (wire_of 1 inner ++ z) (b :: event_body) (drop (length (b :: event_body)) (zeros bufferSize))) as [-> P]; [rewrite length_app; lia|].
    cbn [mbind option_bind]. rewrite P. cbn [mbind option_bind]. unfold b. rewrite <- frame_lead_byte by lia.
    apply read_event_frame; [lia| |intros _]; rewrite length_frame_of by exact He; lia.
Qed.
End exchange.

(** *** Sending and receiving streams of events *)

(** The settings with which connect opens the client. *)
Record sendable (s : settings) : Prop := {
  sd_type : 0 <= m_encryptType s <= 3;
  sd_key : key_ok (m_key s);
  sd_hmac : key_ok (m_hmacKey s);
  sd_connect : connect_check s = true
}.

(** The receiver's settings, as far as datagrams depend on them. *)
Definition same_keys (r s : settings) : Prop :=
  m_encryptType r = m_encryptType s /\ m_key r = m_key s /\ m_configuredKeyLength r = m_configuredKeyLength s /\
  m_hmacEnabled r = m_hmacEnabled s /\ m_hmacKey r = m_hmacKey s /\
  m_configuredEncryption r = m_configuredEncryption s /\ m_configuredKey r = m_configuredKey s.

Lemma read_datagram_keys D HMAC useOpenSSL now r s data : same_keys r s ->
  read_datagram D HMAC useOpenSSL now r data = read_datagram D HMAC useOpenSSL now s data.
Proof. destruct r, s. intros (E1 & E2 & E3 & E4 & E5 & E6 & E7). cbn in *. subst. reflexivity. Qed.

(** The network: the client stays connected, there are random numbers, and a
    datagram of at most 1024 bytes is sent as a whole; [sent] are the datagrams
    sent so far. *)
Class Network (W : Type) `{DatagramSocket W} (sent : W -> list (list Z)) : Prop := {
  net_connected : forall w, exists w', is_connected w = (true, w') /\ sent w' = sent w;
  net_random : forall w, exists v w', iv_bytes w = (v, w') /\ block_ok v /\ sent w' = sent w;
  net_sendto : forall bytes w, (length bytes <= bufferSize)%nat ->
    exists w', sendto bytes w = (Z.of_nat (length bytes), w') /\ sent w' = sent w ++ [bytes]
}.

(** The event as the receiver has it. *)
Definition arrival (now : timespec) (e : vscpEvent) : vscpEvent := arrived e now.

Lemma arrival_ok now e : event_ok e -> bytes_ok (frame_of 0 e) -> event_ok (arrival now e).
Proof.
  intros He Hb. assert (X := getEventFromFrame_cases now e (frame_of 0 e) He Hb).
  assert (L := length_frame_of 0 e He). assert (S := size_ok e He). unfold is_u16 in S.
  assert (R := getEventFromFrame_written now e 0 e [] (Z.of_nat (length (frame_of 0 e))) He ltac:(lia)). rewrite app_nil_r in R.
  rewrite R in X. destruct X as (_ & _ & e1 & E & K & _). change (event_ok (arrived e now)).
  assert (E1 : arrived e now = e1) by (unfold arrived; congruence). rewrite E1. exact K.
Qed.

Lemma unix_ns_priority h : 0 <= h -> Z.land (Z.shiftr (unix_ns_head h) 5) 0x07 = Z.land (Z.shiftr h 5) 0x07.
Proof.
  intros Hh. unfold unix_ns_head. change 0x07 with (Z.ones 3). rewrite !Z.land_ones, !Z.shiftr_div_pow2 by lia.
  change (2 ^ 5) with 32. change (2 ^ 3) with 8. dlia.
Qed.

Lemma arrival_filter now e f : event_ok e ->
  vscp_doLevel2Filter (Some (arrival now e)) (Some f) = vscp_doLevel2Filter (Some e) (Some f).
Proof.
  intros He. unfold vscp_doLevel2Filter, vscp_getEventPriority, arrival, arrived, received. cbn [head vscp_class vscp_type GUID].
  rewrite unix_ns_priority by apply (head_ok e He). reflexivity.
Qed.

Section streams.
Context (E : evp_encryption) (D : evp_decryption) (EP : evp_encryption) (HMAC : list Z -> list Z -> option (list Z)) (useOpenSSL : bool)
  (HE : EvpLaws E D) (HH : HmacLaws HMAC).

Lemma event_exchange s e v : sendable s -> event_ok e -> sizeData e <= VSCP_LEVEL2_MAXDATA ->
  (m_hmacEnabled s || negb (m_encryptType s =? VSCP_ENCRYPTION_NONE) = true -> block_ok v) ->
  exists data, (0 < length data <= bufferSize)%nat /\ wire_frame E EP HMAC useOpenSSL v s e = Some (inr data) /\
    forall now, read_datagram D HMAC useOpenSSL now s data = Some (Some (arrival now e)).
Proof using HE HH.
  intros Hs He Hmax Hv.
  assert (X : forall now, exists data, (0 < length data <= bufferSize)%nat /\ wire_frame E EP HMAC useOpenSSL v s e = Some (inr data) /\
    read_datagram D HMAC useOpenSSL now s data = Some (Some (arrival now e))).
  { intros now. assert (T := sd_type s Hs). destruct (m_hmacEnabled s) eqn:Hh.
    - apply (authenticated_exchange e He Hmax E D EP HMAC useOpenSSL now s v HE HH); try apply Hs; auto.
    - destruct (Z.eqb_spec (m_encryptType s) VSCP_ENCRYPTION_NONE) as [Z|Z].
      + destruct (plain_exchange e He Hmax E D EP HMAC useOpenSSL now v s Hh Z) as [A B].
        exists (16 :: event_body e). split; [|split; assumption]. destruct (event_size e He Hmax) as [S L]. unfold bufferSize. lia.
      + unfold VSCP_ENCRYPTION_NONE in Z.
        apply (encrypted_exchange e He Hmax E D EP HMAC useOpenSSL s v Hh); try apply Hs; auto; lia. }
  destruct (X (Timespec 0 0)) as (data & L & A & _). exists data. split; [exact L|]. split; [exact A|].
  intros now. destruct (X now) as (data' & _ & A' & B). congruence.
Qed.

Context {W : Type} `{DatagramSocket W} (sent : W -> list (list Z)) `{!Network W sent}.

Lemma sendEvent_sent s e w : sendable s -> event_ok e -> sizeData e <= VSCP_LEVEL2_MAXDATA ->
  exists data w', sendEvent E EP HMAC useOpenSSL s e w = Returns (VSCP_ERROR_SUCCESS, w') /\ sent w' = sent w ++ [data] /\
    (length data <= bufferSize)%nat /\ forall now, read_datagram D HMAC useOpenSSL now s data = Some (Some (arrival now e)).
Proof using All.
  intros Hs He Hmax. unfold sendEvent. destruct (net_connected w) as (w1 & E1 & S1).
  rewrite (bind_call _ _ _ _ _ E1). cbn [negb].
  assert (R : exists v w2, (if m_hmacEnabled s || negb (m_encryptType s =? VSCP_ENCRYPTION_NONE) then call iv_bytes else mret []) w1 = Returns (v, w2)
    /\ (m_hmacEnabled s || negb (m_encryptType s =? VSCP_ENCRYPTION_NONE) = true -> block_ok v) /\ sent w2 = sent w).
  { destruct (_ || _).
    - destruct (net_random w1) as (v & w2 & E2 & B & S2). exists v, w2. unfold call. rewrite E2, S2. auto.
    - exists [], w1. split; [reflexivity|]. split; [discriminate|exact S1]. }
  destruct R as (v & w2 & E2 & B & S2). rewrite (bind_returns _ _ _ _ _ E2).
  destruct (event_exchange s e v Hs He Hmax B) as (data & L & A & R). rewrite (bind_defined _ _ _ _ A).
  destruct (net_connected w2) as (w3 & E3 & S3). rewrite (bind_call _ _ _ _ _ E3). cbn [negb].
  destruct (net_sendto data w3 ltac:(lia)) as (w4 & E4 & S4). rewrite (bind_call _ _ _ _ _ E4).
  exists data, w4. rewrite (proj2 (Z.ltb_ge _ 0)), Z.eqb_refl by lia. split; [reflexivity|]. split; [congruence|]. split; [lia|exact R].
Qed.

(** The application sends events one after the other. *)
Fixpoint sendEvents (s : settings) (es : list vscpEvent) : M W (list Z) :=
  match es with
  | [] => mret []
  | e :: es => result ← sendEvent E EP HMAC useOpenSSL s e; results ← sendEvents s es; mret (result :: results)
  end.

Definition stream_ok (es : list vscpEvent) : Prop := Forall (fun e => event_ok e /\ sizeData e <= VSCP_LEVEL2_MAXDATA) es.

Lemma sendEvents_sent s es w : sendable s -> stream_ok es ->
  exists datagrams w', sendEvents s es w = Returns (replicate (length es) VSCP_ERROR_SUCCESS, w') /\ sent w' = sent w ++ datagrams /\
    Forall2 (fun e data => (length data <= bufferSize)%nat /\ forall now, read_datagram D HMAC useOpenSSL now s data = Some (Some (arrival now e))) es datagrams.
Proof using All.
  intros Hs Hes. revert w. induction Hes as [|e es [He Hm] _ IH]; intros w.
  - exists [], w. rewrite app_nil_r. repeat constructor.
  - destruct (sendEvent_sent s e w Hs He Hm) as (data & w1 & E1 & S1 & L & R). destruct (IH w1) as (ds & w2 & E2 & S2 & F).
    exists (data :: ds), w2. cbn [sendEvents]. rewrite (bind_returns _ _ _ _ _ E1), (bind_returns _ _ _ _ _ E2). split; [reflexivity|].
    split; [rewrite S2, S1, <- app_assoc; reflexivity|]. constructor; auto.
Qed.

(** What the receiver's filter lets through, with the times of arrival. *)
Definition wanted (f : vscpEventFilter) (nows : list timespec) (es : list vscpEvent) : list vscpEvent :=
  (fun p => arrival p.1 p.2) <$> filter (fun p => vscp_doLevel2Filter (Some p.2) (Some f) = true) (zip nows es).

Lemma wanted_ok f nows es : stream_ok es -> stream_ok (wanted f nows es).
Proof using Type.
  intros Hes. revert nows. induction Hes as [|e es [He Hm] _ IH]; intros [|now nows]; [constructor..|].
  unfold wanted. cbn [zip zip_with]. rewrite filter_cons. destruct (decide _); [|apply IH]. constructor; [|apply IH].
  split; [|exact Hm]. apply arrival_ok; [exact He|apply frame_of_ok, He].
Qed.

Context {V : Type} (cbev : vscpEvent -> client V -> vscpEvent * client V) (cbex : vscpEventEx -> client V -> client V).
Implicit Types c : client V.

Lemma receiveLoop_stream s es datagrams : 
  Forall2 (fun e data => (length data <= bufferSize)%nat /\ forall now, read_datagram D HMAC useOpenSSL now s data = Some (Some (arrival now e))) es datagrams ->
  stream_ok es -> forall nows c rest, length nows = length es -> same_keys (sets c) s -> m_bActiveCallbackEv c = false -> m_bActiveCallbackEx c = false ->
  receiveLoop D HMAC useOpenSSL cbev cbex (zip_with Arrived nows datagrams ++ rest) c
  = receiveLoop D HMAC useOpenSSL cbev cbex rest (foldl (fun c e => push_event e c) c (wanted (m_filter (sets c)) nows es)).
Proof using Type.
  induction 1 as [|e data es ds [_ R] _ IH]; intros Hes [|now nows] c rest Hn Hk Hb1 Hb2; try discriminate Hn; [reflexivity|].
  inversion Hes as [|? ? [He Hm] Hes']; subst. cbn [zip_with app receiveLoop]. rewrite (read_datagram_keys _ _ _ _ _ s _ Hk), R.
  cbn [mbind option_bind]. unfold deliver. rewrite arrival_filter by exact He. unfold wanted. cbn [zip zip_with]. rewrite filter_cons. cbn [snd].
  injection Hn as Hn. destruct (vscp_doLevel2Filter (Some e) (Some (m_filter (sets c)))) eqn:F.
  - rewrite decide_True by reflexivity. rewrite Hb1, Hb2. cbn [mbind option_bind negb orb fmap list_fmap foldl fst snd].
    rewrite Hb1. cbn [negb orb]. rewrite (IH Hes' nows (push_event (arrival now e) c) rest Hn Hk Hb1 Hb2). reflexivity.
  - rewrite decide_False by discriminate. cbn [mbind option_bind]. rewrite IH by assumption. reflexivity.
Qed.

Lemma pushed_queue es c : sets (foldl (fun c e => push_event e c) c es) = sets c /\
  m_receiveQueue (foldl (fun c e => push_event e c) c es) = m_receiveQueue c ++ (Some <$> es).
Proof using Type.
  revert c. induction es as [|e es IH]; intros c; [rewrite app_nil_r; auto|]. cbn [foldl]. destruct (IH (push_event e c)) as [-> ->].
  split; [reflexivity|]. cbn [push_event set_queue m_receiveQueue fmap list_fmap]. rewrite <- app_assoc. reflexivity.
Qed.

(** The application polls the client [n] times; other threads do nothing meanwhile. *)
Fixpoint receiveEvents (n : nat) c : option (list (Z * vscpEvent) * client V) :=
  match n with
  | O => Some ([], c)
  | S n =>
      '(result, event, c) ← receiveEvent (fun c => c) false 0 zero_event c;
      '(results, c) ← receiveEvents n c;
      Some ((result, event) :: results, c)
  end.

Lemma receiveEvents_queue es rest c : stream_ok es -> m_receiveQueue c = (Some <$> es) ++ rest ->
  exists c', receiveEvents (length es) c = Some ((fun e => (VSCP_ERROR_SUCCESS, norm_event e)) <$> es, c') /\ m_receiveQueue c' = rest.
Proof using Type.
  intros Hes. revert c. induction Hes as [|e es [He Hm] _ IH]; intros c Hq; [exists c; auto|]. cbn [length receiveEvents]. unfold receiveEvent, popEvent.
  cbn [andb]. rewrite Hq. cbn [fmap list_fmap app]. change (negb (VSCP_ERROR_SUCCESS =? VSCP_ERROR_SUCCESS)) with false. cbn iota.
  rewrite copyEvent_eq by (exact He || exact zero_event_ok). rewrite (proj2 (Z.leb_le _ _)) by exact Hm. cbn [mbind option_bind from_option Datatypes.id].
  destruct (IH (set_queue ((Some <$> es) ++ rest) (consumeSignal (semReady c) (m_semReceiveQueue c)) c)) as (c' & -> & Q); [reflexivity|].
  exists c'. split; [reflexivity|exact Q].
Qed.
End streams.

(** *** What a datagram must be to be accepted *)

Lemma parseHeader_inv buffer length version : bytes_ok buffer -> parseHeader buffer = Some (true, length, version) ->
  take headerSize buffer = [0x55; 32 * version + length / 256; length mod 256] /\ 0 <= length < 0x2000 /\ 0 <= version < 8.
Proof.
  intros Hb H. destruct buffer as [|a [|b [|c rest]]]; try discriminate H.
  inversion Hb as [|? ? Ha Hb1]; subst. inversion Hb1 as [|? ? Hb' Hb2]; subst. inversion Hb2 as [|? ? Hc _]; subst.
  unfold parseHeader, read16 in H. change (drop 1 (a :: b :: c :: rest)) with (b :: c :: rest) in H.
  change (rd (b :: c :: rest) 0) with (Some b) in H. change (rd (b :: c :: rest) 1) with (Some c) in H.
  change (rd (a :: b :: c :: rest) 0) with (Some a) in H. cbn [mbind option_bind] in H.
  assert (W : Z.lor (u16 (Z.shiftl b 8)) c = 256 * b + c).
  { rewrite Z.shiftl_mul_pow2, u16_id, (lor_add_disjoint 8) by width. width. }
  rewrite W in H. change 0x1fff with (Z.ones 13) in H. rewrite Z.land_ones, Z.shiftr_div_pow2 in H by lia. change (2 ^ 13) with 8192 in H.
  destruct (Z.eqb_spec a syncByte) as [-> |]; [|discriminate H]. destruct (rd _ headerSize); [|discriminate H]. cbn [mbind option_bind] in H.
  injection H as _ <- <-. unfold is_u8 in *. change (2 ^ 8) with 256 in *. split; [|dlia].
  change (take headerSize (syncByte :: b :: c :: rest)) with [syncByte; b; c].
  replace (32 * ((256 * b + c) / 8192) + (256 * b + c) mod 8192 / 256) with b by dlia.
  replace ((256 * b + c) mod 8192 mod 256) with c by dlia. reflexivity.
Qed.

Lemma datagram_header_inv s buffer frameLength : bytes_ok buffer -> datagram_header s buffer frameLength = Some true ->
  let n := frameLength - Z.of_nat headerSize in
  take headerSize buffer = [0x55; 0x20 + n / 256; n mod 256] /\ 1 <= n < 0x2000 /\
  exists lead, rd buffer headerSize = Some lead /\ Z.land lead 0x0f = m_encryptType s.
Proof.
  intros Hb H n. unfold datagram_header in H. destruct (negb (connect_check s)); [discriminate H|]. cbn [orb] in H.
  destruct (Z.ltb_spec frameLength (Z.of_nat headerSize + 1)); [discriminate H|].
  destruct (parseHeader buffer) as [[[ok len] version]|] eqn:P; [|discriminate H]. cbn [mbind option_bind] in H.
  destruct ok; [|discriminate H]. cbn [negb orb] in H. destruct (Z.eqb_spec version authenticatedVersion) as [-> |]; [|discriminate H].
  destruct (Z.eqb_spec len (frameLength - Z.of_nat headerSize)) as [-> |]; [|discriminate H]. cbn [negb orb] in H.
  destruct (parseHeader_inv _ _ _ Hb P) as (T & L & _). split; [exact T|]. split; [lia|].
  destruct (rd buffer headerSize) as [lead|]; [|discriminate H]. cbn [mbind option_bind] in H. exists lead. split; [reflexivity|].
  injection H as H. apply andb_prop in H as [_ H]. apply Z.eqb_eq, H.
Qed.

Lemma datagram_header_defined s buffer frameLength : bytes_ok buffer -> (4 <= length buffer)%nat ->
  exists b, datagram_header s buffer frameLength = Some b.
Proof.
  intros Hb L. destruct buffer as [|a [|b [|c [|d rest]]]]; cbn [length] in L; try lia.
  unfold datagram_header. destruct (_ || _); [eauto|]. unfold parseHeader, read16.
  repeat match goal with |- context [rd ?l ?n] => let x := eval cbv in (n : nat) in
    first [change (rd l n) with (Some a)|change (rd l n) with (Some b)|change (rd l n) with (Some c)|change (rd l n) with (Some d)]; cbn [mbind option_bind] end.
  destruct (a =? syncByte); cbn [mbind option_bind]; destruct (_ || _); eauto.
Qed.

Lemma received_buffer data : (length data <= bufferSize)%nat -> bytes_ok data ->
  let buffer := data ++ zeros (bufferSize + 1 - length data) in
  length buffer = 1025%nat /\ bytes_ok buffer.
Proof.
  intros L Hb. split.
  - unfold zeros. rewrite length_app, length_replicate. unfold bufferSize in *. lia.
  - apply Forall_app. split; [exact Hb|apply Forall_replicate; width].
Qed.

Lemma read_datagram_inv D HMAC useOpenSSL now s data e : read_datagram D HMAC useOpenSSL now s data = Some (Some e) ->
  (0 < length data <= bufferSize)%nat /\
  exists buffer n, open_frame D HMAC useOpenSSL s (data ++ zeros (bufferSize + 1 - length data)) (Z.of_nat (length data)) = Some (Some (buffer, n)) /\
    read_frame now s buffer n = Some (Some e).
Proof.
  intros H. assert (L : (0 < length data <= bufferSize)%nat).
  { unfold read_datagram in H. cbv zeta in H. rewrite length_take in H. destruct (Nat.eqb_spec (Nat.min (bufferSize + 1) (length data)) 0); cbn [orb] in H; [discriminate H|]. destruct (Nat.ltb_spec bufferSize (Nat.min (bufferSize + 1) (length data))); [discriminate H|]. unfold bufferSize in *. lia. }
  rewrite read_datagram_eq in H by exact L. split; [exact L|].
  destruct (open_frame _ _ _ _ _ _) as [[[buffer n]|]|]; try discriminate H. exists buffer, n. auto.
Qed.

Lemma decryptFrameV1_some D HMAC out capacity inp len key hk n :
  vscp_decryptFrameV1 D HMAC (Some out) capacity (Some inp) len (Some key) (Some hk) = Some (n, None) -> False.
Proof.
  unfold vscp_decryptFrameV1. destruct (_ || _ || _); [discriminate|].
  repeat match goal with
    | |- (mbind _ ?x) = _ -> _ => let E := fresh in destruct x as [?|] eqn:E; [clear E; cbn [mbind option_bind]|discriminate]
    | |- (match ?x with _ => _ end) = _ -> _ => let E := fresh in destruct x eqn:E; clear E; try discriminate
    end; discriminate.
Qed.

(** *** No datagram is undefined behaviour *)

Lemma rdn_two buf off a b : rd buf off = Some a -> rd buf (S off) = Some b -> rdn buf off 2 = Some [a; b].
Proof.
  unfold rd. intros Ha Hb. assert (L := lookup_lt_Some _ _ _ Hb). rewrite rdn_defined by lia.
  rewrite (drop_S _ _ _ Ha), (drop_S _ _ _ Hb). reflexivity.
Qed.

(** The plain frame goes back into the buffer. *)
Lemma put_back bs n buffer : bytes_ok bs -> bytes_ok buffer -> 0 <= n <= Z.of_nat (length bs) -> (length bs <= length buffer)%nat ->
  exists front buffer', rdn bs 0 (Z.to_nat n) = Some front /\ wr buffer 0 front = Some buffer' /\
    length buffer' = length buffer /\ bytes_ok buffer'.
Proof.
  intros Hs Hb Hn Hl. rewrite rdn_defined by lia. do 2 eexists. split; [reflexivity|].
  assert (L : length (take (Z.to_nat n) (drop 0 bs)) = Z.to_nat n) by (rewrite length_take, length_drop; lia).
  rewrite wr_front by lia. split; [reflexivity|]. split; [rewrite length_app, length_drop; lia|].
  apply Forall_app. split; [apply Forall_take, Forall_drop, Hs|apply Forall_drop, Hb].
Qed.

Lemma open_frame_defined D HMAC s buffer len : EvpBounded D -> key_ok (m_key s) -> key_ok (m_hmacKey s) ->
  bytes_ok buffer -> length buffer = 1025%nat -> 0 < len <= 1024 ->
  exists r, open_frame D HMAC false s buffer len = Some r /\
    forall b n, r = Some (b, n) -> bytes_ok b /\ length b = 1025%nat /\ 0 <= n <= 1024.
Proof.
  intros HD [Hk Bk] [Hh _] Hb L Hl. unfold open_frame, hmac_of. assert (Lz : length (zeros bufferSize) = 1024%nat) by apply length_replicate.
  assert (Bz : bytes_ok (zeros bufferSize)) by (apply Forall_replicate; width).
  revert Lz Bz. generalize (zeros bufferSize). intros z Lz Bz. destruct (m_hmacEnabled s).
  - destruct (datagram_header_defined s buffer len Hb ltac:(lia)) as (good & ->). cbn [mbind option_bind].
    destruct good; [|exists None; split; [reflexivity|discriminate]].
    assert (Bd : bytes_ok (drop headerSize buffer)) by (apply Forall_drop, Hb).
    destruct (decryptFrameV1_total D HMAC z (drop headerSize buffer) (len - Z.of_nat headerSize) (m_key s) (m_hmacKey s) HD Bd)
      as (n & out & E & Bo); [rewrite length_drop; unfold headerSize; lia|lia|].
    replace (Z.of_nat bufferSize) with (Z.of_nat (length z)) by (rewrite Lz; reflexivity). rewrite E. cbn [mbind option_bind].
    destruct (Z.eqb_spec n 0); [exists None; split; [reflexivity|discriminate]|].
    destruct (decryptFrameV1_inv _ _ _ _ _ _ _ _ _ _ E) as [[K _]|(_ & _ & _ & Hn & _ & _ & Lo & _)]; [contradiction|].
    destruct (put_back out n buffer (Bo Bz) Hb) as (front & b & X1 & X2 & X3 & X4); [lia|lia|]. cbn [from_option Datatypes.id].
    rewrite X1. cbn [mbind option_bind]. rewrite X2. eexists. split; [reflexivity|]. intros ? ? [= <- <-]. split; [exact X4|lia].
  - destruct (rd_some buffer 0 ltac:(lia) Hb) as (lead & -> & _). cbn [mbind option_bind].
    destruct (negb _); [|exists (Some (buffer, len)); split; [reflexivity|intros ? ? [= <- <-]; auto with lia]].
    destruct (Z.ltb_spec len (1 + 16 + 16)); [exists None; split; [reflexivity|discriminate]|].
    destruct (decryptFrame_cases D z buffer len (m_key s) None VSCP_ENCRYPTION_FROM_TYPE_BYTE Hb Bz) as (ok & out & E & Lo & _ & V);
      [width|lia|lia|exact Bk|lia|discriminate|]. rewrite E. cbn [mbind option_bind].
    destruct ok; [|exists None; split; [reflexivity|discriminate]]. destruct (V eq_refl) as [Bo _].
    destruct (put_back out (len - 16) buffer Bo Hb) as (front & b & X1 & X2 & X3 & X4); [lia|lia|]. cbn [from_option Datatypes.id].
    rewrite X1. cbn [mbind option_bind]. rewrite X2. eexists. split; [reflexivity|]. intros ? ? [= <- <-]. split; [exact X4|lia].
Qed.

Lemma read_frame_defined now s buffer n : bytes_ok buffer -> length buffer = 1025%nat -> 0 <= n <= 1024 ->
  match read_frame now s buffer n with
  | None => vscp_makeTimeStamp now = None
  | Some None => True
  | Some (Some e) => event_ok e /\ sizeData e <= VSCP_LEVEL2_MAXDATA
  end.
Proof.
  intros Hb L Hn. unfold read_frame. destruct (Z.ltb_spec n minimumFrameSize) as [|Hm]; [exact I|].
  change minimumFrameSize with 38 in *. destruct (rd_some buffer 34 ltac:(lia) Hb) as (hi & E1 & H1).
  destruct (rd_some buffer 35 ltac:(lia) Hb) as (lo & E2 & H2). rewrite E1, E2. cbn [mbind option_bind].
  destruct (Z.ltb_spec VSCP_LEVEL2_MAXDATA (Z.lor (Z.shiftl hi 8) lo)) as [|Hs]; [exact I|]. destruct (m_hmacEnabled s && _); [exact I|].
  rewrite (getEventFromFrame_prefix now zero_event buffer n Hb) by lia. set (frame := take (Z.to_nat n) buffer).
  assert (Lf : Z.of_nat (length frame) = n) by (unfold frame; rewrite length_take; lia).
  assert (X := getEventFromFrame_cases now zero_event frame zero_event_ok (Forall_take _ _ _ Hb)). rewrite Lf in X.
  destruct (vscp_getEventFromFrame _ _ _ _) as [[ok e]|]; cbn [mbind option_bind].
  - destruct ok; [|exact I]. destruct X as (_ & _ & e1 & -> & He & _ & R). split; [exact He|].
    assert (S : rd_be frame 34 2 = Some (Z.lor (Z.shiftl hi 8) lo)); [|congruence].
    unfold frame, rd_be. rewrite rdn_take by lia. rewrite (rdn_two buffer 34 hi lo E1 E2). cbn [fmap option_fmap option_map]. f_equal.
    unfold of_be. cbn [foldl]. rewrite Z.shiftl_mul_pow2, (lor_add_disjoint 8) by width. width.
  - destruct X as [X|(_ & _ & _ & X)]; [lia|exact X].
Qed.

(** C20: Events cross the network unchanged and in order.  Whatever the
    encryption and authentication that both clients are configured with, every
    call of send for well-formed events returns success; and when the datagrams
    arrive in the order in which they were sent, a receiving client without
    callbacks and with an empty queue then gives exactly the events that its
    filter accepts, in order, with class, type, GUID and data as they were, the
    time (or the time of arrival), and then reports that the queue is empty. *)
Theorem events_delivered {V W} `{DatagramSocket W} (sent : W -> list (list Z)) E D EP HMAC useOpenSSL s es w nows (c : client V) cbev cbex :
  EvpLaws E D -> HmacLaws HMAC -> Network W sent -> sendable s -> stream_ok es -> length nows = length es ->
  same_keys (sets c) s -> m_bActiveCallbackEv c = false -> m_bActiveCallbackEx c = false -> m_receiveQueue c = [] ->
  let events := wanted (m_filter (sets c)) nows es in
  exists datagrams w' c1 c2,
    sendEvents E EP HMAC useOpenSSL s es w = Returns (replicate (length es) VSCP_ERROR_SUCCESS, w') /\
    sent w' = sent w ++ datagrams /\
    receiveLoop D HMAC useOpenSSL cbev cbex (zip_with Arrived nows datagrams) c = Some c1 /\
    receiveEvents (length events) c1 = Some ((fun e => (VSCP_ERROR_SUCCESS, norm_event e)) <$> events, c2) /\
    receiveEvent (fun c => c) false 0 zero_event c2 = Some (VSCP_ERROR_FIFO_EMPTY, zero_event, c2).
Proof.
  intros HE HH HN Hs Hes Hn Hk H1 H2 Hq events.
  destruct (sendEvents_sent E D EP HMAC useOpenSSL HE HH sent s es w Hs Hes) as (ds & w' & X1 & X2 & F).
  assert (L := receiveLoop_stream D HMAC useOpenSSL cbev cbex s es ds F Hes nows c [] Hn Hk H1 H2). rewrite app_nil_r in L.
  fold events in L. destruct (pushed_queue events c) as [_ Q]. rewrite Hq in Q. cbn [app] in Q.
  set (c1 := foldl (fun c e => push_event e c) c events) in *.
  destruct (receiveEvents_queue events [] (set_flags false false c1)) as (c2 & R & Q2);
    [apply wanted_ok, Hes|rewrite app_nil_r; exact Q|].
  exists ds, w', (set_flags false false c1), c2. split; [exact X1|]. split; [exact X2|]. split; [exact L|]. split; [exact R|].
  unfold receiveEvent, popEvent. cbn [andb]. rewrite Q2. reflexivity.
Qed.

(** A network that records what is sent. *)
#[export] Instance own_socket : DatagramSocket (list (list Z)) := {
  is_connected w := (true, w);
  iv_bytes w := (replicate 16 5, w);
  sendto bytes w := (Z.of_nat (length bytes), w ++ [bytes])
}.

Lemma own_network : Network (list (list Z)) (fun w => w).
Proof.
  constructor; intros.
  - eexists. split; reflexivity.
  - do 2 eexists. split; [reflexivity|]. split; [split; [reflexivity|by_decide]|reflexivity].
  - eexists. split; reflexivity.
Qed.

Lemma sample_sendable : sendable sample_settings.
Proof. destruct sample_settings_ok. constructor; [vm_compute; split; congruence|split; [reflexivity|by_decide]|split; [reflexivity|by_decide]|vm_compute; reflexivity]. Qed.

Definition sample_client : client unit := Client sample_settings [] 0 true true true false false tt.

Lemma events_delivered_witness : exists datagrams w' c1 c2,
  sendEvents own_encrypt own_encrypt_pad own_digest false sample_settings [sample_event] [] = Returns ([VSCP_ERROR_SUCCESS], w') /\
  w' = [] ++ datagrams /\
  receiveLoop own_decrypt own_digest false (fun e c => (e, c)) (fun _ c => c) (zip_with Arrived [Timespec 100 0] datagrams) sample_client = Some c1 /\
  receiveEvents (length (wanted sample_filter [Timespec 100 0] [sample_event])) c1
    = Some ((fun e => (VSCP_ERROR_SUCCESS, norm_event e)) <$> wanted sample_filter [Timespec 100 0] [sample_event], c2) /\
  receiveEvent (fun c => c) false 0 zero_event c2 = Some (VSCP_ERROR_FIFO_EMPTY, zero_event, c2).
Proof.
  apply (events_delivered (fun w => w) own_encrypt own_decrypt own_encrypt_pad own_digest false sample_settings [sample_event] []
    [Timespec 100 0] sample_client (fun e c => (e, c)) (fun _ c => c)).
  - exact own_cipher.
  - exact own_hmac.
  - exact own_network.
  - exact sample_sendable.
  - constructor; [split; [exact sample_event_ok|vm_compute; congruence]|constructor].
  - reflexivity.
  - repeat split.
  - reflexivity.
  - reflexivity.
  - reflexivity.
Defined.

(** C21: With authentication, an event that the worker thread accepts comes from a
    datagram that is a header with its own length followed by a frame of that
    length, whose last 16 bytes are the first half of the HMAC, under the
    configured key, of all bytes before them; and the algorithm it names is the
    configured one. *)
Theorem datagram_authentic D HMAC useOpenSSL now s data e :
  bytes_ok data -> m_hmacEnabled s = true -> read_datagram D HMAC useOpenSSL now s data = Some (Some e) ->
  exists n digest, Z.of_nat n < 0x2000 /\ length data = (headerSize + n)%nat /\
    take headerSize data = [0x55; 0x20 + Z.of_nat n / 256; Z.of_nat n mod 256] /\
    HMAC (take 32 (m_hmacKey s)) (take (length data - 16) data) = Some digest /\
    drop (length data - 16) data = take 16 digest /\
    (exists lead, data !! headerSize = Some lead /\ Z.land lead 0x0f = m_encryptType s).
Proof.
  intros Hb Hh H. destruct (read_datagram_inv _ _ _ _ _ _ _ H) as (L & buffer & k & O & R).
  destruct (received_buffer data ltac:(lia) Hb) as [Lb Bb]. clear H R. revert Lb Bb O.
  generalize (zeros (bufferSize + 1 - length data)). intros z _ Bb O. unfold open_frame, hmac_of in O. rewrite Hh in O.
  destruct (datagram_header s (data ++ z) (Z.of_nat (length data))) as [[]|] eqn:G; try discriminate O. cbn [mbind option_bind] in O.
  destruct (datagram_header_inv _ _ _ Bb G) as (T & Ln & lead & Rl & Tl). set (n := Z.of_nat (length data) - Z.of_nat headerSize) in *.
  destruct (vscp_decryptFrameV1 _ _ _ _ _ _ _ _) as [[m [out|]]|] eqn:V; [|exfalso; exact (decryptFrameV1_some _ _ _ _ _ _ _ _ _ V)|discriminate O].
  cbn [mbind option_bind] in O. destruct (Z.eqb_spec m 0) as [|Hm]; [discriminate O|].
  destruct (decryptFrameV1_inv _ _ _ _ _ _ _ _ _ _ V) as [[K _]|(digest & Hd & Rt & Hn & Hs & _)]; [contradiction|].
  assert (En : n = Z.of_nat (length data) - 3) by reflexivity.
  assert (E3 : take 3 (data ++ z) = take 3 data) by (apply take_app_le; lia).
  assert (D3 : drop headerSize (data ++ z) = drop 3 data ++ z) by (apply drop_app_le; unfold headerSize; lia).
  assert (L3 : length (drop 3 data) = Z.to_nat n) by (rewrite length_drop; lia).
  assert (Q : (Z.to_nat (n - 16) = length data - 19)%nat) by lia.
  rewrite D3 in Hd, Rt. rewrite take_app_le, Q in Hd by lia. unfold headerSize in T. rewrite E3 in T.
  exists (Z.to_nat n), digest. rewrite Z2Nat.id by lia. split; [lia|]. split; [unfold headerSize; lia|]. split; [exact T|].
  split; [|split].
  - rewrite <- T in Hd. rewrite <- Hd. f_equal. replace (length data - 16)%nat with (3 + (length data - 19))%nat by lia. symmetry. apply take_take_drop.
  - rewrite rdn_defined in Rt by (rewrite length_app; lia). injection Rt as Rt. rewrite <- Rt, drop_app_le, Q by lia.
    rewrite drop_drop, take_app_le by (rewrite length_drop; lia). rewrite take_ge by (rewrite length_drop; lia). f_equal. lia.
  - exists lead. split; [|exact Tl]. unfold rd in Rl. rewrite lookup_app_l in Rl by (unfold headerSize; lia). exact Rl.
Qed.

Definition sample_datagram (s : settings) : list Z :=
  match wire_frame own_encrypt own_encrypt_pad own_digest false (replicate 16 5) s sample_event with Some (inr data) => data | _ => [] end.

Lemma datagram_authentic_witness : exists n digest, Z.of_nat n < 0x2000 /\ length (sample_datagram sample_settings) = (headerSize + n)%nat /\
  take headerSize (sample_datagram sample_settings) = [0x55; 0x20 + Z.of_nat n / 256; Z.of_nat n mod 256] /\
  own_digest (take 32 (m_hmacKey sample_settings)) (take (length (sample_datagram sample_settings) - 16) (sample_datagram sample_settings)) = Some digest /\
  drop (length (sample_datagram sample_settings) - 16) (sample_datagram sample_settings) = take 16 digest /\
  (exists lead, sample_datagram sample_settings !! headerSize = Some lead /\ Z.land lead 0x0f = m_encryptType sample_settings).
Proof.
  eapply (datagram_authentic own_decrypt own_digest false (Timespec 100 0) sample_settings (sample_datagram sample_settings)).
  - by_decide.
  - reflexivity.
  - vm_compute. reflexivity.
Defined.

(** C22: Whatever bytes a datagram has, the worker thread reads it without
    undefined behaviour (with the cipher of the library itself when the datagram
    is not authenticated), the one exception being a frame without a time that
    arrives when the clock is outside the range of vscp_makeTimeStamp; an event
    that it takes is well-formed and has at most 512 bytes of data. *)
Theorem read_datagram_defined D HMAC now s data :
  EvpBounded D -> bytes_ok data -> key_ok (m_key s) -> key_ok (m_hmacKey s) ->
  match read_datagram D HMAC false now s data with
  | None => vscp_makeTimeStamp now = None
  | Some None => True
  | Some (Some e) => event_ok e /\ sizeData e <= VSCP_LEVEL2_MAXDATA
  end.
Proof.
  intros HD Hb Hk Hh. destruct (decide (0 < length data <= bufferSize)%nat) as [L|L].
  - destruct (received_buffer data ltac:(lia) Hb) as [Lb Bb]. rewrite read_datagram_eq by exact L.
    destruct (open_frame_defined D HMAC s _ (Z.of_nat (length data)) HD Hk Hh Bb Lb ltac:(unfold bufferSize in L; lia)) as (r & -> & R).
    cbn [mbind option_bind]. destruct r as [[buffer n]|]; [|exact I]. destruct (R buffer n eq_refl) as (B1 & B2 & B3).
    apply read_frame_defined; assumption || lia.
  - unfold read_datagram. cbv zeta. rewrite length_take. destruct (_ || _) eqn:G; [exact I|]. apply orb_false_iff in G as [G1 G2].
    apply Nat.eqb_neq in G1. apply Nat.ltb_ge in G2. unfold bufferSize in *. lia.
Qed.

Lemma read_datagram_defined_witness :
  match read_datagram (fun _ _ _ _ => (true, [], 0)) own_digest false (Timespec 100 0) sample_settings (sample_datagram sample_settings) with
  | None => vscp_makeTimeStamp (Timespec 100 0) = None
  | Some None => True
  | Some (Some e) => event_ok e /\ sizeData e <= VSCP_LEVEL2_MAXDATA
  end.
Proof.
  apply (read_datagram_defined (fun _ _ _ _ => (true, [], 0)) own_digest (Timespec 100 0) sample_settings (sample_datagram sample_settings)).
  - intros c k iv x. split; [apply Nat.le_0_l|constructor].
  - by_decide.
  - apply sample_sendable.
  - apply sample_sendable.
Defined.
