(* ===== verification/Lifecycle.v ===== *)
(** * Connecting and disconnecting: vscp-client-udp.cpp, vscp-client-multicast.cpp

    connect and disconnect may be called by any thread, the worker thread in a
    callback included.  m_lifecycleMutex is held from the start of a call to its
    end, but for the waits for m_lifecycleCondition and the join of the old worker:
    a call is a sequence of atomic segments between these.  [step] is the relation
    of all interleavings of the segments of any number of threads with the steps of
    the workers. *)

From stdpp Require Import relations.
From S2P Require Import Prelude Frame.

Definition VSCP_ERROR_OPERATION_FAILED : Z := 42.

(** ** The state *)

(** Members of the object; m_pworkerthread is the id of the thread.  [sockets] are
    the sockets that are open, [strays] what was closed without being one of them. *)
Record object := Object {
  m_connected : bool; m_bRun : bool; m_joining : bool;
  m_pworkerthread : option nat;
  m_socketOpen : bool; m_sock : Z;
  sockets : list Z; strays : list Z
}.

Definition set_connected b s := Object b (m_bRun s) (m_joining s) (m_pworkerthread s) (m_socketOpen s) (m_sock s) (sockets s) (strays s).
Definition set_run b s := Object (m_connected s) b (m_joining s) (m_pworkerthread s) (m_socketOpen s) (m_sock s) (sockets s) (strays s).
Definition set_joining b s := Object (m_connected s) (m_bRun s) b (m_pworkerthread s) (m_socketOpen s) (m_sock s) (sockets s) (strays s).
Definition set_worker w s := Object (m_connected s) (m_bRun s) (m_joining s) w (m_socketOpen s) (m_sock s) (sockets s) (strays s).

(** closeSocket. *)
Definition closeSocket (sock : Z) s : object :=
  if bool_decide (sock ∈ sockets s)
  then Object (m_connected s) (m_bRun s) (m_joining s) (m_pworkerthread s) (m_socketOpen s) (m_sock s) (filter (.≠ sock) (sockets s)) (strays s)
  else Object (m_connected s) (m_bRun s) (m_joining s) (m_pworkerthread s) (m_socketOpen s) (m_sock s) (sockets s) (strays s ++ [sock]).

Definition no_socket s : object :=
  Object (m_connected s) (m_bRun s) (m_joining s) (m_pworkerthread s) false 0 (sockets s) (strays s).

Definition closeClientSocket s : object :=
  if m_socketOpen s then no_socket (closeSocket (m_sock s) s) else s.

(** What the calls of connect after the waiting find: settings that are refused,
    an error of openSocket, a socket and then the id of the new thread, or the
    error of its exception. *)
Inductive opening :=
  | Refused
  | OpenFails (error : Z)
  | Opens (sock : Z) (started : Z + nat).

(** A segment ends with the result of the call, a wait, or a join. *)
Inductive after := Return (result : Z) | Wait | Join (worker : nat).

Definition open_part (o : opening) s : after * object :=
  match o with
  | Refused => (Return VSCP_ERROR_PARAMETER, s)
  | OpenFails error => (Return error, s)
  | Opens sock started =>
      let s := Object true true (m_joining s) (m_pworkerthread s) true sock (sock :: sockets s) (strays s) in
      match started with
      | inr w => (Return VSCP_ERROR_SUCCESS, set_worker (Some w) s)
      | inl error => (Return error, closeClientSocket (set_run false (set_connected false s)))
      end
  end.

(** [t] is the calling thread. *)
Definition is_worker (t : nat) s : bool := bool_decide (m_pworkerthread s = Some t).

(** From the loop over m_joining, at its test. *)
Definition connect_loop (t : nat) (o : opening) s : after * object :=
  if m_joining s then
    if is_worker t s then (Return VSCP_ERROR_OPERATION_FAILED, s) else (Wait, s)
  else
    match m_pworkerthread s with
    | Some w =>
        if is_worker t s then (Return VSCP_ERROR_OPERATION_FAILED, s)
        else (Join w, set_joining true (set_run false s))
    | None => open_part o s
    end.

(** The first segment, and the one after a wait: both test m_connected first. *)
Definition connect (t : nat) (o : opening) s : after * object :=
  if m_connected s then (Return VSCP_ERROR_SUCCESS, s) else connect_loop t o s.

(** After the join. *)
Definition drop_worker s : object := set_joining false (closeClientSocket (set_worker None s)).
Definition connect_joined (o : opening) s : after * object := open_part o (drop_worker s).

Definition disconnect_loop s : after * object :=
  if m_joining s then (Wait, s)
  else
    let s := set_run false (set_connected false s) in
    match m_pworkerthread s with
    | Some w => (Join w, set_joining true s)
    | None => (Return VSCP_ERROR_SUCCESS, closeClientSocket s)
    end.

Definition disconnect (t : nat) s : after * object :=
  if is_worker t s
  then (Return VSCP_ERROR_SUCCESS, closeClientSocket (set_run false (set_connected false s)))
  else disconnect_loop s.

Definition disconnect_joined s : after * object := (Return VSCP_ERROR_SUCCESS, drop_worker s).

(** ** The threads *)

Inductive method := Connect | Disconnect.

(** Where a thread is in a call. *)
Inductive phase := Outside | Waiting (m : method) | Joining (m : method) (w : nat).

(** What a thread is.  The worker in [receiveLoop] is at the test of the loop, has
    waited for a datagram, or handles one, with its callbacks; after a failed wait it
    has to clear m_bRun; when it leaves it clears m_connected; then it can be
    joined. *)
Inductive role := Application | Unborn | Looping | Waited | Handling | Failed | Left | Ended.

Record config := Config { obj : object; phases : nat -> phase; roles : nat -> role }.

Definition upd {A} (f : nat -> A) (i : nat) (a : A) : nat -> A := fun j => if decide (i = j) then a else f j.

(** A segment of [t] in phase [p]; [None] if it is not one. *)
Definition segment (t : nat) (m : method) (o : opening) (p : phase) s : after * object :=
  match p, m with
  | Outside, Connect | Waiting _, Connect => connect t o s
  | Joining _ _, Connect => connect_joined o s
  | Outside, Disconnect => disconnect t s
  | Waiting _, Disconnect => disconnect_loop s
  | Joining _ _, Disconnect => disconnect_joined s
  end.

Definition next_phase (m : method) (a : after) : phase :=
  match a with Return _ => Outside | Wait => Waiting m | Join w => Joining m w end.

(** The roles after a segment: the worker that it starts is running. *)
Definition start_worker (old new : object) (roles : nat -> role) : nat -> role :=
  match m_pworkerthread new with
  | Some w => if bool_decide (m_pworkerthread old = Some w) then roles else upd roles w Looping
  | None => roles
  end.

Definition run (t : nat) (m : method) (o : opening) (c : config) : config :=
  let '(a, s) := segment t m o (phases c t) (obj c) in
  Config s (upd (phases c) t (next_phase m a)) (start_worker (obj c) s (roles c)).

(** A thread may start a call when it is in none; a wait may end at any time, a
    join when the worker has ended.  New threads and sockets are new. *)
Definition may_run (t : nat) (m : method) (o : opening) (c : config) : Prop :=
  (roles c t = Application \/ roles c t = Handling) /\
  match phases c t with
  | Outside => True
  | Waiting m' => m' = m
  | Joining m' w => m' = m /\ roles c w = Ended
  end /\
  match o with
  | Opens sock started => (sock ∉ sockets (obj c)) /\ match started with inr w => roles c w = Unborn | inl _ => True end
  | _ => True
  end.

(** The steps of the worker; those with [true] are faults of the environment: the
    wait fails, or memory is short. *)
Inductive worker_step (w : nat) : bool -> config -> config -> Prop :=
  | loop_stops s p r : r w = Looping -> m_bRun s = false -> worker_step w false (Config s p r) (Config s p (upd r w Left))
  | loop_goes s p r : r w = Looping -> m_bRun s = true -> worker_step w false (Config s p r) (Config s p (upd r w Waited))
  | wait_stops s p r : r w = Waited -> m_bRun s = false -> worker_step w false (Config s p r) (Config s p (upd r w Left))
  | wait_fails s p r : r w = Waited -> m_bRun s = true -> worker_step w true (Config s p r) (Config (set_connected false s) p (upd r w Failed))
  | wait_empty s p r : r w = Waited -> m_bRun s = true -> worker_step w false (Config s p r) (Config s p (upd r w Looping))
  | wait_datagram s p r : r w = Waited -> m_bRun s = true -> worker_step w false (Config s p r) (Config s p (upd r w Handling))
  | handled s p r : r w = Handling -> p w = Outside -> worker_step w false (Config s p r) (Config s p (upd r w Looping))
  | no_memory s p r : r w = Handling -> p w = Outside -> worker_step w true (Config s p r) (Config (set_run false s) p (upd r w Left))
  | failed s p r : r w = Failed -> worker_step w false (Config s p r) (Config (set_run false s) p (upd r w Left))
  | worker_ends s p r : r w = Left -> worker_step w false (Config s p r) (Config (set_connected false s) p (upd r w Ended)).

Inductive step : config -> config -> Prop :=
  | call_step t m o c : may_run t m o c -> step c (run t m o c)
  | of_worker w fault c c' : worker_step w fault c c' -> step c c'.

(** The constructors of the two classes differ in m_bRun. *)
Definition initial (c : config) : Prop :=
  (exists run, obj c = Object false run false None false 0 [] []) /\
  forall t, phases c t = Outside /\ (roles c t = Application \/ roles c t = Unborn).

Definition reachable (c : config) : Prop := exists c0, initial c0 /\ rtc step c0 c.

(** ** The invariant *)

(** The worker has not ended. *)
Definition runs (r : role) : bool := match r with Looping | Waited | Handling | Failed | Left => true | _ => false end.
Definition alive (r : role) : Prop := runs r = true.

(** It does so without having failed. *)
Definition sound (r : role) : Prop := alive r /\ r <> Failed.

Record Inv (c : config) : Prop := {
  inv_live w : alive (roles c w) -> m_pworkerthread (obj c) = Some w;
  inv_worker w : m_pworkerthread (obj c) = Some w -> alive (roles c w) \/ roles c w = Ended;
  inv_calls t : phases c t <> Outside -> roles c t = Application;
  inv_join t m w : phases c t = Joining m w -> m_joining (obj c) = true /\ m_pworkerthread (obj c) = Some w;
  inv_joining : m_joining (obj c) = true -> (exists t m w, phases c t = Joining m w) /\ m_connected (obj c) = false /\ m_bRun (obj c) = false;
  inv_unique t m w t' m' w' : phases c t = Joining m w -> phases c t' = Joining m' w' -> t = t';
  inv_connected : m_connected (obj c) = true -> m_socketOpen (obj c) = true /\
    exists w, m_pworkerthread (obj c) = Some w /\ sound (roles c w);
  inv_sockets : sockets (obj c) = if m_socketOpen (obj c) then [m_sock (obj c)] else [];
  inv_owner : m_socketOpen (obj c) = true -> m_pworkerthread (obj c) <> None;
  inv_strays : strays (obj c) = []
}.

Lemma upd_eq {A} (f : nat -> A) i a : upd f i a i = a.
Proof. unfold upd. rewrite decide_True by reflexivity. reflexivity. Qed.

Lemma upd_ne {A} (f : nat -> A) i j a : i <> j -> upd f i a j = f j.
Proof. intros H. unfold upd. rewrite decide_False by exact H. reflexivity. Qed.

(** Goes through the threads that an update concerns. *)
Ltac threads :=
  unfold upd in *; repeat match goal with
    | H : context [decide (?i = ?j)] |- _ => destruct (decide (i = j)); subst
    | |- context [decide (?i = ?j)] => destruct (decide (i = j)); subst
    end.

Lemma initial_inv c : initial c -> Inv c.
Proof.
  intros [[b E] H]. assert (P := fun t => proj1 (H t)). assert (R := fun t => proj2 (H t)).
  constructor; rewrite ?E; cbn; try congruence; intros w A.
  unfold alive in A. destruct (R w) as [Q|Q]; rewrite Q in A; discriminate A.
Qed.

Lemma closed s : sockets s = (if m_socketOpen s then [m_sock s] else []) ->
  m_socketOpen (closeClientSocket s) = false /\ sockets (closeClientSocket s) = [] /\ strays (closeClientSocket s) = strays s.
Proof.
  intros H. unfold closeClientSocket, closeSocket. destruct (m_socketOpen s) eqn:E; [|auto]. rewrite H.
  rewrite bool_decide_true by left. cbn. rewrite decide_False by (intros N; apply N; reflexivity). auto.
Qed.

Lemma close_keeps s : m_connected (closeClientSocket s) = m_connected s /\ m_bRun (closeClientSocket s) = m_bRun s /\
  m_joining (closeClientSocket s) = m_joining s /\ m_pworkerthread (closeClientSocket s) = m_pworkerthread s.
Proof. unfold closeClientSocket, closeSocket. destruct (m_socketOpen s); [case_bool_decide|]; repeat split. Qed.

(** *** What a segment does *)

(** A thread that is in no join waits or returns. *)
Lemma quiet_inv s p r t ph : Inv (Config s p r) -> (forall m w, p t <> Joining m w) -> (forall m w, ph <> Joining m w) ->
  (ph = Outside \/ r t = Application) -> Inv (Config s (upd p t ph) r).
Proof.
  intros [I1 I2 I3 I4 I5 I6 I7 I8 I9 I10] Hp Hn Hr. constructor; cbn in *; auto.
  - intros t'. threads; [|apply I3]. destruct Hr; [congruence|auto].
  - intros t' m w. threads; [intros X; destruct (Hn m w X)|apply I4].
  - intros J. destruct (I5 J) as [(t' & m & w & X) Y]. split; [|exact Y]. exists t', m, w. threads; [destruct (Hp m w X)|exact X].
  - intros t1 m1 w1 t2 m2 w2. threads; try reflexivity; intros X Y; try (destruct (Hn _ _ X)); try (destruct (Hn _ _ Y)). eapply I6; eauto.
Qed.

(** The worker is told to stop. *)
Lemma stop_inv s p r : Inv (Config s p r) -> Inv (Config (closeClientSocket (set_run false (set_connected false s))) p r).
Proof.
  intros [I1 I2 I3 I4 I5 I6 I7 I8 I9 I10]. cbn in *. set (s' := set_run false (set_connected false s)).
  destruct (closed s' I8) as (C1 & C2 & C3). destruct (close_keeps s') as (K1 & K2 & K3 & K4).
  constructor; cbn; rewrite ?C1, ?C2, ?C3, ?K1, ?K2, ?K3, ?K4; cbn; auto; try discriminate. intros J. destruct (I5 J) as [X _]. auto.
Qed.

(** A thread starts to join the worker. *)
Lemma join_inv s p r t m w : Inv (Config s p r) -> r t = Application -> m_joining s = false -> m_connected s = false ->
  m_pworkerthread s = Some w -> Inv (Config (set_joining true (set_run false s)) (upd p t (Joining m w)) r).
Proof.
  intros [I1 I2 I3 I4 I5 I6 I7 I8 I9 I10] Hr Hj Hc Hw. cbn in *.
  assert (N : forall t m w, p t <> Joining m w) by (intros t' m' w' X; destruct (I4 _ _ _ X); congruence).
  constructor; cbn; auto; try congruence.
  - intros t'. threads; auto.
  - intros t' m' w'. threads; [intros [= <- <-]; auto|intros X; destruct (N _ _ _ X)].
  - intros _. split; [|auto]. exists t, m, w. apply upd_eq.
  - intros t1 m1 w1 t2 m2 w2. threads; try reflexivity; intros X Y; try (destruct (N _ _ _ X)); try (destruct (N _ _ _ Y)).
Qed.

(** The joined worker is dropped. *)
Lemma drop_inv s p r t m w : Inv (Config s p r) -> p t = Joining m w -> r w = Ended ->
  Inv (Config (drop_worker s) (upd p t Outside) r) /\ m_pworkerthread (drop_worker s) = None /\ m_connected (drop_worker s) = false /\
  sockets (drop_worker s) = [].
Proof.
  intros [I1 I2 I3 I4 I5 I6 I7 I8 I9 I10] Ht Hw. cbn in *. destruct (I4 _ _ _ Ht) as [J W]. destruct (I5 J) as (_ & C & _).
  destruct (closed (set_worker None s) I8) as (C1 & C2 & C3). destruct (close_keeps (set_worker None s)) as (K1 & K2 & K3 & K4).
  unfold drop_worker. split; [|cbn; rewrite K1, K4; cbn; auto].
  constructor; cbn; rewrite ?C1, ?C2, ?C3, ?K1, ?K2, ?K3, ?K4; cbn; auto; try congruence.
  - intros w' A. assert (E := I1 _ A). rewrite W in E. injection E as ->. unfold alive in A. rewrite Hw in A. discriminate A.
  - intros t'. threads; [congruence|apply I3].
  - intros t' m' w'. threads; [discriminate|]. intros X. destruct n. exact (I6 _ _ _ _ _ _ Ht X).
  - intros t1 m1 w1 t2 m2 w2. threads; try discriminate. apply I6.
Qed.

(** A new socket and a new worker. *)
Lemma open_inv s p r sock w : Inv (Config s p r) -> m_pworkerthread s = None -> r w = Unborn ->
  Inv (Config (Object true true (m_joining s) (Some w) true sock (sock :: sockets s) (strays s)) p (upd r w Looping)).
Proof.
  intros [I1 I2 I3 I4 I5 I6 I7 I8 I9 I10] Hw Hr. cbn in *.
  assert (N : forall t m w, p t <> Joining m w) by (intros t m' w' X; destruct (I4 _ _ _ X); congruence).
  assert (J : m_joining s = false) by (destruct (m_joining s); [destruct (I5 eq_refl) as [(t & m & w' & X) _]; destruct (N _ _ _ X)|reflexivity]).
  assert (O : m_socketOpen s = false) by (destruct (m_socketOpen s); [destruct (I9 eq_refl Hw)|reflexivity]).
  constructor; cbn; rewrite ?J; auto; try congruence.
  - intros w'. threads; [reflexivity|]. intros A. assert (X := I1 _ A). congruence.
  - intros w' [= <-]. rewrite upd_eq. left. reflexivity.
  - intros t X. threads; [rewrite (I3 _ X) in Hr; discriminate|apply I3, X].
  - intros t m w' X. destruct (N _ _ _ X).
  - intros _. split; [reflexivity|]. exists w. rewrite upd_eq. split; [reflexivity|]. split; [reflexivity|discriminate].
  - rewrite I8, O. reflexivity.
Qed.

(** *** Every step keeps it *)

Lemma start_same s s' r : m_pworkerthread s' = m_pworkerthread s \/ m_pworkerthread s' = None -> start_worker s s' r = r.
Proof.
  unfold start_worker. intros [-> | ->]; [|reflexivity]. destruct (m_pworkerthread s); [|reflexivity].
  rewrite bool_decide_true by reflexivity. reflexivity.
Qed.

(** The thread could not be started, and the socket was closed again. *)
Lemma idle_inv s p r : Inv (Config s p r) -> m_pworkerthread s = None -> Inv (Config (Object false false (m_joining s) None false 0 [] []) p r).
Proof.
  intros [I1 I2 I3 I4 I5 I6 I7 I8 I9 I10] Hw. cbn in *.
  constructor; cbn; auto; try discriminate.
  - intros w A. assert (X := I1 _ A). congruence.
  - intros t m w X. destruct (I4 _ _ _ X). congruence.
  - intros J. destruct (I5 J) as [X _]. auto.
Qed.

(** Only the values of the functions matter. *)
Lemma inv_ext s p p' r : (forall t, p t = p' t) -> Inv (Config s p r) -> Inv (Config s p' r).
Proof.
  intros E [I1 I2 I3 I4 I5 I6 I7 I8 I9 I10]. constructor; cbn in *; auto; intros *; rewrite <- ?E; eauto.
  intros J. destruct (I5 J) as [(t & m & w & X) Y]. split; [|exact Y]. exists t, m, w. rewrite <- E. exact X.
Qed.

(** What comes after there is no worker any more; [old] is the object before. *)
Lemma open_part_inv old s p r t m o : Inv (Config s p r) -> m_pworkerthread s = None -> p t = Outside \/ (exists m', p t = Waiting m') ->
  match o with Opens _ (inr w) => r w = Unborn /\ m_pworkerthread old <> Some w | _ => True end ->
  Inv (let '(a, s') := open_part o s in Config s' (upd p t (next_phase m a)) (start_worker old s' r)).
Proof.
  intros I Hw Hp Ho. assert (N : forall m w, p t <> Joining m w) by (intros m' w; destruct Hp as [Hp|[m'' Hp]]; congruence).
  assert (Q : forall s' r', Inv (Config s' p r') -> Inv (Config s' (upd p t Outside) r')) by (intros; apply quiet_inv; auto; discriminate).
  destruct o as [|e|sock [e|w]]; cbn -[filter].
  - rewrite start_same by auto. apply Q, I.
  - rewrite start_same by auto. apply Q, I.
  - assert (C := inv_sockets _ I). assert (C2 := inv_strays _ I). cbn in C, C2. destruct (m_socketOpen s) eqn:O; [destruct (inv_owner _ I O Hw)|].
    unfold closeClientSocket, closeSocket. cbn -[filter bool_decide]. rewrite C, C2, bool_decide_true by left.
    cbn [filter list_filter]. rewrite decide_False by (intros X; apply X; reflexivity). rewrite Hw. unfold start_worker. cbn. apply Q.
    exact (idle_inv s p r I Hw).
  - destruct Ho as [U D]. unfold start_worker. cbn. rewrite bool_decide_false by exact D. apply Q. exact (open_inv s p r sock w I Hw U).
Qed.

Lemma application s p r t : Inv (Config s p r) -> r t = Application \/ r t = Handling -> is_worker t s = false -> r t = Application.
Proof.
  intros I [R|R] W; [exact R|]. assert (X := inv_live _ I t). unfold alive in X. cbn in X. rewrite R in X. specialize (X eq_refl). unfold is_worker in W.
  rewrite X, bool_decide_true in W by reflexivity. discriminate W.
Qed.

Section call.
Context (s : object) (p : nat -> phase) (r : nat -> role) (t : nat) (I : Inv (Config s p r)) (Ht : r t = Application \/ r t = Handling)
  (Hp : p t = Outside \/ exists m, p t = Waiting m).

Lemma no_join m w : p t <> Joining m w.
Proof using Hp. destruct Hp as [X|[m' X]]; congruence. Qed.

Lemma returns_inv res m : Inv (Config s (upd p t (next_phase m (Return res))) (start_worker s s r)).
Proof using All. rewrite start_same by auto. apply quiet_inv; [exact I|exact no_join|discriminate|auto]. Qed.

Lemma waits_inv m : r t = Application -> Inv (Config s (upd p t (next_phase m Wait)) (start_worker s s r)).
Proof using I Hp. intros A. rewrite start_same by auto. apply quiet_inv; [exact I|exact no_join|discriminate|auto]. Qed.

Lemma connect_inv o : match o with Opens _ (inr w) => r w = Unborn | _ => True end ->
  Inv (let '(a, s') := connect t o s in Config s' (upd p t (next_phase Connect a)) (start_worker s s' r)).
Proof using All.
  intros Ho. unfold connect. destruct (m_connected s) eqn:C; [apply returns_inv|]. unfold connect_loop.
  destruct (m_joining s) eqn:J; [destruct (is_worker t s) eqn:W; [apply returns_inv|apply waits_inv; exact (application _ _ _ _ I Ht W)]|].
  destruct (m_pworkerthread s) as [w|] eqn:E.
  - destruct (is_worker t s) eqn:W; [apply returns_inv|]. rewrite start_same by auto.
    apply join_inv; try assumption. exact (application _ _ _ _ I Ht W).
  - apply open_part_inv; try assumption. destruct o as [|e|sock [e|w]]; auto. split; [exact Ho|congruence].
Qed.

Lemma disconnect_loop_inv : r t = Application ->
  Inv (let '(a, s') := disconnect_loop s in Config s' (upd p t (next_phase Disconnect a)) (start_worker s s' r)).
Proof using All.
  intros A. unfold disconnect_loop. destruct (m_joining s) eqn:J; [apply waits_inv, A|].
  destruct (close_keeps (set_run false (set_connected false s))) as (_ & _ & K3 & K4). cbn [set_run set_connected m_pworkerthread].
  destruct (m_pworkerthread s) as [w|] eqn:E; rewrite start_same.
  - assert (X : Inv (Config (set_connected false s) p r)).
    { destruct I as [I1 I2 I3 I4 I5 I6 I7 I8 I9 I10]. constructor; cbn in *; auto; try discriminate. intros X. destruct (I5 X) as [Y _]. congruence. }
    apply (join_inv (set_connected false s) p r t Disconnect w X A J eq_refl E).
  - left. reflexivity.
  - apply quiet_inv; [apply stop_inv, I|exact no_join|discriminate|auto].
  - left. rewrite K4. reflexivity.
Qed.

Lemma disconnect_inv : Inv (let '(a, s') := disconnect t s in Config s' (upd p t (next_phase Disconnect a)) (start_worker s s' r)).
Proof using All.
  unfold disconnect. destruct (is_worker t s) eqn:W; [|apply disconnect_loop_inv; exact (application _ _ _ _ I Ht W)].
  rewrite start_same by (left; destruct (close_keeps (set_run false (set_connected false s))) as (_ & _ & _ & ->); reflexivity). apply quiet_inv; [apply stop_inv, I|exact no_join|discriminate|auto].
Qed.
End call.

Lemma run_inv t m o c : Inv c -> may_run t m o c -> Inv (run t m o c).
Proof.
  destruct c as [s p r]. intros I (Ht & Hm & Ho). cbn in Ht, Hm, Ho. unfold run, segment. cbn [phases obj roles].
  assert (F : match o with Opens _ (inr w) => r w = Unborn | _ => True end) by (destruct o as [| |sock [|]]; cbn; tauto).
  destruct (p t) as [|m'|m' w] eqn:P.
  - destruct m; [apply connect_inv|apply disconnect_inv]; auto.
  - assert (A : r t = Application) by (apply (inv_calls _ I); cbn; rewrite P; discriminate). destruct m; [apply connect_inv|apply disconnect_loop_inv]; eauto.
  - destruct Hm as [-> E]. destruct (drop_inv s p r t m w I P E) as (D & N & _ & _). destruct m.
    + unfold connect_joined. assert (X := open_part_inv s (drop_worker s) (upd p t Outside) r t Connect o D N (or_introl (upd_eq _ _ _))).
      destruct (open_part o (drop_worker s)) as [a s']. eapply inv_ext; [|apply X].
      * intros t'. threads; reflexivity.
      * destruct o as [|e|sock [e|w']]; auto. split; [exact F|]. intros Y.
        destruct (inv_worker _ I w' Y) as [Z|Z]; unfold alive in Z; cbn in Z; rewrite F in Z; discriminate Z.
    + cbn. rewrite start_same by auto. exact D.
Qed.

(** The worker goes to another place, and may clear the two flags. *)
Lemma worker_inv s s' p r w ro : Inv (Config s p r) -> alive (r w) -> alive ro \/ ro = Ended ->
  (m_joining s', m_pworkerthread s', m_socketOpen s', m_sock s', sockets s', strays s') =
    (m_joining s, m_pworkerthread s, m_socketOpen s, m_sock s, sockets s, strays s) ->
  (m_connected s' = true -> m_connected s = true /\ sound ro) -> (m_bRun s' = true -> m_bRun s = true) ->
  Inv (Config s' p (upd r w ro)).
Proof.
  intros [I1 I2 I3 I4 I5 I6 I7 I8 I9 I10] A R [= E1 E2 E3 E4 E5 E6] C B. cbn in *. assert (W := I1 w A).
  constructor; cbn; rewrite ?E1, ?E2, ?E3, ?E4, ?E5, ?E6; auto.
  - intros w'. threads; [auto|apply I1].
  - intros w' X. threads; [exact R|exact (I2 w' X)].
  - intros t X. threads; [|exact (I3 t X)]. unfold alive in A. rewrite (I3 _ X) in A. discriminate A.
  - intros J. destruct (I5 J) as (X & Y & Z). split; [exact X|]. split.
    + destruct (m_connected s'); [destruct (C eq_refl); congruence|reflexivity].
    + destruct (m_bRun s'); [specialize (B eq_refl); congruence|reflexivity].
  - intros X. destruct (C X) as [Y Z]. destruct (I7 Y) as (O & w' & W' & _). split; [exact O|]. exists w. split; [exact W|].
    rewrite upd_eq. exact Z.
Qed.

Lemma worker_step_alive w fault c c' : worker_step w fault c c' -> alive (roles c w).
Proof. intros H. destruct H as [? ? ? R|? ? ? R|? ? ? R|? ? ? R|? ? ? R|? ? ? R|? ? ? R|? ? ? R|? ? ? R|? ? ? R]; unfold alive; cbn; rewrite R; reflexivity. Qed.

Lemma worker_step_inv w fault c c' : Inv c -> worker_step w fault c c' -> Inv c'.
Proof.
  intros I H. assert (A := worker_step_alive _ _ _ _ H).
  destruct H; (apply (worker_inv _ _ _ _ _ _ I A); [first [left; reflexivity|right; reflexivity]|reflexivity|cbn; first [discriminate|intros C; split; [exact C|split; [reflexivity|discriminate]]]|cbn; congruence]).
Qed.

Lemma step_inv c c' : step c c' -> Inv c -> Inv c'.
Proof. intros [t m o d H|w fault d d' H] I; [apply run_inv|eapply worker_step_inv]; eassumption. Qed.

Lemma reachable_inv c : reachable c -> Inv c.
Proof. intros (c0 & H0 & R). apply initial_inv in H0. induction R as [|c0 c1 c2 S _ IH]; [exact H0|]. exact (IH (step_inv _ _ S H0)). Qed.

(** How many steps a worker that is told to stop takes at most. *)
Definition rank (r : role) : nat :=
  match r with Handling => 3 | Looping | Waited | Failed => 2 | Left => 1 | _ => 0 end.

Lemma worker_rank w fault c c' : worker_step w fault c c' -> m_bRun (obj c) = false -> (rank (roles c' w) < rank (roles c w))%nat.
Proof.
  intros H B. destruct H as [? ? ? R|? ? ? R B'|? ? ? R|? ? ? R B'|? ? ? R B'|? ? ? R B'|? ? ? R|? ? ? R|? ? ? R|? ? ? R]; cbn in *;
    rewrite ?upd_eq, ?R; cbn; first [lia|congruence].
Qed.

(** It need not wait for anything. *)
Lemma worker_goes s p r w : m_bRun s = false -> p w = Outside -> alive (r w) -> exists s' ro,
  worker_step w false (Config s p r) (Config s' p (upd r w ro)) /\ m_bRun s' = false /\ (alive ro \/ ro = Ended).
Proof.
  intros B P A. unfold alive in A. destruct (r w) eqn:R; try discriminate A.
  - exists s, Left. split; [apply loop_stops; assumption|]. split; [exact B|left; reflexivity].
  - exists s, Left. split; [apply wait_stops; assumption|]. split; [exact B|left; reflexivity].
  - exists s, Looping. split; [apply handled; assumption|]. split; [exact B|left; reflexivity].
  - exists (set_run false s), Left. split; [apply failed; assumption|]. split; [reflexivity|left; reflexivity].
  - exists (set_connected false s), Ended. split; [apply worker_ends; assumption|]. split; [exact B|right; reflexivity].
Qed.

(** A worker that is told to stop ends by its own steps, without faults. *)
Lemma worker_ends_soon s p r w : m_bRun s = false -> p w = Outside -> alive (r w) \/ r w = Ended ->
  exists s' r', rtc (worker_step w false) (Config s p r) (Config s' p r') /\ r' w = Ended /\ forall t, w <> t -> r' t = r t.
Proof.
  remember (rank (r w)) as n eqn:N. revert s r N. induction (lt_wf n) as [n _ IH]. intros s r -> B P [A|E].
  - destruct (worker_goes s p r w B P A) as (s1 & ro & S & B1 & A1). assert (L := worker_rank _ _ _ _ S B). cbn in L. rewrite upd_eq in L.
    destruct (IH (rank ro) L s1 (upd r w ro)) as (s' & r' & S' & E & F); [rewrite upd_eq; reflexivity|exact B1|exact P|rewrite upd_eq; exact A1|].
    exists s', r'. split; [eapply rtc_l; [exact S|exact S']|]. split; [exact E|]. intros t D. rewrite F, upd_ne by exact D. reflexivity.
  - exists s, r. split; [reflexivity|]. split; [exact E|reflexivity].
Qed.

(** A client of which thread 0 is the application, or 0 and 1. *)
Definition idle_client : config :=
  Config (Object false false false None false 0 [] []) (fun _ => Outside) (fun t => if (t <? 2)%nat then Application else Unborn).

Lemma idle_initial : initial idle_client.
Proof. split; [exists false; reflexivity|]. intros t. split; [reflexivity|]. cbn [idle_client roles]. destruct (t <? 2)%nat; auto. Qed.

(** Thread 0 connects; worker 2 starts. *)
Definition connected_client : config := run 0 Connect (Opens 5 (inr 2%nat)) idle_client.

(** Then it disconnects, and waits for the worker. *)
Definition joining_client : config := run 0 Disconnect Refused connected_client.

Lemma connected_reachable : reachable connected_client.
Proof.
  exists idle_client. split; [exact idle_initial|]. apply rtc_once, call_step. split; [left; reflexivity|]. split; [exact I|].
  split; [apply not_elem_of_nil|reflexivity].
Qed.

Lemma joining_reachable : reachable joining_client.
Proof.
  destruct connected_reachable as (c0 & H0 & R). exists c0. split; [exact H0|]. eapply rtc_r; [exact R|].
  apply call_step. split; [left; reflexivity|]. split; exact I.
Qed.

(** While a thread joins the worker, no step of another one ends that, nor does it give
    the worker more to do. *)
Lemma step_while_joining c c1 t m w : Inv c -> phases c t = Joining m w -> roles c w <> Ended -> step c c1 ->
  phases c1 t = Joining m w /\ (rank (roles c1 w) <= rank (roles c w))%nat.
Proof.
  intros I P E H. destruct (inv_join _ I t m w P) as [J W]. destruct (inv_joining _ I J) as (_ & C & B).
  assert (A : alive (roles c w)) by (destruct (inv_worker _ I w W); [assumption|contradiction]).
  destruct H as [t' m' o c (Ht & Hm & Ho)|w' fault c c1 S].
  - destruct (decide (t' = t)) as [->|D]; [rewrite P in Hm; destruct Hm as [_ Hm]; contradiction|].
    unfold run. destruct (segment t' m' o (phases c t') (obj c)) as [a s'] eqn:G. cbn. split; [rewrite upd_ne by exact D; exact P|].
    unfold start_worker. destruct (m_pworkerthread s') as [w1|] eqn:W1; [|reflexivity]. rewrite W.
    case_bool_decide as X; [reflexivity|]. rewrite upd_ne; [reflexivity|]. intros ->. apply X. reflexivity.
  - split; [destruct S; exact P|]. destruct (decide (w' = w)) as [->|D]; [apply Nat.lt_le_incl, (worker_rank _ _ _ _ S B)|].
    assert (A' := worker_step_alive _ _ _ _ S). apply (inv_live _ I) in A'. congruence.
Qed.

(** ** Properties *)

(** C23: Whatever connect and disconnect calls of any threads do, callbacks of the
    worker included, in whatever interleaving: at most one worker runs at a time, and
    it is the one that the object holds; a client that says it is connected has a
    worker that has not ended and an open socket; the open sockets are exactly that
    of the object, so none leaks; nothing was ever closed that was not open, so none was
    closed twice; at most one thread joins the worker, it is an application thread and
    so never joins itself; and a worker never waits in a call. *)
Theorem lifecycle_safe c : reachable c ->
  (forall w, alive (roles c w) -> m_pworkerthread (obj c) = Some w /\ phases c w = Outside) /\
  (m_connected (obj c) = true -> m_socketOpen (obj c) = true /\
     exists w, m_pworkerthread (obj c) = Some w /\ sound (roles c w)) /\
  sockets (obj c) = (if m_socketOpen (obj c) then [m_sock (obj c)] else []) /\ strays (obj c) = [] /\
  (forall t m w, phases c t = Joining m w -> roles c t = Application /\ m_pworkerthread (obj c) = Some w /\ w <> t /\
     forall t' m' w', phases c t' = Joining m' w' -> t' = t).
Proof.
  intros H. destruct (reachable_inv c H) as [I1 I2 I3 I4 I5 I6 I7 I8 I9 I10]. split; [|split; [exact I7|split; [exact I8|split; [exact I10|]]]].
  - intros w A. split; [exact (I1 w A)|]. destruct (phases c w) eqn:P; [reflexivity|..];
      (unfold alive in A; rewrite I3 in A by (rewrite P; discriminate); discriminate A).
  - intros t m w P. assert (A : roles c t = Application) by (apply I3; rewrite P; discriminate). destruct (I4 _ _ _ P) as [_ W].
    split; [exact A|]. split; [exact W|]. split; [|intros t' m' w' P'; exact (I6 _ _ _ _ _ _ P' P)].
    intros ->. destruct (I2 t W) as [X|X]; [unfold alive in X; rewrite A in X; discriminate X|congruence].
Qed.

(** The client is connected and disconnected again. *)
Definition disconnected_client : config :=
  run 0 Disconnect Refused (Config (set_connected false (obj joining_client)) (phases joining_client) (upd (upd (roles joining_client) 2%nat Left) 2%nat Ended)).

Lemma disconnected_reachable : reachable disconnected_client.
Proof.
  destruct joining_reachable as (c0 & H0 & R). exists c0. split; [exact H0|]. eapply rtc_r; [eapply rtc_r; [eapply rtc_r; [exact R|]|]|].
  - apply (of_worker 2 false), loop_stops; reflexivity.
  - apply (of_worker 2 false), worker_ends. reflexivity.
  - apply call_step. split; [left; reflexivity|]. split; [split; reflexivity|exact I].
Qed.

Lemma lifecycle_safe_witness : sockets (obj connected_client) = [5] /\ sockets (obj disconnected_client) = [] /\ strays (obj disconnected_client) = [].
Proof.
  destruct (lifecycle_safe connected_client connected_reachable) as (_ & _ & S & _).
  destruct (lifecycle_safe disconnected_client disconnected_reachable) as (_ & _ & S' & X & _). auto.
Defined.

(** C24: A thread that joins the worker does not wait for ever.  The worker alone, by
    steps that need no fault (if callbacks return), comes to its end, and then the
    call goes on and returns; when it is disconnect, there is then no worker and no
    open socket, and the client is not connected.  And whatever the threads do: until
    the worker has ended no step takes the thread out of the join or gives the worker
    more to do, and each step of the worker, with a fault or without, brings it
    nearer to its end. *)
Theorem join_completes c t m w o : reachable c -> phases c t = Joining m w ->
  match o with Opens _ _ => False | _ => True end ->
  (exists c1, rtc (worker_step w false) c c1 /\ step c1 (run t m o c1) /\ phases (run t m o c1) t = Outside /\
    m_pworkerthread (obj (run t m o c1)) = None /\ sockets (obj (run t m o c1)) = [] /\ m_connected (obj (run t m o c1)) = false) /\
  (roles c w <> Ended -> forall c1, step c c1 -> phases c1 t = Joining m w /\ (rank (roles c1 w) <= rank (roles c w))%nat) /\
  (forall fault c1, worker_step w fault c c1 -> (rank (roles c1 w) < rank (roles c w))%nat).
Proof.
  intros H P Ho. assert (J := reachable_inv c H). destruct (inv_join _ J t m w P) as [Jt W]. destruct (inv_joining _ J Jt) as (_ & _ & B).
  split; [|split; [intros E c1; exact (step_while_joining c c1 t m w J P E)|intros fault c1 S; exact (worker_rank _ _ _ _ S B)]].
  destruct c as [s p r]. cbn in P, Jt, W, B. assert (A : r t = Application) by (apply (inv_calls _ J); cbn; rewrite P; discriminate).
  assert (Pw : p w = Outside).
  { destruct (p w) eqn:Q; [reflexivity|..]; (assert (X : r w = Application) by (apply (inv_calls _ J); cbn; rewrite Q; discriminate);
      destruct (inv_worker _ J w W) as [Y|Y]; [unfold alive in Y; cbn in Y; rewrite X in Y; discriminate Y|cbn in Y; congruence]). }
  destruct (worker_ends_soon s p r w B Pw (inv_worker _ J w W)) as (s' & r' & S & E & _).
  assert (J' : Inv (Config s' p r')).
  { clear -J S. revert J. induction S as [|c0 c1 c2 S _ IH]; intros J; [exact J|]. exact (IH (worker_step_inv w _ _ _ J S)). }
  assert (A' : r' t = Application) by (apply (inv_calls _ J'); cbn; rewrite P; discriminate).
  exists (Config s' p r'). split; [exact S|]. destruct (drop_inv s' p r' t m w J' P E) as (_ & D1 & D2 & D3).
  split; [apply call_step; split; [left; exact A'|split; [cbn; rewrite P; split; [reflexivity|exact E]|destruct o; [exact I|exact I|destruct Ho]]]|].
  unfold run, segment. cbn [phases obj roles]. rewrite P.
  destruct m; [destruct o; [| |destruct Ho]|]; cbn [connect_joined open_part disconnect_joined phases obj next_phase]; rewrite upd_eq; auto.
Qed.

Lemma join_completes_witness : exists c1, rtc (worker_step 2 false) joining_client c1 /\ step c1 (run 0 Disconnect Refused c1) /\
  phases (run 0 Disconnect Refused c1) 0%nat = Outside /\ m_pworkerthread (obj (run 0 Disconnect Refused c1)) = None /\
  sockets (obj (run 0 Disconnect Refused c1)) = [] /\ m_connected (obj (run 0 Disconnect Refused c1)) = false.
Proof.
  apply (join_completes joining_client 0 Disconnect 2 Refused); [exact joining_reachable|reflexivity|exact I].
Defined.

(** The thread that joins writes the id in the std::thread, without the mutex, and
    another thread in connect reads it meanwhile: both may do so in this state. *)
Lemma thread_id_race : exists c, reachable c /\ (exists w, phases c 0%nat = Joining Disconnect w /\ roles c w = Ended) /\
  may_run 1 Connect Refused c /\ m_connected (obj c) = false /\ m_joining (obj c) = true.
Proof.
  destruct (worker_ends_soon (obj joining_client) (phases joining_client) (roles joining_client) 2 eq_refl eq_refl (or_introl eq_refl))
    as (s & r & S & E & N).
  assert (R : reachable (Config s (phases joining_client) r)).
  { destruct joining_reachable as (c0 & H0 & R0). exists c0. split; [exact H0|]. transitivity joining_client; [exact R0|].
    clear -S. revert S. generalize (Config s (phases joining_client) r). change (Config (obj joining_client) (phases joining_client) (roles joining_client)) with joining_client.
    generalize joining_client. intros c c' S. induction S as [|c0 c1 c2 S _ IH]; [reflexivity|]. eapply rtc_l; [exact (of_worker 2 _ _ _ S)|exact IH]. }
  assert (J := reachable_inv _ R). exists (Config s (phases joining_client) r). split; [exact R|]. split; [exists 2%nat; split; [reflexivity|exact E]|].
  destruct (inv_join _ J 0%nat Disconnect 2%nat eq_refl) as [Jt _]. destruct (inv_joining _ J Jt) as (_ & C & _).
  split; [|split; [exact C|exact Jt]]. split; [|split; exact I]. left. cbn [roles]. rewrite N by discriminate. reflexivity.
Qed.
