(* ===== verification/TcpTransport.v ===== *)
(** * The TCP transport: struct Transport of src/src/vscp/common/vscpremotetcpif.cpp

    A connection is a non-blocking socket, with TLS or without, and reads and
    writes wait for it until a deadline.  [System] is what the operating system
    and OpenSSL do; the functions are state passing over the world behind them.
    [TcpTransport] is the interface that the TCP client builds on, with the
    transport of the source as an instance. *)

From S2P Require Import Prelude Program Event.

Definition VSCP_ERROR_SUCCESS : Z := 0.
Definition VSCP_ERROR_TIMEOUT : Z := 32.
Definition VSCP_ERROR_STOPPED : Z := 47.

Definition TCPIP_DEFAULT_RESPONSE_TIMEOUT : Z := 2000.
Definition INT_MAX : Z := 2147483647.

(** The first [n] bytes. *)
Definition first_bytes (n : Z) (l : list Z) : list Z :=
  if Z.of_nat (length l) <=? n then l else take (Z.to_nat n) l.

(** What a read brings: bytes, none of them at the deadline, or an error (the
    code returns it negated). *)
Inductive received := Got (bytes : list Z) | Failed (error : Z).

(** ** The system *)

(** Results of recv and send, of SSL_read and SSL_write (a positive count, or
    what SSL_get_error says), and of poll. *)
Inductive io (A : Type) := Done (a : A) | Interrupted | Would_block | Io_error.
Inductive tls_io (A : Type) := Tls_done (a : A) | Want_read | Want_write | Zero_return | Tls_error.
Inductive poll_result := Ready | Nothing | Poll_interrupted | Poll_error.
Arguments Done {A} a.
Arguments Interrupted {A}.
Arguments Would_block {A}.
Arguments Io_error {A}.
Arguments Tls_done {A} a.
Arguments Want_read {A}.
Arguments Want_write {A}.
Arguments Zero_return {A}.
Arguments Tls_error {A}.

(** The operating system and OpenSSL.  [steady] is the steady clock in nanoseconds,
    [ms_stamp] what vscp_getMsTimeStamp returns (its conversion is undefined for a
    present time, see [Event.vscp_makeTimeStamp]) and [wall_clock] the system
    clock.  [establish] is Transport::open, from the name of the host to the
    connected socket, with the TLS handshake or without; [close] is ~Transport.
    [slice] is the scheduler: how many steps the other thread gets now. *)
Class System (W : Type) := {
  steady : W -> Z * W;
  ms_stamp : W -> Z * W;
  wall_clock : W -> timespec;
  recv : Z -> W -> io (list Z) * W;
  send : list Z -> W -> io Z * W;
  SSL_read : Z -> W -> tls_io (list Z) * W;
  SSL_write : list Z -> W -> tls_io Z * W;
  poll : bool -> Z -> W -> poll_result * W;
  establish : list Z -> list Z -> bool -> Z -> W -> Z * W;
  close : W -> W;
  slice : W -> nat * W
}.

(** ** The transport *)

Record Transport := Connection { tls : bool; connected : bool }.

Definition set_connected (c : bool) (t : Transport) : Transport := Connection (tls t) c.

(** One attempt to read or write: it got on, has to wait for the socket to
    become readable or writable, or the connection is gone. *)
Inductive attempt (A : Type) := Progress (a : A) | Retry (waitWrite : bool) | Broken.
Arguments Progress {A} a.
Arguments Retry {A} waitWrite.
Arguments Broken {A}.

Section transport.
Context {W : Type} `{System W}.
Variable fuel : nat.
Abbreviation tio := (M (W * Transport)).

Definition on_system {A} (m : M W A) : tio A := fun s =>
  match m s.1 with
  | Returns (a, w) => Returns (a, (w, s.2))
  | Throws => Throws
  | Undefined => Undefined
  | OutOfFuel => OutOfFuel
  end.
Definition transport : tio Transport := fun s => Returns (s.2, s).
Definition disconnect : tio unit := fun s => Returns (tt, (s.1, set_connected false s.2)).

(** 1: ready, 0: the deadline is reached, -1: an error. *)
Fixpoint waitForSocket (n : nat) (write : bool) (deadline : Z) : M W Z :=
  match n with
  | O => out_of_fuel
  | S n =>
      now ← call steady;
      if deadline <=? now then mret 0
      else
        let remaining := (deadline - now) / 1000000 in
        r ← call (poll write (Z.min (remaining + 1) INT_MAX));
        match r with
        | Ready => mret 1
        | Nothing | Poll_interrupted => waitForSocket n write deadline
        | Poll_error => mret (-1)
        end
  end.

(** The calls are repeated when a signal interrupts them. *)
Fixpoint socketRead (n : nat) (len : Z) : M W (io (list Z)) :=
  match n with
  | O => out_of_fuel
  | S n => r ← call (recv len); match r with Interrupted => socketRead n len | _ => mret r end
  end.

Fixpoint socketWrite (n : nat) (data : list Z) : M W (io Z) :=
  match n with
  | O => out_of_fuel
  | S n => r ← call (send data); match r with Interrupted => socketWrite n data | _ => mret r end
  end.

Definition read_once (tls : bool) (size : Z) : M W (attempt (list Z)) :=
  if tls then
    r ← call (SSL_read size);
    mret match r with
         | Tls_done bytes => Progress bytes
         | Want_read => Retry false
         | Want_write => Retry true
         | Zero_return | Tls_error => Broken
         end
  else
    r ← socketRead fuel size;
    mret match r with
         | Done [] => Broken
         | Done bytes => Progress bytes
         | Would_block => Retry false
         | Interrupted | Io_error => Broken
         end.

(** A plain socket is written to again when it is writable. *)
Definition write_once (tls : bool) (data : list Z) : M W (attempt Z) :=
  if tls then
    r ← call (SSL_write data);
    mret match r with
         | Tls_done count => Progress count
         | Want_read => Retry false
         | Want_write => Retry true
         | Zero_return | Tls_error => Broken
         end
  else
    r ← socketWrite fuel data;
    mret match r with
         | Done count => if 0 <? count then Progress count else Broken
         | Would_block => Retry true
         | Interrupted | Io_error => Broken
         end.

Fixpoint read_loop (n : nat) (size deadline : Z) : tio received :=
  match n with
  | O => out_of_fuel
  | S n =>
      t ← transport;
      a ← on_system (read_once (tls t) size);
      match a with
      | Progress bytes => mret (Got bytes)
      | Broken => _ ← disconnect; mret (Failed VSCP_ERROR_STOPPED)
      | Retry waitWrite =>
          ready ← on_system (waitForSocket fuel waitWrite deadline);
          if ready =? 0 then mret (Got [])
          else if ready <? 0 then _ ← disconnect; mret (Failed VSCP_ERROR_STOPPED)
          else read_loop n size deadline
      end
  end.

Definition read (len timeout : Z) : tio received :=
  t ← transport;
  if negb (connected t) then mret (Failed VSCP_ERROR_STOPPED)
  else
    let timeout := if timeout <? 0 then TCPIP_DEFAULT_RESPONSE_TIMEOUT else timeout in
    now ← on_system (call steady);
    read_loop fuel (Z.min len INT_MAX) (now + timeout * 1000000).

(** [data] is what is left to write. *)
Fixpoint write_loop (n : nat) (data : list Z) (deadline : Z) : tio Z :=
  match data with
  | [] => mret VSCP_ERROR_SUCCESS
  | _ =>
      match n with
      | O => out_of_fuel
      | S n =>
          t ← transport;
          a ← on_system (write_once (tls t) (first_bytes INT_MAX data));
          match a with
          | Progress count => write_loop n (drop (Z.to_nat count) data) deadline
          | Broken => _ ← disconnect; mret (- VSCP_ERROR_STOPPED)
          | Retry waitWrite =>
              ready ← on_system (waitForSocket fuel waitWrite deadline);
              if ready <=? 0 then
                _ ← disconnect;
                mret (if ready =? 0 then - VSCP_ERROR_TIMEOUT else - VSCP_ERROR_STOPPED)
              else write_loop n data deadline
          end
      end
  end.

Definition write (data : list Z) (timeout : Z) : tio Z :=
  t ← transport;
  if negb (connected t) then mret (- VSCP_ERROR_STOPPED)
  else
    now ← on_system (call steady);
    write_loop fuel data (now + timeout * 1000000).
End transport.

(** ** The interface

    The operations of the TCP client on its transport, in the world behind it.
    [is_connected] says that there is a transport and that it is connected,
    [transport_release] drops it. *)

Class TcpTransport (W : Type) := {
  is_connected : W -> bool;
  transport_open : list Z -> list Z -> bool -> Z -> M W Z;
  transport_read : Z -> Z -> M W received;
  transport_write : list Z -> Z -> M W Z;
  transport_release : W -> W;
  steady_clock : W -> Z * W;
  ms_clock : W -> Z * W;
  system_clock : W -> timespec;
  scheduled : W -> nat * W
}.

(** What the client relies on: [written] is what was written to the peer, [came]
    what was read from it, both since the world began.  A write that fails has
    written a part and leaves no connection; a read never gives more than asked. *)
Class StreamLaws (W : Type) `{TcpTransport W} := {
  written : W -> list Z;
  came : W -> list Z;
  stream_read : forall len timeout w r w', transport_read len timeout w = Returns (r, w') ->
    written w' = written w /\
    match r with
    | Got bytes => Z.of_nat (length bytes) <= Z.max 0 len /\ bytes_ok bytes /\ came w' = came w ++ bytes
    | Failed _ => came w' = came w
    end;
  stream_write : forall data timeout w rv w', transport_write data timeout w = Returns (rv, w') ->
    came w' = came w /\
    if rv =? VSCP_ERROR_SUCCESS then written w' = written w ++ data
    else exists k, written w' = written w ++ take k data;
  stream_steady : forall w, written (steady_clock w).2 = written w /\ came (steady_clock w).2 = came w;
  stream_ms : forall w, written (ms_clock w).2 = written w /\ came (ms_clock w).2 = came w;
  stream_scheduled : forall w, written (scheduled w).2 = written w /\ came (scheduled w).2 = came w;
  stream_release : forall w, written (transport_release w) = written w /\ came (transport_release w) = came w /\
    is_connected (transport_release w) = false
}.

(** The transport of the source: the pointer [m_transport] with the system. *)
Section instance.
Context {W : Type} `{System W}.
Variable fuel : nat.

(** A method of the transport, if there is one. *)
Definition with_transport {A} (none : A) (m : M (W * Transport) A) : M (W * option Transport) A := fun s =>
  match s.2 with
  | None => Returns (none, s)
  | Some t =>
      match m (s.1, t) with
      | Returns (a, (w, t)) => Returns (a, (w, Some t))
      | Throws => Throws
      | Undefined => Undefined
      | OutOfFuel => OutOfFuel
      end
  end.

(** An operation of the system. *)
Definition lift {A} (f : W -> A * W) (s : W * option Transport) : A * (W * option Transport) :=
  let '(a, w) := f s.1 in (a, (w, s.2)).

(** Opening makes a new transport, also when it fails. *)
Definition open (host port : list Z) (tls : bool) (timeout : Z) : M (W * option Transport) Z := fun s =>
  let '(rv, w) := establish host port tls timeout s.1 in
  Returns (rv, (w, Some (Connection tls (rv =? VSCP_ERROR_SUCCESS)))).

#[export] Instance socket_transport : TcpTransport (W * option Transport) := {|
  is_connected s := match s.2 with Some t => connected t | None => false end;
  transport_open := open;
  transport_read len timeout := with_transport (Failed VSCP_ERROR_STOPPED) (read fuel len timeout);
  transport_write data timeout := with_transport (- VSCP_ERROR_STOPPED) (write fuel data timeout);
  transport_release s := match s.2 with Some _ => (close s.1, None) | None => s end;
  steady_clock := lift steady;
  ms_clock := lift ms_stamp;
  system_clock s := wall_clock s.1;
  scheduled := lift slice
|}.
End instance.

(** ** What the system promises

    [sent] is what the peer is sent, [arrived] what came from it.  Only calls that
    get on change them. *)
Class SystemLaws (W : Type) `{System W} := {
  sent : W -> list Z;
  arrived : W -> list Z;
  send_law : forall data w r w', send data w = (r, w') -> arrived w' = arrived w /\
    match r with
    | Done count => 0 <= count <= Z.of_nat (length data) /\ sent w' = sent w ++ take (Z.to_nat count) data
    | _ => sent w' = sent w
    end;
  SSL_write_law : forall data w r w', SSL_write data w = (r, w') -> arrived w' = arrived w /\
    match r with
    | Tls_done count => 0 < count <= Z.of_nat (length data) /\ sent w' = sent w ++ take (Z.to_nat count) data
    | _ => sent w' = sent w
    end;
  recv_law : forall len w r w', recv len w = (r, w') -> sent w' = sent w /\
    match r with
    | Done bytes => Z.of_nat (length bytes) <= len /\ bytes_ok bytes /\ arrived w' = arrived w ++ bytes
    | _ => arrived w' = arrived w
    end;
  SSL_read_law : forall len w r w', SSL_read len w = (r, w') -> sent w' = sent w /\
    match r with
    | Tls_done bytes => bytes <> [] /\ Z.of_nat (length bytes) <= len /\ bytes_ok bytes /\ arrived w' = arrived w ++ bytes
    | _ => arrived w' = arrived w
    end;
  steady_law : forall w, sent (steady w).2 = sent w /\ arrived (steady w).2 = arrived w;
  stamp_law : forall w, sent (ms_stamp w).2 = sent w /\ arrived (ms_stamp w).2 = arrived w;
  slice_law : forall w, sent (slice w).2 = sent w /\ arrived (slice w).2 = arrived w;
  close_law : forall w, sent (close w) = sent w /\ arrived (close w) = arrived w;
  poll_law : forall write timeout w, sent (poll write timeout w).2 = sent w /\ arrived (poll write timeout w).2 = arrived w
}.

(** Nothing went to the peer and nothing came from it. *)
Definition quiet {W} `{SystemLaws W} (w w' : W) : Prop := sent w' = sent w /\ arrived w' = arrived w.

(** ** Lemmas *)

Section laws.
Context {W : Type} `{SystemLaws W}.
Variable fuel : nat.

#[local] Instance quiet_preorder : PreOrder quiet.
Proof. split; [split; reflexivity|]. intros w1 w2 w3 [S1 A1] [S2 A2]. split; congruence. Qed.

Lemma on_system_inv {A} (m : M W A) s a s' :
  on_system m s = Returns (a, s') -> exists w, m s.1 = Returns (a, w) /\ s' = (w, s.2).
Proof. unfold on_system. destruct (m s.1) as [[x w]| | |]; [|discriminate..]. injection 1 as <- <-. eauto. Qed.

Lemma call_inv {A} (f : W -> A * W) w a w' : call f w = Returns (a, w') -> f w = (a, w').
Proof. unfold call. intros E. injection E as E. exact E. Qed.

Lemma quiet_steady w : quiet w (steady w).2.
Proof. apply steady_law. Qed.

Lemma waitForSocket_quiet n write deadline w r w' :
  waitForSocket n write deadline w = Returns (r, w') -> quiet w w'.
Proof.
  revert w. induction n as [|n IH]; intros w E; [discriminate|]. cbn [waitForSocket] in E.
  apply bind_inv in E as (now & w1 & E1 & E). apply call_inv in E1.
  assert (Q1 := quiet_steady w). rewrite E1 in Q1. cbn [snd] in Q1. etrans; [exact Q1|].
  destruct (deadline <=? now). { injection E as _ <-. reflexivity. }
  apply bind_inv in E as (p & w2 & E2 & E). apply call_inv in E2.
  assert (Q2 := poll_law write (Z.min ((deadline - now) / 1000000 + 1) INT_MAX) w1). rewrite E2 in Q2. etrans; [exact Q2|].
  destruct p; try (injection E as _ <-; reflexivity); exact (IH _ E).
Qed.

Lemma socketWrite_spec n data w r w' : socketWrite n data w = Returns (r, w') ->
  arrived w' = arrived w /\
  match r with
  | Done count => 0 <= count <= Z.of_nat (length data) /\ sent w' = sent w ++ take (Z.to_nat count) data
  | _ => sent w' = sent w
  end.
Proof.
  revert w. induction n as [|n IH]; intros w E; [discriminate|]. cbn [socketWrite] in E.
  apply bind_inv in E as (p & w1 & E1 & E). apply call_inv in E1. destruct (send_law _ _ _ _ E1) as [A S].
  destruct p; try (injection E as <- <-; auto). destruct (IH _ E) as [-> S']. rewrite S in S'. auto.
Qed.

Lemma socketRead_spec n len w r w' : socketRead n len w = Returns (r, w') ->
  sent w' = sent w /\
  match r with
  | Done bytes => Z.of_nat (length bytes) <= len /\ bytes_ok bytes /\ arrived w' = arrived w ++ bytes
  | _ => arrived w' = arrived w
  end.
Proof.
  revert w. induction n as [|n IH]; intros w E; [discriminate|]. cbn [socketRead] in E.
  apply bind_inv in E as (p & w1 & E1 & E). apply call_inv in E1. destruct (recv_law _ _ _ _ E1) as [A S].
  destruct p; try (injection E as <- <-; auto). destruct (IH _ E) as [-> S']. rewrite S in S'. auto.
Qed.

Lemma write_once_spec tls data w a w' : write_once fuel tls data w = Returns (a, w') ->
  arrived w' = arrived w /\
  match a with
  | Progress count => 0 < count <= Z.of_nat (length data) /\ sent w' = sent w ++ take (Z.to_nat count) data
  | _ => sent w' = sent w
  end.
Proof.
  unfold write_once. destruct tls; intros E; apply bind_inv in E as (r & w1 & E1 & E); injection E as <- <-.
  - apply call_inv in E1. destruct (SSL_write_law _ _ _ _ E1) as [A S]. destruct r; auto.
  - destruct (socketWrite_spec _ _ _ _ _ E1) as [A S]. destruct r as [count| | |]; auto. split; [exact A|]. destruct S as [C S].
    destruct (Z.ltb_spec 0 count); [auto with lia|]. replace count with 0 in S by lia. rewrite S, app_nil_r. reflexivity.
Qed.

Lemma read_once_spec tls size w a w' : read_once fuel tls size w = Returns (a, w') ->
  sent w' = sent w /\
  match a with
  | Progress bytes => bytes <> [] /\ Z.of_nat (length bytes) <= size /\ bytes_ok bytes /\ arrived w' = arrived w ++ bytes
  | _ => arrived w' = arrived w
  end.
Proof.
  unfold read_once. destruct tls; intros E; apply bind_inv in E as (r & w1 & E1 & E); injection E as <- <-.
  - apply call_inv in E1. destruct (SSL_read_law _ _ _ _ E1) as [A S]. destruct r; auto.
  - destruct (socketRead_spec _ _ _ _ _ E1) as [A S]. split; [exact A|].
    destruct r as [[|b bytes]| | |]; try exact S.
    + destruct S as (_ & _ & ->). apply app_nil_r.
    + split; [discriminate|exact S].
Qed.

Lemma take_first_bytes k n l : 0 <= n -> (k <= length (first_bytes n l))%nat -> take k (first_bytes n l) = take k l.
Proof.
  intros Hn Hk. unfold first_bytes in *. destruct (Z.of_nat (length l) <=? n); [reflexivity|].
  rewrite length_take in Hk. rewrite take_take. f_equal. lia.
Qed.

(** Writing: all of the data, or a first part of it and the connection is gone. *)
Lemma socket_write_spec n data deadline s rv s' : write_loop fuel n data deadline s = Returns (rv, s') ->
  arrived s'.1 = arrived s.1 /\
  if rv =? VSCP_ERROR_SUCCESS then sent s'.1 = sent s.1 ++ data /\ s'.2 = s.2
  else exists k, sent s'.1 = sent s.1 ++ take k data /\ s'.2 = set_connected false s.2.
Proof.
  revert data s. induction n as [|n IH]; intros [|b data] s E; [|discriminate|..].
  1, 2: injection E as <- <-; cbn; rewrite app_nil_r; auto.
  cbn [write_loop] in E. set (l := b :: data) in *. clearbody l. rewrite (bind_returns _ _ s s.2 s) in E by reflexivity.
  apply bind_inv in E as (a & s1 & E1 & E). apply on_system_inv in E1 as (w1 & E1 & ->).
  destruct (write_once_spec _ _ _ _ _ E1) as [A1 S1]. destruct a as [count|b'|].
  - destruct (IH _ _ E) as [A2 S2]. cbn [fst snd] in *. rewrite A1 in A2. split; [exact A2|].
    destruct S1 as [C1 S1]. rewrite take_first_bytes in S1 by first [discriminate|lia]. rewrite S1 in S2.
    destruct (rv =? VSCP_ERROR_SUCCESS).
    + destruct S2 as [S2 T2]. rewrite <- app_assoc, take_drop in S2. auto.
    + destruct S2 as (k & S2 & T2). exists (Z.to_nat count + k)%nat. rewrite <- app_assoc, take_take_drop in S2. auto.
  - apply bind_inv in E as (ready & s2 & E2 & E). apply on_system_inv in E2 as (w2 & E2 & ->).
    destruct (waitForSocket_quiet _ _ _ _ _ _ E2) as [S2 A2]. cbn [fst snd] in *. rewrite S1 in S2. rewrite A1 in A2.
    destruct (ready <=? 0).
    + injection E as <- <-. cbn. split; [exact A2|]. destruct (ready =? 0); cbn; exists 0%nat; rewrite take_0, app_nil_r; auto.
    + destruct (IH _ _ E) as [A3 S3]. cbn [fst snd] in *. rewrite A2 in A3. rewrite S2 in S3. auto.
  - injection E as <- <-. cbn. split; [exact A1|]. exists 0%nat. rewrite take_0, app_nil_r. auto.
Qed.

(** Reading: no bytes, or some that came, not more than asked for. *)
Lemma socket_read_spec n size deadline s r s' : read_loop fuel n size deadline s = Returns (r, s') ->
  sent s'.1 = sent s.1 /\
  match r with
  | Got bytes => Z.of_nat (length bytes) <= Z.max 0 size /\ bytes_ok bytes /\ arrived s'.1 = arrived s.1 ++ bytes /\ s'.2 = s.2
  | Failed e => e = VSCP_ERROR_STOPPED /\ arrived s'.1 = arrived s.1 /\ s'.2 = set_connected false s.2
  end.
Proof.
  revert s. induction n as [|n IH]; intros s E; [discriminate|].
  cbn [read_loop] in E. rewrite (bind_returns _ _ s s.2 s) in E by reflexivity.
  apply bind_inv in E as (a & s1 & E1 & E). apply on_system_inv in E1 as (w1 & E1 & ->).
  destruct (read_once_spec _ _ _ _ _ E1) as [S1 A1]. destruct a as [bytes|b|].
  - injection E as <- <-. cbn. destruct A1 as (_ & L & B & A1). split; [exact S1|]. split; [lia|auto].
  - apply bind_inv in E as (ready & s2 & E2 & E). apply on_system_inv in E2 as (w2 & E2 & ->).
    destruct (waitForSocket_quiet _ _ _ _ _ _ E2) as [S2 A2]. cbn [fst snd] in *. rewrite S1 in S2. rewrite A1 in A2.
    destruct (ready =? 0).
    + injection E as <- <-. cbn. rewrite app_nil_r. split; [exact S2|]. split; [lia|auto].
    + destruct (ready <? 0).
      * injection E as <- <-. cbn. auto.
      * destruct (IH _ E) as [S3 A3]. cbn [fst snd] in *. rewrite S2 in S3. rewrite A2 in A3. auto.
  - injection E as <- <-. cbn. auto.
Qed.
End laws.

(** ** What the system needs for calls to end

    [effort d w] bounds how many calls can still be interrupted, and how often the
    clock can still be read, before it has passed [d]; it is below [bound] when a
    deadline of at most [longest] milliseconds is set. *)
Class SystemClock (W : Type) `{System W} (longest : Z) (bound : nat) := {
  effort : Z -> W -> nat;
  effort_steady : forall d w t w', steady w = (t, w') ->
    (effort d w' <= effort d w)%nat /\ (t < d -> (effort d w' < effort d w)%nat);
  effort_poll : forall d b t w, (effort d (poll b t w).2 <= effort d w)%nat;
  effort_recv : forall d len w r w', recv len w = (r, w') ->
    (effort d w' <= effort d w)%nat /\ (r = Interrupted -> (effort d w' < effort d w)%nat);
  effort_send : forall d data w r w', send data w = (r, w') ->
    (effort d w' <= effort d w)%nat /\ (r = Interrupted -> (effort d w' < effort d w)%nat);
  effort_SSL_read : forall d len w, (effort d (SSL_read len w).2 <= effort d w)%nat;
  effort_SSL_write : forall d data w, (effort d (SSL_write data w).2 <= effort d w)%nat;
  effort_start : forall w t w' timeout, steady w = (t, w') -> timeout <= longest -> (effort (t + timeout * 1000000) w' < bound)%nat
}.

Section termination.
Context {W : Type} `{SystemLaws W} `{!SystemClock W longest bound}.

Lemma waitForSocket_total n write d w : (effort d w < n)%nat ->
  total (waitForSocket n write d) w (fun r w' => (effort d w' <= effort d w)%nat /\ (0 < r -> (effort d w' < effort d w)%nat)).
Proof.
  revert w. induction n as [|n IH]; intros w Hn; [lia|]. cbn [waitForSocket]. apply total_bind. unfold total at 1, call.
  destruct (steady w) as [now w1] eqn:E. destruct (effort_steady d w now w1 E) as [L1 L2].
  destruct (Z.leb_spec d now); [cbn; lia|]. specialize (L2 ltac:(lia)). apply total_bind. unfold total at 1, call.
  destruct (poll _ _ w1) as [p w2] eqn:E2. assert (L3 := effort_poll d write (Z.min ((d - now) / 1000000 + 1) INT_MAX) w1).
  rewrite E2 in L3. cbn [snd] in L3. destruct p; try (cbn; lia);
    (eapply total_mono; [apply (IH w2); lia|]; cbn beta; intros; lia).
Qed.

Lemma read_once_total fuel tls size d w : (effort d w < fuel)%nat ->
  total (read_once fuel tls size) w (fun _ w' => (effort d w' <= effort d w)%nat).
Proof.
  intros Hf. unfold read_once. destruct tls; apply total_bind.
  - unfold total at 1, call. assert (L := effort_SSL_read d size w). destruct (SSL_read size w). exact L.
  - eapply (total_mono _ _ (fun _ w' => (effort d w' <= effort d w)%nat)); [|intros a w' _ L; exact L].
    revert w Hf. induction fuel as [|n IH]; intros w Hf; [lia|]. cbn [socketRead]. apply total_bind. unfold total at 1, call.
    destruct (recv size w) as [r w1] eqn:E. destruct (effort_recv d _ _ _ _ E) as [L1 L2].
    destruct r; try exact L1. specialize (L2 eq_refl). eapply total_mono; [apply (IH w1); lia|]. cbn beta. intros. lia.
Qed.

Lemma write_once_total fuel tls data d w : (effort d w < fuel)%nat ->
  total (write_once fuel tls data) w (fun a w' => (effort d w' <= effort d w)%nat).
Proof.
  intros Hf. unfold write_once. destruct tls; apply total_bind.
  - unfold total at 1, call. assert (L := effort_SSL_write d data w). destruct (SSL_write data w). exact L.
  - eapply (total_mono _ _ (fun _ w' => (effort d w' <= effort d w)%nat)); [|intros a w' _ L; exact L].
    revert w Hf. induction fuel as [|n IH]; intros w Hf; [lia|]. cbn [socketWrite]. apply total_bind. unfold total at 1, call.
    destruct (send data w) as [r w1] eqn:E. destruct (effort_send d _ _ _ _ E) as [L1 L2].
    destruct r; try exact L1. specialize (L2 eq_refl). eapply total_mono; [apply (IH w1); lia|]. cbn beta. intros. lia.
Qed.

Lemma on_system_total {A} (m : M W A) s Q : total m s.1 (fun a w => Q a (w, s.2)) -> total (on_system m) s Q.
Proof. unfold total, on_system. destruct (m s.1) as [[a w]| | |]; auto. Qed.

Lemma read_loop_total fuel n size d s : (effort d s.1 < fuel)%nat -> (effort d s.1 < n)%nat ->
  total (read_loop fuel n size d) s (fun _ _ => True).
Proof.
  revert s. induction n as [|n IH]; intros s Hf Hn; [lia|]. cbn [read_loop]. apply total_bind. unfold total at 1, transport.
  apply total_bind. apply on_system_total. eapply total_mono; [apply (read_once_total _ _ _ d); exact Hf|].
  intros a w _ L. cbn beta in L. destruct a; [exact I| |exact I]. apply total_bind, on_system_total.
  eapply total_mono; [apply waitForSocket_total; cbn [fst]; lia|]. cbn [fst snd]. intros r w2 _ [L1 L2].
  destruct (Z.eqb_spec r 0); [exact I|]. destruct (Z.ltb_spec r 0); [exact I|].
  specialize (L2 ltac:(lia)). apply IH; cbn [fst]; lia.
Qed.

Lemma write_loop_total fuel n data d s : (effort d s.1 < fuel)%nat -> (effort d s.1 + length data < n)%nat ->
  total (write_loop fuel n data d) s (fun _ _ => True).
Proof.
  revert data s. induction n as [|n IH]; intros data s Hf Hn; [lia|]. destruct data as [|b data]; [exact I|].
  cbn [write_loop]. set (l := b :: data) in *. assert (Hl : (0 < length l)%nat) by (cbn; lia). clearbody l.
  apply total_bind. unfold total at 1, transport. apply total_bind. apply on_system_total.
  eapply total_mono; [apply (write_once_total _ _ _ d); exact Hf|]. intros a w E L. cbn beta in L. destruct a; [| |exact I].
  - destruct (write_once_spec _ _ _ _ _ _ E) as [_ [C _]]. apply IH; cbn [fst]; [lia|]. rewrite length_drop. lia.
  - apply total_bind, on_system_total. eapply total_mono; [apply waitForSocket_total; cbn [fst]; lia|].
    cbn [fst snd]. intros r w2 _ [L1 L2]. destruct (Z.leb_spec r 0); [exact I|].
    specialize (L2 ltac:(lia)). apply IH; cbn [fst]; lia.
Qed.
End termination.

(** ** Theorems *)

Section theorems.
Context {W : Type} `{SystemLaws W}.
Variable fuel : nat.
#[local] Existing Instance socket_transport.

Lemma with_transport_inv {A} (none : A) (m : M (W * Transport) A) s a s' :
  with_transport none m s = Returns (a, s') ->
  (s.2 = None /\ a = none /\ s' = s) \/
  exists t w' t', s.2 = Some t /\ m (s.1, t) = Returns (a, (w', t')) /\ s' = (w', Some t').
Proof.
  unfold with_transport. destruct s.2 as [t|].
  - destruct (m (s.1, t)) as [[x [w t']]| | |] eqn:E; [|discriminate..]. injection 1 as <- <-. right. eauto 10.
  - injection 1 as <- <-. auto.
Qed.

(** What a write to the transport object does. *)
Lemma write_spec data timeout (s : W * Transport) rv s' : write fuel data timeout s = Returns (rv, s') ->
  arrived s'.1 = arrived s.1 /\
  if rv =? VSCP_ERROR_SUCCESS then sent s'.1 = sent s.1 ++ data /\ s'.2 = s.2
  else exists k, sent s'.1 = sent s.1 ++ take k data /\ connected s'.2 = false.
Proof.
  unfold write. rewrite (bind_returns _ _ s s.2 s) by reflexivity. destruct (connected s.2) eqn:Ct; cbn [negb]; intros E.
  - apply bind_inv in E as (now & s1 & E1 & E). apply on_system_inv in E1 as (w1 & E1 & ->). apply call_inv in E1.
    destruct (quiet_steady s.1) as [S1 A1]. rewrite E1 in S1, A1. cbn [snd] in *.
    destruct (socket_write_spec _ _ _ _ _ _ _ E) as [A2 S2]. cbn [fst snd] in *. rewrite A1 in A2. rewrite S1 in S2.
    split; [exact A2|]. destruct (rv =? VSCP_ERROR_SUCCESS); [exact S2|].
    destruct S2 as (k & S2 & ->). exists k. auto.
  - injection E as <- <-. split; [reflexivity|]. exists 0%nat. cbn. rewrite app_nil_r. auto.
Qed.

(** C11: Writing to the TCP transport, with TLS or plain, sends the peer all of
    the data in its order, however little the socket takes at a time.  When it
    does not succeed the peer got a first part of the data, and the transport is
    not connected any more. *)
Theorem transport_write_all data timeout (s : W * option Transport) rv s' :
  transport_write (TcpTransport := socket_transport fuel) data timeout s = Returns (rv, s') ->
  arrived s'.1 = arrived s.1 /\
  if rv =? VSCP_ERROR_SUCCESS then sent s'.1 = sent s.1 ++ data /\ s'.2 = s.2
  else exists k, sent s'.1 = sent s.1 ++ take k data /\ is_connected (TcpTransport := socket_transport fuel) s' = false.
Proof.
  intros E. apply with_transport_inv in E as [(T & -> & ->)|(t & w' & t' & T & E & ->)].
  - split; [reflexivity|]. exists 0%nat. cbn. rewrite T, take_0, app_nil_r. auto.
  - rewrite T. destruct (write_spec _ _ _ _ _ E) as [A S]. split; [exact A|].
    destruct (rv =? VSCP_ERROR_SUCCESS); [destruct S as [? [= ->]]; auto|exact S].
Qed.

(** A read gives the bytes in the order in which they came, never more than asked
    for, or says that the connection has ended. *)
Theorem transport_read_order len timeout (s : W * option Transport) r s' :
  transport_read (TcpTransport := socket_transport fuel) len timeout s = Returns (r, s') ->
  sent s'.1 = sent s.1 /\
  match r with
  | Got bytes => Z.of_nat (length bytes) <= Z.max 0 len /\ bytes_ok bytes /\ arrived s'.1 = arrived s.1 ++ bytes /\ s'.2 = s.2
  | Failed e => e = VSCP_ERROR_STOPPED /\ arrived s'.1 = arrived s.1 /\
                is_connected (TcpTransport := socket_transport fuel) s' = false
  end.
Proof.
  intros E. apply with_transport_inv in E as [(T & -> & ->)|(t & w' & t' & T & E & ->)].
  { cbn. rewrite T. auto. }
  unfold read in E. rewrite (bind_returns _ _ _ t (s.1, t)) in E by reflexivity. destruct (connected t) eqn:Ct; cbn [negb] in E.
  - apply bind_inv in E as (now & s1 & E1 & E). apply on_system_inv in E1 as (w1 & E1 & ->). apply call_inv in E1.
    destruct (quiet_steady s.1) as [S1 A1]. cbn [fst snd] in *. rewrite E1 in S1, A1. cbn [snd] in *.
    destruct (socket_read_spec _ _ _ _ _ _ _ E) as [S2 A2]. cbn [fst snd] in *. rewrite S1 in S2. rewrite A1 in A2.
    split; [exact S2|]. rewrite T. destruct r as [bytes|e].
    + destruct A2 as (L & B & A2 & ->). split; [lia|auto].
    + destruct A2 as (-> & A2 & ->). auto.
  - injection E as <- <- <-. cbn. auto.
Qed.

(** Reads and writes of the TCP transport end, when a bound is given for how
    often calls are interrupted and the clock is read before a deadline. *)
Theorem transport_ends {longest bound} `{!SystemClock W longest bound} data len timeout (s : W * option Transport) :
  (bound + length data < fuel)%nat -> timeout <= longest -> TCPIP_DEFAULT_RESPONSE_TIMEOUT <= longest ->
  transport_write (TcpTransport := socket_transport fuel) data timeout s <> OutOfFuel /\
  transport_read (TcpTransport := socket_transport fuel) len timeout s <> OutOfFuel.
Proof.
  intros Hf Ht Hd. assert (L : forall A none (m : M (W * Transport) A), (forall t, total m (s.1, t) (fun _ _ => True)) ->
    with_transport none m s <> OutOfFuel).
  { intros A none m T. unfold with_transport. destruct s.2 as [t|]; [|discriminate]. specialize (T t). unfold total in T.
    destruct (m (s.1, t)) as [[a [w t']]| | |]; [discriminate..|tauto]. }
  split; apply L; intros t; apply total_bind; unfold total at 1, transport; destruct (connected _); [|exact I| |exact I];
    apply total_bind, on_system_total; unfold total, call; cbn [fst snd]; destruct (steady s.1) as [now w] eqn:E.
  - apply write_loop_total; cbn [fst]; assert (B := effort_start s.1 now w timeout E Ht); lia.
  - set (to := if timeout <? 0 then _ else _). apply read_loop_total; cbn [fst]; assert (B := effort_start s.1 now w to E ltac:(subst to; destruct (timeout <? 0); lia)); lia.
Qed.

(** The transport of the source keeps the laws of the interface. *)
#[export] Instance socket_stream : StreamLaws (W * option Transport) (H := socket_transport fuel).
Proof.
  refine {| written s := sent s.1; came s := arrived s.1 |}.
  - intros len timeout s r s' E. apply transport_read_order in E as [S A]. split; [exact S|]. destruct r; tauto.
  - intros data timeout s rv s' E. apply with_transport_inv in E as [(T & -> & ->)|(t & w' & t' & T & E & ->)].
    + split; [reflexivity|]. exists 0%nat. cbn. rewrite app_nil_r. reflexivity.
    + destruct (write_spec _ _ _ _ _ E) as [A S]. split; [exact A|].
      destruct (rv =? VSCP_ERROR_SUCCESS); [tauto|]. destruct S as (k & S & _). eauto.
  - intros s. assert (L := steady_law s.1). cbn. unfold lift. destruct (steady s.1). exact L.
  - intros s. assert (L := stamp_law s.1). cbn. unfold lift. destruct (ms_stamp s.1). exact L.
  - intros s. assert (L := slice_law s.1). cbn. unfold lift. destruct (slice s.1). exact L.
  - intros [w [t|]]; cbn; [|auto]. destruct (close_law w). auto.
Defined.
End theorems.

(** ** A system

    A clock that a reading moves on by a millisecond, a socket that takes two
    bytes at every other call, TLS that wants the socket to be readable first. *)
Record sample_system := Sample { s_now : Z; s_busy : bool; s_in : list (list Z); s_arrived : list Z; s_sent : list Z }.

Definition sample_send (data : list Z) (w : sample_system) : option Z * sample_system :=
  if s_busy w then (None, Sample (s_now w) false (s_in w) (s_arrived w) (s_sent w))
  else (Some (Z.of_nat (length (take 2 data))), Sample (s_now w) true (s_in w) (s_arrived w) (s_sent w ++ take 2 data)).

Definition sample_recv (len : Z) (w : sample_system) : option (list Z) * sample_system :=
  match s_in w with
  | (b :: c) :: r => let c := map u8 (first_bytes (Z.max 1 len) (b :: c)) in
      if Z.of_nat (length c) <=? len then (Some c, Sample (s_now w) (s_busy w) r (s_arrived w ++ c) (s_sent w)) else (None, w)
  | _ => (None, w)
  end.

#[export] Instance sample_System : System sample_system := {|
  steady w := (s_now w, Sample (s_now w + 1000000) (s_busy w) (s_in w) (s_arrived w) (s_sent w));
  ms_stamp w := (u32 (s_now w / 1000000), w);
  wall_clock w := Timespec 0 0;
  recv len w := let '(o, w) := sample_recv len w in (match o with Some c => Done c | None => Would_block end, w);
  send data w := let '(o, w) := sample_send data w in (match o with Some c => Done c | None => Would_block end, w);
  SSL_read len w := let '(o, w) := sample_recv len w in (match o with Some c => Tls_done c | None => Want_write end, w);
  SSL_write data w :=
    match data with
    | [] => (Tls_error, w)
    | _ => let '(o, w) := sample_send data w in (match o with Some c => Tls_done c | None => Want_read end, w)
    end;
  poll _ _ w := (Ready, w);
  establish _ _ _ _ w := (VSCP_ERROR_SUCCESS, w);
  close w := w;
  slice w := (O, w)
|}.

Lemma sample_send_law data w o w' : sample_send data w = (o, w') ->
  s_now w' = s_now w /\ s_arrived w' = s_arrived w /\
  match o with
  | Some c => 0 <= c <= Z.of_nat (length data) /\ s_sent w' = s_sent w ++ take (Z.to_nat c) data /\ (data <> [] -> 0 < c)
  | None => s_sent w' = s_sent w
  end.
Proof.
  unfold sample_send. destruct (s_busy w); injection 1 as <- <-; cbn; [auto|]. split; [reflexivity|]. split; [reflexivity|].
  rewrite Nat2Z.id, length_take. split; [lia|]. split; [destruct data as [|a [|b data]]; reflexivity|].
  destruct data; cbn [length]; [congruence|lia].
Qed.

Lemma map_u8_ok l : bytes_ok (map u8 l).
Proof. induction l; constructor; [apply u8_ok|assumption]. Qed.

Lemma sample_recv_law len w o w' : sample_recv len w = (o, w') ->
  s_now w' = s_now w /\ s_sent w' = s_sent w /\
  match o with
  | Some c => c <> [] /\ Z.of_nat (length c) <= len /\ bytes_ok c /\ s_arrived w' = s_arrived w ++ c
  | None => s_arrived w' = s_arrived w
  end.
Proof.
  unfold sample_recv. destruct (s_in w) as [|[|b c] r]; try (injection 1 as <- <-; auto; fail).
  assert (N : map u8 (first_bytes (Z.max 1 len) (b :: c)) <> [] /\ bytes_ok (map u8 (first_bytes (Z.max 1 len) (b :: c)))).
  { split; [|apply map_u8_ok]. unfold first_bytes. destruct (_ <=? _); [discriminate|]. replace (Z.to_nat (Z.max 1 len)) with (S (Nat.pred (Z.to_nat (Z.max 1 len)))) by lia.
    discriminate. }
  revert N. generalize (map u8 (first_bytes (Z.max 1 len) (b :: c))). intros l [N B].
  destruct (Z.leb_spec (Z.of_nat (length l)) len); injection 1 as <- <-; repeat split; assumption.
Qed.

#[export] Instance sample_laws : SystemLaws sample_system.
Proof.
  refine {| sent := s_sent; arrived := s_arrived |}.
  - intros data w r w' E. cbn in E. destruct (sample_send data w) as [o w1] eqn:E1. destruct (sample_send_law _ _ _ _ E1) as (_ & A & S).
    injection E as <- <-. split; [exact A|]. destruct o; [tauto|exact S].
  - intros data w r w' E. cbn in E. destruct data as [|b data].
    { injection E as <- <-. auto. }
    destruct (sample_send (b :: data) w) as [o w1] eqn:E1. destruct (sample_send_law _ _ _ _ E1) as (_ & A & S).
    injection E as <- <-. split; [exact A|]. destruct o; [|exact S]. destruct S as (C & S & P). specialize (P ltac:(discriminate)). auto with lia.
  - intros len w r w' E. cbn in E. destruct (sample_recv len w) as [o w1] eqn:E1. destruct (sample_recv_law _ _ _ _ E1) as (_ & A & S).
    injection E as <- <-. split; [exact A|]. destruct o; [tauto|exact S].
  - intros len w r w' E. cbn in E. destruct (sample_recv len w) as [o w1] eqn:E1. destruct (sample_recv_law _ _ _ _ E1) as (_ & A & S).
    injection E as <- <-. split; [exact A|]. destruct o; exact S.
  - intros w. split; reflexivity.
  - intros w. split; reflexivity.
  - intros w. split; reflexivity.
  - intros w. split; reflexivity.
  - intros write timeout w. split; reflexivity.
Defined.

#[export] Instance sample_clock : SystemClock sample_system 3000 3000.
Proof.
  refine {| effort d w := Z.to_nat ((d - s_now w + 999999) / 1000000) |}.
  - intros d w t w' E. injection E as <- <-. cbn. split; [|intros]; dlia.
  - intros. reflexivity.
  - intros d len w r w' E. cbn in E. destruct (sample_recv len w) as [o w1] eqn:E1. destruct (sample_recv_law _ _ _ _ E1) as (L & _).
    injection E as <- <-. rewrite L. split; [reflexivity|]. destruct o; discriminate.
  - intros d data w r w' E. cbn in E. destruct (sample_send data w) as [o w1] eqn:E1. destruct (sample_send_law _ _ _ _ E1) as (L & _).
    injection E as <- <-. rewrite L. split; [reflexivity|]. destruct o; discriminate.
  - intros d len w. cbn. destruct (sample_recv len w) as [o w1] eqn:E1. destruct (sample_recv_law _ _ _ _ E1) as (E & _). cbn. rewrite E. reflexivity.
  - intros d data w. cbn. destruct data as [|b data]; [reflexivity|]. destruct (sample_send (b :: data) w) as [o w1] eqn:E1.
    destruct (sample_send_law _ _ _ _ E1) as (E & _). cbn. rewrite E. reflexivity.
  - intros w t w' timeout E Ht. injection E as <- <-. cbn. dlia.
Defined.

Definition sample_start : sample_system * option Transport := (Sample 0 false [] [] [], Some (Connection true true)).
Definition sample_written : sample_system * option Transport :=
  (Sample 3000000 true [] [] [1; 2; 3; 4; 5], Some (Connection true true)).

Lemma transport_write_all_witness :
  arrived sample_written.1 = [] /\ sent sample_written.1 = [] ++ [1; 2; 3; 4; 5] /\ sample_written.2 = sample_start.2.
Proof. exact (transport_write_all 9 [1; 2; 3; 4; 5] 100 sample_start VSCP_ERROR_SUCCESS sample_written eq_refl). Defined.

Lemma transport_ends_witness :
  transport_read (TcpTransport := socket_transport 3002) 10 2000 (Sample 0 false [] [] [], Some (Connection false true)) <> OutOfFuel.
Proof.
  apply (transport_ends (longest := 3000) (bound := 3000) 3002 [] 10 2000); [cbn; lia|lia|unfold TCPIP_DEFAULT_RESPONSE_TIMEOUT; lia].
Defined.

(** A read that asks for less than has come. *)
Example read_some :
  fst <$> (match transport_read (TcpTransport := socket_transport 9) 4 100
             (Sample 0 false [[1; 2; 3; 4; 5]] [] [], Some (Connection false true)) with Returns r => Some r | _ => None end)
  = Some (Got [1; 2; 3; 4]).
Proof. reflexivity. Qed.
