(* ===== verification/TcpReader.v ===== *)
(** * The single-channel receive loop of src/src/vscp/common/vscpremotetcpif.cpp

    In the receive loop events and the replies to commands come on one
    connection.  A thread of its own reads it, takes it apart into lines, queues
    the events and hands the reply to the command that waits.  [channel] is the
    state that the threads share, the members m_singleChannel... of the class.

    The reader is a step function, with a step for each access to the shared
    state, and the functions of the other thread let it run whenever they reach
    the lock: the scheduler of the world ([TcpTransport.scheduled]) says for how
    many steps.  The step relation at the end of the file has the steps of both
    threads in any order. *)

From stdpp Require Import relations.
From S2P Require Import Prelude Program Event Strings EventString TcpTransport.

Definition VSCP_ERROR_ERROR : Z := -1.
Definition VSCP_ERROR_PARAMETER : Z := 34.
Definition VSCP_ERROR_CONNECTION : Z := 40.
Definition VSCP_ERROR_INVALID_FRAME : Z := 63.
Definition VSCP_ERROR_READ : Z := 66.

Definition CRLF : list Z := [13; 10].

(** ** The shared state *)

(** Where the reader is: at the test of its loop, before the next line of the
    input buffer, before the test for a stop after a line, before the test of the
    size of the buffer, before its last critical section, at the end. *)
Inductive reader_pc := Loop_test | Take_line | Stop_test | Size_test | Finish | Ended.

(** [thread] is [None] when the thread is not joinable. *)
Record channel := Channel {
  thread : option reader_pc;
  readerStop : bool;
  eventQueue : list (list Z);
  inputBuffer : list Z;
  commandResponse : list Z;
  commandPending : bool;
  commandComplete : bool;
  commandResult : Z;
  readerError : Z;
  lastResponseTime : Z
}.

Definition goto (pc : reader_pc) (c : channel) : channel :=
  Channel (Some pc) (readerStop c) (eventQueue c) (inputBuffer c) (commandResponse c) (commandPending c) (commandComplete c) (commandResult c) (readerError c) (lastResponseTime c).
Definition set_thread (t : option reader_pc) (c : channel) : channel :=
  Channel t (readerStop c) (eventQueue c) (inputBuffer c) (commandResponse c) (commandPending c) (commandComplete c) (commandResult c) (readerError c) (lastResponseTime c).
Definition set_stop (b : bool) (c : channel) : channel :=
  Channel (thread c) b (eventQueue c) (inputBuffer c) (commandResponse c) (commandPending c) (commandComplete c) (commandResult c) (readerError c) (lastResponseTime c).
Definition set_queue (q : list (list Z)) (c : channel) : channel :=
  Channel (thread c) (readerStop c) q (inputBuffer c) (commandResponse c) (commandPending c) (commandComplete c) (commandResult c) (readerError c) (lastResponseTime c).
Definition set_buffer (b : list Z) (c : channel) : channel :=
  Channel (thread c) (readerStop c) (eventQueue c) b (commandResponse c) (commandPending c) (commandComplete c) (commandResult c) (readerError c) (lastResponseTime c).
Definition set_command (response : list Z) (pending complete : bool) (result : Z) (c : channel) : channel :=
  Channel (thread c) (readerStop c) (eventQueue c) (inputBuffer c) response pending complete result (readerError c) (lastResponseTime c).
Definition set_error (e : Z) (c : channel) : channel :=
  Channel (thread c) (readerStop c) (eventQueue c) (inputBuffer c) (commandResponse c) (commandPending c) (commandComplete c) (commandResult c) e (lastResponseTime c).
Definition set_time (t : Z) (c : channel) : channel :=
  Channel (thread c) (readerStop c) (eventQueue c) (inputBuffer c) (commandResponse c) (commandPending c) (commandComplete c) (commandResult c) (readerError c) t.

(** The waiting command, if there is one, gets an error. *)
Definition fail_command (error : Z) (c : channel) : channel :=
  if commandPending c then set_command (commandResponse c) false true error c else c.

(** ** The reader *)

Definition successResponse (line : list Z) : bool := starts_with (str "+OK ") line.
Definition errorResponse (line : list Z) : bool := starts_with (str "-OK") line || starts_with (str "+ERR") line.

Definition processSingleChannelLine (now : timespec) (line : list Z) (c : channel) : channel :=
  let responseLine := vscp_trim line in
  if bool_decide (responseLine = []) || bool_decide (responseLine = str "+OK") then c
  else if successResponse responseLine || errorResponse responseLine then
    if commandPending c then
      set_command (commandResponse c ++ responseLine ++ CRLF) false true
        (if successResponse responseLine then VSCP_ERROR_SUCCESS else VSCP_ERROR_ERROR) c
    else c
  else if fst (vscp_convertStringToEvent now (Some zero_event) responseLine) then
    set_queue (eventQueue c ++ [responseLine]) c
  else
    fail_command VSCP_ERROR_READ (set_stop true (set_error VSCP_ERROR_READ c)).

Section reader.
Context {W : Type} `{TcpTransport W}.
Abbreviation cio := (M (W * channel)).

Definition channel_of : cio channel := fun s => Returns (s.2, s).
Definition world_of : cio W := fun s => Returns (s.1, s).
Definition change (f : channel -> channel) : cio unit := fun s => Returns (tt, (s.1, f s.2)).
Definition on_transport {A} (m : M W A) : cio A := fun s =>
  match m s.1 with
  | Returns (a, w) => Returns (a, (w, s.2))
  | Throws => Throws
  | Undefined => Undefined
  | OutOfFuel => OutOfFuel
  end.

(** The body of the loop up to the first line: what a read brings goes to the buffer. *)
Definition reader_read : cio unit :=
  c ← channel_of;
  if readerStop c then change (goto Finish)
  else
    r ← on_transport (transport_read 8192 50);
    match r with
    | Got [] => mret tt
    | Got bytes =>
        ms ← on_transport (call ms_clock);
        change (fun c => goto Take_line (set_buffer (inputBuffer c ++ bytes) (set_time ms c)))
    | Failed e =>
        if e =? VSCP_ERROR_TIMEOUT then mret tt
        else change (fun c =>
          let c := if readerError c =? VSCP_ERROR_SUCCESS
                   then set_error (if e =? VSCP_ERROR_STOPPED then VSCP_ERROR_STOPPED else VSCP_ERROR_ERROR) c else c in
          goto Finish (fail_command (readerError c) c))
    end.

(** One step of singleChannelReaderLoop. *)
Definition reader_step : cio unit :=
  c ← channel_of;
  match thread c with
  | None | Some Ended => mret tt
  | Some Loop_test => reader_read
  | Some Take_line =>
      match find [10] (inputBuffer c) with
      | Some newline =>
          w ← world_of;
          change (fun c => goto Stop_test
            (processSingleChannelLine (system_clock w) (take newline (inputBuffer c))
               (set_buffer (drop (newline + 1) (inputBuffer c)) c)))
      | None => change (goto Size_test)
      end
  | Some Stop_test => change (goto (if readerStop c then Size_test else Take_line))
  | Some Size_test =>
      change (fun c => goto Loop_test
        (if 65536 <? Z.of_nat (length (inputBuffer c))
         then fail_command VSCP_ERROR_INVALID_FRAME (set_stop true (set_error VSCP_ERROR_INVALID_FRAME c)) else c))
  | Some Finish =>
      change (fun c => goto Ended
        (fail_command (if readerError c =? VSCP_ERROR_SUCCESS then VSCP_ERROR_STOPPED else readerError c) c))
  end.

(** ** The other thread *)

Fixpoint reader_steps (n : nat) : cio unit :=
  match n with
  | O => mret tt
  | S n => _ ← reader_step; reader_steps n
  end.

(** What happens before the lock is taken. *)
Definition meanwhile : cio unit := n ← on_transport (call scheduled); reader_steps n.

(** The join of the thread. *)
Fixpoint join_reader (n : nat) : cio unit :=
  c ← channel_of;
  match thread c with
  | None => mret tt
  | Some Ended => change (set_thread None)
  | Some _ =>
      match n with
      | O => out_of_fuel
      | S n => _ ← reader_step; join_reader n
      end
  end.

Definition stopSingleChannelReader (fuel : nat) : cio unit :=
  _ ← meanwhile;
  _ ← change (set_stop true);
  join_reader fuel.

(** m_singleChannelCondition.wait_until, and wait when there is no deadline. *)
Fixpoint wait_until (n : nat) (deadline : option Z) (ready : channel -> bool) : cio bool :=
  c ← channel_of;
  if ready c then mret true
  else
    match n with
    | O => out_of_fuel
    | S n =>
        _ ← meanwhile;
        match deadline with
        | None => wait_until n deadline ready
        | Some d =>
            now ← on_transport (call steady_clock);
            if d <=? now then c ← channel_of; mret (ready c) else wait_until n deadline ready
        end
    end.
End reader.

(** ** Lines, events and replies

    What the reader makes of a line, as functions of the line alone: an event is
    any line with seven to 519 fields between commas. *)

Definition is_event_line (l : list Z) : bool :=
  let n := Z.of_nat (length (vscp_split l (str ","))) in (7 <=? n) && (n <=? 7 + VSCP_MAX_DATA).

Definition ignored (l : list Z) : bool := bool_decide (l = []) || bool_decide (l = str "+OK").

(** The result and the response that a line gives the command that waits. *)
Definition reply_of (line : list Z) : option (Z * list Z) :=
  let l := vscp_trim line in
  if ignored l then None
  else if successResponse l then Some (VSCP_ERROR_SUCCESS, l ++ CRLF)
  else if errorResponse l then Some (VSCP_ERROR_ERROR, l ++ CRLF)
  else None.

Definition event_of (line : list Z) : option (list Z) :=
  let l := vscp_trim line in
  if ignored l || successResponse l || errorResponse l then None
  else if is_event_line l then Some l else None.

(** A line that ends the loop. *)
Definition invalid_line (line : list Z) : bool :=
  let l := vscp_trim line in negb (ignored l || successResponse l || errorResponse l || is_event_line l).

Definition unlines (ls : list (list Z)) : list Z := concat (map (fun l => l ++ [10]) ls).

(** ** Both threads

    A run: the world and the shared state, with the lines that the reader has
    processed, the events that have left the queue, and how many lines had been
    processed when the last command was issued. *)
Record run (W : Type) := Run { world : W; chan : channel; seen : list (list Z); given : list (list Z); asked : nat }.
Arguments Run {W} world chan seen given asked.
Arguments world {W} r.
Arguments chan {W} r.
Arguments seen {W} r.
Arguments given {W} r.
Arguments asked {W} r.

(** The line that the next step of the reader takes. *)
Definition next_line (c : channel) : list (list Z) :=
  match thread c, find [10] (inputBuffer c) with
  | Some Take_line, Some newline => [take newline (inputBuffer c)]
  | _, _ => []
  end.

(** The command starts, is written in vain, gives up, and takes its result. *)
Definition issue (c : channel) : channel := set_command [] true false (commandResult c) c.
Definition cancel (c : channel) : channel := set_command (commandResponse c) false false (commandResult c) c.
Definition time_out (c : channel) : channel := set_stop true (set_error VSCP_ERROR_TIMEOUT (cancel c)).
Definition collect (c : channel) : channel := set_command [] (commandPending c) false (commandResult c) c.

(** The section of transportClose. *)
Definition close_section (c : channel) : channel :=
  let c := if readerError c =? VSCP_ERROR_SUCCESS then set_error VSCP_ERROR_STOPPED c else c in
  fail_command (readerError c) c.

Inductive moves {W : Type} `{StreamLaws W} : run W -> run W -> Prop :=
  | move_reader w c l g n w' c' :
      reader_step (w, c) = Returns (tt, (w', c')) -> moves (Run w c l g n) (Run w' c' (l ++ next_line c) g n)
  | move_world w c l g n w' : came w' = came w -> moves (Run w c l g n) (Run w' c l g n)
  | move_take w c l g n e q : eventQueue c = e :: q -> moves (Run w c l g n) (Run w (set_queue q c) l (g ++ [e]) n)
  | move_clear w c l g n : moves (Run w c l g n) (Run w (set_queue [] c) l (g ++ eventQueue c) n)
  | move_issue w c l g n : readerError c = VSCP_ERROR_SUCCESS -> readerStop c = false ->
      moves (Run w c l g n) (Run w (issue c) l g (length l))
  | move_cancel w c l g n : moves (Run w c l g n) (Run w (cancel c) l g n)
  | move_time_out w c l g n : moves (Run w c l g n) (Run w (time_out c) l g n)
  | move_collect w c l g n : commandComplete c = true -> moves (Run w c l g n) (Run w (collect c) l g n)
  | move_close w c l g n : moves (Run w c l g n) (Run w (close_section c) l g n)
  | move_stop w c l g n : moves (Run w c l g n) (Run w (set_stop true c) l g n)
  | move_join w c l g n : thread c = Some Ended -> moves (Run w c l g n) (Run w (set_thread None c) l g n).

(** ** Lemmas *)

Lemma string_tail_bool tokens e :
  fst (string_tail tokens e) = (0 <? Z.of_nat (length tokens)) && (Z.of_nat (length tokens) <=? 1 + VSCP_MAX_DATA).
Proof.
  unfold string_tail, next. destruct tokens as [|t tokens]; [reflexivity|].
  set (e' := set_size 0 _). clearbody e'. cbn [length].
  destruct (Z.ltb_spec VSCP_MAX_DATA (Z.of_nat (length tokens))), (Z.leb_spec (Z.of_nat (S (length tokens))) (1 + VSCP_MAX_DATA)),
    (Z.ltb_spec 0 (Z.of_nat (S (length tokens)))); try lia; reflexivity.
Qed.

(** Whether a line is an event does not depend on the clock. *)
Lemma convertStringToEvent_bool now l : fst (vscp_convertStringToEvent now (Some zero_event) l) = is_event_line l.
Proof.
  unfold vscp_convertStringToEvent, is_event_line. generalize (vscp_split l (str ",")). intros tokens.
  do 6 (destruct tokens as [|? tokens]; [reflexivity|]). cbn [next]. rewrite string_tail_bool. cbn [length].
  destruct (Z.ltb_spec 0 (Z.of_nat (length tokens))), (Z.leb_spec (Z.of_nat (length tokens)) (1 + VSCP_MAX_DATA)),
    (Z.leb_spec 7 (Z.of_nat (S (S (S (S (S (S (length tokens))))))))),
    (Z.leb_spec (Z.of_nat (S (S (S (S (S (S (length tokens)))))))) (7 + VSCP_MAX_DATA)); try lia; reflexivity.
Qed.

Lemma process_cases now line c : processSingleChannelLine now line c =
  match reply_of line with
  | Some (r, response) => if commandPending c then set_command (commandResponse c ++ response) false true r c else c
  | None =>
      match event_of line with
      | Some e => set_queue (eventQueue c ++ [e]) c
      | None => if invalid_line line then fail_command VSCP_ERROR_READ (set_stop true (set_error VSCP_ERROR_READ c)) else c
      end
  end.
Proof.
  unfold processSingleChannelLine, reply_of, event_of, invalid_line. rewrite convertStringToEvent_bool.
  fold (ignored (vscp_trim line)). destruct (ignored (vscp_trim line)); [reflexivity|].
  destruct (successResponse (vscp_trim line)), (errorResponse (vscp_trim line)), (is_event_line (vscp_trim line)); reflexivity.
Qed.

Lemma unlines_app a b : unlines (a ++ b) = unlines a ++ unlines b.
Proof. unfold unlines. rewrite map_app, concat_app. reflexivity. Qed.


(** The state of the command, of the reader and of the queue. *)
Record command_ok (c : channel) (l : list (list Z)) (n : nat) : Prop := {
  ok_pending : commandPending c = true ->
    commandComplete c = false /\ commandResponse c = [] /\ omap reply_of (drop n l) = [];
  ok_complete : commandComplete c = true ->
    (exists rest, omap reply_of (drop n l) = (commandResult c, commandResponse c) :: rest) \/
    (commandResult c <> VSCP_ERROR_SUCCESS /\ commandResponse c = []);
  ok_error : readerError c <> VSCP_ERROR_SUCCESS -> commandPending c = false;
  ok_finish : thread c = Some Finish \/ thread c = Some Ended ->
    readerStop c = true \/ readerError c <> VSCP_ERROR_SUCCESS;
  ok_ended : thread c = Some Ended -> commandPending c = false;
  ok_asked : (n <= length l)%nat
}.

Lemma fail_command_ok e c l n : e <> VSCP_ERROR_SUCCESS -> readerError c = VSCP_ERROR_SUCCESS \/ commandPending c = false \/ readerError c = e ->
  (commandPending c = true -> commandComplete c = false /\ commandResponse c = [] /\ omap reply_of (drop n l) = []) ->
  (commandComplete c = true ->
    (exists rest, omap reply_of (drop n l) = (commandResult c, commandResponse c) :: rest) \/
    (commandResult c <> VSCP_ERROR_SUCCESS /\ commandResponse c = [])) ->
  (thread c = Some Finish \/ thread c = Some Ended -> readerStop c = true \/ readerError c <> VSCP_ERROR_SUCCESS) ->
  (n <= length l)%nat ->
  command_ok (fail_command e c) l n.
Proof.
  intros He Hc Hp Hd Hf Hn. unfold fail_command. destruct (commandPending c) eqn:P.
  - destruct (Hp eq_refl) as (_ & R & _). split; cbn; try congruence; auto.
  - split; cbn; auto; congruence.
Qed.

Lemma omap_drop_snoc {A} (f : list Z -> option A) n l x : (n <= length l)%nat ->
  omap f (drop n (l ++ [x])) = omap f (drop n l) ++ (match f x with Some y => [y] | None => [] end).
Proof. intros Hn. rewrite drop_app_le, omap_app by exact Hn. cbn. destruct (f x); reflexivity. Qed.

Lemma command_ok_line now line c l n : command_ok c l n -> thread c <> Some Finish -> thread c <> Some Ended ->
  command_ok (processSingleChannelLine now line c) (l ++ [line]) n.
Proof.
  intros [Hp Hd He Hf Hen Hn] Tf Te. rewrite process_cases.
  assert (Hn' : (n <= length (l ++ [line]))%nat) by (rewrite length_app; lia).
  assert (D := omap_drop_snoc reply_of n l line Hn).
  destruct (reply_of line) as [[r resp]|] eqn:R.
  - destruct (commandPending c) eqn:P.
    + destruct (Hp eq_refl) as (_ & Rs & Om). rewrite Om in D. split; cbn; rewrite ?D; try congruence; try tauto.
      intros _. left. exists []. rewrite Rs. reflexivity.
    + split; rewrite ?D, ?P; try congruence; try tauto. intros C. destruct (Hd C) as [[rest E]|E]; [|auto].
      rewrite E. left. exists (rest ++ [(r, resp)]). reflexivity.
  - rewrite app_nil_r in D. destruct (event_of line) as [e|].
    + split; cbn; rewrite ?D; try tauto; auto.
    + destruct (invalid_line line).
      * apply fail_command_ok; cbn; rewrite ?D; auto; first [discriminate|tauto].
      * split; rewrite ?D; auto.
Qed.

Section invariant.
Context {W : Type} `{StreamLaws W}.

(** What was in the buffer and what came since are the lines and the buffer. *)
Definition frame_ok (w0 : W) (c0 : channel) (w : W) (c : channel) (l : list (list Z)) : Prop :=
  exists bytes, came w = came w0 ++ bytes /\
    inputBuffer c0 ++ bytes = unlines l ++ inputBuffer c /\ Forall (fun l => 10 ∉ l) l.

Lemma frame_ok_same w0 c0 w c l w' c' :
  frame_ok w0 c0 w c l -> came w' = came w -> inputBuffer c' = inputBuffer c -> frame_ok w0 c0 w' c' l.
Proof. intros (bytes & F1 & F2 & F3) Cw Bc. exists bytes. rewrite Cw, Bc. auto. Qed.

(** The invariant of a run that began at [w0] with [c0]. *)
Record run_ok (w0 : W) (c0 : channel) (m : run W) : Prop := {
  ok_frame : frame_ok w0 c0 (world m) (chan m) (seen m);
  ok_queue : given m ++ eventQueue (chan m) = omap event_of (seen m);
  ok_command : command_ok (chan m) (seen m) (asked m)
}.

Lemma on_transport_inv {A} (t : M W A) (s : W * channel) a s' :
  on_transport t s = Returns (a, s') -> exists w, t s.1 = Returns (a, w) /\ s' = (w, s.2).
Proof. unfold on_transport. destruct (t s.1) as [[x w]| | |]; [|discriminate..]. injection 1 as <- <-. eauto. Qed.

Lemma process_frame now line c :
  inputBuffer (processSingleChannelLine now line c) = inputBuffer c /\
  thread (processSingleChannelLine now line c) = thread c /\
  eventQueue (processSingleChannelLine now line c) =
    eventQueue c ++ match reply_of line with Some _ => [] | None => match event_of line with Some e => [e] | None => [] end end.
Proof.
  rewrite process_cases. unfold fail_command. cbn.
  repeat (case_match; cbn; rewrite ?app_nil_r; auto).
Qed.

Lemma reply_no_event line r : reply_of line = Some r -> event_of line = None.
Proof.
  unfold reply_of, event_of. destruct (ignored _); [discriminate|].
  destruct (successResponse _); [reflexivity|]. destruct (errorResponse _); [reflexivity|discriminate].
Qed.

Lemma queue_line now line c g l : g ++ eventQueue c = omap event_of l ->
  g ++ eventQueue (processSingleChannelLine now line c) = omap event_of (l ++ [line]).
Proof.
  intros Q. destruct (process_frame now line c) as (_ & _ & ->). rewrite omap_app, <- Q, app_assoc. f_equal. cbn.
  destruct (reply_of line) eqn:R; [rewrite (reply_no_event _ _ R); reflexivity|]. destruct (event_of line); reflexivity.
Qed.

Lemma fail_command_frame e c :
  inputBuffer (fail_command e c) = inputBuffer c /\ eventQueue (fail_command e c) = eventQueue c /\
  thread (fail_command e c) = thread c.
Proof. unfold fail_command. destruct (commandPending c); auto. Qed.

Lemma command_ok_goto pc c l n : pc <> Finish -> pc <> Ended -> command_ok c l n -> command_ok (goto pc c) l n.
Proof. intros Hf He [Hp Hd Hr _ _ Hn]. split; cbn; auto; [intros [E|E]|intros E]; injection E; congruence. Qed.

Lemma command_ok_more c l k n : command_ok c l n -> command_ok c (l ++ k) n \/ k <> [].
Proof. intros Hc. destruct k; [rewrite app_nil_r; auto|right; discriminate]. Qed.

Ltac frame_step F := refine (frame_ok_same _ _ _ _ _ _ _ F _ _); cbn; try reflexivity; try congruence.

Lemma reader_read_ok w0 c0 w c l g n w' c' : thread c = Some Loop_test ->
  run_ok w0 c0 (Run w c l g n) -> reader_read (w, c) = Returns (tt, (w', c')) ->
  run_ok w0 c0 (Run w' c' l g n).
Proof.
  intros T [F Q C] E. cbn [world chan seen given asked] in *.
  unfold reader_read in E. rewrite (bind_returns _ _ (w, c) c (w, c)) in E by reflexivity.
  destruct (readerStop c) eqn:St.
  { injection E as <- <-. split; cbn; [frame_step F|exact Q|]. destruct C as [Hp Hd He Hf Hen Hn]. split; cbn; auto; discriminate. }
  apply bind_inv in E as (r & s1 & E1 & E). apply on_transport_inv in E1 as (w1 & E1 & ->). cbn [fst snd] in *.
  destruct (stream_read _ _ _ _ _ E1) as [_ R]. destruct r as [bytes|e].
  + assert (R' : came w1 = came w ++ bytes) by tauto. clear R. destruct bytes as [|b bytes].
    { injection E as <- <-. rewrite app_nil_r in R'. split; cbn; [frame_step F|exact Q|exact C]. }
    apply bind_inv in E as (ms & s2 & E2 & E). apply on_transport_inv in E2 as (w2 & E2 & ->). cbn [fst snd] in *.
    injection E as <- <-. assert (R2 := proj2 (stream_ms w1)). unfold call in E2. injection E2 as E2. rewrite E2 in R2. cbn [snd] in R2.
    split; cbn; [|exact Q|].
    * destruct F as (bs & F1 & F2 & F3). exists (bs ++ b :: bytes). cbn. rewrite R2, R', F1, <- app_assoc.
      split; [reflexivity|]. split; [|exact F3]. rewrite app_assoc, F2, <- app_assoc. reflexivity.
    * destruct C as [Hp Hd He Hf Hen Hn]. split; cbn; auto; try (intros [X|X]); discriminate.
  + destruct (e =? VSCP_ERROR_TIMEOUT).
    { injection E as <- <-. split; cbn; [frame_step F|exact Q|exact C]. }
    injection E as <- <-. set (c1 := if readerError c =? VSCP_ERROR_SUCCESS then _ else c).
    assert (H1 : readerError c1 <> VSCP_ERROR_SUCCESS /\ inputBuffer c1 = inputBuffer c /\ eventQueue c1 = eventQueue c /\
      commandPending c1 = commandPending c /\ commandComplete c1 = commandComplete c /\ commandResponse c1 = commandResponse c /\
      commandResult c1 = commandResult c).
    { subst c1. destruct (Z.eqb_spec (readerError c) VSCP_ERROR_SUCCESS); [|repeat split; assumption]. cbn. split; [destruct (e =? _); discriminate|repeat split]. }
    clearbody c1. destruct H1 as (He1 & B1 & Q1 & P1 & D1 & R1 & X1).
    destruct (fail_command_frame (readerError c1) c1) as (Bf & Qf & Tf). split; cbn; rewrite ?Bf, ?Qf, ?Q1; [|exact Q|].
    * frame_step F.
    * destruct C as [Hp Hd He Hf Hen Hn].
      assert (K : command_ok (fail_command (readerError c1) (set_thread None c1)) l n).
      { apply fail_command_ok; cbn; rewrite ?P1, ?D1, ?R1, ?X1; auto; try (intros [X|X]; discriminate). }
      unfold fail_command in *. cbn in K |- *. destruct (commandPending c1) eqn:P; destruct K as [Kp Kd Ke _ _ _];
        split; cbn in *; rewrite ?P in *; auto; try discriminate.
Qed.

Lemma reader_step_ok w0 c0 w c l g n w' c' :
  run_ok w0 c0 (Run w c l g n) -> reader_step (w, c) = Returns (tt, (w', c')) ->
  run_ok w0 c0 (Run w' c' (l ++ next_line c) g n).
Proof.
  intros I E. unfold reader_step in E. rewrite (bind_returns _ _ (w, c) c (w, c)) in E by reflexivity. unfold next_line.
  destruct (thread c) as [pc|] eqn:T; [|injection E as <- <-; rewrite app_nil_r; exact I].
  destruct pc; [rewrite app_nil_r; exact (reader_read_ok _ _ _ _ _ _ _ _ _ T I E)|destruct I as [F Q C]; cbn [world chan seen given asked] in *..].
  - destruct (find [10] (inputBuffer c)) as [k|] eqn:Fn.
    + rewrite (bind_returns _ _ (w, c) w (w, c)) in E by reflexivity. injection E as <- <-.
      set (c1 := set_buffer _ c). set (line := take k (inputBuffer c)). destruct (process_frame (system_clock w) line c1) as (B & T1 & _).
      destruct (find_char_split _ _ _ Fn) as [Eb Hk]. split; cbn.
      * destruct F as (bs & F1 & F2 & F3). exists bs. cbn. rewrite B. cbn. split; [exact F1|]. split.
        -- rewrite unlines_app, <- app_assoc, F2. f_equal. unfold unlines. cbn [map concat]. rewrite app_nil_r, <- app_assoc.
           cbn [app]. fold line. subst line. exact Eb.
        -- apply Forall_app. split; [exact F3|]. constructor; [exact Hk|constructor].
      * apply queue_line. exact Q.
      * apply command_ok_goto; [discriminate..|]. apply command_ok_line; cbn; try (rewrite T; discriminate).
        destruct C as [Hp Hd He Hf Hen Hn]. split; cbn; auto.
    + injection E as <- <-. rewrite app_nil_r. split; cbn; [frame_step F|exact Q|]. apply command_ok_goto; [discriminate..|exact C].
  - injection E as <- <-. rewrite app_nil_r. split; cbn; [frame_step F|exact Q|].
    apply command_ok_goto; [destruct (readerStop c); discriminate..|exact C].
  - injection E as <- <-. rewrite app_nil_r. destruct (65536 <? _).
    + set (c1 := set_stop true _). destruct (fail_command_frame VSCP_ERROR_INVALID_FRAME c1) as (Bf & Qf & Tf). cbn in Bf, Qf.
      split; cbn; rewrite ?Bf, ?Qf; [frame_step F|exact Q|]. apply command_ok_goto; [discriminate..|]. destruct C as [Hp Hd He Hf Hen Hn].
      apply fail_command_ok; cbn; auto; discriminate.
    + split; cbn; [frame_step F|exact Q|]. apply command_ok_goto; [discriminate..|exact C].
  - injection E as <- <-. rewrite app_nil_r. set (e := if _ =? _ then _ else _).
    assert (He : e <> VSCP_ERROR_SUCCESS) by (subst e; destruct (Z.eqb_spec (readerError c) VSCP_ERROR_SUCCESS); [discriminate|assumption]).
    destruct (fail_command_frame e c) as (Bf & Qf & _). split; cbn; rewrite ?Bf, ?Qf; [frame_step F|exact Q|].
    destruct C as [Hp Hd Her Hf Hen Hn]. unfold fail_command. destruct (commandPending c) eqn:P.
    + destruct (Hp eq_refl) as (_ & R & _). split; cbn; try congruence; auto.
    + split; cbn; rewrite ?P; auto; congruence.
  - injection E as <- <-. rewrite app_nil_r. split; cbn; [frame_step F|exact Q|exact C].
Qed.

Lemma issue_ok c l n : command_ok c l n -> readerError c = VSCP_ERROR_SUCCESS -> readerStop c = false ->
  command_ok (issue c) l (length l).
Proof.
  intros [Hp Hd He Hf Hen Hn] Er St. split; cbn; [|discriminate|congruence|exact Hf| |reflexivity].
  - intros _. rewrite drop_all. auto.
  - intros T. exfalso. destruct (Hf (or_intror T)); congruence.
Qed.

Lemma close_section_ok c l n : command_ok c l n -> command_ok (close_section c) l n.
Proof.
  intros [Hp Hd He Hf Hen Hn]. unfold close_section.
  destruct (Z.eqb_spec (readerError c) VSCP_ERROR_SUCCESS) as [Es|Es]; apply fail_command_ok; cbn; auto; discriminate.
Qed.

(** Clearing the flags keeps what is known of the command. *)
Lemma command_ok_clear c c' l n : command_ok c l n ->
  commandPending c' = false \/ commandPending c' = commandPending c /\ commandResponse c' = [] ->
  commandComplete c' = false -> readerError c' = readerError c \/ commandPending c' = false ->
  (readerError c <> VSCP_ERROR_SUCCESS -> readerError c' <> VSCP_ERROR_SUCCESS) ->
  (readerStop c = true -> readerStop c' = true) -> thread c' = thread c \/ thread c' = None ->
  command_ok c' l n.
Proof.
  intros [Hp Hd He Hf Hen Hn] P D E E2 St T. split.
  - intros P'. destruct P as [P|[P R]]; [congruence|]. rewrite P in P'. destruct (Hp P') as (_ & _ & O). auto.
  - congruence.
  - intros Er. destruct P as [P|[P R]]; [exact P|]. destruct E as [E|E]; [|exact E]. rewrite P. apply He. congruence.
  - intros T'. destruct T as [T|T]; [|rewrite T in T'; destruct T'; discriminate]. rewrite T in T'. destruct (Hf T'); auto.
  - intros T'. destruct T as [T|T]; [|congruence]. rewrite T in T'. destruct P as [P|[P _]]; [exact P|]. rewrite P. auto.
  - exact Hn.
Qed.

Lemma moves_ok w0 c0 m m' : run_ok w0 c0 m -> moves m m' -> run_ok w0 c0 m'.
Proof.
  intros I St. destruct St as [w c l g n w' c' E|w c l g n w' E|w c l g n e q E|w c l g n|w c l g n Er Es|w c l g n|w c l g n
    |w c l g n D|w c l g n|w c l g n|w c l g n T];
    [exact (reader_step_ok _ _ _ _ _ _ _ _ _ I E)|
     destruct I as [F Q C]; cbn [world chan seen given asked] in *; split; cbn [world chan seen given asked]; try assumption..].
  - frame_step F.
  - cbn. rewrite <- app_assoc. cbn. rewrite <- E. exact Q.
  - destruct C as [Hp Hd He Hf Hen Hn]. split; assumption.
  - cbn. rewrite app_nil_r. exact Q.
  - destruct C as [Hp Hd He Hf Hen Hn]. split; assumption.
  - exact (issue_ok _ _ _ C Er Es).
  - apply (command_ok_clear _ _ _ _ C); cbn; auto.
  - apply (command_ok_clear _ _ _ _ C); cbn; auto; discriminate.
  - apply (command_ok_clear _ _ _ _ C); cbn; auto.
  - frame_step F. unfold close_section. destruct (_ =? _); refine (eq_trans (proj1 (fail_command_frame _ _)) _); reflexivity.
  - replace (eventQueue (close_section c)) with (eventQueue c); [exact Q|].
    unfold close_section, fail_command. destruct (_ =? _); cbn; destruct (commandPending c); reflexivity.
  - exact (close_section_ok _ _ _ C).
  - destruct C as [Hp Hd He Hf Hen Hn]. split; cbn; auto.
  - destruct C as [Hp Hd He Hf Hen Hn]. split; cbn; auto; try (intros [X|X]); discriminate.
Qed.

(** The state in which startSingleChannelReader starts the thread. *)
Definition fresh_channel (c : channel) : Prop :=
  thread c = Some Loop_test /\ readerStop c = false /\ readerError c = VSCP_ERROR_SUCCESS /\
  commandPending c = false /\ commandComplete c = false.

Lemma run_start w c g : fresh_channel c -> g ++ eventQueue c = [] -> run_ok w c (Run w c [] g 0).
Proof.
  intros (T & St & Er & P & D) Q. split; cbn.
  - exists []. rewrite !app_nil_r. auto.
  - exact Q.
  - split; rewrite ?T, ?St, ?Er, ?P, ?D; try congruence; [intros [X|X]; discriminate|cbn; lia].
Qed.

(** C12: In the single-channel receive loop, whatever the order in which the
    reader thread and the calls of the application run: the bytes of the
    connection are cut into lines at newlines, independently of how they arrive;
    the events that the application takes (or clears) and those that still wait
    are the event lines, in their order and each once; a command that completes
    has the first reply line that was processed after it was issued, or an error
    and no response; and when the reader has ended no command waits for it. *)
Theorem single_channel_exact w0 c0 m :
  fresh_channel c0 -> eventQueue c0 = [] -> rtc moves (Run w0 c0 [] [] 0) m ->
  (exists bytes, came (world m) = came w0 ++ bytes /\
     inputBuffer c0 ++ bytes = unlines (seen m) ++ inputBuffer (chan m) /\ Forall (fun l => 10 ∉ l) (seen m)) /\
  given m ++ eventQueue (chan m) = omap event_of (seen m) /\
  (commandComplete (chan m) = true ->
     (exists rest, omap reply_of (drop (asked m) (seen m)) = (commandResult (chan m), commandResponse (chan m)) :: rest) \/
     (commandResult (chan m) <> VSCP_ERROR_SUCCESS /\ commandResponse (chan m) = [])) /\
  (thread (chan m) = Some Ended ->
     commandPending (chan m) = false /\ (readerStop (chan m) = true \/ readerError (chan m) <> VSCP_ERROR_SUCCESS)).
Proof.
  intros Hf Hq R. assert (I : run_ok w0 c0 m).
  { refine (rtc_ind_r (run_ok w0 c0) (Run w0 c0 [] [] 0) _ _ m R); [|intros m1 m2 _ St I; exact (moves_ok _ _ _ _ I St)].
    apply run_start; [exact Hf|exact Hq]. }
  destruct I as [F Q [_ Hd _ Hfin Hen _]]. split; [exact F|]. split; [exact Q|]. split; [exact Hd|]. auto.
Qed.
End invariant.

(** ** The functions are runs

    Whatever [m] does is a sequence of moves that gives no event away and issues no
    command. *)
Section runs.
Context {W : Type} `{StreamLaws W}.

Definition runs {A} (m : M (W * channel) A) : Prop :=
  forall w c a w' c', m (w, c) = Returns (a, (w', c')) ->
  forall l g n, exists l', rtc moves (Run w c l g n) (Run w' c' l' g n).

Lemma runs_bind {A B} (m : M (W * channel) A) (k : A -> M (W * channel) B) :
  runs m -> (forall a, runs (k a)) -> runs (m ≫= k).
Proof.
  intros Hm Hk w c b w' c' E l g n. apply bind_inv in E as (a & [w1 c1] & E1 & E2).
  destruct (Hm _ _ _ _ _ E1 l g n) as [l1 R1]. destruct (Hk _ _ _ _ _ _ E2 l1 g n) as [l2 R2].
  exists l2. etrans; eassumption.
Qed.

Lemma runs_ret {A} (a : A) : runs (mret a).
Proof. intros w c b w' c' E l g n. injection E as _ <- <-. exists l. reflexivity. Qed.

Lemma runs_channel_of : runs channel_of.
Proof. intros w c b w' c' E l g n. injection E as _ <- <-. exists l. reflexivity. Qed.

Lemma runs_out_of_fuel {A} : runs (out_of_fuel : M (W * channel) A).
Proof. intros w c b w' c' E. discriminate. Qed.

Lemma runs_step : runs reader_step.
Proof.
  intros w c [] w' c' E l g n. exists (l ++ next_line c). apply rtc_once, move_reader. exact E.
Qed.

(** The functions of the world that leave the connection alone. *)
Lemma runs_call {A} (f : W -> A * W) : (forall w, came (f w).2 = came w) -> runs (on_transport (call f)).
Proof.
  intros Hf w c a w' c' E l g n. apply on_transport_inv in E as (w1 & E & [= -> ->]). unfold call in E. injection E as E.
  exists l. apply rtc_once, move_world. specialize (Hf w). rewrite E in Hf. exact Hf.
Qed.

Lemma runs_change (f : channel -> channel) :
  (forall w c l g n, rtc moves (Run w c l g n) (Run w (f c) l g n)) -> runs (change f).
Proof. intros Hf w c a w' c' E l g n. injection E as _ <- <-. exists l. apply Hf. Qed.

Lemma runs_steps k : runs (reader_steps k).
Proof. induction k as [|k IH]; cbn; [apply runs_ret|]. apply runs_bind; [apply runs_step|auto]. Qed.

Lemma runs_meanwhile : runs meanwhile.
Proof. apply runs_bind; [apply runs_call; intros w; apply stream_scheduled|]. intros k. apply runs_steps. Qed.

Lemma runs_join k : runs (join_reader k).
Proof.
  induction k as [|k IH]; intros w c a w' c' E l g n; cbn [join_reader] in E;
    rewrite (bind_returns _ _ (w, c) c (w, c)) in E by reflexivity;
    destruct (thread c) as [[]|] eqn:T; try discriminate;
    try (injection E as _ <- <-; exists l; first [reflexivity|apply rtc_once, move_join; exact T]);
    revert E l g n; apply (runs_bind reader_step (fun _ => join_reader k)); auto using runs_step.
Qed.

Lemma runs_stop fuel : runs (stopSingleChannelReader fuel).
Proof.
  apply runs_bind; [apply runs_meanwhile|]. intros _. apply runs_bind; [|intros _; apply runs_join].
  apply runs_change. intros w c l g n. apply rtc_once, move_stop.
Qed.

Lemma runs_wait fuel deadline ready : runs (wait_until fuel deadline ready).
Proof.
  induction fuel as [|k IH]; cbn; (apply runs_bind; [apply runs_channel_of|]); intros c; (destruct (ready c); [apply runs_ret|]).
  - apply runs_out_of_fuel.
  - apply runs_bind; [apply runs_meanwhile|]. intros _. destruct deadline as [d|]; [|exact IH].
    apply runs_bind; [apply runs_call; intros w; apply stream_steady|]. intros now. destruct (d <=? now); [|exact IH].
    apply runs_bind; [apply runs_channel_of|]. intros c'. apply runs_ret.
Qed.

(** When a wait ends without its condition, the deadline has passed. *)
Lemma wait_ready fuel deadline ready s b s' :
  wait_until fuel deadline ready s = Returns (b, s') -> b = ready s'.2 /\ (deadline = None -> b = true).
Proof.
  revert s. induction fuel as [|k IH]; intros s E; cbn [wait_until] in E; rewrite (bind_returns _ _ s s.2 s) in E by reflexivity;
    destruct (ready s.2) eqn:R; try discriminate; try (injection E as <- <-; auto).
  apply bind_inv in E as ([] & s1 & _ & E). destruct deadline as [d|]; [|exact (IH _ E)].
  apply bind_inv in E as (now & s2 & _ & E). destruct (d <=? now); [|destruct (IH _ E) as [-> _]; split; [reflexivity|discriminate]].
  rewrite (bind_returns _ _ s2 s2.2 s2) in E by reflexivity. injection E as <- <-. split; [reflexivity|discriminate].
Qed.

(** The lines that a number of steps takes. *)
Fixpoint lines_taken (n : nat) (s : W * channel) : list (list Z) :=
  match n with
  | O => []
  | S n => next_line s.2 ++ match reader_step s with Returns (_, s) => lines_taken n s | _ => [] end
  end.

Lemma reader_steps_moves n w c w' c' l g k : reader_steps n (w, c) = Returns (tt, (w', c')) ->
  rtc moves (Run w c l g k) (Run w' c' (l ++ lines_taken n (w, c)) g k).
Proof.
  revert w c l. induction n as [|n IH]; intros w c l E; cbn [reader_steps lines_taken] in *.
  { injection E as <- <-. rewrite app_nil_r. reflexivity. }
  apply bind_inv in E as ([] & [w1 c1] & E1 & E2). rewrite E1. eapply rtc_l; [apply move_reader, E1|].
  rewrite app_assoc. apply IH, E2.
Qed.
End runs.

(** ** A run

    A connection of chunks, over which the application sends NOOP while an event
    comes, split in two. *)
Record sample_line := SampleLine { l_open : bool; l_in : list (list Z); l_came : list Z; l_out : list Z; l_now : Z }.

#[export] Instance sample_line_transport : TcpTransport sample_line := {|
  is_connected w := l_open w;
  transport_open _ _ _ _ := mret VSCP_ERROR_SUCCESS;
  transport_read len _ := fun w =>
    match l_in w with
    | [] => Returns (Got [], w)
    | c :: r =>
        let b := map u8 (first_bytes (Z.max 0 len) c) in
        let rest := drop (length b) c in
        Returns (Got b, SampleLine (l_open w) (match rest with [] => r | _ => rest :: r end) (l_came w ++ b) (l_out w) (l_now w))
    end;
  transport_write data _ := fun w =>
    Returns (VSCP_ERROR_SUCCESS, SampleLine (l_open w) (l_in w) (l_came w) (l_out w ++ data) (l_now w));
  transport_release w := SampleLine false (l_in w) (l_came w) (l_out w) (l_now w);
  steady_clock w := (l_now w * 1000000, SampleLine (l_open w) (l_in w) (l_came w) (l_out w) (l_now w + 1));
  ms_clock w := (u32 (l_now w), SampleLine (l_open w) (l_in w) (l_came w) (l_out w) (l_now w + 1));
  system_clock _ := Timespec 0 0;
  scheduled w := (1%nat, w)
|}.

Lemma length_first_bytes n l : 0 <= n -> Z.of_nat (length (first_bytes n l)) <= n.
Proof. intros Hn. unfold first_bytes. destruct (Z.leb_spec (Z.of_nat (length l)) n); [lia|]. rewrite length_take. lia. Qed.

#[export] Instance sample_line_laws : StreamLaws sample_line.
Proof.
  refine {| written := l_out; came := l_came |}; try (intros; split; [|try split]; reflexivity).
  - intros len t w r w' E. cbn in E. destruct (l_in w) as [|c rest]; injection E as <- <-; cbn; (split; [reflexivity|]).
    + rewrite app_nil_r. split; [lia|auto].
    + rewrite length_map. split; [apply length_first_bytes; lia|]. split; [apply map_u8_ok|reflexivity].
  - intros data t w rv w' E. injection E as <- <-. split; reflexivity.
Defined.

Definition sample_channel : channel := Channel (Some Loop_test) false [] [] [] false false 0 0 0.
Definition sample_world : sample_line := SampleLine true [str "0,20,3,0,,0,"; str "-" ++ CRLF ++ str "+OK - Success." ++ CRLF] [] [] 0.

(** The reader while NOOP waits: two reads, an event and the reply. *)
Definition reader_result (n : nat) (s : sample_line * channel) : option (sample_line * channel) :=
  match reader_steps n s with Returns (_, s) => Some s | _ => None end.

Example sample_reads :
  reader_result 9 (sample_world, set_command [] true false 0 sample_channel) =
  Some (SampleLine true [] (str "0,20,3,0,,0,-" ++ CRLF ++ str "+OK - Success." ++ CRLF) [] 2,
        Channel (Some Size_test) false [str "0,20,3,0,,0,-"] [] (str "+OK - Success." ++ CRLF) false true 0 0 1).
Proof. vm_compute. reflexivity. Qed.

Definition sample_end : run sample_line :=
  Run (SampleLine true [] (str "0,20,3,0,,0,-" ++ CRLF ++ str "+OK - Success." ++ CRLF) [] 2)
      (Channel (Some Size_test) false [str "0,20,3,0,,0,-"] [] (str "+OK - Success." ++ CRLF) false true 0 0 1)
      [str "0,20,3,0,,0,-" ++ [13]; str "+OK - Success." ++ [13]] [] 0.

Lemma sample_moves : rtc moves (Run sample_world sample_channel [] [] 0) sample_end.
Proof.
  eapply rtc_l; [apply move_issue; reflexivity|].
  change sample_end with (Run (world sample_end) (chan sample_end)
    ([] ++ lines_taken 9 (sample_world, issue sample_channel)) [] 0).
  apply reader_steps_moves. reflexivity.
Qed.

Lemma single_channel_exact_witness :
  given sample_end ++ eventQueue (chan sample_end) = omap event_of (seen sample_end).
Proof.
  apply (single_channel_exact sample_world sample_channel sample_end); [repeat split|reflexivity|exact sample_moves].
Defined.
