(* ===== verification/TcpIf.v ===== *)
(** * The TCP client: class VscpRemoteTcpIf of src/src/vscp/common/vscpremotetcpif.cpp

    The object, its text and binary modes, and the exchange of commands: a command
    is written and the reply is collected into lines; in the single-channel
    receive loop the reader thread of [TcpReader] hands the reply over; in binary
    mode frames with a length in front of them are exchanged.  The functions are
    state passing over the world behind [TcpTransport.TcpTransport] and the
    object. *)

From S2P Require Import Prelude Program Crc DateTime Event Frame Strings EventString TcpTransport TcpReader.

Definition UINT16_MAX : Z := 65535.
Definition TCPIP_DEFAULT_CONNECT_TIMEOUT_SECONDS : Z := 15.
Definition TCPIP_DEFAULT_INNER_RESPONSE_TIMEOUT : Z := 10.

Inductive tls_mode := auto_select | force_tls | force_plain.

(** ** The object *)

(** [m_version] has the year, the month and the patch. *)
Record VscpRemoteTcpIf := TcpIf {
  m_strResponse : list Z;
  m_inputStrArray : list (list Z);
  m_bModeReceiveLoop : bool;
  m_bSingleChannelReceiveLoop : bool;
  m_bBinaryMode : bool;
  m_binaryInput : list Z;
  m_connectionTimeOut : Z;
  m_responseTimeOut : Z;
  m_innerResponseTimeout : Z;
  m_version : Z * Z * Z;
  m_tlsMode : tls_mode;
  m_bTLS : bool;
  m_singleChannel : channel
}.

Definition set_text (r : list Z) (a : list (list Z)) (o : VscpRemoteTcpIf) : VscpRemoteTcpIf :=
  TcpIf r a (m_bModeReceiveLoop o) (m_bSingleChannelReceiveLoop o) (m_bBinaryMode o) (m_binaryInput o) (m_connectionTimeOut o) (m_responseTimeOut o) (m_innerResponseTimeout o) (m_version o) (m_tlsMode o) (m_bTLS o) (m_singleChannel o).
Definition set_response (r : list Z) (o : VscpRemoteTcpIf) : VscpRemoteTcpIf := set_text r (m_inputStrArray o) o.
Definition set_lines (a : list (list Z)) (o : VscpRemoteTcpIf) : VscpRemoteTcpIf := set_text (m_strResponse o) a o.
Definition set_loop (b : bool) (o : VscpRemoteTcpIf) : VscpRemoteTcpIf :=
  TcpIf (m_strResponse o) (m_inputStrArray o) b (m_bSingleChannelReceiveLoop o) (m_bBinaryMode o) (m_binaryInput o) (m_connectionTimeOut o) (m_responseTimeOut o) (m_innerResponseTimeout o) (m_version o) (m_tlsMode o) (m_bTLS o) (m_singleChannel o).
Definition set_single (b : bool) (o : VscpRemoteTcpIf) : VscpRemoteTcpIf :=
  TcpIf (m_strResponse o) (m_inputStrArray o) (m_bModeReceiveLoop o) b (m_bBinaryMode o) (m_binaryInput o) (m_connectionTimeOut o) (m_responseTimeOut o) (m_innerResponseTimeout o) (m_version o) (m_tlsMode o) (m_bTLS o) (m_singleChannel o).
Definition set_binary (b : bool) (i : list Z) (o : VscpRemoteTcpIf) : VscpRemoteTcpIf :=
  TcpIf (m_strResponse o) (m_inputStrArray o) (m_bModeReceiveLoop o) (m_bSingleChannelReceiveLoop o) b i (m_connectionTimeOut o) (m_responseTimeOut o) (m_innerResponseTimeout o) (m_version o) (m_tlsMode o) (m_bTLS o) (m_singleChannel o).
Definition set_binaryInput (i : list Z) (o : VscpRemoteTcpIf) : VscpRemoteTcpIf := set_binary (m_bBinaryMode o) i o.
Definition set_timeouts (c r i : Z) (o : VscpRemoteTcpIf) : VscpRemoteTcpIf :=
  TcpIf (m_strResponse o) (m_inputStrArray o) (m_bModeReceiveLoop o) (m_bSingleChannelReceiveLoop o) (m_bBinaryMode o) (m_binaryInput o) c r i (m_version o) (m_tlsMode o) (m_bTLS o) (m_singleChannel o).
Definition set_version (v : Z * Z * Z) (o : VscpRemoteTcpIf) : VscpRemoteTcpIf :=
  TcpIf (m_strResponse o) (m_inputStrArray o) (m_bModeReceiveLoop o) (m_bSingleChannelReceiveLoop o) (m_bBinaryMode o) (m_binaryInput o) (m_connectionTimeOut o) (m_responseTimeOut o) (m_innerResponseTimeout o) v (m_tlsMode o) (m_bTLS o) (m_singleChannel o).
Definition set_tls (m : tls_mode) (b : bool) (o : VscpRemoteTcpIf) : VscpRemoteTcpIf :=
  TcpIf (m_strResponse o) (m_inputStrArray o) (m_bModeReceiveLoop o) (m_bSingleChannelReceiveLoop o) (m_bBinaryMode o) (m_binaryInput o) (m_connectionTimeOut o) (m_responseTimeOut o) (m_innerResponseTimeout o) (m_version o) m b (m_singleChannel o).
Definition set_channel (c : channel) (o : VscpRemoteTcpIf) : VscpRemoteTcpIf :=
  TcpIf (m_strResponse o) (m_inputStrArray o) (m_bModeReceiveLoop o) (m_bSingleChannelReceiveLoop o) (m_bBinaryMode o) (m_binaryInput o) (m_connectionTimeOut o) (m_responseTimeOut o) (m_innerResponseTimeout o) (m_version o) (m_tlsMode o) (m_bTLS o) c.

(** The constructor; the version is the one the program was built with. *)
Definition new_VscpRemoteTcpIf (version : Z * Z * Z) : VscpRemoteTcpIf :=
  TcpIf [] [] false false false [] TCPIP_DEFAULT_CONNECT_TIMEOUT_SECONDS TCPIP_DEFAULT_RESPONSE_TIMEOUT
    TCPIP_DEFAULT_INNER_RESPONSE_TIMEOUT version auto_select false
    (Channel None false [] [] [] false false VSCP_ERROR_SUCCESS VSCP_ERROR_SUCCESS 0).

(** The setters of the header. *)
Definition setConnectTimeout (t : Z) (o : VscpRemoteTcpIf) : VscpRemoteTcpIf :=
  set_timeouts (u16 t) (m_responseTimeOut o) (m_innerResponseTimeout o) o.
Definition setResponseTimeout (t : Z) (o : VscpRemoteTcpIf) : VscpRemoteTcpIf :=
  set_timeouts (m_connectionTimeOut o) (if u32 t <? 100 then 1000 else u32 t) (m_innerResponseTimeout o) o.
Definition setInnerResponseTimeout (t : Z) (o : VscpRemoteTcpIf) : VscpRemoteTcpIf :=
  set_timeouts (m_connectionTimeOut o) (m_responseTimeOut o) (s32 (u32 t)) o.
Definition enableTLS (b : bool) (o : VscpRemoteTcpIf) : VscpRemoteTcpIf :=
  set_tls (if b then force_tls else force_plain) b o.
Definition setTLSMode (m : tls_mode) (o : VscpRemoteTcpIf) : VscpRemoteTcpIf :=
  set_tls m (match m with auto_select => m_bTLS o | force_tls => true | force_plain => false end) o.

(** ** Replies *)

Definition contains (p s : list Z) : bool := bool_decide (is_Some (find p s)).

Definition isReceiveCommand (command : list Z) : bool :=
  let s := skip_spaces command in
  negb (length s <? 4)%nat && bool_decide (map toupper (take 4 s) = str "RETR") &&
  match drop 4 s with [] => true | c :: _ => isspace c end.

Definition emptyResponse : list Z := str "-OK - No event(s) available".

Definition isEmptyReceiveResponse (response : list Z) : bool :=
  match rfind emptyResponse response with
  | None => false
  | Some position =>
      ((position =? 0)%nat || (nth (position - 1) response 0 =? 10)) &&
      forallb (fun c => (c =? 32) || (c =? 9) || (c =? 13) || (c =? 10)) (drop (position + length emptyResponse) response)
  end.

(** The overload for the lines of a reply. *)
Definition lines_empty_response (lines : list (list Z)) : bool :=
  match rev lines with l :: _ => isEmptyReceiveResponse l | [] => false end.

Definition doClrInputQueue (o : VscpRemoteTcpIf) : VscpRemoteTcpIf := set_text [] [] o.

(** The part of a string up to and with the last newline, and the rest. *)
Definition split_last_newline (s : list Z) : list Z * list Z :=
  match rfind [10] s with
  | None => ([], s)
  | Some fpos => (take (fpos + 1) s, drop (fpos + 1) s)
  end.

(** The lines of complete rows, trimmed, without the blank ones. *)
Definition reply_lines (s : list Z) : list (list Z) :=
  filter (fun l => l <> []) (map vscp_trim (vscp_split s [10])).

Definition addInputStringArrayFromReply (bClear : bool) (o : VscpRemoteTcpIf) : Z * VscpRemoteTcpIf :=
  let o := if bClear then set_lines [] o else o in
  if (length (m_strResponse o) =? 0)%nat then (0, o)
  else
    let '(rows, rest) := split_last_newline (m_strResponse o) in
    let lines := m_inputStrArray o ++ reply_lines rows in
    (Z.of_nat (length lines), set_text rest lines o).

Definition isSingleChannelCommandAllowed (command : list Z) : bool :=
  if existsb (fun c => (c =? 13) || (c =? 10)) command then false
  else if bool_decide (command = str "NOOP") || bool_decide (command = str "CLRA") || bool_decide (command = str "QUITLOOP")
  then true
  else (5 <? length command)%nat && bool_decide (take 4 command = str "SEND") && isspace (nth 4 command 0).

(** Whether a command text ends in its line terminator, with only blanks after it. *)
Fixpoint terminated (cmd : list Z) : bool :=
  match cmd with
  | [] => false
  | c :: r =>
      if (c =? 13) || (c =? 10)
      then forallb (fun c => (c =? 13) || (c =? 10) || (c =? 32) || (c =? 9)) cmd
      else terminated r
  end.

(** ** The transport and the reader *)

Section client.
Context {W : Type} `{TcpTransport W}.
Variable fuel : nat.
Abbreviation tcp := (M (W * VscpRemoteTcpIf)).

Definition this : tcp VscpRemoteTcpIf := fun s => Returns (s.2, s).
Definition modify (f : VscpRemoteTcpIf -> VscpRemoteTcpIf) : tcp unit := fun s => Returns (tt, (s.1, f s.2)).
Definition io {A} (m : M W A) : tcp A := fun s =>
  match m s.1 with
  | Returns (a, w) => Returns (a, (w, s.2))
  | Throws => Throws
  | Undefined => Undefined
  | OutOfFuel => OutOfFuel
  end.
(** A function on the shared state of the reader. *)
Definition shared {A} (m : M (W * channel) A) : tcp A := fun s =>
  match m (s.1, m_singleChannel s.2) with
  | Returns (a, (w, c)) => Returns (a, (w, set_channel c s.2))
  | Throws => Throws
  | Undefined => Undefined
  | OutOfFuel => OutOfFuel
  end.
Definition set_lastResponseTime : tcp unit := ms ← io (call ms_clock); shared (change (set_time ms)).

Definition isConnected : tcp bool := _ ← shared meanwhile; io (fun w => Returns (is_connected w, w)).
Definition system_time : tcp timespec := io (fun w => Returns (system_clock w, w)).

Definition transportClose : tcp unit :=
  _ ← shared (stopSingleChannelReader fuel);
  _ ← shared (change close_section);
  io (call (fun w => (tt, transport_release w))).

Definition transportWrite (data : list Z) (timeout : Z) : tcp Z :=
  result ← io (transport_write data timeout);
  _ ← (if result =? VSCP_ERROR_SUCCESS then mret tt else transportClose);
  mret result.

(** ** The reader thread *)

(** The lines and the rest of the buffer go over to the reader, which is started
    unless one of the lines ends the loop. *)
Definition startSingleChannelReader : tcp Z :=
  o ← this;
  if bool_decide (is_Some (thread (m_singleChannel o))) then mret VSCP_ERROR_PARAMETER
  else
    now ← system_time;
    let c := set_buffer (m_strResponse o)
      (set_command [] false false VSCP_ERROR_SUCCESS
        (set_stop false (set_error VSCP_ERROR_SUCCESS (m_singleChannel o)))) in
    let c := foldl (fun c line => processSingleChannelLine now line c) c (m_inputStrArray o) in
    _ ← modify (fun o => set_channel c (set_text [] [] o));
    if negb (readerError c =? VSCP_ERROR_SUCCESS) then mret (readerError c)
    else
      _ ← shared (change (goto Loop_test));
      mret VSCP_ERROR_SUCCESS.

(** What the condition variable is waited for with a command: the result, and the
    response that goes with it. *)
Definition collect_result (ready : bool) : M (W * channel) (Z * list Z) :=
  c ← channel_of;
  if negb ready then _ ← change time_out; mret (VSCP_ERROR_TIMEOUT, [])
  else if commandComplete c then _ ← change collect; mret (commandResult c, commandResponse c)
  else mret (if readerError c =? VSCP_ERROR_SUCCESS then VSCP_ERROR_STOPPED else readerError c, []).

Definition doSingleChannelCommand (cmd command : list Z) : tcp Z :=
  if negb (isSingleChannelCommandAllowed command) then mret VSCP_ERROR_PARAMETER
  else if negb (terminated cmd) then mret VSCP_ERROR_PARAMETER
  else
    connected ← isConnected;
    if negb connected then mret VSCP_ERROR_CONNECTION
    else
      _ ← shared meanwhile;
      o ← this;
      let c := m_singleChannel o in
      if negb (readerError c =? VSCP_ERROR_SUCCESS) || readerStop c || bool_decide (thread c = None)
      then mret (if readerError c =? VSCP_ERROR_SUCCESS then VSCP_ERROR_STOPPED else readerError c)
      else
        _ ← shared (change issue);
        rv ← transportWrite cmd (m_responseTimeOut o);
        if negb (rv =? VSCP_ERROR_SUCCESS) then
          _ ← shared meanwhile;
          _ ← shared (change cancel);
          mret VSCP_ERROR_ERROR
        else
          _ ← shared meanwhile;
          now ← io (call steady_clock);
          ready ← shared (wait_until fuel (Some (now + m_responseTimeOut o * 1000000)) (fun c =>
            commandComplete c || negb (readerError c =? VSCP_ERROR_SUCCESS) || readerStop c));
          '(result, response) ← shared (collect_result ready);
          if result =? VSCP_ERROR_TIMEOUT then
            _ ← shared (stopSingleChannelReader fuel);
            _ ← transportClose;
            _ ← modify (set_loop false);
            mret result
          else
            _ ← (match response with
                 | [] => mret tt
                 | _ => modify (fun o => snd (addInputStringArrayFromReply false (set_text response [] o)))
                 end);
            mret result.

(** ** Commands in text mode *)

(** The bound of a read: the inner timeout, or all of the time that is left. *)
Definition read_timeout (inner remaining : Z) : Z := if inner <? 0 then remaining else Z.min inner remaining.

(** The loop of checkReturnValueForCommand. *)
Fixpoint reply_loop (n : nat) (start : Z) : tcp bool :=
  match n with
  | O => out_of_fuel
  | S n =>
      t ← io (call ms_clock);
      o ← this;
      if negb (u32 (t - start) <? m_responseTimeOut o) then mret false
      else
        t ← io (call ms_clock);
        let elapsed := u32 (t - start) in
        if m_responseTimeOut o <=? elapsed then mret false
        else
          let remaining := Z.min (m_responseTimeOut o - elapsed) INT_MAX in
          r ← io (transport_read 0x1fff (read_timeout (m_innerResponseTimeout o) remaining));
          match r with
          | Failed _ => mret false
          | Got bytes =>
              _ ← (match bytes with
                   | [] => mret tt
                   | _ => set_lastResponseTime ≫= fun _ => modify (fun o => set_response (m_strResponse o ++ bytes) o)
                   end : tcp unit);
              o ← this;
              if contains (str "+ERR") (m_strResponse o) then mret false
              else if contains (str "+OK") (m_strResponse o) && contains [10] (c_str bytes) then mret true
              else reply_loop n start
          end
  end.

(** The second argument of the code only chooses what is logged. *)
Definition checkReturnValueForCommand (bClear : bool) : tcp bool :=
  o ← this;
  if m_bBinaryMode o then mret false
  else
    _ ← (if bClear then modify doClrInputQueue else mret tt);
    start ← io (call ms_clock);
    reply_loop fuel start.

(** One character after the other up to the end of the line. *)
Fixpoint binary_reply_loop (n : nat) (deadline : Z) (response : list Z) : tcp Z :=
  if (8192 <=? Z.of_nat (length response)) then _ ← transportClose; mret VSCP_ERROR_INVALID_FRAME
  else
    match n with
    | O => out_of_fuel
    | S n =>
        now ← io (call steady_clock);
        let remaining := Z.quot (deadline - now) 1000000 in
        if remaining <=? 0 then _ ← transportClose; mret VSCP_ERROR_TIMEOUT
        else
          r ← io (transport_read 1 (Z.min remaining INT_MAX));
          match r with
          | Failed _ => _ ← transportClose; mret VSCP_ERROR_STOPPED
          | Got [] => binary_reply_loop n deadline response
          | Got (byte :: _) =>
              _ ← set_lastResponseTime;
              let response := response ++ [byte] in
              if byte =? 10 then
                let line := vscp_trim response in
                if bool_decide (line = str "+OK") || starts_with (str "+OK ") line then
                  _ ← modify (set_binary true []); mret VSCP_ERROR_SUCCESS
                else if starts_with (str "-OK") line || starts_with (str "+ERR") line then mret VSCP_ERROR_ERROR
                else _ ← transportClose; mret VSCP_ERROR_INVALID_FRAME
              else binary_reply_loop n deadline response
          end
    end.

Definition doCmdBinary : tcp Z :=
  connected ← isConnected;
  o ← this;
  if negb connected then mret VSCP_ERROR_CONNECTION
  else if m_bBinaryMode o then mret VSCP_ERROR_SUCCESS
  else if m_bModeReceiveLoop o then mret VSCP_ERROR_PARAMETER
  else
    _ ← modify doClrInputQueue;
    rv ← transportWrite (str "BINARY" ++ CRLF) (m_responseTimeOut o);
    if negb (rv =? VSCP_ERROR_SUCCESS) then mret (if rv <? 0 then - rv else rv)
    else
      now ← io (call steady_clock);
      binary_reply_loop fuel (now + m_responseTimeOut o * 1000000) [].

Definition doCommand (cmd : list Z) : tcp Z :=
  o ← this;
  if m_bBinaryMode o then mret VSCP_ERROR_PARAMETER
  else
    let command := vscp_makeUpper (vscp_trim cmd) in
    if bool_decide (command = str "BINARY") then doCmdBinary
    else if m_bModeReceiveLoop o && m_bSingleChannelReceiveLoop o then doSingleChannelCommand cmd command
    else
      _ ← modify doClrInputQueue;
      connected ← isConnected;
      if negb connected then mret VSCP_ERROR_CONNECTION
      else
        rv ← transportWrite cmd (m_responseTimeOut o);
        if negb (rv =? VSCP_ERROR_SUCCESS) then mret VSCP_ERROR_ERROR
        else
          ret ← checkReturnValueForCommand true;
          _ ← modify (fun o => snd (addInputStringArrayFromReply false o));
          mret (if (ret : bool) then VSCP_ERROR_SUCCESS else VSCP_ERROR_ERROR).

(** The overload for C strings. *)
Definition doCommand_c_str (cmd : option (list Z)) : tcp Z :=
  match cmd with
  | None => mret VSCP_ERROR_PARAMETER
  | Some cmd => doCommand (c_str cmd)
  end.

(** ** Binary mode *)

(** A frame with its length in front. *)
Definition packet (frame : list Z) : list Z :=
  u8 (Z.shiftr (Z.of_nat (length frame)) 8) :: u8 (Z.of_nat (length frame)) :: frame.

Definition sendBinaryFrame (frame : list Z) : tcp Z :=
  connected ← isConnected;
  o ← this;
  if negb connected then mret VSCP_ERROR_CONNECTION
  else if negb (m_bBinaryMode o) || (length frame =? 0)%nat || (UINT16_MAX <? Z.of_nat (length frame)) then mret VSCP_ERROR_PARAMETER
  else
    result ← transportWrite (packet frame) (m_responseTimeOut o);
    mret (if result <? 0 then - result else result).

(** What the bytes in hand say: how many are needed, the frame when they are all
    there, or that the length is 0. *)
Inductive frame_state := Needs (n : Z) | Complete (frame : list Z) | Empty_frame.

Definition frame_progress (input : list Z) : frame_state :=
  match input with
  | hi :: lo :: frame =>
      let length := Z.lor (Z.shiftl hi 8) lo in
      if length =? 0 then Empty_frame
      else if Z.of_nat (2 + List.length frame) =? 2 + length then Complete frame
      else Needs (2 + length)
  | _ => Needs 2
  end.

(** The frame stays as it was when there is none.  Bytes of a frame that has not
    come in full are kept for the next call. *)
Fixpoint binary_frame_loop (n : nat) (deadline : Z) (frame : list Z) : tcp (Z * list Z) :=
  match n with
  | O => out_of_fuel
  | S n =>
      o ← this;
      match frame_progress (m_binaryInput o) with
      | Empty_frame =>
          _ ← transportClose;
          _ ← modify (set_binaryInput []);
          mret (VSCP_ERROR_INVALID_FRAME, frame)
      | Complete f =>
          _ ← modify (set_binaryInput []);
          mret (VSCP_ERROR_SUCCESS, f)
      | Needs needed =>
          now ← io (call steady_clock);
          let remaining := Z.quot (deadline - now) 1000000 in
          r ← io (transport_read (Z.min 8192 (u64 (needed - Z.of_nat (length (m_binaryInput o)))))
                                 (Z.max 0 (Z.min remaining INT_MAX)));
          match r with
          | Failed _ =>
              _ ← transportClose;
              _ ← modify (set_binaryInput []);
              mret (VSCP_ERROR_STOPPED, frame)
          | Got [] =>
              now ← io (call steady_clock);
              if deadline <=? now then mret (VSCP_ERROR_TIMEOUT, frame) else binary_frame_loop n deadline frame
          | Got bytes =>
              _ ← modify (fun o => set_binaryInput (m_binaryInput o ++ bytes) o);
              _ ← set_lastResponseTime;
              binary_frame_loop n deadline frame
          end
      end
  end.

Definition receiveBinaryFrame (frame : list Z) (timeout : Z) : tcp (Z * list Z) :=
  connected ← isConnected;
  o ← this;
  if negb connected then mret (VSCP_ERROR_CONNECTION, frame)
  else if negb (m_bBinaryMode o) then mret (VSCP_ERROR_PARAMETER, frame)
  else
    now ← io (call steady_clock);
    binary_frame_loop fuel (now + timeout * 1000000) frame.

(** The confirmation of a received event has its class and CRC fields. *)
Definition confirmation_argument (frame : list Z) : list Z :=
  [0; 0; nth 1 frame 0; nth 2 frame 0; nth (length frame - 2) frame 0; nth (length frame - 1) frame 0].

Definition event_frame_ok (frame : list Z) : bool :=
  (38 <=? Z.of_nat (length frame)) && (Z.land (nth 0 frame 0) 0x0f =? 0) && (Z.shiftr (nth 0 frame 0) 4 <=? 1).

Definition processBinaryEventFrame (frame : list Z) (event : option vscpEvent) (acknowledge : bool) : tcp (Z * option vscpEvent) :=
  if bool_decide (event = None) then mret (VSCP_ERROR_PARAMETER, event)
  else if negb (event_frame_ok frame) then mret (VSCP_ERROR_INVALID_FRAME, event)
  else
    let sizeData := Z.lor (Z.shiftl (nth 34 frame 0) 8) (nth 35 frame 0) in
    if (VSCP_MAX_DATA <? sizeData) || negb (Z.of_nat (length frame) =? sizeData + 38)
    then mret (VSCP_ERROR_INVALID_FRAME, event)
    else
      now ← system_time;
      '(ok, event) ← defined (vscp_getEventFromFrame now event (Some frame) (Z.of_nat (length frame)));
      if negb ok then mret (VSCP_ERROR_INVALID_FRAME, event)
      else if negb acknowledge then mret (VSCP_ERROR_SUCCESS, event)
      else
        '(result, confirmation) ← defined (vscp_writeReplyToFrame (Some (replicate 13 0)) 13 0xffff
                                             VSCP_ERROR_SUCCESS (Some (confirmation_argument frame)) 6);
        result ← (if result =? VSCP_ERROR_SUCCESS then sendBinaryFrame (default [] confirmation) else mret result);
        if result =? VSCP_ERROR_SUCCESS then mret (result, event)
        else mret (result, (fun e => set_pdata 0 None e) <$> event).

(** A confirmation of an event that was sent: no error, or the error it has. *)
Definition is_confirmation (frame : list Z) : bool :=
  (Z.shiftr (nth 0 frame 0) 4 =? 15) && (length frame =? 13)%nat && (nth 1 frame 0 =? 0xff) && (nth 2 frame 0 =? 0xff).

Fixpoint binary_event_loop (n : nat) (deadline : Z) (event : option vscpEvent) : tcp (Z * option vscpEvent) :=
  match n with
  | O => out_of_fuel
  | S n =>
      now ← io (call steady_clock);
      let remaining := Z.quot (deadline - now) 1000000 in
      '(result, frame) ← receiveBinaryFrame [] (u32 (Z.max 0 remaining));
      if negb (result =? VSCP_ERROR_SUCCESS) then mret (result, event)
      else if negb (Z.land (nth 0 frame 0) 0x0f =? 0) || (length frame <? 5)%nat then mret (VSCP_ERROR_INVALID_FRAME, event)
      else if is_confirmation frame then
        if negb (crcFast (drop 1 frame) =? 0) then mret (VSCP_ERROR_INVALID_FRAME, event)
        else
          let error := Z.lor (Z.shiftl (nth 3 frame 0) 8) (nth 4 frame 0) in
          if negb (error =? 0) then mret (error, event)
          else
            now ← io (call steady_clock);
            if deadline <=? now then mret (VSCP_ERROR_TIMEOUT, event) else binary_event_loop n deadline event
      else processBinaryEventFrame frame event true
  end.

Definition receiveBinaryEvent (event : option vscpEvent) (timeout : Z) : tcp (Z * option vscpEvent) :=
  now ← io (call steady_clock);
  binary_event_loop fuel (now + timeout * 1000000) event.

(** ** The receive loop *)

Definition rcvloopRead (timeout : Z) : tcp Z :=
  o ← this;
  if m_bBinaryMode o then mret VSCP_ERROR_PARAMETER
  else if m_bModeReceiveLoop o && m_bSingleChannelReceiveLoop o then
    _ ← shared meanwhile;
    now ← io (call steady_clock);
    ready ← shared (wait_until fuel (if timeout <? 0 then None else Some (now + timeout * 1000000)) (fun c =>
      negb (bool_decide (eventQueue c = [])) || commandComplete c ||
      negb (readerError c =? VSCP_ERROR_SUCCESS) || readerStop c));
    o ← this;
    let c := m_singleChannel o in
    mret (if negb ready then VSCP_ERROR_TIMEOUT
          else if negb (readerError c =? VSCP_ERROR_SUCCESS) then readerError c
          else if readerStop c then VSCP_ERROR_STOPPED
          else VSCP_ERROR_SUCCESS)
  else
    r ← io (transport_read 8192 timeout);
    match r with
    | Failed e => mret (if e =? VSCP_ERROR_TIMEOUT then VSCP_ERROR_TIMEOUT
                        else if e =? VSCP_ERROR_STOPPED then VSCP_ERROR_STOPPED else VSCP_ERROR_ERROR)
    | Got [] => mret VSCP_ERROR_TIMEOUT
    | Got bytes =>
        _ ← modify (fun o => snd (addInputStringArrayFromReply false (set_response (m_strResponse o ++ bytes) o)));
        mret VSCP_ERROR_SUCCESS
    end.
End client.

(** ** Lemmas: the parts of a call *)

Section parts.
Context {W : Type} `{StreamLaws W}.

(** Nothing is written and nothing is read. *)
Definition still (w w' : W) : Prop := written w' = written w /\ came w' = came w.

#[export] Instance still_preorder : PreOrder still.
Proof. split; [split; reflexivity|]. intros w1 w2 w3 [A1 B1] [A2 B2]. split; congruence. Qed.

Lemma still_steady w : still w (steady_clock w).2.
Proof. apply stream_steady. Qed.
Lemma still_ms w : still w (ms_clock w).2.
Proof. apply stream_ms. Qed.
Lemma still_scheduled w : still w (scheduled w).2.
Proof. apply stream_scheduled. Qed.

Lemma io_inv {A} (m : M W A) s a s' : io m s = Returns (a, s') -> exists w, m s.1 = Returns (a, w) /\ s' = (w, s.2).
Proof. unfold io. destruct (m s.1) as [[x w]| | |]; [|discriminate..]. injection 1 as <- <-. eauto. Qed.

Lemma shared_inv {A} (m : M (W * channel) A) s a s' : shared m s = Returns (a, s') ->
  exists w c, m (s.1, m_singleChannel s.2) = Returns (a, (w, c)) /\ s' = (w, set_channel c s.2).
Proof.
  unfold shared. destruct (m (s.1, m_singleChannel s.2)) as [[x [w c]]| | |]; [|discriminate..]. injection 1 as <- <-. eauto.
Qed.

Lemma io_call_inv {A} (f : W -> A * W) s a s' : (forall w, still w (f w).2) ->
  io (call f) s = Returns (a, s') -> still s.1 s'.1 /\ s'.2 = s.2.
Proof.
  intros Hf E. apply io_inv in E as (w & E & ->). unfold call in E. injection E as E. specialize (Hf s.1).
  rewrite E in Hf. auto.
Qed.

Lemma set_channel_id o : set_channel (m_singleChannel o) o = o.
Proof. destruct o. reflexivity. Qed.

Lemma set_channel_twice c c' o : set_channel c (set_channel c' o) = set_channel c o.
Proof. reflexivity. Qed.

(** Without a reader thread nothing happens meanwhile. *)
Lemma reader_steps_idle n (s : W * channel) : thread s.2 = None -> reader_steps n s = Returns (tt, s).
Proof.
  intros T. induction n as [|n IH]; [reflexivity|]. cbn [reader_steps].
  rewrite (bind_returns _ _ s tt s); [exact IH|]. unfold reader_step. rewrite (bind_returns _ _ s s.2 s) by reflexivity.
  rewrite T. reflexivity.
Qed.

Lemma meanwhile_idle (s : W * VscpRemoteTcpIf) : thread (m_singleChannel s.2) = None ->
  shared meanwhile s = Returns (tt, ((scheduled s.1).2, s.2)).
Proof.
  intros T. unfold shared, meanwhile. destruct (scheduled s.1) as [n w] eqn:E.
  rewrite (bind_returns _ _ _ n (w, m_singleChannel s.2)) by (unfold on_transport, call; cbn; rewrite E; reflexivity).
  rewrite reader_steps_idle by exact T. rewrite set_channel_id. reflexivity.
Qed.

Lemma isConnected_idle s b s' : thread (m_singleChannel s.2) = None -> isConnected s = Returns (b, s') ->
  still s.1 s'.1 /\ s'.2 = s.2 /\ b = is_connected s'.1.
Proof.
  intros T E. unfold isConnected in E. rewrite (bind_returns _ _ _ _ _ (meanwhile_idle s T)) in E.
  apply io_inv in E as (w & E & ->). injection E as <- <-. split; [apply still_scheduled|auto].
Qed.

(** A read of the transport. *)
Lemma io_read_inv len timeout s r s' : io (transport_read len timeout) s = Returns (r, s') ->
  written s'.1 = written s.1 /\ s'.2 = s.2 /\
  match r with
  | Got bytes => Z.of_nat (length bytes) <= Z.max 0 len /\ bytes_ok bytes /\ came s'.1 = came s.1 ++ bytes
  | Failed _ => came s'.1 = came s.1
  end.
Proof. intros E. apply io_inv in E as (w & E & ->). destruct (stream_read _ _ _ _ _ E). auto. Qed.

(** The time of the last response. *)
Lemma set_time_inv s a s' : set_lastResponseTime s = Returns (a, s') ->
  still s.1 s'.1 /\ exists ms, s'.2 = set_channel (set_time ms (m_singleChannel s.2)) s.2.
Proof.
  unfold set_lastResponseTime. intros E. apply bind_inv in E as (ms & s1 & E1 & E).
  apply (io_call_inv _ _ _ _ still_ms) in E1 as [S1 O1]. apply shared_inv in E as (w & c & E & ->). injection E as _ <- <-.
  cbn. rewrite O1. split; [exact S1|eauto].
Qed.

(** Closing the transport without a reader. *)
Lemma transportClose_idle fuel s a s' : thread (m_singleChannel s.2) = None -> transportClose fuel s = Returns (a, s') ->
  still s.1 s'.1 /\ is_connected s'.1 = false /\ exists c, s'.2 = set_channel c s.2 /\ thread c = None.
Proof.
  intros T E. unfold transportClose in E. apply bind_inv in E as ([] & s1 & E1 & E).
  unfold stopSingleChannelReader in E1. apply shared_inv in E1 as (w1 & c1 & E1 & ->).
  unfold meanwhile in E1. apply bind_inv in E1 as ([] & [w2 c2] & E2 & E1). apply bind_inv in E2 as (n & [w3 c3] & E3 & E2).
  apply on_transport_inv in E3 as (w4 & E3 & [= -> ->]). unfold call in E3. injection E3 as E3.
  assert (S3 := still_scheduled s.1). cbn [fst] in E3. rewrite E3 in S3. cbn [snd] in S3.
  rewrite reader_steps_idle in E2 by exact T. injection E2 as <- <-.
  rewrite (bind_returns _ _ (w4, m_singleChannel s.2) tt (w4, set_stop true (m_singleChannel s.2))) in E1 by reflexivity.
  assert (E1' : w1 = w4 /\ c1 = set_stop true (m_singleChannel s.2)).
  { destruct fuel; cbn [join_reader] in E1; rewrite (bind_returns _ _ _ (set_stop true (m_singleChannel s.2)) _) in E1 by reflexivity;
      cbn [thread set_stop] in E1; rewrite T in E1; injection E1 as <- <-; auto. }
  destruct E1' as [-> ->]. apply bind_inv in E as ([] & s5 & E5 & E). apply shared_inv in E5 as (w5 & c5 & E5 & ->).
  injection E5 as <- <-. apply io_inv in E as (w6 & E & ->). unfold call in E. injection E as <- <-. cbn [fst snd].
  destruct (stream_release w4) as (R1 & R2 & R3). split; [etrans; [exact S3|]; split; assumption|]. split; [exact R3|].
  eexists. split; [apply set_channel_twice|]. cbn [m_singleChannel set_channel]. unfold close_section, fail_command.
  destruct (_ =? _); cbn; destruct (commandPending _); exact T.
Qed.
End parts.
