(* ===== verification/TcpBinary.v ===== *)
(** * The binary mode of the TCP client: frames on a stream

    What [TcpIf.sendBinaryFrame] and [TcpIf.receiveBinaryFrame] do to the streams
    of bytes between two clients: frames keep their borders and their order however
    the bytes arrive, also when a call ends in the middle of a frame at its
    timeout. *)

From S2P Require Import Prelude Program Crc DateTime Event Frame Strings EventString TcpTransport TcpReader TcpIf.

(** ** Packets *)

(** A frame that can be sent. *)
Definition frame_fits (f : list Z) : Prop := (0 < length f)%nat /\ Z.of_nat (length f) <= UINT16_MAX.

(** Bytes in hand that do not go beyond the first frame. *)
Definition input_fits (i : list Z) : Prop :=
  match i with
  | hi :: lo :: r => Z.of_nat (length r) <= Z.lor (Z.shiftl hi 8) lo
  | _ => True
  end.

Lemma header_value hi lo : is_u8 hi -> is_u8 lo -> Z.lor (Z.shiftl hi 8) lo = 256 * hi + lo.
Proof.
  intros Hh Hl. rewrite Z.shiftl_mul_pow2, (lor_add_disjoint 8) by (unfold is_u8 in *; lia). lia.
Qed.

Lemma packet_header f : frame_fits f -> exists hi lo, packet f = hi :: lo :: f /\ is_u8 hi /\ is_u8 lo /\
  Z.lor (Z.shiftl hi 8) lo = Z.of_nat (length f).
Proof.
  intros [H0 H1]. unfold UINT16_MAX in H1. eexists _, _. split; [reflexivity|]. split; [apply u8_ok|]. split; [apply u8_ok|].
  rewrite header_value by apply u8_ok. rewrite Z.shiftr_div_pow2 by lia. width.
Qed.

Lemma progress_fits i : bytes_ok i -> input_fits i ->
  match frame_progress i with
  | Needs n => n = (match i with hi :: lo :: _ => 2 + Z.lor (Z.shiftl hi 8) lo | _ => 2 end) /\
               0 < n - Z.of_nat (length i) /\ n <= 2 + UINT16_MAX
  | Complete f => frame_fits f /\ i = packet f
  | Empty_frame => exists r, i = 0 :: 0 :: r
  end.
Proof.
  intros Hb Hf. destruct i as [|hi [|lo r]]; cbn [frame_progress input_fits] in *; [cbn; unfold UINT16_MAX; lia..|].
  inversion_clear Hb as [|? ? Hh Hb']. inversion_clear Hb' as [|? ? Hl Hr]. rewrite (header_value hi lo Hh Hl) in *.
  destruct (Z.eqb_spec (256 * hi + lo) 0) as [E|E].
  - exists r. assert (hi = 0 /\ lo = 0) as [-> ->] by width. reflexivity.
  - destruct (Z.eqb_spec (Z.of_nat (2 + length r)) (2 + (256 * hi + lo))) as [E2|E2].
    + split; [unfold frame_fits, UINT16_MAX; width|]. unfold packet. rewrite Z.shiftr_div_pow2 by lia. f_equal; [width|f_equal; width].
    + unfold UINT16_MAX. cbn [length] in *. width.
Qed.

(** More bytes, but not more than are needed. *)
Lemma fits_more i bytes n : bytes_ok i -> input_fits i -> frame_progress i = Needs n -> bytes_ok bytes ->
  Z.of_nat (length bytes) <= Z.max 0 (Z.min 8192 (u64 (n - Z.of_nat (length i)))) ->
  bytes_ok (i ++ bytes) /\ input_fits (i ++ bytes).
Proof.
  intros Hi Hf Hn Hb Hl. assert (P := progress_fits i Hi Hf). rewrite Hn in P. destruct P as (Pn & P0 & P1).
  split; [apply Forall_app; auto|]. unfold UINT16_MAX in P1. rewrite u64_id in Hl by width.
  destruct i as [|hi [|lo r]]; cbn [app length] in *.
  - destruct bytes as [|b1 [|b2 bytes]]; cbn; [exact I..|]. cbn [length] in Hl.
    inversion_clear Hb as [|? ? Hh Hb']. inversion_clear Hb' as [|? ? Hl' Hr]. rewrite header_value by assumption. width.
  - destruct bytes as [|b bytes]; cbn; [exact I|]. cbn [length] in Hl.
    inversion_clear Hi as [|? ? Hh _]. inversion_clear Hb as [|? ? Hl' Hr]. rewrite header_value by assumption. width.
  - cbn. rewrite length_app. lia.
Qed.

(** ** Receiving *)

Section receive.
Context {W : Type} `{StreamLaws W}.
Variable fuel : nat.

(** A client in binary mode, with bytes of at most one frame in hand. *)
Record binary_ok (o : VscpRemoteTcpIf) : Prop := {
  ok_mode : m_bBinaryMode o = true;
  ok_reader : thread (m_singleChannel o) = None;
  ok_bytes : bytes_ok (m_binaryInput o);
  ok_fits : input_fits (m_binaryInput o)
}.

Lemma binary_frame_spec n d f0 s rv f s' : binary_ok s.2 ->
  binary_frame_loop fuel n d f0 s = Returns ((rv, f), s') ->
  binary_ok s'.2 /\ written s'.1 = written s.1 /\
  exists bytes, came s'.1 = came s.1 ++ bytes /\
    ((rv = VSCP_ERROR_SUCCESS /\ frame_fits f /\ bytes_ok f /\ m_binaryInput s.2 ++ bytes = packet f /\ m_binaryInput s'.2 = []) \/
     (rv = VSCP_ERROR_TIMEOUT /\ m_binaryInput s'.2 = m_binaryInput s.2 ++ bytes) \/
     ((rv = VSCP_ERROR_INVALID_FRAME \/ rv = VSCP_ERROR_STOPPED) /\ is_connected s'.1 = false)).
Proof.
  revert s. induction n as [|n IH]; intros s Hs E; [discriminate|]. cbn [binary_frame_loop] in E.
  rewrite (bind_returns _ _ s s.2 s) in E by reflexivity.
  destruct Hs as [Hm Ht Hb Hf]. assert (P := progress_fits _ Hb Hf).
  destruct (frame_progress (m_binaryInput s.2)) as [needed|g|] eqn:Ep.
  - apply bind_inv in E as (now & s1 & E1 & E). apply (io_call_inv _ _ _ _ still_steady) in E1 as [[Wr1 Ca1] O1].
    apply bind_inv in E as (r & s2 & E2 & E). apply io_read_inv in E2 as (Wr2 & O2 & R).
    rewrite O1 in *. destruct r as [[|b bytes]|e].
    + destruct R as (_ & _ & R). rewrite app_nil_r in R.
      apply bind_inv in E as (now2 & s3 & E3 & E). apply (io_call_inv _ _ _ _ still_steady) in E3 as [[Wr3 Ca3] O3].
      assert (H3 : binary_ok s3.2) by (rewrite O3, O2; split; assumption).
      assert (C3 : came s3.1 = came s.1) by congruence. assert (W3 : written s3.1 = written s.1) by congruence.
      destruct (d <=? now2).
      * injection E as <- <- <-. split; [exact H3|]. split; [exact W3|]. exists []. rewrite !app_nil_r, O3, O2. auto 10.
      * destruct (IH _ H3 E) as (K1 & K2 & bs & K3 & K4). rewrite C3 in K3. rewrite W3 in K2. rewrite O3, O2 in K4. eauto 10.
    + destruct R as (Rl & Rb & R). apply bind_inv in E as ([] & s3 & E3 & E). injection E3 as <-.
      apply bind_inv in E as ([] & s4 & E4 & E). apply set_time_inv in E4 as [[Wr4 Ca4] (ms & O4)]. cbn [fst snd] in Wr4, Ca4, O4.
      rewrite O2 in O4. destruct (fits_more _ _ _ Hb Hf Ep Rb Rl) as [Hb' Hf'].
      assert (H4 : binary_ok s4.2) by (rewrite O4; split; assumption).
      destruct (IH _ H4 E) as (K1 & K2 & bs & K3 & K4).
      split; [exact K1|]. split; [congruence|]. exists ((b :: bytes) ++ bs).
      replace (m_binaryInput s4.2) with (m_binaryInput s.2 ++ b :: bytes) in K4 by (rewrite O4; reflexivity).
      rewrite <- app_assoc in K4. split; [rewrite K3, Ca4, R, Ca1, <- app_assoc; reflexivity|exact K4].
    + apply bind_inv in E as ([] & s3 & E3 & E). apply transportClose_idle in E3 as ([Wr3 Ca3] & D3 & c & O3 & T3); [|rewrite O2; exact Ht].
      rewrite (bind_returns _ _ s3 tt (s3.1, set_binaryInput [] s3.2)) in E by reflexivity. injection E as <- <- <-. cbn [fst snd].
      split; [rewrite O3, O2; split; cbn; auto; constructor|]. split; [congruence|]. exists []. rewrite app_nil_r.
      split; [congruence|auto 10].
  - rewrite (bind_returns _ _ s tt (s.1, set_binaryInput [] s.2)) in E by reflexivity. injection E as <- <- <-. cbn [fst snd].
    destruct P as [Pf Pi]. split; [split; cbn; auto; constructor|]. split; [reflexivity|]. exists []. rewrite !app_nil_r.
    assert (Bf : bytes_ok g) by (rewrite Pi in Hb; inversion_clear Hb as [|? ? _ Hb']; inversion_clear Hb'; assumption). auto 10.
  - apply bind_inv in E as ([] & s3 & E3 & E). apply transportClose_idle in E3 as ([Wr3 Ca3] & D3 & c & O3 & T3); [|exact Ht].
    rewrite (bind_returns _ _ s3 tt (s3.1, set_binaryInput [] s3.2)) in E by reflexivity. injection E as <- <- <-. cbn [fst snd].
    split; [rewrite O3; split; cbn; auto; constructor|]. split; [congruence|]. exists []. rewrite app_nil_r. auto 10.
Qed.

Lemma receiveBinaryFrame_spec timeout f0 s rv f s' : binary_ok s.2 ->
  receiveBinaryFrame fuel f0 timeout s = Returns ((rv, f), s') ->
  binary_ok s'.2 /\ written s'.1 = written s.1 /\
  exists bytes, came s'.1 = came s.1 ++ bytes /\
    ((rv = VSCP_ERROR_SUCCESS /\ frame_fits f /\ bytes_ok f /\ m_binaryInput s.2 ++ bytes = packet f /\ m_binaryInput s'.2 = []) \/
     (rv = VSCP_ERROR_TIMEOUT /\ m_binaryInput s'.2 = m_binaryInput s.2 ++ bytes) \/
     ((rv = VSCP_ERROR_CONNECTION \/ rv = VSCP_ERROR_INVALID_FRAME \/ rv = VSCP_ERROR_STOPPED) /\ is_connected s'.1 = false)).
Proof.
  intros Hs E. unfold receiveBinaryFrame in E. apply bind_inv in E as (b & s1 & E1 & E).
  apply isConnected_idle in E1 as ([Wr1 Ca1] & O1 & ->); [|apply Hs].
  rewrite (bind_returns _ _ s1 s1.2 s1) in E by reflexivity. rewrite O1, (ok_mode _ Hs) in E. destruct (is_connected s1.1) eqn:C; cbn [negb] in E.
  - apply bind_inv in E as (now & s2 & E2 & E). apply (io_call_inv _ _ _ _ still_steady) in E2 as [[Wr2 Ca2] O2].
    apply binary_frame_spec in E as (K1 & K2 & bs & K3 & K4); [|rewrite O2, O1; exact Hs]. rewrite O2, O1 in K4.
    split; [exact K1|]. split; [congruence|]. exists bs. split; [congruence|]. destruct K4 as [K|[K|[K K']]]; [auto 10..|].
    destruct K; auto 10.
  - injection E as <- <- <-. rewrite O1. split; [exact Hs|]. split; [exact Wr1|]. exists []. rewrite app_nil_r. auto 10.
Qed.

(** A number of calls: the frames that they brought; a timeout in between is no
    error. *)
Inductive receptions : W * VscpRemoteTcpIf -> list (list Z) -> W * VscpRemoteTcpIf -> Prop :=
  | receptions_nil s : receptions s [] s
  | receptions_frame s timeout f0 f s1 fs s2 :
      receiveBinaryFrame fuel f0 timeout s = Returns ((VSCP_ERROR_SUCCESS, f), s1) ->
      receptions s1 fs s2 -> receptions s (f :: fs) s2
  | receptions_timeout s timeout f0 f s1 fs s2 :
      receiveBinaryFrame fuel f0 timeout s = Returns ((VSCP_ERROR_TIMEOUT, f), s1) ->
      receptions s1 fs s2 -> receptions s fs s2.

Lemma receptions_spec s fs s' : receptions s fs s' -> binary_ok s.2 ->
  binary_ok s'.2 /\ Forall frame_fits fs /\
  exists bytes, came s'.1 = came s.1 ++ bytes /\ m_binaryInput s.2 ++ bytes = concat (map packet fs) ++ m_binaryInput s'.2.
Proof.
  induction 1 as [s|s t f0 f s1 fs s2 E R IH|s t f0 f s1 fs s2 E R IH]; intros Hs.
  - split; [exact Hs|]. split; [constructor|]. exists []. rewrite !app_nil_r. auto.
  - apply receiveBinaryFrame_spec in E as (K1 & _ & bs & K3 & K4); [|exact Hs].
    destruct K4 as [(_ & Hf & _ & P & N)|[[? _]|[[|[|]] _]]]; try discriminate. destruct (IH K1) as (H2 & Hfs & bs2 & C2 & P2).
    rewrite N in P2. cbn [app] in P2.
    split; [exact H2|]. split; [constructor; assumption|]. exists (bs ++ bs2). rewrite C2, K3, <- app_assoc. split; [reflexivity|].
    cbn. rewrite app_assoc, P, P2, <- app_assoc. reflexivity.
  - apply receiveBinaryFrame_spec in E as (K1 & _ & bs & K3 & K4); [|exact Hs].
    destruct K4 as [[? _]|[(_ & P)|[[|[|]] _]]]; try discriminate. destruct (IH K1) as (H2 & Hfs & bs2 & C2 & P2).
    split; [exact H2|]. split; [exact Hfs|]. exists (bs ++ bs2). rewrite C2, K3, <- app_assoc. split; [reflexivity|].
    rewrite app_assoc, <- P. exact P2.
Qed.
End receive.

(** ** Sending *)

Section sending.
Context {W : Type} `{StreamLaws W}.
Variable fuel : nat.

Lemma transportWrite_inv data t s rv s' : thread (m_singleChannel s.2) = None ->
  transportWrite fuel data t s = Returns (rv, s') ->
  came s'.1 = came s.1 /\
  if rv =? VSCP_ERROR_SUCCESS then written s'.1 = written s.1 ++ data /\ s'.2 = s.2
  else (exists k, written s'.1 = written s.1 ++ take k data) /\ is_connected s'.1 = false /\
       exists c, s'.2 = set_channel c s.2 /\ thread c = None.
Proof.
  intros T E. unfold transportWrite in E. apply bind_inv in E as (r & s1 & E1 & E).
  apply io_inv in E1 as (w1 & E1 & ->). destruct (stream_write _ _ _ _ _ E1) as [C1 W1].
  destruct (r =? VSCP_ERROR_SUCCESS) eqn:Er.
  - rewrite (bind_returns _ _ _ tt (w1, s.2)) in E by reflexivity. injection E as <- <-. rewrite Er. auto.
  - apply bind_inv in E as ([] & s2 & E2 & E). injection E as <- <-. rewrite Er.
    apply transportClose_idle in E2 as ([Wr Ca] & D & c & O & Tc); [|exact T]. cbn [fst snd] in *.
    split; [congruence|]. split; [|eauto]. destruct W1 as [k Wk]. exists k. congruence.
Qed.

Lemma sendBinaryFrame_spec f s rv s' : binary_ok s.2 -> sendBinaryFrame fuel f s = Returns (rv, s') ->
  binary_ok s'.2 /\ came s'.1 = came s.1 /\
  (rv = VSCP_ERROR_SUCCESS -> frame_fits f /\ written s'.1 = written s.1 ++ packet f).
Proof.
  intros Hs E. unfold sendBinaryFrame in E. apply bind_inv in E as (b & s1 & E1 & E).
  apply isConnected_idle in E1 as ([Wr1 Ca1] & O1 & ->); [|apply Hs].
  rewrite (bind_returns _ _ s1 s1.2 s1) in E by reflexivity. rewrite O1, (ok_mode _ Hs) in E. cbn [negb orb] in E.
  destruct (is_connected s1.1); cbn [negb] in E.
  2: { injection E as <- <-. rewrite O1. split; [exact Hs|]. split; [exact Ca1|discriminate]. }
  destruct ((length f =? 0)%nat || (UINT16_MAX <? Z.of_nat (length f))) eqn:Ef.
  { injection E as <- <-. rewrite O1. split; [exact Hs|]. split; [exact Ca1|discriminate]. }
  apply orb_false_iff in Ef as [E0 Em]. apply Nat.eqb_neq in E0. apply Z.ltb_ge in Em.
  apply bind_inv in E as (r & s2 & E2 & E). injection E as <- <-.
  apply transportWrite_inv in E2 as [C2 K]; [|rewrite O1; apply Hs]. destruct (Z.eqb_spec r VSCP_ERROR_SUCCESS) as [->|Nr].
  - destruct K as [K ->]. rewrite O1. split; [exact Hs|]. split; [congruence|]. intros _. split; [unfold frame_fits; lia|congruence].
  - destruct K as (_ & _ & c & O2 & Tc). split; [rewrite O2, O1; destruct Hs; split; cbn; auto|]. split; [congruence|].
    unfold VSCP_ERROR_SUCCESS in *. destruct (r <? 0); lia.
Qed.

(** A number of frames that are sent with success. *)
Inductive transmissions : W * VscpRemoteTcpIf -> list (list Z) -> W * VscpRemoteTcpIf -> Prop :=
  | transmissions_nil s : transmissions s [] s
  | transmissions_frame s f s1 fs s2 :
      sendBinaryFrame fuel f s = Returns (VSCP_ERROR_SUCCESS, s1) -> transmissions s1 fs s2 -> transmissions s (f :: fs) s2.

Lemma transmissions_spec s fs s' : transmissions s fs s' -> binary_ok s.2 ->
  Forall frame_fits fs /\ written s'.1 = written s.1 ++ concat (map packet fs).
Proof.
  induction 1 as [s|s f s1 fs s2 E R IH]; intros Hs; [split; [constructor|symmetry; apply app_nil_r]|].
  apply sendBinaryFrame_spec in E as (K1 & _ & K2); [|exact Hs]. destruct (K2 eq_refl) as [Hf Wf]. destruct (IH K1) as [Hfs Wfs].
  split; [constructor; assumption|]. rewrite Wfs, Wf, <- app_assoc. reflexivity.
Qed.
End sending.

(** ** Packets are a prefix code *)

Lemma packet_inj f g x y : frame_fits f -> frame_fits g -> packet f ++ x = packet g ++ y -> f = g /\ x = y.
Proof.
  intros Hf Hg E. destruct (packet_header f Hf) as (h1 & l1 & P1 & _ & _ & L1). destruct (packet_header g Hg) as (h2 & l2 & P2 & _ & _ & L2).
  rewrite P1, P2 in E. cbn [app] in E. injection E as -> -> E. assert (length f = length g) by lia.
  apply app_inj_1; assumption.
Qed.

Lemma packets_prefix fs gs i lost : Forall frame_fits fs -> Forall frame_fits gs -> input_fits i -> bytes_ok i ->
  concat (map packet fs) ++ i ++ lost = concat (map packet gs) -> exists hs, gs = fs ++ hs.
Proof.
  revert gs. induction fs as [|f fs IH]; intros gs Hf Hg Hi Hb E; [eauto|].
  inversion_clear Hf as [|? ? Hf1 Hf2]. destruct gs as [|g gs]; [destruct f; discriminate|]. inversion_clear Hg as [|? ? Hg1 Hg2].
  cbn in E. rewrite <- app_assoc in E. destruct (packet_inj f g _ _ Hf1 Hg1 E) as [-> E']. destruct (IH gs Hf2 Hg2 Hi Hb E') as [hs ->]. eauto.
Qed.

Lemma packets_nil hs : Forall frame_fits hs -> concat (map packet hs) = [] -> hs = [].
Proof. intros Hh. destruct Hh as [|h hs Hh1 _]; [reflexivity|discriminate]. Qed.

(** C13: Two clients in binary mode, connected by a stream that loses no byte
    before the point it has reached: the frames that one receives are the first of
    those that the other sent, each with its own bytes and in their order, however
    the stream is cut into reads and however many calls end at their timeout in
    between.  When everything has arrived they are all the frames. *)
Theorem binary_frames_in_order {W1 W2} `{StreamLaws W1} `{StreamLaws W2} fuel1 fuel2
    (s s' : W1 * VscpRemoteTcpIf) (r r' : W2 * VscpRemoteTcpIf) gs fs bytes received lost :
  binary_ok s.2 -> binary_ok r.2 -> m_binaryInput r.2 = [] ->
  transmissions fuel1 s gs s' -> receptions fuel2 r fs r' ->
  written s'.1 = written s.1 ++ bytes -> came r'.1 = came r.1 ++ received -> bytes = received ++ lost ->
  (exists rest, gs = fs ++ rest) /\ (lost = [] -> m_binaryInput r'.2 = [] -> fs = gs).
Proof.
  intros Hs Hr Hi T R Eb Er El. destruct (transmissions_spec _ _ _ _ T Hs) as [Hg Wg].
  destruct (receptions_spec _ _ _ _ R Hr) as (Hr' & Hf & bs & Cb & Pb). rewrite Hi in Pb. cbn [app] in Pb.
  assert (bs = received) as -> by (apply (app_inv_head (came r.1)); congruence).
  assert (E : concat (map packet fs) ++ m_binaryInput r'.2 ++ lost = concat (map packet gs)).
  { rewrite app_assoc, <- Pb, <- El. apply (app_inv_head (written s.1)). congruence. }
  destruct (packets_prefix fs gs _ _ Hf Hg (ok_fits _ Hr') (ok_bytes _ Hr') E) as [rest ->]. split; [eauto|].
  intros -> N. rewrite N, !app_nil_r, map_app, concat_app in E. symmetry.
  assert (Z : concat (map packet rest) = []) by (apply (app_inv_head (concat (map packet fs))); rewrite app_nil_r; symmetry; exact E).
  apply Forall_app in Hg as [_ Hg]. rewrite (packets_nil rest Hg Z). apply app_nil_r.
Qed.

(** ** Two clients

    Two frames are sent and arrive in three chunks. *)
Definition binary_client : VscpRemoteTcpIf := set_binary true [] (new_VscpRemoteTcpIf (16, 0, 0)).
Definition sender : sample_line * VscpRemoteTcpIf := (SampleLine true [] [] [] 0, binary_client).
Definition receiver : sample_line * VscpRemoteTcpIf := (SampleLine true [[0]; [3; 1]; [2; 3; 0; 1; 7]] [] [] 0, binary_client).

Lemma binary_client_ok : binary_ok binary_client.
Proof. split; try reflexivity; constructor. Qed.

(** The states after the calls. *)
Definition after {A} (m : outcome (A * (sample_line * VscpRemoteTcpIf))) : sample_line * VscpRemoteTcpIf :=
  match m with Returns (_, s) => s | _ => sender end.
Definition sent_state (f : list Z) (s : sample_line * VscpRemoteTcpIf) := after (sendBinaryFrame 9 f s).
Definition received_state (s : sample_line * VscpRemoteTcpIf) := after (receiveBinaryFrame 9 [] 100 s).

Lemma sample_transmissions : transmissions 9 sender [[1; 2; 3]; [7]] (sent_state [7] (sent_state [1; 2; 3] sender)).
Proof. do 2 (eapply transmissions_frame; [reflexivity|]). constructor. Qed.

Lemma sample_receptions : receptions 9 receiver [[1; 2; 3]; [7]] (received_state (received_state receiver)).
Proof.
  apply (receptions_frame 9 _ 100 [] _ (received_state receiver)); [vm_compute; reflexivity|].
  apply (receptions_frame 9 _ 100 [] _ (received_state (received_state receiver))); [vm_compute; reflexivity|].
  constructor.
Qed.

(** The frames that the two calls give. *)
Definition frame_given (s : sample_line * VscpRemoteTcpIf) : list Z :=
  match receiveBinaryFrame 9 [] 100 s with Returns ((_, f), _) => f | _ => [] end.

Lemma binary_frames_in_order_witness :
  [frame_given receiver; frame_given (received_state receiver)] = [[1; 2; 3]; [7]].
Proof.
  change [frame_given receiver; frame_given (received_state receiver)] with [[1; 2; 3]; [7]].
  apply (binary_frames_in_order 9 9 sender (sent_state [7] (sent_state [1; 2; 3] sender))
           receiver (received_state (received_state receiver)) [[1; 2; 3]; [7]] [[1; 2; 3]; [7]]
           [0; 3; 1; 2; 3; 0; 1; 7] [0; 3; 1; 2; 3; 0; 1; 7] []); try reflexivity.
  - exact binary_client_ok.
  - exact binary_client_ok.
  - exact sample_transmissions.
  - exact sample_receptions.
Defined.
