(* ===== verification/TcpCmd.v ===== *)
(** * The commands of the TCP client: VscpRemoteTcpIf::doCmd... of
      src/src/vscp/common/vscpremotetcpif.cpp

    Opening and closing, sending and receiving in text and binary mode and in the
    receive loop, and the queries.  [fresh] and [fresh_ex] are what event variables
    and new events hold that are not initialised.  A pointer that the code follows
    without a test is not an option. *)

From S2P Require Import Prelude Program Crc DateTime Event Frame Strings Guid Filter Canal EventString TcpTransport TcpReader TcpIf.

Definition VSCP_ERROR_GENERIC : Z := 12.
Definition VSCP_ERROR_RCV_EMPTY : Z := 19.
Definition VSCP_ERROR_MEMORY : Z := 35.
Definition VSCP_ERROR_USER : Z := 38.
Definition VSCP_ERROR_PASSWORD : Z := 39.
Definition VSCP_ERROR_INVALID_FORMAT : Z := 69.
Definition CANAL_COMMAND_OPEN_VSCP_LEVEL2 : Z := 2.

(** ** Data *)

(** canal_status_t and vscp_status_t have the same members. *)
Record canal_status_t := Status { channel_status : Z; lasterrorcode : Z; lasterrorsubcode : Z; lasterrorstr : list Z }.

Record vscp_statistics_t := Statistics {
  cntReceiveFrames : Z; cntTransmitFrames : Z; cntReceiveData : Z; cntTransmitData : Z; cntOverruns : Z;
  stat_x : Z; stat_y : Z; stat_z : Z
}.

Record canal_statistics_t := CanalStatistics {
  canal_ReceiveFrames : Z; canal_TransmitFrames : Z; canal_ReceiveData : Z; canal_TransmitData : Z;
  canal_Overruns : Z; canal_BusWarnings : Z; canal_BusOff : Z
}.

Record vscp_channel_info_t := ChannelInfo { channelType : Z; info_channel : Z; info_GUID : list Z }.

(** std::stoul. *)
Definition stoul (s : list Z) (base : Z) : option (Z * list Z) :=
  match strtol base s with
  | Some (v, rest) => if Z.abs v <? 2 ^ 64 then Some (u64 v, rest) else None
  | None => None
  end.

(** strncpy of [n] characters. *)
Definition strncpy (s : list Z) (n : nat) : list Z := take n (c_str s ++ replicate n 0).

(** %02X and %02x of the bytes, with colons. *)
Definition guid_upper (g : list Z) : list Z := join 58 (map hex2 g).
Definition guid_lower (g : list Z) : list Z := join 58 (map (fun b => [dchar_lower (b / 16); dchar_lower (b mod 16)]) g).

Section commands.
Context {W : Type} `{TcpTransport W}.
Variable fuel : nat.
Variable fresh : vscpEvent.
Variable fresh_ex : vscpEventEx.
Abbreviation tcp := (M (W * VscpRemoteTcpIf)).

(** A command that is a literal. *)
Definition command (s : string) : tcp Z := doCommand fuel (str s ++ CRLF).

(** The line at the front of the reply, which need not exist, and the one before
    the last. *)
Definition front_line : tcp (list Z) :=
  o ← this; match m_inputStrArray o with [] => undefined | line :: _ => mret line end.
Definition line_before_last : tcp (option (list Z)) :=
  o ← this;
  mret (if (length (m_inputStrArray o) <? 2)%nat then None
        else Some (nth (length (m_inputStrArray o) - 2) (m_inputStrArray o) [])).

(** The guards of the queries: connected, and not in the receive loop. *)
Definition guarded (loop_allowed : bool) (m : tcp Z) : tcp Z :=
  connected ← isConnected;
  o ← this;
  if negb connected then mret VSCP_ERROR_CONNECTION
  else if m_bModeReceiveLoop o && negb loop_allowed then mret VSCP_ERROR_PARAMETER
  else m.

(** ** The receive loop and the connection *)

Definition doCmdQuitReceiveLoop : tcp Z :=
  connected ← isConnected;
  o ← this;
  if negb connected then mret VSCP_ERROR_CONNECTION
  else if m_bBinaryMode o then mret VSCP_ERROR_PARAMETER
  else if negb (m_bModeReceiveLoop o) then mret VSCP_ERROR_SUCCESS
  else
    result ← command "QUITLOOP";
    o ← this;
    if negb (result =? VSCP_ERROR_SUCCESS) then
      _ ← (if m_bSingleChannelReceiveLoop o then
             _ ← shared meanwhile;
             o ← this;
             if negb (readerError (m_singleChannel o) =? VSCP_ERROR_SUCCESS) then
               _ ← modify (set_loop false);
               _ ← shared (stopSingleChannelReader fuel);
               transportClose fuel
             else mret tt
           else mret tt);
      mret VSCP_ERROR_TIMEOUT
    else
      _ ← modify (set_loop false);
      _ ← (if m_bSingleChannelReceiveLoop o then
             _ ← shared (stopSingleChannelReader fuel);
             shared (change (fun c => set_buffer [] (set_queue [] c)))
           else mret tt);
      _ ← modify (set_lines []);
      mret VSCP_ERROR_SUCCESS.

Definition doCmdClose : tcp Z :=
  connected ← isConnected;
  o ← this;
  _ ← (if connected && negb (m_bBinaryMode o) then
         _ ← (if m_bModeReceiveLoop o then
                if m_bSingleChannelReceiveLoop o then
                  _ ← doCmdQuitReceiveLoop;
                  o ← this;
                  if m_bModeReceiveLoop o then
                    _ ← modify (set_loop false);
                    shared (stopSingleChannelReader fuel)
                  else mret tt
                else _ ← command "QUITLOOP"; mret tt
              else mret tt);
         _ ← command "QUIT"; mret tt
       else mret tt);
  _ ← transportClose fuel;
  _ ← modify (set_loop false);
  _ ← modify (set_binary false []);
  _ ← modify (set_text [] []);
  _ ← shared (change (fun c => set_error VSCP_ERROR_SUCCESS
                (set_command [] false false (commandResult c) (set_buffer [] (set_queue [] c)))));
  mret VSCP_ERROR_SUCCESS.

Definition doCmdEnterReceiveLoop : tcp Z :=
  connected ← isConnected;
  o ← this;
  if negb connected then mret VSCP_ERROR_CONNECTION
  else if m_bBinaryMode o then mret VSCP_ERROR_PARAMETER
  else if m_bModeReceiveLoop o then mret VSCP_ERROR_SUCCESS
  else
    _ ← set_lastResponseTime;
    rv ← command "RCVLOOP";
    if negb (rv =? VSCP_ERROR_SUCCESS) then mret VSCP_ERROR_ERROR
    else
      _ ← modify (set_loop true);
      o ← this;
      if m_bSingleChannelReceiveLoop o then
        result ← startSingleChannelReader;
        if negb (result =? VSCP_ERROR_SUCCESS) then
          _ ← modify (set_loop false);
          _ ← command "QUITLOOP";
          mret result
        else mret VSCP_ERROR_SUCCESS
      else mret VSCP_ERROR_SUCCESS.

Definition setSingleChannelReceiveLoop (enable : bool) : tcp Z :=
  o ← this;
  if m_bModeReceiveLoop o || bool_decide (is_Some (thread (m_singleChannel o))) then mret VSCP_ERROR_PARAMETER
  else _ ← modify (set_single enable); mret VSCP_ERROR_SUCCESS.

Definition doCmdNOOP : tcp Z :=
  o ← this; guarded (m_bSingleChannelReceiveLoop o) (command "NOOP").

Definition doCmdClear : tcp Z :=
  o ← this;
  guarded (m_bSingleChannelReceiveLoop o) (
    result ← command "CLRA";
    o ← this;
    _ ← (if (result =? VSCP_ERROR_SUCCESS) && m_bModeReceiveLoop o && m_bSingleChannelReceiveLoop o then
           _ ← shared meanwhile; shared (change (set_queue []))
         else mret tt);
    mret result).

(** ** Queries *)

Definition doCmdDataAvailable : tcp Z :=
  connected ← isConnected;
  o ← this;
  if negb connected || m_bModeReceiveLoop o then mret VSCP_ERROR_ERROR
  else
    rv ← command "CDTA";
    o ← this;
    mret (if negb (rv =? VSCP_ERROR_SUCCESS) then VSCP_ERROR_ERROR
          else match m_inputStrArray o with [] => 0 | l :: _ => atoi l end).

(** The error string is copied without a bound. *)
Definition doCmdStatus (pStatus : canal_status_t) : tcp (Z * canal_status_t) :=
  connected ← isConnected;
  o ← this;
  if negb connected then mret (VSCP_ERROR_CONNECTION, pStatus)
  else if m_bModeReceiveLoop o then mret (VSCP_ERROR_PARAMETER, pStatus)
  else
    rv ← command "INFO";
    if negb (rv =? VSCP_ERROR_SUCCESS) then mret (VSCP_ERROR_ERROR, pStatus)
    else
      line ← front_line;
      _ ← modify (fun o => set_lines (drop 1 (m_inputStrArray o)) o);
      match vscp_split line (str ",") with
      | [] => mret (VSCP_ERROR_GENERIC, pStatus)
      | code :: tokens =>
          let s := Status (channel_status pStatus) (u64 (vscp_readStringValue code)) (lasterrorsubcode pStatus) (lasterrorstr pStatus) in
          match tokens with
          | [] => mret (VSCP_ERROR_GENERIC, s)
          | sub :: tokens =>
              let s := Status (channel_status s) (lasterrorcode s) (u64 (vscp_readStringValue sub)) (lasterrorstr s) in
              match tokens with
              | [] => mret (VSCP_ERROR_GENERIC, s)
              | text :: _ =>
                  buf ← defined (wr (lasterrorstr s) 0 (strncpy text (length text)));
                  mret (VSCP_ERROR_SUCCESS, Status (channel_status s) (lasterrorcode s) (lasterrorsubcode s) buf)
              end
          end
      end.

(** The overload for vscp_status_t; [status] is the local variable. *)
Definition doCmdStatus_vscp (status pStatus : canal_status_t) : tcp (Z * canal_status_t) :=
  '(rv, status) ← doCmdStatus status;
  mret (rv, Status (channel_status status) (lasterrorcode status) (lasterrorsubcode status)
              (strncpy (lasterrorstr status) 80)).

(** Every member is read from the token at the front. *)
Definition doCmdStatistics (pStatistics : vscp_statistics_t) : tcp (Z * vscp_statistics_t) :=
  connected ← isConnected;
  o ← this;
  if negb connected then mret (VSCP_ERROR_CONNECTION, pStatistics)
  else if m_bModeReceiveLoop o then mret (VSCP_ERROR_PARAMETER, pStatistics)
  else
    rv ← command "STAT";
    if negb (rv =? VSCP_ERROR_SUCCESS) then mret (VSCP_ERROR_ERROR, pStatistics)
    else
      line ← front_line;
      let v := match vscp_split line (str ",") with [] => 0 | t :: _ => u64 (vscp_readStringValue t) end in
      mret (VSCP_ERROR_SUCCESS, Statistics v v v v v v v 0).

(** The overload for canal_statistics_t calls itself, with its local variable. *)
Fixpoint doCmdStatistics_canal (depth : nat) (local : canal_statistics_t) (pStatistics : option canal_statistics_t)
    : tcp (Z * option canal_statistics_t) :=
  match depth with
  | O => out_of_fuel
  | S depth =>
      match pStatistics with
      | None => mret (VSCP_ERROR_PARAMETER, None)
      | Some s =>
          '(rv, canalstat) ← doCmdStatistics_canal depth local (Some local);
          if negb (rv =? VSCP_ERROR_SUCCESS) then mret (rv, Some s)
          else
            let c := default local canalstat in
            mret (VSCP_ERROR_SUCCESS,
                  Some (CanalStatistics (canal_ReceiveFrames c) (canal_TransmitFrames c) (canal_ReceiveData c)
                          (canal_TransmitData c) 0 0 0))
      end
  end.

Definition filter_text (p c t : Z) (g : list Z) : list Z :=
  dec p ++ str "," ++ dec c ++ str "," ++ dec t ++ str "," ++ guid_upper g.

(** The GUIDs are written from their last byte to their first. *)
Definition doCmdFilter (f : vscpEventFilter) : tcp Z :=
  guarded false (
    rv ← doCommand fuel (str "SFLT " ++ filter_text (filter_priority f) (filter_class f) (filter_type f) (rev (take 16 (filter_GUID f))) ++ CRLF);
    if negb (rv =? VSCP_ERROR_SUCCESS) then mret VSCP_ERROR_ERROR
    else
      rv ← doCommand fuel (str "SMSK " ++ filter_text (mask_priority f) (mask_class f) (mask_type f) (rev (take 16 (mask_GUID f))) ++ CRLF);
      mret (if rv =? VSCP_ERROR_SUCCESS then VSCP_ERROR_SUCCESS else VSCP_ERROR_ERROR)).

(** The overload for texts. *)
Definition doCmdFilter_text (filter mask : list Z) : tcp Z :=
  guarded false (
    rv ← doCommand fuel (str "SFLT " ++ filter ++ CRLF);
    if negb (rv =? VSCP_ERROR_SUCCESS) then mret VSCP_ERROR_ERROR
    else
      rv ← doCommand fuel (str "SMSK " ++ mask ++ CRLF);
      mret (if rv =? VSCP_ERROR_SUCCESS then VSCP_ERROR_SUCCESS else VSCP_ERROR_ERROR)).

(** The numbers stay as they are when the reply does not have them; the version
    is stored in the object too. *)
Definition doCmdVersion (v : Z * Z * Z) : tcp (Z * (Z * Z * Z)) :=
  let '(major, minor, sub) := v in
  connected ← isConnected;
  o ← this;
  if negb connected then mret (VSCP_ERROR_CONNECTION, v)
  else if m_bModeReceiveLoop o then mret (VSCP_ERROR_PARAMETER, v)
  else
    rv ← command "VERS";
    if negb (rv =? VSCP_ERROR_SUCCESS) then mret (VSCP_ERROR_ERROR, v)
    else
      line ← front_line;
      o ← this;
      let '(year, month, patch) := m_version o in
      let number t := u8 (vscp_readStringValue t) in
      match vscp_split line (str ",") with
      | [] => mret (VSCP_ERROR_ERROR, (0, minor, sub))
      | a :: tokens =>
          _ ← modify (set_version (number a, month, patch));
          match tokens with
          | [] => mret (VSCP_ERROR_ERROR, (number a, 0, sub))
          | b :: tokens =>
              _ ← modify (set_version (number a, number b, patch));
              match tokens with
              | [] => mret (VSCP_ERROR_ERROR, (number a, number b, 0))
              | c :: _ =>
                  _ ← modify (set_version (number a, number b, number c));
                  mret (VSCP_ERROR_SUCCESS, (number a, number b, number c))
              end
          end
      end.

(** The overload with the build, which is 0. *)
Definition doCmdVersion_build (v : Z * Z * Z) (build : Z) : tcp (Z * (Z * Z * Z) * Z) :=
  '(rv, v) ← doCmdVersion v;
  mret (rv, v, if rv =? VSCP_ERROR_SUCCESS then 0 else build).

(** The GUID is in the line before the last one of the reply. *)
Definition doCmdGetGUID (pGUID : list Z) : tcp (Z * list Z) :=
  connected ← isConnected;
  o ← this;
  if negb connected then mret (VSCP_ERROR_CONNECTION, pGUID)
  else if m_bModeReceiveLoop o then mret (VSCP_ERROR_PARAMETER, pGUID)
  else
    rv ← command "GGID";
    if negb (rv =? VSCP_ERROR_SUCCESS) then mret (VSCP_ERROR_ERROR, pGUID)
    else
      line ← line_before_last;
      match line with
      | None => mret (VSCP_ERROR_ERROR, pGUID)
      | Some line =>
          match vscp_split line (str ",") with
          | [] => mret (VSCP_ERROR_GENERIC, pGUID)
          | t :: _ => mret (VSCP_ERROR_SUCCESS, vscp_getGuidFromStringToArray t)
          end
      end.

(** The overload for class cguid. *)
Definition doCmdGetGUID_cguid (ifguid : list Z) : tcp (Z * list Z) :=
  connected ← isConnected;
  o ← this;
  if negb connected then mret (VSCP_ERROR_CONNECTION, ifguid)
  else if m_bModeReceiveLoop o then mret (VSCP_ERROR_PARAMETER, ifguid)
  else
    rv ← command "GGID";
    if negb (rv =? VSCP_ERROR_SUCCESS) then mret (VSCP_ERROR_ERROR, ifguid)
    else
      line ← line_before_last;
      mret match line with
           | None => (VSCP_ERROR_ERROR, ifguid)
           | Some line => (VSCP_ERROR_SUCCESS, getFromString line)
           end.

Definition doCmdSetGUID (pGUID : option (list Z)) : tcp Z :=
  connected ← isConnected;
  if negb connected then mret VSCP_ERROR_CONNECTION
  else
    match pGUID with
    | None => mret VSCP_ERROR_GENERIC
    | Some g =>
        o ← this;
        if m_bModeReceiveLoop o then mret VSCP_ERROR_PARAMETER
        else
          rv ← doCommand fuel (str "SGID " ++ guid_lower (take 16 g) ++ CRLF);
          mret (if rv =? VSCP_ERROR_SUCCESS then VSCP_ERROR_SUCCESS else VSCP_ERROR_ERROR)
    end.

Definition doCmdGetChannelInfo (pChannelInfo : option vscp_channel_info_t) : tcp (Z * option vscp_channel_info_t) :=
  connected ← isConnected;
  o ← this;
  if negb connected then mret (VSCP_ERROR_CONNECTION, pChannelInfo)
  else
    match pChannelInfo with
    | None => mret (VSCP_ERROR_PARAMETER, None)
    | Some i =>
        if m_bModeReceiveLoop o then mret (VSCP_ERROR_PARAMETER, Some i)
        else
          rv ← command "INFO";
          if negb (rv =? VSCP_ERROR_SUCCESS) then mret (VSCP_ERROR_ERROR, Some i)
          else
            line ← line_before_last;
            match line with
            | None => mret (VSCP_ERROR_ERROR, Some i)
            | Some line =>
                match vscp_split line (str ",") with
                | [] => mret (VSCP_ERROR_GENERIC, Some i)
                | t :: _ =>
                    '(rv, g) ← doCmdGetGUID (info_GUID i);
                    mret (rv, Some (ChannelInfo CANAL_COMMAND_OPEN_VSCP_LEVEL2 (u16 (vscp_readStringValue t)) g))
                end
            end
    end.

(** std::stoul throws on a line that is not a number. *)
Definition doCmdGetChannelID (pChannelID : option Z) : tcp (Z * option Z) :=
  connected ← isConnected;
  if negb connected then mret (VSCP_ERROR_CONNECTION, pChannelID)
  else if bool_decide (pChannelID = None) then mret (VSCP_ERROR_PARAMETER, None)
  else
    rv ← command "CHID";
    if negb (rv =? VSCP_ERROR_SUCCESS) then mret (VSCP_ERROR_ERROR, pChannelID)
    else
      line ← line_before_last;
      match line with
      | None => mret (VSCP_ERROR_ERROR, pChannelID)
      | Some line => match stoul line 10 with Some (v, _) => mret (VSCP_ERROR_SUCCESS, Some (u32 v)) | None => throw end
      end.

Definition doCmdInterfaceList (strarray : list (list Z)) : tcp (Z * list (list Z)) :=
  connected ← isConnected;
  if negb connected then mret (VSCP_ERROR_CONNECTION, strarray)
  else
    rv ← command "INTERFACE LIST";
    o ← this;
    mret (if negb (rv =? VSCP_ERROR_SUCCESS) then (VSCP_ERROR_ERROR, strarray)
          else if (length (m_inputStrArray o) <? 2)%nat then (VSCP_ERROR_ERROR, strarray)
          else (VSCP_ERROR_SUCCESS, strarray ++ List.filter (fun l => negb (contains (str "+OK") l)) (m_inputStrArray o))).

(** "aa:bb:cc:dd:ee:ff:gg:hh"; stoul and substr throw. *)
Fixpoint wcyd_loop (n : nat) (line : list Z) (wcyd : Z) : option Z :=
  match n with
  | O => Some wcyd
  | S n =>
      match stoul line 16 with
      | None => None
      | Some (v, rest) =>
          let wcyd := u64 (u64 (Z.shiftl wcyd 8) + v) in
          match n with
          | O => Some wcyd
          | _ => match rest with [] => None | _ :: line => wcyd_loop n line wcyd end
          end
      end
  end.

Definition doCmdWcyd (pwcyd : option Z) : tcp (Z * option Z) :=
  match pwcyd with
  | None => mret (VSCP_ERROR_INVALID_POINTER, None)
  | Some w =>
      connected ← isConnected;
      if negb connected then mret (VSCP_ERROR_CONNECTION, Some w)
      else
        rv ← command "wcyd";
        if negb (rv =? VSCP_ERROR_SUCCESS) then mret (VSCP_ERROR_ERROR, Some w)
        else
          line ← line_before_last;
          match line with
          | None => mret (VSCP_ERROR_ERROR, Some w)
          | Some line =>
              if (length line <? 23)%nat then mret (VSCP_ERROR_ERROR, Some w)
              else match wcyd_loop 8 line 0 with Some v => mret (VSCP_ERROR_SUCCESS, Some v) | None => throw end
          end
  end.

Definition doCmdShutDown : tcp Z :=
  guarded true (
    rv ← command "SHUTDOWN";
    mret (if rv =? VSCP_ERROR_SUCCESS then VSCP_ERROR_SUCCESS else VSCP_ERROR_ERROR)).

(** ** Sending *)

Definition doCmdSend (pEvent : option vscpEvent) : tcp Z :=
  connected ← isConnected;
  if negb connected then mret VSCP_ERROR_CONNECTION
  else
    match pEvent with
    | None => mret VSCP_ERROR_PARAMETER
    | Some e =>
        o ← this;
        if m_bModeReceiveLoop o && negb (m_bSingleChannelReceiveLoop o) then mret VSCP_ERROR_PARAMETER
        else if (0 <? sizeData e) && bool_decide (pdata e = None) then mret VSCP_ERROR_PARAMETER
        else if VSCP_MAX_DATA <? sizeData e then mret VSCP_ERROR_PARAMETER
        else if m_bBinaryMode o then
          let size := 1 + VSCP_BINARY_PACKET_FRAME0_HEADER_LENGTH + sizeData e + 2 in
          '(ok, frame) ← defined (vscp_writeEventToFrame (Some (replicate (Z.to_nat size) 0)) size VSCP_ENCRYPTION_NONE pEvent);
          if negb ok then mret VSCP_ERROR_INVALID_FRAME
          else sendBinaryFrame fuel (default [] frame)
        else
          strBuf ← defined (vscp_convertEventToString pEvent);
          match strBuf with
          | None => mret VSCP_ERROR_PARAMETER
          | Some s => doCommand fuel (str "send " ++ s ++ CRLF)
          end
    end.

Definition doCmdSendEx (pEventEx : option vscpEventEx) : tcp Z :=
  connected ← isConnected;
  o ← this;
  if negb connected then mret VSCP_ERROR_CONNECTION
  else if m_bModeReceiveLoop o && negb (m_bSingleChannelReceiveLoop o) then mret VSCP_ERROR_PARAMETER
  else
    match pEventEx with
    | None => mret VSCP_ERROR_PARAMETER
    | Some x =>
        if VSCP_MAX_DATA <? xsizeData x then mret VSCP_ERROR_PARAMETER
        else if m_bBinaryMode o then
          '(ok, event) ← defined (vscp_convertEventExToEvent (Some zero_event) pEventEx);
          if negb ok then mret VSCP_ERROR_PARAMETER else doCmdSend event
        else
          strBuf ← defined (vscp_convertEventExToString fresh pEventEx);
          match strBuf with
          | None => mret VSCP_ERROR_PARAMETER
          | Some s => doCommand fuel (str "send " ++ s ++ CRLF)
          end
    end.

(** The event of a CAN message: the nickname goes to the first byte of the GUID. *)
Definition level1_event (m : canalMsg) (data : list Z) : vscpEventEx :=
  EventEx 0 (u32 (canal_obid m)) (set_timestamp (u32 (canal_timestamp m)) (xtime fresh_ex)) (xcrc fresh_ex)
    (u16 (Z.land 0x1ff (Z.shiftr (id m) 16))) (u8 (Z.land 0xff (Z.shiftr (id m) 8)))
    (Z.land (id m) 0xff :: zeros 15) (canal_size m) data.

Definition doCmdSendLevel1 (pCanalMsg : option canalMsg) : tcp Z :=
  connected ← isConnected;
  o ← this;
  if negb connected then mret VSCP_ERROR_CONNECTION
  else if m_bModeReceiveLoop o && negb (m_bSingleChannelReceiveLoop o) then mret VSCP_ERROR_PARAMETER
  else
    match pCanalMsg with
    | None => mret VSCP_ERROR_PARAMETER
    | Some m =>
        bytes ← defined (rdn (canal_data m) 0 (Z.to_nat (canal_size m)));
        data ← defined (wr (xdata fresh_ex) 0 bytes);
        doCmdSendEx (Some (level1_event m data))
    end.

(** ** Receiving *)

Definition getEventFromLine (pEvent : option vscpEvent) (strLine : list Z) : tcp (bool * option vscpEvent) :=
  now ← system_time;
  mret (vscp_convertStringToEvent now pEvent strLine).

Definition doCmdReceive (pEvent : option vscpEvent) : tcp (Z * option vscpEvent) :=
  connected ← isConnected;
  o ← this;
  if negb connected then mret (VSCP_ERROR_CONNECTION, pEvent)
  else if bool_decide (pEvent = None) then mret (VSCP_ERROR_MEMORY, None)
  else if m_bBinaryMode o then receiveBinaryEvent fuel pEvent (m_responseTimeOut o)
  else if m_bModeReceiveLoop o then mret (VSCP_ERROR_PARAMETER, pEvent)
  else
    rv ← command "RETR 1";
    o ← this;
    if negb (rv =? VSCP_ERROR_SUCCESS) then mret (VSCP_ERROR_ERROR, pEvent)
    else
      match m_inputStrArray o with
      | [] => mret (VSCP_ERROR_ERROR, pEvent)
      | line :: _ =>
          '(ok, pEvent) ← getEventFromLine pEvent line;
          mret (if (ok : bool) then VSCP_ERROR_SUCCESS else VSCP_ERROR_READ, pEvent)
      end.

(** Whether a line of the receive loop is a reply. *)
Definition is_ok_line (l : list Z) : bool := contains (str "+OK") l || contains (str "+ERR") l.

(** The lines up to the first that is no reply are taken out. *)
Fixpoint take_event_line (lines : list (list Z)) : option (list Z) * list (list Z) :=
  match lines with
  | [] => (None, [])
  | l :: lines => if (length l =? 0)%nat || is_ok_line l then take_event_line lines else (Some l, lines)
  end.

Definition next_event_line : tcp (option (list Z)) :=
  o ← this;
  let '(line, rest) := take_event_line (m_inputStrArray o) in
  _ ← modify (set_lines rest);
  mret line.

(** An event out of the queue of the reader, or why there is none. *)
Definition take_queued : M (W * channel) (option (list Z) * Z) :=
  c ← channel_of;
  match eventQueue c with
  | e :: q => _ ← change (set_queue q); mret (Some e, VSCP_ERROR_SUCCESS)
  | [] => mret (None, if readerError c =? VSCP_ERROR_SUCCESS then VSCP_ERROR_STOPPED else readerError c)
  end.

Definition read_event (pEvent : option vscpEvent) (line : list Z) : tcp (Z * option vscpEvent) :=
  '(ok, pEvent) ← getEventFromLine pEvent line;
  mret (if (ok : bool) then VSCP_ERROR_SUCCESS else VSCP_ERROR_READ, pEvent).

Fixpoint blocking_loop (n : nat) (startTime mstimeout : Z) (pEvent : option vscpEvent) : tcp (Z * option vscpEvent) :=
  match n with
  | O => out_of_fuel
  | S n =>
      t ← io (call ms_clock);
      if negb (u32 (t - startTime) <? mstimeout) then mret (VSCP_ERROR_TIMEOUT, pEvent)
      else
        t ← io (call ms_clock);
        let elapsed := u32 (t - startTime) in
        if mstimeout <=? elapsed then mret (VSCP_ERROR_TIMEOUT, pEvent)
        else
          o ← this;
          let remaining := Z.min (mstimeout - elapsed) INT_MAX in
          r ← io (transport_read 0xffff (read_timeout (m_innerResponseTimeout o) remaining));
          match r with
          | Failed e =>
              if e =? VSCP_ERROR_STOPPED then _ ← transportClose fuel; mret (VSCP_ERROR_STOPPED, pEvent)
              else blocking_loop n startTime mstimeout pEvent
          | Got [] => blocking_loop n startTime mstimeout pEvent
          | Got bytes =>
              _ ← set_lastResponseTime;
              _ ← modify (fun o => snd (addInputStringArrayFromReply false (set_response (m_strResponse o ++ bytes) o)));
              line ← next_event_line;
              match line with
              | Some line => read_event pEvent line
              | None => blocking_loop n startTime mstimeout pEvent
              end
          end
  end.

Definition doCmdBlockingReceive (pEvent : option vscpEvent) (mstimeout : Z) : tcp (Z * option vscpEvent) :=
  if bool_decide (pEvent = None) then mret (VSCP_ERROR_PARAMETER, None)
  else
    connected ← isConnected;
    o ← this;
    if negb connected then mret (VSCP_ERROR_CONNECTION, pEvent)
    else if m_bBinaryMode o then receiveBinaryEvent fuel pEvent mstimeout
    else if negb (m_bModeReceiveLoop o) then mret (VSCP_ERROR_PARAMETER, pEvent)
    else if m_bSingleChannelReceiveLoop o then
      _ ← shared meanwhile;
      now ← io (call steady_clock);
      ready ← shared (wait_until fuel (Some (now + mstimeout * 1000000)) (fun c =>
        negb (bool_decide (eventQueue c = [])) || negb (readerError c =? VSCP_ERROR_SUCCESS) || readerStop c));
      if negb ready then mret (VSCP_ERROR_TIMEOUT, pEvent)
      else
        '(line, rv) ← shared take_queued;
        match line with
        | Some line => read_event pEvent line
        | None => mret (rv, pEvent)
        end
    else
      line ← next_event_line;
      match line with
      | Some line => read_event pEvent line
      | None =>
          startTime ← io (call ms_clock);
          blocking_loop fuel startTime mstimeout pEvent
      end.

(** The overload for vscpEventEx copies everything but the date. *)
Definition copy_received (e : vscpEvent) (x : vscpEventEx) : option vscpEventEx :=
  data ← (match pdata e with
          | Some d => if sizeData e =? 0 then Some (xdata x) else bs ← rdn d 0 (Z.to_nat (sizeData e)); wr (xdata x) 0 bs
          | None => Some (xdata x)
          end);
  Some (EventEx (head e) (obid e) (set_timestamp (timestamp (etime e)) (xtime x)) (crc e)
          (vscp_class e) (vscp_type e) (GUID e) (sizeData e) data).

Definition doCmdBlockingReceive_ex (pEventEx : option vscpEventEx) (timeout : Z) : tcp (Z * option vscpEventEx) :=
  match pEventEx with
  | None => mret (VSCP_ERROR_PARAMETER, None)
  | Some x =>
      connected ← isConnected;
      o ← this;
      if negb connected then mret (VSCP_ERROR_CONNECTION, Some x)
      else if m_bBinaryMode o then
        '(result, event) ← receiveBinaryEvent fuel (Some zero_event) timeout;
        if negb (result =? VSCP_ERROR_SUCCESS) then mret (result, Some x)
        else
          '(converted, px) ← defined (vscp_convertEventToEventEx (Some x) event);
          mret (if (converted : bool) then VSCP_ERROR_SUCCESS else VSCP_ERROR_INVALID_FRAME, px)
      else if negb (m_bModeReceiveLoop o) then mret (VSCP_ERROR_PARAMETER, Some x)
      else
        '(rv, e) ← doCmdBlockingReceive (Some fresh) timeout;
        if negb (rv =? VSCP_ERROR_SUCCESS) then mret (rv, Some x)
        else x ← defined (copy_received (default fresh e) x); mret (rv, Some x)
  end.

Definition doCmdReceiveEx (pEventEx : option vscpEventEx) : tcp (Z * option vscpEventEx) :=
  connected ← isConnected;
  o ← this;
  if negb connected then mret (VSCP_ERROR_CONNECTION, pEventEx)
  else if bool_decide (pEventEx = None) then mret (VSCP_ERROR_PARAMETER, None)
  else if m_bBinaryMode o then doCmdBlockingReceive_ex pEventEx (m_responseTimeOut o)
  else if m_bModeReceiveLoop o then mret (VSCP_ERROR_PARAMETER, pEventEx)
  else
    rv ← command "RETR 1";
    o ← this;
    if negb (rv =? VSCP_ERROR_SUCCESS) then mret (VSCP_ERROR_ERROR, pEventEx)
    else
      match m_inputStrArray o with
      | [] => mret (VSCP_ERROR_RCV_EMPTY, pEventEx)
      | line :: _ =>
          '(ok, pEvent) ← getEventFromLine (Some fresh) line;
          if negb ok then mret (VSCP_ERROR_READ, pEventEx)
          else
            '(converted, px) ← defined (vscp_convertEventToEventEx pEventEx pEvent);
            mret (if (converted : bool) then VSCP_ERROR_SUCCESS else VSCP_ERROR_INVALID_FORMAT, px)
      end.

(** The identifier that is made of an event; [unsigned long] has 64 bits. *)
Definition level1_id (x : vscpEventEx) : Z :=
  Z.lor (Z.lor (Z.lor (Z.shiftl (Z.shiftr (xhead x) 5) 20) (Z.shiftl (xclass x) 16)) (Z.shiftl (xtype x) 8))
        (nth 15 (xGUID x) 0).

Definition doCmdReceiveLevel1 (pCanalMsg : option canalMsg) : tcp (Z * option canalMsg) :=
  connected ← isConnected;
  o ← this;
  if negb connected then mret (VSCP_ERROR_CONNECTION, pCanalMsg)
  else
    match pCanalMsg with
    | None => mret (VSCP_ERROR_PARAMETER, None)
    | Some m =>
        if m_bModeReceiveLoop o then mret (VSCP_ERROR_PARAMETER, Some m)
        else
          '(rv, x) ← doCmdReceiveEx (Some fresh_ex);
          if negb (rv =? VSCP_ERROR_SUCCESS) then mret (VSCP_ERROR_GENERIC, Some m)
          else
            let x := default fresh_ex x in
            if 8 <? xsizeData x then mret (VSCP_ERROR_GENERIC, Some m)
            else
              bytes ← defined (rdn (xdata x) 0 (Z.to_nat (xsizeData x)));
              data ← defined (wr (canal_data m) 0 bytes);
              mret (VSCP_ERROR_SUCCESS,
                    Some (CanalMsg (flags m) (xobid x) (level1_id x) (u8 (xsizeData x)) data (timestamp (xtime x))))
    end.

(** ** Opening *)

(** Host and port of an endpoint, or [None] when it has none. *)
Definition parse_endpoint (strHost : list Z) : option (list Z * list Z) :=
  match rfind [58] strHost with
  | None | Some O => None
  | Some separator =>
      let port := drop (separator + 1) strHost in
      if (separator + 1 =? length strHost)%nat then None
      else if negb (forallb (is_digit 10) port) || (5 <? length port)%nat || (vscp_readStringValue port =? 0)
              || (65535 <? vscp_readStringValue port) then None
      else
        let host := take separator strHost in
        if existsb (fun c => existsb (Z.eqb c) (str "/?#@; " ++ [9; 13; 10])) host then None
        else
          match host with
          | [] => None
          | c :: _ =>
              if c =? 91 then
                if (length host <? 3)%nat || negb (nth (length host - 1) host 0 =? 93) then None
                else Some (take (length host - 2) (drop 1 host), port)
              else if existsb (Z.eqb 58) host then None else Some (host, port)
          end
  end.

Definition doCmdOpen (strHostname strUsername strPassword : list Z) : tcp Z :=
  let strHost := vscp_trim (vscp_makeLower strHostname) in
  let '(bPrefixSecure, strHost) := vscp_startsWith strHost (str "stcp://") in
  let strHost := if bPrefixSecure then strHost else snd (vscp_startsWith strHost (str "tcp://")) in
  o ← this;
  let bSecure := match m_tlsMode o with force_tls => true | force_plain => false | auto_select => bPrefixSecure end in
  _ ← modify (set_tls (m_tlsMode o) bSecure);
  match parse_endpoint strHost with
  | None => mret VSCP_ERROR_PARAMETER
  | Some (host, port) =>
      _ ← doCmdClose;
      o ← this;
      openResult ← io (transport_open host port bSecure (m_connectionTimeOut o));
      if negb (openResult =? VSCP_ERROR_SUCCESS) then _ ← transportClose fuel; mret openResult
      else
        greeting ← checkReturnValueForCommand fuel true;
        if negb greeting then _ ← transportClose fuel; mret VSCP_ERROR_CONNECTION
        else
          rv ← doCommand fuel (str "USER " ++ vscp_trim strUsername ++ CRLF);
          if negb (rv =? VSCP_ERROR_SUCCESS) then _ ← transportClose fuel; mret VSCP_ERROR_USER
          else
            rv ← doCommand fuel (str "PASS " ++ vscp_trim strPassword ++ CRLF);
            if negb (rv =? VSCP_ERROR_SUCCESS) then _ ← transportClose fuel; mret VSCP_ERROR_PASSWORD
            else
              _ ← doCmdVersion (0, 0, 0);
              mret VSCP_ERROR_SUCCESS
  end.

(** "tcp://host:port;username;password". *)
Definition doCmdOpen_interface (strInterface : list Z) : tcp Z :=
  let tokens := vscp_split strInterface (str ";") in
  let strHostname :=
    match tokens with
    | [] => []
    | t :: _ =>
        let host := vscp_trim t in
        match vscp_startsWith (vscp_makeLower host) (str "stcp://") with
        | (true, rest) => str "stcp://" ++ rest
        | (false, _) => snd (vscp_startsWith host (str "tcp://"))
        end
    end in
  doCmdOpen strHostname (nth 1 tokens []) (nth 2 tokens []).

(** The overload with the port, a short. *)
Definition doCmdOpen_port (strHostname : list Z) (port : Z) (strUsername strPassword : list Z) : tcp Z :=
  doCmdOpen (strHostname ++ str ":" ++ dec port) strUsername strPassword.
End commands.

(** ** Properties *)

Section properties.
Context {W : Type} `{TcpTransport W}.
Variable fuel : nat.

(** The overload of doCmdStatistics for canal_statistics_t never returns for
    a pointer that is not null: it calls itself, whatever the depth. *)
Theorem doCmdStatistics_canal_never_returns depth (local : canal_statistics_t) s (w : W * VscpRemoteTcpIf) :
  doCmdStatistics_canal depth local (Some s) w = OutOfFuel.
Proof.
  revert s. induction depth as [|depth IH]; intros s; [reflexivity|]. cbn [doCmdStatistics_canal].
  unfold mbind, M_bind. rewrite IH. reflexivity.
Qed.

(** When doCmdStatistics succeeds all members are the first number of the reply. *)
Lemma doCmdStatistics_same p (w w' : W * VscpRemoteTcpIf) st :
  doCmdStatistics fuel p w = Returns ((VSCP_ERROR_SUCCESS, st), w') ->
  exists v, st = Statistics v v v v v v v 0.
Proof.
  unfold doCmdStatistics. intros E. apply bind_inv in E as (b & w1 & _ & E). apply bind_inv in E as (o & w2 & _ & E).
  destruct (negb b); [discriminate E|]. destruct (m_bModeReceiveLoop o); [discriminate E|].
  apply bind_inv in E as (rv & w3 & _ & E). destruct (negb (rv =? VSCP_ERROR_SUCCESS)); [discriminate E|].
  apply bind_inv in E as (l & w4 & _ & E). injection E as <- _. eauto.
Qed.
End properties.

Lemma land_shiftl m a k : 0 <= k -> Z.shiftl (Z.land a (Z.shiftr m k)) k = Z.land m (Z.shiftl a k).
Proof.
  intros Hk. apply Z.bits_inj'. intros i Hi. rewrite Z.land_spec, !Z.shiftl_spec by lia.
  destruct (Z.ltb_spec i k); [rewrite !(Z.testbit_neg_r _ (i - k)) by lia; symmetry; apply andb_false_r|].
  rewrite Z.land_spec, Z.shiftr_spec, Z.sub_add by lia. apply andb_comm.
Qed.

(** The identifier of the event that is made of a CAN message keeps the class and
    the type: the nickname and the priority are lost. *)
Lemma level1_id_event fresh_ex m data :
  level1_id (level1_event fresh_ex m data) = Z.land (id m) 0x01ffff00.
Proof.
  unfold level1_id, level1_event. cbn [xhead xclass xtype xGUID].
  change (Z.shiftl (Z.shiftr 0 5) 20) with 0. rewrite Z.lor_0_l.
  change (nth 15 (Z.land (id m) 0xff :: zeros 15) 0) with 0. rewrite Z.lor_0_r.
  assert (C := land_511 (Z.shiftr (id m) 16)). assert (T := land_255 (Z.shiftr (id m) 8)).
  rewrite (u16_id (Z.land 0x1ff _)) by (rewrite land_mask_l, C; width).
  rewrite (u8_id (Z.land 0xff _)) by (rewrite land_mask_l, T; width).
  rewrite !land_shiftl by lia. rewrite <- Z.land_lor_distr_r. reflexivity.
Qed.
