(* ===== verification/TcpExchange.v ===== *)
(** * Events in binary mode: sending, receiving and confirming

    [TcpCmd.doCmdSend] writes an event as one frame; [TcpCmd.doCmdReceive] reads
    frames until one is an event, and answers it with a confirmation. *)

From S2P Require Import Prelude Program Crc DateTime Event Frame Strings Guid Filter Canal EventString TcpTransport TcpReader TcpIf TcpBinary TcpCmd.

(** ** Frames *)

(** The confirmation of an event frame. *)
Definition confirmation (frame : list Z) : list Z := reply_frame 0xffff 0 (confirmation_argument frame).

Lemma frame_of_fits e : event_ok e -> sizeData e <= VSCP_MAX_DATA -> frame_fits (frame_of 0 e).
Proof.
  intros He Hs. unfold frame_fits, UINT16_MAX, VSCP_MAX_DATA in *. rewrite length_frame_of by exact He.
  assert (H := size_ok e He). unfold is_u16 in H. lia.
Qed.

Lemma nth_byte l k : bytes_ok l -> is_u8 (nth k l 0).
Proof.
  intros H. revert k. induction H as [|b l Hb _ IH]; intros [|k]; cbn [nth]; [width|width|exact Hb|apply IH].
Qed.

Lemma argument_ok f : bytes_ok f -> data_ok 6 (Some (confirmation_argument f)).
Proof.
  intros H. split; [lia|]. split; [reflexivity|]. unfold confirmation_argument.
  repeat (constructor; [first [apply nth_byte, H|width]|]). constructor.
Qed.

(** The confirmation that is written. *)
Lemma confirmation_written f : bytes_ok f ->
  vscp_writeReplyToFrame (Some (replicate 13 0)) 13 0xffff Frame.VSCP_ERROR_SUCCESS (Some (confirmation_argument f)) 6 =
  Some (Frame.VSCP_ERROR_SUCCESS, Some (confirmation f)).
Proof.
  intros H. rewrite writeReplyToFrame_eq by (exact (argument_ok f H) || (rewrite length_replicate; lia)).
  change (6 + 7 <=? 13) with true. cbv iota. change (drop _ _) with (@nil Z). rewrite app_nil_r. reflexivity.
Qed.

Lemma confirmation_confirms f : is_confirmation (confirmation f) = true /\ crcFast (drop 1 (confirmation f)) = 0 /\
  Z.lor (Z.shiftl (nth 3 (confirmation f) 0) 8) (nth 4 (confirmation f) 0) = 0.
Proof.
  split; [reflexivity|]. split; [|reflexivity].
  exact (frame_crc_zero 0xf0 (be 2 0xffff ++ be 2 0 ++ confirmation_argument f)).
Qed.

(** ** Receiving *)

Section receive.
Context {W : Type} `{StreamLaws W}.
Variable fuel : nat.

(** The event [x] is that of the frame [f], and the confirmation went out. *)
Definition confirmed (f : list Z) (e0 : vscpEvent) (now : timespec) (before after : W) (x : option vscpEvent) : Prop :=
  written after = written before ++ packet (confirmation f) /\ event_frame_ok f = true /\
  vscp_getEventFromFrame now (Some e0) (Some f) (Z.of_nat (length f)) = Some (true, x).

(** An event is handed over when its confirmation was written, and only then. *)
Lemma processBinaryEventFrame_spec f e0 s rv x s' : binary_ok s.2 -> bytes_ok f ->
  processBinaryEventFrame fuel f (Some e0) true s = Returns ((rv, x), s') ->
  binary_ok s'.2 /\ came s'.1 = came s.1 /\
  (rv = VSCP_ERROR_SUCCESS -> confirmed f e0 (system_clock s.1) s.1 s'.1 x).
Proof.
  intros Hs Hf E. unfold processBinaryEventFrame in E. rewrite bool_decide_eq_false_2 in E by discriminate.
  assert (Fail : forall c ev, c <> VSCP_ERROR_SUCCESS -> Returns ((c, ev), s) = Returns ((rv, x), s') ->
            binary_ok s'.2 /\ came s'.1 = came s.1 /\ (rv = VSCP_ERROR_SUCCESS -> confirmed f e0 (system_clock s.1) s.1 s'.1 x)).
  { intros c ev Nc Ec. injection Ec as <- <- <-. split; [exact Hs|]. split; [reflexivity|]. intros ?. congruence. }
  destruct (event_frame_ok f) eqn:Ok; cbn [negb] in E; [|refine (Fail _ _ _ E); discriminate].
  destruct ((VSCP_MAX_DATA <? _) || _); [refine (Fail _ _ _ E); discriminate|].
  rewrite (bind_returns _ _ s (system_clock s.1) s) in E by (destruct s; reflexivity).
  destruct (vscp_getEventFromFrame _ _ _ _) as [[[] ev]|] eqn:Eg;
    [rewrite (bind_defined _ _ _ _ eq_refl) in E|rewrite (bind_defined _ _ _ _ eq_refl) in E|discriminate].
  2: refine (Fail _ _ _ E); discriminate.
  cbn [negb] in E. change VSCP_ERROR_SUCCESS with Frame.VSCP_ERROR_SUCCESS in E at 1.
  rewrite confirmation_written in E by exact Hf. rewrite (bind_defined _ _ _ _ eq_refl) in E.
  cbn [Z.eqb Frame.VSCP_ERROR_SUCCESS VSCP_ERROR_SUCCESS default] in E.
  apply bind_inv in E as (r & s1 & E1 & E). apply sendBinaryFrame_spec in E1 as (K1 & K2 & K3); [|exact Hs].
  destruct (Z.eqb_spec r Frame.VSCP_ERROR_SUCCESS) as [->|Nr]; injection E as <- <- <-.
  - destruct (K3 eq_refl) as [_ K]. split; [exact K1|]. split; [exact K2|]. intros _. split; [exact K|]. auto.
  - split; [exact K1|]. split; [exact K2|]. intros Er. destruct (Nr Er).
Qed.

(** Confirmations are passed over up to the first event. *)
Lemma binary_event_loop_spec n d e0 s rv x s' : binary_ok s.2 ->
  binary_event_loop fuel n d (Some e0) s = Returns ((rv, x), s') -> rv = VSCP_ERROR_SUCCESS ->
  exists bytes cs f now, came s'.1 = came s.1 ++ bytes /\ Forall frame_fits cs /\ frame_fits f /\
    m_binaryInput s.2 ++ bytes = concat (map packet (cs ++ [f])) /\
    Forall (fun c => is_confirmation c = true) cs /\ confirmed f e0 now s.1 s'.1 x.
Proof.
  intros Hs E R. revert s Hs E. induction n as [|n IH]; intros s Hs E; [discriminate|]. cbn [binary_event_loop] in E.
  apply bind_inv in E as (now & s1 & E1 & E). apply (io_call_inv _ _ _ _ still_steady) in E1 as [[Wr1 Ca1] O1].
  apply bind_inv in E as ([r f] & s2 & E2 & E).
  apply receiveBinaryFrame_spec in E2 as (K1 & Wr2 & bs & Ca2 & K); [|rewrite O1; exact Hs].
  destruct (Z.eqb_spec r VSCP_ERROR_SUCCESS) as [Er|Nr]; cbn [negb] in E.
  2: { injection E as <- <- <-. congruence. }
  destruct K as [(_ & Ff & Bf & P & N)|[[? _]|[[|[|]] _]]]; try (unfold VSCP_ERROR_SUCCESS, VSCP_ERROR_TIMEOUT in *; congruence);
    try (subst r; discriminate). rewrite O1 in P.
  destruct (negb _ || _); [injection E as <- <- <-; discriminate R|]. destruct (is_confirmation f) eqn:Cf.
  - destruct (negb (crcFast _ =? 0)); [injection E as <- <- <-; discriminate R|]. cbv zeta in E.
    destruct (Z.eqb_spec (Z.lor (Z.shiftl (nth 3 f 0) 8) (nth 4 f 0)) 0) as [Ez|Nz]; cbn [negb] in E;
      [|injection E as <- <- <-; destruct (Nz R)].
    apply bind_inv in E as (now2 & s3 & E3 & E). apply (io_call_inv _ _ _ _ still_steady) in E3 as [[Wr3 Ca3] O3].
    destruct (d <=? now2); [injection E as <- <- <-; discriminate R|].
    destruct (IH s3) as (bs2 & cs & g & t & C & Fc & Fg & P2 & Hc & K2); [rewrite O3; exact K1|exact E|].
    rewrite O3, N in P2. exists (bs ++ bs2), (f :: cs), g, t. split; [rewrite C, Ca3, Ca2, Ca1, app_assoc; reflexivity|].
    split; [constructor; assumption|]. split; [exact Fg|]. split; [cbn; rewrite app_assoc, P; cbn in P2; rewrite P2; reflexivity|].
    split; [constructor; assumption|]. unfold confirmed in *. rewrite Wr3, Wr2, Wr1 in K2. exact K2.
  - apply processBinaryEventFrame_spec in E as (K2 & Ca3 & K3); [|exact K1|exact Bf].
    exists bs, [], f, (system_clock s2.1). split; [rewrite Ca3, Ca2, Ca1; reflexivity|]. split; [constructor|]. split; [exact Ff|].
    split; [cbn; rewrite app_nil_r; exact P|]. split; [constructor|].
    unfold confirmed in *. rewrite <- Wr1, <- Wr2. exact (K3 R).
Qed.
End receive.

(** ** Sending *)

Section send.
Context {W : Type} `{StreamLaws W}.
Variable fuel : nat.

Lemma doCmdSend_binary e s s' : binary_ok s.2 -> event_ok e -> doCmdSend fuel (Some e) s = Returns (VSCP_ERROR_SUCCESS, s') ->
  sizeData e <= VSCP_MAX_DATA /\ written s'.1 = written s.1 ++ packet (frame_of 0 e).
Proof.
  intros Hs He E. unfold doCmdSend in E. apply bind_inv in E as (b & s1 & E1 & E).
  apply isConnected_idle in E1 as ([Wr1 Ca1] & O1 & ->); [|apply Hs].
  destruct (is_connected s1.1); cbn [negb] in E; [|discriminate E].
  rewrite (bind_returns _ _ s1 s1.2 s1) in E by reflexivity. rewrite O1 in E.
  destruct (m_bModeReceiveLoop s.2 && _); [discriminate E|]. destruct ((0 <? sizeData e) && _); [discriminate E|].
  destruct (Z.ltb_spec VSCP_MAX_DATA (sizeData e)) as [L|L]; [discriminate E|]. rewrite (ok_mode _ Hs) in E.
  assert (Hz := size_ok e He). unfold is_u16 in Hz. unfold VSCP_BINARY_PACKET_FRAME0_HEADER_LENGTH in E.
  rewrite writeEventToFrame_eq in E by (exact He || (rewrite length_replicate; lia)).
  rewrite (proj2 (Z.leb_le _ _)) in E by lia. rewrite (bind_defined _ _ _ _ eq_refl) in E. cbn [negb default] in E.
  apply sendBinaryFrame_spec in E as (_ & _ & K); [|rewrite O1; exact Hs]. destruct (K eq_refl) as [_ K2].
  split; [exact L|]. rewrite K2, Wr1. do 2 f_equal. cbn. unfold Datatypes.id. rewrite drop_ge, app_nil_r; [reflexivity|].
  rewrite length_replicate. lia.
Qed.
End send.

(** ** The exchange *)

(** C14: A client in binary mode sends an event, and another, at the end of the
    stream, receives.  When its doCmdReceive succeeds, the event is the one that was
    sent (with its time in nanoseconds and the CRC of its frame), and what it wrote
    is one packet, with the confirmation of just this frame, which the sender takes
    as a confirmation without error. *)
Theorem binary_event_confirmed {W1 W2} `{StreamLaws W1} `{StreamLaws W2} fuel1 fuel2
    (s s' : W1 * VscpRemoteTcpIf) (r r' : W2 * VscpRemoteTcpIf) e e0 x bytes received lost :
  binary_ok s.2 -> binary_ok r.2 -> m_binaryInput r.2 = [] -> event_ok e ->
  doCmdSend fuel1 (Some e) s = Returns (VSCP_ERROR_SUCCESS, s') ->
  doCmdReceive fuel2 (Some e0) r = Returns ((VSCP_ERROR_SUCCESS, x), r') ->
  written s'.1 = written s.1 ++ bytes -> came r'.1 = came r.1 ++ received -> bytes = received ++ lost ->
  exists now, x = Some (Frame.received now e (crcFast (drop 1 (frame_body 0 e)))) /\
    let reply := confirmation (frame_of 0 e) in
    written r'.1 = written r.1 ++ packet reply /\ is_confirmation reply = true /\
    crcFast (drop 1 reply) = 0 /\ Z.lor (Z.shiftl (nth 3 reply 0) 8) (nth 4 reply 0) = 0.
Proof.
  intros Hs Hr Hi He Es Er Eb Eg El. destruct (doCmdSend_binary _ _ _ _ Hs He Es) as [Hz Ws].
  unfold doCmdReceive in Er. apply bind_inv in Er as (b & r1 & E1 & Er).
  apply isConnected_idle in E1 as ([Wr1 Ca1] & O1 & ->); [|apply Hr].
  rewrite (bind_returns _ _ r1 r1.2 r1) in Er by reflexivity. rewrite O1, (ok_mode _ Hr) in Er.
  destruct (is_connected r1.1); cbn [negb] in Er; [|discriminate Er]. rewrite bool_decide_eq_false_2 in Er by discriminate.
  unfold receiveBinaryEvent in Er. apply bind_inv in Er as (t & r2 & E2 & Er).
  apply (io_call_inv _ _ _ _ still_steady) in E2 as [[Wr2 Ca2] O2].
  apply binary_event_loop_spec in Er as (bs & cs & f & now & C & Fc & Ff & P & _ & K); [|rewrite O2, O1; exact Hr|reflexivity].
  rewrite O2, O1, Hi in P. cbn [app] in P. assert (bs = received) as -> by (apply (app_inv_head (came r.1)); congruence).
  assert (T : packet (frame_of 0 e) ++ [] = concat (map packet (cs ++ [f])) ++ lost).
  { rewrite <- P, <- El, app_nil_r. apply (app_inv_head (written s.1)). congruence. }
  assert (cs = [] /\ f = frame_of 0 e) as [Ecs Ef].
  { assert (Hf := frame_of_fits e He Hz). destruct cs as [|c cs]; cbn [app map concat] in T; rewrite <- app_assoc in T.
    - apply packet_inj in T as [T _]; auto.
    - inversion_clear Fc as [|? ? Fc1 Fc2]. apply packet_inj in T as [_ T]; auto. rewrite map_app, concat_app in T. symmetry in T.
      apply app_eq_nil in T as [T _]. apply app_eq_nil in T as [_ T]. destruct f; discriminate T. }
  subst cs f. destruct K as (K1 & _ & K2). rewrite <- (app_nil_r (frame_of 0 e)) in K2 at 1.
  rewrite getEventFromFrame_written in K2 by (exact He || (rewrite length_frame_of by exact He; assert (Z := size_ok e He); unfold is_u16 in Z; lia)).
  injection K2 as <-. exists now. split; [reflexivity|]. cbv zeta. rewrite K1, Wr2, Wr1. split; [reflexivity|apply confirmation_confirms].
Qed.

(** ** Two clients *)

Definition exchange_sent : sample_line * VscpRemoteTcpIf := after (doCmdSend 9 (Some sample_event) sender).
Definition exchange_receiver : sample_line * VscpRemoteTcpIf :=
  (SampleLine true [take 20 (written exchange_sent.1); drop 20 (written exchange_sent.1)] [] [] 0, binary_client).
Definition exchange_received := after (doCmdReceive 9 (Some sample_event) exchange_receiver).

Lemma binary_event_confirmed_witness : exists now,
  doCmdReceive 9 (Some sample_event) exchange_receiver =
    Returns ((VSCP_ERROR_SUCCESS, Some (Frame.received now sample_event (crcFast (drop 1 (frame_body 0 sample_event))))), exchange_received).
Proof.
  destruct (binary_event_confirmed 9 9 sender exchange_sent exchange_receiver exchange_received sample_event sample_event
              (Some (Frame.received (Timespec 0 0) sample_event (crcFast (drop 1 (frame_body 0 sample_event)))))
              (written exchange_sent.1) (written exchange_sent.1) []) as (now & E & _).
  - exact binary_client_ok.
  - exact binary_client_ok.
  - reflexivity.
  - exact sample_event_ok.
  - vm_compute. reflexivity.
  - vm_compute. reflexivity.
  - reflexivity.
  - vm_compute. reflexivity.
  - symmetry. apply app_nil_r.
  - exists now. rewrite <- E. vm_compute. reflexivity.
Defined.
