(* ===== verification/TcpClient.v ===== *)
(** * The TCP client with its worker threads: vscp-client-tcp.cpp

    In binary mode a worker thread for each connection reads frames and takes them
    apart: events go to the queue or to the callbacks, replies to who waits for
    them, and all others to the queue of raw frames.  Each access to the members
    under m_singleChannelMutex is a function on [shared]; the worker is a step
    function with a step for each of these sections and for each call of its
    interface, a [TcpIf.VscpRemoteTcpIf].  What the threads do in any order is the
    relation of [TcpDemux]. *)

From stdpp Require Import gmap relations.
From S2P Require Import Prelude Program Crc DateTime Event Frame Strings Guid Filter Canal EventString TcpTransport TcpReader TcpIf TcpCmd.

Definition VSCP_ERROR_NOT_SUPPORTED : Z := 17.
Definition VSCP_ERROR_OVERRUN : Z := 18.
Definition VSCP_ERROR_ALREADY_DEFINED : Z := 45.
Definition VSCP_ERROR_NOT_CONNECTED : Z := 54.

Definition binaryRetrCommand : Z := 6.
Definition binaryOpenCommand : Z := 7.
Definition binaryClearCommand : Z := 10.
Definition binaryEventConfirmation : Z := 0xffff.

(** ** Frames *)

Definition binaryRead16 (data : list Z) : Z := Z.lor (Z.shiftl (nth 0 data 0) 8) (nth 1 data 0).

(** The command and the error of a reply. *)
Definition binaryReply (frame : list Z) : option (Z * Z) :=
  if (length frame <? 7)%nat || negb (nth 0 frame 0 =? VSCP_BINARY_PACKET_TYPE_RESPONSE) || negb (crcFast (drop 1 frame) =? 0)
  then None
  else Some (binaryRead16 (drop 1 frame), binaryRead16 (drop 3 frame)).

Definition makeBinaryCommand (command : Z) : option (Z * option (list Z)) :=
  vscp_writeCommandToFrame (Some (replicate 5 0)) 5 command None 0.

(** ** The object *)

Inductive binary_channel := binary_send | binary_receive.

#[export] Instance binary_channel_eq_dec : EqDecision binary_channel.
Proof. solve_decision. Defined.

#[export] Instance binary_channel_countable : Countable binary_channel.
Proof.
  refine (inj_countable' (fun c => match c with binary_send => true | binary_receive => false end)
    (fun b => if b then binary_send else binary_receive) _). intros []; reflexivity.
Defined.

(** What does not change while the threads run. *)
Record settings := Settings {
  polling : bool; singleChannelReceiveLoop : bool; binaryMode : bool;
  isCallbackEvActive : bool; isCallbackExActive : bool
}.

(** A command of clear that waits for its reply, and a poll. *)
Record control := Control { controlPending : bool; controlComplete : bool; controlChannel : binary_channel; controlCode : Z; controlReply : list Z }.
Record poll := Poll { pollPending : bool; pollSawEvent : bool; pollDeadline : Z }.

(** The members that m_singleChannelMutex protects. *)
Record shared := Shared {
  singleChannelRunning : bool;
  singleChannelError : Z;
  singleChannelEvents : list vscpEventEx;
  binaryFrames : list (binary_channel * list Z);
  binaryRawPending : gmap (binary_channel * Z) (list Z);
  binaryRawActive : bool;
  binaryPoll : poll;
  binaryControl : control;
  filterIn : vscpEventFilter
}.

Definition set_running b e s := Shared b e (singleChannelEvents s) (binaryFrames s) (binaryRawPending s) (binaryRawActive s) (binaryPoll s) (binaryControl s) (filterIn s).
Definition set_events q s := Shared (singleChannelRunning s) (singleChannelError s) q (binaryFrames s) (binaryRawPending s) (binaryRawActive s) (binaryPoll s) (binaryControl s) (filterIn s).
Definition set_frames q s := Shared (singleChannelRunning s) (singleChannelError s) (singleChannelEvents s) q (binaryRawPending s) (binaryRawActive s) (binaryPoll s) (binaryControl s) (filterIn s).
Definition set_pending p s := Shared (singleChannelRunning s) (singleChannelError s) (singleChannelEvents s) (binaryFrames s) p (binaryRawActive s) (binaryPoll s) (binaryControl s) (filterIn s).
Definition set_raw b s := Shared (singleChannelRunning s) (singleChannelError s) (singleChannelEvents s) (binaryFrames s) (binaryRawPending s) b (binaryPoll s) (binaryControl s) (filterIn s).
Definition set_poll p s := Shared (singleChannelRunning s) (singleChannelError s) (singleChannelEvents s) (binaryFrames s) (binaryRawPending s) (binaryRawActive s) p (binaryControl s) (filterIn s).
Definition set_control c s := Shared (singleChannelRunning s) (singleChannelError s) (singleChannelEvents s) (binaryFrames s) (binaryRawPending s) (binaryRawActive s) (binaryPoll s) c (filterIn s).
Definition setfilter f s := Shared (singleChannelRunning s) (singleChannelError s) (singleChannelEvents s) (binaryFrames s) (binaryRawPending s) (binaryRawActive s) (binaryPoll s) (binaryControl s) f.

Definition set_controlPending b c := Control b (controlComplete c) (controlChannel c) (controlCode c) (controlReply c).

Section sections.
Variable cfg : settings.

Definition usesManagedReceive : bool := singleChannelReceiveLoop cfg || binaryMode cfg.
Definition binaryUsesTwoChannels : bool := negb (polling cfg) && negb (singleChannelReceiveLoop cfg).
Definition normalizeBinaryChannel (channel : binary_channel) : binary_channel :=
  if binaryUsesTwoChannels then channel else binary_send.

Definition callbacks : bool := isCallbackEvActive cfg || isCallbackExActive cfg.

(** ** Sections of the application's threads *)

Definition failSingleChannelWorker (error : Z) (s : shared) : shared :=
  if singleChannelRunning s then set_running false error s else s.

(** After the connections are open. *)
Definition start_binary (s : shared) : shared :=
  Shared true VSCP_ERROR_SUCCESS [] [] ∅ false (Poll false false (pollDeadline (binaryPoll s)))
    (Control false false (controlChannel (binaryControl s)) (controlCode (binaryControl s)) []) (filterIn s).

Definition stop_binary (s : shared) : shared :=
  set_running false VSCP_ERROR_NOT_CONNECTED (set_pending ∅ (set_frames [] (set_events [] s))).

(** What a stopped client returns. *)
Definition stopped_error (s : shared) : Z :=
  if singleChannelError s =? VSCP_ERROR_SUCCESS then VSCP_ERROR_NOT_CONNECTED else singleChannelError s.

(** Something was taken, there is an error, or the thread waits for the condition. *)
Inductive taking (A : Type) := Taken (a : A) | Refuses (error : Z) | Waits.
Arguments Taken {A} a.
Arguments Refuses {A} error.
Arguments Waits {A}.

Definition take_frame (s : shared) : taking (binary_channel * list Z) * shared :=
  match binaryFrames s with
  | f :: q => (Taken f, set_frames q s)
  | [] => (Refuses (stopped_error s), s)
  end.

Definition frame_ready (s : shared) : bool := negb (bool_decide (binaryFrames s = [])) || negb (singleChannelRunning s).

(** Up to the wait, and after it; [expired] is that the time of the wait is over. *)
Definition receiveBinaryFrame (timeout : Z) (s : shared) : taking (binary_channel * list Z) * shared :=
  if negb (binaryMode cfg) then (Refuses VSCP_ERROR_NOT_SUPPORTED, s)
  else if timeout <? 0 then (Refuses VSCP_ERROR_PARAMETER, s)
  else if negb (singleChannelRunning s) && bool_decide (binaryFrames s = []) then (Refuses (stopped_error s), s)
  else
    let s := set_raw true s in
    if frame_ready s then take_frame s
    else if timeout =? 0 then (Refuses VSCP_ERROR_RCV_EMPTY, s)
    else (Waits, s).
Definition receiveBinaryFrame_woken (expired : bool) (s : shared) : taking (binary_channel * list Z) * shared :=
  if frame_ready s then take_frame s
  else if expired then (Refuses VSCP_ERROR_TIMEOUT, s) else (Waits, s).

Definition event_ready (s : shared) : bool := negb (bool_decide (singleChannelEvents s = [])) || negb (singleChannelRunning s).

Definition take_event (s : shared) : taking vscpEventEx * shared :=
  match singleChannelEvents s with
  | e :: q => (Taken e, set_events q s)
  | [] => (Refuses (stopped_error s), s)
  end.

Definition receiveSingleChannel (timeout : Z) (blocking : bool) (s : shared) : taking vscpEventEx * shared :=
  if timeout <? 0 then (Refuses VSCP_ERROR_PARAMETER, s)
  else if callbacks then (Refuses VSCP_ERROR_NOT_SUPPORTED, s)
  else if event_ready s then take_event s
  else if negb blocking then (Refuses VSCP_ERROR_RCV_EMPTY, s)
  else (Waits, s).
Definition receiveSingleChannel_woken (expired : bool) (s : shared) : taking vscpEventEx * shared :=
  if event_ready s then take_event s
  else if expired then (Refuses VSCP_ERROR_TIMEOUT, s) else (Waits, s).

Definition getcount (s : shared) : Z + Z :=
  if negb (singleChannelRunning s) && bool_decide (singleChannelEvents s = []) then inl (stopped_error s)
  else if 65535 <? Z.of_nat (length (singleChannelEvents s)) then inl VSCP_ERROR_OVERRUN
  else inr (Z.of_nat (length (singleChannelEvents s))).

(** *** Raw frames *)

Definition is_command (frame : list Z) : bool := (3 <=? length frame)%nat && (nth 0 frame 0 =? VSCP_BINARY_PACKET_TYPE_COMMAND).

(** A command whose reply the client has to tell from others. *)
Definition tracked (frame : list Z) : bool :=
  is_command frame && ((binaryRead16 (drop 1 frame) =? binaryClearCommand) ||
                       (polling cfg && (binaryRead16 (drop 1 frame) =? binaryRetrCommand))).

Definition raw_check (frame : list Z) : Z :=
  if negb (binaryMode cfg) then VSCP_ERROR_NOT_SUPPORTED
  else if (length frame =? 0)%nat || (UINT16_MAX <? Z.of_nat (length frame)) then VSCP_ERROR_PARAMETER
  else if tracked frame && (length frame <? 5)%nat then VSCP_ERROR_PARAMETER
  else if tracked frame && negb (crcFast (drop 1 frame) =? 0) then VSCP_ERROR_INVALID_FRAME
  else if polling cfg && is_command frame && (binaryRead16 (drop 1 frame) =? binaryRetrCommand) &&
          (negb (length frame =? 5)%nat && (negb (length frame =? 7)%nat || (1 <? binaryRead16 (drop 3 frame))))
  then VSCP_ERROR_NOT_SUPPORTED
  else VSCP_ERROR_SUCCESS.

Definition push_deadline (key : binary_channel * Z) (deadline : Z) (s : shared) : shared :=
  set_pending (<[key := default [] (binaryRawPending s !! key) ++ [deadline]]> (binaryRawPending s)) s.

(** The section before the frame is sent, with the normalized channel; the deadline
    is that of the reply. *)
Definition sendBinaryFrame_begin (channel : binary_channel) (frame : list Z) (deadline : Z) (s : shared) : Z * shared :=
  let code := if is_command frame then binaryRead16 (drop 1 frame) else 0 in
  let c := binaryControl s in
  if negb (singleChannelRunning s) then (VSCP_ERROR_NOT_CONNECTED, s)
  else if tracked frame &&
          ((pollPending (binaryPoll s) && bool_decide (channel = binary_send) && (code =? binaryRetrCommand)) ||
           (controlPending c && bool_decide (channel = controlChannel c) && (code =? controlCode c)))
  then (VSCP_ERROR_ALREADY_DEFINED, s)
  else
    let s := set_raw true s in
    (VSCP_ERROR_SUCCESS, if tracked frame then push_deadline (channel, code) deadline s else s).

(** A list without elements is taken out of the map. *)
Definition put_pending (key : binary_channel * Z) (l : list Z) (s : shared) : shared :=
  set_pending (match l with [] => delete key (binaryRawPending s) | _ => <[key := l]> (binaryRawPending s) end) s.

(** After a tracked frame was not sent. *)
Definition sendBinaryFrame_failed (channel : binary_channel) (frame : list Z) (s : shared) : shared :=
  if tracked frame then
    let key := (channel, binaryRead16 (drop 1 frame)) in
    match binaryRawPending s !! key with
    | Some l => put_pending key (take (length l - 1) l) s
    | None => s
    end
  else s.

(** *** Commands that wait for their reply *)

Definition binaryCommand_begin (channel : binary_channel) (command : Z) (s : shared) : Z * shared :=
  if negb (singleChannelRunning s) then (VSCP_ERROR_NOT_CONNECTED, s)
  else if bool_decide (is_Some (binaryRawPending s !! (channel, command))) ||
          (pollPending (binaryPoll s) && bool_decide (channel = binary_send) && (command =? binaryRetrCommand))
  then (VSCP_ERROR_ALREADY_DEFINED, s)
  else (VSCP_ERROR_SUCCESS, set_control (Control true false channel command []) s).

Definition control_given_up (s : shared) : shared := set_control (set_controlPending false (binaryControl s)) s.

Definition control_ready (s : shared) : bool := controlComplete (binaryControl s) || negb (singleChannelRunning s).

(** After the wait: the result, and an error with which the client is stopped then. *)
Definition binaryCommand_end (command : Z) (expired : bool) (s : shared) : option (Z * option Z * shared) :=
  if negb (control_ready s) then
    if expired then Some (VSCP_ERROR_TIMEOUT, Some VSCP_ERROR_TIMEOUT, control_given_up s) else None
  else if negb (controlComplete (binaryControl s)) then Some (stopped_error s, None, control_given_up s)
  else
    let reply := controlReply (binaryControl s) in
    let s := set_control (Control false (controlComplete (binaryControl s)) (controlChannel (binaryControl s)) (controlCode (binaryControl s)) []) s in
    Some match binaryReply reply with
      | Some (replyCommand, error) =>
          if (replyCommand =? command) && (length reply =? 7)%nat then (error, None, s)
          else (VSCP_ERROR_INVALID_FRAME, Some VSCP_ERROR_INVALID_FRAME, s)
      | None => (VSCP_ERROR_INVALID_FRAME, Some VSCP_ERROR_INVALID_FRAME, s)
      end.

(** ** The worker *)

(** What a frame turns out to be. *)
Inductive verdict :=
  | No_frame | Is_event | Control_reply | Poll_reply (sawEvent : bool) | Confirms | Is_raw.

Definition is_event_frame (frame : list Z) : bool := (Z.land (nth 0 frame 0) 0x0f =? 0) && (Z.shiftr (nth 0 frame 0) 4 <=? 1).
Definition is_reply_frame (frame : list Z) : bool := (3 <=? length frame)%nat && (nth 0 frame 0 =? VSCP_BINARY_PACKET_TYPE_RESPONSE).

(** The section for a reply. *)
Definition claim_reply (channel : binary_channel) (frame : list Z) (s : shared) : verdict * shared :=
  let code := binaryRead16 (drop 1 frame) in
  let reply := binaryReply frame in
  let p := binaryPoll s in
  let c := binaryControl s in
  if pollPending p && bool_decide (channel = binary_send) && (code =? binaryRetrCommand)
  then (Poll_reply (pollSawEvent p), set_poll (Poll false (pollSawEvent p) (pollDeadline p)) s)
  else if controlPending c && negb (controlComplete c) && bool_decide (channel = controlChannel c) && (code =? controlCode c) then
    (Control_reply,
     match reply with
     | Some (_, error) =>
         if (length frame =? 7)%nat then
           let s := if (code =? binaryClearCommand) && (error =? VSCP_ERROR_SUCCESS) then set_events [] s else s in
           set_control (Control true true (controlChannel c) (controlCode c) frame) s
         else s
     | None => s
     end)
  else
    match reply, binaryRawPending s !! (channel, code) with
    | Some _, Some l => (Is_raw, put_pending (channel, code) (drop 1 l) s)
    | _, _ => (if (code =? binaryEventConfirmation) && negb (binaryRawActive s) then Confirms else Is_raw, s)
    end.

(** The first section of processBinaryFrame. *)
Definition claim (channel : binary_channel) (frame : list Z) (s : shared) : verdict * shared :=
  if (length frame =? 0)%nat then (No_frame, s)
  else if is_event_frame frame then
    (Is_event, let p := binaryPoll s in if polling cfg && pollPending p then set_poll (Poll true true (pollDeadline p)) s else s)
  else if is_reply_frame frame then claim_reply channel frame s
  else (Is_raw, s).

(** The event frame in the reply to a poll. *)
Definition poll_event (frame : list Z) : list Z :=
  let eventFrame := 0x10 :: take (length frame - 7) (drop 5 frame) in
  eventFrame ++ crc_bytes (crcFast (drop 1 eventFrame)).

(** What is done with it: nothing more, with a result, an event frame is taken
    apart, or it goes to the raw frames. *)
Inductive action := Finished (result : Z) | Dispatch (frame : list Z) (acknowledge : bool) | Push.

Definition poll_action (sawEvent : bool) (frame : list Z) : action :=
  match binaryReply frame with
  | None => Finished VSCP_ERROR_INVALID_FRAME
  | Some (_, error) =>
      if (error =? VSCP_ERROR_RCV_EMPTY) && (length frame =? 7)%nat then Finished VSCP_ERROR_SUCCESS
      else if negb (error =? VSCP_ERROR_SUCCESS) then Finished error
      else if (length frame =? 7)%nat && sawEvent then Finished VSCP_ERROR_SUCCESS
      else if (length frame <? 42)%nat then Finished VSCP_ERROR_INVALID_FRAME
      else Dispatch (poll_event frame) false
  end.

Definition action_of (v : verdict) (frame : list Z) : action :=
  match v with
  | No_frame => Finished VSCP_ERROR_INVALID_FRAME
  | Is_event => Dispatch frame true
  | Control_reply =>
      Finished (match binaryReply frame with
                | Some _ => if (length frame =? 7)%nat then VSCP_ERROR_SUCCESS else VSCP_ERROR_INVALID_FRAME
                | None => VSCP_ERROR_INVALID_FRAME
                end)
  | Poll_reply sawEvent => poll_action sawEvent frame
  | Confirms =>
      Finished (match binaryReply frame with
                | Some (_, error) => if (length frame =? 13)%nat then error else VSCP_ERROR_INVALID_FRAME
                | None => VSCP_ERROR_INVALID_FRAME
                end)
  | Is_raw => Push
  end.

Definition push_frame (channel : binary_channel) (frame : list Z) (s : shared) : shared :=
  set_frames (binaryFrames s ++ [(channel, frame)]) s.

(** The section of dispatchBinaryEvent: the event is done with, goes to the
    callbacks, or cannot be converted. *)
Inductive delivery := Queued | Dropped | To_callbacks | Not_converted.

Definition dispatch_event (event : vscpEvent) (s : shared) : option (delivery * shared) :=
  if singleChannelRunning s && vscp_doLevel2Filter (Some event) (Some (filterIn s)) then
    if callbacks then Some (To_callbacks, s)
    else
      '(ok, converted) ← vscp_convertEventToEventEx (Some zero_ex) (Some event);
      Some (match ok, converted with
            | true, Some x => (Queued, set_events (singleChannelEvents s ++ [x]) s)
            | _, _ => (Not_converted, s)
            end)
  else Some (Dropped, s).

(** The section at the top of the loop: whether a reply is late, a poll has to be
    sent, and when the next one is. *)
Inductive round := Late | Issue | Quiet.

Definition late_reply (channel : binary_channel) (now : Z) (s : shared) : bool :=
  existsb (fun p => bool_decide (p.1.1 = channel) && match p.2 with d :: _ => d <=? now | [] => false end) (map_to_list (binaryRawPending s)).

Definition worker_top (channel : binary_channel) (now responseTimeout nextPoll : Z) (s : shared) : round * Z * shared :=
  let p := binaryPoll s in
  let timedOut := late_reply channel now s in
  if polling cfg then
    let timedOut := timedOut || (pollPending p && (pollDeadline p <=? now)) in
    if negb timedOut && negb (pollPending p) && (nextPoll <=? now) && bool_decide (binaryRawPending s !! (channel, binaryRetrCommand) = None)
    then (Issue, now + 50 * 1000000, set_poll (Poll true false (now + responseTimeout * 1000000)) s)
    else (if timedOut then Late else Quiet, nextPoll, s)
  else (if timedOut then Late else Quiet, nextPoll, s).

End sections.

#[global] Arguments Taken {A} a.
#[global] Arguments Refuses {A} error.
#[global] Arguments Waits {A}.

(** Where a worker is: at the test of the loop, the section at its top, the sending
    of a poll, the next frame, the test after it, the section of processBinaryFrame,
    the last line of that, the call of processBinaryEventFrame, the section for the
    event, the callbacks, failSingleChannelWorker, the last section, and the end. *)
Inductive place :=
  | Loop | Top | Send_poll | Next | Got_frame (result : Z) (frame : list Z) | Process (frame : list Z) | Push_raw (frame : list Z)
  | Take_apart (frame : list Z) (acknowledge : bool) | For_event (event : vscpEvent) | Call_back (event : vscpEvent)
  | Failing (error : Z) | Leaving | Left.

Record worker := Worker { at_place : place; buffered : list (list Z); nextPoll : Z }.

Definition goes (p : place) (w : worker) : worker := Worker p (buffered w) (nextPoll w).

(** Where the result of processBinaryFrame leads to. *)
Definition with_result (result : Z) : place := if result =? VSCP_ERROR_SUCCESS then Loop else Failing result.

Definition enter (a : action) (frame : list Z) : place :=
  match a with
  | Finished result => with_result result
  | Dispatch f acknowledge => Take_apart f acknowledge
  | Push => Push_raw frame
  end.

Definition arrive (d : delivery) (event : vscpEvent) : place :=
  match d with
  | Queued | Dropped => Loop
  | To_callbacks => Call_back event
  | Not_converted => Failing VSCP_ERROR_INVALID_FRAME
  end.

(** The two interfaces, each with the world it sees, and the members. *)
Record client (W : Type) := Client {
  m_tcp : W * VscpRemoteTcpIf;
  m_tcpReceive : W * VscpRemoteTcpIf;
  members : shared
}.
#[global] Arguments Client {W}.
#[global] Arguments m_tcp {W}.
#[global] Arguments m_tcpReceive {W}.
#[global] Arguments members {W}.

Section worker.
Context {W : Type} `{TcpTransport W}.
Variable (fuel : nat) (cfg : settings).
Abbreviation cio := (M (client W)).

Definition interface_of (channel : binary_channel) (c : client W) : W * VscpRemoteTcpIf :=
  match normalizeBinaryChannel cfg channel with binary_send => m_tcp c | binary_receive => m_tcpReceive c end.
Definition set_interface (channel : binary_channel) (i : W * VscpRemoteTcpIf) (c : client W) : client W :=
  match normalizeBinaryChannel cfg channel with
  | binary_send => Client i (m_tcpReceive c) (members c)
  | binary_receive => Client (m_tcp c) i (members c)
  end.

(** A call of binaryInterface(channel). *)
Definition on_interface {A} (channel : binary_channel) (m : M (W * VscpRemoteTcpIf) A) : cio A := fun c =>
  match m (interface_of channel c) with
  | Returns (a, i) => Returns (a, set_interface channel i c)
  | Throws => Throws
  | Undefined => Undefined
  | OutOfFuel => OutOfFuel
  end.

(** A section under m_singleChannelMutex. *)
Definition locked {A} (f : shared -> A * shared) : cio A := fun c =>
  let '(a, s) := f (members c) in Returns (a, Client (m_tcp c) (m_tcpReceive c) s).

Definition running : cio bool := locked (fun s => (singleChannelRunning s, s)).

(** One step of binaryWorker. *)
Definition binaryWorker (channel : binary_channel) (w : worker) : cio worker :=
  match at_place w with
  | Loop => r ← running; mret (goes (if (r : bool) then Top else Leaving) w)
  | Top =>
      now ← on_interface channel (io (call steady_clock));
      o ← on_interface channel this;
      '(r, next) ← locked (worker_top cfg channel now (m_responseTimeOut o) (nextPoll w));
      mret (Worker (match r with Late => Failing VSCP_ERROR_TIMEOUT | Issue => Send_poll | Quiet => Next end) (buffered w) next)
  | Send_poll =>
      '(result, request) ← defined (makeBinaryCommand binaryRetrCommand);
      result ← (if result =? VSCP_ERROR_SUCCESS then on_interface channel (sendBinaryFrame fuel (default [] request)) else mret result);
      mret (goes (if result =? VSCP_ERROR_SUCCESS then Next else Failing result) w)
  | Next =>
      match buffered w with
      | f :: rest => mret (Worker (Got_frame VSCP_ERROR_SUCCESS f) rest (nextPoll w))
      | [] =>
          '(result, frame) ← on_interface channel (TcpIf.receiveBinaryFrame fuel [] 50);
          mret (goes (Got_frame result frame) w)
      end
  | Got_frame result frame =>
      r ← running;
      mret (goes (if negb r then Leaving
                  else if result =? VSCP_ERROR_TIMEOUT then Loop
                  else if result =? VSCP_ERROR_SUCCESS then Process frame else Failing result) w)
  | Process frame => v ← locked (claim cfg channel frame); mret (goes (enter (action_of v frame) frame) w)
  | Push_raw frame => _ ← locked (fun s => (tt, push_frame channel frame s)); mret (goes Loop w)
  | Take_apart frame acknowledge =>
      '(result, event) ← on_interface channel (processBinaryEventFrame fuel frame (Some zero_event) acknowledge);
      mret (goes (if result =? VSCP_ERROR_SUCCESS then For_event (default zero_event event) else Failing result) w)
  | For_event event =>
      d ← (fun c => match dispatch_event cfg event (members c) with
                    | Some (d, s) => Returns (d, Client (m_tcp c) (m_tcpReceive c) s)
                    | None => Undefined
                    end);
      mret (goes (arrive d event) w)
  | Call_back _ => mret (goes Loop w)
  | Failing error => _ ← locked (fun s => (tt, failSingleChannelWorker error s)); mret (goes Leaving w)
  | Leaving => mret (goes Left w)
  | Left => mret w
  end.

End worker.
