(* ===== verification/TcpDemux.v ===== *)
(** * Which thread gets a frame: the binary mode of vscp-client-tcp.cpp

    The worker threads and any number of threads of the application, in any order
    of their steps ([TcpClient]): every frame that comes on a connection goes to
    exactly one of the queue of events (or the callbacks), the thread that waits
    for a reply, and the queue of raw frames. *)

From stdpp Require Import gmap relations.
From S2P Require Import Prelude Program Crc DateTime Event Frame Strings Guid Filter Canal EventString TcpTransport TcpReader TcpIf TcpBinary TcpCmd TcpClient.

(** ** The steps *)


(** The holder of m_singleChannelCommandMutex: a thread that sends a raw frame, or
    failed to send it, or one that sends the command of clear. *)
Inductive holder := Raw_sending (ch : binary_channel) (f : list Z) | Raw_failed (ch : binary_channel) (f : list Z) | Command_sending.

(** The thread that holds m_binaryControlMutex: what it was when clear was called,
    the number of frames that had been claimed and of events that had been queued. *)
Inductive caller := No_caller | Calls (ch : binary_channel) (frames events : nat) | Call_failed | Call_waits (ch : binary_channel) (frames events : nat).

(** Who waits for a reply. *)
Inductive waiter := Poll_waits (sawEvent : bool) | Clear_waits | Raw_waits | Confirmation | Nobody.

Section demux.
Context {W : Type} `{StreamLaws W}.
Variable (fuel : nat) (cfg : settings).

(** Who waits for a reply at the moment it is claimed: the worker, whose poll is out
    (and whether an event came since); a thread in clear; a thread that sent the
    command as a raw frame; none, but it confirms an event of a client that does
    not use raw frames; none. *)
Definition who_waits (ch : binary_channel) (f : list Z) (s : shared) : waiter :=
  let code := binaryRead16 (drop 1 f) in
  let p := binaryPoll s in let c := binaryControl s in
  if pollPending p && bool_decide (ch = binary_send) && (code =? binaryRetrCommand) then Poll_waits (pollSawEvent p)
  else if controlPending c && negb (controlComplete c) && bool_decide (ch = controlChannel c) && (code =? controlCode c) then Clear_waits
  else if bool_decide (is_Some (binaryReply f) /\ is_Some (binaryRawPending s !! (ch, code))) then Raw_waits
  else if (code =? binaryEventConfirmation) && negb (binaryRawActive s) then Confirmation
  else Nobody.

(** [claims] are the frames that were claimed, who waited for each if it is a reply,
    and what was done with it, [seen]
    the events that got to the last section while the client was running, with the
    filter at that time, [called] those that were given to the callbacks, and the
    others what was taken from the queues, or dropped from them. *)
Record run := Run {
  cl : client W;
  workers : binary_channel -> worker;
  mutex : option holder;
  clearer : caller;
  claims : list (binary_channel * (list Z * (waiter * action)));
  seen : list (binary_channel * (vscpEvent * vscpEventFilter));
  called : list (binary_channel * vscpEvent);
  taken_frames : list (binary_channel * list Z);
  taken_events : list vscpEventEx
}.

Definition upd_worker (ws : binary_channel -> worker) (ch : binary_channel) (w : worker) : binary_channel -> worker :=
  fun c => if decide (ch = c) then w else ws c.

Definition with_members (s : shared) (c : client W) : client W := Client (m_tcp c) (m_tcpReceive c) s.

(** What the step of a worker adds to the history. *)
Definition new_claim (ch : binary_channel) (w : worker) (s : shared) : list (binary_channel * (list Z * (waiter * action))) :=
  match at_place w with Process f => [(ch, (f, (who_waits ch f s, action_of (claim cfg ch f s).1 f)))] | _ => [] end.
Definition new_seen (ch : binary_channel) (w : worker) (s : shared) : list (binary_channel * (vscpEvent * vscpEventFilter)) :=
  match at_place w with For_event e => if singleChannelRunning s then [(ch, (e, filterIn s))] else [] | _ => [] end.
Definition new_called (ch : binary_channel) (w : worker) (s : shared) : list (binary_channel * vscpEvent) :=
  match at_place w with Call_back e => if singleChannelRunning s then [(ch, e)] else [] | _ => [] end.
(** The reply to clear empties the queue of events. *)
Definition cleared (ch : binary_channel) (w : worker) (s : shared) : list vscpEventEx :=
  match at_place w with
  | Process f => match singleChannelEvents (claim cfg ch f s).2 with [] => singleChannelEvents s | _ => [] end
  | _ => []
  end.

Definition one {A} (t : taking A) : list A := match t with Taken a => [a] | _ => [] end.

Inductive moves : run -> run -> Prop :=
  | move_worker ch c ws m k cs ss cd tf te w' c' :
      binaryWorker fuel cfg ch (ws ch) c = Returns (w', c') ->
      moves (Run c ws m k cs ss cd tf te)
            (Run c' (upd_worker ws ch w') m k (cs ++ new_claim ch (ws ch) (members c)) (ss ++ new_seen ch (ws ch) (members c))
               (cd ++ new_called ch (ws ch) (members c)) tf (te ++ cleared ch (ws ch) (members c)))
  | move_raw_begin ch f d c ws k cs ss cd tf te s' :
      raw_check cfg f = VSCP_ERROR_SUCCESS ->
      sendBinaryFrame_begin cfg (normalizeBinaryChannel cfg ch) f d (members c) = (VSCP_ERROR_SUCCESS, s') ->
      moves (Run c ws None k cs ss cd tf te) (Run (with_members s' c) ws (Some (Raw_sending ch f)) k cs ss cd tf te)
  | move_raw_send ch f c ws k cs ss cd tf te rv c' :
      on_interface cfg ch (sendBinaryFrame fuel f) c = Returns (rv, c') ->
      moves (Run c ws (Some (Raw_sending ch f)) k cs ss cd tf te)
            (Run c' ws (if rv =? VSCP_ERROR_SUCCESS then None else Some (Raw_failed ch f)) k cs ss cd tf te)
  | move_raw_failed ch f c ws k cs ss cd tf te :
      moves (Run c ws (Some (Raw_failed ch f)) k cs ss cd tf te)
            (Run (with_members (sendBinaryFrame_failed cfg (normalizeBinaryChannel cfg ch) f (members c)) c) ws None k cs ss cd tf te)
  | move_send ch f c ws k cs ss cd tf te rv c' :
      on_interface cfg ch (sendBinaryFrame fuel f) c = Returns (rv, c') ->
      moves (Run c ws None k cs ss cd tf te) (Run c' ws None k cs ss cd tf te)
  | move_clear ch c ws cs ss cd tf te s' :
      binaryCommand_begin (normalizeBinaryChannel cfg ch) binaryClearCommand (members c) = (VSCP_ERROR_SUCCESS, s') ->
      moves (Run c ws None No_caller cs ss cd tf te)
            (Run (with_members s' c) ws (Some Command_sending)
               (Calls (normalizeBinaryChannel cfg ch) (length cs) (length te + length (singleChannelEvents (members c)))) cs ss cd tf te)
  | move_clear_send ch n m c ws cs ss cd tf te rv f c' :
      makeBinaryCommand binaryClearCommand = Some (VSCP_ERROR_SUCCESS, Some f) ->
      on_interface cfg ch (sendBinaryFrame fuel f) c = Returns (rv, c') ->
      moves (Run c ws (Some Command_sending) (Calls ch n m) cs ss cd tf te)
            (Run c' ws None (if rv =? VSCP_ERROR_SUCCESS then Call_waits ch n m else Call_failed) cs ss cd tf te)
  | move_clear_failed c ws mx cs ss cd tf te :
      moves (Run c ws mx Call_failed cs ss cd tf te) (Run (with_members (control_given_up (members c)) c) ws mx No_caller cs ss cd tf te)
  | move_clear_end ch n m expired c ws mx cs ss cd tf te rv stop s' :
      binaryCommand_end binaryClearCommand expired (members c) = Some (rv, stop, s') ->
      moves (Run c ws mx (Call_waits ch n m) cs ss cd tf te) (Run (with_members s' c) ws mx No_caller cs ss cd tf te)
  | move_fail error c ws mx k cs ss cd tf te :
      moves (Run c ws mx k cs ss cd tf te) (Run (with_members (failSingleChannelWorker error (members c)) c) ws mx k cs ss cd tf te)
  | move_receive_frame timeout c ws mx k cs ss cd tf te t s' :
      receiveBinaryFrame cfg timeout (members c) = (t, s') ->
      moves (Run c ws mx k cs ss cd tf te) (Run (with_members s' c) ws mx k cs ss cd (tf ++ one t) te)
  | move_frame_woken expired c ws mx k cs ss cd tf te t s' :
      receiveBinaryFrame_woken expired (members c) = (t, s') ->
      moves (Run c ws mx k cs ss cd tf te) (Run (with_members s' c) ws mx k cs ss cd (tf ++ one t) te)
  | move_receive_event timeout blocking c ws mx k cs ss cd tf te t s' :
      receiveSingleChannel cfg timeout blocking (members c) = (t, s') ->
      moves (Run c ws mx k cs ss cd tf te) (Run (with_members s' c) ws mx k cs ss cd tf (te ++ one t))
  | move_event_woken expired c ws mx k cs ss cd tf te t s' :
      receiveSingleChannel_woken expired (members c) = (t, s') ->
      moves (Run c ws mx k cs ss cd tf te) (Run (with_members s' c) ws mx k cs ss cd tf (te ++ one t))
  | move_setfilter f c ws mx k cs ss cd tf te :
      moves (Run c ws mx k cs ss cd tf te) (Run (with_members (setfilter f (members c)) c) ws mx k cs ss cd tf te)
  | move_disconnect c ws mx k cs ss cd tf te :
      moves (Run c ws mx k cs ss cd tf te)
            (Run (with_members (stop_binary (members c)) c) ws mx k cs ss cd (tf ++ binaryFrames (members c)) (te ++ singleChannelEvents (members c))).

(** The threads that connectBinary starts; [buffered] are the frames that came
    before the reply to OPEN. *)
Definition first_place (buffered : list (list Z)) (now : Z) (two ch_receive : bool) : worker :=
  Worker (if two || negb ch_receive then Loop else Left) (if Bool.eqb ch_receive two then buffered else []) now.

Definition started (r : run) (buffered : list (list Z)) : Prop :=
  let two := binaryUsesTwoChannels cfg in
  (exists now, workers r binary_receive = first_place buffered now two true) /\
  (exists now, workers r binary_send = first_place buffered now two false) /\
  (exists s, members (cl r) = start_binary s) /\
  binary_ok (m_tcp (cl r)).2 /\ (two = true -> binary_ok (m_tcpReceive (cl r)).2) /\
  mutex r = None /\ clearer r = No_caller /\ claims r = [] /\ seen r = [] /\ called r = [] /\ taken_frames r = [] /\ taken_events r = [].
End demux.

(** ** Steps of a worker *)

Section steps.
Context {W : Type} `{StreamLaws W}.
Variable (fuel : nat) (cfg : settings).
Implicit Types (c : client W) (w : worker) (s : shared).

(** An interface in binary mode on which something may have been sent. *)
Definition keeps (i i' : W * VscpRemoteTcpIf) : Prop :=
  binary_ok i.2 -> binary_ok i'.2 /\ came i'.1 = came i.1 /\ m_binaryInput i'.2 = m_binaryInput i.2.

(** The event of an event frame. *)
Definition decodes (f : list Z) (e : vscpEvent) : Prop :=
  event_frame_ok f = true /\
  exists now, vscp_getEventFromFrame now (Some zero_event) (Some f) (Z.of_nat (length f)) = Some (true, Some e).

Lemma getEventFromFrame_some now e f len x : vscp_getEventFromFrame now (Some e) (Some f) len = Some (true, x) -> exists e', x = Some e'.
Proof.
  unfold vscp_getEventFromFrame. destruct (rd f 0); [|discriminate]. cbn [mbind option_bind]. destruct (frame_check f len) as [[[size c]|]|]; [|discriminate..].
  cbn [mbind option_bind]. intros E. repeat match type of E with (?m ≫= _) = _ => destruct m; [cbn [mbind option_bind] in E|discriminate E] end.
  injection E as <-. eauto.
Qed.

Lemma defined_inv {A B} (o : option A) (b : B) a b' : defined o b = Returns (a, b') -> o = Some a /\ b' = b.
Proof. destruct o; [intros [= -> ->]; auto|discriminate]. Qed.

Lemma sendBinaryFrame_keeps f i rv i' : sendBinaryFrame fuel f i = Returns (rv, i') -> keeps i i'.
Proof.
  intros E Hi. destruct (sendBinaryFrame_spec _ _ _ _ _ Hi E) as (K1 & K2 & _). split; [exact K1|]. split; [exact K2|].
  unfold sendBinaryFrame in E. apply bind_inv in E as (b & s1 & E1 & E). apply isConnected_idle in E1 as (_ & O1 & ->); [|apply Hi].
  rewrite (bind_returns _ _ s1 s1.2 s1) in E by reflexivity. rewrite O1, (ok_mode _ Hi) in E.
  destruct (is_connected s1.1); [cbn [negb] in E|injection E as <- <-; rewrite O1; reflexivity].
  destruct (_ || (UINT16_MAX <? _)); [injection E as <- <-; rewrite O1; reflexivity|].
  apply bind_inv in E as (r & s2 & E2 & E). injection E as <- <-. apply transportWrite_inv in E2 as [_ K]; [|rewrite O1; apply Hi].
  destruct (r =? VSCP_ERROR_SUCCESS).
  - destruct K as [_ ->]. rewrite O1. reflexivity.
  - destruct K as (_ & _ & c & -> & _). rewrite O1. reflexivity.
Qed.

Lemma processBinaryEventFrame_keeps f ack i rv x i' : processBinaryEventFrame fuel f (Some zero_event) ack i = Returns ((rv, x), i') ->
  keeps i i' /\ (rv = VSCP_ERROR_SUCCESS -> exists e, x = Some e /\ decodes f e).
Proof.
  intros E. unfold processBinaryEventFrame in E. rewrite bool_decide_eq_false_2 in E by discriminate.
  assert (K0 : keeps i i) by (intros Hi; auto).
  assert (Fail : forall e0 ev, e0 <> VSCP_ERROR_SUCCESS -> Returns ((e0, ev), i) = Returns ((rv, x), i') ->
            keeps i i' /\ (rv = VSCP_ERROR_SUCCESS -> exists e, x = Some e /\ decodes f e)).
  { intros e0 ev Nc Ec. injection Ec as <- <- <-. split; [exact K0|congruence]. }
  destruct (event_frame_ok f) eqn:Ok; cbn [negb] in E; [|refine (Fail _ _ _ E); discriminate].
  destruct ((VSCP_MAX_DATA <? _) || _); [refine (Fail _ _ _ E); discriminate|].
  rewrite (bind_returns _ _ i (system_clock i.1) i) in E by (destruct i; reflexivity).
  destruct (vscp_getEventFromFrame _ _ _ _) as [[[] ev]|] eqn:Eg;
    [rewrite (bind_defined _ _ _ _ eq_refl) in E|rewrite (bind_defined _ _ _ _ eq_refl) in E|discriminate].
  2: refine (Fail _ _ _ E); discriminate.
  assert (D : forall e, ev = Some e -> decodes f e) by (intros e ->; split; [exact Ok|eauto]).
  assert (Sm : exists e, ev = Some e) by (apply getEventFromFrame_some in Eg; exact Eg). destruct Sm as [e Ee].
  cbn [negb] in E. destruct ack; cbn [negb] in E.
  - apply bind_inv in E as ([result confirmation] & s1 & E1 & E). apply defined_inv in E1 as [_ ->].
    apply bind_inv in E as (r & s2 & E2 & E). assert (K : keeps i s2).
    { destruct (result =? VSCP_ERROR_SUCCESS); [exact (sendBinaryFrame_keeps _ _ _ _ E2)|injection E2 as _ <-; exact K0]. }
    destruct (Z.eqb_spec r VSCP_ERROR_SUCCESS) as [Er|Nr]; injection E as <- <- <-; (split; [exact K|]); [eauto|congruence].
  - injection E as <- <- <-. split; [exact K0|eauto].
Qed.

(** *** The steps, place by place *)

Lemma on_interface_inv {A} ch (m : M (W * VscpRemoteTcpIf) A) c a c' : on_interface cfg ch m c = Returns (a, c') ->
  exists i, m (interface_of cfg ch c) = Returns (a, i) /\ c' = set_interface cfg ch i c.
Proof. unfold on_interface. destruct (m _) as [[x i]| | |]; [|discriminate..]. intros [= -> <-]. eauto. Qed.

Lemma set_interface_twice ch i i' c : set_interface cfg ch i (set_interface cfg ch i' c) = set_interface cfg ch i c.
Proof. unfold set_interface. destruct (normalizeBinaryChannel cfg ch); reflexivity. Qed.

Lemma interface_of_set ch i c : interface_of cfg ch (set_interface cfg ch i c) = i.
Proof. unfold set_interface, interface_of. destruct (normalizeBinaryChannel cfg ch); reflexivity. Qed.


Lemma set_interface_same ch c : set_interface cfg ch (interface_of cfg ch c) c = c.
Proof. unfold set_interface, interface_of. destruct c, (normalizeBinaryChannel cfg ch); reflexivity. Qed.

Inductive step_of (ch : binary_channel) : worker -> client W -> worker -> client W -> Prop :=
  | at_loop b t c : step_of ch (Worker Loop b t) c (Worker (if singleChannelRunning (members c) then Top else Leaving) b t) c
  | at_top b t c now resp r t' s' i : keeps (interface_of cfg ch c) i ->
      worker_top cfg ch now resp t (members c) = (r, t', s') ->
      step_of ch (Worker Top b t) c (Worker (match r with Late => Failing VSCP_ERROR_TIMEOUT | Issue => Send_poll | Quiet => Next end) b t')
        (with_members s' (set_interface cfg ch i c))
  | at_poll b t c p i : keeps (interface_of cfg ch c) i -> p = Next \/ (exists e, p = Failing e) ->
      step_of ch (Worker Send_poll b t) c (Worker p b t) (set_interface cfg ch i c)
  | at_buffer f b t c : step_of ch (Worker Next (f :: b) t) c (Worker (Got_frame VSCP_ERROR_SUCCESS f) b t) c
  | at_next t c rv f i : TcpIf.receiveBinaryFrame fuel [] 50 (interface_of cfg ch c) = Returns ((rv, f), i) ->
      step_of ch (Worker Next [] t) c (Worker (Got_frame rv f) [] t) (set_interface cfg ch i c)
  | at_got rv f b t c :
      step_of ch (Worker (Got_frame rv f) b t) c
        (Worker (if negb (singleChannelRunning (members c)) then Leaving
                 else if rv =? VSCP_ERROR_TIMEOUT then Loop else if rv =? VSCP_ERROR_SUCCESS then Process f else Failing rv) b t) c
  | at_process f b t c v s' : claim cfg ch f (members c) = (v, s') ->
      step_of ch (Worker (Process f) b t) c (Worker (enter (action_of v f) f) b t) (with_members s' c)
  | at_push f b t c : step_of ch (Worker (Push_raw f) b t) c (Worker Loop b t) (with_members (push_frame ch f (members c)) c)
  | at_apart f ack b t c p i : keeps (interface_of cfg ch c) i -> (exists e, p = For_event e /\ decodes f e) \/ (exists e, p = Failing e) ->
      step_of ch (Worker (Take_apart f ack) b t) c (Worker p b t) (set_interface cfg ch i c)
  | at_event e b t c d s' : dispatch_event cfg e (members c) = Some (d, s') ->
      step_of ch (Worker (For_event e) b t) c (Worker (arrive d e) b t) (with_members s' c)
  | at_call e b t c : step_of ch (Worker (Call_back e) b t) c (Worker Loop b t) c
  | at_fail e b t c : step_of ch (Worker (Failing e) b t) c (Worker Leaving b t) (with_members (failSingleChannelWorker e (members c)) c)
  | at_end p b t c : p = Leaving \/ p = Left -> step_of ch (Worker p b t) c (Worker Left b t) c.

Lemma locked_inv {A} (f : shared -> A * shared) c a c' : locked f c = Returns (a, c') -> f (members c) = (a, members c') /\ c' = with_members (members c') c.
Proof. unfold locked. destruct (f (members c)) as [x s]. intros [= -> <-]. auto. Qed.

Lemma keeps_io {A} (f : W -> A * W) i a i' : (forall x, still x (f x).2) -> io (call f) i = Returns (a, i') -> keeps i i'.
Proof. intros Hf E Hi. destruct (io_call_inv _ _ _ _ Hf E) as [[S1 S2] ->]. auto. Qed.

Lemma binaryWorker_step ch w c w' c' : binaryWorker fuel cfg ch w c = Returns (w', c') -> step_of ch w c w' c'.
Proof.
  destruct w as [p b t], p; unfold binaryWorker; cbn [at_place buffered nextPoll]; intros E.
  - apply bind_inv in E as (r & c1 & E1 & E). unfold running in E1. apply locked_inv in E1 as [[= <- Es] E1]. injection E as <- <-. rewrite E1, <- Es. destruct c. apply at_loop.
  - apply bind_inv in E as (now & c1 & E1 & E). apply on_interface_inv in E1 as (i1 & E1 & ->).
    apply keeps_io in E1; [|exact still_steady]. apply bind_inv in E as (o & c2 & E2 & E). apply on_interface_inv in E2 as (i2 & E2 & ->).
    rewrite interface_of_set in E2. injection E2 as <- <-. rewrite set_interface_twice in E.
    apply bind_inv in E as ([r t'] & c3 & E3 & E). apply locked_inv in E3 as [E3 E4]. injection E as <- <-. rewrite E4.
    replace (members (set_interface cfg ch i1 c)) with (members c) in E3 by (unfold set_interface; case_match; reflexivity).
    exact (at_top ch b t c now _ r t' _ i1 E1 E3).
  - apply bind_inv in E as ([result request] & c1 & E1 & E). apply defined_inv in E1 as [_ ->].
    apply bind_inv in E as (r & c2 & E2 & E). injection E as <- <-.
    assert (K : exists i, keeps (interface_of cfg ch c) i /\ c2 = set_interface cfg ch i c).
    { destruct (result =? VSCP_ERROR_SUCCESS).
      - apply on_interface_inv in E2 as (i & E2 & ->). exists i. split; [exact (sendBinaryFrame_keeps _ _ _ _ E2)|reflexivity].
      - injection E2 as _ <-. exists (interface_of cfg ch c). rewrite set_interface_same. split; [intros Hi; auto|reflexivity]. }
    destruct K as (i & K & ->). unfold goes. cbn [buffered nextPoll]. apply at_poll; [exact K|]. destruct (r =? VSCP_ERROR_SUCCESS); eauto.
  - destruct b as [|f b].
    + apply bind_inv in E as ([r f] & c1 & E1 & E). injection E as <- <-. apply on_interface_inv in E1 as (i & E1 & ->). exact (at_next ch t c r f i E1).
    + injection E as <- <-. apply at_buffer.
  - apply bind_inv in E as (r & c1 & E1 & E). unfold running in E1. apply locked_inv in E1 as [[= <- Es] E1]. injection E as <- <-. rewrite E1, <- Es. destruct c. apply at_got.
  - apply bind_inv in E as (v & c1 & E1 & E). apply locked_inv in E1 as [E1 E2]. injection E as <- <-. rewrite E2. exact (at_process ch frame b t c v _ E1).
  - apply bind_inv in E as ([] & c1 & E1 & E). apply locked_inv in E1 as [[= E1] E2]. injection E as <- <-. rewrite E2, <- E1. apply at_push.
  - apply bind_inv in E as ([r x] & c1 & E1 & E). injection E as <- <-. apply on_interface_inv in E1 as (i & E1 & ->).
    apply processBinaryEventFrame_keeps in E1 as [K D]. unfold goes. cbn [buffered nextPoll]. apply at_apart; [exact K|].
    destruct (Z.eqb_spec r VSCP_ERROR_SUCCESS) as [Er|]; [|eauto]. destruct (D Er) as (e & -> & De). left. exists e. auto.
  - apply bind_inv in E as (d & c1 & E1 & E). destruct (dispatch_event cfg event (members c)) as [[d' s']|] eqn:Ed; [|discriminate].
    injection E1 as <- <-. injection E as <- <-. exact (at_event ch event b t c d' s' Ed).
  - injection E as <- <-. apply at_call.
  - apply bind_inv in E as ([] & c1 & E1 & E). apply locked_inv in E1 as [[= E1] E2]. injection E as <- <-. rewrite E2, <- E1. apply at_fail.
  - injection E as <- <-. apply at_end. auto.
  - injection E as <- <-. apply at_end. auto.
Qed.
End steps.

(** ** Who waits for which reply *)

Section waiting.
Variable (cfg : settings).
Implicit Types (s : shared).

(** No two wait for replies with the same command on the same connection, and what
    waits is what the code expects. *)
Record waits_ok s : Prop := {
  no_empty key : binaryRawPending s !! key <> Some [];
  poll_alone : pollPending (binaryPoll s) = true -> polling cfg = true /\ binaryRawPending s !! (binary_send, binaryRetrCommand) = None;
  control_alone : controlPending (binaryControl s) = true ->
    controlCode (binaryControl s) = binaryClearCommand /\ binaryRawPending s !! (controlChannel (binaryControl s), binaryClearCommand) = None;
  control_reply : controlPending (binaryControl s) = true -> controlComplete (binaryControl s) = true ->
    length (controlReply (binaryControl s)) = 7%nat /\ exists error, binaryReply (controlReply (binaryControl s)) = Some (binaryClearCommand, error)
}.

(** The parts that matter. *)
Lemma waits_ok_same s s' : binaryRawPending s' = binaryRawPending s -> binaryPoll s' = binaryPoll s -> binaryControl s' = binaryControl s ->
  waits_ok s -> waits_ok s'.
Proof. intros E1 E2 E3 [A B C D]. constructor; rewrite ?E1, ?E2, ?E3; assumption. Qed.

Lemma put_pending_ok key l s : is_Some (binaryRawPending s !! key) -> waits_ok s -> waits_ok (put_pending key l s).
Proof.
  intros [l0 K] [A B C D].
  assert (N : forall k, binaryRawPending s !! k = None -> binaryRawPending (put_pending key l s) !! k = None).
  { intros k Hk. cbn. destruct l; [rewrite lookup_delete_None; auto|]. rewrite lookup_insert_ne; [exact Hk|congruence]. }
  constructor; cbn -[put_pending] in *.
  - intros k X. cbn in X. destruct l as [|d l].
    + apply lookup_delete_Some in X as [_ X]. exact (A _ X).
    + apply lookup_insert_Some in X as [[_ X]|[_ X]]; [discriminate|exact (A _ X)].
  - intros P. destruct (B P). auto.
  - intros P. destruct (C P). auto.
  - exact D.
Qed.

Lemma push_deadline_ok ch frame d s s' : sendBinaryFrame_begin cfg ch frame d s = (VSCP_ERROR_SUCCESS, s') -> waits_ok s -> waits_ok s'.
Proof.
  unfold sendBinaryFrame_begin. destruct (singleChannelRunning s); [cbn [negb]|discriminate].
  destruct (tracked cfg frame) eqn:T; cbn [andb].
  2: { intros [= <-]. apply waits_ok_same; reflexivity. }
  assert (is_command frame = true) as -> by (unfold tracked in T; apply andb_prop in T as [T _]; exact T).
  set (code := binaryRead16 _) in *. destruct (_ || _) eqn:X; [discriminate|]. intros [= <-] [A B C D]. apply orb_false_iff in X as [X1 X2].
  constructor; cbn.
  - intros k Y. apply lookup_insert_Some in Y as [[_ Y]|[_ Y]]; [|exact (A _ Y)]. symmetry in Y. apply app_cons_not_nil in Y. exact Y.
  - intros P. destruct (B P) as [B1 B2]. split; [exact B1|]. rewrite lookup_insert_ne; [exact B2|]. intros [= -> E].
    rewrite P, bool_decide_true, E in X1 by reflexivity. discriminate X1.
  - intros P. destruct (C P) as [C1 C2]. split; [exact C1|]. rewrite lookup_insert_ne; [exact C2|]. intros [= -> E].
    rewrite P, bool_decide_true, E, C1 in X2 by reflexivity. discriminate X2.
  - exact D.
Qed.

Lemma failed_ok ch frame s : waits_ok s -> waits_ok (sendBinaryFrame_failed cfg ch frame s).
Proof.
  intros Hs. unfold sendBinaryFrame_failed. destruct (tracked cfg frame); [|exact Hs].
  destruct (binaryRawPending s !! (ch, _)) eqn:E; [|exact Hs]. apply put_pending_ok; [rewrite E; eauto|exact Hs].
Qed.

Lemma begin_ok ch s s' : binaryCommand_begin ch binaryClearCommand s = (VSCP_ERROR_SUCCESS, s') -> waits_ok s -> waits_ok s'.
Proof.
  unfold binaryCommand_begin. destruct (singleChannelRunning s); [cbn [negb]|discriminate].
  destruct (bool_decide (is_Some _)) eqn:X; [discriminate|]. destruct (_ && _); [discriminate|]. intros [= <-] [A B C D].
  apply bool_decide_eq_false in X. apply eq_None_not_Some in X. constructor; cbn; auto. discriminate.
Qed.

Lemma give_up_ok s : waits_ok s -> waits_ok (control_given_up s).
Proof. intros [A B C D]. constructor; cbn; auto; discriminate. Qed.

Lemma end_ok expired s rv stop s' : binaryCommand_end binaryClearCommand expired s = Some (rv, stop, s') -> waits_ok s -> waits_ok s'.
Proof.
  intros E Hs. assert (G := give_up_ok s Hs). unfold binaryCommand_end in E. destruct (negb (control_ready s)).
  { destruct expired; [injection E as _ _ <-; exact G|discriminate]. }
  destruct (negb _); [injection E as _ _ <-; exact G|]. destruct Hs as [A B C D].
  assert (K : forall b c ch code r, waits_ok (set_control (Control false c ch code r) (set_raw b s))) by (intros; constructor; cbn; auto; discriminate).
  destruct (binaryReply _) as [[rc e]|]; [destruct (_ && _)|]; injection E as _ _ <-; exact (K (binaryRawActive s) _ _ _ _).
Qed.

Lemma top_ok ch now resp t s r t' s' : (polling cfg = true -> ch = binary_send) -> worker_top cfg ch now resp t s = (r, t', s') -> waits_ok s -> waits_ok s'.
Proof.
  intros Hc E Hs. unfold worker_top in E. destruct (polling cfg) eqn:P; [|injection E as _ _ <-; exact Hs].
  destruct (negb _ && _ && _ && bool_decide _) eqn:X; [|injection E as _ _ <-; exact Hs]. injection E as _ _ <-.
  apply andb_prop in X as [_ X]. apply bool_decide_eq_true in X. rewrite (Hc eq_refl) in X. destruct Hs as [A B C D].
  constructor; cbn; auto.
Qed.

Lemma top_same ch now resp t s r t' s' : worker_top cfg ch now resp t s = (r, t', s') -> exists p, s' = set_poll p s.
Proof.
  unfold worker_top. assert (I : exists p, s = set_poll p s) by (exists (binaryPoll s); destruct s; reflexivity).
  destruct (polling cfg); [destruct (_ && bool_decide _)|]; intros [= _ _ <-]; eauto.
Qed.

Lemma claim_ok ch f s v s' : claim cfg ch f s = (v, s') -> waits_ok s -> waits_ok s'.
Proof.
  intros E Hs. unfold claim in E. destruct (length f =? 0)%nat; [injection E as _ <-; exact Hs|].
  destruct (is_event_frame f).
  { injection E as _ <-. destruct (polling cfg && _) eqn:X; [|exact Hs]. apply andb_prop in X as [X1 X2]. destruct Hs as [A B C D].
    constructor; cbn; auto. }
  destruct (is_reply_frame f); [|injection E as _ <-; exact Hs]. unfold claim_reply in E.
  destruct (pollPending _ && _ && _).
  { injection E as _ <-. destruct Hs as [A B C D]. constructor; cbn; auto. discriminate. }
  destruct (controlPending _ && _ && _ && _) eqn:X.
  { injection E as _ <-. destruct (binaryReply f) as [[rc e]|] eqn:R; [|exact Hs]. destruct (Nat.eqb_spec (length f) 7); [|exact Hs].
    apply andb_prop in X as [X X4]. apply andb_prop in X as [X X3]. apply andb_prop in X as [X1 X2]. apply Z.eqb_eq in X4.
    destruct Hs as [A B C D]. destruct (C X1) as [C1 C2].
    assert (rc = binaryClearCommand) as ->.
    { unfold binaryReply in R. destruct (_ || _); [discriminate|]. injection R as <- _. congruence. }
    destruct (_ && _); (constructor; cbn; auto; intros _ _; split; [assumption|eauto]). }
  destruct (binaryReply f) as [[rc e]|]; [|injection E as _ <-; exact Hs].
  destruct (binaryRawPending s !! _) as [l|] eqn:L; [|injection E as _ <-; exact Hs]. injection E as _ <-.
  apply put_pending_ok; [rewrite L; eauto|exact Hs].
Qed.

Lemma end_control expired s rv stop s' : binaryCommand_end binaryClearCommand expired s = Some (rv, stop, s') ->
  controlPending (binaryControl s') = false.
Proof.
  unfold binaryCommand_end. repeat case_match; intros [= _ _ <-]; reflexivity.
Qed.

(** What the calls of the application leave alone. *)
Definition same_waiting s s' : Prop :=
  binaryRawPending s' = binaryRawPending s /\ binaryPoll s' = binaryPoll s /\ binaryControl s' = binaryControl s.

Lemma receiveBinaryFrame_same timeout s t s' : receiveBinaryFrame cfg timeout s = (t, s') ->
  same_waiting s s' /\ singleChannelEvents s' = singleChannelEvents s /\ binaryFrames s = one t ++ binaryFrames s' /\
  singleChannelRunning s' = singleChannelRunning s.
Proof.
  unfold receiveBinaryFrame. repeat case_match; try (intros [= <- <-]; repeat split). unfold take_frame. cbn.
  destruct (binaryFrames s) eqn:E; intros [= <- <-]; cbn; rewrite ?E; repeat split.
Qed.

Lemma receiveBinaryFrame_woken_same expired s t s' : receiveBinaryFrame_woken expired s = (t, s') ->
  same_waiting s s' /\ singleChannelEvents s' = singleChannelEvents s /\ binaryFrames s = one t ++ binaryFrames s' /\
  singleChannelRunning s' = singleChannelRunning s.
Proof.
  unfold receiveBinaryFrame_woken, take_frame. repeat case_match; intros [= <- <-]; repeat split; cbn; congruence.
Qed.

Lemma receive_event_same timeout blocking s t s' : receiveSingleChannel cfg timeout blocking s = (t, s') ->
  same_waiting s s' /\ singleChannelEvents s = one t ++ singleChannelEvents s' /\ binaryFrames s' = binaryFrames s /\
  singleChannelRunning s' = singleChannelRunning s.
Proof. unfold receiveSingleChannel, take_event. repeat case_match; intros [= <- <-]; repeat split; cbn; congruence. Qed.

Lemma event_woken_same expired s t s' : receiveSingleChannel_woken expired s = (t, s') ->
  same_waiting s s' /\ singleChannelEvents s = one t ++ singleChannelEvents s' /\ binaryFrames s' = binaryFrames s /\
  singleChannelRunning s' = singleChannelRunning s.
Proof. unfold receiveSingleChannel_woken, take_event. repeat case_match; intros [= <- <-]; repeat split; cbn; congruence. Qed.

Lemma dispatch_same e s d s' : dispatch_event cfg e s = Some (d, s') ->
  s' = s \/ exists x, s' = set_events (singleChannelEvents s ++ [x]) s /\ d = Queued.
Proof.
  unfold dispatch_event. destruct (_ && _); [|intros [= _ <-]; auto]. destruct (callbacks cfg); [intros [= _ <-]; auto|].
  destruct (vscp_convertEventToEventEx _ _) as [[[] [x|]]|]; cbn [mbind option_bind]; [intros [= <- <-]; eauto|intros [= _ <-]; auto..|discriminate].
Qed.
End waiting.

Section runs.
Context {W : Type} `{StreamLaws W}.
Variable (fuel : nat) (cfg : settings).
Abbreviation moves := (moves fuel cfg).
Implicit Types (r : run (W := W)) (c : client W).

Lemma members_set ch i c : members (set_interface cfg ch i c) = members c.
Proof. unfold set_interface. destruct (normalizeBinaryChannel cfg ch); reflexivity. Qed.

Lemma on_interface_members {A} ch (m : M (W * VscpRemoteTcpIf) A) c a c' : on_interface cfg ch m c = Returns (a, c') -> members c' = members c.
Proof. intros E. apply on_interface_inv in E as (i & _ & ->). apply members_set. Qed.

(** ** The invariant of the waiting threads *)

(** What clear was promised. *)
Definition clear_ok r : Prop :=
  let s := members (cl r) in
  match clearer r with
  | Calls ch n m | Call_waits ch n m =>
      controlChannel (binaryControl s) = ch /\ (n <= length (claims r))%nat /\ (m <= length (taken_events r) + length (singleChannelEvents s))%nat /\
      (controlComplete (binaryControl s) = true ->
        (ch, (controlReply (binaryControl s), (Clear_waits, Finished VSCP_ERROR_SUCCESS))) ∈ drop n (claims r) /\
        (binaryReply (controlReply (binaryControl s)) = Some (binaryClearCommand, VSCP_ERROR_SUCCESS) -> (m <= length (taken_events r))%nat))
  | _ => True
  end.

Record threads_ok r : Prop := {
  th_waits : waits_ok cfg (members (cl r));
  th_alone : binaryUsesTwoChannels cfg = false -> at_place (workers r binary_receive) = Left;
  th_control : controlPending (binaryControl (members (cl r))) = true <-> clearer r <> No_caller;
  th_clear : clear_ok r
}.

(** Sections that leave the waiting for clear alone and do not lose events. *)
Definition quiet_section s s' (k : nat) : Prop :=
  waits_ok cfg s' /\ binaryControl s' = binaryControl s /\ (length (singleChannelEvents s) <= k + length (singleChannelEvents s'))%nat.

Lemma clear_more c ws m k cs ss cd tf te c' ws' m' cs2 ss' cd' tf' te2 :
  threads_ok (Run c ws m k cs ss cd tf te) -> quiet_section (members c) (members c') (length te2) ->
  (binaryUsesTwoChannels cfg = false -> at_place (ws' binary_receive) = Left) ->
  threads_ok (Run c' ws' m' k (cs ++ cs2) ss' cd' tf' (te ++ te2)).
Proof.
  intros [T1 T2 T3 T4] (Q1 & Q2 & Q3) Hw. constructor; cbn in *; rewrite ?Q2; auto.
  unfold clear_ok in *. cbn in *. rewrite Q2. assert (L := length_app te te2). assert (L2 := length_app cs cs2).
  destruct k as [|ch n x| |ch n x]; auto; destruct T4 as (A1 & A2 & A3 & A4); (split; [exact A1|]); (split; [lia|]); (split; [lia|]);
    intros C; destruct (A4 C) as [B1 B2]; (split; [rewrite drop_app_le by lia; apply elem_of_app; auto|intros E; specialize (B2 E); lia]).
Qed.

Lemma still_left (ws : binary_channel -> worker) ch w' c c' : (binaryUsesTwoChannels cfg = false -> at_place (ws binary_receive) = Left) ->
  step_of fuel cfg ch (ws ch) c w' c' -> binaryUsesTwoChannels cfg = false -> at_place (upd_worker ws ch w' binary_receive) = Left.
Proof.
  intros Hw S T. specialize (Hw T). unfold upd_worker. case_decide; [subst|exact Hw]. inversion S as [| | | | | | | | | | | |p b t c0 Hp E1]; subst; cbn;
    try reflexivity; match goal with E : Worker _ _ _ = ws _ |- _ => rewrite <- E in Hw; discriminate Hw end.
Qed.

Lemma quiet_refl s : waits_ok cfg s -> quiet_section s s 0.
Proof. intros Hs. split; [exact Hs|]. split; [reflexivity|]. lia. Qed.

(** The section of processBinaryFrame, when it answers clear. *)
Lemma claim_threads ch f c s' v ws w' m k cs ss cd tf te ss' cd' : claim cfg ch f (members c) = (v, s') ->
  threads_ok (Run c ws m k cs ss cd tf te) -> (binaryUsesTwoChannels cfg = false -> at_place (upd_worker ws ch w' binary_receive) = Left) ->
  threads_ok (Run (with_members s' c) (upd_worker ws ch w') m k (cs ++ [(ch, (f, (who_waits ch f (members c), action_of v f)))]) ss' cd' tf
    (te ++ match singleChannelEvents s' with [] => singleChannelEvents (members c) | _ => [] end)).
Proof.
  intros E T Hw. assert (Wo := claim_ok cfg ch f _ _ _ E (th_waits _ T)).
  set (dropped := match singleChannelEvents s' with [] => _ | _ => _ end).
  assert (Q : binaryControl s' = binaryControl (members c) -> singleChannelEvents s' = singleChannelEvents (members c) ->
    quiet_section (members c) s' (length dropped)) by (intros E1 E2; split; [exact Wo|]; split; [exact E1|]; rewrite E2; lia).
  assert (K : binaryControl s' = binaryControl (members c) -> singleChannelEvents s' = singleChannelEvents (members c) ->
    threads_ok (Run (with_members s' c) (upd_worker ws ch w') m k (cs ++ [(ch, (f, (who_waits ch f (members c), action_of v f)))]) ss' cd' tf (te ++ dropped))).
  { intros E1 E2. eapply clear_more; [exact T|exact (Q E1 E2)|exact Hw]. }
  unfold claim in E. destruct (length f =? 0)%nat; [injection E as _ <-; apply K; reflexivity|].
  destruct (is_event_frame f); [injection E as _ <-; destruct (_ && _); apply K; reflexivity|].
  destruct (is_reply_frame f); [|injection E as _ <-; apply K; reflexivity]. unfold claim_reply in E.
  destruct (pollPending _ && _ && _) eqn:Pp; [injection E as _ <-; apply K; reflexivity|].
  destruct (controlPending _ && _ && _ && _) eqn:X.
  2: { destruct (binaryReply f) as [[rc e]|]; [|injection E as _ <-; apply K; reflexivity].
       destruct (binaryRawPending _ !! _); injection E as _ <-; apply K; reflexivity. }
  injection E as <- <-. destruct (binaryReply f) as [[rc e]|] eqn:R; [|apply K; reflexivity].
  destruct (Nat.eqb_spec (length f) 7) as [L7|]; [|apply K; reflexivity]. clear K Q.
  assert (Who : who_waits ch f (members c) = Clear_waits) by (unfold who_waits; rewrite Pp, X; reflexivity). rewrite Who.
  apply andb_prop in X as [X X4]. apply andb_prop in X as [X X3]. apply andb_prop in X as [X1 X2]. apply Z.eqb_eq in X4.
  apply bool_decide_eq_true in X3. assert (rc = binaryRead16 (drop 1 f)) as Er.
  { unfold binaryReply in R. destruct (_ || _); [discriminate|]. injection R as <- _. reflexivity. }
  destruct T as [T1 T2 T3 T4]. destruct (control_alone cfg _ T1 X1) as [C1 _]. cbn in *.
  assert (Act : (match binaryReply f with
      | Some _ => if (length f =? 7)%nat then VSCP_ERROR_SUCCESS else VSCP_ERROR_INVALID_FRAME
      | None => VSCP_ERROR_INVALID_FRAME end) = VSCP_ERROR_SUCCESS) by (rewrite R, L7; reflexivity). rewrite Act.
  assert (rc = binaryClearCommand) as Rc by (rewrite Er, X4; exact C1). rewrite X4, C1, Z.eqb_refl in *. cbn [andb] in *.
  set (s2 := (if e =? VSCP_ERROR_SUCCESS then _ else _)) in *.
  constructor; cbn; auto.
  - rewrite <- T3. tauto.
  - unfold clear_ok in *. cbn in *. assert (L2 := length_app cs [(ch, (f, (Clear_waits, Finished VSCP_ERROR_SUCCESS)))]).
    assert (Ev : singleChannelEvents s2 = if e =? VSCP_ERROR_SUCCESS then [] else singleChannelEvents (members c)) by (unfold s2; destruct (e =? _); reflexivity).
    assert (L := length_app te dropped). assert (In : forall n, (n <= length cs)%nat -> (ch, (f, (Clear_waits, Finished VSCP_ERROR_SUCCESS))) ∈ drop n (cs ++ [(ch, (f, (Clear_waits, Finished VSCP_ERROR_SUCCESS)))])).
    { intros n Hn. rewrite drop_app_le by exact Hn. apply elem_of_app. right. apply list_elem_of_here. }
    assert (D : singleChannelEvents s2 = [] -> dropped = singleChannelEvents (members c)) by (intros Z0; unfold dropped; cbn; rewrite X4, Z.eqb_refl; cbn [andb]; fold s2; rewrite Z0; reflexivity).
    destruct k as [|c1 n x| |c1 n x]; auto; destruct T4 as (A1 & A2 & A3 & A4); assert (c1 = ch) as -> by congruence.
    all: split; [congruence|]; split; [lia|]; split.
    1, 3: destruct (singleChannelEvents s2) eqn:E2; [assert (LD := f_equal length (D eq_refl)); lia|destruct (e =? VSCP_ERROR_SUCCESS); [discriminate|rewrite Ev; lia]].
    all: intros _; (split; [apply In; lia|]); intros R2; rewrite R in R2; injection R2 as _ ->; rewrite Z.eqb_refl in Ev; assert (LD := f_equal length (D Ev)); lia.
Qed.

(** *** Every step keeps it *)

Lemma worker_threads ch c ws m k cs ss cd tf te w' c' : threads_ok (Run c ws m k cs ss cd tf te) -> step_of fuel cfg ch (ws ch) c w' c' ->
  threads_ok (Run c' (upd_worker ws ch w') m k (cs ++ new_claim cfg ch (ws ch) (members c)) (ss ++ new_seen ch (ws ch) (members c))
               (cd ++ new_called ch (ws ch) (members c)) tf (te ++ cleared cfg ch (ws ch) (members c))).
Proof.
  intros T S. assert (Hw := fun X => still_left ws ch w' c c' (th_alone _ T) S X). assert (Wo := th_waits _ T). cbn in Wo.
  assert (P : polling cfg = true -> at_place (ws ch) <> Left -> ch = binary_send).
  { intros P N. destruct ch; [reflexivity|]. destruct N. apply (th_alone _ T). unfold binaryUsesTwoChannels. rewrite P. reflexivity. }
  unfold new_claim, cleared. set (w := ws ch) in *.
  assert (K : quiet_section (members c) (members c') 0 -> (forall f, at_place w <> Process f) -> threads_ok (Run c' (upd_worker ws ch w') m k
     (cs ++ match at_place w with Process f => [(ch, (f, (who_waits ch f (members c), action_of (claim cfg ch f (members c)).1 f)))] | _ => [] end) (ss ++ new_seen ch w (members c))
     (cd ++ new_called ch w (members c)) tf (te ++ match at_place w with Process f => match singleChannelEvents (claim cfg ch f (members c)).2 with [] => singleChannelEvents (members c) | _ => [] end | _ => [] end))).
  { intros Q N. eapply clear_more; [exact T| |exact Hw]. destruct (at_place w); try exact Q. destruct (N frame eq_refl). }
  destruct S; cbn [at_place] in *; try (apply K; [|discriminate]); cbn [members with_members]; rewrite ?members_set; try (apply quiet_refl, Wo).
  - split; [eapply top_ok; [|eassumption|exact Wo]; intros Pc; apply P; [exact Pc|discriminate]|]. destruct (top_same _ _ _ _ _ _ _ _ _ H2) as [p ->].
    split; [reflexivity|cbn; lia].
  - rewrite H1. cbn [fst snd]. exact (claim_threads ch f c s' v ws _ m k cs ss cd tf te _ _ H1 T Hw).
  - split; [eapply waits_ok_same; [..|exact Wo]; reflexivity|]. split; [reflexivity|cbn; lia].
  - destruct (dispatch_same _ _ _ _ _ H1) as [->|(x & -> & _)]; [apply quiet_refl, Wo|]. split; [eapply waits_ok_same; [..|exact Wo]; reflexivity|].
    split; [reflexivity|]. cbn. rewrite length_app. lia.
  - unfold failSingleChannelWorker. destruct (singleChannelRunning _); [|apply quiet_refl, Wo].
    split; [eapply waits_ok_same; [..|exact Wo]; reflexivity|]. split; [reflexivity|cbn; lia].
  - destruct H1 as [-> | ->]; (apply K; [apply quiet_refl, Wo|discriminate]).
Qed.

(** A section of the application that leaves the waiting for clear alone. *)
Lemma app_threads c ws m k cs ss cd tf te s' m' tf' te2 : threads_ok (Run c ws m k cs ss cd tf te) -> quiet_section (members c) s' (length te2) ->
  threads_ok (Run (with_members s' c) ws m' k cs ss cd tf' (te ++ te2)).
Proof. intros T Q. rewrite <- (app_nil_r cs). eapply clear_more; [exact T|exact Q|apply (th_alone _ T)]. Qed.

Lemma interface_threads c ws m k cs ss cd tf te c' m' : threads_ok (Run c ws m k cs ss cd tf te) -> members c' = members c ->
  threads_ok (Run c' ws m' k cs ss cd tf te).
Proof.
  intros T E. rewrite <- (app_nil_r cs), <- (app_nil_r te). eapply clear_more; [exact T| |apply (th_alone _ T)].
  rewrite E. apply quiet_refl, (th_waits _ T).
Qed.

Lemma quiet_same s s' n : waits_ok cfg s -> binaryRawPending s' = binaryRawPending s -> binaryPoll s' = binaryPoll s -> binaryControl s' = binaryControl s ->
  (length (singleChannelEvents s) <= n + length (singleChannelEvents s'))%nat -> quiet_section s s' n.
Proof. intros Wo E1 E2 E3 L. split; [eapply waits_ok_same; eassumption|auto]. Qed.

Lemma section_threads c ws m k cs ss cd tf te s' m' tf' : threads_ok (Run c ws m k cs ss cd tf te) -> quiet_section (members c) s' 0 ->
  threads_ok (Run (with_members s' c) ws m' k cs ss cd tf' te).
Proof. intros T Q. rewrite <- (app_nil_r te). apply (app_threads c ws m k cs ss cd tf); assumption. Qed.

(** A call of clear ends, or failed. *)
Lemma ended_threads c ws m k cs ss cd tf te s' m' : threads_ok (Run c ws m k cs ss cd tf te) -> waits_ok cfg s' ->
  controlPending (binaryControl s') = false -> threads_ok (Run (with_members s' c) ws m' No_caller cs ss cd tf te).
Proof.
  intros [T1 T2 T3 T4] Q1 Q2. constructor; cbn in *; auto. rewrite Q2. split; [discriminate|congruence].
Qed.

Lemma moves_threads r r' : threads_ok r -> moves r r' -> threads_ok r'.
Proof.
  intros T M. assert (Wo := th_waits _ T). destruct M; cbn in Wo.
  - eapply worker_threads; [exact T|]. eapply binaryWorker_step. eassumption.
  - eapply section_threads; [exact T|]. split; [eapply push_deadline_ok; eassumption|].
    unfold sendBinaryFrame_begin in *. repeat case_match; simplify_eq; (split; [reflexivity|cbn; lia]).
  - eapply interface_threads; [exact T|]. eapply on_interface_members. eassumption.
  - eapply section_threads; [exact T|]. split; [apply failed_ok, Wo|]. unfold sendBinaryFrame_failed. repeat case_match; (split; [reflexivity|cbn; lia]).
  - eapply interface_threads; [exact T|]. eapply on_interface_members. eassumption.
  - destruct T as [T1 T2 T3 T4]. cbn in *. constructor; cbn; auto.
    + eapply begin_ok; eassumption.
    + unfold binaryCommand_begin in *. repeat case_match; simplify_eq; cbn. split; [discriminate|reflexivity].
    + unfold clear_ok, binaryCommand_begin in *. repeat case_match; simplify_eq; cbn. split; [reflexivity|]. split; [lia|]. split; [lia|discriminate].
  - assert (E := on_interface_members _ _ _ _ _ H2). destruct T as [T1 T2 T3 T4]. unfold clear_ok in T4. cbn in *.
    constructor; cbn; rewrite ?E; auto; [destruct (rv =? _); rewrite T3; split; discriminate|].
    unfold clear_ok. cbn. rewrite E. destruct (rv =? VSCP_ERROR_SUCCESS); auto.
  - eapply ended_threads; [exact T|apply give_up_ok, Wo|reflexivity].
  - eapply ended_threads; [exact T|eapply end_ok; eassumption|eapply end_control; eassumption].
  - eapply section_threads; [exact T|]. unfold failSingleChannelWorker. destruct (singleChannelRunning _); [|apply quiet_refl, Wo].
    apply quiet_same; auto; cbn; lia.
  - apply receiveBinaryFrame_same in H1 as ((E1 & E2 & E3) & E4 & _). eapply section_threads; [exact T|].
    apply quiet_same; auto; rewrite E4; lia.
  - apply receiveBinaryFrame_woken_same in H1 as ((E1 & E2 & E3) & E4 & _). eapply section_threads; [exact T|].
    apply quiet_same; auto; rewrite E4; lia.
  - apply receive_event_same in H1 as ((E1 & E2 & E3) & E4 & _). eapply app_threads; [exact T|].
    apply quiet_same; auto; rewrite E4, length_app; lia.
  - apply event_woken_same in H1 as ((E1 & E2 & E3) & E4 & _). eapply app_threads; [exact T|].
    apply quiet_same; auto; rewrite E4, length_app; lia.
  - eapply section_threads; [exact T|]. apply quiet_same; auto; cbn; lia.
  - eapply app_threads; [exact T|]. destruct Wo as [A B C D]. split; [|split; [reflexivity|cbn; lia]].
    assert (N : forall key, binaryRawPending (stop_binary (members c)) !! key = None) by (intros key; apply lookup_empty).
    constructor.
    + intros key X. rewrite N in X. discriminate X.
    + intros P. destruct (B P). auto.
    + intros P. destruct (C P). auto.
    + exact D.
Qed.

Lemma started_threads r b : started cfg r b -> threads_ok r.
Proof.
  intros ((n1 & E1) & (n2 & E2) & (s & E3) & _ & _ & E4 & E5 & _). constructor; rewrite ?E3, ?E5.
  - constructor; discriminate.
  - intros Two. rewrite E1, Two. reflexivity.
  - cbn. split; [discriminate|congruence].
  - unfold clear_ok. rewrite E5. exact I.
Qed.

Lemma reached_threads r0 b r : started cfg r0 b -> rtc moves r0 r -> threads_ok r.
Proof. intros S M. apply started_threads in S. induction M; eauto using moves_threads. Qed.

(** How many wait for a reply with this command on this connection: a thread that
    sent it as a raw frame, the worker with a poll, a thread in clear. *)
Definition waiting (key : binary_channel * Z) s : nat :=
  (if binaryRawPending s !! key is Some _ then 1 else 0) +
  (if pollPending (binaryPoll s) && bool_decide (key = (binary_send, binaryRetrCommand)) then 1 else 0) +
  (if controlPending (binaryControl s) && bool_decide (key = (controlChannel (binaryControl s), controlCode (binaryControl s))) then 1 else 0).

(** C16: At every moment, whatever the threads did, at most one waits for a reply with a
    given command on a connection, so that none gets the reply of another. *)
Theorem replies_unambiguous r0 b r key : started cfg r0 b -> rtc moves r0 r -> (waiting key (members (cl r)) <= 1)%nat.
Proof.
  intros S M. destruct (th_waits _ (reached_threads r0 b r S M)) as [A B C D]. unfold waiting.
  destruct (pollPending _ && _) eqn:P; destruct (controlPending _ && _) eqn:K.
  - apply andb_prop in P as [_ P], K as [K1 K]. apply bool_decide_eq_true in P, K. destruct (C K1) as [C1 _]. rewrite P, C1 in K. discriminate K.
  - apply andb_prop in P as [P1 P]. apply bool_decide_eq_true in P. subst. destruct (B P1) as [_ ->]. lia.
  - apply andb_prop in K as [K1 K]. apply bool_decide_eq_true in K. subst. destruct (C K1) as [-> ->]. lia.
  - case_match; lia.
Qed.

(** C17: When clear succeeds, a reply without error to its command came on its connection
    after the call began, and no event that was in the queue at the call is in it now. *)
Theorem clear_clears r0 b r ch n m expired stop s' : started cfg r0 b -> rtc moves r0 r -> clearer r = Call_waits ch n m ->
  binaryCommand_end binaryClearCommand expired (members (cl r)) = Some (VSCP_ERROR_SUCCESS, stop, s') ->
  stop = None /\ (m <= length (taken_events r))%nat /\
  exists reply, (ch, (reply, (Clear_waits, Finished VSCP_ERROR_SUCCESS))) ∈ drop n (claims r) /\ binaryReply reply = Some (binaryClearCommand, VSCP_ERROR_SUCCESS).
Proof.
  intros S M K E. destruct (reached_threads r0 b r S M) as [T1 T2 T3 T4]. unfold clear_ok in T4. rewrite K in T4. destruct T4 as (_ & _ & _ & T4).
  assert (P : controlPending (binaryControl (members (cl r))) = true) by (apply T3; rewrite K; discriminate).
  unfold binaryCommand_end in E. destruct (negb (control_ready _)); [destruct expired; discriminate|].
  destruct (controlComplete _) eqn:Co; cbn [negb] in E.
  - destruct (control_reply cfg _ T1 P Co) as [L (e & R)]. rewrite R, L in E. cbn in E. injection E as -> <- _.
    destruct (T4 eq_refl) as [T5 T6]. split; [reflexivity|]. split; [exact (T6 R)|]. exists (controlReply (binaryControl (members (cl r)))). auto.
  - injection E as E _ _. unfold stopped_error in E. destruct (Z.eqb_spec (singleChannelError (members (cl r))) VSCP_ERROR_SUCCESS); [discriminate|congruence].
Qed.
End runs.

(** ** Where the frames go *)









Section delivery.
Context {W : Type} `{StreamLaws W}.
Variable (fuel : nat) (cfg : settings).
Implicit Types (c : client W) (w : worker) (s : shared).









End delivery.

(** ** Any number of steps *)




Section history.
Context {W : Type} `{StreamLaws W}.
Variable (fuel : nat) (cfg : settings).
Abbreviation moves := (moves fuel cfg).
Implicit Types (c : client W) (w : worker) (r : run (W := W)).









End history.

Section theorems.
Context {W : Type} `{StreamLaws W}.
Variable (fuel : nat) (cfg : settings).



End theorems.

(** *** The event in a reply to a poll *)

(** A reply to RETR that has the body of the frame of an event: it is taken for that
    frame, and the event comes out of it. *)
Theorem poll_reply_event now e e0 sawEvent : event_ok e ->
  let reply := reply_frame binaryRetrCommand VSCP_ERROR_SUCCESS (drop 1 (frame_body 0 e)) in
  binaryReply reply = Some (binaryRetrCommand, VSCP_ERROR_SUCCESS) /\
  poll_action sawEvent reply = Dispatch (frame_of 0 e) false /\
  vscp_getEventFromFrame now (Some e0) (Some (frame_of 0 e)) (Z.of_nat (length (frame_of 0 e))) =
    Some (true, Some (Frame.received now e (crcFast (drop 1 (frame_body 0 e))))).
Proof.
  intros He reply. set (body := drop 1 (frame_body 0 e)) in *.
  assert (Lb : length (frame_body 0 e) = (36 + Z.to_nat (sizeData e))%nat) by exact (length_frame_body 0 e He).
  assert (Hb : frame_body 0 e = 0x10 :: body) by reflexivity.
  assert (Lr : length reply = (42 + Z.to_nat (sizeData e))%nat).
  { unfold reply, reply_frame. rewrite !length_app, !length_be. unfold body. rewrite length_drop, Lb. cbn [length]. lia. }
  assert (R : binaryReply reply = Some (binaryRetrCommand, VSCP_ERROR_SUCCESS)).
  { unfold binaryReply. rewrite Lr. destruct (Nat.ltb_spec (42 + Z.to_nat (sizeData e)) 7); [lia|]. cbn [orb].
    assert (Z0 : crcFast (drop 1 reply) = 0) by exact (frame_crc_zero 0xf0 (be 2 binaryRetrCommand ++ be 2 0 ++ body)). rewrite Z0. reflexivity. }
  split; [exact R|]. split.
  - unfold poll_action. rewrite R, Lr. cbn [Z.eqb VSCP_ERROR_SUCCESS VSCP_ERROR_RCV_EMPTY andb negb].
    destruct (Nat.eqb_spec (42 + Z.to_nat (sizeData e)) 7); [lia|]. destruct (Nat.ltb_spec (42 + Z.to_nat (sizeData e)) 42); [lia|]. cbn [andb]. f_equal.
    unfold poll_event. rewrite Lr. assert (T : take (42 + Z.to_nat (sizeData e) - 7) (drop 5 reply) = body).
    { unfold reply, reply_frame. change (drop 5 _) with (body ++ be 2 (crcFast (drop 1 ([0xf0] ++ be 2 binaryRetrCommand ++ be 2 VSCP_ERROR_SUCCESS ++ body)))).
      apply take_app_length'. unfold body. rewrite length_drop, Lb. lia. }
    rewrite T, <- Hb. reflexivity.
  - rewrite <- (app_nil_r (frame_of 0 e)) at 1. apply getEventFromFrame_written; [exact He|]. rewrite length_frame_of by exact He.
    assert (Sz := size_ok e He). unfold is_u16 in Sz. lia.
Qed.

(** ** A client with one connection

    An event comes; the application calls clear; its reply comes. *)

Section driving.
Context {W : Type} `{StreamLaws W}.
Variable (fuel : nat) (cfg : settings).
Implicit Types (r : run (W := W)).

(** Steps of the worker of a connection, as far as they are defined. *)
Fixpoint drive (n : nat) (ch : binary_channel) r : run :=
  match n with
  | O => r
  | S n =>
      match binaryWorker fuel cfg ch (workers r ch) (cl r) with
      | Returns (w', c') =>
          let s := members (cl r) in let w := workers r ch in
          drive n ch (Run c' (upd_worker (workers r) ch w') (mutex r) (clearer r) (claims r ++ new_claim cfg ch w s) (seen r ++ new_seen ch w s)
            (called r ++ new_called ch w s) (taken_frames r) (taken_events r ++ cleared cfg ch w s))
      | _ => r
      end
  end.

Lemma drive_moves n ch r : rtc (moves fuel cfg) r (drive n ch r).
Proof.
  revert r. induction n as [|n IH]; intros [c ws m k cs ss cd tf te]; cbn [drive]; [reflexivity|].
  destruct (binaryWorker _ _ _ _ _) as [[w' c']| | |] eqn:E; [|reflexivity..]. eapply rtc_l; [|apply IH]. apply move_worker. exact E.
Qed.

(** The application calls clear, and its command is sent. *)
Definition call_clear r : run :=
  let ch := normalizeBinaryChannel cfg binary_receive in
  match mutex r, clearer r, binaryCommand_begin ch binaryClearCommand (members (cl r)), makeBinaryCommand binaryClearCommand with
  | None, No_caller, (0, s), Some (0, Some f) =>
      match on_interface cfg ch (sendBinaryFrame fuel f) (with_members s (cl r)) with
      | Returns (0, c) =>
          Run c (workers r) None (Call_waits ch (length (claims r)) (length (taken_events r) + length (singleChannelEvents (members (cl r)))))
            (claims r) (seen r) (called r) (taken_frames r) (taken_events r)
      | _ => r
      end
  | _, _, _, _ => r
  end.

Lemma call_clear_moves r : rtc (moves fuel cfg) r (call_clear r).
Proof.
  destruct r as [c ws m k cs ss cd tf te]. unfold call_clear. cbn [mutex clearer cl claims seen called taken_frames taken_events workers].
  destruct m; [reflexivity|]. destruct k; try reflexivity. destruct (binaryCommand_begin _ _ _) as [[| |] s] eqn:B; try reflexivity.
  destruct (makeBinaryCommand _) as [[[| |] [f|]]|] eqn:F; try reflexivity.
  destruct (on_interface _ _ _ _) as [[[| |] c']| | |] eqn:E; try reflexivity.
  eapply rtc_l; [apply (move_clear fuel cfg binary_receive); exact B|]. apply rtc_once.
  exact (move_clear_send fuel cfg _ _ _ _ _ _ _ _ _ _ VSCP_ERROR_SUCCESS f _ F E).
Qed.
End driving.

Definition sample_settings : settings := Settings false true true false false.
Definition sample_shared : shared :=
  start_binary (Shared false VSCP_ERROR_NOT_CONNECTED [] [] ∅ false (Poll false false 0) (Control false false binary_send 0 []) (Filter 0 0 0 0 0 0 (zeros 16) (zeros 16))).
Definition sample_connection (input : list (list Z)) : sample_line * VscpRemoteTcpIf := (SampleLine true (map packet input) [] [] 0, binary_client).
Definition sample_start : run (W := sample_line) :=
  Run (Client (sample_connection [frame_of 0 sample_event; reply_frame binaryClearCommand VSCP_ERROR_SUCCESS []]) (sample_connection []) sample_shared)
    (fun ch => first_place [] 0 false (match ch with binary_receive => true | binary_send => false end)) None No_caller [] [] [] [] [].

Lemma sample_started : started sample_settings sample_start [].
Proof.
  split; [exists 0; reflexivity|]. split; [exists 0; reflexivity|]. split; [eexists; reflexivity|].
  split; [exact binary_client_ok|]. split; [discriminate|]. repeat split.
Qed.

Definition sample_got : run := drive 9 sample_settings 7 binary_send sample_start.
Definition sample_calls : run := call_clear 9 sample_settings sample_got.
Definition sample_replied : run := drive 9 sample_settings 5 binary_send sample_calls.

Lemma sample_got_moves : rtc (moves 9 sample_settings) sample_start sample_got.
Proof. exact (drive_moves 9 sample_settings 7 binary_send sample_start). Qed.

Lemma sample_calls_moves : rtc (moves 9 sample_settings) sample_start sample_calls.
Proof. transitivity sample_got; [exact sample_got_moves|exact (call_clear_moves 9 sample_settings sample_got)]. Qed.

Lemma sample_replied_moves : rtc (moves 9 sample_settings) sample_start sample_replied.
Proof. transitivity sample_calls; [exact sample_calls_moves|exact (drive_moves 9 sample_settings 5 binary_send sample_calls)]. Qed.


Lemma replies_unambiguous_witness :
  waiting (binary_send, binaryClearCommand) (members (cl sample_calls)) = 1%nat /\ (waiting (binary_send, binaryClearCommand) (members (cl sample_calls)) <= 1)%nat.
Proof.
  split; [vm_compute; reflexivity|]. apply (replies_unambiguous 9 sample_settings sample_start [] sample_calls (binary_send, binaryClearCommand)); [exact sample_started|exact sample_calls_moves].
Defined.

Lemma clear_clears_witness : (1 <= length (taken_events sample_replied))%nat /\ singleChannelEvents (members (cl sample_replied)) = [].
Proof.
  split; [|vm_compute; reflexivity].
  destruct (clear_clears 9 sample_settings sample_start [] sample_replied binary_send 1 1 false None
    (snd (default (0, None, sample_shared) (binaryCommand_end binaryClearCommand false (members (cl sample_replied)))))) as (_ & L & _);
    [exact sample_started|exact sample_replied_moves|vm_compute; reflexivity|vm_compute; reflexivity|exact L].
Defined.

Lemma poll_reply_event_witness :
  poll_action true (reply_frame binaryRetrCommand VSCP_ERROR_SUCCESS (drop 1 (frame_body 0 sample_event))) = Dispatch (frame_of 0 sample_event) false.
Proof. destruct (poll_reply_event (Timespec 0 0) sample_event sample_event true sample_event_ok) as (_ & E & _). exact E. Defined.

(** *** After disconnect

    The worker has a raw frame in hand when disconnect empties the queues: it puts the
    frame there afterwards, and receiveBinaryFrame gives it to the application as if the
    client were connected. *)
Definition late_start : run (W := sample_line) :=
  Run (Client (sample_connection [[0xe5; 1; 2]]) (sample_connection []) sample_shared) (workers sample_start) None No_caller [] [] [] [] [].
Definition late_hand : run := drive 9 sample_settings 5 binary_send late_start.
Definition late_stopped : run :=
  Run (with_members (stop_binary (members (cl late_hand))) (cl late_hand)) (workers late_hand) (mutex late_hand) (clearer late_hand) (claims late_hand)
    (seen late_hand) (called late_hand) (taken_frames late_hand ++ binaryFrames (members (cl late_hand)))
    (taken_events late_hand ++ singleChannelEvents (members (cl late_hand))).

Example frame_after_disconnect : exists r, rtc (moves 9 sample_settings) late_stopped r /\ singleChannelRunning (members (cl late_stopped)) = false /\
  (receiveBinaryFrame sample_settings 0 (members (cl r))).1 = Taken (binary_send, [0xe5; 1; 2]).
Proof. exists (drive 9 sample_settings 1 binary_send late_stopped). split; [exact (drive_moves 9 sample_settings 1 binary_send late_stopped)|]. split; vm_compute; reflexivity. Qed.
