(* ===== verification/TcpConnect.v ===== *)
(** * The calls of the TCP client: vscp-client-tcp.cpp

    Connecting in the four modes, sending, and the calls that go to the interface,
    with the worker of the single-channel text mode.  While connect runs there is no
    other thread; the calls of a connected client are sequences of the sections of
    [TcpClient] and calls of the interfaces.  The TLS options, the threads
    workerThread and pollWorkerThread that connect starts in the two other text
    modes, and the queue that these fill are not modelled. *)

From stdpp Require Import gmap.
From S2P Require Import Prelude Program Crc DateTime Event Frame Strings Guid Filter Canal EventString TcpTransport TcpReader TcpIf TcpBinary TcpCmd TcpClient TcpDemux.

(** ** The settings

    Which threads can be joined; [pollThread] is m_pworkerthread. *)
Record threads := Threads { workerThread : bool; sendWorkerThread : bool; pollThread : bool }.

Definition managed_busy (cfg : settings) (th : threads) (s : shared) : bool :=
  usesManagedReceive cfg && (singleChannelRunning s || workerThread th || sendWorkerThread th).

Definition set_polling (b : bool) (cfg : settings) : settings :=
  Settings b (singleChannelReceiveLoop cfg) (binaryMode cfg) (isCallbackEvActive cfg) (isCallbackExActive cfg).
Definition set_singleChannel (b : bool) (cfg : settings) : settings :=
  Settings (polling cfg) b (binaryMode cfg) (isCallbackEvActive cfg) (isCallbackExActive cfg).
Definition set_binaryMode (b : bool) (cfg : settings) : settings :=
  Settings (polling cfg) (singleChannelReceiveLoop cfg) b (isCallbackEvActive cfg) (isCallbackExActive cfg).

(** init, without the names. *)
Definition init (bPolling : bool) (cfg : settings) (th : threads) (s : shared) : Z * settings :=
  if (singleChannelReceiveLoop cfg && bPolling) || managed_busy cfg th s then (VSCP_ERROR_PARAMETER, cfg)
  else (VSCP_ERROR_SUCCESS, set_polling bPolling cfg).

(** [connected] is whether one of the interfaces is connected. *)
Definition in_use (th : threads) (connected : bool) (s : shared) : bool :=
  singleChannelRunning s || workerThread th || sendWorkerThread th || pollThread th || connected.

Definition setSingleChannelReceiveLoop (enable : bool) (cfg : settings) (th : threads) (connected : bool) (s : shared) : Z * settings :=
  if (enable && polling cfg) || in_use th connected s then (VSCP_ERROR_PARAMETER, cfg)
  else (VSCP_ERROR_SUCCESS, set_singleChannel enable cfg).

Definition setBinaryMode (enable : bool) (cfg : settings) (th : threads) (connected : bool) (s : shared) : Z * settings :=
  if in_use th connected s then (VSCP_ERROR_PARAMETER, cfg)
  else (VSCP_ERROR_SUCCESS, set_binaryMode enable cfg).

(** setCallbackEv and setCallbackEx have the same guard. *)
Definition setCallback_refused (cfg : settings) (th : threads) (s : shared) : bool := managed_busy cfg th s.

(** ** Opening the receive channel *)

Section opening.
Context {W : Type} `{TcpTransport W}.
Variable fuel : nat.
Abbreviation tcp := (M (W * VscpRemoteTcpIf)).

(** Frames that come before the reply to OPEN are kept, up to one megabyte. *)
Fixpoint open_loop (n : nat) (deadline bufferedBytes : Z) (buffered : list (list Z)) : tcp (Z * list (list Z)) :=
  match n with
  | O => out_of_fuel
  | S n =>
      now ← io (call steady_clock);
      if deadline <=? now then mret (VSCP_ERROR_TIMEOUT, buffered)
      else
        now ← io (call steady_clock);
        '(result, frame) ← TcpIf.receiveBinaryFrame fuel [] (u32 (Z.max 0 (Z.quot (deadline - now) 1000000)));
        if negb (result =? VSCP_ERROR_SUCCESS) then mret (result, buffered)
        else if is_reply_frame frame && (binaryRead16 (drop 1 frame) =? binaryOpenCommand) then
          mret (match binaryReply frame with
                | Some (_, error) => if (length frame =? 7)%nat then error else VSCP_ERROR_INVALID_FRAME
                | None => VSCP_ERROR_INVALID_FRAME
                end, buffered)
        else
          let bufferedBytes := bufferedBytes + Z.of_nat (length frame) in
          if 1024 * 1024 <? bufferedBytes then mret (VSCP_ERROR_OVERRUN, buffered)
          else open_loop n deadline bufferedBytes (buffered ++ [frame])
  end.

Definition openBinaryReceiveChannel (buffered : list (list Z)) : tcp (Z * list (list Z)) :=
  '(result, command) ← defined (makeBinaryCommand binaryOpenCommand);
  result ← (if result =? VSCP_ERROR_SUCCESS then TcpIf.sendBinaryFrame fuel (default [] command) else mret result);
  if negb (result =? VSCP_ERROR_SUCCESS) then mret (result, buffered)
  else
    now ← io (call steady_clock);
    o ← this;
    open_loop fuel (now + m_responseTimeOut o * 1000000) 0 buffered.
End opening.

(** ** The calls *)

Section calls.
Context {W : Type} `{TcpTransport W}.
Variable (fuel : nat) (fresh : vscpEvent).
Abbreviation cio := (M (client W)).

(** A call of m_tcp or of m_tcpReceive, in every mode. *)
Definition on_tcp {A} (m : M (W * VscpRemoteTcpIf) A) : cio A := fun c =>
  match m (m_tcp c) with
  | Returns (a, i) => Returns (a, Client i (m_tcpReceive c) (members c))
  | Throws => Throws
  | Undefined => Undefined
  | OutOfFuel => OutOfFuel
  end.
Definition on_tcpReceive {A} (m : M (W * VscpRemoteTcpIf) A) : cio A := fun c =>
  match m (m_tcpReceive c) with
  | Returns (a, i) => Returns (a, Client (m_tcp c) i (members c))
  | Throws => Throws
  | Undefined => Undefined
  | OutOfFuel => OutOfFuel
  end.

(** The names that init sets. *)
Variable (host user password : list Z).
Definition open : M (W * VscpRemoteTcpIf) Z := doCmdOpen fuel host user password.

Definition copy_timeouts : cio unit :=
  o ← on_tcp this;
  on_tcpReceive (modify (fun r => TcpIf.setResponseTimeout (m_responseTimeOut o) (setConnectTimeout (m_connectionTimeOut o) r))).

Definition close_both : cio unit := _ ← on_tcpReceive (doCmdClose fuel); _ ← on_tcp (doCmdClose fuel); mret tt.

(** The result and the channel id; the frames for the worker that reads the receive
    channel.  [thread_fails] is that the first thread cannot be started. *)
Definition connectBinary (cfg : settings) (thread_fails : bool) (obid : Z) : cio (Z * Z * list (list Z)) :=
  result ← on_tcp open;
  if negb (result =? VSCP_ERROR_SUCCESS) then mret (result, obid, [])
  else
    '(result, id) ← on_tcp (doCmdGetChannelID fuel (Some obid));
    let obid := default obid (id : option Z) in
    if negb (result =? VSCP_ERROR_SUCCESS) then _ ← on_tcp (doCmdClose fuel); mret (result, obid, [])
    else
      result ← (if binaryUsesTwoChannels cfg then _ ← copy_timeouts; on_tcpReceive open else mret VSCP_ERROR_SUCCESS);
      if negb (result =? VSCP_ERROR_SUCCESS) then _ ← on_tcp (doCmdClose fuel); mret (result, obid, [])
      else
        result ← on_tcp (doCmdBinary fuel);
        result ← (if (result =? VSCP_ERROR_SUCCESS) && binaryUsesTwoChannels cfg then on_tcpReceive (doCmdBinary fuel) else mret result);
        '(result, buffered) ←
          (if (result =? VSCP_ERROR_SUCCESS) && negb (polling cfg)
           then on_interface cfg binary_receive (openBinaryReceiveChannel fuel []) else mret (result, []));
        if negb (result =? VSCP_ERROR_SUCCESS) then _ ← close_both; mret (result, obid, [])
        else
          _ ← locked (fun s => (tt, start_binary s));
          if thread_fails then
            _ ← locked (fun s => (tt, failSingleChannelWorker VSCP_ERROR_ERROR s));
            _ ← close_both;
            mret (VSCP_ERROR_ERROR, obid, [])
          else mret (VSCP_ERROR_SUCCESS, obid, buffered).

Definition start_single (s : shared) : shared := set_running true VSCP_ERROR_SUCCESS (set_events [] s).

Definition either_connected : cio bool := a ← on_tcp isConnected; if (a : bool) then mret true else on_tcpReceive isConnected.

(** connect, with the mode of TLS. *)
Definition connect (cfg : settings) (th : threads) (mode : tls_mode) (thread_fails : bool) (obid : Z) : cio (Z * Z * list (list Z)) :=
  r ← running;
  busy ← (if usesManagedReceive cfg then
            if r || workerThread th || sendWorkerThread th || pollThread th then mret true else either_connected
          else mret false);
  if (busy : bool) then mret (VSCP_ERROR_ALREADY_DEFINED, obid, [])
  else
    _ ← on_tcp (modify (setTLSMode mode));
    _ ← on_tcpReceive (modify (setTLSMode mode));
    rv ← on_tcp (TcpCmd.setSingleChannelReceiveLoop (negb (binaryMode cfg) && singleChannelReceiveLoop cfg));
    if negb (rv =? VSCP_ERROR_SUCCESS) then mret (rv, obid, [])
    else if binaryMode cfg then connectBinary cfg thread_fails obid
    else
      rv ← on_tcp open;
      if negb (rv =? VSCP_ERROR_SUCCESS) then mret (rv, obid, [])
      else
        '(result, id) ← on_tcp (doCmdGetChannelID fuel (Some obid));
        let obid := default obid (id : option Z) in
        if singleChannelReceiveLoop cfg then
          if negb (result =? VSCP_ERROR_SUCCESS) then _ ← on_tcp (doCmdClose fuel); mret (result, obid, [])
          else
            rv ← on_tcp (doCmdEnterReceiveLoop fuel);
            if negb (rv =? VSCP_ERROR_SUCCESS) then _ ← on_tcp (doCmdClose fuel); mret (rv, obid, [])
            else
              _ ← locked (fun s => (tt, start_single s));
              if thread_fails then
                _ ← locked (fun s => (tt, set_running false VSCP_ERROR_ERROR s));
                _ ← on_tcp (doCmdClose fuel);
                mret (VSCP_ERROR_ERROR, obid, [])
              else mret (VSCP_ERROR_SUCCESS, obid, [])
        else if polling cfg then mret (VSCP_ERROR_SUCCESS, obid, [])
        else
          rv ← on_tcpReceive open;
          if negb (rv =? VSCP_ERROR_SUCCESS) then _ ← on_tcp (doCmdClose fuel); mret (rv, obid, [])
          else mret (VSCP_ERROR_SUCCESS, obid, []).

(** disconnect, in the modes with workers: up to the joins, and after them; [self]
    is that the caller is one of the workers. *)
Definition disconnect_begin (self : bool) (s : shared) : Z * shared :=
  if self then (VSCP_ERROR_NOT_SUPPORTED, s) else (VSCP_ERROR_SUCCESS, stop_binary s).
Definition disconnect_joined (cfg : settings) : cio Z :=
  rv ← on_tcp (doCmdClose fuel);
  if binaryMode cfg && binaryUsesTwoChannels cfg then
    receiveResult ← on_tcpReceive (doCmdClose fuel);
    mret (if rv =? VSCP_ERROR_SUCCESS then receiveResult else rv : Z)
  else mret rv.
(** In the others, after the worker was joined. *)
Definition disconnect_plain (cfg : settings) : cio Z :=
  if polling cfg then on_tcp (doCmdClose fuel)
  else
    rv ← on_tcpReceive (doCmdClose fuel);
    if negb (rv =? VSCP_ERROR_SUCCESS) then _ ← on_tcp (doCmdClose fuel); mret rv
    else on_tcp (doCmdClose fuel).

Definition isConnected (cfg : settings) : cio bool :=
  if usesManagedReceive cfg then running
  else
    a ← on_tcp TcpIf.isConnected;
    if polling cfg then mret a
    else if (a : bool) then on_tcpReceive TcpIf.isConnected else mret false.

(** A send in the modes with workers: an interface that is gone stops the client. *)
Definition managed_send (cfg : settings) (m : M (W * VscpRemoteTcpIf) Z) : cio Z :=
  if usesManagedReceive cfg then
    r ← running;
    if negb r then mret VSCP_ERROR_NOT_CONNECTED
    else
      result ← on_tcp m;
      gone ← (if binaryMode cfg && negb (result =? VSCP_ERROR_SUCCESS) then c ← on_tcp TcpIf.isConnected; mret (negb c) else mret false);
      _ ← (if (gone : bool) then locked (fun s => (tt, failSingleChannelWorker result s)) else mret tt);
      mret result
  else on_tcp m.

Definition send (cfg : settings) (ev : vscpEvent) : cio Z := managed_send cfg (doCmdSend fuel (Some ev)).
Definition send_ex (cfg : settings) (ex : vscpEventEx) : cio Z := managed_send cfg (doCmdSendEx fuel fresh (Some ex)).
Definition send_canal (now : timespec) (now2 : Z) (cfg : settings) (msg : canalMsg) : cio Z :=
  converted ← defined (vscp_convertCanalToEvent now now2 (Some zero_event) (Some msg) (Some (zeros 16)));
  match converted with
  | (true, Some event) => send cfg event
  | _ => mret VSCP_ERROR_INVALID_FRAME
  end.

(** receive in the modes with workers: what was taken, converted. *)
Definition receive_managed (t : taking vscpEventEx) (ev : vscpEvent) : option (Z * vscpEvent) :=
  match t with
  | Taken x =>
      '(ok, ev') ← vscp_convertEventExToEvent (Some ev) (Some x);
      Some (if ok : bool then VSCP_ERROR_SUCCESS else VSCP_ERROR_INVALID_FRAME, default ev ev')
  | Refuses error => Some (error, ev)
  | Waits => None
  end.
Definition receive_managed_canal (mem : vscpEvent) (t : taking vscpEventEx) (msg : canalMsg) : option (Z * canalMsg) :=
  match t with
  | Taken x =>
      '(ok, msg') ← vscp_convertEventExToCanal mem (Some msg) (Some x);
      Some (if ok : bool then VSCP_ERROR_SUCCESS else VSCP_ERROR_INVALID_FRAME, default msg msg')
  | Refuses error => Some (error, msg)
  | Waits => None
  end.

(** clear in the single-channel text mode: once the worker is paused, which may take a
    while, the client may have stopped. *)
Definition clear_single : cio Z :=
  r ← running;
  if negb r then mret VSCP_ERROR_NOT_CONNECTED
  else
    r ← running;
    if negb r then mret VSCP_ERROR_NOT_CONNECTED
    else
      rv ← on_tcp (doCmdClear fuel);
      _ ← (if rv =? VSCP_ERROR_SUCCESS then locked (fun s => (tt, set_events [] s)) else mret tt);
      mret rv.

(** ** The worker of the single-channel text mode

    The test of the loop, the wait for an event, its section, the callbacks, and the end;
    the section does not test whether the client runs. *)
Inductive single_place := S_loop | S_receive | S_event (event : vscpEvent) | S_call (event : vscpEvent) | S_failing (error : Z) | S_end.

Definition queue_event (cfg : settings) (event : vscpEvent) (s : shared) : option (delivery * shared) :=
  if vscp_doLevel2Filter (Some event) (Some (filterIn s)) then
    if callbacks cfg then Some (To_callbacks, s)
    else
      '(ok, converted) ← vscp_convertEventToEventEx (Some zero_ex) (Some event);
      Some (match ok, converted with
            | true, Some x => (Queued, set_events (singleChannelEvents s ++ [x]) s)
            | _, _ => (Not_converted, s)
            end)
  else Some (Dropped, s).

Definition singleChannelWorker (cfg : settings) (p : single_place) : cio single_place :=
  match p with
  | S_loop => r ← running; mret (if (r : bool) then S_receive else S_end)
  | S_receive =>
      '(rv, event) ← on_tcp (doCmdBlockingReceive fuel (Some zero_event) 100);
      r ← running;
      mret (if negb r then S_end
            else if rv =? VSCP_ERROR_TIMEOUT then S_loop
            else if negb (rv =? VSCP_ERROR_SUCCESS) then S_failing rv
            else S_event (default zero_event event))
  | S_event event =>
      d ← (fun c => match queue_event cfg event (members c) with
                    | Some (d, s) => Returns (d, Client (m_tcp c) (m_tcpReceive c) s)
                    | None => Undefined
                    end);
      mret (match d with
            | Queued | Dropped => S_loop
            | To_callbacks => S_call event
            | Not_converted => S_failing VSCP_ERROR_INVALID_FRAME
            end)
  | S_call _ => mret S_loop
  | S_failing error => _ ← locked (fun s => (tt, failSingleChannelWorker error s)); mret S_end
  | S_end => mret S_end
  end.
End calls.

(** ** What comes before the reply to OPEN *)

Section opened.
Context {W : Type} `{StreamLaws W}.
Variable fuel : nat.

Lemma open_loop_spec n d k b s b' s' : binary_ok s.2 ->
  open_loop fuel n d k b s = Returns ((VSCP_ERROR_SUCCESS, b'), s') ->
  binary_ok s'.2 /\ exists bytes fs reply, came s'.1 = came s.1 ++ bytes /\ b' = b ++ fs /\
    m_binaryInput s.2 ++ bytes = concat (map packet (fs ++ [reply])) /\ m_binaryInput s'.2 = [] /\
    binaryReply reply = Some (binaryOpenCommand, VSCP_ERROR_SUCCESS) /\ length reply = 7%nat.
Proof.
  revert k b s. induction n as [|n IH]; intros k b s Hs E; [discriminate|]. cbn [open_loop] in E.
  apply bind_inv in E as (t1 & s1 & E1 & E). apply (io_call_inv _ _ _ _ still_steady) in E1 as [[Wr1 Ca1] O1].
  destruct (d <=? t1); [discriminate|]. apply bind_inv in E as (t2 & s2 & E2 & E).
  apply (io_call_inv _ _ _ _ still_steady) in E2 as [[Wr2 Ca2] O2]. apply bind_inv in E as ([r f] & s3 & E3 & E).
  apply receiveBinaryFrame_spec in E3 as (K1 & _ & bs & K3 & K4); [|rewrite O2, O1; exact Hs]. rewrite O2, O1 in K4.
  destruct (Z.eqb_spec r VSCP_ERROR_SUCCESS) as [Er|Nr]; cbn [negb] in E; [|injection E as E _ _; congruence].
  destruct K4 as [(_ & Ff & _ & P & N)|[[? _]|[[|[|]] _]]]; try (rewrite Er in *; discriminate).
  destruct (is_reply_frame f && _) eqn:Rf.
  - injection E as E <- <-. split; [exact K1|]. exists bs, [], f. rewrite app_nil_r. split; [congruence|]. split; [reflexivity|].
    split; [cbn [app map concat]; rewrite app_nil_r; exact P|]. split; [exact N|].
    apply andb_prop in Rf as [_ Rf]. apply Z.eqb_eq in Rf. destruct (binaryReply f) as [[rc e]|] eqn:R; [|discriminate].
    destruct (Nat.eqb_spec (length f) 7) as [L|]; [|discriminate]. split; [|exact L].
    unfold binaryReply in R. destruct (_ || _); [discriminate|]. injection R as <- _. rewrite Rf, E. reflexivity.
  - destruct (1024 * 1024 <? _); [discriminate|].
    destruct (IH _ _ _ K1 E) as (K5 & bytes & fs & reply & C & Eb & P2 & N2 & R & L). split; [exact K5|].
    exists (bs ++ bytes), (f :: fs), reply. split; [rewrite C, K3, Ca2, Ca1, app_assoc; reflexivity|].
    split; [rewrite Eb, <- app_assoc; reflexivity|]. split; [|auto]. rewrite N in P2. rewrite app_assoc, P. cbn [app map concat]. f_equal. exact P2.
Qed.

(** When the receive channel is open, the bytes that came are the frames that are kept
    for the worker and a reply to OPEN without error; none was lost. *)
Theorem open_keeps_frames s b s' : binary_ok s.2 -> openBinaryReceiveChannel fuel [] s = Returns ((VSCP_ERROR_SUCCESS, b), s') ->
  binary_ok s'.2 /\ exists bytes reply, came s'.1 = came s.1 ++ bytes /\ m_binaryInput s.2 ++ bytes = concat (map packet (b ++ [reply])) /\
    m_binaryInput s'.2 = [] /\ binaryReply reply = Some (binaryOpenCommand, VSCP_ERROR_SUCCESS).
Proof.
  intros Hs E. unfold openBinaryReceiveChannel in E. apply bind_inv in E as ([r c] & s1 & E1 & E).
  assert (M : r = VSCP_ERROR_SUCCESS /\ s1 = s).
  { change (makeBinaryCommand binaryOpenCommand) with (vscp_writeCommandToFrame (Some (replicate 5 0)) 5 binaryOpenCommand None 0) in E1.
    rewrite writeCommandToFrame_eq in E1 by (first [split; [lia|exact I]|cbn; lia]). injection E1 as <- _ <-. auto. }
  destruct M as [-> ->]. cbn [Z.eqb VSCP_ERROR_SUCCESS] in E. apply bind_inv in E as (r2 & s2 & E2 & E).
  destruct (sendBinaryFrame_keeps _ _ _ _ _ E2 Hs) as (K1 & C1 & I1). destruct (r2 =? VSCP_ERROR_SUCCESS) eqn:R2; cbn [negb] in E.
  2: { injection E as E _ _. rewrite E in R2. discriminate R2. }
  apply bind_inv in E as (t & s3 & E3 & E). apply (io_call_inv _ _ _ _ still_steady) in E3 as [[W3 C3] O3].
  rewrite (bind_returns _ _ s3 s3.2 s3) in E by reflexivity.
  apply open_loop_spec in E as (K & bytes & fs & reply & C & -> & P & N & R & _); [|rewrite O3; exact K1]. rewrite O3, I1 in P.
  split; [exact K|]. exists bytes, reply. split; [congruence|]. auto.
Qed.
End opened.
