(* ===== verification/TcpRegister.v ===== *)
(** * Registers through the TCP client

    VscpRemoteTcpIf::readLevel2Register, readLevel2Registers, writeLevel2Register,
    getMDFUrlFromLevel2Device and fetchIterfaceGUID of
    src/src/vscp/common/vscpremotetcpif.cpp, over the commands of the client that
    they call, which are the interface [TcpCommands]. *)

From S2P Require Import Prelude Program Event Frame Strings Guid Client TcpTransport TcpReader TcpIf TcpCmd.

Definition VSCP_PRIORITY_NORMAL : Z := 0x60.
Definition VSCP_CLASS1_PROTOCOL : Z := 0.
Definition VSCP_CLASS2_LEVEL1_PROTOCOL : Z := 512.
Definition VSCP_CLASS2_PROTOCOL : Z := 1024.
Definition VSCP_TYPE_PROTOCOL_EXTENDED_PAGE_READ : Z := 37.
Definition VSCP_TYPE_PROTOCOL_EXTENDED_PAGE_WRITE : Z := 38.
Definition VSCP_TYPE_PROTOCOL_EXTENDED_PAGE_RESPONSE : Z := 39.
Definition VSCP2_TYPE_PROTOCOL_READ_REGISTER : Z := 1.
Definition VSCP2_TYPE_PROTOCOL_WRITE_REGISTER : Z := 2.
Definition VSCP2_TYPE_PROTOCOL_READ_WRITE_RESPONSE : Z := 3.
Definition CANAL_ERROR_REGISTER : Z := 20.
Definition VSCP_ERROR_NOT_OPEN : Z := 33.
Definition VSCP_ERROR_OPERATION_FAILED : Z := 42.
Definition TCPIP_REGISTER_READ_RESEND_TIMEOUT : Z := 1000.
Definition TCPIP_REGISTER_READ_ERROR_TIMEOUT : Z := 5000.

(** ** The commands that are used

    [tcp_receive] is doCmdReceiveEx for the event that the functions reuse: it
    stays as it was when there is none. *)
Class TcpCommands (T : Type) := {
  tcp_connected : M T bool;
  tcp_clear : M T Z;
  tcp_send : vscpEventEx -> M T Z;
  tcp_available : M T Z;
  tcp_receive : vscpEventEx -> M T (Z * vscpEventEx);
  tcp_ms : M T Z;
  tcp_interfaces : list (list Z) -> M T (Z * list (list Z))
}.

(** The client. *)
#[export] Instance tcp_client {W} `{TcpTransport W} (fuel : nat) (fresh : vscpEvent) : TcpCommands (W * VscpRemoteTcpIf) := {|
  tcp_connected := isConnected;
  tcp_clear := doCmdClear fuel;
  tcp_send x := doCmdSendEx fuel fresh (Some x);
  tcp_available := doCmdDataAvailable fuel;
  tcp_receive x := '(rv, px) ← doCmdReceiveEx fuel fresh (Some x); mret (rv, default x px);
  tcp_ms := io (call ms_clock);
  tcp_interfaces := doCmdInterfaceList fuel
|}.

(** ** Events *)

Definition byte_at (k : nat) (x : vscpEventEx) : Z := nth k (xdata x) 0.
Definition page_bytes (page : Z) : list Z := [Z.shiftr page 8; Z.land page 0xff].
Definition reg_bytes (reg : Z) : list Z :=
  [Z.land (Z.shiftr reg 24) 0xff; Z.land (Z.shiftr reg 16) 0xff; Z.land (Z.shiftr reg 8) 0xff; Z.land reg 0xff].

(** The event as it is filled in; everything else stays what it is. *)
Definition request (e : vscpEventEx) (cls type : Z) (bytes : list Z) : option vscpEventEx :=
  data ← wr (xdata e) 0 bytes;
  Some (EventEx VSCP_PRIORITY_NORMAL (xobid e) (xtime e) (xcrc e) cls type (zeros 16) (Z.of_nat (length bytes)) data).

Definition clear_timestamp (e : vscpEventEx) : vscpEventEx :=
  EventEx (xhead e) (xobid e) (set_timestamp 0 (xtime e)) (xcrc e) (xclass e) (xtype e) (xGUID e) (xsizeData e) (xdata e).
Definition clear_obid (e : vscpEventEx) : vscpEventEx :=
  EventEx (xhead e) 0 (xtime e) (xcrc e) (xclass e) (xtype e) (xGUID e) (xsizeData e) (xdata e).

(** A read of [count] registers. *)
Definition read_request (fresh : vscpEventEx) (reg page count : Z) (ifGUID destGUID : list Z) (bLevel2 : bool) : option vscpEventEx :=
  let fresh := clear_obid (clear_timestamp fresh) in
  let level1 guid := request fresh VSCP_CLASS2_LEVEL1_PROTOCOL VSCP_TYPE_PROTOCOL_EXTENDED_PAGE_READ
                       (take 16 guid ++ [nth 15 destGUID 0] ++ page_bytes page ++ [u8 reg; count]) in
  if negb (isNULL ifGUID) then level1 ifGUID
  else if bLevel2 then
    request fresh VSCP_CLASS2_PROTOCOL VSCP2_TYPE_PROTOCOL_READ_REGISTER (take 16 destGUID ++ reg_bytes reg ++ [0; count])
  else level1 destGUID.

(** A write; the GUID of the node is in front also when there is an interface, and
    the obid and the time stamp are not initialised. *)
Definition write_request (fresh : vscpEventEx) (reg page val : Z) (ifGUID destGUID : list Z) (bLevel2 : bool) : option vscpEventEx :=
  if isNULL ifGUID && bLevel2 then
    request fresh VSCP_CLASS2_PROTOCOL VSCP2_TYPE_PROTOCOL_WRITE_REGISTER (take 16 destGUID ++ reg_bytes reg ++ [val])
  else
    request fresh VSCP_CLASS2_LEVEL1_PROTOCOL VSCP_TYPE_PROTOCOL_EXTENDED_PAGE_WRITE
      (take 16 destGUID ++ [nth 15 destGUID 0] ++ page_bytes page ++ [u8 reg; val]).

(** What kind of answer an event is. *)
Inductive answer_kind := Level1 | Interface | Level2 | No_answer.

Definition kind_of (on_interface bLevel2 : bool) (x : vscpEventEx) : answer_kind :=
  if (xclass x =? VSCP_CLASS1_PROTOCOL) && (xtype x =? VSCP_TYPE_PROTOCOL_EXTENDED_PAGE_RESPONSE) then Level1
  else if on_interface && negb bLevel2 && (xclass x =? VSCP_CLASS2_LEVEL1_PROTOCOL) && (xtype x =? VSCP_TYPE_PROTOCOL_EXTENDED_PAGE_RESPONSE)
  then Interface
  else if negb on_interface && bLevel2 && (xclass x =? VSCP_CLASS2_PROTOCOL) && (xtype x =? VSCP2_TYPE_PROTOCOL_READ_WRITE_RESPONSE)
  then Level2
  else No_answer.

(** The page at a place in the data, and the page and the register of the first
    frame. *)
Definition page_at (k : nat) (page : Z) (x : vscpEventEx) : bool :=
  (Z.shiftr page 8 =? byte_at k x) && (Z.land page 0xff =? byte_at (k + 1) x).
Definition first_frame (k : nat) (page reg : Z) (x : vscpEventEx) : bool :=
  (0 =? byte_at k x) && page_at (k + 1) page x && (reg =? byte_at (k + 3) x).
Definition level2_register (x : vscpEventEx) : Z :=
  u32 (s32 (Z.shiftl (byte_at 0 x) 24) + Z.shiftl (byte_at 1 x) 16 + Z.shiftl (byte_at 2 x) 8 + byte_at 3 x).

(** The value in the answer to the read of one register. *)
Definition read_answer (reg page : Z) (destGUID : list Z) (on_interface bLevel2 : bool) (x : vscpEventEx) : option Z :=
  match kind_of on_interface bLevel2 x with
  | Level1 => if first_frame 0 page reg x && isSameGUID destGUID (xGUID x) then Some (byte_at 4 x) else None
  | Interface => if isSameGUID destGUID (xGUID x) && first_frame 16 page reg x then Some (byte_at 20 x) else None
  | Level2 => if isSameGUID destGUID (xGUID x) && (level2_register x =? reg) then Some (byte_at 4 x) else None
  | No_answer => None
  end.

(** The byte in the answer to a write that is compared with the value. *)
Definition write_answer (reg page : Z) (destGUID : list Z) (on_interface bLevel2 : bool) (x : vscpEventEx) : option Z :=
  match kind_of on_interface bLevel2 x with
  | Level1 => if first_frame 0 page reg x && isSameGUID destGUID (xGUID x) then Some (byte_at 4 x) else None
  | Interface => if (nth 15 destGUID 0 =? byte_at 15 x) && first_frame 16 page reg x then Some (byte_at 17 x) else None
  | Level2 => if isSameGUID destGUID (xGUID x) && (level2_register x =? reg) then Some (byte_at 4 x) else None
  | No_answer => None
  end.

(** ** The operations

    [fresh] is the local event, [memory] the local array of 256 bytes; the
    timeouts are the members m_registerOpErrorTimeout and
    m_registerOpResendTimeout. *)

Section registers.
Context {T : Type} `{TcpCommands T}.
Variable fuel : nat.
Variables (error_timeout resend_timeout : Z).
Variable fresh : vscpEventEx.
Variable memory : list Z.

(** The wait for the answer to one register: the value that was accepted, or
    nothing at the timeout.  The event that is sent again is the one that was
    received last; [wrap] is the width of the variable for the time of that. *)
Fixpoint answer_loop (wrap : Z -> Z) (n : nat) (accept : vscpEventEx -> option Z) (reset : vscpEventEx -> vscpEventEx)
    (startTime resendTime : Z) (e : vscpEventEx) : M T (option Z) :=
  match n with
  | O => out_of_fuel
  | S n =>
      available ← tcp_available;
      '(v, e) ← (if 0 <? available then
                   '(rv, e) ← tcp_receive e;
                   mret (if rv =? VSCP_ERROR_SUCCESS then accept e else None, e)
                 else mret (None, e));
      match (v : option Z) with
      | Some v => mret (Some v)
      | None =>
          t ← tcp_ms;
          if error_timeout <? u32 (t - startTime) then mret None
          else
            t ← tcp_ms;
            if resendTime <? u32 (t - startTime) then
              _ ← tcp_send (reset e);
              answer_loop wrap n accept reset startTime (wrap (resendTime + resend_timeout)) (reset e)
            else answer_loop wrap n accept reset startTime resendTime e
      end
  end.

(** The result and the value at [pval].  For a null pointer the code returns
    false, which is VSCP_ERROR_SUCCESS. *)
Definition readLevel2Register (reg page : Z) (pval : option Z) (ifGUID : list Z) (pdestGUID : option (list Z)) (bLevel2 : bool)
    : M T (Z * option Z) :=
  match pval, pdestGUID with
  | None, _ | _, None => mret (0, pval)
  | Some val, Some destGUID =>
      e ← defined (read_request fresh reg page 1 ifGUID destGUID bLevel2);
      _ ← tcp_clear;
      let e := clear_timestamp e in
      _ ← tcp_send e;
      startTime ← tcp_ms;
      r ← answer_loop u32 fuel (read_answer reg page destGUID (negb (isNULL ifGUID)) bLevel2) clear_timestamp startTime resend_timeout e;
      mret match r with
           | Some v => (VSCP_ERROR_SUCCESS, Some v)
           | None => (VSCP_ERROR_TIMEOUT, Some val)
           end
  end.

(** A null [pdestGUID] is not looked for. *)
Definition writeLevel2Register (reg page : Z) (pval : option Z) (ifGUID : list Z) (pdestGUID : option (list Z)) (bLevel2 : bool) : M T Z :=
  match pval with
  | None => mret VSCP_ERROR_PARAMETER
  | Some val =>
      match pdestGUID with
      | None => undefined
      | Some destGUID =>
          e ← defined (write_request fresh reg page val ifGUID destGUID bLevel2);
          _ ← tcp_send e;
          startTime ← tcp_ms;
          r ← answer_loop u64 fuel (write_answer reg page destGUID (negb (isNULL ifGUID)) bLevel2) (fun e => e) startTime resend_timeout e;
          mret match r with
               | Some v => if val =? v then VSCP_ERROR_SUCCESS else CANAL_ERROR_REGISTER
               | None => VSCP_ERROR_TIMEOUT
               end
      end
  end.

(** ** Blocks of registers *)

(** The number of frames, and the flags of all of them. *)
Definition frame_count (count : Z) : Z := count / 4 + (if count mod 4 =? 0 then 0 else 1).
Definition all_frames (count : Z) : Z := 2 ^ frame_count count - 1.

(** A frame with index, which is at [k] in the data: its flag is set and its bytes
    are stored.  Shifting an int by 32 or more is undefined. *)
Definition store_frame (k : nat) (count : Z) (x : vscpEventEx) (flags : Z) (data : list Z) : option (Z * list Z) :=
  let i := byte_at k x in
  if 31 <? i then None
  else
    let n := if negb (count mod 4 =? 0) && (count - 1 =? i) then count mod 4 else 4 in
    data ← wr data (Z.to_nat (4 * i)) (map (fun j => byte_at (k + 4 + j) x) (seq 0 (Z.to_nat n)));
    Some (Z.lor flags (u64 (s32 (Z.shiftl 1 i))), data).

(** The answer to a block: flags, data, the value at [pval], and whether the inner
    loop is left. *)
Definition block_answer (reg page count : Z) (destGUID : list Z) (on_interface bLevel2 : bool) (x : vscpEventEx)
    (flags : Z) (data pval : list Z) : option (Z * list Z * list Z * bool) :=
  match kind_of on_interface bLevel2 x with
  | Level1 =>
      if isSameGUID destGUID (xGUID x) && page_at 1 page x then
        '(flags, data) ← store_frame 0 count x flags data; Some (flags, data, pval, false)
      else Some (flags, data, pval, false)
  | Interface =>
      if isSameGUID destGUID (xGUID x) && page_at 17 page x then
        '(flags, data) ← store_frame 16 count x flags data; Some (flags, data, pval, false)
      else Some (flags, data, pval, false)
  | Level2 =>
      if isSameGUID destGUID (xGUID x) && (level2_register x =? reg) then
        pval ← wr pval 0 [byte_at 4 x]; Some (flags, data, pval, true)
      else Some (flags, data, pval, false)
  | No_answer => Some (flags, data, pval, false)
  end.

Definition complete (count flags : Z) : bool := all_frames count =? Z.land flags 0xffffffff.

(** The inner loop goes on as long as there are events; that everything is there is
    seen after one event more. *)
Fixpoint drain_loop (n : nat) (reg page count : Z) (destGUID : list Z) (on_interface bLevel2 : bool)
    (e : vscpEventEx) (flags : Z) (data pval : list Z) : M T (vscpEventEx * Z * list Z * list Z) :=
  match n with
  | O => out_of_fuel
  | S n =>
      '(rv, e) ← tcp_receive e;
      if negb (rv =? VSCP_ERROR_SUCCESS) || complete count flags then mret (e, flags, data, pval)
      else
        '(flags, data, pval, leave) ← defined (block_answer reg page count destGUID on_interface bLevel2 e flags data pval);
        if (leave : bool) then mret (e, flags, data, pval)
        else drain_loop n reg page count destGUID on_interface bLevel2 e flags data pval
  end.

Fixpoint block_loop (n : nat) (reg page count : Z) (destGUID : list Z) (on_interface bLevel2 : bool)
    (startTime resendTime : Z) (e : vscpEventEx) (flags : Z) (data pval : list Z) : M T (Z * list Z * list Z) :=
  if complete count flags then mret (VSCP_ERROR_SUCCESS, data, pval)
  else
    match n with
    | O => out_of_fuel
    | S n =>
        available ← tcp_available;
        '(e, flags, data, pval) ← (if 0 <? available then drain_loop fuel reg page count destGUID on_interface bLevel2 e flags data pval
                                   else mret (e, flags, data, pval));
        t ← tcp_ms;
        if error_timeout <? u32 (t - startTime) then mret (VSCP_ERROR_TIMEOUT, data, pval)
        else
          t ← tcp_ms;
          if resendTime <? u32 (t - startTime) then
            _ ← tcp_send e;
            block_loop n reg page count destGUID on_interface bLevel2 startTime (u64 (resendTime + resend_timeout * (1 + frame_count count))) e flags data pval
          else block_loop n reg page count destGUID on_interface bLevel2 startTime resendTime e flags data pval
    end.

Definition readLevel2Registers (reg page count : Z) (pval : option (list Z)) (ifGUID : list Z) (pdestGUID : option (list Z)) (bLevel2 : bool)
    : M T (Z * option (list Z)) :=
  if 128 <? count then mret (VSCP_ERROR_PARAMETER, pval)
  else
    match pval, pdestGUID with
    | None, _ | _, None => mret (VSCP_ERROR_PARAMETER, pval)
    | Some p, Some destGUID =>
        e ← defined (read_request fresh reg page count ifGUID destGUID bLevel2);
        _ ← tcp_clear;
        let e := clear_timestamp e in
        _ ← tcp_send e;
        startTime ← tcp_ms;
        '(rv, data, p) ← block_loop fuel reg page count destGUID (negb (isNULL ifGUID)) bLevel2 startTime
                           (resend_timeout * (1 + frame_count count)) e 0 memory p;
        if rv =? VSCP_ERROR_SUCCESS then
          p ← defined (wr p 0 (take (Z.to_nat count) data)); mret (rv, Some p)
        else mret (rv, Some p)
    end.

(** ** The URL of the module description, and the GUID of an interface *)

(** The characters from [i] on, or nothing after the first error. *)
Fixpoint url_loop (n : nat) (i : Z) (ifGUID destGUID : list Z) (bLevel2 : bool) : M T (option (list Z)) :=
  match n with
  | O => mret (Some [])
  | S n =>
      '(rv, v) ← readLevel2Register (u32 ((if bLevel2 then 0xFFFFFFE0 else 0xE0) + i)) 0 (Some 0) ifGUID (Some destGUID) bLevel2;
      if negb (rv =? VSCP_ERROR_SUCCESS) then mret None
      else r ← url_loop n (i + 1) ifGUID destGUID bLevel2; mret (cons (default 0 v) <$> r)
  end.

Definition getMDFUrlFromLevel2Device (ifGUID destGUID : list Z) (bLevel2 : bool) : M T (bool * list Z) :=
  url ← url_loop 32 0 ifGUID destGUID bLevel2;
  mret match url with
       | None => (false, [])
       | Some url =>
           let strurl := c_str url in
           (true, if contains (str "http://") strurl then strurl else str "http://" ++ strurl)
       end.

(** The name in a line of the interface list, and the GUID as text. *)
Definition interface_name (line : list Z) : list Z * list Z :=
  let tokens := vscp_split line (str ",") in
  let description := nth 3 tokens [] in
  (match find (str "|") description with Some pos => vscp_trim (take pos description) | None => [] end, nth 2 tokens []).

Fixpoint find_interface (ifName : list Z) (ifarray : list (list Z)) : option (list Z) :=
  match ifarray with
  | [] => None
  | line :: ifarray =>
      let '(name, guid) := interface_name line in
      if vscp_strcasecmp (c_str name) (c_str ifName) =? 0 then Some guid else find_interface ifName ifarray
  end.

(** The list grows with each try.  A try that fails does not count. *)
Fixpoint interface_loop (n : nat) (ifName : list Z) (ifarray : list (list Z)) (cnt : Z) (guid : list Z) : M T (Z * list Z) :=
  match n with
  | O => out_of_fuel
  | S n =>
      '(rv, ifarray) ← tcp_interfaces ifarray;
      let listed := (rv =? VSCP_ERROR_SUCCESS) && negb (bool_decide (ifarray = [])) in
      let cnt := if listed then cnt + 1 else cnt in
      match if listed then find_interface ifName ifarray else None with
      | Some text => mret (VSCP_ERROR_SUCCESS, getFromString text)
      | None => if 3 <? cnt then mret (VSCP_ERROR_OPERATION_FAILED, guid) else interface_loop n ifName ifarray cnt guid
      end
  end.

Definition fetchIterfaceGUID (ifName guid : list Z) : M T (Z * list Z) :=
  connected ← tcp_connected;
  if negb connected then mret (VSCP_ERROR_NOT_OPEN, guid)
  else interface_loop fuel ifName [] 0 guid.
End registers.

(** ** Answers *)

(** The answer of a node to the read or the write of one register, which holds [v]:
    as a level I event, through an interface, or as a level II event. *)
Inductive node_answer (reg page v : Z) (destGUID : list Z) : bool -> bool -> vscpEvent -> Prop :=
  | answer_level1 on_interface bLevel2 e rest :
      vscp_class e = VSCP_CLASS1_PROTOCOL -> vscp_type e = VSCP_TYPE_PROTOCOL_EXTENDED_PAGE_RESPONSE ->
      isSameGUID destGUID (GUID e) = true -> pdata e = Some (0 :: page_bytes page ++ reg :: v :: rest) ->
      node_answer reg page v destGUID on_interface bLevel2 e
  | answer_interface e guid rest :
      vscp_class e = VSCP_CLASS2_LEVEL1_PROTOCOL -> vscp_type e = VSCP_TYPE_PROTOCOL_EXTENDED_PAGE_RESPONSE ->
      isSameGUID destGUID (GUID e) = true -> length guid = 15%nat ->
      pdata e = Some (guid ++ nth 15 destGUID 0 :: 0 :: page_bytes page ++ reg :: v :: rest) ->
      node_answer reg page v destGUID true false e
  | answer_level2 e rest :
      vscp_class e = VSCP_CLASS2_PROTOCOL -> vscp_type e = VSCP2_TYPE_PROTOCOL_READ_WRITE_RESPONSE ->
      isSameGUID destGUID (GUID e) = true -> pdata e = Some (reg_bytes reg ++ v :: rest) ->
      node_answer reg page v destGUID false true e.

(** The event as the client has it: behind its data is what the buffer held before. *)
Record shows (e : vscpEvent) (x : vscpEventEx) : Prop := {
  shows_class : xclass x = vscp_class e;
  shows_type : xtype x = vscp_type e;
  shows_guid : xGUID x = GUID e;
  shows_size : xsizeData x = sizeData e;
  shows_data : exists rest, xdata x = data_of (pdata e) ++ rest
}.

(** The client does not take an event for the answer, whatever the buffer held. *)
Definition refused (accept : vscpEventEx -> option Z) (e : vscpEvent) : Prop := forall x, shows e x -> accept x = None.

Lemma level2_register_eq x reg v rest : is_u32 reg -> xdata x = reg_bytes reg ++ v :: rest -> level2_register x = reg.
Proof.
  intros Hr E. unfold level2_register, byte_at. rewrite E. cbn [reg_bytes app nth].
  rewrite !land_255, !Z.shiftl_mul_pow2, !Z.shiftr_div_pow2 by lia. width.
Qed.

(** What is where in an answer through an interface. *)
Lemma interface_bytes x guid d reg page v rest : length guid = 15%nat ->
  xdata x = guid ++ d :: 0 :: page_bytes page ++ reg :: v :: rest ->
  byte_at 15 x = d /\ first_frame 16 page reg x = true /\ byte_at 17 x = Z.shiftr page 8 /\ byte_at 20 x = v.
Proof.
  intros L D. unfold first_frame, page_at, byte_at. rewrite D. do 15 (destruct guid as [|? guid]; [discriminate L|]).
  destruct guid; [|discriminate L]. cbn. rewrite !Z.eqb_refl. auto.
Qed.

Lemma read_answer_node reg page v dest i l e x : is_u32 reg -> node_answer reg page v dest i l e -> shows e x ->
  read_answer reg page dest i l x = Some v.
Proof.
  intros Hr A [S1 S2 S3 _ [more D']]. destruct A as [i l e rest C T G D|e guid rest C T G L D|e rest C T G D];
    unfold read_answer, kind_of; rewrite S1, S2, S3, C, T, G; rewrite D in D'; cbn [andb negb Z.eqb].
  - unfold first_frame, page_at, byte_at. rewrite D'. cbn. rewrite !Z.eqb_refl. reflexivity.
  - change (data_of (Some ?d)) with d in D'. rewrite <- app_assoc in D'. destruct (interface_bytes _ _ _ _ _ _ _ L D') as (_ & F & _ & V). cbn. rewrite F, V. reflexivity.
  - cbn. rewrite (level2_register_eq _ _ _ _ Hr D'), Z.eqb_refl. unfold byte_at. rewrite D'. reflexivity.
Qed.

(** What a write is compared with: behind an interface it is the page. *)
Lemma write_answer_node reg page v dest i l e x : is_u32 reg -> node_answer reg page v dest i l e -> shows e x ->
  write_answer reg page dest i l x =
    Some (if (vscp_class e =? VSCP_CLASS2_LEVEL1_PROTOCOL) then Z.shiftr page 8 else v).
Proof.
  intros Hr A [S1 S2 S3 _ [more D']]. destruct A as [i l e rest C T G D|e guid rest C T G L D|e rest C T G D];
    unfold write_answer, kind_of; rewrite S1, S2, C, T; rewrite D in D'; cbn [andb negb Z.eqb].
  - rewrite S3, G. unfold first_frame, page_at, byte_at. rewrite D'. cbn. rewrite !Z.eqb_refl. reflexivity.
  - change (data_of (Some ?d)) with d in D'. rewrite <- app_assoc in D'. destruct (interface_bytes _ _ _ _ _ _ _ L D') as (B & F & P & _). cbn. rewrite B, F, P, Z.eqb_refl. reflexivity.
  - cbn. rewrite S3, G, (level2_register_eq _ _ _ _ Hr D'), Z.eqb_refl. unfold byte_at. rewrite D'. reflexivity.
Qed.

(** ** The requests *)

Lemma level2_request_ok fresh cls type bytes e : eventex_ok fresh -> is_u16 cls -> is_u16 type -> bytes_ok bytes -> (length bytes <= 512)%nat ->
  request fresh cls type bytes = Some e -> eventex_ok e /\ xsizeData e <= 512.
Proof.
  intros Hf Hc Ht Hb L E. unfold request in E. destruct (wr (xdata fresh) 0 bytes) as [data|] eqn:Wr; [|discriminate]. injection E as <-.
  destruct (xdata_ok _ Hf) as [Xl Xb]. rewrite wr_front in Wr by lia. injection Wr as <-. split; [|cbn; lia].
  split; cbn; first [assumption|exact (xobid_ok _ Hf)|exact (xtime_ok _ Hf)|exact (xcrc_ok _ Hf)|idtac].
  - unfold is_u16, VSCP_PRIORITY_NORMAL. lia.
  - split; [reflexivity|by_decide].
  - unfold is_u16. lia.
  - rewrite length_app, length_drop, Xl. split; [lia|]. apply Forall_app. auto using Forall_drop.
Qed.

Lemma clear_timestamp_ok e : eventex_ok e -> eventex_ok (clear_timestamp e).
Proof. intros []. split; cbn; auto with vscp. Qed.

Lemma clear_obid_ok e : eventex_ok e -> eventex_ok (clear_obid e).
Proof. intros []. split; cbn; auto. unfold is_u32. lia. Qed.

Lemma page_bytes_ok page : is_u16 page -> bytes_ok (page_bytes page).
Proof.
  intros H. unfold page_bytes. rewrite shiftr_div by lia. repeat constructor; unfold is_u16, is_u8 in *; [dlia|dlia|..];
    rewrite land_255; apply Z.mod_pos_bound; reflexivity.
Qed.

Lemma reg_bytes_ok reg : bytes_ok (reg_bytes reg).
Proof. unfold reg_bytes. rewrite !land_255. repeat constructor; unfold is_u8; apply Z.mod_pos_bound; reflexivity. Qed.

(** What a request asks for is well-formed. *)
Lemma read_request_ok fresh reg page count ifGUID dest bLevel2 e : eventex_ok fresh -> is_u16 page -> is_u8 count ->
  bytes_ok ifGUID -> bytes_ok dest -> read_request fresh reg page count ifGUID dest bLevel2 = Some e -> eventex_ok e /\ xsizeData e <= 512.
Proof.
  intros Hf Hp Hc Hi Hd E. assert (F : eventex_ok (clear_obid (clear_timestamp fresh))) by auto using clear_obid_ok, clear_timestamp_ok.
  assert (P := page_bytes_ok _ Hp). assert (R := reg_bytes_ok reg).
  assert (N : is_u8 (nth 15 dest 0)) by (destruct (nth_in_or_default 15 dest 0) as [I| ->]; [exact (proj1 (List.Forall_forall _ _) Hd _ I)|unfold is_u8; lia]).
  assert (B : forall g, bytes_ok g -> bytes_ok (take 16 g ++ [nth 15 dest 0] ++ page_bytes page ++ [u8 reg; count])).
  { intros g Hg. apply Forall_app. split; [apply Forall_take, Hg|]. constructor; [exact N|]. apply Forall_app. split; [exact P|].
    constructor; [apply u8_ok|]. constructor; [exact Hc|constructor]. }
  assert (B2 : bytes_ok (take 16 dest ++ reg_bytes reg ++ [0; count])).
  { apply Forall_app. split; [apply Forall_take, Hd|]. apply Forall_app. split; [exact R|].
    constructor; [unfold is_u8; lia|]. constructor; [exact Hc|constructor]. }
  unfold read_request in E. destruct (isNULL ifGUID); cbn [negb] in E; [destruct bLevel2|];
    (eapply level2_request_ok; [exact F| | | | |exact E]); first [split; [discriminate|reflexivity]|exact B2|apply B; assumption|
      rewrite !length_app, length_take; cbn [length page_bytes reg_bytes]; lia].
Qed.

(** ** A bus with nodes

    [pending] are the events that can be received, [nodes] what an event of a class,
    a type, a GUID and data that is sent makes the nodes send, and [ready] what holds
    between the calls.  [early s w] says that at [w] neither timeout that began at
    [s] has passed, which holds while something can be received.  [TcpNode] shows that the client
    with a text server is such a bus. *)
Class RegisterBus (T : Type) `{TcpCommands T} (timeout : Z) := {
  ready : T -> Prop;
  pending : T -> list vscpEvent;
  nodes : Z -> Z -> list Z -> list Z -> list vscpEvent;
  early : Z -> T -> Prop;
  bus_clear : forall w, ready w -> exists rv w', tcp_clear w = Returns (rv, w') /\ ready w' /\ pending w' = [];
  bus_send : forall x w, ready w -> eventex_ok x -> xsizeData x <= 512 ->
    exists rv w', tcp_send x w = Returns (rv, w') /\ ready w' /\
      pending w' = pending w ++ nodes (xclass x) (xtype x) (xGUID x) (take (Z.to_nat (xsizeData x)) (xdata x));
  bus_available : forall w, ready w -> pending w <> [] ->
    exists n w', tcp_available w = Returns (n, w') /\ 0 < n /\ ready w' /\ pending w' = pending w /\ forall s, early s w -> early s w';
  bus_receive : forall e w x r, ready w -> eventex_ok e -> pending w = x :: r ->
    exists y w', tcp_receive e w = Returns ((VSCP_ERROR_SUCCESS, y), w') /\ shows x y /\ eventex_ok y /\ ready w' /\ pending w' = r /\
      (r <> [] -> forall s, early s w -> early s w');
  bus_ms : forall w, ready w -> exists t w', tcp_ms w = Returns (t, w') /\ ready w' /\ pending w' = pending w /\
    (pending w <> [] -> early t w' /\ forall s, early s w -> early s w' /\ u32 (t - s) <= timeout)
}.

Section bus.
Context {T : Type} `{RegisterBus T timeout}.
Variable fuel : nat.
Variables (error_timeout resend_timeout : Z).
Hypothesis error_late : timeout <= error_timeout.
Hypothesis resend_late : timeout <= resend_timeout.

Definition asked (x : vscpEventEx) : list vscpEvent := nodes (xclass x) (xtype x) (xGUID x) (take (Z.to_nat (xsizeData x)) (xdata x)).

Lemma answer_loop_finds wrap n accept reset start resend e w before x after v :
  (length before < n)%nat -> timeout <= resend -> early start w -> ready w -> eventex_ok e -> pending w = before ++ x :: after ->
  Forall (refused accept) before -> (forall y, shows x y -> accept y = Some v) ->
  exists w', answer_loop error_timeout resend_timeout wrap n accept reset start resend e w = Returns (Some v, w') /\ ready w' /\ pending w' = after.
Proof.
  revert n e w. induction before as [|z before IH]; intros n e w Hn Hr Hs Hw He Hp Hb Hx; (destruct n as [|n]; [cbn in Hn; lia|]);
    cbn [answer_loop]; (destruct (bus_available w Hw) as (a & w1 & E1 & A1 & R1 & P1 & S1); [rewrite Hp; discriminate|]); rewrite (bind_returns _ _ _ _ _ E1);
    rewrite (proj2 (Z.ltb_lt _ _) A1); rewrite Hp in P1; cbn [app] in P1;
    destruct (bus_receive e w1 _ _ R1 He P1) as (y & w2 & E2 & Sh & Hy' & R2 & P2 & S2).
  - rewrite (bind_returns _ _ w1 (Some v, y) w2) by (rewrite (bind_returns _ _ _ _ _ E2); cbn; rewrite (Hx y Sh); reflexivity).
    exists w2. auto.
  - inversion_clear Hb as [|? ? Hz Hb']. assert (N2 : pending w2 <> []) by (rewrite P2; destruct before; discriminate).
    rewrite (bind_returns _ _ w1 (None, y) w2) by (rewrite (bind_returns _ _ _ _ _ E2); cbn; rewrite (Hz y Sh); reflexivity).
    destruct (bus_ms w2 R2) as (t3 & w3 & E3 & R3 & P3 & T3). destruct (T3 N2) as [_ T3']. rewrite (bind_returns _ _ _ _ _ E3).
    destruct (T3' start) as [S3 L3]; [rewrite <- P2 in S2; auto|]. rewrite (proj2 (Z.ltb_ge _ _)) by lia.
    destruct (bus_ms w3 R3) as (t4 & w4 & E4 & R4 & P4 & T4). destruct T4 as [_ T4]; [rewrite P3; exact N2|]. rewrite (bind_returns _ _ _ _ _ E4).
    destruct (T4 start) as [S4 L4]; [exact S3|]. rewrite (proj2 (Z.ltb_ge _ _)) by lia.
    apply IH; [cbn in Hn; lia|exact Hr|exact S4|exact R4|exact Hy'|congruence|exact Hb'|exact Hx].
Qed.

(** A register of a node is read over any such bus. *)
Lemma bus_register_read (fresh : vscpEventEx) reg page val v ifGUID dest bLevel2 e before x after w :
  ready w -> eventex_ok fresh -> is_u32 reg -> is_u16 page -> bytes_ok ifGUID -> bytes_ok dest ->
  read_request fresh reg page 1 ifGUID dest bLevel2 = Some e -> asked e = before ++ x :: after ->
  Forall (refused (read_answer reg page dest (negb (isNULL ifGUID)) bLevel2)) before ->
  node_answer reg page v dest (negb (isNULL ifGUID)) bLevel2 x -> (length before < fuel)%nat ->
  exists w', readLevel2Register fuel error_timeout resend_timeout fresh reg page (Some val) ifGUID (Some dest) bLevel2 w =
    Returns ((VSCP_ERROR_SUCCESS, Some v), w') /\ ready w' /\ pending w' = after.
Proof.
  intros Hw Hfr Hr Hpg Hi Hd Hq Ha Hb Hx Hf. unfold readLevel2Register. rewrite Hq, (bind_defined _ _ _ _ eq_refl).
  assert (C1 : is_u8 1) by (unfold is_u8; lia). destruct (read_request_ok _ _ _ _ _ _ _ _ Hfr Hpg C1 Hi Hd Hq) as [Ok Sz]. apply clear_timestamp_ok in Ok.
  destruct (bus_clear w Hw) as (r1 & w1 & E1 & R1 & P1). rewrite (bind_returns _ _ _ _ _ E1).
  destruct (bus_send (clear_timestamp e) w1 R1 Ok Sz) as (r2 & w2 & E2 & R2 & P2). rewrite (bind_returns _ _ _ _ _ E2).
  change (nodes _ _ _ _) with (asked e) in P2. rewrite P1, Ha in P2. cbn [app] in P2.
  destruct (bus_ms w2 R2) as (t & w3 & E3 & R3 & P3 & S3). rewrite (bind_returns _ _ _ _ _ E3).
  destruct S3 as [S3 _]; [rewrite P2; destruct before; discriminate|].
  destruct (answer_loop_finds u32 fuel (read_answer reg page dest (negb (isNULL ifGUID)) bLevel2) clear_timestamp t resend_timeout
              (clear_timestamp e) w3 before x after v) as (w4 & E4 & R4 & P4);
    [exact Hf|exact resend_late|exact S3|exact R3|exact Ok|congruence|exact Hb|intros y Sh; exact (read_answer_node _ _ _ _ _ _ _ _ Hr Hx Sh)|].
  rewrite (bind_returns _ _ _ _ _ E4). exists w4. auto.
Qed.

(** A write that a node confirms with the value it has stored succeeds, at
    level I and level II.  Through an interface the confirmation is compared at the
    wrong place: the write succeeds or fails with the page number, whatever the
    node has stored. *)
Lemma bus_write_confirmation (fresh : vscpEventEx) reg page val v ifGUID dest bLevel2 e before x after w :
  ready w -> pending w = [] -> is_u32 reg -> write_request fresh reg page val ifGUID dest bLevel2 = Some e -> eventex_ok e -> xsizeData e <= 512 ->
  asked e = before ++ x :: after ->
  Forall (refused (write_answer reg page dest (negb (isNULL ifGUID)) bLevel2)) before ->
  node_answer reg page v dest (negb (isNULL ifGUID)) bLevel2 x -> (length before < fuel)%nat ->
  exists w', writeLevel2Register fuel error_timeout resend_timeout fresh reg page (Some val) ifGUID (Some dest) bLevel2 w =
    Returns (if vscp_class x =? VSCP_CLASS2_LEVEL1_PROTOCOL
             then if val =? Z.shiftr page 8 then VSCP_ERROR_SUCCESS else CANAL_ERROR_REGISTER
             else if val =? v then VSCP_ERROR_SUCCESS else CANAL_ERROR_REGISTER, w').
Proof.
  intros Hw Hp Hr Hq Ok Sz Ha Hb Hx Hf. unfold writeLevel2Register. rewrite Hq, (bind_defined _ _ _ _ eq_refl).
  destruct (bus_send e w Hw Ok Sz) as (r2 & w2 & E2 & R2 & P2). rewrite (bind_returns _ _ _ _ _ E2).
  change (nodes _ _ _ _) with (asked e) in P2. rewrite Hp, Ha in P2. cbn [app] in P2.
  destruct (bus_ms w2 R2) as (t & w3 & E3 & R3 & P3 & S3). rewrite (bind_returns _ _ _ _ _ E3).
  destruct S3 as [S3 _]; [rewrite P2; destruct before; discriminate|].
  destruct (answer_loop_finds u64 fuel (write_answer reg page dest (negb (isNULL ifGUID)) bLevel2) (fun e => e) t resend_timeout
              e w3 before x after (if vscp_class x =? VSCP_CLASS2_LEVEL1_PROTOCOL then Z.shiftr page 8 else v)) as (w4 & E4 & _);
    [exact Hf|exact resend_late|exact S3|exact R3|exact Ok|congruence|exact Hb|intros y Sh; exact (write_answer_node _ _ _ _ _ _ _ _ Hr Hx Sh)|].
  rewrite (bind_returns _ _ _ _ _ E4). exists w4. destruct (vscp_class x =? _); reflexivity.
Qed.
End bus.

(** ** What fails *)

(** A frame with an index of 32 or more, which a node is free to send, shifts an
    int by its width or more. *)
Lemma store_frame_undefined k count x flags data : 31 < byte_at k x -> store_frame k count x flags data = None.
Proof. intros H. unfold store_frame. rewrite (proj2 (Z.ltb_lt _ _) H). reflexivity. Qed.

Lemma incomplete_zero count : 0 < count -> complete count 0 = false.
Proof.
  intros H. unfold complete, all_frames. rewrite Z.land_0_l. apply Z.eqb_neq.
  assert (0 < frame_count count) by (unfold frame_count; destruct (Z.eqb_spec (count mod 4) 0); width).
  assert (2 ^ 1 <= 2 ^ frame_count count) by (apply Z.pow_le_mono_r; lia). lia.
Qed.

Section failing.
Context {T : Type} `{TcpCommands T}.
Variable fuel : nat.

(** Nothing that is received is a level I answer. *)
Variable no_level1 : forall e w x w', tcp_receive e w = Returns ((VSCP_ERROR_SUCCESS, x), w') ->
  kind_of false true x <> Level1.

Lemma level2_keeps_flags reg page count dest x flags data pval r : kind_of false true x <> Level1 ->
  block_answer reg page count dest false true x flags data pval = Some r -> r.1.1.1 = flags.
Proof.
  intros N E. unfold block_answer in E. destruct (kind_of false true x) eqn:K; [congruence| | |].
  - unfold kind_of in K. destruct (_ && _); [discriminate|]. cbn in K. destruct (_ && _); discriminate.
  - destruct (_ && _); [|injection E as <-; reflexivity]. destruct (wr pval 0 _); [|discriminate]. injection E as <-. reflexivity.
  - injection E as <-. reflexivity.
Qed.

Lemma drain_keeps_flags n reg page count dest e flags data pval w r w' :
  drain_loop n reg page count dest false true e flags data pval w = Returns (r, w') -> r.1.1.2 = flags.
Proof.
  revert e data pval w. induction n as [|n IH]; intros e data pval w E; [discriminate|]. cbn [drain_loop] in E.
  apply bind_inv in E as ([rv x] & w1 & E1 & E). destruct (Z.eqb_spec rv VSCP_ERROR_SUCCESS) as [->|]; cbn [negb orb] in E;
    [|injection E as <- _; reflexivity].
  destruct (complete count flags); [injection E as <- _; reflexivity|].
  destruct (block_answer reg page count dest false true x flags data pval) as [[[[f d] p] l]|] eqn:B; [|discriminate].
  apply level2_keeps_flags in B; [|exact (no_level1 _ _ _ _ E1)]. cbn in B. subst f. cbn [defined] in E. rewrite bind_ret in E.
  destruct l; [injection E as <- _; reflexivity|exact (IH _ _ _ _ E)].
Qed.

Lemma block_never_complete et rt n reg page count dest start resend e data pval w r w' : 0 < count ->
  block_loop fuel et rt n reg page count dest false true start resend e 0 data pval w = Returns (r, w') -> r.1.1 = VSCP_ERROR_TIMEOUT.
Proof.
  intros Hc. revert e resend data pval w. induction n as [|n IH]; intros e resend data pval w E; cbn [block_loop] in E;
    rewrite incomplete_zero in E by exact Hc; [discriminate|].
  apply bind_inv in E as (a & w1 & _ & E). apply bind_inv in E as ([[[e2 f] d] p] & w2 & E2 & E).
  assert (f = 0) as ->.
  { destruct (0 <? a); [exact (drain_keeps_flags _ _ _ _ _ _ _ _ _ _ _ _ E2)|injection E2 as _ <- _ _ _; reflexivity]. }
  apply bind_inv in E as (t & w3 & _ & E). destruct (et <? _); [injection E as <- _; reflexivity|].
  apply bind_inv in E as (t2 & w4 & _ & E). destruct (resend <? _); [|exact (IH _ _ _ _ _ E)].
  apply bind_inv in E as (s & w5 & _ & E). exact (IH _ _ _ _ _ E).
Qed.

(** ReadLevel2Registers never succeeds for a level II node: its answers set
    no flag, so that the loop only ends at the timeout. *)
Theorem level2_block_never_read et rt fresh memory reg page count pval ifGUID dest w rv p w' :
  isNULL ifGUID = true -> 0 < count <= 128 ->
  readLevel2Registers fuel et rt fresh memory reg page count (Some pval) ifGUID (Some dest) true w = Returns ((rv, p), w') ->
  rv = VSCP_ERROR_TIMEOUT.
Proof.
  intros Hi Hc E. unfold readLevel2Registers in E. rewrite (proj2 (Z.ltb_ge _ _)), Hi in E by lia.
  destruct (read_request _ _ _ _ _ _ _) as [e|]; [|discriminate]. cbn [defined negb] in E. rewrite bind_ret in E.
  apply bind_inv in E as (r1 & w1 & _ & E). apply bind_inv in E as (r2 & w2 & _ & E). apply bind_inv in E as (t & w3 & _ & E).
  apply bind_inv in E as ([[rv1 d] p1] & w4 & E4 & E). apply block_never_complete in E4; [|lia]. cbn in E4. subst rv1.
  injection E as <- _ _. reflexivity.
Qed.

(** fetchIterfaceGUID does not end when the list of interfaces cannot be had, as
    when the connection is lost: only tries with a list are counted. *)
Lemma interface_loop_endless n ifName ifarray cnt guid w :
  (forall l w, exists rv l' w', tcp_interfaces l w = Returns ((rv, l'), w') /\ rv <> VSCP_ERROR_SUCCESS) -> cnt <= 3 ->
  interface_loop n ifName ifarray cnt guid w = OutOfFuel.
Proof.
  intros Hl Hc. revert ifarray w. induction n as [|n IH]; intros ifarray w; [reflexivity|]. cbn [interface_loop].
  destruct (Hl ifarray w) as (rv & l & w1 & E & N). rewrite (bind_returns _ _ _ _ _ E). apply Z.eqb_neq in N. rewrite N. cbn [andb].
  rewrite (proj2 (Z.ltb_ge _ _)) by lia. apply IH.
Qed.
End failing.

(** ** A bus

    One node, whose registers hold 0x55, which answers after another event. *)
Record sample_bus := SampleBus { b_pending : list vscpEventEx; b_time : Z }.

Definition sample_node : list Z := replicate 15 0xff ++ [7].
Definition sample_reply (cls type : Z) (bytes : list Z) : vscpEventEx :=
  EventEx 0x60 0 (Time 0 0 0) 0 cls type sample_node (Z.of_nat (length bytes)) (bytes ++ zeros (512 - length bytes)).

Definition sample_reaction (x : vscpEventEx) : list vscpEventEx :=
  let noise := sample_reply 20 3 [1; 2; 3] in
  if xclass x =? VSCP_CLASS2_PROTOCOL then
    [noise; sample_reply VSCP_CLASS2_PROTOCOL VSCP2_TYPE_PROTOCOL_READ_WRITE_RESPONSE (map (fun k => byte_at k x) [16; 17; 18; 19]%nat ++ [0x55])]
  else if xclass x =? VSCP_CLASS2_LEVEL1_PROTOCOL then
    [noise; sample_reply VSCP_CLASS2_LEVEL1_PROTOCOL VSCP_TYPE_PROTOCOL_EXTENDED_PAGE_RESPONSE
              (sample_node ++ [0; byte_at 17 x; byte_at 18 x; byte_at 19 x; 0x55])]
  else [].

(** A second passes with each look at the clock while nothing comes. *)
#[export] Instance sample_commands : TcpCommands sample_bus := {|
  tcp_connected := mret true;
  tcp_clear := fun w => Returns (VSCP_ERROR_SUCCESS, SampleBus [] (b_time w));
  tcp_send x := fun w => Returns (VSCP_ERROR_SUCCESS, SampleBus (b_pending w ++ sample_reaction x) (b_time w));
  tcp_available := fun w => Returns (Z.of_nat (length (b_pending w)), w);
  tcp_receive e := fun w =>
    match b_pending w with
    | [] => Returns ((VSCP_ERROR_ERROR, e), w)
    | x :: r => Returns ((VSCP_ERROR_SUCCESS, x), SampleBus r (b_time w))
    end;
  tcp_ms := fun w => Returns (b_time w, match b_pending w with [] => SampleBus [] (b_time w + 1000) | _ => w end);
  tcp_interfaces l := mret (VSCP_ERROR_SUCCESS, l)
|}.

Definition sample_fresh : vscpEventEx := sample_reply 0 0 [].
Definition sample_idle : sample_bus := SampleBus [] 0.

(** The same bus behind a gateway that lets no level I event through. *)
Record level2_bus := Level2Bus { behind : sample_bus }.

Definition on_bus {A} (m : M sample_bus A) : M level2_bus A := fun w =>
  match m (behind w) with
  | Returns (a, b) => Returns (a, Level2Bus b)
  | Throws => Throws
  | Undefined => Undefined
  | OutOfFuel => OutOfFuel
  end.

Definition let_through (r : Z * vscpEventEx) : Z * vscpEventEx :=
  match kind_of false true r.2 with Level1 => (VSCP_ERROR_ERROR, r.2) | _ => r end.

#[export] Instance level2_commands : TcpCommands level2_bus := {|
  tcp_connected := mret true;
  tcp_clear := on_bus tcp_clear;
  tcp_send x := on_bus (tcp_send x);
  tcp_available := on_bus tcp_available;
  tcp_receive e := r ← on_bus (tcp_receive e); mret (let_through r);
  tcp_ms := on_bus tcp_ms;
  tcp_interfaces l := mret (VSCP_ERROR_SUCCESS, l)
|}.

Lemma level2_bus_quiet e w x w' : tcp_receive e w = Returns ((VSCP_ERROR_SUCCESS, x), w') -> kind_of false true x <> Level1.
Proof.
  intros E. cbn [tcp_receive level2_commands] in E. apply bind_inv in E as (r & w1 & _ & E). injection E as E _.
  unfold let_through in E. destruct r as [rv y]. cbn [snd] in E. intros K.
  destruct (kind_of false true y) eqn:Ky; injection E as E1 E2; try discriminate E1; subst y; congruence.
Qed.

Definition level2_block (w : level2_bus) :=
  readLevel2Registers 9 5000 1000 sample_fresh (zeros 256) 0 0 4 (Some (zeros 4)) (zeros 16) (Some sample_node) true w.

Lemma level2_block_never_read_witness : exists rv p w',
  level2_block (Level2Bus sample_idle) = Returns ((rv, p), w') /\ rv = VSCP_ERROR_TIMEOUT.
Proof.
  destruct (level2_block (Level2Bus sample_idle)) as [[[rv p] w']| | |] eqn:E; [|exfalso; vm_compute in E; discriminate E..].
  exists rv, p, w'. split; [reflexivity|].
  apply (level2_block_never_read 9 level2_bus_quiet 5000 1000 sample_fresh (zeros 256) 0 0 4 (zeros 4) (zeros 16) sample_node
           (Level2Bus sample_idle) rv p w'); [reflexivity|lia|exact E].
Defined.
