(* ===== verification/TcpSession.v ===== *)
(** * What the commands of the TCP client achieve

    A server in text mode: replies cut into any chunks, the lines they give, what a
    cut in the wrong place does, and the events in them. *)

From S2P Require Import Prelude Program Crc DateTime Event Frame Strings Guid Filter Canal EventString TcpTransport TcpReader TcpIf TcpBinary TcpCmd.

(** ** A server

    A server in a state of type [St] answers a command with bytes that arrive in
    chunks, as the reads get them ([replies]), and goes to another state ([after]);
    [incoming] is what is on the way, and [owes] that the server has events for the
    client.  [soon s w] says that at [w] the timeout that began at [s] has not
    passed, which holds while something is on the way or owed. *)
Class TextServer (W St : Type) `{TcpTransport W} (timeout : Z) := {
  replies : St -> list Z -> list (list Z);
  after : St -> list Z -> St;
  owes : St -> Prop;
  server : W -> St;
  incoming : W -> list (list Z);
  soon : Z -> W -> Prop;
  server_write : forall cmd t w, is_connected w = true ->
    exists w', transport_write cmd t w = Returns (VSCP_ERROR_SUCCESS, w') /\ is_connected w' = true /\
      incoming w' = incoming w ++ replies (server w) cmd /\ server w' = after (server w) cmd /\ forall s, soon s w -> soon s w';
  server_read : forall len t w c r, incoming w = c :: r -> Z.of_nat (length c) <= len ->
    exists w', transport_read len t w = Returns (Got c, w') /\ is_connected w' = is_connected w /\ incoming w' = r /\
      server w' = server w /\ forall s, soon s w -> soon s w';
  server_ms : forall w, exists t w', ms_clock w = (t, w') /\ is_connected w' = is_connected w /\ incoming w' = incoming w /\
    server w' = server w /\ (incoming w <> [] \/ owes (server w) -> soon t w' /\ forall s, soon s w -> soon s w' /\ u32 (t - s) < timeout);
  server_scheduled : forall w, is_connected (scheduled w).2 = is_connected w /\ incoming (scheduled w).2 = incoming w /\
    server (scheduled w).2 = server w /\ forall s, soon s w -> soon s (scheduled w).2
}.

(** What the loop makes of the chunks: the verdict, the text, and the chunks that
    it leaves. *)
Fixpoint scan_reply (text : list Z) (chunks : list (list Z)) : option (bool * list Z * list (list Z)) :=
  match chunks with
  | [] => None
  | c :: chunks =>
      let text := text ++ c in
      if contains (str "+ERR") text then Some (false, text, chunks)
      else if contains (str "+OK") text && contains [10] (c_str c) then Some (true, text, chunks)
      else scan_reply text chunks
  end.

Section server.
Context {W St : Type} `{TextServer W St timeout}.
Variable fuel : nat.

(** The world after steps that leave the server alone. *)
Record idles (w w' : W) : Prop := {
  idles_connected : is_connected w' = is_connected w;
  idles_server : server w' = server w;
  idles_soon : forall s, soon s w -> soon s w'
}.

Lemma idles_trans w w1 w2 : idles w w1 -> idles w1 w2 -> idles w w2.
Proof. intros [A B C] [A' B' C']. split; [congruence|congruence|auto]. Qed.

(** The object with what a reply changes: the text, the lines, the time. *)
Definition with_reply (text : list Z) (lines : list (list Z)) (ms : Z) (o : VscpRemoteTcpIf) : VscpRemoteTcpIf :=
  set_channel (set_time ms (m_singleChannel o)) (set_text text lines o).

Definition busy (w : W) : Prop := incoming w <> [] \/ owes (server w).

Lemma server_clock w o : exists t w', io (call ms_clock) (w, o) = Returns (t, (w', o)) /\
  is_connected w' = is_connected w /\ server w' = server w /\ incoming w' = incoming w /\
  (busy w -> soon t w' /\ idles w w' /\ forall s, soon s w -> u32 (t - s) < timeout).
Proof.
  destruct (server_ms w) as (t & w' & E & C & I & Sv & K). exists t, w'.
  split; [unfold io, call; cbn; rewrite E; reflexivity|]. split; [exact C|]. split; [exact Sv|]. split; [exact I|].
  intros B. destruct (K B) as [K1 K2]. split; [exact K1|]. split; [split; [exact C|exact Sv|intros s Hs; apply (K2 s Hs)]|intros s Hs; apply (K2 s Hs)].
Qed.

Lemma server_time w o : exists ms w', set_lastResponseTime (w, o) = Returns (tt, (w', set_channel (set_time ms (m_singleChannel o)) o)) /\
  is_connected w' = is_connected w /\ server w' = server w /\ incoming w' = incoming w /\ (busy w -> idles w w').
Proof.
  destruct (server_clock w o) as (t & w' & E & C & Sv & I & K). exists t, w'. split; [|tauto].
  unfold set_lastResponseTime. rewrite (bind_returns _ _ _ _ _ E). reflexivity.
Qed.

Lemma io_read_chunk len t w o c r : incoming w = c :: r -> Z.of_nat (length c) <= len ->
  exists w', io (transport_read len t) (w, o) = Returns (Got c, (w', o)) /\ idles w w' /\ incoming w' = r.
Proof.
  intros I L. destruct (server_read len t w c r I L) as (w' & E & C & I' & Sv & K). exists w'.
  split; [unfold io; cbn; rewrite E; reflexivity|]. split; [split; assumption|exact I'].
Qed.

Lemma reply_loop_scan chunks n start w o text verdict text' rest :
  (length chunks < n)%nat -> timeout <= m_responseTimeOut o -> soon start w -> incoming w = chunks ->
  Forall (fun c => c <> [] /\ Z.of_nat (length c) <= 0x1fff) chunks ->
  m_strResponse o = text -> scan_reply text chunks = Some (verdict, text', rest) ->
  exists w' ms, reply_loop n start (w, o) = Returns (verdict, (w', with_reply text' (m_inputStrArray o) ms o)) /\
    is_connected w' = is_connected w /\ server w' = server w /\ incoming w' = rest /\ (owes (server w) -> idles w w').
Proof.
  revert n w o text. induction chunks as [|c chunks IH]; intros n w o text Hn Ht Hs Hi Hc Hx E; [discriminate|].
  destruct n as [|n]; [cbn in Hn; lia|]. cbn [reply_loop]. inversion_clear Hc as [|? ? [Hne Hl] Hc'].
  destruct (server_clock w o) as (t1 & w1 & E1 & C1 & V1 & I1 & S1). rewrite (bind_returns _ _ _ _ _ E1). clear E1.
  destruct S1 as (_ & D1 & L1); [left; congruence|].
  rewrite (bind_returns _ _ (w1, o) o (w1, o)) by reflexivity. assert (Hs1 := idles_soon _ _ D1 _ Hs). specialize (L1 _ Hs).
  rewrite (proj2 (Z.ltb_lt _ (m_responseTimeOut o))) by lia. cbn [negb].
  destruct (server_clock w1 o) as (t2 & w2 & E2 & C2 & V2 & I2 & S2). rewrite (bind_returns _ _ _ _ _ E2). clear E2.
  destruct S2 as (_ & D2 & L2); [left; congruence|]. assert (Hs2 := idles_soon _ _ D2 _ Hs1). specialize (L2 _ Hs1).
  rewrite (proj2 (Z.leb_gt (m_responseTimeOut o) _)) by lia.
  set (remaining := Z.min _ INT_MAX). set (rt := read_timeout _ remaining).
  destruct (io_read_chunk 0x1fff rt w2 o c chunks) as (w3 & E3 & D3 & I3); [congruence|exact Hl|].
  rewrite (bind_returns _ _ _ _ _ E3). clear E3. destruct c as [|b c]; [congruence|].
  destruct (server_time w3 o) as (ms & w4 & E4 & C4 & V4 & I4 & D4).
  assert (D : idles w w3) by eauto using idles_trans. assert (Vs := idles_server _ _ D). assert (Cs := idles_connected _ _ D).
  set (o4 := set_response (m_strResponse o ++ b :: c) (set_channel (set_time ms (m_singleChannel o)) o)).
  rewrite (bind_returns _ _ (w3, o) tt (w4, o4)) by (rewrite (bind_returns _ _ _ _ _ E4); reflexivity).
  rewrite (bind_returns _ _ (w4, o4) o4 (w4, o4)) by reflexivity.
  cbn [scan_reply] in E. rewrite <- Hx in E. change (m_strResponse o4) with (m_strResponse o ++ b :: c).
  assert (Last : is_connected w4 = is_connected w /\ server w4 = server w /\ incoming w4 = chunks /\ (owes (server w) -> idles w w4)).
  { split; [congruence|]. split; [congruence|]. split; [congruence|]. intros Ow. eapply idles_trans; [exact D|apply D4]. right. congruence. }
  destruct (contains (str "+ERR") (m_strResponse o ++ b :: c)); [injection E as <- <- <-; exists w4, ms; split; [reflexivity|exact Last]|].
  destruct (contains (str "+OK") (m_strResponse o ++ b :: c) && contains [10] (c_str (b :: c)));
    [injection E as <- <- <-; exists w4, ms; split; [reflexivity|exact Last]|].
  assert (D4' : idles w3 w4) by (apply D4; left; rewrite I3; intros N; rewrite N in E; discriminate E).
  destruct (IH n w4 o4 (m_strResponse o4)) as (w5 & ms5 & E5 & C5 & V5 & I5 & D5);
    [cbn in Hn; lia|exact Ht|exact (idles_soon _ _ D4' _ (idles_soon _ _ D _ Hs))|congruence|exact Hc'|reflexivity|exact E|].
  rewrite E5. exists w5, ms5. split; [reflexivity|]. split; [congruence|]. split; [congruence|]. split; [exact I5|].
  intros Ow. rewrite <- Vs, <- V4 in Ow. eauto using idles_trans.
Qed.

(** The client may send a text command: no binary mode and no reader thread. *)
Record text_ready (w : W) (o : VscpRemoteTcpIf) : Prop := {
  ready_mode : m_bBinaryMode o = false;
  ready_loop : m_bModeReceiveLoop o && m_bSingleChannelReceiveLoop o = false;
  ready_reader : thread (m_singleChannel o) = None;
  ready_timeout : timeout <= m_responseTimeOut o;
  ready_connected : is_connected w = true
}.

Definition chunk_ok (c : list Z) : Prop := c <> [] /\ Z.of_nat (length c) <= 0x1fff.

Lemma addInput_eq o : m_strResponse o <> [] ->
  snd (addInputStringArrayFromReply false o) =
  set_text (snd (split_last_newline (m_strResponse o))) (m_inputStrArray o ++ reply_lines (fst (split_last_newline (m_strResponse o)))) o.
Proof.
  intros N. unfold addInputStringArrayFromReply. destruct (Nat.eqb_spec (length (m_strResponse o)) 0) as [E|_].
  { apply length_zero_iff_nil in E. congruence. }
  destruct (split_last_newline (m_strResponse o)). reflexivity.
Qed.

Lemma scan_reply_text text chunks v text' rest : scan_reply text chunks = Some (v, text', rest) -> text' <> [].
Proof.
  revert text. induction chunks as [|c chunks IH]; intros text E; [discriminate|]. cbn [scan_reply] in E.
  destruct (contains (str "+ERR") (text ++ c)) eqn:Ce; [injection E as <- <- <-; intros N; rewrite N in Ce; discriminate|].
  destruct (contains (str "+OK") (text ++ c)) eqn:Co; cbn [andb] in E; [|exact (IH _ E)].
  destruct (contains [10] (c_str c)); [injection E as <- <- <-; intros N; rewrite N in Co; discriminate|exact (IH _ E)].
Qed.

(** The client finds that it is connected. *)
Lemma server_connected w o : thread (m_singleChannel o) = None ->
  exists w', isConnected (w, o) = Returns (is_connected w, (w', o)) /\ idles w w' /\ incoming w' = incoming w.
Proof.
  intros T. destruct (server_scheduled w) as (C & I & Sv & K). exists (scheduled w).2. split; [|split; [split; assumption|exact I]]. unfold isConnected.
  rewrite (bind_returns _ _ _ _ _ (meanwhile_idle (w, o) T)). unfold io. cbn. rewrite C. reflexivity.
Qed.

(** The world after a command. *)
Record commanded (cmd : list Z) (w w' : W) : Prop := {
  commanded_connected : is_connected w' = true;
  commanded_server : server w' = after (server w) cmd;
  commanded_soon : owes (after (server w) cmd) -> forall s, soon s w -> soon s w'
}.

Lemma server_writes cmd t w o : is_connected w = true ->
  exists w', transportWrite fuel cmd t (w, o) = Returns (VSCP_ERROR_SUCCESS, (w', o)) /\ is_connected w' = true /\
    incoming w' = incoming w ++ replies (server w) cmd /\ server w' = after (server w) cmd /\ (forall s, soon s w -> soon s w').
Proof.
  intros C. destruct (server_write cmd t w C) as (w' & E & K). exists w'. split; [|exact K]. unfold transportWrite.
  rewrite (bind_returns _ _ _ VSCP_ERROR_SUCCESS (w', o)) by (unfold io; cbn; rewrite E; reflexivity). reflexivity.
Qed.

(** The reply, after the input has been cleared. *)
Lemma checkReturn_scanned chunks w o verdict text rest : m_bBinaryMode o = false -> timeout <= m_responseTimeOut o ->
  incoming w = chunks -> Forall chunk_ok chunks -> (length chunks < fuel)%nat ->
  scan_reply [] chunks = Some (verdict, text, rest) ->
  exists w' ms, checkReturnValueForCommand fuel true (w, o) = Returns (verdict, (w', with_reply text [] ms o)) /\
    is_connected w' = is_connected w /\ server w' = server w /\ incoming w' = rest /\ (owes (server w) -> idles w w').
Proof.
  intros Hb Ht Hi Hch Hn E. destruct (server_clock w (doClrInputQueue o)) as (t & w1 & E1 & C1 & V1 & I1 & S1).
  assert (Hne : chunks <> []) by (intros N; rewrite N in E; discriminate).
  destruct S1 as (S1 & D1 & _); [left; congruence|].
  destruct (reply_loop_scan chunks fuel t w1 (doClrInputQueue o) [] verdict text rest) as (w2 & ms & E2 & C2 & V2 & I2 & D2);
    [exact Hn|exact Ht|exact S1|congruence|exact Hch|reflexivity|exact E|].
  exists w2, ms. split; [|split; [congruence|]; split; [congruence|]; split; [exact I2|intros Ow; rewrite <- V1 in Ow; eauto using idles_trans]].
  unfold checkReturnValueForCommand.
  rewrite (bind_returns _ _ (w, o) o (w, o)) by reflexivity. rewrite Hb.
  rewrite (bind_returns _ _ (w, o) tt (w, doClrInputQueue o)) by reflexivity. rewrite (bind_returns _ _ _ _ _ E1). exact E2.
Qed.

Lemma doCommand_scanned cmd w o verdict text rest : text_ready w o ->
  vscp_makeUpper (vscp_trim cmd) <> str "BINARY" ->
  Forall chunk_ok (incoming w ++ replies (server w) cmd) -> (length (incoming w ++ replies (server w) cmd) < fuel)%nat ->
  scan_reply [] (incoming w ++ replies (server w) cmd) = Some (verdict, text, rest) ->
  exists w' ms, doCommand fuel cmd (w, o) =
    Returns (if verdict then VSCP_ERROR_SUCCESS else VSCP_ERROR_ERROR,
             (w', with_reply (snd (split_last_newline text)) (reply_lines (fst (split_last_newline text))) ms o)) /\
    commanded cmd w w' /\ incoming w' = rest.
Proof.
  intros [Hb Hl Hr Ht Hc] Hcmd Hch Hn E. unfold doCommand.
  rewrite (bind_returns _ _ (w, o) o (w, o)) by reflexivity. rewrite Hb, (bool_decide_eq_false_2 _ Hcmd), Hl.
  rewrite (bind_returns _ _ (w, o) tt (w, doClrInputQueue o)) by reflexivity.
  destruct (server_connected w (doClrInputQueue o) Hr) as (w1 & E1 & [C1 V1 D1] & I1). rewrite (bind_returns _ _ _ _ _ E1), Hc. cbn [negb].
  destruct (server_writes cmd (m_responseTimeOut o) w1 (doClrInputQueue o)) as (w2 & E2 & C2 & I2 & V2 & D2); [congruence..|].
  rewrite (bind_returns _ _ _ _ _ E2). cbn [negb Z.eqb VSCP_ERROR_SUCCESS]. rewrite V1 in I2, V2.
  destruct (checkReturn_scanned (incoming w ++ replies (server w) cmd) w2 (doClrInputQueue o) verdict text rest) as (w3 & ms & E3 & C3 & V3 & I3 & D3);
    [exact Hb|exact Ht|congruence|exact Hch|exact Hn|exact E|].
  rewrite (bind_returns _ _ _ _ _ E3).
  exists w3, ms. split; [|split; [split; [congruence|congruence|]|exact I3]].
  2: { intros Ow s Hs. rewrite <- V2 in Ow. apply (idles_soon _ _ (D3 Ow)). auto. }
  rewrite (bind_returns _ _ _ tt (w3, snd (addInputStringArrayFromReply false (with_reply text [] ms (doClrInputQueue o))))) by reflexivity.
  rewrite addInput_eq by exact (scan_reply_text _ _ _ _ _ E). reflexivity.
Qed.
End server.

Arguments text_ready {W H} timeout w o.

(** ** Texts *)

Lemma starts_with_app p s t : starts_with p s = true -> starts_with p (s ++ t) = true.
Proof.
  revert s. induction p as [|a p IH]; intros s E; [destruct s; reflexivity|]. destruct s as [|b s]; [discriminate|].
  cbn [app starts_with] in *. apply andb_prop in E as [E1 E2]. rewrite E1. exact (IH s E2).
Qed.

Lemma contains_spec p s : contains p s = true <-> exists a b, s = a ++ b /\ starts_with p b = true.
Proof.
  unfold contains. rewrite bool_decide_eq_true. split.
  - intros [n E]. revert n E. induction s as [|c s IH]; intros n E; cbn [find] in E.
    + destruct (starts_with p []) eqn:S; [|discriminate]. exists [], []. auto.
    + destruct (starts_with p (c :: s)) eqn:S; [exists [], (c :: s); auto|].
      destruct (find p s) as [k|]; [|discriminate]. destruct (IH k eq_refl) as (a & b & -> & Sb). exists (c :: a), b. auto.
  - intros (a & b & -> & Sb). induction a as [|c a IH]; cbn [app find].
    + rewrite (find_here _ _ Sb). eauto.
    + destruct (starts_with p (c :: a ++ b)); [eauto|]. destruct IH as [n ->]. cbn. eauto.
Qed.

Lemma contains_app_l p s t : contains p s = true -> contains p (s ++ t) = true.
Proof.
  rewrite !contains_spec. intros (a & b & -> & S). exists a, (b ++ t). rewrite <- app_assoc. auto using starts_with_app.
Qed.

Lemma contains_app_r p s t : contains p t = true -> contains p (s ++ t) = true.
Proof. rewrite !contains_spec. intros (a & b & -> & S). exists (s ++ a), b. rewrite <- app_assoc. auto. Qed.

Lemma contains_not p s c : c ∈ p -> c ∉ s -> contains p s = false.
Proof. intros Hp Hs. unfold contains. rewrite (find_none p s c Hp Hs). reflexivity. Qed.

Lemma contains_char d s : contains [d] s = true <-> d ∈ s.
Proof.
  rewrite contains_spec. split.
  - intros (a & b & -> & S). apply (starts_with_elem _ _ d) in S; [|left]. apply elem_of_app. auto.
  - intros Hd. apply list_elem_of_split in Hd as (a & b & ->). exists a, (d :: b). split; [reflexivity|].
    cbn. rewrite Z.eqb_refl. destruct b; reflexivity.
Qed.

Lemma c_str_app s t : 0 ∉ s -> c_str (s ++ t) = s ++ c_str t.
Proof.
  induction s as [|c s IH]; intros H; [reflexivity|]. apply not_elem_of_cons in H as [H0 H1]. cbn [app c_str].
  destruct (Z.eqb_spec c 0); [congruence|]. rewrite IH by exact H1. reflexivity.
Qed.

Lemma c_str_plain s : 0 ∉ s -> c_str s = s.
Proof. intros H. rewrite <- (app_nil_r s) at 1. rewrite c_str_app by exact H. apply app_nil_r. Qed.

Lemma split_last_newline_app s t : 10 ∉ t -> split_last_newline (s ++ 10 :: t) = (s ++ [10], t).
Proof.
  intros Ht. unfold split_last_newline. rewrite rfind_last by exact Ht.
  replace (s ++ 10 :: t) with ((s ++ [10]) ++ t) by (rewrite <- app_assoc; reflexivity).
  rewrite take_app_length', drop_app_length' by (rewrite length_app; reflexivity). reflexivity.
Qed.

(** The lines of rows that end in newlines. *)
Lemma reply_lines_rows rows : Forall (fun r => 10 ∉ r) rows -> rows <> [] ->
  reply_lines (unlines rows) = filter (fun l => l <> []) (map vscp_trim rows).
Proof.
  intros Hr Hne. unfold reply_lines. assert (J : unlines rows = join 10 (rows ++ [[]])).
  { clear Hr Hne. induction rows as [|r rows IH]; [reflexivity|]. unfold unlines in *. cbn [map concat app]. rewrite IH, <- app_assoc.
    destruct rows; reflexivity. }
  rewrite J, split_join.
  - rewrite map_app, list.filter_app. cbn. rewrite app_nil_r. reflexivity.
  - apply Forall_app. split; [exact Hr|]. constructor; [apply not_elem_of_nil|constructor].
  - rewrite <- J. destruct rows as [|r rows]; [congruence|]. unfold unlines. cbn. destruct r; discriminate.
Qed.

(** A text with a character that is no space is not trimmed away. *)
Lemma skip_spaces_nil s : skip_spaces s = [] -> all_space s.
Proof.
  induction s as [|c s IH]; intros E; [constructor|]. cbn [skip_spaces] in E.
  destruct (isspace c) eqn:S; [|discriminate]. constructor; [exact S|exact (IH E)].
Qed.

Lemma skip_spaces_keeps s c : c ∈ s -> isspace c = false -> c ∈ skip_spaces s.
Proof.
  intros I N. induction s as [|d s IH]; [exact I|]. cbn [skip_spaces]. destruct (isspace d) eqn:S; [|exact I].
  apply elem_of_cons in I as [->|I]; [congruence|exact (IH I)].
Qed.

Lemma trim_keeps s c : c ∈ s -> isspace c = false -> vscp_trim s <> [].
Proof.
  intros I N E. assert (K : c ∈ vscp_trim s).
  { unfold vscp_trim, vscp_ltrim, vscp_rtrim. apply list_elem_of_In, in_rev. rewrite rev_involutive.
    apply list_elem_of_In, skip_spaces_keeps; [|exact N]. apply list_elem_of_In. rewrite <- in_rev.
    apply list_elem_of_In, skip_spaces_keeps; assumption. }
  rewrite E in K. apply not_elem_of_nil in K. exact K.
Qed.

(** ** Replies of one line, and of more *)

(** The loop ends with the chunk that brings the newline of the only line. *)
Lemma scan_single_line chunks text line :
  text ++ concat chunks = line ++ [10] -> 10 ∉ line -> 0 ∉ line -> 10 ∉ text ->
  contains (str "+OK") line = true -> contains (str "+ERR") (line ++ [10]) = false ->
  Forall (fun c => c <> []) chunks ->
  scan_reply text chunks = Some (true, line ++ [10], []).
Proof.
  intros E Hl Hz Ht Hok Herr Hc. revert text E Ht. induction Hc as [|c chunks Hc1 Hc IH]; intros text E Ht.
  { cbn in E. rewrite app_nil_r in E. subst text. exfalso. apply Ht. apply elem_of_app. right. left. }
  cbn [concat] in E. rewrite app_assoc in E. cbn [scan_reply].
  assert (Ne : contains (str "+ERR") (text ++ c) = false).
  { destruct (contains (str "+ERR") (text ++ c)) eqn:Ce; [|reflexivity]. rewrite <- E in Herr.
    rewrite (contains_app_l _ _ (concat chunks) Ce) in Herr. discriminate. }
  rewrite Ne. destruct chunks as [|d chunks].
  - cbn in E. rewrite app_nil_r in E. rewrite E. rewrite (contains_app_l _ _ [10] Hok). cbn [andb].
    destruct (exists_last Hc1) as (c' & x & ->). rewrite app_assoc in E. apply app_inj_2 in E as [E1 E2]; [|reflexivity]. injection E2 as ->.
    assert (Hz' : 0 ∉ c') by (intros I; apply Hz; rewrite <- E1; apply elem_of_app; auto).
    replace (contains [10] (c_str (c' ++ [10]))) with true; [reflexivity|]. symmetry. apply contains_char.
    rewrite c_str_app by exact Hz'. apply elem_of_app. right. left.
  - assert (Hd : 10 ∉ text ++ c).
    { intros I. apply list_elem_of_split in I as (a & b & Eab). rewrite Eab, <- app_assoc in E. cbn [app] in E.
      assert (Hne : b ++ concat (d :: chunks) <> []).
      { inversion_clear Hc as [|? ? Hd1 _]. destruct d; [congruence|]. destruct b; discriminate. }
      destruct (exists_last Hne) as (b' & x & Eb). rewrite Eb in E. change (10 :: b' ++ [x]) with ((10 :: b') ++ [x]) in E. rewrite app_assoc in E.
      apply app_inj_2 in E as [E1 _]; [|reflexivity]. apply Hl. rewrite <- E1. apply elem_of_app. right. left. }
    replace (contains [10] (c_str c)) with false; [rewrite andb_false_r; exact (IH _ E Hd)|].
    symmetry. apply not_true_iff_false. rewrite contains_char. intros I. apply Hd. apply elem_of_app. right.
    clear -I. induction c as [|a c IHc]; [exact I|]. cbn [c_str] in I. destruct (a =? 0); [apply not_elem_of_nil in I; tauto|].
    apply elem_of_cons in I as [->|I]; [left|right; auto].
Qed.

(** Rows that end in newlines leave nothing over. *)
Lemma split_unlines rows : rows <> [] -> split_last_newline (unlines rows) = (unlines rows, []).
Proof.
  intros N. destruct (exists_last N) as (l & r & ->). unfold unlines. rewrite map_app, concat_app. cbn [map concat]. rewrite app_nil_r, app_assoc.
  apply (split_last_newline_app _ []), not_elem_of_nil.
Qed.

Lemma newline_in_unlines rows : rows <> [] -> 10 ∈ unlines rows.
Proof.
  intros N. destruct rows as [|r rows]; [congruence|]. unfold unlines. cbn [map concat]. rewrite <- app_assoc.
  apply elem_of_app. right. left.
Qed.

Lemma ok_has_plus line : contains (str "+OK") line = true -> 43 ∈ line.
Proof.
  intros C. apply contains_spec in C as (a & b & -> & S). apply elem_of_app. right.
  apply (starts_with_elem _ _ 43) in S; [exact S|left].
Qed.

Section replies.
Context {W St : Type} `{TextServer W St timeout}.
Variable fuel : nat.

Lemma after_reply w w' o text lines ms : text_ready timeout w o -> is_connected w' = true -> text_ready timeout w' (with_reply text lines ms o).
Proof. intros [] ?. split; assumption. Qed.

(** A reply of one line, with "+OK" in it, in chunks. *)
Record one_line (cs : list (list Z)) (line : list Z) : Prop := {
  line_chunks : Forall chunk_ok cs;
  line_bytes : concat cs = line ++ [10];
  line_alone : 10 ∉ line;
  line_text : 0 ∉ line;
  line_ok : contains (str "+OK") line = true;
  line_no_error : contains (str "+ERR") (line ++ [10]) = false
}.

Lemma doCommand_one_line cmd w o line : text_ready timeout w o -> incoming w = [] -> vscp_makeUpper (vscp_trim cmd) <> str "BINARY" ->
  one_line (replies (server w) cmd) line -> (length (replies (server w) cmd) < fuel)%nat ->
  exists w' ms, doCommand fuel cmd (w, o) = Returns (VSCP_ERROR_SUCCESS, (w', with_reply [] [vscp_trim line] ms o)) /\
    commanded cmd w w' /\ incoming w' = [].
Proof.
  intros Hr Hi Hc [Hch E Hl Hz Hok Herr] Hn.
  assert (Hne : Forall (fun c => c <> []) (replies (server w) cmd)) by (exact (list.Forall_impl _ _ _ Hch (fun c K => proj1 K))).
  assert (S : scan_reply [] (incoming w ++ replies (server w) cmd) = Some (true, line ++ [10], [])).
  { rewrite Hi. apply scan_single_line; auto. apply not_elem_of_nil. }
  destruct (doCommand_scanned fuel cmd w o true (line ++ [10]) []) as (w' & ms & E' & C' & I'); try (rewrite Hi); auto; [rewrite Hi in S; exact S|].
  exists w', ms. split; [|split; [exact C'|exact I']]. rewrite E'. rewrite (split_last_newline_app line []) by apply not_elem_of_nil. cbn [fst snd].
  replace (reply_lines (line ++ [10])) with [vscp_trim line]; [reflexivity|]. replace (line ++ [10]) with (unlines [line]) by apply app_nil_r.
  rewrite reply_lines_rows by (repeat constructor; auto; discriminate). cbn [map]. rewrite filter_cons_True; [reflexivity|].
  apply (trim_keeps _ 43); [exact (ok_has_plus _ Hok)|reflexivity].
Qed.

(** C18: A reply that is a single line ([line] and its newline) with "+OK" somewhere in
    it, and neither "+ERR" nor a zero byte, is understood however it is cut into
    reads: the command succeeds, its line is the only one, and nothing is left in
    the buffer or on the way for the next command.  The command is not BINARY, the
    client is in text mode without a reader thread, and nothing was on the way before. *)
Theorem one_line_reply cmd w o line :
  text_ready timeout w o -> incoming w = [] -> vscp_makeUpper (vscp_trim cmd) <> str "BINARY" ->
  Forall chunk_ok (replies (server w) cmd) -> (length (replies (server w) cmd) < fuel)%nat ->
  concat (replies (server w) cmd) = line ++ [10] -> 10 ∉ line -> 0 ∉ line ->
  contains (str "+OK") line = true -> contains (str "+ERR") (line ++ [10]) = false ->
  exists w' o', doCommand fuel cmd (w, o) = Returns (VSCP_ERROR_SUCCESS, (w', o')) /\
    m_inputStrArray o' = [vscp_trim line] /\ m_strResponse o' = [] /\ incoming w' = [] /\ text_ready timeout w' o' /\
    server w' = after (server w) cmd.
Proof.
  intros Hr Hi Hc Hch Hn E Hl Hz Hok Herr.
  destruct (doCommand_one_line cmd w o line Hr Hi Hc (Build_one_line _ _ Hch E Hl Hz Hok Herr) Hn) as (w' & ms & E' & [C' V' _] & I').
  eexists _, _. split; [exact E'|]. repeat split; try assumption; apply Hr.
Qed.

(** A reply of several lines that is cut after "+OK" in its last line, in a
    chunk that has an earlier newline, is taken as complete: the rest of that line
    stays on the way and becomes the first line of the reply to the next command,
    whose own lines come after it. *)
Theorem cut_reply_shifts c1 c2 w o row last tail rows :
  text_ready timeout w o -> incoming w = [] ->
  vscp_makeUpper (vscp_trim c1) <> str "BINARY" -> vscp_makeUpper (vscp_trim c2) <> str "BINARY" ->
  replies (server w) c1 = [row ++ 10 :: last; tail ++ [10]] -> replies (after (server w) c1) c2 = [unlines rows] ->
  Forall chunk_ok (replies (server w) c1 ++ replies (after (server w) c1) c2) -> (2 < fuel)%nat ->
  10 ∉ row -> 10 ∉ last -> 10 ∉ tail -> Forall (fun r => 10 ∉ r) rows -> 0 ∉ row -> 0 ∉ unlines rows ->
  contains (str "+OK") last = true -> contains (str "+ERR") (row ++ 10 :: last) = false ->
  contains (str "+OK") (tail ++ [10]) = false -> contains (str "+OK") (unlines rows) = true ->
  contains (str "+ERR") ((tail ++ [10]) ++ unlines rows) = false ->
  exists s1 s2, doCommand fuel c1 (w, o) = Returns (VSCP_ERROR_SUCCESS, s1) /\
    m_inputStrArray s1.2 = filter (fun l => l <> []) [vscp_trim row] /\
    doCommand fuel c2 s1 = Returns (VSCP_ERROR_SUCCESS, s2) /\
    m_inputStrArray s2.2 = filter (fun l => l <> []) (map vscp_trim (tail :: rows)).
Proof.
  intros Hr Hi B1 B2 R1 R2 Hch Hf Nr Nl Nt Nrs Zr Zrs O1 E1 O2 O3 E2.
  apply Forall_app in Hch as [Hch1 Hch2].
  assert (S1 : scan_reply [] (incoming w ++ replies (server w) c1) = Some (true, row ++ 10 :: last, [tail ++ [10]])).
  { rewrite Hi, R1. cbn [app scan_reply]. rewrite E1, (contains_app_r _ row) by exact (contains_app_r _ [10] _ O1).
    replace (contains [10] (c_str (row ++ 10 :: last))) with true; [reflexivity|]. symmetry. apply contains_char.
    rewrite c_str_app by exact Zr. apply elem_of_app. right. left. }
  destruct (doCommand_scanned fuel c1 w o true (row ++ 10 :: last) [tail ++ [10]]) as (w1 & ms1 & D1 & [C1 V1 _] & I1);
    [exact Hr|exact B1|rewrite Hi; exact Hch1|rewrite Hi, R1; cbn; lia|exact S1|].
  rewrite D1. set (o1 := with_reply _ _ ms1 o). exists (w1, o1).
  assert (Hr1 : text_ready timeout w1 o1) by exact (after_reply _ _ _ _ _ _ Hr C1).
  assert (Nu : rows <> []) by (intros ->; discriminate O3).
  assert (S2 : scan_reply [] (incoming w1 ++ replies (server w1) c2) = Some (true, unlines (tail :: rows), [])).
  { change (unlines (tail :: rows)) with ((tail ++ [10]) ++ unlines rows).
    rewrite I1, V1, R2. cbn [app scan_reply]. rewrite E2, O2, (contains_app_r _ (tail ++ [10])) by exact O3.
    destruct (contains (str "+ERR") (tail ++ [10])) eqn:C; [rewrite (contains_app_l _ _ (unlines rows) C) in E2; discriminate|].
    cbn [andb]. rewrite c_str_plain, (proj2 (contains_char 10 _)) by auto using newline_in_unlines. reflexivity. }
  destruct (doCommand_scanned fuel c2 w1 o1 true (unlines (tail :: rows)) []) as (w2 & ms2 & D2 & C2 & I2);
    [exact Hr1|exact B2|rewrite I1, V1; rewrite R1 in Hch1; inversion_clear Hch1; apply Forall_app; auto|rewrite I1, V1, R2; cbn; lia|exact S2|].
  rewrite D2. eexists. split; [reflexivity|]. split; [|split; [reflexivity|]]; cbn [snd with_reply m_inputStrArray set_channel set_text o1].
  - rewrite split_last_newline_app by exact Nl. replace (row ++ [10]) with (unlines [row]) by apply app_nil_r.
    apply (reply_lines_rows [row]); [auto|discriminate].
  - rewrite split_unlines by discriminate. apply reply_lines_rows; [auto|discriminate].
Qed.
End replies.

(** ** Events *)

(** The characters of the string of an event: digits, hexadecimal digits, commas,
    colons and the x of 0x. *)
Definition event_char (c : Z) : Prop := c = 44 \/ 48 <= c <= 58 \/ 65 <= c <= 70 \/ c = 120.

Lemma join_chars (P : Z -> Prop) d ts : P d -> Forall (Forall P) ts -> Forall P (join d ts).
Proof.
  intros Pd H. induction H as [|t ts Ht _ IH]; [constructor|]. destruct ts; cbn [join] in *; [exact Ht|].
  apply Forall_app. auto.
Qed.

Lemma hex2_chars b : is_u8 b -> Forall event_char (hex2 b).
Proof.
  intros Hb. assert (B1 := dchar_bound (b / 16) ltac:(width)). assert (B2 := dchar_bound (b mod 16) ltac:(width)).
  constructor; [unfold event_char; lia|constructor; [unfold event_char; lia|constructor]].
Qed.

Lemma dec_chars n : 0 <= n < 2 ^ 64 -> Forall event_char (dec n).
Proof.
  intros Hn. apply list.Forall_forall. intros c Hc. destruct (decide (48 <= c < 58)) as [D|D]; [unfold event_char; lia|].
  exfalso. revert Hc. apply dec_no_char; [exact Hn|lia].
Qed.

Lemma data_texts_chars i data : bytes_ok data -> Forall (Forall event_char) (data_texts hex_data None i [] data).
Proof.
  intros H. revert i. induction H as [|b data Hb Hd IH]; intros i; [constructor|].
  assert (C : Forall event_char (hex_data b)) 
    by (change (hex_data b) with (48 :: 120 :: hex2 b); do 2 (constructor; [unfold event_char; lia|]); apply hex2_chars, Hb).
  destruct data as [|b' data]; 
    [constructor; [change (Forall event_char (hex_data b ++ [])); rewrite app_nil_r; exact C|constructor]|constructor; [exact C|apply IH]].
Qed.

Lemma event_text_chars e : event_ok e -> Forall event_char (join 44 (event_tokens e)).
Proof.
  intros He. destruct (guid_ok e He) as [Hg Hb].
  assert (H1 := frame_head_ok (head e)). assert (H2 := class_ok e He). assert (H3 := type_ok e He).
  assert (H4 := obid_ok e He). assert (H5 := frame_ns_ok e He). unfold is_u16, is_u32, is_u64 in *.
  apply join_chars; [left; reflexivity|]. apply Forall_app. split.
  - unfold front_tokens. repeat (constructor; [first [apply dec_chars; lia|constructor]|]). constructor; [|constructor].
    unfold toString. apply join_chars; [unfold event_char; lia|]. apply Forall_map, Forall_take.
    exact (list.Forall_impl _ _ _ Hb hex2_chars).
  - apply data_texts_chars, (data_of_ok _ _ (edata_ok e He)).
Qed.

Lemma event_text_front e : event_ok e -> exists c s, join 44 (event_tokens e) = c :: s.
Proof.
  intros He. unfold event_tokens, front_tokens. cbn [app]. rewrite join_cons.
  assert (H1 := frame_head_ok (head e)). unfold is_u16 in H1. assert (N := dec_not_nil (frame_head (head e)) ltac:(lia)).
  destruct (dec (frame_head (head e))) as [|c s]; [congruence|]. eexists _, _. reflexivity.
Qed.

(** A chunk that completes a reply whose "+OK" it brings. *)
Lemma scan_reply_last cs last text :
  contains (str "+OK") (text ++ concat cs) = false -> contains (str "+ERR") (text ++ concat cs ++ last) = false ->
  contains (str "+OK") (text ++ concat cs ++ last) = true -> contains [10] (c_str last) = true ->
  scan_reply text (cs ++ [last]) = Some (true, text ++ concat cs ++ last, []).
Proof.
  revert text. induction cs as [|c cs IH]; intros text O E OK N; cbn [app concat scan_reply] in *.
  { rewrite E, OK, N. reflexivity. }
  rewrite <- app_assoc in *. rewrite !(app_assoc text c) in *.
  destruct (contains (str "+ERR") (text ++ c)) eqn:Ce; [rewrite (contains_app_l _ _ (concat cs ++ last) Ce) in E; discriminate|].
  destruct (contains (str "+OK") (text ++ c)) eqn:Co; [rewrite (contains_app_l _ _ (concat cs) Co) in O; discriminate|].
  cbn [andb]. apply IH; assumption.
Qed.

Lemma contains_skip d p s t : d ∉ s -> contains (d :: p) (s ++ t) = contains (d :: p) t.
Proof.
  intros Hd. unfold contains. apply bool_decide_ext. induction s as [|c s IH]; [reflexivity|].
  apply not_elem_of_cons in Hd as [Hc Hd]. cbn [app find starts_with]. destruct (Z.eqb_spec d c); [congruence|]. cbn [andb].
  rewrite <- (IH Hd). apply fmap_is_Some.
Qed.

Lemma event_char_not s c : Forall event_char s -> ~ event_char c -> c ∉ s.
Proof. intros H N I. apply N. exact (proj1 (list.Forall_forall _ _) H c I). Qed.

Lemma event_line_trim s : Forall event_char s -> vscp_trim (s ++ [13]) = s.
Proof.
  intros H. apply (trim_around [] s [13]); [constructor|repeat constructor|].
  apply (list.Forall_impl _ _ _ H). intros c Hc. unfold isspace. unfold event_char in Hc.
  destruct (Z.eqb_spec c 32), (Z.leb_spec 9 c), (Z.leb_spec c 13); cbn; try reflexivity; lia.
Qed.

(** The reply to RETR with one event, complete. *)
Definition event_reply (s ok : list Z) : list Z := unlines [s ++ [13]; ok].

Lemma scan_event_reply s ok cs last : Forall event_char s ->
  concat cs ++ last = event_reply s ok -> last <> [] -> contains (str "+OK") (concat cs) = false ->
  contains (str "+OK") ok = true -> contains (str "+ERR") (ok ++ [10]) = false -> 0 ∉ ok ->
  scan_reply [] (cs ++ [last]) = Some (true, event_reply s ok, []).
Proof.
  intros Hs E Nl O1 O2 E2 Z0. assert (R : event_reply s ok = (s ++ [13; 10]) ++ ok ++ [10]).
  { unfold event_reply, unlines. cbn [map concat]. rewrite app_nil_r, <- !app_assoc. reflexivity. }
  rewrite R in *. clear R. assert (N : forall c, ~ event_char c -> c <> 13 -> c <> 10 -> c ∉ s ++ [13; 10]).
  { intros c H1 H2 H3. rewrite not_elem_of_app, !not_elem_of_cons. split; [exact (event_char_not _ _ Hs H1)|].
    split; [exact H2|]. split; [exact H3|apply not_elem_of_nil]. }
  assert (P : 43 ∉ s ++ [13; 10]) by (apply N; unfold event_char; lia).
  assert (Z1 : 0 ∉ s ++ [13; 10]) by (apply N; unfold event_char; lia).
  revert E P Z1. generalize (s ++ [13; 10]) as pre. intros pre E P Z1.
  rewrite scan_reply_last; cbn [app]; rewrite ?E.
  - reflexivity.
  - exact O1.
  - exact (eq_trans (contains_skip 43 _ _ _ P) E2).
  - apply contains_app_r, contains_app_l, O2.
  - assert (Zl : 0 ∉ concat cs ++ last).
    { rewrite E, !not_elem_of_app, list_elem_of_singleton. split; [exact Z1|]. split; [exact Z0|discriminate]. }
    apply not_elem_of_app in Zl as [_ Zl]. rewrite c_str_plain by exact Zl. apply contains_char.
    destruct (exists_last Nl) as (l' & x & ->). rewrite !app_assoc in E. apply app_inj_2 in E as [_ E]; [|reflexivity].
    injection E as ->. apply elem_of_app. right. left.
Qed.

Section receiving.
Context {W St : Type} `{TextServer W St timeout}.
Variable fuel : nat.

(** A reply whose first line is [s] and the second a line with "+OK", in chunks of
    which only the last has the "+OK". *)
Definition two_lines (cs : list (list Z)) (s : list Z) : Prop :=
  exists ok cs0 last, cs = cs0 ++ [last] /\ concat cs0 ++ last = event_reply s ok /\ Forall chunk_ok cs /\
    contains (str "+OK") (concat cs0) = false /\ contains (str "+OK") ok = true /\ contains (str "+ERR") (ok ++ [10]) = false /\
    0 ∉ ok /\ 10 ∉ ok.

Lemma doCommand_two_lines cmd w o s : text_ready timeout w o -> incoming w = [] -> vscp_makeUpper (vscp_trim cmd) <> str "BINARY" ->
  Forall event_char s -> s <> [] -> two_lines (replies (server w) cmd) s -> (length (replies (server w) cmd) < fuel)%nat ->
  exists w' ms lines, doCommand fuel cmd (w, o) = Returns (VSCP_ERROR_SUCCESS, (w', with_reply [] (s :: lines) ms o)) /\
    commanded cmd w w' /\ incoming w' = [].
Proof.
  intros Hr Hi Hc Hs Ns (ok & cs & last & R & E & Hch & O1 & O2 & E2 & Z0 & N0) Hn. rewrite R in Hch, Hn.
  assert (Nl : last <> []) by (apply Forall_app in Hch as [_ Hch]; inversion_clear Hch as [|? ? [K _] _]; exact K).
  destruct (doCommand_scanned fuel cmd w o true (event_reply s ok) []) as (w2 & ms & D & C2 & I2);
    [exact Hr|exact Hc|rewrite Hi, R; exact Hch|rewrite Hi, R; exact Hn|rewrite Hi, R; apply scan_event_reply; assumption|].
  assert (T : 10 ∉ s ++ [13]).
  { rewrite not_elem_of_app, list_elem_of_singleton. split; [apply (event_char_not _ _ Hs); unfold event_char; lia|discriminate]. }
  exists w2, ms, (filter (fun l => l <> []) [vscp_trim ok]). split; [|split; [exact C2|exact I2]]. rewrite D. unfold event_reply.
  rewrite split_unlines by discriminate. cbn [fst snd]. rewrite reply_lines_rows by (discriminate || (repeat constructor; assumption)). cbn [map].
  rewrite event_line_trim by exact Hs. rewrite (filter_cons_True _ s) by exact Ns. reflexivity.
Qed.

(** The server answers RETR with the string of an event and a line with
    "+OK", cut into any chunks before that line: doCmdReceive gives the event back
    (with its time in nanoseconds, as the string has it), and the connection is
    ready for the next command. *)
Theorem doCmdReceive_event (w : W) (o : VscpRemoteTcpIf) e e0 s :
  text_ready timeout w o -> m_bModeReceiveLoop o = false -> incoming w = [] ->
  event_ok e -> event_ok e0 -> sizeData e <= VSCP_MAX_DATA -> vscp_convertEventToString (Some e) = Some (Some s) ->
  two_lines (replies (server w) (str "RETR 1" ++ CRLF)) s -> (length (replies (server w) (str "RETR 1" ++ CRLF)) < fuel)%nat ->
  exists s' : W * VscpRemoteTcpIf, doCmdReceive fuel (Some e0) (w, o) =
      Returns ((VSCP_ERROR_SUCCESS, Some (read_back (system_clock s'.1) e e0)), s') /\
    text_ready timeout s'.1 s'.2 /\ incoming s'.1 = [].
Proof.
  intros Hr Hl Hi He He0 Hs Es R Hn. rewrite convertEventToString_eq in Es by exact He. injection Es as <-.
  destruct (event_text_front e He) as (c0 & s0 & Ef).
  unfold doCmdReceive. destruct (server_connected w o) as (w1 & E1 & [C1 V1 _] & I1); [apply Hr|]. rewrite (bind_returns _ _ _ _ _ E1).
  rewrite (bind_returns _ _ (w1, o) o (w1, o)) by reflexivity. rewrite (ready_connected _ _ Hr), (ready_mode _ _ Hr), Hl.
  rewrite bool_decide_eq_false_2 by discriminate. cbn [negb].
  assert (Hr1 : text_ready timeout w1 o) by (destruct Hr; split; auto; congruence).
  destruct (doCommand_two_lines (str "RETR 1" ++ CRLF) w1 o (join 44 (event_tokens e))) as (w2 & ms & lines & D & [C2 _ _] & I2);
    [exact Hr1|congruence|intros N; vm_compute in N; discriminate|exact (event_text_chars e He)|congruence|rewrite V1; exact R|rewrite V1; exact Hn|].
  unfold command. rewrite (bind_returns _ _ _ _ _ D). set (o2 := with_reply _ _ ms o).
  rewrite (bind_returns _ _ (w2, o2) o2 (w2, o2)) by reflexivity. cbn [Z.eqb negb VSCP_ERROR_SUCCESS].
  cbn [o2 with_reply m_inputStrArray set_channel set_text]. fold o2. exists (w2, o2). split; [|split; [exact (after_reply _ _ _ _ _ _ Hr C2)|exact I2]].
  unfold getEventFromLine.
  rewrite (bind_returns _ _ _ (true, Some (read_back (system_clock w2) e e0)) (w2, o2)); [reflexivity|].
  rewrite (bind_returns _ _ (w2, o2) (system_clock w2) (w2, o2)) by reflexivity.
  rewrite convertStringToEvent_tokens by assumption. reflexivity.
Qed.
End receiving.

(** ** A server

    It answers NOOP in three chunks, GGID with a cut last line, and RETR with an
    event. *)
Record sample_server := SampleServer { sv_open : bool; sv_in : list (list Z) }.

Definition sample_text : list Z := join 44 (event_tokens sample_original).

Definition sample_replies (cmd : list Z) : list (list Z) :=
  if bool_decide (cmd = str "NOOP" ++ CRLF) then [str "+O"; str "K - Success." ++ [13]; [10]]
  else if bool_decide (cmd = str "GGID" ++ CRLF) then
    [str "FF:FF:FF:FF:FF:FF:FF:FE:00:00:00:00:00:00:00:01" ++ CRLF ++ str "+OK"; str " - Success." ++ CRLF]
  else if bool_decide (cmd = str "RETR 1" ++ CRLF) then
    [take 7 sample_text; drop 7 sample_text ++ CRLF ++ str "+OK - Success." ++ CRLF]
  else [str "4" ++ CRLF ++ str "+OK - Success." ++ CRLF].

#[export] Instance sample_server_transport : TcpTransport sample_server := {|
  is_connected := sv_open;
  transport_open _ _ _ _ := mret VSCP_ERROR_SUCCESS;
  transport_read len _ := fun w =>
    match sv_in w with
    | [] => Returns (Got [], w)
    | c :: r => if Z.of_nat (length c) <=? len then Returns (Got c, SampleServer (sv_open w) r)
                else Returns (Got (first_bytes len c), SampleServer (sv_open w) (drop (Z.to_nat len) c :: r))
    end;
  transport_write data _ := fun w =>
    if sv_open w then Returns (VSCP_ERROR_SUCCESS, SampleServer true (sv_in w ++ sample_replies data))
    else Returns (- VSCP_ERROR_STOPPED, w);
  transport_release w := SampleServer false [];
  steady_clock w := (0, w);
  ms_clock w := (0, w);
  system_clock _ := Timespec 0 0;
  scheduled w := (1%nat, w)
|}.

(** Its replies do not depend on what came before. *)
#[export] Instance sample_text_server : TextServer sample_server unit 2000.
Proof.
  refine {| replies _ := sample_replies; after s _ := s; owes _ := False; server _ := tt; incoming := sv_in; soon s _ := s = 0 |}.
  - intros cmd t w C. eexists. cbn in C |- *. rewrite C. split; [reflexivity|auto].
  - intros len t w c r I L. eexists. cbn. rewrite I, (proj2 (Z.leb_le _ _) L). split; [reflexivity|]. auto.
  - intros w. exists 0, w. split; [reflexivity|]. split; [reflexivity|]. split; [reflexivity|]. split; [reflexivity|]. intros _. split; [reflexivity|].
    intros s ->. split; reflexivity.
  - intros w. auto.
Defined.

Definition sample_session : sample_server * VscpRemoteTcpIf := (SampleServer true [], new_VscpRemoteTcpIf (16, 0, 0)).

Lemma sample_ready : text_ready 2000 sample_session.1 sample_session.2.
Proof. split; first [reflexivity|discriminate]. Qed.

Lemma one_line_reply_witness : exists s',
  doCommand 9 (str "NOOP" ++ CRLF) sample_session = Returns (VSCP_ERROR_SUCCESS, s') /\
  m_inputStrArray s'.2 = [str "+OK - Success."].
Proof.
  destruct (one_line_reply (W := sample_server) (St := unit) 9 (str "NOOP" ++ CRLF) (SampleServer true []) (new_VscpRemoteTcpIf (16, 0, 0))
              (str "+OK - Success." ++ [13])) as (w' & o' & E & L & _).
  - exact sample_ready.
  - reflexivity.
  - apply (bool_decide_unpack _). reflexivity.
  - apply (bool_decide_unpack _). reflexivity.
  - apply (bool_decide_unpack _). reflexivity.
  - reflexivity.
  - apply (bool_decide_unpack _). reflexivity.
  - apply (bool_decide_unpack _). reflexivity.
  - reflexivity.
  - reflexivity.
  - exists (w', o'). split; [exact E|exact L].
Defined.

(** After GGID the reply to CDTA begins with the rest of the line before. *)
Lemma cut_reply_shifts_witness : exists s1 s2,
  doCommand 9 (str "GGID" ++ CRLF) sample_session = Returns (VSCP_ERROR_SUCCESS, s1) /\
  doCommand 9 (str "CDTA" ++ CRLF) s1 = Returns (VSCP_ERROR_SUCCESS, s2) /\
  m_inputStrArray s2.2 = [str "- Success."; str "4"; str "+OK - Success."].
Proof.
  destruct (cut_reply_shifts (W := sample_server) (St := unit) 9 (str "GGID" ++ CRLF) (str "CDTA" ++ CRLF)
              (SampleServer true []) (new_VscpRemoteTcpIf (16, 0, 0))
              (str "FF:FF:FF:FF:FF:FF:FF:FE:00:00:00:00:00:00:00:01" ++ [13]) (str "+OK") (str " - Success." ++ [13])
              [str "4" ++ [13]; str "+OK - Success." ++ [13]]) as (s1 & s2 & E1 & L1 & E2 & L2);
    try reflexivity; try (apply (bool_decide_unpack _); reflexivity); [exact sample_ready|].
  exists s1, s2. auto.
Defined.

Lemma doCmdReceive_event_witness : exists s' : sample_server * VscpRemoteTcpIf,
  doCmdReceive 9 (Some sample_original) sample_session =
    Returns ((VSCP_ERROR_SUCCESS, Some (read_back (Timespec 0 0) sample_original sample_original)), s').
Proof.
  destruct (doCmdReceive_event (W := sample_server) (St := unit) 9 (SampleServer true []) (new_VscpRemoteTcpIf (16, 0, 0))
              sample_original sample_original sample_text) as (s' & E & _).
  - exact sample_ready.
  - reflexivity.
  - reflexivity.
  - exact sample_original_ok.
  - exact sample_original_ok.
  - discriminate.
  - exact (convertEventToString_eq _ sample_original_ok).
  - exists (str "+OK - Success." ++ [13]), [take 7 sample_text], (drop 7 sample_text ++ CRLF ++ str "+OK - Success." ++ CRLF).
    split; [reflexivity|]. split; [vm_compute; reflexivity|]. split; [apply (bool_decide_unpack _); vm_compute; exact I|].
    do 3 (split; [vm_compute; reflexivity|]). split; apply (bool_decide_unpack _); vm_compute; exact I.
  - vm_compute. lia.
  - exists s'. exact E.
Defined.
