(* ===== verification/TcpNode.v ===== *)
(** * The nodes behind a text server, as the TCP client reaches them

    The commands of [TcpCmd] over a server that passes events between the client and
    nodes: with it the client is a bus of [TcpRegister.RegisterBus], and its
    readLevel2Register gives the register of a node. *)

From S2P Require Import Prelude Program DateTime Event Frame Strings Guid EventString EventXml TcpTransport TcpReader TcpIf TcpCmd TcpSession TcpRegister.

(** ** The server

    What the client relies on in the daemon, for four commands.  CLRA empties the queue of
    the client, "send" passes an event on, which makes the nodes send others, CDTA
    gives the number of events in the queue, and RETR the first.  Each reply comes
    in at most [pieces] chunks; the reply to CDTA and RETR has a line of its own
    in front of that with "+OK", and may be cut anywhere before "+OK" is complete. *)
Class NodeServer (W St : Type) `{TextServer W St timeout} := {
  queue : St -> list vscpEvent;
  reaction : Z -> Z -> list Z -> list Z -> list vscpEvent;
  pieces : nat;
  node_owes : forall st, queue st <> [] -> owes st;
  node_pieces : forall st cmd, (length (replies st cmd) <= pieces)%nat;
  node_events : forall cls type guid data, Forall (fun e => event_ok e /\ sizeData e <= VSCP_MAX_DATA) (reaction cls type guid data);
  node_clear : forall st, let cmd := str "CLRA" ++ CRLF in
    queue (after st cmd) = [] /\ exists line, one_line (replies st cmd) line;
  node_send : forall st e s, event_ok e -> sizeData e <= VSCP_MAX_DATA -> vscp_convertEventToString (Some e) = Some (Some s) ->
    let cmd := str "send " ++ s ++ CRLF in
    queue (after st cmd) = queue st ++ reaction (vscp_class e) (vscp_type e) (GUID e) (data_of (pdata e)) /\
    exists line, one_line (replies st cmd) line;
  node_count : forall st, let cmd := str "CDTA" ++ CRLF in
    queue (after st cmd) = queue st /\
    exists n, 0 <= n < 2 ^ 31 /\ (queue st <> [] -> 0 < n) /\ two_lines (replies st cmd) (dec n);
  node_retrieve : forall st e r s, queue st = e :: r -> vscp_convertEventToString (Some e) = Some (Some s) ->
    let cmd := str "RETR 1" ++ CRLF in
    queue (after st cmd) = r /\ two_lines (replies st cmd) s
}.

(** ** Texts *)




(** ** Events *)






(** ** The client *)

Section client.
Context {W St : Type} `{NodeServer W St timeout}.
Variable fuel : nat.
Variable fresh : vscpEvent.
Hypothesis fresh_ok : event_ok fresh.
Hypothesis fuel_enough : (pieces < fuel)%nat.
Implicit Types (w : W) (o : VscpRemoteTcpIf).













End client.

(** ** A server with one node

    The node sends some other event, and the value 0x55 of its register 0xFFFFFFE0,
    when it gets an event of the class of the level II protocol.  The state of the server is
    its queue, in which an event is the answer or the other one. *)
Record node_line := NodeLine { line_open : bool; line_in : list (list Z); line_queue : list bool }.

Definition node_guid : list Z := replicate 15 0xff ++ [7].
Definition node_event (cls type : Z) (bytes : list Z) : vscpEvent :=
  Event 0x60 0 (Time 0 0 0) cls type node_guid (Z.of_nat (length bytes)) (Some bytes) 0.
Definition sample_answer (b : bool) : vscpEvent :=
  if b then node_event VSCP_CLASS2_PROTOCOL VSCP2_TYPE_PROTOCOL_READ_WRITE_RESPONSE (reg_bytes 0xFFFFFFE0 ++ [0x55])
  else node_event 20 3 [1; 2; 3].

Lemma node_event_ok cls type bytes : is_u16 cls -> is_u16 type -> bytes_ok bytes -> (0 < length bytes <= 512)%nat -> event_ok (node_event cls type bytes).
Proof.
  intros Hc Ht Hb Hl. split; cbn; try assumption; try (unfold is_u16, is_u32; lia).
  - split; cbn; unfold is_u16, is_u8, is_u64; lia.
  - split; [reflexivity|by_decide].
  - split; [lia|]. split; [reflexivity|exact Hb].
Qed.

Lemma sample_answer_ok b : event_ok (sample_answer b) /\ sizeData (sample_answer b) <= VSCP_MAX_DATA.
Proof.
  destruct b; (split; [apply node_event_ok; [split; [discriminate|reflexivity]..|by_decide|cbn; lia]|discriminate]).
Qed.

Definition success_line : list Z := str "+OK - Success." ++ [13].
Definition text_of (e : vscpEvent) : list Z := join 44 (event_tokens e).

Definition line_reply (first : list Z) : list (list Z) := [first ++ [13; 10]; success_line ++ [10]].

Definition node_server_replies (st : list bool) (cmd : list Z) : list (list Z) :=
  if bool_decide (cmd = str "CDTA" ++ CRLF) then line_reply (dec (Z.min (Z.of_nat (length st)) 1000))
  else if bool_decide (cmd = str "RETR 1" ++ CRLF) then match st with b :: _ => line_reply (text_of (sample_answer b)) | [] => [success_line ++ [10]] end
  else [success_line; [10]].

(** The class of the event of a send command. *)
Definition sent_class (cmd : list Z) : Z :=
  match vscp_convertStringToEvent (Timespec 0 0) (Some zero_event) (take (length cmd - 7) (drop 5 cmd)) with
  | (true, Some e) => vscp_class e
  | _ => 0
  end.

Definition sample_react (cls : Z) : list bool := if cls =? VSCP_CLASS2_PROTOCOL then [false; true] else [].

Definition node_server_after (st : list bool) (cmd : list Z) : list bool :=
  if starts_with (str "send ") cmd then st ++ sample_react (sent_class cmd)
  else if bool_decide (cmd = str "CLRA" ++ CRLF) then []
  else if bool_decide (cmd = str "RETR 1" ++ CRLF) then drop 1 st
  else st.

#[export] Instance node_line_transport : TcpTransport node_line := {|
  is_connected := line_open;
  transport_open _ _ _ _ := mret VSCP_ERROR_SUCCESS;
  transport_read len _ := fun w =>
    match line_in w with
    | [] => Returns (Got [], w)
    | c :: r => if Z.of_nat (length c) <=? len then Returns (Got c, NodeLine (line_open w) r (line_queue w))
                else Returns (Got (first_bytes len c), NodeLine (line_open w) (drop (Z.to_nat len) c :: r) (line_queue w))
    end;
  transport_write data _ := fun w =>
    if line_open w then Returns (VSCP_ERROR_SUCCESS, NodeLine true (line_in w ++ node_server_replies (line_queue w) data) (node_server_after (line_queue w) data))
    else Returns (- VSCP_ERROR_STOPPED, w);
  transport_release w := NodeLine false [] (line_queue w);
  steady_clock w := (0, w);
  ms_clock w := (0, w);
  system_clock _ := Timespec 0 0;
  scheduled w := (1%nat, w)
|}.

#[export] Instance node_line_text : TextServer node_line (list bool) 1000.
Proof.
  refine {| replies := node_server_replies; after := node_server_after; owes st := st <> []; server := line_queue; incoming := line_in; soon s _ := s = 0 |}.
  - intros cmd t w C. eexists. cbn in C |- *. rewrite C. split; [reflexivity|auto].
  - intros len t w c r I L. eexists. cbn. rewrite I, (proj2 (Z.leb_le _ _) L). split; [reflexivity|]. auto.
  - intros w. exists 0, w. split; [reflexivity|]. split; [reflexivity|]. split; [reflexivity|]. split; [reflexivity|]. intros _. split; [reflexivity|].
    intros s ->. split; reflexivity.
  - intros w. auto.
Defined.

Lemma success_one_line : one_line [success_line; [10]] success_line.
Proof. split; first [by_decide|reflexivity|vm_compute; reflexivity]. Qed.

Lemma line_reply_two s : Forall event_char s -> Z.of_nat (length s) <= 8000 -> two_lines (line_reply s) s.
Proof.
  intros Hs Hl. exists success_line, [s ++ [13; 10]], (success_line ++ [10]). split; [reflexivity|]. split.
  - unfold event_reply, unlines. cbn [map concat]. rewrite !app_nil_r, <- !app_assoc. reflexivity.
  - split.
    + constructor; [split; [destruct s; discriminate|rewrite length_app; cbn [length]; lia]|]. constructor; [split; [discriminate|vm_compute; discriminate]|constructor].
    + split; [|split; [reflexivity|]; split; [reflexivity|]; split; by_decide]. cbn [concat]. rewrite app_nil_r. apply (contains_not _ _ 43); [left|].
      rewrite not_elem_of_app. split; [apply (event_char_not _ _ Hs); unfold event_char; lia|by_decide].
Qed.

Lemma sent_text s : take (length (str "send " ++ s ++ CRLF) - 7) (drop 5 (str "send " ++ s ++ CRLF)) = s.
Proof.
  change (drop 5 (str "send " ++ ?t)) with t. apply take_app_length'. rewrite !length_app.
  change (length (str "send ")) with 5%nat. change (length CRLF) with 2%nat. lia.
Qed.

Lemma sent_class_text e s : event_ok e -> sizeData e <= VSCP_MAX_DATA -> vscp_convertEventToString (Some e) = Some (Some s) ->
  sent_class (str "send " ++ s ++ CRLF) = vscp_class e.
Proof.
  intros He Hs Es. rewrite convertEventToString_eq in Es by exact He. assert (s = join 44 (event_tokens e)) as -> by congruence. unfold sent_class. rewrite sent_text.
  rewrite convertStringToEvent_tokens by (assumption || exact zero_event_ok). reflexivity.
Qed.

#[export] Instance sample_nodes : NodeServer node_line (list bool).
Proof.
  refine {| queue := map sample_answer; reaction cls _ _ _ := map sample_answer (sample_react cls); pieces := 2 |}.
  - intros [|b st] N; [destruct (N eq_refl)|discriminate].
  - intros st cmd. change (length (node_server_replies st cmd) <= 2)%nat. unfold node_server_replies, line_reply. repeat case_match; cbn [length]; lia.
  - intros cls type guid data. apply Forall_map, Forall_true. exact sample_answer_ok.
  - intros st cmd. split; [reflexivity|]. exists success_line. exact success_one_line.
  - intros st e s He Hs Es. split; [|exists success_line; exact success_one_line].
    change (map sample_answer (node_server_after st (str "send " ++ s ++ CRLF)) = map sample_answer st ++ map sample_answer (sample_react (vscp_class e))).
    rewrite <- map_app, <- (sent_class_text e s He Hs Es). unfold node_server_after.
    replace (starts_with (str "send ") _) with true by (cbn; destruct (s ++ CRLF); reflexivity). reflexivity.
  - intros st cmd. split; [reflexivity|]. exists (Z.min (Z.of_nat (length st)) 1000). split; [lia|]. split; [destruct st; [intros N; destruct (N eq_refl)|cbn [length]; lia]|].
    apply line_reply_two; [apply dec_chars; lia|].
    assert (L := length_dec (Z.min (Z.of_nat (length st)) 1000)). lia.
  - intros [|b st] e r s Q Es cmd; [discriminate Q|]. injection Q as <- <-. split; [reflexivity|].
    rewrite convertEventToString_eq in Es by apply sample_answer_ok. assert (s = text_of (sample_answer b)) as -> by (unfold text_of; congruence).
    apply line_reply_two; [apply event_text_chars, sample_answer_ok|].
    destruct b; vm_compute; discriminate.
Defined.



